(* ===== verification/_CoqProject ===== *)
-Q . S2P
Prelude.v
Text.v
External.v
Packet.v
PacketFacts.v
Capacity.v
CapacityFacts.v
Contract.v
Availability.v
Evidence.v
Graph.v
GraphFacts.v
Scheduler.v
SchedulerFacts.v
Prelaunch.v
Bootstrap.v
Journal.v
Requirements.v
History.v
Store.v
Provider.v
StoreFacts.v
Isolation.v
Lifecycle.v
Claims.v
ProviderFacts.v
Attempts.v
Workers.v
RunProperties.v
Diagnostic.v
DiagnosticV2.v
Currentness.v
Posture.v
DiagnosticFacts.v
PostureFacts.v
ScheduleFacts.v
Signing.v
NqDisposition.v
NqDispositionFacts.v
PredicateAttention.v
PredicateFacts.v
Continuity.v
SubstrateOrigin.v
NqAdmission.v
ExternalObservation.v
ExternalComposition.v
SteadyState.v
Authoring.v
Equality.v
CanonicalRecords.v
CanonicalTables.v
CanonicalStore.v
CanonicalFacts.v
CanonicalInvariant.v
CanonicalSteps.v
CanonicalProperties.v
AgPort.v
DecisionBasis.v
CanonicalRuntime.v
RuntimeFacts.v
RuntimeProperties.v
Switchyard.v
Echo.v
Replay.v
Protocol.v
ReplayProperties.v
Codec.v
ConcreteRecords.v
ConcreteProvider.v
ConcreteDocuments.v
StoreWitnesses.v
Witnesses.v
ProviderWitnesses.v
PostureWitnesses.v
NqWitnesses.v
PredicateWitnesses.v
CanonicalSamples.v
CanonicalWitnesses.v
RuntimeWitnesses.v
ReplayWitnesses.v
