(* ===== verification/Prelude.v ===== *)
(** * Nightshift: verification development (root file)

    Nightshift is a Rust workspace (src/crates).  [nightshift-foreman] executes an
    immutable packet of work items with local worker adapters under an admission and
    a profile, and keeps everything it was told and did in an append-only SQLite
    journal; [nightshiftd] defines the packets and judges diagnostic evidence;
    [nightshift-provider-capacity] decides how much provider capacity new work may
    use; [nightshift-casework] displays.  This library models the foreman, the
    packets, the capacity decisions, the diagnostic posture, the evidence admitted with
    it and the canonical store of observation cycles, from the JSON records up to the
    sequences of operations on the two stores.

    ** The parts and how they interact

    A packet (nightshiftd/src/packet.rs) is sealed by its digest and lists work items
    with dependencies.  An operator admits it with an admission and a profile
    (nightshift-foreman/src/contract.rs), perhaps with a capacity requirement or an
    execution-availability requirement (execution_availability.rs).  [ForemanStore]
    (store.rs) writes the run's row, its items and an [InternalEvent] per step; every
    operation first reads the run back: it checks each retained row (the history) and
    folds the rows into a projection (scheduler.rs), which says which items are ready,
    which attempt is active and who holds the resource locks.  Preparing an attempt
    takes the item's locks and seals a start request with a worker brief; adapters
    report with events and end with a terminal or not-started receipt, which frees the
    locks.  With an availability requirement an attempt opens provider dispatches; a
    refused dispatch may be parked (its locks and worker slot given back or kept) and
    woken later by the deferral's rules.  When every item is explicitly terminal the
    run is closed by one final document.

    Apart from the foreman, nightshiftd receives executions of diagnostics (two
    versions of one contract), accepts them against the inventory of a policy, asks
    what is still current under declared ages, clocks, support and recurrence
    schedules, and seals one [OperationalPosture] whose headline is Clean,
    ConditionPresent or Incomplete (diagnostic_posture.rs, diagnostic_execution_v2.rs);
    currentness.rs asks the operator's resolver whether an admitted binding still
    holds.

    What was observed becomes an observation cycle of the canonical store
    (canonical_store.rs).  A recurrence slot that is due is claimed once and its cycle
    records, each in one transaction, the observation with its admissions (nq_admission.rs
    with continuity_authority.rs and substrate_origin.rs) and composed evidence
    (external_observation.rs, external_evidence_composition.rs,
    steady_state_evidence.rs), the typed intent and the AG request it supports with their
    authoring lineage (authoring_context.rs, authoring_custody.rs), and what AG answers.
    Every transition appends an event whose snapshot is chained by digest to the one
    before; a restart erases observations that were still live.  The runtime
    (canonical_runtime.rs) drives that store: one call of it asks the ports of NQ, the
    substrate, the support resolver and the present evidence, records what they say, and
    asks AG (ag_port.rs) to open an occurrence for the one request the record supports.

    What the foreman knows of a provider dispatch comes from Switchyard: a disposition
    retains the mapper's snapshot of the wire, and execution_availability.rs replays the
    records of that snapshot, each against its raw frame, before it believes the
    disposition (bounded_turn_echo.rs replays the large frames).

    ** The files

    - [Prelude]: results ([Result<A, E>] and the [?] operator as [let? .. in] and
      [;?]), [HashMap]/[BTreeMap] as [gmap] with its entries in key order, checked
      64-bit arithmetic, tactics ([res_simpl], [inv_ok]) and generic lemmas.  [Text]:
      the string checks.  [External]: the crates outside the repository as classes:
      [Host] (sha2, hex, chrono, serde_jcs on a [Value]), [Serde T] (the derived
      serializer of a record) and the documented facts [HostOk], [SerdeOk], [SealedOk].
    - [Packet], [PacketFacts]: packet.rs, its structural validation, digest, sealing,
      currentness and the recursive dependency walk ([visit], with the fuel
      [walk_fuel] shown to suffice where it is defined).
    - [Capacity], [CapacityFacts]: nightshift-provider-capacity/src/model.rs.
    - [Contract]: contract.rs.  [Availability], [Evidence], [Graph], [GraphFacts]:
      execution_availability.rs and provider_snapshot_translation.rs: records, sealing,
      validation, the execution-availability graph, the derived deferral.
    - [Scheduler], [SchedulerFacts]: scheduler.rs.  [Prelaunch]: prelaunch.rs.
      [Bootstrap]: bootstrap.rs.
    - [Journal], [Requirements], [History], [Store], [Provider]: store.rs.
      [Store] is the record of the tables; an operation is a function from its
      arguments, the UUIDs it draws and the tables to a result and the tables after
      it: one SQLite transaction, which leaves no trace when it fails.
    - [StoreFacts]: the frame of every operation, the relation [step] that collects
      the operations, and [reachable].  [Isolation], [Lifecycle], [Claims],
      [ProviderFacts], [Attempts], [Workers], [RunProperties]: invariants
      and properties of reachable stores.
    - Class [Chrono] of [External]: chrono's checked durations, parser and formatter;
      [ChronoOk] their documented laws.
      [Diagnostic], [DiagnosticV2]: the two versions of a diagnostic execution: records,
      sealing and validation.  [Currentness]: currentness.rs.  [Posture]: policies,
      delivered inputs, qualified support, recurrence evidence, [evaluate_posture] and
      the projection of diagnostic_posture.rs; class [PostureDocuments] collects the
      derived serializers it uses.
    - [DiagnosticFacts], [PostureFacts], [ScheduleFacts]: their properties.
    - [Signing], [Continuity], [SubstrateOrigin], [NqAdmission], [ExternalObservation],
      [ExternalComposition], [SteadyState], [Authoring]: the evidence modules of the same
      names under nightshiftd/src; class [Ed25519] is the signature crate, [Uuids] the
      UUID parser, and one class per module collects its serializers.
    - [NqDisposition], [NqDispositionFacts]: nq_disposition.rs, the read-only dispositions
      and their composition with the live answer of the present-evidence authority.
    - [PredicateAttention], [PredicateFacts]: project_predicate_attention.rs, the policy, the
      store of evidence occurrences, the evaluation and its replay; class
      [PredicateDocuments] collects its serializers.
    - [Equality]: decidable equality of the records a cycle holds.  [CanonicalRecords],
      [CanonicalTables], [CanonicalStore]: canonical_store.rs; [Tables] is the record of
      its tables and an operation again a function to a result and the tables after it.
      A restart also returns the tables when it fails, since its transitions commit one
      by one.
    - [CanonicalFacts], [CanonicalInvariant], [CanonicalSteps]: how a change advances a
      cycle, the invariant [wf], the relation [canonical_step] and its preservation.
      [CanonicalProperties]: what follows.
    - [AgPort]: ag_port.rs, the open request, AG's snapshots and refusals, the adapter
      over the command of ag-loopctl (class [AgLoopCtl]).  [DecisionBasis]:
      decision_basis.rs.  [CanonicalRuntime]: canonical_runtime.rs as a state monad over
      the canonical tables and the state of AG, with the ports as arguments.
      [RuntimeFacts], [RuntimeProperties]: what a run does to both.
    - [Switchyard]: the first reading of a snapshot and the interpreter of the vendored
      schemas; [Echo]: bounded_turn_echo.rs; [Replay]: the ordered replay and
      [switchyard_evidence], the implementation of the interface
      [Evidence.ProviderEvidence] that the store is written against.  [Protocol]: the
      abstract dispatch protocol and the simulation; [ReplayProperties]: what an
      accepted snapshot establishes.
    - [Codec], [ConcreteRecords], [ConcreteProvider], [ConcreteDocuments]: instances of
      the external classes that evaluate.  [CanonicalSamples]: sample cycles.
      [StoreWitnesses], [Witnesses], [ProviderWitnesses], [PostureWitnesses],
      [CanonicalWitnesses], [RuntimeWitnesses], [ReplayWitnesses], [NqWitnesses],
      [PredicateWitnesses]: each theorem with
      hypotheses applied where they hold, most of them on samples of their own.

    ** What the theorems show

    - Packets: the dependency walk ends; the check accepts exactly the acyclic graphs and
      reports a cycle exactly when there is one; structural validation is a declarative
      well-formedness; sealing is idempotent; a packet is accepted at an instant
      exactly when it is well formed, sealed, acyclic and current.
    - Capacity: when expensive work is allowed, and which decisions validate.
    - Scheduler: a replay lists exactly the packet's items, and its readiness, dependency
      terminality and lock holders are characterised by the journal; an accepted receipt
      is final.
    - Store, over every sequence of operations: the claims table refines the replayed
      claims; rows are only added and runs do not interfere; a closed run is frozen;
      one attempt per item; keys and sequences stay well formed; a run never
      deadlocks; finished items never change; the worker limit is never exceeded.
    - Single operations: what preparing, closing, receipts, adapter events, bounded
      appends, dispositions and wakes require, write and free.
    - Deferrals: an accepted graph bounds the number and the total of deferrals, and
      accepts exactly the deferral that the translation derives.
    - Diagnostics: a validated execution accounts for each of its inputs exactly once
      and its outcome claims nothing its inputs do not support; a Clean headline means
      that every declared entry was delivered, bound as declared, current under its age
      and clock, free of findings and recurring on schedule; a required condition is
      never hidden; the occurrence a schedule expects is the last one due; a projection
      drops no entry.
    - Canonical store, over every sequence of operations: each cycle replays from its
      chained events to the row that is read; cycles only advance and final ones stay; a
      slot and an AG occurrence have one cycle; an AG request rests on a posture that was
      current and on evidence that reproduces from custody; a restart leaves no
      observation live; an accepted history of substrate origins is one chain.
    - The runtime: what a run reports is what the store then holds; over every history
      of runs, synchronisations and store operations AG is asked to open an occurrence
      at most once, and only for a request that was durably prepared.
    - Read-only dispositions: NQ's word lets observation continue only together with the
      authority's current, evidenced answer about the very receipt; the one exception is
      the historical decision, which the code does not ask about.
    - Predicate attention: the store refines an append-only log of distinct occurrences and
      its lineage row commits to it; an evaluation does not depend on the order of the
      history, replays from its bundle, and calls for attention exactly when enough
      occurrences count.
    - Provider snapshots: an accepted snapshot is a run of the dispatch protocol - one
      request at a time, answered once, no refusal after an admission - that ends in the
      phase its disposition states; a disposition of a model at capacity rests on a
      complete record of one request and its refusal.

    ** Bounds and fuel

    Integers that the source computes with keep their width: [checked_add] and
    [checked_mul] on [u64] fail past 2^64-1, sequence numbers past [i64::MAX].
    [walk_fuel] is the number of items plus one; [visit_all_total] shows that the walk
    never runs out of it, so [validate_dag] has no such case.  [validate_schema_node] counts down
    the depth the source counts up to 64.  All other recursion is structural.

    ** Not modelled

    The external crates are parameters, as are serde_json's parser of a raw frame
    ([Switchyard.JsonParser]), the bytes of the vendored schema files
    ([Switchyard.VendoredSchemas]) and the command of ag-loopctl.  SQLite connections,
    file locks, command lines, the self-hosted driver loop, the read-only exports of the
    journal, the capacity probe, the English rendering of a posture, the ports that run
    commands or read key files, operational lineage and saved checks of
    [nightshiftd] and the casework viewer are not modelled. *)
From stdpp Require Export gmap strings list fin_maps fin_sets sorting option sets.
From Stdlib Require Export ZArith Lia.
From Stdlib Require Ascii String.

Abbreviation ascii := Ascii.ascii (only parsing).
Export Ascii.AsciiSyntax.
Delimit Scope char_scope with char.

(** ** Results: [Result<A, E>] of the source *)

Inductive result (E A : Type) : Type :=
| Ok (a : A)
| Err (e : E).
Arguments Ok {E A} a.
Arguments Err {E A} e.

Definition rbind {E A B} (m : result E A) (k : A -> result E B) : result E B :=
  match m with Ok a => k a | Err e => Err e end.

(** [map_err]: the error conversions written [.map_err(..)] or done by [?]. *)
Definition map_err {E E' A} (f : E -> E') (m : result E A) : result E' A :=
  match m with Ok a => Ok a | Err e => Err (f e) end.

(** [ok_or]: [Option::ok_or]. *)
Definition ok_or {E A} (o : option A) (e : E) : result E A :=
  match o with Some a => Ok a | None => Err e end.

(** [Option::is_some], [Option::is_none] and [Vec::is_empty]. *)
Definition is_some {A} (o : option A) : bool := match o with Some _ => true | None => false end.
Definition is_none {A} (o : option A) : bool := match o with Some _ => false | None => true end.
Definition is_empty {A} (l : list A) : bool := match l with [] => true | _ => false end.

Lemma is_some_true {A} (o : option A) : is_some o = true <-> is_Some o.
Proof. destruct o; simpl; split; [by eauto|done|done|by intros []]. Qed.
Lemma is_none_true {A} (o : option A) : is_none o = true <-> o = None.
Proof. by destruct o. Qed.
Lemma is_some_false {A} (o : option A) : is_some o = false <-> o = None.
Proof. by destruct o. Qed.
Lemma is_none_false {A} (o : option A) : is_none o = false <-> is_Some o.
Proof. destruct o; simpl; split; [by eauto|done|done|by intros []]. Qed.

Lemma omap_of_map {A B C} (f : B -> option C) (g : A -> B) (l : list A) :
  omap f (g <$> l) = omap (fun a => f (g a)) l.
Proof. induction l as [|a l IH]; csimpl; [done|]. by rewrite IH. Qed.

(** [reject b e]: the early return [if b { return Err(e); }]. *)
Definition reject {E} (b : bool) (e : E) : result E unit :=
  if b then Err e else Ok tt.

(** [for_each f l]: the loop [for x in l { f(x)?; }]. *)
Definition for_each {E A} (f : A -> result E unit) : list A -> result E unit :=
  fix go (l : list A) : result E unit :=
    match l with
    | [] => Ok tt
    | x :: l => rbind (f x) (fun _ => go l)
    end.

(** [fold_try f l s]: a loop that threads a state and may return early. *)
Definition fold_try {E S A} (f : A -> S -> result E S) : list A -> S -> result E S :=
  fix go (l : list A) (s : S) : result E S :=
    match l with
    | [] => Ok s
    | x :: l => rbind (f x s) (fun s' => go l s')
    end.

(** [map_try f l]: [iter().map(f).collect::<Result<Vec<_>, _>>()]. *)
Definition map_try {E A B} (f : A -> result E B) : list A -> result E (list B) :=
  fix go (l : list A) : result E (list B) :=
    match l with
    | [] => Ok []
    | x :: l => rbind (f x) (fun y => rbind (go l) (fun ys => Ok (y :: ys)))
    end.

Declare Scope result_scope.
Delimit Scope result_scope with result.
Notation "'let?' x ':=' m 'in' k" := (rbind m (fun x => k))
  (at level 10, x binder, m at level 100, k at level 200,
   format "'let?'  x  ':='  m  'in' '//' k") : result_scope.
Notation "m ';?' k" := (rbind m (fun _ => k))
  (at level 100, right associativity, format "m  ';?' '//' k") : result_scope.
Open Scope result_scope.

Definition is_ok {E A} (m : result E A) : bool :=
  match m with Ok _ => true | Err _ => false end.

(** ** Characterisations of success, used as rewrite rules *)

Section result_lemmas.
Context {E : Type}.

Lemma rbind_ok {A B} (m : result E A) (k : A -> result E B) b :
  rbind m k = Ok b <-> exists a, m = Ok a /\ k a = Ok b.
Proof. destruct m; simpl; naive_solver. Qed.

Lemma rseq_ok {B} (m : result E unit) (k : result E B) b :
  rbind m (fun _ => k) = Ok b <-> m = Ok tt /\ k = Ok b.
Proof. destruct m as [[]|]; simpl; naive_solver. Qed.

Lemma reject_ok (b : bool) (e : E) : reject b e = Ok tt <-> b = false.
Proof. destruct b; simpl; naive_solver. Qed.

Lemma if_err_ok (b : bool) (e : E) : (if b then Err e else Ok tt) = Ok tt <-> b = false.
Proof. exact (reject_ok b e). Qed.

Lemma ok_or_ok {A} (o : option A) (e : E) a : ok_or o e = Ok a <-> o = Some a.
Proof. destruct o; simpl; naive_solver. Qed.

Lemma map_err_ok {E' A} (f : E' -> E) (m : result E' A) a :
  map_err f m = Ok a <-> m = Ok a.
Proof. destruct m; simpl; naive_solver. Qed.

Lemma Ok_inj {A} (a b : A) : @Ok E A a = Ok b <-> a = b.
Proof. naive_solver. Qed.

Lemma Err_not_ok {A} (e : E) (a : A) : @Err E A e = Ok a <-> False.
Proof. naive_solver. Qed.

Lemma for_each_ok {A} (f : A -> result E unit) l :
  for_each f l = Ok tt <-> Forall (fun x => f x = Ok tt) l.
Proof.
  induction l as [|x l IH]; simpl; [by split; constructor|].
  by rewrite rseq_ok, IH, Forall_cons.
Qed.

Lemma fold_try_app {S A} (f : A -> S -> result E S) l1 l2 s :
  fold_try f (l1 ++ l2) s = rbind (fold_try f l1 s) (fun s' => fold_try f l2 s').
Proof.
  revert s. induction l1 as [|x l1 IH]; intros s; simpl; [done|].
  destruct (f x s); simpl; auto.
Qed.

Lemma map_try_ok {A B} (f : A -> result E B) l ys :
  map_try f l = Ok ys <-> Forall2 (fun x y => f x = Ok y) l ys.
Proof.
  revert ys. induction l as [|x l IH]; intros ys; simpl.
  { rewrite Ok_inj. split; [intros <-; constructor|by inversion 1]. }
  rewrite rbind_ok. setoid_rewrite rbind_ok. setoid_rewrite Ok_inj. split.
  - intros (y & Hy & ys' & Hl & <-). constructor; [done|by apply IH].
  - inversion 1; subst. eexists; split; [done|]. eexists; split; [by apply IH|done].
Qed.

Lemma is_ok_spec {A} (m : result E A) : is_ok m = true <-> exists a, m = Ok a.
Proof. destruct m; simpl; naive_solver. Qed.
End result_lemmas.

Create Rewrite HintDb result.
Create Rewrite HintDb tests.
#[export] Hint Rewrite @rseq_ok @reject_ok @if_err_ok @ok_or_ok @map_err_ok @Ok_inj @Err_not_ok
  @for_each_ok : result.
#[export] Hint Rewrite orb_false_iff negb_false_iff negb_true_iff andb_true_iff
  orb_true_iff N.leb_le N.ltb_lt N.leb_gt N.ltb_ge N.eqb_eq N.eqb_neq
  Z.leb_le Z.ltb_lt Z.leb_gt Z.ltb_ge Z.eqb_eq Z.eqb_neq Nat.leb_le Nat.ltb_lt
  Nat.leb_gt Nat.ltb_ge Nat.eqb_eq Nat.eqb_neq String.eqb_eq String.eqb_neq : tests.

(** [res_simpl]: success equations become conjunctions of their conditions. *)
Ltac res_simpl := autorewrite with result in *.
Ltac test_simpl := autorewrite with tests in *.

(** [inv_ok H]: from [H : .. = Ok _], one equation per step of the computation. *)
Ltac inv_ok H :=
  lazymatch type of H with
  | @rbind _ unit _ _ (fun _ => _) = Ok _ =>
      let H1 := fresh "Hok" in
      first
        [ apply rseq_ok in H; destruct H as [H1 H]; inv_ok H
        | let x := fresh "x" in
          apply rbind_ok in H; destruct H as (x & H1 & H); inv_ok H ]
  | rbind _ _ = Ok _ =>
      let x := fresh "x" in
      let H1 := fresh "Hok" in
      apply rbind_ok in H; destruct H as (x & H1 & H); inv_ok H
  | (match ?x with pair _ _ => _ end) = Ok _ =>
      let x1 := fresh "x" in let x2 := fresh "x" in
      destruct x as [x1 x2]; inv_ok H
  | @Ok ?E ?A ?a = Ok ?b => apply (proj1 (@Ok_inj E A a b)) in H
  | Err _ = Ok _ => discriminate H
  | _ => idtac
  end.

(** ** Lists *)

Section list_lemmas.
Context {A : Type}.

(** [Iterator::find]. *)
Fixpoint find_first (p : A -> bool) (l : list A) : option A :=
  match l with
  | [] => None
  | x :: l => if p x then Some x else find_first p l
  end.

Lemma find_first_Some p l x :
  find_first p l = Some x -> x ∈ l /\ p x = true.
Proof.
  induction l as [|y l IH]; simpl; [done|].
  destruct (p y) eqn:E; [intros [= <-]; split; [left|]; done|].
  intros H. apply IH in H as [H1 H2]. split; [by right|done].
Qed.

Lemma find_first_None p l :
  find_first p l = None <-> Forall (fun x => p x = false) l.
Proof.
  induction l as [|y l IH]; simpl; [by split; constructor|].
  rewrite Forall_cons, <- IH. destruct (p y); naive_solver.
Qed.

(** The first hit is the element with a given key when keys are distinct. *)
Lemma find_first_unique {K} `{EqDecision K} (key : A -> K) l x :
  NoDup (key <$> l) -> x ∈ l ->
  find_first (fun y => bool_decide (key y = key x)) l = Some x.
Proof.
  induction l as [|y l IH]; simpl; intros Hnd Hx; [by apply elem_of_nil in Hx|].
  apply NoDup_cons in Hnd as [Hy Hnd]. apply elem_of_cons in Hx as [->|Hx].
  - by rewrite bool_decide_eq_true_2.
  - rewrite bool_decide_eq_false_2; [auto|].
    intros Heq. apply Hy. rewrite Heq. by apply list_elem_of_fmap_2.
Qed.

Lemma existsb_false_Forall (p : A -> bool) l :
  existsb p l = false <-> Forall (fun x => p x = false) l.
Proof.
  induction l as [|x l IH]; simpl; [by split; constructor|].
  by rewrite orb_false_iff, Forall_cons, IH.
Qed.

Lemma existsb_true_Exists (p : A -> bool) l :
  existsb p l = true <-> exists x, x ∈ l /\ p x = true.
Proof.
  rewrite existsb_exists. by setoid_rewrite list_elem_of_In.
Qed.

Lemma forallb_Forall (p : A -> bool) l :
  forallb p l = true <-> Forall (fun x => p x = true) l.
Proof.
  induction l as [|x l IH]; simpl; [by split; constructor|].
  by rewrite andb_true_iff, Forall_cons, IH.
Qed.
End list_lemmas.

#[export] Hint Rewrite @existsb_false_Forall @forallb_Forall : tests.

(** ** Ordered maps: [BTreeMap<String, V>] as a [gmap] read in key order *)

Section btree.
Context {V : Type}.

Definition key_le (p q : string * V) : Prop := String.le p.1 q.1.

#[global] Instance key_le_dec : RelDecision key_le.
Proof. intros p q. unfold key_le. apply _. Defined.

(** [btree_iter m]: the iteration order of the source, ascending keys. *)
Definition btree_iter (m : gmap string V) : list (string * V) :=
  merge_sort key_le (map_to_list m).

Definition btree_keys (m : gmap string V) : list string := (btree_iter m).*1.
Definition btree_values (m : gmap string V) : list V := (btree_iter m).*2.

Lemma btree_iter_perm m : btree_iter m ≡ₚ map_to_list m.
Proof. apply merge_sort_Permutation. Qed.

Lemma elem_of_btree_iter m k v : (k, v) ∈ btree_iter m <-> m !! k = Some v.
Proof. by rewrite btree_iter_perm, elem_of_map_to_list. Qed.

Lemma elem_of_btree_values m v : v ∈ btree_values m <-> exists k, m !! k = Some v.
Proof.
  unfold btree_values. rewrite list_elem_of_fmap. split.
  - intros ([k w] & -> & H). exists k. by apply elem_of_btree_iter.
  - intros [k H]. exists (k, v). by rewrite elem_of_btree_iter.
Qed.

Lemma elem_of_btree_keys m k : k ∈ btree_keys m <-> is_Some (m !! k).
Proof.
  unfold btree_keys. rewrite list_elem_of_fmap. split.
  - intros ([k' w] & -> & H). exists w. by apply elem_of_btree_iter.
  - intros [w H]. exists (k, w). by rewrite elem_of_btree_iter.
Qed.

Lemma btree_keys_NoDup m : NoDup (btree_keys m).
Proof.
  unfold btree_keys. rewrite btree_iter_perm. apply NoDup_fst_map_to_list.
Qed.

Lemma Forall_btree_iter (P : string * V -> Prop) m :
  Forall P (btree_iter m) <-> forall k v, m !! k = Some v -> P (k, v).
Proof.
  rewrite Forall_forall. split.
  - intros H k v Hk. by apply H, elem_of_btree_iter.
  - intros H [k v] Hk. by apply H, elem_of_btree_iter.
Qed.
End btree.

(** ** Duplicates: the idiom [set.insert(x)] returning [false] *)

Section nodup.
Context {A : Type} `{Countable A}.

Fixpoint has_dup (seen : gset A) (l : list A) : bool :=
  match l with
  | [] => false
  | x :: l => if bool_decide (x ∈ seen) then true else has_dup ({[x]} ∪ seen) l
  end.

Lemma has_dup_false seen l :
  has_dup seen l = false <-> NoDup l /\ Forall (fun x => x ∉ seen) l.
Proof.
  revert seen. induction l as [|x l IH]; intros seen; simpl.
  { split; [split; constructor|done]. }
  rewrite NoDup_cons, Forall_cons. case_bool_decide as Hx; [naive_solver|].
  rewrite IH. rewrite !Forall_forall. split.
  - intros (Hnd & Hl). repeat split; [|done|done|set_solver].
    intros Hin. specialize (Hl _ Hin). set_solver.
  - intros ((Hxl & Hnd) & _ & Hl). split; [done|]. intros y Hy. set_solver.
Qed.

(** One turn of a loop that inserts each key and refuses a repeated one. *)
Lemma fresh_key_cons {B} (f : B -> A) x (l : list B) (seen : gset A) :
  NoDup (f <$> x :: l) /\ Forall (fun y => f y ∉ seen) (x :: l) <->
  f x ∉ seen /\ NoDup (f <$> l) /\ Forall (fun y => f y ∉ {[f x]} ∪ seen) l.
Proof.
  rewrite fmap_cons, NoDup_cons, Forall_cons, !Forall_forall, list_elem_of_fmap. split.
  - intros [[Hx Hl] [Hs Hall]]. split; [done|]. split; [done|]. intros y Hy.
    specialize (Hall y Hy). rewrite elem_of_union, elem_of_singleton.
    intros [Heq|Hin]; [|done]. apply Hx. by exists y.
  - intros (Hs & Hl & Hall). split; [split; [|done]|split; [done|]].
    + intros (y & Heq & Hy). apply (Hall y Hy). set_solver.
    + intros y Hy. specialize (Hall y Hy). set_solver.
Qed.

Lemma has_dup_empty l : has_dup ∅ l = false <-> NoDup l.
Proof.
  rewrite has_dup_false. split; [naive_solver|]. intros Hl. split; [done|].
  apply Forall_true. set_solver.
Qed.
End nodup.

#[export] Hint Rewrite @has_dup_empty : tests.

(** ** Relations *)

Lemma tc_iff {A} (R S : relation A) :
  (forall a b, R a b <-> S a b) -> forall x y, tc R x y <-> tc S x y.
Proof.
  intros HRS x y. split; induction 1 as [? ? H|? ? ? H _ IH];
    try (by constructor; apply HRS); eapply tc_l; eauto; by apply HRS.
Qed.

(** ** Machine integers *)

Definition U64_MAX : N := 18446744073709551615.

(** [u64::checked_add] and, on the 64-bit target, [usize::checked_add]. *)
Definition checked_add (a b : N) : option N :=
  if (a + b <=? U64_MAX)%N then Some (a + b)%N else None.

Lemma checked_add_Some a b c :
  checked_add a b = Some c <-> c = (a + b)%N /\ (a + b <= U64_MAX)%N.
Proof.
  unfold checked_add. destruct (N.leb_spec (a + b) U64_MAX); naive_solver lia.
Qed.
