(* ===== verification/Text.v ===== *)
(** * Text checks

    Rust strings are byte strings ([String.string], one [ascii] per UTF-8 byte);
    [str::len] is the byte length.  This file holds the standard-library string
    operations the contracts use and the lemmas that say what each accepts. *)
From S2P Require Import Prelude.
Local Open Scope string_scope.

Definition byte_N (a : ascii) : N := Ascii.N_of_ascii a.
Definition in_range (lo hi : N) (a : ascii) : bool :=
  (lo <=? byte_N a)%N && (byte_N a <=? hi)%N.

(** [u8::is_ascii_*]. *)
Definition is_ascii_digit (a : ascii) : bool := in_range 48 57 a.
Definition is_ascii_uppercase (a : ascii) : bool := in_range 65 90 a.
Definition is_ascii_lowercase (a : ascii) : bool := in_range 97 122 a.
Definition is_ascii_alphanumeric (a : ascii) : bool :=
  is_ascii_digit a || is_ascii_uppercase a || is_ascii_lowercase a.
Definition is_ascii_hexdigit (a : ascii) : bool :=
  is_ascii_digit a || in_range 65 70 a || in_range 97 102 a.

(** [matches!(byte, b'x' | b'y' | ..)], and [b"..".contains(&byte)]. *)
Definition one_of (l : list ascii) (a : ascii) : bool :=
  existsb (fun b => Ascii.eqb a b) l.

(** [str::bytes().all(p)]. *)
Fixpoint bytes_all (p : ascii -> bool) (s : string) : bool :=
  match s with
  | "" => true
  | String a s => p a && bytes_all p s
  end.

(** [str::len], in bytes. *)
Definition strlen (s : string) : N := N.of_nat (String.length s).
Definition str_is_empty (s : string) : bool :=
  match s with "" => true | _ => false end.

(** [value[n..]] of an in-range index. *)
Fixpoint str_drop (n : nat) (s : string) : string :=
  match n, s with
  | O, _ => s
  | S n, String _ s => str_drop n s
  | S _, "" => ""
  end.

Definition starts_with (s pre : string) : bool := String.prefix pre s.
Definition strip_prefix (s pre : string) : option string :=
  if starts_with s pre then Some (str_drop (String.length pre) s) else None.

(** [str::contains] of a substring. *)
Definition str_contains (s sub : string) : bool :=
  match String.index 0 sub s with Some _ => true | None => false end.

(** The code points with the Unicode property White_Space, by UTF-8 length. *)
Definition ws1 (a : ascii) : bool :=
  in_range 9 13 a || (byte_N a =? 32)%N.
Definition ws2 (a b : ascii) : bool :=
  (byte_N a =? 194)%N && ((byte_N b =? 133)%N || (byte_N b =? 160)%N).
Definition ws3 (a b c : ascii) : bool :=
  ((byte_N a =? 225)%N && (byte_N b =? 154)%N && (byte_N c =? 128)%N)
  || ((byte_N a =? 226)%N && (byte_N b =? 128)%N
      && (in_range 128 138 c || in_range 168 169 c || (byte_N c =? 175)%N))
  || ((byte_N a =? 226)%N && (byte_N b =? 129)%N && (byte_N c =? 159)%N)
  || ((byte_N a =? 227)%N && (byte_N b =? 128)%N && (byte_N c =? 128)%N).

(** [str::trim().is_empty()]: every code point is white space. *)
Fixpoint trim_is_empty (s : string) : bool :=
  match s with
  | "" => true
  | String a s1 =>
      if ws1 a then trim_is_empty s1 else
      match s1 with
      | "" => false
      | String b s2 =>
          if ws2 a b then trim_is_empty s2 else
          match s2 with
          | "" => false
          | String c s3 => if ws3 a b c then trim_is_empty s3 else false
          end
      end
  end.

(** [str::chars().any(char::is_whitespace)]: the lead bytes of [ws2] and [ws3] only
    start a code point. *)
Fixpoint has_whitespace (s : string) : bool :=
  match s with
  | "" => false
  | String a s1 =>
      ws1 a
      || match s1 with
         | String b s2 => ws2 a b || match s2 with String c _ => ws3 a b c | "" => false end
         | "" => false
         end
      || has_whitespace s1
  end.

(** [str::chars().count()]: the bytes that do not continue a code point. *)
Fixpoint char_count (s : string) : N :=
  match s with
  | "" => 0%N
  | String a s => ((if in_range 128 191 a then 0 else 1) + char_count s)%N
  end.

(** [chars().any(char::is_control)]: U+0000-U+001F, U+007F and U+0080-U+009F. *)
Fixpoint has_control (s : string) : bool :=
  match s with
  | "" => false
  | String a s =>
      in_range 0 31 a || (byte_N a =? 127)%N
      || match s with
         | String b _ => (byte_N a =? 194)%N && in_range 128 159 b
         | "" => false
         end
      || has_control s
  end.

(** [raw.strip_suffix(b"\n").unwrap_or(raw)]. *)
Fixpoint strip_newline (s : string) : string :=
  match s with
  | "" => ""
  | String a "" => if (byte_N a =? 10)%N then "" else s
  | String a s => String a (strip_newline s)
  end.

(** [str::to_uppercase] on ASCII text. *)
Definition ascii_upper (a : ascii) : ascii :=
  if is_ascii_lowercase a then Ascii.ascii_of_N (byte_N a - 32) else a.
Fixpoint to_uppercase (s : string) : string :=
  match s with
  | "" => ""
  | String a s => String (ascii_upper a) (to_uppercase s)
  end.

(** [[String]::join(", ")]. *)
Fixpoint str_join (sep : string) (l : list string) : string :=
  match l with
  | [] => ""
  | [s] => s
  | s :: l => s +:+ sep +:+ str_join sep l
  end.

(** ["0".repeat(n)]. *)
Fixpoint str_repeat (n : nat) (a : ascii) : string :=
  match n with O => "" | S n => String a (str_repeat n a) end.

(** The NUL that ends every digest domain. *)
Definition NUL : string := String Ascii.zero "".

(** ** Lemmas *)

Lemma bytes_all_app p s t : bytes_all p (s +:+ t) = bytes_all p s && bytes_all p t.
Proof.
  induction s as [|a s IH]; [done|].
  change (String a s +:+ t) with (String a (s +:+ t)). simpl.
  by rewrite IH, andb_assoc.
Qed.

Lemma bytes_all_mono (p q : ascii -> bool) s :
  (forall a, p a = true -> q a = true) -> bytes_all p s = true -> bytes_all q s = true.
Proof.
  intros Hpq. induction s as [|a s IH]; simpl; [done|].
  rewrite !andb_true_iff. naive_solver.
Qed.

Lemma str_app_length s t : String.length (s +:+ t) = String.length s + String.length t.
Proof.
  induction s as [|a s IH]; [done|].
  change (String a s +:+ t) with (String a (s +:+ t)). simpl. by rewrite IH.
Qed.

Lemma strlen_app s t : strlen (s +:+ t) = (strlen s + strlen t)%N.
Proof. unfold strlen. rewrite str_app_length. lia. Qed.

Lemma str_drop_app s t : str_drop (String.length s) (s +:+ t) = t.
Proof.
  induction s as [|a s IH]; [done|].
  change (String a s +:+ t) with (String a (s +:+ t)). done.
Qed.

Lemma starts_with_app s t : starts_with (s +:+ t) s = true.
Proof.
  unfold starts_with. induction s as [|a s IH]; [by destruct t|].
  change (String a s +:+ t) with (String a (s +:+ t)). simpl.
  destruct (Ascii.ascii_dec a a); [done|congruence].
Qed.

Lemma starts_with_spec s p :
  starts_with s p = true <-> exists t, s = p +:+ t.
Proof.
  split; [|intros [t ->]; apply starts_with_app].
  unfold starts_with. revert s. induction p as [|a p IH]; intros s.
  { intros _. by exists s. }
  destruct s as [|b s]; simpl; [done|].
  destruct (Ascii.ascii_dec a b) as [->|]; [|done].
  intros H. apply IH in H as [t ->]. by exists t.
Qed.

Lemma strip_prefix_Some s p t : strip_prefix s p = Some t <-> s = p +:+ t.
Proof.
  unfold strip_prefix. destruct (starts_with s p) eqn:E.
  - apply starts_with_spec in E as [u ->]. rewrite str_drop_app.
    split; [naive_solver|]. intros H. f_equal. by apply (inj (String.app p)) in H.
  - split; [done|]. intros ->. by rewrite starts_with_app in E.
Qed.

Lemma str_is_empty_spec s : str_is_empty s = true <-> s = "".
Proof. destruct s; naive_solver. Qed.

Lemma str_is_empty_false s : str_is_empty s = false <-> s <> "".
Proof. destruct s; naive_solver. Qed.

Lemma strlen_str_repeat n a : strlen (str_repeat n a) = N.of_nat n.
Proof. unfold strlen. f_equal. induction n; simpl; congruence. Qed.

Lemma bytes_all_str_repeat p n a : p a = true -> bytes_all p (str_repeat n a) = true.
Proof. intros H. induction n; simpl; [done|]. by rewrite H. Qed.

Lemma trim_is_empty_cons a s :
  ws1 a = false -> in_range 194 255 a = false -> trim_is_empty (String a s) = false.
Proof.
  intros H1 H2. simpl. rewrite H1. destruct s as [|b s]; [done|].
  assert (Hne : forall n, (194 <= n)%N -> (n <= 255)%N -> (byte_N a =? n)%N = false).
  { intros n Hlo Hhi. apply N.eqb_neq. intros Heq. unfold in_range in H2.
    apply andb_false_iff in H2 as [H2|H2]; apply N.leb_gt in H2; lia. }
  unfold ws2, ws3. rewrite !Hne by lia. simpl. by destruct s.
Qed.

#[export] Hint Rewrite str_is_empty_spec str_is_empty_false starts_with_spec : tests.
