(* ===== verification/External.v ===== *)
(** * External crates

    The crates the workspace links against are not part of the repository:
    sha2, serde/serde_json/serde_jcs, chrono, hex and uuid.  The development
    takes them as parameters.  [Host] lists the operations the source calls;
    [HostOk], [SerdeOk] and [SealedOk] are the documented facts the source
    relies on.  JSON documents are [serde_json::Value]s. *)
From S2P Require Import Prelude Text.
From Stdlib Require Import SpecFloat.
Local Open Scope string_scope.

(** ** [serde_json::Value] *)

(** A JSON number as serde_json keeps it. *)
Inductive number : Type :=
| PosInt (n : N)
| NegInt (z : Z)
| Float (f : spec_float).

(** Objects are sorted by key ([serde_json::Map] is a [BTreeMap]). *)
Inductive value : Type :=
| Null
| Bool (b : bool)
| Number (n : number)
| Str (s : string)
| Array (vs : list value)
| Object (kvs : list (string * value)).

(** [Map::remove]. *)
Definition object_remove (field : string) (kvs : list (string * value))
    : list (string * value) :=
  List.filter (fun kv => negb (String.eqb kv.1 field)) kvs.

(** [Map::insert]. *)
Fixpoint map_insert (field : string) (v : value) (kvs : list (string * value))
    : list (string * value) :=
  match kvs with
  | [] => [(field, v)]
  | (k, w) :: kvs' =>
      if String.eqb k field then (k, v) :: kvs'
      else if String.ltb field k then (field, v) :: kvs
      else (k, w) :: map_insert field v kvs'
  end.

(** [Value::get] on an object, and [Value::as_str]. *)
Fixpoint assoc_get (field : string) (kvs : list (string * value)) : option value :=
  match kvs with
  | [] => None
  | (k, v) :: kvs => if String.eqb k field then Some v else assoc_get field kvs
  end.
Definition value_get (v : value) (field : string) : option value :=
  match v with Object kvs => assoc_get field kvs | _ => None end.
Definition as_str (v : value) : option string :=
  match v with Str s => Some s | _ => None end.
Definition as_bool (v : value) : option bool :=
  match v with Bool b => Some b | _ => None end.
Definition as_array (v : value) : option (list value) :=
  match v with Array vs => Some vs | _ => None end.
(** [value["field"]]: [Null] when there is no such entry. *)
Definition value_index (v : value) (field : string) : value :=
  match value_get v field with Some w => w | None => Null end.

(** [value == value]: serde_json compares numbers of one kind, floats as [f64]. *)
Definition number_eqb (m n : number) : bool :=
  match m, n with
  | PosInt a, PosInt b => (a =? b)%N
  | NegInt a, NegInt b => (a =? b)%Z
  | Float a, Float b => SFeqb a b
  | _, _ => false
  end.

Section list_eqb.
Context {A : Type} (eqb : A -> A -> bool).
Fixpoint list_eqb (xs ys : list A) : bool :=
  match xs, ys with
  | [], [] => true
  | x :: xs, y :: ys => eqb x y && list_eqb xs ys
  | _, _ => false
  end.
End list_eqb.

Fixpoint value_eqb (v w : value) : bool :=
  match v, w with
  | Null, Null => true
  | Bool a, Bool b => Bool.eqb a b
  | Number m, Number n => number_eqb m n
  | Str a, Str b => String.eqb a b
  | Array xs, Array ys => list_eqb value_eqb xs ys
  | Object xs, Object ys =>
      list_eqb (fun x y => String.eqb x.1 y.1 && value_eqb x.2 y.2) xs ys
  | _, _ => false
  end.

(** A field that is a given text, and two fields that are equal. *)
Definition str_is (v : value) (field expected : string) : bool :=
  bool_decide (as_str (value_index v field) = Some expected).
Definition same_field (v : value) (field : string) (w : value) (field' : string) : bool :=
  value_eqb (value_index v field) (value_index w field').
(** [serde_json::json!] of an object: entries sorted by key. *)
Definition json_object (entries : list (string * value)) : value :=
  Object (foldr (fun e kvs => map_insert e.1 e.2 kvs) [] entries).

(** ** The operations of the crates *)

(** Instants are nanoseconds since the Unix epoch ([chrono::DateTime<Utc>]). *)
Abbreviation instant := Z (only parsing).

Class Host : Type := {
  (** sha2: the lower-hex text [format!("{:x}", Sha256::digest(bytes))]. *)
  sha256_hex : string -> string;
  (** serde_jcs on a [Value]: RFC 8785 bytes. *)
  jcs_value : value -> result string string;
  (** chrono: [DateTime::<Utc>::to_rfc3339]. *)
  to_rfc3339 : instant -> string;
  (** chrono: [to_rfc3339_opts(SecondsFormat::Secs, true)]. *)
  to_rfc3339_secs : instant -> string;
  (** chrono: [DateTime::parse_from_rfc3339(..).with_timezone(&Utc)]. *)
  parse_from_rfc3339 : string -> option instant;
  (** serde: the JSON text of an instant. *)
  instant_text : instant -> string;
  (** chrono: the [Display] text of an instant. *)
  instant_display : instant -> string;
  (** chrono: [checked_add_signed], the duration in nanoseconds. *)
  checked_add_signed : instant -> Z -> option instant;
  (** chrono: [DateTime::<Utc>::from_timestamp_millis]. *)
  from_timestamp_millis : Z -> option instant;
  (** the hex crate. *)
  hex_encode : string -> string;
  hex_decode : string -> option string
}.

(** serde derives for one type: conversion to and from [Value] and bytes.
    The error is the crate's message ([error.to_string()]). *)
Class Serde (T : Type) : Type := {
  to_value : T -> result string value;
  from_value : value -> result string T;
  to_vec : T -> result string string;
  from_slice : string -> result string T
}.

(** ** What the source relies on *)

Definition lower_hex (a : ascii) : bool := is_ascii_digit a || in_range 97 102 a.

Class HostOk `(Host) : Prop := {
  (** a SHA-256 digest prints as 64 lower-case hex digits *)
  sha256_hex_length : forall s, strlen (sha256_hex s) = 64%N;
  sha256_hex_digits : forall s, bytes_all lower_hex (sha256_hex s) = true;
  (** chrono: an in-range sum is the sum *)
  checked_add_signed_sum : forall t d u, checked_add_signed t d = Some u -> u = (t + d)%Z;
  (** hex: decoding undoes encoding *)
  hex_decode_encode : forall s, hex_decode (hex_encode s) = Some s;
  hex_encode_length : forall s, strlen (hex_encode s) = (2 * strlen s)%N
}.

(** Canonical bytes of a record parse back to the record. *)
Class SerdeOk (T : Type) `{Serde T} : Prop :=
  from_slice_to_vec : forall (t : T) b, to_vec t = Ok b -> from_slice b = Ok t.

(** A sealed record stores its own digest in one field.  A derived serializer
    writes each field from that field alone, so the document without the digest
    field does not depend on the stored digest. *)
Class SealedOk (T : Type) `{Serde T} (field : string) (set_digest : string -> T -> T)
    : Prop :=
  to_value_set_digest : forall d t,
    (exists e, to_value t = Err e /\ to_value (set_digest d t) = Err e) \/
    (exists kvs kvs', to_value t = Ok (Object kvs) /\
       to_value (set_digest d t) = Ok (Object kvs') /\
       object_remove field kvs' = object_remove field kvs).

(** ** Nested induction on documents *)

Section value_ind.
Context (P : value -> Prop).
Context (Hnull : P Null) (Hbool : forall b, P (Bool b)) (Hnum : forall n, P (Number n))
(Hstr : forall s, P (Str s)) (Harr : forall vs, Forall P vs -> P (Array vs))
(Hobj : forall kvs, Forall (fun kv => P kv.2) kvs -> P (Object kvs)).

Fixpoint value_nested_ind (v : value) : P v :=
  match v with
  | Null => Hnull
  | Bool b => Hbool b
  | Number n => Hnum n
  | Str s => Hstr s
  | Array vs =>
      Harr vs ((fix go (l : list value) : Forall P l :=
        match l with
        | [] => Forall_nil_2 _
        | x :: l => Forall_cons_2 _ _ _ (value_nested_ind x) (go l)
        end) vs)
  | Object kvs =>
      Hobj kvs ((fix go (l : list (string * value)) : Forall (fun kv => P kv.2) l :=
        match l with
        | [] => Forall_nil_2 _
        | x :: l => Forall_cons_2 _ _ _ (value_nested_ind x.2) (go l)
        end) kvs)
  end.
End value_ind.

#[global] Instance spec_float_eq_dec : EqDecision spec_float.
Proof. solve_decision. Defined.
#[global] Instance number_eq_dec : EqDecision number.
Proof. solve_decision. Defined.

#[global] Instance value_eq_dec : EqDecision value.
Proof.
  refine (fix go (v w : value) : Decision (v = w) :=
    match v, w with
    | Null, Null => left eq_refl
    | Bool b, Bool b' => cast_if (decide (b = b'))
    | Number n, Number n' => cast_if (decide (n = n'))
    | Str s, Str s' => cast_if (decide (s = s'))
    | Array vs, Array vs' => cast_if (@list_eq_dec _ go vs vs')
    | Object kvs, Object kvs' => cast_if (@list_eq_dec _ (@prod_eq_dec _ _ _ go) kvs kvs')
    | _, _ => right _
    end); clear go; abstract congruence.
Defined.


(** ** Time and digests of the observation office

    The operations of chrono, sha2 and the standard formatter that the modules of
    [nightshiftd] use besides those of [Host], and what the source relies on. *)

Class Chrono : Type := {
  (** chrono: [to_rfc3339_opts(SecondsFormat::AutoSi, true)]. *)
  to_rfc3339_autosi : instant -> string;
  (** chrono: the [Display] text of the error [parse_from_rfc3339] returns. *)
  parse_error : string -> string;
  (** chrono: [checked_sub_signed], the duration in nanoseconds. *)
  checked_sub_signed : instant -> Z -> option instant;
  (** chrono: [Duration::try_seconds] and [Duration::try_milliseconds] of an [i64]. *)
  try_seconds : Z -> option Z;
  try_milliseconds : Z -> option Z;
  (** chrono: [a.signed_duration_since(b).num_seconds()]. *)
  seconds_since : instant -> instant -> Z;
  (** sha2: the first eight bytes of [Sha256::digest(bytes)], read big-endian. *)
  sha256_prefix : string -> N;
  (** core: the [Debug] text of a string. *)
  str_debug : string -> string
}.

Definition nanos_per_second : Z := 1000000000.
Definition nanos_per_milli : Z := 1000000.

(** Documented behaviour the theorems use. *)
Class ChronoOk `(Host) `(Chrono) : Prop := {
  (** an in-range difference is the difference *)
  checked_sub_signed_diff : forall t d u, checked_sub_signed t d = Some u -> u = (t - d)%Z;
  (** a representable number of seconds or milliseconds is that duration *)
  try_seconds_nanos : forall n d, try_seconds n = Some d -> d = (n * nanos_per_second)%Z;
  try_milliseconds_nanos : forall n d, try_milliseconds n = Some d -> d = (n * nanos_per_milli)%Z;
  (** whole seconds, towards zero *)
  seconds_since_quot : forall a b, seconds_since a b = Z.quot (a - b) nanos_per_second;
  (** a printed instant that parses is the instant *)
  parse_autosi : forall t u, parse_from_rfc3339 (to_rfc3339_autosi t) = Some u -> u = t;
  (** eight bytes *)
  sha256_prefix_bound : forall s, (sha256_prefix s <= U64_MAX)%N
}.

(** [i64::try_from] of a [u64]. *)
Definition i64_of (n : N) : option Z :=
  if (n <=? 9223372036854775807)%N then Some (Z.of_N n) else None.
