(* ===== verification/Packet.v ===== *)
(** * Orientation packets (crates/nightshiftd/src/packet.rs)

    The immutable packet a foreman run executes: its structs, the closed
    structural validation, the content digest, sealing, currentness and the
    dependency graph check. *)
From S2P Require Import Prelude Text External.
Local Open Scope string_scope.

Definition NIGHTSHIFT_PACKET_SCHEMA_V1 : string := "nightshift.orientation-packet/v1".
Definition EXACT_WORK_PROPOSAL_SCHEMA_V1 : string :=
  "ag.governed-loop.exact-work-proposal/v1".
Definition NIGHTSHIFT_PACKET_DIGEST_DOMAIN_V1 : string :=
  "nightshift.orientation-packet.digest/v1" +:+ NUL.
Definition NIGHTSHIFT_PACKET_DIGEST_PREIMAGE_V1 : string :=
  "domain prefix nightshift.orientation-packet.digest/v1 NUL, then packet object with packet_digest and switchyard.plan_ref omitted as RFC8785-JCS".

(** ** Data *)

Record AuthoringIdentityV1 := {
  au_agent : string;
  au_session : string;
  au_authority_basis : string
}.

Record CanonicalizationV1 := {
  ca_algorithm : string;
  ca_digest_algorithm : string;
  ca_digest_preimage : string
}.

Record SourceEvidenceRefV1 := {
  se_repository : string;
  se_branch : string;
  se_commit : string;
  se_path : string;
  se_file_digest : string;
  se_predecessor_classification : string
}.

Record RepositoryCustodyV1 := {
  rc_repository : string;
  rc_path : string;
  rc_branch : string;
  rc_commit : string;
  rc_remote : option string;
  rc_remote_commit : option string;
  rc_worktree_clean : bool;
  rc_discrepancy : option string
}.

Record GlobalConstraintsV1 := {
  gc_allowed_actions : list string;
  gc_forbidden_actions : list string;
  gc_invariants : list string
}.

Record CampaignIdentityV1 := {
  cp_codename : string;
  cp_canonical_slug : string
}.

Record PredecessorRefV1 := {
  pr_campaign : string;
  pr_classification : string;
  pr_commit : string
}.

Record ExactWorkRefV1 := {
  ew_contract_kind : string;
  ew_contract_schema : string;
  ew_repository : string;
  ew_branch : string;
  ew_commit : string;
  ew_path : string;
  ew_proposal_ref : string
}.

Record ModelRoutingV1 := {
  mr_class : string;
  mr_reason : string;
  mr_maximum_mutating_workers : N
}.

Record WorkItemV1 := {
  wi_id : string;
  wi_track : string;
  wi_campaign : CampaignIdentityV1;
  wi_predecessor_lineage : list PredecessorRefV1;
  wi_dependencies : list string;
  wi_exact_work_refs : list ExactWorkRefV1;
  wi_entry_predicates : list string;
  wi_allowed_mutation_surfaces : list string;
  wi_forbidden_actions : list string;
  wi_acceptance_tests : list string;
  wi_stop_conditions : list string;
  wi_expected_receipts : list string;
  wi_closeout_requirements : list string;
  wi_model_routing : ModelRoutingV1
}.

Record WorkerBudgetV1 := {
  wb_maximum_concurrent_mutating_workers : N;
  wb_recursive_worker_swarms_forbidden : bool;
  wb_reserve_posture : string
}.

Record SwitchyardRegistrationV1 := {
  sw_alias : string;
  sw_plan_ref : string;
  sw_transport_fields : list string
}.

Record NightshiftPacketV1 := {
  pk_schema : string;
  pk_packet_id : string;
  pk_packet_digest : string;
  pk_created_at : instant;
  pk_current_until : instant;
  pk_authoring : AuthoringIdentityV1;
  pk_canonicalization : CanonicalizationV1;
  pk_source_evidence : list SourceEvidenceRefV1;
  pk_repository_custody : list RepositoryCustodyV1;
  pk_global_constraints : GlobalConstraintsV1;
  pk_work_items : list WorkItemV1;
  pk_worker_budget : WorkerBudgetV1;
  pk_human_question_criteria : list string;
  pk_switchyard : SwitchyardRegistrationV1
}.

Record PacketValidationReceiptV1 := {
  pv_schema : string;
  pv_packet_id : string;
  pv_packet_digest : string;
  pv_evaluated_at : instant;
  pv_work_item_count : nat;
  pv_disposition : string;
  pv_authority_effect : string
}.

Inductive PacketError :=
| PacketJson (message : string)
| ForeignPacketSchema
| InvalidPacketField (field : string)
| PacketDigestMismatch
| NotCurrent
| UnknownWorkItemDependency (id : string)
| DependencyCycle.

#[global] Instance WorkItemV1_eq_dec : EqDecision WorkItemV1.
Proof. unfold EqDecision, Decision. repeat decide equality. Defined.
#[global] Instance GlobalConstraintsV1_eq_dec : EqDecision GlobalConstraintsV1.
Proof. solve_decision. Defined.

(** ** Field checks *)

Definition require_nonempty (field value : string) : result PacketError unit :=
  if trim_is_empty value then Err (InvalidPacketField field) else Ok tt.

Definition require_nonempty_slice (field : string) (values : list string)
    : result PacketError unit :=
  if bool_decide (values = []) || existsb trim_is_empty values
  then Err (InvalidPacketField field) else Ok tt.

Definition require_digest (value : string) : result PacketError unit :=
  match strip_prefix value "sha256:" with
  | None => Err (InvalidPacketField "digest")
  | Some hex =>
      if negb (strlen hex =? 64)%N
         || negb (bytes_all (fun b => is_ascii_hexdigit b && negb (is_ascii_uppercase b)) hex)
      then Err (InvalidPacketField "digest") else Ok tt
  end.

Definition require_commit (value : string) : result PacketError unit :=
  if negb (strlen value =? 40)%N
     || negb (bytes_all (fun b => is_ascii_hexdigit b && negb (is_ascii_uppercase b)) value)
  then Err (InvalidPacketField "commit") else Ok tt.

Definition valid_id (value : string) : bool :=
  negb (str_is_empty value) && (strlen value <=? 128)%N
  && bytes_all (fun b => is_ascii_alphanumeric b || one_of ["-"; "_"; "."]%char b) value.

Definition valid_codename (value : string) : bool :=
  negb (str_is_empty value) && (strlen value <=? 80)%N
  && bytes_all (fun b => is_ascii_uppercase b || is_ascii_digit b || Ascii.eqb b "-") value.

Definition valid_slug (value : string) : bool :=
  negb (str_is_empty value) && (strlen value <=? 160)%N
  && bytes_all (fun b => is_ascii_lowercase b || is_ascii_digit b || Ascii.eqb b "-") value.

(** ** Structural validation *)

Definition check_source_evidence (source : SourceEvidenceRefV1) : result PacketError unit :=
  require_nonempty "source_evidence.repository" (se_repository source) ;?
  require_nonempty "source_evidence.path" (se_path source) ;?
  require_nonempty "source_evidence.predecessor_classification"
    (se_predecessor_classification source) ;?
  require_commit (se_commit source) ;?
  require_digest (se_file_digest source).

Definition check_repository_custody (custody : RepositoryCustodyV1) : result PacketError unit :=
  require_nonempty "repository_custody.repository" (rc_repository custody) ;?
  require_nonempty "repository_custody.path" (rc_path custody) ;?
  require_commit (rc_commit custody) ;?
  match rc_remote_commit custody with
  | Some remote_commit => require_commit remote_commit
  | None => Ok tt
  end.

Definition check_predecessor (predecessor : PredecessorRefV1) : result PacketError unit :=
  require_nonempty "predecessor_lineage.campaign" (pr_campaign predecessor) ;?
  require_nonempty "predecessor_lineage.classification" (pr_classification predecessor) ;?
  require_commit (pr_commit predecessor).

Definition valid_contract (proposal : ExactWorkRefV1) : bool :=
  if String.eqb (ew_contract_kind proposal) "exact_work_proposal_v1"
  then String.eqb (ew_contract_schema proposal) EXACT_WORK_PROPOSAL_SCHEMA_V1
  else if String.eqb (ew_contract_kind proposal) "repository_actual_equivalent"
  then negb (trim_is_empty (ew_contract_schema proposal))
  else false.

Definition check_exact_work_ref (proposal : ExactWorkRefV1) : result PacketError unit :=
  reject (negb (valid_contract proposal)) (InvalidPacketField "exact_work_refs.contract") ;?
  require_nonempty "exact_work_refs.repository" (ew_repository proposal) ;?
  require_nonempty "exact_work_refs.path" (ew_path proposal) ;?
  require_commit (ew_commit proposal) ;?
  require_digest (ew_proposal_ref proposal).

(** The loop over one item's [dependencies]; the set is local to the item. *)
Definition check_dependency (dependency : string) (dependencies : gset string)
    : result PacketError (gset string) :=
  if negb (valid_id dependency) || bool_decide (dependency ∈ dependencies)
  then Err (InvalidPacketField "work_items.dependencies")
  else Ok ({[dependency]} ∪ dependencies).

Definition campaign_key (item : WorkItemV1) : string * string :=
  (cp_codename (wi_campaign item), cp_canonical_slug (wi_campaign item)).

(** One turn of the loop over [work_items]; the state is [(ids, campaigns)]. *)
Definition check_work_item (item : WorkItemV1)
    (seen : gset string * gset (string * string))
    : result PacketError (gset string * gset (string * string)) :=
  let '(ids, campaigns) := seen in
  reject (negb (valid_id (wi_id item)) || bool_decide (wi_id item ∈ ids))
    (InvalidPacketField "work_items.id") ;?
  reject (negb (valid_codename (cp_codename (wi_campaign item)))
          || negb (valid_slug (cp_canonical_slug (wi_campaign item)))
          || bool_decide (campaign_key item ∈ campaigns))
    (InvalidPacketField "work_items.campaign") ;?
  require_nonempty "work_items.track" (wi_track item) ;?
  require_nonempty_slice "work_items.entry_predicates" (wi_entry_predicates item) ;?
  require_nonempty_slice "work_items.allowed_mutation_surfaces"
    (wi_allowed_mutation_surfaces item) ;?
  require_nonempty_slice "work_items.forbidden_actions" (wi_forbidden_actions item) ;?
  require_nonempty_slice "work_items.acceptance_tests" (wi_acceptance_tests item) ;?
  require_nonempty_slice "work_items.stop_conditions" (wi_stop_conditions item) ;?
  require_nonempty_slice "work_items.expected_receipts" (wi_expected_receipts item) ;?
  require_nonempty_slice "work_items.closeout_requirements" (wi_closeout_requirements item) ;?
  require_nonempty "work_items.model_routing.class" (mr_class (wi_model_routing item)) ;?
  require_nonempty "work_items.model_routing.reason" (mr_reason (wi_model_routing item)) ;?
  let? _ := fold_try check_dependency (wi_dependencies item) ∅ in
  reject (1 <? mr_maximum_mutating_workers (wi_model_routing item))%N
    (InvalidPacketField "work_items.model_routing") ;?
  for_each check_predecessor (wi_predecessor_lineage item) ;?
  for_each check_exact_work_ref (wi_exact_work_refs item) ;?
  Ok ({[wi_id item]} ∪ ids, {[campaign_key item]} ∪ campaigns).

Definition expected_plan_ref (packet_digest : string) : string :=
  "nightshift-packet://"
  +:+ match strip_prefix packet_digest "sha256:" with Some hex => hex | None => "" end.

Definition validate_structure (p : NightshiftPacketV1) : result PacketError unit :=
  reject (negb (String.eqb (pk_schema p) NIGHTSHIFT_PACKET_SCHEMA_V1)) ForeignPacketSchema ;?
  reject (negb (valid_id (pk_packet_id p))) (InvalidPacketField "packet_id") ;?
  require_digest (pk_packet_digest p) ;?
  reject (negb (String.eqb (ca_algorithm (pk_canonicalization p)) "RFC8785-JCS")
          || negb (String.eqb (ca_digest_algorithm (pk_canonicalization p)) "SHA-256")
          || negb (String.eqb (ca_digest_preimage (pk_canonicalization p))
                     NIGHTSHIFT_PACKET_DIGEST_PREIMAGE_V1))
    (InvalidPacketField "canonicalization") ;?
  require_nonempty "authoring.agent" (au_agent (pk_authoring p)) ;?
  require_nonempty "authoring.session" (au_session (pk_authoring p)) ;?
  require_nonempty "authoring.authority_basis" (au_authority_basis (pk_authoring p)) ;?
  reject (pk_current_until p <=? pk_created_at p)%Z
    (InvalidPacketField "currentness interval") ;?
  require_nonempty_slice "global_constraints.allowed_actions"
    (gc_allowed_actions (pk_global_constraints p)) ;?
  require_nonempty_slice "global_constraints.forbidden_actions"
    (gc_forbidden_actions (pk_global_constraints p)) ;?
  require_nonempty_slice "global_constraints.invariants"
    (gc_invariants (pk_global_constraints p)) ;?
  require_nonempty_slice "human_question_criteria" (pk_human_question_criteria p) ;?
  reject (match pk_source_evidence p with [] => true | _ => false end
          || match pk_repository_custody p with [] => true | _ => false end
          || match pk_work_items p with [] => true | _ => false end)
    (InvalidPacketField "required collection") ;?
  for_each check_source_evidence (pk_source_evidence p) ;?
  for_each check_repository_custody (pk_repository_custody p) ;?
  reject ((wb_maximum_concurrent_mutating_workers (pk_worker_budget p) =? 0)%N
          || (4 <? wb_maximum_concurrent_mutating_workers (pk_worker_budget p))%N
          || negb (wb_recursive_worker_swarms_forbidden (pk_worker_budget p)))
    (InvalidPacketField "worker_budget") ;?
  require_nonempty "worker_budget.reserve_posture" (wb_reserve_posture (pk_worker_budget p)) ;?
  require_nonempty "switchyard.alias" (sw_alias (pk_switchyard p)) ;?
  reject (negb (String.eqb (sw_plan_ref (pk_switchyard p))
                  (expected_plan_ref (pk_packet_digest p)))
          || negb (bool_decide (sw_transport_fields (pk_switchyard p)
                                = ["alias"; "plan_ref"; "nonce"])))
    (InvalidPacketField "switchyard") ;?
  let? _ := fold_try check_work_item (pk_work_items p) (∅, ∅) in
  Ok tt.

(** ** The dependency graph *)

(** [graph: BTreeMap<&str, Vec<&str>>], collected in item order. *)
Definition dependency_graph (items : list WorkItemV1) : gmap string (list string) :=
  foldl (fun g item => <[wi_id item := wi_dependencies item]> g) ∅ items.

(** The first loop of [validate_dag]: each node's dependency list. *)
Definition check_dependency_list (ids : gset string) (dependencies : list string)
    : result PacketError unit :=
  reject (has_dup ∅ dependencies) (InvalidPacketField "work_items.dependencies") ;?
  for_each (fun dependency =>
      reject (negb (bool_decide (dependency ∈ ids))) (UnknownWorkItemDependency dependency))
    dependencies.

(** [(visiting, visited)]: the two sets the walk mutates. *)
Abbreviation walk_state := (gset string * gset string)%type.

(** [visit]: depth-first walk.  [None] is running out of fuel, which [visit_all_total]
    excludes for the walk that [validate_dag] makes. *)
Fixpoint visit (fuel : nat) (graph : gmap string (list string)) (id : string)
    (st : walk_state) : option (result PacketError walk_state) :=
  match fuel with
  | O => None
  | S fuel =>
      let '(visiting, visited) := st in
      if bool_decide (id ∈ visited) then Some (Ok (visiting, visited)) else
      if bool_decide (id ∈ visiting) then Some (Err DependencyCycle) else
      match
        (fix children (deps : list string) (st : walk_state)
            : option (result PacketError walk_state) :=
          match deps with
          | [] => Some (Ok st)
          | dependency :: deps =>
              match visit fuel graph dependency st with
              | Some (Ok st) => children deps st
              | other => other
              end
          end) (default [] (graph !! id)) ({[id]} ∪ visiting, visited)
      with
      | Some (Ok (visiting, visited)) =>
          Some (Ok (visiting ∖ {[id]}, {[id]} ∪ visited))
      | other => other
      end
  end.

(** The walk over [dependency] lists, named for the proofs. *)
Fixpoint visit_all (fuel : nat) (graph : gmap string (list string)) (deps : list string)
    (st : walk_state) : option (result PacketError walk_state) :=
  match deps with
  | [] => Some (Ok st)
  | dependency :: deps =>
      match visit fuel graph dependency st with
      | Some (Ok st) => visit_all fuel graph deps st
      | other => other
      end
  end.

(** Each nested call adds a node to [visiting], and every node that is walked
    into is a key of the graph or a leaf, so [size graph + 1] levels suffice. *)
Definition walk_fuel (graph : gmap string (list string)) : nat := size graph + 1.

(** *** The fuel suffices

    A walk leaves [visiting] as it found it and each nested call adds a key to it, so the
    walk of [validate_dag] always ends; the walk itself is then a total function. *)
Section walk_total.
Context (graph : gmap string (list string)).

Lemma visit_S fuel id visiting visited :
  visit (S fuel) graph id (visiting, visited) =
    (if bool_decide (id ∈ visited) then Some (Ok (visiting, visited)) else
     if bool_decide (id ∈ visiting) then Some (Err DependencyCycle) else
     match visit_all fuel graph (default [] (graph !! id)) ({[id]} ∪ visiting, visited) with
     | Some (Ok (visiting, visited)) =>
         Some (Ok (visiting ∖ {[id]}, {[id]} ∪ visited))
     | other => other
     end).
Proof.
  simpl. repeat case_bool_decide; try done.
  assert (Heq : forall deps st,
    (fix children (deps : list string) (st : walk_state)
        : option (result PacketError walk_state) :=
      match deps with
      | [] => Some (Ok st)
      | dependency :: deps =>
          match visit fuel graph dependency st with
          | Some (Ok st) => children deps st
          | other => other
          end
      end) deps st = visit_all fuel graph deps st); [|by rewrite Heq].
  clear. induction deps as [|d deps IH]; intros st; simpl; [done|].
  destruct (visit fuel graph d st) as [[]|]; auto.
Qed.

Lemma visit_all_keeps_from fuel :
  (forall id st st', visit fuel graph id st = Some (Ok st') -> st'.1 = st.1) ->
  forall deps st st', visit_all fuel graph deps st = Some (Ok st') -> st'.1 = st.1.
Proof.
  intros Hvisit deps. induction deps as [|d deps IH]; intros st st'; simpl; [by intros [= <-]|].
  destruct (visit fuel graph d st) as [[st1|]|] eqn:E; try done.
  intros Hall. rewrite (IH _ _ Hall). by apply (Hvisit d).
Qed.

Lemma visit_keeps fuel : forall id st st',
  visit fuel graph id st = Some (Ok st') -> st'.1 = st.1.
Proof.
  induction fuel as [|fuel IH]; intros id [visiting visited] st'; [done|].
  rewrite visit_S. case_bool_decide; [by intros [= <-]|]. case_bool_decide; [done|].
  destruct (visit_all _ _ _ _) as [[[v1 w1]|]|] eqn:E; try done.
  intros [= <-]. apply (visit_all_keeps_from _ IH) in E. simpl in *. subst. set_solver.
Qed.

Definition unvisited (visiting : gset string) : nat := size (dom graph ∖ visiting).

Lemma visit_all_total_from fuel :
  (forall id st, unvisited st.1 < fuel -> visit fuel graph id st <> None) ->
  forall deps st, unvisited st.1 < fuel -> visit_all fuel graph deps st <> None.
Proof.
  intros Hvisit deps. induction deps as [|d deps IH]; intros st Hfuel; simpl; [done|].
  destruct (visit fuel graph d st) as [[st1|]|] eqn:E; [|done|by apply Hvisit in E].
  apply IH. by rewrite (visit_keeps _ _ _ _ E).
Qed.

Lemma unvisited_add id visiting :
  id ∈ dom graph -> id ∉ visiting -> unvisited ({[id]} ∪ visiting) < unvisited visiting.
Proof. intros. unfold unvisited. apply subset_size. set_solver. Qed.

Lemma visit_total fuel : forall id st,
  unvisited st.1 < fuel -> visit fuel graph id st <> None.
Proof.
  induction fuel as [|fuel IH]; intros id [visiting visited] Hfuel; simpl in Hfuel; [lia|].
  rewrite visit_S. case_bool_decide; [done|]. case_bool_decide as Hvg; [done|].
  destruct (graph !! id) as [ds|] eqn:Hg; simpl; [|done].
  assert (Hlt := unvisited_add id visiting (elem_of_dom_2 _ _ _ Hg) Hvg).
  destruct (visit_all _ _ _ _) as [[[v1 w1]|]|] eqn:E; try done.
  exfalso. revert E. apply visit_all_total_from; [done|simpl; lia].
Qed.

Lemma visit_all_total deps : visit_all (walk_fuel graph) graph deps (∅, ∅) <> None.
Proof.
  apply visit_all_total_from; [apply visit_total|]. simpl. unfold unvisited, walk_fuel.
  rewrite difference_empty_L, size_dom. lia.
Qed.
End walk_total.

(** The value of a computation that ends. *)
Definition finished {A} (o : option A) : o <> None -> A :=
  match o with
  | Some a => fun _ => a
  | None => fun ends => match ends eq_refl with end
  end.

Lemma finished_Some {A} (o : option A) (ends : o <> None) : o = Some (finished o ends).
Proof. by destruct o. Qed.

(** The loop over [graph.keys()]. *)
Definition walk (graph : gmap string (list string)) : result PacketError walk_state :=
  finished (visit_all (walk_fuel graph) graph (btree_keys graph) (∅, ∅))
    (visit_all_total graph (btree_keys graph)).

Lemma walk_ends graph :
  visit_all (walk_fuel graph) graph (btree_keys graph) (∅, ∅) = Some (walk graph).
Proof. apply finished_Some. Qed.

Definition validate_dag (items : list WorkItemV1) (ids : gset string)
    : result PacketError unit :=
  let graph := dependency_graph items in
  for_each (check_dependency_list ids) (btree_values graph) ;?
  let? _ := walk graph in
  Ok tt.

(** ** Digest, sealing, currentness *)

Definition set_derived_locators (packet_digest plan_ref : string) (p : NightshiftPacketV1)
    : NightshiftPacketV1 :=
  {| pk_schema := pk_schema p;
     pk_packet_id := pk_packet_id p;
     pk_packet_digest := packet_digest;
     pk_created_at := pk_created_at p;
     pk_current_until := pk_current_until p;
     pk_authoring := pk_authoring p;
     pk_canonicalization := pk_canonicalization p;
     pk_source_evidence := pk_source_evidence p;
     pk_repository_custody := pk_repository_custody p;
     pk_global_constraints := pk_global_constraints p;
     pk_work_items := pk_work_items p;
     pk_worker_budget := pk_worker_budget p;
     pk_human_question_criteria := pk_human_question_criteria p;
     pk_switchyard := {| sw_alias := sw_alias (pk_switchyard p);
                         sw_plan_ref := plan_ref;
                         sw_transport_fields := sw_transport_fields (pk_switchyard p) |} |}.

Arguments set_derived_locators : simpl never.

(** [switchyard.remove("plan_ref")] inside the packet object. *)
Fixpoint remove_plan_ref (kvs : list (string * value)) : option (list (string * value)) :=
  match kvs with
  | [] => None
  | (k, v) :: kvs =>
      if String.eqb k "switchyard" then
        match v with
        | Object inner => Some ((k, Object (object_remove "plan_ref" inner)) :: kvs)
        | _ => None
        end
      else (cons (k, v)) <$> remove_plan_ref kvs
  end.

Definition digest_preimage (v : value) : result PacketError value :=
  match v with
  | Object kvs =>
      let? kvs := ok_or (remove_plan_ref (object_remove "packet_digest" kvs))
                    (InvalidPacketField "switchyard") in
      Ok (Object kvs)
  | _ => Err (InvalidPacketField "packet")
  end.

Section operations.
Context `{Host} `{Serde NightshiftPacketV1}.

Definition packet_from_slice (bytes : string) : result PacketError NightshiftPacketV1 :=
  map_err PacketJson (from_slice bytes).

Definition canonical_bytes (p : NightshiftPacketV1) : result PacketError string :=
  map_err PacketJson (to_vec p).

Definition computed_digest (p : NightshiftPacketV1) : result PacketError string :=
  let? v := map_err PacketJson (to_value p) in
  let? preimage := digest_preimage v in
  let? canonical_packet := map_err PacketJson (jcs_value preimage) in
  Ok ("sha256:" +:+ sha256_hex (NIGHTSHIFT_PACKET_DIGEST_DOMAIN_V1 +:+ canonical_packet)).

Definition seal (p : NightshiftPacketV1) : result PacketError NightshiftPacketV1 :=
  let? packet_digest := computed_digest p in
  let? hex := ok_or (strip_prefix packet_digest "sha256:")
                (InvalidPacketField "packet_digest") in
  let p := set_derived_locators packet_digest ("nightshift-packet://" +:+ hex) p in
  validate_structure p ;?
  Ok p.

Definition item_ids (p : NightshiftPacketV1) : gset string :=
  list_to_set (wi_id <$> pk_work_items p).

Definition validate_integrity (p : NightshiftPacketV1) : result PacketError unit :=
  validate_structure p ;?
  let? computed := computed_digest p in
  reject (negb (String.eqb computed (pk_packet_digest p))) PacketDigestMismatch ;?
  validate_dag (pk_work_items p) (item_ids p).

Definition validate_at (p : NightshiftPacketV1) (evaluated_at : instant)
    : result PacketError PacketValidationReceiptV1 :=
  validate_integrity p ;?
  reject ((evaluated_at <? pk_created_at p)%Z || (pk_current_until p <? evaluated_at)%Z)
    NotCurrent ;?
  Ok {| pv_schema := "nightshift.orientation-packet-validation/v1";
        pv_packet_id := pk_packet_id p;
        pv_packet_digest := pk_packet_digest p;
        pv_evaluated_at := evaluated_at;
        pv_work_item_count := length (pk_work_items p);
        pv_disposition := "VALID_NON_AUTHORIZING_ORIENTATION_PACKET";
        pv_authority_effect := "NONE" |}.
End operations.
