(* ===== verification/PacketFacts.v ===== *)
(** * Facts about orientation packets

    The dependency check accepts exactly the acyclic graphs over known items,
    structural validation is equivalent to a declarative well-formedness
    predicate, and sealing produces a packet whose digest check succeeds. *)
From S2P Require Import Prelude Text External Packet.
Local Open Scope string_scope.

(** ** The depth-first walk *)

Section walk.
Context (graph : gmap string (list string)).

Definition edge (a b : string) : Prop := exists ds, graph !! a = Some ds /\ b ∈ ds.

(** [grounded a]: every dependency chain from [a] ends. *)
Definition grounded (a : string) : Prop :=
  forall P : string -> Prop,
    (forall x, (forall y, edge x y -> P y) -> P x) -> P a.

Lemma grounded_intro a : (forall b, edge a b -> grounded b) -> grounded a.
Proof. intros Hb P HP. apply HP. intros b Hab. by apply Hb. Qed.

(** A walk leaves [visiting] as it found it, only adds to [visited], and every
  visited node is grounded. *)
Definition sound_step (ids : list string) (st st' : walk_state) : Prop :=
  st'.1 = st.1 /\ st.2 ⊆ st'.2 /\ (forall x, x ∈ ids -> x ∈ st'.2) /\
  ((forall x, x ∈ st.2 -> grounded x) -> forall x, x ∈ st'.2 -> grounded x).

Lemma visit_all_sound_from fuel :
  (forall id st st', visit fuel graph id st = Some (Ok st') -> sound_step [id] st st') ->
  forall deps st st', visit_all fuel graph deps st = Some (Ok st') -> sound_step deps st st'.
Proof.
  intros Hvisit deps. induction deps as [|d deps IH]; intros st st'; simpl.
  { intros [= <-]. split; [done|]. split; [done|]. split; [set_solver|auto]. }
  destruct (visit fuel graph d st) as [[st1|]|] eqn:E; try done.
  intros Hall. apply Hvisit in E as (Hv1 & Hs1 & Hi1 & Ha1).
  apply IH in Hall as (Hv2 & Hs2 & Hi2 & Ha2). unfold sound_step.
  split; [congruence|]. split; [set_solver|]. split; [|by auto].
  intros x [->|Hx]%elem_of_cons; [|by apply Hi2].
  apply Hs2, Hi1. by left.
Qed.

Lemma visit_sound fuel : forall id st st',
  visit fuel graph id st = Some (Ok st') -> sound_step [id] st st'.
Proof.
  induction fuel as [|fuel IH]; intros id [visiting visited] st'; [done|].
  rewrite visit_S. case_bool_decide as Hvd.
  { intros [= <-]. split; [done|]. split; [done|]. split; [set_solver|auto]. }
  case_bool_decide as Hvg; [done|].
  destruct (visit_all _ _ _ _) as [[[v1 w1]|]|] eqn:E; try done.
  intros [= <-]. apply (visit_all_sound_from _ IH) in E as (Hv & Hs & Hi & Ha).
  simpl in *. subst v1. unfold sound_step. simpl.
  split; [set_solver|]. split; [set_solver|]. split; [set_solver|].
  intros Hacc x. rewrite elem_of_union, elem_of_singleton. intros [->|Hx]; [|by auto].
  apply grounded_intro. intros y (ds & Hds & Hy). apply (Ha Hacc), Hi. by rewrite Hds.
Qed.

Lemma visit_all_sound fuel deps st st' :
  visit_all fuel graph deps st = Some (Ok st') -> sound_step deps st st'.
Proof. apply visit_all_sound_from, visit_sound. Qed.

(** An error of the walk exhibits a cycle. *)
Definition has_cycle : Prop := exists x, tc edge x x.

Lemma visit_all_err_from fuel :
  (forall id st e, (forall y, y ∈ st.1 -> tc edge y id) ->
     visit fuel graph id st = Some (Err e) -> e = DependencyCycle /\ has_cycle) ->
  forall deps st e, (forall y d, y ∈ st.1 -> d ∈ deps -> tc edge y d) ->
    visit_all fuel graph deps st = Some (Err e) -> e = DependencyCycle /\ has_cycle.
Proof.
  intros Hvisit deps. induction deps as [|d deps IH]; intros st e Hanc; simpl; [done|].
  destruct (visit fuel graph d st) as [[st1|e1]|] eqn:E; try done.
  - intros Hall. apply (IH st1 e); [|done].
    apply visit_sound in E as (-> & _). intros y d' Hy Hd'. apply Hanc; [done|by right].
  - intros [= <-]. apply (Hvisit d st); [|done]. intros y Hy. apply Hanc; [done|by left].
Qed.

Lemma visit_err fuel : forall id st e,
  (forall y, y ∈ st.1 -> tc edge y id) ->
  visit fuel graph id st = Some (Err e) -> e = DependencyCycle /\ has_cycle.
Proof.
  induction fuel as [|fuel IH]; intros id [visiting visited] e Hanc; [done|].
  rewrite visit_S. case_bool_decide; [done|]. case_bool_decide as Hvg.
  { intros [= <-]. split; [done|]. exists id. by apply Hanc. }
  destruct (visit_all _ _ _ _) as [[[v1 w1]|]|] eqn:E; try done. intros [= <-].
  eapply (visit_all_err_from _ IH); [|exact E]. simpl.
  intros y d Hy Hd. destruct (graph !! id) as [ds|] eqn:Hg; simpl in Hd;
    [|by apply elem_of_nil in Hd].
  assert (Hid : edge id d) by by exists ds.
  apply elem_of_union in Hy as [->%elem_of_singleton|Hy]; [by constructor|].
  eapply tc_r; [by apply Hanc|done].
Qed.

Lemma visit_all_err fuel deps e visited :
  visit_all fuel graph deps (∅, visited) = Some (Err e) -> e = DependencyCycle /\ has_cycle.
Proof.
  apply (visit_all_err_from fuel (visit_err fuel)). simpl. intros y d Hy. set_solver.
Qed.

Lemma grounded_no_cycle a : grounded a -> ~ tc edge a a.
Proof.
  intros Ha. apply (Ha (fun x => ~ tc edge x x)). intros x IH Hc.
  inversion Hc as [? ? He|? y ? He Hyx]; subst; [by apply (IH x He)|].
  apply (IH y He). by eapply tc_r.
Qed.

(** The walk over all keys decides the existence of a cycle. *)
Lemma walk_keys :
  match walk graph with
  | Ok _ => forall x, grounded x
  | Err e => e = DependencyCycle /\ has_cycle
  end.
Proof.
  pose proof (walk_ends graph) as E. destruct (walk graph) as [st|e].
  - apply visit_all_sound in E as (_ & _ & Hkeys & Hacc). intros x.
    destruct (graph !! x) as [ds|] eqn:Hg.
    + apply Hacc; [set_solver|]. apply Hkeys, elem_of_btree_keys. by eexists.
    + apply grounded_intro. intros y (ds & Hds & _). congruence.
  - by apply visit_all_err in E.
Qed.
End walk.

(** ** [validate_dag] against the declarative dependency relation *)

Definition depends_on (items : list WorkItemV1) (a b : string) : Prop :=
  exists item, item ∈ items /\ wi_id item = a /\ b ∈ wi_dependencies item.

Definition known_dependencies (items : list WorkItemV1) (ids : gset string) : Prop :=
  forall item, item ∈ items ->
    NoDup (wi_dependencies item) /\ forall d, d ∈ wi_dependencies item -> d ∈ ids.

Definition acyclic (items : list WorkItemV1) : Prop :=
  forall x, ~ tc (depends_on items) x x.


Lemma dependency_graph_lookup_from items (g : gmap string (list string)) a ds :
  NoDup (wi_id <$> items) ->
  foldl (fun g item => <[wi_id item := wi_dependencies item]> g) g items !! a = Some ds <->
  (exists item, item ∈ items /\ wi_id item = a /\ wi_dependencies item = ds) \/
  ((a ∉ (wi_id <$> items)) /\ g !! a = Some ds).
Proof.
  revert g. induction items as [|i items IH]; intros g Hnd; simpl.
  { split; [right; split; [set_solver|done]|]. intros [(i & Hi & _)|[_ H]]; [|done].
    by apply elem_of_nil in Hi. }
  apply NoDup_cons in Hnd as [Hi Hnd]. rewrite (IH _ Hnd), not_elem_of_cons. split.
  - intros [(j & Hj & Hid & Hds)|[Ha Hg]]; [left; exists j; split; [by right|done]|].
    apply lookup_insert_Some in Hg as [[<- <-]|[Hne Hg]]; [|by right].
    left. exists i. split; [by left|done].
  - intros [(j & [->|Hj]%elem_of_cons & Hid & Hds)|[[Hne Ha] Hg]].
    + right. rewrite <- Hid. split; [done|]. by rewrite lookup_insert_eq, Hds.
    + left. by exists j.
    + right. split; [done|]. by rewrite lookup_insert_ne.
Qed.

Lemma dependency_graph_lookup items a ds :
  NoDup (wi_id <$> items) ->
  dependency_graph items !! a = Some ds <->
  exists item, item ∈ items /\ wi_id item = a /\ wi_dependencies item = ds.
Proof.
  intros Hnd. unfold dependency_graph. rewrite dependency_graph_lookup_from by done.
  split; [intros [H|[_ H]]; [done|by rewrite lookup_empty in H]|by left].
Qed.

Lemma edge_depends_on items a b :
  NoDup (wi_id <$> items) -> edge (dependency_graph items) a b <-> depends_on items a b.
Proof.
  intros Hnd. unfold edge, depends_on. setoid_rewrite dependency_graph_lookup; [|done].
  naive_solver.
Qed.

Lemma check_dependency_list_ok ids ds :
  check_dependency_list ids ds = Ok tt <-> NoDup ds /\ forall d, d ∈ ds -> d ∈ ids.
Proof.
  unfold check_dependency_list. res_simpl. rewrite has_dup_empty, Forall_forall.
  apply and_iff_compat_l. setoid_rewrite reject_ok. setoid_rewrite negb_false_iff.
  by setoid_rewrite bool_decide_eq_true.
Qed.

Lemma dependency_lists_ok items ids :
  NoDup (wi_id <$> items) ->
  for_each (check_dependency_list ids) (btree_values (dependency_graph items)) = Ok tt <->
  known_dependencies items ids.
Proof.
  intros Hnd. rewrite for_each_ok, Forall_forall. unfold known_dependencies.
  setoid_rewrite elem_of_btree_values. setoid_rewrite check_dependency_list_ok.
  setoid_rewrite dependency_graph_lookup; [|done]. naive_solver.
Qed.

(** Every chain of dependencies of an accepted list ends. *)
Lemma validate_dag_grounded items ids a :
  validate_dag items ids = Ok tt -> grounded (dependency_graph items) a.
Proof.
  unfold validate_dag. rewrite rseq_ok. intros [_ H]. revert a.
  pose proof (walk_keys (dependency_graph items)) as Hwalk.
  by destruct (walk _) as [st|e].
Qed.

Lemma validate_dag_accepts items ids :
  NoDup (wi_id <$> items) ->
  validate_dag items ids = Ok tt <-> known_dependencies items ids /\ acyclic items.
Proof.
  intros Hnd. unfold validate_dag, acyclic. rewrite rseq_ok, dependency_lists_ok by done.
  apply and_iff_compat_l. pose proof (walk_keys (dependency_graph items)) as Hwalk.
  setoid_rewrite <- (tc_iff _ _ (fun a b => edge_depends_on items a b Hnd)).
  destruct (walk _) as [st|e].
  - split; [|done]. intros _ x. by apply grounded_no_cycle.
  - destruct Hwalk as [_ [x Hx]]. split; [done|]. intros H. by apply H in Hx.
Qed.

(** The check reports [DependencyCycle] exactly when the dependency lists are
    well-formed and some item depends on itself through one or more steps. *)
Lemma validate_dag_cycle items ids :
  NoDup (wi_id <$> items) ->
  validate_dag items ids = Err DependencyCycle <->
  known_dependencies items ids /\ exists x, tc (depends_on items) x x.
Proof.
  intros Hnd. unfold validate_dag. rewrite <- (dependency_lists_ok items ids Hnd).
  setoid_rewrite <- (tc_iff _ _ (fun a b => edge_depends_on items a b Hnd)).
  pose proof (walk_keys (dependency_graph items)) as Hwalk.
  destruct (for_each _ _) as [[]|e] eqn:Hlists; simpl.
  - destruct (walk _) as [st|e]; simpl; [|naive_solver].
    split; [done|]. intros [_ [x Hx]]. by apply grounded_no_cycle in Hx.
  - split; [|naive_solver]. intros [= ->]. exfalso. revert Hlists. clear.
    induction (btree_values _) as [|ds l IH]; simpl; [done|].
    destruct (check_dependency_list ids ds) as [[]|e] eqn:E; simpl; [done|].
    intros [= ->]. unfold check_dependency_list in E.
    destruct (has_dup ∅ ds); simpl in E; [done|]. revert E. clear.
    induction ds as [|d ds IH]; simpl; [done|]. by destruct (negb _).
Qed.

(** C1. The depth-first walk of a packet's dependencies ends, on cyclic lists too: no
    nesting of calls is deeper than the number of items plus one.  With distinct
    identifiers the check accepts exactly when every dependency list is duplicate-free and
    names known items and the dependency relation has no cycle, and it reports a cycle
    exactly when the lists are so and some item depends on itself. *)
Theorem validate_dag_correct items ids :
  let graph := dependency_graph items in
  visit_all (size graph + 1) graph (btree_keys graph) (∅, ∅) = Some (walk graph) /\
  (NoDup (wi_id <$> items) ->
   (validate_dag items ids = Ok tt <-> known_dependencies items ids /\ acyclic items) /\
   (validate_dag items ids = Err DependencyCycle <->
    known_dependencies items ids /\ exists x, tc (depends_on items) x x)).
Proof.
  split; [apply walk_ends|]. intros Hnd.
  split; [by apply validate_dag_accepts|by apply validate_dag_cycle].
Qed.

(** ** Structural validation against a declarative schema *)

Definition text_ok (s : string) : Prop := trim_is_empty s = false.
Definition texts_ok (l : list string) : Prop := l <> [] /\ Forall text_ok l.
Definition hex_text (n : N) (s : string) : Prop :=
  strlen s = n /\
  bytes_all (fun b => is_ascii_hexdigit b && negb (is_ascii_uppercase b)) s = true.
Definition digest_text (s : string) : Prop := exists hex, s = "sha256:" +:+ hex /\ hex_text 64 hex.

Definition source_wf (s : SourceEvidenceRefV1) : Prop :=
  text_ok (se_repository s) /\ text_ok (se_path s) /\
  text_ok (se_predecessor_classification s) /\ hex_text 40 (se_commit s) /\
  digest_text (se_file_digest s).

Definition custody_wf (c : RepositoryCustodyV1) : Prop :=
  text_ok (rc_repository c) /\ text_ok (rc_path c) /\ hex_text 40 (rc_commit c) /\
  forall commit, rc_remote_commit c = Some commit -> hex_text 40 commit.

Definition predecessor_wf (p : PredecessorRefV1) : Prop :=
  text_ok (pr_campaign p) /\ text_ok (pr_classification p) /\ hex_text 40 (pr_commit p).

Definition work_ref_wf (w : ExactWorkRefV1) : Prop :=
  valid_contract w = true /\ text_ok (ew_repository w) /\ text_ok (ew_path w) /\
  hex_text 40 (ew_commit w) /\ digest_text (ew_proposal_ref w).

Definition item_wf (i : WorkItemV1) : Prop :=
  valid_id (wi_id i) = true /\
  valid_codename (cp_codename (wi_campaign i)) = true /\
  valid_slug (cp_canonical_slug (wi_campaign i)) = true /\
  text_ok (wi_track i) /\ texts_ok (wi_entry_predicates i) /\
  texts_ok (wi_allowed_mutation_surfaces i) /\ texts_ok (wi_forbidden_actions i) /\
  texts_ok (wi_acceptance_tests i) /\ texts_ok (wi_stop_conditions i) /\
  texts_ok (wi_expected_receipts i) /\ texts_ok (wi_closeout_requirements i) /\
  text_ok (mr_class (wi_model_routing i)) /\ text_ok (mr_reason (wi_model_routing i)) /\
  (NoDup (wi_dependencies i) /\ Forall (fun d => valid_id d = true) (wi_dependencies i)) /\
  (mr_maximum_mutating_workers (wi_model_routing i) <= 1)%N /\
  Forall predecessor_wf (wi_predecessor_lineage i) /\
  Forall work_ref_wf (wi_exact_work_refs i).

Definition packet_wf (p : NightshiftPacketV1) : Prop :=
  pk_schema p = NIGHTSHIFT_PACKET_SCHEMA_V1 /\
  valid_id (pk_packet_id p) = true /\ digest_text (pk_packet_digest p) /\
  pk_canonicalization p =
    {| ca_algorithm := "RFC8785-JCS"; ca_digest_algorithm := "SHA-256";
       ca_digest_preimage := NIGHTSHIFT_PACKET_DIGEST_PREIMAGE_V1 |} /\
  text_ok (au_agent (pk_authoring p)) /\ text_ok (au_session (pk_authoring p)) /\
  text_ok (au_authority_basis (pk_authoring p)) /\
  (pk_created_at p < pk_current_until p)%Z /\
  texts_ok (gc_allowed_actions (pk_global_constraints p)) /\
  texts_ok (gc_forbidden_actions (pk_global_constraints p)) /\
  texts_ok (gc_invariants (pk_global_constraints p)) /\
  texts_ok (pk_human_question_criteria p) /\
  (pk_source_evidence p <> [] /\ pk_repository_custody p <> [] /\ pk_work_items p <> []) /\
  Forall source_wf (pk_source_evidence p) /\ Forall custody_wf (pk_repository_custody p) /\
  (1 <= wb_maximum_concurrent_mutating_workers (pk_worker_budget p) <= 4)%N /\
  wb_recursive_worker_swarms_forbidden (pk_worker_budget p) = true /\
  text_ok (wb_reserve_posture (pk_worker_budget p)) /\
  text_ok (sw_alias (pk_switchyard p)) /\
  sw_plan_ref (pk_switchyard p) = expected_plan_ref (pk_packet_digest p) /\
  sw_transport_fields (pk_switchyard p) = ["alias"; "plan_ref"; "nonce"] /\
  NoDup (wi_id <$> pk_work_items p) /\ NoDup (campaign_key <$> pk_work_items p) /\
  Forall item_wf (pk_work_items p).

Lemma require_nonempty_ok f v : require_nonempty f v = Ok tt <-> text_ok v.
Proof. apply if_err_ok. Qed.

Lemma require_nonempty_slice_ok f l : require_nonempty_slice f l = Ok tt <-> texts_ok l.
Proof.
  unfold require_nonempty_slice, texts_ok, text_ok. rewrite if_err_ok, orb_false_iff.
  by rewrite bool_decide_eq_false, existsb_false_Forall.
Qed.

Lemma require_digest_ok v : require_digest v = Ok tt <-> digest_text v.
Proof.
  unfold require_digest, digest_text, hex_text.
  setoid_rewrite <- (strip_prefix_Some v). destruct (strip_prefix v _) as [hex|].
  - rewrite if_err_ok, orb_false_iff, !negb_false_iff, N.eqb_eq. split; [by exists hex|].
    by intros (h & [= <-] & H).
  - split; [done|]. by intros (h & [=] & _).
Qed.

Lemma require_commit_ok v : require_commit v = Ok tt <-> hex_text 40 v.
Proof.
  unfold require_commit, hex_text.
  by rewrite if_err_ok, orb_false_iff, !negb_false_iff, N.eqb_eq.
Qed.

Create Rewrite HintDb packet.
#[export] Hint Rewrite require_nonempty_ok require_nonempty_slice_ok require_digest_ok
  require_commit_ok : packet.

Lemma check_source_evidence_ok s : check_source_evidence s = Ok tt <-> source_wf s.
Proof. unfold check_source_evidence, source_wf. res_simpl. by autorewrite with packet. Qed.

Lemma check_repository_custody_ok c : check_repository_custody c = Ok tt <-> custody_wf c.
Proof.
  unfold check_repository_custody, custody_wf. res_simpl. autorewrite with packet.
  destruct (rc_remote_commit c); autorewrite with packet; naive_solver.
Qed.

Lemma check_predecessor_ok p : check_predecessor p = Ok tt <-> predecessor_wf p.
Proof. unfold check_predecessor, predecessor_wf. res_simpl. by autorewrite with packet. Qed.

Lemma check_exact_work_ref_ok w : check_exact_work_ref w = Ok tt <-> work_ref_wf w.
Proof.
  unfold check_exact_work_ref, work_ref_wf. res_simpl. autorewrite with packet.
  by rewrite negb_false_iff.
Qed.

#[export] Hint Rewrite check_source_evidence_ok check_repository_custody_ok
  check_predecessor_ok check_exact_work_ref_ok : packet.

Lemma check_dependencies_ok ds seen s' :
  fold_try check_dependency ds seen = Ok s' <->
  (NoDup ds /\ Forall (fun d => d ∉ seen) ds /\ Forall (fun d => valid_id d = true) ds) /\
  s' = list_to_set ds ∪ seen.
Proof.
  revert seen. induction ds as [|d ds IH]; intros seen; simpl.
  { rewrite Ok_inj, (left_id_L ∅ (∪)). split; [intros <-|intros [_ ->]]; [|done].
    split_and!; by constructor. }
  rewrite NoDup_cons, !Forall_cons. unfold check_dependency at 1.
  destruct (valid_id d) eqn:Hd; simpl; [|naive_solver].
  case_bool_decide as Hs; simpl; [naive_solver|]. rewrite IH, !Forall_forall.
  replace (list_to_set ds ∪ ({[d]} ∪ seen)) with ({[d]} ∪ list_to_set ds ∪ seen)
    by (apply set_eq; set_solver).
  split; intros [(H1 & H2 & H3) ->]; (split; [|done]).
  - split_and!; [|done|done| |done|done]; [intros Hin; specialize (H2 _ Hin)|
      intros y Hy; specialize (H2 _ Hy)]; set_solver.
  - destruct H1 as [H1 H1'], H2 as [H2 H2'], H3 as [H3 H3'].
    split_and!; [done| |done]. intros y Hy. specialize (H2' _ Hy). set_solver.
Qed.

Lemma Forall_iff_pointwise {A} (P Q : A -> Prop) l :
  (forall x, P x <-> Q x) -> Forall P l <-> Forall Q l.
Proof. intros H. by apply Forall_iff. Qed.

Lemma ex_determined {A} (P Q : Prop) (t : A) :
  (exists a, (P /\ a = t) /\ Q) <-> P /\ Q.
Proof. split; [by intros (a & [HP _] & HQ)|]. intros [HP HQ]. by exists t. Qed.

Lemma check_work_item_ok i ids campaigns s' :
  check_work_item i (ids, campaigns) = Ok s' <->
  ((wi_id i ∉ ids) /\ (campaign_key i ∉ campaigns) /\ item_wf i) /\
  ({[wi_id i]} ∪ ids, {[campaign_key i]} ∪ campaigns) = s'.
Proof.
  unfold check_work_item, item_wf. res_simpl. autorewrite with packet.
  rewrite rbind_ok. cbn beta. setoid_rewrite check_dependencies_ok.
  rewrite ex_determined. res_simpl.
  rewrite !orb_false_iff, !negb_false_iff, !bool_decide_eq_false, N.ltb_ge.
  rewrite (Forall_iff_pointwise _ _ _ check_predecessor_ok).
  rewrite (Forall_iff_pointwise _ _ _ check_exact_work_ref_ok).
  assert (Hempty : Forall (fun d => d ∉ (∅ : gset string)) (wi_dependencies i))
    by (apply Forall_true; set_solver).
  tauto.
Qed.

Lemma check_work_items_ok items ids campaigns :
  (exists s', fold_try check_work_item items (ids, campaigns) = Ok s') <->
  (NoDup (wi_id <$> items) /\ Forall (fun i => wi_id i ∉ ids) items) /\
  (NoDup (campaign_key <$> items) /\ Forall (fun i => campaign_key i ∉ campaigns) items) /\
  Forall item_wf items.
Proof.
  revert ids campaigns. induction items as [|i items IH]; intros ids campaigns.
  { split; [intros _; split_and!; constructor|]. intros _. by eexists. }
  rewrite (fresh_key_cons wi_id), (fresh_key_cons campaign_key), Forall_cons. simpl.
  setoid_rewrite rbind_ok. setoid_rewrite check_work_item_ok. split.
  - intros (s' & s1 & [Hi <-] & Hrest).
    pose proof (proj1 (IH _ _) (ex_intro (fun s => _ = Ok s) _ Hrest)). tauto.
  - intros (H1 & H2 & H3 & H4).
    destruct (proj2 (IH ({[wi_id i]} ∪ ids) ({[campaign_key i]} ∪ campaigns))) as [s' Hs'];
      [tauto|]. eexists s', _. split; [split; [tauto|reflexivity]|done].
Qed.

Lemma check_all_work_items_ok items :
  (exists s', fold_try check_work_item items (∅, ∅) = Ok s' /\ @Ok PacketError _ tt = Ok tt) <->
  NoDup (wi_id <$> items) /\ NoDup (campaign_key <$> items) /\ Forall item_wf items.
Proof.
  assert (Hfresh : forall {A} `{Countable A} (f : WorkItemV1 -> A),
    Forall (fun i => f i ∉ (∅ : gset A)) items).
  { intros. apply Forall_true. set_solver. }
  pose proof (check_work_items_ok items ∅ ∅) as Hitems.
  pose proof (Hfresh _ _ _ wi_id). pose proof (Hfresh _ _ _ campaign_key). split.
  - intros (s' & Hs' & _). destruct (proj1 Hitems (ex_intro _ s' Hs')) as ([] & [] & ?). done.
  - intros (H1 & H2 & H3). destruct (proj2 Hitems) as [s' Hs']; [done|by exists s'].
Qed.

Lemma structure_ids_distinct p : validate_structure p = Ok tt -> NoDup (wi_id <$> pk_work_items p).
Proof.
  unfold validate_structure. res_simpl. rewrite rbind_ok, check_all_work_items_ok. tauto.
Qed.

Lemma nonempty_list {A} (l : list A) :
  match l with [] => true | _ :: _ => false end = false <-> l <> [].
Proof. destruct l; naive_solver. Qed.

Lemma canonicalization_literals c a b d :
  (ca_algorithm c = a /\ ca_digest_algorithm c = b) /\ ca_digest_preimage c = d <->
  c = {| ca_algorithm := a; ca_digest_algorithm := b; ca_digest_preimage := d |}.
Proof. destruct c; simpl. split; [by intros [[-> ->] ->]|by intros [= -> -> ->]]. Qed.

Lemma budget_bounds n : n <> 0%N /\ (n <= 4)%N <-> (1 <= n <= 4)%N.
Proof. lia. Qed.

(** C3. Structural validation accepts exactly the packets that satisfy the
    declarative schema: exact literals, nonempty texts, well-formed digests and
    commits, the worker budget between one and four, the plan reference derived
    from the digest, and work items whose identifiers and campaigns are pairwise
    distinct. *)
Theorem validate_structure_correct p : validate_structure p = Ok tt <-> packet_wf p.
Proof.
  unfold validate_structure, packet_wf. res_simpl. autorewrite with packet.
  rewrite rbind_ok, check_all_work_items_ok.
  rewrite (Forall_iff_pointwise _ _ _ check_source_evidence_ok).
  rewrite (Forall_iff_pointwise _ _ _ check_repository_custody_ok).
  rewrite !orb_false_iff, !negb_false_iff, !String.eqb_eq, bool_decide_eq_true.
  rewrite canonicalization_literals, Z.leb_gt, !nonempty_list, N.eqb_neq, N.ltb_ge.
  rewrite budget_bounds. tauto.
Qed.

(** ** Digest, sealing and currentness *)

(** Two objects with the same keys, whose values are related key by key. *)
Definition same_entries (related : string -> value -> value -> Prop)
    (kvs kvs' : list (string * value)) : Prop :=
  Forall2 (fun e e' => e.1 = e'.1 /\ related e.1 e.2 e'.2) kvs kvs'.

(** Equal apart from one key. *)
Definition equal_except (field key : string) (v w : value) : Prop := key = field \/ v = w.

(** serde: a derived serializer writes each field under its own name and from that field
    alone.  Writing a packet with other locators therefore changes the values of
    [packet_digest] and of [switchyard]'s [plan_ref] and nothing else. *)
Definition same_packet_fields (kvs kvs' : list (string * value)) : Prop :=
  same_entries (fun key v w =>
    key = "packet_digest" \/
    (key = "switchyard" /\ exists inner inner', v = Object inner /\ w = Object inner' /\
       same_entries (equal_except "plan_ref") inner inner') \/
    (key <> "switchyard" /\ v = w)) kvs kvs'.
Class PacketSealOk `{Serde NightshiftPacketV1} : Prop :=
  written_by_field : forall d r p,
    (exists e, to_value p = Err e /\ to_value (set_derived_locators d r p) = Err e) \/
    (exists kvs kvs', to_value p = Ok (Object kvs) /\
       to_value (set_derived_locators d r p) = Ok (Object kvs') /\
       NoDup kvs.*1 /\ same_packet_fields kvs kvs').

(** Removing the one key that may differ leaves equal objects. *)
Lemma same_entries_remove field kvs kvs' :
  same_entries (equal_except field) kvs kvs' ->
  object_remove field kvs = object_remove field kvs'.
Proof.
  unfold object_remove. induction 1 as [|[k v] [k' w] kvs kvs' [Hk Hv] _ IH]; [done|].
  simpl in *. subst k'. destruct (String.eqb_spec k field); simpl; [done|].
  destruct Hv as [?| ->]; [done|]. by rewrite IH.
Qed.

(** A document has one [switchyard]: past it, only the digest may differ. *)
Lemma same_fields_past_switchyard kvs kvs' :
  "switchyard" ∉ kvs.*1 -> same_packet_fields kvs kvs' ->
  same_entries (equal_except "packet_digest") kvs kvs'.
Proof.
  intros Hn. induction 1 as [|[k v] [k' w] kvs kvs' [Hk Hv] _ IH]; [constructor|].
  csimpl in Hn. apply not_elem_of_cons in Hn as [Hne Hn]. simpl in *.
  constructor; [|by apply IH]. split; [done|].
  destruct Hv as [?|[[-> _]|[_ ?]]]; [by left|done|by right].
Qed.

Lemma preimage_of_same_fields kvs kvs' : NoDup kvs.*1 -> same_packet_fields kvs kvs' ->
  digest_preimage (Object kvs') = digest_preimage (Object kvs).
Proof.
  intros Hn H. unfold digest_preimage.
  enough (remove_plan_ref (object_remove "packet_digest" kvs')
          = remove_plan_ref (object_remove "packet_digest" kvs)) as -> by done.
  unfold same_packet_fields, same_entries in H.
  induction H as [|[k v] [k' w] kvs kvs' [Hk Hv] Hrest IH]; [done|].
  csimpl in Hn. apply NoDup_cons in Hn as [Hnew Hn]. simpl in *. subst k'.
  unfold object_remove in *. simpl.
  destruct (String.eqb_spec k "packet_digest"); simpl; [by apply IH|].
  destruct Hv as [?|[(-> & inner & inner' & -> & -> & Hi)|[Hne ->]]]; [done| |].
  - rewrite String.eqb_refl, (same_entries_remove _ _ _ Hi). do 2 f_equal.
    symmetry. apply (same_entries_remove "packet_digest"), same_fields_past_switchyard; done.
  - by rewrite (proj2 (String.eqb_neq _ _) Hne), IH.
Qed.

Section sealing.
Context {HO : Host} {HOk : HostOk HO} {SP : Serde NightshiftPacketV1} {POk : PacketSealOk}.

Lemma computed_digest_locators d r p :
  computed_digest (set_derived_locators d r p) = computed_digest p.
Proof.
  unfold computed_digest.
  destruct (written_by_field d r p) as [(e & -> & ->)|(kvs & kvs' & -> & -> & Hn & Hs)];
    [done|]. cbn [map_err rbind]. by rewrite (preimage_of_same_fields _ _ Hn Hs).
Qed.

Lemma sealed_fields p p' :
  seal p = Ok p' -> exists hex,
    p' = set_derived_locators ("sha256:" +:+ hex) ("nightshift-packet://" +:+ hex) p /\
    computed_digest p = Ok ("sha256:" +:+ hex) /\ validate_structure p' = Ok tt.
Proof.
  unfold seal. intros Hs. apply rbind_ok in Hs as (d & Hd & Hs).
  apply rbind_ok in Hs as (hex & Hhex & Hs). apply rseq_ok in Hs as [Hv Hs].
  apply ok_or_ok, strip_prefix_Some in Hhex. subst d.
  injection Hs as <-. by exists hex.
Qed.

Lemma set_locators_twice d r d' r' p :
  set_derived_locators d r (set_derived_locators d' r' p) = set_derived_locators d r p.
Proof. done. Qed.

(** C4. A sealed packet passes its own digest check: its integrity verdict is the
  verdict of the dependency check alone, and sealing it again changes nothing. *)
Theorem seal_then_validate p p' :
  seal p = Ok p' ->
  validate_integrity p' = validate_dag (pk_work_items p) (item_ids p) /\ seal p' = Ok p'.
Proof.
  intros Hs. apply sealed_fields in Hs as (hex & -> & Hd & Hv). split.
  - unfold validate_integrity. rewrite Hv. simpl.
    rewrite computed_digest_locators, Hd. simpl. by rewrite String.eqb_refl.
  - unfold seal. rewrite computed_digest_locators, Hd. cbn [rbind].
    rewrite (proj2 (strip_prefix_Some ("sha256:" +:+ hex) "sha256:" hex)) by done.
    cbn [rbind ok_or]. by rewrite set_locators_twice, Hv.
Qed.

(** A packet is accepted at an instant exactly when it satisfies the schema,
  carries its own digest, has an acyclic graph over its own items, and the
  instant lies in its currentness interval, both ends included; the receipt
  grants no authority and counts every item. *)
Theorem validate_at_correct p t r :
  validate_at p t = Ok r <->
  (packet_wf p /\ computed_digest p = Ok (pk_packet_digest p) /\
   known_dependencies (pk_work_items p) (item_ids p) /\ acyclic (pk_work_items p) /\
   (pk_created_at p <= t <= pk_current_until p)%Z) /\
  r = {| pv_schema := "nightshift.orientation-packet-validation/v1";
         pv_packet_id := pk_packet_id p; pv_packet_digest := pk_packet_digest p;
         pv_evaluated_at := t; pv_work_item_count := length (pk_work_items p);
         pv_disposition := "VALID_NON_AUTHORIZING_ORIENTATION_PACKET";
         pv_authority_effect := "NONE" |}.
Proof.
  unfold validate_at, validate_integrity. rewrite !rseq_ok, reject_ok, orb_false_iff.
  rewrite validate_structure_correct, rbind_ok, !Z.ltb_ge, Ok_inj.
  setoid_rewrite rseq_ok. setoid_rewrite reject_ok. setoid_rewrite negb_false_iff.
  setoid_rewrite String.eqb_eq. split.
  - intros ((Hwf & d & Hd & -> & Hdag) & [H1 H2] & <-).
    apply validate_dag_accepts in Hdag; [tauto|]. apply Hwf.
  - intros ((Hwf & Hd & Hk & Ha & H1 & H2) & ->). split_and!; try done.
    exists (pk_packet_digest p). split_and!; [done|done|].
    apply validate_dag_accepts; [apply Hwf|done].
Qed.
End sealing.
