(* ===== verification/Capacity.v ===== *)
(** * Provider capacity (crates/nightshift-provider-capacity/src/model.rs)

    Observations of a provider's remaining capacity, the policy that classifies
    them, and the deterministic decision that bounds new work.  [f64] is
    [SpecFloat.spec_float], the IEEE 754 values the standard library specifies. *)
From S2P Require Import Prelude Text External.
From Stdlib Require Import SpecFloat.
Local Open Scope string_scope.

Definition CAPACITY_OBSERVATION_SCHEMA_V1 : string := "nightshift.provider-capacity-observation/v1".
Definition CAPACITY_POLICY_SCHEMA_V1 : string := "nightshift.provider-capacity-policy/v1".
Definition CAPACITY_DECISION_SCHEMA_V1 : string := "nightshift.provider-capacity-decision/v1".
Definition OBSERVATION_DOMAIN : string :=
  "nightshift.provider-capacity-observation.digest/v1" +:+ NUL.
Definition POLICY_DOMAIN : string := "nightshift.provider-capacity-policy.digest/v1" +:+ NUL.
Definition DECISION_DOMAIN : string := "nightshift.provider-capacity-decision.digest/v1" +:+ NUL.

(** ** [f64] *)

Definition f64_zero : spec_float := S754_zero false.
Definition f64_one : spec_float := S754_finite false 4503599627370496 (-52).
Definition is_nan (f : spec_float) : bool := match f with S754_nan => true | _ => false end.
Definition is_finite (f : spec_float) : bool :=
  match f with S754_zero _ | S754_finite _ _ _ => true | _ => false end.

(** [f64::min]: a NaN operand yields the other one. *)
Definition f64_min (a b : spec_float) : spec_float :=
  if is_nan a then b else if is_nan b then a else if SFltb b a then b else a.

(** [(0.0..=1.0).contains(&v)]. *)
Definition in_unit (v : spec_float) : bool := SFleb f64_zero v && SFleb v f64_one.

(** ** Data *)

Inductive CapacityError :=
| CapacitySerialization (message : string)
| CapacityInvalid (message : string).

Inductive SourceClass := Authoritative | Observed | Inferred | SourceUnknown.
Inductive Confidence := ConfidenceUnknown | Low | Medium | High.
Inductive ObservationDisposition := Usable | DispositionUnknown.
Inductive WindowType := FiveHour | Weekly | ProviderDefined.

(** The derived orders follow declaration order. *)
Definition confidence_rank (c : Confidence) : N :=
  match c with ConfidenceUnknown => 0 | Low => 1 | Medium => 2 | High => 3 end.
Definition window_rank (w : WindowType) : N :=
  match w with FiveHour => 0 | Weekly => 1 | ProviderDefined => 2 end.

Record RemainingUnits := {
  ru_remaining : N;
  ru_maximum : N;
  ru_unit : string
}.

Record CapacityWindow := {
  cw_window_id : string;
  cw_window_type : WindowType;
  cw_remaining_fraction : option spec_float;
  cw_remaining_units : option RemainingUnits;
  cw_resets_at : option instant
}.

Record ObservationEvidence := {
  oe_probe_id : string;
  oe_protocol_method : string;
  oe_protocol_version : option string;
  oe_executable_path : option string;
  oe_executable_digest : option string;
  oe_raw_source_digest : string
}.

Record CapacityObservationV1 := {
  co_schema : string;
  co_provider_id : string;
  co_account_profile_locator : string;
  co_model_family : option string;
  co_observed_at : instant;
  co_expires_at : instant;
  co_source_class : SourceClass;
  co_confidence : Confidence;
  co_disposition : ObservationDisposition;
  co_unknown_reasons : list string;
  co_windows : list CapacityWindow;
  co_evidence : ObservationEvidence;
  co_observation_digest : string
}.

Record CapacityPolicyV1 := {
  cy_schema : string;
  cy_policy_id : string;
  cy_abundant_min_remaining : spec_float;
  cy_normal_min_remaining : spec_float;
  cy_conserve_min_remaining : spec_float;
  cy_minimum_confidence : Confidence;
  cy_required_window_types : list WindowType;
  cy_unknown_allows_new_cheap_work : bool;
  cy_policy_digest : string
}.

Inductive CapacityState := Abundant | Normal | Conserve | Critical | StateUnknown.
Inductive AdmissionDisposition := OrdinaryBounded | CheapBoundedOnly | NoNewWork.

Record CapacityDecisionV1 := {
  cd_schema : string;
  cd_provider_id : string;
  cd_decision_at : instant;
  cd_state : CapacityState;
  cd_admission : AdmissionDisposition;
  cd_allow_new_expensive_work : bool;
  cd_allow_new_speculative_work : bool;
  cd_allow_active_work_to_reach_custody : bool;
  cd_reason_codes : list string;
  cd_observation_digest : string;
  cd_policy_digest : string;
  cd_decision_digest : string
}.

#[global] Instance SourceClass_eq_dec : EqDecision SourceClass.
Proof. solve_decision. Defined.
#[global] Instance Confidence_eq_dec : EqDecision Confidence.
Proof. solve_decision. Defined.
#[global] Instance ObservationDisposition_eq_dec : EqDecision ObservationDisposition.
Proof. solve_decision. Defined.
#[global] Instance WindowType_eq_dec : EqDecision WindowType.
Proof. solve_decision. Defined.
#[global] Instance CapacityState_eq_dec : EqDecision CapacityState.
Proof. solve_decision. Defined.
#[global] Instance AdmissionDisposition_eq_dec : EqDecision AdmissionDisposition.
Proof. solve_decision. Defined.
#[global] Instance CapacityDecisionV1_eq_dec : EqDecision CapacityDecisionV1.
Proof. solve_decision. Defined.
#[global] Instance RemainingUnits_eq_dec : EqDecision RemainingUnits.
Proof. solve_decision. Defined.
#[global] Instance CapacityWindow_eq_dec : EqDecision CapacityWindow.
Proof. solve_decision. Defined.
#[global] Instance ObservationEvidence_eq_dec : EqDecision ObservationEvidence.
Proof. solve_decision. Defined.
#[global] Instance CapacityObservationV1_eq_dec : EqDecision CapacityObservationV1.
Proof. solve_decision. Defined.
#[global] Instance CapacityPolicyV1_eq_dec : EqDecision CapacityPolicyV1.
Proof. solve_decision. Defined.

(** ** Helpers *)

Definition invalid (message : string) : CapacityError := CapacityInvalid message.

Definition nonempty (field value : string) : result CapacityError unit :=
  if trim_is_empty value then Err (invalid (field +:+ " must not be empty")) else Ok tt.

Definition window_type_token (w : WindowType) : string :=
  match w with
  | FiveHour => "FIVE_HOUR"
  | Weekly => "WEEKLY"
  | ProviderDefined => "PROVIDER_DEFINED"
  end.

Definition is_reason_token (v : string) : bool :=
  match v with
  | "" => false
  | String first rest =>
      is_ascii_uppercase first
      && bytes_all (fun b => is_ascii_uppercase b || is_ascii_digit b || Ascii.eqb b "_") rest
  end.

Definition is_sha256_digest (v : string) : bool :=
  (strlen v =? 71)%N && starts_with v "sha256:"
  && bytes_all (fun b => is_ascii_digit b || in_range 97 102 b) (str_drop 7 v).

Definition check_digest (actual expected kind : string) : result CapacityError unit :=
  if String.eqb actual expected then Ok tt
  else Err (invalid (kind +:+ " digest mismatch: expected " +:+ expected)).

(** The derived [Debug] name of a state. *)
Definition state_debug (s : CapacityState) : string :=
  match s with
  | Abundant => "Abundant"
  | Normal => "Normal"
  | Conserve => "Conserve"
  | Critical => "Critical"
  | StateUnknown => "Unknown"
  end.

(** [values.sort()] and [values.dedup()] on strings. *)
Definition sort_strings (l : list string) : list string := merge_sort String.le l.
Fixpoint dedup (l : list string) : list string :=
  match l with
  | x :: ((y :: _) as l') => if String.eqb x y then dedup l' else x :: dedup l'
  | l => l
  end.

Section digests.
Context `{Host}.

Definition digest_record {T} `{Serde T} (record : T) (field domain : string)
    : result CapacityError string :=
  let? v := map_err CapacitySerialization (to_value record) in
  match v with
  | Object kvs =>
      let? canonical :=
        map_err CapacitySerialization (jcs_value (Object (object_remove field kvs))) in
      Ok ("sha256:" +:+ sha256_hex (domain +:+ canonical))
  | _ => Err (invalid "digest subject must be an object")
  end.
End digests.

(** ** Observations *)

Definition check_window (w : CapacityWindow) : result CapacityError unit :=
  nonempty "window_id" (cw_window_id w) ;?
  match cw_remaining_fraction w with
  | Some v =>
      reject (negb (is_finite v) || negb (in_unit v))
        (invalid "remaining_fraction must be finite and within zero and one")
  | None => Ok tt
  end ;?
  match cw_remaining_units w with
  | Some units =>
      reject ((ru_maximum units =? 0)%N || (ru_maximum units <? ru_remaining units)%N)
        (invalid "remaining units exceed a nonzero maximum") ;?
      nonempty "unit" (ru_unit units)
  | None => Ok tt
  end ;?
  reject (match cw_remaining_fraction w, cw_remaining_units w with
          | None, None => true | _, _ => false end)
    (invalid "window has no bounded remaining measure").

Definition check_disposition (o : CapacityObservationV1) : result CapacityError unit :=
  match co_disposition o with
  | Usable =>
      reject (bool_decide (co_windows o = []) || negb (bool_decide (co_unknown_reasons o = [])))
        (invalid "usable observation needs windows and no unknown reasons")
  | DispositionUnknown =>
      reject (bool_decide (co_unknown_reasons o = []))
        (invalid "unknown observation needs a reason")
  end.

Definition check_evidence (o : CapacityObservationV1) : result CapacityError unit :=
  let e := co_evidence o in
  nonempty "probe_id" (oe_probe_id e) ;?
  nonempty "protocol_method" (oe_protocol_method e) ;?
  reject (negb (is_sha256_digest (oe_raw_source_digest e)))
    (invalid "raw source digest must be an exact SHA-256 digest") ;?
  match co_disposition o with
  | Usable =>
      reject (bool_decide (oe_protocol_version e = None)
              || bool_decide (oe_executable_path e = None)
              || bool_decide (oe_executable_digest e = None))
        (invalid "usable observation requires verified executable and protocol identity")
  | DispositionUnknown => Ok tt
  end ;?
  match oe_protocol_version e with
  | Some version => nonempty "protocol_version" version
  | None => Ok tt
  end ;?
  match oe_executable_path e with
  | Some path => reject (negb (starts_with path "/")) (invalid "executable_path must be absolute")
  | None => Ok tt
  end ;?
  match oe_executable_digest e with
  | Some digest =>
      reject (negb (is_sha256_digest digest))
        (invalid "executable_digest must be an exact SHA-256 digest")
  | None => Ok tt
  end.

Section capacity.
Context `{Host} `{Serde CapacityObservationV1} `{Serde CapacityPolicyV1}
`{Serde CapacityDecisionV1}.

Definition observation_compute_digest (o : CapacityObservationV1)
    : result CapacityError string :=
  digest_record o "observation_digest" OBSERVATION_DOMAIN.

Definition observation_validate (o : CapacityObservationV1) : result CapacityError unit :=
  reject (negb (String.eqb (co_schema o) CAPACITY_OBSERVATION_SCHEMA_V1))
    (invalid "unknown observation schema") ;?
  nonempty "provider_id" (co_provider_id o) ;?
  nonempty "account_profile_locator" (co_account_profile_locator o) ;?
  reject (co_expires_at o <=? co_observed_at o)%Z
    (invalid "expires_at must follow observed_at") ;?
  check_disposition o ;?
  check_evidence o ;?
  for_each check_window (co_windows o) ;?
  let? computed := observation_compute_digest o in
  check_digest (co_observation_digest o) computed "observation".

(** ** Policies *)

Definition policy_compute_digest (p : CapacityPolicyV1) : result CapacityError string :=
  digest_record p "policy_digest" POLICY_DOMAIN.

(** [windows(2).any(|pair| pair[0] >= pair[1])]. *)
Fixpoint not_ascending (l : list WindowType) : bool :=
  match l with
  | a :: ((b :: _) as l') => (window_rank b <=? window_rank a)%N || not_ascending l'
  | _ => false
  end.

Definition policy_validate (p : CapacityPolicyV1) : result CapacityError unit :=
  reject (negb (String.eqb (cy_schema p) CAPACITY_POLICY_SCHEMA_V1))
    (invalid "unknown policy schema") ;?
  nonempty "policy_id" (cy_policy_id p) ;?
  reject
    (existsb (fun v => negb (is_finite v))
       [cy_abundant_min_remaining p; cy_normal_min_remaining p; cy_conserve_min_remaining p]
     || negb (in_unit (cy_abundant_min_remaining p))
     || negb (in_unit (cy_conserve_min_remaining p))
     || SFleb (cy_abundant_min_remaining p) (cy_normal_min_remaining p)
     || SFleb (cy_normal_min_remaining p) (cy_conserve_min_remaining p))
    (invalid "policy thresholds must descend within zero and one") ;?
  reject (bool_decide (cy_required_window_types p = []))
    (invalid "policy must declare at least one required window type") ;?
  reject (not_ascending (cy_required_window_types p))
    (invalid "required window types must be unique and in canonical order") ;?
  let? computed := policy_compute_digest p in
  check_digest (cy_policy_digest p) computed "policy".

Definition set_policy_digest (d : string) (p : CapacityPolicyV1) : CapacityPolicyV1 :=
  {| cy_schema := cy_schema p; cy_policy_id := cy_policy_id p;
     cy_abundant_min_remaining := cy_abundant_min_remaining p;
     cy_normal_min_remaining := cy_normal_min_remaining p;
     cy_conserve_min_remaining := cy_conserve_min_remaining p;
     cy_minimum_confidence := cy_minimum_confidence p;
     cy_required_window_types := cy_required_window_types p;
     cy_unknown_allows_new_cheap_work := cy_unknown_allows_new_cheap_work p;
     cy_policy_digest := d |}.

(** [Default]: the thresholds are the doubles nearest 0.50, 0.25 and 0.10.
  The digest step panics on failure, so the model returns its error. *)
Definition default_policy : result CapacityError CapacityPolicyV1 :=
  let policy :=
    {| cy_schema := CAPACITY_POLICY_SCHEMA_V1;
       cy_policy_id := "nightshift-default-provider-reserve-v1";
       cy_abundant_min_remaining := S754_finite false 4503599627370496 (-53);
       cy_normal_min_remaining := S754_finite false 4503599627370496 (-54);
       cy_conserve_min_remaining := S754_finite false 7205759403792794 (-56);
       cy_minimum_confidence := Medium;
       cy_required_window_types := [FiveHour; Weekly];
       cy_unknown_allows_new_cheap_work := false;
       cy_policy_digest := "" |} in
  let? d := policy_compute_digest policy in
  Ok (set_policy_digest d policy).

(** ** Decisions *)

Definition decision_compute_digest (d : CapacityDecisionV1) : result CapacityError string :=
  digest_record d "decision_digest" DECISION_DOMAIN.

Definition fields_match_state (d : CapacityDecisionV1) : bool :=
  let expensive := cd_allow_new_expensive_work d in
  let speculative := cd_allow_new_speculative_work d in
  match cd_state d with
  | Abundant => bool_decide (cd_admission d = OrdinaryBounded) && expensive && speculative
  | Normal => bool_decide (cd_admission d = OrdinaryBounded) && expensive && negb speculative
  | Conserve =>
      bool_decide (cd_admission d = CheapBoundedOnly) && negb expensive && negb speculative
  | Critical => bool_decide (cd_admission d = NoNewWork) && negb expensive && negb speculative
  | StateUnknown =>
      (bool_decide (cd_admission d = CheapBoundedOnly)
       || bool_decide (cd_admission d = NoNewWork))
      && negb expensive && negb speculative
  end.

Definition decision_validate (d : CapacityDecisionV1) : result CapacityError unit :=
  reject (negb (String.eqb (cd_schema d) CAPACITY_DECISION_SCHEMA_V1))
    (invalid "unknown decision schema") ;?
  nonempty "provider_id" (cd_provider_id d) ;?
  reject (bool_decide (cd_reason_codes d = [])
          || existsb (fun reason => negb (is_reason_token reason)) (cd_reason_codes d))
    (invalid "decision reason codes must be nonempty closed tokens") ;?
  (let unique_reasons := dedup (sort_strings (cd_reason_codes d)) in
   reject (negb (length unique_reasons =? length (cd_reason_codes d))%nat)
     (invalid "decision reason codes must be unique")) ;?
  reject (negb (is_sha256_digest (cd_observation_digest d))
          || negb (is_sha256_digest (cd_policy_digest d)))
    (invalid "decision must bind exact SHA-256 observation and policy digests") ;?
  reject (negb (cd_allow_active_work_to_reach_custody d))
    (invalid "active work must remain able to reach custody") ;?
  reject (negb (fields_match_state d))
    (invalid "decision admission fields contradict capacity state") ;?
  let? computed := decision_compute_digest d in
  check_digest (cd_decision_digest d) computed "decision".

(** [missing_window_reasons]. *)
Definition missing_window_reasons (o : CapacityObservationV1) (p : CapacityPolicyV1)
    : list string :=
  (fun w => "REQUIRED_WINDOW_MISSING_" +:+ window_type_token w) <$>
  List.filter (fun required =>
      negb (existsb (fun window => bool_decide (cw_window_type window = required))
              (co_windows o)))
    (cy_required_window_types p).

(** [filter_map(remaining_fraction).reduce(f64::min)]. *)
Definition fractions (o : CapacityObservationV1) : list spec_float :=
  omap cw_remaining_fraction (co_windows o).
Definition reduce_min (l : list spec_float) : option spec_float :=
  match l with [] => None | x :: l => Some (foldl f64_min x l) end.

Definition rollover (o : CapacityObservationV1) (decision_at : instant) : bool :=
  existsb (fun w => match cw_resets_at w with
                    | Some reset => (reset <=? decision_at)%Z
                    | None => false
                    end) (co_windows o).

(** The [state] expression of [decide_capacity] with the reasons it pushes. *)
Definition classify (o : CapacityObservationV1) (p : CapacityPolicyV1) (decision_at : instant)
    : list string * CapacityState :=
  let missing := missing_window_reasons o p in
  if bool_decide (co_disposition o = DispositionUnknown)
  then ((co_unknown_reasons o ++ missing)%list, StateUnknown)
  else if (decision_at <? co_observed_at o)%Z
  then (["DECISION_PRECEDES_OBSERVATION"], StateUnknown)
  else if (co_expires_at o <=? decision_at)%Z
  then (["OBSERVATION_STALE"], StateUnknown)
  else if rollover o decision_at
  then (["RESET_ROLLOVER_REQUIRES_NEW_OBSERVATION"], StateUnknown)
  else if bool_decide (co_source_class o = SourceUnknown)
          || (confidence_rank (co_confidence o) <? confidence_rank (cy_minimum_confidence p))%N
  then (["SOURCE_OR_CONFIDENCE_INSUFFICIENT"], StateUnknown)
  else if negb (bool_decide (missing = []))
  then (missing, StateUnknown)
  else match reduce_min (fractions o) with
       | None => (["NO_FRACTIONAL_CAPACITY_MEASURE"], StateUnknown)
       | Some v =>
           if SFleb (cy_abundant_min_remaining p) v then ([], Abundant)
           else if SFleb (cy_normal_min_remaining p) v then ([], Normal)
           else if SFleb (cy_conserve_min_remaining p) v then ([], Conserve)
           else ([], Critical)
       end.

Definition admission_fields (s : CapacityState) (p : CapacityPolicyV1)
    : AdmissionDisposition * bool * bool :=
  match s with
  | Abundant => (OrdinaryBounded, true, true)
  | Normal => (OrdinaryBounded, true, false)
  | Conserve => (CheapBoundedOnly, false, false)
  | Critical => (NoNewWork, false, false)
  | StateUnknown =>
      if cy_unknown_allows_new_cheap_work p then (CheapBoundedOnly, false, false)
      else (NoNewWork, false, false)
  end.

Definition set_decision_digest (d : string) (c : CapacityDecisionV1) : CapacityDecisionV1 :=
  {| cd_schema := cd_schema c; cd_provider_id := cd_provider_id c;
     cd_decision_at := cd_decision_at c; cd_state := cd_state c;
     cd_admission := cd_admission c;
     cd_allow_new_expensive_work := cd_allow_new_expensive_work c;
     cd_allow_new_speculative_work := cd_allow_new_speculative_work c;
     cd_allow_active_work_to_reach_custody := cd_allow_active_work_to_reach_custody c;
     cd_reason_codes := cd_reason_codes c; cd_observation_digest := cd_observation_digest c;
     cd_policy_digest := cd_policy_digest c; cd_decision_digest := d |}.

Definition decide_capacity (o : CapacityObservationV1) (p : CapacityPolicyV1)
    (decision_at : instant) : result CapacityError CapacityDecisionV1 :=
  observation_validate o ;?
  policy_validate p ;?
  let '(reasons, state) := classify o p decision_at in
  let reasons :=
    match reasons with
    | [] => [to_uppercase ("MINIMUM_REMAINING_WINDOW_" +:+ state_debug state)]
    | _ => reasons
    end in
  let '(admission, expensive, speculative) := admission_fields state p in
  let decision :=
    {| cd_schema := CAPACITY_DECISION_SCHEMA_V1;
       cd_provider_id := co_provider_id o;
       cd_decision_at := decision_at;
       cd_state := state;
       cd_admission := admission;
       cd_allow_new_expensive_work := expensive;
       cd_allow_new_speculative_work := speculative;
       cd_allow_active_work_to_reach_custody := true;
       cd_reason_codes := reasons;
       cd_observation_digest := co_observation_digest o;
       cd_policy_digest := cy_policy_digest p;
       cd_decision_digest := "" |} in
  let? d := decision_compute_digest decision in
  Ok (set_decision_digest d decision).
End capacity.

Arguments set_decision_digest : simpl never.
Arguments set_policy_digest : simpl never.
