(* ===== verification/CapacityFacts.v ===== *)
(** * Facts about provider capacity

    What a capacity decision permits, and which decisions the decision
    validator accepts. *)
From S2P Require Import Prelude Text External Capacity.
From Stdlib Require Import SpecFloat.
Local Open Scope string_scope.

(** ** The order of [f64] values that are not NaN *)

(** [SFcompare] is the lexicographic order of these keys. *)
Definition float_key (f : spec_float) : Z * Z * Z :=
  match f with
  | S754_infinity true => (-2, 0, 0)%Z
  | S754_finite true m e => (-1, - e, - Zpos m)%Z
  | S754_zero _ => (0, 0, 0)%Z
  | S754_finite false m e => (1, e, Zpos m)%Z
  | S754_infinity false => (2, 0, 0)%Z
  | S754_nan => (0, 0, 0)%Z
  end.

Definition key_lex_le (p q : Z * Z * Z) : Prop :=
  let '(a, b, c) := p in
  let '(a', b', c') := q in
  (a < a' \/ a = a' /\ (b < b' \/ b = b' /\ c <= c'))%Z.

Lemma SFleb_key f g :
  is_nan f = false -> is_nan g = false -> SFleb f g = true <-> key_lex_le (float_key f) (float_key g).
Proof.
  intros Hf Hg. unfold SFleb.
  destruct f as [[]|[]| |[] m e], g as [[]|[]| |[] m' e']; try discriminate; simpl;
    try (split; [intros; lia|done]); try (split; [done|lia]);
    change (Pos.compare_cont Eq m m') with (Pos.compare m m');
    destruct (Z.compare_spec e e'), (Pos.compare_spec m m'); simpl;
    split; intros; try done; lia.
Qed.

Lemma SFltb_SFleb f g :
  is_nan f = false -> is_nan g = false -> SFltb f g = negb (SFleb g f).
Proof.
  intros Hf Hg. unfold SFltb, SFleb.
  destruct f as [[]|[]| |[] m e], g as [[]|[]| |[] m' e']; try discriminate; simpl; try done;
    rewrite (Z.compare_antisym e e');
    change (Pos.compare_cont Eq m m') with (Pos.compare m m');
    change (Pos.compare_cont Eq m' m) with (Pos.compare m' m);
    rewrite (Pos.compare_antisym m m');
    by destruct (e ?= e')%Z, (Pos.compare m m').
Qed.

Lemma SFleb_trans f g h :
  is_nan f = false -> is_nan g = false -> is_nan h = false ->
  SFleb f g = true -> SFleb g h = true -> SFleb f h = true.
Proof.
  intros Hf Hg Hh. rewrite !SFleb_key by done. unfold key_lex_le.
  destruct (float_key f) as [[? ?] ?], (float_key g) as [[? ?] ?], (float_key h) as [[? ?] ?].
  lia.
Qed.

Lemma is_finite_not_nan f : is_finite f = true -> is_nan f = false.
Proof. by destruct f. Qed.

Lemma f64_min_not_nan a b : is_nan a = false -> is_nan b = false -> is_nan (f64_min a b) = false.
Proof. intros Ha Hb. unfold f64_min. rewrite Ha, Hb. by destruct (SFltb b a). Qed.

Lemma SFleb_f64_min t a b :
  is_nan t = false -> is_nan a = false -> is_nan b = false ->
  SFleb t (f64_min a b) = true <-> SFleb t a = true /\ SFleb t b = true.
Proof.
  intros Ht Ha Hb. unfold f64_min. rewrite Ha, Hb, SFltb_SFleb by done.
  destruct (SFleb a b) eqn:Hab; simpl.
  - split; [|by intros []]. intros H. split; [done|]. by eapply (SFleb_trans t a b).
  - split; [|by intros []]. intros H. split; [|done].
    eapply (SFleb_trans t b a); try done.
    rewrite SFleb_key by done. assert (Hn : ~ key_lex_le (float_key a) (float_key b)).
    { rewrite <- SFleb_key by done. by rewrite Hab. }
    unfold key_lex_le in *. destruct (float_key a) as [[? ?] ?], (float_key b) as [[? ?] ?]. lia.
Qed.

(** The reduced minimum reaches a threshold exactly when every value does. *)
Lemma reduce_min_threshold t l v :
  is_nan t = false -> Forall (fun x => is_nan x = false) l -> reduce_min l = Some v ->
  SFleb t v = true <-> Forall (fun x => SFleb t x = true) l.
Proof.
  intros Ht Hl. destruct l as [|x l]; [done|]. simpl. intros [= <-].
  rewrite Forall_cons in Hl. destruct Hl as [Hx Hl]. revert x Hx.
  induction Hl as [|y l Hy _ IH]; intros x Hx; simpl.
  - rewrite Forall_cons. split; [done|by intros []].
  - rewrite IH by (by apply f64_min_not_nan). rewrite !Forall_cons, SFleb_f64_min by done. tauto.
Qed.

(** ** Unique reason codes *)

Lemma dedup_length_le l : length (dedup l) <= length l.
Proof.
  induction l as [|x [|y l] IH]; [done|done|]. cbn [dedup].
  destruct (String.eqb x y); simpl in *; lia.
Qed.

Lemma dedup_length_NoDup l :
  StronglySorted String.le l -> length (dedup l) = length l <-> NoDup l.
Proof.
  induction l as [|x l IH]; intros Hs; [split; [constructor|done]|].
  apply StronglySorted_inv in Hs as [Hs Hx]. destruct l as [|y l].
  { split; [intros _; apply NoDup_singleton|done]. }
  specialize (IH Hs). cbn [dedup]. destruct (String.eqb_spec x y) as [->|Hne].
  - pose proof (dedup_length_le (y :: l)). split; [simpl in *; lia|].
    intros Hnd. apply NoDup_cons in Hnd as [Hin _]. exfalso. apply Hin. by left.
  - assert (length (x :: dedup (y :: l)) = length (x :: y :: l)
            <-> length (dedup (y :: l)) = length (y :: l)) as Hlen by (cbn [length]; lia).
    rewrite Hlen, IH, (NoDup_cons x). split; [|by intros []].
    intros Hnd. split; [|done]. intros [->|Hin]%elem_of_cons; [done|].
    apply Hne. apply (anti_symm String.le).
    + apply Forall_cons in Hx as [? _]. done.
    + apply StronglySorted_inv in Hs as [_ Hy]. by eapply Forall_forall in Hy.
Qed.

Lemma unique_reasons_NoDup l :
  length (dedup (sort_strings l)) = length l <-> NoDup l.
Proof.
  unfold sort_strings. pose proof (merge_sort_Permutation String.le l) as Hp.
  rewrite <- (Permutation_length Hp), dedup_length_NoDup, Hp; [done|].
  apply StronglySorted_merge_sort; apply _.
Qed.

(** ** Digests *)

Lemma lower_hex_digest_text hex :
  strlen hex = 64%N -> bytes_all lower_hex hex = true ->
  is_sha256_digest ("sha256:" +:+ hex) = true.
Proof.
  intros Hl Hd. unfold is_sha256_digest. rewrite strlen_app, Hl, starts_with_app.
  change 7 with (String.length "sha256:"). rewrite str_drop_app. exact Hd.
Qed.

Section digests.
Context {HO : Host} {HOk : HostOk HO}.

Lemma digest_record_text {T} `{Serde T} (t : T) field domain d :
  digest_record t field domain = Ok d -> is_sha256_digest d = true.
Proof.
  unfold digest_record. intros Hd. apply rbind_ok in Hd as ([] & _ & Hd); try discriminate.
  apply rbind_ok in Hd as (c & _ & Hd). injection Hd as <-.
  apply lower_hex_digest_text; [apply sha256_hex_length|apply sha256_hex_digits].
Qed.

Lemma digest_record_set {T} `{Serde T} field set_digest domain d (t : T) :
  SealedOk T field set_digest ->
  digest_record (set_digest d t) field domain = digest_record t field domain.
Proof.
  intros Hsealed. unfold digest_record.
  destruct (Hsealed d t) as [(e & -> & ->)|(kvs & kvs' & -> & -> & Heq)]; simpl; [done|].
  by rewrite Heq.
Qed.
End digests.

Lemma check_digest_ok actual expected kind :
  check_digest actual expected kind = Ok tt <-> actual = expected.
Proof. unfold check_digest. destruct (String.eqb_spec actual expected); naive_solver. Qed.

Lemma nonempty_ok field v : nonempty field v = Ok tt <-> trim_is_empty v = false.
Proof. apply if_err_ok. Qed.

(** ** Decisions *)

Section decisions.
Context {HO : Host} {HOk : HostOk HO}.
Context {SO : Serde CapacityObservationV1} {SP : Serde CapacityPolicyV1}
{SD : Serde CapacityDecisionV1}.
Context {DOk : SealedOk CapacityDecisionV1 "decision_digest" set_decision_digest}.

Implicit Types (o : CapacityObservationV1) (p : CapacityPolicyV1) (d : CapacityDecisionV1).

(** The reasons a decision carries. *)
Definition decision_reasons o p t : list string :=
  match (classify o p t).1 with
  | [] => [to_uppercase ("MINIMUM_REMAINING_WINDOW_" +:+ state_debug (classify o p t).2)]
  | reasons => reasons
  end.

Definition unsealed_decision o p t : CapacityDecisionV1 :=
  let '(admission, expensive, speculative) := admission_fields (classify o p t).2 p in
  {| cd_schema := CAPACITY_DECISION_SCHEMA_V1; cd_provider_id := co_provider_id o;
     cd_decision_at := t; cd_state := (classify o p t).2; cd_admission := admission;
     cd_allow_new_expensive_work := expensive; cd_allow_new_speculative_work := speculative;
     cd_allow_active_work_to_reach_custody := true;
     cd_reason_codes := decision_reasons o p t;
     cd_observation_digest := co_observation_digest o; cd_policy_digest := cy_policy_digest p;
     cd_decision_digest := "" |}.

Lemma decide_capacity_ok o p t d :
  decide_capacity o p t = Ok d ->
  observation_validate o = Ok tt /\ policy_validate p = Ok tt /\
  exists dg, decision_compute_digest (unsealed_decision o p t) = Ok dg /\
    d = set_decision_digest dg (unsealed_decision o p t).
Proof.
  unfold decide_capacity, unsealed_decision, decision_reasons.
  destruct (classify o p t) as [[|r reasons] s]; cbn [fst snd];
    destruct (admission_fields s p) as [[a e] sp];
    rewrite !rseq_ok, rbind_ok; intros (Ho & Hp & dg & Hdg & [= <-]); eauto.
Qed.

Lemma observation_digest_text o :
  observation_validate o = Ok tt -> is_sha256_digest (co_observation_digest o) = true.
Proof.
  unfold observation_validate. rewrite !rseq_ok, rbind_ok.
  setoid_rewrite check_digest_ok. intros (_&_&_&_&_&_&_& d & Hd & ->).
  by apply digest_record_text in Hd.
Qed.

Lemma policy_digest_text p :
  policy_validate p = Ok tt -> is_sha256_digest (cy_policy_digest p) = true.
Proof.
  unfold policy_validate. rewrite !rseq_ok, rbind_ok.
  setoid_rewrite check_digest_ok. intros (_&_&_&_&_& d & Hd & ->).
  by apply digest_record_text in Hd.
Qed.

Lemma observation_provider_text o :
  observation_validate o = Ok tt -> trim_is_empty (co_provider_id o) = false.
Proof. unfold observation_validate. rewrite !rseq_ok. intros (_ & H & _). by apply nonempty_ok in H. Qed.

Lemma decided_fields_match o p t : fields_match_state (unsealed_decision o p t) = true.
Proof.
  unfold unsealed_decision, fields_match_state, admission_fields.
  destruct (classify o p t).2; simpl; try done.
  by destruct (cy_unknown_allows_new_cheap_work p).
Qed.

Lemma decision_reasons_nonempty o p t : decision_reasons o p t <> [].
Proof. unfold decision_reasons. by destruct (classify o p t).1. Qed.

(** The verdict of the validator on a decided decision is the verdict on its reasons. *)
Lemma decided_validates_iff o p t d :
  decide_capacity o p t = Ok d ->
  decision_validate d = Ok tt <->
  NoDup (cd_reason_codes d) /\ Forall (fun r => is_reason_token r = true) (cd_reason_codes d).
Proof.
  intros Hd. apply decide_capacity_ok in Hd as (Ho & Hp & dg & Hdg & ->).
  unfold decision_validate, decision_compute_digest in *.
  rewrite (digest_record_set _ _ _ _ _ DOk), Hdg. cbn [rbind].
  pose proof (decided_fields_match o p t) as Hmatch.
  pose proof (decision_reasons_nonempty o p t) as Hne.
  pose proof (observation_digest_text o Ho) as Hod.
  pose proof (policy_digest_text p Hp) as Hpd.
  pose proof (observation_provider_text o Ho) as Hprov.
  unfold unsealed_decision in *.
  destruct (admission_fields (classify o p t).2 p) as [[a e] sp]; cbn -[nonempty] in *.
  change (fields_match_state (set_decision_digest dg ?x)) with (fields_match_state x).
  rewrite !rseq_ok, !reject_ok, check_digest_ok, nonempty_ok, !orb_false_iff, !negb_false_iff.
  rewrite bool_decide_eq_false, Nat.eqb_eq, unique_reasons_NoDup, existsb_false_Forall.
  setoid_rewrite negb_false_iff. tauto.
Qed.
End decisions.

(** ** What a decision permits *)

Section permissions.
Context {HO : Host} {SO : Serde CapacityObservationV1} {SP : Serde CapacityPolicyV1}
{SD : Serde CapacityDecisionV1}.

Implicit Types (o : CapacityObservationV1) (p : CapacityPolicyV1) (d : CapacityDecisionV1).

Lemma validated_fractions_not_nan o :
  observation_validate o = Ok tt -> Forall (fun v => is_nan v = false) (fractions o).
Proof.
  unfold observation_validate. rewrite !rseq_ok, for_each_ok, Forall_forall.
  intros (_&_&_&_&_&_& Hw & _). apply Forall_forall. intros v Hv.
  apply list_elem_of_omap in Hv as (w & Hin & Hv). specialize (Hw w Hin).
  unfold check_window in Hw. rewrite Hv, !rseq_ok, reject_ok in Hw.
  destruct Hw as (_ & Hfin & _). apply orb_false_iff in Hfin as [Hfin _].
  apply is_finite_not_nan. by apply negb_false_iff in Hfin.
Qed.

Lemma validated_thresholds p :
  policy_validate p = Ok tt ->
  is_nan (cy_abundant_min_remaining p) = false /\
  is_nan (cy_normal_min_remaining p) = false /\
  SFleb (cy_normal_min_remaining p) (cy_abundant_min_remaining p) = true.
Proof.
  unfold policy_validate. rewrite !rseq_ok, !reject_ok, !orb_false_iff.
  cbn [existsb]. rewrite !orb_false_iff, !negb_false_iff.
  intros (_ & _ & (((((Ha & Hn & _) & _) & _) & Han) & _) & _).
  apply is_finite_not_nan in Ha, Hn. split; [done|]. split; [done|].
  pose proof (SFltb_SFleb (cy_normal_min_remaining p) (cy_abundant_min_remaining p) Hn Ha)
    as Hlt. rewrite Han in Hlt. unfold SFltb, SFleb in *.
  by destruct (SFcompare (cy_normal_min_remaining p) (cy_abundant_min_remaining p)) as [[]|].
Qed.

Lemma rollover_false o t :
  rollover o t = false <->
  forall w reset, w ∈ co_windows o -> cw_resets_at w = Some reset -> (t < reset)%Z.
Proof.
  unfold rollover. rewrite existsb_false_Forall, Forall_forall. split.
  - intros H w r Hw Hr. specialize (H w Hw). rewrite Hr in H. by apply Z.leb_gt.
  - intros H w Hw. destruct (cw_resets_at w) as [r|] eqn:E; [|done].
    apply Z.leb_gt. by apply (H w).
Qed.

Lemma missing_windows_nil o p :
  missing_window_reasons o p = [] <->
  forall ty, ty ∈ cy_required_window_types p ->
    exists w, w ∈ co_windows o /\ cw_window_type w = ty.
Proof.
  unfold missing_window_reasons. split.
  - intros Hnil%fmap_nil_inv ty Hty.
    destruct (existsb (fun w => bool_decide (cw_window_type w = ty)) (co_windows o)) eqn:E.
    + apply existsb_true_Exists in E as (w & Hw & Hb). apply bool_decide_eq_true in Hb. eauto.
    + exfalso. assert (ty ∈ @nil WindowType) as Hin; [|by apply elem_of_nil in Hin].
      rewrite <- Hnil. apply list_elem_of_In, filter_In.
      rewrite E. split; [by apply list_elem_of_In|done].
  - intros H. destruct (List.filter _ _) as [|ty l] eqn:E; [done|exfalso].
    assert (ty ∈ ty :: l) as Hin by left. rewrite <- E in Hin.
    apply list_elem_of_In, filter_In in Hin as [Hty Hn].
    apply list_elem_of_In, H in Hty as (w & Hw & Heq). apply negb_true_iff in Hn.
    rewrite existsb_false_Forall, Forall_forall in Hn. specialize (Hn w Hw).
    by rewrite bool_decide_eq_false in Hn.
Qed.

(** An observation that supports a measured state at [t] under [p]. *)
Definition measurable o p t : Prop :=
  co_disposition o = Usable /\
  (co_observed_at o <= t < co_expires_at o)%Z /\
  (forall w reset, w ∈ co_windows o -> cw_resets_at w = Some reset -> (t < reset)%Z) /\
  co_source_class o <> SourceUnknown /\
  (confidence_rank (cy_minimum_confidence p) <= confidence_rank (co_confidence o))%N /\
  (forall ty, ty ∈ cy_required_window_types p ->
     exists w, w ∈ co_windows o /\ cw_window_type w = ty) /\
  fractions o <> [].

Lemma classify_measurable o p t :
  (classify o p t).2 <> StateUnknown <-> measurable o p t.
Proof.
  unfold classify, measurable. rewrite <- rollover_false, <- missing_windows_nil.
  destruct (co_disposition o); simpl; [|naive_solver].
  destruct (Z.ltb_spec t (co_observed_at o)); simpl; [naive_solver lia|].
  destruct (Z.leb_spec (co_expires_at o) t); simpl; [naive_solver lia|].
  destruct (rollover o t); simpl; [naive_solver|].
  destruct (bool_decide_reflect (co_source_class o = SourceUnknown)); simpl; [naive_solver|].
  destruct (N.ltb_spec (confidence_rank (co_confidence o))
    (confidence_rank (cy_minimum_confidence p))); simpl; [naive_solver lia|].
  destruct (bool_decide_reflect (missing_window_reasons o p = [])) as [|]; simpl; [|naive_solver].
  destruct (fractions o) as [|f fs]; simpl; [naive_solver|].
  repeat case_match; simpl; naive_solver.
Qed.

Lemma classify_measured o p t v :
  measurable o p t -> reduce_min (fractions o) = Some v ->
  classify o p t =
    ([], if SFleb (cy_abundant_min_remaining p) v then Abundant
         else if SFleb (cy_normal_min_remaining p) v then Normal
         else if SFleb (cy_conserve_min_remaining p) v then Conserve else Critical).
Proof.
  intros Hm Hv. pose proof Hm as Hu. apply classify_measurable in Hu. revert Hu.
  unfold classify. rewrite Hv. repeat case_match; simpl; done.
Qed.
Lemma window_type_token_inj : Inj eq eq (fun w => "REQUIRED_WINDOW_MISSING_" +:+ window_type_token w).
Proof. intros [] []; vm_compute; congruence. Qed.

Lemma not_ascending_NoDup l : not_ascending l = false -> NoDup l.
Proof.
  intros H. assert (StronglySorted (fun a b => window_rank a < window_rank b)%N l) as Hs.
  { apply Sorted_StronglySorted; [intros ???; lia|].
    induction l as [|a [|b l] IH]; [constructor|repeat constructor|].
    cbn [not_ascending] in H. apply orb_false_iff in H as [Hab H]. apply N.leb_gt in Hab.
    constructor; [by apply IH|by constructor]. }
  clear H. induction Hs as [|a l _ IH Hall]; constructor; [|done].
  intros Hin. rewrite Forall_forall in Hall. specialize (Hall a Hin). lia.
Qed.

Lemma missing_window_reasons_fine o p :
  policy_validate p = Ok tt ->
  NoDup (missing_window_reasons o p) /\
  Forall (fun r => is_reason_token r = true) (missing_window_reasons o p).
Proof.
  unfold policy_validate. rewrite !rseq_ok, !reject_ok. intros (_&_&_&_& Hasc & _).
  unfold missing_window_reasons. split.
  - pose proof window_type_token_inj. apply NoDup_fmap_2; [done|]. apply NoDup_ListNoDup.
    apply List.NoDup_filter, NoDup_ListNoDup. by apply not_ascending_NoDup.
  - apply Forall_fmap, Forall_true. by intros [].
Qed.

Lemma single_reason_fine r :
  is_reason_token r = true -> NoDup [r] /\ Forall (fun r => is_reason_token r = true) [r].
Proof. intros Hr. split; [apply NoDup_singleton|by constructor]. Qed.

Lemma usable_reasons_fine o p t :
  policy_validate p = Ok tt -> co_disposition o = Usable ->
  NoDup (decision_reasons o p t) /\
  Forall (fun r => is_reason_token r = true) (decision_reasons o p t).
Proof.
  intros Hp Hu. unfold decision_reasons, classify. rewrite Hu.
  repeat case_match; simplify_eq/=; try (by apply single_reason_fine).
  all: match goal with
    | H : missing_window_reasons _ _ = _ :: _ |- _ =>
        pose proof (missing_window_reasons_fine o p Hp) as Hf; by rewrite H in Hf
    end.
Qed.
End permissions.

(** ** Properties *)

Section properties.
Context {HO : Host} {HOk : HostOk HO}.
Context {SO : Serde CapacityObservationV1} {SP : Serde CapacityPolicyV1}
{SD : Serde CapacityDecisionV1}.
Context {DOk : SealedOk CapacityDecisionV1 "decision_digest" set_decision_digest}.

(** A capacity decision allows new expensive work exactly when the observation
  is usable and current at the decision time, no window resets before then, the
  source is known with at least the policy's confidence, every required window
  type was observed, and every observed fraction (there is at least one) reaches
  the policy's normal threshold. *)
Theorem decide_capacity_expensive_work (o : CapacityObservationV1) (p : CapacityPolicyV1)
    (t : instant) (d : CapacityDecisionV1) :
  decide_capacity o p t = Ok d ->
  cd_allow_new_expensive_work d = true <->
  measurable o p t /\
  Forall (fun v => SFleb (cy_normal_min_remaining p) v = true) (fractions o).
Proof.
  intros Hd. apply decide_capacity_ok in Hd as (Ho & Hp & dg & _ & ->).
  apply validated_fractions_not_nan in Ho. apply validated_thresholds in Hp as (Ha & Hn & Hle).
  assert (cd_allow_new_expensive_work (set_decision_digest dg (unsealed_decision o p t)) =
    (admission_fields (classify o p t).2 p).1.2) as ->.
  { unfold unsealed_decision. by destruct (admission_fields _ _) as [[a e] sp]. }
  split.
  - intros He. assert (measurable o p t) as Hm.
    { apply classify_measurable. intros Hu. rewrite Hu in He. simpl in He.
      by destruct (cy_unknown_allows_new_cheap_work p). }
    split; [done|]. destruct (reduce_min (fractions o)) as [v|] eqn:Hv.
    + rewrite (classify_measured _ _ _ _ Hm Hv) in He.
      rewrite <- (reduce_min_threshold _ _ v) by done.
      destruct (SFleb (cy_abundant_min_remaining p) v) eqn:E1.
      * apply (SFleb_trans _ (cy_abundant_min_remaining p)); try done.
        destruct v; try done. by destruct (cy_abundant_min_remaining p).
      * destruct (SFleb (cy_normal_min_remaining p) v); [done|].
        by destruct (SFleb (cy_conserve_min_remaining p) v).
    + destruct Hm as (_&_&_&_&_&_& Hne). by destruct (fractions o).
  - intros [Hm Hall]. destruct (reduce_min (fractions o)) as [v|] eqn:Hv.
    + rewrite (classify_measured _ _ _ _ Hm Hv).
      rewrite <- (reduce_min_threshold _ _ v) in Hall by done. rewrite Hall.
      by destruct (SFleb (cy_abundant_min_remaining p) v).
    + destruct Hm as (_&_&_&_&_&_& Hne). by destruct (fractions o).
Qed.

(** C7: a decision computed by [decide_capacity] passes the decision validator exactly
  when the observation's own unknown reasons are reason tokens without repetition
  (counting the missing-window reasons); a usable observation always gives a
  decision that validates. *)
Theorem decided_decision_validates (o : CapacityObservationV1) (p : CapacityPolicyV1)
    (t : instant) (d : CapacityDecisionV1) :
  decide_capacity o p t = Ok d ->
  decision_validate d = Ok tt <->
  (co_disposition o = DispositionUnknown ->
   NoDup (co_unknown_reasons o ++ missing_window_reasons o p) /\
   Forall (fun r => is_reason_token r = true) (co_unknown_reasons o)).
Proof.
  intros Hd. rewrite (decided_validates_iff _ _ _ _ Hd).
  apply decide_capacity_ok in Hd as (Ho & Hp & dg & _ & ->).
  assert (cd_reason_codes (set_decision_digest dg (unsealed_decision o p t)) =
    decision_reasons o p t) as ->.
  { unfold unsealed_decision. by destruct (admission_fields _ _) as [[a e] sp]. }
  destruct (co_disposition o) eqn:Hdisp.
  { pose proof (usable_reasons_fine o p t Hp Hdisp). by split. }
  pose proof (missing_window_reasons_fine o p Hp) as [_ Htok].
  assert (decision_reasons o p t = (co_unknown_reasons o ++ missing_window_reasons o p)%list)
    as ->.
  { unfold observation_validate, check_disposition in Ho. rewrite Hdisp, !rseq_ok in Ho.
    destruct Ho as (_&_&_&_& Hne & _). unfold decision_reasons, classify. rewrite Hdisp. simpl.
    by destruct (co_unknown_reasons o). }
  rewrite Forall_app. naive_solver.
Qed.
End properties.
