(* ===== verification/Contract.v ===== *)
(** * Foreman contracts (crates/nightshift-foreman/src/contract.rs)

    The JSON records the foreman exchanges with operators and worker adapters:
    each with its digest, its sealing and its closed validation, the binding of
    profile, adapter capabilities and start request, and the worker brief.
    A [u16] or [u64] field is an [N]; nothing here computes with one. *)
From S2P Require Import Prelude Text External Packet.
From Stdlib Require Import SpecFloat.
Local Open Scope string_scope.

(** ** Constants (crates/nightshift-foreman/src/lib.rs) *)

Definition FOREMAN_ADMISSION_SCHEMA_V1 : string := "nightshift.foreman-admission/v1".
Definition FOREMAN_CAPACITY_ADMISSION_SCHEMA_V1 : string :=
  "nightshift.foreman-capacity-admission/v1".
Definition FOREMAN_CAPACITY_REQUIREMENT_SCHEMA_V1 : string :=
  "nightshift.foreman-capacity-requirement/v1".
Definition FOREMAN_EXECUTION_PROFILE_SCHEMA_V2 : string :=
  "nightshift.foreman-execution-profile/v2".
Definition FOREMAN_EXECUTION_PROFILE_SCHEMA_V3 : string :=
  "nightshift.foreman-execution-profile/v3".
Definition WORKER_START_REQUEST_SCHEMA_V2 : string := "nightshift.worker-start-request/v2".
Definition WORKER_BRIEF_BASIS_SCHEMA_V2 : string := "nightshift.worker-brief-basis/v2".
Definition WORKER_ADAPTER_CAPABILITIES_SCHEMA_V1 : string :=
  "nightshift.worker-adapter-capabilities/v1".
Definition WORKER_ATTEMPT_BINDING_SCHEMA_V1 : string := "nightshift.worker-attempt-binding/v1".
Definition WORKER_ADAPTER_EVENT_SCHEMA_V1 : string := "nightshift.worker-adapter-event/v1".
Definition WORKER_TERMINAL_RECEIPT_SCHEMA_V1 : string := "nightshift.worker-terminal-receipt/v1".
Definition WORK_ITEM_NOT_STARTED_RECEIPT_SCHEMA_V1 : string :=
  "nightshift.work-item-not-started-receipt/v1".
Definition MAXIMUM_ADAPTER_TIMEOUT_SECONDS : N := 86400.
Definition MAXIMUM_WORKER_OUTPUT_BYTES : N := 16777216.
Definition MAXIMUM_CAPACITY_HISTORY_BYTES : N := 16777216.
Definition MAXIMUM_PREDECESSOR_RECEIPTS : nat := 1024.
Definition MAXIMUM_WORKER_BRIEF_BYTES : N := 16777216.

Definition ADMISSION_DOMAIN : string := "nightshift.foreman-admission.digest/v1" +:+ NUL.
Definition CAPACITY_ADMISSION_DOMAIN : string :=
  "nightshift.foreman-capacity-admission.digest/v1" +:+ NUL.
Definition CAPACITY_REQUIREMENT_DOMAIN : string :=
  "nightshift.foreman-capacity-requirement.digest/v1" +:+ NUL.
Definition PROFILE_DOMAIN_V2 : string := "nightshift.foreman-execution-profile.digest/v2" +:+ NUL.
Definition PROFILE_DOMAIN_V3 : string := "nightshift.foreman-execution-profile.digest/v3" +:+ NUL.
Definition START_DOMAIN_V2 : string := "nightshift.worker-start-request.digest/v2" +:+ NUL.
Definition EVENT_DOMAIN : string := "nightshift.worker-adapter-event.digest/v1" +:+ NUL.
Definition TERMINAL_DOMAIN : string := "nightshift.worker-terminal-receipt.digest/v1" +:+ NUL.
Definition NOT_STARTED_DOMAIN : string :=
  "nightshift.work-item-not-started-receipt.digest/v1" +:+ NUL.
Definition RETAINED_RAW_DOMAIN : string := "nightshift.foreman-retained-raw.digest/v1" +:+ NUL.
Definition CAPABILITIES_RAW_DOMAIN : string :=
  "nightshift.worker-adapter-capabilities.raw/v1" +:+ NUL.
Definition WORKER_BRIEF_DOMAIN_V2 : string := "nightshift.worker-brief.digest/v2" +:+ NUL.

(** ** Data *)

(** [ContractPanicked] is no value of the source: it stands for an operation of
    chrono that panics on overflow. *)
Inductive ContractError :=
| Json (message : string)
| ForeignSchema (actual : string)
| InvalidField (field : string)
| DigestMismatch (field : string)
| ContractPanicked (what : string).

Record ForemanAdmissionV1 := {
  fa_schema : string;
  fa_admission_digest : string;
  fa_run_id : string;
  fa_packet_digest : string;
  fa_operator_basis_digest : string;
  fa_admitted_at : instant;
  fa_expires_at : instant;
  fa_local_runtime_identity : string;
  fa_maximum_concurrent_workers : N;
  fa_allowed_adapter_ids : list string;
  fa_allowed_provider_model_classes : list string;
  fa_maximum_new_attempts_per_work_item : N;
  fa_authority_effect : string;
  fa_target_effects_authorized : bool
}.

Inductive CapacityCostClassV1 := Cheap | Expensive.

#[global] Instance CapacityCostClassV1_eq_dec : EqDecision CapacityCostClassV1.
Proof. solve_decision. Defined.

Record ForemanCapacityRequirementV1 := {
  cr_schema : string;
  cr_capacity_requirement_digest : string;
  cr_packet_digest : string;
  cr_admission_digest : string;
  cr_profile_digest : string;
  cr_run_id : string;
  cr_policy_id : string;
  cr_provider_id : string;
  cr_model_cost_classes : gmap string CapacityCostClassV1;
  cr_authority_effect : string
}.

Record ForemanCapacityAdmissionV1 := {
  cm_schema : string;
  cm_capacity_admission_digest : string;
  cm_packet_digest : string;
  cm_admission_digest : string;
  cm_profile_digest : string;
  cm_capacity_requirement_digest : string;
  cm_run_id : string;
  cm_work_item_id : string;
  cm_adapter_id : string;
  cm_provider_id : string;
  cm_packet_model_class : string;
  cm_profile_model_class : string;
  cm_cost_class : CapacityCostClassV1;
  cm_policy_id : string;
  cm_observation_digest : string;
  cm_policy_digest : string;
  cm_decision_digest : string;
  cm_evaluated_at : instant;
  cm_speculative_requested : bool;
  cm_authority_effect : string
}.

Record AdapterRegistrationV2 := {
  ar_adapter_id : string;
  ar_protocol : string;
  ar_adapter_version : string;
  ar_executable_identity : string;
  ar_bounded_arguments : list string
}.

Record WorkItemExecutionV1 := {
  wx_adapter_id : string;
  wx_workspace_identity : string;
  wx_resource_lock_keys : list string;
  wx_provider_model_class : string
}.

Record ExecutionProfileV2 := {
  ep_schema : string;
  ep_profile_digest : string;
  ep_packet_digest : string;
  ep_admission_digest : string;
  ep_adapters : gmap string AdapterRegistrationV2;
  ep_work_items : gmap string WorkItemExecutionV1;
  ep_budget_policy_ref : string;
  ep_log_custody_root : string;
  ep_receipt_custody_root : string;
  ep_maximum_event_bytes : N;
  ep_maximum_worker_output_bytes : option N;
  ep_maximum_receipt_bytes : N;
  ep_adapter_timeout_seconds : N;
  ep_closeout_policy : string
}.

Record WorkerAdapterCapabilitiesV1 := {
  wc_schema : string;
  wc_adapter_id : string;
  wc_adapter_protocol : string;
  wc_adapter_version : string;
  wc_adapter_executable_identity : string;
  wc_provider_kind : string;
  wc_commands : list string;
  wc_approval_policy : string;
  wc_expected_start_request_schema : string;
  wc_event_schema : string;
  wc_terminal_receipt_schema : string;
  wc_target_effects_authorized : bool
}.

Record AdapterContractVerificationV1 := {
  av_schema : string;
  av_capabilities_raw_digest : string;
  av_profile_digest : string;
  av_request_digest : string;
  av_adapter_id : string;
  av_adapter_protocol : string;
  av_adapter_version : string;
  av_adapter_executable_identity : string;
  av_disposition : string
}.

Record WorkerAttemptBindingV1 := {
  ab_schema : string;
  ab_request_digest : string;
  ab_packet_digest : string;
  ab_run_id : string;
  ab_work_item_id : string;
  ab_attempt_id : string;
  ab_adapter_id : string;
  ab_adapter_version : string
}.

Inductive SchedulerStateV1 :=
| WaitingDependencies
| ReadyEntryEvaluation
| WaitingResource
| Dispatching
| Running
| WaitingProvider
| WaitingApproval
| WaitingHuman
| Checkpointed
| TerminalReceiptAccepted
| TerminalReceiptRefused
| NotStarted
| IndeterminateMechanismState.

#[global] Instance SchedulerStateV1_eq_dec : EqDecision SchedulerStateV1.
Proof. solve_decision. Defined.

Definition is_explicit_terminal (s : SchedulerStateV1) : bool :=
  match s with TerminalReceiptAccepted | NotStarted => true | _ => false end.

Record RetainedRawBytesV1 := {
  rr_retained_raw_digest : string;
  rr_encoding : string;
  rr_bytes_hex : string
}.

Record RetainedPredecessorReceiptV1 := {
  rp_receipt_kind : string;
  rp_retained_raw_digest : string;
  rp_encoding : string;
  rp_bytes_hex : string
}.

Record RecognizedContractJsonV1 := {
  rj_contract : string;
  rj_canonical_json : string
}.

Record WorkerBriefV2 := {
  bf_schema : string;
  bf_packet_digest : string;
  bf_packet_source : RetainedRawBytesV1;
  bf_work_item : RecognizedContractJsonV1;
  bf_predecessor_receipts : gmap string RetainedPredecessorReceiptV1;
  bf_global_constraints : RecognizedContractJsonV1;
  bf_execution : RecognizedContractJsonV1
}.

Record WorkerStartRequestV2 := {
  sr_schema : string;
  sr_request_digest : string;
  sr_adapter_id : string;
  sr_adapter_version : string;
  sr_adapter_protocol : string;
  sr_packet_digest : string;
  sr_run_id : string;
  sr_work_item_id : string;
  sr_attempt_id : string;
  sr_worker_brief_digest : string;
  sr_workspace_identity : string;
  sr_provider_model_class : string;
  sr_timeout_seconds : N;
  sr_maximum_output_bytes : N;
  sr_recursive_worker_swarms_forbidden : bool;
  sr_approval_policy : string;
  sr_expected_receipt_schema : string
}.

Inductive AdapterEventKindV1 :=
| AdapterAccepted
| ProviderIdentity
| WorkerStarted
| Checkpoint
| WaitingApprovalEvent
| HumanQuestion
| ProviderCompletionObservation
| AdapterDiagnostic
| MechanismIndeterminate.

#[global] Instance AdapterEventKindV1_eq_dec : EqDecision AdapterEventKindV1.
Proof. solve_decision. Defined.

Record HumanQuestionV1 := {
  hq_question_id : string;
  hq_question : string;
  hq_exhausted_evidence : string;
  hq_safe_default : string;
  hq_consequences : string;
  hq_resume_point : string
}.

Record AdapterEventV1 := {
  ae_schema : string;
  ae_event_digest : string;
  ae_event_id : string;
  ae_packet_digest : string;
  ae_run_id : string;
  ae_work_item_id : string;
  ae_attempt_id : string;
  ae_adapter_id : string;
  ae_adapter_version : string;
  ae_occurred_at : instant;
  ae_kind : AdapterEventKindV1;
  ae_provider_identity : option string;
  ae_model_identity : option string;
  ae_session_identity : option string;
  ae_thread_identity : option string;
  ae_turn_identity : option string;
  ae_queue_identity : option string;
  ae_message : option string;
  ae_human_question : option HumanQuestionV1;
  ae_extensions : gmap string value
}.

Record ReceiptRepositoryV1 := {
  rx_repository : string;
  rx_branch : string;
  rx_head : string;
  rx_push_status : string
}.

Record TeardownDeclarationV1 := {
  td_live_runtime : string;
  td_secrets : string;
  td_teardown : string
}.

Record TerminalReceiptV1 := {
  tr_schema : string;
  tr_receipt_digest : string;
  tr_packet_digest : string;
  tr_run_id : string;
  tr_work_item_id : string;
  tr_attempt_id : string;
  tr_adapter_id : string;
  tr_adapter_version : string;
  tr_provider_identity : string;
  tr_model_identity : string;
  tr_session_identity : option string;
  tr_thread_identity : option string;
  tr_turn_identity : option string;
  tr_queue_identity : option string;
  tr_started_at : instant;
  tr_ended_at : instant;
  tr_state : string;
  tr_result_classification : string;
  tr_repositories : list ReceiptRepositoryV1;
  tr_tests : list string;
  tr_evidence : list string;
  tr_live_or_production_mutations : list string;
  tr_remaining_trigger : string;
  tr_next_lawful_action : string;
  tr_human_questions : list HumanQuestionV1;
  tr_teardown : TeardownDeclarationV1;
  tr_extensions : gmap string value
}.

Record NotStartedReceiptV1 := {
  nr_schema : string;
  nr_receipt_digest : string;
  nr_packet_digest : string;
  nr_run_id : string;
  nr_work_item_id : string;
  nr_recorded_at : instant;
  nr_state : string;
  nr_result_classification : string;
  nr_evidence : list string;
  nr_remaining_trigger : string;
  nr_next_lawful_action : string;
  nr_human_questions : list HumanQuestionV1;
  nr_extensions : gmap string value
}.

(** [self.<x>_digest = ..] on each sealed record. *)

Definition set_admission_digest (d : string) (r : ForemanAdmissionV1) : ForemanAdmissionV1 :=
  {| fa_schema := fa_schema r; fa_admission_digest := d; fa_run_id := fa_run_id r;
     fa_packet_digest := fa_packet_digest r;
     fa_operator_basis_digest := fa_operator_basis_digest r;
     fa_admitted_at := fa_admitted_at r; fa_expires_at := fa_expires_at r;
     fa_local_runtime_identity := fa_local_runtime_identity r;
     fa_maximum_concurrent_workers := fa_maximum_concurrent_workers r;
     fa_allowed_adapter_ids := fa_allowed_adapter_ids r;
     fa_allowed_provider_model_classes := fa_allowed_provider_model_classes r;
     fa_maximum_new_attempts_per_work_item := fa_maximum_new_attempts_per_work_item r;
     fa_authority_effect := fa_authority_effect r;
     fa_target_effects_authorized := fa_target_effects_authorized r |}.
Arguments set_admission_digest : simpl never.

Definition set_capacity_requirement_digest (d : string) (r : ForemanCapacityRequirementV1) : ForemanCapacityRequirementV1 :=
  {| cr_schema := cr_schema r; cr_capacity_requirement_digest := d;
     cr_packet_digest := cr_packet_digest r; cr_admission_digest := cr_admission_digest r;
     cr_profile_digest := cr_profile_digest r; cr_run_id := cr_run_id r;
     cr_policy_id := cr_policy_id r; cr_provider_id := cr_provider_id r;
     cr_model_cost_classes := cr_model_cost_classes r;
     cr_authority_effect := cr_authority_effect r |}.
Arguments set_capacity_requirement_digest : simpl never.

Definition set_capacity_admission_digest (d : string) (r : ForemanCapacityAdmissionV1) : ForemanCapacityAdmissionV1 :=
  {| cm_schema := cm_schema r; cm_capacity_admission_digest := d;
     cm_packet_digest := cm_packet_digest r; cm_admission_digest := cm_admission_digest r;
     cm_profile_digest := cm_profile_digest r;
     cm_capacity_requirement_digest := cm_capacity_requirement_digest r;
     cm_run_id := cm_run_id r; cm_work_item_id := cm_work_item_id r;
     cm_adapter_id := cm_adapter_id r; cm_provider_id := cm_provider_id r;
     cm_packet_model_class := cm_packet_model_class r;
     cm_profile_model_class := cm_profile_model_class r; cm_cost_class := cm_cost_class r;
     cm_policy_id := cm_policy_id r; cm_observation_digest := cm_observation_digest r;
     cm_policy_digest := cm_policy_digest r; cm_decision_digest := cm_decision_digest r;
     cm_evaluated_at := cm_evaluated_at r;
     cm_speculative_requested := cm_speculative_requested r;
     cm_authority_effect := cm_authority_effect r |}.
Arguments set_capacity_admission_digest : simpl never.

Definition set_profile_digest (d : string) (r : ExecutionProfileV2) : ExecutionProfileV2 :=
  {| ep_schema := ep_schema r; ep_profile_digest := d;
     ep_packet_digest := ep_packet_digest r; ep_admission_digest := ep_admission_digest r;
     ep_adapters := ep_adapters r; ep_work_items := ep_work_items r;
     ep_budget_policy_ref := ep_budget_policy_ref r;
     ep_log_custody_root := ep_log_custody_root r;
     ep_receipt_custody_root := ep_receipt_custody_root r;
     ep_maximum_event_bytes := ep_maximum_event_bytes r;
     ep_maximum_worker_output_bytes := ep_maximum_worker_output_bytes r;
     ep_maximum_receipt_bytes := ep_maximum_receipt_bytes r;
     ep_adapter_timeout_seconds := ep_adapter_timeout_seconds r;
     ep_closeout_policy := ep_closeout_policy r |}.
Arguments set_profile_digest : simpl never.

Definition set_request_digest (d : string) (r : WorkerStartRequestV2) : WorkerStartRequestV2 :=
  {| sr_schema := sr_schema r; sr_request_digest := d; sr_adapter_id := sr_adapter_id r;
     sr_adapter_version := sr_adapter_version r;
     sr_adapter_protocol := sr_adapter_protocol r; sr_packet_digest := sr_packet_digest r;
     sr_run_id := sr_run_id r; sr_work_item_id := sr_work_item_id r;
     sr_attempt_id := sr_attempt_id r; sr_worker_brief_digest := sr_worker_brief_digest r;
     sr_workspace_identity := sr_workspace_identity r;
     sr_provider_model_class := sr_provider_model_class r;
     sr_timeout_seconds := sr_timeout_seconds r;
     sr_maximum_output_bytes := sr_maximum_output_bytes r;
     sr_recursive_worker_swarms_forbidden := sr_recursive_worker_swarms_forbidden r;
     sr_approval_policy := sr_approval_policy r;
     sr_expected_receipt_schema := sr_expected_receipt_schema r |}.
Arguments set_request_digest : simpl never.

Definition set_event_digest (d : string) (r : AdapterEventV1) : AdapterEventV1 :=
  {| ae_schema := ae_schema r; ae_event_digest := d; ae_event_id := ae_event_id r;
     ae_packet_digest := ae_packet_digest r; ae_run_id := ae_run_id r;
     ae_work_item_id := ae_work_item_id r; ae_attempt_id := ae_attempt_id r;
     ae_adapter_id := ae_adapter_id r; ae_adapter_version := ae_adapter_version r;
     ae_occurred_at := ae_occurred_at r; ae_kind := ae_kind r;
     ae_provider_identity := ae_provider_identity r;
     ae_model_identity := ae_model_identity r; ae_session_identity := ae_session_identity r;
     ae_thread_identity := ae_thread_identity r; ae_turn_identity := ae_turn_identity r;
     ae_queue_identity := ae_queue_identity r; ae_message := ae_message r;
     ae_human_question := ae_human_question r; ae_extensions := ae_extensions r |}.
Arguments set_event_digest : simpl never.

Definition set_terminal_receipt_digest (d : string) (r : TerminalReceiptV1) : TerminalReceiptV1 :=
  {| tr_schema := tr_schema r; tr_receipt_digest := d;
     tr_packet_digest := tr_packet_digest r; tr_run_id := tr_run_id r;
     tr_work_item_id := tr_work_item_id r; tr_attempt_id := tr_attempt_id r;
     tr_adapter_id := tr_adapter_id r; tr_adapter_version := tr_adapter_version r;
     tr_provider_identity := tr_provider_identity r;
     tr_model_identity := tr_model_identity r; tr_session_identity := tr_session_identity r;
     tr_thread_identity := tr_thread_identity r; tr_turn_identity := tr_turn_identity r;
     tr_queue_identity := tr_queue_identity r; tr_started_at := tr_started_at r;
     tr_ended_at := tr_ended_at r; tr_state := tr_state r;
     tr_result_classification := tr_result_classification r;
     tr_repositories := tr_repositories r; tr_tests := tr_tests r;
     tr_evidence := tr_evidence r;
     tr_live_or_production_mutations := tr_live_or_production_mutations r;
     tr_remaining_trigger := tr_remaining_trigger r;
     tr_next_lawful_action := tr_next_lawful_action r;
     tr_human_questions := tr_human_questions r; tr_teardown := tr_teardown r;
     tr_extensions := tr_extensions r |}.
Arguments set_terminal_receipt_digest : simpl never.

Definition set_not_started_receipt_digest (d : string) (r : NotStartedReceiptV1) : NotStartedReceiptV1 :=
  {| nr_schema := nr_schema r; nr_receipt_digest := d;
     nr_packet_digest := nr_packet_digest r; nr_run_id := nr_run_id r;
     nr_work_item_id := nr_work_item_id r; nr_recorded_at := nr_recorded_at r;
     nr_state := nr_state r; nr_result_classification := nr_result_classification r;
     nr_evidence := nr_evidence r; nr_remaining_trigger := nr_remaining_trigger r;
     nr_next_lawful_action := nr_next_lawful_action r;
     nr_human_questions := nr_human_questions r; nr_extensions := nr_extensions r |}.
Arguments set_not_started_receipt_digest : simpl never.

(** ** Field checks *)

Definition schema (actual expected : string) : result ContractError unit :=
  if negb (String.eqb actual expected) then Err (ForeignSchema actual) else Ok tt.

(** The contract's digest text; unlike the packet's, it admits upper-case hex. *)
Definition is_digest (value : string) : bool :=
  (strlen value =? 71)%N && starts_with value "sha256:"
  && bytes_all is_ascii_hexdigit (str_drop 7 value).

Definition digest (field value : string) : result ContractError unit :=
  if negb (strlen value =? 71)%N
     || negb (starts_with value "sha256:")
     || negb (bytes_all is_ascii_hexdigit (str_drop 7 value))
  then Err (InvalidField field) else Ok tt.

Definition id_byte (b : ascii) : bool :=
  is_ascii_alphanumeric b || one_of ["."; "_"; "-"; ":"; "/"]%char b.

Definition id (field value : string) : result ContractError unit :=
  if str_is_empty value
     || (512 <? strlen value)%N
     || negb (bytes_all id_byte value)
  then Err (InvalidField field) else Ok tt.

(** One turn of the loop of [unique_ids]; the state is the set [unique]. *)
Definition unique_id (field value : string) (unique : gset string)
    : result ContractError (gset string) :=
  id field value ;?
  if bool_decide (value ∈ unique) then Err (InvalidField field) else Ok ({[value]} ∪ unique).

Definition unique_ids (field : string) (values : list string) : result ContractError unit :=
  if bool_decide (values = []) then Err (InvalidField field) else
  let? _ := fold_try (unique_id field) values ∅ in
  Ok tt.

Definition custody_root (value : string) : result ContractError unit :=
  if negb (starts_with value "/") || str_contains value NUL || str_contains value "/../"
  then Err (InvalidField "custody root") else Ok tt.

Definition text (field value : string) : result ContractError unit :=
  if trim_is_empty value || (65536 <? char_count value)%N
  then Err (InvalidField field) else Ok tt.

(** [for (field, value) in [..] { id(field, value)?; }] and its variants. *)
Definition ids (fields : list (string * string)) : result ContractError unit :=
  for_each (fun '(field, value) => id field value) fields.
Definition digests (fields : list (string * string)) : result ContractError unit :=
  for_each (fun '(field, value) => digest field value) fields.
Definition texts (fields : list (string * string)) : result ContractError unit :=
  for_each (fun '(field, value) => text field value) fields.
Definition optional_ids (fields : list (string * option string)) : result ContractError unit :=
  for_each (fun '(field, value) =>
    match value with Some value => id field value | None => Ok tt end) fields.

(** ** Interoperable JSON *)

Definition MAX_SAFE_INTEGER : Z := 9007199254740991.
Definition I64_MAX : N := 9223372036854775807.

(** [MAX_SAFE_INTEGER as f64] is exact. *)
Definition max_safe_f64 : spec_float := S754_finite false 9007199254740991 0.
Definition f64_is_finite (f : spec_float) : bool :=
  match f with S754_zero _ | S754_finite _ _ _ => true | _ => false end.

(** [Number::as_i64] and [Number::as_u64]. *)
Definition number_as_i64 (n : number) : option Z :=
  match n with
  | PosInt n => if (n <=? I64_MAX)%N then Some (Z.of_N n) else None
  | NegInt z => Some z
  | Float _ => None
  end.
Definition number_as_u64 (n : number) : option N :=
  match n with PosInt n => Some n | _ => None end.
Definition number_as_f64 (n : number) : option spec_float :=
  match n with Float f => Some f | _ => None end.

Definition number_admitted (n : number) : bool :=
  match number_as_i64 n with
  | Some v => (- MAX_SAFE_INTEGER <=? v)%Z && (v <=? MAX_SAFE_INTEGER)%Z
  | None =>
      match number_as_u64 n with
      | Some v => (v <=? Z.to_N MAX_SAFE_INTEGER)%N
      | None =>
          match number_as_f64 n with
          | Some f => f64_is_finite f && SFleb (SFabs f) max_safe_f64
          | None => false
          end
      end
  end.

Fixpoint interoperable_json (v : value) : result ContractError unit :=
  match v with
  | Null | Bool _ | Str _ => Ok tt
  | Number n => if number_admitted n then Ok tt else Err (InvalidField "RFC8785 number")
  | Array values => for_each interoperable_json values
  | Object kvs =>
      reject (64 <? length kvs)%nat (InvalidField "extensions") ;?
      for_each (fun kv => id "RFC8785 object key" kv.1 ;? interoperable_json kv.2) kvs
  end.

Definition extensions (values : gmap string value) : result ContractError unit :=
  reject (64 <? size values)%nat (InvalidField "extensions") ;?
  for_each (fun kv => id "RFC8785 object key" kv.1 ;? interoperable_json kv.2)
    (btree_iter values).

Definition question_validate (q : HumanQuestionV1) : result ContractError unit :=
  id "question_id" (hq_question_id q) ;?
  for_each (text "human question")
    [hq_question q; hq_exhausted_evidence q; hq_safe_default q; hq_consequences q;
     hq_resume_point q].

(** ** Digests and parsing *)

Section digests.
Context {HO : Host}.

Definition domain_digest_bytes (domain bytes : string) : string :=
  "sha256:" +:+ sha256_hex (domain +:+ bytes).

Definition parse {T} `{Serde T} (bytes : string) : result ContractError T :=
  map_err Json (from_slice bytes).

Definition digest_without {T} `{Serde T} (record : T) (field domain : string)
    : result ContractError string :=
  let? v := map_err Json (to_value record) in
  match v with
  | Object kvs =>
      let? canonical := map_err Json (jcs_value (Object (object_remove field kvs))) in
      Ok ("sha256:" +:+ sha256_hex (domain +:+ canonical))
  | _ => Err (InvalidField "record")
  end.

(** The check [digest_without(self, ..)? != self.digest]. *)
Definition check_sealed {T} `{Serde T} (record : T) (field domain sealed : string)
    : result ContractError unit :=
  let? computed := digest_without record field domain in
  reject (negb (String.eqb computed sealed)) (DigestMismatch field).

Definition canonical_timestamp_value (field : string) (object : value)
    : result ContractError unit :=
  let? raw := ok_or (value_get object field ≫= as_str) (InvalidField field) in
  let? parsed := ok_or (parse_from_rfc3339 raw) (InvalidField field) in
  reject (negb (String.eqb (instant_text parsed) raw)) (InvalidField field).

Definition decode_retained (retained_raw_digest encoding bytes_hex : string)
    : result ContractError string :=
  digest "retained_raw_digest" retained_raw_digest ;?
  reject (negb (String.eqb encoding "hex")
          || (MAXIMUM_WORKER_BRIEF_BYTES * 2 <? strlen bytes_hex)%N
          || negb (N.even (strlen bytes_hex)))
    (InvalidField "retained raw encoding") ;?
  let? raw := ok_or (hex_decode bytes_hex) (InvalidField "retained raw hex") in
  reject (negb (String.eqb (domain_digest_bytes RETAINED_RAW_DOMAIN raw) retained_raw_digest))
    (DigestMismatch "retained raw") ;?
  Ok raw.

Definition recognized {T} `{Serde T} (wrapper : RecognizedContractJsonV1)
    (expected_contract : string) : result ContractError T :=
  reject (negb (String.eqb (rj_contract wrapper) expected_contract))
    (InvalidField "recognized contract") ;?
  let? v := map_err Json (from_slice (rj_canonical_json wrapper)) in
  let? canonical := map_err Json (to_vec v) in
  reject (negb (String.eqb canonical (rj_canonical_json wrapper)))
    (InvalidField "recognized canonical JSON") ;?
  Ok v.
End digests.

(** ** Admission *)

Section contracts.
Context {HO : Host} {SV : Serde value} {SPkt : Serde NightshiftPacketV1}
{SWi : Serde WorkItemV1} {SGc : Serde GlobalConstraintsV1}
{SFa : Serde ForemanAdmissionV1} {SCr : Serde ForemanCapacityRequirementV1}
{SCm : Serde ForemanCapacityAdmissionV1} {SEp : Serde ExecutionProfileV2}
{SWx : Serde WorkItemExecutionV1} {SWc : Serde WorkerAdapterCapabilitiesV1}
{SAb : Serde WorkerAttemptBindingV1} {SBf : Serde WorkerBriefV2}
{SSr : Serde WorkerStartRequestV2} {SAe : Serde AdapterEventV1}
{STr : Serde TerminalReceiptV1} {SNr : Serde NotStartedReceiptV1}.

Definition admission_from_slice (bytes : string) : result ContractError ForemanAdmissionV1 :=
  parse bytes.

Definition admission_validate (a : ForemanAdmissionV1) : result ContractError unit :=
  schema (fa_schema a) FOREMAN_ADMISSION_SCHEMA_V1 ;?
  digest "admission_digest" (fa_admission_digest a) ;?
  check_sealed a "admission_digest" ADMISSION_DOMAIN (fa_admission_digest a) ;?
  id "run_id" (fa_run_id a) ;?
  digest "packet_digest" (fa_packet_digest a) ;?
  digest "operator_basis_digest" (fa_operator_basis_digest a) ;?
  id "local_runtime_identity" (fa_local_runtime_identity a) ;?
  reject ((fa_expires_at a <=? fa_admitted_at a)%Z
          || (fa_maximum_concurrent_workers a =? 0)%N
          || (4 <? fa_maximum_concurrent_workers a)%N
          || negb (fa_maximum_new_attempts_per_work_item a =? 1)%N)
    (InvalidField "admission bounds") ;?
  unique_ids "allowed_adapter_ids" (fa_allowed_adapter_ids a) ;?
  unique_ids "allowed_provider_model_classes" (fa_allowed_provider_model_classes a) ;?
  reject (negb (String.eqb (fa_authority_effect a) "LOCAL_AGENT_COMPUTE_SCHEDULING_ONLY")
          || fa_target_effects_authorized a)
    (InvalidField "authority boundary").

Definition admission_seal (a : ForemanAdmissionV1) : result ContractError ForemanAdmissionV1 :=
  let? d := digest_without a "admission_digest" ADMISSION_DOMAIN in
  let a := set_admission_digest d a in
  admission_validate a ;?
  Ok a.

Definition admission_validate_at (a : ForemanAdmissionV1) (now : instant)
    : result ContractError unit :=
  admission_validate a ;?
  reject ((now <? fa_admitted_at a)%Z || (fa_expires_at a <? now)%Z)
    (InvalidField "admission expired").

(** ** Capacity requirement and capacity admission *)

Definition capacity_cost_class (value : string) : result ContractError CapacityCostClassV1 :=
  if String.eqb value "small" || String.eqb value "bounded" then Ok Cheap
  else if String.eqb value "medium" || String.eqb value "large" then Ok Expensive
  else Err (InvalidField "capacity model-class mapping").

Definition capacity_requirement_from_slice (bytes : string)
    : result ContractError ForemanCapacityRequirementV1 :=
  parse bytes.

Definition capacity_requirement_validate (r : ForemanCapacityRequirementV1)
    : result ContractError unit :=
  schema (cr_schema r) FOREMAN_CAPACITY_REQUIREMENT_SCHEMA_V1 ;?
  digests
    [("capacity_requirement_digest", cr_capacity_requirement_digest r);
     ("packet_digest", cr_packet_digest r);
     ("admission_digest", cr_admission_digest r);
     ("profile_digest", cr_profile_digest r)] ;?
  ids
    [("run_id", cr_run_id r); ("policy_id", cr_policy_id r);
     ("provider_id", cr_provider_id r)] ;?
  reject ((size (cr_model_cost_classes r) =? 0)%nat
          || (16 <? size (cr_model_cost_classes r))%nat)
    (InvalidField "capacity model-class map") ;?
  for_each (fun '(model, cost) =>
      id "capacity model class" model ;?
      let? class := capacity_cost_class model in
      reject (negb (bool_decide (class = cost))) (InvalidField "capacity model-class map"))
    (btree_iter (cr_model_cost_classes r)) ;?
  reject (negb (String.eqb (cr_authority_effect r) "LOCAL_AGENT_COMPUTE_SCHEDULING_ONLY"))
    (InvalidField "capacity authority effect") ;?
  check_sealed r "capacity_requirement_digest" CAPACITY_REQUIREMENT_DOMAIN
    (cr_capacity_requirement_digest r).

Definition capacity_requirement_seal (r : ForemanCapacityRequirementV1)
    : result ContractError ForemanCapacityRequirementV1 :=
  let? d := digest_without r "capacity_requirement_digest" CAPACITY_REQUIREMENT_DOMAIN in
  let r := set_capacity_requirement_digest d r in
  capacity_requirement_validate r ;?
  Ok r.

Definition capacity_admission_from_slice (bytes : string)
    : result ContractError ForemanCapacityAdmissionV1 :=
  let? v := parse bytes in
  canonical_timestamp_value "evaluated_at" v ;?
  map_err Json (from_value v).

Definition capacity_admission_validate (c : ForemanCapacityAdmissionV1)
    : result ContractError unit :=
  schema (cm_schema c) FOREMAN_CAPACITY_ADMISSION_SCHEMA_V1 ;?
  digests
    [("packet_digest", cm_packet_digest c);
     ("admission_digest", cm_admission_digest c);
     ("profile_digest", cm_profile_digest c);
     ("capacity_requirement_digest", cm_capacity_requirement_digest c);
     ("observation_digest", cm_observation_digest c);
     ("policy_digest", cm_policy_digest c);
     ("decision_digest", cm_decision_digest c);
     ("capacity_admission_digest", cm_capacity_admission_digest c)] ;?
  ids
    [("run_id", cm_run_id c); ("work_item_id", cm_work_item_id c);
     ("adapter_id", cm_adapter_id c); ("provider_id", cm_provider_id c);
     ("packet_model_class", cm_packet_model_class c);
     ("profile_model_class", cm_profile_model_class c);
     ("policy_id", cm_policy_id c)] ;?
  reject (negb (String.eqb (cm_packet_model_class c) (cm_profile_model_class c)))
    (InvalidField "capacity model-class binding") ;?
  let? expected := capacity_cost_class (cm_packet_model_class c) in
  reject (negb (bool_decide (cm_cost_class c = expected)))
    (InvalidField "capacity cost class") ;?
  reject (cm_speculative_requested c)
    (InvalidField "speculative capacity admission is unbound") ;?
  reject (negb (String.eqb (cm_authority_effect c) "LOCAL_AGENT_COMPUTE_SCHEDULING_ONLY"))
    (InvalidField "capacity authority effect") ;?
  check_sealed c "capacity_admission_digest" CAPACITY_ADMISSION_DOMAIN
    (cm_capacity_admission_digest c).

Definition capacity_admission_seal (c : ForemanCapacityAdmissionV1)
    : result ContractError ForemanCapacityAdmissionV1 :=
  let? d := digest_without c "capacity_admission_digest" CAPACITY_ADMISSION_DOMAIN in
  let c := set_capacity_admission_digest d c in
  capacity_admission_validate c ;?
  Ok c.

(** ** Execution profiles *)

(** An absent field and an explicit [null] differ for [Value::get]. *)
Definition profile_from_slice (bytes : string) : result ContractError ExecutionProfileV2 :=
  let? v := parse bytes in
  reject (bool_decide (value_get v "schema" ≫= as_str
                       = Some FOREMAN_EXECUTION_PROFILE_SCHEMA_V2)
          && match value_get v "maximum_worker_output_bytes" with
             | Some _ => true | None => false end)
    (InvalidField "V2 profile output field") ;?
  map_err Json (from_value v).

Definition profile_domain (p : ExecutionProfileV2) : result ContractError string :=
  match ep_maximum_worker_output_bytes p with
  | None =>
      if String.eqb (ep_schema p) FOREMAN_EXECUTION_PROFILE_SCHEMA_V2
      then Ok PROFILE_DOMAIN_V2
      else Err (InvalidField "profile schema/output bounds")
  | Some bound =>
      if String.eqb (ep_schema p) FOREMAN_EXECUTION_PROFILE_SCHEMA_V3
         && (1024 <=? bound)%N && (bound <=? MAXIMUM_WORKER_OUTPUT_BYTES)%N
      then Ok PROFILE_DOMAIN_V3
      else Err (InvalidField "profile schema/output bounds")
  end.

Definition worker_output_bound (p : ExecutionProfileV2) : N :=
  default (ep_maximum_event_bytes p) (ep_maximum_worker_output_bytes p).

Definition check_adapter (entry : string * AdapterRegistrationV2)
    : result ContractError unit :=
  let '(key, adapter) := entry in
  id "adapter key" key ;?
  reject (negb (String.eqb key (ar_adapter_id adapter)))
    (InvalidField "adapter key binding") ;?
  id "adapter_id" (ar_adapter_id adapter) ;?
  id "adapter protocol" (ar_protocol adapter) ;?
  id "adapter_version" (ar_adapter_version adapter) ;?
  digest "executable_identity" (ar_executable_identity adapter) ;?
  reject ((32 <? length (ar_bounded_arguments adapter))%nat
          || existsb (fun arg => (1024 <? strlen arg)%N) (ar_bounded_arguments adapter))
    (InvalidField "bounded_arguments").

Definition check_execution (adapters : gmap string AdapterRegistrationV2)
    (entry : string * WorkItemExecutionV1) : result ContractError unit :=
  let '(work_item, execution) := entry in
  id "work item key" work_item ;?
  reject (negb (bool_decide (is_Some (adapters !! wx_adapter_id execution))))
    (InvalidField "work item adapter") ;?
  id "workspace_identity" (wx_workspace_identity execution) ;?
  id "provider_model_class" (wx_provider_model_class execution) ;?
  unique_ids "resource_lock_keys" (wx_resource_lock_keys execution).

(** [(1024..=16 * 1024 * 1024).contains(&bound)]. *)
Definition bounded_bytes (bound : N) : bool := (1024 <=? bound)%N && (bound <=? 16777216)%N.

Definition profile_validate (p : ExecutionProfileV2) : result ContractError unit :=
  let? domain := profile_domain p in
  digest "profile_digest" (ep_profile_digest p) ;?
  check_sealed p "profile_digest" domain (ep_profile_digest p) ;?
  digest "packet_digest" (ep_packet_digest p) ;?
  digest "admission_digest" (ep_admission_digest p) ;?
  reject (bool_decide (ep_adapters p = ∅) || bool_decide (ep_work_items p = ∅))
    (InvalidField "profile mappings") ;?
  for_each check_adapter (btree_iter (ep_adapters p)) ;?
  for_each (check_execution (ep_adapters p)) (btree_iter (ep_work_items p)) ;?
  id "budget_policy_ref" (ep_budget_policy_ref p) ;?
  custody_root (ep_log_custody_root p) ;?
  custody_root (ep_receipt_custody_root p) ;?
  reject (negb (bounded_bytes (ep_maximum_event_bytes p))
          || negb (bounded_bytes (ep_maximum_receipt_bytes p))
          || (ep_adapter_timeout_seconds p =? 0)%N
          || (86400 <? ep_adapter_timeout_seconds p)%N
          || negb (String.eqb (ep_closeout_policy p) "ALL_EXPLICIT_TERMINAL_OR_NOT_STARTED"))
    (InvalidField "profile bounds").

Definition profile_seal (p : ExecutionProfileV2) : result ContractError ExecutionProfileV2 :=
  let? domain := profile_domain p in
  let? d := digest_without p "profile_digest" domain in
  let p := set_profile_digest d p in
  profile_validate p ;?
  Ok p.

(** ** Adapter capabilities, start requests and their binding *)

Definition capabilities_from_slice (bytes : string)
    : result ContractError WorkerAdapterCapabilitiesV1 :=
  parse bytes.

Definition capabilities_validate (c : WorkerAdapterCapabilitiesV1)
    : result ContractError unit :=
  schema (wc_schema c) WORKER_ADAPTER_CAPABILITIES_SCHEMA_V1 ;?
  ids
    [("adapter_id", wc_adapter_id c); ("adapter_protocol", wc_adapter_protocol c);
     ("adapter_version", wc_adapter_version c); ("provider_kind", wc_provider_kind c)] ;?
  digest "adapter_executable_identity" (wc_adapter_executable_identity c) ;?
  reject (negb (bool_decide
                  (wc_commands c = ["capabilities"; "start"; "resume"; "status"; "collect"]))
          || negb (String.eqb (wc_approval_policy c) "SURFACE_ONLY_NO_RESPONSE")
          || negb (String.eqb (wc_expected_start_request_schema c)
                     WORKER_START_REQUEST_SCHEMA_V2)
          || negb (String.eqb (wc_event_schema c) WORKER_ADAPTER_EVENT_SCHEMA_V1)
          || negb (String.eqb (wc_terminal_receipt_schema c)
                     WORKER_TERMINAL_RECEIPT_SCHEMA_V1)
          || wc_target_effects_authorized c)
    (InvalidField "adapter capabilities boundary").

Definition start_validate (s : WorkerStartRequestV2) : result ContractError unit :=
  schema (sr_schema s) WORKER_START_REQUEST_SCHEMA_V2 ;?
  digest "request_digest" (sr_request_digest s) ;?
  check_sealed s "request_digest" START_DOMAIN_V2 (sr_request_digest s) ;?
  digest "packet_digest" (sr_packet_digest s) ;?
  ids
    [("adapter_id", sr_adapter_id s); ("adapter_version", sr_adapter_version s);
     ("adapter_protocol", sr_adapter_protocol s); ("run_id", sr_run_id s);
     ("work_item_id", sr_work_item_id s); ("attempt_id", sr_attempt_id s);
     ("workspace_identity", sr_workspace_identity s);
     ("provider_model_class", sr_provider_model_class s)] ;?
  digest "worker_brief_digest" (sr_worker_brief_digest s) ;?
  reject ((sr_timeout_seconds s =? 0)%N
          || (MAXIMUM_ADAPTER_TIMEOUT_SECONDS <? sr_timeout_seconds s)%N
          || (sr_maximum_output_bytes s <? 1024)%N
          || (MAXIMUM_WORKER_OUTPUT_BYTES <? sr_maximum_output_bytes s)%N
          || negb (sr_recursive_worker_swarms_forbidden s)
          || negb (String.eqb (sr_approval_policy s) "SURFACE_ONLY_NO_RESPONSE")
          || negb (String.eqb (sr_expected_receipt_schema s)
                     WORKER_TERMINAL_RECEIPT_SCHEMA_V1))
    (InvalidField "worker start boundary").

Definition start_seal (s : WorkerStartRequestV2) : result ContractError WorkerStartRequestV2 :=
  let? d := digest_without s "request_digest" START_DOMAIN_V2 in
  let s := set_request_digest d s in
  start_validate s ;?
  Ok s.

Definition attempt_binding (s : WorkerStartRequestV2) : WorkerAttemptBindingV1 :=
  {| ab_schema := WORKER_ATTEMPT_BINDING_SCHEMA_V1;
     ab_request_digest := sr_request_digest s;
     ab_packet_digest := sr_packet_digest s;
     ab_run_id := sr_run_id s;
     ab_work_item_id := sr_work_item_id s;
     ab_attempt_id := sr_attempt_id s;
     ab_adapter_id := sr_adapter_id s;
     ab_adapter_version := sr_adapter_version s |}.

Definition binding_from_slice (bytes : string) : result ContractError WorkerAttemptBindingV1 :=
  parse bytes.

Definition binding_validate (b : WorkerAttemptBindingV1) : result ContractError unit :=
  schema (ab_schema b) WORKER_ATTEMPT_BINDING_SCHEMA_V1 ;?
  digest "request_digest" (ab_request_digest b) ;?
  digest "packet_digest" (ab_packet_digest b) ;?
  ids
    [("run_id", ab_run_id b); ("work_item_id", ab_work_item_id b);
     ("attempt_id", ab_attempt_id b); ("adapter_id", ab_adapter_id b);
     ("adapter_version", ab_adapter_version b)].

(** The condition of [verify_adapter_contract]'s last refusal. *)
Definition contract_mismatch (profile : ExecutionProfileV2) (work_item_id : string)
    (execution : WorkItemExecutionV1) (registration : AdapterRegistrationV2)
    (capabilities : WorkerAdapterCapabilitiesV1) (start : WorkerStartRequestV2) : bool :=
  negb (String.eqb (ar_adapter_id registration) (wc_adapter_id capabilities))
  || negb (String.eqb (ar_protocol registration) (wc_adapter_protocol capabilities))
  || negb (String.eqb (ar_adapter_version registration) (wc_adapter_version capabilities))
  || negb (String.eqb (ar_executable_identity registration)
             (wc_adapter_executable_identity capabilities))
  || negb (String.eqb (sr_packet_digest start) (ep_packet_digest profile))
  || negb (String.eqb (sr_work_item_id start) work_item_id)
  || negb (String.eqb (sr_adapter_id start) (ar_adapter_id registration))
  || negb (String.eqb (sr_adapter_protocol start) (ar_protocol registration))
  || negb (String.eqb (sr_adapter_version start) (ar_adapter_version registration))
  || negb (String.eqb (sr_workspace_identity start) (wx_workspace_identity execution))
  || negb (String.eqb (sr_provider_model_class start) (wx_provider_model_class execution))
  || negb (sr_timeout_seconds start =? ep_adapter_timeout_seconds profile)%N
  || negb (sr_maximum_output_bytes start =? worker_output_bound profile)%N.

Definition verify_adapter_contract (profile : ExecutionProfileV2) (work_item_id : string)
    (capabilities_raw : string) (start : WorkerStartRequestV2)
    : result ContractError AdapterContractVerificationV1 :=
  profile_validate profile ;?
  start_validate start ;?
  let? capabilities := capabilities_from_slice capabilities_raw in
  capabilities_validate capabilities ;?
  let? canonical := map_err Json (to_vec capabilities) in
  reject (negb (String.eqb canonical capabilities_raw))
    (InvalidField "capabilities canonical bytes") ;?
  let? execution := ok_or (ep_work_items profile !! work_item_id)
                      (InvalidField "capability work item") in
  let? registration := ok_or (ep_adapters profile !! wx_adapter_id execution)
                         (InvalidField "capability adapter registration") in
  reject (contract_mismatch profile work_item_id execution registration capabilities start)
    (InvalidField "profile capability start binding") ;?
  Ok {| av_schema := "nightshift.adapter-contract-verification/v1";
        av_capabilities_raw_digest :=
          domain_digest_bytes CAPABILITIES_RAW_DOMAIN capabilities_raw;
        av_profile_digest := ep_profile_digest profile;
        av_request_digest := sr_request_digest start;
        av_adapter_id := ar_adapter_id registration;
        av_adapter_protocol := ar_protocol registration;
        av_adapter_version := ar_adapter_version registration;
        av_adapter_executable_identity := ar_executable_identity registration;
        av_disposition := "EXACT_PROFILE_CAPABILITIES_START_BINDING_VERIFIED" |}.

(** ** Adapter events *)

Definition event_from_slice (bytes : string) : result ContractError AdapterEventV1 :=
  parse bytes.

Definition event_validate (e : AdapterEventV1) : result ContractError unit :=
  schema (ae_schema e) WORKER_ADAPTER_EVENT_SCHEMA_V1 ;?
  digest "event_digest" (ae_event_digest e) ;?
  check_sealed e "event_digest" EVENT_DOMAIN (ae_event_digest e) ;?
  digest "packet_digest" (ae_packet_digest e) ;?
  ids
    [("event_id", ae_event_id e); ("run_id", ae_run_id e);
     ("work_item_id", ae_work_item_id e); ("attempt_id", ae_attempt_id e);
     ("adapter_id", ae_adapter_id e); ("adapter_version", ae_adapter_version e)] ;?
  reject (negb (Bool.eqb (bool_decide (ae_kind e = HumanQuestion))
                  (match ae_human_question e with Some _ => true | None => false end)))
    (InvalidField "human_question") ;?
  match ae_human_question e with
  | Some question => question_validate question
  | None => Ok tt
  end ;?
  reject (match ae_message e with
          | Some message => (65536 <? char_count message)%N
          | None => false
          end)
    (InvalidField "adapter event bounds") ;?
  extensions (ae_extensions e) ;?
  optional_ids
    [("provider_identity", ae_provider_identity e); ("model_identity", ae_model_identity e);
     ("session_identity", ae_session_identity e); ("thread_identity", ae_thread_identity e);
     ("turn_identity", ae_turn_identity e); ("queue_identity", ae_queue_identity e)].

Definition event_seal (e : AdapterEventV1) : result ContractError AdapterEventV1 :=
  let? d := digest_without e "event_digest" EVENT_DOMAIN in
  let e := set_event_digest d e in
  event_validate e ;?
  Ok e.

(** ** Receipts *)

Definition terminal_from_slice (bytes : string) : result ContractError TerminalReceiptV1 :=
  let? v := parse bytes in
  canonical_timestamp_value "started_at" v ;?
  canonical_timestamp_value "ended_at" v ;?
  map_err Json (from_value v).

Definition terminal_validate (r : TerminalReceiptV1) : result ContractError unit :=
  schema (tr_schema r) WORKER_TERMINAL_RECEIPT_SCHEMA_V1 ;?
  digest "receipt_digest" (tr_receipt_digest r) ;?
  check_sealed r "receipt_digest" TERMINAL_DOMAIN (tr_receipt_digest r) ;?
  digest "packet_digest" (tr_packet_digest r) ;?
  ids
    [("run_id", tr_run_id r); ("work_item_id", tr_work_item_id r);
     ("attempt_id", tr_attempt_id r); ("adapter_id", tr_adapter_id r);
     ("adapter_version", tr_adapter_version r);
     ("provider_identity", tr_provider_identity r); ("model_identity", tr_model_identity r)] ;?
  reject (tr_ended_at r <? tr_started_at r)%Z (InvalidField "receipt timestamps") ;?
  texts
    [("state", tr_state r); ("result_classification", tr_result_classification r);
     ("remaining_trigger", tr_remaining_trigger r);
     ("next_lawful_action", tr_next_lawful_action r)] ;?
  optional_ids
    [("session_identity", tr_session_identity r); ("thread_identity", tr_thread_identity r);
     ("turn_identity", tr_turn_identity r); ("queue_identity", tr_queue_identity r)] ;?
  for_each question_validate (tr_human_questions r) ;?
  extensions (tr_extensions r).

Definition terminal_seal (r : TerminalReceiptV1) : result ContractError TerminalReceiptV1 :=
  let? d := digest_without r "receipt_digest" TERMINAL_DOMAIN in
  let r := set_terminal_receipt_digest d r in
  terminal_validate r ;?
  Ok r.

Definition not_started_from_slice (bytes : string)
    : result ContractError NotStartedReceiptV1 :=
  let? v := parse bytes in
  canonical_timestamp_value "recorded_at" v ;?
  map_err Json (from_value v).

Definition not_started_validate (r : NotStartedReceiptV1) : result ContractError unit :=
  schema (nr_schema r) WORK_ITEM_NOT_STARTED_RECEIPT_SCHEMA_V1 ;?
  digest "receipt_digest" (nr_receipt_digest r) ;?
  check_sealed r "receipt_digest" NOT_STARTED_DOMAIN (nr_receipt_digest r) ;?
  digest "packet_digest" (nr_packet_digest r) ;?
  id "run_id" (nr_run_id r) ;?
  id "work_item_id" (nr_work_item_id r) ;?
  texts
    [("state", nr_state r); ("result_classification", nr_result_classification r);
     ("remaining_trigger", nr_remaining_trigger r);
     ("next_lawful_action", nr_next_lawful_action r)] ;?
  for_each question_validate (nr_human_questions r) ;?
  extensions (nr_extensions r).

Definition not_started_seal (r : NotStartedReceiptV1)
    : result ContractError NotStartedReceiptV1 :=
  let? d := digest_without r "receipt_digest" NOT_STARTED_DOMAIN in
  let r := set_not_started_receipt_digest d r in
  not_started_validate r ;?
  Ok r.

(** ** Worker briefs *)

(** One turn of the loop over [predecessor_receipts]. *)
Definition check_predecessor_receipt (brief : WorkerBriefV2) (start : WorkerStartRequestV2)
    (entry : string * RetainedPredecessorReceiptV1) : result ContractError unit :=
  let '(dependency, retained) := entry in
  let? raw := decode_retained (rp_retained_raw_digest retained) (rp_encoding retained)
                (rp_bytes_hex retained) in
  if String.eqb (rp_receipt_kind retained) "terminal" then
    let? receipt := terminal_from_slice raw in
    terminal_validate receipt ;?
    reject (negb (String.eqb (tr_packet_digest receipt) (bf_packet_digest brief))
            || negb (String.eqb (tr_run_id receipt) (sr_run_id start))
            || negb (String.eqb (tr_work_item_id receipt) dependency))
      (InvalidField "predecessor terminal binding")
  else if String.eqb (rp_receipt_kind retained) "not_started" then
    let? receipt := not_started_from_slice raw in
    not_started_validate receipt ;?
    reject (negb (String.eqb (nr_packet_digest receipt) (bf_packet_digest brief))
            || negb (String.eqb (nr_run_id receipt) (sr_run_id start))
            || negb (String.eqb (nr_work_item_id receipt) dependency))
      (InvalidField "predecessor not-started binding")
  else Err (InvalidField "predecessor receipt kind").

Definition brief_from_slice_for_start (bytes : string) (start : WorkerStartRequestV2)
    : result ContractError WorkerBriefV2 :=
  reject (MAXIMUM_WORKER_BRIEF_BYTES <? strlen bytes)%N (InvalidField "worker brief size") ;?
  let? brief := parse bytes in
  let? canonical := map_err Json (to_vec brief) in
  reject (negb (String.eqb canonical bytes)) (InvalidField "worker brief canonical bytes") ;?
  schema (bf_schema brief) WORKER_BRIEF_BASIS_SCHEMA_V2 ;?
  digest "packet_digest" (bf_packet_digest brief) ;?
  reject (negb (String.eqb (bf_packet_digest brief) (sr_packet_digest start))
          || negb (String.eqb (domain_digest_bytes WORKER_BRIEF_DOMAIN_V2 bytes)
                     (sr_worker_brief_digest start)))
    (DigestMismatch "worker brief binding") ;?
  reject (MAXIMUM_PREDECESSOR_RECEIPTS <? size (bf_predecessor_receipts brief))%nat
    (InvalidField "predecessor receipt count") ;?
  let? packet_raw := decode_retained (rr_retained_raw_digest (bf_packet_source brief))
                       (rr_encoding (bf_packet_source brief))
                       (rr_bytes_hex (bf_packet_source brief)) in
  let? packet := map_err (fun _ => InvalidField "retained packet")
                   (packet_from_slice packet_raw) in
  map_err (fun _ => InvalidField "retained packet integrity") (validate_integrity packet) ;?
  reject (negb (String.eqb (pk_packet_digest packet) (bf_packet_digest brief)))
    (DigestMismatch "retained packet") ;?
  let? selected :=
    ok_or (find_first (fun item => bool_decide (wi_id item = sr_work_item_id start))
             (pk_work_items packet))
      (InvalidField "retained work item") in
  let? recognized_work := recognized (bf_work_item brief)
                            "nightshift.orientation-packet/v1#work-item" in
  reject (negb (bool_decide (recognized_work = selected)))
    (InvalidField "recognized work item") ;?
  let? recognized_global := recognized (bf_global_constraints brief)
                              "nightshift.orientation-packet/v1#global-constraints" in
  reject (negb (bool_decide (recognized_global = pk_global_constraints packet)))
    (InvalidField "recognized global constraints") ;?
  let? execution := recognized (bf_execution brief)
                      "nightshift.foreman-execution-profile/v2#work-item" in
  reject (negb (String.eqb (wx_adapter_id execution) (sr_adapter_id start))
          || negb (String.eqb (wx_workspace_identity execution) (sr_workspace_identity start))
          || negb (String.eqb (wx_provider_model_class execution)
                     (sr_provider_model_class start)))
    (InvalidField "recognized execution binding") ;?
  reject (negb (bool_decide (list_to_set (wi_dependencies selected)
                             =@{gset string} dom (bf_predecessor_receipts brief))))
    (InvalidField "predecessor receipt set") ;?
  for_each (check_predecessor_receipt brief start) (btree_iter (bf_predecessor_receipts brief)) ;?
  Ok brief.
End contracts.
