(* ===== verification/Availability.v ===== *)
(** * Execution availability (crates/nightshift-foreman/src/execution_availability.rs)

    The records of the provider-execution mechanism: availability observations
    and policies, the run-level requirement, the third start request with the
    second one retained inside it, dispatch occurrences, execution identities,
    dispositions and deferrals.  Their digests and closed validations are here;
    the validation of a disposition's mapper snapshot is not modelled. *)
From S2P Require Import Prelude Text External Contract.
Local Open Scope string_scope.

(** ** Data *)

Inductive ExecutionAvailabilityStateV1 :=
| Available | ModelAtCapacity | ProviderUnavailable | RateLimited | AuthenticationRefused
| TransportError | ProtocolError | AvailabilityUnknown.

Inductive ParkedResourceLockPolicyV1 := ReleaseAndReacquire | RetainWhileParked.

Inductive ProviderAdmissionDispositionKindV1 :=
| NotAdmittedModelAtCapacity
| NotAdmittedProviderUnavailable
| NotAdmittedRateLimited
| DispositionAuthenticationRefused
| QuotaExhaustedFuelOwned
| DispositionAdmissionIndeterminate
| DispositionExecutionAdmitted.

Inductive ProviderMechanismStateV1 :=
| ParkedNotAdmitted
| AdmissionIndeterminate
| ExecutionAdmitted
| PostAdmissionInterrupted
| MechanismWaitingApproval
| ProviderCompleted.

Inductive DeferredWakeBasisV1 := ProviderRetryAfter | PolicyBackoff.

#[global] Instance ExecutionAvailabilityStateV1_eq_dec : EqDecision ExecutionAvailabilityStateV1.
Proof. solve_decision. Defined.
#[global] Instance ParkedResourceLockPolicyV1_eq_dec : EqDecision ParkedResourceLockPolicyV1.
Proof. solve_decision. Defined.
#[global] Instance ProviderAdmissionDispositionKindV1_eq_dec : EqDecision ProviderAdmissionDispositionKindV1.
Proof. solve_decision. Defined.
#[global] Instance ProviderMechanismStateV1_eq_dec : EqDecision ProviderMechanismStateV1.
Proof. solve_decision. Defined.
#[global] Instance DeferredWakeBasisV1_eq_dec : EqDecision DeferredWakeBasisV1.
Proof. solve_decision. Defined.

Record ExactAvailabilityEvidenceV1 := {
  xe_representation : string;
  xe_byte_length : N;
  xe_sha256 : string;
  xe_encoding : string;
  xe_bytes_hex : string
}.

Record ExactMapperSnapshotV1 := {
  ms_representation : string;
  ms_byte_length : N;
  ms_sha256 : string;
  ms_encoding : string;
  ms_bytes_hex : string
}.

Record ExecutionAvailabilityObservationV1 := {
  eo_schema : string;
  eo_observation_digest : string;
  eo_provider_id : string;
  eo_model_id : string;
  eo_model_class : string;
  eo_observed_at : instant;
  eo_received_at : instant;
  eo_expires_at : instant;
  eo_state : ExecutionAvailabilityStateV1;
  eo_source_identity : string;
  eo_source_version : string;
  eo_provider_retry_after : option instant;
  eo_exact_evidence : option ExactAvailabilityEvidenceV1;
  eo_authority_effect : string
}.

Record ExecutionAvailabilityPolicyV1 := {
  yp_schema : string;
  yp_policy_digest : string;
  yp_policy_id : string;
  yp_maximum_dispatch_occurrences_per_attempt : N;
  yp_backoff_seconds : list N;
  yp_maximum_total_deferral_seconds : N;
  yp_parked_resource_lock_policy : ParkedResourceLockPolicyV1;
  yp_provider_capacity_released_while_parked : bool;
  yp_reconcile_indeterminate : bool;
  yp_allow_ordered_model_fallback : bool;
  yp_automatic_semantic_retry : bool;
  yp_approval_response_authorized : bool;
  yp_authority_effect : string
}.

Record ProviderAdmissionOwnerPinsV1 := {
  op_codex_owner_head : string;
  op_switchyard_owner_head : string;
  op_switchyard_schema_sha256 : string;
  op_deterministic_fixture_sha256 : string
}.

Record ProviderModelSelectionV1 := {
  sl_provider_id : string;
  sl_model_id : string;
  sl_model_class : string
}.

Record ForemanExecutionAvailabilityRequirementV1 := {
  rq_schema : string;
  rq_requirement_digest : string;
  rq_packet_digest : string;
  rq_admission_digest : string;
  rq_profile_digest : string;
  rq_run_id : string;
  rq_adapter_id : string;
  rq_adapter_protocol : string;
  rq_adapter_version : string;
  rq_adapter_executable_identity : string;
  rq_owner_pins : ProviderAdmissionOwnerPinsV1;
  rq_policy_id : string;
  rq_policy_digest : string;
  rq_work_item_model_selections : gmap string (list ProviderModelSelectionV1);
  rq_admitted_at : instant;
  rq_authority_effect : string
}.

Record WorkerStartRequestV3 := {
  s3_schema : string;
  s3_request_digest : string;
  s3_predecessor_schema : string;
  s3_predecessor_request_digest : string;
  s3_predecessor_sha256 : string;
  s3_predecessor_encoding : string;
  s3_predecessor_bytes_hex : string;
  s3_packet_digest : string;
  s3_profile_digest : string;
  s3_run_id : string;
  s3_work_item_id : string;
  s3_attempt_id : string;
  s3_work_attempt_id : string;
  s3_dispatch_occurrence_id : string;
  s3_adapter_id : string;
  s3_adapter_version : string;
  s3_adapter_protocol : string;
  s3_worker_brief_digest : string;
  s3_workspace_identity : string;
  s3_provider_model_class : string;
  s3_timeout_seconds : N;
  s3_maximum_output_bytes : N;
  s3_recursive_worker_swarms_forbidden : bool;
  s3_approval_policy : string;
  s3_expected_receipt_schema : string;
  s3_provider_id : string;
  s3_model_id : string;
  s3_model_class : string;
  s3_selected_model_ordinal : N;
  s3_provider_admission_adapter_protocol : string;
  s3_provider_admission_binding_schema : string;
  s3_provider_admission_evidence_schema : string;
  s3_provider_admission_snapshot_schema : string;
  s3_codex_owner_head : string;
  s3_switchyard_owner_head : string;
  s3_switchyard_schema_sha256 : string;
  s3_switchyard_deterministic_fixture_sha256 : string;
  s3_provider_execution_id : option string;
  s3_internal_provider_retry_count : N;
  s3_semantic_retry : bool;
  s3_approval_response_authorized : bool;
  s3_authority_effect : string
}.

Record ProviderDispatchOccurrenceV1 := {
  di_schema : string;
  di_dispatch_digest : string;
  di_requirement_digest : string;
  di_policy_digest : string;
  di_packet_digest : string;
  di_run_id : string;
  di_work_item_id : string;
  di_work_attempt_id : string;
  di_dispatch_occurrence_id : string;
  di_dispatch_ordinal : N;
  di_selected_model_ordinal : N;
  di_selection : ProviderModelSelectionV1;
  di_adapter_id : string;
  di_adapter_version : string;
  di_adapter_protocol : string;
  di_adapter_process_occurrence_id : string;
  di_app_server_session_identity : string;
  di_worker_start_request_schema : string;
  di_worker_start_request_digest : string;
  di_worker_brief_digest : string;
  di_opened_at : instant;
  di_internal_provider_retry_count : N;
  di_provider_execution_id : option string;
  di_authority_effect : string
}.

Record ProviderExecutionIdentityV1 := {
  xi_provider_id : string;
  xi_model_id : string;
  xi_app_server_session_identity : string;
  xi_thread_id : string;
  xi_turn_id : string;
  xi_first_response_id : string
}.

Record ProviderAdmissionDispositionV1 := {
  dp_schema : string;
  dp_disposition_digest : string;
  dp_dispatch_digest : string;
  dp_requirement_digest : string;
  dp_policy_digest : string;
  dp_packet_digest : string;
  dp_run_id : string;
  dp_work_item_id : string;
  dp_work_attempt_id : string;
  dp_dispatch_occurrence_id : string;
  dp_provider_id : string;
  dp_model_id : string;
  dp_provider_request_occurrence_id : string;
  dp_adapter_process_occurrence_id : string;
  dp_app_server_session_identity : string;
  dp_thread_id : string;
  dp_turn_id : string;
  dp_disposition : ProviderAdmissionDispositionKindV1;
  dp_mechanism_state : ProviderMechanismStateV1;
  dp_received_at : instant;
  dp_response_created : bool;
  dp_will_retry : bool;
  dp_acquisition_complete : bool;
  dp_provider_retry_after : option instant;
  dp_provider_execution : option ProviderExecutionIdentityV1;
  dp_mapper_snapshot_schema : string;
  dp_mapper_snapshot_digest : string;
  dp_mapper_snapshot : ExactMapperSnapshotV1;
  dp_approval_response_sent : bool;
  dp_protected_effect_absent : bool;
  dp_authority_effect : string
}.

Record DeferredProviderDispatchV1 := {
  df_schema : string;
  df_deferred_dispatch_digest : string;
  df_requirement_digest : string;
  df_policy_digest : string;
  df_disposition_digest : string;
  df_packet_digest : string;
  df_run_id : string;
  df_work_item_id : string;
  df_work_attempt_id : string;
  df_last_dispatch_occurrence_id : string;
  df_provider_id : string;
  df_model_id : string;
  df_selected_model_ordinal : N;
  df_remaining_model_ordinals : list N;
  df_refusal_received_at : instant;
  df_wake_basis : DeferredWakeBasisV1;
  df_backoff_ordinal : N;
  df_backoff_seconds : N;
  df_provider_retry_after : option instant;
  df_wake_at : instant;
  df_parked_resource_lock_policy : ParkedResourceLockPolicyV1;
  df_provider_capacity_released : bool;
  df_semantic_retry : bool;
  df_authority_effect : string
}.

(** Three sealed records reopened together; not itself sealed. *)
Record ProviderDeferralHistoryEntryV1 := {
  he_dispatch : ProviderDispatchOccurrenceV1;
  he_disposition : ProviderAdmissionDispositionV1;
  he_deferred : DeferredProviderDispatchV1
}.

#[global] Instance ExactAvailabilityEvidenceV1_eq_dec : EqDecision ExactAvailabilityEvidenceV1.
Proof. solve_decision. Defined.
#[global] Instance ExactMapperSnapshotV1_eq_dec : EqDecision ExactMapperSnapshotV1.
Proof. solve_decision. Defined.
#[global] Instance ExecutionAvailabilityObservationV1_eq_dec : EqDecision ExecutionAvailabilityObservationV1.
Proof. solve_decision. Defined.
#[global] Instance ExecutionAvailabilityPolicyV1_eq_dec : EqDecision ExecutionAvailabilityPolicyV1.
Proof. solve_decision. Defined.
#[global] Instance ProviderAdmissionOwnerPinsV1_eq_dec : EqDecision ProviderAdmissionOwnerPinsV1.
Proof. solve_decision. Defined.
#[global] Instance ProviderModelSelectionV1_eq_dec : EqDecision ProviderModelSelectionV1.
Proof. solve_decision. Defined.
#[global] Instance ForemanExecutionAvailabilityRequirementV1_eq_dec : EqDecision ForemanExecutionAvailabilityRequirementV1.
Proof. solve_decision. Defined.
#[global] Instance WorkerStartRequestV3_eq_dec : EqDecision WorkerStartRequestV3.
Proof. solve_decision. Defined.
#[global] Instance ProviderDispatchOccurrenceV1_eq_dec : EqDecision ProviderDispatchOccurrenceV1.
Proof. solve_decision. Defined.
#[global] Instance ProviderExecutionIdentityV1_eq_dec : EqDecision ProviderExecutionIdentityV1.
Proof. solve_decision. Defined.
#[global] Instance ProviderAdmissionDispositionV1_eq_dec : EqDecision ProviderAdmissionDispositionV1.
Proof. solve_decision. Defined.
#[global] Instance DeferredProviderDispatchV1_eq_dec : EqDecision DeferredProviderDispatchV1.
Proof. solve_decision. Defined.

(** [self.<x>_digest = ..] on each sealed record. *)

Definition set_observation_digest (d : string) (r : ExecutionAvailabilityObservationV1) : ExecutionAvailabilityObservationV1 :=
  {| eo_schema := eo_schema r; eo_observation_digest := d;
     eo_provider_id := eo_provider_id r; eo_model_id := eo_model_id r;
     eo_model_class := eo_model_class r; eo_observed_at := eo_observed_at r;
     eo_received_at := eo_received_at r; eo_expires_at := eo_expires_at r;
     eo_state := eo_state r; eo_source_identity := eo_source_identity r;
     eo_source_version := eo_source_version r;
     eo_provider_retry_after := eo_provider_retry_after r;
     eo_exact_evidence := eo_exact_evidence r; eo_authority_effect := eo_authority_effect r |}.
Arguments set_observation_digest : simpl never.

Definition set_availability_policy_digest (d : string) (r : ExecutionAvailabilityPolicyV1) : ExecutionAvailabilityPolicyV1 :=
  {| yp_schema := yp_schema r; yp_policy_digest := d; yp_policy_id := yp_policy_id r;
     yp_maximum_dispatch_occurrences_per_attempt := yp_maximum_dispatch_occurrences_per_attempt r;
     yp_backoff_seconds := yp_backoff_seconds r;
     yp_maximum_total_deferral_seconds := yp_maximum_total_deferral_seconds r;
     yp_parked_resource_lock_policy := yp_parked_resource_lock_policy r;
     yp_provider_capacity_released_while_parked := yp_provider_capacity_released_while_parked r;
     yp_reconcile_indeterminate := yp_reconcile_indeterminate r;
     yp_allow_ordered_model_fallback := yp_allow_ordered_model_fallback r;
     yp_automatic_semantic_retry := yp_automatic_semantic_retry r;
     yp_approval_response_authorized := yp_approval_response_authorized r;
     yp_authority_effect := yp_authority_effect r |}.
Arguments set_availability_policy_digest : simpl never.

Definition set_requirement_digest (d : string) (r : ForemanExecutionAvailabilityRequirementV1) : ForemanExecutionAvailabilityRequirementV1 :=
  {| rq_schema := rq_schema r; rq_requirement_digest := d;
     rq_packet_digest := rq_packet_digest r; rq_admission_digest := rq_admission_digest r;
     rq_profile_digest := rq_profile_digest r; rq_run_id := rq_run_id r;
     rq_adapter_id := rq_adapter_id r; rq_adapter_protocol := rq_adapter_protocol r;
     rq_adapter_version := rq_adapter_version r;
     rq_adapter_executable_identity := rq_adapter_executable_identity r;
     rq_owner_pins := rq_owner_pins r; rq_policy_id := rq_policy_id r;
     rq_policy_digest := rq_policy_digest r;
     rq_work_item_model_selections := rq_work_item_model_selections r;
     rq_admitted_at := rq_admitted_at r; rq_authority_effect := rq_authority_effect r |}.
Arguments set_requirement_digest : simpl never.

Definition set_request_v3_digest (d : string) (r : WorkerStartRequestV3) : WorkerStartRequestV3 :=
  {| s3_schema := s3_schema r; s3_request_digest := d;
     s3_predecessor_schema := s3_predecessor_schema r;
     s3_predecessor_request_digest := s3_predecessor_request_digest r;
     s3_predecessor_sha256 := s3_predecessor_sha256 r;
     s3_predecessor_encoding := s3_predecessor_encoding r;
     s3_predecessor_bytes_hex := s3_predecessor_bytes_hex r;
     s3_packet_digest := s3_packet_digest r; s3_profile_digest := s3_profile_digest r;
     s3_run_id := s3_run_id r; s3_work_item_id := s3_work_item_id r;
     s3_attempt_id := s3_attempt_id r; s3_work_attempt_id := s3_work_attempt_id r;
     s3_dispatch_occurrence_id := s3_dispatch_occurrence_id r;
     s3_adapter_id := s3_adapter_id r; s3_adapter_version := s3_adapter_version r;
     s3_adapter_protocol := s3_adapter_protocol r;
     s3_worker_brief_digest := s3_worker_brief_digest r;
     s3_workspace_identity := s3_workspace_identity r;
     s3_provider_model_class := s3_provider_model_class r;
     s3_timeout_seconds := s3_timeout_seconds r;
     s3_maximum_output_bytes := s3_maximum_output_bytes r;
     s3_recursive_worker_swarms_forbidden := s3_recursive_worker_swarms_forbidden r;
     s3_approval_policy := s3_approval_policy r;
     s3_expected_receipt_schema := s3_expected_receipt_schema r;
     s3_provider_id := s3_provider_id r; s3_model_id := s3_model_id r;
     s3_model_class := s3_model_class r;
     s3_selected_model_ordinal := s3_selected_model_ordinal r;
     s3_provider_admission_adapter_protocol := s3_provider_admission_adapter_protocol r;
     s3_provider_admission_binding_schema := s3_provider_admission_binding_schema r;
     s3_provider_admission_evidence_schema := s3_provider_admission_evidence_schema r;
     s3_provider_admission_snapshot_schema := s3_provider_admission_snapshot_schema r;
     s3_codex_owner_head := s3_codex_owner_head r;
     s3_switchyard_owner_head := s3_switchyard_owner_head r;
     s3_switchyard_schema_sha256 := s3_switchyard_schema_sha256 r;
     s3_switchyard_deterministic_fixture_sha256 := s3_switchyard_deterministic_fixture_sha256 r;
     s3_provider_execution_id := s3_provider_execution_id r;
     s3_internal_provider_retry_count := s3_internal_provider_retry_count r;
     s3_semantic_retry := s3_semantic_retry r;
     s3_approval_response_authorized := s3_approval_response_authorized r;
     s3_authority_effect := s3_authority_effect r |}.
Arguments set_request_v3_digest : simpl never.

Definition set_dispatch_digest (d : string) (r : ProviderDispatchOccurrenceV1) : ProviderDispatchOccurrenceV1 :=
  {| di_schema := di_schema r; di_dispatch_digest := d;
     di_requirement_digest := di_requirement_digest r;
     di_policy_digest := di_policy_digest r; di_packet_digest := di_packet_digest r;
     di_run_id := di_run_id r; di_work_item_id := di_work_item_id r;
     di_work_attempt_id := di_work_attempt_id r;
     di_dispatch_occurrence_id := di_dispatch_occurrence_id r;
     di_dispatch_ordinal := di_dispatch_ordinal r;
     di_selected_model_ordinal := di_selected_model_ordinal r;
     di_selection := di_selection r; di_adapter_id := di_adapter_id r;
     di_adapter_version := di_adapter_version r;
     di_adapter_protocol := di_adapter_protocol r;
     di_adapter_process_occurrence_id := di_adapter_process_occurrence_id r;
     di_app_server_session_identity := di_app_server_session_identity r;
     di_worker_start_request_schema := di_worker_start_request_schema r;
     di_worker_start_request_digest := di_worker_start_request_digest r;
     di_worker_brief_digest := di_worker_brief_digest r; di_opened_at := di_opened_at r;
     di_internal_provider_retry_count := di_internal_provider_retry_count r;
     di_provider_execution_id := di_provider_execution_id r;
     di_authority_effect := di_authority_effect r |}.
Arguments set_dispatch_digest : simpl never.

Definition set_deferred_digest (d : string) (r : DeferredProviderDispatchV1) : DeferredProviderDispatchV1 :=
  {| df_schema := df_schema r; df_deferred_dispatch_digest := d;
     df_requirement_digest := df_requirement_digest r;
     df_policy_digest := df_policy_digest r;
     df_disposition_digest := df_disposition_digest r;
     df_packet_digest := df_packet_digest r; df_run_id := df_run_id r;
     df_work_item_id := df_work_item_id r; df_work_attempt_id := df_work_attempt_id r;
     df_last_dispatch_occurrence_id := df_last_dispatch_occurrence_id r;
     df_provider_id := df_provider_id r; df_model_id := df_model_id r;
     df_selected_model_ordinal := df_selected_model_ordinal r;
     df_remaining_model_ordinals := df_remaining_model_ordinals r;
     df_refusal_received_at := df_refusal_received_at r; df_wake_basis := df_wake_basis r;
     df_backoff_ordinal := df_backoff_ordinal r; df_backoff_seconds := df_backoff_seconds r;
     df_provider_retry_after := df_provider_retry_after r; df_wake_at := df_wake_at r;
     df_parked_resource_lock_policy := df_parked_resource_lock_policy r;
     df_provider_capacity_released := df_provider_capacity_released r;
     df_semantic_retry := df_semantic_retry r; df_authority_effect := df_authority_effect r |}.
Arguments set_deferred_digest : simpl never.

(** ** Constants *)

Definition EXECUTION_AVAILABILITY_OBSERVATION_SCHEMA_V1 : string :=
  "nightshift.provider-execution-availability-observation/v1".
Definition EXECUTION_AVAILABILITY_POLICY_SCHEMA_V1 : string :=
  "nightshift.provider-execution-availability-policy/v1".
Definition FOREMAN_EXECUTION_AVAILABILITY_REQUIREMENT_SCHEMA_V1 : string :=
  "nightshift.foreman-execution-availability-requirement/v1".
Definition PROVIDER_DISPATCH_OCCURRENCE_SCHEMA_V1 : string :=
  "nightshift.provider-dispatch-occurrence/v1".
Definition DETERMINISTIC_PROVIDER_ADMISSION_EVIDENCE_SCHEMA_V1 : string :=
  "nightshift.holding-deterministic-provider-admission-evidence/v1".
Definition DETERMINISTIC_PROVIDER_ADMISSION_EVIDENCE_SCHEMA_V2 : string :=
  "nightshift.holding-deterministic-provider-admission-evidence/v2".
Definition DEFERRED_PROVIDER_DISPATCH_SCHEMA_V1 : string :=
  "nightshift.deferred-provider-dispatch/v1".
Definition WORKER_START_REQUEST_SCHEMA_V3 : string := "nightshift.worker-start-request/v3".

Definition MAXIMUM_AVAILABILITY_EVIDENCE_BYTES : N := 16384.
Definition MAXIMUM_SWITCHYARD_MAPPER_SNAPSHOT_BYTES : N := 16777216.
Definition MAXIMUM_DISPATCH_OCCURRENCES : N := 16.
Definition MAXIMUM_TOTAL_DEFERRAL_SECONDS : N := 604800.

Definition OBSERVATION_DOMAIN : string :=
  "nightshift.provider-execution-availability-observation.digest/v1" +:+ NUL.
Definition POLICY_DOMAIN : string :=
  "nightshift.provider-execution-availability-policy.digest/v1" +:+ NUL.
Definition REQUIREMENT_DOMAIN : string :=
  "nightshift.foreman-execution-availability-requirement.digest/v1" +:+ NUL.
Definition DISPATCH_DOMAIN : string :=
  "nightshift.provider-dispatch-occurrence.digest/v1" +:+ NUL.
Definition DEFERRED_DOMAIN : string := "nightshift.deferred-provider-dispatch.digest/v1" +:+ NUL.
Definition WORKER_START_REQUEST_DOMAIN_V3 : string :=
  "nightshift.worker-start-request.digest/v3" +:+ NUL.

Definition HOLDING_QUALIFICATION_PRODUCER_ID : string :=
  "nightshift:holding-pattern-deterministic-fake-adapter".
Definition HOLDING_QUALIFICATION_PRODUCER_VERSION : string := "v1".
Definition SECOND_WATCH_QUALIFICATION_PRODUCER_VERSION : string := "v2".
Definition HOLDING_QUALIFICATION_EXECUTABLE_SHA256 : string :=
  "sha256:e8a310d46cb40b0aef6399a8da6c97ac99f0fc5eab6a78c5e7007600d5cbfa82".
Definition SECOND_WATCH_QUALIFICATION_EXECUTABLE_SHA256 : string :=
  "sha256:bcfea17f0aff021d6b69f2b3d924e7606bf74941671a5a7af13e2d1e3d43edd4".

(** ** Field checks *)

Definition lower_hex_byte (b : ascii) : bool := is_ascii_digit b || in_range 97 102 b.

(** This file's [digest]: lower-case hex only, unlike the contract's. *)
Definition availability_digest (field value : string) : result ContractError unit :=
  if negb (strlen value =? 71)%N
     || negb (starts_with value "sha256:")
     || negb (bytes_all lower_hex_byte (str_drop 7 value))
  then Err (InvalidField field) else Ok tt.

Definition availability_digests (fields : list (string * string)) : result ContractError unit :=
  for_each (fun '(field, value) => availability_digest field value) fields.

Definition LOCAL_SCHEDULING_ONLY : string := "LOCAL_AGENT_COMPUTE_SCHEDULING_ONLY".

(** ** Owner pins *)

Definition pins (codex switchyard schema_sha256 : string) : ProviderAdmissionOwnerPinsV1 :=
  {| op_codex_owner_head := codex;
     op_switchyard_owner_head := switchyard;
     op_switchyard_schema_sha256 := schema_sha256;
     op_deterministic_fixture_sha256 :=
       "sha256:cafa673ac58f60029fd6c1de229b4f57d9f42ba918b7ecb2a3bfb20cb2b41a31" |}.

Definition FINAL_CODEX_OWNER_HEAD : string := "97b0acd5ce2ccb3c87a763606696c35a450947f6".
Definition FINAL_SWITCHYARD_SCHEMA_SHA256 : string :=
  "sha256:0e9c851cc9fad9538408ab44d84737d5f4d4d7ef39f2fd5db20c6f88fc7fbb9e".
Definition BOUNDED_TURN_ECHO_SWITCHYARD_SCHEMA_SHA256 : string :=
  "sha256:c851fb5dd157ebb70896da06db50a07b968b3c0d357b2defc73ca267b9d82f93".
Definition PRIOR_ECHO_SCHEMA_SHA256 : string :=
  "sha256:2bcf795c753a08d3c7e2ef8b521b44b155054fccbd50452662230d59ddd3f293".

Definition accepted : ProviderAdmissionOwnerPinsV1 :=
  pins "c36a8137638decf8b04a49611354a90f32c5a945" "2ba25db66d8b29dd215bd87e05f4ea794024b3b7"
    "sha256:131f1f6e0cf8cb0aea26ed225c584440c81ffedd443c68ace23adecbe493cf93".
Definition bounded_turn_echo_candidate : ProviderAdmissionOwnerPinsV1 :=
  pins FINAL_CODEX_OWNER_HEAD "805e84d777eaab57c2108919ce43b09828e6e1ef"
    BOUNDED_TURN_ECHO_SWITCHYARD_SCHEMA_SHA256.
Definition raw_completion_echo_candidate : ProviderAdmissionOwnerPinsV1 :=
  pins FINAL_CODEX_OWNER_HEAD "df9acbd044beaa4cb165dcb648341cc373aecd72"
    BOUNDED_TURN_ECHO_SWITCHYARD_SCHEMA_SHA256.
Definition filtered_raw_completion_echo_candidate : ProviderAdmissionOwnerPinsV1 :=
  pins FINAL_CODEX_OWNER_HEAD "299609cda100ccf8701d5619ac78499f8bddd303"
    BOUNDED_TURN_ECHO_SWITCHYARD_SCHEMA_SHA256.
Definition retained_provider_receipt_candidate : ProviderAdmissionOwnerPinsV1 :=
  pins FINAL_CODEX_OWNER_HEAD "0d5c87e792bb0e8ea787329f25b0e31cc9dfd0b6"
    BOUNDED_TURN_ECHO_SWITCHYARD_SCHEMA_SHA256.
Definition prior_bounded_turn_echo_candidate : ProviderAdmissionOwnerPinsV1 :=
  pins FINAL_CODEX_OWNER_HEAD "6fe1084dc1a0e8e39a5a6c2bc108b39ace682724"
    PRIOR_ECHO_SCHEMA_SHA256.
Definition earlier_bounded_turn_echo_candidate : ProviderAdmissionOwnerPinsV1 :=
  pins FINAL_CODEX_OWNER_HEAD "ce5a3a0be8f90162581c820b85b2a785557aae24"
    PRIOR_ECHO_SCHEMA_SHA256.
Definition bounded_turn_candidate : ProviderAdmissionOwnerPinsV1 :=
  pins FINAL_CODEX_OWNER_HEAD "8479cb77dc76632e64b66e84c4f75c9765e421a6"
    "sha256:4e4eac904735c570f3fe7332765fffe4608cc3987fee9c1ef4b8db3ffdf03376".
Definition packaged_runtime_candidate : ProviderAdmissionOwnerPinsV1 :=
  pins FINAL_CODEX_OWNER_HEAD "7df43b4e15cb1465f434e072b4233a2e5825c0ca"
    FINAL_SWITCHYARD_SCHEMA_SHA256.
Definition source_export_verified_candidate : ProviderAdmissionOwnerPinsV1 :=
  pins FINAL_CODEX_OWNER_HEAD "3ba607c950a28c922b26d6dfa66ee06095158dc9"
    FINAL_SWITCHYARD_SCHEMA_SHA256.
Definition final_beta_candidate : ProviderAdmissionOwnerPinsV1 :=
  pins FINAL_CODEX_OWNER_HEAD "c01fb1ee586d33a5031d1d928ce40fcabfb4f4f2"
    FINAL_SWITCHYARD_SCHEMA_SHA256.
Definition prior_final_beta_candidate : ProviderAdmissionOwnerPinsV1 :=
  pins FINAL_CODEX_OWNER_HEAD "4f85615ef6ebe5483ab96afe6e046b4ea10566c6"
    FINAL_SWITCHYARD_SCHEMA_SHA256.
Definition beta_candidate : ProviderAdmissionOwnerPinsV1 :=
  pins "6893ae42233aa95b1c1623497405681d99a589da" "2207bb6ca19690a2c218fffe6c69e429eee24eb5"
    "sha256:448c2535c9c9586754d222912bbc86bc09fadb3c98059dc134141aff08efb8ba".

Definition enrolled_pins : list ProviderAdmissionOwnerPinsV1 :=
  [accepted; retained_provider_receipt_candidate; filtered_raw_completion_echo_candidate;
   raw_completion_echo_candidate; bounded_turn_echo_candidate;
   prior_bounded_turn_echo_candidate; earlier_bounded_turn_echo_candidate;
   bounded_turn_candidate; beta_candidate; prior_final_beta_candidate; final_beta_candidate;
   source_export_verified_candidate; packaged_runtime_candidate].

Definition owner_pins_validate (p : ProviderAdmissionOwnerPinsV1) : result ContractError unit :=
  reject (forallb (fun q => negb (bool_decide (p = q))) enrolled_pins)
    (InvalidField "provider admission owner pins").

Definition selection_validate (s : ProviderModelSelectionV1) : result ContractError unit :=
  id "selection provider_id" (sl_provider_id s) ;?
  id "selection model_id" (sl_model_id s) ;?
  id "selection model_class" (sl_model_class s).

Definition execution_identity_validate (x : ProviderExecutionIdentityV1)
    : result ContractError unit :=
  ids
    [("execution provider_id", xi_provider_id x); ("execution model_id", xi_model_id x);
     ("execution session", xi_app_server_session_identity x);
     ("execution thread", xi_thread_id x); ("execution turn", xi_turn_id x);
     ("execution first_response_id", xi_first_response_id x)].

Definition permits_automatic_park (k : ProviderAdmissionDispositionKindV1) : bool :=
  match k with NotAdmittedModelAtCapacity => true | _ => false end.

Definition PROVIDER_ADMISSION_DISPOSITION_SCHEMA_V1 : string :=
  "nightshift.provider-admission-disposition/v1".
Definition PROVIDER_ADMISSION_DISPOSITION_SCHEMA_V2 : string :=
  "nightshift.provider-admission-disposition/v2".
Definition PROVIDER_ADMISSION_DISPOSITION_SCHEMA_V3 : string :=
  "nightshift.provider-admission-disposition/v3".

(** [ProviderAdmissionDispositionV1::permits_automatic_park]: the qualification
    dispositions may also park on the other two refusals. *)
Definition disposition_permits_automatic_park (d : ProviderAdmissionDispositionV1) : bool :=
  permits_automatic_park (dp_disposition d)
  || (existsb (String.eqb (dp_schema d))
        [PROVIDER_ADMISSION_DISPOSITION_SCHEMA_V2; PROVIDER_ADMISSION_DISPOSITION_SCHEMA_V3]
      && match dp_disposition d with
         | NotAdmittedProviderUnavailable | NotAdmittedRateLimited => true
         | _ => false
         end).

Section validators.
Context {HO : Host} {SV : Serde value} {SEo : Serde ExecutionAvailabilityObservationV1}
{SYp : Serde ExecutionAvailabilityPolicyV1}
{SRq : Serde ForemanExecutionAvailabilityRequirementV1}
{SEp : Serde ExecutionProfileV2} {SSr : Serde WorkerStartRequestV2}
{SS3 : Serde WorkerStartRequestV3} {SDi : Serde ProviderDispatchOccurrenceV1}
{SDf : Serde DeferredProviderDispatchV1}.

Definition plain_sha256 (raw : string) : string := "sha256:" +:+ sha256_hex raw.

Definition sealed_digest {T} `{Serde T} (record : T) (field observed domain : string)
    : result ContractError unit :=
  availability_digest field observed ;?
  check_sealed record field domain observed.

Definition canonical_optional_timestamp (object : value) (field : string)
    : result ContractError unit :=
  match value_get object field with
  | Some Null => Ok tt
  | Some (Str _) => canonical_timestamp_value field object
  | _ => Err (InvalidField field)
  end.

(** ** Retained evidence bytes *)

Definition evidence_validate (e : ExactAvailabilityEvidenceV1) : result ContractError string :=
  reject (negb (existsb (String.eqb (xe_representation e))
                  ["EXACT_PROVIDER_AVAILABILITY_SOURCE_BYTES";
                   "EXACT_WIRE_BYTES_INCLUDING_LINE_TERMINATOR";
                   "EXACT_ACQUIRED_FRAME_BYTES_INCLUDING_LINE_TERMINATOR"]))
    (InvalidField "availability evidence representation") ;?
  availability_digest "evidence sha256" (xe_sha256 e) ;?
  reject (negb (String.eqb (xe_encoding e) "hex")
          || (xe_byte_length e =? 0)%N
          || (MAXIMUM_AVAILABILITY_EVIDENCE_BYTES <? xe_byte_length e)%N
          || negb (strlen (xe_bytes_hex e) =? xe_byte_length e * 2)%N
          || negb (bytes_all lower_hex_byte (xe_bytes_hex e)))
    (InvalidField "availability evidence encoding") ;?
  let? raw := ok_or (hex_decode (xe_bytes_hex e)) (InvalidField "availability evidence hex") in
  reject (negb (String.eqb (plain_sha256 raw) (xe_sha256 e)))
    (DigestMismatch "availability evidence sha256") ;?
  Ok raw.

Definition evidence_from_bytes (representation raw : string)
    : result ContractError ExactAvailabilityEvidenceV1 :=
  reject (str_is_empty raw || (MAXIMUM_AVAILABILITY_EVIDENCE_BYTES <? strlen raw)%N)
    (InvalidField "availability evidence bytes") ;?
  let e := {| xe_representation := representation; xe_byte_length := strlen raw;
              xe_sha256 := plain_sha256 raw; xe_encoding := "hex";
              xe_bytes_hex := hex_encode raw |} in
  let? _ := evidence_validate e in
  Ok e.

Definition mapper_snapshot_validate (m : ExactMapperSnapshotV1) : result ContractError string :=
  availability_digest "mapper snapshot sha256" (ms_sha256 m) ;?
  reject (negb (existsb (String.eqb (ms_representation m))
                  ["RFC8785_SWITCHYARD_MAPPER_SNAPSHOT";
                   "RFC8785_NIGHTSHIFT_QUALIFICATION_FAKE_ADAPTER_EVIDENCE"])
          || negb (String.eqb (ms_encoding m) "hex")
          || (ms_byte_length m =? 0)%N
          || (MAXIMUM_SWITCHYARD_MAPPER_SNAPSHOT_BYTES <? ms_byte_length m)%N
          || negb (strlen (ms_bytes_hex m) =? ms_byte_length m * 2)%N
          || negb (bytes_all lower_hex_byte (ms_bytes_hex m)))
    (InvalidField "mapper snapshot encoding") ;?
  let? raw := ok_or (hex_decode (ms_bytes_hex m)) (InvalidField "mapper snapshot hex") in
  reject (negb (String.eqb (plain_sha256 raw) (ms_sha256 m)))
    (DigestMismatch "mapper snapshot sha256") ;?
  Ok raw.

(** [from_bytes] and [from_qualification_evidence_bytes] differ in the tag. *)
Definition mapper_snapshot_from (representation raw : string)
    : result ContractError ExactMapperSnapshotV1 :=
  reject (str_is_empty raw || (MAXIMUM_SWITCHYARD_MAPPER_SNAPSHOT_BYTES <? strlen raw)%N)
    (InvalidField "mapper snapshot bytes") ;?
  let m := {| ms_representation := representation; ms_byte_length := strlen raw;
              ms_sha256 := plain_sha256 raw; ms_encoding := "hex";
              ms_bytes_hex := hex_encode raw |} in
  let? _ := mapper_snapshot_validate m in
  Ok m.
Definition mapper_snapshot_from_bytes (raw : string)
    : result ContractError ExactMapperSnapshotV1 :=
  mapper_snapshot_from "RFC8785_SWITCHYARD_MAPPER_SNAPSHOT" raw.
Definition mapper_snapshot_from_qualification_evidence_bytes (raw : string)
    : result ContractError ExactMapperSnapshotV1 :=
  mapper_snapshot_from "RFC8785_NIGHTSHIFT_QUALIFICATION_FAKE_ADAPTER_EVIDENCE" raw.

(** ** Observations *)

Definition availability_observation_from_slice (bytes : string)
    : result ContractError ExecutionAvailabilityObservationV1 :=
  let? v := parse bytes in
  for_each (fun field => canonical_timestamp_value field v)
    ["observed_at"; "received_at"; "expires_at"] ;?
  canonical_optional_timestamp v "provider_retry_after" ;?
  map_err Json (from_value v).

Definition availability_observation_validate (o : ExecutionAvailabilityObservationV1)
    : result ContractError unit :=
  schema (eo_schema o) EXECUTION_AVAILABILITY_OBSERVATION_SCHEMA_V1 ;?
  sealed_digest o "observation_digest" (eo_observation_digest o) OBSERVATION_DOMAIN ;?
  ids
    [("provider_id", eo_provider_id o); ("model_id", eo_model_id o);
     ("model_class", eo_model_class o); ("source_identity", eo_source_identity o);
     ("source_version", eo_source_version o)] ;?
  reject ((eo_received_at o <? eo_observed_at o)%Z || (eo_expires_at o <=? eo_received_at o)%Z)
    (InvalidField "availability observation time order") ;?
  reject (match eo_provider_retry_after o with
          | Some retry_after => (retry_after <? eo_received_at o)%Z
          | None => false
          end)
    (InvalidField "provider_retry_after") ;?
  match eo_state o, eo_exact_evidence o with
  | AvailabilityUnknown, None => Ok tt
  | _, Some evidence => let? _ := evidence_validate evidence in Ok tt
  | _, None => Err (InvalidField "availability evidence absence")
  end ;?
  reject (negb (String.eqb (eo_authority_effect o) "SCHEDULING_MECHANISM_EVIDENCE_ONLY"))
    (InvalidField "availability authority effect").

Definition availability_observation_seal (o : ExecutionAvailabilityObservationV1)
    : result ContractError ExecutionAvailabilityObservationV1 :=
  let? d := digest_without o "observation_digest" OBSERVATION_DOMAIN in
  let o := set_observation_digest d o in
  availability_observation_validate o ;?
  Ok o.

Definition is_current_at (o : ExecutionAvailabilityObservationV1) (evaluated_at : instant)
    : bool :=
  (eo_received_at o <=? evaluated_at)%Z && (evaluated_at <? eo_expires_at o)%Z.

(** ** Policies *)

(** [try_fold(0, checked_add)]. *)
Definition checked_sum (l : list N) : option N :=
  foldl (fun sum x => sum ≫= fun s => checked_add s x) (Some 0%N) l.

Definition availability_policy_validate (p : ExecutionAvailabilityPolicyV1)
    : result ContractError unit :=
  schema (yp_schema p) EXECUTION_AVAILABILITY_POLICY_SCHEMA_V1 ;?
  sealed_digest p "policy_digest" (yp_policy_digest p) POLICY_DOMAIN ;?
  id "policy_id" (yp_policy_id p) ;?
  (let total := checked_sum (yp_backoff_seconds p) in
   reject ((yp_maximum_dispatch_occurrences_per_attempt p =? 0)%N
           || (MAXIMUM_DISPATCH_OCCURRENCES <?
                 yp_maximum_dispatch_occurrences_per_attempt p)%N
           || bool_decide (yp_backoff_seconds p = [])
           || (yp_maximum_dispatch_occurrences_per_attempt p <?
                 N.of_nat (length (yp_backoff_seconds p)))%N
           || existsb (fun seconds => (seconds =? 0)%N || (86400 <? seconds)%N)
                (yp_backoff_seconds p)
           || (yp_maximum_total_deferral_seconds p =? 0)%N
           || (MAXIMUM_TOTAL_DEFERRAL_SECONDS <? yp_maximum_total_deferral_seconds p)%N
           || match total with
              | None => true
              | Some sum => (yp_maximum_total_deferral_seconds p <? sum)%N
              end
           || negb (yp_provider_capacity_released_while_parked p)
           || negb (yp_reconcile_indeterminate p)
           || yp_automatic_semantic_retry p
           || yp_approval_response_authorized p
           || negb (String.eqb (yp_authority_effect p) LOCAL_SCHEDULING_ONLY))
     (InvalidField "availability policy boundary")).

Definition availability_policy_from_slice (bytes : string)
    : result ContractError ExecutionAvailabilityPolicyV1 :=
  parse bytes.

Definition availability_policy_seal (p : ExecutionAvailabilityPolicyV1)
    : result ContractError ExecutionAvailabilityPolicyV1 :=
  let? d := digest_without p "policy_digest" POLICY_DOMAIN in
  let p := set_availability_policy_digest d p in
  availability_policy_validate p ;?
  Ok p.

(** ** Run-level requirements *)

Definition requirement_from_slice (bytes : string)
    : result ContractError ForemanExecutionAvailabilityRequirementV1 :=
  let? v := parse bytes in
  canonical_timestamp_value "admitted_at" v ;?
  map_err Json (from_value v).

(** One turn of the loop over [selections]; the state is the set [exact]. *)
Definition check_selection (s : ProviderModelSelectionV1)
    (exact : gset (string * string * string))
    : result ContractError (gset (string * string * string)) :=
  selection_validate s ;?
  let key := (sl_provider_id s, sl_model_id s, sl_model_class s) in
  if bool_decide (key ∈ exact) then Err (InvalidField "duplicate model selection")
  else Ok ({[key]} ∪ exact).

Definition check_selections (entry : string * list ProviderModelSelectionV1)
    : result ContractError unit :=
  let '(work_item, selections) := entry in
  id "work_item_id" work_item ;?
  reject (bool_decide (selections = []) || (16 <? length selections)%nat)
    (InvalidField "model selection count") ;?
  let? _ := fold_try check_selection selections ∅ in
  Ok tt.

Definition requirement_validate (r : ForemanExecutionAvailabilityRequirementV1)
    : result ContractError unit :=
  schema (rq_schema r) FOREMAN_EXECUTION_AVAILABILITY_REQUIREMENT_SCHEMA_V1 ;?
  sealed_digest r "requirement_digest" (rq_requirement_digest r) REQUIREMENT_DOMAIN ;?
  availability_digests
    [("packet_digest", rq_packet_digest r); ("admission_digest", rq_admission_digest r);
     ("profile_digest", rq_profile_digest r);
     ("adapter_executable_identity", rq_adapter_executable_identity r);
     ("policy_digest", rq_policy_digest r)] ;?
  ids
    [("run_id", rq_run_id r); ("adapter_id", rq_adapter_id r);
     ("adapter_protocol", rq_adapter_protocol r); ("adapter_version", rq_adapter_version r);
     ("policy_id", rq_policy_id r)] ;?
  owner_pins_validate (rq_owner_pins r) ;?
  reject ((size (rq_work_item_model_selections r) =? 0)%nat
          || (1024 <? size (rq_work_item_model_selections r))%nat)
    (InvalidField "work-item model selections") ;?
  for_each check_selections (btree_iter (rq_work_item_model_selections r)) ;?
  reject (negb (String.eqb (rq_authority_effect r) LOCAL_SCHEDULING_ONLY))
    (InvalidField "requirement authority effect").

Definition requirement_seal (r : ForemanExecutionAvailabilityRequirementV1)
    : result ContractError ForemanExecutionAvailabilityRequirementV1 :=
  let? d := digest_without r "requirement_digest" REQUIREMENT_DOMAIN in
  let r := set_requirement_digest d r in
  requirement_validate r ;?
  Ok r.
End validators.

Section dispatch.
Context {HO : Host} {SV : Serde value}
{SRq : Serde ForemanExecutionAvailabilityRequirementV1}
{SEp : Serde ExecutionProfileV2} {SSr : Serde WorkerStartRequestV2}
{SS3 : Serde WorkerStartRequestV3} {SDi : Serde ProviderDispatchOccurrenceV1}
{SDf : Serde DeferredProviderDispatchV1}.

(** ** Start requests of the third version *)

Definition request_owner_pins (s : WorkerStartRequestV3) : ProviderAdmissionOwnerPinsV1 :=
  {| op_codex_owner_head := s3_codex_owner_head s;
     op_switchyard_owner_head := s3_switchyard_owner_head s;
     op_switchyard_schema_sha256 := s3_switchyard_schema_sha256 s;
     op_deterministic_fixture_sha256 := s3_switchyard_deterministic_fixture_sha256 s |}.

Definition predecessor_v2 (s : WorkerStartRequestV3)
    : result ContractError WorkerStartRequestV2 :=
  reject (negb (String.eqb (s3_predecessor_encoding s) "hex")
          || negb (bytes_all lower_hex_byte (s3_predecessor_bytes_hex s)))
    (InvalidField "V2 predecessor encoding") ;?
  let? bytes := ok_or (hex_decode (s3_predecessor_bytes_hex s))
                  (InvalidField "V2 predecessor hex") in
  reject (str_is_empty bytes || (65536 <? strlen bytes)%N
          || negb (String.eqb (plain_sha256 bytes) (s3_predecessor_sha256 s)))
    (InvalidField "V2 predecessor custody") ;?
  let? predecessor := parse bytes in
  start_validate predecessor ;?
  let? canonical := map_err Json (to_vec predecessor) in
  reject (negb (String.eqb canonical bytes)
          || negb (String.eqb (sr_request_digest predecessor) (s3_predecessor_request_digest s)))
    (InvalidField "canonical V2 predecessor bytes") ;?
  Ok predecessor.

Definition switchyard_binding (s : WorkerStartRequestV3) : bool :=
  negb (String.eqb (s3_adapter_id s) HOLDING_QUALIFICATION_PRODUCER_ID)
  && String.eqb (s3_adapter_protocol s) "switchyard.codex-app-server/v2"
  && String.eqb (s3_provider_admission_adapter_protocol s) (s3_adapter_protocol s)
  && String.eqb (s3_provider_admission_binding_schema s)
       "switchyard.codex-provider-admission-binding/v1"
  && String.eqb (s3_provider_admission_evidence_schema s)
       "switchyard.codex-provider-admission-evidence/v1"
  && String.eqb (s3_provider_admission_snapshot_schema s)
       "switchyard.codex-provider-admission-snapshot/v1".

(** [qualification_binding_v1] and [_v2]. *)
Definition qualification_binding (version protocol : string) (s : WorkerStartRequestV3) : bool :=
  String.eqb (s3_adapter_id s) HOLDING_QUALIFICATION_PRODUCER_ID
  && String.eqb (s3_adapter_version s) version
  && String.eqb (s3_adapter_protocol s) protocol
  && String.eqb (s3_provider_admission_adapter_protocol s) (s3_adapter_protocol s)
  && String.eqb (s3_provider_admission_binding_schema s) (s3_adapter_protocol s)
  && String.eqb (s3_provider_admission_evidence_schema s) (s3_adapter_protocol s)
  && String.eqb (s3_provider_admission_snapshot_schema s) (s3_adapter_protocol s).

(** The fields a third-version request repeats from its predecessor. *)
Definition differs_from_predecessor (s : WorkerStartRequestV3) (p : WorkerStartRequestV2)
    : bool :=
  negb (String.eqb (s3_predecessor_schema s) WORKER_START_REQUEST_SCHEMA_V2)
  || negb (String.eqb (sr_schema p) (s3_predecessor_schema s))
  || negb (String.eqb (s3_packet_digest s) (sr_packet_digest p))
  || negb (String.eqb (s3_run_id s) (sr_run_id p))
  || negb (String.eqb (s3_work_item_id s) (sr_work_item_id p))
  || negb (String.eqb (s3_attempt_id s) (sr_attempt_id p))
  || negb (String.eqb (s3_work_attempt_id s) (sr_attempt_id p))
  || negb (String.eqb (s3_adapter_id s) (sr_adapter_id p))
  || negb (String.eqb (s3_adapter_version s) (sr_adapter_version p))
  || negb (String.eqb (s3_adapter_protocol s) (sr_adapter_protocol p))
  || negb (String.eqb (s3_worker_brief_digest s) (sr_worker_brief_digest p))
  || negb (String.eqb (s3_workspace_identity s) (sr_workspace_identity p))
  || negb (String.eqb (s3_provider_model_class s) (sr_provider_model_class p))
  || negb (s3_timeout_seconds s =? sr_timeout_seconds p)%N
  || negb (s3_maximum_output_bytes s =? sr_maximum_output_bytes p)%N
  || negb (Bool.eqb (s3_recursive_worker_swarms_forbidden s)
             (sr_recursive_worker_swarms_forbidden p))
  || negb (String.eqb (s3_approval_policy s) (sr_approval_policy p))
  || negb (String.eqb (s3_expected_receipt_schema s) (sr_expected_receipt_schema p)).

Definition request_v3_validate (s : WorkerStartRequestV3) : result ContractError unit :=
  schema (s3_schema s) WORKER_START_REQUEST_SCHEMA_V3 ;?
  sealed_digest s "request_digest" (s3_request_digest s) WORKER_START_REQUEST_DOMAIN_V3 ;?
  availability_digests
    [("predecessor_request_digest", s3_predecessor_request_digest s);
     ("predecessor_sha256", s3_predecessor_sha256 s);
     ("packet_digest", s3_packet_digest s);
     ("profile_digest", s3_profile_digest s);
     ("worker_brief_digest", s3_worker_brief_digest s);
     ("switchyard_schema_sha256", s3_switchyard_schema_sha256 s);
     ("switchyard_deterministic_fixture_sha256",
      s3_switchyard_deterministic_fixture_sha256 s)] ;?
  ids
    [("run_id", s3_run_id s); ("work_item_id", s3_work_item_id s);
     ("attempt_id", s3_attempt_id s); ("work_attempt_id", s3_work_attempt_id s);
     ("dispatch_occurrence_id", s3_dispatch_occurrence_id s);
     ("adapter_id", s3_adapter_id s); ("adapter_version", s3_adapter_version s);
     ("adapter_protocol", s3_adapter_protocol s);
     ("workspace_identity", s3_workspace_identity s);
     ("provider_model_class", s3_provider_model_class s);
     ("provider_id", s3_provider_id s); ("model_id", s3_model_id s);
     ("model_class", s3_model_class s);
     ("provider_admission_adapter_protocol", s3_provider_admission_adapter_protocol s);
     ("provider_admission_binding_schema", s3_provider_admission_binding_schema s);
     ("provider_admission_evidence_schema", s3_provider_admission_evidence_schema s);
     ("provider_admission_snapshot_schema", s3_provider_admission_snapshot_schema s)] ;?
  let? predecessor := predecessor_v2 s in
  reject (differs_from_predecessor s predecessor
          || negb (String.eqb (s3_model_class s) (s3_provider_model_class s))
          || (16 <=? s3_selected_model_ordinal s)%N
          || negb (switchyard_binding s
                   || qualification_binding HOLDING_QUALIFICATION_PRODUCER_VERSION
                        DETERMINISTIC_PROVIDER_ADMISSION_EVIDENCE_SCHEMA_V1 s
                   || qualification_binding SECOND_WATCH_QUALIFICATION_PRODUCER_VERSION
                        DETERMINISTIC_PROVIDER_ADMISSION_EVIDENCE_SCHEMA_V2 s)
          || negb (is_ok (owner_pins_validate (request_owner_pins s)))
          || negb (bool_decide (s3_provider_execution_id s = None))
          || negb (s3_internal_provider_retry_count s =? 0)%N
          || s3_semantic_retry s
          || s3_approval_response_authorized s
          || negb (String.eqb (s3_authority_effect s) LOCAL_SCHEDULING_ONLY))
    (InvalidField "worker start V3 binding").

Definition request_v3_from_slice (bytes : string)
    : result ContractError WorkerStartRequestV3 :=
  let? request := parse bytes in
  let? canonical := map_err Json (to_vec request) in
  reject (negb (String.eqb canonical bytes)) (InvalidField "canonical V3 request bytes") ;?
  request_v3_validate request ;?
  Ok request.

Definition request_v3_seal (s : WorkerStartRequestV3)
    : result ContractError WorkerStartRequestV3 :=
  let? d := digest_without s "request_digest" WORKER_START_REQUEST_DOMAIN_V3 in
  let s := set_request_v3_digest d s in
  request_v3_validate s ;?
  Ok s.

Definition exact_qualification_executable (s : WorkerStartRequestV3)
    (adapter : AdapterRegistrationV2) : bool :=
  if String.eqb (s3_adapter_version s) HOLDING_QUALIFICATION_PRODUCER_VERSION
  then String.eqb (ar_executable_identity adapter) HOLDING_QUALIFICATION_EXECUTABLE_SHA256
  else if String.eqb (s3_adapter_version s) SECOND_WATCH_QUALIFICATION_PRODUCER_VERSION
  then String.eqb (ar_executable_identity adapter)
         SECOND_WATCH_QUALIFICATION_EXECUTABLE_SHA256
  else false.

(** [selections.get(usize::from(ordinal))] for the request's item. *)
Definition selected_model (r : ForemanExecutionAvailabilityRequirementV1)
    (work_item_id : string) (ordinal : N) : option ProviderModelSelectionV1 :=
  rq_work_item_model_selections r !! work_item_id ≫= fun selections =>
    selections !! N.to_nat ordinal.

Definition pre_dispatch_mismatch (s : WorkerStartRequestV3) (profile : ExecutionProfileV2)
    (requirement : ForemanExecutionAvailabilityRequirementV1)
    (predecessor : WorkerStartRequestV2) (execution : WorkItemExecutionV1)
    (adapter : AdapterRegistrationV2) (selection : ProviderModelSelectionV1) : bool :=
  String.eqb (s3_work_attempt_id s) (s3_dispatch_occurrence_id s)
  || negb (bool_decide (request_owner_pins s = rq_owner_pins requirement))
  || negb (String.eqb (s3_profile_digest s) (ep_profile_digest profile))
  || negb (String.eqb (s3_packet_digest s) (ep_packet_digest profile))
  || negb (String.eqb (s3_packet_digest s) (rq_packet_digest requirement))
  || negb (String.eqb (ep_admission_digest profile) (rq_admission_digest requirement))
  || negb (String.eqb (ep_profile_digest profile) (rq_profile_digest requirement))
  || negb (String.eqb (s3_run_id s) (rq_run_id requirement))
  || negb (String.eqb (s3_adapter_id s) (rq_adapter_id requirement))
  || negb (String.eqb (s3_adapter_version s) (rq_adapter_version requirement))
  || negb (String.eqb (s3_adapter_protocol s) (rq_adapter_protocol requirement))
  || negb (String.eqb (s3_adapter_id s) (wx_adapter_id execution))
  || negb (String.eqb (s3_adapter_id s) (ar_adapter_id adapter))
  || negb (String.eqb (s3_adapter_version s) (ar_adapter_version adapter))
  || negb (String.eqb (s3_adapter_protocol s) (ar_protocol adapter))
  || negb (String.eqb (rq_adapter_executable_identity requirement)
             (ar_executable_identity adapter))
  || negb (String.eqb (s3_workspace_identity s) (wx_workspace_identity execution))
  || negb (String.eqb (s3_provider_model_class s) (wx_provider_model_class execution))
  || negb (s3_timeout_seconds s =? ep_adapter_timeout_seconds profile)%N
  || negb (s3_maximum_output_bytes s =? worker_output_bound profile)%N
  || negb (String.eqb (s3_provider_id s) (sl_provider_id selection))
  || negb (String.eqb (s3_model_id s) (sl_model_id selection))
  || negb (String.eqb (s3_model_class s) (sl_model_class selection))
  || negb (String.eqb (sr_request_digest predecessor) (s3_predecessor_request_digest s))
  || negb (String.eqb (sr_worker_brief_digest predecessor) (s3_worker_brief_digest s)).

Definition validate_pre_dispatch_graph (s : WorkerStartRequestV3)
    (profile : ExecutionProfileV2) (requirement : ForemanExecutionAvailabilityRequirementV1)
    : result ContractError unit :=
  request_v3_validate s ;?
  profile_validate profile ;?
  requirement_validate requirement ;?
  let? predecessor := predecessor_v2 s in
  let? execution := ok_or (ep_work_items profile !! s3_work_item_id s)
                      (InvalidField "V3 profile work item") in
  let? adapter := ok_or (ep_adapters profile !! wx_adapter_id execution)
                    (InvalidField "V3 profile adapter") in
  reject (String.eqb (s3_adapter_id s) HOLDING_QUALIFICATION_PRODUCER_ID
          && (negb (exact_qualification_executable s adapter)
              || negb (bool_decide (ar_bounded_arguments adapter = []))))
    (InvalidField "V3 qualification adapter executable binding") ;?
  let? selection := ok_or (selected_model requirement (s3_work_item_id s)
                             (s3_selected_model_ordinal s))
                      (InvalidField "V3 selected model ordinal") in
  reject (pre_dispatch_mismatch s profile requirement predecessor execution adapter selection)
    (InvalidField "worker start V3 pre-dispatch graph").

(** ** Dispatch occurrences *)

Definition dispatch_from_slice (bytes : string)
    : result ContractError ProviderDispatchOccurrenceV1 :=
  let? v := parse bytes in
  canonical_timestamp_value "opened_at" v ;?
  map_err Json (from_value v).

Definition dispatch_validate (d : ProviderDispatchOccurrenceV1) : result ContractError unit :=
  schema (di_schema d) PROVIDER_DISPATCH_OCCURRENCE_SCHEMA_V1 ;?
  sealed_digest d "dispatch_digest" (di_dispatch_digest d) DISPATCH_DOMAIN ;?
  availability_digests
    [("requirement_digest", di_requirement_digest d); ("policy_digest", di_policy_digest d);
     ("packet_digest", di_packet_digest d);
     ("worker_start_request_digest", di_worker_start_request_digest d);
     ("worker_brief_digest", di_worker_brief_digest d)] ;?
  ids
    [("run_id", di_run_id d); ("work_item_id", di_work_item_id d);
     ("work_attempt_id", di_work_attempt_id d);
     ("dispatch_occurrence_id", di_dispatch_occurrence_id d);
     ("adapter_id", di_adapter_id d); ("adapter_version", di_adapter_version d);
     ("adapter_protocol", di_adapter_protocol d);
     ("adapter_process_occurrence_id", di_adapter_process_occurrence_id d);
     ("app_server_session_identity", di_app_server_session_identity d)] ;?
  selection_validate (di_selection d) ;?
  reject ((di_dispatch_ordinal d =? 0)%N
          || (MAXIMUM_DISPATCH_OCCURRENCES <? di_dispatch_ordinal d)%N
          || (16 <=? di_selected_model_ordinal d)%N
          || negb (String.eqb (di_worker_start_request_schema d)
                     "nightshift.worker-start-request/v3")
          || negb (di_internal_provider_retry_count d =? 0)%N
          || negb (bool_decide (di_provider_execution_id d = None))
          || negb (String.eqb (di_authority_effect d) LOCAL_SCHEDULING_ONLY))
    (InvalidField "dispatch occurrence boundary").

Definition dispatch_seal (d : ProviderDispatchOccurrenceV1)
    : result ContractError ProviderDispatchOccurrenceV1 :=
  let? h := digest_without d "dispatch_digest" DISPATCH_DOMAIN in
  let d := set_dispatch_digest h d in
  dispatch_validate d ;?
  Ok d.

Definition dispatch_mismatch (s : WorkerStartRequestV3)
    (requirement : ForemanExecutionAvailabilityRequirementV1)
    (d : ProviderDispatchOccurrenceV1) : bool :=
  negb (String.eqb (di_requirement_digest d) (rq_requirement_digest requirement))
  || negb (String.eqb (di_policy_digest d) (rq_policy_digest requirement))
  || negb (String.eqb (di_packet_digest d) (rq_packet_digest requirement))
  || negb (String.eqb (di_run_id d) (rq_run_id requirement))
  || negb (String.eqb (di_work_item_id d) (s3_work_item_id s))
  || negb (String.eqb (di_work_attempt_id d) (s3_work_attempt_id s))
  || negb (String.eqb (di_dispatch_occurrence_id d) (s3_dispatch_occurrence_id s))
  || negb (di_selected_model_ordinal d =? s3_selected_model_ordinal s)%N
  || negb (String.eqb (sl_provider_id (di_selection d)) (s3_provider_id s))
  || negb (String.eqb (sl_model_id (di_selection d)) (s3_model_id s))
  || negb (String.eqb (sl_model_class (di_selection d)) (s3_model_class s))
  || negb (String.eqb (di_adapter_id d) (s3_adapter_id s))
  || negb (String.eqb (di_adapter_version d) (s3_adapter_version s))
  || negb (String.eqb (di_adapter_protocol d) (s3_adapter_protocol s))
  || negb (String.eqb (di_worker_start_request_schema d) (s3_schema s))
  || negb (String.eqb (di_worker_start_request_digest d) (s3_request_digest s))
  || negb (String.eqb (di_worker_brief_digest d) (s3_worker_brief_digest s))
  || (di_opened_at d <? rq_admitted_at requirement)%Z
  || negb (bool_decide (di_provider_execution_id d = None)).

Definition validate_dispatch_graph (s : WorkerStartRequestV3) (profile : ExecutionProfileV2)
    (requirement : ForemanExecutionAvailabilityRequirementV1)
    (d : ProviderDispatchOccurrenceV1) : result ContractError unit :=
  validate_pre_dispatch_graph s profile requirement ;?
  dispatch_validate d ;?
  reject (dispatch_mismatch s requirement d) (InvalidField "worker start V3 dispatch graph").

(** ** Deriving a dispatch request from its predecessor *)

Definition qualification_protocol (p : WorkerStartRequestV2) : option string :=
  if String.eqb (sr_adapter_id p) HOLDING_QUALIFICATION_PRODUCER_ID
     && String.eqb (sr_adapter_version p) HOLDING_QUALIFICATION_PRODUCER_VERSION
     && String.eqb (sr_adapter_protocol p) DETERMINISTIC_PROVIDER_ADMISSION_EVIDENCE_SCHEMA_V1
  then Some DETERMINISTIC_PROVIDER_ADMISSION_EVIDENCE_SCHEMA_V1
  else if String.eqb (sr_adapter_id p) HOLDING_QUALIFICATION_PRODUCER_ID
     && String.eqb (sr_adapter_version p) SECOND_WATCH_QUALIFICATION_PRODUCER_VERSION
     && String.eqb (sr_adapter_protocol p) DETERMINISTIC_PROVIDER_ADMISSION_EVIDENCE_SCHEMA_V2
  then Some DETERMINISTIC_PROVIDER_ADMISSION_EVIDENCE_SCHEMA_V2
  else None.

Definition admission_schemas (p : WorkerStartRequestV2) : string * string * string * string :=
  match qualification_protocol p with
  | Some protocol => (protocol, protocol, protocol, protocol)
  | None =>
      ("switchyard.codex-app-server/v2", "switchyard.codex-provider-admission-binding/v1",
       "switchyard.codex-provider-admission-evidence/v1",
       "switchyard.codex-provider-admission-snapshot/v1")
  end.

Definition request_v3_of (bytes : string) (p : WorkerStartRequestV2)
    (profile : ExecutionProfileV2) (requirement : ForemanExecutionAvailabilityRequirementV1)
    (selection : ProviderModelSelectionV1) (dispatch_occurrence_id : string) (ordinal : N)
    : WorkerStartRequestV3 :=
  let '(protocol, binding, evidence, snapshot) := admission_schemas p in
  {| s3_schema := WORKER_START_REQUEST_SCHEMA_V3;
     s3_request_digest := "sha256:" +:+ str_repeat 64 "0"%char;
     s3_predecessor_schema := sr_schema p;
     s3_predecessor_request_digest := sr_request_digest p;
     s3_predecessor_sha256 := plain_sha256 bytes;
     s3_predecessor_encoding := "hex";
     s3_predecessor_bytes_hex := hex_encode bytes;
     s3_packet_digest := sr_packet_digest p;
     s3_profile_digest := ep_profile_digest profile;
     s3_run_id := sr_run_id p;
     s3_work_item_id := sr_work_item_id p;
     s3_attempt_id := sr_attempt_id p;
     s3_work_attempt_id := sr_attempt_id p;
     s3_dispatch_occurrence_id := dispatch_occurrence_id;
     s3_adapter_id := sr_adapter_id p;
     s3_adapter_version := sr_adapter_version p;
     s3_adapter_protocol := sr_adapter_protocol p;
     s3_worker_brief_digest := sr_worker_brief_digest p;
     s3_workspace_identity := sr_workspace_identity p;
     s3_provider_model_class := sr_provider_model_class p;
     s3_timeout_seconds := sr_timeout_seconds p;
     s3_maximum_output_bytes := sr_maximum_output_bytes p;
     s3_recursive_worker_swarms_forbidden := sr_recursive_worker_swarms_forbidden p;
     s3_approval_policy := sr_approval_policy p;
     s3_expected_receipt_schema := sr_expected_receipt_schema p;
     s3_provider_id := sl_provider_id selection;
     s3_model_id := sl_model_id selection;
     s3_model_class := sl_model_class selection;
     s3_selected_model_ordinal := ordinal;
     s3_provider_admission_adapter_protocol := protocol;
     s3_provider_admission_binding_schema := binding;
     s3_provider_admission_evidence_schema := evidence;
     s3_provider_admission_snapshot_schema := snapshot;
     s3_codex_owner_head := op_codex_owner_head (rq_owner_pins requirement);
     s3_switchyard_owner_head := op_switchyard_owner_head (rq_owner_pins requirement);
     s3_switchyard_schema_sha256 := op_switchyard_schema_sha256 (rq_owner_pins requirement);
     s3_switchyard_deterministic_fixture_sha256 :=
       op_deterministic_fixture_sha256 (rq_owner_pins requirement);
     s3_provider_execution_id := None;
     s3_internal_provider_retry_count := 0;
     s3_semantic_retry := false;
     s3_approval_response_authorized := false;
     s3_authority_effect := LOCAL_SCHEDULING_ONLY |}.

Definition from_v2_for_dispatch (predecessor_bytes : string) (profile : ExecutionProfileV2)
    (requirement : ForemanExecutionAvailabilityRequirementV1)
    (dispatch_occurrence_id : string) (selected_model_ordinal : N)
    : result ContractError WorkerStartRequestV3 :=
  profile_validate profile ;?
  requirement_validate requirement ;?
  reject (str_is_empty predecessor_bytes || (65536 <? strlen predecessor_bytes)%N)
    (InvalidField "V2 predecessor bytes") ;?
  let? predecessor := parse predecessor_bytes in
  start_validate predecessor ;?
  let? canonical := map_err Json (to_vec predecessor) in
  reject (negb (String.eqb canonical predecessor_bytes))
    (InvalidField "canonical V2 predecessor bytes") ;?
  let? selections := ok_or (rq_work_item_model_selections requirement
                              !! sr_work_item_id predecessor)
                       (InvalidField "V3 work-item selection") in
  let? selection := ok_or (selections !! N.to_nat selected_model_ordinal)
                      (InvalidField "V3 selected model ordinal") in
  let? request := request_v3_seal (request_v3_of predecessor_bytes predecessor profile
                    requirement selection dispatch_occurrence_id selected_model_ordinal) in
  validate_pre_dispatch_graph request profile requirement ;?
  Ok request.

(** ** Deferrals *)

Definition deferred_from_slice (bytes : string)
    : result ContractError DeferredProviderDispatchV1 :=
  let? v := parse bytes in
  for_each (fun field => canonical_timestamp_value field v)
    ["refusal_received_at"; "wake_at"] ;?
  canonical_optional_timestamp v "provider_retry_after" ;?
  map_err Json (from_value v).

(** [windows(2).any(|pair| pair[0] >= pair[1])]. *)
Fixpoint descending_pair (l : list N) : bool :=
  match l with
  | a :: ((b :: _) as l') => (b <=? a)%N || descending_pair l'
  | _ => false
  end.

Definition expected_wake (d : DeferredProviderDispatchV1) : result ContractError instant :=
  match df_wake_basis d with
  | ProviderRetryAfter =>
      ok_or (df_provider_retry_after d) (InvalidField "provider_retry_after")
  | PolicyBackoff =>
      reject (negb (bool_decide (df_provider_retry_after d = None)))
        (InvalidField "unexpected provider_retry_after") ;?
      ok_or (checked_add_signed (df_refusal_received_at d)
               (Z.of_N (df_backoff_seconds d) * 1000000000))
        (InvalidField "wake_at")
  end.

Definition deferred_validate (d : DeferredProviderDispatchV1) : result ContractError unit :=
  schema (df_schema d) DEFERRED_PROVIDER_DISPATCH_SCHEMA_V1 ;?
  sealed_digest d "deferred_dispatch_digest" (df_deferred_dispatch_digest d)
    DEFERRED_DOMAIN ;?
  availability_digests
    [("requirement_digest", df_requirement_digest d); ("policy_digest", df_policy_digest d);
     ("disposition_digest", df_disposition_digest d); ("packet_digest", df_packet_digest d)] ;?
  ids
    [("run_id", df_run_id d); ("work_item_id", df_work_item_id d);
     ("work_attempt_id", df_work_attempt_id d);
     ("last_dispatch_occurrence_id", df_last_dispatch_occurrence_id d);
     ("provider_id", df_provider_id d); ("model_id", df_model_id d)] ;?
  reject ((16 <=? df_selected_model_ordinal d)%N
          || (MAXIMUM_DISPATCH_OCCURRENCES <=? df_backoff_ordinal d)%N
          || (df_backoff_seconds d =? 0)%N
          || (86400 <? df_backoff_seconds d)%N
          || (16 <? length (df_remaining_model_ordinals d))%nat
          || existsb (fun ordinal => (16 <=? ordinal)%N
                                     || (ordinal <=? df_selected_model_ordinal d)%N)
               (df_remaining_model_ordinals d)
          || descending_pair (df_remaining_model_ordinals d)
          || negb (df_provider_capacity_released d)
          || df_semantic_retry d
          || negb (String.eqb (df_authority_effect d) LOCAL_SCHEDULING_ONLY))
    (InvalidField "deferred dispatch boundary") ;?
  let? wake := expected_wake d in
  reject (negb (df_wake_at d =? wake)%Z || (df_wake_at d <=? df_refusal_received_at d)%Z)
    (InvalidField "wake_at").

Definition deferred_seal (d : DeferredProviderDispatchV1)
    : result ContractError DeferredProviderDispatchV1 :=
  let? h := digest_without d "deferred_dispatch_digest" DEFERRED_DOMAIN in
  let d := set_deferred_digest h d in
  deferred_validate d ;?
  Ok d.
End dispatch.
