(* ===== verification/Evidence.v ===== *)
(** * Provider admission evidence (crates/nightshift-foreman/src/execution_availability.rs)

    The two deterministic evidence records of the qualification adapter and the
    admission disposition: sealing, parsing and validation.  A disposition of the
    first schema carries a Switchyard mapper snapshot; what its replay promises the other
    modules is the interface [ProviderEvidence], implemented in [Replay]. *)
From S2P Require Import Prelude Text External Contract Availability.
Local Open Scope string_scope.

(** ** Data *)

(** The constructors carry a prefix: Rocq has one name space for them. *)
Inductive DeterministicProviderAdmissionOutcomeV1 :=
| OutcomeRateLimited
| OutcomeProviderUnavailable
| OutcomeAuthenticationRefused
| OutcomeTransportError
| OutcomeProtocolError.

Inductive DeterministicProviderAdmissionOutcomeV2 :=
| Outcome2ProviderUnavailable
| Outcome2ExecutionCompleted.

Record DeterministicProviderAdmissionEvidenceV1 := {
  q1_schema : string;
  q1_evidence_digest : string;
  q1_producer_id : string;
  q1_producer_version : string;
  q1_executable_id : string;
  q1_executable_sha256 : string;
  q1_work_attempt_id : string;
  q1_dispatch_occurrence_id : string;
  q1_provider_request_occurrence_id : string;
  q1_provider_id : string;
  q1_model_id : string;
  q1_outcome : DeterministicProviderAdmissionOutcomeV1;
  q1_response_created : bool;
  q1_non_admission_proven : bool;
  q1_retry_after : option instant;
  q1_observed_at : instant;
  q1_received_at : instant;
  q1_raw_evidence : ExactAvailabilityEvidenceV1;
  q1_authority_effect : string
}.

Record DeterministicProviderAdmissionEvidenceV2 := {
  q2_schema : string;
  q2_evidence_digest : string;
  q2_producer_id : string;
  q2_producer_version : string;
  q2_executable_id : string;
  q2_executable_sha256 : string;
  q2_work_attempt_id : string;
  q2_dispatch_occurrence_id : string;
  q2_provider_request_occurrence_id : string;
  q2_provider_id : string;
  q2_model_id : string;
  q2_outcome : DeterministicProviderAdmissionOutcomeV2;
  q2_response_created : bool;
  q2_non_admission_proven : bool;
  q2_retry_after : option instant;
  q2_observed_at : instant;
  q2_received_at : instant;
  q2_provider_execution : option ProviderExecutionIdentityV1;
  q2_raw_evidence : ExactAvailabilityEvidenceV1;
  q2_authority_effect : string
}.

(** The assignments of [seal]. *)
Definition set_evidence_v1_digest (d : string) (e : DeterministicProviderAdmissionEvidenceV1)
    : DeterministicProviderAdmissionEvidenceV1 :=
  {| q1_schema := q1_schema e; q1_evidence_digest := d; q1_producer_id := q1_producer_id e;
     q1_producer_version := q1_producer_version e; q1_executable_id := q1_executable_id e;
     q1_executable_sha256 := q1_executable_sha256 e; q1_work_attempt_id := q1_work_attempt_id e;
     q1_dispatch_occurrence_id := q1_dispatch_occurrence_id e;
     q1_provider_request_occurrence_id := q1_provider_request_occurrence_id e;
     q1_provider_id := q1_provider_id e; q1_model_id := q1_model_id e;
     q1_outcome := q1_outcome e; q1_response_created := q1_response_created e;
     q1_non_admission_proven := q1_non_admission_proven e;
     q1_retry_after := q1_retry_after e; q1_observed_at := q1_observed_at e;
     q1_received_at := q1_received_at e; q1_raw_evidence := q1_raw_evidence e;
     q1_authority_effect := q1_authority_effect e |}.

Definition set_evidence_v2_digest (d : string) (e : DeterministicProviderAdmissionEvidenceV2)
    : DeterministicProviderAdmissionEvidenceV2 :=
  {| q2_schema := q2_schema e; q2_evidence_digest := d; q2_producer_id := q2_producer_id e;
     q2_producer_version := q2_producer_version e; q2_executable_id := q2_executable_id e;
     q2_executable_sha256 := q2_executable_sha256 e; q2_work_attempt_id := q2_work_attempt_id e;
     q2_dispatch_occurrence_id := q2_dispatch_occurrence_id e;
     q2_provider_request_occurrence_id := q2_provider_request_occurrence_id e;
     q2_provider_id := q2_provider_id e; q2_model_id := q2_model_id e;
     q2_outcome := q2_outcome e; q2_response_created := q2_response_created e;
     q2_non_admission_proven := q2_non_admission_proven e;
     q2_retry_after := q2_retry_after e; q2_observed_at := q2_observed_at e;
     q2_received_at := q2_received_at e; q2_provider_execution := q2_provider_execution e;
     q2_raw_evidence := q2_raw_evidence e; q2_authority_effect := q2_authority_effect e |}.

Definition set_disposition_digest (h : string) (d : ProviderAdmissionDispositionV1)
    : ProviderAdmissionDispositionV1 :=
  {| dp_schema := dp_schema d; dp_disposition_digest := h;
     dp_dispatch_digest := dp_dispatch_digest d; dp_requirement_digest := dp_requirement_digest d;
     dp_policy_digest := dp_policy_digest d; dp_packet_digest := dp_packet_digest d;
     dp_run_id := dp_run_id d; dp_work_item_id := dp_work_item_id d;
     dp_work_attempt_id := dp_work_attempt_id d;
     dp_dispatch_occurrence_id := dp_dispatch_occurrence_id d;
     dp_provider_id := dp_provider_id d; dp_model_id := dp_model_id d;
     dp_provider_request_occurrence_id := dp_provider_request_occurrence_id d;
     dp_adapter_process_occurrence_id := dp_adapter_process_occurrence_id d;
     dp_app_server_session_identity := dp_app_server_session_identity d;
     dp_thread_id := dp_thread_id d; dp_turn_id := dp_turn_id d;
     dp_disposition := dp_disposition d; dp_mechanism_state := dp_mechanism_state d;
     dp_received_at := dp_received_at d; dp_response_created := dp_response_created d;
     dp_will_retry := dp_will_retry d; dp_acquisition_complete := dp_acquisition_complete d;
     dp_provider_retry_after := dp_provider_retry_after d;
     dp_provider_execution := dp_provider_execution d;
     dp_mapper_snapshot_schema := dp_mapper_snapshot_schema d;
     dp_mapper_snapshot_digest := dp_mapper_snapshot_digest d;
     dp_mapper_snapshot := dp_mapper_snapshot d;
     dp_approval_response_sent := dp_approval_response_sent d;
     dp_protected_effect_absent := dp_protected_effect_absent d;
     dp_authority_effect := dp_authority_effect d |}.

(** ** Constants *)

Definition HOLDING_QUALIFICATION_EXECUTABLE_ID : string :=
  "campaign:holding-pattern:deterministic-fake-adapter:v1".
Definition SECOND_WATCH_QUALIFICATION_EXECUTABLE_ID : string :=
  "campaign:second-watch:deterministic-fake-adapter:v2".
Definition QUALIFICATION_EVIDENCE_DOMAIN : string :=
  "nightshift.holding-deterministic-provider-admission-evidence.digest/v1" +:+ NUL.
Definition QUALIFICATION_EVIDENCE_DOMAIN_V2 : string :=
  "nightshift.holding-deterministic-provider-admission-evidence.digest/v2" +:+ NUL.
Definition DISPOSITION_DOMAIN : string :=
  "nightshift.provider-admission-disposition.digest/v1" +:+ NUL.
Definition DISPOSITION_DOMAIN_V2 : string :=
  "nightshift.provider-admission-disposition.digest/v2" +:+ NUL.
Definition DISPOSITION_DOMAIN_V3 : string :=
  "nightshift.provider-admission-disposition.digest/v3" +:+ NUL.
Definition SWITCHYARD_SNAPSHOT_SCHEMA : string := "switchyard.codex-provider-admission-snapshot/v1".

(** ** The Switchyard snapshot validators

    A disposition of the first schema is replayed against the mapper snapshot it
    retains, and the snapshot against the vendored schema of its capture.  The records and
    the store use these validators through this interface and assume nothing of them;
    [Replay.switchyard_evidence] is the foreman's own. *)
Inductive SwitchyardCaptureSchema := Legacy | BoundedTurn | BoundedTurnEcho.

Class ProviderEvidence : Type := {
  validate_switchyard_snapshot_complete :
    ProviderAdmissionDispositionV1 -> string -> result ContractError unit;
  validate_vendored_switchyard_schema :
    value -> SwitchyardCaptureSchema -> result ContractError unit;
  bounded_turn_echo_validate_snapshot : value -> bool -> result ContractError unit
}.

Section evidence.
Context {HO : Host} {SV : Serde value} {SXi : Serde ProviderExecutionIdentityV1}
  {SQ1 : Serde DeterministicProviderAdmissionEvidenceV1}
  {SQ2 : Serde DeterministicProviderAdmissionEvidenceV2}
  {SDp : Serde ProviderAdmissionDispositionV1}.

(** ** JSON of the fields the raw evidence repeats *)

Definition outcome_v1_value (o : DeterministicProviderAdmissionOutcomeV1) : value :=
  Str match o with
      | OutcomeRateLimited => "RATE_LIMITED"
      | OutcomeProviderUnavailable => "PROVIDER_UNAVAILABLE"
      | OutcomeAuthenticationRefused => "AUTHENTICATION_REFUSED"
      | OutcomeTransportError => "TRANSPORT_ERROR"
      | OutcomeProtocolError => "PROTOCOL_ERROR"
      end.
Definition outcome_v2_value (o : DeterministicProviderAdmissionOutcomeV2) : value :=
  Str match o with
      | Outcome2ProviderUnavailable => "PROVIDER_UNAVAILABLE"
      | Outcome2ExecutionCompleted => "EXECUTION_COMPLETED"
      end.
Definition instant_value (t : instant) : value := Str (instant_text t).
Definition optional_instant_value (t : option instant) : value :=
  match t with Some t => instant_value t | None => Null end.
Definition optional_value {T} `{Serde T} (t : option T) : result ContractError value :=
  match t with Some t => map_err Json (to_value t) | None => Ok Null end.

(** [object.get(key) != Some(&value)]. *)
Definition entry_differs (kvs : list (string * value)) (key : string) (v : value) : bool :=
  match assoc_get key kvs with Some w => negb (value_eqb w v) | None => true end.

(** [len() != expected.len() || expected.any(|key| !contains_key(key))]. *)
Definition keys_differ (kvs : list (string * value)) (expected : list string) : bool :=
  negb (length kvs =? length expected)%nat
  || existsb (fun key => negb (bool_decide (is_Some (assoc_get key kvs)))) expected.

(** The canonical JSON object a qualification adapter retains. *)
Definition raw_object (raw bytes_field object_field : string)
    : result ContractError (list (string * value)) :=
  let? v := parse (T := value) raw in
  let? canonical := map_err Json (to_vec v) in
  reject (negb (String.eqb canonical raw)) (InvalidField bytes_field) ;?
  match v with Object kvs => Ok kvs | _ => Err (InvalidField object_field) end.

(** ** The first evidence record *)

Definition qualification_v1_from_slice (bytes : string)
    : result ContractError DeterministicProviderAdmissionEvidenceV1 :=
  let? v := parse bytes in
  for_each (fun field => canonical_timestamp_value field v) ["observed_at"; "received_at"] ;?
  canonical_optional_timestamp v "retry_after" ;?
  map_err Json (from_value v).

Definition retry_before (retry : option instant) (received : instant) : bool :=
  match retry with Some t => (t <? received)%Z | None => false end.

Definition qualification_v1_outcome (e : DeterministicProviderAdmissionEvidenceV1)
    : result ContractError unit :=
  match q1_outcome e with
  | OutcomeRateLimited | OutcomeProviderUnavailable =>
      reject (q1_response_created e || negb (q1_non_admission_proven e))
        (InvalidField "qualified explicit non-admission")
  | OutcomeAuthenticationRefused =>
      reject (q1_response_created e || negb (q1_non_admission_proven e)
              || bool_decide (is_Some (q1_retry_after e)))
        (InvalidField "qualified authentication refusal")
  | OutcomeTransportError | OutcomeProtocolError =>
      reject (q1_non_admission_proven e || bool_decide (is_Some (q1_retry_after e)))
        (InvalidField "qualified indeterminate admission")
  end.

Definition qualification_v1_validate (e : DeterministicProviderAdmissionEvidenceV1)
    : result ContractError unit :=
  schema (q1_schema e) DETERMINISTIC_PROVIDER_ADMISSION_EVIDENCE_SCHEMA_V1 ;?
  sealed_digest e "evidence_digest" (q1_evidence_digest e) QUALIFICATION_EVIDENCE_DOMAIN ;?
  ids
    [("producer_id", q1_producer_id e); ("producer_version", q1_producer_version e);
     ("executable_id", q1_executable_id e); ("work_attempt_id", q1_work_attempt_id e);
     ("dispatch_occurrence_id", q1_dispatch_occurrence_id e);
     ("provider_request_occurrence_id", q1_provider_request_occurrence_id e);
     ("provider_id", q1_provider_id e); ("model_id", q1_model_id e)] ;?
  availability_digest "executable_sha256" (q1_executable_sha256 e) ;?
  let? raw := evidence_validate (q1_raw_evidence e) in
  reject (negb (String.eqb (q1_producer_id e) HOLDING_QUALIFICATION_PRODUCER_ID)
          || negb (String.eqb (q1_producer_version e) HOLDING_QUALIFICATION_PRODUCER_VERSION)
          || negb (String.eqb (q1_executable_id e) HOLDING_QUALIFICATION_EXECUTABLE_ID)
          || negb (String.eqb (q1_executable_sha256 e) HOLDING_QUALIFICATION_EXECUTABLE_SHA256)
          || negb (String.eqb (xe_representation (q1_raw_evidence e))
                     "EXACT_PROVIDER_AVAILABILITY_SOURCE_BYTES")
          || (q1_received_at e <? q1_observed_at e)%Z
          || retry_before (q1_retry_after e) (q1_received_at e)
          || negb (String.eqb (q1_authority_effect e) "QUALIFICATION_MECHANISM_EVIDENCE_ONLY"))
    (InvalidField "deterministic provider evidence boundary") ;?
  let? kvs := raw_object raw "deterministic provider raw canonical bytes"
    "deterministic provider raw object" in
  reject (keys_differ kvs ["outcome"; "response_created"; "non_admission_proven";
                           "retry_after"; "observed_at"]
          || entry_differs kvs "outcome" (outcome_v1_value (q1_outcome e))
          || entry_differs kvs "response_created" (Bool (q1_response_created e))
          || entry_differs kvs "non_admission_proven" (Bool (q1_non_admission_proven e))
          || entry_differs kvs "retry_after" (optional_instant_value (q1_retry_after e))
          || entry_differs kvs "observed_at" (instant_value (q1_observed_at e)))
    (InvalidField "deterministic provider raw binding") ;?
  qualification_v1_outcome e.

Definition qualification_v1_seal (e : DeterministicProviderAdmissionEvidenceV1)
    : result ContractError DeterministicProviderAdmissionEvidenceV1 :=
  let? d := digest_without e "evidence_digest" QUALIFICATION_EVIDENCE_DOMAIN in
  let e := set_evidence_v1_digest d e in
  qualification_v1_validate e ;?
  Ok e.

(** ** The second evidence record *)

Definition qualification_v2_from_slice (bytes : string)
    : result ContractError DeterministicProviderAdmissionEvidenceV2 :=
  let? v := parse bytes in
  for_each (fun field => canonical_timestamp_value field v) ["observed_at"; "received_at"] ;?
  canonical_optional_timestamp v "retry_after" ;?
  map_err Json (from_value v).

Definition qualification_v2_outcome (e : DeterministicProviderAdmissionEvidenceV2)
    : result ContractError unit :=
  match q2_outcome e with
  | Outcome2ProviderUnavailable =>
      reject (q2_response_created e || negb (q2_non_admission_proven e)
              || bool_decide (is_Some (q2_provider_execution e))
              || bool_decide (q2_retry_after e = None))
        (InvalidField "qualified v2 explicit non-admission")
  | Outcome2ExecutionCompleted =>
      let? x := ok_or (q2_provider_execution e)
        (InvalidField "qualified v2 execution identity") in
      execution_identity_validate x ;?
      reject (negb (q2_response_created e) || q2_non_admission_proven e
              || bool_decide (is_Some (q2_retry_after e))
              || negb (String.eqb (xi_provider_id x) (q2_provider_id e))
              || negb (String.eqb (xi_model_id x) (q2_model_id e)))
        (InvalidField "qualified v2 completed execution")
  end.

Definition qualification_v2_validate (e : DeterministicProviderAdmissionEvidenceV2)
    : result ContractError unit :=
  schema (q2_schema e) DETERMINISTIC_PROVIDER_ADMISSION_EVIDENCE_SCHEMA_V2 ;?
  sealed_digest e "evidence_digest" (q2_evidence_digest e) QUALIFICATION_EVIDENCE_DOMAIN_V2 ;?
  ids
    [("producer_id", q2_producer_id e); ("producer_version", q2_producer_version e);
     ("executable_id", q2_executable_id e); ("work_attempt_id", q2_work_attempt_id e);
     ("dispatch_occurrence_id", q2_dispatch_occurrence_id e);
     ("provider_request_occurrence_id", q2_provider_request_occurrence_id e);
     ("provider_id", q2_provider_id e); ("model_id", q2_model_id e)] ;?
  availability_digest "executable_sha256" (q2_executable_sha256 e) ;?
  let? raw := evidence_validate (q2_raw_evidence e) in
  reject (negb (String.eqb (q2_producer_id e) HOLDING_QUALIFICATION_PRODUCER_ID)
          || negb (String.eqb (q2_producer_version e) SECOND_WATCH_QUALIFICATION_PRODUCER_VERSION)
          || negb (String.eqb (q2_executable_id e) SECOND_WATCH_QUALIFICATION_EXECUTABLE_ID)
          || negb (String.eqb (q2_executable_sha256 e)
                     SECOND_WATCH_QUALIFICATION_EXECUTABLE_SHA256)
          || negb (String.eqb (xe_representation (q2_raw_evidence e))
                     "EXACT_PROVIDER_AVAILABILITY_SOURCE_BYTES")
          || (q2_received_at e <? q2_observed_at e)%Z
          || retry_before (q2_retry_after e) (q2_received_at e)
          || negb (String.eqb (q2_authority_effect e) "QUALIFICATION_MECHANISM_EVIDENCE_ONLY"))
    (InvalidField "deterministic provider execution evidence boundary") ;?
  let? kvs := raw_object raw "deterministic provider execution raw canonical bytes"
    "deterministic provider execution raw object" in
  let mismatch := InvalidField "deterministic provider execution raw binding" in
  reject (keys_differ kvs ["outcome"; "response_created"; "non_admission_proven";
                           "retry_after"; "observed_at"; "provider_execution"]
          || entry_differs kvs "outcome" (outcome_v2_value (q2_outcome e))
          || entry_differs kvs "response_created" (Bool (q2_response_created e))
          || entry_differs kvs "non_admission_proven" (Bool (q2_non_admission_proven e))
          || entry_differs kvs "retry_after" (optional_instant_value (q2_retry_after e))
          || entry_differs kvs "observed_at" (instant_value (q2_observed_at e))) mismatch ;?
  let? execution := optional_value (q2_provider_execution e) in
  reject (entry_differs kvs "provider_execution" execution) mismatch ;?
  qualification_v2_outcome e.

Definition qualification_v2_seal (e : DeterministicProviderAdmissionEvidenceV2)
    : result ContractError DeterministicProviderAdmissionEvidenceV2 :=
  let? d := digest_without e "evidence_digest" QUALIFICATION_EVIDENCE_DOMAIN_V2 in
  let e := set_evidence_v2_digest d e in
  qualification_v2_validate e ;?
  Ok e.

(** ** Dispositions *)

Definition disposition_domain (schema : string) : result ContractError string :=
  if String.eqb schema PROVIDER_ADMISSION_DISPOSITION_SCHEMA_V1 then Ok DISPOSITION_DOMAIN
  else if String.eqb schema PROVIDER_ADMISSION_DISPOSITION_SCHEMA_V2 then Ok DISPOSITION_DOMAIN_V2
  else if String.eqb schema PROVIDER_ADMISSION_DISPOSITION_SCHEMA_V3 then Ok DISPOSITION_DOMAIN_V3
  else Err (ForeignSchema schema).

Definition disposition_from_slice (bytes : string)
    : result ContractError ProviderAdmissionDispositionV1 :=
  let? v := parse bytes in
  canonical_timestamp_value "received_at" v ;?
  canonical_optional_timestamp v "provider_retry_after" ;?
  map_err Json (from_value v).

(** What a qualification outcome must have been recorded as. *)
Definition outcome_v1_disposition (o : DeterministicProviderAdmissionOutcomeV1)
    : ProviderAdmissionDispositionKindV1 * ProviderMechanismStateV1 :=
  match o with
  | OutcomeRateLimited => (NotAdmittedRateLimited, ParkedNotAdmitted)
  | OutcomeProviderUnavailable => (NotAdmittedProviderUnavailable, ParkedNotAdmitted)
  | OutcomeAuthenticationRefused => (DispositionAuthenticationRefused, AdmissionIndeterminate)
  | OutcomeTransportError | OutcomeProtocolError =>
      (DispositionAdmissionIndeterminate, AdmissionIndeterminate)
  end.
Definition outcome_v2_disposition (o : DeterministicProviderAdmissionOutcomeV2)
    : ProviderAdmissionDispositionKindV1 * ProviderMechanismStateV1 :=
  match o with
  | Outcome2ProviderUnavailable => (NotAdmittedProviderUnavailable, ParkedNotAdmitted)
  | Outcome2ExecutionCompleted => (DispositionExecutionAdmitted, ProviderCompleted)
  end.

Definition validate_qualification_v1_disposition (d : ProviderAdmissionDispositionV1)
    (raw : string) : result ContractError unit :=
  let? e := qualification_v1_from_slice raw in
  qualification_v1_validate e ;?
  reject (negb (String.eqb (dp_mapper_snapshot_digest d) (q1_evidence_digest e))
          || negb (String.eqb (dp_work_attempt_id d) (q1_work_attempt_id e))
          || negb (String.eqb (dp_dispatch_occurrence_id d) (q1_dispatch_occurrence_id e))
          || negb (String.eqb (dp_provider_request_occurrence_id d)
                     (q1_provider_request_occurrence_id e))
          || negb (String.eqb (dp_provider_id d) (q1_provider_id e))
          || negb (String.eqb (dp_model_id d) (q1_model_id e))
          || negb (dp_received_at d =? q1_received_at e)%Z
          || negb (Bool.eqb (dp_response_created d) (q1_response_created e))
          || negb (bool_decide (dp_provider_retry_after d = q1_retry_after e))
          || bool_decide (is_Some (dp_provider_execution d))
          || negb (dp_acquisition_complete d))
    (InvalidField "qualification evidence disposition binding") ;?
  reject (negb (bool_decide ((dp_disposition d, dp_mechanism_state d)
                             = outcome_v1_disposition (q1_outcome e))))
    (InvalidField "qualification evidence outcome binding").

Definition validate_qualification_v2_disposition (d : ProviderAdmissionDispositionV1)
    (raw : string) : result ContractError unit :=
  let? e := qualification_v2_from_slice raw in
  qualification_v2_validate e ;?
  reject (negb (String.eqb (dp_mapper_snapshot_digest d) (q2_evidence_digest e))
          || negb (String.eqb (dp_work_attempt_id d) (q2_work_attempt_id e))
          || negb (String.eqb (dp_dispatch_occurrence_id d) (q2_dispatch_occurrence_id e))
          || negb (String.eqb (dp_provider_request_occurrence_id d)
                     (q2_provider_request_occurrence_id e))
          || negb (String.eqb (dp_provider_id d) (q2_provider_id e))
          || negb (String.eqb (dp_model_id d) (q2_model_id e))
          || negb (dp_received_at d =? q2_received_at e)%Z
          || negb (Bool.eqb (dp_response_created d) (q2_response_created e))
          || negb (bool_decide (dp_provider_retry_after d = q2_retry_after e))
          || negb (bool_decide (dp_provider_execution d = q2_provider_execution e))
          || negb (dp_acquisition_complete d))
    (InvalidField "qualification execution evidence disposition binding") ;?
  reject (negb (bool_decide ((dp_disposition d, dp_mechanism_state d)
                             = outcome_v2_disposition (q2_outcome e))))
    (InvalidField "qualification execution evidence outcome binding").

Context {PE : ProviderEvidence}.

(** The evidence behind the disposition, by schema. *)
Definition validate_disposition_evidence (d : ProviderAdmissionDispositionV1) (raw : string)
    : result ContractError unit :=
  let snapshot := dp_mapper_snapshot_schema d in
  let representation := ms_representation (dp_mapper_snapshot d) in
  let fake := "RFC8785_NIGHTSHIFT_QUALIFICATION_FAKE_ADAPTER_EVIDENCE" in
  if String.eqb (dp_schema d) PROVIDER_ADMISSION_DISPOSITION_SCHEMA_V1 then
    reject (negb (String.eqb snapshot SWITCHYARD_SNAPSHOT_SCHEMA)
            || negb (String.eqb representation "RFC8785_SWITCHYARD_MAPPER_SNAPSHOT"))
      (InvalidField "mapper snapshot schema") ;?
    validate_switchyard_snapshot_complete d raw
  else if String.eqb (dp_schema d) PROVIDER_ADMISSION_DISPOSITION_SCHEMA_V2 then
    reject (negb (String.eqb snapshot DETERMINISTIC_PROVIDER_ADMISSION_EVIDENCE_SCHEMA_V1)
            || negb (String.eqb representation fake))
      (InvalidField "qualification evidence schema") ;?
    validate_qualification_v1_disposition d raw
  else
    reject (negb (String.eqb snapshot DETERMINISTIC_PROVIDER_ADMISSION_EVIDENCE_SCHEMA_V2)
            || negb (String.eqb representation fake))
      (InvalidField "qualification execution evidence schema") ;?
    validate_qualification_v2_disposition d raw.

Definition validate_disposition_kind (d : ProviderAdmissionDispositionV1)
    : result ContractError unit :=
  match dp_disposition d with
  | DispositionExecutionAdmitted =>
      let? x := ok_or (dp_provider_execution d)
        (InvalidField "provider execution identity absence") in
      execution_identity_validate x ;?
      reject (negb (dp_response_created d)
              || negb (String.eqb (xi_provider_id x) (dp_provider_id d))
              || negb (String.eqb (xi_model_id x) (dp_model_id d))
              || negb (String.eqb (xi_app_server_session_identity x)
                         (dp_app_server_session_identity d))
              || negb (String.eqb (xi_thread_id x) (dp_thread_id d))
              || negb (String.eqb (xi_turn_id x) (dp_turn_id d)))
        (InvalidField "execution admission binding")
  | NotAdmittedModelAtCapacity | NotAdmittedProviderUnavailable | NotAdmittedRateLimited
  | DispositionAuthenticationRefused =>
      reject (bool_decide (is_Some (dp_provider_execution d)) || dp_response_created d
              || negb (dp_acquisition_complete d))
        (InvalidField "pre-admission refusal binding")
  | QuotaExhaustedFuelOwned => Err (InvalidField "FUEL-owned quota disposition")
  | DispositionAdmissionIndeterminate =>
      reject (bool_decide (is_Some (dp_provider_execution d)) && negb (dp_response_created d))
        (InvalidField "indeterminate execution binding")
  end.

Definition disposition_validate (d : ProviderAdmissionDispositionV1)
    : result ContractError unit :=
  let? domain := disposition_domain (dp_schema d) in
  sealed_digest d "disposition_digest" (dp_disposition_digest d) domain ;?
  availability_digests
    [("dispatch_digest", dp_dispatch_digest d); ("requirement_digest", dp_requirement_digest d);
     ("policy_digest", dp_policy_digest d); ("packet_digest", dp_packet_digest d);
     ("mapper_snapshot_digest", dp_mapper_snapshot_digest d)] ;?
  ids
    [("run_id", dp_run_id d); ("work_item_id", dp_work_item_id d);
     ("work_attempt_id", dp_work_attempt_id d);
     ("dispatch_occurrence_id", dp_dispatch_occurrence_id d);
     ("provider_id", dp_provider_id d); ("model_id", dp_model_id d);
     ("provider_request_occurrence_id", dp_provider_request_occurrence_id d);
     ("adapter_process_occurrence_id", dp_adapter_process_occurrence_id d);
     ("app_server_session_identity", dp_app_server_session_identity d);
     ("thread_id", dp_thread_id d); ("turn_id", dp_turn_id d)] ;?
  let? raw := mapper_snapshot_validate (dp_mapper_snapshot d) in
  validate_disposition_evidence d raw ;?
  reject (dp_will_retry d || dp_approval_response_sent d
          || negb (dp_protected_effect_absent d))
    (InvalidField "provider admission authority boundary") ;?
  validate_disposition_kind d ;?
  reject (retry_before (dp_provider_retry_after d) (dp_received_at d)
          || negb (String.eqb (dp_authority_effect d) "SCHEDULING_MECHANISM_EVIDENCE_ONLY"))
    (InvalidField "admission disposition boundary").

Definition disposition_seal (d : ProviderAdmissionDispositionV1)
    : result ContractError ProviderAdmissionDispositionV1 :=
  let? domain := disposition_domain (dp_schema d) in
  let? h := digest_without d "disposition_digest" domain in
  let d := set_disposition_digest h d in
  disposition_validate d ;?
  Ok d.
End evidence.
