(* ===== verification/Graph.v ===== *)
(** * The execution-availability graph (crates/nightshift-foreman/src/execution_availability.rs,
    provider_snapshot_translation.rs)

    One dispatch, its observation and disposition, the deferrals before it and the
    deferral it may park under, checked against the run's requirement and policy;
    and the derivation of the deferral and of the records of a mapper snapshot. *)
From S2P Require Import Prelude Text External Contract Availability Evidence.
Local Open Scope string_scope.

(** The pins whose snapshots echo bounded turns. *)
Definition is_bounded_turn_echo (p : ProviderAdmissionOwnerPinsV1) : bool :=
  existsb (fun q => bool_decide (p = q))
    [retained_provider_receipt_candidate; filtered_raw_completion_echo_candidate;
     raw_completion_echo_candidate; bounded_turn_echo_candidate;
     prior_bounded_turn_echo_candidate; earlier_bounded_turn_echo_candidate].

Record DispositionSourceObservation := {
  ds_evidence : option ExactAvailabilityEvidenceV1;
  ds_observed_at : instant;
  ds_identity : string;
  ds_version : string
}.

(** The variables of the loop over the prior deferrals. *)
Record DeferralScan := {
  sc_index : nat;
  sc_cumulative : N;
  sc_dispatch_ids : gset string;
  sc_refusal : option instant;
  sc_wake : option instant;
  sc_model : option N
}.
Definition empty_scan : DeferralScan :=
  {| sc_index := 0; sc_cumulative := 0; sc_dispatch_ids := ∅; sc_refusal := None;
     sc_wake := None; sc_model := None |}.

Definition before_wake (t : instant) (wake : option instant) : bool :=
  match wake with Some w => (t <? w)%Z | None => false end.

(** [ordinal.saturating_add(1)] on [u16]. *)
Definition next_ordinal (n : N) : N := N.min (n + 1) 65535.
Definition out_of_order (selected : N) (previous : option N) : bool :=
  match previous with
  | Some ordinal => (selected <? ordinal)%N || (next_ordinal ordinal <? selected)%N
  | None => false
  end.

(** [((selected + 1)..(selections.len() as u16)).collect()]. *)
Definition later_ordinals (selected : N) (selections : nat) : list N :=
  let last := N.to_nat (N.of_nat selections mod 65536) in
  let first := N.to_nat (selected + 1) in
  N.of_nat <$> seq first (last - first).
Definition expected_remaining (policy : ExecutionAvailabilityPolicyV1) (selected : N)
    (selections : nat) : list N :=
  if yp_allow_ordered_model_fallback policy then later_ordinals selected selections else [].

Section graph.
Context {HO : Host} {SV : Serde value} {SEo : Serde ExecutionAvailabilityObservationV1}
  {SYp : Serde ExecutionAvailabilityPolicyV1}
  {SRq : Serde ForemanExecutionAvailabilityRequirementV1}
  {SDi : Serde ProviderDispatchOccurrenceV1} {SDf : Serde DeferredProviderDispatchV1}
  {SXe : Serde ExactAvailabilityEvidenceV1} {SXi : Serde ProviderExecutionIdentityV1}
  {SQ1 : Serde DeterministicProviderAdmissionEvidenceV1}
  {SQ2 : Serde DeterministicProviderAdmissionEvidenceV2}
  {SDp : Serde ProviderAdmissionDispositionV1} {PE : ProviderEvidence}.

(** ** The source of an observation *)

(** The record kind the snapshot must hold for the disposition. *)
Definition snapshot_record_kind (k : ProviderAdmissionDispositionKindV1) : option string :=
  match k with
  | NotAdmittedModelAtCapacity => Some "PROVIDER_ADMISSION_REFUSED"
  | DispositionExecutionAdmitted => Some "PROVIDER_EXECUTION_STEP"
  | DispositionAdmissionIndeterminate => Some "ADMISSION_DISCREPANCY"
  | _ => None
  end.

Definition value_as_i64 (v : value) : option Z :=
  match v with Number n => number_as_i64 n | _ => None end.

Definition snapshot_source (d : ProviderAdmissionDispositionV1) (snapshot : value)
    (kind : string) : result ContractError DispositionSourceObservation :=
  let? record := ok_or
    (records ← as_array (value_index snapshot "records");
     find_first (fun r => bool_decide (value_get r "kind" ≫= as_str = Some kind)) records)
    (InvalidField "observation source evidence") in
  let? observed_at :=
    match value_get (value_index record "normalized") "observed_at_ms" with
    | None => Ok (dp_received_at d)
    | Some v => ok_or (value_as_i64 v ≫= from_timestamp_millis)
                  (InvalidField "source observed_at_ms")
    end in
  let? evidence :=
    match value_get record "raw" with
    | Some v =>
        if value_eqb v Null
           && bool_decide (dp_disposition d = DispositionAdmissionIndeterminate)
        then Ok None
        else let? e := map_err Json (from_value v) in Ok (Some e)
    | None => Err (InvalidField "observation source raw")
    end in
  Ok {| ds_evidence := evidence; ds_observed_at := observed_at;
        ds_identity := "switchyard:provider-admission"; ds_version := "v1" |}.

Definition disposition_source_observation (d : ProviderAdmissionDispositionV1)
    : result ContractError DispositionSourceObservation :=
  let? raw := mapper_snapshot_validate (dp_mapper_snapshot d) in
  if String.eqb (dp_schema d) PROVIDER_ADMISSION_DISPOSITION_SCHEMA_V3 then
    let? e := qualification_v2_from_slice raw in
    qualification_v2_validate e ;?
    Ok {| ds_evidence := Some (q2_raw_evidence e); ds_observed_at := q2_observed_at e;
          ds_identity := HOLDING_QUALIFICATION_PRODUCER_ID;
          ds_version := SECOND_WATCH_QUALIFICATION_PRODUCER_VERSION |}
  else if String.eqb (dp_schema d) PROVIDER_ADMISSION_DISPOSITION_SCHEMA_V2 then
    let? e := qualification_v1_from_slice raw in
    qualification_v1_validate e ;?
    Ok {| ds_evidence := Some (q1_raw_evidence e); ds_observed_at := q1_observed_at e;
          ds_identity := HOLDING_QUALIFICATION_PRODUCER_ID;
          ds_version := HOLDING_QUALIFICATION_PRODUCER_VERSION |}
  else
    let? snapshot := map_err Json (from_slice raw) in
    match snapshot_record_kind (dp_disposition d) with
    | Some kind => snapshot_source d snapshot kind
    | None => Ok {| ds_evidence := None; ds_observed_at := dp_received_at d;
                    ds_identity := "switchyard:provider-admission"; ds_version := "v1" |}
    end.

(** ** Deferral durations *)

(** [num_milliseconds] of a difference of instants rounds towards zero. *)
Definition exact_deferral_seconds (policy : ExecutionAvailabilityPolicyV1)
    (disposition : ProviderAdmissionDispositionV1) (deferred : DeferredProviderDispatchV1)
    : result ContractError N :=
  let? '(wake, seconds) :=
    match df_wake_basis deferred with
    | ProviderRetryAfter =>
        let? wake := ok_or (dp_provider_retry_after disposition)
          (InvalidField "provider retry-after absence") in
        let milliseconds := Z.quot (wake - dp_received_at disposition) 1000000 in
        reject ((milliseconds <=? 0)%Z || negb (Z.rem milliseconds 1000 =? 0)%Z)
          (InvalidField "exact provider retry-after duration") ;?
        Ok (wake, Z.to_N (milliseconds / 1000))
    | PolicyBackoff =>
        reject (bool_decide (is_Some (dp_provider_retry_after disposition))
                || bool_decide (is_Some (df_provider_retry_after deferred)))
          (InvalidField "policy backoff retry-after absence") ;?
        let? seconds := ok_or
          (yp_backoff_seconds policy !! N.to_nat (df_backoff_ordinal deferred))
          (InvalidField "backoff ordinal") in
        let? wake := ok_or
          (checked_add_signed (dp_received_at disposition) (Z.of_N seconds * 1000000000))
          (ContractPanicked "received_at + backoff") in
        Ok (wake, seconds)
    end in
  reject (negb (df_refusal_received_at deferred =? dp_received_at disposition)%Z
          || negb (bool_decide (df_provider_retry_after deferred
                                = dp_provider_retry_after disposition))
          || negb (df_wake_at deferred =? wake)%Z
          || negb (df_backoff_seconds deferred =? seconds)%N)
    (InvalidField "exact deferred wake derivation") ;?
  Ok seconds.

(** ** The graph *)

Definition owner_family_matches (dispatch : ProviderDispatchOccurrenceV1) (schema : string)
    : bool :=
  if String.eqb schema PROVIDER_ADMISSION_DISPOSITION_SCHEMA_V1 then
    negb (String.eqb (di_adapter_id dispatch) HOLDING_QUALIFICATION_PRODUCER_ID)
    && String.eqb (di_adapter_protocol dispatch) "switchyard.codex-app-server/v2"
  else if String.eqb schema PROVIDER_ADMISSION_DISPOSITION_SCHEMA_V2 then
    String.eqb (di_adapter_id dispatch) HOLDING_QUALIFICATION_PRODUCER_ID
    && String.eqb (di_adapter_version dispatch) HOLDING_QUALIFICATION_PRODUCER_VERSION
    && String.eqb (di_adapter_protocol dispatch)
         DETERMINISTIC_PROVIDER_ADMISSION_EVIDENCE_SCHEMA_V1
  else if String.eqb schema PROVIDER_ADMISSION_DISPOSITION_SCHEMA_V3 then
    String.eqb (di_adapter_id dispatch) HOLDING_QUALIFICATION_PRODUCER_ID
    && String.eqb (di_adapter_version dispatch) SECOND_WATCH_QUALIFICATION_PRODUCER_VERSION
    && String.eqb (di_adapter_protocol dispatch)
         DETERMINISTIC_PROVIDER_ADMISSION_EVIDENCE_SCHEMA_V2
  else false.

Definition validate_dispatch_disposition_owner_family (dispatch : ProviderDispatchOccurrenceV1)
    (disposition : ProviderAdmissionDispositionV1) : result ContractError unit :=
  reject (negb (owner_family_matches dispatch (dp_schema disposition)))
    (InvalidField "dispatch disposition owner-family graph").

(** The snapshot of the enrolled owner, under the frame limits of its pins. *)
Definition capture_schema (pins : ProviderAdmissionOwnerPinsV1) : SwitchyardCaptureSchema :=
  if is_bounded_turn_echo pins then BoundedTurnEcho
  else if bool_decide (pins = bounded_turn_candidate) then BoundedTurn
  else Legacy.

Definition check_snapshot_owner (requirement : ForemanExecutionAvailabilityRequirementV1)
    (disposition : ProviderAdmissionDispositionV1) : result ContractError unit :=
  if String.eqb (dp_mapper_snapshot_schema disposition) SWITCHYARD_SNAPSHOT_SCHEMA then
    let pins := rq_owner_pins requirement in
    let? raw := mapper_snapshot_validate (dp_mapper_snapshot disposition) in
    let? snapshot := map_err Json (from_slice raw) in
    validate_vendored_switchyard_schema snapshot (capture_schema pins) ;?
    (if is_bounded_turn_echo pins then bounded_turn_echo_validate_snapshot snapshot true
     else Ok tt) ;?
    reject (negb (bool_decide (as_str (value_index (value_index snapshot "binding")
                                        "codex_source_head")
                               = Some (op_codex_owner_head pins))))
      (InvalidField "requirement mapper owner graph")
  else Ok tt.

Definition dispatch_graph_differs (requirement : ForemanExecutionAvailabilityRequirementV1)
    (policy : ExecutionAvailabilityPolicyV1) (dispatch : ProviderDispatchOccurrenceV1)
    (disposition : ProviderAdmissionDispositionV1) : bool :=
  (di_opened_at dispatch <? rq_admitted_at requirement)%Z
  || (dp_received_at disposition <? di_opened_at dispatch)%Z
  || negb (String.eqb (rq_policy_id requirement) (yp_policy_id policy))
  || negb (String.eqb (rq_policy_digest requirement) (yp_policy_digest policy))
  || negb (String.eqb (di_requirement_digest dispatch) (rq_requirement_digest requirement))
  || negb (String.eqb (di_policy_digest dispatch) (yp_policy_digest policy))
  || negb (String.eqb (di_packet_digest dispatch) (rq_packet_digest requirement))
  || negb (String.eqb (di_run_id dispatch) (rq_run_id requirement))
  || negb (String.eqb (di_adapter_id dispatch) (rq_adapter_id requirement))
  || negb (String.eqb (di_adapter_version dispatch) (rq_adapter_version requirement))
  || negb (String.eqb (di_adapter_protocol dispatch) (rq_adapter_protocol requirement))
  || (yp_maximum_dispatch_occurrences_per_attempt policy <? di_dispatch_ordinal dispatch)%N.

Definition disposition_graph_differs (requirement : ForemanExecutionAvailabilityRequirementV1)
    (policy : ExecutionAvailabilityPolicyV1) (dispatch : ProviderDispatchOccurrenceV1)
    (disposition : ProviderAdmissionDispositionV1) : bool :=
  negb (String.eqb (dp_dispatch_digest disposition) (di_dispatch_digest dispatch))
  || negb (String.eqb (dp_requirement_digest disposition) (rq_requirement_digest requirement))
  || negb (String.eqb (dp_policy_digest disposition) (yp_policy_digest policy))
  || negb (String.eqb (dp_packet_digest disposition) (rq_packet_digest requirement))
  || negb (String.eqb (dp_run_id disposition) (rq_run_id requirement))
  || negb (String.eqb (dp_work_item_id disposition) (di_work_item_id dispatch))
  || negb (String.eqb (dp_work_attempt_id disposition) (di_work_attempt_id dispatch))
  || negb (String.eqb (dp_dispatch_occurrence_id disposition)
             (di_dispatch_occurrence_id dispatch))
  || negb (String.eqb (dp_provider_id disposition) (sl_provider_id (di_selection dispatch)))
  || negb (String.eqb (dp_model_id disposition) (sl_model_id (di_selection dispatch)))
  || negb (String.eqb (dp_adapter_process_occurrence_id disposition)
             (di_adapter_process_occurrence_id dispatch))
  || negb (String.eqb (dp_app_server_session_identity disposition)
             (di_app_server_session_identity dispatch)).

Definition observation_graph_differs (dispatch : ProviderDispatchOccurrenceV1)
    (observation : ExecutionAvailabilityObservationV1)
    (disposition : ProviderAdmissionDispositionV1) (source : DispositionSourceObservation)
    : bool :=
  negb (String.eqb (eo_provider_id observation) (sl_provider_id (di_selection dispatch)))
  || negb (String.eqb (eo_model_id observation) (sl_model_id (di_selection dispatch)))
  || negb (String.eqb (eo_model_class observation) (sl_model_class (di_selection dispatch)))
  || negb (eo_received_at observation =? dp_received_at disposition)%Z
  || negb (eo_observed_at observation =? ds_observed_at source)%Z
  || negb (bool_decide (eo_provider_retry_after observation
                        = dp_provider_retry_after disposition))
  || negb (String.eqb (eo_source_identity observation) (ds_identity source))
  || negb (String.eqb (eo_source_version observation) (ds_version source))
  || negb (is_current_at observation (dp_received_at disposition)).

(** The observation state the disposition stands for. *)
Definition expected_observation_state (observation : ExecutionAvailabilityObservationV1)
    (k : ProviderAdmissionDispositionKindV1)
    : result ContractError ExecutionAvailabilityStateV1 :=
  match k with
  | NotAdmittedModelAtCapacity => Ok ModelAtCapacity
  | NotAdmittedProviderUnavailable => Ok ProviderUnavailable
  | NotAdmittedRateLimited => Ok RateLimited
  | DispositionAuthenticationRefused => Ok AuthenticationRefused
  | DispositionAdmissionIndeterminate =>
      match eo_state observation with
      | AvailabilityUnknown | TransportError | ProtocolError => Ok (eo_state observation)
      | _ => Err (InvalidField "indeterminate observation state")
      end
  | DispositionExecutionAdmitted => Ok Available
  | QuotaExhaustedFuelOwned => Err (InvalidField "quota is FUEL-owned")
  end.

Definition check_observation_graph (dispatch : ProviderDispatchOccurrenceV1)
    (observation : ExecutionAvailabilityObservationV1)
    (disposition : ProviderAdmissionDispositionV1) : result ContractError unit :=
  let? source := disposition_source_observation disposition in
  reject (observation_graph_differs dispatch observation disposition source)
    (InvalidField "availability observation graph") ;?
  let? expected := expected_observation_state observation (dp_disposition disposition) in
  reject (negb (bool_decide (eo_state observation = expected)))
    (InvalidField "disposition observation state") ;?
  reject (negb (bool_decide (eo_exact_evidence observation = ds_evidence source)))
    (InvalidField "exact observation source binding").

(** ** Prior deferrals *)

Definition entry_validate (e : ProviderDeferralHistoryEntryV1) : result ContractError unit :=
  dispatch_validate (he_dispatch e) ;?
  disposition_validate (he_disposition e) ;?
  deferred_validate (he_deferred e).

Definition prior_dispatch_differs (requirement : ForemanExecutionAvailabilityRequirementV1)
    (policy : ExecutionAvailabilityPolicyV1) (dispatch : ProviderDispatchOccurrenceV1)
    (selection : ProviderModelSelectionV1) (index : nat) (prior : DeferredProviderDispatchV1)
    (d : ProviderDispatchOccurrenceV1) : bool :=
  negb (String.eqb (di_requirement_digest d) (rq_requirement_digest requirement))
  || negb (String.eqb (di_policy_digest d) (yp_policy_digest policy))
  || negb (String.eqb (di_packet_digest d) (rq_packet_digest requirement))
  || negb (String.eqb (di_run_id d) (rq_run_id requirement))
  || negb (String.eqb (di_work_item_id d) (di_work_item_id dispatch))
  || negb (String.eqb (di_work_attempt_id d) (di_work_attempt_id dispatch))
  || negb (String.eqb (di_adapter_id d) (rq_adapter_id requirement))
  || negb (String.eqb (di_adapter_version d) (rq_adapter_version requirement))
  || negb (String.eqb (di_adapter_protocol d) (rq_adapter_protocol requirement))
  || negb (String.eqb (di_adapter_id d) (di_adapter_id dispatch))
  || negb (String.eqb (di_adapter_version d) (di_adapter_version dispatch))
  || negb (String.eqb (di_adapter_protocol d) (di_adapter_protocol dispatch))
  || negb (di_dispatch_ordinal d =? N.of_nat index + 1)%N
  || negb (di_selected_model_ordinal d =? df_selected_model_ordinal prior)%N
  || negb (bool_decide (di_selection d = selection))
  || negb (String.eqb (di_dispatch_occurrence_id d) (df_last_dispatch_occurrence_id prior)).

Definition prior_disposition_differs (requirement : ForemanExecutionAvailabilityRequirementV1)
    (policy : ExecutionAvailabilityPolicyV1) (dispatch : ProviderDispatchOccurrenceV1)
    (prior : DeferredProviderDispatchV1) (d : ProviderDispatchOccurrenceV1)
    (p : ProviderAdmissionDispositionV1) : bool :=
  negb (String.eqb (dp_dispatch_digest p) (di_dispatch_digest d))
  || negb (String.eqb (dp_requirement_digest p) (rq_requirement_digest requirement))
  || negb (String.eqb (dp_policy_digest p) (yp_policy_digest policy))
  || negb (String.eqb (dp_packet_digest p) (rq_packet_digest requirement))
  || negb (String.eqb (dp_run_id p) (rq_run_id requirement))
  || negb (String.eqb (dp_work_item_id p) (di_work_item_id dispatch))
  || negb (String.eqb (dp_work_attempt_id p) (di_work_attempt_id dispatch))
  || negb (String.eqb (dp_dispatch_occurrence_id p) (di_dispatch_occurrence_id d))
  || negb (String.eqb (dp_provider_id p) (sl_provider_id (di_selection d)))
  || negb (String.eqb (dp_model_id p) (sl_model_id (di_selection d)))
  || negb (String.eqb (dp_adapter_process_occurrence_id p) (di_adapter_process_occurrence_id d))
  || negb (String.eqb (dp_app_server_session_identity p) (di_app_server_session_identity d))
  || negb (String.eqb (df_disposition_digest prior) (dp_disposition_digest p))
  || negb (disposition_permits_automatic_park p).

(** The identities, order and model progression of a prior deferral. *)
Definition prior_deferral_differs (requirement : ForemanExecutionAvailabilityRequirementV1)
    (policy : ExecutionAvailabilityPolicyV1) (dispatch : ProviderDispatchOccurrenceV1)
    (selection : ProviderModelSelectionV1) (selections : nat)
    (e : ProviderDeferralHistoryEntryV1) (sc : DeferralScan) : bool :=
  let d := he_dispatch e in
  let p := he_disposition e in
  let prior := he_deferred e in
  (di_opened_at d <? rq_admitted_at requirement)%Z
  || (dp_received_at p <? di_opened_at d)%Z
  || before_wake (di_opened_at d) (sc_wake sc)
  || before_wake (dp_received_at p) (sc_wake sc)
  || negb (String.eqb (df_requirement_digest prior) (rq_requirement_digest requirement))
  || negb (String.eqb (df_policy_digest prior) (yp_policy_digest policy))
  || negb (String.eqb (df_packet_digest prior) (rq_packet_digest requirement))
  || negb (String.eqb (df_run_id prior) (rq_run_id requirement))
  || negb (String.eqb (df_work_item_id prior) (di_work_item_id dispatch))
  || negb (String.eqb (df_work_attempt_id prior) (di_work_attempt_id dispatch))
  || negb (String.eqb (df_provider_id prior) (sl_provider_id selection))
  || negb (String.eqb (df_model_id prior) (sl_model_id selection))
  || negb (df_backoff_ordinal prior =? N.of_nat (sc_index sc) mod 65536)%N
  || negb (bool_decide (df_remaining_model_ordinals prior
                        = expected_remaining policy (df_selected_model_ordinal prior)
                            selections))
  || negb (bool_decide (df_parked_resource_lock_policy prior
                        = yp_parked_resource_lock_policy policy))
  || bool_decide (df_last_dispatch_occurrence_id prior ∈ sc_dispatch_ids sc)
  || before_wake (df_refusal_received_at prior) (sc_refusal sc)
  || (negb (yp_allow_ordered_model_fallback policy)
      && negb (df_selected_model_ordinal prior =? 0)%N)
  || out_of_order (df_selected_model_ordinal prior) (sc_model sc).

Definition scan_deferral (requirement : ForemanExecutionAvailabilityRequirementV1)
    (policy : ExecutionAvailabilityPolicyV1) (dispatch : ProviderDispatchOccurrenceV1)
    (selections : list ProviderModelSelectionV1) (e : ProviderDeferralHistoryEntryV1)
    (sc : DeferralScan) : result ContractError DeferralScan :=
  let prior := he_deferred e in
  entry_validate e ;?
  validate_dispatch_disposition_owner_family (he_dispatch e) (he_disposition e) ;?
  let? selection := ok_or (selections !! N.to_nat (df_selected_model_ordinal prior))
    (InvalidField "prior deferred model ordinal") in
  reject (prior_dispatch_differs requirement policy dispatch selection (sc_index sc) prior
            (he_dispatch e)
          || prior_disposition_differs requirement policy dispatch prior (he_dispatch e)
               (he_disposition e)
          || prior_deferral_differs requirement policy dispatch selection (length selections)
               e sc)
    (InvalidField "prior deferral graph") ;?
  let? seconds := exact_deferral_seconds policy (he_disposition e) prior in
  let? cumulative := ok_or (checked_add (sc_cumulative sc) seconds)
    (InvalidField "cumulative deferral overflow") in
  Ok {| sc_index := S (sc_index sc); sc_cumulative := cumulative;
        sc_dispatch_ids := {[df_last_dispatch_occurrence_id prior]} ∪ sc_dispatch_ids sc;
        sc_refusal := Some (df_refusal_received_at prior); sc_wake := Some (df_wake_at prior);
        sc_model := Some (df_selected_model_ordinal prior) |}.

(** ** The new deferral *)

Definition parked_graph_differs (requirement : ForemanExecutionAvailabilityRequirementV1)
    (policy : ExecutionAvailabilityPolicyV1) (dispatch : ProviderDispatchOccurrenceV1)
    (disposition : ProviderAdmissionDispositionV1) (parked : DeferredProviderDispatchV1)
    : bool :=
  negb (String.eqb (df_requirement_digest parked) (rq_requirement_digest requirement))
  || negb (String.eqb (df_policy_digest parked) (yp_policy_digest policy))
  || negb (String.eqb (df_disposition_digest parked) (dp_disposition_digest disposition))
  || negb (String.eqb (df_packet_digest parked) (rq_packet_digest requirement))
  || negb (String.eqb (df_run_id parked) (rq_run_id requirement))
  || negb (String.eqb (df_work_item_id parked) (di_work_item_id dispatch))
  || negb (String.eqb (df_work_attempt_id parked) (di_work_attempt_id dispatch))
  || negb (String.eqb (df_last_dispatch_occurrence_id parked)
             (di_dispatch_occurrence_id dispatch))
  || negb (String.eqb (df_provider_id parked) (sl_provider_id (di_selection dispatch)))
  || negb (String.eqb (df_model_id parked) (sl_model_id (di_selection dispatch)))
  || negb (df_selected_model_ordinal parked =? di_selected_model_ordinal dispatch)%N
  || negb (df_refusal_received_at parked =? dp_received_at disposition)%Z
  || negb (df_backoff_ordinal parked + 1 =? di_dispatch_ordinal dispatch)%N
  || negb (bool_decide (df_parked_resource_lock_policy parked
                        = yp_parked_resource_lock_policy policy))
  || negb (df_provider_capacity_released parked)
  || df_semantic_retry parked.

Definition check_park (requirement : ForemanExecutionAvailabilityRequirementV1)
    (policy : ExecutionAvailabilityPolicyV1) (dispatch : ProviderDispatchOccurrenceV1)
    (disposition : ProviderAdmissionDispositionV1) (selections : nat) (cumulative : N)
    (deferred : option DeferredProviderDispatchV1) : result ContractError unit :=
  if disposition_permits_automatic_park disposition then
    let? parked := ok_or deferred (InvalidField "deferred dispatch absence") in
    deferred_validate parked ;?
    reject (parked_graph_differs requirement policy dispatch disposition parked)
      (InvalidField "deferred dispatch graph") ;?
    reject (negb (bool_decide (df_remaining_model_ordinals parked
                               = expected_remaining policy
                                   (di_selected_model_ordinal dispatch) selections)))
      (InvalidField "ordered fallback suffix") ;?
    let? seconds := exact_deferral_seconds policy disposition parked in
    let? cumulative := ok_or (checked_add cumulative seconds)
      (InvalidField "cumulative deferral overflow") in
    reject (yp_maximum_total_deferral_seconds policy <? cumulative)%N
      (InvalidField "maximum cumulative deferral")
  else
    reject (bool_decide (is_Some deferred)) (InvalidField "unlawful automatic park").

Definition validate_execution_availability_graph
    (requirement : ForemanExecutionAvailabilityRequirementV1)
    (policy : ExecutionAvailabilityPolicyV1) (dispatch : ProviderDispatchOccurrenceV1)
    (observation : ExecutionAvailabilityObservationV1)
    (disposition : ProviderAdmissionDispositionV1)
    (prior_history : list ProviderDeferralHistoryEntryV1)
    (deferred : option DeferredProviderDispatchV1) : result ContractError unit :=
  requirement_validate requirement ;?
  availability_policy_validate policy ;?
  dispatch_validate dispatch ;?
  availability_observation_validate observation ;?
  disposition_validate disposition ;?
  check_snapshot_owner requirement disposition ;?
  reject (dispatch_graph_differs requirement policy dispatch disposition)
    (InvalidField "requirement policy dispatch graph") ;?
  let? selections := ok_or
    (rq_work_item_model_selections requirement !! di_work_item_id dispatch)
    (InvalidField "dispatch work-item selection") in
  reject (negb (bool_decide (selections !! N.to_nat (di_selected_model_ordinal dispatch)
                             = Some (di_selection dispatch))))
    (InvalidField "selected model ordinal") ;?
  reject (disposition_graph_differs requirement policy dispatch disposition)
    (InvalidField "dispatch disposition graph") ;?
  validate_dispatch_disposition_owner_family dispatch disposition ;?
  check_observation_graph dispatch observation disposition ;?
  let priors := N.of_nat (length prior_history) in
  reject (negb (di_dispatch_ordinal dispatch =? priors + 1)%N
          || (yp_maximum_dispatch_occurrences_per_attempt policy <=? priors)%N)
    (InvalidField "dispatch ordinal prior deferral continuity") ;?
  let? scan := fold_try (scan_deferral requirement policy dispatch selections) prior_history
    empty_scan in
  reject (before_wake (di_opened_at dispatch) (sc_wake scan)
          || before_wake (dp_received_at disposition) (sc_wake scan)
          || (negb (yp_allow_ordered_model_fallback policy)
              && negb (di_selected_model_ordinal dispatch =? 0)%N)
          || (yp_maximum_total_deferral_seconds policy <? sc_cumulative scan)%N)
    (InvalidField "prior wake dispatch progression") ;?
  reject (out_of_order (di_selected_model_ordinal dispatch) (sc_model scan))
    (InvalidField "ordered model deferral continuity") ;?
  check_park requirement policy dispatch disposition (length selections) (sc_cumulative scan)
    deferred ;?
  reject (bool_decide (dp_mechanism_state disposition = PostAdmissionInterrupted)
          && (bool_decide (dp_provider_execution disposition = None)
              || bool_decide (is_Some deferred)))
    (InvalidField "post-admission resume-only law").

(** ** Deriving the deferral *)

Definition new_deferral (requirement : ForemanExecutionAvailabilityRequirementV1)
    (policy : ExecutionAvailabilityPolicyV1) (dispatch : ProviderDispatchOccurrenceV1)
    (disposition : ProviderAdmissionDispositionV1) (selections : nat) (index : N)
    (wake_at : instant) (backoff_seconds : N) : DeferredProviderDispatchV1 :=
  {| df_schema := DEFERRED_PROVIDER_DISPATCH_SCHEMA_V1;
     df_deferred_dispatch_digest := "sha256:" +:+ str_repeat 64 "0"%char;
     df_requirement_digest := rq_requirement_digest requirement;
     df_policy_digest := yp_policy_digest policy;
     df_disposition_digest := dp_disposition_digest disposition;
     df_packet_digest := rq_packet_digest requirement;
     df_run_id := rq_run_id requirement;
     df_work_item_id := di_work_item_id dispatch;
     df_work_attempt_id := di_work_attempt_id dispatch;
     df_last_dispatch_occurrence_id := di_dispatch_occurrence_id dispatch;
     df_provider_id := sl_provider_id (di_selection dispatch);
     df_model_id := sl_model_id (di_selection dispatch);
     df_selected_model_ordinal := di_selected_model_ordinal dispatch;
     df_remaining_model_ordinals :=
       expected_remaining policy (di_selected_model_ordinal dispatch) selections;
     df_refusal_received_at := dp_received_at disposition;
     df_wake_basis := match dp_provider_retry_after disposition with
                      | Some _ => ProviderRetryAfter
                      | None => PolicyBackoff
                      end;
     df_backoff_ordinal := index;
     df_backoff_seconds := backoff_seconds;
     df_provider_retry_after := dp_provider_retry_after disposition;
     df_wake_at := wake_at;
     df_parked_resource_lock_policy := yp_parked_resource_lock_policy policy;
     df_provider_capacity_released := true;
     df_semantic_retry := false;
     df_authority_effect := LOCAL_SCHEDULING_ONLY |}.

Definition park_deferral (requirement : ForemanExecutionAvailabilityRequirementV1)
    (policy : ExecutionAvailabilityPolicyV1) (dispatch : ProviderDispatchOccurrenceV1)
    (disposition : ProviderAdmissionDispositionV1)
    : result ContractError DeferredProviderDispatchV1 :=
  reject (di_dispatch_ordinal dispatch =? 0)%N (InvalidField "dispatch ordinal") ;?
  let index := (di_dispatch_ordinal dispatch - 1)%N in
  let? seconds := ok_or (yp_backoff_seconds policy !! N.to_nat index)
    (InvalidField "policy backoff ordinal") in
  let? wake_at :=
    match dp_provider_retry_after disposition with
    | Some t => Ok t
    | None => ok_or (checked_add_signed (dp_received_at disposition)
                       (Z.of_N seconds * 1000000000))
                (InvalidField "wake timestamp overflow")
    end in
  let elapsed := Z.quot (wake_at - dp_received_at disposition) 1000000000 in
  reject (elapsed <? 0)%Z (InvalidField "negative provider backoff") ;?
  let? selections := ok_or
    (rq_work_item_model_selections requirement !! di_work_item_id dispatch)
    (InvalidField "work item model selections") in
  deferred_seal (new_deferral requirement policy dispatch disposition (length selections) index
                   wake_at (Z.to_N elapsed)).

Definition derive_provider_deferral (requirement : ForemanExecutionAvailabilityRequirementV1)
    (policy : ExecutionAvailabilityPolicyV1) (dispatch : ProviderDispatchOccurrenceV1)
    (observation : ExecutionAvailabilityObservationV1)
    (disposition : ProviderAdmissionDispositionV1)
    (history : list ProviderDeferralHistoryEntryV1)
    : result ContractError (option DeferredProviderDispatchV1) :=
  requirement_validate requirement ;?
  availability_policy_validate policy ;?
  dispatch_validate dispatch ;?
  disposition_validate disposition ;?
  let? deferred :=
    if disposition_permits_automatic_park disposition then
      let? d := park_deferral requirement policy dispatch disposition in
      Ok (Some d)
    else Ok None in
  validate_execution_availability_graph requirement policy dispatch observation disposition
    history deferred ;?
  Ok deferred.

(** ** Records of a retained mapper snapshot *)

(** This file's [string]: the field's text. *)
Definition string_field (v : value) (field : string) : result ContractError string :=
  ok_or (value_get v field ≫= as_str) (InvalidField field).

Definition snapshot_execution (snapshot : value)
    : result ContractError (option ProviderExecutionIdentityV1) :=
  match value_get snapshot "provider_execution_identity" with
  | Some Null => Ok None
  | Some v =>
      let? provider := string_field v "provider" in
      let? model := string_field v "model" in
      let? session := string_field v "app_server_session_identity" in
      let? thread := string_field v "thread_id" in
      let? turn := string_field v "turn_id" in
      let? response := string_field v "first_response_id" in
      Ok (Some {| xi_provider_id := provider; xi_model_id := model;
                  xi_app_server_session_identity := session; xi_thread_id := thread;
                  xi_turn_id := turn; xi_first_response_id := response |})
  | None => Err (InvalidField "snapshot execution identity")
  end.

(** [records.iter().find_map(|record| ...)]. *)
Definition find_map {A B} (f : A -> option B) (l : list A) : option B := head (omap f l).

Definition normalized_field (field : string) (record : value) : value :=
  value_index (value_index record "normalized") field.

Definition snapshot_retry_after (records : list value) (received_at : instant)
    : result ContractError (option instant) :=
  match find_map (fun r => value_as_i64 (normalized_field "retry_after_ms" r)) records with
  | Some milliseconds =>
      let? t := ok_or (checked_add_signed received_at (milliseconds * 1000000))
        (InvalidField "retry timestamp overflow") in
      Ok (Some t)
  | None => Ok None
  end.

(** The variant a document names: its text, or the externally tagged object. *)
Definition variant_name (v : value) : option string :=
  match v with
  | Str s => Some s
  | Object [(s, Null)] => Some s
  | _ => None
  end.
Definition disposition_kind_of (v : value)
    : result ContractError ProviderAdmissionDispositionKindV1 :=
  match variant_name v with
  | Some "NOT_ADMITTED_MODEL_AT_CAPACITY" => Ok NotAdmittedModelAtCapacity
  | Some "NOT_ADMITTED_PROVIDER_UNAVAILABLE" => Ok NotAdmittedProviderUnavailable
  | Some "NOT_ADMITTED_RATE_LIMITED" => Ok NotAdmittedRateLimited
  | Some "AUTHENTICATION_REFUSED" => Ok DispositionAuthenticationRefused
  | Some "QUOTA_EXHAUSTED_FUEL_OWNED" => Ok QuotaExhaustedFuelOwned
  | Some "ADMISSION_INDETERMINATE" => Ok DispositionAdmissionIndeterminate
  | Some "EXECUTION_ADMITTED" => Ok DispositionExecutionAdmitted
  | _ => Err (Json "unknown variant")
  end.
Definition mechanism_state_of (v : value) : result ContractError ProviderMechanismStateV1 :=
  match variant_name v with
  | Some "PARKED_NOT_ADMITTED" => Ok ParkedNotAdmitted
  | Some "ADMISSION_INDETERMINATE" => Ok AdmissionIndeterminate
  | Some "EXECUTION_ADMITTED" => Ok ExecutionAdmitted
  | Some "POST_ADMISSION_INTERRUPTED" => Ok PostAdmissionInterrupted
  | Some "WAITING_APPROVAL" => Ok MechanismWaitingApproval
  | Some "PROVIDER_COMPLETED" => Ok ProviderCompleted
  | _ => Err (Json "unknown variant")
  end.

Definition default_bool (o : option bool) : bool := match o with Some b => b | None => false end.

Definition snapshot_disposition (requirement : ForemanExecutionAvailabilityRequirementV1)
    (dispatch : ProviderDispatchOccurrenceV1) (retained : ExactMapperSnapshotV1)
    (snapshot : value) (received_at : instant)
    : result ContractError ProviderAdmissionDispositionV1 :=
  let binding := value_index snapshot "binding" in
  reject (negb (bool_decide (as_str (value_index binding "codex_source_head")
                             = Some (op_codex_owner_head (rq_owner_pins requirement)))))
    (InvalidField "snapshot enrolled owner") ;?
  let? kind := disposition_kind_of (value_index snapshot "admission_disposition") in
  let? state := mechanism_state_of (value_index snapshot "mechanism_state") in
  let? execution := snapshot_execution snapshot in
  let? records := ok_or (as_array (value_index snapshot "records"))
    (InvalidField "snapshot records") in
  let request := match find_map (fun r => as_str (normalized_field "request_occurrence_id" r))
                         records with
                 | Some r => r
                 | None => "not-observed"
                 end in
  let? retry_after := snapshot_retry_after records received_at in
  let? thread := string_field binding "thread_id" in
  let? turn := string_field binding "turn_id" in
  let? schema := string_field snapshot "schema" in
  let? digest := string_field snapshot "snapshot_digest" in
  Ok {| dp_schema := PROVIDER_ADMISSION_DISPOSITION_SCHEMA_V1;
        dp_disposition_digest := "sha256:" +:+ str_repeat 64 "0"%char;
        dp_dispatch_digest := di_dispatch_digest dispatch;
        dp_requirement_digest := rq_requirement_digest requirement;
        dp_policy_digest := rq_policy_digest requirement;
        dp_packet_digest := rq_packet_digest requirement;
        dp_run_id := rq_run_id requirement;
        dp_work_item_id := di_work_item_id dispatch;
        dp_work_attempt_id := di_work_attempt_id dispatch;
        dp_dispatch_occurrence_id := di_dispatch_occurrence_id dispatch;
        dp_provider_id := sl_provider_id (di_selection dispatch);
        dp_model_id := sl_model_id (di_selection dispatch);
        dp_provider_request_occurrence_id := request;
        dp_adapter_process_occurrence_id := di_adapter_process_occurrence_id dispatch;
        dp_app_server_session_identity := di_app_server_session_identity dispatch;
        dp_thread_id := thread;
        dp_turn_id := turn;
        dp_disposition := kind;
        dp_mechanism_state := state;
        dp_received_at := received_at;
        dp_response_created := bool_decide (is_Some execution);
        dp_will_retry := false;
        dp_acquisition_complete :=
          default_bool (as_bool (value_index (value_index snapshot "acquisition_cut") "clean"));
        dp_provider_retry_after := retry_after;
        dp_provider_execution := execution;
        dp_mapper_snapshot_schema := schema;
        dp_mapper_snapshot_digest := digest;
        dp_mapper_snapshot := retained;
        dp_approval_response_sent := false;
        dp_protected_effect_absent := true;
        dp_authority_effect := "SCHEDULING_MECHANISM_EVIDENCE_ONLY" |}.

Definition snapshot_observation (dispatch : ProviderDispatchOccurrenceV1)
    (d : ProviderAdmissionDispositionV1) (source : DispositionSourceObservation)
    (received_at expires_at : instant) : ExecutionAvailabilityObservationV1 :=
  {| eo_schema := EXECUTION_AVAILABILITY_OBSERVATION_SCHEMA_V1;
     eo_observation_digest := "sha256:" +:+ str_repeat 64 "0"%char;
     eo_provider_id := dp_provider_id d;
     eo_model_id := dp_model_id d;
     eo_model_class := sl_model_class (di_selection dispatch);
     eo_observed_at := ds_observed_at source;
     eo_received_at := received_at;
     eo_expires_at := expires_at;
     eo_state := match dp_disposition d with
                 | DispositionExecutionAdmitted => Available
                 | NotAdmittedModelAtCapacity => ModelAtCapacity
                 | _ => AvailabilityUnknown
                 end;
     eo_source_identity := ds_identity source;
     eo_source_version := ds_version source;
     eo_provider_retry_after := dp_provider_retry_after d;
     eo_exact_evidence := ds_evidence source;
     eo_authority_effect := "SCHEDULING_MECHANISM_EVIDENCE_ONLY" |}.

Definition derive_provider_snapshot_evidence
    (requirement : ForemanExecutionAvailabilityRequirementV1)
    (dispatch : ProviderDispatchOccurrenceV1) (raw : string) (received_at expires_at : instant)
    : result ContractError (ProviderAdmissionDispositionV1 * ExecutionAvailabilityObservationV1) :=
  requirement_validate requirement ;?
  dispatch_validate dispatch ;?
  let? retained := mapper_snapshot_from_bytes raw in
  let? snapshot := map_err Json (from_slice raw) in
  let? draft := snapshot_disposition requirement dispatch retained snapshot received_at in
  let? d := disposition_seal draft in
  disposition_validate d ;?
  let? source := disposition_source_observation d in
  let? observation := availability_observation_seal
    (snapshot_observation dispatch d source received_at expires_at) in
  Ok (d, observation).
End graph.
