(* ===== verification/GraphFacts.v ===== *)
(** * Bounds of the execution-availability graph

    An accepted graph bounds the dispatches of an attempt and the time it is parked:
    the prior deferrals and the new one fit the policy, and no dispatch opens before
    the deferral in front of it has elapsed.  The deferral a graph accepts is the one
    its refusal determines. *)
From S2P Require Import Prelude Text External Contract Availability Evidence Graph.
Local Open Scope string_scope.

(** ** Definitions *)

Definition total_deferral (l : list DeferredProviderDispatchV1) : N :=
  foldr (fun d n => (df_backoff_seconds d + n)%N) 0%N l.

Lemma total_deferral_app l1 l2 :
  total_deferral (l1 ++ l2) = (total_deferral l1 + total_deferral l2)%N.
Proof. induction l1 as [|d l1 IH]; simpl; [done|]. rewrite IH. lia. Qed.

(** The deferrals of the attempt with the one the graph may park under. *)
Definition all_deferrals (history : list ProviderDeferralHistoryEntryV1)
    (deferred : option DeferredProviderDispatchV1) : list DeferredProviderDispatchV1 :=
  (he_deferred <$> history) ++ option_list deferred.

(** When a dispatch was opened and when its deferral ends. *)
Definition window (e : ProviderDeferralHistoryEntryV1) : instant * instant :=
  (di_opened_at (he_dispatch e), df_wake_at (he_deferred e)).

(** Instants are nanoseconds; a provider's retry instant keeps its milliseconds. *)
Definition waits_seconds (d : DeferredProviderDispatchV1) : Prop :=
  let seconds := (Z.of_N (df_backoff_seconds d) * 1000000000)%Z in
  (seconds <= df_wake_at d - df_refusal_received_at d < seconds + 1000000)%Z /\
  (0 < df_backoff_seconds d)%N.

(** Each window opens no earlier than the window before it ends. *)
Fixpoint follows (wake : option instant) (windows : list (instant * instant)) : Prop :=
  match windows with
  | [] => True
  | w :: windows => before_wake w.1 wake = false /\ follows (Some w.2) windows
  end.

Lemma follows_snoc wake windows w :
  follows wake (windows ++ [w]) <->
  follows wake windows /\
  before_wake w.1 (match last windows with Some v => Some v.2 | None => wake end) = false.
Proof.
  revert wake. induction windows as [|v windows IH]; intros wake; simpl; [naive_solver|].
  rewrite IH. destruct windows; simpl; [naive_solver|].
  destruct (last (_ :: _)) eqn:Hl; [naive_solver|]. by apply last_None in Hl.
Qed.

(** ** One deferral *)

Section graph_facts.
Context {HO : Host} {HOK : HostOk HO} {SV : Serde value}
  {SEo : Serde ExecutionAvailabilityObservationV1}
  {SYp : Serde ExecutionAvailabilityPolicyV1}
  {SRq : Serde ForemanExecutionAvailabilityRequirementV1}
  {SDi : Serde ProviderDispatchOccurrenceV1} {SDf : Serde DeferredProviderDispatchV1}
  {SXe : Serde ExactAvailabilityEvidenceV1} {SXi : Serde ProviderExecutionIdentityV1}
  {SQ1 : Serde DeterministicProviderAdmissionEvidenceV1}
  {SQ2 : Serde DeterministicProviderAdmissionEvidenceV2}
  {SDp : Serde ProviderAdmissionDispositionV1} {PE : ProviderEvidence}.

(** [num_milliseconds] of a positive difference. *)
Lemma whole_seconds n :
  (0 < Z.quot n 1000000)%Z -> Z.rem (Z.quot n 1000000) 1000 = 0%Z ->
  let seconds := Z.to_N (Z.quot n 1000000 / 1000) in
  (Z.of_N seconds * 1000000000 <= n < Z.of_N seconds * 1000000000 + 1000000)%Z /\
  (0 < seconds)%N.
Proof.
  intros Hpos Hrem. assert (0 < n)%Z as Hn.
  { destruct (Z.lt_ge_cases 0 n); [done|]. exfalso.
    pose proof (Z.quot_le_mono n 0 1000000). rewrite Z.quot_0_l in *; lia. }
  rewrite Z.quot_div_nonneg in * by lia. rewrite Z.rem_mod_nonneg in Hrem by lia.
  pose proof (Z.div_mod n 1000000). pose proof (Z.mod_pos_bound n 1000000).
  pose proof (Z.div_mod (n / 1000000) 1000).
  pose proof (Z.div_pos (n / 1000000) 1000).
  cbn zeta. rewrite Z2N.id by lia. lia.
Qed.

Lemma deferred_backoff d :
  deferred_validate d = Ok tt -> (0 < df_backoff_seconds d)%N.
Proof. unfold deferred_validate. intros H. inv_ok H. res_simpl. test_simpl. lia. Qed.

Lemma exact_deferral_spec policy p d seconds :
  deferred_validate d = Ok tt -> exact_deferral_seconds policy p d = Ok seconds ->
  df_backoff_seconds d = seconds /\ waits_seconds d.
Proof.
  intros Hd%deferred_backoff. unfold exact_deferral_seconds. intros H. inv_ok H. subst.
  res_simpl. test_simpl. destruct Hok0 as [[[Hr _] Hw] Hb]. split; [done|].
  unfold waits_seconds. split; [|done]. rewrite Hr, Hw, Hb. clear Hd Hw Hb.
  destruct (df_wake_basis d); inv_ok Hok; injection Hok as <- <-; res_simpl; test_simpl.
  - destruct Hok1 as [H1 H2]. apply whole_seconds; [lia|done].
  - apply checked_add_signed_sum in Hok2. subst. lia.
Qed.

(** ** The scan of the prior deferrals *)

Context {requirement : ForemanExecutionAvailabilityRequirementV1}
  {policy : ExecutionAvailabilityPolicyV1} {dispatch : ProviderDispatchOccurrenceV1}
  {selections : list ProviderModelSelectionV1}.

Definition occurrence (e : ProviderDeferralHistoryEntryV1) : string :=
  df_last_dispatch_occurrence_id (he_deferred e).

(** What one turn of the loop checks and leaves. *)
Lemma scan_deferral_spec e sc sc' :
  scan_deferral requirement policy dispatch selections e sc = Ok sc' ->
  waits_seconds (he_deferred e) /\
  occurrence e ∉ sc_dispatch_ids sc /\
  before_wake (di_opened_at (he_dispatch e)) (sc_wake sc) = false /\
  di_dispatch_ordinal (he_dispatch e) = (N.of_nat (sc_index sc) + 1)%N /\
  sc_index sc' = S (sc_index sc) /\
  sc_cumulative sc' = (sc_cumulative sc + df_backoff_seconds (he_deferred e))%N /\
  sc_dispatch_ids sc' = {[occurrence e]} ∪ sc_dispatch_ids sc /\
  sc_wake sc' = Some (df_wake_at (he_deferred e)).
Proof.
  unfold scan_deferral. intros H. inv_ok H. subst sc'. res_simpl.
  unfold entry_validate in Hok. inv_ok Hok. res_simpl.
  apply exact_deferral_spec in Hok3 as [<- Hw]; [|done].
  apply checked_add_Some in Hok4 as [-> _].
  rewrite !orb_false_iff in Hok2. destruct Hok2 as [[H1 _] H3].
  unfold prior_dispatch_differs in H1. unfold prior_deferral_differs in H3. cbn zeta in H3.
  rewrite !orb_false_iff in H1, H3. test_simpl.
  repeat match goal with H : _ /\ _ |- _ => destruct H end.
  repeat match goal with H : bool_decide _ = false |- _ => apply bool_decide_eq_false in H end.
  refine (conj Hw _). by repeat split.
Qed.

Lemma scan_deferrals l sc :
  fold_try (scan_deferral requirement policy dispatch selections) l empty_scan = Ok sc ->
  Forall waits_seconds (he_deferred <$> l) /\
  NoDup (occurrence <$> l) /\ sc_dispatch_ids sc = list_to_set (occurrence <$> l) /\
  follows None (window <$> l) /\ sc_wake sc = (snd <$> last (window <$> l)) /\
  sc_index sc = length l /\ sc_cumulative sc = total_deferral (he_deferred <$> l).
Proof.
  revert sc. induction l as [|e l IH] using rev_ind; intros sc.
  { intros [= <-]. by repeat split; constructor. }
  rewrite fold_try_app. intros H. inv_ok H. simpl in H. inv_ok H. subst.
  apply IH in Hok as (Hs & Hn & Hi & Hf & Hw & Hx & Hc).
  apply scan_deferral_spec in Hok0 as (Hs' & Hn' & Hf' & _ & -> & -> & -> & ->).
  rewrite !fmap_app, Hi. simpl. repeat split.
  - apply Forall_app. by split; [|constructor].
  - apply NoDup_app. split; [done|]. split; [|apply NoDup_singleton]. intros o Ho.
    rewrite list_elem_of_singleton. intros ->. apply Hn'. rewrite Hi. set_solver.
  - rewrite list_to_set_app_L. simpl. set_solver.
  - apply follows_snoc. split; [done|]. rewrite Hw in Hf'. by destruct (last _).
  - by rewrite last_snoc.
  - rewrite length_app. simpl. lia.
  - rewrite Hc, total_deferral_app. simpl. lia.
Qed.

(** ** The new deferral and the whole graph *)

Lemma check_park_spec disposition cumulative deferred :
  check_park requirement policy dispatch disposition (length selections) cumulative deferred
    = Ok tt ->
  match deferred with
  | Some d => disposition_permits_automatic_park disposition = true /\
      deferred_validate d = Ok tt /\
      parked_graph_differs requirement policy dispatch disposition d = false /\
      df_remaining_model_ordinals d
        = expected_remaining policy (di_selected_model_ordinal dispatch) (length selections) /\
      exact_deferral_seconds policy disposition d = Ok (df_backoff_seconds d) /\
      waits_seconds d /\
      (cumulative + df_backoff_seconds d <= yp_maximum_total_deferral_seconds policy)%N
  | None => disposition_permits_automatic_park disposition = false
  end.
Proof.
  unfold check_park. destruct (disposition_permits_automatic_park disposition); intros H.
  - inv_ok H. res_simpl. subst deferred. apply exact_deferral_spec in Hok3 as He; [|done].
    destruct He as [<- Hw]. apply checked_add_Some in Hok4 as [-> _].
    apply N.ltb_ge in H. apply negb_false_iff, bool_decide_eq_true in Hok2. by repeat split; try apply Hw.
  - res_simpl. apply bool_decide_eq_false in H. by destruct deferred as [d|]; [destruct H|].
Qed.

Lemma policy_bounds :
  availability_policy_validate policy = Ok tt ->
  (yp_maximum_dispatch_occurrences_per_attempt policy <= MAXIMUM_DISPATCH_OCCURRENCES)%N /\
  (yp_maximum_total_deferral_seconds policy <= MAXIMUM_TOTAL_DEFERRAL_SECONDS)%N.
Proof. unfold availability_policy_validate. intros H. inv_ok H. res_simpl. test_simpl. lia. Qed.

(** What the validators of an accepted graph leave for the properties. *)
Record graph_accepted (disposition : ProviderAdmissionDispositionV1)
    (history : list ProviderDeferralHistoryEntryV1)
    (deferred : option DeferredProviderDispatchV1) (scan : DeferralScan) : Prop := {
  ga_policy : availability_policy_validate policy = Ok tt;
  ga_ordinal : di_dispatch_ordinal dispatch = (N.of_nat (length history) + 1)%N;
  ga_maximum : (di_dispatch_ordinal dispatch
                <= yp_maximum_dispatch_occurrences_per_attempt policy)%N;
  ga_selections : rq_work_item_model_selections requirement !! di_work_item_id dispatch
                  = Some selections;
  ga_scan : fold_try (scan_deferral requirement policy dispatch selections) history empty_scan
            = Ok scan;
  ga_wake : before_wake (di_opened_at dispatch) (sc_wake scan) = false;
  ga_total : (sc_cumulative scan <= yp_maximum_total_deferral_seconds policy)%N;
  ga_park : check_park requirement policy dispatch disposition (length selections)
              (sc_cumulative scan) deferred = Ok tt
}.
End graph_facts.

Section bounds.
Context {HO : Host} {HOK : HostOk HO} {SV : Serde value}
  {SEo : Serde ExecutionAvailabilityObservationV1}
  {SYp : Serde ExecutionAvailabilityPolicyV1}
  {SRq : Serde ForemanExecutionAvailabilityRequirementV1}
  {SDi : Serde ProviderDispatchOccurrenceV1} {SDf : Serde DeferredProviderDispatchV1}
  {SXe : Serde ExactAvailabilityEvidenceV1} {SXi : Serde ProviderExecutionIdentityV1}
  {SQ1 : Serde DeterministicProviderAdmissionEvidenceV1}
  {SQ2 : Serde DeterministicProviderAdmissionEvidenceV2}
  {SDp : Serde ProviderAdmissionDispositionV1} {PE : ProviderEvidence}.

Lemma graph_inv requirement policy dispatch observation disposition history deferred :
  validate_execution_availability_graph requirement policy dispatch observation disposition
    history deferred = Ok tt ->
  exists selections scan,
    graph_accepted (requirement := requirement) (policy := policy) (dispatch := dispatch)
      (selections := selections) disposition history deferred scan.
Proof.
  unfold validate_execution_availability_graph. intros H. inv_ok H. res_simpl.
  exists x, x0.
  match goal with D : dispatch_graph_differs _ _ _ _ = false |- _ =>
    unfold dispatch_graph_differs in D; rewrite !orb_false_iff in D; destruct D as [_ D] end.
  test_simpl. repeat match goal with H : _ /\ _ |- _ => destruct H end.
  by split.
Qed.

(** C24: an accepted graph opens at most as many dispatches as the policy allows, and at
  most sixteen; its deferrals wait the seconds they record, together no more than the
  policy's maximum, itself at most a week; each prior deferral ends a dispatch of its
  own, and every dispatch opens at or after the end of the deferral before it. *)
Theorem graph_bounds_deferrals requirement policy dispatch observation disposition history
    deferred :
  validate_execution_availability_graph requirement policy dispatch observation disposition
    history deferred = Ok tt ->
  di_dispatch_ordinal dispatch = (N.of_nat (length history) + 1)%N /\
  (di_dispatch_ordinal dispatch <= yp_maximum_dispatch_occurrences_per_attempt policy
   <= MAXIMUM_DISPATCH_OCCURRENCES)%N /\
  (total_deferral (all_deferrals history deferred)
   <= yp_maximum_total_deferral_seconds policy <= MAXIMUM_TOTAL_DEFERRAL_SECONDS)%N /\
  Forall waits_seconds (all_deferrals history deferred) /\
  NoDup (occurrence <$> history) /\
  follows None ((window <$> history) ++ [(di_opened_at dispatch, di_opened_at dispatch)]) /\
  (is_Some deferred <-> disposition_permits_automatic_park disposition = true).
Proof.
  intros (selections & scan & [])%graph_inv.
  destruct (policy_bounds ga_policy0) as [Hmax Htotal].
  apply scan_deferrals in ga_scan0 as (Hs & Hn & _ & Hf & Hw & _ & Hc).
  apply check_park_spec in ga_park0.
  rewrite Hw in ga_wake0. rewrite Hc in ga_total0, ga_park0. unfold all_deferrals.
  rewrite follows_snoc, Forall_app, total_deferral_app.
  split; [done|]. split; [done|]. destruct deferred as [d|]; simpl in *.
  - destruct ga_park0 as (Hp & _ & _ & _ & _ & Hd & Hle).
    split; [lia|]. split; [split; [done|by apply Forall_singleton]|]. split; [done|].
    split; [split; [done|by destruct (last _)]|]. done.
  - split; [lia|]. split; [done|]. split; [done|].
    split; [split; [done|by destruct (last _)]|]. rewrite ga_park0. by split; [intros []|].
Qed.
(** ** The deferral is determined by its refusal *)

Context {DfOk : SealedOk DeferredProviderDispatchV1 "deferred_dispatch_digest"
                  set_deferred_digest}.

Lemma deferred_sealed d :
  deferred_validate d = Ok tt ->
  df_schema d = DEFERRED_PROVIDER_DISPATCH_SCHEMA_V1 /\
  digest_without d "deferred_dispatch_digest" DEFERRED_DOMAIN
    = Ok (df_deferred_dispatch_digest d) /\
  df_provider_capacity_released d = true /\ df_semantic_retry d = false /\
  df_authority_effect d = LOCAL_SCHEDULING_ONLY.
Proof.
  unfold deferred_validate, schema, sealed_digest, check_sealed. intros H. inv_ok H. res_simpl.
  destruct Hok0 as [_ Hd]. inv_ok Hd. res_simpl. test_simpl. subst x0. naive_solver.
Qed.

Lemma digest_without_set d h domain :
  digest_without (set_deferred_digest h d) "deferred_dispatch_digest" domain
  = digest_without d "deferred_dispatch_digest" domain.
Proof.
  unfold digest_without.
  destruct (DfOk h d) as [(e & -> & ->)|(kvs & kvs' & -> & -> & Heq)]; simpl; [done|].
  by rewrite Heq.
Qed.

(** A sealed deferral is known by its other fields. *)
Lemma deferred_eq h d1 d2 :
  deferred_validate d1 = Ok tt -> deferred_validate d2 = Ok tt ->
  set_deferred_digest h d1 = set_deferred_digest h d2 -> d1 = d2.
Proof.
  intros (_ & H1 & _)%deferred_sealed (_ & H2 & _)%deferred_sealed Heq.
  rewrite <- (digest_without_set _ h), Heq, digest_without_set, H2 in H1.
  clear H2. injection H1 as H1. destruct d1, d2. unfold set_deferred_digest in Heq.
  simpl in H1, Heq. injection Heq. intros. by subst.
Qed.

(** The wait of a deferral, from its basis. *)
Lemma exact_deferral_determined policy p d1 d2 s1 s2 :
  exact_deferral_seconds policy p d1 = Ok s1 -> exact_deferral_seconds policy p d2 = Ok s2 ->
  df_backoff_ordinal d1 = df_backoff_ordinal d2 ->
  (df_wake_basis d1, df_backoff_seconds d1, df_provider_retry_after d1, df_wake_at d1)
  = (df_wake_basis d2, df_backoff_seconds d2, df_provider_retry_after d2, df_wake_at d2).
Proof.
  unfold exact_deferral_seconds. intros H1 H2 Hord. inv_ok H1. inv_ok H2. subst. res_simpl.
  rewrite !orb_false_iff in *. test_simpl. rewrite Hord in *.
  destruct Hok0 as [[[_ R1%bool_decide_eq_true] W1] B1].
  destruct Hok2 as [[[_ R2%bool_decide_eq_true] W2] B2].
  rewrite R1, R2, W1, W2, B1, B2. clear R1 R2 W1 W2 B1 B2.
  destruct (df_wake_basis d1), (df_wake_basis d2); inv_ok Hok; inv_ok Hok1; res_simpl;
    rewrite ?orb_false_iff in *; repeat match goal with
      | H : _ /\ _ |- _ => destruct H
      | H : bool_decide _ = false |- _ => apply bool_decide_eq_false in H
      end; simplify_eq.
  - done.
  - exfalso. eauto.
  - exfalso. eauto.
  - done.
Qed.

Lemma graph_deferral_unique requirement policy dispatch disposition o1 h1 d1 o2 h2 d2 :
  validate_execution_availability_graph requirement policy dispatch o1 disposition h1 (Some d1)
    = Ok tt ->
  validate_execution_availability_graph requirement policy dispatch o2 disposition h2 (Some d2)
    = Ok tt -> d1 = d2.
Proof.
  intros (sel1 & sc1 & [_ _ _ G1 _ _ _ P1])%graph_inv (sel2 & sc2 & [_ _ _ G2 _ _ _ P2])%graph_inv.
  rewrite G1 in G2. injection G2 as <-.
  apply check_park_spec in P1 as (_ & V1 & D1 & R1 & E1 & _).
  apply check_park_spec in P2 as (_ & V2 & D2 & R2 & E2 & _).
  destruct (deferred_sealed d1 V1) as (S1 & _ & C1 & T1 & A1).
  destruct (deferred_sealed d2 V2) as (S2 & _ & C2 & T2 & A2).
  unfold parked_graph_differs in D1, D2. rewrite !orb_false_iff in D1, D2. test_simpl.
  repeat match goal with
  | H : _ /\ _ |- _ => destruct H
  | H : bool_decide _ = true |- _ => apply bool_decide_eq_true in H
  end.
  assert (df_backoff_ordinal d1 = df_backoff_ordinal d2) as Hord by lia.
  pose proof (exact_deferral_determined _ _ _ _ _ _ E1 E2 Hord) as [= Hb Hs Hr Hw].
  apply (deferred_eq "" d1 d2 V1 V2). unfold set_deferred_digest.
  f_equal; congruence.
Qed.

(** C25: the deferral derived for a refusal, or its absence, is accepted with its graph and is
  the only one the graph accepts. *)
Theorem derived_deferral_is_accepted_one requirement policy dispatch observation disposition
    history o :
  derive_provider_deferral requirement policy dispatch observation disposition history = Ok o ->
  forall o', validate_execution_availability_graph requirement policy dispatch observation
    disposition history o' = Ok tt <-> o' = o.
Proof.
  unfold derive_provider_deferral. intros H. inv_ok H. subst x. res_simpl.
  match goal with G : validate_execution_availability_graph _ _ _ _ _ _ _ = Ok tt |- _ =>
    rename G into Hg end.
  intros o'. split; [|by intros ->]. intros Hg'.
  pose proof Hg as (? & ? & [_ _ _ _ _ _ _ P])%graph_inv. apply check_park_spec in P.
  pose proof Hg' as (? & ? & [_ _ _ _ _ _ _ P'])%graph_inv. apply check_park_spec in P'.
  destruct o as [d|], o' as [d'|]; [|destruct P as [P _]; by rewrite P in P'| |done].
  - f_equal. exact (graph_deferral_unique _ _ _ _ _ _ _ _ _ _ Hg' Hg).
  - destruct P' as [P' _]. by rewrite P in P'.
Qed.
End bounds.
