(* ===== verification/Scheduler.v ===== *)
(** * Scheduler replay (crates/nightshift-foreman/src/scheduler.rs)

    The projection of a run: a fold over the run's journal events from the
    items of its packet, followed by one pass that derives dependency
    terminality and readiness. *)
From S2P Require Import Prelude Text External Packet Contract Availability.
Local Open Scope string_scope.

Definition LIVE_RUN_PROJECTION_SCHEMA_V1 : string := "nightshift.foreman-live-run/v1".

(** ** Data *)

Record AcceptedOutcomeV1 := {
  ao_state : string;
  ao_result_classification : string;
  ao_receipt_digest : string
}.

Record LiveWorkItemV1 := {
  li_work_item_id : string;
  li_dependencies : list string;
  li_scheduler_state : SchedulerStateV1;
  li_dependency_terminality : gmap string bool;
  li_resource_lock_keys : list string;
  li_active_attempt_id : option string;
  li_adapter_id : string;
  li_adapter_version : string;
  li_provider_model_class : string;
  li_provider_identity : option string;
  li_model_identity : option string;
  li_session_identity : option string;
  li_thread_identity : option string;
  li_turn_identity : option string;
  li_queue_identity : option string;
  li_last_event_sequence : option N;
  li_last_event_digest : option string;
  li_human_questions : list HumanQuestionV1;
  li_accepted_terminal_outcome : option AcceptedOutcomeV1;
  li_result_absent_until_terminal_receipt_acceptance : bool
}.

Record ResourceClaimV1 := {
  cl_resource_lock_key : string;
  cl_work_item_id : string;
  cl_attempt_id : string
}.

Record LiveRunProjectionV1 := {
  lp_schema : string;
  lp_run_id : string;
  lp_packet_id : string;
  lp_packet_digest : string;
  lp_admission_digest : string;
  lp_profile_digest : string;
  lp_maximum_concurrent_workers : N;
  lp_work_items : list LiveWorkItemV1;
  lp_resource_claims : list ResourceClaimV1;
  lp_closed_final_receipts_digest : option string;
  lp_authority_effect : string
}.

Inductive ReplayKind :=
| ReplayRunAdmitted
| ReplayAttemptCreated (resource_lock_keys : list string)
| ReplayDispatchRequested
| ReplayResumeRequested
| ReplayAdapter (event : AdapterEventV1)
| ReplayTerminalAccepted (outcome : AcceptedOutcomeV1)
| ReplayTerminalRefused
| ReplayNotStartedAccepted (outcome : AcceptedOutcomeV1)
| ReplayResourcesReleased
| ReplayCapacityEvidence
| ReplayExecutionAvailabilityConfigured
| ReplayProviderDispatchOpened
| ReplayProviderDispositionRecorded (mechanism_state : ProviderMechanismStateV1)
    (execution_identity : option ProviderExecutionIdentityV1)
| ReplayProviderWakeOpened
| ReplayProviderExecutionResumeRequested
| ReplayProviderResourcesReleased
| ReplayProviderResourcesReacquired (resource_lock_keys : list string)
| ReplayRunClosed (final_receipts_digest : string).

Record ReplayEvent := {
  re_sequence : N;
  re_work_item_id : option string;
  re_attempt_id : option string;
  re_kind : ReplayKind;
  re_raw_digest : string
}.

#[global] Instance ResourceClaimV1_eq_dec : EqDecision ResourceClaimV1.
Proof. solve_decision. Defined.
#[global] Instance AcceptedOutcomeV1_eq_dec : EqDecision AcceptedOutcomeV1.
Proof. solve_decision. Defined.
#[global] Instance HumanQuestionV1_eq_dec : EqDecision HumanQuestionV1.
Proof. solve_decision. Defined.

(** ** Field assignments *)

Definition with_state (s : SchedulerStateV1) (i : LiveWorkItemV1) : LiveWorkItemV1 :=
  {| li_work_item_id := li_work_item_id i; li_dependencies := li_dependencies i;
     li_scheduler_state := s; li_dependency_terminality := li_dependency_terminality i;
     li_resource_lock_keys := li_resource_lock_keys i;
     li_active_attempt_id := li_active_attempt_id i; li_adapter_id := li_adapter_id i;
     li_adapter_version := li_adapter_version i;
     li_provider_model_class := li_provider_model_class i;
     li_provider_identity := li_provider_identity i;
     li_model_identity := li_model_identity i;
     li_session_identity := li_session_identity i;
     li_thread_identity := li_thread_identity i; li_turn_identity := li_turn_identity i;
     li_queue_identity := li_queue_identity i;
     li_last_event_sequence := li_last_event_sequence i;
     li_last_event_digest := li_last_event_digest i;
     li_human_questions := li_human_questions i;
     li_accepted_terminal_outcome := li_accepted_terminal_outcome i;
     li_result_absent_until_terminal_receipt_acceptance := li_result_absent_until_terminal_receipt_acceptance i |}.
Definition with_terminality (t : gmap string bool) (i : LiveWorkItemV1) : LiveWorkItemV1 :=
  {| li_work_item_id := li_work_item_id i; li_dependencies := li_dependencies i;
     li_scheduler_state := li_scheduler_state i; li_dependency_terminality := t;
     li_resource_lock_keys := li_resource_lock_keys i;
     li_active_attempt_id := li_active_attempt_id i; li_adapter_id := li_adapter_id i;
     li_adapter_version := li_adapter_version i;
     li_provider_model_class := li_provider_model_class i;
     li_provider_identity := li_provider_identity i;
     li_model_identity := li_model_identity i;
     li_session_identity := li_session_identity i;
     li_thread_identity := li_thread_identity i; li_turn_identity := li_turn_identity i;
     li_queue_identity := li_queue_identity i;
     li_last_event_sequence := li_last_event_sequence i;
     li_last_event_digest := li_last_event_digest i;
     li_human_questions := li_human_questions i;
     li_accepted_terminal_outcome := li_accepted_terminal_outcome i;
     li_result_absent_until_terminal_receipt_acceptance := li_result_absent_until_terminal_receipt_acceptance i |}.
Definition with_attempt (a : option string) (i : LiveWorkItemV1) : LiveWorkItemV1 :=
  {| li_work_item_id := li_work_item_id i; li_dependencies := li_dependencies i;
     li_scheduler_state := li_scheduler_state i;
     li_dependency_terminality := li_dependency_terminality i;
     li_resource_lock_keys := li_resource_lock_keys i; li_active_attempt_id := a;
     li_adapter_id := li_adapter_id i; li_adapter_version := li_adapter_version i;
     li_provider_model_class := li_provider_model_class i;
     li_provider_identity := li_provider_identity i;
     li_model_identity := li_model_identity i;
     li_session_identity := li_session_identity i;
     li_thread_identity := li_thread_identity i; li_turn_identity := li_turn_identity i;
     li_queue_identity := li_queue_identity i;
     li_last_event_sequence := li_last_event_sequence i;
     li_last_event_digest := li_last_event_digest i;
     li_human_questions := li_human_questions i;
     li_accepted_terminal_outcome := li_accepted_terminal_outcome i;
     li_result_absent_until_terminal_receipt_acceptance := li_result_absent_until_terminal_receipt_acceptance i |}.
Definition with_questions (q : list HumanQuestionV1) (i : LiveWorkItemV1) : LiveWorkItemV1 :=
  {| li_work_item_id := li_work_item_id i; li_dependencies := li_dependencies i;
     li_scheduler_state := li_scheduler_state i;
     li_dependency_terminality := li_dependency_terminality i;
     li_resource_lock_keys := li_resource_lock_keys i;
     li_active_attempt_id := li_active_attempt_id i; li_adapter_id := li_adapter_id i;
     li_adapter_version := li_adapter_version i;
     li_provider_model_class := li_provider_model_class i;
     li_provider_identity := li_provider_identity i;
     li_model_identity := li_model_identity i;
     li_session_identity := li_session_identity i;
     li_thread_identity := li_thread_identity i; li_turn_identity := li_turn_identity i;
     li_queue_identity := li_queue_identity i;
     li_last_event_sequence := li_last_event_sequence i;
     li_last_event_digest := li_last_event_digest i; li_human_questions := q;
     li_accepted_terminal_outcome := li_accepted_terminal_outcome i;
     li_result_absent_until_terminal_receipt_acceptance := li_result_absent_until_terminal_receipt_acceptance i |}.
Definition with_last_event (sequence : N) (raw_digest : string) (i : LiveWorkItemV1)
    : LiveWorkItemV1 :=
  {| li_work_item_id := li_work_item_id i; li_dependencies := li_dependencies i;
     li_scheduler_state := li_scheduler_state i;
     li_dependency_terminality := li_dependency_terminality i;
     li_resource_lock_keys := li_resource_lock_keys i;
     li_active_attempt_id := li_active_attempt_id i; li_adapter_id := li_adapter_id i;
     li_adapter_version := li_adapter_version i;
     li_provider_model_class := li_provider_model_class i;
     li_provider_identity := li_provider_identity i;
     li_model_identity := li_model_identity i;
     li_session_identity := li_session_identity i;
     li_thread_identity := li_thread_identity i; li_turn_identity := li_turn_identity i;
     li_queue_identity := li_queue_identity i; li_last_event_sequence := Some sequence;
     li_last_event_digest := Some raw_digest; li_human_questions := li_human_questions i;
     li_accepted_terminal_outcome := li_accepted_terminal_outcome i;
     li_result_absent_until_terminal_receipt_acceptance := li_result_absent_until_terminal_receipt_acceptance i |}.
Definition with_outcome (o : AcceptedOutcomeV1) (i : LiveWorkItemV1) : LiveWorkItemV1 :=
  {| li_work_item_id := li_work_item_id i; li_dependencies := li_dependencies i;
     li_scheduler_state := li_scheduler_state i;
     li_dependency_terminality := li_dependency_terminality i;
     li_resource_lock_keys := li_resource_lock_keys i;
     li_active_attempt_id := li_active_attempt_id i; li_adapter_id := li_adapter_id i;
     li_adapter_version := li_adapter_version i;
     li_provider_model_class := li_provider_model_class i;
     li_provider_identity := li_provider_identity i;
     li_model_identity := li_model_identity i;
     li_session_identity := li_session_identity i;
     li_thread_identity := li_thread_identity i; li_turn_identity := li_turn_identity i;
     li_queue_identity := li_queue_identity i;
     li_last_event_sequence := li_last_event_sequence i;
     li_last_event_digest := li_last_event_digest i;
     li_human_questions := li_human_questions i; li_accepted_terminal_outcome := Some o;
     li_result_absent_until_terminal_receipt_acceptance := false |}.
Definition with_identities (provider model session thread turn queue : option string)
    (i : LiveWorkItemV1) : LiveWorkItemV1 :=
  {| li_work_item_id := li_work_item_id i; li_dependencies := li_dependencies i;
     li_scheduler_state := li_scheduler_state i;
     li_dependency_terminality := li_dependency_terminality i;
     li_resource_lock_keys := li_resource_lock_keys i;
     li_active_attempt_id := li_active_attempt_id i; li_adapter_id := li_adapter_id i;
     li_adapter_version := li_adapter_version i;
     li_provider_model_class := li_provider_model_class i;
     li_provider_identity := provider; li_model_identity := model;
     li_session_identity := session; li_thread_identity := thread;
     li_turn_identity := turn; li_queue_identity := queue;
     li_last_event_sequence := li_last_event_sequence i;
     li_last_event_digest := li_last_event_digest i;
     li_human_questions := li_human_questions i;
     li_accepted_terminal_outcome := li_accepted_terminal_outcome i;
     li_result_absent_until_terminal_receipt_acceptance := li_result_absent_until_terminal_receipt_acceptance i |}.

(** ** Applying one event *)

(** [if let Some(value) = &event.x { item.x = Some(value.clone()); }]. *)
Definition keep (new old : option string) : option string :=
  match new with Some v => Some v | None => old end.

Definition adapter_event_state (kind : AdapterEventKindV1) (old : SchedulerStateV1)
    : SchedulerStateV1 :=
  match kind with
  | AdapterAccepted | WorkerStarted => Running
  | ProviderIdentity => WaitingProvider
  | Checkpoint => Checkpointed
  | WaitingApprovalEvent => WaitingApproval
  | HumanQuestion => WaitingHuman
  | ProviderCompletionObservation => WaitingProvider
  | AdapterDiagnostic => old
  | MechanismIndeterminate => IndeterminateMechanismState
  end.

Definition add_question (questions : list HumanQuestionV1) (q : HumanQuestionV1)
    : list HumanQuestionV1 :=
  if existsb (fun existing => String.eqb (hq_question_id existing) (hq_question_id q)) questions
  then questions else (questions ++ [q])%list.

Definition apply_adapter_event (e : AdapterEventV1) (i : LiveWorkItemV1) : LiveWorkItemV1 :=
  let i := with_identities
    (keep (ae_provider_identity e) (li_provider_identity i))
    (keep (ae_model_identity e) (li_model_identity i))
    (keep (ae_session_identity e) (li_session_identity i))
    (keep (ae_thread_identity e) (li_thread_identity i))
    (keep (ae_turn_identity e) (li_turn_identity i))
    (keep (ae_queue_identity e) (li_queue_identity i)) i in
  let i := with_state (adapter_event_state (ae_kind e) (li_scheduler_state i)) i in
  match ae_human_question e with
  | Some q => with_questions (add_question (li_human_questions i) q) i
  | None => i
  end.

Definition mechanism_scheduler_state (m : ProviderMechanismStateV1) : SchedulerStateV1 :=
  match m with
  | ParkedNotAdmitted => WaitingProvider
  | AdmissionIndeterminate => IndeterminateMechanismState
  | ExecutionAdmitted | PostAdmissionInterrupted => WaitingProvider
  | MechanismWaitingApproval => WaitingApproval
  | ProviderCompleted => WaitingProvider
  end.

Definition apply_disposition (m : ProviderMechanismStateV1)
    (identity : option ProviderExecutionIdentityV1) (i : LiveWorkItemV1) : LiveWorkItemV1 :=
  let i := match identity with
           | Some x => with_identities (Some (xi_provider_id x)) (Some (xi_model_id x))
                         (Some (xi_app_server_session_identity x)) (Some (xi_thread_id x))
                         (Some (xi_turn_id x)) (li_queue_identity i) i
           | None => i
           end in
  with_state (mechanism_scheduler_state m) i.

(** The item a step leaves behind, before the claims are touched. *)
Definition apply_item (e : ReplayEvent) (i : LiveWorkItemV1) : LiveWorkItemV1 :=
  let i := with_last_event (re_sequence e) (re_raw_digest e) i in
  match re_kind e with
  | ReplayAttemptCreated _ => with_state Dispatching (with_attempt (re_attempt_id e) i)
  | ReplayDispatchRequested | ReplayResumeRequested => with_state Dispatching i
  | ReplayAdapter event => apply_adapter_event event i
  | ReplayTerminalAccepted outcome => with_outcome outcome (with_state TerminalReceiptAccepted i)
  | ReplayNotStartedAccepted outcome => with_outcome outcome (with_state NotStarted i)
  | ReplayTerminalRefused => with_state TerminalReceiptRefused i
  | ReplayProviderDispatchOpened | ReplayProviderWakeOpened => with_state Dispatching i
  | ReplayProviderDispositionRecorded m identity => apply_disposition m identity i
  | ReplayProviderExecutionResumeRequested => with_state Dispatching i
  | ReplayResourcesReleased | ReplayProviderResourcesReleased
  | ReplayProviderResourcesReacquired _ | ReplayRunAdmitted | ReplayCapacityEvidence
  | ReplayExecutionAvailabilityConfigured | ReplayRunClosed _ => i
  end.

Abbreviation claims := (gmap string ResourceClaimV1) (only parsing).

(** [for key in keys { claims.insert(key, ..); }]. *)
Definition take_locks (keys : list string) (work_item_id attempt_id : string) (c : claims)
    : claims :=
  foldl (fun c key =>
    <[key := {| cl_resource_lock_key := key; cl_work_item_id := work_item_id;
                cl_attempt_id := attempt_id |}]> c) c keys.

Definition apply_claims (e : ReplayEvent) (work_item_id : string) (c : claims) : claims :=
  match re_kind e with
  | ReplayAttemptCreated keys | ReplayProviderResourcesReacquired keys =>
      match re_attempt_id e with
      | Some attempt_id => take_locks keys work_item_id attempt_id c
      | None => c
      end
  | ReplayResourcesReleased =>
      filter (fun kc => cl_work_item_id kc.2 <> work_item_id) c
  | ReplayProviderResourcesReleased =>
      filter (fun kc => cl_work_item_id kc.2 <> work_item_id
                        \/ re_attempt_id e <> Some (cl_attempt_id kc.2)) c
  | _ => c
  end.

(** The three variables the loop of [replay] mutates. *)
Record ReplayState := {
  rs_items : gmap string LiveWorkItemV1;
  rs_claims : claims;
  rs_closed : option string
}.

Definition apply_closed (e : ReplayEvent) (closed : option string) : option string :=
  match re_kind e with ReplayRunClosed d => Some d | _ => closed end.

(** One turn of the loop; [continue] skips the closing check too. *)
Definition apply_event (e : ReplayEvent) (s : ReplayState) : ReplayState :=
  match re_work_item_id e with
  | Some work_item_id =>
      match rs_items s !! work_item_id with
      | None => s
      | Some i =>
          {| rs_items := <[work_item_id := apply_item e i]> (rs_items s);
             rs_claims := apply_claims e work_item_id (rs_claims s);
             rs_closed := apply_closed e (rs_closed s) |}
      end
  | None =>
      {| rs_items := rs_items s; rs_claims := rs_claims s;
         rs_closed := apply_closed e (rs_closed s) |}
  end.

(** ** The initial items *)

(** Indexing a map with a missing key panics: [None]. *)
Definition initial_item (profile : ExecutionProfileV2) (item : WorkItemV1)
    : option LiveWorkItemV1 :=
  execution ← ep_work_items profile !! wi_id item;
  adapter ← ep_adapters profile !! wx_adapter_id execution;
  Some {| li_work_item_id := wi_id item;
          li_dependencies := wi_dependencies item;
          li_scheduler_state := WaitingDependencies;
          li_dependency_terminality := ∅;
          li_resource_lock_keys := wx_resource_lock_keys execution;
          li_active_attempt_id := None;
          li_adapter_id := wx_adapter_id execution;
          li_adapter_version := ar_adapter_version adapter;
          li_provider_model_class := wx_provider_model_class execution;
          li_provider_identity := None;
          li_model_identity := None;
          li_session_identity := None;
          li_thread_identity := None;
          li_turn_identity := None;
          li_queue_identity := None;
          li_last_event_sequence := None;
          li_last_event_digest := None;
          li_human_questions := [];
          li_accepted_terminal_outcome := None;
          li_result_absent_until_terminal_receipt_acceptance := true |}.

(** [collect] into a map: the last item with an identifier stays. *)
Definition initial_items (profile : ExecutionProfileV2) (items : list WorkItemV1)
    : option (gmap string LiveWorkItemV1) :=
  foldl (fun m item =>
    m ← m; i ← initial_item profile item; Some (<[wi_id item := i]> m)) (Some ∅) items.

(** ** The final pass *)

Definition terminal_ids (items : gmap string LiveWorkItemV1) : gset string :=
  list_to_set (li_work_item_id <$>
    List.filter (fun i => is_explicit_terminal (li_scheduler_state i)) (btree_values items)).

Definition awaits (i : LiveWorkItemV1) : bool :=
  match li_active_attempt_id i with Some _ => false | None => true end
  && negb (is_explicit_terminal (li_scheduler_state i))
  && match li_scheduler_state i with
     | TerminalReceiptRefused | IndeterminateMechanismState => false
     | _ => true
     end.

Definition derived_state (terminal : gset string) (c : claims) (i : LiveWorkItemV1)
    : SchedulerStateV1 :=
  if forallb (fun d => bool_decide (d ∈ terminal)) (li_dependencies i) then
    if existsb (fun key => bool_decide (is_Some (c !! key))) (li_resource_lock_keys i)
    then WaitingResource else ReadyEntryEvaluation
  else WaitingDependencies.

Definition finish_item (terminal : gset string) (c : claims) (i : LiveWorkItemV1)
    : LiveWorkItemV1 :=
  let i := with_terminality
    (list_to_map ((fun d => (d, bool_decide (d ∈ terminal))) <$> li_dependencies i)) i in
  if awaits i then with_state (derived_state terminal c i) i else i.

Definition replay (packet : NightshiftPacketV1) (run_id admission_digest : string)
    (profile : ExecutionProfileV2) (maximum_concurrent_workers : N)
    (events : list ReplayEvent) : option LiveRunProjectionV1 :=
  items ← initial_items profile (pk_work_items packet);
  let s := foldl (fun s e => apply_event e s)
             {| rs_items := items; rs_claims := ∅; rs_closed := None |} events in
  let terminal := terminal_ids (rs_items s) in
  Some {| lp_schema := LIVE_RUN_PROJECTION_SCHEMA_V1;
          lp_run_id := run_id;
          lp_packet_id := pk_packet_id packet;
          lp_packet_digest := pk_packet_digest packet;
          lp_admission_digest := admission_digest;
          lp_profile_digest := ep_profile_digest profile;
          lp_maximum_concurrent_workers := maximum_concurrent_workers;
          lp_work_items := finish_item terminal (rs_claims s) <$> btree_values (rs_items s);
          lp_resource_claims := btree_values (rs_claims s);
          lp_closed_final_receipts_digest := rs_closed s;
          lp_authority_effect := "LOCAL_AGENT_COMPUTE_SCHEDULING_ONLY" |}.
