(* ===== verification/SchedulerFacts.v ===== *)
(** * Facts about the scheduler replay

    What the projection of a journal says: which items it lists, when an item
    is ready, and who holds each resource lock. *)
From S2P Require Import Prelude Text External Packet Contract Availability Scheduler.
Local Open Scope string_scope.

(** ** The items of the replay *)

(** What no event changes in an item. *)
Definition static (i : LiveWorkItemV1)
    : string * list string * list string * string * string * string :=
  (li_work_item_id i, li_dependencies i, li_resource_lock_keys i, li_adapter_id i,
   li_adapter_version i, li_provider_model_class i).

Definition derived_only (s : SchedulerStateV1) : bool :=
  match s with ReadyEntryEvaluation | WaitingResource => true | _ => false end.

Lemma apply_adapter_event_static e i : static (apply_adapter_event e i) = static i.
Proof. unfold apply_adapter_event. by destruct (ae_human_question e). Qed.

Lemma apply_item_static e i : static (apply_item e i) = static i.
Proof.
  unfold apply_item. destruct (re_kind e); try done.
  - by rewrite apply_adapter_event_static.
  - unfold apply_disposition. by destruct execution_identity.
Qed.

Lemma apply_adapter_event_state e i :
  li_scheduler_state (apply_adapter_event e i) =
  adapter_event_state (ae_kind e) (li_scheduler_state i).
Proof. unfold apply_adapter_event. by destruct (ae_human_question e). Qed.

Lemma apply_item_not_derived e i :
  derived_only (li_scheduler_state i) = false ->
  derived_only (li_scheduler_state (apply_item e i)) = false.
Proof.
  intros Hi. unfold apply_item. destruct (re_kind e); try done.
  - rewrite apply_adapter_event_state. by destruct (ae_kind event).
  - unfold apply_disposition. by destruct mechanism_state, execution_identity.
Qed.

(** The items of a replay: the packet's, keyed by identifier. *)
Record items_wf (m0 m : gmap string LiveWorkItemV1) : Prop := {
  iw_static : forall k i, m !! k = Some i -> exists i0, m0 !! k = Some i0 /\ static i = static i0;
  iw_dom : forall k, is_Some (m0 !! k) -> is_Some (m !! k);
  iw_state : forall k i, m !! k = Some i -> derived_only (li_scheduler_state i) = false
}.

Lemma apply_event_wf m0 e s :
  items_wf m0 (rs_items s) -> items_wf m0 (rs_items (apply_event e s)).
Proof.
  intros Hwf. unfold apply_event. destruct (re_work_item_id e) as [w|]; [|done].
  destruct (rs_items s !! w) as [i|] eqn:Hi; [|done]. simpl. split.
  - intros k j. rewrite lookup_insert_Some. intros [[<- <-]|[_ Hj]].
    + rewrite apply_item_static. by apply (iw_static _ _ Hwf).
    + by apply (iw_static _ _ Hwf) in Hj.
  - intros k Hk. apply (iw_dom _ _ Hwf) in Hk. rewrite lookup_insert_is_Some'. by right.
  - intros k j. rewrite lookup_insert_Some. intros [[<- <-]|[_ Hj]].
    + by apply apply_item_not_derived, (iw_state _ _ Hwf w).
    + by apply (iw_state _ _ Hwf k).
Qed.

Lemma foldl_invariant {A B} (P : A -> Prop) (f : A -> B -> A) l a :
  (forall a b, P a -> P (f a b)) -> P a -> P (foldl f a l).
Proof. intros Hf. revert a. induction l as [|b l IH]; intros a Ha; simpl; auto. Qed.

Definition run_events (m : gmap string LiveWorkItemV1) (events : list ReplayEvent) : ReplayState :=
  foldl (fun s e => apply_event e s) {| rs_items := m; rs_claims := ∅; rs_closed := None |} events.

Lemma run_events_wf m events :
  (forall k i, m !! k = Some i -> derived_only (li_scheduler_state i) = false) ->
  items_wf m (rs_items (run_events m events)).
Proof.
  intros Hm. unfold run_events. apply (foldl_invariant (fun s => items_wf m (rs_items s))).
  - intros s e. apply apply_event_wf.
  - split; simpl; eauto.
Qed.

(** ** The initial items *)

Section initial.
Context (profile : ExecutionProfileV2).

Lemma initial_item_fields item i :
  initial_item profile item = Some i ->
  li_work_item_id i = wi_id item /\ li_dependencies i = wi_dependencies item /\
  li_active_attempt_id i = None /\ li_scheduler_state i = WaitingDependencies /\
  exists x, ep_work_items profile !! wi_id item = Some x /\
    li_resource_lock_keys i = wx_resource_lock_keys x.
Proof.
  unfold initial_item. intros Hi. simplify_option_eq. repeat split. eauto.
Qed.

Lemma initial_items_snoc items item :
  initial_items profile (items ++ [item]) =
  (m ← initial_items profile items; i ← initial_item profile item;
   Some (<[wi_id item := i]> m : gmap string LiveWorkItemV1)).
Proof. unfold initial_items. by rewrite foldl_snoc. Qed.

Lemma initial_items_lookup items m k :
  initial_items profile items = Some m ->
  (forall i, m !! k = Some i -> exists item, item ∈ items /\ wi_id item = k /\
     initial_item profile item = Some i) /\
  (forall item, item ∈ items -> wi_id item = k -> is_Some (m !! k)).
Proof.
  revert m. induction items as [|item items IH] using rev_ind; intros m.
  { intros [= <-]. split; [done|]. intros item Hin. by apply elem_of_nil in Hin. }
  rewrite initial_items_snoc. intros Hm.
  destruct (initial_items profile items) as [m'|]; simplify_eq/=.
  destruct (initial_item profile item) as [i'|] eqn:Hi'; simplify_eq/=.
  specialize (IH m' eq_refl) as [IH1 IH2]. split.
  - intros i. rewrite lookup_insert_Some. intros [[<- <-]|[_ Hi]].
    + exists item. rewrite elem_of_app, list_elem_of_singleton. auto.
    + apply IH1 in Hi as (x & Hx & ? & ?). exists x. rewrite elem_of_app. auto.
  - intros x. rewrite elem_of_app, list_elem_of_singleton, lookup_insert_is_Some'.
    intros [Hx|Hx] Hk; [right; by eapply IH2|left; congruence].
Qed.
End initial.

(** ** Reading the projection in key order *)

Lemma btree_values_keys {V} (key : V -> string) (m : gmap string V) :
  (forall k v, m !! k = Some v -> key v = k) -> key <$> btree_values m = btree_keys m.
Proof.
  intros Hkey. unfold btree_values, btree_keys. rewrite <- list_fmap_compose.
  apply list_fmap_ext. intros n [k v] Hn. simpl. apply Hkey, elem_of_btree_iter.
  by eapply list_elem_of_lookup_2.
Qed.

#[global] Instance key_le_trans V : Transitive (@key_le V).
Proof. intros [? ?] [? ?] [? ?]. unfold key_le. simpl. apply transitivity. Qed.
#[global] Instance key_le_total V : Total (@key_le V).
Proof. intros [? ?] [? ?]. unfold key_le. simpl. apply (total String.le). Qed.

Lemma btree_keys_sorted {V} (m : gmap string V) : StronglySorted String.le (btree_keys m).
Proof.
  unfold btree_keys. assert (StronglySorted key_le (btree_iter m)) as Hs.
  { apply (StronglySorted_merge_sort key_le). }
  induction Hs as [|[k v] l _ IH Hall]; simpl; constructor; [done|].
  rewrite Forall_fmap. done.
Qed.

(** ** The final pass *)

Lemma finish_item_static t c i : static (finish_item t c i) = static i.
Proof. unfold finish_item. by destruct (awaits _). Qed.

Lemma finish_item_attempt t c i :
  li_active_attempt_id (finish_item t c i) = li_active_attempt_id i.
Proof. unfold finish_item. by destruct (awaits _). Qed.

Lemma finish_item_terminality t c i :
  li_dependency_terminality (finish_item t c i) =
  list_to_map ((fun d => (d, bool_decide (d ∈ t))) <$> li_dependencies i).
Proof. unfold finish_item. by destruct (awaits _). Qed.

Lemma finish_item_state t c i :
  li_scheduler_state (finish_item t c i) =
  if awaits i then derived_state t c i else li_scheduler_state i.
Proof.
  unfold finish_item. change (awaits (with_terminality ?x i)) with (awaits i).
  by destruct (awaits i).
Qed.

Lemma derived_not_terminal t c i : is_explicit_terminal (derived_state t c i) = false.
Proof. unfold derived_state. by repeat case_match. Qed.

Lemma awaits_not_terminal i : awaits i = true -> is_explicit_terminal (li_scheduler_state i) = false.
Proof. unfold awaits. rewrite !andb_true_iff, negb_true_iff. tauto. Qed.

Lemma finish_item_terminal t c i :
  is_explicit_terminal (li_scheduler_state (finish_item t c i)) =
  is_explicit_terminal (li_scheduler_state i).
Proof.
  rewrite finish_item_state. destruct (awaits i) eqn:Ha; [|done].
  by rewrite derived_not_terminal, awaits_not_terminal.
Qed.

Lemma elem_of_terminal_ids (items : gmap string LiveWorkItemV1) d :
  (forall k i, items !! k = Some i -> li_work_item_id i = k) ->
  d ∈ terminal_ids items <->
  exists i, items !! d = Some i /\ is_explicit_terminal (li_scheduler_state i) = true.
Proof.
  intros Hid. unfold terminal_ids. rewrite elem_of_list_to_set, list_elem_of_fmap.
  setoid_rewrite list_elem_of_In. setoid_rewrite filter_In.
  setoid_rewrite <- list_elem_of_In. setoid_rewrite elem_of_btree_values. split.
  - intros (i & -> & (k & Hk) & Ht). rewrite (Hid k i Hk). eauto.
  - intros (i & Hi & Ht). exists i. split; [by rewrite (Hid d i Hi)|eauto].
Qed.

Lemma derived_state_ready t c i :
  derived_state t c i = ReadyEntryEvaluation <->
  (forall d, d ∈ li_dependencies i -> d ∈ t) /\
  (forall key, key ∈ li_resource_lock_keys i -> c !! key = None).
Proof.
  unfold derived_state. split.
  - destruct (forallb _ _) eqn:Hf; [|done]. destruct (existsb _ _) eqn:He; [done|].
    intros _. rewrite forallb_Forall, Forall_forall in Hf.
    rewrite existsb_false_Forall, Forall_forall in He. split.
    + intros d Hd. specialize (Hf d Hd). by apply bool_decide_eq_true in Hf.
    + intros key Hk. specialize (He key Hk). rewrite bool_decide_eq_false in He.
      by apply eq_None_not_Some.
  - intros [Hd Hk].
    rewrite (proj2 (forallb_Forall _ _)) by (apply Forall_forall; intros; by apply bool_decide_eq_true, Hd).
    rewrite (proj2 (existsb_false_Forall _ _)); [done|]. apply Forall_forall. intros key Hkey.
    rewrite bool_decide_eq_false, Hk by done. by intros [].
Qed.

Lemma derived_state_waiting_resource t c i :
  derived_state t c i = WaitingResource <->
  (forall d, d ∈ li_dependencies i -> d ∈ t) /\
  (exists key, key ∈ li_resource_lock_keys i /\ is_Some (c !! key)).
Proof.
  unfold derived_state. split.
  - destruct (forallb _ _) eqn:Hf; [|done]. destruct (existsb _ _) eqn:He; [|done].
    intros _. rewrite forallb_Forall, Forall_forall in Hf.
    apply existsb_true_Exists in He as (key & Hk & Hb). apply bool_decide_eq_true in Hb. split.
    + intros d Hd. specialize (Hf d Hd). by apply bool_decide_eq_true in Hf.
    + eauto.
  - intros [Hd (key & Hk & Hs)].
    rewrite (proj2 (forallb_Forall _ _)) by (apply Forall_forall; intros; by apply bool_decide_eq_true, Hd).
    rewrite (proj2 (existsb_true_Exists _ _)); [done|]. exists key.
    by rewrite bool_decide_eq_true.
Qed.

(** ** Claims *)

(** The event takes the lock [key] for the item [w] and the attempt [a]. *)
Definition takes (e : ReplayEvent) (key w a : string) : Prop :=
  re_work_item_id e = Some w /\ re_attempt_id e = Some a /\
  match re_kind e with
  | ReplayAttemptCreated keys | ReplayProviderResourcesReacquired keys => key ∈ keys
  | _ => False
  end.

(** The event releases the locks of the item [w], or those of its attempt [a]. *)
Definition releases (e : ReplayEvent) (w a : string) : Prop :=
  re_work_item_id e = Some w /\
  match re_kind e with
  | ReplayResourcesReleased => True
  | ReplayProviderResourcesReleased => re_attempt_id e = Some a
  | _ => False
  end.

Definition claim_of (key w a : string) : ResourceClaimV1 :=
  {| cl_resource_lock_key := key; cl_work_item_id := w; cl_attempt_id := a |}.

Lemma take_locks_lookup keys w a c key :
  take_locks keys w a c !! key = if bool_decide (key ∈ keys) then Some (claim_of key w a) else c !! key.
Proof.
  unfold take_locks. revert c. induction keys as [|k keys IH]; intros c; cbn [foldl].
  { rewrite bool_decide_eq_false_2; [done|apply not_elem_of_nil]. }
  rewrite IH. destruct (decide (key = k)) as [->|Hne].
  - rewrite lookup_insert_eq, (bool_decide_eq_true_2 (k ∈ k :: keys)) by left.
    by case_bool_decide.
  - rewrite lookup_insert_ne by done.
    rewrite (bool_decide_ext (key ∈ k :: keys) (key ∈ keys)); [done|].
    rewrite elem_of_cons. naive_solver.
Qed.

(** Whether a state's item is known; events for unknown items are skipped. *)
Definition known (s : ReplayState) (e : ReplayEvent) : Prop :=
  exists w, re_work_item_id e = Some w /\ is_Some (rs_items s !! w).

(** How one event moves one lock. *)
Lemma apply_event_claim e s key w a :
  (forall c, rs_claims s !! key = Some c -> cl_resource_lock_key c = key) ->
  (forall w, re_work_item_id e = Some w -> is_Some (rs_items s !! w)) ->
  rs_claims (apply_event e s) !! key = Some (claim_of key w a) <->
  takes e key w a \/
  (rs_claims s !! key = Some (claim_of key w a) /\ ~ releases e w a /\
   forall w' a', ~ takes e key w' a').
Proof.
  intros Hkey Hknown. unfold apply_event, takes, releases.
  destruct (re_work_item_id e) as [v|] eqn:Hv; [|simpl; naive_solver].
  destruct (Hknown v eq_refl) as [i Hi]. rewrite Hi. simpl. unfold apply_claims.
  destruct (re_kind e) eqn:Hk; try naive_solver.
  - destruct (re_attempt_id e) as [b|]; [|naive_solver].
    rewrite take_locks_lookup. case_bool_decide; unfold claim_of; naive_solver.
  - rewrite map_lookup_filter_Some. simpl. naive_solver.
  - rewrite map_lookup_filter_Some. simpl. split.
    + intros [Hc Hor]. right. split; [done|]. split; [|naive_solver].
      intros [[= ->] Ha]. naive_solver.
    + intros [[_ [_ []]]|(Hc & Hr & _)]. split; [done|]. simpl.
      destruct (decide (w = v)) as [->|]; [|by left]. right. intros Ha. by apply Hr.
  - destruct (re_attempt_id e) as [b|]; [|naive_solver].
    rewrite take_locks_lookup. case_bool_decide; unfold claim_of; naive_solver.
Qed.

Definition claims_keyed (s : ReplayState) : Prop :=
  forall key c, rs_claims s !! key = Some c -> cl_resource_lock_key c = key.

Lemma apply_event_keyed e s : claims_keyed s -> claims_keyed (apply_event e s).
Proof.
  intros Hs. unfold apply_event. destruct (re_work_item_id e) as [w|]; [|done].
  destruct (rs_items s !! w); [|done]. intros key c. simpl. unfold apply_claims.
  destruct (re_kind e); try apply Hs;
    try (destruct (re_attempt_id e) as [b|]; [|apply Hs]; rewrite take_locks_lookup;
         case_bool_decide; [by intros [= <-]|apply Hs]);
    rewrite map_lookup_filter_Some; intros [Hc _]; by apply Hs.
Qed.

Lemma run_events_keyed m events : claims_keyed (run_events m events).
Proof.
  apply (foldl_invariant claims_keyed); [|done]. intros s e. apply apply_event_keyed.
Qed.

Lemma run_events_snoc m events e :
  run_events m (events ++ [e]) = apply_event e (run_events m events).
Proof. unfold run_events. by rewrite foldl_snoc. Qed.

(** A lock's holder: the last event that took it, if no release came after. *)
Definition holds_after (events : list ReplayEvent) (key w a : string) : Prop :=
  exists before e after, events = (before ++ e :: after)%list /\ takes e key w a /\
    Forall (fun e' => ~ releases e' w a /\ forall w' a', ~ takes e' key w' a') after.

Lemma holds_after_snoc events e key w a :
  holds_after (events ++ [e]) key w a <->
  takes e key w a \/
  (holds_after events key w a /\ ~ releases e w a /\ forall w' a', ~ takes e key w' a').
Proof.
  split.
  - intros (before & e0 & after & Heq & Ht & Hall).
    destruct after as [|e1 after _] using rev_ind.
    + apply app_inj_tail in Heq as [_ ->]. by left.
    + rewrite app_comm_cons, app_assoc in Heq. apply app_inj_tail in Heq as [-> <-].
      apply Forall_app in Hall as [Hall Hlast]. rewrite Forall_singleton in Hlast.
      right. split; [|done]. by exists before, e0, after.
  - intros [Ht|((before & e0 & after & -> & Ht & Hall) & Hlast)].
    + exists events, e, []. split; [done|]. split; [done|constructor].
    + exists before, e0, (after ++ [e])%list. rewrite <- app_assoc. split; [done|].
      split; [done|]. rewrite Forall_app, Forall_singleton. done.
Qed.

Lemma run_events_claims m events key w a :
  (forall k i, m !! k = Some i -> derived_only (li_scheduler_state i) = false) ->
  Forall (fun e => forall v, re_work_item_id e = Some v -> is_Some (m !! v)) events ->
  rs_claims (run_events m events) !! key = Some (claim_of key w a) <->
  holds_after events key w a.
Proof.
  intros Hm. induction events as [|e events IH] using rev_ind; intros Hk.
  { split; [intros Hc; cbn in Hc; by rewrite lookup_empty in Hc|]. intros (before & e & after & Heq & _).
    by destruct before. }
  apply Forall_app in Hk as [Hk He]. rewrite Forall_singleton in He.
  rewrite run_events_snoc, holds_after_snoc, <- IH by done. apply apply_event_claim.
  - intros c. apply run_events_keyed.
  - intros v Hv. apply (iw_dom _ _ (run_events_wf m events Hm)). by apply He.
Qed.

(** ** Projections *)

Section projection.
Context {packet : NightshiftPacketV1} {run_id admission_digest : string}
{profile : ExecutionProfileV2} {maximum : N} {events : list ReplayEvent}
{p : LiveRunProjectionV1}.
Context (Hreplay : replay packet run_id admission_digest profile maximum events = Some p).

(** What [replay] folded before its final pass. *)
Lemma replay_inv :
  exists m, initial_items profile (pk_work_items packet) = Some m /\
    let s := run_events m events in
    (forall k i, m !! k = Some i -> li_work_item_id i = k) /\
    (forall k i, m !! k = Some i -> li_scheduler_state i = WaitingDependencies) /\
    items_wf m (rs_items s) /\
    (forall k i, rs_items s !! k = Some i -> li_work_item_id i = k) /\
    lp_work_items p =
      finish_item (terminal_ids (rs_items s)) (rs_claims s) <$> btree_values (rs_items s) /\
    lp_resource_claims p = btree_values (rs_claims s).
Proof.
  pose proof Hreplay as Hr. unfold replay in Hr.
  destruct (initial_items profile (pk_work_items packet)) as [m|] eqn:Hm; simplify_eq/=.
  exists m. split; [done|]. set (s := run_events m events).
  assert (forall k i, m !! k = Some i ->
            li_work_item_id i = k /\ li_scheduler_state i = WaitingDependencies) as Hinit.
  { intros k i Hi. apply (proj1 (initial_items_lookup _ _ _ _ Hm)) in Hi
      as (item & _ & <- & Hi). by apply initial_item_fields in Hi as (? & _ & _ & ? & _). }
  assert (items_wf m (rs_items s)) as Hwf.
  { apply run_events_wf. intros k i Hi. by rewrite (proj2 (Hinit k i Hi)). }
  split; [intros k i Hi; apply (Hinit k i Hi)|].
  split; [intros k i Hi; apply (Hinit k i Hi)|]. split; [done|].
  split; [|done]. intros k i Hi. apply (iw_static _ _ Hwf) in Hi as (i0 & Hi0 & Hs).
  apply (f_equal (fun t => t.1.1.1.1.1)) in Hs. simpl in Hs. rewrite Hs. by apply Hinit.
Qed.

Lemma elem_of_lp_work_items s j :
  lp_work_items p =
    finish_item (terminal_ids (rs_items s)) (rs_claims s) <$> btree_values (rs_items s) ->
  j ∈ lp_work_items p <->
  exists k i, rs_items s !! k = Some i /\
    j = finish_item (terminal_ids (rs_items s)) (rs_claims s) i.
Proof.
  intros ->. rewrite list_elem_of_fmap. setoid_rewrite elem_of_btree_values. naive_solver.
Qed.
End projection.

Definition terminal_in (items : list LiveWorkItemV1) (d : string) : Prop :=
  exists j, j ∈ items /\ li_work_item_id j = d /\
    is_explicit_terminal (li_scheduler_state j) = true.

Definition lock_held (cs : list ResourceClaimV1) (key : string) : Prop :=
  exists c, c ∈ cs /\ cl_resource_lock_key c = key.

(** No attempt was ever created and no terminal or mechanism verdict stands. *)
Definition idle (i : LiveWorkItemV1) : Prop :=
  li_active_attempt_id i = None /\
  match li_scheduler_state i with
  | TerminalReceiptAccepted | NotStarted | TerminalReceiptRefused
  | IndeterminateMechanismState => False
  | _ => True
  end.

Lemma awaits_idle t c i : awaits i = true <-> idle (finish_item t c i).
Proof.
  unfold idle. rewrite finish_item_attempt, finish_item_state.
  destruct (awaits i) eqn:Ha.
  - split; [intros _|done]. unfold awaits in Ha. rewrite !andb_true_iff in Ha.
    destruct (li_active_attempt_id i); [naive_solver|]. split; [done|].
    unfold derived_state. by repeat case_match.
  - split; [done|]. intros [Hn Hs]. exfalso. unfold awaits in Ha. rewrite Hn in Ha.
    by destruct (li_scheduler_state i).
Qed.

Lemma finish_item_id t c i : li_work_item_id (finish_item t c i) = li_work_item_id i.
Proof. exact (f_equal (fun s => s.1.1.1.1.1) (finish_item_static t c i)). Qed.
Lemma finish_item_dependencies t c i :
  li_dependencies (finish_item t c i) = li_dependencies i.
Proof. exact (f_equal (fun s => s.1.1.1.1.2) (finish_item_static t c i)). Qed.
Lemma finish_item_locks t c i :
  li_resource_lock_keys (finish_item t c i) = li_resource_lock_keys i.
Proof. exact (f_equal (fun s => s.1.1.1.2) (finish_item_static t c i)). Qed.

(** The projection as the final pass over items that hold no derived state. *)
Lemma replay_view packet run_id admission_digest profile maximum events p :
  replay packet run_id admission_digest profile maximum events = Some p ->
  exists (t : gset string) (c : claims),
    (forall d, d ∈ t <-> terminal_in (lp_work_items p) d) /\
    (forall key, is_Some (c !! key) <-> lock_held (lp_resource_claims p) key) /\
    forall j, j ∈ lp_work_items p ->
      exists i, j = finish_item t c i /\ derived_only (li_scheduler_state i) = false.
Proof.
  intros Hr. destruct (replay_inv Hr) as (m & _ & _ & _ & Hwf & Hid & Hitems & Hclaims).
  pose proof (run_events_keyed m events) as Hkeyed. set (s := run_events m events) in *.
  pose proof (fun j => elem_of_lp_work_items (p := p) s j Hitems) as Hel.
  exists (terminal_ids (rs_items s)), (rs_claims s). repeat split.
  - rewrite elem_of_terminal_ids by done. intros (j & Hj & Ht).
    exists (finish_item (terminal_ids (rs_items s)) (rs_claims s) j).
    rewrite Hel, finish_item_terminal, finish_item_id. split; [eauto|]. by rewrite (Hid d j).
  - rewrite elem_of_terminal_ids by done. intros (j & Hj & Hjd & Ht).
    apply Hel in Hj as (k & j0 & Hj0 & ->). rewrite finish_item_terminal in Ht.
    rewrite finish_item_id, (Hid k j0 Hj0) in Hjd. subst k. eauto.
  - intros [c Hc]. exists c. rewrite Hclaims, elem_of_btree_values.
    split; [by exists key|by apply Hkeyed].
  - intros (c & Hc & Hck). rewrite Hclaims in Hc. apply elem_of_btree_values in Hc as [k Hk].
    rewrite (Hkeyed k c Hk) in Hck. subst k. by exists c.
  - intros j Hj. apply Hel in Hj as (k & i & Hi & ->). exists i. split; [done|].
    by apply (iw_state _ _ Hwf k).
Qed.

(** Every packet item is projected, and every projected item is a packet item. *)
Lemma replay_item_ids packet run_id admission_digest profile maximum events p k :
  replay packet run_id admission_digest profile maximum events = Some p ->
  k ∈ li_work_item_id <$> lp_work_items p <-> k ∈ wi_id <$> pk_work_items packet.
Proof.
  intros Hr. destruct (replay_inv Hr) as (m & Hm & _ & _ & Hwf & Hid & Hitems & _).
  set (s := run_events m events) in *.
  destruct (initial_items_lookup _ _ _ k Hm) as [H1 H2].
  assert (k ∈ li_work_item_id <$> lp_work_items p <-> is_Some (rs_items s !! k)) as ->.
  { rewrite Hitems, <- list_fmap_compose, list_elem_of_fmap. unfold compose.
    setoid_rewrite finish_item_id. setoid_rewrite elem_of_btree_values. split.
    - intros (i & -> & k' & Hi). rewrite (Hid k' i Hi). by eexists.
    - intros [i Hi]. exists i. rewrite (Hid k i Hi). eauto. }
  rewrite list_elem_of_fmap. split.
  - intros [i Hi]. apply (iw_static _ _ Hwf) in Hi as (i0 & Hi0 & _).
    apply H1 in Hi0 as (item & ? & <- & _). eauto.
  - intros (item & -> & Hin). apply (iw_dom _ _ Hwf). by eapply H2.
Qed.

Lemma replay_item_source packet run_id admission_digest profile maximum events p :
  replay packet run_id admission_digest profile maximum events = Some p ->
  Forall (fun i => exists item x, item ∈ pk_work_items packet /\
      wi_id item = li_work_item_id i /\ wi_dependencies item = li_dependencies i /\
      ep_work_items profile !! wi_id item = Some x /\
      wx_resource_lock_keys x = li_resource_lock_keys i) (lp_work_items p).
Proof.
  intros Hr. destruct (replay_inv Hr) as (m & Hm & _ & _ & Hwf & _ & Hitems & _).
  rewrite Hitems, Forall_fmap. apply Forall_forall. intros i Hi.
  apply elem_of_btree_values in Hi as [k Hi].
  apply (iw_static _ _ Hwf) in Hi as (i0 & Hi0 & Hs).
  apply (proj1 (initial_items_lookup _ _ _ _ Hm)) in Hi0 as (item & Hx & <- & Hi0).
  apply initial_item_fields in Hi0 as (Hid0 & Hd0 & _ & _ & x & Hxx & Hl0).
  unfold compose. rewrite finish_item_id, finish_item_dependencies, finish_item_locks.
  unfold static in Hs. injection Hs as -> -> -> _ _ _. by exists item, x.
Qed.

(** An idle item whose dependencies are terminal waits for nothing but a lock. *)
Lemma replay_idle packet run_id admission_digest profile maximum events p i :
  replay packet run_id admission_digest profile maximum events = Some p ->
  i ∈ lp_work_items p -> idle i ->
  (forall d, d ∈ li_dependencies i -> terminal_in (lp_work_items p) d) ->
  li_scheduler_state i = ReadyEntryEvaluation \/
  exists key, key ∈ li_resource_lock_keys i /\ lock_held (lp_resource_claims p) key.
Proof.
  intros Hr Hin Hidle. destruct (replay_view _ _ _ _ _ _ _ Hr) as (t & c & Ht & Hc & Hview).
  destruct (Hview i Hin) as (i0 & -> & _). rewrite <- awaits_idle in Hidle.
  rewrite finish_item_state, finish_item_dependencies, finish_item_locks, Hidle.
  setoid_rewrite <- Ht. setoid_rewrite <- Hc. intros Hd.
  destruct (existsb (fun key => bool_decide (is_Some (c !! key))) (li_resource_lock_keys i0))
    eqn:Hl.
  - right. apply existsb_exists in Hl as (key & Hk & Hs%bool_decide_eq_true).
    exists key. by rewrite list_elem_of_In.
  - left. apply derived_state_ready. split; [done|]. intros key Hk.
    rewrite existsb_false_Forall, Forall_forall in Hl. specialize (Hl key Hk).
    rewrite bool_decide_eq_false in Hl. by apply eq_None_not_Some.
Qed.

(** ** Properties *)

(** The projection lists exactly the packet's items, once each and in ascending
    identifier order, whatever the journal holds; each carries the dependencies of
    a packet item and the lock keys the profile gives it. *)
Theorem replay_items packet run_id admission_digest profile maximum events p :
  replay packet run_id admission_digest profile maximum events = Some p ->
  StronglySorted String.le (li_work_item_id <$> lp_work_items p) /\
  NoDup (li_work_item_id <$> lp_work_items p) /\
  (forall id, id ∈ li_work_item_id <$> lp_work_items p <->
     id ∈ wi_id <$> pk_work_items packet) /\
  Forall (fun i => exists item x, item ∈ pk_work_items packet /\
      wi_id item = li_work_item_id i /\ wi_dependencies item = li_dependencies i /\
      ep_work_items profile !! wi_id item = Some x /\
      wx_resource_lock_keys x = li_resource_lock_keys i) (lp_work_items p).
Proof.
  intros Hr. destruct (replay_inv Hr) as (m & _ & _ & _ & _ & Hid & Hitems & _).
  assert (li_work_item_id <$> lp_work_items p = btree_keys (rs_items (run_events m events))) as Hkeys.
  { rewrite Hitems, <- (btree_values_keys li_work_item_id) by done.
    rewrite <- list_fmap_compose. apply list_fmap_ext. intros n i _. apply finish_item_id. }
  split; [rewrite Hkeys; apply btree_keys_sorted|]. split; [rewrite Hkeys; apply btree_keys_NoDup|].
  split; [intros k; by eapply replay_item_ids|by eapply replay_item_source].
Qed.

(** C10: an item of the projection is ready for entry evaluation exactly when it has
    no attempt and no verdict, every dependency is an explicitly terminal item of
    the projection, and none of its resource locks is claimed; it waits for a
    resource exactly when only the last condition fails. *)
Theorem replay_ready packet run_id admission_digest profile maximum events p i :
  replay packet run_id admission_digest profile maximum events = Some p ->
  i ∈ lp_work_items p ->
  let dependencies_terminal :=
    forall d, d ∈ li_dependencies i -> terminal_in (lp_work_items p) d in
  let locks_free :=
    forall key, key ∈ li_resource_lock_keys i -> ~ lock_held (lp_resource_claims p) key in
  (li_scheduler_state i = ReadyEntryEvaluation <->
     idle i /\ dependencies_terminal /\ locks_free) /\
  (li_scheduler_state i = WaitingResource <->
     idle i /\ dependencies_terminal /\
     exists key, key ∈ li_resource_lock_keys i /\ lock_held (lp_resource_claims p) key).
Proof.
  intros Hr Hin deps locks. destruct (replay_view _ _ _ _ _ _ _ Hr) as (t & c & Ht & Hc & Hview).
  destruct (Hview i Hin) as (i0 & -> & Hnd). rewrite <- awaits_idle, finish_item_state.
  subst deps locks. rewrite finish_item_dependencies, finish_item_locks.
  setoid_rewrite <- Ht. setoid_rewrite <- Hc. setoid_rewrite <- eq_None_not_Some.
  destruct (awaits i0).
  - rewrite derived_state_ready, derived_state_waiting_resource. tauto.
  - split; (split; [intros Hst; by rewrite Hst in Hnd|by intros []]).
Qed.

(** The dependency map of an item has its dependencies as keys and tells of each
    whether it is an explicitly terminal item of the projection. *)
Theorem replay_dependency_terminality packet run_id admission_digest profile maximum events p i d b :
  replay packet run_id admission_digest profile maximum events = Some p ->
  i ∈ lp_work_items p ->
  li_dependency_terminality i !! d = Some b <->
  d ∈ li_dependencies i /\ (b = true <-> terminal_in (lp_work_items p) d).
Proof.
  intros Hr Hin. destruct (replay_view _ _ _ _ _ _ _ Hr) as (t & c & Ht & _ & Hview).
  destruct (Hview i Hin) as (i0 & -> & _).
  rewrite finish_item_terminality, finish_item_dependencies, <- Ht.
  generalize (li_dependencies i0). intros l. induction l as [|x l IH]; simpl.
  { rewrite lookup_empty, elem_of_nil. naive_solver. }
  rewrite elem_of_cons. destruct (decide (d = x)) as [->|Hne].
  - rewrite lookup_insert_eq. case_bool_decide; destruct b; naive_solver.
  - rewrite lookup_insert_ne by done. rewrite IH. naive_solver.
Qed.

(** C12: when every event of the journal belongs to a packet item or to the whole run,
    an item's attempt holds a lock in the projection exactly when it was the last
    to take it and nothing released it since; the listed locks are distinct. *)
Theorem replay_claims packet run_id admission_digest profile maximum events p key w a :
  replay packet run_id admission_digest profile maximum events = Some p ->
  Forall (fun e => forall v, re_work_item_id e = Some v -> v ∈ wi_id <$> pk_work_items packet)
    events ->
  (claim_of key w a ∈ lp_resource_claims p <-> holds_after events key w a) /\
  NoDup (cl_resource_lock_key <$> lp_resource_claims p).
Proof.
  intros Hr Hev. destruct (replay_inv Hr) as (m & Hm & _ & Hst & _ & _ & _ & Hclaims).
  pose proof (run_events_keyed m events) as Hkeyed. rewrite Hclaims. split.
  - rewrite <- (run_events_claims m events).
    + rewrite elem_of_btree_values. split; [|eauto]. intros [k Hk].
      pose proof (Hkeyed k _ Hk) as Heq. by simplify_eq/=.
    + intros k i Hi. by rewrite (Hst k i Hi).
    + eapply Forall_impl; [exact Hev|]. intros e He v Hv.
      apply He, list_elem_of_fmap in Hv as (item & -> & Hin).
      by apply (proj2 (initial_items_lookup _ _ _ _ Hm) item).
  - rewrite (btree_values_keys cl_resource_lock_key) by apply Hkeyed. apply btree_keys_NoDup.
Qed.
