(* ===== verification/Prelaunch.v ===== *)
(** * Pre-launch closure (crates/nightshift-foreman/src/prelaunch.rs)

    The record by which a local supervisor reports that a prepared worker never
    reached its provider, its closed validation, and its binding to the exact
    prepared request, dispatch and worker brief. *)
From S2P Require Import Prelude Text External Contract Availability.
Local Open Scope string_scope.

Definition PRELAUNCH_CLOSURE_SCHEMA : string := "switchyard.provider-prelaunch-closure/v1".
Definition PRELAUNCH_CLOSURE_DOMAIN : string :=
  "switchyard.provider-prelaunch-closure.digest/v1" +:+ NUL.

Record PrelaunchBindingV1 := {
  pb_packet_digest : string;
  pb_run_id : string;
  pb_work_item_id : string;
  pb_work_attempt_id : string;
  pb_dispatch_occurrence_id : string;
  pb_adapter_process_occurrence_id : string;
  pb_request_digest : string;
  pb_request_sha256 : string;
  pb_worker_brief_digest : string;
  pb_brief_sha256 : string;
  pb_backend_sha256 : string;
  pb_dispatch_digest : string;
  pb_dispatch_sha256 : string;
  pb_switchyard_owner_head : string;
  pb_codex_owner_head : string
}.

Record PrelaunchSupervisorAttestationV1 := {
  pa_schema : string;
  pa_binding : PrelaunchBindingV1;
  pa_supervisor_identity : string;
  pa_host : string;
  pa_unit : string;
  pa_invocation_id : string;
  pa_active_state : string;
  pa_result : string;
  pa_exit_code : N;
  pa_observed_at : instant;
  pa_original_runner_sha256 : string;
  pa_unit_evidence_sha256 : string;
  pa_failure_evidence_sha256 : string;
  pa_boundary : string;
  pa_original_producer_terminated : bool;
  pa_alternate_writers_excluded : bool;
  pa_trust_basis : string
}.

Record PrelaunchClosureV1 := {
  pc_schema : string;
  pc_closure_digest : string;
  pc_binding : PrelaunchBindingV1;
  pc_closed_at : instant;
  pc_evidence_mode : string;
  pc_failure_code : string;
  pc_supervisor_attestation : option PrelaunchSupervisorAttestationV1;
  pc_observer_source_head : string;
  pc_observer_runner_sha256 : string;
  pc_state : string;
  pc_provider_claim_absent : bool;
  pc_backend_started : bool;
  pc_authority_effect : string
}.

#[global] Instance PrelaunchBindingV1_eq_dec : EqDecision PrelaunchBindingV1.
Proof. solve_decision. Defined.
#[global] Instance PrelaunchSupervisorAttestationV1_eq_dec : EqDecision PrelaunchSupervisorAttestationV1.
Proof. solve_decision. Defined.
#[global] Instance PrelaunchClosureV1_eq_dec : EqDecision PrelaunchClosureV1.
Proof. solve_decision. Defined.

(** ** Text tests of the record *)

Definition hexadecimal (v : string) (len : N) : bool :=
  (strlen v =? len)%N && bytes_all lower_hex_byte v.

Definition prelaunch_is_digest (v : string) : bool :=
  match strip_prefix v "sha256:" with Some v => hexadecimal v 64 | None => false end.

(** [value.is_empty() || value.len() > 256 || value.chars().any(char::is_control)]. *)
Definition refused_identity (v : string) : bool :=
  str_is_empty v || (256 <? strlen v)%N || has_control v.

(** ** Validation *)

Section closure.
Context {HO : Host} {SPc : Serde PrelaunchClosureV1}
{SS3 : Serde WorkerStartRequestV3} {SDi : Serde ProviderDispatchOccurrenceV1}.

Definition prelaunch_refusal : ContractError := InvalidField "local prelaunch closure".

Definition attestation_refused (c : PrelaunchClosureV1) (proof : PrelaunchSupervisorAttestationV1)
    : bool :=
  negb (String.eqb (pa_schema proof) "switchyard.prelaunch-supervisor-attestation/v1")
  || negb (bool_decide (pa_binding proof = pc_binding c))
  || negb (existsb (String.eqb (pa_active_state proof)) ["inactive"; "failed"])
  || negb (String.eqb (pa_result proof) "exit-code")
  || (pa_exit_code proof =? 0)%N
  || negb (String.eqb (pa_boundary proof) "BEFORE_PROVIDER_CLAIM")
  || negb (pa_original_producer_terminated proof)
  || negb (pa_alternate_writers_excluded proof)
  || negb (String.eqb (pa_trust_basis proof) "OWNER_ATTESTATION_NOT_INDEPENDENT_PROCESS_PROOF")
  || (pc_closed_at c <? pa_observed_at proof)%Z
  || negb (hexadecimal (pa_invocation_id proof) 32)
  || negb (prelaunch_is_digest (pa_original_runner_sha256 proof))
  || negb (prelaunch_is_digest (pa_unit_evidence_sha256 proof))
  || negb (prelaunch_is_digest (pa_failure_evidence_sha256 proof)).

Definition check_evidence_mode (c : PrelaunchClosureV1) : result ContractError unit :=
  match pc_supervisor_attestation c with
  | None =>
      reject (negb (String.eqb (pc_evidence_mode c) "OBSERVED_CAPTURE_FAILURE"
                    && String.eqb (pc_failure_code c) "EXECUTABLE_CAPTURE_FAILED"))
        prelaunch_refusal
  | Some proof =>
      reject (negb (String.eqb (pc_evidence_mode c) "SUPERVISOR_ATTESTED_PRECLAIM_FAILURE"))
        prelaunch_refusal ;?
      reject (attestation_refused c proof) prelaunch_refusal ;?
      for_each (fun v => reject (refused_identity v) prelaunch_refusal)
        [pa_supervisor_identity proof; pa_host proof; pa_unit proof]
  end.

Definition prelaunch_validate (c : PrelaunchClosureV1) : result ContractError unit :=
  let b := pc_binding c in
  reject (negb (String.eqb (pc_schema c) PRELAUNCH_CLOSURE_SCHEMA)
          || negb (String.eqb (pc_state c) "PRELAUNCH_CLOSED")
          || negb (existsb (String.eqb (pc_failure_code c))
                     ["EXECUTABLE_CAPTURE_FAILED"; "REQUEST_PREFLIGHT_FAILED"])
          || negb (pc_provider_claim_absent c)
          || pc_backend_started c
          || negb (String.eqb (pc_authority_effect c) "LOCAL_PRELAUNCH_CLOSURE_ONLY")
          || negb (hexadecimal (pc_observer_source_head c) 40)
          || negb (prelaunch_is_digest (pc_observer_runner_sha256 c))
          || negb (hexadecimal (pb_switchyard_owner_head b) 40)
          || negb (hexadecimal (pb_codex_owner_head b) 40))
    prelaunch_refusal ;?
  for_each (fun v => reject (negb (prelaunch_is_digest v)) prelaunch_refusal)
    [pb_packet_digest b; pb_request_digest b; pb_request_sha256 b; pb_worker_brief_digest b;
     pb_brief_sha256 b; pb_backend_sha256 b; pb_dispatch_digest b; pb_dispatch_sha256 b] ;?
  for_each (fun v => reject (refused_identity v) prelaunch_refusal)
    [pb_run_id b; pb_work_item_id b; pb_work_attempt_id b; pb_dispatch_occurrence_id b;
     pb_adapter_process_occurrence_id b] ;?
  check_evidence_mode c ;?
  let? basis := map_err Json (to_value c) in
  match basis with
  | Object kvs =>
      let? raw := map_err Json (jcs_value (Object (object_remove "closure_digest" kvs))) in
      reject (negb (String.eqb (plain_sha256 (PRELAUNCH_CLOSURE_DOMAIN +:+ raw))
                      (pc_closure_digest c)))
        (DigestMismatch "closure_digest")
  | _ => Err prelaunch_refusal
  end.

Definition prelaunch_from_slice (raw : string) : result ContractError PrelaunchClosureV1 :=
  reject (32 * 1024 <? strlen raw)%N (InvalidField "prelaunch closure size") ;?
  let raw := strip_newline raw in
  let? c := map_err Json (from_slice raw) in
  let? canonical := map_err Json (to_vec c) in
  reject (negb (String.eqb canonical raw)) (InvalidField "canonical prelaunch closure") ;?
  prelaunch_validate c ;?
  Ok c.

(** The closure names exactly this request, this dispatch and this brief. *)
Definition prepared_mismatch (c : PrelaunchClosureV1) (request : WorkerStartRequestV3)
    (dispatch : ProviderDispatchOccurrenceV1) (request_raw dispatch_raw brief : string) : bool :=
  let b := pc_binding c in
  negb (String.eqb (pb_packet_digest b) (s3_packet_digest request))
  || negb (String.eqb (pb_run_id b) (s3_run_id request))
  || negb (String.eqb (pb_work_item_id b) (s3_work_item_id request))
  || negb (String.eqb (pb_work_attempt_id b) (s3_work_attempt_id request))
  || negb (String.eqb (pb_dispatch_occurrence_id b) (s3_dispatch_occurrence_id request))
  || negb (String.eqb (pb_adapter_process_occurrence_id b)
             (di_adapter_process_occurrence_id dispatch))
  || negb (String.eqb (pb_request_digest b) (s3_request_digest request))
  || negb (String.eqb (pb_request_sha256 b) (plain_sha256 request_raw))
  || negb (String.eqb (pb_worker_brief_digest b) (s3_worker_brief_digest request))
  || negb (String.eqb (pb_brief_sha256 b) (plain_sha256 brief))
  || negb (String.eqb (pb_dispatch_digest b) (di_dispatch_digest dispatch))
  || negb (String.eqb (pb_dispatch_sha256 b) (plain_sha256 dispatch_raw))
  || negb (String.eqb (pb_switchyard_owner_head b) (s3_switchyard_owner_head request))
  || negb (String.eqb (pb_codex_owner_head b) (s3_codex_owner_head request))
  || (pc_closed_at c <? di_opened_at dispatch)%Z.

Definition validate_prepared (c : PrelaunchClosureV1) (request : WorkerStartRequestV3)
    (dispatch : ProviderDispatchOccurrenceV1) (brief : string) : result ContractError unit :=
  prelaunch_validate c ;?
  let? request_value := map_err Json (to_value request) in
  let? request_raw := map_err Json (jcs_value request_value) in
  let? dispatch_value := map_err Json (to_value dispatch) in
  let? dispatch_raw := map_err Json (jcs_value dispatch_value) in
  reject (prepared_mismatch c request dispatch request_raw dispatch_raw brief)
    (InvalidField "prelaunch prepared dispatch binding").
End closure.
