(* ===== verification/Bootstrap.v ===== *)
(** * Self-hosted bootstrap (crates/nightshift-foreman/src/bootstrap.rs)

    The record that hands a run to the durable foreman, the graph of inputs it
    is admitted with, and the driver steps recorded under it. *)
From S2P Require Import Prelude Text External Packet Capacity Contract Availability.
Local Open Scope string_scope.

Definition SELF_HOSTED_FOREMAN_BOOTSTRAP_SCHEMA_V1 : string :=
  "nightshift.self-hosted-foreman-bootstrap/v1".
Definition SELF_HOSTED_FOREMAN_DRIVER_STEP_SCHEMA_V1 : string :=
  "nightshift.self-hosted-foreman-driver-step/v1".
Definition SELF_HOSTED_FOREMAN_BOOTSTRAP_DIGEST_PREIMAGE_V1 : string :=
  "domain prefix nightshift.self-hosted-foreman-bootstrap.digest/v1 NUL, then the bootstrap object with bootstrap_digest omitted as RFC8785-JCS".
Definition SECOND_WATCH_CANONICAL_SLUG : string := "nightshift-self-hosted-foreman-bootstrap-v1".
Definition SECOND_WATCH_HOLDING_RESULT_HEAD : string := "0dff82fa3522e59a6ce8e8161f6aed92cbacc061".
Definition SECOND_WATCH_HOLDING_QUALIFIED_SUBJECT : string :=
  "57c165fb246a530bc9448afbe3a26c17a5118ebd".
Definition SECOND_WATCH_DURABLE_ROADMAP_HEAD : string :=
  "70e3b734e979173ae552efb322b48bf7fb0c028b".
Definition SECOND_WATCH_MIDNIGHT_RESULT_HEAD : string :=
  "6160a7fac9845aaefefbc11847e55786b35749e6".
Definition SECOND_WATCH_SILICON_RESULT_HEAD : string :=
  "f6e95c8a51982a9381c27c4792c8d9fd6f1daf47".
Definition SECOND_WATCH_PREDECESSOR_V2_PACKET_DIGEST : string :=
  "sha256:1df7f47bb3ea70d0f987e756f34aaa62f7187a659ef0bcc8d7c8aa2e645431fc".
Definition BOOTSTRAP_DOMAIN : string :=
  "nightshift.self-hosted-foreman-bootstrap.digest/v1" +:+ NUL.
Definition DRIVER_STEP_DOMAIN : string :=
  "nightshift.self-hosted-foreman-driver-step.digest/v1" +:+ NUL.

Record SelfHostedForemanBootstrapV1 := {
  sb_schema : string;
  sb_bootstrap_digest : string;
  sb_digest_preimage : string;
  sb_campaign_codename : string;
  sb_canonical_slug : string;
  sb_track : string;
  sb_holding_result_head : string;
  sb_holding_qualified_subject : string;
  sb_durable_roadmap_head : string;
  sb_midnight_result_head : string;
  sb_silicon_result_head : string;
  sb_codex_owner_head : string;
  sb_switchyard_owner_head : string;
  sb_bootstrap_occurrence_id : string;
  sb_run_id : string;
  sb_packet_id : string;
  sb_packet_digest : string;
  sb_predecessor_v2_packet_digest : string;
  sb_admission_digest : string;
  sb_profile_digest : string;
  sb_capacity_requirement_digest : string;
  sb_capacity_policy_digest : string;
  sb_execution_availability_requirement_digest : string;
  sb_execution_availability_policy_digest : string;
  sb_local_runtime_identity : string;
  sb_evaluated_at : instant;
  sb_expected_work_item_count : N;
  sb_initially_runnable_lane_count : N;
  sb_presentation_only_question_work_item_id : string;
  sb_maximum_driver_steps : N;
  sb_maximum_wall_seconds : N;
  sb_bootstrap_depth : N;
  sb_parent_bootstrap_occurrence_id : option string;
  sb_scheduler_owner : string;
  sb_worker_adapter_mode : string;
  sb_wake_source_policy : string;
  sb_closeout_policy : string;
  sb_authority_effect : string;
  sb_target_effects_authorized : bool;
  sb_approval_response_authorized : bool;
  sb_protected_effect_authorized : bool;
  sb_semantic_retry_authorized : bool;
  sb_bootstrap_may_nest : bool;
  sb_worker_may_invoke_bootstrap : bool;
  sb_outer_conversation_scheduler : bool;
  sb_timer_or_service_activation_authorized : bool;
  sb_production_activation_authorized : bool;
  sb_aggregate_result_created : bool
}.

Inductive SelfHostedDriverDispositionV1 :=
| ReadyWorkPresent
| WaitingForExactOwnerEvidence
| AllItemsExplicitTerminal
| BoundReached.

Record SelfHostedForemanDriverStepV1 := {
  sd_schema : string;
  sd_step_digest : string;
  sd_bootstrap_digest : string;
  sd_bootstrap_occurrence_id : string;
  sd_run_id : string;
  sd_step_ordinal : N;
  sd_scheduler_process_occurrence_id : string;
  sd_observed_projection_digest : string;
  sd_disposition : SelfHostedDriverDispositionV1;
  sd_recorded_at : instant;
  sd_worker_dispatch_authorized : bool;
  sd_approval_response_authorized : bool;
  sd_protected_effect_authorized : bool;
  sd_semantic_retry_authorized : bool;
  sd_aggregate_result_created : bool
}.

Definition set_bootstrap_digest (d : string) (r : SelfHostedForemanBootstrapV1) : SelfHostedForemanBootstrapV1 :=
  {| sb_schema := sb_schema r; sb_bootstrap_digest := d;
     sb_digest_preimage := sb_digest_preimage r;
     sb_campaign_codename := sb_campaign_codename r;
     sb_canonical_slug := sb_canonical_slug r; sb_track := sb_track r;
     sb_holding_result_head := sb_holding_result_head r;
     sb_holding_qualified_subject := sb_holding_qualified_subject r;
     sb_durable_roadmap_head := sb_durable_roadmap_head r;
     sb_midnight_result_head := sb_midnight_result_head r;
     sb_silicon_result_head := sb_silicon_result_head r;
     sb_codex_owner_head := sb_codex_owner_head r;
     sb_switchyard_owner_head := sb_switchyard_owner_head r;
     sb_bootstrap_occurrence_id := sb_bootstrap_occurrence_id r; sb_run_id := sb_run_id r;
     sb_packet_id := sb_packet_id r; sb_packet_digest := sb_packet_digest r;
     sb_predecessor_v2_packet_digest := sb_predecessor_v2_packet_digest r;
     sb_admission_digest := sb_admission_digest r; sb_profile_digest := sb_profile_digest r;
     sb_capacity_requirement_digest := sb_capacity_requirement_digest r;
     sb_capacity_policy_digest := sb_capacity_policy_digest r;
     sb_execution_availability_requirement_digest := sb_execution_availability_requirement_digest r;
     sb_execution_availability_policy_digest := sb_execution_availability_policy_digest r;
     sb_local_runtime_identity := sb_local_runtime_identity r;
     sb_evaluated_at := sb_evaluated_at r;
     sb_expected_work_item_count := sb_expected_work_item_count r;
     sb_initially_runnable_lane_count := sb_initially_runnable_lane_count r;
     sb_presentation_only_question_work_item_id := sb_presentation_only_question_work_item_id r;
     sb_maximum_driver_steps := sb_maximum_driver_steps r;
     sb_maximum_wall_seconds := sb_maximum_wall_seconds r;
     sb_bootstrap_depth := sb_bootstrap_depth r;
     sb_parent_bootstrap_occurrence_id := sb_parent_bootstrap_occurrence_id r;
     sb_scheduler_owner := sb_scheduler_owner r;
     sb_worker_adapter_mode := sb_worker_adapter_mode r;
     sb_wake_source_policy := sb_wake_source_policy r;
     sb_closeout_policy := sb_closeout_policy r;
     sb_authority_effect := sb_authority_effect r;
     sb_target_effects_authorized := sb_target_effects_authorized r;
     sb_approval_response_authorized := sb_approval_response_authorized r;
     sb_protected_effect_authorized := sb_protected_effect_authorized r;
     sb_semantic_retry_authorized := sb_semantic_retry_authorized r;
     sb_bootstrap_may_nest := sb_bootstrap_may_nest r;
     sb_worker_may_invoke_bootstrap := sb_worker_may_invoke_bootstrap r;
     sb_outer_conversation_scheduler := sb_outer_conversation_scheduler r;
     sb_timer_or_service_activation_authorized := sb_timer_or_service_activation_authorized r;
     sb_production_activation_authorized := sb_production_activation_authorized r;
     sb_aggregate_result_created := sb_aggregate_result_created r |}.
Arguments set_bootstrap_digest : simpl never.

Definition set_step_digest (d : string) (r : SelfHostedForemanDriverStepV1) : SelfHostedForemanDriverStepV1 :=
  {| sd_schema := sd_schema r; sd_step_digest := d;
     sd_bootstrap_digest := sd_bootstrap_digest r;
     sd_bootstrap_occurrence_id := sd_bootstrap_occurrence_id r; sd_run_id := sd_run_id r;
     sd_step_ordinal := sd_step_ordinal r;
     sd_scheduler_process_occurrence_id := sd_scheduler_process_occurrence_id r;
     sd_observed_projection_digest := sd_observed_projection_digest r;
     sd_disposition := sd_disposition r; sd_recorded_at := sd_recorded_at r;
     sd_worker_dispatch_authorized := sd_worker_dispatch_authorized r;
     sd_approval_response_authorized := sd_approval_response_authorized r;
     sd_protected_effect_authorized := sd_protected_effect_authorized r;
     sd_semantic_retry_authorized := sd_semantic_retry_authorized r;
     sd_aggregate_result_created := sd_aggregate_result_created r |}.
Arguments set_step_digest : simpl never.

Definition commit (field v : string) : result ContractError unit :=
  if negb (strlen v =? 40)%N || negb (bytes_all lower_hex_byte v)
  then Err (InvalidField field) else Ok tt.

Section bootstrap.
Context {HO : Host} {SV : Serde value} {SPkt : Serde NightshiftPacketV1}
{SFa : Serde ForemanAdmissionV1} {SEp : Serde ExecutionProfileV2}
{SCr : Serde ForemanCapacityRequirementV1} {SCy : Serde CapacityPolicyV1}
{SRq : Serde ForemanExecutionAvailabilityRequirementV1}
{SYp : Serde ExecutionAvailabilityPolicyV1}
{SSb : Serde SelfHostedForemanBootstrapV1} {SSd : Serde SelfHostedForemanDriverStepV1}.

Definition record_digest_without {T} `{Serde T} (record : T) (field domain : string)
    : result ContractError string :=
  let? v := map_err Json (to_value record) in
  match v with
  | Object kvs =>
      let? canonical := map_err Json (jcs_value (Object (object_remove field kvs))) in
      Ok ("sha256:" +:+ sha256_hex (domain +:+ canonical))
  | _ => Err (InvalidField "bootstrap record")
  end.

Definition exact_canonical_bytes {T} `{Serde T} (field : string) (record : T) (raw : string)
    : result ContractError unit :=
  let? canonical := map_err Json (to_vec record) in
  reject (negb (String.eqb canonical raw)) (InvalidField field).

Definition bootstrap_from_slice (bytes : string)
    : result ContractError SelfHostedForemanBootstrapV1 :=
  let? v := parse bytes in
  canonical_timestamp_value "evaluated_at" v ;?
  let? record := map_err Json (from_value v) in
  exact_canonical_bytes "bootstrap canonical bytes" record bytes ;?
  Ok record.

(** The pinned predecessor revisions. *)
Definition predecessor_custody_differs (b : SelfHostedForemanBootstrapV1) : bool :=
  negb (String.eqb (sb_digest_preimage b) SELF_HOSTED_FOREMAN_BOOTSTRAP_DIGEST_PREIMAGE_V1)
  || negb (String.eqb (sb_campaign_codename b) "SECOND-WATCH")
  || negb (String.eqb (sb_canonical_slug b) SECOND_WATCH_CANONICAL_SLUG)
  || negb (String.eqb (sb_track b) "nightshift-self-hosting")
  || negb (String.eqb (sb_holding_result_head b) SECOND_WATCH_HOLDING_RESULT_HEAD)
  || negb (String.eqb (sb_holding_qualified_subject b) SECOND_WATCH_HOLDING_QUALIFIED_SUBJECT)
  || negb (String.eqb (sb_durable_roadmap_head b) SECOND_WATCH_DURABLE_ROADMAP_HEAD)
  || negb (String.eqb (sb_midnight_result_head b) SECOND_WATCH_MIDNIGHT_RESULT_HEAD)
  || negb (String.eqb (sb_silicon_result_head b) SECOND_WATCH_SILICON_RESULT_HEAD)
  || negb (String.eqb (sb_codex_owner_head b) (op_codex_owner_head accepted))
  || negb (String.eqb (sb_switchyard_owner_head b) (op_switchyard_owner_head accepted))
  || negb (String.eqb (sb_predecessor_v2_packet_digest b)
             SECOND_WATCH_PREDECESSOR_V2_PACKET_DIGEST)
  || String.eqb (sb_packet_digest b) (sb_predecessor_v2_packet_digest b).

Definition within (lo hi n : N) : bool := (lo <=? n)%N && (n <=? hi)%N.

Definition bootstrap_bounds_differ (b : SelfHostedForemanBootstrapV1) : bool :=
  negb (within 3 1024 (sb_expected_work_item_count b))
  || negb (within 2 (sb_expected_work_item_count b) (sb_initially_runnable_lane_count b))
  || (sb_maximum_driver_steps b =? 0)%N
  || (1000000 <? sb_maximum_driver_steps b)%N
  || (sb_maximum_wall_seconds b =? 0)%N
  || (86400 <? sb_maximum_wall_seconds b)%N.

(** No nesting, no authority of its own. *)
Definition bootstrap_boundary_differs (b : SelfHostedForemanBootstrapV1) : bool :=
  negb (sb_bootstrap_depth b =? 0)%N
  || match sb_parent_bootstrap_occurrence_id b with Some _ => true | None => false end
  || negb (String.eqb (sb_scheduler_owner b) "NIGHTSHIFT_DURABLE_FOREMAN")
  || negb (String.eqb (sb_worker_adapter_mode b) "CAMPAIGN_QUALIFICATION_DETERMINISTIC_FAKE")
  || negb (String.eqb (sb_wake_source_policy b)
             "QUALIFIED_LOCAL_REEVALUATION_NO_EVIDENCE_OR_AUTHORITY")
  || negb (String.eqb (sb_closeout_policy b) "ALL_EXPLICIT_TERMINAL_OR_NOT_STARTED")
  || negb (String.eqb (sb_authority_effect b) LOCAL_SCHEDULING_ONLY)
  || sb_target_effects_authorized b
  || sb_approval_response_authorized b
  || sb_protected_effect_authorized b
  || sb_semantic_retry_authorized b
  || sb_bootstrap_may_nest b
  || sb_worker_may_invoke_bootstrap b
  || sb_outer_conversation_scheduler b
  || sb_timer_or_service_activation_authorized b
  || sb_production_activation_authorized b
  || sb_aggregate_result_created b.

Definition bootstrap_validate (b : SelfHostedForemanBootstrapV1) : result ContractError unit :=
  schema (sb_schema b) SELF_HOSTED_FOREMAN_BOOTSTRAP_SCHEMA_V1 ;?
  availability_digests
    [("bootstrap_digest", sb_bootstrap_digest b); ("packet_digest", sb_packet_digest b);
     ("predecessor_v2_packet_digest", sb_predecessor_v2_packet_digest b);
     ("admission_digest", sb_admission_digest b); ("profile_digest", sb_profile_digest b);
     ("capacity_requirement_digest", sb_capacity_requirement_digest b);
     ("capacity_policy_digest", sb_capacity_policy_digest b);
     ("execution_availability_requirement_digest",
        sb_execution_availability_requirement_digest b);
     ("execution_availability_policy_digest", sb_execution_availability_policy_digest b)] ;?
  let? computed := record_digest_without b "bootstrap_digest" BOOTSTRAP_DOMAIN in
  reject (negb (String.eqb computed (sb_bootstrap_digest b)))
    (DigestMismatch "bootstrap_digest") ;?
  ids
    [("bootstrap_occurrence_id", sb_bootstrap_occurrence_id b); ("run_id", sb_run_id b);
     ("packet_id", sb_packet_id b); ("local_runtime_identity", sb_local_runtime_identity b);
     ("presentation_only_question_work_item_id",
        sb_presentation_only_question_work_item_id b)] ;?
  reject (String.eqb (sb_bootstrap_occurrence_id b) (sb_run_id b))
    (InvalidField "bootstrap/run identity separation") ;?
  for_each (fun '(field, v) => commit field v)
    [("holding_result_head", sb_holding_result_head b);
     ("holding_qualified_subject", sb_holding_qualified_subject b);
     ("durable_roadmap_head", sb_durable_roadmap_head b);
     ("midnight_result_head", sb_midnight_result_head b);
     ("silicon_result_head", sb_silicon_result_head b);
     ("codex_owner_head", sb_codex_owner_head b);
     ("switchyard_owner_head", sb_switchyard_owner_head b)] ;?
  reject (predecessor_custody_differs b) (InvalidField "bootstrap predecessor custody") ;?
  reject (bootstrap_bounds_differ b) (InvalidField "bootstrap bounds") ;?
  reject (bootstrap_boundary_differs b)
    (InvalidField "bootstrap authority and recursion boundary").

Definition bootstrap_seal (b : SelfHostedForemanBootstrapV1)
    : result ContractError SelfHostedForemanBootstrapV1 :=
  let? d := record_digest_without b "bootstrap_digest" BOOTSTRAP_DOMAIN in
  let b := set_bootstrap_digest d b in
  bootstrap_validate b ;?
  Ok b.

(** ** The input graph *)

(** [BTreeSet] of an iterator of names. *)
Definition names (l : list string) : gset string := list_to_set l.

Definition input_binding_differs (b : SelfHostedForemanBootstrapV1) (packet : NightshiftPacketV1)
    (admission : ForemanAdmissionV1) (profile : ExecutionProfileV2)
    (capacity : ForemanCapacityRequirementV1) (policy : CapacityPolicyV1)
    (availability : ForemanExecutionAvailabilityRequirementV1)
    (availability_policy : ExecutionAvailabilityPolicyV1) : bool :=
  negb (String.eqb (sb_packet_id b) (pk_packet_id packet))
  || negb (String.eqb (sb_packet_digest b) (pk_packet_digest packet))
  || negb (String.eqb (sb_run_id b) (fa_run_id admission))
  || negb (String.eqb (sb_packet_digest b) (fa_packet_digest admission))
  || negb (String.eqb (sb_admission_digest b) (fa_admission_digest admission))
  || negb (String.eqb (sb_local_runtime_identity b) (fa_local_runtime_identity admission))
  || negb (String.eqb (sb_packet_digest b) (ep_packet_digest profile))
  || negb (String.eqb (sb_admission_digest b) (ep_admission_digest profile))
  || negb (String.eqb (sb_profile_digest b) (ep_profile_digest profile))
  || negb (String.eqb (sb_capacity_requirement_digest b) (cr_capacity_requirement_digest capacity))
  || negb (String.eqb (sb_capacity_policy_digest b) (cy_policy_digest policy))
  || negb (String.eqb (sb_execution_availability_requirement_digest b)
             (rq_requirement_digest availability))
  || negb (String.eqb (sb_execution_availability_policy_digest b)
             (yp_policy_digest availability_policy)).

Definition mechanism_graph_differs (b : SelfHostedForemanBootstrapV1)
    (admission : ForemanAdmissionV1) (profile : ExecutionProfileV2)
    (capacity : ForemanCapacityRequirementV1) (policy : CapacityPolicyV1)
    (availability : ForemanExecutionAvailabilityRequirementV1)
    (availability_policy : ExecutionAvailabilityPolicyV1) : bool :=
  negb (String.eqb (cr_packet_digest capacity) (sb_packet_digest b))
  || negb (String.eqb (cr_admission_digest capacity) (sb_admission_digest b))
  || negb (String.eqb (cr_profile_digest capacity) (sb_profile_digest b))
  || negb (String.eqb (cr_run_id capacity) (sb_run_id b))
  || negb (String.eqb (cr_policy_id capacity) (cy_policy_id policy))
  || negb (String.eqb (ep_budget_policy_ref profile) (cy_policy_id policy))
  || negb (String.eqb (rq_packet_digest availability) (sb_packet_digest b))
  || negb (String.eqb (rq_admission_digest availability) (sb_admission_digest b))
  || negb (String.eqb (rq_profile_digest availability) (sb_profile_digest b))
  || negb (String.eqb (rq_run_id availability) (sb_run_id b))
  || negb (String.eqb (rq_policy_id availability) (yp_policy_id availability_policy))
  || negb (String.eqb (rq_policy_digest availability) (yp_policy_digest availability_policy))
  || negb (rq_admitted_at availability =? fa_admitted_at admission)%Z.

Definition runnable_count (packet : NightshiftPacketV1) : nat :=
  length (List.filter (fun item => bool_decide (wi_dependencies item = []))
            (pk_work_items packet)).

Definition topology_differs (b : SelfHostedForemanBootstrapV1) (packet : NightshiftPacketV1)
    (admission : ForemanAdmissionV1) (profile : ExecutionProfileV2)
    (capacity : ForemanCapacityRequirementV1)
    (availability : ForemanExecutionAvailabilityRequirementV1) : bool :=
  let packet_items := names (wi_id <$> pk_work_items packet) in
  let profile_items := dom (ep_work_items profile) in
  let availability_items := dom (rq_work_item_model_selections availability) in
  let profile_classes := names (wx_provider_model_class <$> btree_values (ep_work_items profile)) in
  let admitted_classes := names (fa_allowed_provider_model_classes admission) in
  let capacity_classes := dom (cr_model_cost_classes capacity) in
  negb (N.of_nat (length (pk_work_items packet)) =? sb_expected_work_item_count b)%N
  || negb (N.of_nat (runnable_count packet) =? sb_initially_runnable_lane_count b)%N
  || negb (bool_decide (packet_items = profile_items))
  || negb (bool_decide (packet_items = availability_items))
  || negb (bool_decide (profile_classes = admitted_classes))
  || negb (bool_decide (profile_classes = capacity_classes))
  || negb (bool_decide (sb_presentation_only_question_work_item_id b ∈ packet_items))
  || existsb (fun item =>
       String.eqb (cp_canonical_slug (wi_campaign item)) SECOND_WATCH_CANONICAL_SLUG)
       (pk_work_items packet)
  || negb (wb_recursive_worker_swarms_forbidden (pk_worker_budget packet))
  || (wb_maximum_concurrent_mutating_workers (pk_worker_budget packet) <? 2)%N
  || (fa_maximum_concurrent_workers admission <? 2)%N
  || (wb_maximum_concurrent_mutating_workers (pk_worker_budget packet)
      <? fa_maximum_concurrent_workers admission)%N.

Definition adapter_closure_differs (profile : ExecutionProfileV2)
    (availability : ForemanExecutionAvailabilityRequirementV1)
    (adapter : AdapterRegistrationV2) : bool :=
  negb (String.eqb (ar_protocol adapter) (rq_adapter_protocol availability))
  || negb (String.eqb (ar_adapter_version adapter) (rq_adapter_version availability))
  || negb (String.eqb (ar_executable_identity adapter)
             (rq_adapter_executable_identity availability))
  || existsb (fun work => negb (String.eqb (wx_adapter_id work) (ar_adapter_id adapter)))
       (btree_values (ep_work_items profile)).

(** One of the two qualification adapters, with its pinned executable. *)
Definition qualification_adapter (protocol version executable : string)
    (adapter : AdapterRegistrationV2) : bool :=
  String.eqb (ar_adapter_id adapter) HOLDING_QUALIFICATION_PRODUCER_ID
  && String.eqb (ar_protocol adapter) protocol
  && String.eqb (ar_adapter_version adapter) version
  && String.eqb (ar_executable_identity adapter) executable.

Definition accepted_adapter (adapter : AdapterRegistrationV2) : bool :=
  qualification_adapter DETERMINISTIC_PROVIDER_ADMISSION_EVIDENCE_SCHEMA_V1
    HOLDING_QUALIFICATION_PRODUCER_VERSION HOLDING_QUALIFICATION_EXECUTABLE_SHA256 adapter
  || qualification_adapter DETERMINISTIC_PROVIDER_ADMISSION_EVIDENCE_SCHEMA_V2
    SECOND_WATCH_QUALIFICATION_PRODUCER_VERSION SECOND_WATCH_QUALIFICATION_EXECUTABLE_SHA256
    adapter.

(** The indexing of the source cannot miss: the item sets were just compared. *)
Definition model_graph_differs (profile : ExecutionProfileV2)
    (capacity : ForemanCapacityRequirementV1)
    (availability : ForemanExecutionAvailabilityRequirementV1) (item : WorkItemV1) : bool :=
  match ep_work_items profile !! wi_id item,
        rq_work_item_model_selections availability !! wi_id item with
  | Some work, Some selections =>
      negb (String.eqb (wx_provider_model_class work) (mr_class (wi_model_routing item)))
      || negb (bool_decide (is_Some (cr_model_cost_classes capacity
                                       !! wx_provider_model_class work)))
      || existsb (fun s =>
           negb (String.eqb (sl_provider_id s) (cr_provider_id capacity))
           || negb (String.eqb (sl_model_class s) (wx_provider_model_class work))) selections
  | _, _ => true
  end.

Definition validate_graph (b : SelfHostedForemanBootstrapV1)
    (packet_bytes admission_bytes profile_bytes capacity_requirement_bytes
     capacity_policy_bytes availability_requirement_bytes availability_policy_bytes : string)
    : result ContractError unit :=
  bootstrap_validate b ;?
  let packet_error := fun _ : PacketError => InvalidField "bootstrap packet" in
  let? packet := map_err packet_error (packet_from_slice packet_bytes) in
  map_err packet_error (validate_at packet (sb_evaluated_at b)) ;?
  exact_canonical_bytes "bootstrap packet bytes" packet packet_bytes ;?
  let? admission := admission_from_slice admission_bytes in
  admission_validate_at admission (sb_evaluated_at b) ;?
  exact_canonical_bytes "bootstrap admission bytes" admission admission_bytes ;?
  let? profile := profile_from_slice profile_bytes in
  profile_validate profile ;?
  exact_canonical_bytes "bootstrap profile bytes" profile profile_bytes ;?
  let? capacity := capacity_requirement_from_slice capacity_requirement_bytes in
  capacity_requirement_validate capacity ;?
  exact_canonical_bytes "bootstrap capacity requirement bytes" capacity
    capacity_requirement_bytes ;?
  let? policy := map_err Json (from_slice capacity_policy_bytes) in
  map_err (fun _ => InvalidField "bootstrap capacity policy") (policy_validate policy) ;?
  exact_canonical_bytes "bootstrap capacity policy bytes" policy capacity_policy_bytes ;?
  let? availability := requirement_from_slice availability_requirement_bytes in
  requirement_validate availability ;?
  exact_canonical_bytes "bootstrap availability requirement bytes" availability
    availability_requirement_bytes ;?
  let? availability_policy := availability_policy_from_slice availability_policy_bytes in
  availability_policy_validate availability_policy ;?
  exact_canonical_bytes "bootstrap availability policy bytes" availability_policy
    availability_policy_bytes ;?
  reject (input_binding_differs b packet admission profile capacity policy availability
            availability_policy) (InvalidField "bootstrap exact input binding") ;?
  reject (mechanism_graph_differs b admission profile capacity policy availability
            availability_policy) (InvalidField "bootstrap mechanism graph") ;?
  reject (topology_differs b packet admission profile capacity availability)
    (InvalidField "bootstrap packet topology") ;?
  let closure := InvalidField "bootstrap adapter closure" in
  reject (negb (size (ep_adapters profile) =? 1)%nat
          || negb (bool_decide (fa_allowed_adapter_ids admission
                                = [rq_adapter_id availability]))) closure ;?
  let? adapter := ok_or (ep_adapters profile !! rq_adapter_id availability) closure in
  reject (adapter_closure_differs profile availability adapter) closure ;?
  reject (negb (accepted_adapter adapter)
          || negb (bool_decide (ar_bounded_arguments adapter = [])))
    (InvalidField "bootstrap accepted qualification adapter") ;?
  for_each (fun item => reject (model_graph_differs profile capacity availability item)
                          (InvalidField "bootstrap model graph"))
    (pk_work_items packet).

(** ** Driver steps *)

(** [||] evaluates the digest last: an earlier refusal wins over its error. *)
Definition step_validate (d : SelfHostedForemanDriverStepV1) : result ContractError unit :=
  schema (sd_schema d) SELF_HOSTED_FOREMAN_DRIVER_STEP_SCHEMA_V1 ;?
  availability_digests
    [("step_digest", sd_step_digest d); ("bootstrap_digest", sd_bootstrap_digest d);
     ("observed_projection_digest", sd_observed_projection_digest d)] ;?
  ids
    [("bootstrap_occurrence_id", sd_bootstrap_occurrence_id d); ("run_id", sd_run_id d);
     ("scheduler_process_occurrence_id", sd_scheduler_process_occurrence_id d)] ;?
  let boundary := InvalidField "driver step boundary" in
  reject ((sd_step_ordinal d =? 0)%N
          || (1000000 <? sd_step_ordinal d)%N
          || sd_worker_dispatch_authorized d
          || sd_approval_response_authorized d
          || sd_protected_effect_authorized d
          || sd_semantic_retry_authorized d
          || sd_aggregate_result_created d) boundary ;?
  let? computed := record_digest_without d "step_digest" DRIVER_STEP_DOMAIN in
  reject (negb (String.eqb computed (sd_step_digest d))) boundary.

Definition step_from_slice (bytes : string)
    : result ContractError SelfHostedForemanDriverStepV1 :=
  let? v := parse bytes in
  canonical_timestamp_value "recorded_at" v ;?
  let? record := map_err Json (from_value v) in
  exact_canonical_bytes "driver step canonical bytes" record bytes ;?
  step_validate record ;?
  Ok record.

Definition step_seal (d : SelfHostedForemanDriverStepV1)
    : result ContractError SelfHostedForemanDriverStepV1 :=
  let? digest := record_digest_without d "step_digest" DRIVER_STEP_DOMAIN in
  let d := set_step_digest digest d in
  step_validate d ;?
  Ok d.
End bootstrap.
