(* ===== verification/Journal.v ===== *)
(** * The journal and its tables (crates/nightshift-foreman/src/store.rs)

    The events the foreman writes, the tables of its SQLite database with the
    constraints [initialize] declares, and the statements that insert into
    them.  A transaction is a function from the tables before it to a result
    and the tables after it; one that fails leaves no trace, because the source
    drops the transaction.  The tables are those [ForemanStore::open] creates,
    so the checks for a missing table or column never fire. *)
From S2P Require Import Prelude Text External Packet Capacity Contract Availability Scheduler.
From S2P Require Import Prelaunch Bootstrap Evidence.
Local Open Scope string_scope.

Definition INTERNAL_EVENT_SCHEMA : string := "nightshift.foreman-journal-event/v1".
Definition BRIEF_DIGEST_DOMAIN : string := "nightshift.worker-brief.digest/v2" +:+ NUL.
Definition RAW_DIGEST_DOMAIN : string := "nightshift.foreman-retained-raw.digest/v1" +:+ NUL.
Definition MAXIMUM_CAPACITY_RECORD_BYTES : N := 1048576.
Definition MAXIMUM_EXECUTION_AVAILABILITY_HISTORY_BYTES : N := 16777216.
Definition MAXIMUM_EXECUTION_AVAILABILITY_ROWS : N := 16384.

(** ** Errors *)

(** The rusqlite errors the statements of the source can meet. *)
Inductive SqlError :=
| UniqueViolation (table : string)
| ForeignKeyViolation (table : string)
| CheckViolation (table : string)
| QueryReturnedNoRows
| DatabaseFull.

(** [ForemanError]; [PacketRefused] and [Contract] keep the error whose text the
    source keeps.  [Panicked] is no value of the source: indexing a map with a
    missing key unwinds, which drops the transaction like an error does. *)
Inductive ForemanError :=
| Sql (e : SqlError)
| Contract (e : ContractError)
| PacketRefused (e : PacketError)
| DuplicateRun (run_id : string)
| UnknownRun (run_id : string)
| UnknownWorkItem (work_item_id : string)
| IdentityMismatch (what : string)
| Transition (message : string)
| ResourceUnavailable (message : string)
| DuplicateEvent (event_id : string)
| InputTooLarge (what : string)
| IncompleteCloseout (items : string)
| ReadOnlyStore (message : string)
| Serialization (message : string)
| Panicked (what : string).

(** The [From] conversions [?] applies. *)
Definition contract {A} (m : result ContractError A) : result ForemanError A :=
  map_err Contract m.
Definition serialized {A} (m : result string A) : result ForemanError A :=
  map_err Serialization m.
(** [capacity_error.to_string()], sent as a transition refusal. *)
Definition capacity_refusal {A} (m : result CapacityError A) : result ForemanError A :=
  map_err (fun e => Transition match e with
    | CapacitySerialization m => "serialization failed: " +:+ m
    | CapacityInvalid m => "invalid capacity record: " +:+ m
    end) m.
(** [map[key]]. *)
Definition index {V} (m : gmap string V) (key what : string) : result ForemanError V :=
  ok_or (m !! key) (Panicked what).

(** ** Journal events *)

Inductive InternalPayload :=
| RunAdmitted
| CapacityRequirementAdmitted (requirement : ForemanCapacityRequirementV1)
    (requirement_bytes : string)
| AttemptCreated (resource_lock_keys : list string) (start_request : WorkerStartRequestV2)
| DispatchRequested
| ResumeRequested
| CapacityAdmissionAccepted (capacity_admission : ForemanCapacityAdmissionV1)
    (admission_bytes observation_bytes policy_bytes decision_bytes : string)
| ExecutionAvailabilityConfigured (requirement : ForemanExecutionAvailabilityRequirementV1)
    (requirement_bytes : string) (policy : ExecutionAvailabilityPolicyV1) (policy_bytes : string)
| ProviderDispatchOpened (start_request : WorkerStartRequestV3) (start_request_bytes : string)
    (dispatch : ProviderDispatchOccurrenceV1) (dispatch_bytes : string)
| ProviderDispositionRecorded (observation : ExecutionAvailabilityObservationV1)
    (observation_bytes : string) (disposition : ProviderAdmissionDispositionV1)
    (disposition_bytes : string) (deferred : option DeferredProviderDispatchV1)
    (deferred_bytes : option string) (reconciles_disposition_digest : option string)
| ProviderWakeOpened (wake_occurrence_id deferred_dispatch_digest next_dispatch_digest : string)
| ProviderExecutionResumeRequested (resume_occurrence_id disposition_digest
    adapter_process_occurrence_id : string) (execution_identity : ProviderExecutionIdentityV1)
| ProviderResourcesReleased (disposition_digest dispatch_digest policy_digest : string)
    (resource_lock_keys : list string)
| ProviderResourcesReacquired (wake_occurrence_id deferred_dispatch_digest next_dispatch_digest
    policy_digest : string) (resource_lock_keys : list string)
| TerminalAccepted (outcome : AcceptedOutcomeV1)
| TerminalRefused (reason : string)
| NotStartedAccepted (outcome : AcceptedOutcomeV1)
| PrelaunchClosureAccepted (closure : PrelaunchClosureV1) (receipt : NotStartedReceiptV1)
| ResourcesReleased
| RunClosed (final_receipts_digest : string).

Record InternalEvent := {
  ie_schema : string;
  ie_event_id : string;
  ie_run_id : string;
  ie_work_item_id : option string;
  ie_attempt_id : option string;
  ie_recorded_at : instant;
  ie_payload : InternalPayload
}.

(** Every event the store writes itself has the journal schema. *)
Definition internal_event (event_id run_id : string) (work_item_id attempt_id : option string)
    (recorded_at : instant) (payload : InternalPayload) : InternalEvent :=
  {| ie_schema := INTERNAL_EVENT_SCHEMA; ie_event_id := event_id; ie_run_id := run_id;
     ie_work_item_id := work_item_id; ie_attempt_id := attempt_id;
     ie_recorded_at := recorded_at; ie_payload := payload |}.

(** ** Rows *)

Record RunRow := {
  rn_packet_digest : string;
  rn_admission_digest : string;
  rn_profile_digest : string;
  rn_packet_bytes : string;
  rn_admission_bytes : string;
  rn_profile_bytes : string;
  rn_admitted_at : string;
  rn_expires_at : string;
  rn_maximum_concurrent_workers : N;
  rn_execution_availability_required : bool
}.

Record ReadOnlyEventRowV1 := {
  ro_sequence : N;
  ro_event_id : string;
  ro_work_item_id : option string;
  ro_attempt_id : option string;
  ro_kind : string;
  ro_recorded_at : string;
  ro_raw_bytes : string;
  ro_raw_digest : string
}.

(** A row of [events]: the columns a reader selects and the run. *)
Record EventRow := { ev_run_id : string; ev_row : ReadOnlyEventRowV1 }.

Record MetadataRow := {
  md_run_id : string;
  md_event_id : string;
  md_sequence : N;
  md_event_kind : string;
  md_raw_byte_length : N
}.

Record AnchorRow := { an_run_id : string; an_event_id : string; an_sequence : N }.

Record ReceiptRow := {
  rt_attempt_id : option string;
  rt_receipt_digest : string;
  rt_raw_bytes : string;
  rt_receipt_kind : string
}.

Record FinalSnapshotRow := {
  fs_updated_at : string;
  fs_raw_digest : string;
  fs_raw_bytes : string
}.

Record BootstrapRow := {
  bs_bootstrap_digest : string;
  bs_bootstrap_occurrence_id : string;
  bs_bootstrap_bytes : string;
  bs_capacity_policy_bytes : string;
  bs_admitted_at : string;
  bs_deadline_at : string;
  bs_maximum_driver_steps : N
}.

(** ** The tables

    Keyed by primary key where no reader depends on row order; [events] and the
    two custody tables are lists in insertion order, which is sequence order
    because the key is AUTOINCREMENT. *)
Record Store := {
  st_runs : gmap string RunRow;
  st_work_items : gmap (string * string) (N * string);
  st_events : list EventRow;
  st_last_sequence : N;
  st_resource_claims : gmap (string * string) (string * string);
  st_metadata : list MetadataRow;
  st_anchors : list AnchorRow;
  st_requirements : gset string;
  st_receipts : gmap (string * string) ReceiptRow;
  st_finals : gmap string FinalSnapshotRow;
  st_bootstraps : gmap string BootstrapRow
}.

Definition empty_store : Store :=
  {| st_runs := ∅; st_work_items := ∅; st_events := []; st_last_sequence := 0;
     st_resource_claims := ∅; st_metadata := []; st_anchors := []; st_requirements := ∅;
     st_receipts := ∅; st_finals := ∅; st_bootstraps := ∅ |}.

(** ** Statements *)

(** [REFERENCES runs(run_id)], with [foreign_keys] on. *)
Definition references_run (table run_id : string) (s : Store) : result ForemanError unit :=
  reject (negb (bool_decide (is_Some (st_runs s !! run_id)))) (Sql (ForeignKeyViolation table)).

Definition insert_run (run_id : string) (row : RunRow) (s : Store) : result ForemanError Store :=
  reject (bool_decide (is_Some (st_runs s !! run_id))) (Sql (UniqueViolation "runs")) ;?
  Ok {| st_runs := <[run_id := row]> (st_runs s); st_work_items := st_work_items s;
        st_events := st_events s; st_last_sequence := st_last_sequence s;
        st_resource_claims := st_resource_claims s; st_metadata := st_metadata s;
        st_anchors := st_anchors s; st_requirements := st_requirements s;
        st_receipts := st_receipts s; st_finals := st_finals s;
        st_bootstraps := st_bootstraps s |}.

Definition insert_work_item (run_id work_item_id : string) (ordinal : N) (dependencies : string)
    (s : Store) : result ForemanError Store :=
  reject (bool_decide (is_Some (st_work_items s !! (run_id, work_item_id))))
    (Sql (UniqueViolation "work_items")) ;?
  references_run "work_items" run_id s ;?
  Ok {| st_runs := st_runs s;
        st_work_items := <[(run_id, work_item_id) := (ordinal, dependencies)]> (st_work_items s);
        st_events := st_events s; st_last_sequence := st_last_sequence s;
        st_resource_claims := st_resource_claims s; st_metadata := st_metadata s;
        st_anchors := st_anchors s; st_requirements := st_requirements s;
        st_receipts := st_receipts s; st_finals := st_finals s;
        st_bootstraps := st_bootstraps s |}.

(** [UNIQUE (run_id, event_id)] on [events]. *)
Definition event_exists (run_id event_id : string) (s : Store) : bool :=
  existsb (fun r => String.eqb (ev_run_id r) run_id
                    && String.eqb (ro_event_id (ev_row r)) event_id) (st_events s).

Definition insert_event (run_id event_id : string) (work_item_id attempt_id : option string)
    (kind recorded_at raw_bytes raw_digest : string) (s : Store) : result ForemanError Store :=
  reject (I64_MAX <=? st_last_sequence s)%N (Sql DatabaseFull) ;?
  reject (event_exists run_id event_id s) (Sql (UniqueViolation "events")) ;?
  references_run "events" run_id s ;?
  let sequence := (st_last_sequence s + 1)%N in
  let row := {| ro_sequence := sequence; ro_event_id := event_id;
                ro_work_item_id := work_item_id; ro_attempt_id := attempt_id;
                ro_kind := kind; ro_recorded_at := recorded_at;
                ro_raw_bytes := raw_bytes; ro_raw_digest := raw_digest |} in
  Ok {| st_runs := st_runs s; st_work_items := st_work_items s;
        st_events := (st_events s ++ [{| ev_run_id := run_id; ev_row := row |}])%list;
        st_last_sequence := sequence;
        st_resource_claims := st_resource_claims s; st_metadata := st_metadata s;
        st_anchors := st_anchors s; st_requirements := st_requirements s;
        st_receipts := st_receipts s; st_finals := st_finals s;
        st_bootstraps := st_bootstraps s |}.

Definition set_claims (c : gmap (string * string) (string * string)) (s : Store) : Store :=
  {| st_runs := st_runs s; st_work_items := st_work_items s; st_events := st_events s;
     st_last_sequence := st_last_sequence s; st_resource_claims := c;
     st_metadata := st_metadata s; st_anchors := st_anchors s;
     st_requirements := st_requirements s; st_receipts := st_receipts s;
     st_finals := st_finals s; st_bootstraps := st_bootstraps s |}.

Definition insert_claim (run_id lock work_item_id attempt_id : string) (s : Store)
    : result ForemanError Store :=
  reject (bool_decide (is_Some (st_resource_claims s !! (run_id, lock))))
    (Sql (UniqueViolation "resource_claims")) ;?
  references_run "resource_claims" run_id s ;?
  Ok (set_claims (<[(run_id, lock) := (work_item_id, attempt_id)]> (st_resource_claims s)) s).

(** [DELETE FROM resource_claims WHERE run_id = .. AND work_item_id = .. AND
    attempt_id = ..]. *)
Definition delete_claims (run_id work_item_id attempt_id : string) (s : Store) : Store :=
  set_claims (filter (fun kv => kv.1.1 <> run_id \/ kv.2 <> (work_item_id, attempt_id))
                (st_resource_claims s)) s.

(** The metadata row of an event just inserted; the [CHECK]s hold of the kinds
    [execution_availability_row_kind] gives and of a nonempty row. *)
Definition insert_metadata (r : MetadataRow) (s : Store) : result ForemanError Store :=
  reject (md_raw_byte_length r =? 0)%N
    (Sql (CheckViolation "execution_availability_event_metadata")) ;?
  reject (existsb (fun m => String.eqb (md_run_id m) (md_run_id r)
                            && (String.eqb (md_event_id m) (md_event_id r)
                                || (md_sequence m =? md_sequence r)%N)) (st_metadata s))
    (Sql (UniqueViolation "execution_availability_event_metadata")) ;?
  references_run "execution_availability_event_metadata" (md_run_id r) s ;?
  Ok {| st_runs := st_runs s; st_work_items := st_work_items s; st_events := st_events s;
        st_last_sequence := st_last_sequence s;
        st_resource_claims := st_resource_claims s;
        st_metadata := (st_metadata s ++ [r])%list; st_anchors := st_anchors s;
        st_requirements := st_requirements s; st_receipts := st_receipts s;
        st_finals := st_finals s; st_bootstraps := st_bootstraps s |}.

Definition insert_anchor (r : AnchorRow) (s : Store) : result ForemanError Store :=
  reject (existsb (fun a => String.eqb (an_run_id a) (an_run_id r)
                            && (String.eqb (an_event_id a) (an_event_id r)
                                || (an_sequence a =? an_sequence r)%N)) (st_anchors s))
    (Sql (UniqueViolation "execution_availability_event_anchors")) ;?
  references_run "execution_availability_event_anchors" (an_run_id r) s ;?
  Ok {| st_runs := st_runs s; st_work_items := st_work_items s; st_events := st_events s;
        st_last_sequence := st_last_sequence s;
        st_resource_claims := st_resource_claims s; st_metadata := st_metadata s;
        st_anchors := (st_anchors s ++ [r])%list; st_requirements := st_requirements s;
        st_receipts := st_receipts s; st_finals := st_finals s;
        st_bootstraps := st_bootstraps s |}.

Definition insert_requirement (run_id : string) (s : Store) : result ForemanError Store :=
  reject (bool_decide (run_id ∈ st_requirements s))
    (Sql (UniqueViolation "run_mechanism_requirements")) ;?
  references_run "run_mechanism_requirements" run_id s ;?
  Ok {| st_runs := st_runs s; st_work_items := st_work_items s; st_events := st_events s;
        st_last_sequence := st_last_sequence s;
        st_resource_claims := st_resource_claims s; st_metadata := st_metadata s;
        st_anchors := st_anchors s; st_requirements := {[run_id]} ∪ st_requirements s;
        st_receipts := st_receipts s; st_finals := st_finals s;
        st_bootstraps := st_bootstraps s |}.

(** The kinds the source inserts are the two the [CHECK] admits. *)
Definition insert_receipt (run_id work_item_id : string) (r : ReceiptRow) (s : Store)
    : result ForemanError Store :=
  reject (bool_decide (is_Some (st_receipts s !! (run_id, work_item_id))))
    (Sql (UniqueViolation "terminal_receipts")) ;?
  references_run "terminal_receipts" run_id s ;?
  Ok {| st_runs := st_runs s; st_work_items := st_work_items s; st_events := st_events s;
        st_last_sequence := st_last_sequence s;
        st_resource_claims := st_resource_claims s; st_metadata := st_metadata s;
        st_anchors := st_anchors s; st_requirements := st_requirements s;
        st_receipts := <[(run_id, work_item_id) := r]> (st_receipts s);
        st_finals := st_finals s; st_bootstraps := st_bootstraps s |}.

Definition insert_final (run_id : string) (r : FinalSnapshotRow) (s : Store)
    : result ForemanError Store :=
  reject (bool_decide (is_Some (st_finals s !! run_id)))
    (Sql (UniqueViolation "final_snapshots")) ;?
  references_run "final_snapshots" run_id s ;?
  Ok {| st_runs := st_runs s; st_work_items := st_work_items s; st_events := st_events s;
        st_last_sequence := st_last_sequence s;
        st_resource_claims := st_resource_claims s; st_metadata := st_metadata s;
        st_anchors := st_anchors s; st_requirements := st_requirements s;
        st_receipts := st_receipts s; st_finals := <[run_id := r]> (st_finals s);
        st_bootstraps := st_bootstraps s |}.

Definition insert_bootstrap (run_id : string) (r : BootstrapRow) (s : Store)
    : result ForemanError Store :=
  reject (bs_maximum_driver_steps r =? 0)%N (Sql (CheckViolation "self_hosted_bootstraps")) ;?
  reject (bool_decide (is_Some (st_bootstraps s !! run_id))
          || existsb (fun o => String.eqb (bs_bootstrap_digest o) (bs_bootstrap_digest r)
                || String.eqb (bs_bootstrap_occurrence_id o) (bs_bootstrap_occurrence_id r))
               (btree_values (st_bootstraps s)))
    (Sql (UniqueViolation "self_hosted_bootstraps")) ;?
  references_run "self_hosted_bootstraps" run_id s ;?
  Ok {| st_runs := st_runs s; st_work_items := st_work_items s; st_events := st_events s;
        st_last_sequence := st_last_sequence s;
        st_resource_claims := st_resource_claims s; st_metadata := st_metadata s;
        st_anchors := st_anchors s; st_requirements := st_requirements s;
        st_receipts := st_receipts s; st_finals := st_finals s;
        st_bootstraps := <[run_id := r]> (st_bootstraps s) |}.

(** [SELECT .. FROM events WHERE run_id = ?1 ORDER BY sequence ASC]. *)
Definition run_rows (run_id : string) (s : Store) : list ReadOnlyEventRowV1 :=
  ev_row <$> List.filter (fun r => String.eqb (ev_run_id r) run_id) (st_events s).

(** ** The final snapshot document *)

Record FinalWorkItem := {
  fw_id : string;
  fw_state : string;
  fw_result_classification : string;
  fw_repositories : list ReceiptRepositoryV1;
  fw_tests : list string;
  fw_evidence : list string;
  fw_live_or_production_mutations : list string;
  fw_remaining_trigger : string;
  fw_next_lawful_action : string
}.

Record FinalQuestion := {
  fq_work_item : string;
  fq_exact_question : string;
  fq_evidence_exhausted : string;
  fq_safe_default : string;
  fq_consequences : string;
  fq_resume_point : string
}.

Record FinalCustody := {
  fc_repository : string;
  fc_branch_head : string;
  fc_push_custody : string;
  fc_dirty : string;
  fc_live_runtime : string;
  fc_secrets : string;
  fc_teardown : string
}.

Record FinalReceiptDocument := {
  fd_schema : string;
  fd_packet_digest : string;
  fd_updated_at : string;
  fd_work_items : list FinalWorkItem;
  fd_human_questions : list FinalQuestion;
  fd_repository_custody : list FinalCustody
}.

(** ** Serialization of every document the store reads or writes *)

Class Documents : Type := {
  doc_host :: Host;
  doc_value :: Serde value;
  doc_packet :: Serde NightshiftPacketV1;
  doc_work_item :: Serde WorkItemV1;
  doc_dependencies :: Serde (list string);
  doc_constraints :: Serde GlobalConstraintsV1;
  doc_capacity_observation :: Serde CapacityObservationV1;
  doc_capacity_policy :: Serde CapacityPolicyV1;
  doc_capacity_decision :: Serde CapacityDecisionV1;
  doc_admission :: Serde ForemanAdmissionV1;
  doc_capacity_requirement :: Serde ForemanCapacityRequirementV1;
  doc_capacity_admission :: Serde ForemanCapacityAdmissionV1;
  doc_profile :: Serde ExecutionProfileV2;
  doc_execution :: Serde WorkItemExecutionV1;
  doc_start :: Serde WorkerStartRequestV2;
  doc_brief :: Serde WorkerBriefV2;
  doc_adapter_event :: Serde AdapterEventV1;
  doc_terminal :: Serde TerminalReceiptV1;
  doc_not_started :: Serde NotStartedReceiptV1;
  doc_availability_observation :: Serde ExecutionAvailabilityObservationV1;
  doc_availability_policy :: Serde ExecutionAvailabilityPolicyV1;
  doc_availability_requirement :: Serde ForemanExecutionAvailabilityRequirementV1;
  doc_start_v3 :: Serde WorkerStartRequestV3;
  doc_dispatch :: Serde ProviderDispatchOccurrenceV1;
  doc_disposition :: Serde ProviderAdmissionDispositionV1;
  doc_deferred :: Serde DeferredProviderDispatchV1;
  doc_exact_evidence :: Serde ExactAvailabilityEvidenceV1;
  doc_execution_identity :: Serde ProviderExecutionIdentityV1;
  doc_qualification_v1 :: Serde DeterministicProviderAdmissionEvidenceV1;
  doc_qualification_v2 :: Serde DeterministicProviderAdmissionEvidenceV2;
  doc_closure :: Serde PrelaunchClosureV1;
  doc_bootstrap :: Serde SelfHostedForemanBootstrapV1;
  doc_event :: Serde InternalEvent;
  doc_final :: Serde FinalReceiptDocument
}.

Section journal.
Context {DOC : Documents}.

Definition placeholder_digest : string := "sha256:" +:+ str_repeat 64 "0"%char.
Definition domain_digest (domain bytes : string) : string :=
  "sha256:" +:+ sha256_hex (domain +:+ bytes).
Definition raw_digest (bytes : string) : string := domain_digest RAW_DIGEST_DOMAIN bytes.

Definition validate_local_occurrence_id (v field : string) : result ForemanError unit :=
  reject (str_is_empty v || (256 <? strlen v)%N
          || negb (bytes_all (fun b => is_ascii_alphanumeric b
                                       || one_of ["."; "_"; ":"; "-"]%char b) v))
    (Transition ("invalid " +:+ field)).

(** ** Appending *)

Definition append_internal_raw (event : InternalEvent) (kind raw : string) (s : Store)
    : result ForemanError Store :=
  insert_event (ie_run_id event) (ie_event_id event) (ie_work_item_id event)
    (ie_attempt_id event) kind (to_rfc3339 (ie_recorded_at event)) raw (raw_digest raw) s.

Definition append_internal (event : InternalEvent) (s : Store) : result ForemanError Store :=
  let? raw := serialized (to_vec event) in
  append_internal_raw event "internal" raw s.

(** The loops over retained rows: [count] and [total], with their limits. *)
Definition tally (max_count max_bytes max_event : N) (row_error history_error : ForemanError)
    (length : N) (state : N * N) : result ForemanError (N * N) :=
  let '(total, count) := state in
  let? count := ok_or (checked_add count 1) history_error in
  reject (max_count <? count)%N history_error ;?
  reject ((length =? 0)%N || (max_event <? length)%N) row_error ;?
  let? total := ok_or (checked_add total length) history_error in
  reject (max_bytes <? total)%N history_error ;?
  Ok (total, count).

Definition kind_in (kinds : list string) (row : ReadOnlyEventRowV1) : bool :=
  existsb (String.eqb (ro_kind row)) kinds.

Definition CAPACITY_KINDS : list string := ["capacity_requirement"; "capacity_admission"].
Definition EXECUTION_AVAILABILITY_KINDS : list string :=
  ["execution_availability_requirement"; "provider_dispatch"; "provider_disposition";
   "provider_wake"; "provider_resume"; "provider_resources_released";
   "provider_resources_reacquired"].

Definition validate_capacity_history_size (run_id : string)
    (maximum_event_bytes maximum_capacity_rows : N) (s : Store) : result ForemanError (N * N) :=
  fold_try
    (tally maximum_capacity_rows MAXIMUM_CAPACITY_HISTORY_BYTES maximum_event_bytes
       (InputTooLarge "capacity journal event") (InputTooLarge "capacity journal history"))
    ((fun row => strlen (ro_raw_bytes row)) <$>
       List.filter (kind_in CAPACITY_KINDS) (run_rows run_id s)) (0%N, 0%N).

Definition append_internal_bounded (event : InternalEvent)
    (maximum_event_bytes maximum_capacity_rows : N) (s : Store) : result ForemanError Store :=
  let? raw := serialized (to_vec event) in
  reject (maximum_event_bytes <? strlen raw)%N (InputTooLarge "capacity journal event") ;?
  let? kind := match ie_payload event with
    | CapacityRequirementAdmitted _ _ => Ok "capacity_requirement"
    | CapacityAdmissionAccepted _ _ _ _ _ => Ok "capacity_admission"
    | _ => Err (Transition "bounded capacity append received non-capacity event")
    end in
  let? '(retained, retained_count) := validate_capacity_history_size (ie_run_id event)
    maximum_event_bytes maximum_capacity_rows s in
  reject (match checked_add retained_count 1 with
          | Some count => (maximum_capacity_rows <? count)%N
          | None => true
          end
          || match checked_add retained (strlen raw) with
             | Some total => (MAXIMUM_CAPACITY_HISTORY_BYTES <? total)%N
             | None => true
             end) (InputTooLarge "capacity journal history") ;?
  append_internal_raw event kind raw s.

Definition execution_availability_row_kind (payload : InternalPayload) : option string :=
  match payload with
  | ExecutionAvailabilityConfigured _ _ _ _ => Some "execution_availability_requirement"
  | ProviderDispatchOpened _ _ _ _ => Some "provider_dispatch"
  | ProviderDispositionRecorded _ _ _ _ _ _ _ => Some "provider_disposition"
  | ProviderWakeOpened _ _ _ => Some "provider_wake"
  | ProviderExecutionResumeRequested _ _ _ _ => Some "provider_resume"
  | ProviderResourcesReleased _ _ _ _ => Some "provider_resources_released"
  | ProviderResourcesReacquired _ _ _ _ _ => Some "provider_resources_reacquired"
  | _ => None
  end.

(** A row of the join of the two custody tables with [events]. *)
Definition custody_rows (run_id : string) (s : Store)
    : list (MetadataRow * AnchorRow * ReadOnlyEventRowV1) :=
  m ← List.filter (fun m => String.eqb (md_run_id m) run_id) (st_metadata s);
  a ← List.filter (fun a => (an_sequence a =? md_sequence m)%N
                            && String.eqb (an_run_id a) (md_run_id m)) (st_anchors s);
  e ← List.filter (fun e => (ro_sequence e =? md_sequence m)%N) (run_rows run_id s);
  [(m, a, e)].

Definition count_where {A} (p : A -> bool) (l : list A) : N :=
  N.of_nat (length (List.filter p l)).

Definition custody_row_size (maximum_event_bytes : N)
    (row : MetadataRow * AnchorRow * ReadOnlyEventRowV1) (state : N * N)
    : result ForemanError (N * N) :=
  let '(m, a, e) := row in
  let '(total, count) := state in
  let history := InputTooLarge "execution availability journal history" in
  let length := strlen (ro_raw_bytes e) in
  let? count := ok_or (checked_add count 1) history in
  reject (MAXIMUM_EXECUTION_AVAILABILITY_ROWS <? count)%N history ;?
  reject ((length =? 0)%N || (maximum_event_bytes <? length)%N)
    (InputTooLarge "execution availability journal event") ;?
  reject (negb (String.eqb (md_event_id m) (ro_event_id e))
          || negb (String.eqb (an_event_id a) (ro_event_id e))
          || negb (md_raw_byte_length m =? length)%N
          || negb (String.eqb (md_event_kind m) (ro_kind e)))
    (ReadOnlyStore "execution availability metadata/event identity mismatch") ;?
  let? total := ok_or (checked_add total length) history in
  reject (MAXIMUM_EXECUTION_AVAILABILITY_HISTORY_BYTES <? total)%N history ;?
  Ok (total, count).

Definition validate_execution_availability_history_size (run_id : string)
    (maximum_event_bytes : N) (allow_initial_requirement_append : bool) (s : Store)
    : result ForemanError (N * N) :=
  let? run := ok_or (st_runs s !! run_id) (Sql QueryReturnedNoRows) in
  let required := rn_execution_availability_required run in
  let marked := bool_decide (run_id ∈ st_requirements s) in
  let provider_row_count :=
    count_where (kind_in EXECUTION_AVAILABILITY_KINDS) (run_rows run_id s) in
  reject (required && negb marked)
    (ReadOnlyStore "availability-required run is missing exact marker or metadata-first custody tables") ;?
  reject (negb required && marked)
    (ReadOnlyStore "run-level HOLDING requirement and marker disagree") ;?
  reject (required && (provider_row_count =? 0)%N && negb allow_initial_requirement_append)
    (ReadOnlyStore "availability-required run has no retained provider history") ;?
  let metadata_count := count_where (fun m => String.eqb (md_run_id m) run_id) (st_metadata s) in
  let anchor_count := count_where (fun a => String.eqb (an_run_id a) run_id) (st_anchors s) in
  let? '(total, count) :=
    fold_try (custody_row_size maximum_event_bytes) (custody_rows run_id s) (0%N, 0%N) in
  reject (negb (count =? metadata_count)%N || negb (count =? anchor_count)%N
          || negb (count =? provider_row_count)%N)
    (ReadOnlyStore "execution availability metadata/event row set mismatch") ;?
  Ok (total, count).

(** [INSERT .. SELECT .. FROM events WHERE run_id = ?1 AND event_id = ?2]. *)
Definition insert_custody (run_id event_id : string) (s : Store) : result ForemanError Store :=
  let rows := List.filter (fun r => String.eqb (ro_event_id r) event_id) (run_rows run_id s) in
  let? s := fold_try (fun r => insert_metadata
    {| md_run_id := run_id; md_event_id := ro_event_id r; md_sequence := ro_sequence r;
       md_event_kind := ro_kind r; md_raw_byte_length := strlen (ro_raw_bytes r) |}) rows s in
  fold_try (fun r => insert_anchor
    {| an_run_id := run_id; an_event_id := ro_event_id r; an_sequence := ro_sequence r |}) rows s.

Definition append_execution_availability_bounded (event : InternalEvent)
    (maximum_event_bytes : N) (s : Store) : result ForemanError Store :=
  let? kind := ok_or (execution_availability_row_kind (ie_payload event))
    (Transition "bounded execution-availability append received unrelated event") in
  let? raw := serialized (to_vec event) in
  reject (str_is_empty raw || (maximum_event_bytes <? strlen raw)%N)
    (InputTooLarge "execution availability journal event") ;?
  let? '(retained, retained_count) := validate_execution_availability_history_size
    (ie_run_id event) maximum_event_bytes
    (String.eqb kind "execution_availability_requirement") s in
  reject (match checked_add retained_count 1 with
          | Some count => (MAXIMUM_EXECUTION_AVAILABILITY_ROWS <? count)%N
          | None => true
          end
          || match checked_add retained (strlen raw) with
             | Some total => (MAXIMUM_EXECUTION_AVAILABILITY_HISTORY_BYTES <? total)%N
             | None => true
             end) (InputTooLarge "execution availability journal history") ;?
  let? s := append_internal_raw event kind raw s in
  insert_custody (ie_run_id event) (ie_event_id event) s.

(** ** The contracts of a run *)

Definition validate_bindings (packet : NightshiftPacketV1) (admission : ForemanAdmissionV1)
    (profile : ExecutionProfileV2) : result ForemanError unit :=
  reject (negb (String.eqb (fa_packet_digest admission) (pk_packet_digest packet))
          || negb (String.eqb (ep_packet_digest profile) (pk_packet_digest packet)))
    (IdentityMismatch "packet_digest") ;?
  reject (negb (String.eqb (ep_admission_digest profile) (fa_admission_digest admission)))
    (IdentityMismatch "admission_digest") ;?
  reject (wb_maximum_concurrent_mutating_workers (pk_worker_budget packet)
          <? fa_maximum_concurrent_workers admission)%N
    (Transition "admission exceeds packet worker budget") ;?
  reject (negb (bool_decide (names (wi_id <$> pk_work_items packet)
                             = dom (ep_work_items profile))))
    (IdentityMismatch "profile work items") ;?
  for_each (fun execution =>
    reject (negb (bool_decide (wx_adapter_id execution ∈ fa_allowed_adapter_ids admission)))
      (Transition "profile adapter not admitted") ;?
    reject (negb (bool_decide (wx_provider_model_class execution
                               ∈ fa_allowed_provider_model_classes admission)))
      (Transition "provider/model class not admitted"))
    (btree_values (ep_work_items profile)).

(** The contracts [load_contracts] returns. *)
Record Contracts := {
  ct_packet : NightshiftPacketV1;
  ct_admission : ForemanAdmissionV1;
  ct_profile : ExecutionProfileV2;
  ct_maximum : N
}.

Definition load_contracts (run_id : string) (s : Store) : result ForemanError Contracts :=
  let? row := ok_or (st_runs s !! run_id) (UnknownRun run_id) in
  let? packet := map_err PacketRefused (packet_from_slice (rn_packet_bytes row)) in
  map_err PacketRefused (validate_integrity packet) ;?
  let? admission := contract (admission_from_slice (rn_admission_bytes row)) in
  contract (admission_validate admission) ;?
  let? profile := contract (profile_from_slice (rn_profile_bytes row)) in
  contract (profile_validate profile) ;?
  validate_bindings packet admission profile ;?
  reject (negb (String.eqb (fa_run_id admission) run_id)
          || negb (String.eqb (rn_packet_digest row) (pk_packet_digest packet))
          || negb (String.eqb (rn_admission_digest row) (fa_admission_digest admission))
          || negb (String.eqb (rn_profile_digest row) (ep_profile_digest profile))
          || negb (String.eqb (rn_admitted_at row) (to_rfc3339 (fa_admitted_at admission)))
          || negb (String.eqb (rn_expires_at row) (to_rfc3339 (fa_expires_at admission)))
          || negb (rn_maximum_concurrent_workers row =? fa_maximum_concurrent_workers admission)%N)
    (ReadOnlyStore "run row and exact contract bytes disagree") ;?
  Ok {| ct_packet := packet; ct_admission := admission; ct_profile := profile;
        ct_maximum := rn_maximum_concurrent_workers row |}.
End journal.

(** ** Success of the converted steps *)

Lemma contract_ok {A} (m : result ContractError A) a : contract m = Ok a <-> m = Ok a.
Proof. apply map_err_ok. Qed.
Lemma serialized_ok {A} (m : result string A) a : serialized m = Ok a <-> m = Ok a.
Proof. apply map_err_ok. Qed.
Lemma capacity_refusal_ok {A} (m : result CapacityError A) a :
  capacity_refusal m = Ok a <-> m = Ok a.
Proof. apply map_err_ok. Qed.
Lemma index_ok {V} (m : gmap string V) k w v : index m k w = Ok v <-> m !! k = Some v.
Proof. apply ok_or_ok. Qed.

#[export] Hint Rewrite @contract_ok @serialized_ok @capacity_refusal_ok @index_ok : result.
