(* ===== verification/Requirements.v ===== *)
(** * Run requirements, evidence bundles and briefs (crates/nightshift-foreman/src/store.rs)

    The checks of the capacity and execution-availability records a run is
    admitted with, of the capacity bundle an attempt is admitted with, and of
    the evidence of a provider disposition: exact canonical bytes, each record
    valid, and every identity equal to the run's. *)
From S2P Require Import Prelude Text External Packet Capacity Contract Availability.
From S2P Require Import Scheduler Prelaunch Bootstrap Evidence Graph Journal.
Local Open Scope string_scope.

Section requirements.
Context {DOC : Documents}.

(** [serde_jcs::to_vec(record)? != bytes]. *)
Definition differs_from {T} `{Serde T} (record : T) (bytes : string)
    : result ForemanError bool :=
  let? canonical := serialized (to_vec record) in
  Ok (negb (String.eqb canonical bytes)).

(** [bytes.is_empty() || bytes.len() > MAXIMUM_CAPACITY_RECORD_BYTES]. *)
Definition record_size_refused (bytes : string) : bool :=
  str_is_empty bytes || (MAXIMUM_CAPACITY_RECORD_BYTES <? strlen bytes)%N.

(** ** Execution availability *)

Record ValidatedExecutionAvailabilityConfiguration := {
  xc_requirement : ForemanExecutionAvailabilityRequirementV1;
  xc_requirement_bytes : string;
  xc_policy : ExecutionAvailabilityPolicyV1;
  xc_policy_bytes : string
}.

Definition validate_execution_availability_configuration
    (requirement_bytes policy_bytes : string)
    : result ForemanError ValidatedExecutionAvailabilityConfiguration :=
  reject (record_size_refused requirement_bytes || record_size_refused policy_bytes)
    (InputTooLarge "execution availability configuration") ;?
  let? requirement := contract (requirement_from_slice requirement_bytes) in
  let? policy := contract (availability_policy_from_slice policy_bytes) in
  contract (requirement_validate requirement) ;?
  contract (availability_policy_validate policy) ;?
  let not_exact := Transition
    "execution availability configuration is not exact canonical owner bytes" in
  let? differs := differs_from requirement requirement_bytes in
  reject differs not_exact ;?
  let? differs := differs_from policy policy_bytes in
  reject differs not_exact ;?
  Ok {| xc_requirement := requirement; xc_requirement_bytes := requirement_bytes;
        xc_policy := policy; xc_policy_bytes := policy_bytes |}.

(** One turn of the loop over the packet's items; the state is [provider_id]. *)
Definition check_selection_provider (selection : ProviderModelSelectionV1)
    (provider : option string) : result ForemanError (option string) :=
  match provider with
  | None => Ok (Some (sl_provider_id selection))
  | Some expected =>
      reject (negb (String.eqb expected (sl_provider_id selection)))
        (IdentityMismatch "execution availability provider identity") ;?
      Ok provider
  end.

Definition check_item_selections (requirement : ForemanExecutionAvailabilityRequirementV1)
    (profile : ExecutionProfileV2) (item : WorkItemV1) (provider : option string)
    : result ForemanError (option string) :=
  let? execution := ok_or (ep_work_items profile !! wi_id item) (UnknownWorkItem (wi_id item)) in
  let? selections := ok_or (rq_work_item_model_selections requirement !! wi_id item)
    (IdentityMismatch "execution availability selection") in
  reject (negb (String.eqb (wx_adapter_id execution) (rq_adapter_id requirement))
          || negb (String.eqb (mr_class (wi_model_routing item))
                     (wx_provider_model_class execution))
          || existsb (fun s => negb (String.eqb (sl_model_class s)
                                       (wx_provider_model_class execution))) selections)
    (IdentityMismatch "execution availability profile selection") ;?
  fold_try check_selection_provider selections provider.

Definition validate_execution_availability_configuration_bindings
    (configuration : ValidatedExecutionAvailabilityConfiguration)
    (packet : NightshiftPacketV1) (admission : ForemanAdmissionV1) (profile : ExecutionProfileV2)
    (recorded_at : instant) : result ForemanError unit :=
  let requirement := xc_requirement configuration in
  let policy := xc_policy configuration in
  reject (negb (String.eqb (rq_packet_digest requirement) (pk_packet_digest packet))
          || negb (String.eqb (rq_admission_digest requirement) (fa_admission_digest admission))
          || negb (String.eqb (rq_profile_digest requirement) (ep_profile_digest profile))
          || negb (String.eqb (rq_run_id requirement) (fa_run_id admission))
          || negb (rq_admitted_at requirement =? recorded_at)%Z
          || negb (rq_admitted_at requirement =? fa_admitted_at admission)%Z
          || negb (String.eqb (rq_policy_id requirement) (yp_policy_id policy))
          || negb (String.eqb (rq_policy_digest requirement) (yp_policy_digest policy)))
    (IdentityMismatch "execution availability run requirement") ;?
  let? adapter := ok_or (ep_adapters profile !! rq_adapter_id requirement)
    (IdentityMismatch "execution availability adapter") in
  reject (negb (String.eqb (rq_adapter_id requirement) (ar_adapter_id adapter))
          || negb (String.eqb (rq_adapter_protocol requirement) (ar_protocol adapter))
          || negb (String.eqb (rq_adapter_version requirement) (ar_adapter_version adapter))
          || negb (String.eqb (rq_adapter_executable_identity requirement)
                     (ar_executable_identity adapter)))
    (IdentityMismatch "execution availability adapter registration") ;?
  reject (negb (bool_decide (names (wi_id <$> pk_work_items packet)
                             = dom (rq_work_item_model_selections requirement))))
    (IdentityMismatch "execution availability work-item domain") ;?
  let? _ := fold_try (check_item_selections requirement profile) (pk_work_items packet) None in
  Ok tt.

(** ** The capacity requirement *)

Definition validate_capacity_requirement_bytes (bytes : string)
    : result ForemanError ForemanCapacityRequirementV1 :=
  reject (record_size_refused bytes) (InputTooLarge "capacity requirement") ;?
  let? requirement := contract (capacity_requirement_from_slice bytes) in
  contract (capacity_requirement_validate requirement) ;?
  let? differs := differs_from requirement bytes in
  reject differs (Transition "capacity requirement bytes are not exact canonical owner bytes") ;?
  Ok requirement.

Definition validate_capacity_requirement (requirement : ForemanCapacityRequirementV1)
    (packet : NightshiftPacketV1) (admission : ForemanAdmissionV1) (profile : ExecutionProfileV2)
    : result ForemanError unit :=
  let packet_classes :=
    names ((fun work => mr_class (wi_model_routing work)) <$> pk_work_items packet) in
  reject (negb (String.eqb (cr_packet_digest requirement) (pk_packet_digest packet))
          || negb (String.eqb (cr_admission_digest requirement) (fa_admission_digest admission))
          || negb (String.eqb (cr_profile_digest requirement) (ep_profile_digest profile))
          || negb (String.eqb (cr_run_id requirement) (fa_run_id admission))
          || negb (String.eqb (cr_policy_id requirement) (ep_budget_policy_ref profile))
          || negb (bool_decide (packet_classes = dom (cr_model_cost_classes requirement)))
          || existsb (fun work =>
               match ep_work_items profile !! wi_id work with
               | None => true
               | Some execution => negb (String.eqb (wx_provider_model_class execution)
                                           (mr_class (wi_model_routing work)))
               end) (pk_work_items packet))
    (IdentityMismatch "capacity requirement binding").

Definition check_requirement_event (row : ReadOnlyEventRowV1)
    (found : option ForemanCapacityRequirementV1)
    : result ForemanError (option ForemanCapacityRequirementV1) :=
  let? event := serialized (from_slice (ro_raw_bytes row)) in
  match ie_payload event with
  | CapacityRequirementAdmitted requirement requirement_bytes =>
      let refusal := ReadOnlyStore "capacity requirement history is not singular exact custody" in
      reject (bool_decide (is_Some found)) refusal ;?
      let? differs := differs_from requirement requirement_bytes in
      reject differs refusal ;?
      contract (capacity_requirement_validate requirement) ;?
      Ok (Some requirement)
  | _ => Ok found
  end.

Definition load_capacity_requirement (run_id : string) (s : Store)
    : result ForemanError (option ForemanCapacityRequirementV1) :=
  fold_try check_requirement_event
    (List.filter (kind_in ["internal"; "capacity_requirement"]) (run_rows run_id s)) None.

(** ** The capacity bundle of an attempt *)

Record ValidatedCapacityAdmission := {
  vc_admission : ForemanCapacityAdmissionV1;
  vc_observation : CapacityObservationV1;
  vc_policy : CapacityPolicyV1;
  vc_decision : CapacityDecisionV1;
  vc_admission_bytes : string;
  vc_observation_bytes : string;
  vc_policy_bytes : string;
  vc_decision_bytes : string
}.

Definition owner_bytes_differ (name : string) : ForemanError :=
  Transition (name +:+ " bytes are not exact canonical owner bytes").

(** The four records are serialized before any is compared. *)
Definition validate_capacity_bundle (admission_bytes observation_bytes policy_bytes
    decision_bytes : string) : result ForemanError ValidatedCapacityAdmission :=
  for_each (fun '(name, bytes) => reject (record_size_refused bytes) (InputTooLarge name))
    [("capacity admission", admission_bytes); ("capacity observation", observation_bytes);
     ("capacity policy", policy_bytes); ("capacity decision", decision_bytes)] ;?
  let? admission := contract (capacity_admission_from_slice admission_bytes) in
  contract (capacity_admission_validate admission) ;?
  let? observation := serialized (from_slice observation_bytes) in
  let? policy := serialized (from_slice policy_bytes) in
  let? decision := serialized (from_slice decision_bytes) in
  capacity_refusal (observation_validate observation) ;?
  capacity_refusal (policy_validate policy) ;?
  capacity_refusal (decision_validate decision) ;?
  let? reproduced :=
    capacity_refusal (decide_capacity observation policy (cd_decision_at decision)) in
  reject (negb (bool_decide (reproduced = decision)))
    (Transition "capacity decision is not the exact deterministic FUEL outcome") ;?
  let? admission_value := serialized (to_vec admission) in
  let? observation_value := serialized (to_vec observation) in
  let? policy_value := serialized (to_vec policy) in
  let? decision_value := serialized (to_vec decision) in
  for_each (fun '(name, (expected, v)) =>
      reject (negb (String.eqb expected v)) (owner_bytes_differ name))
    [("capacity admission", (admission_bytes, admission_value));
     ("capacity observation", (observation_bytes, observation_value));
     ("capacity policy", (policy_bytes, policy_value));
     ("capacity decision", (decision_bytes, decision_value))] ;?
  Ok {| vc_admission := admission; vc_observation := observation; vc_policy := policy;
        vc_decision := decision; vc_admission_bytes := admission_bytes;
        vc_observation_bytes := observation_bytes; vc_policy_bytes := policy_bytes;
        vc_decision_bytes := decision_bytes |}.

Definition capacity_owner_differs (c : ValidatedCapacityAdmission) (profile : ExecutionProfileV2)
    : bool :=
  let b := vc_admission c in
  negb (String.eqb (cm_provider_id b) (co_provider_id (vc_observation c)))
  || negb (String.eqb (cm_provider_id b) (cd_provider_id (vc_decision c)))
  || negb (String.eqb (cm_policy_id b) (cy_policy_id (vc_policy c)))
  || negb (String.eqb (cm_policy_id b) (ep_budget_policy_ref profile))
  || negb (String.eqb (cm_observation_digest b) (co_observation_digest (vc_observation c)))
  || negb (String.eqb (cm_policy_digest b) (cy_policy_digest (vc_policy c)))
  || negb (String.eqb (cm_decision_digest b) (cd_decision_digest (vc_decision c)))
  || negb (String.eqb (cd_observation_digest (vc_decision c))
             (co_observation_digest (vc_observation c)))
  || negb (String.eqb (cd_policy_digest (vc_decision c)) (cy_policy_digest (vc_policy c))).

(** What the decision admits for a model of the bound cost class. *)
Definition cost_class_admitted (d : CapacityDecisionV1) (c : CapacityCostClassV1)
    : result ForemanError unit :=
  match cd_admission d with
  | NoNewWork => Err (Transition "capacity decision admits no new work")
  | CheapBoundedOnly =>
      reject (negb (bool_decide (c = Cheap)))
        (Transition "capacity decision admits only closed cheap model classes")
  | OrdinaryBounded =>
      reject (bool_decide (c = Expensive) && negb (cd_allow_new_expensive_work d))
        (Transition "capacity decision does not admit new expensive work")
  end.

Definition validate_capacity_bindings (c : ValidatedCapacityAdmission)
    (packet : NightshiftPacketV1) (admission : ForemanAdmissionV1) (profile : ExecutionProfileV2)
    (requirement : ForemanCapacityRequirementV1) (work_item_id : string) (recorded_at : instant)
    : result ForemanError unit :=
  let b := vc_admission c in
  let? work := ok_or (find_first (fun work => String.eqb (wi_id work) work_item_id)
                        (pk_work_items packet)) (UnknownWorkItem work_item_id) in
  let? execution := ok_or (ep_work_items profile !! work_item_id)
                      (UnknownWorkItem work_item_id) in
  reject (negb (String.eqb (cm_capacity_requirement_digest b)
                  (cr_capacity_requirement_digest requirement))
          || negb (String.eqb (cm_provider_id b) (cr_provider_id requirement))
          || negb (String.eqb (cm_policy_id b) (cr_policy_id requirement))
          || negb (bool_decide (cr_model_cost_classes requirement !! cm_packet_model_class b
                                = Some (cm_cost_class b))))
    (IdentityMismatch "capacity requirement identity") ;?
  reject (negb (String.eqb (cm_packet_digest b) (pk_packet_digest packet))
          || negb (String.eqb (cm_admission_digest b) (fa_admission_digest admission))
          || negb (String.eqb (cm_profile_digest b) (ep_profile_digest profile))
          || negb (String.eqb (cm_run_id b) (fa_run_id admission))
          || negb (String.eqb (cm_work_item_id b) work_item_id)
          || negb (String.eqb (cm_adapter_id b) (wx_adapter_id execution))
          || negb (String.eqb (cm_packet_model_class b) (mr_class (wi_model_routing work)))
          || negb (String.eqb (cm_profile_model_class b) (wx_provider_model_class execution)))
    (IdentityMismatch "capacity admission binding") ;?
  reject (match co_model_family (vc_observation c) with
          | Some family => negb (String.eqb family (cm_packet_model_class b))
          | None => false
          end) (IdentityMismatch "capacity observation model family") ;?
  reject (capacity_owner_differs c profile) (IdentityMismatch "capacity owner identity") ;?
  reject (negb (cm_evaluated_at b =? recorded_at)%Z
          || negb (cd_decision_at (vc_decision c) =? recorded_at)%Z
          || (recorded_at <? co_observed_at (vc_observation c))%Z
          || (co_expires_at (vc_observation c) <=? recorded_at)%Z)
    (Transition "capacity decision is not current at exact attempt admission") ;?
  cost_class_admitted (vc_decision c) (cm_cost_class b).

(** ** The evidence of a provider disposition *)

Record ValidatedProviderDispositionEvidence := {
  ve_observation : ExecutionAvailabilityObservationV1;
  ve_observation_bytes : string;
  ve_disposition : ProviderAdmissionDispositionV1;
  ve_disposition_bytes : string;
  ve_deferred : option DeferredProviderDispatchV1;
  ve_deferred_bytes : option string
}.

Definition optional {A B E} (f : A -> result E B) (o : option A) : result E (option B) :=
  match o with Some a => let? b := f a in Ok (Some b) | None => Ok None end.

Context {PE : ProviderEvidence}.

(** Both options come from the same bytes, so they are present together. *)
Definition validate_provider_disposition_evidence
    (observation_bytes disposition_bytes : string) (deferred_bytes : option string)
    : result ForemanError ValidatedProviderDispositionEvidence :=
  let total := checked_sum [strlen observation_bytes; strlen disposition_bytes;
                            match deferred_bytes with Some b => strlen b | None => 0%N end] in
  reject (str_is_empty observation_bytes || str_is_empty disposition_bytes
          || match total with
             | Some total => (MAXIMUM_EXECUTION_AVAILABILITY_HISTORY_BYTES <? total)%N
             | None => true
             end) (InputTooLarge "provider disposition evidence") ;?
  let? observation := contract (availability_observation_from_slice observation_bytes) in
  let? disposition := contract (disposition_from_slice disposition_bytes) in
  let? deferred := contract (optional deferred_from_slice deferred_bytes) in
  contract (availability_observation_validate observation) ;?
  contract (disposition_validate disposition) ;?
  contract (match deferred with Some d => deferred_validate d | None => Ok tt end) ;?
  let not_exact :=
    Transition "provider disposition evidence is not exact canonical owner bytes" in
  let? differs := differs_from observation observation_bytes in
  reject differs not_exact ;?
  let? differs := differs_from disposition disposition_bytes in
  reject differs not_exact ;?
  match deferred, deferred_bytes with
  | None, None => Ok tt
  | Some d, Some bytes => let? differs := differs_from d bytes in reject differs not_exact
  | _, _ => Err not_exact
  end ;?
  Ok {| ve_observation := observation; ve_observation_bytes := observation_bytes;
        ve_disposition := disposition; ve_disposition_bytes := disposition_bytes;
        ve_deferred := deferred; ve_deferred_bytes := deferred_bytes |}.
End requirements.


(** ** Worker briefs and the final document

    The brief a worker starts from, built from the retained packet and the
    receipts of its dependencies; the receipt a pre-launch closure yields; and
    the document that closes a run. *)

(** [i64::checked_add] of non-negative lengths. *)
Definition checked_add_i64 (a b : N) : option N :=
  if (a + b <=? I64_MAX)%N then Some (a + b)%N else None.

Section brief.
Context {DOC : Documents}.

(** ** The worker brief *)

(** The [json!] objects of the source, keys in order. *)
Definition retained_value (digest bytes_hex : string) : value :=
  Object [("bytes_hex", Str bytes_hex); ("encoding", Str "hex");
          ("retained_raw_digest", Str digest)].
Definition predecessor_value (receipt_kind digest bytes_hex : string) : value :=
  Object [("bytes_hex", Str bytes_hex); ("encoding", Str "hex");
          ("receipt_kind", Str receipt_kind); ("retained_raw_digest", Str digest)].
Definition recognized_value (contract canonical_json : string) : value :=
  Object [("canonical_json", Str canonical_json); ("contract", Str contract)].

Definition brief_value (packet : NightshiftPacketV1) (profile : ExecutionProfileV2)
    (item : WorkItemV1) (packet_source : value) (predecessors : gmap string value)
    : result ForemanError value :=
  let? work := serialized (to_vec item) in
  let? constraints := serialized (to_vec (pk_global_constraints packet)) in
  let? execution := index (ep_work_items profile) (wi_id item) "profile.work_items" in
  let? execution := serialized (to_vec execution) in
  Ok (Object
    [("execution",
        recognized_value "nightshift.foreman-execution-profile/v2#work-item" execution);
     ("global_constraints",
        recognized_value "nightshift.orientation-packet/v1#global-constraints" constraints);
     ("packet_digest", Str (pk_packet_digest packet));
     ("packet_source", packet_source);
     ("predecessor_receipts", Object (btree_iter predecessors));
     ("schema", Str WORKER_BRIEF_BASIS_SCHEMA_V2);
     ("work_item", recognized_value "nightshift.orientation-packet/v1#work-item" work)]).

(** The receipts of the dependencies; a missing row is a query without rows. *)
Definition dependency_receipts (run_id : string) (dependencies : list string) (s : Store)
    : result ForemanError (list (string * ReceiptRow)) :=
  map_try (fun d =>
    let? r := ok_or (st_receipts s !! (run_id, d)) (Sql QueryReturnedNoRows) in
    Ok (d, r)) dependencies.

(** The size the brief will have, before its hex text is built. *)
Definition brief_size_refused (baseline packet_len : N) (lengths : list N) : bool :=
  match foldl (fun total length => total ≫= fun t => checked_add_i64 t length)
          (Some packet_len) lengths with
  | None => true
  | Some raw_total =>
      match checked_add raw_total raw_total ≫= checked_add baseline with
      | Some size => (MAXIMUM_WORKER_BRIEF_BYTES <? size)%N
      | None => true
      end
  end.

Definition worker_brief_bytes (packet : NightshiftPacketV1) (profile : ExecutionProfileV2)
    (run_id work_item_id : string) (s : Store) : result ForemanError string :=
  let? item := ok_or (find_first (fun item => String.eqb (wi_id item) work_item_id)
                        (pk_work_items packet)) (UnknownWorkItem work_item_id) in
  reject (MAXIMUM_PREDECESSOR_RECEIPTS <? length (wi_dependencies item))%nat
    (InputTooLarge "predecessor receipt count") ;?
  let? run := ok_or (st_runs s !! run_id) (Sql QueryReturnedNoRows) in
  let packet_raw := rn_packet_bytes run in
  let? receipts := dependency_receipts run_id (wi_dependencies item) s in
  let? preflight := brief_value packet profile item
    (retained_value placeholder_digest "")
    (list_to_map (rev ((fun '(d, r) =>
       (d, predecessor_value (rt_receipt_kind r) placeholder_digest "")) <$> receipts))) in
  let? baseline := serialized (jcs_value preflight) in
  reject (brief_size_refused (strlen baseline) (strlen packet_raw)
            ((fun '(_, r) => strlen (rt_raw_bytes r)) <$> receipts))
    (InputTooLarge "worker brief") ;?
  let? v := brief_value packet profile item
    (retained_value (raw_digest packet_raw) (hex_encode packet_raw))
    (list_to_map (rev ((fun '(d, r) =>
       (d, predecessor_value (rt_receipt_kind r) (raw_digest (rt_raw_bytes r))
             (hex_encode (rt_raw_bytes r)))) <$> receipts))) in
  let? bytes := serialized (jcs_value v) in
  reject (MAXIMUM_WORKER_BRIEF_BYTES <? strlen bytes)%N (InputTooLarge "worker brief") ;?
  Ok bytes.

Definition worker_brief_digest (packet : NightshiftPacketV1) (profile : ExecutionProfileV2)
    (run_id work_item_id : string) (s : Store) : result ForemanError string :=
  let? canonical := worker_brief_bytes packet profile run_id work_item_id s in
  Ok (domain_digest BRIEF_DIGEST_DOMAIN canonical).

(** ** The receipt of a pre-launch closure *)

Definition prelaunch_not_started_receipt (c : PrelaunchClosureV1)
    : result ForemanError NotStartedReceiptV1 :=
  contract (prelaunch_validate c) ;?
  let? closure_value := serialized (to_value c) in
  let b := pc_binding c in
  contract (not_started_seal
    {| nr_schema := WORK_ITEM_NOT_STARTED_RECEIPT_SCHEMA_V1;
       nr_receipt_digest := placeholder_digest;
       nr_packet_digest := pb_packet_digest b;
       nr_run_id := pb_run_id b;
       nr_work_item_id := pb_work_item_id b;
       nr_recorded_at := pc_closed_at c;
       nr_state := "NOT_STARTED";
       nr_result_classification := "LOCAL_PRELAUNCH_FAILURE";
       nr_evidence := [pc_closure_digest c];
       nr_remaining_trigger := "Prepared attempt retained; backend launch failed before provider claim. No worker result exists.";
       nr_next_lawful_action := "Review the local failure and obtain separately admitted successor work; this closure grants no retry.";
       nr_human_questions := [];
       nr_extensions := {["prelaunch_closure" := closure_value;
                          "prepared_attempt_id" := Str (pb_work_attempt_id b)]} |}).

(** ** The final document *)

Definition final_question (work_item_id : string) (q : HumanQuestionV1) : FinalQuestion :=
  {| fq_work_item := work_item_id; fq_exact_question := hq_question q;
     fq_evidence_exhausted := hq_exhausted_evidence q; fq_safe_default := hq_safe_default q;
     fq_consequences := hq_consequences q; fq_resume_point := hq_resume_point q |}.

Definition final_custody (r : TerminalReceiptV1) (repository : ReceiptRepositoryV1)
    : FinalCustody :=
  {| fc_repository := rx_repository repository;
     fc_branch_head := rx_branch repository +:+ "@" +:+ rx_head repository;
     fc_push_custody := rx_push_status repository;
     fc_dirty := "declared by exact worker receipt; no inference";
     fc_live_runtime := td_live_runtime (tr_teardown r);
     fc_secrets := td_secrets (tr_teardown r);
     fc_teardown := td_teardown (tr_teardown r) |}.

Definition terminal_work_item (item_id : string) (r : TerminalReceiptV1) : FinalWorkItem :=
  {| fw_id := item_id; fw_state := tr_state r;
     fw_result_classification := tr_result_classification r;
     fw_repositories := tr_repositories r; fw_tests := tr_tests r; fw_evidence := tr_evidence r;
     fw_live_or_production_mutations := tr_live_or_production_mutations r;
     fw_remaining_trigger := tr_remaining_trigger r;
     fw_next_lawful_action := tr_next_lawful_action r |}.

Definition not_started_work_item (item_id : string) (r : NotStartedReceiptV1) : FinalWorkItem :=
  {| fw_id := item_id; fw_state := nr_state r;
     fw_result_classification := nr_result_classification r;
     fw_repositories := []; fw_tests := []; fw_evidence := nr_evidence r;
     fw_live_or_production_mutations := [];
     fw_remaining_trigger := nr_remaining_trigger r;
     fw_next_lawful_action := nr_next_lawful_action r |}.

(** The contribution of one packet item to the three lists. *)
Definition final_item (run_id : string) (s : Store) (item : WorkItemV1)
    : result ForemanError (FinalWorkItem * list FinalQuestion * list FinalCustody) :=
  let? row := ok_or (st_receipts s !! (run_id, wi_id item)) (Sql QueryReturnedNoRows) in
  if String.eqb (rt_receipt_kind row) "terminal" then
    let? r := contract (terminal_from_slice (rt_raw_bytes row)) in
    Ok (terminal_work_item (wi_id item) r, final_question (wi_id item) <$> tr_human_questions r,
        final_custody r <$> tr_repositories r)
  else
    let? r := contract (not_started_from_slice (rt_raw_bytes row)) in
    Ok (not_started_work_item (wi_id item) r,
        final_question (wi_id item) <$> nr_human_questions r, []).

Definition build_final_document (packet : NightshiftPacketV1) (run_id : string)
    (updated_at : instant) (s : Store) : result ForemanError FinalReceiptDocument :=
  let? items := map_try (final_item run_id s) (pk_work_items packet) in
  Ok {| fd_schema := "nightshift.run-receipts/v1";
        fd_packet_digest := pk_packet_digest packet;
        fd_updated_at := to_rfc3339_secs updated_at;
        fd_work_items := (fun x => x.1.1) <$> items;
        fd_human_questions := items ≫= (fun x => x.1.2);
        fd_repository_custody := items ≫= (fun x => x.2) |}.

(** The instant of a receipt row, and the latest of a run. *)
Definition receipt_instant (row : ReceiptRow) : result ForemanError instant :=
  if String.eqb (rt_receipt_kind row) "terminal" then
    let? r := contract (terminal_from_slice (rt_raw_bytes row)) in Ok (tr_ended_at r)
  else
    let? r := contract (not_started_from_slice (rt_raw_bytes row)) in Ok (nr_recorded_at r).

Definition run_receipts (run_id : string) (s : Store) : list (string * ReceiptRow) :=
  (fun kv => (kv.1.2, kv.2)) <$>
    List.filter (fun kv => String.eqb kv.1.1 run_id) (map_to_list (st_receipts s)).

Definition latest_terminal_evidence_at (run_id : string) (s : Store)
    : result ForemanError instant :=
  let? instants := map_try (fun kv => receipt_instant kv.2) (run_receipts run_id s) in
  match instants with
  | [] => Err (IncompleteCloseout "no terminal evidence")
  | t :: ts => Ok (foldl Z.max t ts)
  end.
End brief.
