(* ===== verification/History.v ===== *)
(** * Journal history (crates/nightshift-foreman/src/store.rs)

    Reading a run back: every retained row is checked against its canonical
    bytes and its columns, the capacity events against each other, and the
    execution-availability events as a history with one lane per attempt; then
    the rows are replayed into the live projection. *)
From S2P Require Import Prelude Text External Packet Capacity Contract Availability Scheduler.
From S2P Require Import Prelaunch Bootstrap Evidence Graph Journal Requirements.
Local Open Scope string_scope.

(** ** Rows *)

(** [option.as_deref() != Some(value)]. *)
Definition not_some (o : option string) (v : string) : bool :=
  negb (bool_decide (o = Some v)).

#[global] Instance ForemanCapacityAdmissionV1_eq_dec : EqDecision ForemanCapacityAdmissionV1.
Proof. solve_decision. Defined.
#[global] Instance WorkerStartRequestV2_eq_dec : EqDecision WorkerStartRequestV2.
Proof. solve_decision. Defined.
#[global] Instance NotStartedReceiptV1_eq_dec : EqDecision NotStartedReceiptV1.
Proof. solve_decision. Defined.

Section rows.
Context {DOC : Documents}.

Definition INTERNAL_KINDS : list string :=
  "internal" :: (CAPACITY_KINDS ++ EXECUTION_AVAILABILITY_KINDS)%list.

Definition payload_kind (p : InternalPayload) : string :=
  match p with
  | CapacityRequirementAdmitted _ _ => "capacity_requirement"
  | CapacityAdmissionAccepted _ _ _ _ _ => "capacity_admission"
  | _ => default "internal" (execution_availability_row_kind p)
  end.

Definition adapter_row_differs (row : ReadOnlyEventRowV1) (run_id packet_digest : string)
    (profile : ExecutionProfileV2) (event : AdapterEventV1) : bool :=
  negb (String.eqb (ae_event_id event) (ro_event_id row))
  || negb (String.eqb (ae_run_id event) run_id)
  || negb (String.eqb (ae_packet_digest event) packet_digest)
  || not_some (ro_work_item_id row) (ae_work_item_id event)
  || not_some (ro_attempt_id row) (ae_attempt_id event)
  || negb (String.eqb (to_rfc3339 (ae_occurred_at event)) (ro_recorded_at row))
  || not_some (wx_adapter_id <$> ep_work_items profile !! ae_work_item_id event)
       (ae_adapter_id event)
  || not_some (ar_adapter_version <$> ep_adapters profile !! ae_adapter_id event)
       (ae_adapter_version event).

Definition internal_row_differs (row : ReadOnlyEventRowV1) (run_id : string)
    (event : InternalEvent) : bool :=
  negb (String.eqb (ro_kind row) (payload_kind (ie_payload event)))
  || negb (String.eqb (ie_schema event) INTERNAL_EVENT_SCHEMA)
  || negb (String.eqb (ie_event_id event) (ro_event_id row))
  || negb (String.eqb (ie_run_id event) run_id)
  || negb (bool_decide (ie_work_item_id event = ro_work_item_id row))
  || negb (bool_decide (ie_attempt_id event = ro_attempt_id row))
  || negb (String.eqb (to_rfc3339 (ie_recorded_at event)) (ro_recorded_at row)).

Definition validate_read_only_event_row (run_id packet_digest : string)
    (profile : ExecutionProfileV2) (row : ReadOnlyEventRowV1) : result ForemanError unit :=
  reject ((ro_sequence row =? 0)%N
          || negb (String.eqb (ro_raw_digest row) (raw_digest (ro_raw_bytes row))))
    (ReadOnlyStore "journal sequence or retained-raw digest mismatch") ;?
  if String.eqb (ro_kind row) "adapter_event" then
    let? event := contract (event_from_slice (ro_raw_bytes row)) in
    contract (event_validate event) ;?
    reject (adapter_row_differs row run_id packet_digest profile event)
      (ReadOnlyStore "adapter event row identity mismatch")
  else if kind_in INTERNAL_KINDS row then
    let? event := serialized (from_slice (ro_raw_bytes row)) in
    reject (internal_row_differs row run_id event)
      (ReadOnlyStore "internal event row identity mismatch") ;?
    let? differs := differs_from event (ro_raw_bytes row) in
    reject differs (ReadOnlyStore "internal event exact bytes are not canonical") ;?
    match ie_payload event with
    | AttemptCreated _ start_request =>
        contract (start_validate start_request) ;?
        reject (negb (String.eqb (sr_run_id start_request) run_id)
                || negb (String.eqb (sr_packet_digest start_request) packet_digest)
                || not_some (ie_work_item_id event) (sr_work_item_id start_request)
                || not_some (ie_attempt_id event) (sr_attempt_id start_request))
          (ReadOnlyStore "attempt-created start request mismatch")
    | _ => Ok tt
    end
  else Err (ReadOnlyStore "unknown journal row kind").

(** ** Capacity events *)

Record ReadOnlyCapacityRequirementV1 := {
  qr_recorded_at : string;
  qr_requirement : ForemanCapacityRequirementV1;
  qr_requirement_bytes : string
}.

Record ReadOnlyCapacityAdmissionV1 := {
  qa_work_item_id : string;
  qa_attempt_id : string;
  qa_recorded_at : string;
  qa_capacity_admission : ForemanCapacityAdmissionV1;
  qa_admission_bytes : string;
  qa_observation_bytes : string;
  qa_policy_bytes : string;
  qa_decision_bytes : string
}.

(** The variables of the loop of [read_only_capacity_admissions]. *)
Record CapacityScan := {
  ks_requirement : option ReadOnlyCapacityRequirementV1;
  ks_attempts : gset string;
  ks_by_attempt : gmap string ReadOnlyCapacityAdmissionV1
}.

Definition on_capacity_requirement (packet : NightshiftPacketV1) (admission : ForemanAdmissionV1)
    (profile : ExecutionProfileV2) (event : InternalEvent)
    (candidate : ForemanCapacityRequirementV1) (bytes : string) (s : CapacityScan)
    : result ForemanError CapacityScan :=
  let invalid := ReadOnlyStore "capacity requirement event custody is invalid" in
  reject (bool_decide (is_Some (ks_requirement s)) || bool_decide (is_Some (ie_work_item_id event))
          || bool_decide (is_Some (ie_attempt_id event))) invalid ;?
  let? differs := differs_from candidate bytes in
  reject differs invalid ;?
  contract (capacity_requirement_validate candidate) ;?
  validate_capacity_requirement candidate packet admission profile ;?
  Ok {| ks_requirement := Some {| qr_recorded_at := to_rfc3339 (ie_recorded_at event);
                                  qr_requirement := candidate; qr_requirement_bytes := bytes |};
        ks_attempts := ks_attempts s; ks_by_attempt := ks_by_attempt s |}.

Definition on_capacity_admission (packet : NightshiftPacketV1) (admission : ForemanAdmissionV1)
    (profile : ExecutionProfileV2) (event : InternalEvent)
    (capacity_admission : ForemanCapacityAdmissionV1)
    (admission_bytes observation_bytes policy_bytes decision_bytes : string) (s : CapacityScan)
    : result ForemanError CapacityScan :=
  let? work_item_id := ok_or (ie_work_item_id event)
    (ReadOnlyStore "capacity admission lacks work item identity") in
  let? attempt_id := ok_or (ie_attempt_id event)
    (ReadOnlyStore "capacity admission lacks attempt identity") in
  let? bundle :=
    validate_capacity_bundle admission_bytes observation_bytes policy_bytes decision_bytes in
  reject (negb (bool_decide (vc_admission bundle = capacity_admission))
          || bool_decide (is_Some (ks_by_attempt s !! attempt_id)))
    (ReadOnlyStore "capacity admission event exact bytes or identity disagree") ;?
  let? requirement := ok_or (ks_requirement s)
    (ReadOnlyStore "capacity admission precedes immutable requirement") in
  validate_capacity_bindings bundle packet admission profile (qr_requirement requirement)
    work_item_id (ie_recorded_at event) ;?
  Ok {| ks_requirement := ks_requirement s; ks_attempts := ks_attempts s;
        ks_by_attempt := <[attempt_id :=
          {| qa_work_item_id := work_item_id; qa_attempt_id := attempt_id;
             qa_recorded_at := to_rfc3339 (ie_recorded_at event);
             qa_capacity_admission := capacity_admission;
             qa_admission_bytes := admission_bytes; qa_observation_bytes := observation_bytes;
             qa_policy_bytes := policy_bytes; qa_decision_bytes := decision_bytes |}]>
          (ks_by_attempt s) |}.

Definition on_capacity_event (packet : NightshiftPacketV1) (admission : ForemanAdmissionV1)
    (profile : ExecutionProfileV2) (row : ReadOnlyEventRowV1) (s : CapacityScan)
    : result ForemanError CapacityScan :=
  if String.eqb (ro_kind row) "adapter_event" then Ok s else
  let? event := serialized (from_slice (ro_raw_bytes row)) in
  match ie_payload event with
  | CapacityRequirementAdmitted candidate bytes =>
      on_capacity_requirement packet admission profile event candidate bytes s
  | CapacityAdmissionAccepted c b1 b2 b3 b4 =>
      on_capacity_admission packet admission profile event c b1 b2 b3 b4 s
  | AttemptCreated _ _ =>
      let? attempt_id := ok_or (ie_attempt_id event)
        (ReadOnlyStore "attempt-created lacks identity") in
      Ok {| ks_requirement := ks_requirement s; ks_attempts := {[attempt_id]} ∪ ks_attempts s;
            ks_by_attempt := ks_by_attempt s |}
  | _ => Ok s
  end.

Record ValidatedCapacityHistory := {
  vh_requirement : option ReadOnlyCapacityRequirementV1;
  vh_admissions : list ReadOnlyCapacityAdmissionV1
}.

Definition read_only_capacity_admissions (rows : list ReadOnlyEventRowV1)
    (packet : NightshiftPacketV1) (admission : ForemanAdmissionV1) (profile : ExecutionProfileV2)
    : result ForemanError ValidatedCapacityHistory :=
  let? s := fold_try (on_capacity_event packet admission profile) rows
    {| ks_requirement := None; ks_attempts := ∅; ks_by_attempt := ∅ |} in
  reject (bool_decide (is_Some (ks_requirement s))
          && negb (bool_decide (ks_attempts s = dom (ks_by_attempt s))))
    (ReadOnlyStore "capacity-required attempt graph is incomplete") ;?
  reject (negb (bool_decide (is_Some (ks_requirement s)))
          && negb (bool_decide (ks_by_attempt s = ∅)))
    (ReadOnlyStore "legacy run carries capacity admission evidence") ;?
  Ok {| vh_requirement := ks_requirement s; vh_admissions := btree_values (ks_by_attempt s) |}.

(** ** Placement of the capacity events *)

Definition parse_row (row : ReadOnlyEventRowV1) : result ForemanError (option InternalEvent) :=
  if String.eqb (ro_kind row) "adapter_event" then Ok None
  else let? event := serialized (from_slice (ro_raw_bytes row)) in Ok (Some event).

(** [parsed.get(i).and_then(Option::as_ref)]. *)
Definition parsed_at (parsed : list (ReadOnlyEventRowV1 * option InternalEvent)) (i : nat)
    : option (ReadOnlyEventRowV1 * InternalEvent) :=
  match parsed !! i with Some (row, Some event) => Some (row, event) | _ => None end.

Definition is_run_admitted (e : option InternalEvent) : bool :=
  match e with Some e => match ie_payload e with RunAdmitted => true | _ => false end
  | None => false end.

Definition run_positions (parsed : list (ReadOnlyEventRowV1 * option InternalEvent)) : list nat :=
  fst <$> List.filter (fun ie => is_run_admitted ie.2.2) (imap pair parsed).

(** The requirement follows the admission of the run immediately. *)
Definition check_requirement_placement
    (parsed : list (ReadOnlyEventRowV1 * option InternalEvent)) (position : nat)
    : result ForemanError unit :=
  let? '(next_row, next) := ok_or (parsed_at parsed (position + 1))
    (ReadOnlyStore "capacity-required run lacks adjacent requirement event") in
  let? '(row, event) := ok_or (parsed_at parsed position) (Panicked "parsed[index]") in
  reject (match ie_payload next with CapacityRequirementAdmitted _ _ => false | _ => true end
          || negb (ro_sequence next_row =? ro_sequence row + 1)%N
          || negb (ie_recorded_at next =? ie_recorded_at event)%Z)
    (ReadOnlyStore "capacity requirement is not adjacent to exact run admission").

Definition admission_attempt_differs (row next_row : ReadOnlyEventRowV1)
    (event next : InternalEvent) (c : ForemanCapacityAdmissionV1) (start : WorkerStartRequestV2)
    : bool :=
  negb (ro_sequence next_row =? ro_sequence row + 1)%N
  || negb (String.eqb (ie_run_id next) (ie_run_id event))
  || negb (bool_decide (ie_work_item_id next = ie_work_item_id event))
  || negb (bool_decide (ie_attempt_id next = ie_attempt_id event))
  || negb (ie_recorded_at next =? ie_recorded_at event)%Z
  || negb (String.eqb (cm_packet_digest c) (sr_packet_digest start))
  || negb (String.eqb (cm_run_id c) (sr_run_id start))
  || negb (String.eqb (cm_work_item_id c) (sr_work_item_id start))
  || negb (String.eqb (cm_adapter_id c) (sr_adapter_id start))
  || negb (String.eqb (cm_profile_model_class c) (sr_provider_model_class start))
  || not_some (ie_attempt_id event) (sr_attempt_id start).

Definition check_capacity_neighbours (required : bool) (run_position : nat)
    (parsed : list (ReadOnlyEventRowV1 * option InternalEvent))
    (entry : nat * (ReadOnlyEventRowV1 * option InternalEvent)) : result ForemanError unit :=
  let '(i, (row, event)) := entry in
  match event with
  | None => Ok tt
  | Some event =>
      match ie_payload event with
      | CapacityRequirementAdmitted _ _ =>
          reject (negb required || (i =? 0)%nat || negb (run_position + 1 =? i)%nat)
            (ReadOnlyStore "capacity requirement placement is invalid")
      | CapacityAdmissionAccepted c _ _ _ _ =>
          let? '(next_row, next) := ok_or (parsed_at parsed (i + 1))
            (ReadOnlyStore "capacity admission lacks adjacent attempt creation") in
          match ie_payload next with
          | AttemptCreated _ start =>
              reject (admission_attempt_differs row next_row event next c start)
                (ReadOnlyStore "capacity admission and attempt creation identities disagree")
          | _ => Err (ReadOnlyStore "capacity admission is not followed by attempt creation")
          end
      | AttemptCreated _ _ =>
          let admitted := match i with
            | O => false
            | S previous =>
                match parsed_at parsed previous with
                | Some (_, p) =>
                    match ie_payload p with CapacityAdmissionAccepted _ _ _ _ _ => true | _ => false end
                | None => false
                end
            end in
          reject (required && negb admitted)
            (ReadOnlyStore "capacity-required attempt lacks adjacent admission")
      | _ => Ok tt
      end
  end.

Definition capacity_row_bound (packet : NightshiftPacketV1) : N :=
  (N.of_nat (length (pk_work_items packet)) + 1)%N.

Definition validate_capacity_history (rows : list ReadOnlyEventRowV1)
    (packet : NightshiftPacketV1) (admission : ForemanAdmissionV1) (profile : ExecutionProfileV2)
    (s : Store) : result ForemanError ValidatedCapacityHistory :=
  let? _ := validate_capacity_history_size (fa_run_id admission)
    (ep_maximum_event_bytes profile) (capacity_row_bound packet) s in
  for_each (validate_read_only_event_row (fa_run_id admission) (pk_packet_digest packet) profile)
    rows ;?
  let? validated := read_only_capacity_admissions rows packet admission profile in
  let? events := map_try parse_row rows in
  let parsed := zip rows events in
  let required := bool_decide (is_Some (vh_requirement validated)) in
  match run_positions parsed with
  | [position] =>
      (if required then check_requirement_placement parsed position else Ok tt) ;?
      for_each (check_capacity_neighbours required position parsed) (imap pair parsed) ;?
      Ok validated
  | _ => Err (ReadOnlyStore "journal must contain one exact run-admitted event")
  end.
End rows.

(** ** Execution-availability history: data *)

Inductive AvailabilityLaneEvent :=
| LaneDispatch (dispatch_digest : string)
| LanePrelaunchClosed
| LaneDisposition (disposition_digest : string)
| LaneReacquired (wake_occurrence_id next_dispatch_digest : string) (sequence : N)
    (recorded_at : instant)
| LaneWake (next_dispatch_digest : string) (sequence : N) (recorded_at : instant)
| LaneResume.

#[global] Instance AvailabilityLaneEvent_eq_dec : EqDecision AvailabilityLaneEvent.
Proof. solve_decision. Defined.

(** What the source keeps of a history, and the updates its loop makes.  The
    fields are appended to in journal order. *)

Record ReadOnlyProviderResourceTransitionV1 := {
  tn_transition : string;
  tn_work_item_id : string;
  tn_work_attempt_id : string;
  tn_dispatch_digest : string;
  tn_disposition_digest : option string;
  tn_deferred_dispatch_digest : option string;
  tn_policy_digest : string;
  tn_wake_occurrence_id : option string;
  tn_resource_lock_keys : list string;
  tn_recorded_at : instant
}.

Record ReadOnlyExecutionAvailabilityHistoryV1 := {
  xh_requirement : ForemanExecutionAvailabilityRequirementV1;
  xh_requirement_bytes : string;
  xh_policy : ExecutionAvailabilityPolicyV1;
  xh_policy_bytes : string;
  xh_worker_start_requests : list WorkerStartRequestV3;
  xh_dispatches : list ProviderDispatchOccurrenceV1;
  xh_observations : list ExecutionAvailabilityObservationV1;
  xh_dispositions : list ProviderAdmissionDispositionV1;
  xh_deferred : list DeferredProviderDispatchV1;
  xh_wake_occurrence_ids : list string;
  xh_wake_work_attempt_ids : list string;
  xh_wake_next_dispatch_digests : list string;
  xh_resume_occurrence_ids : list string;
  xh_resume_work_item_ids : list string;
  xh_resume_work_attempt_ids : list string;
  xh_resume_adapter_process_occurrence_ids : list string;
  xh_resume_execution_identities : list ProviderExecutionIdentityV1;
  xh_resume_disposition_digests : list string;
  xh_resume_recorded_at : list instant;
  xh_resource_transitions : list ReadOnlyProviderResourceTransitionV1
}.

Section updates.
Local Open Scope list_scope.

Definition push_dispatch (start : WorkerStartRequestV3)
    (dispatch : ProviderDispatchOccurrenceV1) (r : ReadOnlyExecutionAvailabilityHistoryV1) : ReadOnlyExecutionAvailabilityHistoryV1 :=
  {| xh_requirement := xh_requirement r; xh_requirement_bytes := xh_requirement_bytes r;
     xh_policy := xh_policy r; xh_policy_bytes := xh_policy_bytes r;
     xh_worker_start_requests := xh_worker_start_requests r ++ [start];
     xh_dispatches := xh_dispatches r ++ [dispatch]; xh_observations := xh_observations r;
     xh_dispositions := xh_dispositions r; xh_deferred := xh_deferred r;
     xh_wake_occurrence_ids := xh_wake_occurrence_ids r;
     xh_wake_work_attempt_ids := xh_wake_work_attempt_ids r;
     xh_wake_next_dispatch_digests := xh_wake_next_dispatch_digests r;
     xh_resume_occurrence_ids := xh_resume_occurrence_ids r;
     xh_resume_work_item_ids := xh_resume_work_item_ids r;
     xh_resume_work_attempt_ids := xh_resume_work_attempt_ids r;
     xh_resume_adapter_process_occurrence_ids := xh_resume_adapter_process_occurrence_ids r;
     xh_resume_execution_identities := xh_resume_execution_identities r;
     xh_resume_disposition_digests := xh_resume_disposition_digests r;
     xh_resume_recorded_at := xh_resume_recorded_at r;
     xh_resource_transitions := xh_resource_transitions r |}.

Definition push_disposition (observation : ExecutionAvailabilityObservationV1)
    (disposition : ProviderAdmissionDispositionV1) (deferred : option DeferredProviderDispatchV1)
    (r : ReadOnlyExecutionAvailabilityHistoryV1) : ReadOnlyExecutionAvailabilityHistoryV1 :=
  {| xh_requirement := xh_requirement r; xh_requirement_bytes := xh_requirement_bytes r;
     xh_policy := xh_policy r; xh_policy_bytes := xh_policy_bytes r;
     xh_worker_start_requests := xh_worker_start_requests r;
     xh_dispatches := xh_dispatches r;
     xh_observations := xh_observations r ++ [observation];
     xh_dispositions := xh_dispositions r ++ [disposition];
     xh_deferred := xh_deferred r ++ option_list deferred;
     xh_wake_occurrence_ids := xh_wake_occurrence_ids r;
     xh_wake_work_attempt_ids := xh_wake_work_attempt_ids r;
     xh_wake_next_dispatch_digests := xh_wake_next_dispatch_digests r;
     xh_resume_occurrence_ids := xh_resume_occurrence_ids r;
     xh_resume_work_item_ids := xh_resume_work_item_ids r;
     xh_resume_work_attempt_ids := xh_resume_work_attempt_ids r;
     xh_resume_adapter_process_occurrence_ids := xh_resume_adapter_process_occurrence_ids r;
     xh_resume_execution_identities := xh_resume_execution_identities r;
     xh_resume_disposition_digests := xh_resume_disposition_digests r;
     xh_resume_recorded_at := xh_resume_recorded_at r;
     xh_resource_transitions := xh_resource_transitions r |}.

Definition push_wake (wake attempt next : string) (r : ReadOnlyExecutionAvailabilityHistoryV1) : ReadOnlyExecutionAvailabilityHistoryV1 :=
  {| xh_requirement := xh_requirement r; xh_requirement_bytes := xh_requirement_bytes r;
     xh_policy := xh_policy r; xh_policy_bytes := xh_policy_bytes r;
     xh_worker_start_requests := xh_worker_start_requests r;
     xh_dispatches := xh_dispatches r; xh_observations := xh_observations r;
     xh_dispositions := xh_dispositions r; xh_deferred := xh_deferred r;
     xh_wake_occurrence_ids := xh_wake_occurrence_ids r ++ [wake];
     xh_wake_work_attempt_ids := xh_wake_work_attempt_ids r ++ [attempt];
     xh_wake_next_dispatch_digests := xh_wake_next_dispatch_digests r ++ [next];
     xh_resume_occurrence_ids := xh_resume_occurrence_ids r;
     xh_resume_work_item_ids := xh_resume_work_item_ids r;
     xh_resume_work_attempt_ids := xh_resume_work_attempt_ids r;
     xh_resume_adapter_process_occurrence_ids := xh_resume_adapter_process_occurrence_ids r;
     xh_resume_execution_identities := xh_resume_execution_identities r;
     xh_resume_disposition_digests := xh_resume_disposition_digests r;
     xh_resume_recorded_at := xh_resume_recorded_at r;
     xh_resource_transitions := xh_resource_transitions r |}.

Definition push_resume (resume item attempt process disposition : string)
    (identity : ProviderExecutionIdentityV1) (at_ : instant) (r : ReadOnlyExecutionAvailabilityHistoryV1) : ReadOnlyExecutionAvailabilityHistoryV1 :=
  {| xh_requirement := xh_requirement r; xh_requirement_bytes := xh_requirement_bytes r;
     xh_policy := xh_policy r; xh_policy_bytes := xh_policy_bytes r;
     xh_worker_start_requests := xh_worker_start_requests r;
     xh_dispatches := xh_dispatches r; xh_observations := xh_observations r;
     xh_dispositions := xh_dispositions r; xh_deferred := xh_deferred r;
     xh_wake_occurrence_ids := xh_wake_occurrence_ids r;
     xh_wake_work_attempt_ids := xh_wake_work_attempt_ids r;
     xh_wake_next_dispatch_digests := xh_wake_next_dispatch_digests r;
     xh_resume_occurrence_ids := xh_resume_occurrence_ids r ++ [resume];
     xh_resume_work_item_ids := xh_resume_work_item_ids r ++ [item];
     xh_resume_work_attempt_ids := xh_resume_work_attempt_ids r ++ [attempt];
     xh_resume_adapter_process_occurrence_ids := xh_resume_adapter_process_occurrence_ids r ++ [process];
     xh_resume_execution_identities := xh_resume_execution_identities r ++ [identity];
     xh_resume_disposition_digests := xh_resume_disposition_digests r ++ [disposition];
     xh_resume_recorded_at := xh_resume_recorded_at r ++ [at_];
     xh_resource_transitions := xh_resource_transitions r |}.

Definition push_transition (transition : ReadOnlyProviderResourceTransitionV1) (r : ReadOnlyExecutionAvailabilityHistoryV1) : ReadOnlyExecutionAvailabilityHistoryV1 :=
  {| xh_requirement := xh_requirement r; xh_requirement_bytes := xh_requirement_bytes r;
     xh_policy := xh_policy r; xh_policy_bytes := xh_policy_bytes r;
     xh_worker_start_requests := xh_worker_start_requests r;
     xh_dispatches := xh_dispatches r; xh_observations := xh_observations r;
     xh_dispositions := xh_dispositions r; xh_deferred := xh_deferred r;
     xh_wake_occurrence_ids := xh_wake_occurrence_ids r;
     xh_wake_work_attempt_ids := xh_wake_work_attempt_ids r;
     xh_wake_next_dispatch_digests := xh_wake_next_dispatch_digests r;
     xh_resume_occurrence_ids := xh_resume_occurrence_ids r;
     xh_resume_work_item_ids := xh_resume_work_item_ids r;
     xh_resume_work_attempt_ids := xh_resume_work_attempt_ids r;
     xh_resume_adapter_process_occurrence_ids := xh_resume_adapter_process_occurrence_ids r;
     xh_resume_execution_identities := xh_resume_execution_identities r;
     xh_resume_disposition_digests := xh_resume_disposition_digests r;
     xh_resume_recorded_at := xh_resume_recorded_at r;
     xh_resource_transitions := xh_resource_transitions r ++ [transition] |}.

End updates.

(** The variables of the loop of [validate_execution_availability_history_rows]. *)
Record HistoryState := {
  hs_run_admitted : option (N * instant);
  hs_attempts : gmap (string * string) (WorkerStartRequestV2 * N * instant);
  hs_lane_last : gmap (string * string) AvailabilityLaneEvent;
  hs_history : option ReadOnlyExecutionAvailabilityHistoryV1;
  hs_dispatch_ids : gset string;
  hs_dispatch_digests : gset string;
  hs_wake_ids : gset string;
  hs_resume_ids : gset string;
  hs_adapter_process_ids : gset string;
  hs_app_server_session_ids : gset string;
  hs_disposition_rows : gmap string (N * instant);
  hs_released_disposition_digests : gset string;
  hs_expected_claims : gmap string (string * string)
}.

Definition set_run_admitted (v : option (N * instant)) (r : HistoryState) : HistoryState :=
  {| hs_run_admitted := v; hs_attempts := hs_attempts r; hs_lane_last := hs_lane_last r;
     hs_history := hs_history r; hs_dispatch_ids := hs_dispatch_ids r;
     hs_dispatch_digests := hs_dispatch_digests r; hs_wake_ids := hs_wake_ids r;
     hs_resume_ids := hs_resume_ids r; hs_adapter_process_ids := hs_adapter_process_ids r;
     hs_app_server_session_ids := hs_app_server_session_ids r;
     hs_disposition_rows := hs_disposition_rows r;
     hs_released_disposition_digests := hs_released_disposition_digests r;
     hs_expected_claims := hs_expected_claims r |}.

Definition set_attempts (v : gmap (string * string) (WorkerStartRequestV2 * N * instant)) (r : HistoryState) : HistoryState :=
  {| hs_run_admitted := hs_run_admitted r; hs_attempts := v; hs_lane_last := hs_lane_last r;
     hs_history := hs_history r; hs_dispatch_ids := hs_dispatch_ids r;
     hs_dispatch_digests := hs_dispatch_digests r; hs_wake_ids := hs_wake_ids r;
     hs_resume_ids := hs_resume_ids r; hs_adapter_process_ids := hs_adapter_process_ids r;
     hs_app_server_session_ids := hs_app_server_session_ids r;
     hs_disposition_rows := hs_disposition_rows r;
     hs_released_disposition_digests := hs_released_disposition_digests r;
     hs_expected_claims := hs_expected_claims r |}.

Definition set_lane_last (v : gmap (string * string) AvailabilityLaneEvent) (r : HistoryState) : HistoryState :=
  {| hs_run_admitted := hs_run_admitted r; hs_attempts := hs_attempts r; hs_lane_last := v;
     hs_history := hs_history r; hs_dispatch_ids := hs_dispatch_ids r;
     hs_dispatch_digests := hs_dispatch_digests r; hs_wake_ids := hs_wake_ids r;
     hs_resume_ids := hs_resume_ids r; hs_adapter_process_ids := hs_adapter_process_ids r;
     hs_app_server_session_ids := hs_app_server_session_ids r;
     hs_disposition_rows := hs_disposition_rows r;
     hs_released_disposition_digests := hs_released_disposition_digests r;
     hs_expected_claims := hs_expected_claims r |}.

Definition set_history (v : option ReadOnlyExecutionAvailabilityHistoryV1) (r : HistoryState) : HistoryState :=
  {| hs_run_admitted := hs_run_admitted r; hs_attempts := hs_attempts r;
     hs_lane_last := hs_lane_last r; hs_history := v; hs_dispatch_ids := hs_dispatch_ids r;
     hs_dispatch_digests := hs_dispatch_digests r; hs_wake_ids := hs_wake_ids r;
     hs_resume_ids := hs_resume_ids r; hs_adapter_process_ids := hs_adapter_process_ids r;
     hs_app_server_session_ids := hs_app_server_session_ids r;
     hs_disposition_rows := hs_disposition_rows r;
     hs_released_disposition_digests := hs_released_disposition_digests r;
     hs_expected_claims := hs_expected_claims r |}.

Definition set_wake_ids (v : gset string) (r : HistoryState) : HistoryState :=
  {| hs_run_admitted := hs_run_admitted r; hs_attempts := hs_attempts r;
     hs_lane_last := hs_lane_last r; hs_history := hs_history r;
     hs_dispatch_ids := hs_dispatch_ids r; hs_dispatch_digests := hs_dispatch_digests r;
     hs_wake_ids := v; hs_resume_ids := hs_resume_ids r;
     hs_adapter_process_ids := hs_adapter_process_ids r;
     hs_app_server_session_ids := hs_app_server_session_ids r;
     hs_disposition_rows := hs_disposition_rows r;
     hs_released_disposition_digests := hs_released_disposition_digests r;
     hs_expected_claims := hs_expected_claims r |}.

Definition set_resume_ids (v : gset string) (r : HistoryState) : HistoryState :=
  {| hs_run_admitted := hs_run_admitted r; hs_attempts := hs_attempts r;
     hs_lane_last := hs_lane_last r; hs_history := hs_history r;
     hs_dispatch_ids := hs_dispatch_ids r; hs_dispatch_digests := hs_dispatch_digests r;
     hs_wake_ids := hs_wake_ids r; hs_resume_ids := v;
     hs_adapter_process_ids := hs_adapter_process_ids r;
     hs_app_server_session_ids := hs_app_server_session_ids r;
     hs_disposition_rows := hs_disposition_rows r;
     hs_released_disposition_digests := hs_released_disposition_digests r;
     hs_expected_claims := hs_expected_claims r |}.

Definition set_adapter_process_ids (v : gset string) (r : HistoryState) : HistoryState :=
  {| hs_run_admitted := hs_run_admitted r; hs_attempts := hs_attempts r;
     hs_lane_last := hs_lane_last r; hs_history := hs_history r;
     hs_dispatch_ids := hs_dispatch_ids r; hs_dispatch_digests := hs_dispatch_digests r;
     hs_wake_ids := hs_wake_ids r; hs_resume_ids := hs_resume_ids r;
     hs_adapter_process_ids := v; hs_app_server_session_ids := hs_app_server_session_ids r;
     hs_disposition_rows := hs_disposition_rows r;
     hs_released_disposition_digests := hs_released_disposition_digests r;
     hs_expected_claims := hs_expected_claims r |}.

Definition set_disposition_rows (v : gmap string (N * instant)) (r : HistoryState) : HistoryState :=
  {| hs_run_admitted := hs_run_admitted r; hs_attempts := hs_attempts r;
     hs_lane_last := hs_lane_last r; hs_history := hs_history r;
     hs_dispatch_ids := hs_dispatch_ids r; hs_dispatch_digests := hs_dispatch_digests r;
     hs_wake_ids := hs_wake_ids r; hs_resume_ids := hs_resume_ids r;
     hs_adapter_process_ids := hs_adapter_process_ids r;
     hs_app_server_session_ids := hs_app_server_session_ids r; hs_disposition_rows := v;
     hs_released_disposition_digests := hs_released_disposition_digests r;
     hs_expected_claims := hs_expected_claims r |}.

Definition set_released_disposition_digests (v : gset string) (r : HistoryState) : HistoryState :=
  {| hs_run_admitted := hs_run_admitted r; hs_attempts := hs_attempts r;
     hs_lane_last := hs_lane_last r; hs_history := hs_history r;
     hs_dispatch_ids := hs_dispatch_ids r; hs_dispatch_digests := hs_dispatch_digests r;
     hs_wake_ids := hs_wake_ids r; hs_resume_ids := hs_resume_ids r;
     hs_adapter_process_ids := hs_adapter_process_ids r;
     hs_app_server_session_ids := hs_app_server_session_ids r;
     hs_disposition_rows := hs_disposition_rows r; hs_released_disposition_digests := v;
     hs_expected_claims := hs_expected_claims r |}.

Definition set_expected_claims (v : gmap string (string * string)) (r : HistoryState) : HistoryState :=
  {| hs_run_admitted := hs_run_admitted r; hs_attempts := hs_attempts r;
     hs_lane_last := hs_lane_last r; hs_history := hs_history r;
     hs_dispatch_ids := hs_dispatch_ids r; hs_dispatch_digests := hs_dispatch_digests r;
     hs_wake_ids := hs_wake_ids r; hs_resume_ids := hs_resume_ids r;
     hs_adapter_process_ids := hs_adapter_process_ids r;
     hs_app_server_session_ids := hs_app_server_session_ids r;
     hs_disposition_rows := hs_disposition_rows r;
     hs_released_disposition_digests := hs_released_disposition_digests r;
     hs_expected_claims := v |}.

Definition set_dispatch_sets (a b c d : gset string) (r : HistoryState) : HistoryState :=
  {| hs_run_admitted := hs_run_admitted r; hs_attempts := hs_attempts r;
     hs_lane_last := hs_lane_last r; hs_history := hs_history r; hs_dispatch_ids := a;
     hs_dispatch_digests := b; hs_wake_ids := hs_wake_ids r;
     hs_resume_ids := hs_resume_ids r; hs_adapter_process_ids := c;
     hs_app_server_session_ids := d; hs_disposition_rows := hs_disposition_rows r;
     hs_released_disposition_digests := hs_released_disposition_digests r;
     hs_expected_claims := hs_expected_claims r |}.


(** ** Execution-availability history: the loop *)

Section history.
Context {DOC : Documents} {PE : ProviderEvidence}.
Context (packet : NightshiftPacketV1) (admission : ForemanAdmissionV1)
(profile : ExecutionProfileV2).

Definition no_history (what : string) : ForemanError :=
  ReadOnlyStore (what +:+ " lacks immutable availability requirement").

(** [event.work_item_id.ok_or_else(..)?], then the attempt. *)
Definition event_lane (what : string) (event : InternalEvent)
    : result ForemanError (string * string) :=
  let? work_item_id := ok_or (ie_work_item_id event)
    (ReadOnlyStore (what +:+ " lacks work item")) in
  let? attempt_id := ok_or (ie_attempt_id event)
    (ReadOnlyStore (what +:+ " lacks attempt")) in
  Ok (work_item_id, attempt_id).

Definition on_run_admitted (row : ReadOnlyEventRowV1) (event : InternalEvent) (h : HistoryState)
    : result ForemanError HistoryState :=
  reject (bool_decide (is_Some (hs_run_admitted h)))
    (ReadOnlyStore "execution availability history has duplicate run admission") ;?
  Ok (set_run_admitted (Some (ro_sequence row, ie_recorded_at event)) h).

(** [expected_claims.insert(key, holder).is_some()] refuses an overlap. *)
Definition expect_claim (holder : string * string) (overlap : ForemanError) (key : string)
    (claims : gmap string (string * string)) : result ForemanError (gmap string (string * string)) :=
  reject (bool_decide (is_Some (claims !! key))) overlap ;?
  Ok (<[key := holder]> claims).

Definition on_attempt_created (row : ReadOnlyEventRowV1) (event : InternalEvent)
    (resource_lock_keys : list string) (start_request : WorkerStartRequestV2) (h : HistoryState)
    : result ForemanError HistoryState :=
  let? work_item_id := ok_or (ie_work_item_id event)
    (ReadOnlyStore "attempt lacks work-item identity") in
  let? attempt_id := ok_or (ie_attempt_id event)
    (ReadOnlyStore "attempt lacks attempt identity") in
  reject (bool_decide (is_Some (hs_attempts h !! (work_item_id, attempt_id))))
    (ReadOnlyStore "duplicate work-attempt identity") ;?
  let? claims := fold_try
    (expect_claim (work_item_id, attempt_id)
       (ReadOnlyStore "resource claim history has overlapping attempt creation"))
    resource_lock_keys (hs_expected_claims h) in
  Ok (set_expected_claims claims
        (set_attempts (<[(work_item_id, attempt_id) :=
                          (start_request, ro_sequence row, ie_recorded_at event)]>
                         (hs_attempts h)) h)).

Definition empty_history (c : ValidatedExecutionAvailabilityConfiguration)
    : ReadOnlyExecutionAvailabilityHistoryV1 :=
  {| xh_requirement := xc_requirement c; xh_requirement_bytes := xc_requirement_bytes c;
     xh_policy := xc_policy c; xh_policy_bytes := xc_policy_bytes c;
     xh_worker_start_requests := []; xh_dispatches := []; xh_observations := [];
     xh_dispositions := []; xh_deferred := []; xh_wake_occurrence_ids := [];
     xh_wake_work_attempt_ids := []; xh_wake_next_dispatch_digests := [];
     xh_resume_occurrence_ids := []; xh_resume_work_item_ids := [];
     xh_resume_work_attempt_ids := []; xh_resume_adapter_process_occurrence_ids := [];
     xh_resume_execution_identities := []; xh_resume_disposition_digests := [];
     xh_resume_recorded_at := []; xh_resource_transitions := [] |}.

Definition on_configured (rows : list ReadOnlyEventRowV1) (row : ReadOnlyEventRowV1)
    (event : InternalEvent) (requirement : ForemanExecutionAvailabilityRequirementV1)
    (requirement_bytes : string) (policy : ExecutionAvailabilityPolicyV1) (policy_bytes : string)
    (h : HistoryState) : result ForemanError HistoryState :=
  reject (bool_decide (is_Some (hs_history h)) || bool_decide (is_Some (ie_work_item_id event))
          || bool_decide (is_Some (ie_attempt_id event)))
    (ReadOnlyStore "execution availability requirement is not singular run-level state") ;?
  let? '(run_sequence, run_time) := ok_or (hs_run_admitted h)
    (ReadOnlyStore "execution availability requirement precedes run admission") in
  let capacity_predecessor := existsb (fun candidate =>
    (ro_sequence candidate =? run_sequence + 1)%N
    && String.eqb (ro_kind candidate) "capacity_requirement") rows in
  let expected_sequence := (run_sequence + 1 + if capacity_predecessor then 1 else 0)%N in
  reject (negb (ro_sequence row =? expected_sequence)%N
          || negb (ie_recorded_at event =? run_time)%Z)
    (ReadOnlyStore "execution availability requirement is not adjacent to run admission") ;?
  let? configuration :=
    validate_execution_availability_configuration requirement_bytes policy_bytes in
  reject (negb (bool_decide (xc_requirement configuration = requirement))
          || negb (bool_decide (xc_policy configuration = policy)))
    (ReadOnlyStore "execution availability typed/raw configuration split") ;?
  validate_execution_availability_configuration_bindings configuration packet admission profile
    (ie_recorded_at event) ;?
  Ok (set_history (Some (empty_history configuration)) h).

(** ** Dispatches *)

Definition dispatch_identity_differs (event : InternalEvent) (d : ProviderDispatchOccurrenceV1)
    (h : HistoryState) : bool :=
  not_some (ie_work_item_id event) (di_work_item_id d)
  || not_some (ie_attempt_id event) (di_work_attempt_id d)
  || negb (ie_recorded_at event =? di_opened_at d)%Z
  || negb (String.eqb (ie_event_id event)
             ("provider-dispatch-" +:+ di_dispatch_occurrence_id d))
  || bool_decide (di_dispatch_occurrence_id d ∈ hs_dispatch_ids h)
  || bool_decide (di_dispatch_digest d ∈ hs_dispatch_digests h).

(** The lane is fresh for a first dispatch, and just woken for a later one. *)
Definition dispatch_follows (row : ReadOnlyEventRowV1) (event : InternalEvent)
    (d : ProviderDispatchOccurrenceV1) (last : option AvailabilityLaneEvent) : bool :=
  match last with
  | None => (di_dispatch_ordinal d =? 1)%N
  | Some (LaneWake next sequence recorded_at) =>
      String.eqb next (di_dispatch_digest d)
      && (ro_sequence row =? sequence + 1)%N && (ie_recorded_at event =? recorded_at)%Z
  | _ => false
  end.

Definition on_dispatch_opened (row : ReadOnlyEventRowV1) (event : InternalEvent)
    (start : WorkerStartRequestV3) (start_bytes : string)
    (dispatch : ProviderDispatchOccurrenceV1) (dispatch_bytes : string) (h : HistoryState)
    : result ForemanError HistoryState :=
  let? history := ok_or (hs_history h) (no_history "provider dispatch") in
  contract (request_v3_validate start) ;?
  contract (dispatch_validate dispatch) ;?
  let split := ReadOnlyStore "provider dispatch typed/raw custody split" in
  let? differs := differs_from start start_bytes in
  reject differs split ;?
  let? differs := differs_from dispatch dispatch_bytes in
  reject differs split ;?
  contract (validate_dispatch_graph start profile (xh_requirement history) dispatch) ;?
  reject (dispatch_identity_differs event dispatch h)
    (ReadOnlyStore "provider dispatch journal identity mismatch") ;?
  let key := (di_work_item_id dispatch, di_work_attempt_id dispatch) in
  let? '(predecessor, attempt_sequence, attempt_recorded_at) := ok_or (hs_attempts h !! key)
    (ReadOnlyStore "provider dispatch lacks exact work-attempt predecessor") in
  let? actual := contract (predecessor_v2 start) in
  reject (negb (bool_decide (actual = predecessor))
          || ((di_dispatch_ordinal dispatch =? 1)%N
              && (negb (ro_sequence row =? attempt_sequence + 1)%N
                  || negb (ie_recorded_at event =? attempt_recorded_at)%Z))
          || negb (di_dispatch_ordinal dispatch =?
               count_where (fun d => String.eqb (di_work_attempt_id d)
                                       (di_work_attempt_id dispatch))
                 (xh_dispatches history) + 1)%N)
    (ReadOnlyStore "provider dispatch attempt or ordinal discontinuity") ;?
  reject (negb (dispatch_follows row event dispatch (hs_lane_last h !! key)))
    (ReadOnlyStore "provider dispatch lacks exact attempt/wake predecessor") ;?
  let process := di_adapter_process_occurrence_id dispatch in
  reject (bool_decide (process ∈ hs_adapter_process_ids h))
    (ReadOnlyStore "adapter process occurrence is not globally unique") ;?
  let session := di_app_server_session_identity dispatch in
  reject (bool_decide (session ∈ hs_app_server_session_ids h))
    (ReadOnlyStore "App Server session identity is not globally unique per dispatch") ;?
  Ok (set_history (Some (push_dispatch start dispatch history))
       (set_lane_last (<[key := LaneDispatch (di_dispatch_digest dispatch)]> (hs_lane_last h))
         (set_dispatch_sets ({[di_dispatch_occurrence_id dispatch]} ∪ hs_dispatch_ids h)
            ({[di_dispatch_digest dispatch]} ∪ hs_dispatch_digests h)
            ({[process]} ∪ hs_adapter_process_ids h)
            ({[session]} ∪ hs_app_server_session_ids h) h))).

(** ** Pre-launch closures *)

(** The position of the first dispatch with a digest, with its start request. *)
Definition dispatch_with_digest (history : ReadOnlyExecutionAvailabilityHistoryV1)
    (digest : string) : option (WorkerStartRequestV3 * ProviderDispatchOccurrenceV1) :=
  find_first (fun sd => String.eqb (di_dispatch_digest sd.2) digest)
    (zip (xh_worker_start_requests history) (xh_dispatches history)).

Definition on_prelaunch_closure (s : Store) (event : InternalEvent) (closure : PrelaunchClosureV1)
    (receipt : NotStartedReceiptV1) (h : HistoryState) : result ForemanError HistoryState :=
  let? history := ok_or (hs_history h)
    (ReadOnlyStore "prelaunch closure lacks provider history") in
  let b := pc_binding closure in
  let key := (pb_work_item_id b, pb_work_attempt_id b) in
  reject (negb (bool_decide (hs_lane_last h !! key = Some (LaneDispatch (pb_dispatch_digest b))))
          || existsb (fun d => String.eqb (dp_work_attempt_id d) (pb_work_attempt_id b))
               (xh_dispositions history)
          || not_some (ie_work_item_id event) (pb_work_item_id b)
          || not_some (ie_attempt_id event) (pb_work_attempt_id b)
          || negb (ie_recorded_at event =? pc_closed_at closure)%Z
          || negb (String.eqb (ie_event_id event)
                     ("prelaunch-closed-" +:+ pc_closure_digest closure)))
    (ReadOnlyStore "prelaunch closure history mismatch") ;?
  let? '(start, dispatch) := ok_or (dispatch_with_digest history (pb_dispatch_digest b))
    (IdentityMismatch "prelaunch dispatch") in
  let? brief := worker_brief_bytes packet profile (pb_run_id b) (pb_work_item_id b) s in
  contract (validate_prepared closure start dispatch brief) ;?
  let? expected := prelaunch_not_started_receipt closure in
  reject (negb (bool_decide (receipt = expected)))
    (ReadOnlyStore "prelaunch receipt custody differs") ;?
  let? row := ok_or (st_receipts s !! (pb_run_id b, pb_work_item_id b))
    (Sql QueryReturnedNoRows) in
  let? differs := differs_from expected (rt_raw_bytes row) in
  reject (differs || negb (String.eqb (rt_receipt_kind row) "not_started")
          || bool_decide (is_Some (rt_attempt_id row)))
    (ReadOnlyStore "prelaunch receipt row differs") ;?
  Ok (set_lane_last (<[key := LanePrelaunchClosed]> (hs_lane_last h)) h).

(** ** Dispositions *)

Definition provider_deferral_entry (history : ReadOnlyExecutionAvailabilityHistoryV1)
    (dispatch : ProviderDispatchOccurrenceV1) : result ForemanError ProviderDeferralHistoryEntryV1 :=
  let? disposition := ok_or
    (find_first (fun d => String.eqb (dp_dispatch_digest d) (di_dispatch_digest dispatch))
       (rev (xh_dispositions history)))
    (ReadOnlyStore "prior dispatch lacks exact terminal admission disposition") in
  let? deferred := ok_or
    (find_first (fun d => String.eqb (df_disposition_digest d) (dp_disposition_digest disposition))
       (xh_deferred history))
    (ReadOnlyStore "prior not-admitted dispatch lacks exact deferral") in
  Ok {| he_dispatch := dispatch; he_disposition := disposition; he_deferred := deferred |}.

(** [sort_by_key] is a stable sort, as [merge_sort] is. *)
Definition entry_le (a b : ProviderDeferralHistoryEntryV1) : Prop :=
  (di_dispatch_ordinal (he_dispatch a) <= di_dispatch_ordinal (he_dispatch b))%N.
#[global] Instance entry_le_dec : RelDecision entry_le.
Proof. intros a b. unfold entry_le. apply _. Defined.

Definition provider_deferral_history (history : ReadOnlyExecutionAvailabilityHistoryV1)
    (attempt_id : string) (before_dispatch_ordinal : N)
    : result ForemanError (list ProviderDeferralHistoryEntryV1) :=
  let? entries := map_try (provider_deferral_entry history)
    (List.filter (fun d => String.eqb (di_work_attempt_id d) attempt_id
                           && (di_dispatch_ordinal d <? before_dispatch_ordinal)%N)
       (xh_dispatches history)) in
  Ok (merge_sort entry_le entries).

Definition validate_provider_disposition_transition
    (previous next : ProviderAdmissionDispositionV1) : result ForemanError unit :=
  reject (negb (String.eqb (dp_dispatch_digest previous) (dp_dispatch_digest next))
          || negb (String.eqb (dp_work_attempt_id previous) (dp_work_attempt_id next))
          || negb (String.eqb (dp_dispatch_occurrence_id previous)
                     (dp_dispatch_occurrence_id next))
          || (dp_received_at next <? dp_received_at previous)%Z)
    (IdentityMismatch "provider disposition transition identity") ;?
  match dp_mechanism_state previous with
  | AdmissionIndeterminate => Ok tt
  | ExecutionAdmitted | MechanismWaitingApproval | PostAdmissionInterrupted =>
      reject (negb (bool_decide (is_Some (dp_provider_execution previous)))
              || negb (bool_decide (dp_provider_execution next = dp_provider_execution previous))
              || match dp_mechanism_state next with
                 | ExecutionAdmitted | MechanismWaitingApproval | PostAdmissionInterrupted
                 | ProviderCompleted => false
                 | _ => true
                 end)
        (Transition "post-admission state may retain only the exact execution")
  | ParkedNotAdmitted | ProviderCompleted =>
      Err (Transition "closed provider disposition cannot transition")
  end.

Definition check_disposition_predecessor (history : ReadOnlyExecutionAvailabilityHistoryV1)
    (disposition : ProviderAdmissionDispositionV1) (reconciles : option string)
    (last : option AvailabilityLaneEvent) : result ForemanError unit :=
  match find_first (fun d => String.eqb (dp_dispatch_digest d) (dp_dispatch_digest disposition))
          (rev (xh_dispositions history)), reconciles with
  | None, None =>
      reject (negb (bool_decide (last = Some (LaneDispatch (dp_dispatch_digest disposition)))))
        (ReadOnlyStore "provider disposition lacks exact dispatch predecessor")
  | Some prior, Some expected =>
      if String.eqb (dp_disposition_digest prior) expected
      then validate_provider_disposition_transition prior disposition
      else Err (ReadOnlyStore "provider disposition predecessor mismatch")
  | _, _ => Err (ReadOnlyStore "provider disposition predecessor mismatch")
  end.

Definition on_disposition (row : ReadOnlyEventRowV1) (event : InternalEvent)
    (observation : ExecutionAvailabilityObservationV1) (observation_bytes : string)
    (disposition : ProviderAdmissionDispositionV1) (disposition_bytes : string)
    (deferred : option DeferredProviderDispatchV1) (deferred_bytes reconciles : option string)
    (h : HistoryState) : result ForemanError HistoryState :=
  let? history := ok_or (hs_history h) (no_history "provider disposition") in
  let? evidence := validate_provider_disposition_evidence observation_bytes disposition_bytes
    deferred_bytes in
  reject (negb (bool_decide (ve_observation evidence = observation))
          || negb (bool_decide (ve_disposition evidence = disposition))
          || negb (bool_decide (ve_deferred evidence = deferred)))
    (ReadOnlyStore "provider disposition nested typed/raw custody split") ;?
  let? dispatch := ok_or
    (find_first (fun d => String.eqb (di_dispatch_digest d) (dp_dispatch_digest disposition))
       (xh_dispatches history))
    (ReadOnlyStore "provider disposition lacks exact dispatch") in
  reject (not_some (ie_work_item_id event) (dp_work_item_id disposition)
          || not_some (ie_attempt_id event) (dp_work_attempt_id disposition)
          || negb (ie_recorded_at event =? dp_received_at disposition)%Z
          || negb (String.eqb (ie_event_id event)
                     ("provider-disposition-" +:+ dp_disposition_digest disposition)))
    (ReadOnlyStore "provider disposition journal identity mismatch") ;?
  let key := (dp_work_item_id disposition, dp_work_attempt_id disposition) in
  check_disposition_predecessor history disposition reconciles (hs_lane_last h !! key) ;?
  let? prior := provider_deferral_history history (dp_work_attempt_id disposition)
    (di_dispatch_ordinal dispatch) in
  contract (validate_execution_availability_graph (xh_requirement history) (xh_policy history)
    dispatch observation disposition prior deferred) ;?
  Ok (set_history (Some (push_disposition observation disposition deferred history))
       (set_disposition_rows (<[dp_disposition_digest disposition :=
                                 (ro_sequence row, ie_recorded_at event)]>
                                (hs_disposition_rows h))
         (set_lane_last (<[key := LaneDisposition (dp_disposition_digest disposition)]>
                           (hs_lane_last h)) h))).

(** ** Wakes and resumes *)

(** Under [RELEASE_AND_REACQUIRE] a wake follows its reacquisition, otherwise
  the parked disposition itself. *)
Definition wake_follows (history : ReadOnlyExecutionAvailabilityHistoryV1)
    (row : ReadOnlyEventRowV1) (event : InternalEvent) (wake next : string)
    (deferred : DeferredProviderDispatchV1) (last : option AvailabilityLaneEvent)
    : result ForemanError unit :=
  match yp_parked_resource_lock_policy (xh_policy history) with
  | ReleaseAndReacquire =>
      reject (negb match last with
                   | Some (LaneReacquired expected_wake expected_dispatch sequence recorded_at) =>
                       String.eqb expected_wake wake && String.eqb expected_dispatch next
                       && (ro_sequence row =? sequence + 1)%N
                       && (ie_recorded_at event =? recorded_at)%Z
                   | _ => false
                   end)
        (ReadOnlyStore "provider wake resource reacquisition binding mismatch")
  | RetainWhileParked =>
      reject (negb (bool_decide (last = Some (LaneDisposition (df_disposition_digest deferred)))))
        (ReadOnlyStore "provider wake lacks exact parked disposition predecessor")
  end.

Definition on_wake (row : ReadOnlyEventRowV1) (event : InternalEvent)
    (wake deferred_digest next : string) (h : HistoryState) : result ForemanError HistoryState :=
  let? history := ok_or (hs_history h) (no_history "provider wake") in
  validate_local_occurrence_id wake "wake_occurrence_id" ;?
  let? '(work_item_id, attempt_id) := event_lane "provider wake" event in
  let key := (work_item_id, attempt_id) in
  let? deferred := ok_or
    (find_first (fun d => String.eqb (df_deferred_dispatch_digest d) deferred_digest
                          && String.eqb (df_work_attempt_id d) attempt_id)
       (xh_deferred history))
    (ReadOnlyStore "provider wake deferred binding mismatch") in
  reject ((ie_recorded_at event <? df_wake_at deferred)%Z || bool_decide (wake ∈ hs_wake_ids h)
          || negb (String.eqb (ie_event_id event) ("provider-wake-" +:+ wake)))
    (ReadOnlyStore "provider wake time or identity mismatch") ;?
  wake_follows history row event wake next deferred (hs_lane_last h !! key) ;?
  Ok (set_history (Some (push_wake wake attempt_id next history))
       (set_lane_last (<[key := LaneWake next (ro_sequence row) (ie_recorded_at event)]>
                         (hs_lane_last h))
         (set_wake_ids ({[wake]} ∪ hs_wake_ids h) h))).

Definition on_resume (event : InternalEvent) (resume disposition_digest process : string)
    (identity : ProviderExecutionIdentityV1) (h : HistoryState)
    : result ForemanError HistoryState :=
  let? history := ok_or (hs_history h) (no_history "provider resume") in
  validate_local_occurrence_id resume "resume_occurrence_id" ;?
  validate_local_occurrence_id process "adapter_process_occurrence_id" ;?
  contract (execution_identity_validate identity) ;?
  let? '(work_item_id, attempt_id) := event_lane "provider resume" event in
  let key := (work_item_id, attempt_id) in
  let? disposition := ok_or
    (find_first (fun d => String.eqb (dp_work_attempt_id d) attempt_id)
       (rev (xh_dispositions history)))
    (ReadOnlyStore "provider resume lacks exact disposition") in
  reject (negb (String.eqb (dp_disposition_digest disposition) disposition_digest)
          || negb (bool_decide (dp_mechanism_state disposition = PostAdmissionInterrupted))
          || negb (bool_decide (dp_provider_execution disposition = Some identity))
          || (ie_recorded_at event <? dp_received_at disposition)%Z
          || negb (String.eqb (ie_event_id event) ("provider-resume-" +:+ resume))
          || bool_decide (resume ∈ hs_resume_ids h)
          || bool_decide (process ∈ hs_adapter_process_ids h)
          || existsb (String.eqb disposition_digest) (xh_resume_disposition_digests history))
    (ReadOnlyStore "provider resume exact execution binding mismatch") ;?
  Ok (set_history (Some (push_resume resume work_item_id attempt_id process disposition_digest
                           identity (ie_recorded_at event) history))
       (set_lane_last (<[key := LaneResume]> (hs_lane_last h))
         (set_resume_ids ({[resume]} ∪ hs_resume_ids h)
           (set_adapter_process_ids ({[process]} ∪ hs_adapter_process_ids h) h)))).

(** ** Parked resources *)

(** [expected_claims.remove(key) != Some(holder)]. *)
Definition release_claim (holder : string * string) (key : string)
    (claims : gmap string (string * string)) : result ForemanError (gmap string (string * string)) :=
  reject (negb (bool_decide (claims !! key = Some holder)))
    (ReadOnlyStore "resource release history disagrees with retained claim") ;?
  Ok (delete key claims).

Definition on_parked_release (row : ReadOnlyEventRowV1) (event : InternalEvent)
    (disposition_digest dispatch_digest policy_digest : string) (keys : list string)
    (h : HistoryState) : result ForemanError HistoryState :=
  let? history := ok_or (hs_history h) (no_history "resource release") in
  let? '(work_item_id, attempt_id) := event_lane "resource release" event in
  let? disposition := ok_or
    (find_first (fun d => String.eqb (dp_disposition_digest d) disposition_digest)
       (xh_dispositions history))
    (ReadOnlyStore "resource release lacks exact parked disposition") in
  let? '(disposition_sequence, disposition_time) :=
    ok_or (hs_disposition_rows h !! disposition_digest)
      (ReadOnlyStore "missing disposition row") in
  let mismatch := ReadOnlyStore "provider resource release binding mismatch" in
  reject (negb (bool_decide (yp_parked_resource_lock_policy (xh_policy history)
                             = ReleaseAndReacquire))
          || negb (bool_decide (dp_mechanism_state disposition = ParkedNotAdmitted))
          || negb (String.eqb (dp_dispatch_digest disposition) dispatch_digest)
          || negb (String.eqb (yp_policy_digest (xh_policy history)) policy_digest)) mismatch ;?
  let? execution := index (ep_work_items profile) work_item_id "profile.work_items" in
  reject (negb (bool_decide (keys = wx_resource_lock_keys execution))
          || negb (String.eqb (dp_work_attempt_id disposition) attempt_id)
          || negb (String.eqb (ie_event_id event)
                     ("provider-resources-released-" +:+ disposition_digest))
          || negb (ro_sequence row =? disposition_sequence + 1)%N
          || negb (ie_recorded_at event =? disposition_time)%Z) mismatch ;?
  reject (bool_decide (disposition_digest ∈ hs_released_disposition_digests h))
    (ReadOnlyStore "duplicate provider resource release") ;?
  let? claims := fold_try (release_claim (work_item_id, attempt_id)) keys
    (hs_expected_claims h) in
  let transition :=
    {| tn_transition := "RELEASED"; tn_work_item_id := work_item_id;
       tn_work_attempt_id := attempt_id; tn_dispatch_digest := dispatch_digest;
       tn_disposition_digest := Some disposition_digest; tn_deferred_dispatch_digest := None;
       tn_policy_digest := policy_digest; tn_wake_occurrence_id := None;
       tn_resource_lock_keys := keys; tn_recorded_at := ie_recorded_at event |} in
  Ok (set_history (Some (push_transition transition history))
       (set_released_disposition_digests
          ({[disposition_digest]} ∪ hs_released_disposition_digests h)
          (set_expected_claims claims h))).

Definition on_parked_reacquire (row : ReadOnlyEventRowV1) (event : InternalEvent)
    (wake deferred_digest next policy_digest : string) (keys : list string) (h : HistoryState)
    : result ForemanError HistoryState :=
  let? history := ok_or (hs_history h) (no_history "resource reacquisition") in
  let? '(work_item_id, attempt_id) := event_lane "resource reacquisition" event in
  let? deferred := ok_or
    (find_first (fun d => String.eqb (df_deferred_dispatch_digest d) deferred_digest)
       (xh_deferred history))
    (ReadOnlyStore "resource reacquisition lacks exact deferral") in
  let lane := (work_item_id, attempt_id) in
  let mismatch := ReadOnlyStore "provider resource reacquisition binding mismatch" in
  reject (negb (bool_decide (yp_parked_resource_lock_policy (xh_policy history)
                             = ReleaseAndReacquire))
          || negb (String.eqb (yp_policy_digest (xh_policy history)) policy_digest)
          || negb (String.eqb (df_work_attempt_id deferred) attempt_id)) mismatch ;?
  let? execution := index (ep_work_items profile) work_item_id "profile.work_items" in
  reject (negb (bool_decide (keys = wx_resource_lock_keys execution))
          || negb (String.eqb (ie_event_id event) ("provider-resources-reacquired-" +:+ wake))
          || (ie_recorded_at event <? df_wake_at deferred)%Z
          || negb (bool_decide (hs_lane_last h !! lane
                                = Some (LaneDisposition (df_disposition_digest deferred)))))
    mismatch ;?
  let? claims := fold_try
    (expect_claim lane (ReadOnlyStore "resource reacquisition overlaps a retained claim")) keys
    (hs_expected_claims h) in
  let transition :=
    {| tn_transition := "REACQUIRED"; tn_work_item_id := work_item_id;
       tn_work_attempt_id := attempt_id; tn_dispatch_digest := next;
       tn_disposition_digest := None; tn_deferred_dispatch_digest := Some deferred_digest;
       tn_policy_digest := policy_digest; tn_wake_occurrence_id := Some wake;
       tn_resource_lock_keys := keys; tn_recorded_at := ie_recorded_at event |} in
  Ok (set_history (Some (push_transition transition history))
       (set_lane_last (<[lane := LaneReacquired wake next (ro_sequence row)
                                   (ie_recorded_at event)]> (hs_lane_last h))
          (set_expected_claims claims h))).

(** [expected_claims.retain(..)] of a terminal release. *)
Definition on_resources_released (event : InternalEvent) (h : HistoryState) : HistoryState :=
  match ie_work_item_id event, ie_attempt_id event with
  | Some work_item_id, Some attempt_id =>
      set_expected_claims (filter (fun kv => kv.2 <> (work_item_id, attempt_id))
                             (hs_expected_claims h)) h
  | _, _ => h
  end.

(** ** One row, all rows, and the closing checks *)

Definition on_history_row (s : Store) (rows : list ReadOnlyEventRowV1)
    (row : ReadOnlyEventRowV1) (h : HistoryState) : result ForemanError HistoryState :=
  validate_read_only_event_row (fa_run_id admission) (pk_packet_digest packet) profile row ;?
  if String.eqb (ro_kind row) "adapter_event" then Ok h else
  let? event := serialized (from_slice (ro_raw_bytes row)) in
  match ie_payload event with
  | RunAdmitted => on_run_admitted row event h
  | AttemptCreated keys start => on_attempt_created row event keys start h
  | ExecutionAvailabilityConfigured r rb p pb => on_configured rows row event r rb p pb h
  | ProviderDispatchOpened r rb d db => on_dispatch_opened row event r rb d db h
  | PrelaunchClosureAccepted closure receipt => on_prelaunch_closure s event closure receipt h
  | ProviderDispositionRecorded o ob d db f fb reconciles =>
      on_disposition row event o ob d db f fb reconciles h
  | ProviderWakeOpened wake deferred next => on_wake row event wake deferred next h
  | ProviderExecutionResumeRequested resume d process identity =>
      on_resume event resume d process identity h
  | ProviderResourcesReleased d dispatch policy keys =>
      on_parked_release row event d dispatch policy keys h
  | ProviderResourcesReacquired wake deferred next policy keys =>
      on_parked_reacquire row event wake deferred next policy keys h
  | ResourcesReleased => Ok (on_resources_released event h)
  | _ => Ok h
  end.

Definition empty_history_state : HistoryState :=
  {| hs_run_admitted := None; hs_attempts := ∅; hs_lane_last := ∅; hs_history := None;
     hs_dispatch_ids := ∅; hs_dispatch_digests := ∅; hs_wake_ids := ∅; hs_resume_ids := ∅;
     hs_adapter_process_ids := ∅; hs_app_server_session_ids := ∅; hs_disposition_rows := ∅;
     hs_released_disposition_digests := ∅; hs_expected_claims := ∅ |}.

(** [SELECT .. FROM resource_claims WHERE run_id = ?1], as a map by lock key. *)
Definition run_claims (run_id : string) (s : Store) : gmap string (string * string) :=
  list_to_map ((fun kv => (kv.1.2, kv.2)) <$>
    List.filter (fun kv => String.eqb kv.1.1 run_id) (map_to_list (st_resource_claims s))).

Definition lane_unfinished (e : AvailabilityLaneEvent) : bool :=
  match e with LaneReacquired _ _ _ _ | LaneWake _ _ _ => true | _ => false end.

Definition attempt_without_dispatch (history : ReadOnlyExecutionAvailabilityHistoryV1)
    (key : string * string) : bool :=
  negb (existsb (fun d => String.eqb (di_work_item_id d) key.1
                          && String.eqb (di_work_attempt_id d) key.2
                          && (di_dispatch_ordinal d =? 1)%N) (xh_dispatches history)).

Definition parked_unreleased (history : ReadOnlyExecutionAvailabilityHistoryV1)
    (released : gset string) : bool :=
  bool_decide (yp_parked_resource_lock_policy (xh_policy history) = ReleaseAndReacquire)
  && existsb (fun d => bool_decide (dp_mechanism_state d = ParkedNotAdmitted)
                       && negb (bool_decide (dp_disposition_digest d ∈ released)))
       (xh_dispositions history).

Definition validate_execution_availability_history_rows (rows : list ReadOnlyEventRowV1)
    (s : Store) : result ForemanError (option ReadOnlyExecutionAvailabilityHistoryV1) :=
  let? h := fold_try (on_history_row s rows) rows empty_history_state in
  reject (existsb lane_unfinished (snd <$> map_to_list (hs_lane_last h)))
    (ReadOnlyStore "provider resource reacquisition or wake lacks atomic successor") ;?
  match hs_history h with
  | None => Ok None
  | Some history =>
      reject (existsb (attempt_without_dispatch history) (fst <$> map_to_list (hs_attempts h)))
        (ReadOnlyStore "availability-required attempt lacks adjacent initial dispatch") ;?
      reject (parked_unreleased history (hs_released_disposition_digests h))
        (ReadOnlyStore "parked disposition lacks mandatory resource release") ;?
      reject (negb (bool_decide (run_claims (fa_run_id admission) s = hs_expected_claims h)))
        (ReadOnlyStore "mutable resource claims disagree with exact journal history") ;?
      Ok (Some history)
  end.

Definition load_execution_availability_history (run_id : string) (s : Store)
    : result ForemanError (option ReadOnlyExecutionAvailabilityHistoryV1) :=
  let? _ := validate_execution_availability_history_size run_id
    (ep_maximum_event_bytes profile) false s in
  validate_execution_availability_history_rows (run_rows run_id s) s.
End history.

(** ** The live projection *)

Section projection.
Context {DOC : Documents} {PE : ProviderEvidence}.

Definition validate_complete_execution_availability_history (run_id : string) (s : Store)
    : result ForemanError unit :=
  let? c := load_contracts run_id s in
  let? _ := load_execution_availability_history (ct_packet c) (ct_admission c) (ct_profile c)
    run_id s in
  Ok tt.

Definition replay_kind (p : InternalPayload) : ReplayKind :=
  match p with
  | RunAdmitted => ReplayRunAdmitted
  | CapacityRequirementAdmitted _ _ | CapacityAdmissionAccepted _ _ _ _ _ =>
      ReplayCapacityEvidence
  | ExecutionAvailabilityConfigured _ _ _ _ => ReplayExecutionAvailabilityConfigured
  | ProviderDispatchOpened _ _ _ _ => ReplayProviderDispatchOpened
  | ProviderDispositionRecorded _ _ d _ _ _ _ =>
      ReplayProviderDispositionRecorded (dp_mechanism_state d) (dp_provider_execution d)
  | ProviderWakeOpened _ _ _ => ReplayProviderWakeOpened
  | ProviderExecutionResumeRequested _ _ _ _ => ReplayProviderExecutionResumeRequested
  | ProviderResourcesReleased _ _ _ _ => ReplayProviderResourcesReleased
  | ProviderResourcesReacquired _ _ _ _ keys => ReplayProviderResourcesReacquired keys
  | AttemptCreated keys _ => ReplayAttemptCreated keys
  | DispatchRequested => ReplayDispatchRequested
  | ResumeRequested => ReplayResumeRequested
  | TerminalAccepted outcome => ReplayTerminalAccepted outcome
  | TerminalRefused _ => ReplayTerminalRefused
  | NotStartedAccepted outcome => ReplayNotStartedAccepted outcome
  | PrelaunchClosureAccepted _ receipt =>
      ReplayNotStartedAccepted
        {| ao_state := nr_state receipt;
           ao_result_classification := nr_result_classification receipt;
           ao_receipt_digest := nr_receipt_digest receipt |}
  | ResourcesReleased => ReplayResourcesReleased
  | RunClosed digest => ReplayRunClosed digest
  end.

Definition replay_event (row : ReadOnlyEventRowV1) : result ForemanError ReplayEvent :=
  let? kind :=
    if String.eqb (ro_kind row) "adapter_event" then
      let? event := contract (event_from_slice (ro_raw_bytes row)) in
      Ok (ReplayAdapter event)
    else
      let? event := serialized (from_slice (ro_raw_bytes row)) in
      Ok (replay_kind (ie_payload event)) in
  Ok {| re_sequence := ro_sequence row; re_work_item_id := ro_work_item_id row;
        re_attempt_id := ro_attempt_id row; re_kind := kind;
        re_raw_digest := ro_raw_digest row |}.

Definition load_projection (run_id : string) (s : Store)
    : result ForemanError LiveRunProjectionV1 :=
  let? c := load_contracts run_id s in
  let packet := ct_packet c in
  let admission := ct_admission c in
  let profile := ct_profile c in
  let? _ := validate_capacity_history_size run_id (ep_maximum_event_bytes profile)
    (capacity_row_bound packet) s in
  let? _ := validate_execution_availability_history_size run_id
    (ep_maximum_event_bytes profile) false s in
  let rows := run_rows run_id s in
  let? _ := validate_capacity_history rows packet admission profile s in
  let? _ := validate_execution_availability_history_rows packet admission profile rows s in
  let? events := map_try replay_event rows in
  ok_or (replay packet run_id (fa_admission_digest admission) profile (ct_maximum c) events)
    (Panicked "Scheduler::replay").
End projection.
