(* ===== verification/Store.v ===== *)
(** * The foreman store (crates/nightshift-foreman/src/store.rs)

    The operations of [ForemanStore]: admitting a run, preparing an attempt,
    accepting adapter events and receipts, closing a run and exporting.  Each is
    one transaction: on [Err] the tables are those before it.  The UUIDs the
    source draws are arguments. *)
From S2P Require Import Prelude Text External Packet Capacity Contract Availability Scheduler.
From S2P Require Import Prelaunch Bootstrap Evidence Graph Journal Requirements History.
Local Open Scope string_scope.

(** The state name as [{:?}] prints it. *)
Definition scheduler_state_debug (s : SchedulerStateV1) : string :=
  match s with
  | WaitingDependencies => "WaitingDependencies"
  | ReadyEntryEvaluation => "ReadyEntryEvaluation"
  | WaitingResource => "WaitingResource"
  | Dispatching => "Dispatching"
  | Running => "Running"
  | WaitingProvider => "WaitingProvider"
  | WaitingApproval => "WaitingApproval"
  | WaitingHuman => "WaitingHuman"
  | Checkpointed => "Checkpointed"
  | TerminalReceiptAccepted => "TerminalReceiptAccepted"
  | TerminalReceiptRefused => "TerminalReceiptRefused"
  | NotStarted => "NotStarted"
  | IndeterminateMechanismState => "IndeterminateMechanismState"
  end.

Record ValidatedSelfHostedBootstrap := {
  vb_bootstrap : SelfHostedForemanBootstrapV1;
  vb_bootstrap_bytes : string;
  vb_capacity_policy_bytes : string
}.

Record ValidatedRunMechanisms := {
  vm_capacity_requirement : option (ForemanCapacityRequirementV1 * string);
  vm_execution_availability : option ValidatedExecutionAvailabilityConfiguration;
  vm_self_hosted : option ValidatedSelfHostedBootstrap
}.

Definition no_mechanisms : ValidatedRunMechanisms :=
  {| vm_capacity_requirement := None; vm_execution_availability := None;
     vm_self_hosted := None |}.

(** The byte inputs of [admit_with_mechanism_requirements]. *)
Record RunMechanismRequirementsV1 := {
  mr_capacity_requirement_bytes : option string;
  mr_execution_availability_requirement_bytes : option string;
  mr_execution_availability_policy_bytes : option string
}.

Record SelfHostedBootstrapInputsV1 := {
  si_bootstrap_bytes : string;
  si_packet_bytes : string;
  si_admission_bytes : string;
  si_profile_bytes : string;
  si_capacity_requirement_bytes : string;
  si_capacity_policy_bytes : string;
  si_execution_availability_requirement_bytes : string;
  si_execution_availability_policy_bytes : string
}.

Record CapacityAdmissionEvidenceV1 := {
  ce_admission_bytes : string;
  ce_observation_bytes : string;
  ce_policy_bytes : string;
  ce_decision_bytes : string
}.

Record ProviderDispatchPreparation := {
  pp_dispatch_occurrence_id : string;
  pp_adapter_process_occurrence_id : string;
  pp_app_server_session_identity : string;
  pp_selected_model_ordinal : N
}.

Record OpenedProviderDispatchV1 := {
  od_worker_start_request : WorkerStartRequestV3;
  od_dispatch : ProviderDispatchOccurrenceV1
}.

(** [iter().position(..)]. *)
Fixpoint position {A} (p : A -> bool) (l : list A) : option nat :=
  match l with
  | [] => None
  | x :: l => if p x then Some 0%nat else S <$> position p l
  end.

Section store.
Context {DOC : Documents} {PE : ProviderEvidence}.

(** ** Admission *)

Definition insert_packet_item (run_id : string) (packet : NightshiftPacketV1) (item : WorkItemV1)
    (s : Store) : result ForemanError Store :=
  let ordinal := default 0%nat
    (position (fun c => String.eqb (wi_id c) (wi_id item)) (pk_work_items packet)) in
  let? dependencies := serialized (to_vec (wi_dependencies item)) in
  insert_work_item run_id (wi_id item) (N.of_nat ordinal) dependencies s.

Definition admit_capacity_requirement (packet : NightshiftPacketV1)
    (profile : ExecutionProfileV2) (run_id uuid : string) (evaluated_at : instant)
    (required : option (ForemanCapacityRequirementV1 * string)) (s : Store)
    : result ForemanError Store :=
  match required with
  | None => Ok s
  | Some (requirement, bytes) =>
      append_internal_bounded
        (internal_event ("capacity-required-" +:+ uuid) run_id None None evaluated_at
           (CapacityRequirementAdmitted requirement bytes))
        (ep_maximum_event_bytes profile) (capacity_row_bound packet) s
  end.

Definition admit_execution_availability (profile : ExecutionProfileV2) (run_id uuid : string)
    (evaluated_at : instant) (required : option ValidatedExecutionAvailabilityConfiguration)
    (s : Store) : result ForemanError Store :=
  match required with
  | None => Ok s
  | Some c =>
      let? s := insert_requirement run_id s in
      append_execution_availability_bounded
        (internal_event ("execution-availability-required-" +:+ uuid) run_id None None
           evaluated_at
           (ExecutionAvailabilityConfigured (xc_requirement c) (xc_requirement_bytes c)
              (xc_policy c) (xc_policy_bytes c)))
        (ep_maximum_event_bytes profile) s
  end.

(** [chrono::Duration::seconds(n)] in nanoseconds. *)
Definition seconds (n : N) : Z := (Z.of_N n * 1000000000)%Z.

Definition admit_self_hosted (packet : NightshiftPacketV1) (admission : ForemanAdmissionV1)
    (profile : ExecutionProfileV2) (custody : option ValidatedSelfHostedBootstrap) (s : Store)
    : result ForemanError Store :=
  match custody with
  | None => Ok s
  | Some custody =>
      let b := vb_bootstrap custody in
      reject (negb (String.eqb (sb_run_id b) (fa_run_id admission))
              || negb (String.eqb (sb_packet_digest b) (pk_packet_digest packet))
              || negb (String.eqb (sb_admission_digest b) (fa_admission_digest admission))
              || negb (String.eqb (sb_profile_digest b) (ep_profile_digest profile)))
        (IdentityMismatch "self-hosted bootstrap admission") ;?
      let? deadline_at := ok_or
        (checked_add_signed (sb_evaluated_at b) (seconds (sb_maximum_wall_seconds b)))
        (Transition "self-hosted deadline overflow") in
      insert_bootstrap (fa_run_id admission)
        {| bs_bootstrap_digest := sb_bootstrap_digest b;
           bs_bootstrap_occurrence_id := sb_bootstrap_occurrence_id b;
           bs_bootstrap_bytes := vb_bootstrap_bytes custody;
           bs_capacity_policy_bytes := vb_capacity_policy_bytes custody;
           bs_admitted_at := to_rfc3339 (sb_evaluated_at b);
           bs_deadline_at := to_rfc3339 deadline_at;
           bs_maximum_driver_steps := sb_maximum_driver_steps b |} s
  end.

(** The UUIDs of the events of an admission. *)
Record AdmissionUuids := {
  au_run_admitted : string;
  au_capacity_required : string;
  au_execution_availability_required : string
}.

Definition admit_internal (packet_bytes admission_bytes profile_bytes : string)
    (evaluated_at : instant) (m : ValidatedRunMechanisms) (uuids : AdmissionUuids) (s : Store)
    : result ForemanError (string * Store) :=
  let? packet := map_err PacketRefused (packet_from_slice packet_bytes) in
  map_err PacketRefused (validate_at packet evaluated_at) ;?
  let? admission := contract (admission_from_slice admission_bytes) in
  contract (admission_validate_at admission evaluated_at) ;?
  let? profile := contract (profile_from_slice profile_bytes) in
  contract (profile_validate profile) ;?
  validate_bindings packet admission profile ;?
  match vm_capacity_requirement m with
  | Some (requirement, _) => validate_capacity_requirement requirement packet admission profile
  | None => Ok tt
  end ;?
  match vm_execution_availability m with
  | Some c => validate_execution_availability_configuration_bindings c packet admission profile
                evaluated_at
  | None => Ok tt
  end ;?
  let run_id := fa_run_id admission in
  reject (bool_decide (is_Some (st_runs s !! run_id))) (DuplicateRun run_id) ;?
  let? s := insert_run run_id
    {| rn_packet_digest := pk_packet_digest packet;
       rn_admission_digest := fa_admission_digest admission;
       rn_profile_digest := ep_profile_digest profile;
       rn_packet_bytes := packet_bytes; rn_admission_bytes := admission_bytes;
       rn_profile_bytes := profile_bytes;
       rn_admitted_at := to_rfc3339 (fa_admitted_at admission);
       rn_expires_at := to_rfc3339 (fa_expires_at admission);
       rn_maximum_concurrent_workers := fa_maximum_concurrent_workers admission;
       rn_execution_availability_required :=
         bool_decide (is_Some (vm_execution_availability m)) |} s in
  let? s := fold_try (insert_packet_item run_id packet) (pk_work_items packet) s in
  let? s := append_internal
    (internal_event ("run-admitted-" +:+ au_run_admitted uuids) run_id None None evaluated_at
       RunAdmitted) s in
  let? s := admit_capacity_requirement packet profile run_id (au_capacity_required uuids)
    evaluated_at (vm_capacity_requirement m) s in
  let? s := admit_execution_availability profile run_id
    (au_execution_availability_required uuids) evaluated_at (vm_execution_availability m) s in
  let? s := admit_self_hosted packet admission profile (vm_self_hosted m) s in
  let? _ := load_execution_availability_history packet admission profile run_id s in
  Ok (run_id, s).

Definition admit_run (packet_bytes admission_bytes profile_bytes : string) (evaluated_at : instant)
    (uuids : AdmissionUuids) (s : Store) : result ForemanError (string * Store) :=
  admit_internal packet_bytes admission_bytes profile_bytes evaluated_at no_mechanisms uuids s.

Definition admit_with_capacity_requirement (packet_bytes admission_bytes profile_bytes
    capacity_requirement_bytes : string) (evaluated_at : instant) (uuids : AdmissionUuids)
    (s : Store) : result ForemanError (string * Store) :=
  let? requirement := validate_capacity_requirement_bytes capacity_requirement_bytes in
  admit_internal packet_bytes admission_bytes profile_bytes evaluated_at
    {| vm_capacity_requirement := Some (requirement, capacity_requirement_bytes);
       vm_execution_availability := None; vm_self_hosted := None |} uuids s.

Definition admit_with_execution_availability (packet_bytes admission_bytes profile_bytes
    requirement_bytes policy_bytes : string) (evaluated_at : instant) (uuids : AdmissionUuids)
    (s : Store) : result ForemanError (string * Store) :=
  let? c := validate_execution_availability_configuration requirement_bytes policy_bytes in
  admit_internal packet_bytes admission_bytes profile_bytes evaluated_at
    {| vm_capacity_requirement := None; vm_execution_availability := Some c;
       vm_self_hosted := None |} uuids s.

Definition admit_with_mechanism_requirements (packet_bytes admission_bytes profile_bytes : string)
    (requirements : RunMechanismRequirementsV1) (evaluated_at : instant)
    (uuids : AdmissionUuids) (s : Store) : result ForemanError (string * Store) :=
  let? capacity := optional (fun bytes =>
      let? requirement := validate_capacity_requirement_bytes bytes in Ok (requirement, bytes))
    (mr_capacity_requirement_bytes requirements) in
  let? availability :=
    match mr_execution_availability_requirement_bytes requirements,
          mr_execution_availability_policy_bytes requirements with
    | None, None => Ok None
    | Some requirement, Some policy =>
        let? c := validate_execution_availability_configuration requirement policy in Ok (Some c)
    | _, _ => Err (Transition "execution-availability requirement and policy must be supplied together")
    end in
  admit_internal packet_bytes admission_bytes profile_bytes evaluated_at
    {| vm_capacity_requirement := capacity; vm_execution_availability := availability;
       vm_self_hosted := None |} uuids s.

Definition admit_self_hosted_at_path (i : SelfHostedBootstrapInputsV1) (uuids : AdmissionUuids)
    (s : Store) : result ForemanError (string * Store) :=
  for_each (fun '(field, bytes) =>
      reject (str_is_empty bytes || (MAXIMUM_WORKER_BRIEF_BYTES <? strlen bytes)%N)
        (InputTooLarge field))
    [("bootstrap plan", si_bootstrap_bytes i); ("bootstrap packet", si_packet_bytes i);
     ("bootstrap admission", si_admission_bytes i); ("bootstrap profile", si_profile_bytes i);
     ("bootstrap capacity requirement", si_capacity_requirement_bytes i);
     ("bootstrap capacity policy", si_capacity_policy_bytes i);
     ("bootstrap availability requirement", si_execution_availability_requirement_bytes i);
     ("bootstrap availability policy", si_execution_availability_policy_bytes i)] ;?
  let? b := contract (bootstrap_from_slice (si_bootstrap_bytes i)) in
  contract (validate_graph b (si_packet_bytes i) (si_admission_bytes i) (si_profile_bytes i)
    (si_capacity_requirement_bytes i) (si_capacity_policy_bytes i)
    (si_execution_availability_requirement_bytes i)
    (si_execution_availability_policy_bytes i)) ;?
  let? requirement := validate_capacity_requirement_bytes (si_capacity_requirement_bytes i) in
  let? c := validate_execution_availability_configuration
    (si_execution_availability_requirement_bytes i)
    (si_execution_availability_policy_bytes i) in
  let? admission := contract (admission_from_slice (si_admission_bytes i)) in
  admit_internal (si_packet_bytes i) (si_admission_bytes i) (si_profile_bytes i)
    (fa_admitted_at admission)
    {| vm_capacity_requirement := Some (requirement, si_capacity_requirement_bytes i);
       vm_execution_availability := Some c;
       vm_self_hosted := Some {| vb_bootstrap := b; vb_bootstrap_bytes := si_bootstrap_bytes i;
                                 vb_capacity_policy_bytes := si_capacity_policy_bytes i |} |}
    uuids s.

(** ** Reading *)

Definition projection (run_id : string) (s : Store) : result ForemanError LiveRunProjectionV1 :=
  load_projection run_id s.

Definition worker_brief (run_id work_item_id : string) (s : Store)
    : result ForemanError string :=
  let? c := load_contracts run_id s in
  worker_brief_bytes (ct_packet c) (ct_profile c) run_id work_item_id s.

Definition find_item (work_item_id : string) (p : LiveRunProjectionV1)
    : result ForemanError LiveWorkItemV1 :=
  ok_or (find_first (fun i => String.eqb (li_work_item_id i) work_item_id) (lp_work_items p))
    (UnknownWorkItem work_item_id).

(** ** Preparing an attempt *)

(** [SELECT raw_bytes FROM events WHERE .. kind = 'internal']: the loop stops at
  the first attempt it finds. *)
Fixpoint first_attempt (rows : list ReadOnlyEventRowV1) : result ForemanError bool :=
  match rows with
  | [] => Ok false
  | row :: rows =>
      let? event := serialized (from_slice (ro_raw_bytes row)) in
      match ie_payload event with
      | AttemptCreated _ _ => Ok true
      | _ => first_attempt rows
      end
  end.

Definition prior_attempt_exists (run_id work_item_id : string) (s : Store)
    : result ForemanError bool :=
  first_attempt (List.filter (fun row => bool_decide (ro_work_item_id row = Some work_item_id)
                                         && String.eqb (ro_kind row) "internal")
                   (run_rows run_id s)).

Definition entry_eligible (s : SchedulerStateV1) : bool :=
  match s with ReadyEntryEvaluation | WaitingResource => true | _ => false end.

Definition check_lock_free (run_id : string) (s : Store) (lock : string)
    : result ForemanError unit :=
  match st_resource_claims s !! (run_id, lock) with
  | Some (holder, _) => Err (ResourceUnavailable (lock +:+ " held by " +:+ holder))
  | None => Ok tt
  end.

(** Attempts whose worker slot a parked release has given back. *)
Definition slot_released (t : ReadOnlyProviderResourceTransitionV1) (released : gset string)
    : result ForemanError (gset string) :=
  if String.eqb (tn_transition t) "RELEASED" then Ok ({[tn_work_attempt_id t]} ∪ released)
  else if String.eqb (tn_transition t) "REACQUIRED" then Ok (released ∖ {[tn_work_attempt_id t]})
  else Err (ReadOnlyStore "unknown resource transition projection").

Definition active_worker (released : gset string) (i : LiveWorkItemV1) : bool :=
  match li_active_attempt_id i with
  | Some attempt_id =>
      negb (is_explicit_terminal (li_scheduler_state i))
      && negb (bool_decide (attempt_id ∈ released))
  | None => false
  end.

Definition active_workers (released : gset string) (p : LiveRunProjectionV1) : N :=
  count_where (active_worker released) (lp_work_items p).

Definition start_request_of (packet : NightshiftPacketV1) (profile : ExecutionProfileV2)
    (adapter : AdapterRegistrationV2) (execution : WorkItemExecutionV1)
    (run_id work_item_id attempt_id brief_digest : string) : WorkerStartRequestV2 :=
  {| sr_schema := WORKER_START_REQUEST_SCHEMA_V2;
     sr_request_digest := placeholder_digest;
     sr_adapter_id := ar_adapter_id adapter;
     sr_adapter_version := ar_adapter_version adapter;
     sr_adapter_protocol := ar_protocol adapter;
     sr_packet_digest := pk_packet_digest packet;
     sr_run_id := run_id;
     sr_work_item_id := work_item_id;
     sr_attempt_id := attempt_id;
     sr_worker_brief_digest := brief_digest;
     sr_workspace_identity := wx_workspace_identity execution;
     sr_provider_model_class := wx_provider_model_class execution;
     sr_timeout_seconds := ep_adapter_timeout_seconds profile;
     sr_maximum_output_bytes := worker_output_bound profile;
     sr_recursive_worker_swarms_forbidden := true;
     sr_approval_policy := "SURFACE_ONLY_NO_RESPONSE";
     sr_expected_receipt_schema := WORKER_TERMINAL_RECEIPT_SCHEMA_V1 |}.

Definition dispatch_of (start : WorkerStartRequestV3)
    (requirement : ForemanExecutionAvailabilityRequirementV1) (p : ProviderDispatchPreparation)
    (dispatch_ordinal : N) (opened_at : instant) : ProviderDispatchOccurrenceV1 :=
  {| di_schema := PROVIDER_DISPATCH_OCCURRENCE_SCHEMA_V1;
     di_dispatch_digest := placeholder_digest;
     di_requirement_digest := rq_requirement_digest requirement;
     di_policy_digest := rq_policy_digest requirement;
     di_packet_digest := rq_packet_digest requirement;
     di_run_id := s3_run_id start;
     di_work_item_id := s3_work_item_id start;
     di_work_attempt_id := s3_work_attempt_id start;
     di_dispatch_occurrence_id := pp_dispatch_occurrence_id p;
     di_dispatch_ordinal := dispatch_ordinal;
     di_selected_model_ordinal := pp_selected_model_ordinal p;
     di_selection := {| sl_provider_id := s3_provider_id start; sl_model_id := s3_model_id start;
                        sl_model_class := s3_model_class start |};
     di_adapter_id := s3_adapter_id start;
     di_adapter_version := s3_adapter_version start;
     di_adapter_protocol := s3_adapter_protocol start;
     di_adapter_process_occurrence_id := pp_adapter_process_occurrence_id p;
     di_app_server_session_identity := pp_app_server_session_identity p;
     di_worker_start_request_schema := s3_schema start;
     di_worker_start_request_digest := s3_request_digest start;
     di_worker_brief_digest := s3_worker_brief_digest start;
     di_opened_at := opened_at;
     di_internal_provider_retry_count := 0;
     di_provider_execution_id := None;
     di_authority_effect := LOCAL_SCHEDULING_ONLY |}.

Definition build_provider_dispatch (predecessor : WorkerStartRequestV2)
    (profile : ExecutionProfileV2) (requirement : ForemanExecutionAvailabilityRequirementV1)
    (p : ProviderDispatchPreparation) (dispatch_ordinal : N) (opened_at : instant)
    : result ForemanError OpenedProviderDispatchV1 :=
  validate_local_occurrence_id (pp_dispatch_occurrence_id p) "dispatch_occurrence_id" ;?
  validate_local_occurrence_id (pp_adapter_process_occurrence_id p)
    "adapter_process_occurrence_id" ;?
  validate_local_occurrence_id (pp_app_server_session_identity p)
    "app_server_session_identity" ;?
  let? predecessor_bytes := serialized (to_vec predecessor) in
  let? start := contract (from_v2_for_dispatch predecessor_bytes profile requirement
    (pp_dispatch_occurrence_id p) (pp_selected_model_ordinal p)) in
  let? dispatch := contract (dispatch_seal
    (dispatch_of start requirement p dispatch_ordinal opened_at)) in
  contract (validate_dispatch_graph start profile requirement dispatch) ;?
  Ok {| od_worker_start_request := start; od_dispatch := dispatch |}.

Definition append_provider_dispatch (run_id work_item_id attempt_id : string)
    (o : OpenedProviderDispatchV1) (maximum_event_bytes : N) (s : Store)
    : result ForemanError Store :=
  let d := od_dispatch o in
  let? start_bytes := serialized (to_vec (od_worker_start_request o)) in
  let? dispatch_bytes := serialized (to_vec d) in
  append_execution_availability_bounded
    (internal_event ("provider-dispatch-" +:+ di_dispatch_occurrence_id d) run_id
       (Some work_item_id) (Some attempt_id) (di_opened_at d)
       (ProviderDispatchOpened (od_worker_start_request o) start_bytes d dispatch_bytes))
    maximum_event_bytes s.

(** The UUIDs of an attempt and its events. *)
Record AttemptUuids := {
  tu_attempt : string;
  tu_capacity_admitted : string;
  tu_attempt_created : string
}.

(** A required mechanism needs its evidence, and evidence needs a requirement. *)
Definition check_dispatch_mode {A B} (history : option A) (dispatch : option B)
    : result ForemanError unit :=
  match history, dispatch with
  | Some _, None => Err (Transition "availability-required run refuses legacy V2 start path")
  | None, Some _ => Err (Transition "legacy run has no execution-availability requirement")
  | _, _ => Ok tt
  end.

Definition check_capacity_mode {A B} (requirement : option A) (capacity : option B)
    : result ForemanError unit :=
  match requirement, capacity with
  | Some _, None => Err (Transition "capacity-required run refuses legacy attempt preparation")
  | None, Some _ => Err (Transition "legacy run has no immutable capacity requirement")
  | _, _ => Ok tt
  end.

Definition admit_attempt_capacity (c : Contracts)
    (requirement : option ForemanCapacityRequirementV1)
    (capacity : option ValidatedCapacityAdmission) (run_id work_item_id attempt_id uuid : string)
    (recorded_at : instant) (s : Store) : result ForemanError Store :=
  match capacity with
  | None => Ok s
  | Some capacity =>
      let? requirement := ok_or requirement (Transition "capacity requirement missing") in
      validate_capacity_bindings capacity (ct_packet c) (ct_admission c) (ct_profile c)
        requirement work_item_id recorded_at ;?
      append_internal_bounded
        (internal_event ("capacity-admitted-" +:+ uuid) run_id (Some work_item_id)
           (Some attempt_id) recorded_at
           (CapacityAdmissionAccepted (vc_admission capacity) (vc_admission_bytes capacity)
              (vc_observation_bytes capacity) (vc_policy_bytes capacity)
              (vc_decision_bytes capacity)))
        (ep_maximum_event_bytes (ct_profile c)) (capacity_row_bound (ct_packet c)) s
  end.

Definition open_attempt_dispatch (c : Contracts)
    (history : option ReadOnlyExecutionAvailabilityHistoryV1)
    (dispatch : option ProviderDispatchPreparation) (request : WorkerStartRequestV2)
    (run_id work_item_id attempt_id : string) (recorded_at : instant) (s : Store)
    : result ForemanError (option OpenedProviderDispatchV1 * Store) :=
  match dispatch with
  | None => Ok (None, s)
  | Some p =>
      let? history := ok_or history
        (Transition "execution-availability requirement disappeared") in
      let? opened := build_provider_dispatch request (ct_profile c) (xh_requirement history) p 1
        recorded_at in
      let? s := append_provider_dispatch run_id work_item_id attempt_id opened
        (ep_maximum_event_bytes (ct_profile c)) s in
      Ok (Some opened, s)
  end.

(** The guards of [prepare_attempt_internal], in order; what they load. *)
Record Eligible := {
  el_contracts : Contracts;
  el_capacity_requirement : option ForemanCapacityRequirementV1;
  el_history : option ReadOnlyExecutionAvailabilityHistoryV1
}.

Definition check_eligible (run_id work_item_id : string)
    (capacity : option ValidatedCapacityAdmission)
    (dispatch : option ProviderDispatchPreparation) (s : Store) : result ForemanError Eligible :=
  let? p := load_projection run_id s in
  let? item := find_item work_item_id p in
  reject (negb (entry_eligible (li_scheduler_state item)))
    (Transition (work_item_id +:+ " is " +:+ scheduler_state_debug (li_scheduler_state item)
                 +:+ ", not entry-evaluation eligible")) ;?
  let? prior := prior_attempt_exists run_id work_item_id s in
  reject prior (Transition "V1 admits no automatic or implicit second attempt") ;?
  for_each (check_lock_free run_id s) (li_resource_lock_keys item) ;?
  let? c := load_contracts run_id s in
  let? requirement := load_capacity_requirement run_id s in
  let? history := load_execution_availability_history (ct_packet c) (ct_admission c)
    (ct_profile c) run_id s in
  check_dispatch_mode history dispatch ;?
  let? released := match history with
    | Some h => fold_try slot_released (xh_resource_transitions h) ∅
    | None => Ok ∅
    end in
  reject (lp_maximum_concurrent_workers p <=? active_workers released p)%N
    (ResourceUnavailable "maximum concurrent workers reached") ;?
  check_capacity_mode requirement capacity ;?
  Ok {| el_contracts := c; el_capacity_requirement := requirement; el_history := history |}.

Definition prepare_attempt_internal (run_id work_item_id : string) (recorded_at : instant)
    (capacity : option ValidatedCapacityAdmission)
    (dispatch : option ProviderDispatchPreparation) (uuids : AttemptUuids) (s : Store)
    : result ForemanError (WorkerStartRequestV2 * option OpenedProviderDispatchV1 * Store) :=
  let? e := check_eligible run_id work_item_id capacity dispatch s in
  let c := el_contracts e in
  let profile := ct_profile c in
  let attempt_id := "attempt-" +:+ tu_attempt uuids in
  let? execution := ok_or (ep_work_items profile !! work_item_id)
    (UnknownWorkItem work_item_id) in
  let? adapter := index (ep_adapters profile) (wx_adapter_id execution) "profile.adapters" in
  let? brief_digest := worker_brief_digest (ct_packet c) profile run_id work_item_id s in
  let? request := contract (start_seal
    (start_request_of (ct_packet c) profile adapter execution run_id work_item_id attempt_id
       brief_digest)) in
  let? brief := worker_brief_bytes (ct_packet c) profile run_id work_item_id s in
  let? _ := contract (brief_from_slice_for_start brief request) in
  let? s := admit_attempt_capacity c (el_capacity_requirement e) capacity run_id work_item_id
    attempt_id (tu_capacity_admitted uuids) recorded_at s in
  let? s := fold_try (fun lock => insert_claim run_id lock work_item_id attempt_id)
    (wx_resource_lock_keys execution) s in
  let? s := append_internal
    (internal_event ("attempt-created-" +:+ tu_attempt_created uuids) run_id (Some work_item_id)
       (Some attempt_id) recorded_at
       (AttemptCreated (wx_resource_lock_keys execution) request)) s in
  let? '(opened, s) := open_attempt_dispatch c (el_history e) dispatch request run_id
    work_item_id attempt_id recorded_at s in
  let? _ := load_execution_availability_history (ct_packet c) (ct_admission c) profile run_id s in
  Ok (request, opened, s).

Definition prepare_attempt (run_id work_item_id : string) (recorded_at : instant)
    (uuids : AttemptUuids) (s : Store) : result ForemanError (WorkerStartRequestV2 * Store) :=
  let? '(request, _, s) :=
    prepare_attempt_internal run_id work_item_id recorded_at None None uuids s in
  Ok (request, s).

Definition evidence_bundle (e : CapacityAdmissionEvidenceV1)
    : result ForemanError ValidatedCapacityAdmission :=
  validate_capacity_bundle (ce_admission_bytes e) (ce_observation_bytes e) (ce_policy_bytes e)
    (ce_decision_bytes e).

Definition prepare_attempt_with_capacity (run_id work_item_id : string)
    (evidence : CapacityAdmissionEvidenceV1) (recorded_at : instant) (uuids : AttemptUuids)
    (s : Store) : result ForemanError (WorkerStartRequestV2 * Store) :=
  let? capacity := evidence_bundle evidence in
  let? '(request, _, s) :=
    prepare_attempt_internal run_id work_item_id recorded_at (Some capacity) None uuids s in
  Ok (request, s).

(** A prepared provider attempt carries its dispatch: the refusal never fires. *)
Definition opened_dispatch
    (r : WorkerStartRequestV2 * option OpenedProviderDispatchV1 * Store)
    : result ForemanError (OpenedProviderDispatchV1 * Store) :=
  let '(_, opened, s) := r in
  let? opened := ok_or opened (Transition "provider attempt lacks atomic V3 dispatch") in
  Ok (opened, s).

Definition prepare_provider_attempt (run_id work_item_id : string)
    (p : ProviderDispatchPreparation) (recorded_at : instant) (uuids : AttemptUuids) (s : Store)
    : result ForemanError (OpenedProviderDispatchV1 * Store) :=
  let? r := prepare_attempt_internal run_id work_item_id recorded_at None (Some p) uuids s in
  opened_dispatch r.

Definition prepare_provider_attempt_with_capacity (run_id work_item_id : string)
    (evidence : CapacityAdmissionEvidenceV1) (p : ProviderDispatchPreparation)
    (recorded_at : instant) (uuids : AttemptUuids) (s : Store)
    : result ForemanError (OpenedProviderDispatchV1 * Store) :=
  let? capacity := evidence_bundle evidence in
  let? r := prepare_attempt_internal run_id work_item_id recorded_at (Some capacity) (Some p)
    uuids s in
  opened_dispatch r.

(** ** The active attempt *)

Definition exact_active_attempt (run_id work_item_id attempt_id : string) (s : Store)
    : result ForemanError unit :=
  let? p := load_projection run_id s in
  let? item := find_item work_item_id p in
  reject (is_explicit_terminal (li_scheduler_state item))
    (Transition "terminal attempt cannot be resumed or reused") ;?
  reject (not_some (li_active_attempt_id item) attempt_id) (IdentityMismatch "attempt_id").

Record CurrentHoldingAttemptState := {
  ch_disposition : option ProviderAdmissionDispositionV1;
  ch_resumed_current_disposition : bool
}.

Definition current_holding_attempt_state (run_id work_item_id attempt_id : string) (s : Store)
    : result ForemanError (option CurrentHoldingAttemptState) :=
  let? c := load_contracts run_id s in
  let? history := load_execution_availability_history (ct_packet c) (ct_admission c)
    (ct_profile c) run_id s in
  match history with
  | None => Ok None
  | Some h =>
      let current_dispatch := find_first (fun d =>
        String.eqb (di_work_item_id d) work_item_id
        && String.eqb (di_work_attempt_id d) attempt_id) (rev (xh_dispatches h)) in
      let disposition := current_dispatch ≫= fun dispatch =>
        find_first (fun d => String.eqb (dp_dispatch_digest d) (di_dispatch_digest dispatch))
          (rev (xh_dispositions h)) in
      let resumed := match disposition with
        | Some d => existsb (fun digest => String.eqb digest (dp_disposition_digest d))
                      (xh_resume_disposition_digests h)
        | None => false
        end in
      Ok (Some {| ch_disposition := disposition; ch_resumed_current_disposition := resumed |})
  end.

Definition refuse_holding (message run_id work_item_id attempt_id : string) (s : Store)
    : result ForemanError unit :=
  let? state := current_holding_attempt_state run_id work_item_id attempt_id s in
  reject (bool_decide (is_Some state)) (Transition message).

Definition refuse_holding_legacy_transition (run_id work_item_id attempt_id : string) (s : Store)
    : result ForemanError unit :=
  refuse_holding "HOLDING attempt requires an exact mechanism-owned transition" run_id
    work_item_id attempt_id s.

Definition validate_holding_adapter_event_transition (event : AdapterEventV1) (s : Store)
    : result ForemanError unit :=
  refuse_holding "HOLDING mechanism state is accepted only through exact owner dispositions"
    (ae_run_id event) (ae_work_item_id event) (ae_attempt_id event) s.

Definition terminal_state_refused (d : ProviderAdmissionDispositionV1) (resumed : bool) : bool :=
  match dp_mechanism_state d with
  | ParkedNotAdmitted | AdmissionIndeterminate | MechanismWaitingApproval => true
  | PostAdmissionInterrupted => negb resumed
  | ExecutionAdmitted | ProviderCompleted => false
  end.

Definition validate_holding_terminal_transition (receipt : TerminalReceiptV1) (s : Store)
    : result ForemanError unit :=
  let? state := current_holding_attempt_state (tr_run_id receipt) (tr_work_item_id receipt)
    (tr_attempt_id receipt) s in
  match state with
  | None => Ok tt
  | Some state =>
      let required := Transition "terminal receipt requires exact admitted provider execution" in
      let? disposition := ok_or (ch_disposition state) required in
      reject (terminal_state_refused disposition (ch_resumed_current_disposition state))
        (Transition "terminal receipt is not admissible in the exact HOLDING state") ;?
      let? execution := ok_or (dp_provider_execution disposition) required in
      for_each (fun '(field, (actual, expected)) =>
          reject (not_some actual expected) (IdentityMismatch field))
        [("provider_identity", (Some (tr_provider_identity receipt), xi_provider_id execution));
         ("model_identity", (Some (tr_model_identity receipt), xi_model_id execution));
         ("session_identity",
            (tr_session_identity receipt, xi_app_server_session_identity execution));
         ("thread_identity", (tr_thread_identity receipt, xi_thread_id execution));
         ("turn_identity", (tr_turn_identity receipt, xi_turn_id execution))]
  end.

(** [frozen.is_some() && observed.is_some() && frozen != observed]. *)
Definition validate_incremental_identity (field : string) (frozen observed : option string)
    : result ForemanError unit :=
  reject (bool_decide (is_Some frozen) && bool_decide (is_Some observed)
          && negb (bool_decide (frozen = observed))) (IdentityMismatch field).

Definition validate_receipt_identity (field : string) (frozen receipt : option string)
    : result ForemanError unit :=
  reject (bool_decide (is_Some frozen) && negb (bool_decide (frozen = receipt)))
    (IdentityMismatch field).

Definition record_attempt_transition (run_id work_item_id attempt_id : string)
    (recorded_at : instant) (payload : InternalPayload) (prefix uuid : string) (s : Store)
    : result ForemanError Store :=
  exact_active_attempt run_id work_item_id attempt_id s ;?
  validate_complete_execution_availability_history run_id s ;?
  refuse_holding_legacy_transition run_id work_item_id attempt_id s ;?
  append_internal
    (internal_event (prefix +:+ "-" +:+ uuid) run_id (Some work_item_id) (Some attempt_id)
       recorded_at payload) s.

Definition record_dispatch_requested (run_id work_item_id attempt_id : string)
    (recorded_at : instant) (uuid : string) (s : Store) : result ForemanError Store :=
  record_attempt_transition run_id work_item_id attempt_id recorded_at DispatchRequested
    "dispatch-requested" uuid s.

Definition record_resume_requested (run_id work_item_id attempt_id : string)
    (recorded_at : instant) (uuid : string) (s : Store) : result ForemanError Store :=
  record_attempt_transition run_id work_item_id attempt_id recorded_at ResumeRequested
    "resume-requested" uuid s.

Definition record_terminal_refusal (run_id work_item_id attempt_id reason : string)
    (recorded_at : instant) (uuid : string) (s : Store) : result ForemanError Store :=
  reject (trim_is_empty reason || (4096 <? strlen reason)%N)
    (Transition "invalid refusal reason") ;?
  exact_active_attempt run_id work_item_id attempt_id s ;?
  validate_complete_execution_availability_history run_id s ;?
  refuse_holding_legacy_transition run_id work_item_id attempt_id s ;?
  append_internal
    (internal_event ("terminal-refused-" +:+ uuid) run_id (Some work_item_id) (Some attempt_id)
       recorded_at (TerminalRefused reason)) s.

(** ** Adapter events *)

(** The event's adapter is the one the profile gives the item. *)
Definition check_adapter_identity (profile : ExecutionProfileV2)
    (work_item_id adapter_id adapter_version : string) : result ForemanError unit :=
  let? execution := index (ep_work_items profile) work_item_id "profile.work_items" in
  reject (negb (String.eqb adapter_id (wx_adapter_id execution)))
    (IdentityMismatch "adapter_id") ;?
  let? adapter := index (ep_adapters profile) (wx_adapter_id execution) "profile.adapters" in
  reject (negb (String.eqb adapter_version (ar_adapter_version adapter)))
    (IdentityMismatch "adapter_version").

Definition accept_adapter_event (raw : string) (s : Store) : result ForemanError Store :=
  let? event := contract (event_from_slice raw) in
  contract (event_validate event) ;?
  let? c := load_contracts (ae_run_id event) s in
  reject (ep_maximum_event_bytes (ct_profile c) <? strlen raw)%N
    (InputTooLarge "adapter event") ;?
  reject (negb (String.eqb (ae_packet_digest event) (fa_packet_digest (ct_admission c))))
    (IdentityMismatch "packet_digest") ;?
  exact_active_attempt (ae_run_id event) (ae_work_item_id event) (ae_attempt_id event) s ;?
  validate_holding_adapter_event_transition event s ;?
  check_adapter_identity (ct_profile c) (ae_work_item_id event) (ae_adapter_id event)
    (ae_adapter_version event) ;?
  let? p := load_projection (ae_run_id event) s in
  let? item := find_item (ae_work_item_id event) p in
  for_each (fun '(field, (frozen, observed)) => validate_incremental_identity field frozen observed)
    [("provider_identity", (li_provider_identity item, ae_provider_identity event));
     ("model_identity", (li_model_identity item, ae_model_identity event));
     ("session_identity", (li_session_identity item, ae_session_identity event));
     ("thread_identity", (li_thread_identity item, ae_thread_identity event));
     ("turn_identity", (li_turn_identity item, ae_turn_identity event));
     ("queue_identity", (li_queue_identity item, ae_queue_identity event))] ;?
  reject (event_exists (ae_run_id event) (ae_event_id event) s)
    (DuplicateEvent (ae_event_id event)) ;?
  insert_event (ae_run_id event) (ae_event_id event) (Some (ae_work_item_id event))
    (Some (ae_attempt_id event)) "adapter_event" (to_rfc3339 (ae_occurred_at event)) raw
    (raw_digest raw) s.

(** ** Receipts *)

Definition release_resources (run_id work_item_id attempt_id : string) (recorded_at : instant)
    (uuid : string) (s : Store) : result ForemanError Store :=
  append_internal
    (internal_event ("resources-released-" +:+ uuid) run_id (Some work_item_id)
       (Some attempt_id) recorded_at ResourcesReleased)
    (delete_claims run_id work_item_id attempt_id s).

(** The UUIDs of the two events of a terminal receipt. *)
Record ReceiptUuids := { ru_accepted : string; ru_released : string }.

Definition accept_terminal_receipt (raw : string) (uuids : ReceiptUuids) (s : Store)
    : result ForemanError Store :=
  let? receipt := contract (terminal_from_slice raw) in
  contract (terminal_validate receipt) ;?
  let run_id := tr_run_id receipt in
  let work_item_id := tr_work_item_id receipt in
  let attempt_id := tr_attempt_id receipt in
  let? c := load_contracts run_id s in
  reject (ep_maximum_receipt_bytes (ct_profile c) <? strlen raw)%N
    (InputTooLarge "terminal receipt") ;?
  reject (negb (String.eqb (tr_packet_digest receipt) (fa_packet_digest (ct_admission c))))
    (IdentityMismatch "packet_digest") ;?
  exact_active_attempt run_id work_item_id attempt_id s ;?
  validate_holding_terminal_transition receipt s ;?
  check_adapter_identity (ct_profile c) work_item_id (tr_adapter_id receipt)
    (tr_adapter_version receipt) ;?
  let? p := load_projection run_id s in
  let? item := find_item work_item_id p in
  for_each (fun '(field, (frozen, observed)) => validate_receipt_identity field frozen observed)
    [("provider_identity", (li_provider_identity item, Some (tr_provider_identity receipt)));
     ("model_identity", (li_model_identity item, Some (tr_model_identity receipt)));
     ("session_identity", (li_session_identity item, tr_session_identity receipt));
     ("thread_identity", (li_thread_identity item, tr_thread_identity receipt));
     ("turn_identity", (li_turn_identity item, tr_turn_identity receipt));
     ("queue_identity", (li_queue_identity item, tr_queue_identity receipt))] ;?
  let? s := insert_receipt run_id work_item_id
    {| rt_attempt_id := Some attempt_id; rt_receipt_digest := tr_receipt_digest receipt;
       rt_raw_bytes := raw; rt_receipt_kind := "terminal" |} s in
  let? s := append_internal
    (internal_event ("terminal-accepted-" +:+ ru_accepted uuids) run_id (Some work_item_id)
       (Some attempt_id) (tr_ended_at receipt)
       (TerminalAccepted
          {| ao_state := tr_state receipt;
             ao_result_classification := tr_result_classification receipt;
             ao_receipt_digest := tr_receipt_digest receipt |})) s in
  release_resources run_id work_item_id attempt_id (tr_ended_at receipt) (ru_released uuids) s.

Definition accept_not_started (raw uuid : string) (s : Store) : result ForemanError Store :=
  let? receipt := contract (not_started_from_slice raw) in
  contract (not_started_validate receipt) ;?
  let run_id := nr_run_id receipt in
  let work_item_id := nr_work_item_id receipt in
  let? p := load_projection run_id s in
  let? item := find_item work_item_id p in
  reject (negb (entry_eligible (li_scheduler_state item))
          || bool_decide (is_Some (li_active_attempt_id item)))
    (Transition "not-started receipt requires an eligible item with no attempt") ;?
  let? c := load_contracts run_id s in
  reject (ep_maximum_receipt_bytes (ct_profile c) <? strlen raw)%N
    (InputTooLarge "not-started receipt") ;?
  reject (negb (String.eqb (nr_packet_digest receipt) (fa_packet_digest (ct_admission c))))
    (IdentityMismatch "packet_digest") ;?
  let? s := insert_receipt run_id work_item_id
    {| rt_attempt_id := None; rt_receipt_digest := nr_receipt_digest receipt;
       rt_raw_bytes := raw; rt_receipt_kind := "not_started" |} s in
  append_internal
    (internal_event ("not-started-accepted-" +:+ uuid) run_id (Some work_item_id) None
       (nr_recorded_at receipt)
       (NotStartedAccepted
          {| ao_state := nr_state receipt;
             ao_result_classification := nr_result_classification receipt;
             ao_receipt_digest := nr_receipt_digest receipt |})) s.

(** The last dispatch of an attempt, with its start request. *)
Definition last_dispatch (h : ReadOnlyExecutionAvailabilityHistoryV1) (attempt_id : string)
    : option (WorkerStartRequestV3 * ProviderDispatchOccurrenceV1) :=
  find_first (fun sd => String.eqb (di_work_attempt_id sd.2) attempt_id)
    (rev (zip (xh_worker_start_requests h) (xh_dispatches h))).

(** The first closure of an item: its receipt, its event and the release. *)
Definition record_prelaunch_closure (closure : PrelaunchClosureV1) (receipt : NotStartedReceiptV1)
    (receipt_bytes : string) (c : Contracts) (uuid : string) (s : Store)
    : result ForemanError Store :=
  let b := pc_binding closure in
  let run_id := pb_run_id b in
  let work_item_id := pb_work_item_id b in
  let attempt_id := pb_work_attempt_id b in
  let? p := load_projection run_id s in
  let? item := find_item work_item_id p in
  reject (negb (bool_decide (li_scheduler_state item = Dispatching))
          || not_some (li_active_attempt_id item) attempt_id)
    (Transition "prelaunch closure requires exact DISPATCHING attempt") ;?
  exact_active_attempt run_id work_item_id attempt_id s ;?
  let? history := load_execution_availability_history (ct_packet c) (ct_admission c)
    (ct_profile c) run_id s in
  let? h := ok_or history
    (Transition "prelaunch closure requires provider dispatch custody") in
  let? '(start, dispatch) := ok_or (last_dispatch h attempt_id)
    (IdentityMismatch "prelaunch dispatch") in
  reject (existsb (fun d => String.eqb (dp_work_attempt_id d) attempt_id) (xh_dispositions h))
    (Transition "prelaunch closure refuses observed provider disposition") ;?
  let? brief := worker_brief_bytes (ct_packet c) (ct_profile c) run_id work_item_id s in
  contract (validate_prepared closure start dispatch brief) ;?
  let? s := insert_receipt run_id work_item_id
    {| rt_attempt_id := None; rt_receipt_digest := nr_receipt_digest receipt;
       rt_raw_bytes := receipt_bytes; rt_receipt_kind := "not_started" |} s in
  let event := internal_event ("prelaunch-closed-" +:+ pc_closure_digest closure) run_id
    (Some work_item_id) (Some attempt_id) (pc_closed_at closure)
    (PrelaunchClosureAccepted closure receipt) in
  let? raw := serialized (to_vec event) in
  reject (ep_maximum_event_bytes (ct_profile c) <? strlen raw)%N
    (InputTooLarge "prelaunch journal event") ;?
  let? s := append_internal event s in
  let? s := release_resources run_id work_item_id attempt_id (pc_closed_at closure) uuid s in
  let? _ := load_projection run_id s in
  Ok s.

(** An item that already has a receipt keeps it: the same bytes, or a refusal. *)
Definition accept_prelaunch_closure (raw uuid : string) (s : Store)
    : result ForemanError (string * Store) :=
  let? closure := contract (prelaunch_from_slice raw) in
  let b := pc_binding closure in
  let? c := load_contracts (pb_run_id b) s in
  let? receipt := prelaunch_not_started_receipt closure in
  let? receipt_bytes := serialized (to_vec receipt) in
  reject (ep_maximum_receipt_bytes (ct_profile c) <? strlen receipt_bytes)%N
    (InputTooLarge "prelaunch receipt") ;?
  match st_receipts s !! (pb_run_id b, pb_work_item_id b) with
  | Some prior =>
      reject (negb (String.eqb (rt_raw_bytes prior) receipt_bytes))
        (Transition "conflicting prelaunch closure") ;?
      let? _ := load_projection (pb_run_id b) s in
      Ok (rt_raw_bytes prior, s)
  | None =>
      let? s := record_prelaunch_closure closure receipt receipt_bytes c uuid s in
      Ok (receipt_bytes, s)
  end.

(** ** Closing *)

Definition incomplete_items (p : LiveRunProjectionV1) : list string :=
  li_work_item_id <$>
    List.filter (fun i => negb (is_explicit_terminal (li_scheduler_state i))) (lp_work_items p).

(** The text of the refusal names both instants. *)
Definition close (run_id : string) (updated_at : instant) (uuid : string) (s : Store)
    : result ForemanError (string * Store) :=
  match st_finals s !! run_id with
  | Some row => Ok (fs_raw_bytes row, s)
  | None =>
      let? p := load_projection run_id s in
      reject (negb (bool_decide (incomplete_items p = [])))
        (IncompleteCloseout (str_join ", " (incomplete_items p))) ;?
      let? latest := latest_terminal_evidence_at run_id s in
      reject (updated_at <? latest)%Z
        (Transition ("closeout snapshot time " +:+ instant_display updated_at
                     +:+ " precedes retained terminal evidence " +:+ instant_display latest)) ;?
      let? c := load_contracts run_id s in
      let? document := build_final_document (ct_packet c) run_id updated_at s in
      let? raw := serialized (to_vec document) in
      let digest := raw_digest raw in
      let? s := insert_final run_id
        {| fs_updated_at := to_rfc3339 updated_at; fs_raw_digest := digest;
           fs_raw_bytes := raw |} s in
      let? s := append_internal
        (internal_event ("run-closed-" +:+ uuid) run_id None None updated_at
           (RunClosed digest)) s in
      Ok (raw, s)
  end.

Definition export_final (run_id : string) (s : Store) : result ForemanError string :=
  let? row := ok_or (st_finals s !! run_id) (Transition "run has no final snapshot") in
  Ok (fs_raw_bytes row).

Definition raw_terminal_receipt (run_id work_item_id : string) (s : Store)
    : result ForemanError string :=
  let? row := ok_or (st_receipts s !! (run_id, work_item_id))
    (Transition "work item has no accepted receipt") in
  Ok (rt_raw_bytes row).

Definition export_events (run_id : string) (s : Store) : result ForemanError (list value) :=
  let? _ := load_projection run_id s in
  map_try (fun row => serialized (from_slice (ro_raw_bytes row))) (run_rows run_id s).

(** ** The read-only snapshot *)

Record ReadOnlyTerminalReceiptRowV1 := {
  rv_work_item_id : string;
  rv_attempt_id : option string;
  rv_receipt_digest : string;
  rv_raw_bytes : string;
  rv_receipt_kind : string;
  rv_state : string;
  rv_result_classification : string
}.

Record ReadOnlyRunSnapshotV1 := {
  sn_run_id : string;
  sn_packet_bytes : string;
  sn_admission_bytes : string;
  sn_profile_bytes : string;
  sn_projection : LiveRunProjectionV1;
  sn_events : list ReadOnlyEventRowV1;
  sn_capacity_requirement : option ReadOnlyCapacityRequirementV1;
  sn_capacity_admissions : list ReadOnlyCapacityAdmissionV1;
  sn_execution_availability : option ReadOnlyExecutionAvailabilityHistoryV1;
  sn_terminal_receipts : list ReadOnlyTerminalReceiptRowV1;
  sn_final_snapshot_bytes : option string
}.

Definition terminal_row_differs (run_id packet_digest work_item_id : string) (row : ReceiptRow)
    (profile : ExecutionProfileV2) (r : TerminalReceiptV1) : bool :=
  negb (String.eqb (tr_run_id r) run_id)
  || negb (String.eqb (tr_packet_digest r) packet_digest)
  || negb (String.eqb (tr_work_item_id r) work_item_id)
  || not_some (rt_attempt_id row) (tr_attempt_id r)
  || negb (String.eqb (tr_receipt_digest r) (rt_receipt_digest row))
  || not_some (wx_adapter_id <$> ep_work_items profile !! tr_work_item_id r) (tr_adapter_id r)
  || not_some (ar_adapter_version <$> ep_adapters profile !! tr_adapter_id r)
       (tr_adapter_version r).

Definition not_started_row_differs (run_id packet_digest work_item_id : string)
    (row : ReceiptRow) (r : NotStartedReceiptV1) : bool :=
  negb (String.eqb (nr_run_id r) run_id)
  || negb (String.eqb (nr_packet_digest r) packet_digest)
  || negb (String.eqb (nr_work_item_id r) work_item_id)
  || bool_decide (is_Some (rt_attempt_id row))
  || negb (String.eqb (nr_receipt_digest r) (rt_receipt_digest row)).

Definition validate_read_only_receipt_row (run_id packet_digest : string)
    (profile : ExecutionProfileV2) (entry : string * ReceiptRow)
    : result ForemanError ReadOnlyTerminalReceiptRowV1 :=
  let '(work_item_id, row) := entry in
  let? '(state, classification) :=
    if String.eqb (rt_receipt_kind row) "terminal" then
      let? r := contract (terminal_from_slice (rt_raw_bytes row)) in
      contract (terminal_validate r) ;?
      reject (terminal_row_differs run_id packet_digest work_item_id row profile r)
        (ReadOnlyStore "terminal receipt row identity mismatch") ;?
      Ok (tr_state r, tr_result_classification r)
    else if String.eqb (rt_receipt_kind row) "not_started" then
      let? r := contract (not_started_from_slice (rt_raw_bytes row)) in
      contract (not_started_validate r) ;?
      reject (not_started_row_differs run_id packet_digest work_item_id row r)
        (ReadOnlyStore "not-started receipt row identity mismatch") ;?
      Ok (nr_state r, nr_result_classification r)
    else Err (ReadOnlyStore "unknown accepted receipt kind") in
  Ok {| rv_work_item_id := work_item_id; rv_attempt_id := rt_attempt_id row;
        rv_receipt_digest := rt_receipt_digest row; rv_raw_bytes := rt_raw_bytes row;
        rv_receipt_kind := rt_receipt_kind row; rv_state := state;
        rv_result_classification := classification |}.

Definition on_run_closed (row : ReadOnlyEventRowV1) (binding : option (N * instant * string))
    : result ForemanError (option (N * instant * string)) :=
  if negb (String.eqb (ro_kind row) "internal") then Ok binding else
  let? event := serialized (from_slice (ro_raw_bytes row)) in
  match ie_payload event with
  | RunClosed digest =>
      reject (bool_decide (is_Some binding))
        (ReadOnlyStore "multiple RunClosed events are not an exact terminal history") ;?
      Ok (Some (ro_sequence row, ie_recorded_at event, digest))
  | _ => Ok binding
  end.

Definition validate_read_only_run_closed_binding (rows : list ReadOnlyEventRowV1)
    : result ForemanError (option (N * instant * string)) :=
  fold_try on_run_closed rows None.

(** The receipt and the projected item of one identity agree. *)
Definition receipt_agrees (receipt : option ReadOnlyTerminalReceiptRowV1) (i : LiveWorkItemV1)
    : bool :=
  match receipt, li_accepted_terminal_outcome i with
  | None, None => negb (is_explicit_terminal (li_scheduler_state i))
  | Some r, Some o =>
      String.eqb (rv_receipt_digest r) (ao_receipt_digest o)
      && String.eqb (rv_state r) (ao_state o)
      && String.eqb (rv_result_classification r) (ao_result_classification o)
      && ((String.eqb (rv_receipt_kind r) "terminal"
           && bool_decide (li_scheduler_state i = TerminalReceiptAccepted))
          || (String.eqb (rv_receipt_kind r) "not_started"
              && bool_decide (li_scheduler_state i = NotStarted)))
  | _, _ => false
  end.

Definition validate_read_only_projection_receipts (p : LiveRunProjectionV1)
    (receipts : list ReadOnlyTerminalReceiptRowV1) : result ForemanError unit :=
  let by_item : gmap string ReadOnlyTerminalReceiptRowV1 :=
    list_to_map ((fun r => (rv_work_item_id r, r)) <$> rev receipts) in
  reject (negb (size by_item =? length receipts)%nat)
    (ReadOnlyStore "duplicate accepted receipt work item") ;?
  reject (existsb (fun r => negb (existsb (fun i =>
            String.eqb (li_work_item_id i) (rv_work_item_id r)) (lp_work_items p))) receipts)
    (ReadOnlyStore "accepted receipt references an unknown projected work item") ;?
  for_each (fun i => reject (negb (receipt_agrees (by_item !! li_work_item_id i) i))
                       (ReadOnlyStore "accepted receipt and replay projection disagree"))
    (lp_work_items p).

(** [ORDER BY work_item_id ASC]. *)
Definition ordered_receipts (run_id : string) (s : Store) : list (string * ReceiptRow) :=
  btree_iter (list_to_map (run_receipts run_id s)).

Definition check_final_snapshot (packet : NightshiftPacketV1) (run_id : string)
    (rows : list ReadOnlyEventRowV1) (final : option FinalSnapshotRow)
    (run_closed : option (N * instant * string)) (replayed : option string) (s : Store)
    : result ForemanError (option string) :=
  match final, run_closed, replayed with
  | None, None, None => Ok None
  | Some f, Some (sequence, closed_at, closed_digest), Some replayed =>
      reject (negb (String.eqb (fs_raw_digest f) (raw_digest (fs_raw_bytes f)))
              || negb (String.eqb (fs_raw_digest f) replayed)
              || negb (String.eqb (fs_raw_digest f) closed_digest)
              || negb (bool_decide (ro_sequence <$> last rows = Some sequence)))
        (ReadOnlyStore "final snapshot digest and RunClosed replay disagree") ;?
      let? updated_at := ok_or (parse_from_rfc3339 (fs_updated_at f))
        (Serialization "updated_at") in
      let time := ReadOnlyStore "final snapshot and RunClosed time custody disagree" in
      reject (negb (updated_at =? closed_at)%Z) time ;?
      let? latest := latest_terminal_evidence_at run_id s in
      reject (updated_at <? latest)%Z time ;?
      let? document := build_final_document packet run_id updated_at s in
      let? rebuilt := serialized (to_vec document) in
      reject (negb (String.eqb rebuilt (fs_raw_bytes f)))
        (ReadOnlyStore "final snapshot bytes do not reproduce from exact accepted receipts") ;?
      Ok (Some (fs_raw_bytes f))
  | _, _, _ => Err (ReadOnlyStore "final snapshot presence and RunClosed replay disagree")
  end.

Definition read_only_run_snapshot (run_id : string) (s : Store)
    : result ForemanError ReadOnlyRunSnapshotV1 :=
  let? run := ok_or (st_runs s !! run_id) (UnknownRun run_id) in
  let? p := load_projection run_id s in
  let? packet := map_err PacketRefused (packet_from_slice (rn_packet_bytes run)) in
  map_err PacketRefused (validate_integrity packet) ;?
  let? admission := contract (admission_from_slice (rn_admission_bytes run)) in
  contract (admission_validate admission) ;?
  let? profile := contract (profile_from_slice (rn_profile_bytes run)) in
  contract (profile_validate profile) ;?
  let? _ := validate_capacity_history_size run_id (ep_maximum_event_bytes profile)
    (capacity_row_bound packet) s in
  let? _ := validate_execution_availability_history_size run_id
    (ep_maximum_event_bytes profile) false s in
  let rows := run_rows run_id s in
  let? capacity := validate_capacity_history rows packet admission profile s in
  let? availability :=
    validate_execution_availability_history_rows packet admission profile rows s in
  let? run_closed := validate_read_only_run_closed_binding rows in
  let? receipts := map_try
    (validate_read_only_receipt_row run_id (lp_packet_digest p) profile)
    (ordered_receipts run_id s) in
  validate_read_only_projection_receipts p receipts ;?
  let? final := check_final_snapshot packet run_id rows (st_finals s !! run_id) run_closed
    (lp_closed_final_receipts_digest p) s in
  Ok {| sn_run_id := run_id; sn_packet_bytes := rn_packet_bytes run;
        sn_admission_bytes := rn_admission_bytes run; sn_profile_bytes := rn_profile_bytes run;
        sn_projection := p; sn_events := rows;
        sn_capacity_requirement := vh_requirement capacity;
        sn_capacity_admissions := vh_admissions capacity;
        sn_execution_availability := availability; sn_terminal_receipts := receipts;
        sn_final_snapshot_bytes := final |}.
End store.
