(* ===== verification/Provider.v ===== *)
(** * Provider dispatches (crates/nightshift-foreman/src/store.rs)

    The operations of [ForemanStore] on a run whose mechanism requirement asks for
    execution availability: opening a dispatch, recording a disposition (and parking
    the attempt), waking a parked dispatch and resuming an interrupted execution. *)
From S2P Require Import Prelude Text External Packet Capacity Contract Availability Scheduler.
From S2P Require Import Prelaunch Bootstrap Evidence Graph Journal Requirements History Store.
Local Open Scope string_scope.

(** The occurrence a dispatch is opened under, with its instant. *)
Record DispatchOccurrence := {
  oc_preparation : ProviderDispatchPreparation;
  oc_opened_at : instant
}.

(** The byte inputs of [record_provider_disposition]. *)
Record ProviderDispositionEvidenceV1 := {
  pe_observation_bytes : string;
  pe_disposition_bytes : string;
  pe_deferred_bytes : option string
}.

Section provider.
Context {DOC : Documents} {PE : ProviderEvidence}.

(** ** Shared reads *)

(** [SELECT raw_bytes FROM events WHERE run_id .. AND work_item_id .. AND attempt_id ..
  AND kind = 'internal'], keeping the one attempt it creates. *)
Definition keep_start_request (row : ReadOnlyEventRowV1) (found : option WorkerStartRequestV2)
    : result ForemanError (option WorkerStartRequestV2) :=
  let? event := serialized (from_slice (ro_raw_bytes row)) in
  match ie_payload event, found with
  | AttemptCreated _ start, None => Ok (Some start)
  | AttemptCreated _ _, Some _ =>
      Err (ReadOnlyStore "duplicate exact work-attempt start request")
  | _, _ => Ok found
  end.

Definition load_attempt_start_request (run_id work_item_id attempt_id : string) (s : Store)
    : result ForemanError WorkerStartRequestV2 :=
  let? found := fold_try keep_start_request
    (List.filter (fun row => bool_decide (ro_work_item_id row = Some work_item_id)
                             && bool_decide (ro_attempt_id row = Some attempt_id)
                             && String.eqb (ro_kind row) "internal") (run_rows run_id s)) None in
  ok_or found (Transition "work attempt lacks exact V2 start predecessor").

Definition require_attempt_resource_claims (profile : ExecutionProfileV2)
    (run_id work_item_id attempt_id : string) (s : Store) : result ForemanError unit :=
  let? execution := ok_or (ep_work_items profile !! work_item_id)
    (UnknownWorkItem work_item_id) in
  for_each (fun lock =>
    reject (negb (bool_decide (st_resource_claims s !! (run_id, lock)
                               = Some (work_item_id, attempt_id))))
      (ResourceUnavailable ("required lock " +:+ lock +:+ " is not held by exact work attempt")))
    (wx_resource_lock_keys execution).

Definition reacquire_claim (run_id work_item_id attempt_id lock : string) (s : Store)
    : result ForemanError Store :=
  match st_resource_claims s !! (run_id, lock) with
  | Some (owner_work, owner_attempt) =>
      reject (negb (String.eqb owner_work work_item_id
                    && String.eqb owner_attempt attempt_id))
        (ResourceUnavailable (lock +:+ " held by " +:+ owner_work)) ;?
      Ok s
  | None => insert_claim run_id lock work_item_id attempt_id s
  end.

Definition reacquire_attempt_resource_claims (profile : ExecutionProfileV2)
    (run_id work_item_id attempt_id : string) (s : Store) : result ForemanError Store :=
  let? execution := ok_or (ep_work_items profile !! work_item_id)
    (UnknownWorkItem work_item_id) in
  fold_try (reacquire_claim run_id work_item_id attempt_id) (wx_resource_lock_keys execution) s.

(** The active attempt, the contracts and the history every operation starts from. *)
Definition load_provider_run (run_id work_item_id attempt_id : string) (s : Store)
    : result ForemanError (Contracts * ReadOnlyExecutionAvailabilityHistoryV1) :=
  exact_active_attempt run_id work_item_id attempt_id s ;?
  let? c := load_contracts run_id s in
  let? history := load_execution_availability_history (ct_packet c) (ct_admission c)
    (ct_profile c) run_id s in
  let? history := ok_or history
    (Transition "run has no immutable execution-availability requirement") in
  Ok (c, history).

(** The reload that ends every operation. *)
Definition reload_history (c : Contracts) (run_id : string) (s : Store)
    : result ForemanError Store :=
  let? _ := load_execution_availability_history (ct_packet c) (ct_admission c) (ct_profile c)
    run_id s in
  Ok s.

(** ** Opening the first dispatch of an attempt *)

Definition open_provider_dispatch (run_id work_item_id attempt_id : string)
    (o : DispatchOccurrence) (s : Store)
    : result ForemanError (OpenedProviderDispatchV1 * Store) :=
  let? '(c, history) := load_provider_run run_id work_item_id attempt_id s in
  reject (existsb (fun d => String.eqb (di_work_attempt_id d) attempt_id)
            (xh_dispatches history))
    (Transition "initial provider dispatch already exists for work attempt") ;?
  require_attempt_resource_claims (ct_profile c) run_id work_item_id attempt_id s ;?
  let? predecessor := load_attempt_start_request run_id work_item_id attempt_id s in
  let? opened := build_provider_dispatch predecessor (ct_profile c) (xh_requirement history)
    (oc_preparation o) 1 (oc_opened_at o) in
  let? s := append_provider_dispatch run_id work_item_id attempt_id opened
    (ep_maximum_event_bytes (ct_profile c)) s in
  let? s := reload_history c run_id s in
  Ok (opened, s).

(** ** Recording a disposition *)

Definition append_provider_disposition (run_id work_item_id attempt_id : string)
    (e : ValidatedProviderDispositionEvidence) (predecessor : option string)
    (maximum_event_bytes : N) (s : Store) : result ForemanError Store :=
  append_execution_availability_bounded
    (internal_event ("provider-disposition-" +:+ dp_disposition_digest (ve_disposition e))
       run_id (Some work_item_id) (Some attempt_id) (dp_received_at (ve_disposition e))
       (ProviderDispositionRecorded (ve_observation e) (ve_observation_bytes e)
          (ve_disposition e) (ve_disposition_bytes e) (ve_deferred e) (ve_deferred_bytes e)
          predecessor))
    maximum_event_bytes s.

(** The predecessor named must be the last disposition of the dispatch. *)
Definition check_predecessor_disposition
    (lane : list ProviderAdmissionDispositionV1) (predecessor : option string)
    (disposition : ProviderAdmissionDispositionV1) : result ForemanError unit :=
  let mismatch := Transition "provider disposition predecessor mismatch" in
  match last lane, predecessor with
  | None, None => Ok tt
  | Some previous, Some expected =>
      if String.eqb (dp_disposition_digest previous) expected
      then validate_provider_disposition_transition previous disposition
      else Err mismatch
  | _, _ => Err mismatch
  end.

(** A parked attempt under the releasing policy gives its locks back. *)
Definition park_released (d : ProviderAdmissionDispositionV1)
    (policy : ExecutionAvailabilityPolicyV1) : bool :=
  disposition_permits_automatic_park d
  && bool_decide (yp_parked_resource_lock_policy policy = ReleaseAndReacquire).

Definition release_parked (c : Contracts) (policy : ExecutionAvailabilityPolicyV1)
    (run_id work_item_id attempt_id : string) (d : ProviderAdmissionDispositionV1) (s : Store)
    : result ForemanError Store :=
  if park_released d policy then
    let? execution := ok_or (ep_work_items (ct_profile c) !! work_item_id)
      (UnknownWorkItem work_item_id) in
    let? s := append_execution_availability_bounded
      (internal_event ("provider-resources-released-" +:+ dp_disposition_digest d) run_id
         (Some work_item_id) (Some attempt_id) (dp_received_at d)
         (ProviderResourcesReleased (dp_disposition_digest d) (dp_dispatch_digest d)
            (yp_policy_digest policy) (wx_resource_lock_keys execution)))
      (ep_maximum_event_bytes (ct_profile c)) s in
    Ok (delete_claims run_id work_item_id attempt_id s)
  else Ok s.

Definition record_provider_disposition (run_id work_item_id attempt_id : string)
    (evidence : ProviderDispositionEvidenceV1) (predecessor : option string) (s : Store)
    : result ForemanError (ProviderAdmissionDispositionV1 * Store) :=
  let? accepted := validate_provider_disposition_evidence (pe_observation_bytes evidence)
    (pe_disposition_bytes evidence) (pe_deferred_bytes evidence) in
  let disposition := ve_disposition accepted in
  let? '(c, history) := load_provider_run run_id work_item_id attempt_id s in
  let? dispatch := ok_or
    (find_first (fun d => String.eqb (di_work_attempt_id d) attempt_id
                          && String.eqb (di_dispatch_digest d) (dp_dispatch_digest disposition))
       (xh_dispatches history)) (IdentityMismatch "dispatch_digest") in
  check_predecessor_disposition
    (List.filter (fun d => String.eqb (dp_dispatch_digest d) (di_dispatch_digest dispatch))
       (xh_dispositions history)) predecessor disposition ;?
  let? prior := provider_deferral_history history attempt_id (di_dispatch_ordinal dispatch) in
  contract (validate_execution_availability_graph (xh_requirement history) (xh_policy history)
    dispatch (ve_observation accepted) disposition prior (ve_deferred accepted)) ;?
  let? s := append_provider_disposition run_id work_item_id attempt_id accepted predecessor
    (ep_maximum_event_bytes (ct_profile c)) s in
  let? s := release_parked c (xh_policy history) run_id work_item_id attempt_id disposition s in
  let? s := reload_history c run_id s in
  Ok (disposition, s).

(** ** Waking a parked dispatch *)

(** A wake already retained is repeated only by the very same occurrence. *)
Definition occurrence_differs (d : ProviderDispatchOccurrenceV1) (o : DispatchOccurrence) : bool :=
  negb (String.eqb (di_dispatch_occurrence_id d) (pp_dispatch_occurrence_id (oc_preparation o)))
  || negb (String.eqb (di_adapter_process_occurrence_id d)
             (pp_adapter_process_occurrence_id (oc_preparation o)))
  || negb (String.eqb (di_app_server_session_identity d)
             (pp_app_server_session_identity (oc_preparation o)))
  || negb (di_selected_model_ordinal d =? pp_selected_model_ordinal (oc_preparation o))%N
  || negb (di_opened_at d =? oc_opened_at o)%Z.

Definition repeated_wake (history : ReadOnlyExecutionAvailabilityHistoryV1)
    (attempt_id wake_occurrence_id : string) (o : DispatchOccurrence) (k : nat)
    : result ForemanError OpenedProviderDispatchV1 :=
  let duplicate := DuplicateEvent wake_occurrence_id in
  reject (negb (bool_decide (xh_wake_work_attempt_ids history !! k = Some attempt_id)))
    duplicate ;?
  let? next_digest := ok_or (xh_wake_next_dispatch_digests history !! k)
    (ReadOnlyStore "wake occurrence lacks exact next dispatch digest") in
  let? global := ok_or
    (position (fun d => String.eqb (di_dispatch_digest d) next_digest) (xh_dispatches history))
    (ReadOnlyStore "wake occurrence lacks exact next dispatch") in
  let? dispatch := ok_or (xh_dispatches history !! global) (Panicked "dispatches") in
  let? start := ok_or (xh_worker_start_requests history !! global)
    (Panicked "worker_start_requests") in
  reject (occurrence_differs dispatch o) duplicate ;?
  Ok {| od_worker_start_request := start; od_dispatch := dispatch |}.

(** Waking under the releasing policy takes a worker slot again. *)
Definition check_wake_slot (history : ReadOnlyExecutionAvailabilityHistoryV1) (run_id : string)
    (s : Store) : result ForemanError unit :=
  if bool_decide (yp_parked_resource_lock_policy (xh_policy history) = ReleaseAndReacquire) then
    let? p := load_projection run_id s in
    let? released := fold_try slot_released (xh_resource_transitions history) ∅ in
    reject (lp_maximum_concurrent_workers p <=? active_workers released p)%N
      (ResourceUnavailable "maximum concurrent workers reached while waking parked dispatch")
  else Ok tt.

Definition model_selection_lawful (policy : ExecutionAvailabilityPolicyV1)
    (deferred : DeferredProviderDispatchV1) (selected : N) : bool :=
  (selected =? df_selected_model_ordinal deferred)%N
  || (yp_allow_ordered_model_fallback policy
      && bool_decide (head (df_remaining_model_ordinals deferred) = Some selected)).

(** The deferral a wake continues, and the ordinal of the dispatch it opens. *)
Definition wake_basis (history : ReadOnlyExecutionAvailabilityHistoryV1) (attempt_id : string)
    (o : DispatchOccurrence) : result ForemanError (DeferredProviderDispatchV1 * N) :=
  let p := oc_preparation o in
  let lane := List.filter (fun d => String.eqb (di_work_attempt_id d) attempt_id)
    (xh_dispatches history) in
  let? last_dispatch := ok_or (last lane)
    (Transition "wake requires a prior provider dispatch") in
  let? last_disposition := ok_or
    (find_first (fun d => String.eqb (dp_dispatch_digest d) (di_dispatch_digest last_dispatch))
       (rev (xh_dispositions history)))
    (Transition "wake requires a prior provider disposition") in
  let? deferred := ok_or
    (find_first (fun d => String.eqb (df_disposition_digest d)
                            (dp_disposition_digest last_disposition)) (xh_deferred history))
    (Transition "wake requires exact parked deferral") in
  reject (negb (bool_decide (dp_mechanism_state last_disposition = ParkedNotAdmitted))
          || (oc_opened_at o <? df_wake_at deferred)%Z)
    (Transition "parked dispatch is not yet wake eligible") ;?
  reject (negb (model_selection_lawful (xh_policy history) deferred (pp_selected_model_ordinal p))
          || (yp_maximum_dispatch_occurrences_per_attempt (xh_policy history)
              <=? N.of_nat (length lane))%N
          || existsb (fun d => String.eqb (di_adapter_process_occurrence_id d)
                                 (pp_adapter_process_occurrence_id p)) (xh_dispatches history))
    (Transition "wake model, dispatch bound, or process occurrence is not lawful") ;?
  Ok (deferred, (N.of_nat (length lane) + 1)%N).

Definition U16_MAX : N := 65535.

Definition reacquire_for_wake (c : Contracts) (history : ReadOnlyExecutionAvailabilityHistoryV1)
    (run_id work_item_id attempt_id wake_occurrence_id : string)
    (deferred : DeferredProviderDispatchV1) (opened : OpenedProviderDispatchV1)
    (opened_at : instant) (s : Store) : result ForemanError Store :=
  match yp_parked_resource_lock_policy (xh_policy history) with
  | ReleaseAndReacquire =>
      let? s := reacquire_attempt_resource_claims (ct_profile c) run_id work_item_id attempt_id
        s in
      let? execution := index (ep_work_items (ct_profile c)) work_item_id
        "profile.work_items" in
      append_execution_availability_bounded
        (internal_event ("provider-resources-reacquired-" +:+ wake_occurrence_id) run_id
           (Some work_item_id) (Some attempt_id) opened_at
           (ProviderResourcesReacquired wake_occurrence_id
              (df_deferred_dispatch_digest deferred) (di_dispatch_digest (od_dispatch opened))
              (yp_policy_digest (xh_policy history)) (wx_resource_lock_keys execution)))
        (ep_maximum_event_bytes (ct_profile c)) s
  | RetainWhileParked =>
      require_attempt_resource_claims (ct_profile c) run_id work_item_id attempt_id s ;?
      Ok s
  end.

Definition wake_provider_dispatch (run_id work_item_id attempt_id wake_occurrence_id : string)
    (o : DispatchOccurrence) (s : Store)
    : result ForemanError (OpenedProviderDispatchV1 * Store) :=
  validate_local_occurrence_id wake_occurrence_id "wake_occurrence_id" ;?
  let? '(c, history) := load_provider_run run_id work_item_id attempt_id s in
  match position (String.eqb wake_occurrence_id) (xh_wake_occurrence_ids history) with
  | Some k =>
      let? opened := repeated_wake history attempt_id wake_occurrence_id o k in
      Ok (opened, s)
  | None =>
      check_wake_slot history run_id s ;?
      let? '(deferred, dispatch_ordinal) := wake_basis history attempt_id o in
      let? predecessor := load_attempt_start_request run_id work_item_id attempt_id s in
      reject (U16_MAX <? dispatch_ordinal)%N (Transition "dispatch ordinal overflow") ;?
      let? opened := build_provider_dispatch predecessor (ct_profile c) (xh_requirement history)
        (oc_preparation o) dispatch_ordinal (oc_opened_at o) in
      let? s := reacquire_for_wake c history run_id work_item_id attempt_id wake_occurrence_id
        deferred opened (oc_opened_at o) s in
      let? s := append_execution_availability_bounded
        (internal_event ("provider-wake-" +:+ wake_occurrence_id) run_id (Some work_item_id)
           (Some attempt_id) (oc_opened_at o)
           (ProviderWakeOpened wake_occurrence_id (df_deferred_dispatch_digest deferred)
              (di_dispatch_digest (od_dispatch opened))))
        (ep_maximum_event_bytes (ct_profile c)) s in
      let? s := append_provider_dispatch run_id work_item_id attempt_id opened
        (ep_maximum_event_bytes (ct_profile c)) s in
      let? s := reload_history c run_id s in
      Ok (opened, s)
  end.

(** ** Resuming an interrupted execution *)

Record ResumeOccurrence := {
  re_resume_occurrence_id : string;
  re_disposition_digest : string;
  re_adapter_process_occurrence_id : string;
  re_execution_identity : ProviderExecutionIdentityV1;
  re_recorded_at : instant
}.

Definition resume_differs (history : ReadOnlyExecutionAvailabilityHistoryV1)
    (work_item_id attempt_id : string) (r : ResumeOccurrence) (k : nat) : bool :=
  negb (bool_decide (xh_resume_work_item_ids history !! k = Some work_item_id))
  || negb (bool_decide (xh_resume_work_attempt_ids history !! k = Some attempt_id))
  || negb (bool_decide (xh_resume_disposition_digests history !! k
                        = Some (re_disposition_digest r)))
  || negb (bool_decide (xh_resume_adapter_process_occurrence_ids history !! k
                        = Some (re_adapter_process_occurrence_id r)))
  || negb (bool_decide (xh_resume_execution_identities history !! k
                        = Some (re_execution_identity r)))
  || negb (bool_decide (xh_resume_recorded_at history !! k = Some (re_recorded_at r))).

Definition check_resume (history : ReadOnlyExecutionAvailabilityHistoryV1) (attempt_id : string)
    (r : ResumeOccurrence) : result ForemanError unit :=
  let? d := ok_or
    (find_first (fun d => String.eqb (dp_work_attempt_id d) attempt_id)
       (rev (xh_dispositions history)))
    (Transition "resume requires exact post-admission disposition") in
  reject (existsb (String.eqb (re_disposition_digest r)) (xh_resume_disposition_digests history)
          || existsb (fun d => String.eqb (di_adapter_process_occurrence_id d)
                                 (re_adapter_process_occurrence_id r)) (xh_dispatches history)
          || existsb (String.eqb (re_adapter_process_occurrence_id r))
               (xh_resume_adapter_process_occurrence_ids history))
    (Transition "resume disposition or adapter process occurrence is already retained") ;?
  reject (negb (String.eqb (dp_disposition_digest d) (re_disposition_digest r))
          || negb (bool_decide (dp_mechanism_state d = PostAdmissionInterrupted))
          || negb (bool_decide (dp_provider_execution d = Some (re_execution_identity r)))
          || negb (String.eqb (xi_app_server_session_identity (re_execution_identity r))
                     (dp_app_server_session_identity d))
          || (re_recorded_at r <? dp_received_at d)%Z)
    (Transition "resume is not bound to exact interrupted execution").

Definition resume_provider_execution (run_id work_item_id attempt_id : string)
    (r : ResumeOccurrence) (s : Store) : result ForemanError Store :=
  validate_local_occurrence_id (re_resume_occurrence_id r) "resume_occurrence_id" ;?
  validate_local_occurrence_id (re_adapter_process_occurrence_id r)
    "adapter_process_occurrence_id" ;?
  contract (execution_identity_validate (re_execution_identity r)) ;?
  let? '(c, history) := load_provider_run run_id work_item_id attempt_id s in
  match position (String.eqb (re_resume_occurrence_id r)) (xh_resume_occurrence_ids history) with
  | Some k =>
      reject (resume_differs history work_item_id attempt_id r k)
        (DuplicateEvent (re_resume_occurrence_id r)) ;?
      Ok s
  | None =>
      check_resume history attempt_id r ;?
      require_attempt_resource_claims (ct_profile c) run_id work_item_id attempt_id s ;?
      let? s := append_execution_availability_bounded
        (internal_event ("provider-resume-" +:+ re_resume_occurrence_id r) run_id
           (Some work_item_id) (Some attempt_id) (re_recorded_at r)
           (ProviderExecutionResumeRequested (re_resume_occurrence_id r)
              (re_disposition_digest r) (re_adapter_process_occurrence_id r)
              (re_execution_identity r)))
        (ep_maximum_event_bytes (ct_profile c)) s in
      reload_history c run_id s
  end.
End provider.
