(* ===== verification/StoreFacts.v ===== *)
(** * Facts of the store: frames, steps and reachable stores

    Every operation acts on one run: it only adds rows, except for the claims of
    that run, and leaves all other runs as they were ([frame]).  [step] collects
    the modelled operations and [reachable] the stores they lead to. *)
From S2P Require Import Prelude Text External Packet Capacity Contract Availability Scheduler.
From S2P Require Import SchedulerFacts Prelaunch Bootstrap Evidence Graph Journal Requirements History.
From S2P Require Import Store Provider.
Local Open Scope string_scope.

(** ** Definitions *)

(** What the tables hold of one run. *)
Record same_run (r : string) (s s' : Store) : Prop := {
  same_row : st_runs s' !! r = st_runs s !! r;
  same_items : forall i, st_work_items s' !! (r, i) = st_work_items s !! (r, i);
  same_events : run_rows r s' = run_rows r s;
  same_claims : forall k, st_resource_claims s' !! (r, k) = st_resource_claims s !! (r, k);
  same_metadata : List.filter (fun m => String.eqb (md_run_id m) r) (st_metadata s')
                  = List.filter (fun m => String.eqb (md_run_id m) r) (st_metadata s);
  same_anchors : List.filter (fun a => String.eqb (an_run_id a) r) (st_anchors s')
                 = List.filter (fun a => String.eqb (an_run_id a) r) (st_anchors s);
  same_requirement : r ∈ st_requirements s' <-> r ∈ st_requirements s;
  same_receipts : forall i, st_receipts s' !! (r, i) = st_receipts s !! (r, i);
  same_final : st_finals s' !! r = st_finals s !! r;
  same_bootstrap : st_bootstraps s' !! r = st_bootstraps s !! r
}.

(** Rows are only added; claims are the one table a statement deletes from. *)
Record extends (s s' : Store) : Prop := {
  ext_runs : st_runs s ⊆ st_runs s';
  ext_items : st_work_items s ⊆ st_work_items s';
  ext_events : exists l, st_events s' = (st_events s ++ l)%list;
  ext_metadata : exists l, st_metadata s' = (st_metadata s ++ l)%list;
  ext_anchors : exists l, st_anchors s' = (st_anchors s ++ l)%list;
  ext_requirements : st_requirements s ⊆ st_requirements s';
  ext_receipts : st_receipts s ⊆ st_receipts s';
  ext_finals : st_finals s ⊆ st_finals s';
  ext_bootstraps : st_bootstraps s ⊆ st_bootstraps s'
}.

Record frame (r : string) (s s' : Store) : Prop := {
  frame_extends : extends s s';
  frame_same : forall r', r' <> r -> same_run r' s s'
}.

(** A relation that holds across every statement on a run, [insert_final] apart:
    what holds of the statements holds of the transactions built from them. *)
Record closed_under (r : string) (R : relation Store) : Prop := {
  cu_preorder : PreOrder R;
  cu_run row s s' : insert_run r row s = Ok s' -> R s s';
  cu_item i o d s s' : insert_work_item r i o d s = Ok s' -> R s s';
  cu_event id w a k t b d s s' : insert_event r id w a k t b d s = Ok s' -> R s s';
  cu_claim k i a s s' : insert_claim r k i a s = Ok s' -> R s s';
  cu_delete i a s : R s (delete_claims r i a s);
  cu_metadata m s s' : md_run_id m = r -> insert_metadata m s = Ok s' -> R s s';
  cu_anchor a s s' : an_run_id a = r -> insert_anchor a s = Ok s' -> R s s';
  cu_requirement s s' : insert_requirement r s = Ok s' -> R s s';
  cu_receipt i row s s' : insert_receipt r i row s = Ok s' -> R s s';
  cu_bootstrap row s s' : insert_bootstrap r row s = Ok s' -> R s s'
}.

(** Row well-formedness: the keys the schema declares. *)
Record store_wf (s : Store) : Prop := {
  wf_sequences : forall i j a b, (i < j)%nat ->
    st_events s !! i = Some a -> st_events s !! j = Some b ->
    (ro_sequence (ev_row a) < ro_sequence (ev_row b))%N;
  wf_bounds : Forall (fun e => (0 < ro_sequence (ev_row e) <= st_last_sequence s)%N)
    (st_events s);
  wf_last : (st_last_sequence s <= I64_MAX)%N;
  wf_event_ids : NoDup ((fun e => (ev_run_id e, ro_event_id (ev_row e))) <$> st_events s);
  wf_event_runs : Forall (fun e => is_Some (st_runs s !! ev_run_id e)) (st_events s);
  wf_claim_runs : forall r k h, st_resource_claims s !! (r, k) = Some h ->
    is_Some (st_runs s !! r);
  wf_receipt_runs : forall r i row, st_receipts s !! (r, i) = Some row -> is_Some (st_runs s !! r);
  wf_final_runs : forall r row, st_finals s !! r = Some row -> is_Some (st_runs s !! r)
}.

Section steps.
Context {DOC : Documents} {PE : ProviderEvidence}.

(** The modelled operations that change the store, with the run each acts on. *)
Inductive step : string -> Store -> Store -> Prop :=
| step_admit pb ab fb t m uuids s r s' :
  admit_internal pb ab fb t m uuids s = Ok (r, s') -> step r s s'
| step_prepare r i t capacity dispatch uuids s x s' :
  prepare_attempt_internal r i t capacity dispatch uuids s = Ok (x, s') -> step r s s'
| step_dispatch_requested r i a t uuid s s' :
  record_dispatch_requested r i a t uuid s = Ok s' -> step r s s'
| step_resume_requested r i a t uuid s s' :
  record_resume_requested r i a t uuid s = Ok s' -> step r s s'
| step_adapter_event raw e s s' :
  event_from_slice raw = Ok e -> accept_adapter_event raw s = Ok s' ->
  step (ae_run_id e) s s'
| step_terminal_receipt raw e uuids s s' :
  terminal_from_slice raw = Ok e -> accept_terminal_receipt raw uuids s = Ok s' ->
  step (tr_run_id e) s s'
| step_terminal_refusal r i a reason t uuid s s' :
  record_terminal_refusal r i a reason t uuid s = Ok s' -> step r s s'
| step_not_started raw e uuid s s' :
  not_started_from_slice raw = Ok e -> accept_not_started raw uuid s = Ok s' ->
  step (nr_run_id e) s s'
| step_prelaunch_closure raw e uuid s x s' :
  prelaunch_from_slice raw = Ok e -> accept_prelaunch_closure raw uuid s = Ok (x, s') ->
  step (pb_run_id (pc_binding e)) s s'
| step_open_dispatch r i a o s x s' :
  open_provider_dispatch r i a o s = Ok (x, s') -> step r s s'
| step_disposition r i a evidence predecessor s x s' :
  record_provider_disposition r i a evidence predecessor s = Ok (x, s') -> step r s s'
| step_wake r i a wake o s x s' :
  wake_provider_dispatch r i a wake o s = Ok (x, s') -> step r s s'
| step_resume r i a o s s' :
  resume_provider_execution r i a o s = Ok s' -> step r s s'
| step_close r t uuid s raw s' :
  close r t uuid s = Ok (raw, s') -> step r s s'.

Inductive reachable : Store -> Prop :=
| reachable_empty : reachable empty_store
| reachable_step r s s' : reachable s -> step r s s' -> reachable s'.
End steps.

(** ** Frames compose *)

#[global] Instance same_run_equiv r : Equivalence (same_run r).
Proof.
  split.
  - intros s. by split.
  - intros s s' []. split; intros; try done; try (by symmetry; auto).
  - intros s1 s2 s3 [] []. split; intros; try (by etrans; eauto).
Qed.

#[global] Instance extends_preorder : PreOrder extends.
Proof.
  split.
  - intros s. split; try done; exists []; by rewrite app_nil_r.
  - intros s1 s2 s3 [? ? [l1 H1] [l2 H2] [l3 H3]] [? ? [k1 K1] [k2 K2] [k3 K3]].
    split; try (by etrans); eexists;
      [rewrite K1, H1|rewrite K2, H2|rewrite K3, H3]; by rewrite <- app_assoc.
Qed.

#[global] Instance frame_preorder r : PreOrder (frame r).
Proof.
  split.
  - intros s. by split.
  - intros s1 s2 s3 [E1 S1] [E2 S2]. split; [by etrans|].
    intros r' Hr. etrans; [by apply S1|by apply S2].
Qed.

(** ** Each statement frames *)

Lemma run_rows_app r s s' l :
  st_events s' = (st_events s ++ l)%list ->
  run_rows r s' = (run_rows r s
    ++ (ev_row <$> List.filter (fun e => String.eqb (ev_run_id e) r) l))%list.
Proof.
  intros H. unfold run_rows. by rewrite H, List.filter_app, fmap_app.
Qed.

(** A statement that changes one table at one run. *)
Ltac same_run_tac :=
  split; simpl; intros;
  rewrite ?lookup_insert_ne by congruence; try done;
  rewrite ?List.filter_app; simpl;
  repeat match goal with
  | H : ?r' <> ?r |- context [String.eqb ?r ?r'] =>
      rewrite (proj2 (String.eqb_neq r r')) by congruence
  end; rewrite ?app_nil_r; try done; try set_solver.
Ltac extends_tac :=
  split; simpl;
  first [ done | by apply insert_subseteq | by (eexists []; rewrite app_nil_r)
        | by eexists | set_solver ].

Lemma insert_run_frame r row s s' : insert_run r row s = Ok s' -> frame r s s'.
Proof.
  unfold insert_run. intros H. inv_ok H. subst s'. res_simpl.
  apply bool_decide_eq_false in Hok. apply eq_None_not_Some in Hok.
  split; [extends_tac|intros r' Hr; same_run_tac].
Qed.

Lemma insert_work_item_frame r i o d s s' : insert_work_item r i o d s = Ok s' -> frame r s s'.
Proof.
  unfold insert_work_item. intros H. inv_ok H. subst s'. res_simpl.
  apply bool_decide_eq_false in Hok. apply eq_None_not_Some in Hok.
  split; [extends_tac|intros r' Hr; same_run_tac].
Qed.

Lemma insert_event_frame r i w a k t b d s s' :
  insert_event r i w a k t b d s = Ok s' -> frame r s s'.
Proof.
  unfold insert_event. intros H. inv_ok H. subst s'.
  split; [extends_tac|]. intros r' Hr. split; simpl; try done.
  erewrite run_rows_app by done. simpl.
  rewrite (proj2 (String.eqb_neq r r')) by congruence. by rewrite app_nil_r.
Qed.

Lemma set_claims_frame r c s :
  (forall r' k, r' <> r -> c !! (r', k) = st_resource_claims s !! (r', k)) ->
  frame r s (set_claims c s).
Proof.
  intros Hc. split; [extends_tac|]. intros r' Hr. split; simpl; intros; try done. by apply Hc.
Qed.

Lemma insert_claim_frame r k i a s s' : insert_claim r k i a s = Ok s' -> frame r s s'.
Proof.
  unfold insert_claim. intros H. inv_ok H. subst s'. apply set_claims_frame.
  intros r' k' Hr. by rewrite lookup_insert_ne by congruence.
Qed.

Lemma delete_claims_lookup r i a s r' k :
  st_resource_claims (delete_claims r i a s) !! (r', k) =
  match st_resource_claims s !! (r', k) with
  | Some h => if decide (r' = r /\ h = (i, a)) then None else Some h
  | None => None
  end.
Proof.
  unfold delete_claims, set_claims. simpl. rewrite map_lookup_filter.
  destruct (st_resource_claims s !! (r', k)) as [h|]; simpl; [|done].
  destruct (decide (r' = r /\ h = (i, a))) as [[-> ->]|Hn].
  - by rewrite option_guard_False by naive_solver.
  - rewrite option_guard_True; [done|]. simpl.
    destruct (decide (r' = r)); [right; naive_solver|by left].
Qed.

Lemma delete_claims_frame r i a s : frame r s (delete_claims r i a s).
Proof.
  apply set_claims_frame. intros r' k Hr.
  change (filter _ (st_resource_claims s)) with (st_resource_claims (delete_claims r i a s)).
  rewrite delete_claims_lookup. destruct (_ !! _); [|done].
  by rewrite decide_False by naive_solver.
Qed.

Lemma insert_metadata_frame m s s' : insert_metadata m s = Ok s' -> frame (md_run_id m) s s'.
Proof.
  unfold insert_metadata. intros H. inv_ok H. subst s'.
  split; [extends_tac|intros r' Hr; same_run_tac].
Qed.

Lemma insert_anchor_frame a s s' : insert_anchor a s = Ok s' -> frame (an_run_id a) s s'.
Proof.
  unfold insert_anchor. intros H. inv_ok H. subst s'.
  split; [extends_tac|intros r' Hr; same_run_tac].
Qed.

Lemma insert_requirement_frame r s s' : insert_requirement r s = Ok s' -> frame r s s'.
Proof.
  unfold insert_requirement. intros H. inv_ok H. subst s'.
  split; [extends_tac|intros r' Hr; same_run_tac].
Qed.

Lemma insert_receipt_frame r i row s s' : insert_receipt r i row s = Ok s' -> frame r s s'.
Proof.
  unfold insert_receipt. intros H. inv_ok H. subst s'. res_simpl.
  apply bool_decide_eq_false in Hok. apply eq_None_not_Some in Hok.
  split; [extends_tac|intros r' Hr; same_run_tac].
Qed.

Lemma insert_final_frame r row s s' : insert_final r row s = Ok s' -> frame r s s'.
Proof.
  unfold insert_final. intros H. inv_ok H. subst s'. res_simpl.
  apply bool_decide_eq_false in Hok. apply eq_None_not_Some in Hok.
  split; [extends_tac|intros r' Hr; same_run_tac].
Qed.

Lemma insert_bootstrap_frame r row s s' : insert_bootstrap r row s = Ok s' -> frame r s s'.
Proof.
  unfold insert_bootstrap. intros H. inv_ok H. subst s'. res_simpl.
  apply orb_false_iff in Hok0 as [Hb _].
  apply bool_decide_eq_false in Hb. apply eq_None_not_Some in Hb.
  split; [extends_tac|intros r' Hr; same_run_tac].
Qed.

(** A relation every turn of a loop keeps is kept by the loop. *)
Lemma fold_try_rel {E S A} (R : relation S) `{!PreOrder R} (f : A -> S -> result E S) l s s' :
  (forall x s s', x ∈ l -> f x s = Ok s' -> R s s') -> fold_try f l s = Ok s' -> R s s'.
Proof.
  revert s. induction l as [|x l IH]; intros s Hf H; simpl in H.
  { apply Ok_inj in H as ->. reflexivity. }
  apply rbind_ok in H as (s1 & H1 & H2). etrans.
  - eapply (Hf x); [left|done].
  - eapply IH; [|done]. intros y ? ? Hy. apply Hf. by right.
Qed.

Lemma frame_closed r : closed_under r (frame r).
Proof.
  split; eauto using insert_run_frame, insert_work_item_frame, insert_event_frame,
    insert_claim_frame, delete_claims_frame, insert_requirement_frame, insert_receipt_frame,
    insert_bootstrap_frame; try apply _.
  - intros m s s' <-. apply insert_metadata_frame.
  - intros a s s' <-. apply insert_anchor_frame.
Qed.

(** ** From statements to operations *)

Section operations.
Context {DOC : Documents} {PE : ProviderEvidence}.
Context (r : string) (R : relation Store) (HR : closed_under r R).

#[local] Instance R_preorder : PreOrder R := cu_preorder _ _ HR.

Lemma append_internal_closed e s s' :
  ie_run_id e = r -> append_internal e s = Ok s' -> R s s'.
Proof.
  unfold append_internal, append_internal_raw. intros Hr H. inv_ok H. rewrite Hr in *. by eapply (cu_event _ _ HR).
Qed.

Lemma append_internal_bounded_closed e b c s s' :
  ie_run_id e = r -> append_internal_bounded e b c s = Ok s' -> R s s'.
Proof.
  unfold append_internal_bounded, append_internal_raw. intros Hr H. inv_ok H. rewrite Hr in *.
  by eapply (cu_event _ _ HR).
Qed.

Lemma insert_custody_closed id s s' : insert_custody r id s = Ok s' -> R s s'.
Proof.
  unfold insert_custody. intros H. inv_ok H.
  apply (fold_try_rel R) in Hok, H; [by etrans| |].
  - intros e s1 s2 _ He. by eapply (cu_anchor _ _ HR); [|done].
  - intros e s1 s2 _ He. by eapply (cu_metadata _ _ HR); [|done].
Qed.

Lemma append_execution_availability_bounded_closed e b s s' :
  ie_run_id e = r -> append_execution_availability_bounded e b s = Ok s' -> R s s'.
Proof.
  unfold append_execution_availability_bounded, append_internal_raw. intros Hr H. inv_ok H. rewrite Hr in *.
  etrans; [by eapply (cu_event _ _ HR)|by eapply insert_custody_closed].
Qed.

(** The statements of a transaction, chained. *)
Ltac facts :=
  repeat match goal with
  | H : append_internal _ _ = Ok _ |- _ => apply append_internal_closed in H; [|done]
  | H : append_internal_bounded _ _ _ _ = Ok _ |- _ =>
      apply append_internal_bounded_closed in H; [|done]
  | H : append_execution_availability_bounded _ _ _ = Ok _ |- _ =>
      apply append_execution_availability_bounded_closed in H; [|done]
  | H : insert_run r _ _ = Ok _ |- _ => apply (cu_run _ _ HR) in H
  | H : insert_requirement r _ = Ok _ |- _ => apply (cu_requirement _ _ HR) in H
  | H : insert_receipt r _ _ _ = Ok _ |- _ => apply (cu_receipt _ _ HR) in H
  | H : insert_bootstrap r _ _ = Ok _ |- _ => apply (cu_bootstrap _ _ HR) in H
  end.
Ltac chain := subst; facts; repeat (etrans; [eassumption|]); try reflexivity.

Lemma insert_packet_items_closed p l s s' :
  fold_try (insert_packet_item r p) l s = Ok s' -> R s s'.
Proof.
  intros H. apply (fold_try_rel R) in H; [done|].
  intros item s1 s2 _ Hi. unfold insert_packet_item in Hi. inv_ok Hi.
  by eapply (cu_item _ _ HR).
Qed.

Lemma insert_claims_closed i a l s s' :
  fold_try (fun lock => insert_claim r lock i a) l s = Ok s' -> R s s'.
Proof.
  intros H. apply (fold_try_rel R) in H; [done|].
  intros k s1 s2 _ Hi. by eapply (cu_claim _ _ HR).
Qed.

Lemma admit_capacity_requirement_closed p f u t q s s' :
  admit_capacity_requirement p f r u t q s = Ok s' -> R s s'.
Proof. unfold admit_capacity_requirement. intros H. destruct q as [[]|]; [|inv_ok H]; chain. Qed.

Lemma admit_execution_availability_closed f u t q s s' :
  admit_execution_availability f r u t q s = Ok s' -> R s s'.
Proof. unfold admit_execution_availability. intros H. destruct q; inv_ok H; chain. Qed.

Lemma admit_self_hosted_closed p a f q s s' :
  fa_run_id a = r -> admit_self_hosted p a f q s = Ok s' -> R s s'.
Proof.
  unfold admit_self_hosted. intros Hr H. rewrite Hr in H. destruct q; inv_ok H; [|by rewrite H].
  by apply (cu_bootstrap _ _ HR) in H.
Qed.

Lemma admit_closed pb ab fb t m uuids s s' :
  admit_internal pb ab fb t m uuids s = Ok (r, s') -> R s s'.
Proof.
  unfold admit_internal. intros H. inv_ok H. injection H as Hr Hs.
  rewrite Hr in *. subst s'.
  repeat match goal with
  | H : fold_try (insert_packet_item _ _) _ _ = Ok _ |- _ => apply insert_packet_items_closed in H
  | H : admit_capacity_requirement _ _ _ _ _ _ _ = Ok _ |- _ =>
      apply admit_capacity_requirement_closed in H
  | H : admit_execution_availability _ _ _ _ _ _ = Ok _ |- _ =>
      apply admit_execution_availability_closed in H
  | H : admit_self_hosted _ _ _ _ _ = Ok _ |- _ => apply admit_self_hosted_closed in H; [|done]
  end. facts. repeat (etrans; [eassumption|]). reflexivity.
Qed.

Lemma admit_attempt_capacity_closed c q v i a u t s s' :
  admit_attempt_capacity c q v r i a u t s = Ok s' -> R s s'.
Proof. unfold admit_attempt_capacity. intros H. destruct v; inv_ok H; chain. Qed.

Lemma open_attempt_dispatch_closed c h d q i a t s o s' :
  open_attempt_dispatch c h d q r i a t s = Ok (o, s') -> R s s'.
Proof.
  unfold open_attempt_dispatch, append_provider_dispatch. intros H.
  destruct d; inv_ok H; [|by simplify_eq]. inv_ok Hok1. injection H as <- <-. chain.
Qed.

Lemma prepare_closed i t capacity dispatch uuids s x s' :
  prepare_attempt_internal r i t capacity dispatch uuids s = Ok (x, s') -> R s s'.
Proof.
  unfold prepare_attempt_internal. intros H. inv_ok H. injection H as <- <-.
  repeat match goal with
  | H : admit_attempt_capacity _ _ _ _ _ _ _ _ _ = Ok _ |- _ =>
      apply admit_attempt_capacity_closed in H
  | H : open_attempt_dispatch _ _ _ _ _ _ _ _ _ = Ok _ |- _ =>
      apply open_attempt_dispatch_closed in H
  | H : fold_try (fun lock => insert_claim _ lock _ _) _ _ = Ok _ |- _ =>
      apply insert_claims_closed in H
  end. chain.
Qed.

Lemma record_attempt_transition_closed i a t p pre u s s' :
  record_attempt_transition r i a t p pre u s = Ok s' -> R s s'.
Proof. unfold record_attempt_transition. intros H. inv_ok H. chain. Qed.

Lemma adapter_event_closed raw e s s' :
  event_from_slice raw = Ok e -> ae_run_id e = r -> accept_adapter_event raw s = Ok s' -> R s s'.
Proof.
  unfold accept_adapter_event. intros He Hr H. rewrite He in H. simpl in H. inv_ok H.
  rewrite Hr in *. by eapply (cu_event _ _ HR).
Qed.

Lemma release_resources_closed i a t u s s' :
  release_resources r i a t u s = Ok s' -> R s s'.
Proof. unfold release_resources. intros H. etrans; [apply (cu_delete _ _ HR i a)|]. chain. Qed.

Lemma terminal_receipt_closed raw e u s s' :
  terminal_from_slice raw = Ok e -> tr_run_id e = r -> accept_terminal_receipt raw u s = Ok s' ->
  R s s'.
Proof.
  unfold accept_terminal_receipt. intros He Hr H. rewrite He in H. simpl in H. inv_ok H.
  rewrite Hr in *. apply release_resources_closed in H. facts.
  repeat (etrans; [eassumption|]). reflexivity.
Qed.

Lemma terminal_refusal_closed i a reason t u s s' :
  record_terminal_refusal r i a reason t u s = Ok s' -> R s s'.
Proof. unfold record_terminal_refusal. intros H. inv_ok H. chain. Qed.

Lemma not_started_closed raw e u s s' :
  not_started_from_slice raw = Ok e -> nr_run_id e = r -> accept_not_started raw u s = Ok s' ->
  R s s'.
Proof.
  unfold accept_not_started. intros He Hr H. rewrite He in H. simpl in H. inv_ok H.
  rewrite Hr in *. facts. repeat (etrans; [eassumption|]). reflexivity.
Qed.

Lemma record_prelaunch_closure_closed c q b ct u s s' :
  pb_run_id (pc_binding c) = r -> record_prelaunch_closure c q b ct u s = Ok s' -> R s s'.
Proof.
  unfold record_prelaunch_closure. intros Hr H. rewrite Hr in H. inv_ok H. subst s'.
  match goal with H : release_resources _ _ _ _ _ _ = Ok _ |- _ =>
    apply release_resources_closed in H end. facts.
  repeat (etrans; [eassumption|]). reflexivity.
Qed.

Lemma prelaunch_closure_closed raw e u s x s' :
  prelaunch_from_slice raw = Ok e -> pb_run_id (pc_binding e) = r ->
  accept_prelaunch_closure raw u s = Ok (x, s') -> R s s'.
Proof.
  unfold accept_prelaunch_closure. intros He Hr H. rewrite He in H. simpl in H. inv_ok H.
  destruct (st_receipts s !! _); inv_ok H; injection H as _ <-; [reflexivity|].
  by eapply record_prelaunch_closure_closed.
Qed.

Lemma append_dispatch_closed i a o b s s' :
  append_provider_dispatch r i a o b s = Ok s' -> R s s'.
Proof. unfold append_provider_dispatch. intros H. inv_ok H. chain. Qed.

Lemma reload_history_ok c run s s' : reload_history c run s = Ok s' -> s' = s.
Proof. unfold reload_history. intros H. by inv_ok H. Qed.

Lemma open_dispatch_closed i a o s x s' :
  open_provider_dispatch r i a o s = Ok (x, s') -> R s s'.
Proof.
  unfold open_provider_dispatch. intros H. inv_ok H. injection H as _ <-.
  match goal with H : reload_history _ _ _ = Ok _ |- _ => apply reload_history_ok in H as -> end.
  by eapply append_dispatch_closed.
Qed.

Lemma release_parked_closed c y i a d s s' : release_parked c y r i a d s = Ok s' -> R s s'.
Proof.
  unfold release_parked. destruct (park_released d y); intros H; inv_ok H; [subst|by rewrite H].
  etrans; [|apply (cu_delete _ _ HR i a)]. chain.
Qed.

Lemma disposition_closed i a evidence predecessor s x s' :
  record_provider_disposition r i a evidence predecessor s = Ok (x, s') -> R s s'.
Proof.
  unfold record_provider_disposition, append_provider_disposition. intros H. inv_ok H.
  injection H as _ <-.
  match goal with H : reload_history _ _ _ = Ok _ |- _ => apply reload_history_ok in H as -> end.
  match goal with H : release_parked _ _ _ _ _ _ _ = Ok _ |- _ =>
    apply release_parked_closed in H end. chain.
Qed.

Lemma reacquire_claims_closed f i a s s' :
  reacquire_attempt_resource_claims f r i a s = Ok s' -> R s s'.
Proof.
  unfold reacquire_attempt_resource_claims. intros H. inv_ok H.
  apply (fold_try_rel R) in H; [done|]. intros k s1 s2 _ Hk. unfold reacquire_claim in Hk.
  destruct (st_resource_claims s1 !! (r, k)) as [[]|]; inv_ok Hk; [by subst|].
  by eapply (cu_claim _ _ HR).
Qed.

Lemma reacquire_for_wake_closed c h i a wake f o t s s' :
  reacquire_for_wake c h r i a wake f o t s = Ok s' -> R s s'.
Proof.
  unfold reacquire_for_wake. destruct (yp_parked_resource_lock_policy _); intros H; inv_ok H;
    [|by subst].
  match goal with H : reacquire_attempt_resource_claims _ _ _ _ _ = Ok _ |- _ =>
    apply reacquire_claims_closed in H end. chain.
Qed.

Lemma wake_closed i a wake o s x s' :
  wake_provider_dispatch r i a wake o s = Ok (x, s') -> R s s'.
Proof.
  unfold wake_provider_dispatch. intros H. inv_ok H.
  destruct (position _ _); inv_ok H; injection H as _ <-; [reflexivity|].
  match goal with H : reload_history _ _ _ = Ok _ |- _ => apply reload_history_ok in H as -> end.
  match goal with H : reacquire_for_wake _ _ _ _ _ _ _ _ _ _ = Ok _ |- _ =>
    apply reacquire_for_wake_closed in H end.
  match goal with H : append_provider_dispatch _ _ _ _ _ _ = Ok _ |- _ =>
    apply append_dispatch_closed in H end. chain.
Qed.

Lemma resume_closed i a o s s' : resume_provider_execution r i a o s = Ok s' -> R s s'.
Proof.
  unfold resume_provider_execution. intros H. inv_ok H.
  destruct (position _ _); inv_ok H; [by subst|]. apply reload_history_ok in H as ->. chain.
Qed.

Lemma close_closed t u s raw s' :
  (forall row s s', insert_final r row s = Ok s' -> R s s') ->
  close r t u s = Ok (raw, s') -> R s s'.
Proof.
  unfold close. intros Hf H. destruct (st_finals s !! r); inv_ok H; simplify_eq; [reflexivity|].
  repeat match goal with H : insert_final _ _ _ = Ok _ |- _ => apply Hf in H end. chain.
Qed.
End operations.

Section frames.
Context {DOC : Documents} {PE : ProviderEvidence}.

(** Every step but closing keeps to the statements above. *)
Lemma step_closed_or_close r R s s' :
  closed_under r R -> step r s s' -> R s s' \/ exists t u raw, close r t u s = Ok (raw, s').
Proof.
  intros HR. destruct 1; [left..|right]; eauto;
    [eapply admit_closed|eapply prepare_closed|eapply record_attempt_transition_closed
    |eapply record_attempt_transition_closed|eapply adapter_event_closed
    |eapply terminal_receipt_closed|eapply terminal_refusal_closed|eapply not_started_closed
    |eapply prelaunch_closure_closed|eapply open_dispatch_closed|eapply disposition_closed
    |eapply wake_closed|eapply resume_closed]; eauto.
Qed.

Lemma step_closed r R s s' :
  closed_under r R -> (forall row s s', insert_final r row s = Ok s' -> R s s') ->
  step r s s' -> R s s'.
Proof.
  intros HR Hf H. destruct (step_closed_or_close r R s s' HR H) as [|(t & u & raw & Hc)];
    [done|by eapply close_closed].
Qed.

Lemma step_frame r s s' : step r s s' -> frame r s s'.
Proof. apply step_closed; [apply frame_closed|apply insert_final_frame]. Qed.

(** Only [close] writes the final snapshots. *)
Lemma step_finals r s s' :
  step r s s' -> st_finals s' = st_finals s \/ exists t u raw, close r t u s = Ok (raw, s').
Proof.
  apply (step_closed_or_close r (fun s s' => st_finals s' = st_finals s)).
  split.
  1: split; [done|by intros ??? -> ->].
  all: intros; repeat match goal with
    | H : _ = Ok _ |- _ =>
        unfold insert_run, insert_work_item, insert_event, insert_claim, insert_metadata,
          insert_anchor, insert_requirement, insert_receipt, insert_bootstrap in H;
        inv_ok H; subst
    end; done.
Qed.
End frames.
