(* ===== verification/Isolation.v ===== *)
(** * Runs do not interfere

    Reading a run uses only that run's rows, so an operation on one run leaves
    every projection of the others as it was. *)
From S2P Require Import Prelude Text External Packet Capacity Contract Availability Scheduler.
From S2P Require Import Prelaunch Bootstrap Evidence Graph Journal Requirements History Store StoreFacts.
Local Open Scope string_scope.

(** ** The claims of a run *)

Lemma run_claims_lookup r s k : run_claims r s !! k = st_resource_claims s !! (r, k).
Proof.
  unfold run_claims. apply option_eq. intros h.
  rewrite <- elem_of_list_to_map.
  - rewrite list_elem_of_fmap. split.
    + intros ([[r' k'] h'] & [= -> ->] & Hin). simpl in *.
      apply list_elem_of_In, List.filter_In in Hin as [Hin Hr]. simpl in Hr.
      apply String.eqb_eq in Hr as ->. by apply elem_of_map_to_list, list_elem_of_In.
    + intros Hl. exists ((r, k), h). split; [done|].
      apply list_elem_of_In, List.filter_In. split; [|apply String.eqb_refl].
      by apply list_elem_of_In, elem_of_map_to_list.
  - rewrite <- list_fmap_compose.
    assert (Hnd : NoDup (map_to_list (st_resource_claims s)).*1)
      by apply NoDup_fst_map_to_list.
    revert Hnd. induction (map_to_list (st_resource_claims s)) as [|[[r' k'] h'] l IH];
      simpl; [constructor|]. intros [Hn Hnd]%NoDup_cons.
    destruct (String.eqb_spec r' r) as [->|]; [|auto]. simpl. apply NoDup_cons.
    split; [|auto]. rewrite list_elem_of_fmap. intros ([[r2 k2] h2] & Heq & Hin). simpl in *.
    subst k2. apply list_elem_of_In, List.filter_In in Hin as [Hin Hr].
    apply String.eqb_eq in Hr. simpl in Hr. subst r2. apply Hn.
    apply list_elem_of_fmap. exists ((r, k'), h2). split; [done|]. by apply list_elem_of_In.
Qed.

Section isolation.
Context {DOC : Documents} {PE : ProviderEvidence}.

Lemma load_contracts_run r s c :
  load_contracts r s = Ok c -> fa_run_id (ct_admission c) = r.
Proof.
  unfold load_contracts. intros H. inv_ok H. subst c. simpl. res_simpl. test_simpl.
  naive_solver.
Qed.

Section local.
Context (r : string) (s s' : Store) (Hs : same_run r s s').

Lemma load_contracts_local : load_contracts r s' = load_contracts r s.
Proof. unfold load_contracts. by rewrite (same_row _ _ _ Hs). Qed.

Lemma capacity_size_local b m :
  validate_capacity_history_size r b m s' = validate_capacity_history_size r b m s.
Proof. unfold validate_capacity_history_size. by rewrite (same_events _ _ _ Hs). Qed.

Lemma anchors_of (m : MetadataRow) (l : list AnchorRow) :
  md_run_id m = r ->
  List.filter (fun a => (an_sequence a =? md_sequence m)%N && String.eqb (an_run_id a) (md_run_id m)) l
  = List.filter (fun a => (an_sequence a =? md_sequence m)%N)
    (List.filter (fun a => String.eqb (an_run_id a) r) l).
Proof.
  intros ->. induction l as [|a l IH]; simpl; [done|].
  destruct (String.eqb (an_run_id a) r); simpl; rewrite ?andb_true_r, ?andb_false_r, IH; done.
Qed.

Lemma custody_rows_local : custody_rows r s' = custody_rows r s.
Proof.
  unfold custody_rows. rewrite (same_metadata _ _ _ Hs).
  assert (Hm : Forall (fun m => md_run_id m = r)
               (List.filter (fun m => String.eqb (md_run_id m) r) (st_metadata s))).
  { apply List.Forall_forall. intros m Hm. apply List.filter_In in Hm as [_ Hm].
  by apply String.eqb_eq. }
  induction Hm as [|m l Hm _ IH]; [done|].
  cbn [mbind list_bind]. change (list_bind _ _ ?f l) with (l ≫= f). f_equal; [|exact IH].
  rewrite !(anchors_of _ _ Hm), (same_anchors _ _ _ Hs), (same_events _ _ _ Hs). done.
Qed.

Lemma availability_size_local b a :
  validate_execution_availability_history_size r b a s'
  = validate_execution_availability_history_size r b a s.
Proof.
  unfold validate_execution_availability_history_size, count_where.
  rewrite (same_row _ _ _ Hs), (same_events _ _ _ Hs), custody_rows_local,
  (same_metadata _ _ _ Hs), (same_anchors _ _ _ Hs).
  by rewrite (bool_decide_ext _ _ (same_requirement _ _ _ Hs)).
Qed.

Lemma capacity_history_local p a f :
  fa_run_id a = r ->
  validate_capacity_history (run_rows r s') p a f s' = validate_capacity_history (run_rows r s) p a f s.
Proof.
  intros Ha. unfold validate_capacity_history.
  by rewrite Ha, capacity_size_local, (same_events _ _ _ Hs).
Qed.

Lemma dependency_receipts_local l : dependency_receipts r l s' = dependency_receipts r l s.
Proof.
  unfold dependency_receipts. induction l as [|d l IH]; simpl; [done|].
  by rewrite (same_receipts _ _ _ Hs), IH.
Qed.

Lemma worker_brief_local p f i : worker_brief_bytes p f r i s' = worker_brief_bytes p f r i s.
Proof.
  unfold worker_brief_bytes. destruct (ok_or _ _) as [item|]; simpl; [|done].
  by rewrite (same_row _ _ _ Hs), dependency_receipts_local.
Qed.

Lemma run_claims_local : run_claims r s' = run_claims r s.
Proof. apply map_eq. intros k. by rewrite !run_claims_lookup, (same_claims _ _ _ Hs). Qed.
End local.

(** ** The history loop stays inside its run *)

Section history_local.
Context (packet : NightshiftPacketV1) (admission : ForemanAdmissionV1)
  (profile : ExecutionProfileV2).

(** The provider history a loop holds names the admitted run. *)
Definition history_own_run (h : HistoryState) : Prop :=
  match hs_history h with
  | None => True
  | Some x => rq_run_id (xh_requirement x) = fa_run_id admission
            /\ Forall (fun q => s3_run_id q = fa_run_id admission) (xh_worker_start_requests x)
  end.

Lemma configuration_run c t :
  validate_execution_availability_configuration_bindings c packet admission profile t = Ok tt ->
  rq_run_id (xc_requirement c) = fa_run_id admission.
Proof.
  unfold validate_execution_availability_configuration_bindings. intros H. inv_ok H.
  res_simpl. test_simpl. naive_solver.
Qed.

Lemma dispatch_graph_run start f q d :
  validate_dispatch_graph start f q d = Ok tt -> s3_run_id start = rq_run_id q.
Proof.
  unfold validate_dispatch_graph, validate_pre_dispatch_graph. intros H.
  apply rseq_ok in H as [H _]. inv_ok H. res_simpl.
  unfold pre_dispatch_mismatch in H. test_simpl. naive_solver.
Qed.

Abbreviation run := (fa_run_id admission).

Lemma own_none h h' : hs_history h' = hs_history h -> history_own_run h -> history_own_run h'.
Proof. unfold history_own_run. by intros ->. Qed.

(** Success of an arm, with its conditions as hypotheses. *)
Ltac arm H := cbn zeta in H; inv_ok H; subst; unfold history_own_run in *; simpl in *;
  repeat match goal with
  | Ho : ok_or (hs_history ?h) _ = Ok _, Hi : context [hs_history ?h] |- _ =>
    apply ok_or_ok in Ho; rewrite Ho in Hi; simpl in Hi
  end; try done.

Lemma on_history_row_own s rows row h h' :
  history_own_run h -> on_history_row packet admission profile s rows row h = Ok h' ->
  history_own_run h'.
Proof.
  unfold on_history_row. intros Hi H. apply rseq_ok in H as [_ H].
  destruct (String.eqb _ _); [by inv_ok H; subst|].
  apply rbind_ok in H as (event & _ & H).
  destruct (ie_payload event); try (by inv_ok H; subst).
  - unfold on_run_admitted in H. arm H.
  - unfold on_attempt_created in H. arm H.
  - unfold on_configured in H. arm H. split; [|constructor].
  by eapply configuration_run.
  - unfold on_dispatch_opened in H. arm H. destruct Hi as [Hq Hf]. split; [done|].
  apply Forall_app. split; [done|]. apply Forall_singleton. rewrite <- Hq.
  res_simpl. by eapply dispatch_graph_run.
  - unfold on_disposition in H. arm H.
  - unfold on_wake in H. arm H.
  - unfold on_resume in H. arm H.
  - unfold on_parked_release in H. arm H.
  - unfold on_parked_reacquire in H. arm H.
  - unfold on_prelaunch_closure in H. arm H.
  match goal with Ho : hs_history h = Some _ |- _ => by rewrite Ho end.
  - inv_ok H. subst. unfold on_resources_released.
  by destruct (ie_work_item_id event), (ie_attempt_id event).
Qed.

(** Only the pre-launch arm reads other tables, at the run of a dispatch. *)
Lemma on_history_row_local s s' rows row h h' :
  same_run run s s' -> history_own_run h ->
  on_history_row packet admission profile s rows row h = Ok h' ->
  on_history_row packet admission profile s' rows row h = Ok h'.
Proof.
  unfold on_history_row. intros Hs Hi H. apply rseq_ok in H as [-> H]. simpl.
  destruct (String.eqb _ _); [done|].
  destruct (serialized _) as [event|]; [|done]. simpl in *.
  destruct (ie_payload event) as [| | | | | | | | | | | | | | | | closure receipt| |]; try done.
  unfold on_prelaunch_closure in *. unfold history_own_run in Hi.
  destruct (hs_history h) as [x|]; [|done]. simpl in *. destruct Hi as [_ Hf].
  apply rseq_ok in H as [-> H]. simpl.
  destruct (dispatch_with_digest _ _) as [[start dispatch]|] eqn:Hd; [|done]. simpl in *.
  assert (Hb : pb_run_id (pc_binding closure) = run).
  { apply rbind_ok in H as (brief & _ & H). apply rseq_ok in H as [H _].
  apply contract_ok in H. unfold validate_prepared in H. inv_ok H. res_simpl.
  unfold prepared_mismatch in H. test_simpl.
  apply find_first_Some in Hd as [Hd _]. apply elem_of_zip_l in Hd.
  rewrite Forall_forall in Hf. rewrite <- (Hf _ Hd). clear -H. tauto. }
  rewrite Hb in *. by rewrite (worker_brief_local _ _ _ Hs), (same_receipts _ _ _ Hs).
Qed.

Lemma history_loop_local s s' rows l h h' :
  same_run run s s' -> history_own_run h ->
  fold_try (on_history_row packet admission profile s rows) l h = Ok h' ->
  fold_try (on_history_row packet admission profile s' rows) l h = Ok h'.
Proof.
  intros Hs. revert h. induction l as [|row l IH]; intros h Hi H; simpl in *; [done|].
  apply rbind_ok in H as (h1 & H1 & H).
  rewrite (on_history_row_local _ _ _ _ _ _ Hs Hi H1). simpl.
  apply IH; [by eapply on_history_row_own|done].
Qed.

Lemma history_rows_local s s' x :
  same_run run s s' ->
  validate_execution_availability_history_rows packet admission profile (run_rows run s) s = Ok x ->
  validate_execution_availability_history_rows packet admission profile (run_rows run s') s' = Ok x.
Proof.
  intros Hs. unfold validate_execution_availability_history_rows.
  rewrite (same_events _ _ _ Hs), (run_claims_local _ _ _ Hs). intros H.
  apply rbind_ok in H as (h & Hh & H).
  assert (Hi : history_own_run empty_history_state) by done.
  by rewrite (history_loop_local _ _ _ _ _ _ Hs Hi Hh).
Qed.
End history_local.

Lemma load_projection_local r s s' p :
  same_run r s s' -> load_projection r s = Ok p -> load_projection r s' = Ok p.
Proof.
  intros Hs. unfold load_projection. rewrite (load_contracts_local _ _ _ Hs).
  destruct (load_contracts r s) as [c|] eqn:Hc; [|done]. simpl.
  apply load_contracts_run in Hc.
  rewrite (capacity_size_local _ _ _ Hs), (availability_size_local _ _ _ Hs),
    (capacity_history_local _ _ _ Hs) by done.
  intros H. do 3 (apply rbind_ok in H as (? & -> & H)); simpl.
  apply rbind_ok in H as (hist & Hx & H). subst r.
  rewrite (history_rows_local _ _ _ _ _ _ Hs Hx). simpl.
  by rewrite (same_events _ _ _ Hs).
Qed.
End isolation.
