(* ===== verification/Lifecycle.v ===== *)
(** * Invariants of reachable stores

    The schema's keys hold of every reachable store; a run whose items are all
    explicitly terminal refuses every operation but closing, so a closed run is
    frozen. *)
From S2P Require Import Prelude Text External Packet Capacity Contract Availability Scheduler.
From S2P Require Import SchedulerFacts Prelaunch Bootstrap Evidence Graph Journal Requirements History.
From S2P Require Import Store Provider StoreFacts Isolation.
Local Open Scope string_scope.

(** ** Definitions *)

(** Some operation leads from one store to the other. *)
Definition evolves {DOC : Documents} {PE : ProviderEvidence} (s s' : Store) : Prop :=
  exists r, step r s s'.

(** ** Well-formed rows *)

Lemma store_wf_empty : store_wf empty_store.
Proof.
  split; simpl; try done; try (by constructor); by intros ????; rewrite lookup_nil.
Qed.

(** Only the tables named in [store_wf] matter, and [runs] may grow. *)
Lemma store_wf_same s s' :
  st_events s' = st_events s -> st_last_sequence s' = st_last_sequence s ->
  st_runs s ⊆ st_runs s' ->
  (forall r k h, st_resource_claims s' !! (r, k) = Some h -> is_Some (st_runs s' !! r)) ->
  (forall r i row, st_receipts s' !! (r, i) = Some row -> is_Some (st_runs s' !! r)) ->
  (forall r row, st_finals s' !! r = Some row -> is_Some (st_runs s' !! r)) ->
  store_wf s -> store_wf s'.
Proof.
  intros He Hq Hr Hc Ht Hf []. split; rewrite ?He, ?Hq; try done.
  eapply Forall_impl; [exact wf_event_runs|]. intros e [row Hrow].
  exists row. by eapply lookup_weaken.
Qed.

Lemma wf_weaken {A} (m m' : gmap string A) r : m ⊆ m' -> is_Some (m !! r) -> is_Some (m' !! r).
Proof. intros Hm [row Hrow]. exists row. by eapply lookup_weaken. Qed.

Lemma references_run_ok t r s : references_run t r s = Ok tt <-> is_Some (st_runs s !! r).
Proof.
  unfold references_run. res_simpl. by rewrite negb_false_iff, bool_decide_eq_true.
Qed.

Lemma event_exists_false r i s :
  event_exists r i s = false <->
  (r, i) ∉ ((fun e => (ev_run_id e, ro_event_id (ev_row e))) <$> st_events s).
Proof.
  unfold event_exists. rewrite <- not_true_iff_false, existsb_exists, list_elem_of_fmap.
  apply not_iff_compat. split.
  - intros (e & He & Ht). apply andb_true_iff in Ht as [H1%String.eqb_eq H2%String.eqb_eq].
    exists e. rewrite list_elem_of_In. by subst.
  - intros (e & [= -> ->] & He). exists e. rewrite list_elem_of_In in He.
    by rewrite !String.eqb_refl.
Qed.

Lemma insert_event_wf r i w a k t b d s s' :
  insert_event r i w a k t b d s = Ok s' -> store_wf s -> store_wf s'.
Proof.
  unfold insert_event. intros H []. inv_ok H. subst s'. res_simpl.
  apply N.leb_gt in Hok. apply event_exists_false in Hok0.
  apply references_run_ok in Hok1. split; simpl; try done.
  - intros x y e f Hxy He Hf.
    assert (Hy := lookup_lt_Some _ _ _ Hf). rewrite length_app in Hy. simpl in Hy.
    rewrite lookup_app_l in He by lia.
    apply lookup_app_Some in Hf as [Hf|[Hl Hf]]; [exact (wf_sequences x y e f Hxy He Hf)|].
    apply list_lookup_singleton_Some in Hf as [_ <-]. simpl.
    rewrite Forall_forall in wf_bounds.
    specialize (wf_bounds e (list_elem_of_lookup_2 _ _ _ He)). lia.
  - apply Forall_app. split; [|constructor; simpl; [lia|constructor]].
    eapply Forall_impl; [exact wf_bounds|]. simpl. lia.
  - lia.
  - rewrite fmap_app. apply NoDup_app. repeat split; [done| |apply NoDup_singleton].
    intros x Hx Hin. apply list_elem_of_singleton in Hin as ->. by apply Hok0.
  - apply Forall_app. split; [done|]. by constructor.
Qed.

(** Statements on the other tables. *)
Lemma wf_closed r : closed_under r (fun s s' => store_wf s -> store_wf s').
Proof.
  split; [split; [by intros s|intros s1 s2 s3 ???; auto]| ..];
    try (intros; by eapply insert_event_wf); intros;
    match goal with W : store_wf _ |- _ => pose proof W as [] end;
    repeat match goal with H : ?f = Ok _ |- _ =>
      unfold insert_run, insert_work_item, insert_claim, insert_metadata, insert_anchor,
        insert_requirement, insert_receipt, insert_bootstrap in H; inv_ok H; subst end;
    res_simpl; (eapply store_wf_same; [..|eassumption]); simpl; try done.
  1: apply bool_decide_eq_false, eq_None_not_Some in Hok; by apply insert_subseteq.
  1-3: apply bool_decide_eq_false, eq_None_not_Some in Hok; intros;
    (eapply wf_weaken; [by apply insert_subseteq|eauto]).
  - apply references_run_ok in Hok0. intros r' k' h.
    destruct (decide ((r, k) = (r', k'))) as [[= <- <-]|Hne]; [done|].
    rewrite lookup_insert_ne by done. apply wf_claim_runs.
  - intros r' k h Hl.
    change (filter _ (st_resource_claims s)) with (st_resource_claims (delete_claims r i a s)) in Hl.
    rewrite delete_claims_lookup in Hl. destruct (st_resource_claims s !! (r', k)) eqn:Hk; [|done].
    by eapply wf_claim_runs.
  - apply references_run_ok in Hok0. intros r' k' h.
    destruct (decide ((r, i) = (r', k'))) as [[= <- <-]|Hne]; [done|].
    rewrite lookup_insert_ne by done. apply wf_receipt_runs.
Qed.

Lemma insert_final_wf r row s s' : insert_final r row s = Ok s' -> store_wf s -> store_wf s'.
Proof.
  unfold insert_final. intros H W. pose proof W as []. inv_ok H. subst s'. res_simpl.
  apply references_run_ok in Hok0. eapply store_wf_same; [..|exact W]; simpl; try done.
  intros r' row'. destruct (decide (r = r')) as [<-|Hne]; [done|].
  rewrite lookup_insert_ne by done. apply wf_final_runs.
Qed.

Section lifecycle.
Context {DOC : Documents} {PE : ProviderEvidence}.

Lemma step_wf r s s' : step r s s' -> store_wf s -> store_wf s'.
Proof.
  apply (step_closed r (fun s s' => store_wf s -> store_wf s')).
  - apply wf_closed.
  - apply insert_final_wf.
Qed.

Lemma reachable_wf s : reachable s -> store_wf s.
Proof. induction 1; [apply store_wf_empty|by eapply step_wf]. Qed.

(** ** A complete run refuses every operation but closing *)

Definition complete (p : LiveRunProjectionV1) : Prop :=
  Forall (fun i => is_explicit_terminal (li_scheduler_state i) = true) (lp_work_items p).

Lemma incomplete_items_nil p : incomplete_items p = [] <-> complete p.
Proof.
  unfold incomplete_items, complete. induction (lp_work_items p) as [|i l IH]; simpl; [done|].
  rewrite Forall_cons. destruct (is_explicit_terminal _); simpl; [|naive_solver].
  rewrite IH. naive_solver.
Qed.

Lemma find_item_complete w p i :
  complete p -> find_item w p = Ok i -> is_explicit_terminal (li_scheduler_state i) = true.
Proof.
  unfold complete, find_item. rewrite Forall_forall. intros Hp Hi. apply ok_or_ok in Hi.
  apply find_first_Some in Hi as [Hi _]. by apply Hp.
Qed.

Lemma active_attempt_incomplete r w a s :
  exact_active_attempt r w a s = Ok tt -> exists p, load_projection r s = Ok p /\ ~ complete p.
Proof.
  unfold exact_active_attempt. intros H. inv_ok H. exists x. split; [done|]. intros Hc.
  apply (find_item_complete _ _ _ Hc) in Hok0. res_simpl. congruence.
Qed.

Lemma provider_run_incomplete r w a s x :
  load_provider_run r w a s = Ok x -> exists p, load_projection r s = Ok p /\ ~ complete p.
Proof.
  unfold load_provider_run. intros H. apply rseq_ok in H as [H _].
  by eapply active_attempt_incomplete.
Qed.

Lemma eligible_incomplete w p i :
  find_item w p = Ok i -> entry_eligible (li_scheduler_state i) = true -> ~ complete p.
Proof.
  intros Hi He Hc. apply (find_item_complete _ _ _ Hc) in Hi.
  by destruct (li_scheduler_state i).
Qed.

(** An operation that reads an incomplete projection, on a complete run. *)
Ltac refused Hc :=
  match goal with
  | H : exact_active_attempt _ _ _ _ = Ok tt |- _ =>
      apply active_attempt_incomplete in H as (? & ? & []); by apply Hc
  | H : load_provider_run _ _ _ _ = Ok _ |- _ =>
      apply provider_run_incomplete in H as (? & ? & []); by apply Hc
  | H : load_projection _ _ = Ok _, Hi : find_item _ _ = Ok _ |- _ =>
      apply Hc in H; eapply eligible_incomplete; [exact Hi| |exact H]; res_simpl;
      repeat match goal with
      | X : _ || _ = false |- _ => apply orb_false_iff in X as [X _]
      end; by apply negb_false_iff
  end.

Lemma complete_step r s s' :
  step r s s' -> is_Some (st_runs s !! r) ->
  (forall p, load_projection r s = Ok p -> complete p) ->
  s' = s \/ exists t u raw, close r t u s = Ok (raw, s').
Proof.
  destruct 1 as [pb ab fb t m uuids s r s' H|r i t c d uuids s x s' H|r i a t uuid s s' H
    |r i a t uuid s s' H|raw e s s' He H|raw e uuids s s' He H|r i a reason t uuid s s' H
    |raw e uuid s s' He H|raw e uuid s x s' He H|r i a o s x s' H|r i a ev pre s x s' H
    |r i a wake o s x s' H|r i a o s s' H|r t uuid s raw s' H]; intros Hr Hc;
    [exfalso..| |exfalso|exfalso|exfalso|exfalso|right; eauto].
  - unfold admit_internal in H. inv_ok H. injection H as <- <-. res_simpl.
    match goal with X : bool_decide (is_Some (st_runs _ !! _)) = false |- _ =>
      by apply bool_decide_eq_false in X end.
  - unfold prepare_attempt_internal, check_eligible in H. apply rbind_ok in H as (? & H & _).
    inv_ok H. refused Hc.
  - unfold record_dispatch_requested, record_attempt_transition in H. inv_ok H.
    refused Hc.
  - unfold record_resume_requested, record_attempt_transition in H. inv_ok H.
    refused Hc.
  - unfold accept_adapter_event in H. rewrite He in H. simpl in H. inv_ok H.
    refused Hc.
  - unfold accept_terminal_receipt in H. rewrite He in H. simpl in H. inv_ok H.
    refused Hc.
  - unfold record_terminal_refusal in H. inv_ok H. refused Hc.
  - unfold accept_not_started in H. rewrite He in H. simpl in H. inv_ok H.
    refused Hc.
  - left. unfold accept_prelaunch_closure in H. rewrite He in H. simpl in H. inv_ok H.
    destruct (st_receipts s !! _); inv_ok H; simplify_eq; [done|exfalso].
    unfold record_prelaunch_closure in Hok3. inv_ok Hok3. refused Hc.
  - unfold open_provider_dispatch in H. inv_ok H. refused Hc.
  - unfold record_provider_disposition in H. inv_ok H. refused Hc.
  - unfold wake_provider_dispatch in H. inv_ok H. refused Hc.
  - unfold resume_provider_execution in H. inv_ok H. refused Hc.
Qed.

(** ** Closing keeps a run complete *)

Lemma replay_closed packet run d profile m events e p p' :
  re_work_item_id e = None ->
  replay packet run d profile m events = Some p ->
  replay packet run d profile m (events ++ [e]) = Some p' ->
  lp_work_items p' = lp_work_items p.
Proof.
  unfold replay. destruct (initial_items _ _) as [items|]; [|done]. simpl.
  rewrite foldl_app. cbn [foldl]. set (st := foldl _ _ events). intros He.
  assert (rs_items (apply_event e st) = rs_items st /\
          rs_claims (apply_event e st) = rs_claims st) as [H1 H2].
  { unfold apply_event. by rewrite He. }
  cbn zeta. rewrite H1, H2. by intros [= <-] [= <-].
Qed.

Lemma append_internal_rows e s s' :
  append_internal e s = Ok s' ->
  exists raw, to_vec e = Ok raw /\ run_rows (ie_run_id e) s' = (run_rows (ie_run_id e) s ++
    [{| ro_sequence := st_last_sequence s + 1; ro_event_id := ie_event_id e;
        ro_work_item_id := ie_work_item_id e; ro_attempt_id := ie_attempt_id e;
        ro_kind := "internal"; ro_recorded_at := to_rfc3339 (ie_recorded_at e);
        ro_raw_bytes := raw; ro_raw_digest := raw_digest raw |}])%list.
Proof.
  unfold append_internal, append_internal_raw, insert_event. intros H. inv_ok H. subst s'.
  res_simpl. exists x. split; [done|]. erewrite run_rows_app by done. simpl.
  by rewrite String.eqb_refl.
Qed.

Lemma append_internal_tables e s s' :
  append_internal e s = Ok s' ->
  st_runs s' = st_runs s /\ st_resource_claims s' = st_resource_claims s /\
  st_receipts s' = st_receipts s /\ st_finals s' = st_finals s.
Proof.
  unfold append_internal, append_internal_raw, insert_event. intros H. inv_ok H. by subst s'.
Qed.

Lemma load_projection_replay r s p :
  load_projection r s = Ok p ->
  exists c events, load_contracts r s = Ok c /\
    Forall2 (fun row e => replay_event row = Ok e) (run_rows r s) events /\
    replay (ct_packet c) r (fa_admission_digest (ct_admission c)) (ct_profile c) (ct_maximum c)
      events = Some p.
Proof.
  unfold load_projection. intros H. inv_ok H. res_simpl. apply map_try_ok in Hok4. eauto 6.
Qed.

Lemma load_contracts_row r s s' :
  st_runs s' !! r = st_runs s !! r -> load_contracts r s' = load_contracts r s.
Proof. unfold load_contracts. by intros ->. Qed.

Lemma replay_event_ids row e :
  replay_event row = Ok e ->
  re_work_item_id e = ro_work_item_id row /\ re_attempt_id e = ro_attempt_id row.
Proof. unfold replay_event. intros H. inv_ok H. by subst e. Qed.

Lemma replay_events_unique rows es es' :
  Forall2 (fun row e => replay_event row = Ok e) rows es ->
  Forall2 (fun row e => replay_event row = Ok e) rows es' -> es = es'.
Proof. rewrite <- !map_try_ok. intros -> H. by injection H. Qed.

(** The run row survives a close, and [RunClosed] changes no item. *)
Lemma close_complete r t u s raw s' p' :
  st_finals s !! r = None -> close r t u s = Ok (raw, s') ->
  load_projection r s' = Ok p' -> complete p'.
Proof.
  unfold close. intros -> H Hp'. inv_ok H. injection H as <- <-. res_simpl.
  apply negb_false_iff, bool_decide_eq_true, incomplete_items_nil in Hok0.
  apply load_projection_replay in Hok as (c & es & Hc & Hes & Hr).
  apply load_projection_replay in Hp' as (c' & es' & Hc' & Hes' & Hr').
  match goal with H : append_internal _ _ = Ok _ |- _ =>
    pose proof (append_internal_tables _ _ _ H) as (Hruns & _);
    apply append_internal_rows in H as (bytes & Hb & Hrows) end.
  match goal with H : insert_final _ _ _ = Ok _ |- _ =>
    unfold insert_final in H; inv_ok H; subst end.
  simpl in Hruns, Hrows.
  rewrite (load_contracts_row r s) in Hc' by (by rewrite Hruns). rewrite Hc in Hc'.
  injection Hc' as <-. match type of Hrows with ?a = _ =>
    assert (a = (run_rows r s ++ _)%list) as Hrows' by exact Hrows end.
  rewrite Hrows' in Hes'. apply Forall2_app_inv_l in Hes' as (es1 & es2 & H1 & H2 & ->).
  rewrite (replay_events_unique _ _ _ H1 Hes) in Hr'.
  apply Forall2_cons_inv_l in H2 as (e & es3 & He & H2 & ->).
  apply Forall2_nil_inv_l in H2 as ->. apply replay_event_ids in He as [He _].
  unfold complete. by rewrite (replay_closed _ _ _ _ _ _ _ _ _ He Hr Hr').
Qed.

(** ** Closed runs stay complete, and frozen *)

Definition closed_complete (s : Store) : Prop :=
  forall r p, is_Some (st_finals s !! r) -> load_projection r s = Ok p -> complete p.

Lemma closed_step r s s' :
  store_wf s -> closed_complete s -> is_Some (st_finals s !! r) -> step r s s' -> s' = s.
Proof.
  intros W Hinv [row Hf] Hs.
  destruct (complete_step r s s' Hs) as [->|(t & u & raw & Hc)]; [| |done|].
  - by eapply wf_final_runs.
  - intros p. by apply Hinv.
  - unfold close in Hc. rewrite Hf in Hc. by injection Hc as _ <-.
Qed.

Lemma step_closed_complete r s s' :
  store_wf s -> closed_complete s -> step r s s' -> closed_complete s'.
Proof.
  intros W Hinv Hs r' p Hf Hp.
  destruct (decide (r' = r)) as [->|Hne].
  - destruct (st_finals s !! r) as [row|] eqn:Hfs.
    + rewrite (closed_step r s s' W Hinv) in Hp; [|by rewrite Hfs|done].
      eapply Hinv; [|done]. by rewrite Hfs.
    + destruct (step_finals r s s' Hs) as [Heq|(t & u & raw & Hc)].
      * rewrite Heq, Hfs in Hf. by destruct Hf.
      * by eapply close_complete.
  - pose proof (frame_same _ _ _ (step_frame _ _ _ Hs) r' Hne) as Hsame.
    rewrite (same_final _ _ _ Hsame) in Hf. eapply Hinv; [exact Hf|].
    eapply load_projection_local; [|exact Hp]. by symmetry.
Qed.

Lemma reachable_closed_complete s : reachable s -> closed_complete s.
Proof.
  induction 1 as [|r s s' Hr IH Hs].
  - by intros r p [row Hrow].
  - by eapply step_closed_complete; [apply reachable_wf| |].
Qed.

Lemma evolves_reachable s s' : reachable s -> rtc evolves s s' -> reachable s'.
Proof.
  intros Hs H. induction H as [|s1 s2 s3 [r H] _ IH]; [done|]. apply IH. by eapply reachable_step.
Qed.

Lemma closed_evolves r s s' :
  reachable s -> is_Some (st_finals s !! r) -> rtc evolves s s' -> same_run r s s'.
Proof.
  intros Hs Hf H. induction H as [s|s1 s2 s3 [r' H] _ IH]; [reflexivity|].
  assert (Hsame : same_run r s1 s2).
  { destruct (decide (r = r')) as [<-|Hne].
    - rewrite (closed_step r s1 s2); [reflexivity|by apply reachable_wf| |done|done].
      by apply reachable_closed_complete.
    - by apply (frame_same _ _ _ (step_frame _ _ _ H)). }
  etrans; [exact Hsame|]. apply IH; [by eapply reachable_step|].
  by rewrite (same_final _ _ _ Hsame).
Qed.
End lifecycle.
