(* ===== verification/Claims.v ===== *)
(** * The claims table refines the journal

    [resource_claims] is the one table the store both inserts into and deletes
    from.  What it holds of a run is, in every reachable store, what the replay of
    the run's journal holds: the table implements the scheduler's claims. *)
From S2P Require Import Prelude Text External Packet Capacity Contract Availability Scheduler.
From S2P Require Import SchedulerFacts Prelaunch Bootstrap Evidence Graph Journal Requirements History.
From S2P Require Import Store Provider StoreFacts Isolation Lifecycle.
Local Open Scope string_scope.

(** ** Definitions *)

(** What of a replay event the claims depend on. *)
Definition change : Type := option string * option string * ReplayKind.
Definition change_of (e : ReplayEvent) : change :=
  (re_work_item_id e, re_attempt_id e, re_kind e).

(** The kinds that leave an item explicitly terminal, and those that besides move no
    lock and start no attempt. *)
Definition finishing (k : ReplayKind) : bool :=
  match k with ReplayTerminalAccepted _ | ReplayNotStartedAccepted _ => true | _ => false end.
Definition quiet_kind (k : ReplayKind) : bool :=
  match k with
  | ReplayAttemptCreated _ | ReplayProviderResourcesReacquired _ | ReplayResourcesReleased
  | ReplayProviderResourcesReleased | ReplayTerminalAccepted _ | ReplayNotStartedAccepted _ => false
  | _ => true
  end.

(** The kinds that take the locks [keys] for the attempt [a] of an item whose active
    attempt was [before], and the kinds that free them. *)
Definition takes (k : ReplayKind) (a : string) (before : option string) (keys : list string)
    : Prop :=
  match k with
  | ReplayAttemptCreated ks => ks = keys /\ before = None
  | ReplayProviderResourcesReacquired ks => ks = keys /\ before = Some a
  | _ => False
  end.
Definition frees (k : ReplayKind) : Prop :=
  k = ReplayResourcesReleased \/ k = ReplayProviderResourcesReleased.

(** The replay knows the item, not finished, with this active attempt. *)
Definition has_attempt (st : ReplayState) (w : string) (a : option string) : Prop :=
  exists i, rs_items st !! w = Some i /\ li_active_attempt_id i = a /\
    is_explicit_terminal (li_scheduler_state i) = false.

(** The table's rows of [r] are the replay's claims, held by the active attempts of
    unfinished items. *)
Record claims_agree (c : gmap (string * string) (string * string)) (r : string)
    (st : ReplayState) : Prop := {
  agree_rows : forall k, c !! (r, k)
    = (fun cl => (cl_work_item_id cl, cl_attempt_id cl)) <$> rs_claims st !! k;
  agree_active : forall k cl, rs_claims st !! k = Some cl ->
    has_attempt st (cl_work_item_id cl) (Some (cl_attempt_id cl))
}.

(** The same while the item [w], whose locks the attempt [a] holds, is being finished. *)
Record claims_agree_but (w a : string) (c : gmap (string * string) (string * string)) (r : string)
    (st : ReplayState) : Prop := {
  but_item : is_Some (rs_items st !! w);
  but_rows : forall k, c !! (r, k)
    = (fun cl => (cl_work_item_id cl, cl_attempt_id cl)) <$> rs_claims st !! k;
  but_active : forall k cl, rs_claims st !! k = Some cl ->
    if decide (cl_work_item_id cl = w) then cl_attempt_id cl = a
    else has_attempt st (cl_work_item_id cl) (Some (cl_attempt_id cl))
}.

(** ** Replay events and the claims *)

Lemma apply_item_attempt e i :
  li_active_attempt_id (apply_item e i) =
  match re_kind e with
  | ReplayAttemptCreated _ => re_attempt_id e
  | _ => li_active_attempt_id i
  end.
Proof.
  unfold apply_item. destruct (re_kind e); try done.
  - unfold apply_adapter_event. by destruct (ae_human_question event).
  - unfold apply_disposition. by destruct execution_identity.
Qed.

Lemma apply_item_live e i :
  finishing (re_kind e) = false -> is_explicit_terminal (li_scheduler_state i) = false ->
  is_explicit_terminal (li_scheduler_state (apply_item e i)) = false.
Proof.
  intros Hf Hi. unfold apply_item. destruct (re_kind e); try done.
  - rewrite apply_adapter_event_state. by destruct (ae_kind event).
  - unfold apply_disposition. by destruct mechanism_state, execution_identity.
Qed.

Lemma apply_event_attempt e st w a :
  finishing (re_kind e) = false \/ re_work_item_id e <> Some w -> has_attempt st w a ->
  has_attempt (apply_event e st) w
    match re_work_item_id e, re_kind e with
    | Some v, ReplayAttemptCreated _ => if decide (v = w) then re_attempt_id e else a
    | _, _ => a
    end.
Proof.
  intros Hf (i & Hi & <- & Hl). unfold apply_event.
  destruct (re_work_item_id e) as [v|]; [|by exists i].
  destruct (decide (v = w)) as [->|Hne].
  - rewrite Hi. exists (apply_item e i). simpl. rewrite lookup_insert_eq, apply_item_attempt.
    split; [done|]. split; [by destruct (re_kind e)|]. apply apply_item_live; [by destruct Hf|done].
  - exists i. destruct (rs_items st !! v); simpl; rewrite ?lookup_insert_ne by done;
      (split; [done|]); (split; [|done]); by destruct (re_kind e).
Qed.

Lemma quiet_attempt e st w a :
  quiet_kind (re_kind e) = true -> has_attempt st w a -> has_attempt (apply_event e st) w a.
Proof.
  intros Hq Hi. apply (apply_event_attempt e) in Hi; [|left; by destruct (re_kind e)].
  destruct (re_work_item_id e); [|done]. by destruct (re_kind e).
Qed.

Lemma quiet_claims e st :
  quiet_kind (re_kind e) = true -> rs_claims (apply_event e st) = rs_claims st.
Proof.
  unfold apply_event. destruct (re_work_item_id e); [|done].
  destruct (rs_items st !! _); [|done]. simpl. unfold apply_claims. by destruct (re_kind e).
Qed.

Lemma quiet_agree c r e st :
  quiet_kind (re_kind e) = true -> claims_agree c r st -> claims_agree c r (apply_event e st).
Proof.
  intros Hq [Hrows Hactive]. split; rewrite quiet_claims by done; [done|].
  intros k cl Hk. eapply quiet_attempt; eauto.
Qed.

(** An attempt takes its locks. *)
Lemma taken_agree c c' r e st w a k before keys :
  change_of e = (Some w, Some a, k) -> takes k a before keys -> has_attempt st w before ->
  (forall k, c' !! (r, k) = if bool_decide (k ∈ keys) then Some (w, a) else c !! (r, k)) ->
  claims_agree c r st -> claims_agree c' r (apply_event e st).
Proof.
  intros [= Hw Ha Hk] Ht Hn Hc [Hrows Hactive]. pose proof Hn as (i & Hi & Hact & _).
  assert (finishing (re_kind e) = false) as Hnf by (rewrite Hk; by destruct k).
  assert (rs_claims (apply_event e st) = take_locks keys w a (rs_claims st)) as Hcl.
  { unfold apply_event, apply_claims. rewrite Hw, Hi. simpl. rewrite Hk, Ha.
    destruct k; try done; by destruct Ht as [-> _]. }
  assert (has_attempt (apply_event e st) w (Some a)) as Hw'.
  { pose proof (apply_event_attempt e st w before (or_introl Hnf) Hn) as H.
    rewrite Hw, Hk, decide_True, Ha in H by done.
    destruct k; try done; [by destruct Ht as [_ ->]]. }
  split; rewrite Hcl; intros key; rewrite take_locks_lookup.
  - rewrite Hc. case_bool_decide; [done|]. apply Hrows.
  - case_bool_decide; [by intros cl [= <-]|]. intros cl Hcl'.
    destruct (decide (w = cl_work_item_id cl)) as [Heq|Hne].
    + destruct (Hactive _ _ Hcl') as (j & Hj & Hja & _). rewrite <- Heq in *.
      assert (before = Some (cl_attempt_id cl)) as Hb by congruence.
      destruct k; try done; destruct Ht as [_ Ht]; congruence.
    + pose proof (apply_event_attempt e st _ _ (or_introl Hnf) (Hactive _ _ Hcl')) as Ho.
      rewrite Hw, decide_False in Ho by done. by destruct (re_kind e).
Qed.

(** The locks of an item are all held by its active attempt. *)
Lemma agree_but c r st w a :
  has_attempt st w (Some a) -> claims_agree c r st -> claims_agree_but w a c r st.
Proof.
  intros (i & Hi & Hact & _) [Hrows Hactive]. split; [by exists i|done|].
  intros k cl Hk. pose proof (Hactive _ _ Hk) as (j & Hj & Hja & Hl).
  case_decide as Heq; [rewrite Heq in Hj; congruence|by exists j].
Qed.

(** Finishing the item leaves the claims to the release that follows. *)
Lemma finish_agree_but c r e st w a :
  re_work_item_id e = Some w -> finishing (re_kind e) = true -> claims_agree_but w a c r st ->
  claims_agree_but w a c r (apply_event e st).
Proof.
  intros Hw Hf [[i Hi] Hrows Hactive].
  assert (rs_claims (apply_event e st) = rs_claims st) as Hc.
  { unfold apply_event, apply_claims. rewrite Hw, Hi. simpl. by destruct (re_kind e). }
  split; rewrite ?Hc; [|done|].
  - unfold apply_event. rewrite Hw, Hi. simpl. rewrite lookup_insert_eq. by eexists.
  - intros k cl Hk. pose proof (Hactive _ _ Hk) as H. case_decide as Heq; [done|].
    apply (apply_event_attempt e) in H; [|right; congruence].
    rewrite Hw, decide_False in H by congruence. by destruct (re_kind e).
Qed.

(** A release deletes the rows of the attempt, which are all of the item's. *)
Lemma released_agree c c' r e st w a k :
  change_of e = (Some w, Some a, k) -> frees k ->
  (forall k, c' !! (r, k) = h ← c !! (r, k); if decide (h = (w, a)) then None else Some h) ->
  claims_agree_but w a c r st -> claims_agree c' r (apply_event e st).
Proof.
  intros [= Hw Ha Hk] Hf Hc [[i Hi] Hrows Hactive].
  assert (forall key, rs_claims (apply_event e st) !! key =
    cl ← rs_claims st !! key; if decide (cl_work_item_id cl = w) then None else Some cl) as Hcl.
  { intros key. unfold apply_event, apply_claims. rewrite Hw, Hi. simpl. rewrite Hk, Ha.
    destruct Hf as [-> | ->]; simpl; rewrite map_lookup_filter;
      destruct (rs_claims st !! key) as [cl|] eqn:Hl; try done; simpl;
      specialize (Hactive _ _ Hl); destruct (decide (cl_work_item_id cl = w)) as [Heq|Hne];
      try (by rewrite option_guard_False by naive_solver);
      try (by rewrite option_guard_True by naive_solver). }
  split; intros key; rewrite Hcl.
  - rewrite Hc, Hrows. destruct (rs_claims st !! key) as [cl|] eqn:Hl; [|done]. simpl.
    specialize (Hactive _ _ Hl). destruct (decide (cl_work_item_id cl = w)) as [<-|Hne].
    + rewrite decide_True; [done|]. congruence.
    + rewrite decide_False; [done|]. congruence.
  - intros cl Hl. destruct (rs_claims st !! key) as [cl'|] eqn:Hl'; [|done]. simpl in Hl.
    specialize (Hactive _ _ Hl'). destruct (decide (cl_work_item_id cl' = w)) as [|Hne]; [done|].
    injection Hl as ->.
    apply (apply_event_attempt e) in Hactive; [|left; rewrite Hk; by destruct Hf as [-> | ->]].
    rewrite Hw, decide_False in Hactive by congruence. by destruct (re_kind e).
Qed.

(** Finishing an item that holds no lock. *)
Lemma settled_agree c r e st w :
  re_work_item_id e = Some w -> finishing (re_kind e) = true -> has_attempt st w None ->
  claims_agree c r st -> claims_agree c r (apply_event e st).
Proof.
  intros Hw Hf (i & Hi & Hact & _) [Hrows Hactive].
  assert (rs_claims (apply_event e st) = rs_claims st) as Hc.
  { unfold apply_event, apply_claims. rewrite Hw, Hi. simpl. by destruct (re_kind e). }
  split; rewrite Hc; [done|]. intros k cl Hk. pose proof (Hactive _ _ Hk) as H.
  assert (w <> cl_work_item_id cl) as Hne.
  { intros Heq. destruct H as (j & Hj & Hja & _). rewrite <- Heq in Hj. congruence. }
  apply (apply_event_attempt e) in H; [|right; congruence].
  rewrite Hw, decide_False in H by done. by destruct (re_kind e).
Qed.

(** ** The journal tail an operation writes *)

Section claims.
Context {DOC : Documents} {PE : ProviderEvidence} {SE : SerdeOk InternalEvent}.

(** The rows of [r] grow by rows that replay, if at all, as the changes [l]. *)
Definition decodes (row : ReadOnlyEventRowV1) (x : change) : Prop :=
  forall e, replay_event row = Ok e -> change_of e = x.
Definition tail (r : string) (l : list change) (s s' : Store) : Prop :=
  st_runs s' !! r = st_runs s !! r /\
  exists rows, run_rows r s' = (run_rows r s ++ rows)%list /\ Forall2 decodes rows l.

(** One row that replays as [x], with the table left alone. *)
Definition writes (r : string) (x : change) (s s' : Store) : Prop :=
  st_resource_claims s' = st_resource_claims s /\ tail r [x] s s'.

(** Neither the claims, nor the run, nor its rows. *)
Definition untouched (r : string) (s s' : Store) : Prop :=
  st_resource_claims s' = st_resource_claims s /\ st_runs s' !! r = st_runs s !! r /\
  run_rows r s' = run_rows r s.

(** A tail of the item [w], or of none, that moves no lock and leaves the table alone. *)
Definition moves (w : string) (x : change) : Prop :=
  quiet_kind x.2 = true /\ (x.1.1 = None \/ x.1.1 = Some w).
Definition quiet (r w : string) (s s' : Store) : Prop :=
  st_resource_claims s' = st_resource_claims s /\
  exists l, tail r l s s' /\ Forall (moves w) l.

(** An event of no item, or of the item at hand. *)
Ltac about_tac := first [done|by left|by right].

Lemma moves_quiet w l : Forall (moves w) l -> Forall (fun x : change => quiet_kind x.2 = true) l.
Proof. intros H. eapply Forall_impl; [exact H|]. by intros x []. Qed.

(** The replay of the run's rows, before the final pass. *)
Definition replayed (r : string) (s : Store) (st : ReplayState) : Prop :=
  exists c es m, load_contracts r s = Ok c /\
    Forall2 (fun row e => replay_event row = Ok e) (run_rows r s) es /\
    initial_items (ct_profile c) (pk_work_items (ct_packet c)) = Some m /\
    st = run_events m es.

(** What a property of the replay states of one run says of the store. *)
Definition on_replay (P : Store -> ReplayState -> Prop) (r : string) (s : Store) : Prop :=
  forall st, replayed r s st -> P s st.

Definition claims_inv (r : string) (s : Store) : Prop :=
  on_replay (fun s => claims_agree (st_resource_claims s) r) r s.

Lemma tail_same r s s' :
  st_runs s' !! r = st_runs s !! r -> run_rows r s' = run_rows r s -> tail r [] s s'.
Proof. intros Hr He. split; [done|]. exists []. rewrite app_nil_r. by split. Qed.

Lemma tail_app r l1 l2 s1 s2 s3 : tail r l1 s1 s2 -> tail r l2 s2 s3 -> tail r (l1 ++ l2) s1 s3.
Proof.
  intros [H1 (r1 & E1 & F1)] [H2 (r2 & E2 & F2)]. split; [congruence|].
  exists (r1 ++ r2)%list. rewrite E2, E1, app_assoc. split; [done|]. by apply Forall2_app.
Qed.

#[global] Instance quiet_preorder r w : PreOrder (quiet r w).
Proof.
  split.
  - intros s. split; [done|]. exists []. split; [by apply tail_same|done].
  - intros s1 s2 s3 [C1 (l1 & T1 & Q1)] [C2 (l2 & T2 & Q2)]. split; [congruence|].
    exists (l1 ++ l2)%list. split; [by eapply tail_app|by apply Forall_app].
Qed.

Lemma replayed_unique r s st st' : replayed r s st -> replayed r s st' -> st = st'.
Proof.
  intros (c & es & m & Hc & He & Hm & ->) (c' & es' & m' & Hc' & He' & Hm' & ->).
  rewrite Hc in Hc'. injection Hc' as <-. rewrite (replay_events_unique _ _ _ He He').
  congruence.
Qed.

Lemma tail_events r l s s' es' :
  tail r l s s' -> Forall2 (fun row e => replay_event row = Ok e) (run_rows r s') es' ->
  exists es1 es2, es' = (es1 ++ es2)%list /\ change_of <$> es2 = l /\
    Forall2 (fun row e => replay_event row = Ok e) (run_rows r s) es1.
Proof.
  intros [_ (rows & Hrows & Hl)] He. rewrite Hrows in He.
  apply Forall2_app_inv_l in He as (es1 & es2 & H1 & H2 & ->).
  exists es1, es2. split; [done|]. split; [|done].
  clear Hrows H1. revert l Hl. induction H2 as [|row e rows es He _ IH]; intros l Hl;
    apply Forall2_cons_inv_l in Hl as (x & l' & Hx & Hl & ->) || apply Forall2_nil_inv_l in Hl as ->;
    [done|]. rewrite fmap_cons. f_equal; [by apply Hx|by apply IH].
Qed.

Lemma tail_replayed r l s s' st' :
  tail r l s s' -> replayed r s' st' ->
  exists st es, replayed r s st /\ change_of <$> es = l /\
    st' = foldl (fun st e => apply_event e st) st es.
Proof.
  intros Ht (c & es & m & Hc & He & Hm & ->).
  rewrite (load_contracts_row _ _ _ (proj1 Ht)) in Hc.
  apply (tail_events _ _ _ _ _ Ht) in He as (es1 & es2 & -> & Hl & H1).
  exists (run_events m es1), es2. split; [by exists c, es1, m|]. split; [done|].
  unfold run_events. by rewrite foldl_app.
Qed.

(** Quiet events keep what is stable under them. *)
Lemma quiet_fold (P : ReplayState -> Prop) es st :
  (forall e st, quiet_kind (re_kind e) = true -> P st -> P (apply_event e st)) ->
  Forall (fun x : change => quiet_kind x.2 = true) (change_of <$> es) ->
  P st -> P (foldl (fun st e => apply_event e st) st es).
Proof.
  intros HP. rewrite Forall_fmap. intros H. revert st.
  induction H as [|e es He _ IH]; intros st Hst; simpl; [done|]. apply IH. by apply HP.
Qed.

Lemma quiet_inv r s s' v w a :
  quiet r v s s' ->
  on_replay (fun s st => claims_agree (st_resource_claims s) r st /\ has_attempt st w a) r s ->
  on_replay (fun s st => claims_agree (st_resource_claims s) r st /\ has_attempt st w a) r s'.
Proof.
  intros [Hc (l & Hl & Hq%moves_quiet)] Hinv st' Hst'. rewrite Hc.
  apply (tail_replayed _ _ _ _ _ Hl) in Hst' as (st & es & Hst & <- & ->).
  apply Hinv in Hst as [Ha Hi]. split; [|by apply quiet_fold; [intros; by apply quiet_attempt|..]].
  apply quiet_fold; [intros; by apply quiet_agree|done..].
Qed.

Lemma quiet_claims_inv r w s s' : quiet r w s s' -> claims_inv r s -> claims_inv r s'.
Proof.
  intros [Hc (l & Hl & Hq%moves_quiet)] Hinv st' Hst'. rewrite Hc.
  apply (tail_replayed _ _ _ _ _ Hl) in Hst' as (st & es & Hst & <- & ->).
  apply quiet_fold; [intros; by apply quiet_agree|done|by apply Hinv].
Qed.

(** ** What each statement writes *)

Definition event_change (e : InternalEvent) : change :=
  (ie_work_item_id e, ie_attempt_id e, replay_kind (ie_payload e)).

Lemma insert_event_writes r i w a k t b d x s s' :
  insert_event r i w a k t b d s = Ok s' ->
  (forall row, ro_work_item_id row = w -> ro_attempt_id row = a -> ro_kind row = k ->
    ro_raw_bytes row = b -> decodes row x) ->
  writes r x s s'.
Proof.
  unfold insert_event. intros H Hx. inv_ok H. subst s'. split; [done|]. split; [done|].
  eexists. split; [erewrite run_rows_app by done; simpl; by rewrite String.eqb_refl|].
  constructor; [by apply Hx|constructor].
Qed.

Lemma decodes_internal e raw row :
  to_vec e = Ok raw -> String.eqb (ro_kind row) "adapter_event" = false ->
  ro_raw_bytes row = raw -> ro_work_item_id row = ie_work_item_id e ->
  ro_attempt_id row = ie_attempt_id e -> decodes row (event_change e).
Proof.
  unfold decodes, replay_event. intros Hv -> -> Hw Ha x H.
  rewrite (from_slice_to_vec _ _ Hv) in H. simpl in H. injection H as <-.
  unfold change_of, event_change. simpl. congruence.
Qed.

Lemma append_raw_writes e k raw s s' :
  to_vec e = Ok raw -> String.eqb k "adapter_event" = false ->
  append_internal_raw e k raw s = Ok s' -> writes (ie_run_id e) (event_change e) s s'.
Proof.
  intros Hv Hk H. eapply insert_event_writes; [exact H|]. intros row Hw Ha <- Hb.
  by eapply decodes_internal.
Qed.

Lemma append_internal_writes e s s' :
  append_internal e s = Ok s' -> writes (ie_run_id e) (event_change e) s s'.
Proof.
  unfold append_internal. intros H. inv_ok H. res_simpl.
  eapply append_raw_writes; [| |eassumption]; done.
Qed.

Lemma writes_quiet r w x s s' : moves w x -> writes r x s s' -> quiet r w s s'.
Proof. intros Hq [Hc Hl]. split; [done|]. exists [x]. by split; [|constructor]. Qed.

Lemma append_internal_quiet r w e s s' :
  ie_run_id e = r -> ie_work_item_id e = None \/ ie_work_item_id e = Some w -> quiet_kind (replay_kind (ie_payload e)) = true ->
  append_internal e s = Ok s' -> quiet r w s s'.
Proof. intros <- Hw Hq H. eapply writes_quiet, append_internal_writes; [by split|exact H]. Qed.

Lemma append_bounded_quiet r w e b c s s' :
  ie_run_id e = r -> ie_work_item_id e = None \/ ie_work_item_id e = Some w ->
  append_internal_bounded e b c s = Ok s' -> quiet r w s s'.
Proof.
  unfold append_internal_bounded. intros <- Hw H. inv_ok H. res_simpl.
  assert (String.eqb x0 "adapter_event" = false /\ quiet_kind (event_change e).2 = true) as [Hk Hq].
  { unfold event_change. simpl. destruct (ie_payload e); try discriminate Hok1;
      by injection Hok1 as <-. }
  apply (writes_quiet _ _ (event_change e)); [by split|]. eapply append_raw_writes; [| |eassumption]; done.
Qed.

(** Statements on tables other than [events] and [resource_claims]. *)
#[global] Instance untouched_preorder r : PreOrder (untouched r).
Proof.
  split; [by repeat split|].
  intros s1 s2 s3 (C1 & R1 & E1) (C2 & R2 & E2). repeat split; congruence.
Qed.

Lemma untouched_quiet r w s s' : untouched r s s' -> quiet r w s s'.
Proof. intros (Hc & Hr & He). split; [done|]. exists []. split; [by apply tail_same|done]. Qed.

Lemma writes_untouched r x s1 s2 s3 : writes r x s1 s2 -> untouched r s2 s3 -> writes r x s1 s3.
Proof.
  intros [C1 T1] (C2 & R2 & E2). split; [congruence|].
  eapply (tail_app _ [x] []); [exact T1|by apply tail_same].
Qed.

Ltac other_table H :=
  unfold insert_work_item, insert_metadata, insert_anchor, insert_requirement, insert_receipt,
    insert_final, insert_bootstrap in H; inv_ok H; subst; try apply untouched_quiet;
  by repeat split.

Lemma insert_custody_untouched r r' id s s' : insert_custody r' id s = Ok s' -> untouched r s s'.
Proof.
  unfold insert_custody. intros H. inv_ok H.
  apply (fold_try_rel (untouched r)) in Hok, H; [by etrans| |]; intros e s1 s2 _ He; other_table He.
Qed.

Lemma append_availability_writes e b s s' :
  append_execution_availability_bounded e b s = Ok s' -> writes (ie_run_id e) (event_change e) s s'.
Proof.
  unfold append_execution_availability_bounded. intros H. inv_ok H. res_simpl.
  eapply writes_untouched; [|by eapply insert_custody_untouched].
  eapply append_raw_writes; [eassumption| |eassumption].
  destruct (ie_payload e); try done; by injection Hok as <-.
Qed.

Lemma append_availability_quiet r w e b s s' :
  ie_run_id e = r -> ie_work_item_id e = None \/ ie_work_item_id e = Some w -> quiet_kind (replay_kind (ie_payload e)) = true ->
  append_execution_availability_bounded e b s = Ok s' -> quiet r w s s'.
Proof. intros <- Hw Hq H. eapply writes_quiet, append_availability_writes; [by split|exact H]. Qed.

Lemma insert_receipt_quiet r w i row s s' : insert_receipt r i row s = Ok s' -> quiet r w s s'.
Proof. intros H. other_table H. Qed.

Lemma insert_final_quiet r w row s s' : insert_final r row s = Ok s' -> quiet r w s s'.
Proof. intros H. other_table H. Qed.

(** ** What an operation read before it wrote *)

Lemma not_some_false o v : not_some o v = false <-> o = Some v.
Proof. unfold not_some. by rewrite negb_false_iff, bool_decide_eq_true. Qed.

(** The item an operation finds is the replay's item with the state derived. *)
Lemma projection_item r s p w i :
  load_projection r s = Ok p -> find_item w p = Ok i ->
  is_explicit_terminal (li_scheduler_state i) = false ->
  exists st, replayed r s st /\ has_attempt st w (li_active_attempt_id i) /\
    (entry_eligible (li_scheduler_state i) = true -> li_active_attempt_id i = None).
Proof.
  intros Hp Hi Hl. apply load_projection_replay in Hp as (c & es & Hc & He & Hr).
  destruct (replay_inv Hr) as (m & Hm & Hinit & Hwait & Hwf & Hid & Hitems & Hclaims).
  apply ok_or_ok, find_first_Some in Hi as [Hi Hw]. apply String.eqb_eq in Hw as <-.
  destruct (proj1 (elem_of_lp_work_items (p := p) (run_events m es) i Hitems) Hi)
    as (k & i0 & Hi0 & ->).
  exists (run_events m es). rewrite finish_item_id, finish_item_attempt.
  rewrite finish_item_terminal in Hl.
  split; [by exists c, es, m|]. split; [rewrite (Hid _ _ Hi0); by exists i0|].
  rewrite finish_item_state. destruct (awaits i0) eqn:Ha.
  - intros _. unfold awaits in Ha. rewrite !andb_true_iff in Ha.
    by destruct (li_active_attempt_id i0); [naive_solver|].
  - intros Hs. pose proof (iw_state _ _ Hwf _ _ Hi0) as Hd.
    by destruct (li_scheduler_state i0).
Qed.

Definition inv_with (w : string) (a : option string) (r : string) (s : Store) : Prop :=
  on_replay (fun s st => claims_agree (st_resource_claims s) r st /\ has_attempt st w a) r s.

Lemma projection_inv r s p w i :
  load_projection r s = Ok p -> find_item w p = Ok i ->
  is_explicit_terminal (li_scheduler_state i) = false -> claims_inv r s ->
  inv_with w (li_active_attempt_id i) r s.
Proof.
  intros Hp Hi Hl Hinv st Hst. split; [by apply Hinv|].
  destruct (projection_item _ _ _ _ _ Hp Hi Hl) as (st' & Hst' & Ha & _).
  by rewrite (replayed_unique _ _ _ _ Hst Hst').
Qed.

Lemma active_attempt_inv r s w a :
  exact_active_attempt r w a s = Ok tt -> claims_inv r s -> inv_with w (Some a) r s.
Proof.
  unfold exact_active_attempt. intros H Hinv. inv_ok H. res_simpl. apply not_some_false in H.
  rewrite <- H. by eapply projection_inv.
Qed.

(** ** Locks taken and freed *)

(** The rows [keys] of [r] now name the attempt. *)
Definition locks (r w a : string) (keys : list string) (s s' : Store) : Prop :=
  st_runs s' = st_runs s /\ run_rows r s' = run_rows r s /\
  forall k, st_resource_claims s' !! (r, k)
    = if bool_decide (k ∈ keys) then Some (w, a) else st_resource_claims s !! (r, k).

(** A turn of a loop that leaves [key] claimed by the attempt. *)
Lemma fold_locks r w a (f : string -> Store -> result ForemanError Store) keys s s' :
  (forall k s s', f k s = Ok s' -> locks r w a [k] s s') -> fold_try f keys s = Ok s' ->
  locks r w a keys s s'.
Proof.
  intros Hf. revert s. induction keys as [|key keys IH]; intros s H; simpl in H.
  { injection H as <-. by repeat split. }
  apply rbind_ok in H as (s1 & (R1 & E1 & C1)%Hf & (R2 & E2 & C2)%IH).
  split; [congruence|]. split; [congruence|]. intros k. rewrite C2, C1.
  destruct (decide (k = key)) as [->|Hne].
  - rewrite !(bool_decide_eq_true_2 (key ∈ key :: _)) by left. by case_bool_decide.
  - rewrite (bool_decide_eq_false_2 (k ∈ [key])) by (by rewrite list_elem_of_singleton).
    rewrite (bool_decide_ext (k ∈ key :: keys) (k ∈ keys)); [done|].
    rewrite elem_of_cons. naive_solver.
Qed.

Lemma insert_claim_locks r w a k s s' : insert_claim r k w a s = Ok s' -> locks r w a [k] s s'.
Proof.
  unfold insert_claim. intros H. inv_ok H. subst s'. split; [done|]. split; [done|].
  intros key. simpl. destruct (decide (key = k)) as [->|Hne].
  - by rewrite lookup_insert_eq, bool_decide_eq_true_2 by left.
  - rewrite lookup_insert_ne by congruence.
    by rewrite bool_decide_eq_false_2 by (by rewrite list_elem_of_singleton).
Qed.

Lemma insert_claims_locks r w a keys s s' :
  fold_try (fun lock => insert_claim r lock w a) keys s = Ok s' -> locks r w a keys s s'.
Proof. apply fold_locks. intros. by apply insert_claim_locks. Qed.

(** A claim already held by the attempt is left in place. *)
Lemma reacquire_claims_locks r w a keys s s' :
  fold_try (reacquire_claim r w a) keys s = Ok s' -> locks r w a keys s s'.
Proof.
  apply fold_locks. clear. intros k s s' H. unfold reacquire_claim in H.
  destruct (st_resource_claims s !! (r, k)) as [[w' a']|] eqn:Hk;
    [|by apply insert_claim_locks].
  inv_ok H. subst s'. res_simpl.
  apply negb_false_iff, andb_true_iff in Hok as [->%String.eqb_eq ->%String.eqb_eq].
  split; [done|]. split; [done|]. intros key. case_bool_decide as Hin; [|done].
  by apply list_elem_of_singleton in Hin as ->.
Qed.

(** The rows of the attempt are gone. *)
Definition unlocks (r w a : string) (s s' : Store) : Prop :=
  st_resource_claims s' = st_resource_claims (delete_claims r w a s).

(** What one event, alone after the store [s], does to its claims. *)
Lemma one_event r x s s' (P : ReplayState -> Prop) (Q : Store -> ReplayState -> Prop) :
  tail r [x] s s' -> on_replay (fun _ => P) r s ->
  (forall e st, change_of e = x -> P st -> Q s' (apply_event e st)) -> on_replay Q r s'.
Proof.
  intros Hl HP HQ st' Hst'.
  apply (tail_replayed _ _ _ _ _ Hl) in Hst' as (st & es & Hst & Hes & ->).
  apply fmap_cons_inv in Hes as (e & es' & Hx & Hnil & ->). symmetry in Hnil.
  apply fmap_nil_inv in Hnil as ->. apply HQ; [done|by apply HP].
Qed.

(** Locks taken and the event appended. *)
Lemma take_inv r w a k before keys s s1 s2 :
  takes k a before keys -> locks r w a keys s s1 -> writes r (Some w, Some a, k) s1 s2 ->
  inv_with w before r s -> claims_inv r s2.
Proof.
  intros Ht (Hr & Hrows & Hc) [Hc2 Hl] Hinv.
  assert (tail r [(Some w, Some a, k)] s s2) as Hl'.
  { eapply (tail_app _ [] _); [by apply tail_same; [rewrite Hr|]|exact Hl]. }
  eapply one_event; [exact Hl'|exact Hinv|]. intros e st He [Ha Hi].
  eapply taken_agree; [exact He|exact Ht|exact Hi| |exact Ha]. intros key. by rewrite Hc2.
Qed.

(** The changes that finish an item just before its locks are freed. *)
Definition finishes (w : string) (x : change) : Prop := x.1.1 = Some w /\ finishing x.2 = true.

Lemma finishes_but c r w a es st :
  Forall (finishes w) (change_of <$> es) -> claims_agree_but w a c r st ->
  claims_agree_but w a c r (foldl (fun st e => apply_event e st) st es).
Proof.
  rewrite Forall_fmap. intros H. revert st. induction H as [|e es [Hw Hf] _ IH]; intros st Hst;
    simpl; [done|]. apply IH. by apply finish_agree_but.
Qed.

(** The item perhaps finished, its locks freed, and the events appended. *)
Lemma free_inv r w a k pre s s' :
  frees k -> Forall (finishes w) pre -> unlocks r w a s s' ->
  tail r (pre ++ [(Some w, Some a, k)]) s s' -> inv_with w (Some a) r s -> claims_inv r s'.
Proof.
  intros Hf Hpre Hu Hl Hinv st' Hst'.
  apply (tail_replayed _ _ _ _ _ Hl) in Hst' as (st & es & Hst & Hes & ->).
  apply Hinv in Hst as [Ha Hi]. apply fmap_app_inv in Hes as (es1 & es2 & Hpre' & He & ->).
  symmetry in He. apply fmap_cons_inv in He as (e & es3 & Hx & Hnil & ->). symmetry in Hnil.
  apply fmap_nil_inv in Hnil as ->. rewrite foldl_app. simpl.
  eapply released_agree; [symmetry; exact Hx|exact Hf| |apply finishes_but; [by rewrite <- Hpre'|by apply agree_but]].
  intros key.
  rewrite Hu, delete_claims_lookup. destruct (st_resource_claims s !! (r, key)) as [h|]; [|done].
  simpl. by rewrite (decide_ext (r = r /\ h = (w, a)) (h = (w, a))) by naive_solver.
Qed.

Lemma release_resources_frees r w a t u s s' :
  release_resources r w a t u s = Ok s' ->
  unlocks r w a s s' /\ tail r [(Some w, Some a, ReplayResourcesReleased)] s s'.
Proof.
  unfold release_resources. intros H. apply append_internal_writes in H as [Hc Hl].
  split; [done|]. eapply (tail_app _ [] _); [by apply tail_same|exact Hl].
Qed.

(** ** Every operation keeps the table and the journal in step *)

(** A run just inserted has no rows and no claims. *)
Lemma admitted_rows r row s s' :
  store_wf s -> insert_run r row s = Ok s' -> run_rows r s' = [].
Proof.
  unfold insert_run. intros W H. inv_ok H. subst s'. res_simpl. apply bool_decide_eq_false in Hok.
  unfold run_rows. simpl. pose proof (wf_event_runs _ W) as Hev.
  induction Hev as [|e l He _ IH]; [done|]. simpl.
  destruct (String.eqb (ev_run_id e) r) eqn:Hr; [|exact IH].
  apply String.eqb_eq in Hr. by rewrite Hr in He.
Qed.

Lemma admitted_inv r row s s' :
  store_wf s -> insert_run r row s = Ok s' -> claims_inv r s'.
Proof.
  intros W H. pose proof (admitted_rows _ _ _ _ W H) as Hrows. unfold insert_run in H.
  inv_ok H. subst s'. res_simpl. apply bool_decide_eq_false in Hok.
  intros st (c & es & m & _ & He & _ & ->). rewrite Hrows in He.
  apply Forall2_nil_inv_l in He as ->. split; simpl.
  - intros k. rewrite lookup_empty. simpl.
    destruct (st_resource_claims s !! (r, k)) as [h|] eqn:Hh; [|done].
    by apply (wf_claim_runs _ W) in Hh.
  - intros k cl Hk. by rewrite lookup_empty in Hk.
Qed.

Lemma insert_packet_items_quiet r w r' p l s s' :
  fold_try (insert_packet_item r' p) l s = Ok s' -> quiet r w s s'.
Proof.
  intros H. apply (fold_try_rel (quiet r w)) in H; [done|]. intros item s1 s2 _ Hi.
  unfold insert_packet_item in Hi. inv_ok Hi. other_table Hi.
Qed.

Lemma admit_capacity_quiet p f r w u t q s s' :
  admit_capacity_requirement p f r u t q s = Ok s' -> quiet r w s s'.
Proof.
  unfold admit_capacity_requirement. destruct q as [[]|]; [|by intros [= ->]].
  apply append_bounded_quiet; [done|by left].
Qed.

Lemma admit_availability_quiet f r w u t q s s' :
  admit_execution_availability f r u t q s = Ok s' -> quiet r w s s'.
Proof.
  unfold admit_execution_availability. destruct q; [|by intros [= ->]]. intros H. inv_ok H.
  apply append_availability_quiet with (r := r) (w := w) in H; [|done|by left|done]. etrans; [|exact H].
  other_table Hok.
Qed.

Lemma admit_bootstrap_quiet r w p a f q s s' :
  admit_self_hosted p a f q s = Ok s' -> quiet r w s s'.
Proof.
  unfold admit_self_hosted. destruct q; [|by intros [= ->]]. intros H. inv_ok H. other_table H.
Qed.

Lemma admit_quiet pb ab fb t m uuids r w s s' :
  admit_internal pb ab fb t m uuids s = Ok (r, s') ->
  exists row s1, insert_run r row s = Ok s1 /\ quiet r w s1 s'.
Proof.
  unfold admit_internal. intros H. inv_ok H. injection H as Hr <-. rewrite Hr in *.
  eexists _, _. split; [eassumption|].
  etrans; [|by eapply admit_bootstrap_quiet].
  etrans; [|by eapply admit_availability_quiet].
  etrans; [|by eapply admit_capacity_quiet].
  etrans; [by eapply insert_packet_items_quiet|eapply append_internal_quiet; [| | |eassumption]; about_tac].
Qed.

Lemma adapter_event_quiet raw e s s' :
  event_from_slice raw = Ok e -> accept_adapter_event raw s = Ok s' ->
  quiet (ae_run_id e) (ae_work_item_id e) s s'.
Proof.
  unfold accept_adapter_event. intros He H. rewrite He in H. simpl in H. inv_ok H.
  eapply (writes_quiet _ _
    (Some (ae_work_item_id e), Some (ae_attempt_id e), ReplayAdapter e)); [by split; [|right]|].
  eapply insert_event_writes; [exact H|]. intros row Hw Ha Hk Hb y Hy. unfold replay_event in Hy.
  rewrite Hk, Hb, He in Hy. simpl in Hy. injection Hy as <-. unfold change_of. simpl. congruence.
Qed.

Lemma attempt_capacity_quiet c q v r i a u t s s' :
  admit_attempt_capacity c q v r i a u t s = Ok s' -> quiet r i s s'.
Proof.
  unfold admit_attempt_capacity. destruct v; [|by intros [= ->]]. intros H. inv_ok H.
  eapply append_bounded_quiet; [| |exact H]; about_tac.
Qed.

Lemma append_dispatch_quiet r i a o b s s' :
  append_provider_dispatch r i a o b s = Ok s' -> quiet r i s s'.
Proof.
  unfold append_provider_dispatch. intros H. inv_ok H.
  eapply append_availability_quiet; [| | |eassumption]; about_tac.
Qed.

Lemma open_dispatch_quiet c h d q r i a t s o s' :
  open_attempt_dispatch c h d q r i a t s = Ok (o, s') -> quiet r i s s'.
Proof.
  unfold open_attempt_dispatch. destruct d; [|by intros [= _ ->]].
  intros H. inv_ok H. injection H as _ <-. by eapply append_dispatch_quiet.
Qed.

(** ** The provider operations *)

Lemma provider_run_active r w a s x :
  load_provider_run r w a s = Ok x -> exact_active_attempt r w a s = Ok tt.
Proof. unfold load_provider_run. intros H. apply rseq_ok in H as [H _]. by destruct x. Qed.

(** ** The shapes of an operation *)

(** What was checked of the item before locks are taken. *)
Definition eligible (r w : string) (s : Store) : Prop :=
  exists p i, load_projection r s = Ok p /\ find_item w p = Ok i /\
    entry_eligible (li_scheduler_state i) = true.
Definition entitled (r w a : string) (before : option string) (s : Store) : Prop :=
  match before with
  | None => eligible r w s /\ prior_attempt_exists r w s = Ok false
  | Some b => b = a /\ exact_active_attempt r w a s = Ok tt
  end.

(** The released attempts of a loaded history, and a worker slot left for another. *)
Definition released_of (history : option ReadOnlyExecutionAvailabilityHistoryV1)
    : result ForemanError (gset string) :=
  match history with
  | Some h => fold_try slot_released (xh_resource_transitions h) ∅
  | None => Ok ∅
  end.
Definition slot_left (r : string) (s : Store) : Prop :=
  exists p c history released, load_projection r s = Ok p /\ load_contracts r s = Ok c /\
    load_execution_availability_history (ct_packet c) (ct_admission c) (ct_profile c) r s
      = Ok history /\ released_of history = Ok released /\
    (active_workers released p < lp_maximum_concurrent_workers p)%N.

(** An operation admits a run, writes only about the run, moves no lock of an active
  attempt, takes the locks of an attempt (one whose item was eligible and had none, or
  the active one), frees those of the active attempt of an item it may have finished,
  or finishes an eligible item. *)
Inductive shape (r : string) (s s' : Store) : Prop :=
| shape_admit w row s1 : insert_run r row s = Ok s1 -> quiet r w s1 s' -> shape r s s'
| shape_calm : (forall w, quiet r w s s') -> shape r s s'
| shape_quiet w a : exact_active_attempt r w a s = Ok tt -> quiet r w s s' -> shape r s s'
| shape_take w a k before keys s1 s2 s3 :
  entitled r w a before s -> slot_left r s -> takes k a before keys -> quiet r w s s1 ->
  locks r w a keys s1 s2 -> writes r (Some w, Some a, k) s2 s3 -> quiet r w s3 s' -> shape r s s'
| shape_free w a k pre s1 :
  exact_active_attempt r w a s = Ok tt -> frees k -> Forall (finishes w) pre -> quiet r w s s1 ->
  unlocks r w a s1 s' -> tail r (pre ++ [(Some w, Some a, k)]) s1 s' -> shape r s s'
| shape_settle w k s1 :
  eligible r w s -> finishing k = true -> quiet r w s s1 ->
  writes r (Some w, None, k) s1 s' -> shape r s s'.

Lemma check_eligible_entitled r i c d s el a :
  check_eligible r i c d s = Ok el -> entitled r i a None s /\ slot_left r s.
Proof.
  unfold check_eligible. intros H. apply rbind_ok in H as (p & Hp & H).
  apply rbind_ok in H as (item & Hi & H). apply rseq_ok in H as [He%reject_ok%negb_false_iff H].
  apply rbind_ok in H as (prior & Hprior & H). apply rseq_ok in H as [->%reject_ok H].
  split; [split; [by exists p, item|done]|]. inv_ok H. res_simpl.
  match goal with X : (_ <=? _)%N = false |- _ => apply N.leb_gt in X end.
  eexists _, _, _, _. split; [exact Hp|]. split; [eassumption|]. split; [eassumption|].
  split; [eassumption|done].
Qed.

Lemma prepare_shape r i t c d uuids s x s' :
  prepare_attempt_internal r i t c d uuids s = Ok (x, s') -> shape r s s'.
Proof.
  unfold prepare_attempt_internal. intros H. apply rbind_ok in H as (el & Hel & H).
  inv_ok H. injection H as _ <-.
  apply (check_eligible_entitled _ _ _ _ _ _ ("attempt-" +:+ tu_attempt uuids)) in Hel as [He Hs].
  repeat match goal with
  | H : append_internal _ _ = Ok _ |- _ => apply append_internal_writes in H
  | H : fold_try _ _ _ = Ok _ |- _ => apply insert_claims_locks in H
  end.
  eapply (shape_take r s _ _ _ (ReplayAttemptCreated _) None); [exact He|exact Hs|by split
    |by eapply attempt_capacity_quiet|eassumption|eassumption|by eapply open_dispatch_quiet].
Qed.

Lemma release_parked_shape c y r w a d s0 s s' :
  exact_active_attempt r w a s0 = Ok tt -> quiet r w s0 s -> release_parked c y r w a d s = Ok s' ->
  shape r s0 s'.
Proof.
  intros Ha Hq. unfold release_parked. destruct (park_released d y); intros H; inv_ok H;
    [subst|by subst; eapply shape_quiet].
  match goal with H : append_execution_availability_bounded _ _ _ = Ok _ |- _ =>
    apply append_availability_writes in H as [Hc Hl] end.
  eapply (shape_free r s0 _ w a _ []); [exact Ha|by right|constructor|exact Hq| |].
  - unfold unlocks, delete_claims, set_claims. simpl. by rewrite Hc.
  - eapply (tail_app _ [_] []); [exact Hl|by apply tail_same].
Qed.

Lemma disposition_shape r w a evidence predecessor s x s' :
  record_provider_disposition r w a evidence predecessor s = Ok (x, s') -> shape r s s'.
Proof.
  unfold record_provider_disposition, append_provider_disposition. intros H. inv_ok H.
  injection H as _ <-.
  match goal with H : reload_history _ _ _ = Ok _ |- _ => apply reload_history_ok in H as -> end.
  eapply release_parked_shape; [by eapply provider_run_active| |eassumption].
  eapply append_availability_quiet; [| | |eassumption]; about_tac.
Qed.

Lemma reacquire_shape c h r w a wake f o t s s1 s' :
  exact_active_attempt r w a s = Ok tt -> reacquire_for_wake c h r w a wake f o t s = Ok s1 ->
  (yp_parked_resource_lock_policy (xh_policy h) = ReleaseAndReacquire -> slot_left r s) ->
  quiet r w s1 s' -> shape r s s'.
Proof.
  intros Ha H Hs Hq. unfold reacquire_for_wake in H.
  destruct (yp_parked_resource_lock_policy _); inv_ok H; [|by subst; eapply shape_quiet].
  unfold reacquire_attempt_resource_claims in Hok. inv_ok Hok.
  apply reacquire_claims_locks in Hok. apply append_availability_writes in H.
  res_simpl. repeat match goal with H : index _ _ _ = Ok _ |- _ => apply index_ok in H end.
  simplify_eq.
  eapply (shape_take r s _ w a (ReplayProviderResourcesReacquired _) (Some a));
    [done|by apply Hs|by split|reflexivity|exact Hok|exact H|exact Hq].
Qed.

Lemma wake_slot_left r w a s c h :
  load_provider_run r w a s = Ok (c, h) -> check_wake_slot h r s = Ok tt ->
  yp_parked_resource_lock_policy (xh_policy h) = ReleaseAndReacquire -> slot_left r s.
Proof.
  unfold load_provider_run, check_wake_slot. intros H Hs Hp. apply rseq_ok in H as [_ H].
  rewrite bool_decide_eq_true_2 in Hs by done. inv_ok H. injection H as <- <-. inv_ok Hs.
  res_simpl. subst. apply N.leb_gt in Hs. eexists _, _, _, _. split; [eassumption|].
  split; [eassumption|]. split; [eassumption|]. by split; [eassumption|].
Qed.

Lemma wake_shape r w a wake o s x s' :
  wake_provider_dispatch r w a wake o s = Ok (x, s') -> shape r s s'.
Proof.
  unfold wake_provider_dispatch. intros H. inv_ok H.
  destruct (position _ _); inv_ok H; injection H as _ <-; [by apply shape_calm|].
  match goal with H : reload_history _ _ _ = Ok _ |- _ => apply reload_history_ok in H as -> end.
  eapply reacquire_shape; [by eapply provider_run_active|eassumption|by eapply wake_slot_left|].
  etrans; [|by eapply append_dispatch_quiet].
  eapply append_availability_quiet; [| | |eassumption]; about_tac.
Qed.

(** Locks freed after a statement that leaves the table alone. *)
Lemma unlocks_after r w a s1 s2 s3 :
  st_resource_claims s2 = st_resource_claims s1 -> unlocks r w a s2 s3 -> unlocks r w a s1 s3.
Proof. unfold unlocks, delete_claims, set_claims. simpl. by intros ->. Qed.

Lemma adapter_event_shape raw e s s' :
  event_from_slice raw = Ok e -> accept_adapter_event raw s = Ok s' -> shape (ae_run_id e) s s'.
Proof.
  intros He H. eapply shape_quiet; [|by eapply adapter_event_quiet].
  unfold accept_adapter_event in H. rewrite He in H. simpl in H. inv_ok H. eassumption.
Qed.

Lemma not_started_shape raw e uuid s s' :
  not_started_from_slice raw = Ok e -> accept_not_started raw uuid s = Ok s' ->
  shape (nr_run_id e) s s'.
Proof.
  unfold accept_not_started. intros He H. rewrite He in H. simpl in H. inv_ok H. res_simpl.
  match goal with X : negb (entry_eligible _) || _ = false |- _ =>
    apply orb_false_iff in X as [X%negb_false_iff _] end.
  eapply (shape_settle _ _ _ _ (ReplayNotStartedAccepted _)); [by eexists _, _|done
    |by eapply insert_receipt_quiet|apply append_internal_writes in H; exact H].
Qed.

Lemma terminal_shape raw e uuids s s' :
  terminal_from_slice raw = Ok e -> accept_terminal_receipt raw uuids s = Ok s' ->
  shape (tr_run_id e) s s'.
Proof.
  unfold accept_terminal_receipt. intros He H. rewrite He in H. simpl in H. inv_ok H.
  match goal with H : append_internal _ _ = Ok _ |- _ => apply append_internal_writes in H as [Hc Ht] end.
  apply release_resources_frees in H as [Hu Hl].
  eapply (shape_free _ _ _ _ _ _ [_]); [eassumption|by left| |by eapply insert_receipt_quiet| |
    eapply (tail_app _ [_]); [exact Ht|exact Hl]]; [by repeat constructor|by eapply unlocks_after].
Qed.

Lemma prelaunch_shape raw e uuid s x s' :
  prelaunch_from_slice raw = Ok e -> accept_prelaunch_closure raw uuid s = Ok (x, s') ->
  shape (pb_run_id (pc_binding e)) s s'.
Proof.
  unfold accept_prelaunch_closure. intros He H. rewrite He in H. simpl in H. inv_ok H.
  destruct (st_receipts s !! _); inv_ok H; injection H as _ <-; [by apply shape_calm|].
  unfold record_prelaunch_closure in Hok3. inv_ok Hok3. subst x3.
  match goal with H : append_internal _ _ = Ok _ |- _ => apply append_internal_writes in H as [Hc Ht] end.
  match goal with H : release_resources _ _ _ _ _ _ = Ok _ |- _ =>
    apply release_resources_frees in H as [Hu Hl] end.
  eapply (shape_free _ _ _ _ _ _ [_]); [eassumption|by left| |by eapply insert_receipt_quiet| |
    eapply (tail_app _ [_]); [exact Ht|exact Hl]]; [by repeat constructor|by eapply unlocks_after].
Qed.

Lemma transition_shape r i a t payload prefix u s s' :
  quiet_kind (replay_kind payload) = true ->
  record_attempt_transition r i a t payload prefix u s = Ok s' -> shape r s s'.
Proof.
  unfold record_attempt_transition. intros Hq H. inv_ok H. eapply shape_quiet; [eassumption|].
  eapply append_internal_quiet; [| | |exact H]; about_tac.
Qed.

Lemma step_shape r s s' : step r s s' -> shape r s s'.
Proof.
  destruct 1 as [pb ab fb t m uuids s r s' H|r i t c d uuids s x s' H|r i a t uuid s s' H
    |r i a t uuid s s' H|raw e s s' He H|raw e uuids s s' He H|r i a reason t uuid s s' H
    |raw e uuid s s' He H|raw e uuid s x s' He H|r i a o s x s' H|r i a ev pre s x s' H
    |r i a wake o s x s' H|r i a o s s' H|r t uuid s raw s' H].
  - apply (admit_quiet _ _ _ _ _ _ _ "") in H as (row & s1 & H1 & H2). by eapply shape_admit.
  - by eapply prepare_shape.
  - by eapply transition_shape in H.
  - by eapply transition_shape in H.
  - by eapply adapter_event_shape.
  - by eapply terminal_shape.
  - unfold record_terminal_refusal in H. inv_ok H. eapply shape_quiet; [eassumption|].
    eapply append_internal_quiet; [| | |exact H]; about_tac.
  - by eapply not_started_shape.
  - by eapply prelaunch_shape.
  - unfold open_provider_dispatch in H. inv_ok H. injection H as _ <-.
    match goal with H : reload_history _ _ _ = Ok _ |- _ => apply reload_history_ok in H as -> end.
    eapply shape_quiet; [by eapply provider_run_active|by eapply append_dispatch_quiet].
  - by eapply disposition_shape.
  - by eapply wake_shape.
  - unfold resume_provider_execution in H. inv_ok H.
    destruct (position _ _); inv_ok H; [by subst; apply shape_calm|]. apply reload_history_ok in H as ->.
    eapply shape_quiet; [by eapply provider_run_active|].
    eapply append_availability_quiet; [| | |eassumption]; about_tac.
  - apply shape_calm. intros w. unfold close in H.
    destruct (st_finals s !! r); inv_ok H; injection H as <- <-; [done|].
    etrans; [by eapply insert_final_quiet|eapply append_internal_quiet; [| | |eassumption]; about_tac].
Qed.

(** What was checked of the item tells its active attempt. *)
Lemma eligible_inv r w s : eligible r w s -> claims_inv r s -> inv_with w None r s.
Proof.
  intros (p & i & Hp & Hi & He) Hinv.
  assert (is_explicit_terminal (li_scheduler_state i) = false) as Hl
    by (by destruct (li_scheduler_state i)).
  pose proof (projection_inv _ _ _ _ _ Hp Hi Hl Hinv) as Hw.
  destruct (projection_item _ _ _ _ _ Hp Hi Hl) as (_ & _ & _ & Hnone). by rewrite (Hnone He) in Hw.
Qed.

Lemma entitled_inv r w a before s : entitled r w a before s -> claims_inv r s -> inv_with w before r s.
Proof.
  destruct before as [b|]; simpl.
  - intros [-> Ha]. by apply active_attempt_inv.
  - intros [He _]. by apply eligible_inv.
Qed.

Lemma settle_inv r w k s s' :
  finishing k = true -> writes r (Some w, None, k) s s' -> inv_with w None r s -> claims_inv r s'.
Proof.
  intros Hf [Hc Hl] Hinv. eapply one_event; [exact Hl|exact Hinv|].
  intros e st [= Hw Ha Hk] [Hagree Hi]. rewrite Hc. by eapply settled_agree; [exact Hw|rewrite Hk|exact Hi|].
Qed.

Lemma step_claims_inv r s s' :
  store_wf s -> claims_inv r s -> step r s s' -> claims_inv r s'.
Proof.
  intros W Hinv Hs. destruct (step_shape r s s' Hs) as [w row s1 H1 H2|H|w a _ H
    |w a k before keys s1 s2 s3 He _ Ht H1 H2 H3 H4|w a k pre s1 Ha Hf Hpre H1 H2 H3
    |w k s1 He Hf H1 H2].
  - eapply quiet_claims_inv; [exact H2|]. by eapply admitted_inv.
  - exact (quiet_claims_inv r "" s s' (H "") Hinv).
  - by eapply quiet_claims_inv.
  - eapply quiet_claims_inv; [exact H4|]. eapply take_inv; [exact Ht|exact H2|exact H3|].
    eapply quiet_inv; [exact H1|]. by eapply entitled_inv.
  - eapply free_inv; [exact Hf|exact Hpre|exact H2|exact H3|].
    eapply quiet_inv; [exact H1|]. by apply active_attempt_inv.
  - eapply settle_inv; [exact Hf|exact H2|]. eapply quiet_inv; [exact H1|]. by apply eligible_inv.
Qed.

Lemma reachable_claims_inv s r : reachable s -> claims_inv r s.
Proof.
  intros H. revert r. induction H as [|r0 s s' Hr IH Hs]; intros r.
  - intros st (c & es & m & Hc & _). discriminate Hc.
  - destruct (decide (r = r0)) as [->|Hne].
    { eapply step_claims_inv; [by apply reachable_wf|apply IH|exact Hs]. }
    pose proof (frame_same _ _ _ (step_frame _ _ _ Hs) r Hne) as Hsame.
    intros st (c & es & m & Hc & He & Hm & ->).
    rewrite (load_contracts_local _ _ _ Hsame) in Hc. rewrite (same_events _ _ _ Hsame) in He.
    destruct (IH r (run_events m es)) as [Hrows Hact]; [by exists c, es, m|].
    split; [|exact Hact]. intros k. by rewrite (same_claims _ _ _ Hsame).
Qed.
End claims.
