(* ===== verification/ProviderFacts.v ===== *)
(** * What parking and waking do

    The provider operations read through their checks: recording a disposition gives
    the locks of a parked attempt back, and waking it opens the next dispatch under
    the deferral it was parked by, with the locks taken again. *)
From S2P Require Import Prelude Text External Packet Capacity Contract Availability Scheduler.
From S2P Require Import Prelaunch Bootstrap Evidence Graph GraphFacts Journal Requirements History.
From S2P Require Import Store Provider StoreFacts Isolation Lifecycle Claims.
Local Open Scope string_scope.

(** ** Definitions *)

(** The dispatches and dispositions of one attempt, in journal order. *)
Definition attempt_dispatches (h : ReadOnlyExecutionAvailabilityHistoryV1) (a : string)
    : list ProviderDispatchOccurrenceV1 :=
  List.filter (fun d => String.eqb (di_work_attempt_id d) a) (xh_dispatches h).
Definition dispatch_dispositions (h : ReadOnlyExecutionAvailabilityHistoryV1) (digest : string)
    : list ProviderAdmissionDispositionV1 :=
  List.filter (fun p => String.eqb (dp_dispatch_digest p) digest) (xh_dispositions h).

(** The deferral an attempt is parked under: that of the last disposition of its last
    dispatch. *)
Definition parked_under (h : ReadOnlyExecutionAvailabilityHistoryV1) (a : string)
    (f : DeferredProviderDispatchV1) : Prop :=
  exists d p, last (attempt_dispatches h a) = Some d /\
    last (dispatch_dispositions h (di_dispatch_digest d)) = Some p /\
    dp_mechanism_state p = ParkedNotAdmitted /\ f ∈ xh_deferred h /\
    df_disposition_digest f = dp_disposition_digest p.

Section provider_facts.
Context {DOC : Documents} {PE : ProviderEvidence} {SE : SerdeOk InternalEvent}.

(** The run an operation reads. *)
Definition provider_run (r i a : string) (s : Store) (c : Contracts)
    (h : ReadOnlyExecutionAvailabilityHistoryV1) : Prop :=
  exact_active_attempt r i a s = Ok tt /\ load_contracts r s = Ok c /\
  load_execution_availability_history (ct_packet c) (ct_admission c) (ct_profile c) r s
    = Ok (Some h).

Lemma load_provider_run_spec r i a s c h :
  load_provider_run r i a s = Ok (c, h) -> provider_run r i a s c h.
Proof.
  unfold load_provider_run. intros H. apply rseq_ok in H as [Ha H]. inv_ok H.
  injection H as <- <-. res_simpl. by subst.
Qed.

Lemma find_first_rev_last {A} (p : A -> bool) l :
  find_first p (rev l) = last (List.filter p l).
Proof.
  induction l as [|x l IH] using rev_ind; [done|].
  rewrite rev_app_distr, List.filter_app. simpl. destruct (p x); [by rewrite last_snoc|].
  by rewrite app_nil_r.
Qed.

Lemma wake_basis_spec h a o f n :
  wake_basis h a o = Ok (f, n) ->
  parked_under h a f /\ (df_wake_at f <= oc_opened_at o)%Z /\
  n = (N.of_nat (length (attempt_dispatches h a)) + 1)%N /\
  (n <= yp_maximum_dispatch_occurrences_per_attempt (xh_policy h))%N /\
  model_selection_lawful (xh_policy h) f (pp_selected_model_ordinal (oc_preparation o)) = true /\
  Forall (fun d => di_adapter_process_occurrence_id d
                   <> pp_adapter_process_occurrence_id (oc_preparation o)) (xh_dispatches h).
Proof.
  unfold wake_basis. intros H. inv_ok H. injection H as <- <-. res_simpl.
  rewrite find_first_rev_last in Hok0. apply find_first_Some in Hok1 as [Hf Hd].
  rewrite !orb_false_iff in *. test_simpl. destruct Hok2 as [Hs%bool_decide_eq_true Hw].
  destruct Hok3 as [[Hm Hn] Hp]. split.
  { by exists x, x0. }
  split; [done|]. split; [done|]. split; [unfold attempt_dispatches; lia|]. split; [done|].
  eapply Forall_impl; [exact Hp|]. intros d. by rewrite String.eqb_neq.
Qed.

Lemma build_provider_dispatch_spec q profile requirement p n t o :
  build_provider_dispatch q profile requirement p n t = Ok o ->
  dispatch_validate (od_dispatch o) = Ok tt /\
  di_dispatch_ordinal (od_dispatch o) = n /\ di_opened_at (od_dispatch o) = t /\
  di_dispatch_occurrence_id (od_dispatch o) = pp_dispatch_occurrence_id p.
Proof.
  unfold build_provider_dispatch, dispatch_seal. intros H. inv_ok H. subst o. res_simpl.
  inv_ok Hok4. subst. by res_simpl.
Qed.

(** ** The two operations *)

(** The tables the availability journal leaves alone. *)
Definition same_tables (s s' : Store) : Prop :=
  st_runs s' = st_runs s /\ st_resource_claims s' = st_resource_claims s /\
  st_receipts s' = st_receipts s /\ st_finals s' = st_finals s.
#[local] Instance same_tables_preorder : PreOrder same_tables.
Proof.
  split; [by repeat split|]. intros s1 s2 s3 (?&?&?&?) (?&?&?&?). unfold same_tables.
  repeat split; congruence.
Qed.

Lemma insert_custody_tables r e s s' : insert_custody r e s = Ok s' -> same_tables s s'.
Proof.
  unfold insert_custody. intros H. inv_ok H.
  etrans; [eapply (fold_try_rel same_tables); [|exact Hok]|
           eapply (fold_try_rel same_tables); [|exact H]];
    intros row s1 s2 _; unfold insert_metadata, insert_anchor; intros H'; inv_ok H'; by subst s2.
Qed.

Lemma append_raw_tables e k raw s s' : append_internal_raw e k raw s = Ok s' -> same_tables s s'.
Proof. unfold append_internal_raw, insert_event. intros H. inv_ok H. by subst s'. Qed.

Lemma append_availability_tables e b s s' :
  append_execution_availability_bounded e b s = Ok s' -> same_tables s s'.
Proof.
  unfold append_execution_availability_bounded. intros H. inv_ok H.
  apply insert_custody_tables in H. etrans; [|exact H]. by eapply append_raw_tables.
Qed.

Lemma append_dispatch_tables r i a o b s s' :
  append_provider_dispatch r i a o b s = Ok s' -> same_tables s s'.
Proof.
  unfold append_provider_dispatch. intros H. inv_ok H. by eapply append_availability_tables.
Qed.

Lemma release_parked_claims c y r i a p s s' :
  release_parked c y r i a p s = Ok s' ->
  st_receipts s' = st_receipts s /\ st_finals s' = st_finals s /\
  forall r' k, st_resource_claims s' !! (r', k)
    = h ← st_resource_claims s !! (r', k);
      if decide (park_released p y = true /\ r' = r /\ h = (i, a)) then None else Some h.
Proof.
  unfold release_parked. destruct (park_released p y); intros H; inv_ok H; subst s'.
  - apply append_availability_tables in Hok0 as (_ & Hc & Hr & Hf). simpl. rewrite Hr, Hf.
    split; [done|]. split; [done|]. intros r' k.
    change (filter _ (st_resource_claims x0)) with (st_resource_claims (delete_claims r i a x0)).
    rewrite delete_claims_lookup, Hc. destruct (st_resource_claims s !! (r', k)) as [h|]; [|done].
    cbn [mbind option_bind].
    by rewrite (decide_ext (true = true /\ r' = r /\ h = (i, a)) (r' = r /\ h = (i, a))) by naive_solver.
  - split; [done|]. split; [done|]. intros r' k.
    destruct (st_resource_claims s !! (r', k)); [|done]. cbn [mbind option_bind].
    by rewrite decide_False by naive_solver.
Qed.

(** ** The theorems *)

Lemma accepted_disposition o b f e :
  validate_provider_disposition_evidence o b f = Ok e -> disposition_from_slice b = Ok (ve_disposition e).
Proof. unfold validate_provider_disposition_evidence. intros H. inv_ok H. by subst; res_simpl. Qed.

Lemma predecessor_matches lane predecessor p :
  check_predecessor_disposition lane predecessor p = Ok tt ->
  dp_disposition_digest <$> last lane = predecessor.
Proof.
  unfold check_predecessor_disposition. destruct (last lane), predecessor; try done. simpl.
  by destruct (String.eqb_spec (dp_disposition_digest p0) s) as [->|].
Qed.

(** The iterator's [position] tells membership. *)
Lemma position_wake w l :
  match position (String.eqb w) l with Some _ => w ∈ l | None => w ∉ l end.
Proof.
  induction l as [|x l IH]; simpl; [by apply not_elem_of_nil|].
  destruct (String.eqb_spec w x) as [->|Hne]; [by left|].
  destruct (position _ l); simpl; [by right|]. rewrite elem_of_cons. naive_solver.
Qed.

Lemma repeated_wake_spec h a wake o k opened :
  repeated_wake h a wake o k = Ok opened -> od_dispatch opened ∈ xh_dispatches h.
Proof.
  unfold repeated_wake. intros H. inv_ok H. subst opened. res_simpl. simpl.
  by eapply list_elem_of_lookup_2.
Qed.

(** Taking locks back touches no receipt or snapshot, and finds no other holder. *)
Lemma reacquire_claim_spec r i a k s s' :
  reacquire_claim r i a k s = Ok s' ->
  st_receipts s' = st_receipts s /\ st_finals s' = st_finals s /\
  forall owner, st_resource_claims s !! (r, k) = Some owner -> owner = (i, a).
Proof.
  unfold reacquire_claim, insert_claim. destruct (st_resource_claims s !! (r, k)) as [[w b]|];
    intros H; inv_ok H; subst s'; [|by repeat split]. res_simpl. rewrite negb_false_iff in *.
  apply andb_true_iff in Hok as [->%String.eqb_eq ->%String.eqb_eq].
  repeat split. by intros owner [= <-].
Qed.

Lemma reacquire_claims_spec r i a keys s s' :
  fold_try (reacquire_claim r i a) keys s = Ok s' ->
  st_receipts s' = st_receipts s /\ st_finals s' = st_finals s /\
  Forall (fun k => forall owner, st_resource_claims s !! (r, k) = Some owner -> owner = (i, a)) keys.
Proof.
  revert s. induction keys as [|key keys IH]; intros s H; simpl in H; [by inv_ok H; subst|].
  apply rbind_ok in H as (s1 & H1 & H2).
  assert (locks r i a [key] s s1) as (_ & _ & Hlocks).
  { apply (reacquire_claims_locks r i a [key]). simpl. by rewrite H1. }
  apply reacquire_claim_spec in H1 as (R1 & F1 & O1). apply IH in H2 as (R2 & F2 & O2).
  split; [congruence|]. split; [congruence|]. constructor; [done|].
  rewrite Forall_forall in *. intros k Hk owner Ho. destruct (decide (k = key)) as [->|Hne]; [by apply O1|].
  apply (O2 k Hk). rewrite Hlocks, bool_decide_eq_false_2; [done|].
  by rewrite list_elem_of_singleton.
Qed.

(** The locks a wake holds when it is done. *)
Lemma reacquire_for_wake_spec c h r i a wake f opened t s s' :
  reacquire_for_wake c h r i a wake f opened t s = Ok s' ->
  exists execution, ep_work_items (ct_profile c) !! i = Some execution /\
    st_receipts s' = st_receipts s /\ st_finals s' = st_finals s /\
    Forall (fun lock => forall owner, st_resource_claims s !! (r, lock) = Some owner ->
              owner = (i, a)) (wx_resource_lock_keys execution) /\
    forall k, st_resource_claims s' !! (r, k)
      = if bool_decide (k ∈ wx_resource_lock_keys execution) then Some (i, a)
        else st_resource_claims s !! (r, k).
Proof.
  unfold reacquire_for_wake, reacquire_attempt_resource_claims, require_attempt_resource_claims.
  destruct (yp_parked_resource_lock_policy _); intros H; inv_ok H.
  - inv_ok Hok. res_simpl. simplify_eq.
    apply append_availability_tables in H as (_ & Hc & Hr & Hf).
    pose proof (reacquire_claims_locks _ _ _ _ _ _ Hok) as (_ & _ & Hl).
    apply reacquire_claims_spec in Hok as (Hr' & Hf' & Ho).
    eexists. split; [eassumption|]. split; [congruence|]. split; [congruence|]. split; [done|].
    intros k. by rewrite Hc, Hl.
  - inv_ok Hok. res_simpl. subst s'. exists x. split; [done|]. split; [done|]. split; [done|].
    rewrite Forall_forall in Hok. split.
    + rewrite Forall_forall. intros k Hk owner Ho. specialize (Hok k Hk). res_simpl.
      apply negb_false_iff, bool_decide_eq_true in Hok. congruence.
    + intros k. case_bool_decide as Hk; [|done]. specialize (Hok k Hk). res_simpl.
      by apply negb_false_iff, bool_decide_eq_true in Hok.
Qed.

(** A recorded disposition answers a dispatch of the active attempt and is accepted with
  its graph; exactly a parked attempt under the releasing policy gives its locks back,
  all of them and no others, and no receipt or snapshot changes. *)
Theorem disposition_releases_parked r i a evidence predecessor s p s' :
  record_provider_disposition r i a evidence predecessor s = Ok (p, s') ->
  exists c h d o prior deferred,
    provider_run r i a s c h /\ d ∈ attempt_dispatches h a /\
    di_dispatch_digest d = dp_dispatch_digest p /\
    disposition_from_slice (pe_disposition_bytes evidence) = Ok p /\
    provider_deferral_history h a (di_dispatch_ordinal d) = Ok prior /\
    validate_execution_availability_graph (xh_requirement h) (xh_policy h) d o p prior deferred
      = Ok tt /\
    dp_disposition_digest <$> last (dispatch_dispositions h (di_dispatch_digest d)) = predecessor /\
    st_receipts s' = st_receipts s /\ st_finals s' = st_finals s /\
    forall r' k, st_resource_claims s' !! (r', k)
      = h' ← st_resource_claims s !! (r', k);
        if decide (park_released p (xh_policy h) = true /\ r' = r /\ h' = (i, a)) then None
        else Some h'.
Proof.
  unfold record_provider_disposition, append_provider_disposition. intros H. inv_ok H.
  injection H as <- <-.
  match goal with H : reload_history _ _ _ = Ok _ |- _ => apply reload_history_ok in H as -> end.
  match goal with H : release_parked _ _ _ _ _ _ _ = Ok _ |- _ =>
    apply release_parked_claims in H as (Hr & Hf & Hc) end.
  match goal with H : append_execution_availability_bounded _ _ _ = Ok _ |- _ =>
    apply append_availability_tables in H as (_ & Hc1 & Hr1 & Hf1) end.
  match goal with H : load_provider_run _ _ _ _ = Ok (?c, ?h) |- _ =>
    apply load_provider_run_spec in H; exists c, h end.
  res_simpl. match goal with H : find_first _ _ = Some ?d |- _ =>
    apply find_first_Some in H as [Hd Hp]; exists d end.
  apply andb_true_iff in Hp as [Ha%String.eqb_eq Hdigest%String.eqb_eq].
  eexists _, _, _. split; [done|]. split.
  { apply list_elem_of_In, filter_In. by rewrite <- list_elem_of_In, String.eqb_eq. }
  split; [done|]. split; [by eapply accepted_disposition|]. split; [eassumption|].
  split; [eassumption|]. split; [by eapply predecessor_matches|].
  split; [congruence|]. split; [congruence|]. intros r' k. by rewrite Hc, Hc1.
Qed.

(** What a wake that opens a dispatch found and leaves. *)
Record wakes (r i a : string) (o : DispatchOccurrence) (c : Contracts)
    (h : ReadOnlyExecutionAvailabilityHistoryV1) (d : ProviderDispatchOccurrenceV1)
    (locks : list string) (s s' : Store) : Prop := {
  wk_deferral : exists f, parked_under h a f /\ (df_wake_at f <= di_opened_at d)%Z;
  wk_valid : dispatch_validate d = Ok tt;
  wk_ordinal : di_dispatch_ordinal d = (N.of_nat (length (attempt_dispatches h a)) + 1)%N;
  wk_maximum : (di_dispatch_ordinal d
                <= yp_maximum_dispatch_occurrences_per_attempt (xh_policy h))%N;
  wk_process : Forall (fun e => di_adapter_process_occurrence_id e
                 <> pp_adapter_process_occurrence_id (oc_preparation o)) (xh_dispatches h);
  wk_slot : yp_parked_resource_lock_policy (xh_policy h) = ReleaseAndReacquire ->
    exists p released, load_projection r s = Ok p /\
      fold_try slot_released (xh_resource_transitions h) ∅ = Ok released /\
      (active_workers released p < lp_maximum_concurrent_workers p)%N;
  wk_owned : Forall (fun lock => forall owner, st_resource_claims s !! (r, lock) = Some owner ->
               owner = (i, a)) locks;
  wk_claims : forall k, st_resource_claims s' !! (r, k)
    = if bool_decide (k ∈ locks) then Some (i, a) else st_resource_claims s !! (r, k);
  wk_receipts : st_receipts s' = st_receipts s;
  wk_finals : st_finals s' = st_finals s
}.

(** Waking names a retained wake again, changing nothing, or opens the next dispatch of an
  attempt parked on its last disposition: no earlier than its deferral ends, within the
  policy's dispatches, by a fresh adapter process, with all the item's locks, none of
  which another attempt held, and under the releasing policy within the worker limit. *)
Theorem wake_opens_next r i a wake o s opened s' :
  wake_provider_dispatch r i a wake o s = Ok (opened, s') ->
  exists c h, provider_run r i a s c h /\
  ((wake ∈ xh_wake_occurrence_ids h /\ od_dispatch opened ∈ xh_dispatches h /\ s' = s) \/
   (wake ∉ xh_wake_occurrence_ids h /\
    exists execution, ep_work_items (ct_profile c) !! i = Some execution /\
      wakes r i a o c h (od_dispatch opened) (wx_resource_lock_keys execution) s s')).
Proof.
  unfold wake_provider_dispatch. intros H. inv_ok H.
  match goal with H : load_provider_run _ _ _ _ = Ok (?c, ?h) |- _ =>
    apply load_provider_run_spec in H; exists c, h; split; [done|];
    pose proof (position_wake wake (xh_wake_occurrence_ids h)) as Hpos end.
  destruct (position _ _) as [k|]; inv_ok H; injection H as <- <-;
    [left; repeat split; [done|by eapply repeated_wake_spec]|right; split; [done|]].
  res_simpl.
  match goal with H : reload_history _ _ _ = Ok _ |- _ => apply reload_history_ok in H as -> end.
  match goal with H : append_provider_dispatch _ _ _ _ _ _ = Ok _ |- _ =>
    apply append_dispatch_tables in H as (_ & Hc2 & Hr2 & Hf2) end.
  match goal with H : append_execution_availability_bounded _ _ _ = Ok _ |- _ =>
    apply append_availability_tables in H as (_ & Hc1 & Hr1 & Hf1) end.
  match goal with H : reacquire_for_wake _ _ _ _ _ _ _ _ _ _ = Ok _ |- _ =>
    apply reacquire_for_wake_spec in H as (execution & He & Hr & Hf & Ho & Hc) end.
  match goal with H : wake_basis _ _ _ = Ok _ |- _ =>
    apply wake_basis_spec in H as (Hp & Hw & Hn & Hmax & _ & Hfresh) end.
  match goal with H : build_provider_dispatch _ _ _ _ _ _ = Ok _ |- _ =>
    apply build_provider_dispatch_spec in H as (Hv & Hord & Hopen & _) end.
  exists execution. split; [done|]. split; try congruence; try done.
  - eexists. split; [exact Hp|]. by rewrite Hopen.
  - intros Hpolicy. unfold check_wake_slot in Hok1. rewrite bool_decide_eq_true_2 in Hok1 by done.
    inv_ok Hok1. res_simpl. apply N.leb_gt in Hok1. eauto.
  - intros k. by rewrite Hc2, Hc1, Hc.
Qed.
End provider_facts.
