(* ===== verification/Attempts.v ===== *)
(** * Attempts: one per work item, and no deadlock

    The journal of a reachable run creates at most one attempt for each work
    item: preparing refuses an item whose rows already hold one, and no other
    operation writes the event. *)
From S2P Require Import Prelude Text External Packet Capacity Contract Availability.
From S2P Require Import Scheduler SchedulerFacts Prelaunch Bootstrap Evidence Graph.
From S2P Require Import Journal Requirements History Store Provider StoreFacts.
From S2P Require Import Isolation Lifecycle Claims PacketFacts.
Local Open Scope string_scope.

(** ** Definitions *)

(** The items for which a journal creates attempts, in order. *)
Definition created_item (x : change) : option string :=
  match x with (w, _, ReplayAttemptCreated _) => w | _ => None end.
Definition created_items (es : list ReplayEvent) : list string :=
  omap created_item (change_of <$> es).

Section attempts.
Context {DOC : Documents} {PE : ProviderEvidence}.

(** The journal of a run, decoded. *)
Definition journal (r : string) (s : Store) : list ReplayEvent -> Prop :=
  Forall2 (fun row e => replay_event row = Ok e) (run_rows r s).

(** ** The check of the source finds every attempt *)

Lemma first_attempt_false rows :
  first_attempt rows = Ok false ->
  Forall (fun row => exists e, from_slice (ro_raw_bytes row) = Ok e /\
            match ie_payload e with AttemptCreated _ _ => False | _ => True end) rows.
Proof.
  induction rows as [|row rows IH]; [constructor|]. simpl. intros H.
  apply rbind_ok in H as (e & He & H). apply serialized_ok in He.
  constructor; [exists e; split; [done|]|apply IH]; by destruct (ie_payload e).
Qed.

(** A retained row whose payload creates an attempt is of kind [internal]. *)
Lemma validated_row_kind run packet profile row e :
  validate_read_only_event_row run packet profile row = Ok tt ->
  String.eqb (ro_kind row) "adapter_event" = false -> from_slice (ro_raw_bytes row) = Ok e ->
  ro_kind row = payload_kind (ie_payload e).
Proof.
  unfold validate_read_only_event_row. intros H Hk He. apply rseq_ok in H as [_ H].
  rewrite Hk, He in H. destruct (kind_in INTERNAL_KINDS row); [|done]. simpl in H.
  apply rseq_ok in H as [H _]. apply reject_ok in H. unfold internal_row_differs in H.
  rewrite !orb_false_iff in H. apply String.eqb_eq, negb_false_iff. tauto.
Qed.

Lemma projection_rows_valid r s p :
  load_projection r s = Ok p ->
  exists c, Forall (fun row => validate_read_only_event_row
    (fa_run_id (ct_admission c)) (pk_packet_digest (ct_packet c)) (ct_profile c) row = Ok tt)
    (run_rows r s).
Proof.
  unfold load_projection. intros H. inv_ok H. exists x. clear -Hok3.
  unfold validate_execution_availability_history_rows in Hok3. inv_ok Hok3. clear Hok3 Hok0.
  revert x0 Hok. generalize empty_history_state, (run_rows r s) at 1. intros h rows.
  revert h. induction (run_rows r s) as [|row l IH]; intros h h' H; [constructor|].
  simpl in H. apply rbind_ok in H as (h1 & H1 & H). constructor; [|by eapply IH].
  unfold on_history_row in H1. by apply rseq_ok in H1 as [H1 _].
Qed.

Lemma no_prior_attempt r s p w es :
  load_projection r s = Ok p -> prior_attempt_exists r w s = Ok false -> journal r s es ->
  w ∉ created_items es.
Proof.
  intros Hp Hno Hj Hw. apply projection_rows_valid in Hp as (c & Hvalid).
  apply first_attempt_false in Hno. rewrite Forall_forall in Hno, Hvalid.
  unfold created_items in Hw. rewrite list_elem_of_omap in Hw.
  destruct Hw as (x & Hx & Hxw). apply list_elem_of_fmap in Hx as (e & -> & He).
  apply list_elem_of_lookup in He as [k He].
  destruct (Forall2_lookup_r _ _ _ _ _ Hj He) as (row & Hrow & Hrep).
  pose proof (list_elem_of_lookup_2 _ _ _ Hrow) as Hin.
  unfold created_item, change_of in Hxw. destruct (re_kind e) eqn:Hk; try done.
  pose proof (replay_event_ids _ _ Hrep) as [Hid _]. unfold replay_event in Hrep.
  destruct (String.eqb (ro_kind row) "adapter_event") eqn:Hadapter.
  { inv_ok Hrep. inv_ok Hok. subst. discriminate Hk. }
  inv_ok Hrep. inv_ok Hok. res_simpl. subst. simpl in *.
  pose proof (validated_row_kind _ _ _ _ _ (Hvalid _ Hin) Hadapter Hok0) as Hkind.
  destruct (ie_payload x0) eqn:Hpay; try discriminate Hk.
  destruct (Hno row) as (e' & He' & Hne).
  - apply list_elem_of_In, List.filter_In. split; [by apply list_elem_of_In|].
    rewrite Hkind. simpl. rewrite andb_true_r. by apply bool_decide_eq_true.
  - rewrite Hok0 in He'. injection He' as <-. by rewrite Hpay in Hne.
Qed.

(** ** The invariant *)

Definition attempts_once (r : string) (s : Store) : Prop :=
  forall es, journal r s es -> NoDup (created_items es).

Context {SE : SerdeOk InternalEvent}.

Lemma created_items_app es1 es2 :
  created_items (es1 ++ es2) = (created_items es1 ++ created_items es2)%list.
Proof. unfold created_items. by rewrite fmap_app, omap_app. Qed.

(** What a tail adds to the created items. *)
Lemma tail_created r l s s' es' :
  tail r l s s' -> journal r s' es' ->
  exists es, journal r s es /\ created_items es' = (created_items es ++ omap created_item l)%list.
Proof.
  intros Hl Hj. destruct (tail_events _ _ _ _ _ Hl Hj) as (es1 & es2 & -> & <- & H1).
  exists es1. by rewrite created_items_app.
Qed.

Lemma quiet_created l :
  Forall (fun x : change => quiet_kind x.2 = true) l -> omap created_item l = [].
Proof.
  induction 1 as [|[[w a] k] l Hx _ IH]; [done|]. simpl. by destruct k.
Qed.

Lemma finishes_created w l : Forall (finishes w) l -> omap created_item l = [].
Proof.
  induction 1 as [|[[v a] k] l [_ Hx] _ IH]; [done|]. simpl in *. by destruct k.
Qed.

Lemma quiet_journal r w s s' es' :
  quiet r w s s' -> journal r s' es' ->
  exists es, journal r s es /\ created_items es' = created_items es.
Proof.
  intros [_ (l & Hl & Hq%moves_quiet)] Hj. destruct (tail_created _ _ _ _ _ Hl Hj) as (es & He & ->).
  exists es. by rewrite (quiet_created _ Hq), app_nil_r.
Qed.

Lemma quiet_attempts r w s s' : quiet r w s s' -> attempts_once r s -> attempts_once r s'.
Proof.
  intros Hq H es' Hj. destruct (quiet_journal _ _ _ _ _ Hq Hj) as (es & He & ->). by apply H.
Qed.

(** Locks move without touching the journal. *)
Lemma locks_journal r w a keys s s' es : locks r w a keys s s' -> journal r s' es -> journal r s es.
Proof. intros (_ & Hrows & _). unfold journal. by rewrite Hrows. Qed.

Lemma step_attempts r s s' :
  store_wf s -> attempts_once r s -> step r s s' -> attempts_once r s'.
Proof.
  intros W Hinv Hs. destruct (step_shape r s s' Hs) as [w row s1 H1 H2|H|w a _ H
    |w a k before keys s1 s2 s3 He _ Ht H1 H2 [_ H3] H4|w a k pre s1 Ha Hf Hpre H1 _ H3
    |w k s1 He Hf H1 [_ H3]].
  - apply (quiet_attempts _ _ _ _ H2). intros es Hj. unfold insert_run in H1. inv_ok H1. subst s1.
    unfold journal in Hj. change (run_rows r _) with (run_rows r s) in Hj. by apply Hinv.
  - by apply (quiet_attempts _ "" _ _ (H "")).
  - by apply (quiet_attempts _ _ _ _ H).
  - intros es' Hj. destruct (quiet_journal _ _ _ _ _ H4 Hj) as (es3 & Hj3 & ->).
    destruct (tail_created _ _ _ _ _ H3 Hj3) as (es2 & Hj2 & ->).
    apply (locks_journal _ _ _ _ _ _ _ H2) in Hj2.
    destruct (quiet_journal _ _ _ _ _ H1 Hj2) as (es & Hj0 & ->).
    destruct k; try done; simpl; [|rewrite app_nil_r; by apply Hinv].
    destruct Ht as [-> ->], He as [(p & i & Hp & _) Hno].
    apply NoDup_app. split; [by apply Hinv|]. split; [|apply NoDup_singleton].
    intros v Hv ->%list_elem_of_singleton. revert Hv. by eapply no_prior_attempt.
  - intros es' Hj. destruct (tail_created _ _ _ _ _ H3 Hj) as (es & Hj1 & ->).
    rewrite omap_app, (finishes_created _ _ Hpre).
    destruct Hf as [-> | ->]; simpl; rewrite app_nil_r; by apply (quiet_attempts _ _ _ _ H1 Hinv).
  - intros es' Hj. destruct (tail_created _ _ _ _ _ H3 Hj) as (es & Hj1 & ->).
    destruct k; try done; simpl; rewrite app_nil_r; by apply (quiet_attempts _ _ _ _ H1 Hinv).
Qed.

Lemma reachable_attempts s r : reachable s -> attempts_once r s.
Proof.
  intros H. revert r. induction H as [|r0 s s' Hr IH Hs]; intros r es Hj.
  - apply Forall2_nil_inv_l in Hj as ->. constructor.
  - destruct (decide (r = r0)) as [->|Hne].
    + revert es Hj. eapply step_attempts; [by apply reachable_wf|apply IH|exact Hs].
    + pose proof (frame_same _ _ _ (step_frame _ _ _ Hs) r Hne) as Hsame.
      unfold journal in Hj. rewrite (same_events _ _ _ Hsame) in Hj. by apply (IH r).
Qed.
End attempts.


(** ** No run deadlocks

    The dependencies of a stored packet end, and a lock is only ever held by the
    active attempt of an unfinished item; so a run that is not complete always has
    an item that can start, or one that has started. *)

(** An item that can be started, or that is unfinished and was started or judged. *)
Definition can_move (i : LiveWorkItemV1) : Prop :=
  li_scheduler_state i = ReadyEntryEvaluation \/
  (is_explicit_terminal (li_scheduler_state i) = false /\ ~ idle i).

#[local] Instance idle_dec i : Decision (idle i).
Proof. unfold idle. destruct (li_scheduler_state i); apply _. Defined.
#[local] Instance can_move_dec i : Decision (can_move i).
Proof.
  unfold can_move.
  assert (Decision (li_scheduler_state i = ReadyEntryEvaluation)) by
    (destruct (li_scheduler_state i); solve [by left|by right]).
  apply _.
Defined.

Section progress.
Context {DOC : Documents} {PE : ProviderEvidence} {SE : SerdeOk InternalEvent}.

(** The packet of a stored run. *)
Lemma loaded_integrity r s c :
  load_contracts r s = Ok c -> validate_integrity (ct_packet c) = Ok tt.
Proof. unfold load_contracts. intros H. inv_ok H. subst c. by res_simpl. Qed.

(** The holder of a projected lock is unfinished and has an attempt. *)
Lemma held_can_move r s p key :
  reachable s -> load_projection r s = Ok p -> lock_held (lp_resource_claims p) key ->
  Exists can_move (lp_work_items p).
Proof.
  intros Hs Hp (cl & Hcl & <-). apply load_projection_replay in Hp as (c & es & Hc & He & Hr).
  destruct (replay_inv Hr) as (m & Hm & _ & _ & _ & Hid & Hitems & Hclaims).
  rewrite Hclaims in Hcl. apply elem_of_btree_values in Hcl as [k Hk].
  destruct (reachable_claims_inv s r Hs (run_events m es)) as [_ Hactive]; [by exists c, es, m|].
  destruct (Hactive _ _ Hk) as (i & Hi & Ha & Hl). apply Exists_exists.
  eexists. split; [apply (elem_of_lp_work_items (p := p) (run_events m es) _ Hitems); eauto|].
  right. rewrite finish_item_terminal. split; [done|]. unfold idle. rewrite finish_item_attempt, Ha.
  by intros [].
Qed.

(** Without such an item every chain of dependencies is finished. *)
Lemma stuck_complete r s p :
  reachable s -> load_projection r s = Ok p -> ~ Exists can_move (lp_work_items p) -> complete p.
Proof.
  intros Hs Hp Hno. pose proof Hp as Hload.
  apply load_projection_replay in Hload as (c & es & Hc & _ & Hr).
  pose proof (loaded_integrity _ _ _ Hc) as Hint. unfold validate_integrity in Hint. inv_ok Hint.
  pose proof (structure_ids_distinct _ Hok) as Hnd.
  pose proof Hint as Hdag. unfold validate_dag in Hdag. apply rseq_ok in Hdag as [Hknown _].
  apply dependency_lists_ok in Hknown; [|done].
  pose proof (replay_item_source _ _ _ _ _ _ _ Hr) as Hsource.
  unfold complete. rewrite Forall_forall in Hsource |- *.
  assert (forall a i, i ∈ lp_work_items p -> li_work_item_id i = a ->
    is_explicit_terminal (li_scheduler_state i) = true) as H; [|intros i Hi; by eapply H].
  intros a. apply (validate_dag_grounded _ _ a Hint). clear a. intros a IH i Hi Ha.
  destruct (is_explicit_terminal (li_scheduler_state i)) eqn:Ht; [done|exfalso].
  apply Hno. destruct (decide (idle i)) as [Hidle|Hidle].
  - destruct (replay_idle _ _ _ _ _ _ _ i Hr Hi Hidle) as [Hready|(key & _ & Hkey)].
    + intros d Hd. destruct (Hsource i Hi) as (item & lane & Hitem & Hid & Hdeps & _).
      assert (depends_on (pk_work_items (ct_packet c)) a d) as Hdep.
      { exists item. by rewrite Hid, Hdeps. }
      assert (d ∈ li_work_item_id <$> lp_work_items p) as Hd'.
      { apply (replay_item_ids _ _ _ _ _ _ _ d Hr).
        apply (elem_of_list_to_set (C := gset string)), (Hknown item Hitem). by rewrite Hdeps. }
      apply list_elem_of_fmap in Hd' as (j & -> & Hj). exists j. split; [done|]. split; [done|].
      by eapply IH; [apply edge_depends_on|..].
    + apply Exists_exists. exists i. split; [done|by left].
    + by eapply held_can_move.
  - apply Exists_exists. exists i. split; [done|]. by right.
Qed.

(** C28: a run of a reachable store never deadlocks: unless all its items are explicitly
  terminal, some item is ready for entry evaluation, or unfinished with an attempt or a
  refused or indeterminate verdict. *)
Theorem run_progress r s p :
  reachable s -> load_projection r s = Ok p ->
  complete p \/ exists i, i ∈ lp_work_items p /\
    (li_scheduler_state i = ReadyEntryEvaluation \/
     (is_explicit_terminal (li_scheduler_state i) = false /\
      (is_Some (li_active_attempt_id i) \/ li_scheduler_state i = TerminalReceiptRefused \/
       li_scheduler_state i = IndeterminateMechanismState))).
Proof.
  intros Hs Hp. destruct (decide (Exists can_move (lp_work_items p))) as [H|H].
  - right. apply Exists_exists in H as (i & Hi & [Hr|[Ht Hidle]]); exists i; (split; [done|]);
      [by left|right]. split; [done|].
    destruct (li_active_attempt_id i) as [a|] eqn:Ha; [left; by eexists|right].
    unfold idle in Hidle. rewrite Ha in Hidle.
    destruct (li_scheduler_state i); naive_solver.
  - left. by eapply stuck_complete.
Qed.
End progress.
