(* ===== verification/Workers.v ===== *)
(** * Finished items and the worker limit

    An item of a run that is explicitly terminal never changes again, and the
    attempts at work never exceed the run's limit: the scheduler counts them as the
    journal of the run determines them. *)
From S2P Require Import Prelude Text External Packet Capacity Contract Availability Scheduler.
From S2P Require Import SchedulerFacts Prelaunch Bootstrap Evidence Graph Journal Requirements History.
From S2P Require Import Store Provider StoreFacts Isolation Lifecycle Claims Attempts.
Local Open Scope string_scope.

(** ** The attempts whose slot a parked release has given back *)

Definition release_change (x : change) (released : gset string) : gset string :=
  match x.2 with
  | ReplayProviderResourcesReleased =>
      match x.1.2 with Some a => {[a]} ∪ released | None => released end
  | ReplayProviderResourcesReacquired _ =>
      match x.1.2 with Some a => released ∖ {[a]} | None => released end
  | _ => released
  end.
Definition released_by (es : list ReplayEvent) : gset string :=
  foldl (fun released e => release_change (change_of e) released) ∅ es.

Section history.
Context {DOC : Documents} {PE : ProviderEvidence}.
Context {packet : NightshiftPacketV1} {admission : ForemanAdmissionV1}
  {profile : ExecutionProfileV2}.

(** A validated row names the item and attempt of its event. *)
Lemma validated_row_attempt run row e :
  validate_read_only_event_row run (pk_packet_digest packet) profile row = Ok tt ->
  String.eqb (ro_kind row) "adapter_event" = false -> from_slice (ro_raw_bytes row) = Ok e ->
  ro_attempt_id row = ie_attempt_id e.
Proof.
  unfold validate_read_only_event_row. intros H Hk He. apply rseq_ok in H as [_ H].
  rewrite Hk, He in H. destruct (kind_in INTERNAL_KINDS row); [|done]. simpl in H.
  apply rseq_ok in H as [H _]. apply reject_ok in H. unfold internal_row_differs in H.
  rewrite !orb_false_iff in H. destruct H as [[_ H] _]. by apply negb_false_iff, bool_decide_eq_true in H.
Qed.

(** The turns of the history that leave its transitions alone. *)
Ltac still H :=
  inv_ok H; subst; unfold released_of; simpl;
  repeat match goal with Ho : ok_or (hs_history _) _ = Ok _ |- _ => apply ok_or_ok in Ho end;
  repeat match goal with
    Ho : hs_history _ = Some _, Hr : released_of _ = _ |- _ => rewrite Ho in Hr end; try done.

Lemma event_lane_attempt what e i a :
  event_lane what e = Ok (i, a) -> ie_attempt_id e = Some a.
Proof. unfold event_lane. intros H. inv_ok H. injection H as <- <-. by res_simpl. Qed.

(** The two that add one. *)
Ltac moved H Hr :=
  inv_ok H; subst;
  repeat match goal with Ho : ok_or (hs_history _) _ = Ok _ |- _ =>
    apply ok_or_ok in Ho; rewrite Ho in Hr end;
  repeat match goal with Ho : event_lane _ _ = Ok _ |- _ => apply event_lane_attempt in Ho end;
  unfold released_of in *; simpl in *; rewrite fold_try_app, Hr; simpl;
  by repeat match goal with Ho : ie_attempt_id _ = Some _ |- _ => rewrite Ho; clear Ho end.

Lemma history_row_released s rows row h h' e released :
  on_history_row packet admission profile s rows row h = Ok h' ->
  replay_event row = Ok e -> released_of (hs_history h) = Ok released ->
  released_of (hs_history h') = Ok (release_change (change_of e) released).
Proof.
  unfold on_history_row. intros H He Hr. apply rseq_ok in H as [Hv H].
  unfold replay_event in He.
  destruct (String.eqb (ro_kind row) "adapter_event") eqn:Hk.
  { inv_ok He. inv_ok Hok. subst. by inv_ok H; subst. }
  apply rbind_ok in H as (event & Hevent & H). apply serialized_ok in Hevent.
  pose proof (validated_row_attempt _ _ _ Hv Hk Hevent) as Ha.
  inv_ok He. inv_ok Hok. subst. res_simpl. rewrite Hevent in Hok0. injection Hok0 as <-.
  unfold change_of, release_change. simpl. rewrite Ha.
  destruct (ie_payload event); simpl; try (by inv_ok H; subst).
  - unfold on_run_admitted in H. still H.
  - unfold on_attempt_created in H. still H.
  - unfold on_configured in H. inv_ok H. subst. res_simpl.
    match goal with X : bool_decide (is_Some (hs_history _)) || _ || _ = false |- _ =>
      apply orb_false_iff in X as [[X _]%orb_false_iff _];
      apply bool_decide_eq_false, eq_None_not_Some in X; by rewrite X in Hr end.
  - unfold on_dispatch_opened in H. still H.
  - unfold on_disposition in H. still H.
  - unfold on_wake in H. still H.
  - unfold on_resume in H. still H.
  - unfold on_parked_release in H. moved H Hr.
  - unfold on_parked_reacquire in H. moved H Hr.
  - unfold on_prelaunch_closure in H. inv_ok H. by subst.
  - inv_ok H. subst. unfold on_resources_released.
    by destruct (ie_work_item_id event), (ie_attempt_id event).
Qed.

(** The set the scheduler computes from a loaded history is the journal's. *)
Lemma loaded_released r s history es :
  load_execution_availability_history packet admission profile r s = Ok history ->
  journal r s es -> released_of history = Ok (released_by es).
Proof.
  unfold load_execution_availability_history, validate_execution_availability_history_rows, journal.
  intros H Hj. inv_ok H. rename Hok0 into Hfold.
  assert (forall rows h h' released es,
    fold_try (on_history_row packet admission profile s (run_rows r s)) rows h = Ok h' ->
    Forall2 (fun row e => replay_event row = Ok e) rows es ->
    released_of (hs_history h) = Ok released ->
    released_of (hs_history h')
      = Ok (foldl (fun released e => release_change (change_of e) released) released es)) as Hgen.
  { clear. induction rows as [|row rows IH]; intros h h' released es H Hj Hr; simpl in H.
    - apply Forall2_nil_inv_l in Hj as ->. by inv_ok H; subst.
    - apply Forall2_cons_inv_l in Hj as (e & es' & He & Hj & ->).
      apply rbind_ok in H as (h1 & H1 & H). simpl. eapply IH; [exact H|exact Hj|].
      by eapply history_row_released. }
  eapply Hgen in Hfold; [|exact Hj|reflexivity].
  destruct (hs_history x0) as [h|] eqn:Hh; inv_ok H; subst history; exact Hfold.
Qed.
End history.

(** ** Events leave other items alone *)

Lemma apply_event_other e st w :
  re_work_item_id e <> Some w -> rs_items (apply_event e st) !! w = rs_items st !! w.
Proof.
  intros Hw. unfold apply_event. destruct (re_work_item_id e) as [v|]; [|done].
  destruct (rs_items st !! v); [|done]. simpl. apply lookup_insert_ne. congruence.
Qed.

(** The changes of one item, or of none. *)
Definition in_lane (w : string) (x : change) : Prop := x.1.1 = None \/ x.1.1 = Some w.

Lemma in_lane_other v w es st :
  v <> w -> Forall (in_lane v) (change_of <$> es) ->
  rs_items (foldl (fun st e => apply_event e st) st es) !! w = rs_items st !! w.
Proof.
  intros Hne. rewrite Forall_fmap. intros H. revert st.
  induction H as [|e es [He|He] _ IH]; intros st; simpl; [done|rewrite IH; apply apply_event_other..];
    unfold change_of in He; simpl in He; congruence.
Qed.

Section lanes.
Context {DOC : Documents} {PE : ProviderEvidence} {SE : SerdeOk InternalEvent}.

(** The item is projected and not explicitly terminal. *)
Definition live_item (r w : string) (s : Store) : Prop :=
  exists p i, load_projection r s = Ok p /\ find_item w p = Ok i /\
    is_explicit_terminal (li_scheduler_state i) = false.

Lemma active_attempt_live r w a s : exact_active_attempt r w a s = Ok tt -> live_item r w s.
Proof. unfold exact_active_attempt. intros H. inv_ok H. res_simpl. by exists x, x0. Qed.

Lemma eligible_live r w s : eligible r w s -> live_item r w s.
Proof.
  intros (p & i & Hp & Hi & He). exists p, i. split; [done|]. split; [done|].
  by destruct (li_scheduler_state i).
Qed.

Lemma entitled_live r w a before s : entitled r w a before s -> live_item r w s.
Proof.
  destruct before; simpl; [intros [_ H]; by eapply active_attempt_live|].
  intros [H _]. by apply eligible_live.
Qed.

Lemma moves_lane w l : Forall (moves w) l -> Forall (in_lane w) l.
Proof. intros H. eapply Forall_impl; [exact H|]. by intros x []. Qed.

Definition lane_tail (r w : string) (s s' : Store) : Prop :=
  exists l, tail r l s s' /\ Forall (in_lane w) l.

Lemma quiet_lane r w s s' : quiet r w s s' -> lane_tail r w s s'.
Proof. intros [_ (l & Hl & Hq%moves_lane)]. by exists l. Qed.

Lemma lane_trans r w s1 s2 s3 : lane_tail r w s1 s2 -> lane_tail r w s2 s3 -> lane_tail r w s1 s3.
Proof.
  intros (l1 & T1 & L1) (l2 & T2 & L2). exists (l1 ++ l2)%list.
  split; [by eapply tail_app|by apply Forall_app].
Qed.

Lemma writes_lane r w a k s s' : writes r (Some w, a, k) s s' -> lane_tail r w s s'.
Proof. intros [_ Hl]. eexists. split; [exact Hl|]. apply Forall_singleton. by right. Qed.

Lemma locks_lane r w a keys s s' : locks r w a keys s s' -> lane_tail r w s s'.
Proof.
  intros (Hr & Hrows & _). exists []. split; [|constructor]. by apply tail_same; [rewrite Hr|].
Qed.

(** What an operation on a stored run writes belongs to one live item, or to none. *)
Lemma step_lane r s s' :
  step r s s' -> is_Some (st_runs s !! r) ->
  (forall w, lane_tail r w s s') \/ exists w, live_item r w s /\ lane_tail r w s s'.
Proof.
  intros Hs Hrun. destruct (step_shape r s s' Hs) as [w row s1 H1 H2|H|w a Ha H
    |w a k before keys s1 s2 s3 He _ Ht H1 H2 H3 H4|w a k pre s1 Ha Hf Hpre H1 H2 H3
    |w k s1 He Hf H1 H2].
  - unfold insert_run in H1. inv_ok H1. res_simpl. by apply bool_decide_eq_false in Hok.
  - left. intros w. by apply quiet_lane.
  - right. exists w. split; [by eapply active_attempt_live|by apply quiet_lane].
  - right. exists w. split; [by eapply entitled_live|].
    eapply lane_trans; [by apply quiet_lane|]. eapply lane_trans; [by eapply locks_lane|].
    eapply lane_trans; [by eapply writes_lane|by apply quiet_lane].
  - right. exists w. split; [by eapply active_attempt_live|].
    eapply lane_trans; [by apply quiet_lane|]. eexists. split; [exact H3|].
    apply Forall_app. split; [|apply Forall_singleton; by right].
    eapply Forall_impl; [exact Hpre|]. intros x [Hx _]. by right.
  - right. exists w. split; [by apply eligible_live|].
    eapply lane_trans; [by apply quiet_lane|by eapply writes_lane].
Qed.

(** ** Finished items are frozen *)

(** A live item is an unfinished item of the replay. *)
Lemma live_replayed r w s st :
  live_item r w s -> replayed r s st ->
  exists i, rs_items st !! w = Some i /\ is_explicit_terminal (li_scheduler_state i) = false.
Proof.
  intros (p & i & Hp & Hi & Hl) Hst.
  destruct (projection_item _ _ _ _ _ Hp Hi Hl) as (st' & Hst' & (j & Hj & _ & Ht) & _).
  rewrite (replayed_unique _ _ _ _ Hst Hst'). by exists j.
Qed.

Lemma step_frozen r s s' st' :
  step r s s' -> replayed r s' st' -> is_Some (st_runs s !! r) ->
  exists st, replayed r s st /\ forall w i, rs_items st !! w = Some i ->
    is_explicit_terminal (li_scheduler_state i) = true -> rs_items st' !! w = Some i.
Proof.
  intros Hs Hst' Hrun. destruct (step_lane r s s' Hs Hrun) as [H|(v & Hv & l & Hl & Hlane)].
  - destruct (H "") as (l & Hl & _).
    destruct (tail_replayed _ _ _ _ _ Hl Hst') as (st & es & Hst & _ & _).
    exists st. split; [done|]. intros w i Hi _.
    assert (exists v, v <> w) as [v Hne] by (destruct w; [by exists "x"|by exists ""]).
    destruct (H v) as (l' & Hl' & Hlane).
    destruct (tail_replayed _ _ _ _ _ Hl' Hst') as (st2 & es2 & Hst2 & <- & ->).
    rewrite (replayed_unique _ _ _ _ Hst Hst2) in Hi.
    by rewrite (in_lane_other v w).
  - destruct (tail_replayed _ _ _ _ _ Hl Hst') as (st & es & Hst & <- & ->).
    exists st. split; [done|]. intros w i Hi Ht.
    destruct (live_replayed _ _ _ _ Hv Hst) as (j & Hj & Hjt).
    rewrite (in_lane_other v w); [done| |done]. congruence.
Qed.

(** ** Over any operations *)

Lemma replayed_run r s st : replayed r s st -> is_Some (st_runs s !! r).
Proof.
  intros (c & _ & _ & Hc & _). unfold load_contracts in Hc. apply rbind_ok in Hc as (row & Hrow & _).
  apply ok_or_ok in Hrow. by exists row.
Qed.

Lemma same_replayed r s s' st : same_run r s s' -> replayed r s' st -> replayed r s st.
Proof.
  intros Hsame (c & es & m & Hc & He & Hm & ->).
  rewrite (load_contracts_local _ _ _ Hsame) in Hc. rewrite (same_events _ _ _ Hsame) in He.
  by exists c, es, m.
Qed.

(** The replay of a later store extends that of an earlier one, finished items kept. *)
Lemma evolves_frozen r s s' st' :
  rtc evolves s s' -> is_Some (st_runs s !! r) -> replayed r s' st' ->
  exists st, replayed r s st /\ forall w i, rs_items st !! w = Some i ->
    is_explicit_terminal (li_scheduler_state i) = true -> rs_items st' !! w = Some i.
Proof.
  intros H. revert st'. induction H as [|s s1 s' [r0 Hs] _ IH]; intros st' Hrun Hst'.
  { exists st'. by split. }
  pose proof (step_frame _ _ _ Hs) as Hframe.
  assert (is_Some (st_runs s1 !! r)) as Hrun1.
  { eapply wf_weaken; [apply (ext_runs _ _ (frame_extends _ _ _ Hframe))|done]. }
  destruct (IH st' Hrun1 Hst') as (st1 & Hst1 & Hfrozen).
  destruct (decide (r = r0)) as [->|Hne].
  - destruct (step_frozen _ _ _ _ Hs Hst1 Hrun) as (st & Hst & Hstep). exists st.
    split; [done|]. intros w i Hi Ht. apply Hfrozen; [by apply Hstep|done].
  - exists st1. split; [|exact Hfrozen].
    eapply same_replayed; [by apply (frame_same _ _ _ Hframe)|done].
Qed.

(** A projected item is an item of the replay under the final pass. *)
Lemma projection_replayed r s p :
  load_projection r s = Ok p ->
  exists st, replayed r s st /\ (forall k i, rs_items st !! k = Some i -> li_work_item_id i = k) /\
    lp_work_items p
      = finish_item (terminal_ids (rs_items st)) (rs_claims st) <$> btree_values (rs_items st).
Proof.
  intros Hp. apply load_projection_replay in Hp as (c & es & Hc & He & Hr).
  destruct (replay_inv Hr) as (m & Hm & _ & _ & _ & Hid & Hitems & _).
  exists (run_events m es). split; [by exists c, es, m|]. by split.
Qed.

Lemma finish_item_finished t c i :
  is_explicit_terminal (li_scheduler_state i) = true ->
  with_terminality ∅ (finish_item t c i) = with_terminality ∅ i.
Proof. intros Ht. unfold finish_item, awaits. simpl. rewrite Ht. by rewrite andb_false_r. Qed.

(** C29: an item that is explicitly terminal in the projection of a run stays as it is, its
  state, outcome, attempt, identities and questions included, after any operations; only
  the terminality of its dependencies is told anew. *)
Theorem finished_items_frozen s s' r p p' i :
  rtc evolves s s' -> load_projection r s = Ok p -> load_projection r s' = Ok p' ->
  i ∈ lp_work_items p -> is_explicit_terminal (li_scheduler_state i) = true ->
  exists i', i' ∈ lp_work_items p' /\ with_terminality ∅ i' = with_terminality ∅ i.
Proof.
  intros Hev Hp Hp' Hi Ht.
  apply projection_replayed in Hp as (st & Hst & Hid & Hitems).
  apply projection_replayed in Hp' as (st' & Hst' & _ & Hitems').
  destruct (evolves_frozen _ _ _ _ Hev (replayed_run _ _ _ Hst) Hst') as (st0 & Hst0 & Hfrozen).
  rewrite <- (replayed_unique _ _ _ _ Hst Hst0) in Hfrozen.
  rewrite Hitems in Hi. apply list_elem_of_fmap in Hi as (i0 & -> & Hi0).
  apply elem_of_btree_values in Hi0 as [k Hk]. rewrite finish_item_terminal in Ht.
  eexists. split.
  - rewrite Hitems'. apply list_elem_of_fmap. exists i0. split; [reflexivity|].
    apply elem_of_btree_values. exists k. by apply Hfrozen.
  - by rewrite !finish_item_finished.
Qed.
End lanes.

(** ** The attempts at work *)

Definition attempt_at (st : ReplayState) (w : string) : option string :=
  rs_items st !! w ≫= li_active_attempt_id.
Definition at_work (released : gset string) (st : ReplayState) : gset string :=
  dom (filter (fun kv => active_worker released kv.2 = true) (rs_items st)).

Lemma elem_of_at_work released st w :
  w ∈ at_work released st <->
  exists i, rs_items st !! w = Some i /\ active_worker released i = true.
Proof.
  unfold at_work. rewrite elem_of_dom. split.
  - intros [i [Hi Ha]%map_lookup_filter_Some]. by exists i.
  - intros (i & Hi & Ha). exists i. by apply map_lookup_filter_Some.
Qed.

Lemma active_worker_spec released i :
  active_worker released i = true <->
  exists a, li_active_attempt_id i = Some a /\
    is_explicit_terminal (li_scheduler_state i) = false /\ a ∉ released.
Proof.
  unfold active_worker. destruct (li_active_attempt_id i) as [a|]; [|naive_solver].
  rewrite andb_true_iff, !negb_true_iff, bool_decide_eq_false. naive_solver.
Qed.

Lemma filter_values_length {V} (f : V -> bool) (l : list (string * V)) :
  length (List.filter f l.*2) = length (List.filter (fun kv => f kv.2) l).*1.
Proof.
  induction l as [|[k v] l IH]; [done|]. rewrite !fmap_cons. simpl.
  destruct (f v); [rewrite fmap_cons; simpl; by f_equal|done].
Qed.

Lemma count_filter_map {V} (f : V -> bool) (m : gmap string V) :
  length (List.filter f (btree_values m)) = size (dom (filter (fun kv => f kv.2 = true) m)).
Proof.
  unfold btree_values. rewrite filter_values_length.
  set (l := List.filter (fun kv => f kv.2) (btree_iter m)).
  assert (NoDup l.*1) as Hnd.
  { unfold l. assert (NoDup (btree_iter m).*1) as H.
    { rewrite btree_iter_perm. apply NoDup_fst_map_to_list. }
    revert H. clear. induction (btree_iter m) as [|[k v] l IH]; simpl; [constructor|].
    rewrite NoDup_cons. intros [Hk Hl]. specialize (IH Hl). destruct (f v); [|done]. simpl.
    apply NoDup_cons. split; [|done]. intros Hin. apply Hk.
    apply list_elem_of_fmap in Hin as (x & -> & Hx). apply list_elem_of_fmap. exists x.
    split; [done|]. apply list_elem_of_In in Hx. apply filter_In in Hx as [Hx _].
    by apply list_elem_of_In. }
  rewrite <- (size_list_to_set (C := gset string) l.*1) by done. f_equal. apply set_eq. intros k.
  rewrite elem_of_list_to_set, list_elem_of_fmap, elem_of_dom. unfold l.
  setoid_rewrite list_elem_of_In. setoid_rewrite filter_In. setoid_rewrite <- list_elem_of_In.
  split.
  - intros ([k' v] & -> & Hin & Hf). exists v. apply map_lookup_filter_Some.
    by rewrite <- elem_of_btree_iter.
  - intros [v [Hv Hf]%map_lookup_filter_Some]. exists (k, v). by rewrite elem_of_btree_iter.
Qed.

Lemma active_workers_at_work released st p :
  lp_work_items p
    = finish_item (terminal_ids (rs_items st)) (rs_claims st) <$> btree_values (rs_items st) ->
  active_workers released p = N.of_nat (size (at_work released st)).
Proof.
  intros Hitems. unfold active_workers, count_where, at_work.
  rewrite Hitems, <- count_filter_map.
  f_equal. clear Hitems.
  induction (btree_values (rs_items st)) as [|i l IH]; [done|].
  rewrite fmap_cons. simpl. assert (active_worker released (finish_item (terminal_ids (rs_items st)) (rs_claims st) i)
          = active_worker released i) as ->.
  { unfold active_worker. by rewrite finish_item_attempt, finish_item_terminal. }
  destruct (active_worker released i); [exact (f_equal S IH)|exact IH].
Qed.

(** ** What an event adds to them *)

Definition takes_slot (k : ReplayKind) : bool :=
  match k with
  | ReplayAttemptCreated _ | ReplayProviderResourcesReacquired _ => true
  | _ => false
  end.
Definition unfinished (st : ReplayState) (w : string) : Prop :=
  forall i, rs_items st !! w = Some i -> is_explicit_terminal (li_scheduler_state i) = false.

(** The attempt whose slot an event takes is the item's own. *)
Definition own_attempt (st : ReplayState) (e : ReplayEvent) : Prop :=
  match re_kind e with
  | ReplayProviderResourcesReacquired _ =>
      forall w, attempt_at st w <> None -> attempt_at st w = re_attempt_id e ->
        re_work_item_id e = Some w
  | _ => True
  end.

Lemma released_grows e released a :
  a ∉ release_change (change_of e) released ->
  a ∉ released \/
  exists keys, re_kind e = ReplayProviderResourcesReacquired keys /\ re_attempt_id e = Some a.
Proof.
  unfold release_change, change_of. simpl.
  destruct (re_kind e) as [| | | | | | | | | | | | | | | |keys|]; simpl; try (by left);
    destruct (re_attempt_id e) as [b|]; try (by left); [set_solver|].
  intros Ha. destruct (decide (a = b)) as [->|Hne]; [right; by exists keys|left; set_solver].
Qed.

Lemma event_at_work e st released :
  own_attempt st e ->
  (quiet_kind (re_kind e) = true -> forall w, re_work_item_id e = Some w -> unfinished st w) ->
  at_work (release_change (change_of e) released) (apply_event e st)
  ⊆ at_work released st ∪
    match re_work_item_id e with
    | Some w => if takes_slot (re_kind e) then {[w]} else ∅
    | None => ∅
    end.
Proof.
  intros Hown Hquiet w Hw. apply elem_of_at_work in Hw as (i' & Hi' & Ha).
  apply active_worker_spec in Ha as (a & Hia & Hl & Hrel). apply elem_of_union.
  destruct (decide (re_work_item_id e = Some w)) as [Hv|Hne].
  - rewrite Hv. destruct (takes_slot (re_kind e)) eqn:Ht; [right; set_solver|left].
    unfold apply_event in Hi'. rewrite Hv in Hi'.
    destruct (rs_items st !! w) as [i|] eqn:Hi; [|congruence]. simpl in Hi'.
    rewrite lookup_insert_eq in Hi'. injection Hi' as <-.
    rewrite apply_item_attempt in Hia.
    apply elem_of_at_work. exists i. split; [done|]. apply active_worker_spec. exists a.
    split; [by destruct (re_kind e)|]. split.
    + destruct (quiet_kind (re_kind e)) eqn:Hq.
      { by apply (Hquiet eq_refl w Hv). }
      unfold apply_item in Hl. by destruct (re_kind e).
    + apply released_grows in Hrel as [?|(keys & Ht' & _)]; [done|by rewrite Ht' in Ht].
  - left. rewrite apply_event_other in Hi' by done. apply elem_of_at_work. exists i'.
    split; [done|]. apply active_worker_spec. exists a. split; [done|]. split; [done|].
    apply released_grows in Hrel as [?|(keys & Ht & Hea)]; [done|]. exfalso.
    unfold own_attempt, attempt_at in Hown. rewrite Ht in Hown.
    assert (rs_items st !! w ≫= li_active_attempt_id = Some a) as Hat by (by rewrite Hi').
    apply Hne, Hown; rewrite Hat; [done|by rewrite Hea].
Qed.

Lemma event_unfinished e st w :
  finishing (re_kind e) = false -> unfinished st w -> unfinished (apply_event e st) w.
Proof.
  intros Hf Hst i. destruct (decide (re_work_item_id e = Some w)) as [Hw|Hne];
    [|rewrite apply_event_other by done; apply Hst].
  unfold apply_event. rewrite Hw. destruct (rs_items st !! w) as [j|] eqn:Hj; [|by rewrite Hj].
  simpl. rewrite lookup_insert_eq. intros [= <-]. apply apply_item_live; [done|by apply Hst].
Qed.

(** Quiet events leave the set as it is. *)
Lemma quiet_at_work v es st released :
  Forall (moves v) (change_of <$> es) -> unfinished st v ->
  foldl (fun released e => release_change (change_of e) released) released es = released /\
  at_work released (foldl (fun st e => apply_event e st) st es) ⊆ at_work released st /\
  unfinished (foldl (fun st e => apply_event e st) st es) v.
Proof.
  rewrite Forall_fmap. intros H. revert st.
  induction H as [|e es [Hq Hl] _ IH]; intros st Hst; simpl; [done|].
  unfold change_of in Hq, Hl. simpl in Hq, Hl.
  assert (release_change (change_of e) released = released) as Hr.
  { unfold release_change, change_of. simpl. by destruct (re_kind e). }
  rewrite Hr. assert (unfinished (apply_event e st) v) as Hst'.
  { apply event_unfinished; [by destruct (re_kind e)|done]. }
  destruct (IH _ Hst') as (-> & Hsub & Hun). split; [done|]. split; [|done].
  etrans; [exact Hsub|]. pose proof (event_at_work e st released) as He. rewrite Hr in He.
  etrans; [apply He|].
  - unfold own_attempt. by destruct (re_kind e).
  - intros _ w Hw. destruct Hl as [Hl|Hl]; rewrite Hw in Hl; [done|by injection Hl as ->].
  - assert (takes_slot (re_kind e) = false) as -> by (by destruct (re_kind e)).
    destruct (re_work_item_id e); set_solver.
Qed.

(** ** Attempts have items of their own *)

Definition created_attempt (x : change) : option string :=
  match x.2 with ReplayAttemptCreated _ => x.1.2 | _ => None end.
Definition attempt_ids (es : list ReplayEvent) : list string :=
  omap created_attempt (change_of <$> es).

Lemma attempt_at_event e st w :
  attempt_at (apply_event e st) w = attempt_at st w \/
  (re_work_item_id e = Some w /\ attempt_at (apply_event e st) w = created_attempt (change_of e) /\
   exists keys, re_kind e = ReplayAttemptCreated keys).
Proof.
  unfold attempt_at. destruct (decide (re_work_item_id e = Some w)) as [Hw|Hne];
    [|left; by rewrite apply_event_other].
  unfold apply_event. rewrite Hw. destruct (rs_items st !! w) as [i|] eqn:Hi; [|by left; rewrite Hi].
  simpl. rewrite lookup_insert_eq. simpl. rewrite apply_item_attempt.
  unfold created_attempt, change_of. simpl. destruct (re_kind e); try (by left). right. eauto.
Qed.

Lemma attempts_own m es :
  (forall k i, m !! k = Some i -> li_active_attempt_id i = None) -> NoDup (attempt_ids es) ->
  forall w a, attempt_at (run_events m es) w = Some a ->
    a ∈ attempt_ids es /\ forall v, attempt_at (run_events m es) v = Some a -> v = w.
Proof.
  intros Hm. induction es as [|e es IH] using rev_ind; intros Hnd w a Hw.
  { unfold attempt_at in Hw. simpl in Hw. destruct (m !! w) as [i|] eqn:Hi; [|done].
    simpl in Hw. rewrite (Hm _ _ Hi) in Hw. done. }
  assert (attempt_ids (es ++ [e]) = (attempt_ids es ++ option_list (created_attempt (change_of e)))%list)
    as Hids.
  { unfold attempt_ids. rewrite fmap_app, omap_app. simpl.
    by destruct (created_attempt (change_of e)). }
  rewrite Hids in Hnd |- *. apply NoDup_app in Hnd as (Hnd & Hfresh & _). specialize (IH Hnd).
  rewrite run_events_snoc in Hw |- *.
  assert (forall v, attempt_at (apply_event e (run_events m es)) v = Some a ->
    (attempt_at (run_events m es) v = Some a /\ a ∈ attempt_ids es) \/
    (re_work_item_id e = Some v /\ created_attempt (change_of e) = Some a)) as Hcases.
  { intros v Hv. destruct (attempt_at_event e (run_events m es) v) as [Heq|(Hv' & Heq & _)].
    - left. rewrite Heq in Hv. split; [done|]. by apply (IH v a).
    - right. split; [done|]. congruence. }
  assert (created_attempt (change_of e) = Some a -> a ∉ attempt_ids es) as Hnew.
  { intros Hc Hin. apply (Hfresh a Hin). rewrite Hc. by left. }
  destruct (Hcases w Hw) as [[H1 Hin]|[H1 Hc]].
  - split; [apply elem_of_app; by left|]. intros v Hv.
    destruct (Hcases v Hv) as [[H2 _]|[_ Hc]]; [by apply (IH w a H1)|by apply Hnew in Hc].
  - split; [apply elem_of_app; right; rewrite Hc; by left|]. intros v Hv.
    destruct (Hcases v Hv) as [[_ Hin]|[H2 _]]; [by apply Hnew in Hc|congruence].
Qed.

(** ** The limit *)

(** The items at work after a journal. *)
Definition workers (m : gmap string LiveWorkItemV1) (es : list ReplayEvent) : gset string :=
  at_work (released_by es) (run_events m es).

Lemma workers_quiet m es es2 v :
  Forall (moves v) (change_of <$> es2) -> unfinished (run_events m es) v ->
  workers m (es ++ es2) ⊆ workers m es /\ unfinished (run_events m (es ++ es2)) v.
Proof.
  intros Hq Hun. destruct (quiet_at_work v es2 _ (released_by es) Hq Hun) as (Hr & Hsub & Hun').
  unfold workers, released_by, run_events in *. rewrite !foldl_app, Hr. by split.
Qed.

Lemma workers_event m es e v :
  re_work_item_id e = Some v -> quiet_kind (re_kind e) = false ->
  own_attempt (run_events m es) e ->
  workers m (es ++ [e]) ⊆ workers m es ∪ (if takes_slot (re_kind e) then {[v]} else ∅).
Proof.
  intros Hv Hq Hown. unfold workers, released_by. rewrite foldl_snoc, run_events_snoc.
  etrans; [apply event_at_work; [done|by rewrite Hq]|]. by rewrite Hv.
Qed.

(** Finishing and freeing leave no more at work. *)
Lemma workers_ending m es es2 v :
  Forall (fun x : change => x.1.1 = Some v /\ quiet_kind x.2 = false /\ takes_slot x.2 = false)
    (change_of <$> es2) ->
  workers m (es ++ es2) ⊆ workers m es.
Proof.
  rewrite Forall_fmap. intros H. induction es2 as [|e es2 IH] using rev_ind; [by rewrite app_nil_r|].
  apply Forall_app in H as [H He]. apply Forall_singleton in He as (Hv & Hq & Ht).
  rewrite app_assoc. etrans; [eapply (workers_event _ _ _ v)|]; [exact Hv|exact Hq| |].
  - unfold own_attempt. unfold change_of in Ht. simpl in Ht. by destruct (re_kind e).
  - simpl in Ht. rewrite Ht. specialize (IH H). set_solver.
Qed.

Lemma initial_attempts profile items m k i :
  initial_items profile items = Some m -> m !! k = Some i -> li_active_attempt_id i = None.
Proof.
  intros Hm Hi. apply (proj1 (initial_items_lookup _ _ _ _ Hm)) in Hi as (item & _ & _ & Hi).
  unfold initial_item in Hi. by simplify_option_eq.
Qed.

(** No attempt, nothing at work. *)
Lemma no_attempts_at_work profile items m es :
  initial_items profile items = Some m -> attempt_ids es = [] -> workers m es = ∅.
Proof.
  intros Hm Hids. apply set_eq. intros w. unfold workers. rewrite elem_of_at_work.
  split; [|set_solver]. intros (i & Hi & Ha). apply active_worker_spec in Ha as (a & Hia & _).
  assert (a ∈ attempt_ids es) as Hin; [|rewrite Hids in Hin; by apply elem_of_nil in Hin].
  eapply (attempts_own m es); [intros k j; by eapply initial_attempts| |].
  - rewrite Hids. constructor.
  - unfold attempt_at. by rewrite Hi.
Qed.

Section limit.
Context {DOC : Documents} {PE : ProviderEvidence} {SE : SerdeOk InternalEvent}.

(** A loaded journal of a run, its attempts distinct, with the initial items. *)
Definition history_of (r : string) (s : Store) (c : Contracts) (es : list ReplayEvent)
    (m : gmap string LiveWorkItemV1) : Prop :=
  load_contracts r s = Ok c /\ journal r s es /\
  initial_items (ct_profile c) (pk_work_items (ct_packet c)) = Some m /\ NoDup (attempt_ids es).

Definition within_limit (r : string) (s : Store) : Prop :=
  forall c es m, history_of r s c es m -> size (workers m es) <= N.to_nat (ct_maximum c).

Lemma attempt_ids_app es1 es2 : attempt_ids (es1 ++ es2) = (attempt_ids es1 ++ attempt_ids es2)%list.
Proof. unfold attempt_ids. by rewrite fmap_app, omap_app. Qed.

Lemma tail_history r l s s' c es' m :
  tail r l s s' -> history_of r s' c es' m ->
  exists es es2, es' = (es ++ es2)%list /\ change_of <$> es2 = l /\ history_of r s c es m.
Proof.
  intros Hl (Hc & Hj & Hm & Hnd). rewrite (load_contracts_row _ _ _ (proj1 Hl)) in Hc.
  destruct (tail_events _ _ _ _ _ Hl Hj) as (es & es2 & -> & <- & H). exists es, es2.
  rewrite attempt_ids_app in Hnd. apply NoDup_app in Hnd as [Hnd _]. by repeat split.
Qed.

Lemma history_replayed r s c es m : history_of r s c es m -> replayed r s (run_events m es).
Proof. intros (Hc & Hj & Hm & _). by exists c, es, m. Qed.

Lemma live_unfinished r s v c es m :
  live_item r v s -> history_of r s c es m -> unfinished (run_events m es) v.
Proof.
  intros Hl Hh. destruct (live_replayed _ _ _ _ Hl (history_replayed _ _ _ _ _ Hh)) as (i & Hi & Ht).
  intros j Hj. rewrite Hi in Hj. by injection Hj as <-.
Qed.

(** A slot left means fewer at work than the limit. *)
Lemma slot_left_workers r s c es m :
  slot_left r s -> history_of r s c es m -> size (workers m es) < N.to_nat (ct_maximum c).
Proof.
  intros (p & c' & history & released & Hp & Hc' & Hh & Hr & Hlt) (Hc & Hj & Hm & _).
  rewrite Hc in Hc'. injection Hc' as <-.
  pose proof (loaded_released _ _ _ _ Hh Hj) as Hr'. rewrite Hr in Hr'. injection Hr' as ->.
  apply load_projection_replay in Hp as (c' & es' & Hc' & Hj' & Hp).
  rewrite Hc in Hc'. injection Hc' as <-. rewrite <- (replay_events_unique _ _ _ Hj Hj') in Hp.
  assert (lp_maximum_concurrent_workers p = ct_maximum c) as Hmax.
  { unfold replay in Hp. rewrite Hm in Hp. by injection Hp as <-. }
  destruct (replay_inv Hp) as (m' & Hm' & _ & _ & _ & _ & Hitems & _).
  rewrite Hm in Hm'. injection Hm' as <-.
  rewrite (active_workers_at_work _ _ _ Hitems), Hmax in Hlt. unfold workers. lia.
Qed.

(** What is written about an unfinished item quietly. *)
Lemma quiet_workers r v s s' c es' m :
  quiet r v s s' -> history_of r s' c es' m ->
  (forall es, history_of r s c es m -> unfinished (run_events m es) v) ->
  exists es, history_of r s c es m /\ workers m es' ⊆ workers m es /\
    unfinished (run_events m es') v.
Proof.
  intros [_ (l & Hl & Hq)] Hh Hun. destruct (tail_history _ _ _ _ _ _ _ Hl Hh) as (es & es2 & -> & <- & H).
  exists es. split; [done|]. by apply workers_quiet; [|apply Hun].
Qed.

Lemma quiet_limit r v s s' :
  quiet r v s s' ->
  (forall c es m, history_of r s c es m -> unfinished (run_events m es) v) ->
  within_limit r s -> within_limit r s'.
Proof.
  intros Hq Hun Hlim c es m Hh.
  destruct (quiet_workers _ _ _ _ _ _ _ Hq Hh) as (es0 & H0 & Hsub & _); [intros ? ?; by eapply Hun|].
  etrans; [by apply subseteq_size|by eapply Hlim].
Qed.

(** Nothing about any item: some name is no item's. *)
Lemma calm_limit r s s' :
  (forall v, quiet r v s s') -> within_limit r s -> within_limit r s'.
Proof.
  intros Hq Hlim c es m Hh. destruct (Hq "") as [_ (l0 & Hl0 & _)].
  destruct (tail_history _ _ _ _ _ _ _ Hl0 Hh) as (es0 & _ & _ & _ & H0).
  destruct (Hq (fresh (dom (rs_items (run_events m es0))))) as [_ (l & Hl & Hm)].
  destruct (tail_history _ _ _ _ _ _ _ Hl Hh) as (es1 & es2 & -> & <- & H1).
  assert (es1 = es0) as -> by (eapply replay_events_unique; [apply H1|apply H0]).
  etrans; [|by eapply Hlim]. eapply subseteq_size, workers_quiet; [exact Hm|].
  intros i Hi. exfalso. apply (is_fresh (dom (rs_items (run_events m es0)))), elem_of_dom. by exists i.
Qed.

(** What takes a slot adds its item. *)
Lemma take_workers r w a k before keys s c es e m :
  takes k a before keys -> change_of e = (Some w, Some a, k) -> history_of r s c es m ->
  (before = Some a -> has_attempt (run_events m es) w (Some a)) ->
  workers m (es ++ [e]) ⊆ workers m es ∪ {[w]}.
Proof.
  intros Ht [= Hw Ha Hk] (_ & _ & Hm & Hnd) Hat. etrans; [apply (workers_event _ _ _ w); [done| |]|].
  - rewrite Hk. by destruct k.
  - unfold own_attempt. rewrite Hk, Hw, Ha. destruct k; try done. destruct Ht as [_ ->].
    intros v _ Hv. destruct (Hat eq_refl) as (i & Hi & Hia & _).
    destruct (attempts_own m es (fun _ _ => initial_attempts _ _ _ _ _ Hm) Hnd v a Hv) as [_ Hown].
    f_equal. apply Hown. unfold attempt_at. by rewrite Hi.
  - destruct (takes_slot (re_kind e)); set_solver.
Qed.

Lemma active_attempt_has r w a s c es m :
  exact_active_attempt r w a s = Ok tt -> history_of r s c es m ->
  has_attempt (run_events m es) w (Some a).
Proof.
  unfold exact_active_attempt. intros H Hh. inv_ok H. res_simpl. apply not_some_false in H.
  destruct (projection_item _ _ _ _ _ Hok Hok0 Hok1) as (st & Hst & Ha & _).
  by rewrite (replayed_unique _ _ _ _ (history_replayed _ _ _ _ _ Hh) Hst), <- H.
Qed.

Lemma take_limit r w a k before keys s s1 s2 s3 s' :
  entitled r w a before s -> slot_left r s -> takes k a before keys -> quiet r w s s1 ->
  locks r w a keys s1 s2 -> writes r (Some w, Some a, k) s2 s3 -> quiet r w s3 s' ->
  within_limit r s'.
Proof.
  intros He Hslot Ht [_ (l1 & Hl1 & Hm1)] (Hr & Hrows & _) [_ Hl] [_ (l2 & Hl2 & Hm2)] c es' m Hh.
  assert (tail r [(Some w, Some a, k)] s1 s3) as Hl'.
  { eapply (tail_app _ [] _); [by apply tail_same; [rewrite Hr|]|exact Hl]. }
  destruct (tail_history _ _ _ _ _ _ _ Hl2 Hh) as (es3 & f3 & -> & <- & H3).
  destruct (tail_history _ _ _ _ _ _ _ Hl' H3) as (es1 & f2 & -> & Hf2 & H1).
  destruct (tail_history _ _ _ _ _ _ _ Hl1 H1) as (es0 & f1 & -> & <- & H0).
  apply fmap_cons_inv in Hf2 as (e & nil & Hx & Hnil & ->). symmetry in Hnil, Hx.
  apply fmap_nil_inv in Hnil as ->.
  pose proof (live_unfinished _ _ _ _ _ _ (entitled_live _ _ _ _ _ He) H0) as Hun.
  destruct (workers_quiet _ _ _ _ Hm1 Hun) as [Hs1 Hun1].
  assert (before = Some a -> has_attempt (run_events m (es0 ++ f1)) w (Some a)) as Hat.
  { intros ->. destruct He as [_ Ha]. unfold run_events. rewrite foldl_app.
    apply quiet_fold; [intros; by apply quiet_attempt|by eapply moves_quiet|].
    by eapply active_attempt_has. }
  pose proof (take_workers _ _ _ _ _ _ _ _ _ _ _ Ht Hx H1 Hat) as Hs2.
  assert (unfinished (run_events m ((es0 ++ f1) ++ [e])) w) as Hun2.
  { rewrite run_events_snoc. apply event_unfinished; [|done]. injection Hx as _ _ ->.
    by destruct k. }
  destruct (workers_quiet _ _ _ _ Hm2 Hun2) as [Hs3 _].
  pose proof (slot_left_workers _ _ _ _ _ Hslot H0).
  assert (workers m (((es0 ++ f1) ++ [e]) ++ f3) ⊆ workers m es0 ∪ {[w]}) as Hsub by set_solver.
  apply subseteq_size in Hsub. rewrite size_union_alt in Hsub.
  pose proof (subseteq_size ({[w]} ∖ workers m es0) {[w]} ltac:(set_solver)) as Hw.
  rewrite size_singleton in Hw. lia.
Qed.

(** What follows quiet writing and only finishes or frees. *)
Lemma ending_limit r w l s s1 s' :
  live_item r w s -> quiet r w s s1 -> tail r l s1 s' ->
  Forall (fun x : change => x.1.1 = Some w /\ quiet_kind x.2 = false /\ takes_slot x.2 = false) l ->
  within_limit r s -> within_limit r s'.
Proof.
  intros Hlive Hq Hl Hend Hlim c es m Hh.
  destruct (tail_history _ _ _ _ _ _ _ Hl Hh) as (es1 & es2 & -> & <- & H1).
  destruct (quiet_workers _ _ _ _ _ _ _ Hq H1) as (es0 & H0 & Hsub & _);
    [intros es; by apply live_unfinished|].
  etrans; [|by eapply Hlim]. apply subseteq_size. etrans; [by eapply workers_ending|done].
Qed.

Lemma step_limit r s s' : store_wf s -> within_limit r s -> step r s s' -> within_limit r s'.
Proof.
  intros W Hlim Hs. destruct (step_shape r s s' Hs) as [w row s1 H1 [_ (l & Hl & Hq)]|H|w a Ha H
    |w a k before keys s1 s2 s3 He Hslot Ht H1 H2 H3 H4|w a k pre s1 Ha Hf Hpre H1 H2 H3
    |w k s1 He Hf H1 [_ H2]].
  - intros c es m Hh. destruct (tail_history _ _ _ _ _ _ _ Hl Hh) as (es1 & es2 & -> & <- & (_ & Hj & Hm & _)).
    unfold journal in Hj. rewrite (admitted_rows _ _ _ _ W H1) in Hj.
    apply Forall2_nil_inv_l in Hj as ->.
    rewrite (no_attempts_at_work _ _ _ _ Hm), size_empty; [lia|].
    unfold attempt_ids. simpl. clear -Hq. rewrite Forall_fmap in Hq.
    induction Hq as [|e es [Hk _] _ IH]; [done|]. rewrite fmap_cons. simpl.
    unfold created_attempt at 1. simpl in Hk |- *. by destruct (re_kind e).
  - by eapply calm_limit.
  - eapply quiet_limit; [exact H| |done]. intros c es m.
    by eapply live_unfinished, active_attempt_live.
  - by eapply take_limit.
  - eapply ending_limit; [by eapply active_attempt_live|exact H1|exact H3| |done].
    apply Forall_app. split.
    + eapply Forall_impl; [exact Hpre|]. intros [[v b] x] [Hv Hx]. simpl in *. by destruct x.
    + apply Forall_singleton. simpl. by destruct Hf as [-> | ->].
  - eapply ending_limit; [by eapply eligible_live|exact H1|exact H2| |done].
    apply Forall_singleton. simpl. by destruct k.
Qed.

Lemma reachable_limit s r : reachable s -> within_limit r s.
Proof.
  intros H. revert r. induction H as [|r0 s s' Hr IH Hs]; intros r.
  - intros c es m (Hc & _). discriminate Hc.
  - destruct (decide (r = r0)) as [->|Hne].
    { eapply step_limit; [by apply reachable_wf|apply IH|exact Hs]. }
    pose proof (frame_same _ _ _ (step_frame _ _ _ Hs) r Hne) as Hsame.
    intros c es m (Hc & Hj & Hm & Hnd). rewrite (load_contracts_local _ _ _ Hsame) in Hc.
    unfold journal in Hj. rewrite (same_events _ _ _ Hsame) in Hj. by apply (IH r).
Qed.

(** C30: in every reachable store the workers the scheduler counts for a run, active
  attempts of unfinished items whose slot no parked release has given back, never exceed
  the run's maximum, given that the attempts of its journal have distinct identities. *)
Theorem workers_within_limit s r p c history released es :
  reachable s -> load_projection r s = Ok p -> load_contracts r s = Ok c ->
  load_execution_availability_history (ct_packet c) (ct_admission c) (ct_profile c) r s
    = Ok history ->
  released_of history = Ok released -> journal r s es -> NoDup (attempt_ids es) ->
  (active_workers released p <= lp_maximum_concurrent_workers p)%N.
Proof.
  intros Hs Hp Hc Hh Hr Hj Hnd. pose proof (loaded_released _ _ _ _ Hh Hj) as Hr'.
  rewrite Hr in Hr'. injection Hr' as ->. apply load_projection_replay in Hp as (c' & es' & Hc' & Hj' & Hp).
  rewrite Hc in Hc'. injection Hc' as <-. rewrite <- (replay_events_unique _ _ _ Hj Hj') in Hp.
  destruct (replay_inv Hp) as (m & Hm & _ & _ & _ & _ & Hitems & _).
  assert (lp_maximum_concurrent_workers p = ct_maximum c) as ->.
  { unfold replay in Hp. rewrite Hm in Hp. by injection Hp as <-. }
  rewrite (active_workers_at_work _ _ _ Hitems).
  assert (history_of r s c es m) as H by done.
  pose proof (reachable_limit _ _ Hs _ _ _ H) as Hlim. unfold workers in Hlim. lia.
Qed.
End limit.
