(* ===== verification/RunProperties.v ===== *)
(** * Properties of the foreman store

    What the operations promise of a run: rows are only added, runs do not
    interfere, the claims table refines the journal, each item gets one attempt,
    and a closed run is frozen. *)
From S2P Require Import Prelude Text External Packet Capacity Contract Availability Scheduler.
From S2P Require Import SchedulerFacts Prelaunch Bootstrap Evidence Graph Journal Requirements History.
From S2P Require Import Store Provider StoreFacts Isolation Lifecycle Claims Attempts.
Local Open Scope string_scope.

Section properties.
Context {DOC : Documents} {PE : ProviderEvidence}.

(** ** Definitions *)

(** The identities of an item, by the name the source gives the field. *)
Definition identities (i : LiveWorkItemV1) : list (string * option string) :=
  [("provider_identity", li_provider_identity i); ("model_identity", li_model_identity i);
   ("session_identity", li_session_identity i); ("thread_identity", li_thread_identity i);
   ("turn_identity", li_turn_identity i); ("queue_identity", li_queue_identity i)].
Definition receipt_identities (e : TerminalReceiptV1) : list (option string) :=
  [Some (tr_provider_identity e); Some (tr_model_identity e); tr_session_identity e;
   tr_thread_identity e; tr_turn_identity e; tr_queue_identity e].
Definition event_identities (e : AdapterEventV1) : list (option string) :=
  [ae_provider_identity e; ae_model_identity e; ae_session_identity e; ae_thread_identity e;
   ae_turn_identity e; ae_queue_identity e].

(** A work item's accepted receipt: the [receipts] row of the item, parsed as its kind
    says. *)
Definition accepted_receipt (r : string) (s : Store) (i : string)
    : option (TerminalReceiptV1 + NotStartedReceiptV1) :=
  row ← st_receipts s !! (r, i);
  if String.eqb (rt_receipt_kind row) "terminal" then
    match terminal_from_slice (rt_raw_bytes row) with Ok t => Some (inl t) | Err _ => None end
  else
    match not_started_from_slice (rt_raw_bytes row) with
    | Ok n => Some (inr n) | Err _ => None end.

(** A snapshot's entry for item [i] says what the receipt says, field by field. *)
Definition shows_receipt (i : string) (receipt : TerminalReceiptV1 + NotStartedReceiptV1)
    (fw : FinalWorkItem) : Prop :=
  fw_id fw = i /\
  match receipt with
  | inl t =>
      fw_state fw = tr_state t /\ fw_result_classification fw = tr_result_classification t /\
      fw_repositories fw = tr_repositories t /\ fw_tests fw = tr_tests t /\
      fw_evidence fw = tr_evidence t /\
      fw_live_or_production_mutations fw = tr_live_or_production_mutations t /\
      fw_remaining_trigger fw = tr_remaining_trigger t /\
      fw_next_lawful_action fw = tr_next_lawful_action t
  | inr n =>
      fw_state fw = nr_state n /\ fw_result_classification fw = nr_result_classification n /\
      fw_repositories fw = [] /\ fw_tests fw = [] /\ fw_evidence fw = nr_evidence n /\
      fw_live_or_production_mutations fw = [] /\
      fw_remaining_trigger fw = nr_remaining_trigger n /\
      fw_next_lawful_action fw = nr_next_lawful_action n
  end.

(** The questions and the repositories the receipts of [items] report, in order. *)
Definition questions_of (receipt : TerminalReceiptV1 + NotStartedReceiptV1) :=
  match receipt with inl t => tr_human_questions t | inr n => nr_human_questions n end.
Definition reported_questions (r : string) (s : Store) (items : list WorkItemV1)
    : list (string * HumanQuestionV1) :=
  items ≫= fun item => from_option (fun receipt => (wi_id item,.) <$> questions_of receipt) []
                         (accepted_receipt r s (wi_id item)).
Definition reported_repositories (r : string) (s : Store) (items : list WorkItemV1)
    : list (TerminalReceiptV1 * ReceiptRepositoryV1) :=
  items ≫= fun item => match accepted_receipt r s (wi_id item) with
                       | Some (inl t) => (t,.) <$> tr_repositories t
                       | _ => []
                       end.
Definition shows_question (asked : string * HumanQuestionV1) (fq : FinalQuestion) : Prop :=
  fq_work_item fq = asked.1 /\ fq_exact_question fq = hq_question asked.2 /\
  fq_evidence_exhausted fq = hq_exhausted_evidence asked.2 /\
  fq_safe_default fq = hq_safe_default asked.2 /\
  fq_consequences fq = hq_consequences asked.2 /\ fq_resume_point fq = hq_resume_point asked.2.
Definition shows_custody (reported : TerminalReceiptV1 * ReceiptRepositoryV1)
    (fc : FinalCustody) : Prop :=
  fc_repository fc = rx_repository reported.2 /\
  fc_branch_head fc = rx_branch reported.2 +:+ "@" +:+ rx_head reported.2 /\
  fc_push_custody fc = rx_push_status reported.2 /\
  fc_dirty fc = "declared by exact worker receipt; no inference" /\
  fc_live_runtime fc = td_live_runtime (tr_teardown reported.1) /\
  fc_secrets fc = td_secrets (tr_teardown reported.1) /\
  fc_teardown fc = td_teardown (tr_teardown reported.1).

(** The row an accepted adapter event leaves in [events]. *)
Definition adapter_row (raw : string) (e : AdapterEventV1) (sequence : N) : ReadOnlyEventRowV1 :=
  {| ro_sequence := sequence; ro_event_id := ae_event_id e;
     ro_work_item_id := Some (ae_work_item_id e); ro_attempt_id := Some (ae_attempt_id e);
     ro_kind := "adapter_event"; ro_recorded_at := to_rfc3339 (ae_occurred_at e);
     ro_raw_bytes := raw; ro_raw_digest := raw_digest raw |}.

(** Two stores that differ at most in [events]. *)
Definition same_but_events (s s' : Store) : Prop :=
  st_runs s' = st_runs s /\ st_work_items s' = st_work_items s /\
  st_resource_claims s' = st_resource_claims s /\ st_metadata s' = st_metadata s /\
  st_anchors s' = st_anchors s /\ st_requirements s' = st_requirements s /\
  st_receipts s' = st_receipts s /\ st_finals s' = st_finals s /\
  st_bootstraps s' = st_bootstraps s.

(** ** Lemmas *)

Lemma Forall2_fmap_both {A B C} (P : B -> C -> Prop) (f : A -> B) (g : A -> C) l :
  (forall x, P (f x) (g x)) -> Forall2 P (f <$> l) (g <$> l).
Proof. intros H. induction l; csimpl; by constructor. Qed.

Lemma final_item_spec r s item x :
  final_item r s item = Ok x ->
  (exists receipt, accepted_receipt r s (wi_id item) = Some receipt /\
     shows_receipt (wi_id item) receipt x.1.1) /\
  Forall2 shows_question (reported_questions r s [item]) x.1.2 /\
  Forall2 shows_custody (reported_repositories r s [item]) x.2.
Proof.
  unfold final_item, reported_questions, reported_repositories, accepted_receipt.
  intros H. inv_ok H. res_simpl. simpl. rewrite Hok. cbn.
  destruct (String.eqb _ _); inv_ok H; subst x; res_simpl; rewrite Hok0; cbn;
    rewrite !app_nil_r.
  - split; [by eexists|]. split; by apply Forall2_fmap_both.
  - split; [by eexists|]. split; [by apply Forall2_fmap_both|constructor].
Qed.

Lemma build_final_document_spec packet r t s d :
  build_final_document packet r t s = Ok d ->
  fd_schema d = "nightshift.run-receipts/v1" /\
  fd_packet_digest d = pk_packet_digest packet /\ fd_updated_at d = to_rfc3339_secs t /\
  Forall2 (fun item fw => exists receipt, accepted_receipt r s (wi_id item) = Some receipt /\
             shows_receipt (wi_id item) receipt fw) (pk_work_items packet) (fd_work_items d) /\
  Forall2 shows_question (reported_questions r s (pk_work_items packet))
    (fd_human_questions d) /\
  Forall2 shows_custody (reported_repositories r s (pk_work_items packet))
    (fd_repository_custody d).
Proof.
  unfold build_final_document. intros H. inv_ok H. subst d. simpl. apply map_try_ok in Hok.
  repeat (split; [done|]).
  induction Hok as [|item x items xs Hi _ (IH1 & IH2 & IH3)]; [by repeat constructor|].
  apply final_item_spec in Hi as (H1 & H2 & H3).
  unfold reported_questions, reported_repositories in *. cbn in *.
  rewrite !app_nil_r in *. split; [by constructor|]. by split; apply Forall2_app.
Qed.

Lemma shown_ids (P : string -> TerminalReceiptV1 + NotStartedReceiptV1 -> Prop) items fws :
  Forall2 (fun item fw => exists receipt, P (wi_id item) receipt /\
             shows_receipt (wi_id item) receipt fw) items fws ->
  fw_id <$> fws = wi_id <$> items.
Proof.
  induction 1 as [|item fw items fws (receipt & _ & Hs & _) _ IH]; [done|].
  by rewrite !fmap_cons, IH, Hs.
Qed.

Lemma foldl_max_le l t0 x : x ∈ t0 :: l -> (x <= foldl Z.max t0 l)%Z.
Proof.
  revert t0 x. induction l as [|t l IH]; intros t0 x Hx; simpl.
  { by apply list_elem_of_singleton in Hx as ->. }
  apply elem_of_cons in Hx as [->|Hx]; [etrans; [apply (Z.le_max_l _ t)|apply IH; left]|].
  apply elem_of_cons in Hx as [->|Hx]; [etrans; [apply (Z.le_max_r t0)|apply IH; left]|].
  apply IH. by right.
Qed.

Lemma elem_of_run_receipts r s i row :
  (i, row) ∈ run_receipts r s <-> st_receipts s !! (r, i) = Some row.
Proof.
  unfold run_receipts. rewrite list_elem_of_fmap. split.
  - intros ([[r' i'] row'] & [= -> ->] & Hin). apply list_elem_of_In, List.filter_In in Hin as [Hin Hr].
    simpl in *. apply String.eqb_eq in Hr as ->. by apply elem_of_map_to_list, list_elem_of_In.
  - intros H. exists ((r, i), row). split; [done|]. apply list_elem_of_In, List.filter_In.
    split; [by apply list_elem_of_In, elem_of_map_to_list|apply String.eqb_refl].
Qed.

Lemma latest_evidence_bound r s latest i row t :
  latest_terminal_evidence_at r s = Ok latest -> st_receipts s !! (r, i) = Some row ->
  receipt_instant row = Ok t -> (t <= latest)%Z.
Proof.
  unfold latest_terminal_evidence_at. intros H Hrow Ht. inv_ok H.
  destruct x as [|t0 ts]; [done|]. injection H as <-. apply foldl_max_le.
  apply map_try_ok in Hok. apply elem_of_run_receipts, list_elem_of_lookup in Hrow as [k Hk].
  destruct (Forall2_lookup_l _ _ _ _ _ Hok Hk) as (y & Hy & Hyt). simpl in Hyt.
  rewrite Ht in Hyt. injection Hyt as <-. by eapply list_elem_of_lookup_2.
Qed.

Lemma attempt_capacity_claims c q v r i a u t s s' :
  admit_attempt_capacity c q v r i a u t s = Ok s' ->
  st_resource_claims s' = st_resource_claims s.
Proof.
  unfold admit_attempt_capacity. destruct v; [|by intros [= ->]]. intros H. inv_ok H.
  unfold append_internal_bounded, append_internal_raw, insert_event in H. inv_ok H. by subst s'.
Qed.

(** The guards of a legacy preparation. *)
Lemma check_eligible_spec {r i capacity s el} :
  check_eligible r i capacity None s = Ok el ->
  exists p item, load_projection r s = Ok p /\ find_item i p = Ok item /\
    load_contracts r s = Ok (el_contracts el) /\
    entry_eligible (li_scheduler_state item) = true /\
    prior_attempt_exists r i s = Ok false /\
    Forall (fun lock => st_resource_claims s !! (r, lock) = None) (li_resource_lock_keys item) /\
    (active_workers ∅ p < lp_maximum_concurrent_workers p)%N.
Proof.
  unfold check_eligible. intros H. inv_ok H. subst el. res_simpl. subst.
  apply negb_false_iff in Hok1. unfold check_dispatch_mode in *.
  match goal with H : match ?h with Some _ => Err _ | None => _ end = Ok _ |- _ =>
    destruct h; [discriminate H|] end.
  match goal with H : Ok ∅ = Ok ?x |- _ => injection H as <- end.
  match goal with H : (_ <=? _)%N = false |- _ => apply N.leb_gt in H end.
  exists x, x0. repeat (split; [done|]). split; [|done].
  eapply Forall_impl; [eassumption|]. intros lock Hl. unfold check_lock_free in Hl.
  by destruct (st_resource_claims s !! (r, lock)) as [[]|].
Qed.

Lemma start_seal_spec {q q'} :
  start_seal q = Ok q' ->
  start_validate q' = Ok tt /\ exists d, q' = set_request_digest d q.
Proof. unfold start_seal. intros H. inv_ok H. subst q'. eauto. Qed.

Lemma receipt_identity_ok field frozen receipt :
  validate_receipt_identity field frozen receipt = Ok tt <->
  forall v, frozen = Some v -> receipt = Some v.
Proof.
  unfold validate_receipt_identity. res_simpl. destruct frozen as [f|]; simpl.
  - rewrite negb_false_iff, bool_decide_eq_true. naive_solver.
  - naive_solver.
Qed.

Lemma incremental_identity_ok field frozen observed :
  validate_incremental_identity field frozen observed = Ok tt <->
  forall v w, frozen = Some v -> observed = Some w -> v = w.
Proof.
  unfold validate_incremental_identity. res_simpl.
  destruct frozen as [f|], observed as [g|]; simpl;
    rewrite ?negb_false_iff, ?bool_decide_eq_true; naive_solver.
Qed.

Lemma active_attempt_spec {r w a s} :
  exact_active_attempt r w a s = Ok tt ->
  exists p i, load_projection r s = Ok p /\ find_item w p = Ok i /\
    is_explicit_terminal (li_scheduler_state i) = false /\ li_active_attempt_id i = Some a.
Proof.
  unfold exact_active_attempt. intros H. inv_ok H. res_simpl. apply not_some_false in H. eauto 7.
Qed.

(** The adapter the profile gives an item. *)
Lemma check_adapter_identity_ok {profile w a v} :
  check_adapter_identity profile w a v = Ok tt ->
  exists execution adapter, ep_work_items profile !! w = Some execution /\
    a = wx_adapter_id execution /\ ep_adapters profile !! a = Some adapter /\
    v = ar_adapter_version adapter.
Proof.
  unfold check_adapter_identity, index. intros H. inv_ok H. res_simpl.
  repeat match goal with H : negb (String.eqb _ _) = false |- _ =>
    apply negb_false_iff, String.eqb_eq in H end. subst. eauto 7.
Qed.

Lemma refuse_holding_ok {message r w a s c} :
  load_contracts r s = Ok c -> refuse_holding message r w a s = Ok tt ->
  load_execution_availability_history (ct_packet c) (ct_admission c) (ct_profile c) r s
    = Ok None.
Proof.
  unfold refuse_holding, current_holding_attempt_state. intros Hc H. rewrite Hc in H.
  inv_ok H. cbn [rbind] in *. inv_ok Hok.
  match goal with H : match ?h with Some _ => _ | None => _ end = Ok _ |- _ =>
    destruct h as [h|]; [|done]; injection H as <- end.
  res_simpl. by rewrite bool_decide_eq_true_2 in * by by eexists.
Qed.

Lemma insert_receipt_tables r i row s s' :
  insert_receipt r i row s = Ok s' ->
  st_receipts s !! (r, i) = None /\ st_receipts s' = <[(r, i) := row]> (st_receipts s) /\
  st_resource_claims s' = st_resource_claims s.
Proof.
  unfold insert_receipt. intros H. inv_ok H. subst s'. res_simpl.
  apply bool_decide_eq_false, eq_None_not_Some in Hok. done.
Qed.

Lemma evolves_extends s s' : rtc evolves s s' -> extends s s'.
Proof.
  induction 1 as [|s1 s2 s3 [r H] _ IH]; [reflexivity|].
  etrans; [exact (frame_extends _ _ _ (step_frame _ _ _ H))|exact IH].
Qed.

(** ** Theorems *)

(** C13: in a reachable store the rows of [resource_claims] for a run are exactly the
  claims the replay of its journal projects, and each is held by the active attempt
  of a projected item that is not explicitly terminal. *)
Theorem claims_table_refines_journal `{!SerdeOk InternalEvent} s r p :
  reachable s -> projection r s = Ok p ->
  (forall k w a, st_resource_claims s !! (r, k) = Some (w, a) <->
     claim_of k w a ∈ lp_resource_claims p) /\
  (forall k w a, st_resource_claims s !! (r, k) = Some (w, a) ->
     exists i, i ∈ lp_work_items p /\ li_work_item_id i = w /\ li_active_attempt_id i = Some a /\
       is_explicit_terminal (li_scheduler_state i) = false).
Proof.
  intros Hs Hp. apply (load_projection_replay r s p) in Hp as (c & es & Hc & He & Hr).
  destruct (replay_inv Hr) as (m & Hm & Hinit & Hwait & Hwf & Hid & Hitems & Hclaims).
  destruct (reachable_claims_inv s r Hs (run_events m es)) as [Hrows Hact];
    [by exists c, es, m|].
  assert (forall k w a, st_resource_claims s !! (r, k) = Some (w, a) <->
            rs_claims (run_events m es) !! k = Some (claim_of k w a)) as Htable.
  { intros k w a. rewrite Hrows. split; [|by intros ->].
    destruct (rs_claims (run_events m es) !! k) as [cl|] eqn:Hk; [|done]. simpl. intros [= <- <-].
    rewrite <- (run_events_keyed m es k cl Hk). by destruct cl. }
  split; intros k w a.
  - rewrite Htable, Hclaims, elem_of_btree_values. split; [eauto|]. intros [k' Hk'].
    pose proof (run_events_keyed m es k' _ Hk') as Heq. simpl in Heq. by subst k'.
  - rewrite Htable. intros Hk. destruct (Hact _ _ Hk) as (i & Hi & Ha & Hl). simpl in *.
    exists (finish_item (terminal_ids (rs_items (run_events m es)))
              (rs_claims (run_events m es)) i).
    rewrite finish_item_id, finish_item_attempt, finish_item_terminal, (Hid _ _ Hi). split; [|done].
    apply (elem_of_lp_work_items (p := p) _ _ Hitems). eauto.
Qed.

(** C14: every operation on a run only adds rows (claims excepted) and leaves every
  other run's rows as they were, so each other run projects as before. *)
Theorem step_append_only r s s' :
  step r s s' ->
  extends s s' /\
  forall r', r' <> r -> same_run r' s s' /\
    forall p, projection r' s' = Ok p <-> projection r' s = Ok p.
Proof.
  intros H. destruct (step_frame r s s' H) as [He Hsame]. split; [done|]. intros r' Hne.
  specialize (Hsame r' Hne). split; [done|]. intros p.
  split; apply load_projection_local; [by symmetry|done].
Qed.

(** C15: once a run has a final snapshot, no sequence of operations, on it or on
  other runs, changes any of its rows, and the exported snapshot stays. *)
Theorem closed_run_frozen s s' r :
  reachable s -> is_Some (st_finals s !! r) -> rtc evolves s s' ->
  same_run r s s' /\ export_final r s' = export_final r s.
Proof.
  intros Hs Hf H. pose proof (closed_evolves r s s' Hs Hf H) as Hsame. split; [done|].
  unfold export_final. by rewrite (same_final _ _ _ Hsame).
Qed.

(** C16: the journal of a run in a reachable store creates at most one attempt for
  each work item. *)
Theorem one_attempt_per_item `{!SerdeOk InternalEvent} s r es :
  reachable s -> map_try replay_event (run_rows r s) = Ok es -> NoDup (created_items es).
Proof. intros Hs H. apply map_try_ok in H. by apply (reachable_attempts s r Hs). Qed.

(** C17: in a reachable store event sequences are positive, within [i64] and strictly
  increasing in journal order, event identifiers are unique in their run, and every
  row's run exists. *)
Theorem reachable_rows s : reachable s -> store_wf s.
Proof. apply reachable_wf. Qed.

(** C18: closing an unclosed run needs every projected item explicitly terminal.  The
  snapshot carries the packet's digest and the closing instant; entry by entry, in
  packet order, it says what the item's own accepted receipt says, and its
  questions and repository custody are those of the same receipts, item by item;
  it is no earlier than any receipt, and is what exporting and closing again
  return. *)
Theorem close_closes r t u s raw s' :
  st_finals s !! r = None -> close r t u s = Ok (raw, s') ->
  exists p c d, load_projection r s = Ok p /\ complete p /\ load_contracts r s = Ok c /\
    let items := pk_work_items (ct_packet c) in
    to_vec d = Ok raw /\ fd_schema d = "nightshift.run-receipts/v1" /\
    fd_packet_digest d = pk_packet_digest (ct_packet c) /\
    fd_updated_at d = to_rfc3339_secs t /\
    fw_id <$> fd_work_items d = wi_id <$> items /\
    Forall2 (fun item fw => exists receipt,
               accepted_receipt r s (wi_id item) = Some receipt /\
               shows_receipt (wi_id item) receipt fw) items (fd_work_items d) /\
    Forall2 shows_question (reported_questions r s items) (fd_human_questions d) /\
    Forall2 shows_custody (reported_repositories r s items) (fd_repository_custody d) /\
    (forall i row e, st_receipts s !! (r, i) = Some row -> receipt_instant row = Ok e ->
       (e <= t)%Z) /\
    export_final r s' = Ok raw /\ forall t' u', close r t' u' s' = Ok (raw, s').
Proof.
  unfold close at 1. intros -> H. inv_ok H. injection H as <- <-. res_simpl.
  apply negb_false_iff, bool_decide_eq_true, incomplete_items_nil in Hok0.
  apply Z.ltb_ge in Hok2.
  match goal with H : append_internal _ _ = Ok _ |- _ =>
    apply append_internal_tables in H as (_ & _ & _ & Hfin) end.
  match goal with H : insert_final _ _ _ = Ok _ |- _ =>
    unfold insert_final in H; inv_ok H; subst end. simpl in Hfin.
  apply build_final_document_spec in Hok4 as (Hsc & Hpd & Hu & Hitems & Hqs & Hcustody).
  exists x, x1, x2. cbn zeta. repeat (split; [done|]).
  split; [by eapply (shown_ids (fun i receipt => accepted_receipt r s i = Some receipt))|].
  repeat (split; [done|]). split.
  { intros i row e Hrow He. etrans; [by eapply latest_evidence_bound|done]. }
  unfold export_final, close. rewrite Hfin, lookup_insert_eq. by split.
Qed.

(** A prepared attempt was eligible, had no prior attempt, found its locks free
  and the worker limit unmet; its request is sealed, names the run, the item and the
  fresh attempt and carries the digest of the item's brief; and the claims of the
  run become those before with the item's locks added. *)
Theorem prepare_attempt_guarded r i t capacity uuids s q o s' :
  prepare_attempt_internal r i t capacity None uuids s = Ok (q, o, s') ->
  exists p item c execution,
    load_projection r s = Ok p /\ find_item i p = Ok item /\ load_contracts r s = Ok c /\
    ep_work_items (ct_profile c) !! i = Some execution /\
    entry_eligible (li_scheduler_state item) = true /\
    prior_attempt_exists r i s = Ok false /\
    Forall (fun lock => st_resource_claims s !! (r, lock) = None) (li_resource_lock_keys item) /\
    (active_workers ∅ p < lp_maximum_concurrent_workers p)%N /\
    start_validate q = Ok tt /\ (sr_run_id q, sr_work_item_id q, sr_attempt_id q)
      = (r, i, "attempt-" +:+ tu_attempt uuids) /\
    worker_brief_digest (ct_packet c) (ct_profile c) r i s = Ok (sr_worker_brief_digest q) /\
    forall k, st_resource_claims s' !! (r, k)
      = if bool_decide (k ∈ wx_resource_lock_keys execution)
        then Some (i, sr_attempt_id q) else st_resource_claims s !! (r, k).
Proof.
  unfold prepare_attempt_internal. intros H. inv_ok H.
  injection H as <- <- <-. destruct (check_eligible_spec Hok)
    as (p & item & Hp & Hi & Hc & He & Hno & Hlocks & Hmax).
  res_simpl. destruct (start_seal_spec Hok3) as (Hv & d & ->).
  exists p, item, (el_contracts x), x0. repeat (split; [done|]).
  intros k. injection Hok9 as _ <-.
  apply append_internal_tables in Hok8 as (_ & -> & _).
  apply insert_claims_locks in Hok7 as (_ & _ & ->).
  by rewrite (attempt_capacity_claims _ _ _ _ _ _ _ _ _ _ Hok6).
Qed.

(** An accepted terminal receipt is the first of its item, comes from the item's
  active attempt, repeats every identity the journal froze, is retained byte for
  byte, and frees the locks of that attempt and no others. *)
Theorem terminal_receipt_releases raw e uuids s s' :
  terminal_from_slice raw = Ok e -> accept_terminal_receipt raw uuids s = Ok s' ->
  let r := tr_run_id e in let w := tr_work_item_id e in
  terminal_validate e = Ok tt /\
  (exists p i, load_projection r s = Ok p /\ find_item w p = Ok i /\
     is_explicit_terminal (li_scheduler_state i) = false /\
     li_active_attempt_id i = Some (tr_attempt_id e) /\
     Forall2 (fun x y => forall v, x.2 = Some v -> y = Some v)
       (identities i) (receipt_identities e)) /\
  st_receipts s !! (r, w) = None /\ raw_terminal_receipt r w s' = Ok raw /\
  forall r' k, st_resource_claims s' !! (r', k)
    = h ← st_resource_claims s !! (r', k);
      if decide (r' = r /\ h = (w, tr_attempt_id e)) then None else Some h.
Proof.
  unfold accept_terminal_receipt. intros He H. rewrite He in H. cbn -[for_each] in H. cbn zeta.
  inv_ok H. res_simpl.
  match goal with H : exact_active_attempt _ _ _ _ = Ok tt |- _ =>
    destruct (active_attempt_spec H) as (p & i & Hp & Hi & Ht & Ha) end.
  split; [done|]. split.
  - exists p, i. repeat (split; [done|]).
    match goal with H : load_projection _ _ = Ok ?x, H2 : find_item _ ?x = Ok ?y |- _ =>
      rewrite Hp in H; injection H as <-; rewrite Hi in H2; injection H2 as <- end.
    match goal with H : Forall _ _ |- _ => revert H end.
    rewrite !Forall_cons, !receipt_identity_ok. unfold identities, receipt_identities.
    intros (? & ? & ? & ? & ? & ? & _). by repeat constructor.
  - unfold release_resources in H. apply append_internal_tables in H as (_ & Hc & Hr & _).
    match goal with H : append_internal _ _ = Ok _ |- _ =>
      apply append_internal_tables in H as (_ & Hc2 & Hr2 & _) end.
    match goal with H : insert_receipt _ _ _ _ = Ok _ |- _ =>
      apply insert_receipt_tables in H as (Hnone & Hr3 & Hc3) end.
    split; [done|]. split.
    + unfold raw_terminal_receipt. rewrite Hr. simpl. by rewrite Hr2, Hr3, lookup_insert_eq.
    + intros r' k. rewrite Hc, delete_claims_lookup, Hc2, Hc3. done.
Qed.

(** C21: an accepted adapter event is valid, within the profile's size bound, sealed
  for the admitted packet, from the adapter and the version the profile gives its
  item, and from the item's active attempt on a run without holding history; it
  contradicts no identity already frozen and is new to its run.  It is appended byte
  for byte as one row at the next sequence, with every other table untouched. *)
Theorem adapter_event_keeps_identities raw e s s' :
  event_from_slice raw = Ok e -> accept_adapter_event raw s = Ok s' ->
  let r := ae_run_id e in
  event_validate e = Ok tt /\
  (exists c execution adapter, load_contracts r s = Ok c /\
     (strlen raw <= ep_maximum_event_bytes (ct_profile c))%N /\
     ae_packet_digest e = fa_packet_digest (ct_admission c) /\
     ep_work_items (ct_profile c) !! ae_work_item_id e = Some execution /\
     ae_adapter_id e = wx_adapter_id execution /\
     ep_adapters (ct_profile c) !! ae_adapter_id e = Some adapter /\
     ae_adapter_version e = ar_adapter_version adapter /\
     load_execution_availability_history (ct_packet c) (ct_admission c) (ct_profile c) r s
       = Ok None) /\
  (exists p i, load_projection r s = Ok p /\ find_item (ae_work_item_id e) p = Ok i /\
     is_explicit_terminal (li_scheduler_state i) = false /\
     li_active_attempt_id i = Some (ae_attempt_id e) /\
     Forall2 (fun x y => forall v w, x.2 = Some v -> y = Some w -> v = w)
       (identities i) (event_identities e)) /\
  event_exists r (ae_event_id e) s = false /\ event_exists r (ae_event_id e) s' = true /\
  (let row := adapter_row raw e (st_last_sequence s + 1) in
   st_events s' = (st_events s ++ [{| ev_run_id := r; ev_row := row |}])%list /\
   st_last_sequence s' = (st_last_sequence s + 1)%N /\
   run_rows r s' = (run_rows r s ++ [row])%list /\
   replay_event row = Ok {| re_sequence := (st_last_sequence s + 1)%N;
     re_work_item_id := Some (ae_work_item_id e); re_attempt_id := Some (ae_attempt_id e);
     re_kind := ReplayAdapter e; re_raw_digest := raw_digest raw |}) /\
  same_but_events s s'.
Proof.
  unfold accept_adapter_event. intros He H. rewrite He in H. cbn -[for_each] in H. cbn zeta.
  inv_ok H. res_simpl.
  match goal with H : exact_active_attempt _ _ _ _ = Ok tt |- _ =>
    destruct (active_attempt_spec H) as (p & i & Hp & Hi & Ht & Ha) end.
  split; [done|]. split; [|split].
  - match goal with H : check_adapter_identity _ _ _ _ = Ok tt |- _ =>
      destruct (check_adapter_identity_ok H) as (execution & adapter & ? & ? & ? & ?) end.
    match goal with Hc : load_contracts _ _ = Ok ?c,
                    H : validate_holding_adapter_event_transition _ _ = Ok tt |- _ =>
      exists c, execution, adapter; pose proof (refuse_holding_ok Hc H) end.
    match goal with H : (_ <? _)%N = false |- _ => apply N.ltb_ge in H end.
    match goal with H : negb (String.eqb _ _) = false |- _ =>
      apply negb_false_iff, String.eqb_eq in H end.
    by split_and!.
  - exists p, i. repeat (split; [done|]).
    match goal with H : load_projection _ _ = Ok ?x, H2 : find_item _ ?x = Ok ?y |- _ =>
      rewrite Hp in H; injection H as <-; rewrite Hi in H2; injection H2 as <- end.
    match goal with H : Forall _ _ |- _ => revert H end.
    rewrite !Forall_cons, !incremental_identity_ok. unfold identities, event_identities.
    intros (? & ? & ? & ? & ? & ? & _). by repeat constructor.
  - split; [done|]. unfold insert_event in H. inv_ok H. subst s'. simpl. split.
    { unfold event_exists. simpl. rewrite existsb_app. simpl.
      by rewrite !String.eqb_refl, orb_true_r. }
    split; [|done]. split; [done|]. split; [done|]. split.
    { erewrite run_rows_app by done. simpl. by rewrite String.eqb_refl. }
    unfold replay_event. simpl. by rewrite He.
Qed.

(** C8: an accepted receipt stays: after any further operations the same row is
  there, and every later terminal or not-started receipt of the item is refused. *)
Theorem receipts_are_final s s' r w row :
  st_receipts s !! (r, w) = Some row -> rtc evolves s s' ->
  raw_terminal_receipt r w s' = Ok (rt_raw_bytes row) /\
  (forall raw e uuids s2, terminal_from_slice raw = Ok e ->
     (tr_run_id e, tr_work_item_id e) = (r, w) ->
     accept_terminal_receipt raw uuids s' <> Ok s2) /\
  (forall raw e uuid s2, not_started_from_slice raw = Ok e ->
     (nr_run_id e, nr_work_item_id e) = (r, w) -> accept_not_started raw uuid s' <> Ok s2).
Proof.
  intros Hrow H. apply evolves_extends in H.
  assert (st_receipts s' !! (r, w) = Some row) as Hrow'.
  { eapply lookup_weaken; [exact Hrow|apply (ext_receipts _ _ H)]. }
  split; [unfold raw_terminal_receipt; by rewrite Hrow'|]. split.
  - intros raw e uuids s2 He [= <- <-] Ha. unfold accept_terminal_receipt in Ha.
    rewrite He in Ha. cbn -[for_each] in Ha. inv_ok Ha.
    match goal with X : insert_receipt _ _ _ _ = Ok _ |- _ =>
      apply insert_receipt_tables in X as (Hn & _) end. congruence.
  - intros raw e uuid s2 He [= <- <-] Ha. unfold accept_not_started in Ha.
    rewrite He in Ha. simpl in Ha. inv_ok Ha.
    match goal with X : insert_receipt _ _ _ _ = Ok _ |- _ =>
      apply insert_receipt_tables in X as (Hn & _) end. congruence.
Qed.

(** Appending a capacity event leaves a history the readers' scan accepts, with at
  most the admitted rows and at most [MAXIMUM_CAPACITY_HISTORY_BYTES] bytes. *)
Theorem capacity_append_bounded e maximum rows s s' :
  (forall (x : InternalEvent) b, to_vec x = Ok b -> b <> "") ->
  append_internal_bounded e maximum rows s = Ok s' ->
  exists total count,
    validate_capacity_history_size (ie_run_id e) maximum rows s' = Ok (total, count) /\
    (total <= MAXIMUM_CAPACITY_HISTORY_BYTES)%N /\ (count <= rows)%N.
Proof.
  intros Hne H. unfold append_internal_bounded in H. inv_ok H. res_simpl.
  assert (kind_in CAPACITY_KINDS {| ro_sequence := 0; ro_event_id := ""; ro_work_item_id := None;
    ro_attempt_id := None; ro_kind := x0; ro_recorded_at := ""; ro_raw_bytes := "";
    ro_raw_digest := "" |} = true) as Hkind.
  { destruct (ie_payload e); try discriminate Hok1; by injection Hok1 as <-. }
  apply orb_false_iff in Hok3 as [Hc Ht].
  destruct (checked_add x3 1) as [count|] eqn:Hcount; [|done].
  destruct (checked_add x2 (strlen x)) as [total|] eqn:Htotal; [|done].
  exists total, count. apply N.ltb_ge in Hc as Hc', Ht as Ht'. split; [|done].
  unfold append_internal_raw, insert_event in H. inv_ok H. subst s'.
  unfold validate_capacity_history_size in *.
  erewrite run_rows_app by done. simpl. rewrite String.eqb_refl, List.filter_app.
  rewrite fmap_app, fold_try_app, Hok2. cbn [rbind ev_row fmap list_fmap].
  unfold kind_in in Hkind. cbn [ro_kind] in Hkind. unfold kind_in at 1. cbn [List.filter ro_kind].
  rewrite Hkind. cbn. rewrite Hcount. cbn. rewrite Hc, Hok0.
  assert ((strlen x =? 0)%N = false) as ->.
  { apply N.eqb_neq. apply Hne in Hok. by destruct x. }
  cbn. rewrite Htotal. cbn. by rewrite Ht.
Qed.
End properties.
