(* ===== verification/Diagnostic.v ===== *)
(** * Diagnostic executions (crates/nightshiftd/src/diagnostic_posture.rs)

    The immutable diagnostic artifact of the first contract version: what inputs were
    expected, received, admitted and selected, the claims they support and the outcome;
    and its closed structural validation.  [Result<_, String>] is [result string _]. *)
From S2P Require Import Prelude Text External.
Local Open Scope string_scope.

(** ** Data *)

Inductive DiagnosticExecutionSchema := DiagnosticExecutionSchema_V1.

Record SemanticIdentityV1 := {
  si_id : string;
  si_version : string;
  si_digest : string
}.

#[global] Instance SemanticIdentityV1_eq_dec : EqDecision SemanticIdentityV1.
Proof. solve_decision. Defined.

Record ProducerV1 := {
  pr_node_id : string;
  pr_build : SemanticIdentityV1;
  pr_cohort : SemanticIdentityV1
}.

#[global] Instance ProducerV1_eq_dec : EqDecision ProducerV1.
Proof. solve_decision. Defined.

Record SubjectV1 := {
  su_id : string;
  su_scope : SemanticIdentityV1
}.

#[global] Instance SubjectV1_eq_dec : EqDecision SubjectV1.
Proof. solve_decision. Defined.

Record ExpectedInputV1 := {
  xi_expectation_id : string;
  xi_role : string;
  xi_required : bool
}.

Inductive RawCaptureModeV1 := Capture_ExactSource | Capture_EarliestBoundaryRedacted.

Inductive EvidenceAvailabilityV1 :=
| Availability_Online
| Availability_ArchivedRetrievable
| Availability_CommittedUnavailable.

Record AcquisitionIntervalV1 := {
  ai_started_at : string;
  ai_ended_at : string;
  ai_clock : SemanticIdentityV1;
  ai_clock_uncertainty_ms : N
}.

#[global] Instance AcquisitionIntervalV1_eq_dec : EqDecision AcquisitionIntervalV1.
Proof. solve_decision. Defined.

Record ReceivedInputV1 := {
  ri_input_id : string;
  ri_expectation_id : string;
  ri_raw_artifact_id : string;
  ri_capture_mode : RawCaptureModeV1;
  ri_capture_policy : SemanticIdentityV1;
  ri_availability_at_derivation : EvidenceAvailabilityV1;
  ri_acquisition : AcquisitionIntervalV1;
  ri_received_at : string
}.

Record AdmittedInputV1 := {
  mi_input_id : string;
  mi_admission_rule : SemanticIdentityV1;
  mi_normalized_artifact_id : string;
  mi_normalization_rule : SemanticIdentityV1;
  mi_projected_artifact_id : string;
  mi_projection_rule : SemanticIdentityV1
}.

Record RefusedInputV1 := {
  fi_input_id : string;
  fi_refusal_id : string;
  fi_code : string;
  fi_reason : string
}.

Inductive FailedInputKindV1 :=
| FailedInput_Missing
| FailedInput_NoResponse
| FailedInput_AcquisitionFailed
| FailedInput_Unsupported.

#[global] Instance FailedInputKindV1_eq_dec : EqDecision FailedInputKindV1.
Proof. solve_decision. Defined.

Record FailedInputV1 := {
  li_expectation_id : string;
  li_failure_id : string;
  li_kind : FailedInputKindV1;
  li_reason : string
}.

Record ExcludedInputV1 := {
  ci_input_id : string;
  ci_projected_artifact_id : string;
  ci_code : string;
  ci_reason : string
}.

Record SelectedInputV1 := {
  ti_input_id : string;
  ti_projected_artifact_id : string;
  ti_role : string
}.

Record InputAccountingV1 := {
  ia_selection_rule : SemanticIdentityV1;
  ia_expected : list ExpectedInputV1;
  ia_received : list ReceivedInputV1;
  ia_admitted : list AdmittedInputV1;
  ia_refused : list RefusedInputV1;
  ia_failed : list FailedInputV1;
  ia_excluded : list ExcludedInputV1;
  ia_selected : list SelectedInputV1
}.

Record StateBindingV1 := {
  sb_binding_id : string;
  sb_kind : string;
  sb_value : string;
  sb_supporting_input_ids : list string
}.

#[global] Instance StateBindingV1_eq_dec : EqDecision StateBindingV1.
Proof. solve_decision. Defined.

Inductive ClaimStatusV1 := Claim_Established | Claim_Refuted | Claim_Unknown | Claim_Contradictory.

#[global] Instance ClaimStatusV1_eq_dec : EqDecision ClaimStatusV1.
Proof. solve_decision. Defined.

Inductive ConditionV1 :=
| Condition_Present
| Condition_Clean
| Condition_ExplicitlyAbsent
| Condition_Unresolved
| Condition_NotApplicable.

#[global] Instance ConditionV1_eq_dec : EqDecision ConditionV1.
Proof. solve_decision. Defined.

Record ClaimV1 := {
  cl_claim_id : string;
  cl_proposition : string;
  cl_status : ClaimStatusV1;
  cl_condition_effect : option ConditionV1;
  cl_dependency_input_ids : list string;
  cl_state_binding_ids : list string;
  cl_required_distinctions : list string;
  cl_limitations : list string;
  cl_nonclaims : list string
}.

#[global] Instance ClaimV1_eq_dec : EqDecision ClaimV1.
Proof. solve_decision. Defined.

Inductive DerivationV1 :=
| Derivation_Completed
| Derivation_Partial
| Derivation_Refused
| Derivation_Unsupported.

#[global] Instance DerivationV1_eq_dec : EqDecision DerivationV1.
Proof. solve_decision. Defined.

Inductive CoherenceV1 :=
| Coherence_JointlyEstablished
| Coherence_PairwiseOnly
| Coherence_Contradictory
| Coherence_StateIncompatible
| Coherence_Insufficient
| Coherence_NotEvaluated.

#[global] Instance CoherenceV1_eq_dec : EqDecision CoherenceV1.
Proof. solve_decision. Defined.

Inductive CoverageV1 := Coverage_Complete | Coverage_Partial | Coverage_Missing.

#[global] Instance CoverageV1_eq_dec : EqDecision CoverageV1.
Proof. solve_decision. Defined.

Record RefusalV1 := {
  rf_code : string;
  rf_reason : string
}.

#[global] Instance RefusalV1_eq_dec : EqDecision RefusalV1.
Proof. solve_decision. Defined.

Record OutcomeV1 := {
  oc_derivation : DerivationV1;
  oc_condition : ConditionV1;
  oc_coherence : CoherenceV1;
  oc_coverage : CoverageV1;
  oc_summary : string;
  oc_refusal : option RefusalV1
}.

#[global] Instance OutcomeV1_eq_dec : EqDecision OutcomeV1.
Proof. solve_decision. Defined.

Inductive LimitationKindV1 :=
| Limitation_ProjectionLoss
| Limitation_MissingEvidence
| Limitation_StaleEvidence
| Limitation_StateMismatch
| Limitation_Contradiction
| Limitation_CoverageGap
| Limitation_UnverifiedSeparation
| Limitation_UnavailableEvidence
| Limitation_Other.

#[global] Instance LimitationKindV1_eq_dec : EqDecision LimitationKindV1.
Proof. solve_decision. Defined.

Record LimitationV1 := {
  lm_kind : LimitationKindV1;
  lm_code : string;
  lm_detail : string
}.

#[global] Instance LimitationV1_eq_dec : EqDecision LimitationV1.
Proof. solve_decision. Defined.

Record OmittedDistinctionV1 := {
  od_code : string;
  od_detail : string
}.

#[global] Instance OmittedDistinctionV1_eq_dec : EqDecision OmittedDistinctionV1.
Proof. solve_decision. Defined.

Record ProjectionV1 := {
  pj_identity : SemanticIdentityV1;
  pj_omitted_distinctions : list OmittedDistinctionV1
}.

#[global] Instance ProjectionV1_eq_dec : EqDecision ProjectionV1.
Proof. solve_decision. Defined.

Record DiagnosticExecutionV1 := {
  dx_schema : DiagnosticExecutionSchema;
  dx_artifact_id : string;
  dx_canonicalization : SemanticIdentityV1;
  dx_producer : ProducerV1;
  dx_request_id : string;
  dx_run_id : string;
  dx_question : SemanticIdentityV1;
  dx_subject : SubjectV1;
  dx_profile : SemanticIdentityV1;
  dx_vantage : SemanticIdentityV1;
  dx_state_model : SemanticIdentityV1;
  dx_evaluator : SemanticIdentityV1;
  dx_threshold_policy : SemanticIdentityV1;
  dx_projection : ProjectionV1;
  dx_execution_clock : SemanticIdentityV1;
  dx_started_at : string;
  dx_completed_at : string;
  dx_attempt_interval : AcquisitionIntervalV1;
  dx_inputs : InputAccountingV1;
  dx_state_bindings : list StateBindingV1;
  dx_claims : list ClaimV1;
  dx_primary_claim_id : option string;
  dx_outcome : OutcomeV1;
  dx_limitations : list LimitationV1;
  dx_nonclaims : list string
}.

(** ** Shared checks *)

Section checks.
Context {HO : Host} {CH : Chrono}.

Definition require_token (field value : string) : result string unit :=
  if trim_is_empty value then Err (field +:+ " is empty") else Ok tt.

Definition insert_unique (values : gset string) (value field : string)
    : result string (gset string) :=
  if bool_decide (value ∈ values) then Err ("duplicate " +:+ field)
  else Ok ({[value]} ∪ values).

(** The loop shared by the two ordering checks: each value above the one before. *)
Fixpoint strictly_ordered (message : string) (previous : option string) (values : list string)
    : result string unit :=
  match values with
  | [] => Ok tt
  | value :: values =>
      reject (match previous with
              | Some prior => negb (String.ltb prior value)
              | None => false
              end) message ;?
      strictly_ordered message (Some value) values
  end.
Definition require_utf8_byte_sorted_unique (field : string) (values : list string)
    : result string unit :=
  strictly_ordered (field +:+ " must be strictly ordered by unsigned UTF-8 bytes and unique")
    None values.

Definition validate_digest (value name : string) : result string unit :=
  match strip_prefix value "sha256:" with
  | None => Err (name +:+ " must use sha256:<64 lowercase hex>")
  | Some hex =>
      reject (negb (strlen hex =? 64)%N || negb (bytes_all lower_hex hex))
        (name +:+ " must use sha256:<64 lowercase hex>")
  end.

Definition validate_semantic_identity (identity : SemanticIdentityV1) (name : string)
    : result string unit :=
  reject (trim_is_empty (si_id identity) || trim_is_empty (si_version identity))
    (name +:+ " id and version must be non-empty") ;?
  validate_digest (si_digest identity) (name +:+ ".digest").

Definition parse_time (value name : string) : result string instant :=
  match parse_from_rfc3339 value with
  | Some t => Ok t
  | None => Err (name +:+ " must be RFC3339: " +:+ parse_error value)
  end.

Definition parse_nq_time (value name : string) : result string instant :=
  let? parsed := parse_time value name in
  let canonical := to_rfc3339_autosi parsed in
  reject (negb (String.eqb value canonical))
    (name +:+ " is not the canonical UTC representation emitted by the NQ v1 DateTime contract") ;?
  Ok parsed.

Definition sha256_id (bytes : string) : string := "sha256:" +:+ sha256_hex bytes.

(** The document of a struct without one field; a derived serializer yields an object. *)
Definition object_without (field : string) (v : value) : value :=
  match v with Object kvs => Object (object_remove field kvs) | v => v end.

Definition computed_object_id {T} {ST : Serde T} (t : T) (identity_field : string)
    : result string string :=
  let? v := to_value t in
  match v with
  | Object kvs =>
      let? canonical := jcs_value (Object (object_remove identity_field kvs)) in
      Ok (sha256_id canonical)
  | _ => Err "self-identified contract must serialize as an object"
  end.

Definition checked_seconds (n : N) (field : string) : result string Z :=
  let? n := ok_or (i64_of n) (field +:+ " exceeds supported duration range") in
  ok_or (try_seconds n) (field +:+ " exceeds supported duration range").
Definition checked_milliseconds (n : N) (field : string) : result string Z :=
  let? n := ok_or (i64_of n) (field +:+ " exceeds supported duration range") in
  ok_or (try_milliseconds n) (field +:+ " exceeds supported duration range").

Definition validate_interval (interval : AcquisitionIntervalV1) (name : string)
    : result string unit :=
  validate_semantic_identity (ai_clock interval) (name +:+ ".clock") ;?
  let? _ := checked_milliseconds (ai_clock_uncertainty_ms interval)
              (name +:+ ".clock_uncertainty_ms") in
  let? start := parse_nq_time (ai_started_at interval) (name +:+ ".started_at") in
  let? end_ := parse_nq_time (ai_ended_at interval) (name +:+ ".ended_at") in
  reject (end_ <? start)%Z (name +:+ " ends before it starts").

Definition validate_projection (projection : ProjectionV1) : result string unit :=
  validate_semantic_identity (pj_identity projection) "projection.identity" ;?
  require_utf8_byte_sorted_unique "projection.omitted_distinctions"
    (od_code <$> pj_omitted_distinctions projection) ;?
  for_each (fun distinction =>
    require_token "projection.omitted_distinction.code" (od_code distinction) ;?
    require_token "projection.omitted_distinction.detail" (od_detail distinction))
    (pj_omitted_distinctions projection).

(** ** Input accounting *)

Definition expect_input (item : ExpectedInputV1) (expected : gset string)
    : result string (gset string) :=
  require_token "expectation_id" (xi_expectation_id item) ;?
  require_token "expected.role" (xi_role item) ;?
  insert_unique expected (xi_expectation_id item) "expectation_id".

(** [*response_count.entry(id).or_default() += 1]. *)
Definition count_response (id : string) (counts : gmap string nat) : gmap string nat :=
  <[id := S (default 0 (counts !! id))]> counts.

Definition receive_input (expected : gset string) (completed_at : instant)
    (item : ReceivedInputV1) (state : gmap string ReceivedInputV1 * gmap string nat)
    : result string (gmap string ReceivedInputV1 * gmap string nat) :=
  let '(received, response_count) := state in
  require_token "input_id" (ri_input_id item) ;?
  require_token "received.expectation_id" (ri_expectation_id item) ;?
  validate_digest (ri_raw_artifact_id item) "received.raw_artifact_id" ;?
  reject (negb (bool_decide (ri_expectation_id item ∈ expected)))
    "received input references an unknown expectation" ;?
  validate_semantic_identity (ri_capture_policy item) "received.capture_policy" ;?
  validate_interval (ri_acquisition item) "received.acquisition" ;?
  let? received_at := parse_nq_time (ri_received_at item) "received.received_at" in
  reject (completed_at <? received_at)%Z "received_at is later than diagnostic completion" ;?
  reject (bool_decide (is_Some (received !! ri_input_id item))) "duplicate input_id" ;?
  Ok (<[ri_input_id item := item]> received,
      count_response (ri_expectation_id item) response_count).

Definition fail_input (expected : gset string) (item : FailedInputV1)
    (state : gset string * gset string * gmap string nat)
    : result string (gset string * gset string * gmap string nat) :=
  let '(failed_expectations, failure_ids, response_count) := state in
  require_token "failed.expectation_id" (li_expectation_id item) ;?
  require_token "failure_id" (li_failure_id item) ;?
  require_token "failed.reason" (li_reason item) ;?
  reject (negb (bool_decide (li_expectation_id item ∈ expected)))
    "failed input references an unknown expectation" ;?
  let? failed_expectations :=
    insert_unique failed_expectations (li_expectation_id item) "failed expectation" in
  let? failure_ids := insert_unique failure_ids (li_failure_id item) "failure_id" in
  Ok (failed_expectations, failure_ids, count_response (li_expectation_id item) response_count).

Definition admit_input (received : gmap string ReceivedInputV1) (item : AdmittedInputV1)
    (admitted : gmap string AdmittedInputV1) : result string (gmap string AdmittedInputV1) :=
  validate_semantic_identity (mi_admission_rule item) "admitted.admission_rule" ;?
  validate_digest (mi_normalized_artifact_id item) "admitted.normalized_artifact_id" ;?
  validate_semantic_identity (mi_normalization_rule item) "admitted.normalization_rule" ;?
  validate_digest (mi_projected_artifact_id item) "admitted.projected_artifact_id" ;?
  validate_semantic_identity (mi_projection_rule item) "admitted.projection_rule" ;?
  reject (negb (bool_decide (is_Some (received !! mi_input_id item))))
    "admitted input references an unknown received input" ;?
  reject (bool_decide (is_Some (admitted !! mi_input_id item))) "duplicate admitted input" ;?
  Ok (<[mi_input_id item := item]> admitted).

Definition refuse_input (received : gmap string ReceivedInputV1) (item : RefusedInputV1)
    (state : gset string * gset string) : result string (gset string * gset string) :=
  let '(refused, refusal_ids) := state in
  require_token "refused.input_id" (fi_input_id item) ;?
  require_token "refused.refusal_id" (fi_refusal_id item) ;?
  require_token "refused.code" (fi_code item) ;?
  require_token "refused.reason" (fi_reason item) ;?
  reject (negb (bool_decide (is_Some (received !! fi_input_id item))))
    "refused input references an unknown received input" ;?
  let? refused := insert_unique refused (fi_input_id item) "refused input" in
  let? refusal_ids := insert_unique refusal_ids (fi_refusal_id item) "refusal_id" in
  Ok (refused, refusal_ids).

(** [inputs.expected.iter().map(..).collect::<BTreeMap<_, _>>()]: later entries win. *)
Definition index_by {A} (key : A -> string) (l : list A) : gmap string A :=
  foldl (fun m x => <[key x := x]> m) ∅ l.

(** The two [expect]s hold by the checks before them. *)
Definition expected_role (expected : gmap string ExpectedInputV1)
    (received : gmap string ReceivedInputV1) (input_id : string) : option string :=
  occurrence ← received !! input_id;
  expectation ← expected !! ri_expectation_id occurrence;
  Some (xi_role expectation).

Definition select_input (expected : gmap string ExpectedInputV1)
    (admitted : gmap string AdmittedInputV1) (received : gmap string ReceivedInputV1)
    (item : SelectedInputV1) (selected : gmap string SelectedInputV1)
    : result string (gmap string SelectedInputV1) :=
  require_token "selected.role" (ti_role item) ;?
  validate_digest (ti_projected_artifact_id item) "selected.projected_artifact_id" ;?
  let? admission := ok_or (admitted !! ti_input_id item) "selected input is not admitted" in
  reject (negb (String.eqb (ti_projected_artifact_id item) (mi_projected_artifact_id admission)))
    "selected input substitutes projected identity" ;?
  let? role := ok_or (expected_role expected received (ti_input_id item))
    "admitted inputs were checked against received" in
  reject (negb (String.eqb (ti_role item) role))
    "selected input role differs from its expected role" ;?
  reject (bool_decide (is_Some (selected !! ti_input_id item))) "duplicate selected input" ;?
  Ok (<[ti_input_id item := item]> selected).

Definition exclude_input (admitted : gmap string AdmittedInputV1) (item : ExcludedInputV1)
    (excluded : gmap string ExcludedInputV1) : result string (gmap string ExcludedInputV1) :=
  require_token "excluded.code" (ci_code item) ;?
  require_token "excluded.reason" (ci_reason item) ;?
  validate_digest (ci_projected_artifact_id item) "excluded.projected_artifact_id" ;?
  let? admission := ok_or (admitted !! ci_input_id item) "excluded input is not admitted" in
  reject (negb (String.eqb (ci_projected_artifact_id item) (mi_projected_artifact_id admission)))
    "excluded input substitutes projected identity" ;?
  reject (bool_decide (is_Some (excluded !! ci_input_id item))) "duplicate excluded input" ;?
  Ok (<[ci_input_id item := item]> excluded).

(** [usize::from(a) + usize::from(b) != 1]. *)
Definition not_exactly_one (a b : bool) : bool := negb (xorb a b).

Definition validate_selection_partition (inputs : InputAccountingV1)
    (admitted : gmap string AdmittedInputV1) (received : gmap string ReceivedInputV1)
    : result string unit :=
  let expected := index_by xi_expectation_id (ia_expected inputs) in
  require_utf8_byte_sorted_unique "inputs.selected" (ti_input_id <$> ia_selected inputs) ;?
  let? selected := fold_try (select_input expected admitted received) (ia_selected inputs) ∅ in
  require_utf8_byte_sorted_unique "inputs.excluded" (ci_input_id <$> ia_excluded inputs) ;?
  let? excluded := fold_try (exclude_input admitted) (ia_excluded inputs) ∅ in
  for_each (fun input_id =>
    reject (not_exactly_one (bool_decide (is_Some (selected !! input_id)))
              (bool_decide (is_Some (excluded !! input_id))))
      "each admitted input must be exactly selected or excluded") (btree_keys admitted).

Definition validate_admission_partition (inputs : InputAccountingV1)
    (received : gmap string ReceivedInputV1) : result string unit :=
  require_utf8_byte_sorted_unique "inputs.admitted" (mi_input_id <$> ia_admitted inputs) ;?
  let? admitted := fold_try (admit_input received) (ia_admitted inputs) ∅ in
  require_utf8_byte_sorted_unique "inputs.refused" (fi_input_id <$> ia_refused inputs) ;?
  let? '(refused, _) := fold_try (refuse_input received) (ia_refused inputs) (∅, ∅) in
  for_each (fun input_id =>
    reject (not_exactly_one (bool_decide (is_Some (admitted !! input_id)))
              (bool_decide (input_id ∈ refused)))
      "each received input must be exactly admitted or refused") (btree_keys received) ;?
  validate_selection_partition inputs admitted received.

Definition validate_inputs (artifact : DiagnosticExecutionV1) : result string unit :=
  let inputs := dx_inputs artifact in
  validate_semantic_identity (ia_selection_rule inputs) "inputs.selection_rule" ;?
  require_utf8_byte_sorted_unique "inputs.expected" (xi_expectation_id <$> ia_expected inputs) ;?
  let? expected := fold_try expect_input (ia_expected inputs) ∅ in
  require_utf8_byte_sorted_unique "inputs.received" (ri_input_id <$> ia_received inputs) ;?
  let? completed_at := parse_nq_time (dx_completed_at artifact) "completed_at" in
  let? '(received, response_count) :=
    fold_try (receive_input expected completed_at) (ia_received inputs) (∅, ∅) in
  require_utf8_byte_sorted_unique "inputs.failed" (li_expectation_id <$> ia_failed inputs) ;?
  let? '(_, _, response_count) :=
    fold_try (fail_input expected) (ia_failed inputs) (∅, ∅, response_count) in
  for_each (fun expectation =>
    reject (negb (bool_decide (response_count !! expectation = Some 1)))
      "each expectation must have exactly one received occurrence or failure")
    (elements expected) ;?
  validate_admission_partition inputs received.

(** ** State bindings, claims and outcome *)

Definition check_state_binding (selected : gset string) (binding : StateBindingV1)
    (ids : gset string) : result string (gset string) :=
  require_token "binding_id" (sb_binding_id binding) ;?
  require_token "state_binding.kind" (sb_kind binding) ;?
  require_token "state_binding.value" (sb_value binding) ;?
  let? ids := insert_unique ids (sb_binding_id binding) "binding_id" in
  reject (bool_decide (sb_supporting_input_ids binding = []))
    "state binding has no supporting input" ;?
  require_utf8_byte_sorted_unique "state_binding.supporting_input_ids"
    (sb_supporting_input_ids binding) ;?
  let? _ := fold_try (fun input_id supporting =>
    reject (negb (bool_decide (input_id ∈ selected)))
      "state binding references a non-selected input" ;?
    insert_unique supporting input_id "state supporting input")
    (sb_supporting_input_ids binding) ∅ in
  Ok ids.

Definition validate_state_bindings (bindings : list StateBindingV1) (inputs : InputAccountingV1)
    : result string unit :=
  let selected := list_to_set (C := gset string) (ti_input_id <$> ia_selected inputs) in
  require_utf8_byte_sorted_unique "state_bindings" (sb_binding_id <$> bindings) ;?
  let? _ := fold_try (check_state_binding selected) bindings ∅ in
  Ok tt.

Definition determinate_condition (c : ConditionV1) : bool :=
  match c with
  | Condition_Present | Condition_Clean | Condition_ExplicitlyAbsent
  | Condition_NotApplicable => true
  | Condition_Unresolved => false
  end.
Definition determinate_claim (s : ClaimStatusV1) : bool :=
  match s with
  | Claim_Established | Claim_Refuted | Claim_Contradictory => true
  | Claim_Unknown => false
  end.
Definition is_some_and {A} (p : A -> bool) (o : option A) : bool :=
  match o with Some a => p a | None => false end.

(** The tests on a claim's own status and effect, which both contract versions make. *)
Definition check_condition_effect (status : ClaimStatusV1) (effect : option ConditionV1)
    (primary : option string) (claim_id : string) : result string unit :=
  reject (is_some_and determinate_condition effect
          && negb (bool_decide (status = Claim_Established)))
    "determinate condition effect requires an established claim" ;?
  reject (negb (bool_decide (status = Claim_Established))
          && is_some_and (fun e => negb (bool_decide (e = Condition_Unresolved))) effect)
    "non-established claim may only leave the condition unresolved" ;?
  reject (bool_decide (is_Some effect) && negb (bool_decide (primary = Some claim_id)))
    "non-primary claim carries a condition effect".

(** A binding the claim names, within the claim's dependencies. *)
Definition check_claim_binding (bindings : gmap string StateBindingV1)
    (dependencies : gset string) (unknown : string) (binding_id : string) : result string unit :=
  let? binding := ok_or (bindings !! binding_id) unknown in
  reject (existsb (fun input_id => negb (bool_decide (input_id ∈ dependencies)))
            (sb_supporting_input_ids binding))
    "claim state binding depends on input outside the claim dependency frontier".

Definition check_distinction (omitted : gset string) (distinction : string)
    : result string unit :=
  require_token "claim.required_distinction" distinction ;?
  reject (bool_decide (distinction ∈ omitted))
    "claim requires a distinction omitted by the projection".

(** The loop's state: the claim ids so far, and whether one is contradictory. *)
Definition check_claim (artifact : DiagnosticExecutionV1)
    (selected : gmap string SelectedInputV1) (bindings : gmap string StateBindingV1)
    (omitted : gset string) (claim : ClaimV1) (state : gset string * bool)
    : result string (gset string * bool) :=
  let '(claims, any_contradictory) := state in
  require_token "claim_id" (cl_claim_id claim) ;?
  require_token "claim.proposition" (cl_proposition claim) ;?
  let? claims := insert_unique claims (cl_claim_id claim) "claim_id" in
  let any_contradictory :=
    any_contradictory || bool_decide (cl_status claim = Claim_Contradictory) in
  reject (determinate_claim (cl_status claim)
          && bool_decide (cl_dependency_input_ids claim = []))
    "determinate or contradictory claim has no selected dependency" ;?
  require_utf8_byte_sorted_unique "claim.dependency_input_ids" (cl_dependency_input_ids claim) ;?
  let? dependencies := fold_try (fun input_id dependencies =>
    reject (negb (bool_decide (is_Some (selected !! input_id))))
      "claim references a non-selected input" ;?
    insert_unique dependencies input_id "claim dependency")
    (cl_dependency_input_ids claim) ∅ in
  require_utf8_byte_sorted_unique "claim.state_binding_ids" (cl_state_binding_ids claim) ;?
  let? _ := fold_try (fun binding_id state_ids =>
    let? _ := ok_or (bindings !! binding_id) "claim references an unknown state binding" in
    let? state_ids := insert_unique state_ids binding_id "claim state binding" in
    check_claim_binding bindings dependencies "claim references an unknown state binding"
      binding_id ;?
    Ok state_ids) (cl_state_binding_ids claim) ∅ in
  require_utf8_byte_sorted_unique "claim.required_distinctions"
    (cl_required_distinctions claim) ;?
  for_each (check_distinction omitted) (cl_required_distinctions claim) ;?
  require_utf8_byte_sorted_unique "claim.limitations" (cl_limitations claim) ;?
  for_each (require_token "claim limitation") (cl_limitations claim) ;?
  require_utf8_byte_sorted_unique "claim.nonclaims" (cl_nonclaims claim) ;?
  for_each (require_token "claim nonclaim") (cl_nonclaims claim) ;?
  check_condition_effect (cl_status claim) (cl_condition_effect claim)
    (dx_primary_claim_id artifact) (cl_claim_id claim) ;?
  Ok (claims, any_contradictory).

(** What both versions ask of the primary claim, given as its effect, its status and
    whether it has state bindings. *)
Definition completed_or_partial (d : DerivationV1) : bool :=
  match d with Derivation_Completed | Derivation_Partial => true | _ => false end.

Definition check_primary_id (primary_claim_id : option string) (claims : gset string)
    (derivation : DerivationV1) : result string unit :=
  match primary_claim_id with
  | Some primary =>
      reject (negb (bool_decide (primary ∈ claims)))
        "primary_claim_id does not identify an exported claim" ;?
      reject (negb (completed_or_partial derivation))
        "refused or unsupported outcome exports a primary claim"
  | None =>
      reject (completed_or_partial derivation)
        "completed or partial outcome has no primary claim"
  end.

Definition check_primary (primary : option (option ConditionV1 * ClaimStatusV1 * bool))
    (condition : ConditionV1) (coherence : CoherenceV1) : result string unit :=
  match primary with
  | Some (effect, status, no_bindings) =>
      reject (negb (bool_decide (effect = Some condition)))
        "primary claim condition effect differs from outcome condition" ;?
      reject (determinate_condition condition && no_bindings)
        "primary determinate claim has no state binding" ;?
      reject (negb (Bool.eqb (bool_decide (status = Claim_Contradictory))
                             (bool_decide (coherence = Coherence_Contradictory))))
        "primary contradiction differs from outcome coherence"
  | None =>
      reject (bool_decide (coherence = Coherence_Contradictory))
        "contradictory outcome has no primary contradictory claim"
  end.

Definition validate_claims (artifact : DiagnosticExecutionV1) : result string unit :=
  let selected := index_by ti_input_id (ia_selected (dx_inputs artifact)) in
  let bindings := index_by sb_binding_id (dx_state_bindings artifact) in
  let omitted := list_to_set (C := gset string)
    (od_code <$> pj_omitted_distinctions (dx_projection artifact)) in
  let outcome := dx_outcome artifact in
  require_utf8_byte_sorted_unique "claims" (cl_claim_id <$> dx_claims artifact) ;?
  let? '(claims, any_contradictory) :=
    fold_try (check_claim artifact selected bindings omitted) (dx_claims artifact) (∅, false) in
  check_primary_id (dx_primary_claim_id artifact) claims (oc_derivation outcome) ;?
  reject (negb (completed_or_partial (oc_derivation outcome))
          && negb (bool_decide (length (dx_claims artifact) = 0)))
    "refused or unsupported outcome exports claims" ;?
  check_primary
    (primary_id ← dx_primary_claim_id artifact;
     primary ← find_first (fun claim => String.eqb (cl_claim_id claim) primary_id)
                 (dx_claims artifact);
     Some (cl_condition_effect primary, cl_status primary,
           bool_decide (cl_state_binding_ids primary = [])))
    (oc_condition outcome) (oc_coherence outcome) ;?
  reject (negb (Bool.eqb any_contradictory
                         (bool_decide (oc_coherence outcome = Coherence_Contradictory))))
    "exported claim dissent differs from outcome coherence".

(** Completed, complete and jointly coherent. *)
Definition fully_established (outcome : OutcomeV1) : bool :=
  bool_decide (oc_derivation outcome = Derivation_Completed)
  && bool_decide (oc_coverage outcome = Coverage_Complete)
  && bool_decide (oc_coherence outcome = Coherence_JointlyEstablished).

(** A required expectation, under complete coverage. *)
Definition check_required_input (received_expectations : gmap string string)
    (admitted selected : gset string) (expectation : ExpectedInputV1) : result string unit :=
  let? input_id := ok_or (received_expectations !! xi_expectation_id expectation)
    "complete coverage omits a required expected input" in
  reject (negb (bool_decide (input_id ∈ admitted)))
    "complete coverage includes refused required testimony" ;?
  reject (negb (bool_decide (input_id ∈ selected)))
    "complete coverage excludes required testimony".

Definition check_complete_coverage (inputs : InputAccountingV1) : result string unit :=
  let received_expectations :=
    foldl (fun m input => <[ri_expectation_id input := ri_input_id input]> m) ∅
      (ia_received inputs) in
  let admitted := list_to_set (C := gset string) (mi_input_id <$> ia_admitted inputs) in
  let selected := list_to_set (C := gset string) (ti_input_id <$> ia_selected inputs) in
  let required := List.filter xi_required (ia_expected inputs) in
  reject (bool_decide (length required = 0)) "complete coverage has no required expectation" ;?
  for_each (check_required_input received_expectations admitted selected) required.

Definition validate_outcome (artifact : DiagnosticExecutionV1) : result string unit :=
  let outcome := dx_outcome artifact in
  require_token "outcome.summary" (oc_summary outcome) ;?
  match oc_derivation outcome, oc_refusal outcome with
  | Derivation_Refused, Some refusal =>
      require_token "outcome.refusal.code" (rf_code refusal) ;?
      require_token "outcome.refusal.reason" (rf_reason refusal)
  | Derivation_Refused, None => Err "refused outcome has no refusal"
  | _, Some _ => Err "non-refused outcome carries a refusal"
  | _, None => Ok tt
  end ;?
  reject (bool_decide (oc_condition outcome = Condition_ExplicitlyAbsent)
          && negb (fully_established outcome))
    "explicit absence requires completed derivation, complete coverage, and joint coherence" ;?
  reject (bool_decide (oc_condition outcome = Condition_Clean)
          && negb (fully_established outcome))
    "clean condition requires completed derivation, complete coverage, and joint coherence" ;?
  reject (bool_decide (oc_derivation outcome = Derivation_Refused)
          && negb (bool_decide (oc_condition outcome = Condition_Unresolved)))
    "refused outcome must have unresolved condition" ;?
  reject (bool_decide (oc_derivation outcome = Derivation_Unsupported)
          && negb (bool_decide (oc_condition outcome = Condition_Unresolved)))
    "unsupported outcome must have unresolved condition" ;?
  reject ((bool_decide (oc_coherence outcome = Coherence_Contradictory)
           || bool_decide (oc_coherence outcome = Coherence_StateIncompatible))
          && negb (bool_decide (oc_condition outcome = Condition_Unresolved)))
    "contradictory/state-incompatible evidence cannot clear a condition" ;?
  if bool_decide (oc_coverage outcome = Coverage_Complete)
  then check_complete_coverage (dx_inputs artifact)
  else Ok tt.

(** ** The artifact *)

Definition expected_canonicalization : SemanticIdentityV1 :=
  {| si_id := "rfc8785-jcs"; si_version := "1";
     si_digest := "sha256:e49d92d4e86052e66ed2a481b9386d3b214ce3d2df5fd109a6491ccb9ffb24f3" |}.

Definition check_limitation (limitation : LimitationV1) : result string unit :=
  require_token "limitation.code" (lm_code limitation) ;?
  require_token "limitation.detail" (lm_detail limitation).

(** The identities of an artifact, in the order they are checked. *)
Definition validate_identities (a : DiagnosticExecutionV1) : result string unit :=
  validate_digest (dx_artifact_id a) "artifact_id" ;?
  validate_semantic_identity (dx_canonicalization a) "canonicalization" ;?
  reject (negb (bool_decide (dx_canonicalization a = expected_canonicalization)))
    "unknown diagnostic canonicalization identity" ;?
  require_token "producer.node_id" (pr_node_id (dx_producer a)) ;?
  validate_semantic_identity (pr_build (dx_producer a)) "producer.build" ;?
  validate_semantic_identity (pr_cohort (dx_producer a)) "producer.cohort" ;?
  require_token "request_id" (dx_request_id a) ;?
  require_token "run_id" (dx_run_id a) ;?
  validate_semantic_identity (dx_question a) "question" ;?
  require_token "subject.id" (su_id (dx_subject a)) ;?
  validate_semantic_identity (su_scope (dx_subject a)) "subject.scope" ;?
  validate_semantic_identity (dx_profile a) "profile" ;?
  validate_semantic_identity (dx_vantage a) "vantage" ;?
  validate_semantic_identity (dx_state_model a) "state_model" ;?
  validate_semantic_identity (dx_evaluator a) "evaluator" ;?
  validate_semantic_identity (dx_threshold_policy a) "threshold_policy" ;?
  validate_projection (dx_projection a) ;?
  validate_semantic_identity (dx_execution_clock a) "execution_clock".

Definition validate_times (a : DiagnosticExecutionV1) : result string unit :=
  let? started_at := parse_nq_time (dx_started_at a) "started_at" in
  let? completed_at := parse_nq_time (dx_completed_at a) "completed_at" in
  reject (completed_at <? started_at)%Z "started_at is after completed_at" ;?
  validate_interval (dx_attempt_interval a) "attempt_interval" ;?
  reject (negb (bool_decide (ai_clock (dx_attempt_interval a) = dx_execution_clock a)))
    "attempt interval does not use execution_clock" ;?
  let? attempt_start := parse_time (ai_started_at (dx_attempt_interval a))
    "attempt_interval.started_at" in
  let? attempt_end := parse_time (ai_ended_at (dx_attempt_interval a))
    "attempt_interval.ended_at" in
  reject ((attempt_start <? started_at)%Z || (completed_at <? attempt_end)%Z)
    "attempt interval falls outside diagnostic execution".

Context {SX : Serde DiagnosticExecutionV1}.

Definition execution_validate (a : DiagnosticExecutionV1) : result string unit :=
  validate_identities a ;?
  validate_times a ;?
  validate_inputs a ;?
  validate_state_bindings (dx_state_bindings a) (dx_inputs a) ;?
  validate_claims a ;?
  validate_outcome a ;?
  require_utf8_byte_sorted_unique "limitations" (lm_code <$> dx_limitations a) ;?
  for_each check_limitation (dx_limitations a) ;?
  require_utf8_byte_sorted_unique "nonclaims" (dx_nonclaims a) ;?
  for_each (require_token "nonclaim") (dx_nonclaims a) ;?
  let? v := to_value a in
  let? canonical := jcs_value (object_without "artifact_id" v) in
  let expected := sha256_id canonical in
  reject (negb (String.eqb (dx_artifact_id a) expected))
    ("NQ artifact identity mismatch: declared " +:+ dx_artifact_id a +:+ ", computed "
     +:+ expected).
End checks.
