(* ===== verification/DiagnosticV2.v ===== *)
(** * Diagnostic executions, second version (crates/nightshiftd/src/diagnostic_execution_v2.rs)

    The artifact of the second contract version, with exact governed refusals and
    qualified clocks; the accessors that read either version; and its validation,
    which checks what is new and validates the rest through a first-version surrogate. *)
From S2P Require Import Prelude Text External Diagnostic.
From stdpp Require Import pretty.
Local Open Scope string_scope.

(** ** Data *)

Inductive DiagnosticExecutionSchemaV2 := DiagnosticExecutionSchemaV2_V2.
Inductive GovernedRefusalSchemaV1 := GovernedRefusalSchemaV1_V1.

Inductive ClockQualificationV2 :=
| Clock_Bounded (maximum_error_ms : N) (basis : SemanticIdentityV1)
| Clock_Unqualified (code : string) (detail : string).

#[global] Instance ClockQualificationV2_eq_dec : EqDecision ClockQualificationV2.
Proof. solve_decision. Defined.

Record AcquisitionIntervalV2 := {
  a2_started_at : string;
  a2_ended_at : string;
  a2_clock : SemanticIdentityV1;
  a2_qualification : ClockQualificationV2
}.

#[global] Instance AcquisitionIntervalV2_eq_dec : EqDecision AcquisitionIntervalV2.
Proof. solve_decision. Defined.

Record ReceivedInputV2 := {
  r2_input_id : string;
  r2_expectation_id : string;
  r2_provider_intake_id : string;
  r2_raw_artifact_id : string;
  r2_capture_mode : RawCaptureModeV1;
  r2_capture_policy : SemanticIdentityV1;
  r2_availability_at_derivation : EvidenceAvailabilityV1;
  r2_acquisition : AcquisitionIntervalV2;
  r2_received_at : string
}.

Inductive RetryDispositionV1 := Retry_Retriable | Retry_NonRetriable | Retry_Unspecified.

#[global] Instance RetryDispositionV1_eq_dec : EqDecision RetryDispositionV1.
Proof. solve_decision. Defined.

Inductive AcquisitionFailureClassV1 :=
| Failure_SpawnFailed
| Failure_RequestWriteFailed
| Failure_Timeout
| Failure_OutputTooLarge
| Failure_StderrTooLarge
| Failure_Eof
| Failure_MalformedFraming
| Failure_MalformedJson
| Failure_ExitNonzero
| Failure_HelperExited
| Failure_Disconnect
| Failure_CarrierStartupFailed
| Failure_NotRunning
| Failure_IoFailed.

#[global] Instance AcquisitionFailureClassV1_eq_dec : EqDecision AcquisitionFailureClassV1.
Proof. solve_decision. Defined.

Inductive ExchangeTimeoutPhaseV1 := Phase_WriteRequest | Phase_ReadResponse.

#[global] Instance ExchangeTimeoutPhaseV1_eq_dec : EqDecision ExchangeTimeoutPhaseV1.
Proof. solve_decision. Defined.

Inductive AcquisitionOutcomeV1 :=
| Outcome_Response
| Outcome_SpawnFailed (message : string)
| Outcome_RequestWriteFailed (message : string)
| Outcome_Timeout
| Outcome_ExchangeTimeout (phase : ExchangeTimeoutPhaseV1)
| Outcome_OutputTooLarge
| Outcome_StderrTooLarge
| Outcome_Eof
| Outcome_MalformedFraming (message : string)
| Outcome_MalformedJson (message : string)
| Outcome_ExitNonzero (code : option Z)
| Outcome_HelperExited (code : option Z)
| Outcome_Disconnect (message : string)
| Outcome_CarrierStartupFailed (message : string)
| Outcome_NotRunning
| Outcome_IoFailed (message : string).

#[global] Instance AcquisitionOutcomeV1_eq_dec : EqDecision AcquisitionOutcomeV1.
Proof. solve_decision. Defined.

Record AcquisitionFailureV1 := {
  af_class : AcquisitionFailureClassV1;
  af_retry : RetryDispositionV1;
  af_outcome : AcquisitionOutcomeV1
}.

#[global] Instance AcquisitionFailureV1_eq_dec : EqDecision AcquisitionFailureV1.
Proof. solve_decision. Defined.

Record AcquisitionRefusalV1 := {
  ar_responsible_instance_id : string;
  ar_failure : AcquisitionFailureV1
}.

#[global] Instance AcquisitionRefusalV1_eq_dec : EqDecision AcquisitionRefusalV1.
Proof. solve_decision. Defined.

Inductive ProtocolRejectionBoundaryV1 := ProtocolBoundary_Response.

#[global] Instance ProtocolRejectionBoundaryV1_eq_dec : EqDecision ProtocolRejectionBoundaryV1.
Proof. solve_decision. Defined.

Inductive ProtocolRejectionCodeV1 := ProtocolCode_InvalidResponse.

#[global] Instance ProtocolRejectionCodeV1_eq_dec : EqDecision ProtocolRejectionCodeV1.
Proof. solve_decision. Defined.

Inductive JsonErrorCategoryV1 := JsonError_Io | JsonError_Syntax | JsonError_Data | JsonError_Eof.

#[global] Instance JsonErrorCategoryV1_eq_dec : EqDecision JsonErrorCategoryV1.
Proof. solve_decision. Defined.

Record StructuredJsonErrorV1 := {
  je_category : JsonErrorCategoryV1;
  je_line : N;
  je_column : N;
  je_diagnostic : string
}.

#[global] Instance StructuredJsonErrorV1_eq_dec : EqDecision StructuredJsonErrorV1.
Proof. solve_decision. Defined.

Inductive ProtocolCanonicalizationFailureV1 :=
| Canonicalization_Serialization (error : StructuredJsonErrorV1)
| Canonicalization_UnsafeInteger (value : string).

#[global] Instance ProtocolCanonicalizationFailureV1_eq_dec : EqDecision ProtocolCanonicalizationFailureV1.
Proof. solve_decision. Defined.

Inductive ProtocolValidationFailureV1 :=
| Validation_InvalidSchema (document : string) (expected : string) (actual : string)
| Validation_InvalidProtocolVersion (expected : string) (actual : string)
| Validation_InvalidField (field : string) (reason : string)
| Validation_BoundExceeded (field : string) (limit : N) (actual : N)
| Validation_Duplicate (field : string) (value : string)
| Validation_EchoMismatch (field : string)
| Validation_CapabilityEscape (capability : string)
| Validation_Canonicalization (field : string) (source : ProtocolCanonicalizationFailureV1).

#[global] Instance ProtocolValidationFailureV1_eq_dec : EqDecision ProtocolValidationFailureV1.
Proof. solve_decision. Defined.

Inductive ProtocolRejectionFailureV1 :=
| Rejection_FrameTooLarge (limit : N) (actual : N)
| Rejection_InvalidFraming
| Rejection_InvalidJson (error : StructuredJsonErrorV1)
| Rejection_Validation (error : ProtocolValidationFailureV1)
| Rejection_Canonicalization (error : ProtocolCanonicalizationFailureV1).

#[global] Instance ProtocolRejectionFailureV1_eq_dec : EqDecision ProtocolRejectionFailureV1.
Proof. solve_decision. Defined.

Record ProtocolRejectionV1 := {
  px_responsible_instance_id : string;
  px_boundary : ProtocolRejectionBoundaryV1;
  px_code : ProtocolRejectionCodeV1;
  px_failure : ProtocolRejectionFailureV1
}.

#[global] Instance ProtocolRejectionV1_eq_dec : EqDecision ProtocolRejectionV1.
Proof. solve_decision. Defined.

Inductive HelperRefusalBoundaryV1 :=
| HelperBoundary_Protocol
| HelperBoundary_Profile
| HelperBoundary_Scope
| HelperBoundary_Vantage
| HelperBoundary_Capability
| HelperBoundary_Deadline
| HelperBoundary_Checkpoint
| HelperBoundary_Collection
| HelperBoundary_Resource
| HelperBoundary_Internal.

#[global] Instance HelperRefusalBoundaryV1_eq_dec : EqDecision HelperRefusalBoundaryV1.
Proof. solve_decision. Defined.

Inductive HelperRefusalCodeV1 :=
| HelperCode_UnsupportedProtocol
| HelperCode_UnknownProfile
| HelperCode_ProfileDigestMismatch
| HelperCode_UnsupportedScope
| HelperCode_UnsupportedVantage
| HelperCode_CapabilityDenied
| HelperCode_DeadlineExpired
| HelperCode_BoundsUnsupported
| HelperCode_CheckpointInvalid
| HelperCode_CollectionFailed
| HelperCode_ResourceExhausted
| HelperCode_InternalError.

#[global] Instance HelperRefusalCodeV1_eq_dec : EqDecision HelperRefusalCodeV1.
Proof. solve_decision. Defined.

Record HelperRefusalV1 := {
  hr_responsible_instance_id : string;
  hr_boundary : HelperRefusalBoundaryV1;
  hr_code : HelperRefusalCodeV1;
  hr_message : string;
  hr_retriable : bool;
  hr_details : value
}.

Record ProfileKeyV1 := {
  pk_id : string;
  pk_version : N
}.

#[global] Instance ProfileKeyV1_eq_dec : EqDecision ProfileKeyV1.
Proof. solve_decision. Defined.

Inductive ProfileRefusalBoundaryV1 :=
| ProfileBoundary_Profile
| ProfileBoundary_Report
| ProfileBoundary_Coverage
| ProfileBoundary_Observation
| ProfileBoundary_Detector.

#[global] Instance ProfileRefusalBoundaryV1_eq_dec : EqDecision ProfileRefusalBoundaryV1.
Proof. solve_decision. Defined.

Inductive ProfileRefusalCodeV1 :=
| ProfileCode_UnknownProfile
| ProfileCode_UnknownObservationKind
| ProfileCode_UnknownCoverage
| ProfileCode_DuplicateCoverage
| ProfileCode_MissingCoverage
| ProfileCode_CoverageStatusMismatch
| ProfileCode_ReportStatusOverclaim
| ProfileCode_ObservationLimitExceeded
| ProfileCode_PayloadLimitExceeded
| ProfileCode_InvalidOrdinal
| ProfileCode_SubjectEscape
| ProfileCode_ScopeEscape
| ProfileCode_VantageEscape
| ProfileCode_CapabilityEscape
| ProfileCode_UnknownAccessPath
| ProfileCode_UnknownBasis
| ProfileCode_UnknownRegime
| ProfileCode_FutureObservation
| ProfileCode_InvalidPayload
| ProfileCode_InconsistentReport
| ProfileCode_ForbiddenHelperAssertion
| ProfileCode_CannotEvaluate.

#[global] Instance ProfileRefusalCodeV1_eq_dec : EqDecision ProfileRefusalCodeV1.
Proof. solve_decision. Defined.

Record ProfileRefusalV1 := {
  pf_instance_id : string;
  pf_profile : ProfileKeyV1;
  pf_boundary : ProfileRefusalBoundaryV1;
  pf_code : ProfileRefusalCodeV1;
  pf_message : string;
  pf_details : gmap string string
}.

#[global] Instance ProfileRefusalV1_eq_dec : EqDecision ProfileRefusalV1.
Proof. solve_decision. Defined.

Record GovernedProfileRefusalV1 := {
  gp_profile_semantic_id : string;
  gp_refusal : ProfileRefusalV1
}.

#[global] Instance GovernedProfileRefusalV1_eq_dec : EqDecision GovernedProfileRefusalV1.
Proof. solve_decision. Defined.

Inductive GovernedRefusalOriginV1 :=
| Origin_Acquisition (x : AcquisitionRefusalV1)
| Origin_Protocol (x : ProtocolRejectionV1)
| Origin_Helper (x : HelperRefusalV1)
| Origin_Profile (x : GovernedProfileRefusalV1).

Record GovernedRefusalV1 := {
  gr_schema : GovernedRefusalSchemaV1;
  gr_refusal_id : string;
  gr_origin : GovernedRefusalOriginV1
}.

Inductive ProfileRefusalBindingV2 :=
| Binding_ArtifactProfile
| Binding_ForeignInputRole (role : string).

Record RefusedInputV2 := {
  f2_input_id : string;
  f2_refusal : GovernedRefusalV1;
  f2_profile_binding : option ProfileRefusalBindingV2
}.

Inductive FailedAcquisitionCustodyV2 := Custody_NoBytesRetained.

Inductive UnsupportedCodeV2 :=
| Unsupported_QuestionUnsupported
| Unsupported_ProviderCapabilityUnavailable
| Unsupported_PlatformCapabilityUnavailable
| Unsupported_ContractVersionUnsupported.

#[global] Instance UnsupportedCodeV2_eq_dec : EqDecision UnsupportedCodeV2.
Proof. solve_decision. Defined.

Inductive UnsupportedOriginV2 :=
| UnsupportedOrigin_DiagnosticProfile
| UnsupportedOrigin_ExpectedInput (failure_id : string).

#[global] Instance UnsupportedOriginV2_eq_dec : EqDecision UnsupportedOriginV2.
Proof. solve_decision. Defined.

Record UnsupportedCauseV2 := {
  uc_unsupported_id : string;
  uc_origin : UnsupportedOriginV2;
  uc_code : UnsupportedCodeV2;
  uc_capability : SemanticIdentityV1;
  uc_detail : string
}.

#[global] Instance UnsupportedCauseV2_eq_dec : EqDecision UnsupportedCauseV2.
Proof. solve_decision. Defined.

Inductive FailedInputCauseV2 :=
| Cause_Missing (reason : string)
| Cause_ProviderNoResponse (provider_intake_id : string) (attempt : AcquisitionIntervalV2) (raw_custody : FailedAcquisitionCustodyV2) (failure : AcquisitionFailureV1)
| Cause_AcquisitionFailed (provider_intake_id : string) (attempt : AcquisitionIntervalV2) (raw_custody : FailedAcquisitionCustodyV2) (failure : AcquisitionFailureV1)
| Cause_Unsupported (unsupported : UnsupportedCauseV2).

Record FailedInputV2 := {
  l2_expectation_id : string;
  l2_failure_id : string;
  l2_cause : FailedInputCauseV2
}.

Record InputAccountingV2 := {
  i2_selection_rule : SemanticIdentityV1;
  i2_expected : list ExpectedInputV1;
  i2_received : list ReceivedInputV2;
  i2_admitted : list AdmittedInputV1;
  i2_refused : list RefusedInputV2;
  i2_failed : list FailedInputV2;
  i2_excluded : list ExcludedInputV1;
  i2_selected : list SelectedInputV1
}.

Record ClaimV2 := {
  c2_claim_id : string;
  c2_proposition : string;
  c2_status : ClaimStatusV1;
  c2_condition_effect : option ConditionV1;
  c2_dependency_input_ids : list string;
  c2_dependency_refusal_ids : list string;
  c2_dependency_failure_ids : list string;
  c2_state_binding_ids : list string;
  c2_required_distinctions : list string;
  c2_limitations : list string;
  c2_nonclaims : list string
}.

#[global] Instance ClaimV2_eq_dec : EqDecision ClaimV2.
Proof. solve_decision. Defined.

Record OutcomeV2 := {
  o2_derivation : DerivationV1;
  o2_condition : ConditionV1;
  o2_coherence : CoherenceV1;
  o2_coverage : CoverageV1;
  o2_summary : string;
  o2_refusals : list GovernedRefusalV1;
  o2_unsupported : list UnsupportedCauseV2
}.

Record DiagnosticExecutionV2 := {
  d2_schema : DiagnosticExecutionSchemaV2;
  d2_artifact_id : string;
  d2_canonicalization : SemanticIdentityV1;
  d2_producer : ProducerV1;
  d2_request_id : string;
  d2_run_id : string;
  d2_question : SemanticIdentityV1;
  d2_subject : SubjectV1;
  d2_profile : SemanticIdentityV1;
  d2_profile_semantic_id : string;
  d2_vantage : SemanticIdentityV1;
  d2_state_model : SemanticIdentityV1;
  d2_evaluator : SemanticIdentityV1;
  d2_threshold_policy : SemanticIdentityV1;
  d2_projection : ProjectionV1;
  d2_execution_clock : SemanticIdentityV1;
  d2_started_at : string;
  d2_completed_at : string;
  d2_attempt_interval : AcquisitionIntervalV2;
  d2_inputs : InputAccountingV2;
  d2_state_bindings : list StateBindingV1;
  d2_claims : list ClaimV2;
  d2_primary_claim_id : option string;
  d2_outcome : OutcomeV2;
  d2_limitations : list LimitationV1;
  d2_nonclaims : list string
}.

Inductive DiagnosticExecution :=
| Execution_V1 (x : DiagnosticExecutionV1)
| Execution_V2 (x : DiagnosticExecutionV2).

Inductive DiagnosticInputFailureKind :=
| InputFailure_Missing
| InputFailure_ProviderNoResponse
| InputFailure_AcquisitionFailed
| InputFailure_Unsupported.

Record DiagnosticInputFailureTrace := {
  ft_expectation_id : string;
  ft_failure_id : string;
  ft_kind : DiagnosticInputFailureKind;
  ft_detail : string
}.

Inductive AcquisitionInterval :=
| Interval_V1 (x : AcquisitionIntervalV1)
| Interval_V2 (x : AcquisitionIntervalV2).

#[global] Instance AcquisitionInterval_eq_dec : EqDecision AcquisitionInterval.
Proof. solve_decision. Defined.

Inductive DiagnosticOutcome :=
| DiagnosticOutcome_V1 (x : OutcomeV1)
| DiagnosticOutcome_V2 (x : OutcomeV2).

Inductive DiagnosticClaim :=
| DiagnosticClaim_V1 (x : ClaimV1)
| DiagnosticClaim_V2 (x : ClaimV2).

#[global] Instance DiagnosticClaim_eq_dec : EqDecision DiagnosticClaim.
Proof. solve_decision. Defined.

(** The derived equality of governed refusals; [details] is compared as JSON. *)
Definition helper_refusal_eqb (a b : HelperRefusalV1) : bool :=
  String.eqb (hr_responsible_instance_id a) (hr_responsible_instance_id b)
  && bool_decide (hr_boundary a = hr_boundary b)
  && bool_decide (hr_code a = hr_code b)
  && String.eqb (hr_message a) (hr_message b)
  && Bool.eqb (hr_retriable a) (hr_retriable b)
  && value_eqb (hr_details a) (hr_details b).
Definition origin_eqb (a b : GovernedRefusalOriginV1) : bool :=
  match a, b with
  | Origin_Acquisition x, Origin_Acquisition y => bool_decide (x = y)
  | Origin_Protocol x, Origin_Protocol y => bool_decide (x = y)
  | Origin_Helper x, Origin_Helper y => helper_refusal_eqb x y
  | Origin_Profile x, Origin_Profile y => bool_decide (x = y)
  | _, _ => false
  end.
Definition governed_refusal_eqb (a b : GovernedRefusalV1) : bool :=
  String.eqb (gr_refusal_id a) (gr_refusal_id b) && origin_eqb (gr_origin a) (gr_origin b).

(** [BTreeMap == BTreeMap]: the same keys with equal values. *)
Definition btree_eqb {A} (eqb : A -> A -> bool) (m n : gmap string A) : bool :=
  bool_decide (dom m = dom n)
  && forallb (fun '(k, a) => is_some_and (eqb a) (n !! k)) (map_to_list m).

(** ** The accessors of the two contract versions *)

Definition NQ_DIAGNOSTIC_EXECUTION_SCHEMA : string := "nq.diagnostic_execution.v1".
Definition NQ_DIAGNOSTIC_EXECUTION_V2_SCHEMA : string := "nq.diagnostic_execution.v2".

Section execution.
Implicit Types (x : DiagnosticExecution).

(** [match self { V1(value) => .., V2(value) => .. }]. *)
Definition of_version {A} (f1 : DiagnosticExecutionV1 -> A) (f2 : DiagnosticExecutionV2 -> A) x : A :=
  match x with Execution_V1 v => f1 v | Execution_V2 v => f2 v end.

Definition ex_schema_name : DiagnosticExecution -> string :=
  of_version (fun _ => NQ_DIAGNOSTIC_EXECUTION_SCHEMA) (fun _ => NQ_DIAGNOSTIC_EXECUTION_V2_SCHEMA).
Definition ex_artifact_id := of_version dx_artifact_id d2_artifact_id.
Definition ex_producer := of_version dx_producer d2_producer.
Definition ex_request_id := of_version dx_request_id d2_request_id.
Definition ex_run_id := of_version dx_run_id d2_run_id.
Definition ex_completed_at := of_version dx_completed_at d2_completed_at.
Definition ex_question := of_version dx_question d2_question.
Definition ex_subject := of_version dx_subject d2_subject.
Definition ex_profile := of_version dx_profile d2_profile.
Definition ex_profile_semantic_id :=
  of_version (fun _ => None) (fun v => Some (d2_profile_semantic_id v)).
Definition ex_provider_intake_ids :=
  of_version (fun _ => []) (fun v => r2_provider_intake_id <$> i2_received (d2_inputs v)).
Definition ex_vantage := of_version dx_vantage d2_vantage.
Definition ex_state_model := of_version dx_state_model d2_state_model.
Definition ex_evaluator := of_version dx_evaluator d2_evaluator.
Definition ex_threshold_policy := of_version dx_threshold_policy d2_threshold_policy.
Definition ex_projection := of_version dx_projection d2_projection.
Definition ex_attempt_interval :=
  of_version (fun v => Interval_V1 (dx_attempt_interval v))
    (fun v => Interval_V2 (d2_attempt_interval v)).
Definition ex_primary_claim_id := of_version dx_primary_claim_id d2_primary_claim_id.
Definition ex_state_bindings := of_version dx_state_bindings d2_state_bindings.
Definition ex_outcome :=
  of_version (fun v => DiagnosticOutcome_V1 (dx_outcome v))
    (fun v => DiagnosticOutcome_V2 (d2_outcome v)).
Definition ex_outcome_derivation :=
  of_version (fun v => oc_derivation (dx_outcome v)) (fun v => o2_derivation (d2_outcome v)).
Definition ex_outcome_condition :=
  of_version (fun v => oc_condition (dx_outcome v)) (fun v => o2_condition (d2_outcome v)).
Definition ex_outcome_coherence :=
  of_version (fun v => oc_coherence (dx_outcome v)) (fun v => o2_coherence (d2_outcome v)).
Definition ex_outcome_coverage :=
  of_version (fun v => oc_coverage (dx_outcome v)) (fun v => o2_coverage (d2_outcome v)).
Definition ex_limitations := of_version dx_limitations d2_limitations.
Definition ex_nonclaims := of_version dx_nonclaims d2_nonclaims.

Definition ex_claim (claim_id : string) : DiagnosticExecution -> option DiagnosticClaim :=
  of_version
    (fun v => DiagnosticClaim_V1 <$>
       find_first (fun c => String.eqb (cl_claim_id c) claim_id) (dx_claims v))
    (fun v => DiagnosticClaim_V2 <$>
       find_first (fun c => String.eqb (c2_claim_id c) claim_id) (d2_claims v)).
Definition ex_claim_count (claim_id : string) : DiagnosticExecution -> nat :=
  of_version
    (fun v => length (List.filter (fun c => String.eqb (cl_claim_id c) claim_id) (dx_claims v)))
    (fun v => length (List.filter (fun c => String.eqb (c2_claim_id c) claim_id) (d2_claims v))).

Definition ex_received_acquisition (input_id : string)
    : DiagnosticExecution -> option AcquisitionInterval :=
  of_version
    (fun v => (fun i => Interval_V1 (ri_acquisition i)) <$>
       find_first (fun i => String.eqb (ri_input_id i) input_id) (ia_received (dx_inputs v)))
    (fun v => (fun i => Interval_V2 (r2_acquisition i)) <$>
       find_first (fun i => String.eqb (r2_input_id i) input_id) (i2_received (d2_inputs v))).
Definition ex_refusal_acquisition (refusal_id : string)
    : DiagnosticExecution -> option AcquisitionInterval :=
  of_version (fun _ => None) (fun v =>
    refused ← find_first (fun i => String.eqb (gr_refusal_id (f2_refusal i)) refusal_id)
                (i2_refused (d2_inputs v));
    (fun i => Interval_V2 (r2_acquisition i)) <$>
      find_first (fun i => String.eqb (r2_input_id i) (f2_input_id refused))
        (i2_received (d2_inputs v))).
Definition ex_has_refusal_id (refusal_id : string) : DiagnosticExecution -> bool :=
  of_version (fun _ => false) (fun v =>
    existsb (fun i => String.eqb (gr_refusal_id (f2_refusal i)) refusal_id)
      (i2_refused (d2_inputs v))).
Definition cause_attempt (cause : FailedInputCauseV2) : option AcquisitionInterval :=
  match cause with
  | Cause_ProviderNoResponse _ attempt _ _ | Cause_AcquisitionFailed _ attempt _ _ =>
      Some (Interval_V2 attempt)
  | Cause_Missing _ | Cause_Unsupported _ => None
  end.
Definition ex_failure_acquisition (failure_id : string)
    : DiagnosticExecution -> option AcquisitionInterval :=
  of_version (fun _ => None) (fun v =>
    failed ← find_first (fun i => String.eqb (l2_failure_id i) failure_id)
               (i2_failed (d2_inputs v));
    cause_attempt (l2_cause failed)).
Definition ex_has_failure_id (failure_id : string) : DiagnosticExecution -> bool :=
  of_version (fun _ => false) (fun v =>
    existsb (fun i => String.eqb (l2_failure_id i) failure_id) (i2_failed (d2_inputs v))).
Definition v1_has_unqualified_clock_limitation : DiagnosticExecution -> bool :=
  of_version
    (fun v => existsb (fun l => String.eqb (lm_code l) "absolute_clock_quality_unqualified")
                (dx_limitations v)) (fun _ => false).
Definition has_provider_no_response : DiagnosticExecution -> bool :=
  of_version
    (fun v => existsb (fun i => bool_decide (li_kind i = FailedInput_NoResponse))
                (ia_failed (dx_inputs v)))
    (fun v => existsb (fun i => match l2_cause i with
                                | Cause_ProviderNoResponse _ _ _ _ => true | _ => false end)
                (i2_failed (d2_inputs v))).
End execution.

Section intervals.
Definition interval_schema_name (i : AcquisitionInterval) : string :=
  match i with
  | Interval_V1 _ => NQ_DIAGNOSTIC_EXECUTION_SCHEMA
  | Interval_V2 _ => NQ_DIAGNOSTIC_EXECUTION_V2_SCHEMA
  end.
Definition interval_started_at (i : AcquisitionInterval) : string :=
  match i with Interval_V1 v => ai_started_at v | Interval_V2 v => a2_started_at v end.
Definition interval_ended_at (i : AcquisitionInterval) : string :=
  match i with Interval_V1 v => ai_ended_at v | Interval_V2 v => a2_ended_at v end.
Definition maximum_error_ms (i : AcquisitionInterval) : option N :=
  match i with
  | Interval_V1 v => Some (ai_clock_uncertainty_ms v)
  | Interval_V2 v =>
      match a2_qualification v with
      | Clock_Bounded maximum_error_ms _ => Some maximum_error_ms
      | Clock_Unqualified _ _ => None
      end
  end.
Definition unqualified_reason (i : AcquisitionInterval) : option (string * string) :=
  match i with
  | Interval_V1 _ => None
  | Interval_V2 v =>
      match a2_qualification v with
      | Clock_Bounded _ _ => None
      | Clock_Unqualified code detail => Some (code, detail)
      end
  end.

Definition outcome_derivation (o : DiagnosticOutcome) : DerivationV1 :=
  match o with DiagnosticOutcome_V1 v => oc_derivation v | DiagnosticOutcome_V2 v => o2_derivation v end.
Definition outcome_condition (o : DiagnosticOutcome) : ConditionV1 :=
  match o with DiagnosticOutcome_V1 v => oc_condition v | DiagnosticOutcome_V2 v => o2_condition v end.
Definition outcome_coherence (o : DiagnosticOutcome) : CoherenceV1 :=
  match o with DiagnosticOutcome_V1 v => oc_coherence v | DiagnosticOutcome_V2 v => o2_coherence v end.
Definition outcome_coverage (o : DiagnosticOutcome) : CoverageV1 :=
  match o with DiagnosticOutcome_V1 v => oc_coverage v | DiagnosticOutcome_V2 v => o2_coverage v end.

Definition claim_schema_name (c : DiagnosticClaim) : string :=
  match c with
  | DiagnosticClaim_V1 _ => NQ_DIAGNOSTIC_EXECUTION_SCHEMA
  | DiagnosticClaim_V2 _ => NQ_DIAGNOSTIC_EXECUTION_V2_SCHEMA
  end.
Definition claim_claim_id (c : DiagnosticClaim) : string :=
  match c with DiagnosticClaim_V1 v => cl_claim_id v | DiagnosticClaim_V2 v => c2_claim_id v end.
Definition claim_status (c : DiagnosticClaim) : ClaimStatusV1 :=
  match c with DiagnosticClaim_V1 v => cl_status v | DiagnosticClaim_V2 v => c2_status v end.
Definition claim_condition_effect (c : DiagnosticClaim) : option ConditionV1 :=
  match c with
  | DiagnosticClaim_V1 v => cl_condition_effect v
  | DiagnosticClaim_V2 v => c2_condition_effect v
  end.
Definition claim_dependency_input_ids (c : DiagnosticClaim) : list string :=
  match c with
  | DiagnosticClaim_V1 v => cl_dependency_input_ids v
  | DiagnosticClaim_V2 v => c2_dependency_input_ids v
  end.
Definition claim_dependency_refusal_ids (c : DiagnosticClaim) : list string :=
  match c with DiagnosticClaim_V1 _ => [] | DiagnosticClaim_V2 v => c2_dependency_refusal_ids v end.
Definition claim_dependency_failure_ids (c : DiagnosticClaim) : list string :=
  match c with DiagnosticClaim_V1 _ => [] | DiagnosticClaim_V2 v => c2_dependency_failure_ids v end.
Definition claim_state_binding_ids (c : DiagnosticClaim) : list string :=
  match c with
  | DiagnosticClaim_V1 v => cl_state_binding_ids v
  | DiagnosticClaim_V2 v => c2_state_binding_ids v
  end.
End intervals.

(** ** Validation *)

Definition failure_class_matches (class : AcquisitionFailureClassV1)
    (outcome : AcquisitionOutcomeV1) : bool :=
  match class, outcome with
  | Failure_SpawnFailed, Outcome_SpawnFailed _
  | Failure_RequestWriteFailed, Outcome_RequestWriteFailed _
  | Failure_Timeout, Outcome_Timeout
  | Failure_Timeout, Outcome_ExchangeTimeout _
  | Failure_OutputTooLarge, Outcome_OutputTooLarge
  | Failure_StderrTooLarge, Outcome_StderrTooLarge
  | Failure_Eof, Outcome_Eof
  | Failure_MalformedFraming, Outcome_MalformedFraming _
  | Failure_MalformedJson, Outcome_MalformedJson _
  | Failure_ExitNonzero, Outcome_ExitNonzero _
  | Failure_HelperExited, Outcome_HelperExited _
  | Failure_Disconnect, Outcome_Disconnect _
  | Failure_CarrierStartupFailed, Outcome_CarrierStartupFailed _
  | Failure_NotRunning, Outcome_NotRunning
  | Failure_IoFailed, Outcome_IoFailed _ => true
  | _, _ => false
  end.

Definition acquisition_failure_validate (f : AcquisitionFailureV1) : result string unit :=
  reject (negb (failure_class_matches (af_class f) (af_outcome f)))
    "acquisition failure class disagrees with exact outcome" ;?
  reject (negb (bool_decide (af_retry f = Retry_Unspecified)))
    "acquisition failure retry projection disagrees with exact outcome" ;?
  reject (bool_decide (af_outcome f = Outcome_Response))
    "response cannot be carried as an acquisition failure".

Definition protocol_token_char (a : ascii) : bool :=
  is_ascii_alphanumeric a || one_of (String.list_ascii_of_string "._-:/@") a.

Definition validate_protocol_token (field value : string) : result string unit :=
  reject (str_is_empty value) (field +:+ " is empty") ;?
  reject (255 <? strlen value)%N (field +:+ " exceeds the 255-byte protocol token bound") ;?
  reject (negb (bytes_all protocol_token_char value))
    (field +:+ " contains a character outside the protocol token alphabet").

Definition validate_protocol_rejection_failure (failure : ProtocolRejectionFailureV1)
    : result string unit :=
  match failure with
  | Rejection_Validation (Validation_CapabilityEscape capability) =>
      validate_protocol_token "governed_refusal.protocol.failure.capability" capability
  | _ => Ok tt
  end.

Definition helper_code_boundary (code : HelperRefusalCodeV1) : HelperRefusalBoundaryV1 :=
  match code with
  | HelperCode_UnsupportedProtocol => HelperBoundary_Protocol
  | HelperCode_UnknownProfile | HelperCode_ProfileDigestMismatch => HelperBoundary_Profile
  | HelperCode_UnsupportedScope => HelperBoundary_Scope
  | HelperCode_UnsupportedVantage => HelperBoundary_Vantage
  | HelperCode_CapabilityDenied => HelperBoundary_Capability
  | HelperCode_DeadlineExpired => HelperBoundary_Deadline
  | HelperCode_BoundsUnsupported | HelperCode_ResourceExhausted => HelperBoundary_Resource
  | HelperCode_CheckpointInvalid => HelperBoundary_Checkpoint
  | HelperCode_CollectionFailed => HelperBoundary_Collection
  | HelperCode_InternalError => HelperBoundary_Internal
  end.

Section validation.
Context {HO : Host} {CH : Chrono}.

Definition governed_refusal_validate (r : GovernedRefusalV1) : result string unit :=
  require_token "governed_refusal.refusal_id" (gr_refusal_id r) ;?
  match gr_origin r with
  | Origin_Acquisition origin =>
      require_token "governed_refusal.acquisition.responsible_instance_id"
        (ar_responsible_instance_id origin) ;?
      acquisition_failure_validate (ar_failure origin)
  | Origin_Protocol origin =>
      require_token "governed_refusal.protocol.responsible_instance_id"
        (px_responsible_instance_id origin) ;?
      validate_protocol_rejection_failure (px_failure origin)
  | Origin_Helper origin =>
      validate_protocol_token "governed_refusal.helper.responsible_instance_id"
        (hr_responsible_instance_id origin) ;?
      require_token "governed_refusal.helper.message" (hr_message origin) ;?
      reject (negb (bool_decide (hr_boundary origin = helper_code_boundary (hr_code origin))))
        "helper refusal code and boundary disagree"
  | Origin_Profile origin =>
      validate_digest (gp_profile_semantic_id origin) "governed_refusal.profile_semantic_id" ;?
      require_token "governed_refusal.profile.instance_id" (pf_instance_id (gp_refusal origin)) ;?
      require_token "governed_refusal.profile.profile.id"
        (pk_id (pf_profile (gp_refusal origin))) ;?
      require_token "governed_refusal.profile.message" (pf_message (gp_refusal origin))
  end.

(** [DateTime::parse_from_rfc3339(..).map_err(|error| error.to_string())]. *)
Definition parse_instant (value : string) : result string instant :=
  ok_or (parse_from_rfc3339 value) (parse_error value).

Definition validate_canonical_utc_timestamp (value field : string) : result string instant :=
  let? parsed := parse_time value field in
  reject (negb (String.eqb (to_rfc3339_autosi parsed) value))
    (field +:+ " is not the canonical UTC representation emitted by NQ") ;?
  Ok parsed.

Definition validate_interval_v2 (i : AcquisitionIntervalV2) : result string unit :=
  require_token "acquisition.clock.id" (si_id (a2_clock i)) ;?
  require_token "acquisition.clock.version" (si_version (a2_clock i)) ;?
  validate_digest (si_digest (a2_clock i)) "acquisition.clock.digest" ;?
  let? start := validate_canonical_utc_timestamp (a2_started_at i) "acquisition.started_at" in
  let? end_ := validate_canonical_utc_timestamp (a2_ended_at i) "acquisition.ended_at" in
  reject (end_ <? start)%Z "acquisition interval starts after it ends" ;?
  match a2_qualification i with
  | Clock_Bounded _ basis =>
      require_token "acquisition.qualification.basis.id" (si_id basis) ;?
      require_token "acquisition.qualification.basis.version" (si_version basis) ;?
      validate_digest (si_digest basis) "acquisition.qualification.basis.digest"
  | Clock_Unqualified code detail =>
      require_token "acquisition.qualification.code" code ;?
      require_token "acquisition.qualification.detail" detail
  end.

Definition validate_contributing_attempt_interval (attempt diagnostic : AcquisitionIntervalV2)
    (kind : string) : result string unit :=
  reject (negb (bool_decide (a2_clock attempt = a2_clock diagnostic)))
    (kind +:+ " acquisition attempt does not use the diagnostic execution clock") ;?
  reject (negb (bool_decide (a2_qualification attempt = a2_qualification diagnostic)))
    (kind +:+ " acquisition attempt changes the diagnostic clock qualification") ;?
  let? attempt_start := parse_instant (a2_started_at attempt) in
  let? attempt_end := parse_instant (a2_ended_at attempt) in
  let? diagnostic_start := parse_instant (a2_started_at diagnostic) in
  let? diagnostic_end := parse_instant (a2_ended_at diagnostic) in
  reject ((attempt_start <? diagnostic_start)%Z || (diagnostic_end <? attempt_end)%Z)
    (kind +:+ " acquisition attempt falls outside the diagnostic attempt").

Definition validate_failed_attempt (provider_intake_id : string)
    (attempt diagnostic_attempt : AcquisitionIntervalV2) (provider_intake_ids : gset string)
    : result string (gset string) :=
  require_token "failed.provider_intake_id" provider_intake_id ;?
  let? provider_intake_ids :=
    insert_unique provider_intake_ids provider_intake_id "provider_intake_id" in
  validate_interval_v2 attempt ;?
  validate_contributing_attempt_interval attempt diagnostic_attempt "failed" ;?
  Ok provider_intake_ids.

Definition validate_unsupported (cause : UnsupportedCauseV2) : result string unit :=
  require_token "unsupported.unsupported_id" (uc_unsupported_id cause) ;?
  require_token "unsupported.capability.id" (si_id (uc_capability cause)) ;?
  require_token "unsupported.capability.version" (si_version (uc_capability cause)) ;?
  validate_digest (si_digest (uc_capability cause)) "unsupported.capability.digest" ;?
  require_token "unsupported.detail" (uc_detail cause) ;?
  match uc_origin cause with
  | UnsupportedOrigin_ExpectedInput failure_id => require_token "unsupported.failure_id" failure_id
  | UnsupportedOrigin_DiagnosticProfile => Ok tt
  end.

Definition no_response_class (class : AcquisitionFailureClassV1) : bool :=
  match class with
  | Failure_Timeout | Failure_Eof | Failure_HelperExited | Failure_Disconnect => true
  | _ => false
  end.

Definition validate_failed_cause (cause : FailedInputCauseV2) (failure_id : string)
    (diagnostic_attempt : AcquisitionIntervalV2) (provider_intake_ids : gset string)
    : result string (gset string) :=
  match cause with
  | Cause_Missing reason => require_token "failed.reason" reason ;? Ok provider_intake_ids
  | Cause_ProviderNoResponse provider_intake_id attempt _ failure =>
      let? provider_intake_ids := validate_failed_attempt provider_intake_id attempt
        diagnostic_attempt provider_intake_ids in
      acquisition_failure_validate failure ;?
      reject (negb (no_response_class (af_class failure)))
        "provider_no_response carries a different acquisition failure class" ;?
      Ok provider_intake_ids
  | Cause_AcquisitionFailed provider_intake_id attempt _ failure =>
      let? provider_intake_ids := validate_failed_attempt provider_intake_id attempt
        diagnostic_attempt provider_intake_ids in
      acquisition_failure_validate failure ;?
      reject (no_response_class (af_class failure))
        "acquisition_failed carries a provider-no-response failure class" ;?
      Ok provider_intake_ids
  | Cause_Unsupported unsupported =>
      validate_unsupported unsupported ;?
      match uc_origin unsupported with
      | UnsupportedOrigin_ExpectedInput referenced =>
          reject (negb (String.eqb referenced failure_id))
            "unsupported input cause references a different failure_id" ;?
          Ok provider_intake_ids
      | UnsupportedOrigin_DiagnosticProfile =>
          Err "failed-input unsupported cause cannot claim diagnostic-profile scope"
      end
  end.

(** The profile of a refusal is the artifact's own. *)
Definition artifact_profile (artifact : DiagnosticExecutionV2) (p : GovernedProfileRefusalV1)
    : bool :=
  String.eqb (gp_profile_semantic_id p) (d2_profile_semantic_id artifact)
  && String.eqb (pk_id (pf_profile (gp_refusal p))) (si_id (d2_profile artifact))
  && String.eqb (pretty (pk_version (pf_profile (gp_refusal p)))) (si_version (d2_profile artifact)).

Definition validate_input_refusal_binding (artifact : DiagnosticExecutionV2)
    (input : RefusedInputV2) : result string unit :=
  let? occurrence := ok_or
    (find_first (fun r => String.eqb (r2_input_id r) (f2_input_id input))
       (i2_received (d2_inputs artifact)))
    "refused input references an unknown received input" in
  let? expected := ok_or
    (find_first (fun e => String.eqb (xi_expectation_id e) (r2_expectation_id occurrence))
       (i2_expected (d2_inputs artifact)))
    "refused input references an unknown expectation" in
  match gr_origin (f2_refusal input), f2_profile_binding input with
  | Origin_Profile profile, Some Binding_ArtifactProfile =>
      reject (negb (artifact_profile artifact profile)
              || bool_decide (pf_boundary (gp_refusal profile) = ProfileBoundary_Detector))
        "artifact-profile input refusal binding is invalid"
  | Origin_Profile profile, Some (Binding_ForeignInputRole bound_role) =>
      require_token "refused.profile_binding.role" bound_role ;?
      reject (negb (String.eqb bound_role (xi_role expected)))
        "foreign-profile refusal role differs from expected role" ;?
      reject (artifact_profile artifact profile)
        "artifact-profile refusal is mislabeled as foreign"
  | Origin_Profile _, None => Err "profile-origin input refusal lacks an explicit binding"
  | _, Some _ => Err "non-profile input refusal carries a profile binding"
  | _, None => Ok tt
  end.

Definition require_sorted_unique (field : string) (values : list string) : result string unit :=
  strictly_ordered (field +:+ " must be strictly ordered and unique") None values.

(** ** Claim frontiers *)

(** The identities a claim may refer to. *)
Record Frontier := {
  fr_selected : gset string;
  fr_refusals : gset string;
  fr_failures : gset string;
  fr_bindings : gmap string StateBindingV1;
  fr_omitted : gset string
}.

Definition frontier (a : DiagnosticExecutionV2) : Frontier :=
  {| fr_selected := list_to_set (ti_input_id <$> i2_selected (d2_inputs a));
     fr_refusals := list_to_set ((fun i => gr_refusal_id (f2_refusal i)) <$> i2_refused (d2_inputs a));
     fr_failures := list_to_set (l2_failure_id <$> i2_failed (d2_inputs a));
     fr_bindings := index_by sb_binding_id (d2_state_bindings a);
     fr_omitted := list_to_set (od_code <$> pj_omitted_distinctions (d2_projection a)) |}.

(** [l.iter().any(|id| !set.contains(id))]. *)
Definition outside (set : gset string) (l : list string) : bool :=
  existsb (fun id => negb (bool_decide (id ∈ set))) l.

Definition check_claim_v2 (fr : Frontier) (primary : option string) (claim : ClaimV2)
    (state : gset string * bool) : result string (gset string * bool) :=
  let '(claim_ids, any_contradictory) := state in
  require_token "claim.claim_id" (c2_claim_id claim) ;?
  require_token "claim.proposition" (c2_proposition claim) ;?
  let? claim_ids := insert_unique claim_ids (c2_claim_id claim) "claim_id" in
  let any_contradictory :=
    any_contradictory || bool_decide (c2_status claim = Claim_Contradictory) in
  reject (bool_decide (c2_dependency_input_ids claim = [])
          && bool_decide (c2_dependency_refusal_ids claim = [])
          && bool_decide (c2_dependency_failure_ids claim = []))
    "v2 claim has no exact dependency" ;?
  require_sorted_unique "claim.dependency_input_ids" (c2_dependency_input_ids claim) ;?
  require_sorted_unique "claim.dependency_refusal_ids" (c2_dependency_refusal_ids claim) ;?
  require_sorted_unique "claim.dependency_failure_ids" (c2_dependency_failure_ids claim) ;?
  let dependencies := list_to_set (C := gset string) (c2_dependency_input_ids claim) in
  reject (outside (fr_selected fr) (c2_dependency_input_ids claim))
    "v2 claim references a non-selected input" ;?
  reject (outside (fr_refusals fr) (c2_dependency_refusal_ids claim))
    "v2 claim references an unknown refused-input carrier" ;?
  reject (outside (fr_failures fr) (c2_dependency_failure_ids claim))
    "v2 claim references an unknown failed-input occurrence" ;?
  require_sorted_unique "claim.state_binding_ids" (c2_state_binding_ids claim) ;?
  for_each (check_claim_binding (fr_bindings fr) dependencies
              "v2 claim references an unknown state binding") (c2_state_binding_ids claim) ;?
  require_sorted_unique "claim.required_distinctions" (c2_required_distinctions claim) ;?
  for_each (check_distinction (fr_omitted fr)) (c2_required_distinctions claim) ;?
  require_sorted_unique "claim.limitations" (c2_limitations claim) ;?
  for_each (require_token "claim.limitation") (c2_limitations claim) ;?
  require_sorted_unique "claim.nonclaims" (c2_nonclaims claim) ;?
  for_each (require_token "claim.nonclaim") (c2_nonclaims claim) ;?
  check_condition_effect (c2_status claim) (c2_condition_effect claim) primary
    (c2_claim_id claim) ;?
  Ok (claim_ids, any_contradictory).

Definition validate_claim_frontiers (a : DiagnosticExecutionV2) : result string unit :=
  let outcome := d2_outcome a in
  require_sorted_unique "claims" (c2_claim_id <$> d2_claims a) ;?
  let? '(claim_ids, any_contradictory) :=
    fold_try (check_claim_v2 (frontier a) (d2_primary_claim_id a)) (d2_claims a) (∅, false) in
  check_primary_id (d2_primary_claim_id a) claim_ids (o2_derivation outcome) ;?
  reject (negb (completed_or_partial (o2_derivation outcome))
          && negb (bool_decide (length (d2_claims a) = 0)))
    "refused or unsupported outcome exports claims" ;?
  check_primary
    (primary_id ← d2_primary_claim_id a;
     primary ← find_first (fun claim => String.eqb (c2_claim_id claim) primary_id) (d2_claims a);
     Some (c2_condition_effect primary, c2_status primary,
           bool_decide (c2_state_binding_ids primary = [])))
    (o2_condition outcome) (o2_coherence outcome) ;?
  reject (negb (Bool.eqb any_contradictory
                         (bool_decide (o2_coherence outcome = Coherence_Contradictory))))
    "exported claim dissent differs from outcome coherence".

(** ** Outcome frontiers *)

Definition validate_refusal_correspondence (a : DiagnosticExecutionV2) : result string unit :=
  match i2_refused (d2_inputs a) with
  | [] =>
      match o2_refusals (d2_outcome a) with
      | [refusal] =>
          match gr_origin refusal with
          | Origin_Profile profile =>
              reject (negb (artifact_profile a profile)
                      || negb (bool_decide (pf_boundary (gp_refusal profile)
                                            = ProfileBoundary_Detector))
                      || negb (bool_decide (pf_code (gp_refusal profile)
                                            = ProfileCode_CannotEvaluate))
                      || negb (String.eqb (pf_message (gp_refusal profile))
                                 (o2_summary (d2_outcome a))))
                "detector refusal disagrees with artifact profile or outcome"
          | _ => Err "detector refusal must be profile-origin"
          end
      | _ => Err "detector refusal must carry exactly one refusal"
      end
  | _ =>
      reject (negb (btree_eqb governed_refusal_eqb
                      (index_by gr_refusal_id (f2_refusal <$> i2_refused (d2_inputs a)))
                      (index_by gr_refusal_id (o2_refusals (d2_outcome a)))))
        "outcome does not preserve the exact input-refusal frontier"
  end.

Definition unsupported_causes (a : DiagnosticExecutionV2) : list UnsupportedCauseV2 :=
  omap (fun input => match l2_cause input with
                     | Cause_Unsupported unsupported => Some unsupported
                     | _ => None
                     end) (i2_failed (d2_inputs a)).

Definition validate_unsupported_correspondence (a : DiagnosticExecutionV2)
    : result string unit :=
  match unsupported_causes a with
  | [] =>
      match o2_unsupported (d2_outcome a) with
      | [cause] =>
          reject (negb (bool_decide (uc_origin cause = UnsupportedOrigin_DiagnosticProfile))
                  || negb (bool_decide (uc_code cause = Unsupported_QuestionUnsupported))
                  || negb (bool_decide (uc_capability cause = d2_question a)))
            "profile unsupported cause disagrees with bounded question"
      | _ => Err "profile unsupported must carry exactly one cause"
      end
  | causes =>
      reject (negb (btree_eqb (fun x y => bool_decide (x = y))
                      (index_by uc_unsupported_id causes)
                      (index_by uc_unsupported_id (o2_unsupported (d2_outcome a)))))
        "outcome does not preserve the exact unsupported frontier"
  end.

Definition validate_exact_outcome_frontiers (a : DiagnosticExecutionV2) : result string unit :=
  let outcome := d2_outcome a in
  require_sorted_unique "outcome.refusals" (gr_refusal_id <$> o2_refusals outcome) ;?
  for_each governed_refusal_validate (o2_refusals outcome) ;?
  require_sorted_unique "outcome.unsupported" (uc_unsupported_id <$> o2_unsupported outcome) ;?
  for_each validate_unsupported (o2_unsupported outcome) ;?
  let no_refusals := bool_decide (length (o2_refusals outcome) = 0) in
  let no_unsupported := bool_decide (length (o2_unsupported outcome) = 0) in
  match o2_derivation outcome with
  | Derivation_Refused =>
      reject (no_refusals || negb no_unsupported)
        "refused outcome has an invalid exact frontier" ;?
      validate_refusal_correspondence a
  | Derivation_Unsupported =>
      reject (no_unsupported || negb no_refusals)
        "unsupported outcome has an invalid exact frontier" ;?
      validate_unsupported_correspondence a
  | Derivation_Completed | Derivation_Partial =>
      reject (negb no_refusals || negb no_unsupported)
        "completed/partial outcome carries refusal or unsupported frontier"
  end.

(** ** The structural surrogate *)

Definition refusal_origin_name (r : GovernedRefusalV1) : string :=
  match gr_origin r with
  | Origin_Acquisition _ => "acquisition"
  | Origin_Protocol _ => "protocol"
  | Origin_Helper _ => "helper"
  | Origin_Profile _ => "profile"
  end.

Definition claim_v1 (claim : ClaimV2) : ClaimV1 :=
  {| cl_claim_id := c2_claim_id claim; cl_proposition := c2_proposition claim;
     cl_status := if bool_decide (c2_dependency_input_ids claim = []) then Claim_Unknown
                  else c2_status claim;
     cl_condition_effect := c2_condition_effect claim;
     cl_dependency_input_ids := c2_dependency_input_ids claim;
     cl_state_binding_ids := c2_state_binding_ids claim;
     cl_required_distinctions := c2_required_distinctions claim;
     cl_limitations := c2_limitations claim; cl_nonclaims := c2_nonclaims claim |}.

Definition interval_v1 (i : AcquisitionIntervalV2) : AcquisitionIntervalV1 :=
  {| ai_started_at := a2_started_at i; ai_ended_at := a2_ended_at i; ai_clock := a2_clock i;
     ai_clock_uncertainty_ms :=
       match a2_qualification i with
       | Clock_Bounded maximum_error_ms _ => maximum_error_ms
       | Clock_Unqualified _ _ => 0
       end |}.

Definition failed_input_v1 (item : FailedInputV2) : FailedInputV1 :=
  let '(kind, reason) :=
    match l2_cause item with
    | Cause_Missing reason => (FailedInput_Missing, reason)
    | Cause_ProviderNoResponse _ _ _ _ =>
        (FailedInput_NoResponse, "exact provider no-response failure retained by v2")
    | Cause_AcquisitionFailed _ _ _ _ =>
        (FailedInput_AcquisitionFailed, "exact acquisition failure retained by v2")
    | Cause_Unsupported unsupported => (FailedInput_Unsupported, uc_detail unsupported)
    end in
  {| li_expectation_id := l2_expectation_id item; li_failure_id := l2_failure_id item;
     li_kind := kind; li_reason := reason |}.

Definition received_v1 (item : ReceivedInputV2) : ReceivedInputV1 :=
  {| ri_input_id := r2_input_id item; ri_expectation_id := r2_expectation_id item;
     ri_raw_artifact_id := r2_raw_artifact_id item; ri_capture_mode := r2_capture_mode item;
     ri_capture_policy := r2_capture_policy item;
     ri_availability_at_derivation := r2_availability_at_derivation item;
     ri_acquisition := interval_v1 (r2_acquisition item); ri_received_at := r2_received_at item |}.

Definition refused_v1 (item : RefusedInputV2) : RefusedInputV1 :=
  {| fi_input_id := f2_input_id item; fi_refusal_id := gr_refusal_id (f2_refusal item);
     fi_code := refusal_origin_name (f2_refusal item);
     fi_reason := "exact governed refusal retained by v2" |}.

Definition surrogate_coherence (a : DiagnosticExecutionV2) : CoherenceV1 :=
  if bool_decide (o2_coherence (d2_outcome a) = Coherence_Contradictory)
     && negb (existsb (fun c => bool_decide (cl_status c = Claim_Contradictory))
                (claim_v1 <$> d2_claims a))
  then Coherence_NotEvaluated
  else o2_coherence (d2_outcome a).

Definition v1_structural_surrogate (a : DiagnosticExecutionV2) (artifact_id : string)
    : DiagnosticExecutionV1 :=
  let inputs := d2_inputs a in
  let outcome := d2_outcome a in
  {| dx_schema := DiagnosticExecutionSchema_V1; dx_artifact_id := artifact_id;
     dx_canonicalization := d2_canonicalization a; dx_producer := d2_producer a;
     dx_request_id := d2_request_id a; dx_run_id := d2_run_id a; dx_question := d2_question a;
     dx_subject := d2_subject a; dx_profile := d2_profile a; dx_vantage := d2_vantage a;
     dx_state_model := d2_state_model a; dx_evaluator := d2_evaluator a;
     dx_threshold_policy := d2_threshold_policy a; dx_projection := d2_projection a;
     dx_execution_clock := d2_execution_clock a; dx_started_at := d2_started_at a;
     dx_completed_at := d2_completed_at a;
     dx_attempt_interval := interval_v1 (d2_attempt_interval a);
     dx_inputs :=
       {| ia_selection_rule := i2_selection_rule inputs; ia_expected := i2_expected inputs;
          ia_received := received_v1 <$> i2_received inputs; ia_admitted := i2_admitted inputs;
          ia_refused := refused_v1 <$> i2_refused inputs;
          ia_failed := failed_input_v1 <$> i2_failed inputs; ia_excluded := i2_excluded inputs;
          ia_selected := i2_selected inputs |};
     dx_state_bindings := d2_state_bindings a; dx_claims := claim_v1 <$> d2_claims a;
     dx_primary_claim_id := d2_primary_claim_id a;
     dx_outcome :=
       {| oc_derivation := o2_derivation outcome; oc_condition := o2_condition outcome;
          oc_coherence := surrogate_coherence a; oc_coverage := o2_coverage outcome;
          oc_summary := o2_summary outcome;
          oc_refusal := (fun r => {| rf_code := refusal_origin_name r;
                                     rf_reason := gr_refusal_id r |})
                        <$> head (o2_refusals outcome) |};
     dx_limitations := d2_limitations a; dx_nonclaims := d2_nonclaims a |}.

(** ** The artifact *)

Context {SX : Serde DiagnosticExecutionV1} {S2 : Serde DiagnosticExecutionV2}.

(** A received input: its intake id is new, and its acquisition contributes. *)
Definition check_received_v2 (a : DiagnosticExecutionV2) (item : ReceivedInputV2)
    (provider_intake_ids : gset string) : result string (gset string) :=
  require_token "received.provider_intake_id" (r2_provider_intake_id item) ;?
  let? provider_intake_ids :=
    insert_unique provider_intake_ids (r2_provider_intake_id item) "provider_intake_id" in
  validate_interval_v2 (r2_acquisition item) ;?
  validate_contributing_attempt_interval (r2_acquisition item) (d2_attempt_interval a)
    "received" ;?
  let? received_at := validate_canonical_utc_timestamp (r2_received_at item)
    "received.received_at" in
  let? acquisition_end := parse_instant (a2_ended_at (r2_acquisition item)) in
  let? completed_at := parse_instant (d2_completed_at a) in
  reject ((received_at <? acquisition_end)%Z || (completed_at <? received_at)%Z)
    "received_at falls before acquisition completion or after diagnostic completion" ;?
  Ok provider_intake_ids.

Definition check_refused_v2 (a : DiagnosticExecutionV2) (refused : RefusedInputV2)
    : result string unit :=
  governed_refusal_validate (f2_refusal refused) ;?
  validate_input_refusal_binding a refused.

Definition check_failed_v2 (a : DiagnosticExecutionV2) (failed : FailedInputV2)
    (state : gset string * gset string) : result string (gset string * gset string) :=
  let '(provider_intake_ids, input_unsupported_ids) := state in
  let? provider_intake_ids := validate_failed_cause (l2_cause failed) (l2_failure_id failed)
    (d2_attempt_interval a) provider_intake_ids in
  match l2_cause failed with
  | Cause_Unsupported unsupported =>
      let? input_unsupported_ids :=
        insert_unique input_unsupported_ids (uc_unsupported_id unsupported) "unsupported_id" in
      Ok (provider_intake_ids, input_unsupported_ids)
  | _ => Ok (provider_intake_ids, input_unsupported_ids)
  end.

Definition execution_v2_validate (a : DiagnosticExecutionV2) : result string unit :=
  validate_digest (d2_profile_semantic_id a) "profile_semantic_id" ;?
  let? _ := validate_canonical_utc_timestamp (d2_started_at a) "started_at" in
  let? _ := validate_canonical_utc_timestamp (d2_completed_at a) "completed_at" in
  validate_interval_v2 (d2_attempt_interval a) ;?
  let? provider_intake_ids :=
    fold_try (check_received_v2 a) (i2_received (d2_inputs a)) ∅ in
  for_each (check_refused_v2 a) (i2_refused (d2_inputs a)) ;?
  let? _ := fold_try (check_failed_v2 a) (i2_failed (d2_inputs a)) (provider_intake_ids, ∅) in
  validate_claim_frontiers a ;?
  validate_exact_outcome_frontiers a ;?
  let? surrogate_id := computed_object_id (v1_structural_surrogate a "") "artifact_id" in
  execution_validate (v1_structural_surrogate a surrogate_id) ;?
  validate_digest (d2_artifact_id a) "artifact_id" ;?
  let? computed := computed_object_id a "artifact_id" in
  reject (negb (String.eqb (d2_artifact_id a) computed)) "NQ v2 artifact identity mismatch".

Definition diagnostic_validate (x : DiagnosticExecution) : result string unit :=
  match x with
  | Execution_V1 v => execution_validate v
  | Execution_V2 v => execution_v2_validate v
  end.

(** [serde_json::to_string] of a failure; its derived serializer cannot fail. *)
Context (failure_json : AcquisitionFailureV1 -> string).

Definition failure_trace_v1 (i : FailedInputV1) : DiagnosticInputFailureTrace :=
  {| ft_expectation_id := li_expectation_id i; ft_failure_id := li_failure_id i;
     ft_kind := match li_kind i with
                | FailedInput_Missing => InputFailure_Missing
                | FailedInput_NoResponse => InputFailure_ProviderNoResponse
                | FailedInput_AcquisitionFailed => InputFailure_AcquisitionFailed
                | FailedInput_Unsupported => InputFailure_Unsupported
                end;
     ft_detail := li_reason i |}.
Definition failure_trace_v2 (i : FailedInputV2) : DiagnosticInputFailureTrace :=
  let '(kind, detail) :=
    match l2_cause i with
    | Cause_Missing reason => (InputFailure_Missing, reason)
    | Cause_ProviderNoResponse _ _ _ failure =>
        (InputFailure_ProviderNoResponse, failure_json failure)
    | Cause_AcquisitionFailed _ _ _ failure =>
        (InputFailure_AcquisitionFailed, failure_json failure)
    | Cause_Unsupported unsupported => (InputFailure_Unsupported, uc_detail unsupported)
    end in
  {| ft_expectation_id := l2_expectation_id i; ft_failure_id := l2_failure_id i;
     ft_kind := kind; ft_detail := detail |}.
Definition input_failure_traces : DiagnosticExecution -> list DiagnosticInputFailureTrace :=
  of_version (fun v => failure_trace_v1 <$> ia_failed (dx_inputs v))
    (fun v => failure_trace_v2 <$> i2_failed (d2_inputs v)).
End validation.
