(* ===== verification/Currentness.v ===== *)
(** * Present support (crates/nightshiftd/src/currentness.rs)

    The exact query to a present-evidence authority and the result it returns.
    Currentness is the authority's: Nightshift only checks that a result is well formed
    and binds the live query.  The resolver process is a port, an argument of the
    operations that use it. *)
From S2P Require Import Prelude Text External.
From S2P Require Diagnostic.
Local Open Scope string_scope.

(** ** Data *)

Record SupportReceiverInstantV1 := {
  sr_clock_id : string;
  sr_tick : N
}.

#[global] Instance SupportReceiverInstantV1_eq_dec : EqDecision SupportReceiverInstantV1.
Proof. solve_decision. Defined.

Record SupportExpiryV1 := {
  se_clock_id : string;
  se_tick : N
}.

#[global] Instance SupportExpiryV1_eq_dec : EqDecision SupportExpiryV1.
Proof. solve_decision. Defined.

Record RecurrenceLatestAdmissibleV1 := {
  rl_scheduler_clock_id : string;
  rl_at : instant
}.

#[global] Instance RecurrenceLatestAdmissibleV1_eq_dec : EqDecision RecurrenceLatestAdmissibleV1.
Proof. solve_decision. Defined.

Record TemporalHoldExpiryV1 := {
  th_scheduler_clock_id : string;
  th_at : instant
}.

#[global] Instance TemporalHoldExpiryV1_eq_dec : EqDecision TemporalHoldExpiryV1.
Proof. solve_decision. Defined.

Inductive SupportStandingV1 :=
| Support_Current
| Support_Expired
| Support_Unknown
| Support_Unsupported
| Support_Contradictory
| Support_Blind.

#[global] Instance SupportStandingV1_eq_dec : EqDecision SupportStandingV1.
Proof. solve_decision. Defined.

Record PresentEvidenceQueryV1 := {
  qy_schema : string;
  qy_query_id : string;
  qy_observation_cycle_id : string;
  qy_request_nonce : string;
  qy_observation_id : string;
  qy_diagnostic_inputs_id : string;
  qy_subject_id : string;
  qy_scope_id : string;
  qy_artifact_ids : list string
}.

Record QualifiedSupportV1 := {
  qs_schema : string;
  qs_support_id : string;
  qs_authority_id : string;
  qs_query_id : string;
  qs_observation_cycle_id : string;
  qs_request_nonce : string;
  qs_observation_id : string;
  qs_diagnostic_inputs_id : string;
  qs_subject_id : string;
  qs_scope_id : string;
  qs_artifact_ids : list string;
  qs_evaluated_at : SupportReceiverInstantV1;
  qs_expiry : option SupportExpiryV1;
  qs_standing : SupportStandingV1;
  qs_evidence_refs : list string;
  qs_contradiction_refs : list string
}.

#[global] Instance QualifiedSupportV1_eq_dec : EqDecision QualifiedSupportV1.
Proof. solve_decision. Defined.

Definition SUPPORT_QUERY_SCHEMA_V1 : string := "nightshift.present_evidence_query.v1".
Definition QUALIFIED_SUPPORT_SCHEMA_V1 : string := "nightshift.qualified_support.v1".

(** ** Operations *)

Section currentness.
Context {HO : Host} {SQ : Serde PresentEvidenceQueryV1} {SS : Serde QualifiedSupportV1}.

Definition require_token (name value : string) : result string unit :=
  reject (trim_is_empty value || has_whitespace value) (name +:+ " must be a non-empty token").

Definition require_digest (name value : string) : result string unit :=
  Diagnostic.validate_digest value name.

Definition object_id {T} {ST : Serde T} (t : T) (identity_field : string) : result string string :=
  let? v := to_value t in
  match v with
  | Object kvs =>
      let? bytes := jcs_value (Object (object_remove identity_field kvs)) in
      Ok (Diagnostic.sha256_id bytes)
  | _ => Err "identity-bearing value must be an object"
  end.

Fixpoint ordered_tokens (field : string) (previous : option string) (values : list string)
    : result string unit :=
  match values with
  | [] => Ok tt
  | value :: values =>
      require_token field value ;?
      reject (match previous with
              | Some item => negb (String.ltb item value)
              | None => false
              end) (field +:+ " must be strictly ordered and unique") ;?
      ordered_tokens field (Some value) values
  end.
Definition strictly_ordered_unique (values : list string) (field : string) : result string unit :=
  ordered_tokens field None values.
Definition strictly_ordered_unique_digests (values : list string) (field : string)
    : result string unit :=
  strictly_ordered_unique values field ;?
  for_each (require_digest field) values.

Definition receiver_instant_validate (i : SupportReceiverInstantV1) (field : string)
    : result string unit :=
  require_token (field +:+ ".clock_id") (sr_clock_id i).

Definition is_current_at (e : SupportExpiryV1) (evaluated_at : SupportReceiverInstantV1)
    : result string bool :=
  require_token "support_expiry.clock_id" (se_clock_id e) ;?
  receiver_instant_validate evaluated_at "evaluated_at" ;?
  reject (negb (String.eqb (se_clock_id e) (sr_clock_id evaluated_at)))
    "support expiry and evaluation use different receiver clocks" ;?
  Ok (sr_tick evaluated_at <? se_tick e)%N.

Definition admits (l : RecurrenceLatestAdmissibleV1) (scheduler_clock_id : string) (now : instant)
    : result string bool :=
  require_token "scheduler_clock_id" scheduler_clock_id ;?
  require_token "latest_admissible.scheduler_clock_id" (rl_scheduler_clock_id l) ;?
  reject (negb (String.eqb scheduler_clock_id (rl_scheduler_clock_id l)))
    "recurrence instants use different scheduler clocks" ;?
  Ok (now <=? rl_at l)%Z.

Definition is_active (h : TemporalHoldExpiryV1) (scheduler_clock_id : string) (now : instant)
    : result string bool :=
  require_token "scheduler_clock_id" scheduler_clock_id ;?
  require_token "hold_expiry.scheduler_clock_id" (th_scheduler_clock_id h) ;?
  reject (negb (String.eqb scheduler_clock_id (th_scheduler_clock_id h)))
    "hold instants use different scheduler clocks" ;?
  Ok (now <? th_at h)%Z.

(** [for (name, value) in [..] { f(name, value)?; }]. *)
Definition each_named (f : string -> string -> result string unit)
    (l : list (string * string)) : result string unit :=
  for_each (fun '(name, value) => f name value) l.

Definition query_validate (q : PresentEvidenceQueryV1) : result string unit :=
  reject (negb (String.eqb (qy_schema q) SUPPORT_QUERY_SCHEMA_V1))
    ("unsupported support query schema " +:+ qy_schema q) ;?
  each_named require_digest
    [("query_id", qy_query_id q); ("observation_id", qy_observation_id q);
     ("diagnostic_inputs_id", qy_diagnostic_inputs_id q); ("scope_id", qy_scope_id q)] ;?
  each_named require_token
    [("observation_cycle_id", qy_observation_cycle_id q);
     ("request_nonce", qy_request_nonce q); ("subject_id", qy_subject_id q)] ;?
  strictly_ordered_unique_digests (qy_artifact_ids q) "artifact_ids" ;?
  let? computed := object_id q "query_id" in
  reject (negb (String.eqb (qy_query_id q) computed))
    "query_id does not match the canonical query preimage".

Definition with_query_identity (schema query_id : string) (q : PresentEvidenceQueryV1)
    : PresentEvidenceQueryV1 :=
  {| qy_schema := schema; qy_query_id := query_id;
     qy_observation_cycle_id := qy_observation_cycle_id q;
     qy_request_nonce := qy_request_nonce q; qy_observation_id := qy_observation_id q;
     qy_diagnostic_inputs_id := qy_diagnostic_inputs_id q; qy_subject_id := qy_subject_id q;
     qy_scope_id := qy_scope_id q; qy_artifact_ids := qy_artifact_ids q |}.

Definition query_seal (q : PresentEvidenceQueryV1) : result string PresentEvidenceQueryV1 :=
  let? id := object_id (with_query_identity SUPPORT_QUERY_SCHEMA_V1 "" q) "query_id" in
  let sealed := with_query_identity SUPPORT_QUERY_SCHEMA_V1 id q in
  query_validate sealed ;?
  Ok sealed.

(** [self.expiry.as_ref().map(..).transpose()?]. *)
Definition expiry_current (s : QualifiedSupportV1) : result string (option bool) :=
  match qs_expiry s with
  | Some expiry => let? b := is_current_at expiry (qs_evaluated_at s) in Ok (Some b)
  | None => Ok None
  end.

Definition check_standing (s : QualifiedSupportV1) (current : option bool) : result string unit :=
  let no_contradictions := bool_decide (qs_contradiction_refs s = []) in
  match qs_standing s with
  | Support_Current =>
      reject (negb (bool_decide (current = Some true)))
        "current support requires expiry strictly after evaluation" ;?
      reject (negb no_contradictions) "current support cannot carry unresolved contradictions"
  | Support_Expired =>
      reject (negb (bool_decide (current = Some false)))
        "expired support requires expiry at or before evaluation"
  | Support_Contradictory =>
      reject no_contradictions "contradictory support requires exact contradiction references"
  | _ => Ok tt
  end.

Definition computed_support_id (s : QualifiedSupportV1) : result string string :=
  object_id s "support_id".

Definition check_support_id (s : QualifiedSupportV1) : result string unit :=
  let? computed := computed_support_id s in
  reject (negb (String.eqb (qs_support_id s) computed))
    "support_id does not match the canonical support preimage".

Definition validate_shape (s : QualifiedSupportV1) : result string unit :=
  reject (negb (String.eqb (qs_schema s) QUALIFIED_SUPPORT_SCHEMA_V1))
    ("unsupported qualified support schema " +:+ qs_schema s) ;?
  each_named require_digest
    [("support_id", qs_support_id s); ("query_id", qs_query_id s);
     ("observation_id", qs_observation_id s);
     ("diagnostic_inputs_id", qs_diagnostic_inputs_id s); ("scope_id", qs_scope_id s)] ;?
  each_named require_token
    [("authority_id", qs_authority_id s); ("observation_cycle_id", qs_observation_cycle_id s);
     ("request_nonce", qs_request_nonce s); ("subject_id", qs_subject_id s)] ;?
  receiver_instant_validate (qs_evaluated_at s) "evaluated_at" ;?
  strictly_ordered_unique_digests (qs_artifact_ids s) "artifact_ids" ;?
  strictly_ordered_unique_digests (qs_evidence_refs s) "evidence_refs" ;?
  strictly_ordered_unique_digests (qs_contradiction_refs s) "contradiction_refs" ;?
  let? current := expiry_current s in
  check_standing s current ;?
  check_support_id s.

Definition binds_query (s : QualifiedSupportV1) (q : PresentEvidenceQueryV1) : bool :=
  String.eqb (qs_query_id s) (qy_query_id q)
  && String.eqb (qs_observation_cycle_id s) (qy_observation_cycle_id q)
  && String.eqb (qs_request_nonce s) (qy_request_nonce q)
  && String.eqb (qs_observation_id s) (qy_observation_id q)
  && String.eqb (qs_diagnostic_inputs_id s) (qy_diagnostic_inputs_id q)
  && String.eqb (qs_subject_id s) (qy_subject_id q)
  && String.eqb (qs_scope_id s) (qy_scope_id q)
  && bool_decide (qs_artifact_ids s = qy_artifact_ids q).

Definition validate_for (s : QualifiedSupportV1) (q : PresentEvidenceQueryV1)
    : result string unit :=
  query_validate q ;?
  validate_shape s ;?
  reject (negb (String.eqb (qs_schema s) QUALIFIED_SUPPORT_SCHEMA_V1))
    ("unsupported qualified support schema " +:+ qs_schema s) ;?
  reject (negb (binds_query s q)) "qualified support does not exactly bind the live query" ;?
  let? current := expiry_current s in
  check_standing s current ;?
  check_support_id s.

(** The port that returns a fixed result, still bound to the query. *)
Definition fixed_resolve (support : QualifiedSupportV1) (q : PresentEvidenceQueryV1)
    : result string QualifiedSupportV1 :=
  validate_for support q ;?
  Ok support.
End currentness.
