(* ===== verification/Posture.v ===== *)
(** * Operational posture (crates/nightshiftd/src/diagnostic_posture.rs)

    The typed reading of diagnostic artifacts: a closed inventory of what must be
    diagnosed, the receiver's inputs, the schedule each entry must recur under and the
    evidence that it did; each entry assessed, and the axes and headline derived. *)
From S2P Require Import Prelude Text External Currentness Diagnostic DiagnosticV2.
Local Open Scope string_scope.

(** ** Data *)

Record DiagnosticKey := {
  dk_question_id : string;
  dk_subject_id : string;
  dk_profile_id : string;
  dk_vantage_id : string
}.

#[global] Instance DiagnosticKey_eq_dec : EqDecision DiagnosticKey.
Proof. solve_decision. Defined.

Inductive Requirement := Requirement_Mandatory | Requirement_Optional | Requirement_Excluded.

#[global] Instance Requirement_eq_dec : EqDecision Requirement.
Proof. solve_decision. Defined.

Record RequiredStateBinding := {
  rb_kind : string;
  rb_value : string
}.

Record ContractBinding := {
  cb_producer_node_id : string;
  cb_producer_build : SemanticIdentityV1;
  cb_producer_cohort : SemanticIdentityV1;
  cb_question : SemanticIdentityV1;
  cb_profile : SemanticIdentityV1;
  cb_profile_semantic_id : option string;
  cb_vantage : SemanticIdentityV1;
  cb_state_model : SemanticIdentityV1;
  cb_evaluator : SemanticIdentityV1;
  cb_threshold_policy : SemanticIdentityV1;
  cb_projection : ProjectionV1;
  cb_subject : SubjectV1;
  cb_claim_id : string
}.

Record InventoryEntry := {
  ie_binding : ContractBinding;
  ie_requirement : Requirement;
  ie_required_state_bindings : list RequiredStateBinding;
  ie_max_age_seconds : N
}.

Inductive DeliveryStanding :=
| Delivery_Qualified
| Delivery_PartialDelivery
| Delivery_Failed
| Delivery_NotConfigured
| Delivery_NotRequired.

#[global] Instance DeliveryStanding_eq_dec : EqDecision DeliveryStanding.
Proof. solve_decision. Defined.

Record PosturePolicy := {
  pp_schema : string;
  pp_policy_id : string;
  pp_generation : string;
  pp_subject : SubjectV1;
  pp_role : SemanticIdentityV1;
  pp_delivery_required : bool;
  pp_inventory : list InventoryEntry
}.

Inductive DiagnosticInputStatus :=
| Input_Delivered (artifact : DiagnosticExecution)
| Input_NoResponse
| Input_AcquisitionFailed (reason : string)
| Input_NotConfigured.

Record DiagnosticInput := {
  in_key : DiagnosticKey;
  in_status : DiagnosticInputStatus
}.

Record DiagnosticInputs := {
  is_schema : string;
  is_inputs_id : string;
  is_inputs : list DiagnosticInput
}.

Inductive Standing :=
| Standing_Current
| Standing_SupportExpired
| Standing_SupportUnknown
| Standing_SupportUnsupported
| Standing_SupportContradictory
| Standing_SupportBlind
| Standing_ClockUnqualified
| Standing_FutureDated
| Standing_Stale
| Standing_StateMismatch
| Standing_BindingMismatch
| Standing_NoResponse
| Standing_AcquisitionFailed
| Standing_NotConfigured
| Standing_Missing
| Standing_DuplicateInput
| Standing_Excluded.

#[global] Instance Standing_eq_dec : EqDecision Standing.
Proof. solve_decision. Defined.

Inductive OperatorStatus :=
| Status_Clean
| Status_ConditionPresent
| Status_ExplicitlyAbsent
| Status_PartialEvidence
| Status_Refused
| Status_Unsupported
| Status_Contradictory
| Status_PairwiseOnly
| Status_StateIncompatible
| Status_InsufficientCoherence
| Status_CoverageNarrowed
| Status_CoverageMissing
| Status_Unknown
| Status_NotApplicable
| Status_ClockUnqualified
| Status_Stale
| Status_FutureDated
| Status_StateMismatch
| Status_BindingMismatch
| Status_NoResponse
| Status_AcquisitionFailed
| Status_NotConfigured
| Status_Missing
| Status_DuplicateInput
| Status_Excluded.

#[global] Instance OperatorStatus_eq_dec : EqDecision OperatorStatus.
Proof. solve_decision. Defined.

Record ArtifactRef := {
  ax_contract_schema : option string;
  ax_profile_semantic_id : option string;
  ax_artifact_id : string;
  ax_request_id : string;
  ax_run_id : string;
  ax_attempt_interval : AcquisitionInterval;
  ax_key : DiagnosticKey;
  ax_claim_id : option string;
  ax_claim : option DiagnosticClaim;
  ax_dependency_acquisitions : list AcquisitionInterval
}.

#[global] Instance ArtifactRef_eq_dec : EqDecision ArtifactRef.
Proof. solve_decision. Defined.

Record NqClaimTrace := {
  tr_artifact_id : string;
  tr_evaluator : SemanticIdentityV1;
  tr_threshold_policy : SemanticIdentityV1;
  tr_projection : ProjectionV1;
  tr_primary_claim : option DiagnosticClaim;
  tr_primary_state_bindings : list StateBindingV1;
  tr_outcome : DiagnosticOutcome;
  tr_input_failures : list DiagnosticInputFailureTrace;
  tr_limitations : list LimitationV1;
  tr_nonclaims : list string
}.

Record EntryAssessment := {
  ea_key : DiagnosticKey;
  ea_requirement : Requirement;
  ea_standing : Standing;
  ea_status : OperatorStatus;
  ea_artifact : option ArtifactRef;
  ea_nq_trace : option NqClaimTrace;
  ea_reason : string
}.

Record SchedulePolicy := {
  sp_schedule_id : string;
  sp_first_due_at : string;
  sp_cadence_seconds : N;
  sp_jitter_bound_seconds : N;
  sp_max_execution_budget_seconds : N;
  sp_standing_window_seconds : N
}.

#[global] Instance SchedulePolicy_eq_dec : EqDecision SchedulePolicy.
Proof. solve_decision. Defined.

Record ScheduleObligation := {
  so_key : DiagnosticKey;
  so_policy : SchedulePolicy
}.

Record RunSlot := {
  rs_slot_id : string;
  rs_schedule_id : string;
  rs_occurrence : N;
  rs_key : DiagnosticKey;
  rs_due_at : string;
  rs_budget_seconds : N
}.

#[global] Instance RunSlot_eq_dec : EqDecision RunSlot.
Proof. solve_decision. Defined.

Record InvocationAttempt := {
  at_attempt_id : string;
  at_slot_id : string;
  at_request_id : string;
  at_started_at : string
}.

#[global] Instance InvocationAttempt_eq_dec : EqDecision InvocationAttempt.
Proof. solve_decision. Defined.

Inductive RunSlotEvidence :=
| Slot_Completed (attempt : InvocationAttempt) (completed_at : string) (artifact : ArtifactRef)
| Slot_Active (attempt : InvocationAttempt)
| Slot_Blocked (reason : string)
| Slot_Missed (reason : string).

Record RecurrenceRecord := {
  rr_key : DiagnosticKey;
  rr_policy : SchedulePolicy;
  rr_slot : RunSlot;
  rr_evidence : RunSlotEvidence
}.

Record RecurrenceEvidence := {
  re_schema : string;
  re_recurrence_id : string;
  re_obligations : list ScheduleObligation;
  re_records : list RecurrenceRecord;
  re_delivery : DeliveryStanding
}.

Inductive RecurrenceStanding :=
| Recurrence_Current
| Recurrence_Active
| Recurrence_Overdue
| Recurrence_Blocked
| Recurrence_Missed
| Recurrence_Invalid
| Recurrence_ObligationMissing
| Recurrence_ObligationDuplicate
| Recurrence_RecordMissing
| Recurrence_RecordDuplicate.

#[global] Instance RecurrenceStanding_eq_dec : EqDecision RecurrenceStanding.
Proof. solve_decision. Defined.

Record RecurrenceAssessment := {
  rc_key : DiagnosticKey;
  rc_requirement : Requirement;
  rc_standing : RecurrenceStanding;
  rc_slot_id : option string;
  rc_records : list RecurrenceRecord;
  rc_reason : string
}.

Inductive CompletenessAxis := Completeness_Complete | Completeness_Incomplete.

#[global] Instance CompletenessAxis_eq_dec : EqDecision CompletenessAxis.
Proof. solve_decision. Defined.

Inductive ConditionAxis := ConditionAxis_Clean | ConditionAxis_ConditionPresent | ConditionAxis_Unresolved.

#[global] Instance ConditionAxis_eq_dec : EqDecision ConditionAxis.
Proof. solve_decision. Defined.

Inductive CoverageAxis := CoverageAxis_Complete | CoverageAxis_Narrowed | CoverageAxis_Absent.

#[global] Instance CoverageAxis_eq_dec : EqDecision CoverageAxis.
Proof. solve_decision. Defined.

Inductive RecurrenceAxis := RecurrenceAxis_Current | RecurrenceAxis_Incomplete.

#[global] Instance RecurrenceAxis_eq_dec : EqDecision RecurrenceAxis.
Proof. solve_decision. Defined.

Inductive Headline := Headline_Clean | Headline_ConditionPresent | Headline_Incomplete.

#[global] Instance Headline_eq_dec : EqDecision Headline.
Proof. solve_decision. Defined.

Record InputTrace := {
  it_key : DiagnosticKey;
  it_receiver_status : string;
  it_artifact_id : option string
}.

Record OperationalPosture := {
  op_schema : string;
  op_posture_id : string;
  op_evaluator : SemanticIdentityV1;
  op_policy : PosturePolicy;
  op_schedule_obligations : list ScheduleObligation;
  op_input_evidence : DiagnosticInputs;
  op_present_support : option QualifiedSupportV1;
  op_recurrence_evidence : RecurrenceEvidence;
  op_evaluated_at : string;
  op_inventory_valid : bool;
  op_all_inputs : list InputTrace;
  op_unexpected_inputs : list InputTrace;
  op_assessments : list EntryAssessment;
  op_recurrence : list RecurrenceAssessment;
  op_completeness : CompletenessAxis;
  op_condition : ConditionAxis;
  op_coverage : CoverageAxis;
  op_recurrence_axis : RecurrenceAxis;
  op_delivery : DeliveryStanding;
  op_current : bool;
  op_headline : Headline
}.

Inductive ProjectionVisibility := Projection_Shown | Projection_Omitted.

#[global] Instance ProjectionVisibility_eq_dec : EqDecision ProjectionVisibility.
Proof. solve_decision. Defined.

Record OperatorProjectionSlot := {
  os_visibility : ProjectionVisibility;
  os_item : EntryAssessment
}.

Record OperatorProjection := {
  oj_schema : string;
  oj_projection_id : string;
  oj_source_posture_id : string;
  oj_source_generation : string;
  oj_source_evaluated_at : string;
  oj_slots : list OperatorProjectionSlot;
  oj_recurrence : list RecurrenceAssessment;
  oj_completeness : CompletenessAxis;
  oj_condition : ConditionAxis;
  oj_coverage : CoverageAxis;
  oj_recurrence_axis : RecurrenceAxis;
  oj_delivery : DeliveryStanding;
  oj_headline : Headline
}.

(** [BTreeSet<DiagnosticKey>] and the derived order, field by field. *)
Definition key_tuple (k : DiagnosticKey) : string * string * string * string :=
  (dk_question_id k, dk_subject_id k, dk_profile_id k, dk_vantage_id k).
#[global] Instance DiagnosticKey_countable : Countable DiagnosticKey.
Proof.
  refine (inj_countable' key_tuple
    (fun '(q, s, p, v) => {| dk_question_id := q; dk_subject_id := s;
                             dk_profile_id := p; dk_vantage_id := v |}) _).
  by intros [].
Defined.

Definition then_compare (c d : comparison) : comparison :=
  match c with Eq => d | c => c end.
Definition key_compare (a b : DiagnosticKey) : comparison :=
  then_compare (String.compare (dk_question_id a) (dk_question_id b))
    (then_compare (String.compare (dk_subject_id a) (dk_subject_id b))
      (then_compare (String.compare (dk_profile_id a) (dk_profile_id b))
        (String.compare (dk_vantage_id a) (dk_vantage_id b)))).
Definition key_ltb (a b : DiagnosticKey) : bool :=
  match key_compare a b with Lt => true | _ => false end.

Definition POSTURE_POLICY_SCHEMA_V1 : string := "nightshift.diagnostic_posture_policy.v1".
Definition POSTURE_POLICY_SCHEMA_V2 : string := "nightshift.diagnostic_posture_policy.v2".
Definition INPUTS_SCHEMA_V1 : string := "nightshift.diagnostic_inputs.v1".
Definition INPUTS_SCHEMA_V2 : string := "nightshift.diagnostic_inputs.v2".
Definition RECURRENCE_SCHEMA_V1 : string := "nightshift.recurrence_evidence.v1".
Definition RECURRENCE_SCHEMA_V2 : string := "nightshift.recurrence_evidence.v2".
Definition POSTURE_SCHEMA : string := "nightshift.operational_posture.v2".
Definition OPERATOR_PROJECTION_SCHEMA : string := "nightshift.operator_projection.v2".

(** The serializers and texts the module calls. *)
Class PostureDocuments : Type := {
  po_host :: Host;
  po_chrono :: Chrono;
  po_execution_v1 :: Serde DiagnosticExecutionV1;
  po_execution_v2 :: Serde DiagnosticExecutionV2;
  po_policy :: Serde PosturePolicy;
  po_inputs :: Serde DiagnosticInputs;
  po_support :: Serde QualifiedSupportV1;
  po_recurrence :: Serde RecurrenceEvidence;
  po_posture :: Serde OperationalPosture;
  po_projection :: Serde OperatorProjection;
  (** [serde_json::to_string] of an acquisition failure. *)
  po_failure_json : AcquisitionFailureV1 -> string
}.

Section posture.
Context {PD : PostureDocuments}.

(** ** Keys and the policy *)

Definition key_validate (k : DiagnosticKey) (field : string) : result string unit :=
  require_token (field +:+ ".question_id") (dk_question_id k) ;?
  require_token (field +:+ ".subject_id") (dk_subject_id k) ;?
  require_token (field +:+ ".profile_id") (dk_profile_id k) ;?
  require_token (field +:+ ".vantage_id") (dk_vantage_id k).

(** The derived [Debug] text. *)
Definition key_debug (k : DiagnosticKey) : string :=
  "DiagnosticKey { question_id: " +:+ str_debug (dk_question_id k)
  +:+ ", subject_id: " +:+ str_debug (dk_subject_id k)
  +:+ ", profile_id: " +:+ str_debug (dk_profile_id k)
  +:+ ", vantage_id: " +:+ str_debug (dk_vantage_id k) +:+ " }".

(** The derived serializer; object keys in their order. *)
Definition key_value (k : DiagnosticKey) : value :=
  Object [("profile_id", Str (dk_profile_id k)); ("question_id", Str (dk_question_id k));
          ("subject_id", Str (dk_subject_id k)); ("vantage_id", Str (dk_vantage_id k))].

Definition binding_key (b : ContractBinding) : DiagnosticKey :=
  {| dk_question_id := si_id (cb_question b); dk_subject_id := su_id (cb_subject b);
     dk_profile_id := si_id (cb_profile b); dk_vantage_id := si_id (cb_vantage b) |}.
Definition execution_key (x : DiagnosticExecution) : DiagnosticKey :=
  {| dk_question_id := si_id (ex_question x); dk_subject_id := su_id (ex_subject x);
     dk_profile_id := si_id (ex_profile x); dk_vantage_id := si_id (ex_vantage x) |}.

Definition binding_matches (b : ContractBinding) (x : DiagnosticExecution) : bool :=
  String.eqb (cb_producer_node_id b) (pr_node_id (ex_producer x))
  && bool_decide (cb_producer_build b = pr_build (ex_producer x))
  && bool_decide (cb_producer_cohort b = pr_cohort (ex_producer x))
  && bool_decide (cb_question b = ex_question x)
  && bool_decide (cb_profile b = ex_profile x)
  && bool_decide (cb_profile_semantic_id b = ex_profile_semantic_id x)
  && bool_decide (cb_vantage b = ex_vantage x)
  && bool_decide (cb_state_model b = ex_state_model x)
  && bool_decide (cb_evaluator b = ex_evaluator x)
  && bool_decide (cb_threshold_policy b = ex_threshold_policy x)
  && bool_decide (cb_projection b = ex_projection x)
  && bool_decide (cb_subject b = ex_subject x).

Definition binding_validate (b : ContractBinding) : result string unit :=
  require_token "binding.producer_node_id" (cb_producer_node_id b) ;?
  for_each (fun '(name, identity) => validate_semantic_identity identity name)
    [("binding.producer_build", cb_producer_build b);
     ("binding.producer_cohort", cb_producer_cohort b); ("binding.question", cb_question b);
     ("binding.profile", cb_profile b); ("binding.vantage", cb_vantage b);
     ("binding.state_model", cb_state_model b); ("binding.evaluator", cb_evaluator b);
     ("binding.threshold_policy", cb_threshold_policy b);
     ("binding.subject.scope", su_scope (cb_subject b))] ;?
  match cb_profile_semantic_id b with
  | Some id => validate_digest id "binding.profile_semantic_id"
  | None => Ok tt
  end ;?
  validate_projection (cb_projection b) ;?
  require_token "binding.subject.id" (su_id (cb_subject b)) ;?
  require_token "binding.claim_id" (cb_claim_id b).

Definition entry_key (e : InventoryEntry) : DiagnosticKey := binding_key (ie_binding e).

(** [previous >= current] on pairs of strings. *)
Definition pair_ltb (a b : string * string) : bool :=
  match then_compare (String.compare a.1 b.1) (String.compare a.2 b.2) with
  | Lt => true
  | _ => false
  end.

Definition check_required_state (binding : RequiredStateBinding)
    (previous : option (string * string)) : result string (option (string * string)) :=
  require_token "required_state_binding.kind" (rb_kind binding) ;?
  require_token "required_state_binding.value" (rb_value binding) ;?
  let current := (rb_kind binding, rb_value binding) in
  reject (is_some_and (fun prior => negb (pair_ltb prior current)) previous)
    "required_state_bindings must be strictly ordered and unique" ;?
  Ok (Some current).

(** The loop over the inventory; its state is the keys so far and the last one. *)
Definition check_entry (policy : PosturePolicy) (entry : InventoryEntry)
    (state : gset DiagnosticKey * option DiagnosticKey)
    : result string (gset DiagnosticKey * option DiagnosticKey) :=
  let '(keys, previous_key) := state in
  let key := entry_key entry in
  binding_validate (ie_binding entry) ;?
  reject (String.eqb (pp_schema policy) POSTURE_POLICY_SCHEMA_V1
          && bool_decide (is_Some (cb_profile_semantic_id (ie_binding entry))))
    "diagnostic_posture_policy.v1 cannot bind a v2 profile semantic identity" ;?
  reject (negb (bool_decide (cb_subject (ie_binding entry) = pp_subject policy)))
    ("inventory entry " +:+ key_debug key +:+ " does not bind the policy subject") ;?
  reject (bool_decide (key ∈ keys)) ("duplicate closed-inventory key " +:+ key_debug key) ;?
  reject (is_some_and (fun previous => negb (key_ltb previous key)) previous_key)
    "closed inventory must be strictly ordered by diagnostic key and unique" ;?
  reject (negb (bool_decide (ie_requirement entry = Requirement_Excluded))
          && (ie_max_age_seconds entry =? 0)%N)
    ("inventory entry " +:+ key_debug key +:+ " max_age_seconds must be positive") ;?
  let? _ := checked_seconds (ie_max_age_seconds entry) "inventory max_age_seconds" in
  let? _ := fold_try check_required_state (ie_required_state_bindings entry) None in
  Ok ({[key]} ∪ keys, Some key).

Definition computed_policy_id (policy : PosturePolicy) : result string string :=
  computed_object_id policy "policy_id".

Definition policy_validate (policy : PosturePolicy) : result string unit :=
  reject (negb (String.eqb (pp_schema policy) POSTURE_POLICY_SCHEMA_V1
                || String.eqb (pp_schema policy) POSTURE_POLICY_SCHEMA_V2))
    ("policy schema must be " +:+ POSTURE_POLICY_SCHEMA_V1 +:+ " or "
     +:+ POSTURE_POLICY_SCHEMA_V2 +:+ ", got " +:+ pp_schema policy) ;?
  validate_digest (pp_policy_id policy) "policy_id" ;?
  require_token "generation" (pp_generation policy) ;?
  reject (trim_is_empty (su_id (pp_subject policy))) "policy subject id must be non-empty" ;?
  validate_semantic_identity (su_scope (pp_subject policy)) "policy.subject.scope" ;?
  validate_semantic_identity (pp_role policy) "policy.role" ;?
  reject (negb (existsb (fun entry => bool_decide (ie_requirement entry = Requirement_Mandatory))
                  (pp_inventory policy)))
    "closed inventory must contain at least one mandatory entry" ;?
  let? _ := fold_try (check_entry policy) (pp_inventory policy) (∅, None) in
  let? computed := computed_policy_id policy in
  reject (negb (String.eqb (pp_policy_id policy) computed))
    "policy_id does not match the canonical policy preimage".

(** ** The inputs *)

Definition computed_inputs_id (inputs : DiagnosticInputs) : result string string :=
  computed_object_id inputs "inputs_id".

Definition input_validate (schema : string) (input : DiagnosticInput) : result string unit :=
  key_validate (in_key input) "input.key" ;?
  match in_status input with
  | Input_Delivered artifact =>
      diagnostic_validate artifact ;?
      reject (String.eqb schema INPUTS_SCHEMA_V1
              && negb (String.eqb (ex_schema_name artifact) NQ_DIAGNOSTIC_EXECUTION_SCHEMA))
        "diagnostic_inputs.v1 cannot carry an NQ v2 artifact"
  | Input_AcquisitionFailed reason => require_token "input.acquisition_failed.reason" reason
  | Input_NoResponse | Input_NotConfigured => Ok tt
  end.

Definition inputs_validate (inputs : DiagnosticInputs) : result string unit :=
  reject (negb (String.eqb (is_schema inputs) INPUTS_SCHEMA_V1
                || String.eqb (is_schema inputs) INPUTS_SCHEMA_V2))
    ("inputs schema must be " +:+ INPUTS_SCHEMA_V1 +:+ " or " +:+ INPUTS_SCHEMA_V2
     +:+ ", got " +:+ is_schema inputs) ;?
  for_each (input_validate (is_schema inputs)) (is_inputs inputs) ;?
  validate_digest (is_inputs_id inputs) "inputs_id" ;?
  let? computed := computed_inputs_id inputs in
  reject (negb (String.eqb (is_inputs_id inputs) computed))
    "inputs_id does not match the canonical receiver-input preimage".

(** currentness.rs: the artifact ids delivered, without repetition, in order. *)
Definition delivered_artifact_ids (inputs : DiagnosticInputs) : list string :=
  merge_sort String.le (elements (list_to_set (C := gset string)
    (omap (fun input => match in_status input with
                        | Input_Delivered artifact => Some (ex_artifact_id artifact)
                        | _ => None
                        end) (is_inputs inputs)))).

(** ** Artifact references *)

Definition effective_contract_schema (r : ArtifactRef) : result string string :=
  let inferred := interval_schema_name (ax_attempt_interval r) in
  reject (existsb (fun i => negb (String.eqb (interval_schema_name i) inferred))
            (ax_dependency_acquisitions r)
          || is_some_and (fun c => negb (String.eqb (claim_schema_name c) inferred)) (ax_claim r))
    "artifact reference mixes fields from incompatible NQ contract schemas" ;?
  match ax_contract_schema r with
  | Some declared =>
      reject (negb (String.eqb declared inferred))
        "artifact reference contract_schema does not match its typed fields"
  | None =>
      reject (negb (String.eqb inferred NQ_DIAGNOSTIC_EXECUTION_SCHEMA))
        "v2 artifact reference requires an explicit contract_schema binding"
  end ;?
  match ax_attempt_interval r, ax_profile_semantic_id r with
  | Interval_V1 _, None => Ok tt
  | Interval_V2 _, Some value => validate_digest value "artifact.profile_semantic_id"
  | Interval_V1 _, Some _ => Err "v1 artifact reference cannot carry a v2 profile semantic identity"
  | Interval_V2 _, None => Err "v2 artifact reference requires the exact profile semantic identity"
  end ;?
  Ok inferred.

Definition validate_projection_interval (interval : AcquisitionInterval) (name : string)
    : result string unit :=
  match interval with
  | Interval_V1 v => validate_interval v name
  | Interval_V2 v =>
      validate_semantic_identity (a2_clock v) (name +:+ ".clock") ;?
      let? start := parse_nq_time (a2_started_at v) (name +:+ ".started_at") in
      let? end_ := parse_nq_time (a2_ended_at v) (name +:+ ".ended_at") in
      reject (end_ <? start)%Z (name +:+ " ends before it starts") ;?
      match a2_qualification v with
      | Clock_Bounded maximum_error_ms basis =>
          let? _ := checked_milliseconds maximum_error_ms
            (name +:+ ".qualification.maximum_error_ms") in
          validate_semantic_identity basis (name +:+ ".qualification.basis")
      | Clock_Unqualified code detail =>
          require_token (name +:+ ".qualification.code") code ;?
          require_token (name +:+ ".qualification.detail") detail
      end
  end.

Definition artifact_ref_validate (r : ArtifactRef) : result string unit :=
  reject (is_some_and (fun schema => negb (String.eqb schema NQ_DIAGNOSTIC_EXECUTION_SCHEMA
                                           || String.eqb schema NQ_DIAGNOSTIC_EXECUTION_V2_SCHEMA))
            (ax_contract_schema r))
    "artifact reference carries an unknown NQ contract schema" ;?
  let? _ := effective_contract_schema r in
  validate_digest (ax_artifact_id r) "artifact.artifact_id" ;?
  require_token "artifact.request_id" (ax_request_id r) ;?
  require_token "artifact.run_id" (ax_run_id r) ;?
  key_validate (ax_key r) "artifact.key" ;?
  reject (is_some_and trim_is_empty (ax_claim_id r)) "artifact.claim_id is empty" ;?
  reject (negb (bool_decide (claim_claim_id <$> ax_claim r = ax_claim_id r)))
    "artifact claim and claim_id differ" ;?
  validate_projection_interval (ax_attempt_interval r) "artifact.attempt_interval" ;?
  for_each (fun interval => validate_projection_interval interval "artifact.dependency_acquisition")
    (ax_dependency_acquisitions r).

Definition with_contract_schema (schema : option string) (r : ArtifactRef) : ArtifactRef :=
  {| ax_contract_schema := schema; ax_profile_semantic_id := ax_profile_semantic_id r;
     ax_artifact_id := ax_artifact_id r; ax_request_id := ax_request_id r;
     ax_run_id := ax_run_id r; ax_attempt_interval := ax_attempt_interval r; ax_key := ax_key r;
     ax_claim_id := ax_claim_id r; ax_claim := ax_claim r;
     ax_dependency_acquisitions := ax_dependency_acquisitions r |}.

Definition artifact_refs_match (expected actual : ArtifactRef) : bool :=
  bool_decide (expected = actual)
  || match effective_contract_schema expected, effective_contract_schema actual with
     | Ok expected_schema, Ok actual_schema =>
         String.eqb expected_schema actual_schema
         && bool_decide (with_contract_schema (Some expected_schema) expected
                         = with_contract_schema (Some actual_schema) actual)
     | _, _ => false
     end.

Definition primary_claim (x : DiagnosticExecution) : option DiagnosticClaim :=
  claim_id ← ex_primary_claim_id x; ex_claim claim_id x.

(** The loop over the failure dependencies: an acquisition, or a failure without one. *)
Definition failure_intervals (x : DiagnosticExecution) (failure_id : string)
    : result string (list AcquisitionInterval) :=
  match ex_failure_acquisition failure_id x with
  | Some interval => Ok [interval]
  | None =>
      reject (negb (ex_has_failure_id failure_id x))
        ("primary claim dependency " +:+ failure_id +:+ " has no failed input") ;?
      Ok []
  end.

Definition dependency_acquisitions (x : DiagnosticExecution) (claim : option DiagnosticClaim)
    : result string (list AcquisitionInterval) :=
  match claim with
  | None => Ok []
  | Some claim =>
      let? received := map_try (fun input_id =>
        ok_or (ex_received_acquisition input_id x)
          ("primary claim dependency " +:+ input_id +:+ " has no received input"))
        (claim_dependency_input_ids claim) in
      let? refused := map_try (fun refusal_id =>
        ok_or (ex_refusal_acquisition refusal_id x)
          ("primary claim dependency " +:+ refusal_id +:+ " has no refused-input acquisition"))
        (claim_dependency_refusal_ids claim) in
      let? failed := map_try (failure_intervals x) (claim_dependency_failure_ids claim) in
      Ok (received ++ refused ++ mjoin failed)%list
  end.

Definition artifact_ref (x : DiagnosticExecution) : ArtifactRef :=
  let claim := primary_claim x in
  {| ax_contract_schema := Some (ex_schema_name x);
     ax_profile_semantic_id := ex_profile_semantic_id x; ax_artifact_id := ex_artifact_id x;
     ax_request_id := ex_request_id x; ax_run_id := ex_run_id x;
     ax_attempt_interval := ex_attempt_interval x; ax_key := execution_key x;
     ax_claim_id := claim_claim_id <$> claim; ax_claim := claim;
     ax_dependency_acquisitions :=
       match dependency_acquisitions x claim with Ok intervals => intervals | Err _ => [] end |}.

Definition nq_claim_trace (x : DiagnosticExecution) : NqClaimTrace :=
  let claim := primary_claim x in
  {| tr_artifact_id := ex_artifact_id x; tr_evaluator := ex_evaluator x;
     tr_threshold_policy := ex_threshold_policy x; tr_projection := ex_projection x;
     tr_primary_claim := claim;
     tr_primary_state_bindings :=
       match claim with
       | Some claim =>
           omap (fun binding_id =>
             find_first (fun binding => String.eqb (sb_binding_id binding) binding_id)
               (ex_state_bindings x)) (claim_state_binding_ids claim)
       | None => []
       end;
     tr_outcome := ex_outcome x; tr_input_failures := input_failure_traces po_failure_json x;
     tr_limitations := ex_limitations x; tr_nonclaims := ex_nonclaims x |}.

Definition status_from_artifact (x : DiagnosticExecution) : OperatorStatus :=
  match ex_outcome_derivation x with
  | Derivation_Partial => Status_PartialEvidence
  | Derivation_Refused => Status_Refused
  | Derivation_Unsupported => Status_Unsupported
  | Derivation_Completed =>
      match ex_outcome_coherence x with
      | Coherence_Contradictory => Status_Contradictory
      | Coherence_PairwiseOnly => Status_PairwiseOnly
      | Coherence_StateIncompatible => Status_StateIncompatible
      | Coherence_Insufficient | Coherence_NotEvaluated => Status_InsufficientCoherence
      | Coherence_JointlyEstablished =>
          match ex_outcome_coverage x with
          | Coverage_Partial => Status_CoverageNarrowed
          | Coverage_Missing => Status_CoverageMissing
          | Coverage_Complete =>
              match ex_outcome_condition x with
              | Condition_Present => Status_ConditionPresent
              | Condition_Clean => Status_Clean
              | Condition_ExplicitlyAbsent => Status_ExplicitlyAbsent
              | Condition_Unresolved => Status_Unknown
              | Condition_NotApplicable => Status_NotApplicable
              end
          end
      end
  end.

Definition primary_claim_for (entry : InventoryEntry) (x : DiagnosticExecution)
    : result string (option DiagnosticClaim) :=
  match ex_primary_claim_id x with
  | None =>
      match ex_outcome_derivation x with
      | Derivation_Refused | Derivation_Unsupported => Ok None
      | _ => Err "non-refused diagnostic has no primary_claim_id"
      end
  | Some id =>
      reject (negb (String.eqb id (cb_claim_id (ie_binding entry))))
        ("primary claim " +:+ id +:+ " does not match required claim "
         +:+ cb_claim_id (ie_binding entry)) ;?
      let? claim := ok_or (ex_claim id x)
        "primary claim is absent from the exported claim surface" in
      reject (1 <? ex_claim_count id x)%nat "primary claim is duplicated" ;?
      Ok (Some claim)
  end.

Definition claim_state_bindings (x : DiagnosticExecution) (claim : DiagnosticClaim)
    : option (gset (string * string)) :=
  let by_id := index_by sb_binding_id (ex_state_bindings x) in
  list_to_set <$> mapM (fun id => (fun b => (sb_kind b, sb_value b)) <$> by_id !! id)
                    (claim_state_binding_ids claim).
Definition expected_state_bindings (entry : InventoryEntry) : gset (string * string) :=
  list_to_set ((fun b => (rb_kind b, rb_value b)) <$> ie_required_state_bindings entry).

(** ** Assessing an entry *)

Definition assessment (entry : InventoryEntry) (standing : Standing) (status : OperatorStatus)
    (artifact : option ArtifactRef) (trace : option NqClaimTrace) (reason : string)
    : EntryAssessment :=
  {| ea_key := entry_key entry; ea_requirement := ie_requirement entry; ea_standing := standing;
     ea_status := status; ea_artifact := artifact; ea_nq_trace := trace; ea_reason := reason |}.

Definition clock_unqualified_status (x : DiagnosticExecution) : OperatorStatus :=
  match status_from_artifact x with
  | (Status_Refused | Status_Unsupported | Status_PartialEvidence | Status_Contradictory
    | Status_StateIncompatible | Status_InsufficientCoherence) as status => status
  | _ => Status_ClockUnqualified
  end.

(** What a qualified support makes of a delivered artifact. *)
Definition support_assessment (x : DiagnosticExecution) (standing : SupportStandingV1)
    : Standing * OperatorStatus * string :=
  match standing with
  | Support_Current =>
      (Standing_Current, status_from_artifact x,
       "the exact diagnostic basis has authority-owned present support")
  | Support_Expired =>
      (Standing_SupportExpired, Status_Stale, "the evidence authority reports support expired")
  | Support_Unknown => (Standing_SupportUnknown, Status_Unknown, "present support is unknown")
  | Support_Unsupported =>
      (Standing_SupportUnsupported, Status_Unsupported,
       "the evidence authority reports the basis unsupported")
  | Support_Contradictory =>
      (Standing_SupportContradictory, Status_Contradictory,
       "the evidence authority retains unresolved contradiction custody")
  | Support_Blind =>
      (Standing_SupportBlind, Status_Unknown, "the evidence authority reports receiver blindness")
  end.

(** [assess_delivered] returns early with an assessment: the steps below are
    [Err assessment] for an early return. *)
Section delivered.
Context (entry : InventoryEntry) (evaluated_at : instant) (x : DiagnosticExecution).

Definition delivered_as (standing : Standing) (status : OperatorStatus) (reason : string)
    : EntryAssessment :=
  assessment entry standing status (Some (artifact_ref x)) (Some (nq_claim_trace x)) reason.
Definition binding_mismatch (reason : string) : EntryAssessment :=
  delivered_as Standing_BindingMismatch Status_BindingMismatch reason.

Definition check_states (claim : option DiagnosticClaim) : result EntryAssessment unit :=
  match claim with
  | None => Ok tt
  | Some claim =>
      let? actual_states := ok_or (claim_state_bindings x claim)
        (binding_mismatch "claim references an unknown or duplicate state binding") in
      reject (negb (bool_decide (actual_states = expected_state_bindings entry)))
        (delivered_as Standing_StateMismatch Status_StateMismatch
           "claim state bindings do not exactly match the inventory obligation")
  end.

Definition clock_unqualified (reason : string) : EntryAssessment :=
  delivered_as Standing_ClockUnqualified (clock_unqualified_status x) reason.

Definition check_interval_clock (interval : AcquisitionInterval) : result EntryAssessment unit :=
  match unqualified_reason interval with
  | Some (code, detail) =>
      Err (clock_unqualified
             ("a verdict-relevant NQ or dependency clock is unqualified (" +:+ code +:+ "): "
              +:+ detail))
  | None => Ok tt
  end.

(** One interval against the evaluation time and the declared age.  The [expect] on the
    clock error holds by [check_interval_clock]. *)
Definition check_fresh (max_age : Z) (interval : AcquisitionInterval)
    : result EntryAssessment unit :=
  let invalid {A} (m : result string A) := map_err binding_mismatch m in
  let? start := invalid (parse_nq_time (interval_started_at interval)
                           "dependency.acquisition.started_at") in
  let? end_ := invalid (parse_nq_time (interval_ended_at interval)
                          "dependency.acquisition.ended_at") in
  let? error_ms := ok_or (maximum_error_ms interval)
    (binding_mismatch "unqualified verdict-relevant intervals were rejected above") in
  let? uncertainty := invalid (checked_milliseconds error_ms "clock maximum error") in
  let? latest := ok_or (checked_add_signed end_ uncertainty)
    (binding_mismatch "clock-uncertainty addition overflow") in
  reject (evaluated_at <? latest)%Z
    (delivered_as Standing_FutureDated Status_FutureDated
       "at least one exact dependency interval (including its own clock uncertainty) extends beyond evaluation time") ;?
  let? earliest := ok_or (checked_sub_signed start uncertainty)
    (binding_mismatch "clock-uncertainty subtraction overflow") in
  let? freshness_boundary := ok_or (checked_add_signed earliest max_age)
    (binding_mismatch "freshness-boundary arithmetic overflow") in
  reject (freshness_boundary <? evaluated_at)%Z
    (delivered_as Standing_Stale Status_Stale
       "at least one exact dependency interval exceeds the declared maximum age").

(** Without present support: the producer's own times against the evaluation time. *)
Definition check_age (intervals : list AcquisitionInterval) : result EntryAssessment unit :=
  let freshness_intervals :=
    match intervals with [] => [ex_attempt_interval x] | _ => intervals end in
  let? max_age := map_err binding_mismatch
    (checked_seconds (ie_max_age_seconds entry) "inventory max_age_seconds") in
  reject (v1_has_unqualified_clock_limitation x)
    (clock_unqualified "NQ v1 explicitly reports absolute clock quality as unqualified") ;?
  for_each check_interval_clock (ex_attempt_interval x :: intervals) ;?
  reject (String.eqb (ex_schema_name x) NQ_DIAGNOSTIC_EXECUTION_V2_SCHEMA)
    (clock_unqualified
       "the Nightshift evaluation instant has no identified, qualified clock or admitted comparison relation; v2 source freshness is not established") ;?
  for_each (check_fresh max_age) freshness_intervals.

Definition delivered_steps (qualified_support : option QualifiedSupportV1)
    : result EntryAssessment EntryAssessment :=
  let? claim := map_err binding_mismatch (primary_claim_for entry x) in
  let? intervals := map_err binding_mismatch (dependency_acquisitions x claim) in
  reject (negb (binding_matches (ie_binding entry) x))
    (binding_mismatch
       "delivered artifact does not match the exact declared producer/semantic binding") ;?
  check_states claim ;?
  match qualified_support with
  | Some support =>
      let '(standing, status, reason) := support_assessment x (qs_standing support) in
      Ok (delivered_as standing status
            (reason +:+ " (support " +:+ qs_support_id support +:+ ")"))
  | None =>
      check_age intervals ;?
      Ok (delivered_as Standing_Current (status_from_artifact x)
            "exact binding and current-applicability checks passed")
  end.

Definition assess_delivered (qualified_support : option QualifiedSupportV1) : EntryAssessment :=
  match delivered_steps qualified_support with Ok a => a | Err a => a end.
End delivered.

Definition assess_entry (entry : InventoryEntry) (evaluated_at : instant)
    (inputs : list DiagnosticInput) (qualified_support : option QualifiedSupportV1)
    : EntryAssessment :=
  if bool_decide (ie_requirement entry = Requirement_Excluded)
  then assessment entry Standing_Excluded Status_Excluded None None
         "inventory policy explicitly excludes this diagnostic"
  else
  match List.filter (fun input => bool_decide (in_key input = entry_key entry)) inputs with
  | [] =>
      assessment entry Standing_Missing Status_Missing None None
        "no receiver-side input record exists for the required diagnostic"
  | [input] =>
      match in_status input with
      | Input_Delivered artifact => assess_delivered entry evaluated_at artifact qualified_support
      | Input_NoResponse =>
          assessment entry Standing_NoResponse Status_NoResponse None None
            "Nightshift received no response; this is not an NQ refusal"
      | Input_AcquisitionFailed reason =>
          assessment entry Standing_AcquisitionFailed Status_AcquisitionFailed None None
            ("receiver-side acquisition failed: " +:+ reason)
      | Input_NotConfigured =>
          assessment entry Standing_NotConfigured Status_NotConfigured None None
            "the diagnostic input is not configured"
      end
  | _ =>
      assessment entry Standing_DuplicateInput Status_DuplicateInput None None
        "more than one input record matched one closed-inventory key"
  end.

(** ** Schedules *)

(** [u64::checked_mul] and [u64::saturating_add(1)]. *)
Definition checked_mul (a b : N) : option N :=
  if (a * b <=? U64_MAX)%N then Some (a * b)%N else None.
Definition saturating_succ (a : N) : N := N.min (a + 1) U64_MAX.

Definition schedule_validate (p : SchedulePolicy) : result string unit :=
  reject (trim_is_empty (sp_schedule_id p)) "schedule_id must be non-empty" ;?
  let? _ := parse_time (sp_first_due_at p) "schedule.first_due_at" in
  reject ((sp_cadence_seconds p =? 0)%N || (sp_max_execution_budget_seconds p =? 0)%N
          || (sp_standing_window_seconds p =? 0)%N)
    "cadence_seconds, max_execution_budget_seconds, and standing_window_seconds must be positive" ;?
  let? _ := checked_seconds (sp_cadence_seconds p) "schedule cadence_seconds" in
  let? _ := checked_seconds (sp_jitter_bound_seconds p) "schedule jitter_bound_seconds" in
  let? _ := checked_seconds (sp_max_execution_budget_seconds p)
    "schedule max_execution_budget_seconds" in
  let? _ := checked_seconds (sp_standing_window_seconds p) "schedule standing_window_seconds" in
  Ok tt.

(** The [expect] of the source: two strings always have canonical bytes. *)
Definition deterministic_jitter (p : SchedulePolicy) (k : DiagnosticKey) : result string N :=
  let? canonical := jcs_value (Object [("key", key_value k);
                                       ("schedule_id", Str (sp_schedule_id p))]) in
  Ok (sha256_prefix canonical mod saturating_succ (sp_jitter_bound_seconds p))%N.

Definition slot_due_at (p : SchedulePolicy) (k : DiagnosticKey) (occurrence : N)
    : result string instant :=
  schedule_validate p ;?
  let? first := parse_time (sp_first_due_at p) "schedule.first_due_at" in
  let? cadence := ok_or (checked_mul (sp_cadence_seconds p) occurrence)
    "schedule occurrence overflow" in
  let? offset := checked_seconds cadence "cadence offset" in
  let? with_cadence := ok_or (checked_add_signed first offset)
    "schedule cadence arithmetic overflow" in
  let? jitter := deterministic_jitter p k in
  let? jitter := checked_seconds jitter "jitter" in
  ok_or (checked_add_signed with_cadence jitter) "schedule jitter arithmetic overflow".

Definition make_run_slot (p : SchedulePolicy) (k : DiagnosticKey) (occurrence : N)
    : result string RunSlot :=
  let? due_at := slot_due_at p k occurrence in
  let? canonical := jcs_value
    (Object [("budget_seconds", Number (PosInt (sp_max_execution_budget_seconds p)));
             ("due_at", Str (to_rfc3339_autosi due_at)); ("key", key_value k);
             ("occurrence", Number (PosInt occurrence));
             ("schedule_id", Str (sp_schedule_id p))]) in
  Ok {| rs_slot_id := sha256_id canonical; rs_schedule_id := sp_schedule_id p;
        rs_occurrence := occurrence; rs_key := k; rs_due_at := to_rfc3339_autosi due_at;
        rs_budget_seconds := sp_max_execution_budget_seconds p |}.

(** [u64::try_from] of an [i64]. *)
Definition expected_occurrence_at (p : SchedulePolicy) (k : DiagnosticKey)
    (evaluated_at : instant) : result string (option N) :=
  let? first := slot_due_at p k 0 in
  if (evaluated_at <? first)%Z then Ok None
  else
    let elapsed := seconds_since evaluated_at first in
    reject (elapsed <? 0)%Z "negative or unsupported schedule elapsed time" ;?
    Ok (Some (Z.to_N elapsed / sp_cadence_seconds p)%N).

(** ** Recurrence evidence *)

Definition computed_recurrence_id (r : RecurrenceEvidence) : result string string :=
  computed_object_id r "recurrence_id".

Definition attempt_validate (a : InvocationAttempt) : result string instant :=
  require_token "attempt.attempt_id" (at_attempt_id a) ;?
  require_token "attempt.slot_id" (at_slot_id a) ;?
  require_token "attempt.request_id" (at_request_id a) ;?
  parse_time (at_started_at a) "attempt.started_at".

Definition is_interval_v1 (i : AcquisitionInterval) : bool :=
  match i with Interval_V1 _ => true | Interval_V2 _ => false end.

(** A first-version record carries first-version references only. *)
Definition check_v1_reference (schema : string) (artifact : ArtifactRef) : result string unit :=
  if String.eqb schema RECURRENCE_SCHEMA_V1 then
    reject (bool_decide (is_Some (ax_contract_schema artifact))
            || bool_decide (is_Some (ax_profile_semantic_id artifact)))
      "recurrence_evidence.v1 cannot carry v2 artifact-reference fields" ;?
    reject (negb (is_interval_v1 (ax_attempt_interval artifact))
            || existsb (fun i => negb (is_interval_v1 i)) (ax_dependency_acquisitions artifact))
      "recurrence_evidence.v1 cannot carry v2 acquisition intervals"
  else Ok tt.

Definition check_completed (schema : string) (record : RecurrenceRecord) (due_at : instant)
    (budget : Z) (attempt : InvocationAttempt) (completed_at : string) (artifact : ArtifactRef)
    : result string unit :=
  let? started := attempt_validate attempt in
  let? completed := parse_time completed_at "completed_at" in
  artifact_ref_validate artifact ;?
  check_v1_reference schema artifact ;?
  let? budget_end := ok_or (checked_add_signed started budget)
    "recurrence attempt budget arithmetic overflow" in
  reject (negb (String.eqb (at_slot_id attempt) (rs_slot_id (rr_slot record)))
          || negb (String.eqb (at_request_id attempt) (ax_request_id artifact))
          || negb (bool_decide (ax_key artifact = rr_key record))
          || (started <? due_at)%Z || (completed <? started)%Z || (budget_end <? completed)%Z)
    "retained completion does not bind its slot, request, artifact, or budget" ;?
  if is_interval_v1 (ax_attempt_interval artifact) then
    let? nq_attempt_start := parse_nq_time (interval_started_at (ax_attempt_interval artifact))
      "artifact.attempt_interval.started_at" in
    let? nq_attempt_end := parse_nq_time (interval_ended_at (ax_attempt_interval artifact))
      "artifact.attempt_interval.ended_at" in
    reject ((nq_attempt_start <? started)%Z || (completed <? nq_attempt_end)%Z)
      "NQ attempt interval falls outside the bound Nightshift invocation"
  else Ok tt.

Definition record_validate (schema : string) (record : RecurrenceRecord) : result string unit :=
  let slot := rr_slot record in
  key_validate (rr_key record) "record.key" ;?
  schedule_validate (rr_policy record) ;?
  key_validate (rs_key slot) "record.slot.key" ;?
  validate_digest (rs_slot_id slot) "record.slot.slot_id" ;?
  let? expected_slot := make_run_slot (rr_policy record) (rr_key record) (rs_occurrence slot) in
  reject (negb (bool_decide (slot = expected_slot)))
    "retained recurrence record does not bind its exact deterministic slot" ;?
  let? due_at := parse_time (rs_due_at slot) "slot.due_at" in
  let? budget := checked_seconds (rs_budget_seconds slot) "record.slot budget" in
  match rr_evidence record with
  | Slot_Completed attempt completed_at artifact =>
      check_completed schema record due_at budget attempt completed_at artifact
  | Slot_Active attempt =>
      let? started := attempt_validate attempt in
      reject (negb (String.eqb (at_slot_id attempt) (rs_slot_id slot)) || (started <? due_at)%Z)
        "active attempt does not bind its deterministic slot"
  | Slot_Blocked reason | Slot_Missed reason =>
      reject (trim_is_empty reason) "blocked/missed recurrence reason must be non-empty"
  end.

Definition recurrence_validate (r : RecurrenceEvidence) : result string unit :=
  reject (negb (String.eqb (re_schema r) RECURRENCE_SCHEMA_V1
                || String.eqb (re_schema r) RECURRENCE_SCHEMA_V2))
    ("recurrence schema must be " +:+ RECURRENCE_SCHEMA_V1 +:+ " or " +:+ RECURRENCE_SCHEMA_V2
     +:+ ", got " +:+ re_schema r) ;?
  for_each (fun obligation =>
    key_validate (so_key obligation) "obligation.key" ;?
    schedule_validate (so_policy obligation)) (re_obligations r) ;?
  for_each (record_validate (re_schema r)) (re_records r) ;?
  validate_digest (re_recurrence_id r) "recurrence_id" ;?
  let? computed := computed_recurrence_id r in
  reject (negb (String.eqb (re_recurrence_id r) computed))
    "recurrence_id does not match the canonical recurrence preimage".

(** An early return with [RecurrenceStanding::Invalid]. *)
Definition invalid_record {A} (m : result string A) : result (RecurrenceStanding * string) A :=
  map_err (fun reason => (Recurrence_Invalid, reason)) m.
Definition invalid_unless {A} (o : option A) (reason : string)
    : result (RecurrenceStanding * string) A :=
  ok_or o (Recurrence_Invalid, reason).

Definition assess_completed (evaluated_at : instant) (record : RecurrenceRecord)
    (expected_artifact : option ArtifactRef) (due_at : instant) (budget : Z)
    (attempt : InvocationAttempt) (completed_at : string) (artifact : ArtifactRef)
    : result (RecurrenceStanding * string) (RecurrenceStanding * string) :=
  let? started := invalid_record (parse_time (at_started_at attempt) "attempt.started_at") in
  let? completed := invalid_record (parse_time completed_at "completed_at") in
  let? budget_end := invalid_unless (checked_add_signed started budget)
    "recurrence budget arithmetic overflow" in
  reject (negb (String.eqb (at_slot_id attempt) (rs_slot_id (rr_slot record)))
          || negb (String.eqb (at_request_id attempt) (ax_request_id artifact))
          || (started <? due_at)%Z || (completed <? started)%Z
          || (evaluated_at <? completed)%Z || (budget_end <? completed)%Z
          || negb (bool_decide (ax_key artifact = rr_key record))
          || negb (is_some_and (fun expected => artifact_refs_match expected artifact)
                     expected_artifact))
    (Recurrence_Invalid, "completion, Nightshift attempt, NQ request/run/artifact/attempt reference, or budget binding is invalid") ;?
  let? standing := invalid_record
    (checked_seconds (sp_standing_window_seconds (rr_policy record)) "standing window") in
  let? standing_end := invalid_unless (checked_add_signed completed standing)
    "recurrence standing-window arithmetic overflow" in
  if (evaluated_at <=? standing_end)%Z
  then Ok (Recurrence_Current,
           "the exact completed current slot remains within its standing window")
  else Ok (Recurrence_Overdue, "the completed slot's standing window has expired").

Definition assess_active (evaluated_at : instant) (record : RecurrenceRecord) (due_at : instant)
    (budget : Z) (attempt : InvocationAttempt)
    : result (RecurrenceStanding * string) (RecurrenceStanding * string) :=
  let? started := invalid_record (parse_time (at_started_at attempt) "attempt.started_at") in
  let? budget_end := invalid_unless (checked_add_signed started budget)
    "recurrence budget arithmetic overflow" in
  if negb (String.eqb (at_slot_id attempt) (rs_slot_id (rr_slot record)))
     || (started <? due_at)%Z || (evaluated_at <? started)%Z || (budget_end <? evaluated_at)%Z
  then Ok (Recurrence_Invalid,
           "active attempt is not exactly bound to the current slot or budget")
  else Ok (Recurrence_Active, "current run slot has one active in-budget attempt").

Definition record_steps (evaluated_at : instant) (obligation : ScheduleObligation)
    (record : RecurrenceRecord) (expected_artifact : option ArtifactRef)
    : result (RecurrenceStanding * string) (RecurrenceStanding * string) :=
  reject (negb (bool_decide (rr_key record = so_key obligation))
          || negb (bool_decide (rr_policy record = so_policy obligation)))
    (Recurrence_Invalid, "record key or policy does not match the exact schedule obligation") ;?
  let? occurrence := invalid_record
    (expected_occurrence_at (so_policy obligation) (so_key obligation) evaluated_at) in
  let? occurrence := invalid_unless occurrence
    "no schedule occurrence is due at the evaluation time" in
  let? expected_slot := invalid_record
    (make_run_slot (so_policy obligation) (so_key obligation) occurrence) in
  reject (negb (bool_decide (rr_slot record = expected_slot)))
    (Recurrence_Invalid, "record does not bind the exact deterministic current run slot") ;?
  let? due_at := invalid_record (parse_time (rs_due_at (rr_slot record)) "slot.due_at") in
  let? budget := invalid_record
    (checked_seconds (rs_budget_seconds (rr_slot record)) "slot budget") in
  match rr_evidence record with
  | Slot_Completed attempt completed_at artifact =>
      assess_completed evaluated_at record expected_artifact due_at budget attempt completed_at
        artifact
  | Slot_Active attempt => assess_active evaluated_at record due_at budget attempt
  | Slot_Blocked reason => Ok (Recurrence_Blocked, "current run slot was blocked: " +:+ reason)
  | Slot_Missed reason => Ok (Recurrence_Missed, "current run slot was missed: " +:+ reason)
  end.

Definition assess_recurrence_record (evaluated_at : instant) (obligation : ScheduleObligation)
    (record : RecurrenceRecord) (expected_artifact : option ArtifactRef)
    : RecurrenceStanding * string :=
  match record_steps evaluated_at obligation record expected_artifact with
  | Ok standing => standing
  | Err standing => standing
  end.

Definition recurrence_assessment (entry : InventoryEntry) (standing : RecurrenceStanding)
    (slot_id : option string) (records : list RecurrenceRecord) (reason : string)
    : RecurrenceAssessment :=
  {| rc_key := entry_key entry; rc_requirement := ie_requirement entry; rc_standing := standing;
     rc_slot_id := slot_id; rc_records := records; rc_reason := reason |}.

(** The slot that is current for an obligation. *)
Definition current_slot (p : SchedulePolicy) (k : DiagnosticKey) (evaluated_at : instant)
    : result string RunSlot :=
  let? occurrence := expected_occurrence_at p k evaluated_at in
  let? occurrence := ok_or occurrence "no schedule occurrence is due at the evaluation time" in
  make_run_slot p k occurrence.

Definition assess_recurrence_entry (evaluated_at : instant) (entry : InventoryEntry)
    (obligations : list ScheduleObligation) (records : list RecurrenceRecord)
    (artifact : option ArtifactRef) : RecurrenceAssessment :=
  let key := entry_key entry in
  let result := recurrence_assessment entry in
  if bool_decide (ie_requirement entry = Requirement_Excluded)
  then result Recurrence_Current None []
         "excluded inventory entry has no recurrence obligation"
  else
  match List.filter (fun o => bool_decide (so_key o = key)) obligations with
  | [] => result Recurrence_ObligationMissing None [] "no exact schedule obligation exists"
  | [obligation] =>
      match current_slot (so_policy obligation) key evaluated_at with
      | Err reason => result Recurrence_Invalid None [] reason
      | Ok expected_slot =>
          match List.filter (fun r => bool_decide (rr_slot r = expected_slot))
                  (List.filter (fun r => bool_decide (rr_key r = key)) records) with
          | [] =>
              result Recurrence_RecordMissing None []
                "no recurrence record exists for the current obligation"
          | [record] =>
              let '(standing, reason) :=
                assess_recurrence_record evaluated_at obligation record artifact in
              result standing (Some (rs_slot_id (rr_slot record))) [record] reason
          | matching =>
              result Recurrence_RecordDuplicate (Some (rs_slot_id expected_slot)) matching
                "more than one recurrence record binds the exact current run slot"
          end
      end
  | _ =>
      result Recurrence_ObligationDuplicate None []
        "more than one schedule obligation matches the diagnostic key"
  end.

(** ** The posture *)

Definition input_trace (input : DiagnosticInput) : InputTrace :=
  match in_status input with
  | Input_Delivered artifact =>
      {| it_key := in_key input; it_receiver_status := "delivered";
         it_artifact_id := Some (ex_artifact_id artifact) |}
  | Input_NoResponse =>
      {| it_key := in_key input; it_receiver_status := "no_response"; it_artifact_id := None |}
  | Input_AcquisitionFailed _ =>
      {| it_key := in_key input; it_receiver_status := "acquisition_failed";
         it_artifact_id := None |}
  | Input_NotConfigured =>
      {| it_key := in_key input; it_receiver_status := "not_configured"; it_artifact_id := None |}
  end.

Definition posture_evaluator_identity : SemanticIdentityV1 :=
  {| si_id := "nightshift.operational_posture_evaluator"; si_version := "2";
     si_digest := "sha256:493c4bd1e728e139f3e6a34732dc1728e6c868947cc55d7277aedefe23e99e4c" |}.

Definition artifact_established (a : EntryAssessment) : bool :=
  bool_decide (ea_standing a = Standing_Current)
  && match ea_status a with
     | Status_ConditionPresent | Status_Clean | Status_ExplicitlyAbsent => true
     | _ => false
     end.

Definition is_mandatory (a : EntryAssessment) : bool :=
  bool_decide (ea_requirement a = Requirement_Mandatory).

Definition completeness_of (assessments : list EntryAssessment) : CompletenessAxis :=
  if forallb artifact_established (List.filter is_mandatory assessments)
  then Completeness_Complete else Completeness_Incomplete.

(** A current diagnostic that completed and found the condition present. *)
Definition reports_condition (a : EntryAssessment) : bool :=
  bool_decide (ea_standing a = Standing_Current)
  && is_some_and (fun trace =>
       bool_decide (outcome_derivation (tr_outcome trace) = Derivation_Completed)
       && bool_decide (outcome_condition (tr_outcome trace) = Condition_Present)) (ea_nq_trace a).

Definition is_clear (a : EntryAssessment) : bool :=
  match ea_status a with Status_Clean | Status_ExplicitlyAbsent => true | _ => false end.

Definition condition_of (assessments : list EntryAssessment) : ConditionAxis :=
  if existsb reports_condition assessments then ConditionAxis_ConditionPresent
  else if bool_decide (completeness_of assessments = Completeness_Complete)
          && forallb is_clear (List.filter is_mandatory assessments)
  then ConditionAxis_Clean
  else ConditionAxis_Unresolved.

Definition coverage_of (assessments : list EntryAssessment) : CoverageAxis :=
  let mandatory := List.filter is_mandatory assessments in
  let current_mandatory_coverage :=
    omap (fun a => (fun trace => outcome_coverage (tr_outcome trace)) <$> ea_nq_trace a)
      (List.filter (fun a => bool_decide (ea_standing a = Standing_Current)) mandatory) in
  if bool_decide (length current_mandatory_coverage = length mandatory)
     && forallb (fun c => bool_decide (c = Coverage_Complete)) current_mandatory_coverage
  then CoverageAxis_Complete
  else if existsb (fun c => bool_decide (c = Coverage_Complete)
                            || bool_decide (c = Coverage_Partial)) current_mandatory_coverage
  then CoverageAxis_Narrowed
  else CoverageAxis_Absent.

Definition recurrence_axis_of (inventory : list InventoryEntry)
    (recurrence : list RecurrenceAssessment) : RecurrenceAxis :=
  if forallb (fun entry =>
       negb (bool_decide (ie_requirement entry = Requirement_Mandatory))
       || existsb (fun a => bool_decide (rc_key a = entry_key entry)
                            && bool_decide (rc_standing a = Recurrence_Current)) recurrence)
       inventory
  then RecurrenceAxis_Current else RecurrenceAxis_Incomplete.

Definition headline_of (current : bool) (condition : ConditionAxis) (delivery_accepted : bool)
    : Headline :=
  if current && bool_decide (condition = ConditionAxis_Clean) && delivery_accepted
  then Headline_Clean
  else if current && bool_decide (condition = ConditionAxis_ConditionPresent)
  then Headline_ConditionPresent
  else Headline_Incomplete.

Definition with_posture_id (id : string) (p : OperationalPosture) : OperationalPosture :=
  {| op_schema := op_schema p; op_posture_id := id; op_evaluator := op_evaluator p;
     op_policy := op_policy p; op_schedule_obligations := op_schedule_obligations p;
     op_input_evidence := op_input_evidence p; op_present_support := op_present_support p;
     op_recurrence_evidence := op_recurrence_evidence p; op_evaluated_at := op_evaluated_at p;
     op_inventory_valid := op_inventory_valid p; op_all_inputs := op_all_inputs p;
     op_unexpected_inputs := op_unexpected_inputs p; op_assessments := op_assessments p;
     op_recurrence := op_recurrence p; op_completeness := op_completeness p;
     op_condition := op_condition p; op_coverage := op_coverage p;
     op_recurrence_axis := op_recurrence_axis p; op_delivery := op_delivery p;
     op_current := op_current p; op_headline := op_headline p |}.

Definition seal_identity (p : OperationalPosture) : result string OperationalPosture :=
  let cleared := with_posture_id "" p in
  let? v := to_value cleared in
  let? canonical := jcs_value (object_without "posture_id" v) in
  Ok (with_posture_id (sha256_id canonical) cleared).

(** The assessments of the inventory, and of its recurrence. *)
Definition assess_inventory (policy : PosturePolicy) (inputs : DiagnosticInputs)
    (evaluated_at : instant) (support : option QualifiedSupportV1) : list EntryAssessment :=
  (fun entry => assess_entry entry evaluated_at (is_inputs inputs) support) <$> pp_inventory policy.

Definition assess_recurrence (policy : PosturePolicy) (recurrence : RecurrenceEvidence)
    (evaluated_at : instant) (assessments : list EntryAssessment) : list RecurrenceAssessment :=
  (fun entry =>
     let artifact :=
       a ← find_first (fun a => bool_decide (ea_key a = entry_key entry)) assessments;
       ea_artifact a in
     assess_recurrence_entry evaluated_at entry (re_obligations recurrence)
       (re_records recurrence) artifact) <$> pp_inventory policy.

Definition unexpected_inputs (policy : PosturePolicy) (inputs : DiagnosticInputs)
    : list InputTrace :=
  let inventory_keys := list_to_set (C := gset DiagnosticKey)
    (entry_key <$> List.filter
       (fun entry => negb (bool_decide (ie_requirement entry = Requirement_Excluded)))
       (pp_inventory policy)) in
  input_trace <$> List.filter (fun input => negb (bool_decide (in_key input ∈ inventory_keys)))
                    (is_inputs inputs).

Definition evaluate_posture_internal (policy : PosturePolicy) (inputs : DiagnosticInputs)
    (recurrence : RecurrenceEvidence) (evaluated_at : instant)
    (support : option QualifiedSupportV1) : result string OperationalPosture :=
  policy_validate policy ;?
  inputs_validate inputs ;?
  recurrence_validate recurrence ;?
  let assessments := assess_inventory policy inputs evaluated_at support in
  let recurrence_assessments := assess_recurrence policy recurrence evaluated_at assessments in
  let completeness := completeness_of assessments in
  let condition := condition_of assessments in
  let coverage := coverage_of assessments in
  let recurrence_axis := recurrence_axis_of (pp_inventory policy) recurrence_assessments in
  let current := bool_decide (completeness = Completeness_Complete)
                 && bool_decide (coverage = CoverageAxis_Complete)
                 && bool_decide (recurrence_axis = RecurrenceAxis_Current) in
  let delivery_accepted :=
    if pp_delivery_required policy
    then bool_decide (re_delivery recurrence = Delivery_Qualified) else true in
  seal_identity
    {| op_schema := POSTURE_SCHEMA; op_posture_id := "";
       op_evaluator := posture_evaluator_identity; op_policy := policy;
       op_schedule_obligations := re_obligations recurrence; op_input_evidence := inputs;
       op_present_support := support; op_recurrence_evidence := recurrence;
       op_evaluated_at := to_rfc3339_autosi evaluated_at; op_inventory_valid := true;
       op_all_inputs := input_trace <$> is_inputs inputs;
       op_unexpected_inputs := unexpected_inputs policy inputs; op_assessments := assessments;
       op_recurrence := recurrence_assessments; op_completeness := completeness;
       op_condition := condition; op_coverage := coverage;
       op_recurrence_axis := recurrence_axis; op_delivery := re_delivery recurrence;
       op_current := current;
       op_headline := headline_of current condition delivery_accepted |}.

Definition evaluate_posture (policy : PosturePolicy) (inputs : DiagnosticInputs)
    (recurrence : RecurrenceEvidence) (evaluated_at : instant)
    : result string OperationalPosture :=
  evaluate_posture_internal policy inputs recurrence evaluated_at None.

Definition support_binds (policy : PosturePolicy) (inputs : DiagnosticInputs)
    (support : QualifiedSupportV1) : bool :=
  String.eqb (qs_diagnostic_inputs_id support) (is_inputs_id inputs)
  && String.eqb (qs_subject_id support) (su_id (pp_subject policy))
  && String.eqb (qs_scope_id support) (si_digest (su_scope (pp_subject policy)))
  && bool_decide (qs_artifact_ids support = delivered_artifact_ids inputs).

Definition evaluate_posture_with_support (policy : PosturePolicy) (inputs : DiagnosticInputs)
    (recurrence : RecurrenceEvidence) (evaluated_at : instant) (support : QualifiedSupportV1)
    : result string OperationalPosture :=
  validate_shape support ;?
  reject (negb (support_binds policy inputs support))
    "qualified support does not exactly bind the complete diagnostic basis" ;?
  evaluate_posture_internal policy inputs recurrence evaluated_at (Some support).

(** ** The operator's projection *)

Definition with_projection_id (id : string) (p : OperatorProjection) : OperatorProjection :=
  {| oj_schema := oj_schema p; oj_projection_id := id;
     oj_source_posture_id := oj_source_posture_id p;
     oj_source_generation := oj_source_generation p;
     oj_source_evaluated_at := oj_source_evaluated_at p; oj_slots := oj_slots p;
     oj_recurrence := oj_recurrence p; oj_completeness := oj_completeness p;
     oj_condition := oj_condition p; oj_coverage := oj_coverage p;
     oj_recurrence_axis := oj_recurrence_axis p; oj_delivery := oj_delivery p;
     oj_headline := oj_headline p |}.

Definition projection_slot (visible : gset DiagnosticKey) (item : EntryAssessment)
    : OperatorProjectionSlot :=
  {| os_visibility := if bool_decide (ea_key item ∈ visible)
                      then Projection_Shown else Projection_Omitted;
     os_item := item |}.

(** The two [expect]s of the source are the errors here. *)
Definition project (visible : gset DiagnosticKey) (p : OperationalPosture)
    : result string OperatorProjection :=
  let slots := projection_slot visible <$> op_assessments p in
  let projection :=
    {| oj_schema := OPERATOR_PROJECTION_SCHEMA; oj_projection_id := "";
       oj_source_posture_id := op_posture_id p;
       oj_source_generation := pp_generation (op_policy p);
       oj_source_evaluated_at := op_evaluated_at p; oj_slots := slots;
       oj_recurrence := op_recurrence p; oj_completeness := op_completeness p;
       oj_condition := op_condition p; oj_coverage := op_coverage p;
       oj_recurrence_axis := op_recurrence_axis p; oj_delivery := op_delivery p;
       oj_headline :=
         if existsb (fun slot => bool_decide (os_visibility slot = Projection_Omitted)) slots
         then Headline_Incomplete else op_headline p |} in
  let? v := to_value projection in
  let? canonical := jcs_value (object_without "projection_id" v) in
  Ok (with_projection_id (sha256_id canonical) projection).
End posture.
