(* ===== verification/DiagnosticFacts.v ===== *)
(** * What a valid diagnostic artifact accounts for

    Both contract versions: every expectation answered once, every input received
    disposed of once, and a clear outcome resting on all the required testimony. *)
From S2P Require Import Prelude Text External Diagnostic DiagnosticV2.
From Stdlib Require Permutation.
Local Open Scope string_scope.

(** ** Loops that insert a key each *)

Section keyed_loops.
Context {S A : Type} (f : A -> S -> result string S) (key : A -> string).

Lemma fold_try_keys (keys : S -> gset string) :
  (forall a s s', f a s = Ok s' -> key a ∉ keys s /\ keys s' = {[key a]} ∪ keys s) ->
  forall l s s', fold_try f l s = Ok s' ->
    NoDup (key <$> l) /\ Forall (fun a => key a ∉ keys s) l /\
    keys s' = list_to_set (key <$> l) ∪ keys s.
Proof.
  intros Hf l. induction l as [|a l IH]; intros s s'; simpl.
  { intros [= <-]. split; [constructor|]. split; [done|]. set_solver. }
  intros (t & Ha & Ht)%rbind_ok. destruct (Hf _ _ _ Ha) as [Hn Hk].
  destruct (IH _ _ Ht) as (Hnd & Hfr & Heq). rewrite Hk in Hfr.
  destruct (proj2 (fresh_key_cons key a l (keys s)) (conj Hn (conj Hnd Hfr))) as [? ?].
  split; [done|]. split; [done|]. rewrite Heq, Hk. set_solver.
Qed.

Lemma fold_try_counts (counts : S -> gmap string nat) :
  (forall a s s', f a s = Ok s' -> counts s' = count_response (key a) (counts s)) ->
  forall l s s' id, fold_try f l s = Ok s' ->
    default 0 (counts s' !! id) = count_occ String.string_dec (key <$> l) id + default 0 (counts s !! id).
Proof.
  intros Hf l. induction l as [|a l IH]; intros s s' i H; [by injection H as <-|].
  simpl in H. apply rbind_ok in H as (t & Ha & Ht). rewrite fmap_cons. cbn [count_occ].
  rewrite (IH _ _ i Ht), (Hf _ _ _ Ha). unfold count_response.
  destruct (String.string_dec (key a) i) as [->|Hne].
  - rewrite lookup_insert_eq. simpl. lia.
  - by rewrite lookup_insert_ne.
Qed.

Lemma fold_try_Forall (P : A -> Prop) :
  (forall a s s', f a s = Ok s' -> P a) -> forall l s s', fold_try f l s = Ok s' -> Forall P l.
Proof.
  intros Hf l. induction l as [|a l IH]; intros s s'; simpl; [done|].
  intros (t & Ha & Ht)%rbind_ok. constructor; eauto.
Qed.
End keyed_loops.

Lemma insert_unique_ok ids id field ids' :
  insert_unique ids id field = Ok ids' <-> id ∉ ids /\ ids' = {[id]} ∪ ids.
Proof. unfold insert_unique. case_bool_decide; naive_solver. Qed.

(** ** Partitions of identities *)

(** [part1] and [part2] share out [whole], each of its identities once. *)
Definition splits (whole part1 part2 : list string) : Prop :=
  NoDup whole /\ part1 ++ part2 ≡ₚ whole.

Lemma splits_by_membership (whole part1 part2 : list string) :
  NoDup whole -> NoDup part1 -> NoDup part2 ->
  (forall id, id ∈ part1 -> id ∈ whole) -> (forall id, id ∈ part2 -> id ∈ whole) ->
  (forall id, id ∈ whole -> not_exactly_one (bool_decide (id ∈ part1)) (bool_decide (id ∈ part2)) = false) ->
  splits whole part1 part2.
Proof.
  intros Hw H1 H2 Hin1 Hin2 Hone. split; [done|].
  assert (forall id, id ∈ whole -> id ∈ part1 \/ id ∈ part2) as Hall.
  { intros i Hid. specialize (Hone i Hid). unfold not_exactly_one in Hone.
    destruct (decide (i ∈ part1)); [by left|]. destruct (decide (i ∈ part2)); [by right|].
    by rewrite !bool_decide_eq_false_2 in Hone. }
  apply NoDup_Permutation; [|done|].
  - apply NoDup_app. split; [done|]. split; [|done]. intros id Hid1 Hid2.
    specialize (Hone id (Hin1 id Hid1)). unfold not_exactly_one in Hone.
    by rewrite !bool_decide_eq_true_2 in Hone.
  - intros id. rewrite elem_of_app. naive_solver.
Qed.

(** Every answer is to something expected, and everything expected is answered once. *)
Lemma splits_by_count (whole part1 part2 : list string) :
  NoDup whole ->
  (forall id, id ∈ part1 -> id ∈ whole) -> (forall id, id ∈ part2 -> id ∈ whole) ->
  (forall id, id ∈ whole ->
     count_occ String.string_dec part1 id + count_occ String.string_dec part2 id = 1) ->
  splits whole part1 part2.
Proof.
  intros Hw Hin1 Hin2 Hone. split; [done|].
  apply (Permutation.Permutation_count_occ String.string_dec). intros id. rewrite count_occ_app.
  destruct (decide (id ∈ whole)) as [Hid|Hid].
  - rewrite Hone by done. symmetry.
    apply NoDup_count_occ'; [by apply NoDup_ListNoDup|by apply list_elem_of_In].
  - assert (forall l, id ∉ l -> count_occ String.string_dec l id = 0) as Hz.
    { intros l Hl. apply count_occ_not_In. by rewrite <- list_elem_of_In. }
    rewrite !Hz; naive_solver.
Qed.

(** ** Input accounting *)

Section diagnostic_facts.
Context {HO : Host} {CH : Chrono}.

Lemma expect_inputs_ok items expected :
  fold_try expect_input items ∅ = Ok expected ->
  NoDup (xi_expectation_id <$> items) /\ expected = list_to_set (xi_expectation_id <$> items).
Proof.
  intros H. destruct (fold_try_keys expect_input xi_expectation_id id) with (2 := H) as (Hn & _ & He).
  - unfold expect_input. intros a s s' H'. inv_ok H'. by apply insert_unique_ok in H'.
  - split; [done|]. unfold id in He. rewrite He. set_solver.
Qed.

Definition received_keys (s : gmap string ReceivedInputV1 * gmap string nat) : gset string := dom s.1.

Lemma receive_input_ok expected t a s s' :
  receive_input expected t a s = Ok s' ->
  (ri_input_id a ∉ received_keys s /\ received_keys s' = {[ri_input_id a]} ∪ received_keys s) /\
  ri_expectation_id a ∈ expected.
Proof.
  destruct s as [received counts]. unfold receive_input, received_keys. intros H. inv_ok H. subst s'.
  res_simpl. test_simpl. simpl. rewrite dom_insert_L, not_elem_of_dom.
  apply bool_decide_eq_true in Hok2. apply bool_decide_eq_false, eq_None_not_Some in Hok7. done.
Qed.

Lemma receive_input_counts expected t a s s' :
  receive_input expected t a s = Ok s' -> s'.2 = count_response (ri_expectation_id a) s.2.
Proof. destruct s as [received counts]. unfold receive_input. intros H. inv_ok H. by subst s'. Qed.

Lemma fail_input_ok expected a s s' :
  fail_input expected a s = Ok s' -> li_expectation_id a ∈ expected.
Proof.
  destruct s as [[failed ids] counts]. unfold fail_input. intros H. inv_ok H.
  res_simpl. test_simpl. by apply bool_decide_eq_true in Hok2.
Qed.

Lemma fail_input_counts expected a s s' :
  fail_input expected a s = Ok s' -> s'.2 = count_response (li_expectation_id a) s.2.
Proof. destruct s as [[failed ids] counts]. unfold fail_input. intros H. inv_ok H. by subst s'. Qed.

Lemma admit_input_ok received a s s' :
  admit_input received a s = Ok s' ->
  (mi_input_id a ∉ dom s /\ dom s' = {[mi_input_id a]} ∪ dom s) /\ mi_input_id a ∈ dom received /\
  s' = <[mi_input_id a := a]> s.
Proof.
  unfold admit_input. intros H. inv_ok H. subst s'. res_simpl. test_simpl.
  rewrite dom_insert_L, not_elem_of_dom, elem_of_dom.
  apply bool_decide_eq_true in Hok4. apply bool_decide_eq_false, eq_None_not_Some in Hok5. done.
Qed.

Lemma refuse_input_ok received a s s' :
  refuse_input received a s = Ok s' ->
  (fi_input_id a ∉ s.1 /\ s'.1 = {[fi_input_id a]} ∪ s.1) /\ fi_input_id a ∈ dom received.
Proof.
  destruct s as [refused ids]. unfold refuse_input. intros H. inv_ok H. subst s'. res_simpl. test_simpl.
  apply insert_unique_ok in Hok4. rewrite elem_of_dom. by apply bool_decide_eq_true in Hok3.
Qed.

Lemma select_input_ok expected admitted received a s s' :
  select_input expected admitted received a s = Ok s' ->
  (ti_input_id a ∉ dom s /\ dom s' = {[ti_input_id a]} ∪ dom s) /\ ti_input_id a ∈ dom admitted.
Proof.
  unfold select_input. intros H. inv_ok H. subst s'. res_simpl. test_simpl.
  rewrite dom_insert_L, not_elem_of_dom, elem_of_dom.
  apply bool_decide_eq_false, eq_None_not_Some in Hok5. eauto.
Qed.

Lemma exclude_input_ok admitted a s s' :
  exclude_input admitted a s = Ok s' ->
  (ci_input_id a ∉ dom s /\ dom s' = {[ci_input_id a]} ∪ dom s) /\ ci_input_id a ∈ dom admitted.
Proof.
  unfold exclude_input. intros H. inv_ok H. subst s'. res_simpl. test_simpl.
  rewrite dom_insert_L, not_elem_of_dom, elem_of_dom.
  apply bool_decide_eq_false, eq_None_not_Some in Hok4. eauto.
Qed.

(** What the loops over a partition's sides leave, keyed by identity. *)
Lemma keyed_loop {S A} (f : A -> S -> result string S) key (keys : S -> gset string) (P : A -> Prop) l s s' :
  keys s = ∅ ->
  (forall a s s', f a s = Ok s' -> (key a ∉ keys s /\ keys s' = {[key a]} ∪ keys s) /\ P a) ->
  fold_try f l s = Ok s' ->
  NoDup (key <$> l) /\ Forall P l /\ forall id, id ∈ keys s' <-> id ∈ key <$> l.
Proof.
  intros Hs Hf H.
  destruct (fold_try_keys f key keys (fun a s s' Ha => proj1 (Hf a s s' Ha)) _ _ _ H) as (Hn & _ & He).
  split; [done|]. split; [exact (fold_try_Forall f P (fun a s s' Ha => proj2 (Hf a s s' Ha)) _ _ _ H)|].
  intros id. rewrite He, Hs. set_solver.
Qed.

Lemma is_Some_dom {A} (m : gmap string A) id :
  bool_decide (is_Some (m !! id)) = bool_decide (id ∈ dom m).
Proof. apply bool_decide_ext. by rewrite elem_of_dom. Qed.

(** A partition by the loops over its two sides. *)
Lemma splits_by_loops {A B} (whole : list string) (key1 : A -> string) (key2 : B -> string)
    l1 l2 (whole_set s1 s2 : gset string) :
  NoDup whole -> (forall id, id ∈ whole_set <-> id ∈ whole) ->
  NoDup (key1 <$> l1) /\ Forall (fun a => key1 a ∈ whole_set) l1 /\ (forall id, id ∈ s1 <-> id ∈ key1 <$> l1) ->
  NoDup (key2 <$> l2) /\ Forall (fun a => key2 a ∈ whole_set) l2 /\ (forall id, id ∈ s2 <-> id ∈ key2 <$> l2) ->
  (forall id, id ∈ whole -> not_exactly_one (bool_decide (id ∈ s1)) (bool_decide (id ∈ s2)) = false) ->
  splits whole (key1 <$> l1) (key2 <$> l2).
Proof.
  intros Hw Hset (Hn1 & Hf1 & Hs1) (Hn2 & Hf2 & Hs2) Hone.
  apply splits_by_membership; [done..| | |].
  - intros id (a & -> & Ha)%list_elem_of_fmap. apply Hset. by eapply Forall_forall in Hf1.
  - intros id (a & -> & Ha)%list_elem_of_fmap. apply Hset. by eapply Forall_forall in Hf2.
  - intros id Hid. specialize (Hone id Hid).
    rewrite (bool_decide_ext _ _ (Hs1 id)), (bool_decide_ext _ _ (Hs2 id)) in Hone. done.
Qed.

(** [inputs] accounts for everything: each expectation has one answer, received or failed;
    what was received is admitted or refused, what was admitted selected or excluded. *)
Definition accounts (expected received_for failed_for received admitted refused selected
    excluded : list string) : Prop :=
  splits expected received_for failed_for /\ splits received admitted refused /\
  splits admitted selected excluded.

Lemma selection_partition_ok inputs admitted received :
  NoDup (mi_input_id <$> ia_admitted inputs) ->
  (forall id, id ∈ dom admitted <-> id ∈ mi_input_id <$> ia_admitted inputs) ->
  validate_selection_partition inputs admitted received = Ok tt ->
  splits (mi_input_id <$> ia_admitted inputs) (ti_input_id <$> ia_selected inputs)
    (ci_input_id <$> ia_excluded inputs).
Proof.
  unfold validate_selection_partition. intros Hn Hd H. inv_ok H.
  apply (keyed_loop _ ti_input_id dom _ _ _ _ dom_empty_L
           (fun a s s' => select_input_ok _ _ _ a s s')) in Hok0.
  apply (keyed_loop _ ci_input_id dom _ _ _ _ dom_empty_L
           (fun a s s' => exclude_input_ok _ a s s')) in Hok2.
  apply (splits_by_loops _ _ _ _ _ (dom admitted) _ _ Hn Hd Hok0 Hok2).
  intros id Hid. res_simpl. apply Hd in Hid. apply elem_of_dom, elem_of_btree_keys in Hid.
  eapply Forall_forall in H; [|exact Hid]. simpl in H. res_simpl. by rewrite <- !is_Some_dom.
Qed.

Lemma admission_partition_ok inputs received :
  NoDup (ri_input_id <$> ia_received inputs) ->
  (forall id, id ∈ dom received <-> id ∈ ri_input_id <$> ia_received inputs) ->
  validate_admission_partition inputs received = Ok tt ->
  splits (ri_input_id <$> ia_received inputs) (mi_input_id <$> ia_admitted inputs)
    (fi_input_id <$> ia_refused inputs) /\
  splits (mi_input_id <$> ia_admitted inputs) (ti_input_id <$> ia_selected inputs)
    (ci_input_id <$> ia_excluded inputs).
Proof.
  unfold validate_admission_partition. intros Hn Hd H. inv_ok H.
  apply (keyed_loop _ mi_input_id dom (fun a => mi_input_id a ∈ dom received) _ _ _ dom_empty_L) in Hok0;
    [|intros a s s' Ha; destruct (admit_input_ok _ _ _ _ Ha) as (? & ? & _); done].
  apply (keyed_loop _ fi_input_id fst _ _ (∅, ∅) _ eq_refl
           (fun a s s' => refuse_input_ok _ a s s')) in Hok2.
  destruct Hok0 as (Hna & Hfa & Hda).
  split; [|by apply (selection_partition_ok _ x received)].
  apply (splits_by_loops _ _ _ _ _ (dom received) _ _ Hn Hd (conj Hna (conj Hfa Hda)) Hok2).
  intros i Hid. res_simpl. apply Hd in Hid. apply elem_of_dom, elem_of_btree_keys in Hid.
  eapply Forall_forall in Hok3; [|exact Hid]. simpl in Hok3. res_simpl. by rewrite <- is_Some_dom.
Qed.

(** The inputs of an artifact, as identities. *)
Definition inputs_accounted (inputs : InputAccountingV1) : Prop :=
  accounts (xi_expectation_id <$> ia_expected inputs) (ri_expectation_id <$> ia_received inputs)
    (li_expectation_id <$> ia_failed inputs) (ri_input_id <$> ia_received inputs)
    (mi_input_id <$> ia_admitted inputs) (fi_input_id <$> ia_refused inputs)
    (ti_input_id <$> ia_selected inputs) (ci_input_id <$> ia_excluded inputs).

Lemma validate_inputs_ok a : validate_inputs a = Ok tt -> inputs_accounted (dx_inputs a).
Proof.
  unfold validate_inputs. set (inputs := dx_inputs a). intros H. inv_ok H.
  destruct (expect_inputs_ok _ _ Hok1) as [Hne ->]. res_simpl.
  destruct (keyed_loop _ ri_input_id received_keys _ _ (∅, ∅) _ dom_empty_L
    (receive_input_ok _ _) Hok4) as (Hnr & Hfr & Hdr).
  pose proof (fold_try_Forall _ _ (fail_input_ok _) _ _ _ Hok6) as Hff.
  split; [|by apply (admission_partition_ok _ x2)].
  apply splits_by_count; [done| | |].
  - intros i (r & -> & Hr)%list_elem_of_fmap. eapply Forall_forall in Hfr; [|exact Hr]. set_solver.
  - intros i (l & -> & Hl)%list_elem_of_fmap. eapply Forall_forall in Hff; [|exact Hl]. set_solver.
  - intros i Hi.
    pose proof (fold_try_counts _ ri_expectation_id snd (receive_input_counts _ _) _ _ _ i Hok4) as H1.
    pose proof (fold_try_counts _ li_expectation_id snd (fail_input_counts _) _ _ _ i Hok6) as H2.
    eapply Forall_forall in Hok7; [|by apply elem_of_elements, elem_of_list_to_set].
    simpl in *. res_simpl. test_simpl. apply bool_decide_eq_true in Hok7.
    rewrite Hok7 in H2. rewrite lookup_empty in H1. simpl in *. lia.
Qed.

(** ** Clear outcomes *)

Lemma foldl_insert_lookup {A B} (key : A -> string) (val : A -> B) l (m : gmap string B) k v :
  foldl (fun m x => <[key x := val x]> m) m l !! k = Some v ->
  (exists x, x ∈ l /\ key x = k /\ val x = v) \/ m !! k = Some v.
Proof.
  revert m. induction l as [|x l IH]; intros m; simpl; [by right|].
  intros [(y & Hy & ? & ?)|H]%IH.
  - left. exists y. split; [by right|done].
  - destruct (decide (key x = k)) as [<-|Hne].
    + rewrite lookup_insert_eq in H. injection H as <-. left. exists x. split; [by left|done].
    + rewrite lookup_insert_ne in H by done. by right.
Qed.

Lemma index_by_lookup {A} (key : A -> string) l k v :
  index_by key l !! k = Some v -> v ∈ l /\ key v = k.
Proof.
  unfold index_by. intros [(x & Hx & Hk & ->)|H]%(foldl_insert_lookup key (fun x => x)); [done|].
  by rewrite lookup_empty in H.
Qed.

Definition clear (c : ConditionV1) : bool :=
  match c with Condition_Clean | Condition_ExplicitlyAbsent => true | _ => false end.

Lemma clear_determinate c : clear c = true -> determinate_condition c = true.
Proof. by destruct c. Qed.

(** Every required expectation was answered by testimony that was selected. *)
Definition covered_by (required : list string) (answers : list (string * string))
    (selected : list string) : Prop :=
  required <> [] /\
  Forall (fun expectation => exists input_id,
    (expectation, input_id) ∈ answers /\ input_id ∈ selected) required.

Definition required_ids (expected : list ExpectedInputV1) : list string :=
  xi_expectation_id <$> List.filter xi_required expected.

Lemma check_complete_coverage_ok inputs :
  check_complete_coverage inputs = Ok tt ->
  covered_by (required_ids (ia_expected inputs))
    ((fun r => (ri_expectation_id r, ri_input_id r)) <$> ia_received inputs)
    (ti_input_id <$> ia_selected inputs).
Proof.
  unfold check_complete_coverage, covered_by, required_ids. intros H. inv_ok H. res_simpl. split.
  { apply bool_decide_eq_false in Hok. by destruct (List.filter _ _). }
  rewrite Forall_fmap. eapply Forall_impl; [exact H|]. unfold compose. intros e He. simpl in He.
  unfold check_required_input in He. inv_ok He. res_simpl. test_simpl.
  apply bool_decide_eq_true in He.
  apply (foldl_insert_lookup ri_expectation_id ri_input_id) in Hok0 as [(r & Hr & <- & <-)|Hn];
    [|by rewrite lookup_empty in Hn].
  exists (ri_input_id r).
  split; [by apply (list_elem_of_fmap_2 (fun r => (ri_expectation_id r, ri_input_id r)))|].
  by apply elem_of_list_to_set in He.
Qed.

(** A claim that asserts a clear condition rests on selected testimony and on state. *)
Definition claim_supported (selected : list string) (condition : ConditionV1)
    (status : ClaimStatusV1) (effect : option ConditionV1) (dependencies bindings : list string) : Prop :=
  status = Claim_Established /\ effect = Some condition /\ dependencies <> [] /\
  Forall (fun id => id ∈ selected) dependencies /\ bindings <> [].

Lemma check_claim_ok artifact selected bindings omitted claim s s' :
  check_claim artifact selected bindings omitted claim s = Ok s' ->
  (determinate_claim (cl_status claim) = true -> cl_dependency_input_ids claim <> []) /\
  Forall (fun id => is_Some (selected !! id)) (cl_dependency_input_ids claim) /\
  (forall c, cl_condition_effect claim = Some c -> determinate_condition c = true ->
     cl_status claim = Claim_Established).
Proof.
  destruct s as [ids any]. unfold check_claim. intros H. inv_ok H. res_simpl. split; [|split].
  - apply andb_false_iff in Hok2. intros Hd. destruct Hok2 as [Hn|Hn]; [congruence|].
    by apply bool_decide_eq_false in Hn.
  - eapply (fold_try_Forall _ _) with (2 := Hok4). intros id deps deps' Hid. inv_ok Hid. res_simpl.
    test_simpl. by apply bool_decide_eq_true in Hok14.
  - intros c Hc Hd. revert H.
    lazymatch goal with H : check_condition_effect _ _ _ _ = Ok _ |- _ => rename H into He end.
    intros _. unfold check_condition_effect in He. inv_ok He. res_simpl. rewrite Hc in *. simpl in *.
    rewrite Hd in Hok13. simpl in Hok13. by apply negb_false_iff, bool_decide_eq_true in Hok13.
Qed.

Lemma check_claims_keys artifact selected bindings omitted claim s s' :
  check_claim artifact selected bindings omitted claim s = Ok s' ->
  cl_claim_id claim ∉ s.1 /\ s'.1 = {[cl_claim_id claim]} ∪ s.1.
Proof.
  destruct s as [ids any]. unfold check_claim. intros H. inv_ok H. subst s'. simpl.
  by apply insert_unique_ok in Hok1.
Qed.

(** The primary claim of a completed, determinate outcome. *)
Lemma primary_supported a :
  validate_claims a = Ok tt -> oc_derivation (dx_outcome a) = Derivation_Completed ->
  determinate_condition (oc_condition (dx_outcome a)) = true ->
  exists id claim, dx_primary_claim_id a = Some id /\
    find_first (fun c => String.eqb (cl_claim_id c) id) (dx_claims a) = Some claim /\
    claim_supported (ti_input_id <$> ia_selected (dx_inputs a)) (oc_condition (dx_outcome a))
      (cl_status claim) (cl_condition_effect claim) (cl_dependency_input_ids claim)
      (cl_state_binding_ids claim).
Proof.
  unfold validate_claims. intros H Hd Hdet. inv_ok H. res_simpl.
  rewrite Hd in Hok1. unfold check_primary_id in Hok1.
  destruct (dx_primary_claim_id a) as [id|]; [|done]. exists id. inv_ok Hok1. res_simpl. test_simpl.
  destruct (fold_try_keys _ cl_claim_id fst (check_claims_keys _ _ _ _) _ _ _ Hok0) as (_ & _ & Hk).
  pose proof (fold_try_Forall _ _ (check_claim_ok _ _ _ _) _ _ _ Hok0) as Hall.
  apply bool_decide_eq_true in Hok4. simpl in Hk. subst.
  destruct (find_first (fun c => String.eqb (cl_claim_id c) id) (dx_claims a)) as [claim|] eqn:Hfind.
  - exists claim. split; [done|]. split; [done|]. pose proof (proj1 (find_first_Some _ _ _ Hfind)) as Hin.
    eapply Forall_forall in Hall as (Hdep & Hsel & Hest); [|exact Hin].
    simpl in Hok3. rewrite Hfind in Hok3. simpl in Hok3. inv_ok Hok3. res_simpl. test_simpl.
    apply bool_decide_eq_true in Hok5. rewrite Hdet in Hok6. apply bool_decide_eq_false in Hok6.
    specialize (Hest _ Hok5 Hdet). rewrite Hest in Hdep.
    split; [done|]. split; [done|]. split; [by apply Hdep|]. split; [|done].
    eapply Forall_impl; [exact Hsel|]. intros i [v [Hv <-]%index_by_lookup]. by apply list_elem_of_fmap_2.
  - apply find_first_None in Hfind. exfalso. assert (id ∈ cl_claim_id <$> dx_claims a) as Hin by set_solver.
    apply list_elem_of_fmap in Hin as (c & -> & Hc). eapply Forall_forall in Hfind; [|exact Hc].
    simpl in Hfind. by rewrite String.eqb_refl in Hfind.
Qed.

(** A valid clear outcome: complete, joint, and supported by its primary claim. *)
Lemma validate_clear a :
  validate_claims a = Ok tt -> validate_outcome a = Ok tt ->
  clear (oc_condition (dx_outcome a)) = true ->
  fully_established (dx_outcome a) = true /\
  covered_by (required_ids (ia_expected (dx_inputs a)))
    ((fun r => (ri_expectation_id r, ri_input_id r)) <$> ia_received (dx_inputs a))
    (ti_input_id <$> ia_selected (dx_inputs a)) /\
  exists id claim, dx_primary_claim_id a = Some id /\
    find_first (fun c => String.eqb (cl_claim_id c) id) (dx_claims a) = Some claim /\
    claim_supported (ti_input_id <$> ia_selected (dx_inputs a)) (oc_condition (dx_outcome a))
      (cl_status claim) (cl_condition_effect claim) (cl_dependency_input_ids claim)
      (cl_state_binding_ids claim).
Proof.
  intros Hc Ho Hcl.
  assert (fully_established (dx_outcome a) = true) as Hf.
  { unfold validate_outcome in Ho. inv_ok Ho. res_simpl.
    destruct (oc_condition (dx_outcome a)); try done; by destruct (fully_established _). }
  split; [done|]. unfold fully_established in Hf. rewrite !andb_true_iff, !bool_decide_eq_true in Hf.
  destruct Hf as [[Hd Hcov] _]. split.
  { unfold validate_outcome in Ho. inv_ok Ho. rewrite Hcov in Ho. simpl in Ho.
    by apply check_complete_coverage_ok. }
  by apply primary_supported, clear_determinate.
Qed.

(** ** Both contract versions *)

Context {SX : Serde DiagnosticExecutionV1} {S2 : Serde DiagnosticExecutionV2}.

(** The inputs of either version, as identities. *)
Definition ex_accounted : DiagnosticExecution -> Prop :=
  of_version (fun v => inputs_accounted (dx_inputs v))
    (fun v => let inputs := d2_inputs v in
      accounts (xi_expectation_id <$> i2_expected inputs) (r2_expectation_id <$> i2_received inputs)
        (l2_expectation_id <$> i2_failed inputs) (r2_input_id <$> i2_received inputs)
        (mi_input_id <$> i2_admitted inputs) (f2_input_id <$> i2_refused inputs)
        (ti_input_id <$> i2_selected inputs) (ci_input_id <$> i2_excluded inputs)).
Definition ex_required : DiagnosticExecution -> list string :=
  of_version (fun v => required_ids (ia_expected (dx_inputs v)))
    (fun v => required_ids (i2_expected (d2_inputs v))).
Definition ex_answers : DiagnosticExecution -> list (string * string) :=
  of_version
    (fun v => (fun r => (ri_expectation_id r, ri_input_id r)) <$> ia_received (dx_inputs v))
    (fun v => (fun r => (r2_expectation_id r, r2_input_id r)) <$> i2_received (d2_inputs v)).
Definition ex_selected : DiagnosticExecution -> list string :=
  of_version (fun v => ti_input_id <$> ia_selected (dx_inputs v))
    (fun v => ti_input_id <$> i2_selected (d2_inputs v)).

(** What either version's validation passes through: the first version's checks. *)
Lemma execution_validate_ok a :
  execution_validate a = Ok tt ->
  validate_inputs a = Ok tt /\ validate_claims a = Ok tt /\ validate_outcome a = Ok tt.
Proof. unfold execution_validate. intros H. inv_ok H. done. Qed.

Lemma execution_v2_validate_ok a :
  execution_v2_validate a = Ok tt ->
  exists id, execution_validate (v1_structural_surrogate a id) = Ok tt.
Proof. unfold execution_v2_validate. intros H. inv_ok H. eauto. Qed.

Lemma failed_input_v1_expectation item :
  li_expectation_id (failed_input_v1 item) = l2_expectation_id item.
Proof. unfold failed_input_v1. by destruct (l2_cause item). Qed.

Lemma find_first_fmap {A B} (g : A -> B) (p : B -> bool) l :
  find_first p (g <$> l) = g <$> find_first (fun x => p (g x)) l.
Proof. induction l as [|x l IH]; [done|]. simpl. by destruct (p (g x)). Qed.

(** C37: a valid artifact of either version accounts for its inputs exactly: every
    expectation is answered once, by something received or by a failure, and nothing else
    is; what was received is admitted or refused, once; what was admitted is selected or
    excluded, once. *)
Theorem inputs_are_accounted x : diagnostic_validate x = Ok tt -> ex_accounted x.
Proof.
  destruct x as [v|v]; simpl.
  - intros (H & _)%execution_validate_ok. by apply validate_inputs_ok.
  - intros (id & (H & _)%execution_validate_ok)%execution_v2_validate_ok.
    apply validate_inputs_ok in H. unfold inputs_accounted in H. simpl in H.
    rewrite <- !list_fmap_compose in H.
    rewrite (list_fmap_ext (li_expectation_id ∘ failed_input_v1) l2_expectation_id) in H; [done|].
    intros i item _. apply failed_input_v1_expectation.
Qed.

(** C38: a valid artifact of either version says clean or explicitly absent only when its
    derivation completed with complete coverage and joint coherence, every required
    expectation (of which there is one) was answered by selected testimony, and its
    primary claim is established, states that condition, and rests on selected inputs
    and on state bindings. *)
Theorem clear_outcome_is_supported x :
  diagnostic_validate x = Ok tt -> clear (ex_outcome_condition x) = true ->
  ex_outcome_derivation x = Derivation_Completed /\ ex_outcome_coverage x = Coverage_Complete /\
  ex_outcome_coherence x = Coherence_JointlyEstablished /\
  covered_by (ex_required x) (ex_answers x) (ex_selected x) /\
  exists id claim, ex_primary_claim_id x = Some id /\ ex_claim id x = Some claim /\
    claim_supported (ex_selected x) (ex_outcome_condition x) (claim_status claim)
      (claim_condition_effect claim) (claim_dependency_input_ids claim)
      (claim_state_binding_ids claim).
Proof.
  destruct x as [v|v]; simpl.
  - intros (_ & Hc & Ho)%execution_validate_ok Hcl.
    destruct (validate_clear v Hc Ho Hcl) as (Hf & Hcov & id & claim & Hid & Hfind & Hs).
    unfold fully_established in Hf. rewrite !andb_true_iff, !bool_decide_eq_true in Hf.
    destruct Hf as [[??]?]. do 4 (split; [done|]). exists id, (DiagnosticClaim_V1 claim).
    by rewrite Hfind.
  - intros (sid & (_ & Hc & Ho)%execution_validate_ok)%execution_v2_validate_ok Hcl.
    destruct (validate_clear _ Hc Ho Hcl) as (Hf & Hcov & id & claim & Hid & Hfind & Hs).
    unfold fully_established in Hf. rewrite !andb_true_iff, !bool_decide_eq_true in Hf.
    simpl in *. destruct Hf as [[??]Hco]. do 2 (split; [done|]).
    split; [unfold surrogate_coherence in Hco; by case_match|].
    rewrite <- list_fmap_compose in Hcov. split; [done|].
    rewrite find_first_fmap in Hfind. apply fmap_Some in Hfind as (c & Hfind & ->).
    exists id, (DiagnosticClaim_V2 c). simpl in Hfind. rewrite Hfind.
    split; [done|]. split; [done|]. destruct Hs as (Hs & ? & Hne & ? & ?). simpl in *.
    rewrite bool_decide_eq_false_2 in Hs by done. done.
Qed.
End diagnostic_facts.
