(* ===== verification/PostureFacts.v ===== *)
(** * What a posture promises

    An assessment is current only for the one delivered artifact that is bound as the
    inventory declares and fresh; the headline is clean exactly when every mandatory
    entry is established, clear and recurring, nothing current reports the condition
    and delivery is accepted; schedules place one slot per cadence. *)
From S2P Require Import Prelude Text External Currentness Diagnostic DiagnosticV2 Posture.
Local Open Scope string_scope.

(** ** Generic steps *)

Lemma forallb_filter_Forall {A} (p q : A -> bool) l :
  forallb q (List.filter p l) = true <-> Forall (fun x => p x = true -> q x = true) l.
Proof.
  induction l as [|x l IH]; simpl; [by split; constructor|].
  rewrite Forall_cons, <- IH. destruct (p x); simpl; [|naive_solver].
  rewrite andb_true_iff. naive_solver.
Qed.

Lemma Forall_and_mandatory {A} (p q r : A -> bool) l :
  Forall (fun x => p x = true -> q x = true) l /\ Forall (fun x => p x = true -> r x = true) l <->
  Forall (fun x => p x = true -> q x = true /\ r x = true) l.
Proof. rewrite !Forall_forall. naive_solver. Qed.

(** Elements with the same key are one when keys are distinct. *)
Lemma NoDup_fmap_key {A K} (key : A -> K) l x y :
  NoDup (key <$> l) -> x ∈ l -> y ∈ l -> key x = key y -> x = y.
Proof.
  induction l as [|z l IH]; simpl; [by intros _ []%elem_of_nil|].
  intros [Hz Hn]%NoDup_cons Hx Hy Heq.
  apply elem_of_cons in Hx as [->|Hx], Hy as [->|Hy]; [done| | |by apply IH].
  - destruct Hz. rewrite Heq. by apply list_elem_of_fmap_2.
  - destruct Hz. rewrite <- Heq. by apply list_elem_of_fmap_2.
Qed.

(** The outcome of a computation whose early returns are outcomes too. *)
Definition outcome {A} (m : result A A) : A := match m with Ok a => a | Err a => a end.

Lemma map_err_err {E E' A} (f : E -> E') (m : result E A) e :
  map_err f m = Err e <-> exists e0, m = Err e0 /\ e = f e0.
Proof. destruct m; simpl; naive_solver. Qed.

Section outcomes.
Context {A : Type} (P : A -> Prop).

(** No early return satisfies [P]. *)
Definition never_early {B} (m : result A B) : Prop := forall a, m = Err a -> ~ P a.

Lemma never_early_bind {B C} (m : result A B) (k : B -> result A C) :
  never_early m -> (forall b, m = Ok b -> never_early (k b)) -> never_early (rbind m k).
Proof.
  intros Hm Hk a. destruct m as [b|e]; simpl; intros H; [by apply (Hk b eq_refl)|].
  apply Hm. by injection H as ->.
Qed.

Lemma never_early_ok {B} (b : B) : never_early (Ok b).
Proof. done. Qed.

Lemma never_early_reject (b : bool) a : ~ P a -> never_early (reject b a).
Proof. intros Ha a'. destruct b; simpl; naive_solver. Qed.

Lemma never_early_ok_or {B} (o : option B) a : ~ P a -> never_early (ok_or o a).
Proof. intros Ha a'. destruct o; simpl; naive_solver. Qed.

Lemma never_early_map_err {B E} (f : E -> A) (m : result E B) :
  (forall e, ~ P (f e)) -> never_early (map_err f m).
Proof. intros Hf a (e & _ & ->)%map_err_err. apply Hf. Qed.

Lemma never_early_for_each {B} (f : B -> result A unit) l :
  (forall x, never_early (f x)) -> never_early (for_each f l).
Proof.
  intros Hf. induction l as [|x l IH]; simpl; [apply never_early_ok|].
  apply never_early_bind; auto.
Qed.

Lemma outcome_ok (m : result A A) : never_early m -> P (outcome m) -> exists a, m = Ok a /\ P a.
Proof. intros Hm HP. destruct m as [a|e]; simpl in *; [eauto|]. by destruct (Hm e). Qed.
End outcomes.

(** One step of an early-return computation, by its shape. *)
Ltac early_step :=
  lazymatch goal with
  | |- never_early _ (Ok _) => apply never_early_ok
  | |- never_early _ (Err _) => intros ? [= <-]
  | |- never_early _ (rbind _ _) => apply never_early_bind; [|intros]
  | |- never_early _ (reject _ _) => apply never_early_reject
  | |- never_early _ (ok_or _ _) => apply never_early_ok_or
  | |- never_early _ (map_err _ _) => apply never_early_map_err; intros
  | |- never_early _ (for_each _ _) => apply never_early_for_each; intros
  | |- never_early _ (match ?x with _ => _ end) => destruct x
  | |- ~ _ => first [done | let H := fresh in intros H; by apply H]
  end.

(** ** Current artifacts *)

Section posture_facts.
Context {PD : PostureDocuments}.

(** The intervals a verdict rests on: those of the primary claim, or the attempt's own. *)
Definition freshness_intervals (x : DiagnosticExecution) : list AcquisitionInterval :=
  match dependency_acquisitions x (primary_claim x) with
  | Ok (interval :: intervals) => interval :: intervals
  | _ => [ex_attempt_interval x]
  end.

(** An interval is over by [now] and began at most [max_age] seconds before, its clock's
    error counted against it both ways. *)
Definition fresh (now : instant) (max_age : N) (i : AcquisitionInterval) : Prop :=
  exists start end_ error_ms,
    parse_nq_time (interval_started_at i) "dependency.acquisition.started_at" = Ok start /\
    parse_nq_time (interval_ended_at i) "dependency.acquisition.ended_at" = Ok end_ /\
    maximum_error_ms i = Some error_ms /\
    (end_ + Z.of_N error_ms * nanos_per_milli <= now)%Z /\
    (now <= start - Z.of_N error_ms * nanos_per_milli + Z.of_N max_age * nanos_per_second)%Z.

(** What the entry declared, read off the artifact. *)
Definition bound_as_declared (e : InventoryEntry) (x : DiagnosticExecution) : Prop :=
  binding_matches (ie_binding e) x = true /\
  match ex_primary_claim_id x with
  | Some id => id = cb_claim_id (ie_binding e) /\ exists claim, primary_claim x = Some claim /\
      claim_state_bindings x claim = Some (expected_state_bindings e)
  | None => ex_outcome_derivation x = Derivation_Refused \/
            ex_outcome_derivation x = Derivation_Unsupported
  end.

(** Present: the authority says so, or the producer's own qualified times do. *)
Definition present (support : option QualifiedSupportV1) (now : instant) (e : InventoryEntry)
    (x : DiagnosticExecution) : Prop :=
  match support with
  | Some support => qs_standing support = Support_Current
  | None => ex_schema_name x = NQ_DIAGNOSTIC_EXECUTION_SCHEMA /\
      v1_has_unqualified_clock_limitation x = false /\
      Forall (fresh now (ie_max_age_seconds e)) (freshness_intervals x)
  end.

Definition is_current (a : EntryAssessment) : Prop := ea_standing a = Standing_Current.

Lemma check_age_early e now x intervals : never_early is_current (check_age e now x intervals).
Proof. unfold check_age, check_interval_clock, check_fresh. repeat early_step. Qed.

Lemma delivered_steps_early e now x support : never_early is_current (delivered_steps e now x support).
Proof. unfold delivered_steps, check_states. repeat first [apply check_age_early | early_step]. Qed.

(** The claim an entry reads is the artifact's primary one. *)
Lemma primary_claim_for_ok e x claim :
  primary_claim_for e x = Ok claim ->
  claim = primary_claim x /\
  match ex_primary_claim_id x with
  | Some id => id = cb_claim_id (ie_binding e) /\ is_Some claim
  | None => ex_outcome_derivation x = Derivation_Refused \/
            ex_outcome_derivation x = Derivation_Unsupported
  end.
Proof.
  unfold primary_claim_for, primary_claim. destruct (ex_primary_claim_id x) as [id|]; simpl.
  - intros H. inv_ok H. res_simpl. test_simpl. subst. rewrite Hok0. eauto.
  - destruct (ex_outcome_derivation x); intros H; inv_ok H; subst; auto.
Qed.

Lemma schema_name_cases x :
  String.eqb (ex_schema_name x) NQ_DIAGNOSTIC_EXECUTION_V2_SCHEMA = false ->
  ex_schema_name x = NQ_DIAGNOSTIC_EXECUTION_SCHEMA.
Proof. by destruct x. Qed.

Lemma checked_seconds_nanos `{!ChronoOk po_host po_chrono} n field d :
  checked_seconds n field = Ok d -> d = (Z.of_N n * nanos_per_second)%Z.
Proof.
  unfold checked_seconds, i64_of. intros H. inv_ok H. res_simpl.
  destruct (n <=? _)%N; [|done]. injection Hok as <-. by apply try_seconds_nanos.
Qed.

Lemma checked_milliseconds_nanos `{!ChronoOk po_host po_chrono} n field d :
  checked_milliseconds n field = Ok d -> d = (Z.of_N n * nanos_per_milli)%Z.
Proof.
  unfold checked_milliseconds, i64_of. intros H. inv_ok H. res_simpl.
  destruct (n <=? _)%N; [|done]. injection Hok as <-. by apply try_milliseconds_nanos.
Qed.

Section clocks.
Context {HOK : HostOk po_host} {COK : ChronoOk po_host po_chrono}.

Lemma check_fresh_ok e now x seconds max_age i :
  checked_seconds seconds "inventory max_age_seconds" = Ok max_age ->
  check_fresh e now x max_age i = Ok tt -> fresh now seconds i.
Proof.
  intros ->%checked_seconds_nanos H. unfold check_fresh in H. inv_ok H. res_simpl. test_simpl.
  apply checked_milliseconds_nanos in Hok2. apply checked_add_signed_sum in Hok3, Hok6.
  apply checked_sub_signed_diff in Hok5. subst. unfold fresh. eauto 10 with lia.
Qed.

Lemma check_age_ok e now x intervals :
  dependency_acquisitions x (primary_claim x) = Ok intervals ->
  check_age e now x intervals = Ok tt -> present None now e x.
Proof.
  intros Hi H. unfold check_age in H. inv_ok H. res_simpl. test_simpl.
  split; [by apply schema_name_cases, String.eqb_neq|]. split; [done|].
  unfold freshness_intervals. rewrite Hi.
  destruct intervals; (eapply Forall_impl; [exact H|]); intros i; by apply check_fresh_ok.
Qed.

(** A current assessment of a delivered artifact. *)
Lemma delivered_current e now x support :
  is_current (assess_delivered e now x support) ->
  bound_as_declared e x /\ present support now e x /\
  exists reason, assess_delivered e now x support =
    delivered_as e x Standing_Current (status_from_artifact x) reason.
Proof.
  intros (a & H & Ha)%(outcome_ok is_current _ (delivered_steps_early e now x support)).
  unfold assess_delivered. rewrite H. unfold delivered_steps in H. inv_ok H. res_simpl. test_simpl.
  destruct (primary_claim_for_ok _ _ _ Hok) as [-> Hid].
  split; [|destruct support as [s|]].
  - split; [done|]. destruct (ex_primary_claim_id x); [|done].
    destruct Hid as [-> [claim Hc]]. split; [done|]. exists claim. split; [done|].
    rewrite Hc in Hok2. unfold check_states in Hok2. inv_ok Hok2. res_simpl. test_simpl.
    by apply bool_decide_eq_true in Hok2 as <-.
  - destruct (qs_standing s) eqn:Hs; simpl in H; inv_ok H; subst a; try done; [].
    split; [done|]. eauto.
  - inv_ok H. subst a. split; [by eapply check_age_ok|]. eauto.
Qed.

(** Current support has not expired on the receiver's clock and is uncontradicted. *)
Lemma current_support_ok s :
  validate_shape s = Ok tt -> qs_standing s = Support_Current ->
  qs_contradiction_refs s = [] /\
  exists expiry, qs_expiry s = Some expiry /\
    se_clock_id expiry = sr_clock_id (qs_evaluated_at s) /\
    (sr_tick (qs_evaluated_at s) < se_tick expiry)%N.
Proof.
  unfold validate_shape. intros H Hs. inv_ok H. unfold check_standing in Hok7. rewrite Hs in Hok7.
  inv_ok Hok7. res_simpl. test_simpl. apply bool_decide_eq_true in Hok8, Hok7.
  split; [done|]. unfold expiry_current in Hok6. destruct (qs_expiry s) as [expiry|]; [|naive_solver].
  inv_ok Hok6. exists expiry. split; [done|]. unfold is_current_at in Hok9. inv_ok Hok9.
  subst x. injection Hok8 as ->. res_simpl. test_simpl. done.
Qed.

Definition answers (e : InventoryEntry) (input : DiagnosticInput) : bool :=
  bool_decide (in_key input = entry_key e).

(** An assessment is current only of an artifact; the excluded entry has none. *)
Lemma entry_current e now inputs support :
  is_current (assess_entry e now inputs support) ->
  ie_requirement e <> Requirement_Excluded /\
  exists input x reason, List.filter (answers e) inputs = [input] /\
    in_status input = Input_Delivered x /\
    bound_as_declared e x /\ present support now e x /\
    assess_entry e now inputs support =
      delivered_as e x Standing_Current (status_from_artifact x) reason.
Proof.
  unfold assess_entry. case_bool_decide as He; [done|]. fold (answers e).
  destruct (List.filter (answers e) inputs) as [|input [|]] eqn:Hf; try done.
  destruct (in_status input) eqn:Hs; try done.
  intros (Hb & Hp & reason & Heq)%delivered_current. eauto 10.
Qed.
End clocks.

(** ** The policy *)

Lemma check_entry_ok policy e keys previous state :
  check_entry policy e (keys, previous) = Ok state ->
  entry_key e ∉ keys /\ cb_subject (ie_binding e) = pp_subject policy /\
  state = ({[entry_key e]} ∪ keys, Some (entry_key e)).
Proof.
  unfold check_entry. intros H. inv_ok H. res_simpl. test_simpl.
  apply bool_decide_eq_true in Hok1. apply bool_decide_eq_false in Hok2. auto.
Qed.

Lemma check_entries_ok policy entries keys previous state :
  fold_try (check_entry policy) entries (keys, previous) = Ok state ->
  NoDup (entry_key <$> entries) /\ Forall (fun e => entry_key e ∉ keys) entries /\
  Forall (fun e => cb_subject (ie_binding e) = pp_subject policy) entries.
Proof.
  revert keys previous. induction entries as [|e entries IH]; intros keys previous; simpl.
  { repeat constructor. }
  intros (s & (Hk & Hs & ->)%check_entry_ok & (Hn & Hf & Hall)%IH)%rbind_ok.
  rewrite !Forall_cons.
  destruct (proj2 (fresh_key_cons entry_key e entries keys) (conj Hk (conj Hn Hf))) as [? [??]%Forall_cons].
  auto.
Qed.

Lemma policy_validate_ok policy :
  policy_validate policy = Ok tt ->
  NoDup (entry_key <$> pp_inventory policy) /\
  Forall (fun e => cb_subject (ie_binding e) = pp_subject policy) (pp_inventory policy) /\
  exists e, e ∈ pp_inventory policy /\ ie_requirement e = Requirement_Mandatory.
Proof.
  unfold policy_validate. intros H. inv_ok H. res_simpl. test_simpl.
  destruct (check_entries_ok _ _ _ _ _ Hok6) as (Hn & _ & Hs). split; [done|]. split; [done|].
  apply existsb_true_Exists in Hok5 as (e & He & Hm%bool_decide_eq_true). eauto.
Qed.

Lemma inputs_validate_ok inputs input x :
  inputs_validate inputs = Ok tt -> input ∈ is_inputs inputs ->
  in_status input = Input_Delivered x -> diagnostic_validate x = Ok tt.
Proof.
  unfold inputs_validate. intros H Hin Hx. inv_ok H. res_simpl.
  eapply Forall_forall in Hok0; [|exact Hin]. unfold input_validate in Hok0.
  rewrite Hx in Hok0. inv_ok Hok0. by destruct x0.
Qed.

(** ** The sealed posture *)

(** Both entry points: on the producer's own times, or on an authority's present support. *)
Definition evaluate (policy : PosturePolicy) (inputs : DiagnosticInputs)
    (recurrence : RecurrenceEvidence) (now : instant) (support : option QualifiedSupportV1)
    : result string OperationalPosture :=
  match support with
  | None => evaluate_posture policy inputs recurrence now
  | Some support => evaluate_posture_with_support policy inputs recurrence now support
  end.

Section evaluated.
Context (policy : PosturePolicy) (inputs : DiagnosticInputs) (recurrence : RecurrenceEvidence).
Context (now : instant) (support : option QualifiedSupportV1).

Definition assessed (e : InventoryEntry) : EntryAssessment :=
  assess_entry e now (is_inputs inputs) support.
Definition recurs (e : InventoryEntry) : RecurrenceAssessment :=
  assess_recurrence_entry now e (re_obligations recurrence) (re_records recurrence)
    (ea_artifact (assessed e)).

(** An assessment is of its entry, whichever way it ends. *)
Definition is_of (e : InventoryEntry) (a : EntryAssessment) : Prop :=
  ea_key a = entry_key e /\ ea_requirement a = ie_requirement e.

Lemma delivered_is_of e x : is_of e (assess_delivered e now x support).
Proof.
  destruct (decide (is_of e (assess_delivered e now x support))) as [?|Hn]; [done|].
  assert (never_early (fun a => ~ is_of e a) (delivered_steps e now x support)) as He.
  { unfold delivered_steps, check_states, check_age, check_interval_clock, check_fresh.
    repeat early_step. }
  destruct (outcome_ok _ _ He Hn) as (a & H & Ha). destruct Ha. unfold delivered_steps in H.
  inv_ok H. destruct support as [s|].
  - destruct (qs_standing s); simpl in H; inv_ok H; by subst a.
  - inv_ok H. by subst a.
Qed.

Lemma assessed_is_of e : is_of e (assessed e).
Proof.
  unfold assessed, assess_entry. case_bool_decide; [done|].
  destruct (List.filter _ _) as [|input [|]]; try done.
  destruct (in_status input) as [x| | |]; try done. apply delivered_is_of.
Qed.

Lemma assess_inventory_eq :
  assess_inventory policy inputs now support = assessed <$> pp_inventory policy.
Proof. done. Qed.

(** Keys are distinct, so an entry's recurrence is judged by its own artifact. *)
Lemma assess_recurrence_eq :
  NoDup (entry_key <$> pp_inventory policy) ->
  assess_recurrence policy recurrence now (assessed <$> pp_inventory policy) =
  recurs <$> pp_inventory policy.
Proof.
  intros Hn. unfold assess_recurrence, recurs. apply list_fmap_ext. intros i e He.
  apply list_elem_of_lookup_2 in He. do 2 f_equal.
  rewrite <- (proj1 (assessed_is_of e)). rewrite find_first_unique; [done| |].
  - rewrite <- list_fmap_compose. erewrite list_fmap_ext; [exact Hn|].
    intros j e' _. simpl. by rewrite (proj1 (assessed_is_of e')).
  - by apply list_elem_of_fmap_2.
Qed.

Definition delivery_accepted (policy : PosturePolicy) (recurrence : RecurrenceEvidence) : bool :=
  if pp_delivery_required policy
  then bool_decide (re_delivery recurrence = Delivery_Qualified) else true.

(** What is sealed: the assessments, and the axes they have. *)
Definition posture_of (p : OperationalPosture) : Prop :=
  op_policy p = policy /\ op_input_evidence p = inputs /\
  op_recurrence_evidence p = recurrence /\ op_present_support p = support /\
  op_assessments p = assessed <$> pp_inventory policy /\
  op_recurrence p = recurs <$> pp_inventory policy /\
  op_completeness p = completeness_of (op_assessments p) /\
  op_condition p = condition_of (op_assessments p) /\
  op_coverage p = coverage_of (op_assessments p) /\
  op_recurrence_axis p = recurrence_axis_of (pp_inventory policy) (op_recurrence p) /\
  op_current p = bool_decide (op_completeness p = Completeness_Complete)
                 && bool_decide (op_coverage p = CoverageAxis_Complete)
                 && bool_decide (op_recurrence_axis p = RecurrenceAxis_Current) /\
  op_headline p = headline_of (op_current p) (op_condition p) (delivery_accepted policy recurrence).

Lemma evaluate_ok p :
  evaluate policy inputs recurrence now support = Ok p ->
  policy_validate policy = Ok tt /\ inputs_validate inputs = Ok tt /\
  recurrence_validate recurrence = Ok tt /\
  (forall s, support = Some s -> validate_shape s = Ok tt /\ support_binds policy inputs s = true) /\
  posture_of p.
Proof.
  intros H.
  assert (evaluate_posture_internal policy inputs recurrence now support = Ok p /\
    forall s, support = Some s -> validate_shape s = Ok tt /\ support_binds policy inputs s = true)
    as [Hi Hs].
  { unfold evaluate, evaluate_posture, evaluate_posture_with_support in H.
    destruct support as [s|]; [|done]. inv_ok H. res_simpl. test_simpl.
    split; [done|]. by intros s' [= <-]. }
  unfold evaluate_posture_internal in Hi. inv_ok Hi.
  destruct (policy_validate_ok _ Hok) as [Hn _].
  rewrite assess_inventory_eq, assess_recurrence_eq in Hi by done.
  unfold seal_identity in Hi. inv_ok Hi. subst p. by repeat (split; [done|]).
Qed.
End evaluated.

(** ** The axes *)

Lemma artifact_established_ok a :
  artifact_established a = true <-> is_current a /\
    (ea_status a = Status_ConditionPresent \/ is_clear a = true).
Proof.
  unfold artifact_established, is_clear, is_current. rewrite andb_true_iff, bool_decide_eq_true.
  destruct (ea_status a); naive_solver.
Qed.

(** An established artifact covers its question, and reports what its status says. *)
Lemma established_outcome e x reason :
  artifact_established (delivered_as e x Standing_Current (status_from_artifact x) reason) = true ->
  outcome_coverage (ex_outcome x) = Coverage_Complete /\
  outcome_derivation (ex_outcome x) = Derivation_Completed.
Proof.
  rewrite artifact_established_ok. intros [_ H]. unfold delivered_as, is_clear, status_from_artifact in H.
  simpl in H. destruct x; simpl in *.
  all: repeat case_match; naive_solver.
Qed.

Lemma coverage_of_complete l :
  Forall (fun a => is_mandatory a = true -> is_current a /\ exists trace,
    ea_nq_trace a = Some trace /\ outcome_coverage (tr_outcome trace) = Coverage_Complete) l ->
  coverage_of l = CoverageAxis_Complete.
Proof.
  intros H. unfold coverage_of. set (covered := omap _ _).
  assert (Forall (fun c => c = Coverage_Complete) covered /\
          length covered = length (List.filter is_mandatory l)) as [Hc Hl].
  { subst covered. induction H as [|a l Ha _ [IH1 IH2]]; [done|]. simpl.
    destruct (is_mandatory a); [|done].
    destruct (Ha eq_refl) as (Hs & trace & Ht & Ho). simpl.
    unfold is_current in Hs. rewrite Hs. simpl. rewrite Ht. simpl. split; [by constructor|].
    simpl. by f_equal. }
  rewrite Hl, bool_decide_eq_true_2 by done. simpl.
  replace (forallb _ covered) with true; [done|]. symmetry. test_simpl.
  eapply Forall_impl; [exact Hc|]. intros c ->. by rewrite bool_decide_eq_true_2.
Qed.

Lemma headline_clean current condition delivered :
  headline_of current condition delivered = Headline_Clean <->
  current = true /\ condition = ConditionAxis_Clean /\ delivered = true.
Proof. destruct current, condition, delivered; simpl; naive_solver. Qed.

Lemma headline_present current condition delivered :
  headline_of current condition delivered = Headline_ConditionPresent <->
  current = true /\ condition = ConditionAxis_ConditionPresent.
Proof. destruct current, condition, delivered; simpl; naive_solver. Qed.

Lemma completeness_complete l :
  completeness_of l = Completeness_Complete <->
  Forall (fun a => is_mandatory a = true -> artifact_established a = true) l.
Proof.
  unfold completeness_of. rewrite <- forallb_filter_Forall. by destruct (forallb _ _).
Qed.

Lemma condition_clean l :
  condition_of l = ConditionAxis_Clean <->
  Forall (fun a => reports_condition a = false) l /\
  Forall (fun a => is_mandatory a = true -> artifact_established a = true /\ is_clear a = true) l.
Proof.
  unfold condition_of. destruct (existsb reports_condition l) eqn:Hr.
  { split; [done|]. intros [Hn%existsb_false_Forall _]. congruence. }
  apply existsb_false_Forall in Hr.
  rewrite <- Forall_and_mandatory, <- completeness_complete, <- forallb_filter_Forall.
  destruct (completeness_of l), (forallb is_clear _); simpl; naive_solver.
Qed.

Lemma condition_present l :
  condition_of l = ConditionAxis_ConditionPresent <-> exists a, a ∈ l /\ reports_condition a = true.
Proof.
  unfold condition_of. destruct (existsb reports_condition l) eqn:Hr.
  { by apply existsb_true_Exists in Hr. }
  apply existsb_false_Forall in Hr. split; [by case_match|].
  intros (a & Ha & Ht). eapply Forall_forall in Hr; [|exact Ha]. simpl in Hr. congruence.
Qed.

Section judged.
Context (policy : PosturePolicy) (inputs : DiagnosticInputs) (recurrence : RecurrenceEvidence).
Context (now : instant) (support : option QualifiedSupportV1).
Abbreviation assessed' := (assessed inputs now support).
Abbreviation recurs' := (recurs inputs recurrence now support).

Lemma recurs_key e : rc_key (recurs' e) = entry_key e.
Proof. unfold recurs, assess_recurrence_entry. by repeat case_match. Qed.

Lemma recurrence_axis_current :
  NoDup (entry_key <$> pp_inventory policy) ->
  recurrence_axis_of (pp_inventory policy) (recurs' <$> pp_inventory policy) = RecurrenceAxis_Current <->
  Forall (fun e => ie_requirement e = Requirement_Mandatory ->
                   rc_standing (recurs' e) = Recurrence_Current) (pp_inventory policy).
Proof.
  intros Hn. unfold recurrence_axis_of.
  transitivity (forallb (fun entry =>
       negb (bool_decide (ie_requirement entry = Requirement_Mandatory))
       || existsb (fun a => bool_decide (rc_key a = entry_key entry)
                            && bool_decide (rc_standing a = Recurrence_Current))
            (recurs' <$> pp_inventory policy)) (pp_inventory policy) = true); [by case_match|].
  rewrite forallb_Forall, !Forall_forall. apply forall_proper. intros e.
  split; intros H He; specialize (H He).
  - intros Hm. rewrite bool_decide_eq_true_2 in H by done. simpl in H.
    apply existsb_true_Exists in H as (a & (e' & -> & He')%list_elem_of_fmap & [Hk Hs]%andb_true_iff).
    rewrite recurs_key in Hk. apply bool_decide_eq_true in Hk, Hs.
    by rewrite <- (NoDup_fmap_key entry_key (pp_inventory policy) e' e Hn He' He Hk).
  - case_bool_decide as Hm; [simpl|done]. apply existsb_true_Exists. exists (recurs' e).
    rewrite recurs_key, H, !bool_decide_eq_true_2 by done.
    split; [by apply list_elem_of_fmap_2|done].
Qed.

Definition mandatory (e : InventoryEntry) : Prop := ie_requirement e = Requirement_Mandatory.

Lemma Forall_assessed (P : EntryAssessment -> Prop) :
  Forall (fun a => is_mandatory a = true -> P a) (assessed' <$> pp_inventory policy) <->
  Forall (fun e => mandatory e -> P (assessed' e)) (pp_inventory policy).
Proof.
  rewrite Forall_fmap, !Forall_forall. apply forall_proper. intros e.
  apply forall_proper. intros _. unfold compose, is_mandatory, mandatory.
  by rewrite (proj2 (assessed_is_of inputs now support e)), bool_decide_eq_true.
Qed.

Context {HOK : HostOk po_host} {COK : ChronoOk po_host po_chrono}.

(** Coverage is complete as soon as every mandatory entry is established. *)
Lemma covered_when_established :
  completeness_of (assessed' <$> pp_inventory policy) = Completeness_Complete ->
  coverage_of (assessed' <$> pp_inventory policy) = CoverageAxis_Complete.
Proof.
  intros Hc. apply coverage_of_complete. apply completeness_complete in Hc.
  rewrite !Forall_fmap in Hc |- *. eapply Forall_impl; [exact Hc|].
  unfold compose. intros e H Hm. specialize (H Hm).
  destruct (proj1 (artifact_established_ok _) H) as [Hcur _]. split; [done|].
  destruct (entry_current _ _ _ _ Hcur) as (_ & input & x & reason & _ & _ & _ & _ & Heq).
  unfold assessed in H |- *. rewrite Heq in H |- *.
  destruct (established_outcome e x reason H) as [Hcov _]. by eexists.
Qed.

Lemma op_current_true p :
  NoDup (entry_key <$> pp_inventory policy) ->
  posture_of policy inputs recurrence now support p ->
  op_current p = true <->
  Forall (fun e => mandatory e -> artifact_established (assessed' e) = true /\
                   rc_standing (recurs' e) = Recurrence_Current) (pp_inventory policy).
Proof.
  intros Hn (_ & _ & _ & _ & Ha & Hr & Hcm & _ & Hcv & Hra & Hcu & _).
  rewrite Hcu, !andb_true_iff, !bool_decide_eq_true, Hcm, Hcv, Hra, Ha, Hr.
  rewrite recurrence_axis_current by done.
  assert (forall A B : Prop, (A -> B) -> (A /\ B) <-> A) as Hand by naive_solver.
  rewrite (Hand _ _ covered_when_established).
  rewrite completeness_complete, (Forall_assessed (fun a => artifact_established a = true)).
  rewrite !Forall_forall. naive_solver.
Qed.
End judged.

(** ** The headline and the condition *)

Section headlines.
Context {HOK : HostOk po_host} {COK : ChronoOk po_host po_chrono}.

(** C31: the headline is clean exactly when every mandatory entry is current, clear and
    recurring, no entry of the inventory currently reports the condition, and delivery is
    qualified where it is required. *)
Theorem clean_headline policy inputs recurrence now support p :
  evaluate policy inputs recurrence now support = Ok p ->
  op_headline p = Headline_Clean <->
  Forall (fun e => mandatory e ->
    is_current (assessed inputs now support e) /\ is_clear (assessed inputs now support e) = true /\
    rc_standing (recurs inputs recurrence now support e) = Recurrence_Current)
    (pp_inventory policy) /\
  Forall (fun e => reports_condition (assessed inputs now support e) = false)
    (pp_inventory policy) /\
  (pp_delivery_required policy = true -> re_delivery recurrence = Delivery_Qualified).
Proof.
  intros (Hv & _ & _ & _ & Hp)%evaluate_ok. destruct (policy_validate_ok _ Hv) as [Hn _].
  pose proof (op_current_true _ _ _ _ _ _ Hn Hp) as Hcur.
  destruct Hp as (_ & _ & _ & _ & Ha & _ & _ & Hcond & _ & _ & _ & Hh).
  rewrite Hh, headline_clean, Hcur, Hcond, Ha, condition_clean, Forall_fmap.
  rewrite (Forall_assessed policy inputs now support
             (fun a => artifact_established a = true /\ is_clear a = true)).
  assert (delivery_accepted policy recurrence = true <->
    (pp_delivery_required policy = true -> re_delivery recurrence = Delivery_Qualified)) as ->.
  { unfold delivery_accepted. destruct (pp_delivery_required policy); rewrite ?bool_decide_eq_true; naive_solver. }
  unfold compose. rewrite !Forall_forall.
  setoid_rewrite artifact_established_ok. split.
  - intros (Hm & [Hr Hc] & Hd). split; [|done]. intros e He Hmand.
    destruct (Hm e He Hmand) as [[? _] ?], (Hc e He Hmand) as [_ ?]. auto.
  - intros (Hm & Hr & Hd). split; [|split; [split; [done|]|done]];
      intros e He Hmand; destruct (Hm e He Hmand) as (? & ? & ?); auto.
Qed.

(** An entry that currently reports the condition: its one delivered artifact completed
    and found it. *)
Definition finds_condition (inputs : DiagnosticInputs) (now : instant)
    (support : option QualifiedSupportV1) (e : InventoryEntry) : Prop :=
  exists input x, List.filter (answers e) (is_inputs inputs) = [input] /\
    in_status input = Input_Delivered x /\ bound_as_declared e x /\ present support now e x /\
    ie_requirement e <> Requirement_Excluded /\
    ex_outcome_derivation x = Derivation_Completed /\ ex_outcome_condition x = Condition_Present.

Lemma reports_condition_ok inputs now support e :
  reports_condition (assessed inputs now support e) = true -> finds_condition inputs now support e.
Proof.
  unfold reports_condition. rewrite andb_true_iff, bool_decide_eq_true. intros [Hc Ht].
  destruct (entry_current _ _ _ _ Hc) as (He & input & x & reason & Hf & Hs & Hb & Hp & Heq).
  unfold assessed in Ht. rewrite Heq in Ht. simpl in Ht.
  apply andb_true_iff in Ht as [Hd%bool_decide_eq_true Hcd%bool_decide_eq_true].
  exists input, x. by destruct x.
Qed.

(** A condition that some entry, mandatory or optional, currently finds is never hidden:
    it is the condition axis, it excludes a clean headline, and it is the headline exactly
    when every mandatory entry is established and recurring. *)
Theorem condition_is_shown policy inputs recurrence now support p :
  evaluate policy inputs recurrence now support = Ok p ->
  (op_condition p = ConditionAxis_ConditionPresent <->
   exists e, e ∈ pp_inventory policy /\
     reports_condition (assessed inputs now support e) = true) /\
  (forall e, e ∈ pp_inventory policy ->
     reports_condition (assessed inputs now support e) = true ->
     finds_condition inputs now support e /\ op_headline p <> Headline_Clean) /\
  (op_headline p = Headline_ConditionPresent <->
   op_condition p = ConditionAxis_ConditionPresent /\
   Forall (fun e => mandatory e -> artifact_established (assessed inputs now support e) = true /\
     rc_standing (recurs inputs recurrence now support e) = Recurrence_Current)
     (pp_inventory policy)).
Proof.
  intros (Hv & _ & _ & _ & Hp)%evaluate_ok. destruct (policy_validate_ok _ Hv) as [Hn _].
  pose proof (op_current_true _ _ _ _ _ _ Hn Hp) as Hcur.
  destruct Hp as (_ & _ & _ & _ & Ha & _ & _ & Hcond & _ & _ & _ & Hh).
  assert (op_condition p = ConditionAxis_ConditionPresent <->
    exists e, e ∈ pp_inventory policy /\ reports_condition (assessed inputs now support e) = true) as Hc.
  { rewrite Hcond, Ha, condition_present. setoid_rewrite list_elem_of_fmap. naive_solver. }
  split; [done|]. split.
  - intros e He Hr. split; [by apply reports_condition_ok|].
    rewrite Hh, headline_clean. intros (_ & Hcl & _).
    rewrite (proj2 Hc) in Hcl by eauto. done.
  - rewrite Hh, headline_present, Hcur. naive_solver.
Qed.

(** C33: an assessment is current only of the one artifact delivered under its key, which
    passes the contract's own validation, is bound to the producer, question, claim and
    states the entry declares, and is present: by the producer's qualified times within
    the declared age, or by an authority's unexpired support for exactly these inputs. *)
Theorem current_is_bound_and_present policy inputs recurrence now support p a :
  evaluate policy inputs recurrence now support = Ok p ->
  a ∈ op_assessments p -> is_current a ->
  exists e input x, e ∈ pp_inventory policy /\ is_of e a /\
    List.filter (answers e) (is_inputs inputs) = [input] /\
    in_status input = Input_Delivered x /\ diagnostic_validate x = Ok tt /\
    bound_as_declared e x /\ ea_status a = status_from_artifact x /\
    match support with
    | None => present None now e x
    | Some s => qs_standing s = Support_Current /\ qs_contradiction_refs s = [] /\
        qs_diagnostic_inputs_id s = is_inputs_id inputs /\
        qs_artifact_ids s = delivered_artifact_ids inputs /\
        exists expiry, qs_expiry s = Some expiry /\
          se_clock_id expiry = sr_clock_id (qs_evaluated_at s) /\
          (sr_tick (qs_evaluated_at s) < se_tick expiry)%N
    end.
Proof.
  intros (_ & Hi & _ & Hs & Hp)%evaluate_ok Hin Hcur.
  destruct Hp as (_ & _ & _ & _ & Ha & _). rewrite Ha in Hin.
  apply list_elem_of_fmap in Hin as (e & -> & He).
  destruct (entry_current _ _ _ _ Hcur) as (_ & input & x & reason & Hf & Hst & Hb & Hpr & Heq).
  assert (input ∈ is_inputs inputs) as Hin.
  { assert (In input (List.filter (answers e) (is_inputs inputs))) as Hl by (rewrite Hf; by left).
    apply filter_In in Hl as [Hl _]. by apply list_elem_of_In. }
  exists e, input, x. split; [done|]. split; [apply assessed_is_of|].
  do 2 (split; [done|]). split; [by eapply inputs_validate_ok|]. split; [done|].
  split; [by unfold assessed; rewrite Heq|].
  destruct support as [s|]; [|done]. destruct (Hs s eq_refl) as [Hv Hbi].
  destruct (current_support_ok s Hv Hpr) as [? ?].
  unfold support_binds in Hbi. test_simpl. destruct Hbi as (((? & _) & _) & Hids).
  apply bool_decide_eq_true in Hids. auto 10.
Qed.
End headlines.
End posture_facts.
