(* ===== verification/ScheduleFacts.v ===== *)
(** * Schedules and recurrence

    The occurrences of a schedule are one cadence apart, moved by one bounded jitter; the
    occurrence expected at an instant is the last one due.  Recurrence is current only
    for a completed run of that occurrence, in budget, in its standing window and about
    the artifact that was assessed. *)
From S2P Require Import Prelude Text External Currentness Diagnostic DiagnosticV2 Posture.
From S2P Require Import PostureFacts.
Local Open Scope string_scope.

Section schedule_facts.
Context {PD : PostureDocuments} {HOK : HostOk po_host} {COK : ChronoOk po_host po_chrono}.

Definition nanos_of (n : N) : Z := (Z.of_N n * nanos_per_second)%Z.

(** ** Slots *)

Lemma saturating_succ_bound a : (0 < saturating_succ a <= a + 1)%N.
Proof. unfold saturating_succ, U64_MAX. lia. Qed.

Lemma deterministic_jitter_bound p k jitter :
  deterministic_jitter p k = Ok jitter -> (jitter <= sp_jitter_bound_seconds p)%N.
Proof.
  unfold deterministic_jitter. intros H. inv_ok H. subst jitter.
  pose proof (saturating_succ_bound (sp_jitter_bound_seconds p)).
  pose proof (N.mod_lt (sha256_prefix x) (saturating_succ (sp_jitter_bound_seconds p))). lia.
Qed.

Lemma schedule_validate_cadence p :
  schedule_validate p = Ok tt -> (0 < sp_cadence_seconds p)%N.
Proof. unfold schedule_validate. intros H. inv_ok H. res_simpl. test_simpl. lia. Qed.

Lemma checked_mul_ok a b c : checked_mul a b = Some c -> c = (a * b)%N.
Proof. unfold checked_mul. case_match; naive_solver. Qed.

(** When an occurrence is due: the first one, one cadence per occurrence, the jitter. *)
Lemma slot_due_at_ok p k n t :
  slot_due_at p k n = Ok t ->
  (0 < sp_cadence_seconds p)%N /\
  exists first jitter,
    parse_time (sp_first_due_at p) "schedule.first_due_at" = Ok first /\
    deterministic_jitter p k = Ok jitter /\
    t = (first + nanos_of (sp_cadence_seconds p * n) + nanos_of jitter)%Z.
Proof.
  unfold slot_due_at. intros H. inv_ok H. split; [by apply schedule_validate_cadence|].
  apply ok_or_ok, checked_mul_ok in Hok1 as ->. apply ok_or_ok, checked_add_signed_sum in Hok3 as ->.
  apply ok_or_ok, checked_add_signed_sum in H as ->.
  apply checked_seconds_nanos in Hok2 as ->, Hok5 as ->. eauto.
Qed.

(** Whole cadences elapsed: truncation to seconds loses none. *)
Lemma cadences_elapsed c m elapsed :
  (0 < c)%N -> (0 <= elapsed)%Z ->
  (nanos_of (c * m) <= elapsed)%Z <-> (m <= Z.to_N (Z.quot elapsed nanos_per_second) / c)%N.
Proof.
  unfold nanos_of, nanos_per_second. intros Hc He. rewrite Z.quot_div_nonneg by lia.
  pose proof (Z.div_pos elapsed 1000000000 He eq_refl) as Hq.
  transitivity (Z.of_N (c * m) <= elapsed / 1000000000)%Z.
  - pose proof (Z.div_mod elapsed 1000000000 ltac:(done)).
    pose proof (Z.mod_pos_bound elapsed 1000000000 eq_refl). lia.
  - transitivity (c * m <= Z.to_N (elapsed / 1000000000))%N; [lia|]. split.
    + intros H. apply N.div_le_lower_bound; lia.
    + intros H. pose proof (N.Div0.mul_div_le (Z.to_N (elapsed / 1000000000)) c). nia.
Qed.

(** C34: the occurrence expected at an instant is the last one due by then, none before the
    first; the first is due within the jitter bound of its declared instant and each later
    one a whole number of cadences after it. *)
Theorem expected_occurrence_is_last_due p k now o :
  expected_occurrence_at p k now = Ok o ->
  exists first due0,
    parse_time (sp_first_due_at p) "schedule.first_due_at" = Ok first /\
    slot_due_at p k 0 = Ok due0 /\
    (first <= due0 <= first + nanos_of (sp_jitter_bound_seconds p))%Z /\
    (forall m due, slot_due_at p k m = Ok due ->
      due = (due0 + nanos_of (sp_cadence_seconds p * m))%Z /\
      ((due <= now)%Z <-> exists n, o = Some n /\ (m <= n)%N)).
Proof.
  unfold expected_occurrence_at. intros H. inv_ok H. rename x into due0.
  destruct (slot_due_at_ok _ _ _ _ Hok) as (Hc & first & jitter & Hf & Hj & Hd).
  exists first, due0. split; [done|]. split; [done|].
  pose proof (deterministic_jitter_bound _ _ _ Hj) as Hb.
  rewrite N.mul_0_r in Hd. replace (nanos_of 0) with 0%Z in Hd by done.
  split; [unfold nanos_of, nanos_per_second in *; lia|].
  intros m due Hm. destruct (slot_due_at_ok _ _ _ _ Hm) as (_ & first' & jitter' & Hf' & Hj' & Hdue).
  rewrite Hf in Hf'. rewrite Hj in Hj'. injection Hf' as <-. injection Hj' as <-.
  assert (due = (due0 + nanos_of (sp_cadence_seconds p * m))%Z) as -> by lia.
  split; [done|]. clear Hdue Hm. destruct (Z.ltb_spec now due0) as [Hlt|Hge].
  - injection H as <-. split; [|naive_solver].
    unfold nanos_of, nanos_per_second. lia.
  - inv_ok H. subst o. rewrite seconds_since_quot.
    transitivity (nanos_of (sp_cadence_seconds p * m) <= now - due0)%Z; [lia|].
    rewrite cadences_elapsed by lia. naive_solver.
Qed.

(** ** Recurrence *)

Definition recurs_now (standing : RecurrenceStanding * string) : Prop :=
  standing.1 = Recurrence_Current.

(** A completed run: in its slot's budget, and in its standing window at [now]. *)
Definition completed_in_time (p : SchedulePolicy) (k : DiagnosticKey) (now due : instant)
    (record : RecurrenceRecord) (assessed : option ArtifactRef) : Prop :=
  exists attempt completed_at artifact expected started completed,
    rr_evidence record = Slot_Completed attempt completed_at artifact /\
    parse_time (at_started_at attempt) "attempt.started_at" = Ok started /\
    parse_time completed_at "completed_at" = Ok completed /\
    at_slot_id attempt = rs_slot_id (rr_slot record) /\
    at_request_id attempt = ax_request_id artifact /\
    ax_key artifact = k /\ assessed = Some expected /\
    artifact_refs_match expected artifact = true /\
    (due <= started <= completed)%Z /\ (completed <= now)%Z /\
    (completed <= started + nanos_of (sp_max_execution_budget_seconds p))%Z /\
    (now <= completed + nanos_of (sp_standing_window_seconds p))%Z.

Lemma make_run_slot_ok p k n slot :
  make_run_slot p k n = Ok slot ->
  exists due, slot_due_at p k n = Ok due /\ rs_due_at slot = to_rfc3339_autosi due /\
    rs_budget_seconds slot = sp_max_execution_budget_seconds p.
Proof. unfold make_run_slot. intros H. inv_ok H. subst slot. eauto. Qed.

Lemma parse_printed t u name : parse_time (to_rfc3339_autosi t) name = Ok u -> u = t.
Proof.
  unfold parse_time. destruct (parse_from_rfc3339 _) eqn:Hp; [|done]. intros [= <-].
  by eapply parse_autosi.
Qed.

Lemma record_steps_early now obligation record assessed :
  never_early recurs_now (record_steps now obligation record assessed).
Proof.
  unfold record_steps, assess_completed, assess_active, invalid_record, invalid_unless.
  repeat early_step.
Qed.

Lemma completed_current now record assessed due budget attempt completed_at artifact standing p :
  rr_policy record = p -> budget = nanos_of (sp_max_execution_budget_seconds p) ->
  rr_evidence record = Slot_Completed attempt completed_at artifact ->
  assess_completed now record assessed due budget attempt completed_at artifact = Ok standing ->
  recurs_now standing -> completed_in_time p (rr_key record) now due record assessed.
Proof.
  intros Hp Hb He H Hs. unfold assess_completed, invalid_record, invalid_unless in H.
  inv_ok H. res_simpl. test_simpl.
  apply checked_add_signed_sum in Hok1, Hok4. apply checked_seconds_nanos in Hok3.
  destruct (now <=? x3)%Z eqn:Hn; injection H as <-; [|done]. test_simpl. subst.
  destruct Hok2 as (((((((? & ?) & ?) & ?) & ?) & ?) & Hk%bool_decide_eq_true) & Hm).
  destruct assessed as [expected|]; [|done]. simpl in Hm.
  do 6 eexists. repeat (split; [done|]). unfold nanos_of. auto.
Qed.

(** The record a current recurrence rests on. *)
Definition recurs_by (now : instant) (key : DiagnosticKey) (o : ScheduleObligation)
    (record : RecurrenceRecord) (assessed : option ArtifactRef) : Prop :=
  rr_key record = key /\ rr_policy record = so_policy o /\
  exists n due, expected_occurrence_at (so_policy o) key now = Ok (Some n) /\
    slot_due_at (so_policy o) key n = Ok due /\
    make_run_slot (so_policy o) key n = Ok (rr_slot record) /\
    completed_in_time (so_policy o) key now due record assessed.

Lemma assess_record_current now o record assessed reason :
  assess_recurrence_record now o record assessed = (Recurrence_Current, reason) ->
  recurs_by now (so_key o) o record assessed.
Proof.
  intros Heq. assert (recurs_now (outcome (record_steps now o record assessed))) as Ho.
  { unfold recurs_now. change (outcome _) with (assess_recurrence_record now o record assessed).
    by rewrite Heq. }
  destruct (outcome_ok _ _ (record_steps_early now o record assessed) Ho) as (st & H & Hst).
  unfold record_steps, invalid_record, invalid_unless in H. inv_ok H. res_simpl. test_simpl.
  destruct Hok as [Hk%bool_decide_eq_true Hp%bool_decide_eq_true].
  apply bool_decide_eq_true in Hok3. subst x x1.
  destruct (make_run_slot_ok _ _ _ _ Hok2) as (due & Hdue & Hd & Hb).
  rewrite Hd in Hok4. apply parse_printed in Hok4 as ->.
  rewrite Hb in Hok5. apply checked_seconds_nanos in Hok5.
  split; [done|]. split; [done|]. exists x0, due. do 3 (split; [done|]). rewrite <- Hk.
  destruct (rr_evidence record) as [attempt completed_at artifact|attempt|reason'|reason'] eqn:He.
  - by eapply completed_current.
  - unfold assess_active, invalid_record, invalid_unless in H. inv_ok H. by case_match; simplify_eq.
  - injection H as <-. done.
  - injection H as <-. done.
Qed.

(** An entry whose recurrence is current has one obligation and one record of its slot. *)
Lemma entry_recurs now e obligations records assessed :
  rc_standing (assess_recurrence_entry now e obligations records assessed) = Recurrence_Current ->
  ie_requirement e <> Requirement_Excluded ->
  exists o record,
    List.filter (fun o => bool_decide (so_key o = entry_key e)) obligations = [o] /\
    record ∈ records /\ recurs_by now (entry_key e) o record assessed.
Proof.
  unfold assess_recurrence_entry. intros H He. rewrite bool_decide_eq_false_2 in H by done.
  destruct (List.filter (fun o => bool_decide (so_key o = entry_key e)) obligations)
    as [|o [|]] eqn:Ho; try done.
  assert (so_key o = entry_key e) as Hk.
  { assert (In o (List.filter (fun o => bool_decide (so_key o = entry_key e)) obligations)) as Hin
      by (rewrite Ho; by left).
    by apply filter_In in Hin as [_ ?%bool_decide_eq_true]. }
  destruct (current_slot _ _ _) as [slot|]; [|done].
  destruct (List.filter (fun r => bool_decide (rr_slot r = slot)) _) as [|record [|]] eqn:Hr; try done.
  assert (In record records) as Hin.
  { assert (In record [record]) as Hin by (by left). rewrite <- Hr in Hin.
    by apply filter_In in Hin as [[? _]%filter_In _]. }
  destruct (assess_recurrence_record now o record assessed) as [standing reason] eqn:Ha.
  simpl in H. subst standing. apply assess_record_current in Ha. rewrite Hk in Ha.
  exists o, record. by rewrite list_elem_of_In.
Qed.

(** C35: recurrence is current, the excluded entries apart, only with one obligation for the
    entry and a retained record of exactly the run slot last due under it, completed within
    the slot's budget, still in its standing window, whose artifact is the one assessed. *)
Theorem current_recurrence_completed policy inputs recurrence now support p a :
  evaluate policy inputs recurrence now support = Ok p ->
  a ∈ op_recurrence p -> rc_standing a = Recurrence_Current ->
  rc_requirement a <> Requirement_Excluded ->
  exists e o record, e ∈ pp_inventory policy /\ rc_key a = entry_key e /\
    List.filter (fun o => bool_decide (so_key o = entry_key e)) (re_obligations recurrence) = [o] /\
    record ∈ re_records recurrence /\ record_validate (re_schema recurrence) record = Ok tt /\
    recurs_by now (entry_key e) o record (ea_artifact (assessed inputs now support e)).
Proof.
  intros (_ & _ & Hv & _ & Hp)%evaluate_ok Ha Hs Hreq.
  destruct Hp as (_ & _ & _ & _ & _ & Hr & _). rewrite Hr in Ha.
  apply list_elem_of_fmap in Ha as (e & -> & He).
  assert (rc_requirement (recurs inputs recurrence now support e) = ie_requirement e) as Hq.
  { unfold recurs, assess_recurrence_entry. by repeat case_match. }
  rewrite Hq in Hreq. destruct (entry_recurs _ _ _ _ _ Hs Hreq) as (o & record & Ho & Hin & Hby).
  exists e, o, record. split; [done|]. split; [apply recurs_key|]. do 2 (split; [done|]).
  split; [|done]. unfold recurrence_validate in Hv. inv_ok Hv. res_simpl.
  by eapply Forall_forall in Hok1.
Qed.

(** ** Projections *)

(** A projection keeps every assessment in its place and marks what it omits; what it
    omits makes its headline incomplete, and only what it shows keeps the posture's. *)
Theorem projection_hides_nothing visible p q :
  project visible p = Ok q ->
  os_item <$> oj_slots q = op_assessments p /\
  Forall (fun slot => os_visibility slot = Projection_Shown <-> ea_key (os_item slot) ∈ visible)
    (oj_slots q) /\
  ((forall a, a ∈ op_assessments p -> ea_key a ∈ visible) -> oj_headline q = op_headline p) /\
  (oj_headline q <> Headline_Incomplete ->
   oj_headline q = op_headline p /\ forall a, a ∈ op_assessments p -> ea_key a ∈ visible).
Proof.
  unfold project. intros H. inv_ok H. subst q. cbn [oj_slots oj_headline with_projection_id].
  split; [|split].
  - rewrite <- list_fmap_compose. by rewrite (list_fmap_ext _ id), list_fmap_id.
  - rewrite Forall_fmap, Forall_forall. intros a _. unfold compose, projection_slot. simpl.
    case_bool_decide; naive_solver.
  - destruct (existsb _ (projection_slot visible <$> op_assessments p)) eqn:Hom.
    + apply existsb_true_Exists in Hom as (slot & (a & -> & Ha)%list_elem_of_fmap & Ht).
      apply bool_decide_eq_true in Ht. split; [|done]. intros Hall. specialize (Hall a Ha).
      unfold projection_slot in Ht. simpl in Ht. by rewrite bool_decide_eq_true_2 in Ht.
    + apply existsb_false_Forall in Hom. rewrite Forall_fmap, Forall_forall in Hom.
      split; [done|]. intros _. split; [done|]. intros a Ha. specialize (Hom a Ha).
      unfold compose, projection_slot in Hom. simpl in Hom. apply bool_decide_eq_false in Hom.
      by case_bool_decide.
Qed.
End schedule_facts.
