(* ===== verification/Signing.v ===== *)
(** * Identities and signatures

    What the signed evidence contracts of [nightshiftd] share: canonical bytes and
    content identities of a record, hexadecimal digests, UUIDs, JSON pointers and the
    Ed25519 verification of ed25519_dalek, an external crate. *)
From S2P Require Import Prelude Text External.
Local Open Scope string_scope.

(** A [Uuid] is kept as its hyphenated lower-case text: two UUIDs are equal exactly when
    their texts are, and [to_string] is the identity. *)
Abbreviation uuid := string (only parsing).

(** A [VerifyingKey] is kept as its 32 bytes. *)
Abbreviation VerifyingKey := string (only parsing).

Class Ed25519 : Type := {
  (** ed25519_dalek: [VerifyingKey::from_bytes(bytes).is_ok()]. *)
  key_valid : string -> bool;
  (** ed25519_dalek: [key.verify(message, &signature).is_ok()]. *)
  ed25519_verify : VerifyingKey -> string -> string -> bool
}.

Class Uuids : Type := {
  (** uuid: [Uuid::parse_str(s).ok()]. *)
  uuid_parse : string -> option uuid
}.

(** ** Standard-library operations *)

(** [str::trim]. *)
Fixpoint trim_start (s : string) : string :=
  match s with
  | "" => ""
  | String a s1 =>
      if ws1 a then trim_start s1 else
      match s1 with
      | "" => s
      | String b s2 =>
          if ws2 a b then trim_start s2 else
          match s2 with
          | "" => s
          | String c s3 => if ws3 a b c then trim_start s3 else s
          end
      end
  end.
Fixpoint trim_end (s : string) : string :=
  if trim_is_empty s then "" else
  match s with "" => "" | String a s => String a (trim_end s) end.
Definition str_trim (s : string) : string := trim_end (trim_start s).

(** [pointer.split('/').skip(1)], each token with [~1] and [~0] replaced. *)
Fixpoint pointer_tokens (token : string) (s : string) : list string :=
  match s with
  | "" => [token]
  | String "/" s => token :: pointer_tokens "" s
  | String "~" (String "1" s) => pointer_tokens (token +:+ "/") s
  | String "~" (String "0" s) => pointer_tokens (token +:+ "~") s
  | String a s => pointer_tokens (token +:+ String a "") s
  end.

(** serde_json's [parse_index]: decimal digits without a leading zero. *)
Fixpoint decimal (n : N) (s : string) : N :=
  match s with "" => n | String a s => decimal (10 * n + (byte_N a - 48))%N s end.
Definition parse_index (token : string) : option nat :=
  if starts_with token "+" || (starts_with token "0" && (1 <? strlen token)%N)
     || str_is_empty token || negb (bytes_all is_ascii_digit token)
     || (U64_MAX <? decimal 0 token)%N
  then None else Some (N.to_nat (decimal 0 token)).

Definition pointer_step (v : value) (token : string) : option value :=
  match v with
  | Object kvs => assoc_get token kvs
  | Array vs => i ← parse_index token; nth_error vs i
  | _ => None
  end.

(** [Value::pointer]. *)
Definition value_pointer (pointer : string) (v : value) : option value :=
  match pointer with
  | "" => Some v
  | String "/" s =>
      foldl (fun v token => v ≫= (fun v => pointer_step v token)) (Some v)
        (pointer_tokens "" s)
  | _ => None
  end.

(** [Value::as_u64] and [Value::as_i64]. *)
Definition as_u64 (v : value) : option N :=
  match v with Number (PosInt n) => Some n | _ => None end.
Definition as_i64 (v : value) : option Z :=
  match v with
  | Number (PosInt n) => if (n <=? 9223372036854775807)%N then Some (Z.of_N n) else None
  | Number (NegInt z) => Some z
  | _ => None
  end.
Definition as_object (v : value) : option (list (string * value)) :=
  match v with Object kvs => Some kvs | _ => None end.
Definition option_eqb {A} (eqb : A -> A -> bool) (x y : option A) : bool :=
  match x, y with Some x, Some y => eqb x y | None, None => true | _, _ => false end.
Definition is_object (v : value) : bool := match v with Object _ => true | _ => false end.

(** [u128::to_be_bytes], least significant byte last. *)
Fixpoint be_bytes (width : nat) (n : N) : string :=
  match width with
  | O => ""
  | S width => be_bytes width (n / 256) +:+ String (Ascii.ascii_of_N (n mod 256)) ""
  end.

(** The bytes that a hexadecimal text denotes. *)
Definition nibble_of (a : ascii) : N :=
  if is_ascii_digit a then byte_N a - 48 else byte_N a - 87.
Fixpoint unhex (s : string) : string :=
  match s with
  | String a (String b s) => String (Ascii.ascii_of_N (16 * nibble_of a + nibble_of b)) (unhex s)
  | _ => ""
  end.

(** [left ^ right], byte by byte. *)
Definition byte_xor (a b : ascii) : ascii := Ascii.ascii_of_N (N.lxor (byte_N a) (byte_N b)).
Fixpoint str_map (f : ascii -> ascii) (s : string) : string :=
  match s with "" => "" | String a s => String (f a) (str_map f s) end.

(** ** Canonical bytes and identities *)

Section identity.
Context {HO : Host}.

Definition jcs {T} {ST : Serde T} (t : T) : result string string := to_vec t.

Definition content_object_id {T} {ST : Serde T} (t : T) (field : string) : result string string :=
  let? v := to_value t in
  match v with
  | Object kvs =>
      let? canonical := jcs_value (Object (object_remove field kvs)) in
      Ok ("sha256:" +:+ sha256_hex canonical)
  | _ => Err "identity preimage is not an object"
  end.
End identity.

(** [len() == n] and every byte a lower-case hexadecimal digit. *)
Definition lower_hex_of_length (n : N) (s : string) : bool :=
  (strlen s =? n)%N && bytes_all lower_hex s.
