(* ===== verification/NqDisposition.v ===== *)
(** * Read-only dispositions (crates/nightshiftd/src/nq_disposition.rs)

    The posture Nightshift proposes from NQ's purpose-support receipts: parsing a receipt
    for an exact request, deriving a disposition from its decision, and composing it with
    the live answer of a present-evidence authority.  The authority is a port, an argument
    that maps a query to its answer. *)
From stdpp Require Import pretty.
From S2P Require Import Prelude Text External Signing Diagnostic DiagnosticV2 Currentness.
From S2P Require Import Posture.
Local Open Scope string_scope.

(** ** errors.rs *)

Inductive NqContractViolationKind := SchemaMismatch | ContractVersionMismatch | MalformedField.

Inductive NightShiftError :=
| NqContractViolation (kind : NqContractViolationKind) (detail : string).

Definition violation_kind_debug (k : NqContractViolationKind) : string :=
  match k with
  | SchemaMismatch => "SchemaMismatch"
  | ContractVersionMismatch => "ContractVersionMismatch"
  | MalformedField => "MalformedField"
  end.

(** The [Display] text. *)
Definition night_shift_error_display (e : NightShiftError) : string :=
  match e with
  | NqContractViolation kind detail =>
      "NQ contract violation (" +:+ violation_kind_debug kind +:+ "): " +:+ detail
  end.

(** ** Data *)

Definition NQ_RELIANCE_RECEIPT_SCHEMA : string := "nq.diagnostic-purpose-support/v1".
Definition HISTORICAL_NQ_RELIANCE_RECEIPT_SCHEMA : string := "nq.reliance.receipt.v1".
Definition EXPECTED_CONSUMER_PROFILE : string := "nightshift-readonly".
Definition DISPOSITION_SCHEMA : string := "nightshift.readonly_disposition.v1".

Record SupportingReceiptRefDto := {
  sd_claim : string;
  sd_content_hash : string;
  sd_status : string;
  sd_subject : string
}.

Record NqRelianceReceiptDto := {
  nr_schema : string;
  nr_decision_id : string;
  nr_request_digest : string;
  nr_evidence_context_digest : string;
  nr_consumer_profile_id : string;
  nr_caller_binding : string;
  nr_caller_binding_disclosure : string;
  nr_purpose : string;
  nr_claim : string;
  nr_receipt_content_hash : string;
  nr_underlying_status : string;
  nr_decision : string;
  nr_premises : list string;
  nr_coverage_limits : list string;
  nr_unresolved_residuals : list string;
  nr_retained_contradictions : list string;
  nr_refusal_reasons : list string;
  nr_establishes : list string;
  nr_does_not_establish : list string;
  nr_supporting_receipts : list SupportingReceiptRefDto;
  nr_policy_version : string;
  nr_generated_at : string
}.

Inductive SourceState :=
| Source_Fresh
| Source_Stale (age_seconds : Z) (max_age_seconds : N)
| Source_NoResponse (elapsed_seconds timeout_seconds : N)
| Source_TransportUnavailable (detail : string)
| Source_Malformed (detail : string).

Definition is_nq_testimony (s : SourceState) : bool :=
  match s with Source_Fresh | Source_Stale _ _ => true | _ => false end.

Inductive Disposition :=
| ContinueObserving
| WaitForFreshEvidence
| EvidenceUnavailable
| RequestAdditionalEvidence
| HumanJudgmentRequired
| Disposition_Stop.

#[global] Instance Disposition_eq_dec : EqDecision Disposition.
Proof. solve_decision. Defined.

Record SourceBinding := {
  sb_schema : string;
  sb_decision_id : string;
  sb_receipt_content_hash : string;
  sb_request_digest : string;
  sb_evidence_context_digest : string;
  sb_consumer_profile_id : string;
  sb_caller_binding : string;
  sb_caller_binding_disclosure : string;
  sb_purpose : string;
  sb_claim : string;
  sb_underlying_status : string;
  sb_decision : string;
  sb_premises : list string;
  sb_coverage_limits : list string;
  sb_unresolved_residuals : list string;
  sb_retained_contradictions : list string;
  sb_supporting_receipts : list SupportingReceiptRefDto;
  sb_policy_version : string;
  sb_generated_at : string
}.

Record DispositionRecord := {
  dr_schema : string;
  dr_disposition_id : string;
  dr_expected_consumer_profile : string;
  dr_observed_at : string;
  dr_source_state : SourceState;
  dr_disposition : Disposition;
  dr_reasons : list string;
  dr_source : option SourceBinding;
  dr_required_next_evidence : option string;
  dr_human_judgment_required : bool;
  dr_establishes : list string;
  dr_does_not_establish : list string
}.

Record CurrentPurposeDisposition := {
  cd_schema : string;
  cd_purpose : string;
  cd_nq_decision_id : string;
  cd_query : PresentEvidenceQueryV1;
  cd_support : option QualifiedSupportV1;
  cd_disposition : Disposition;
  cd_reason : string;
  cd_does_not_establish : list string
}.

(** [SourceBinding::from]. *)
Definition source_binding (d : NqRelianceReceiptDto) : SourceBinding :=
  {| sb_schema := nr_schema d; sb_decision_id := nr_decision_id d;
     sb_receipt_content_hash := nr_receipt_content_hash d;
     sb_request_digest := nr_request_digest d;
     sb_evidence_context_digest := nr_evidence_context_digest d;
     sb_consumer_profile_id := nr_consumer_profile_id d;
     sb_caller_binding := nr_caller_binding d;
     sb_caller_binding_disclosure := nr_caller_binding_disclosure d;
     sb_purpose := nr_purpose d; sb_claim := nr_claim d;
     sb_underlying_status := nr_underlying_status d; sb_decision := nr_decision d;
     sb_premises := nr_premises d; sb_coverage_limits := nr_coverage_limits d;
     sb_unresolved_residuals := nr_unresolved_residuals d;
     sb_retained_contradictions := nr_retained_contradictions d;
     sb_supporting_receipts := nr_supporting_receipts d;
     sb_policy_version := nr_policy_version d; sb_generated_at := nr_generated_at d |}.

(** The derived serializers, and the text of a [Value]. *)
Class DispositionDocuments : Type := {
  nd_posture :: PostureDocuments;
  nd_value :: Serde value;
  nd_receipt :: Serde NqRelianceReceiptDto;
  nd_query :: Serde PresentEvidenceQueryV1;
  nd_record :: Serde DispositionRecord;
  (** serde_json: the [Display] text of a [Value] *)
  json_text : value -> string
}.

Section dispositions.
Context {DD : DispositionDocuments}.

(** ** Receipts *)

Definition malformed (detail : string) : NightShiftError :=
  NqContractViolation MalformedField detail.

Definition parse_schema (bytes expected_profile expected_schema : string)
    : result NightShiftError NqRelianceReceiptDto :=
  let? dto := map_err (fun e => malformed ("reliance receipt is not decodable: " +:+ e))
    (from_slice bytes : result string NqRelianceReceiptDto) in
  reject (negb (String.eqb (nr_schema dto) expected_schema))
    (NqContractViolation SchemaMismatch
       ("expected " +:+ NQ_RELIANCE_RECEIPT_SCHEMA +:+ ", got "
        +:+ str_debug (nr_schema dto))) ;?
  reject (negb (String.eqb (nr_consumer_profile_id dto) expected_profile))
    (malformed ("receipt is for consumer " +:+ str_debug (nr_consumer_profile_id dto)
                +:+ ", this consumer is " +:+ str_debug expected_profile)) ;?
  reject (trim_is_empty (nr_caller_binding_disclosure dto))
    (malformed "caller_binding_disclosure is empty") ;?
  reject (str_is_empty (nr_decision_id dto) || str_is_empty (nr_receipt_content_hash dto))
    (malformed "decision_id and receipt_content_hash must be present") ;?
  for_each (fun s => reject (str_is_empty (sd_claim s) || str_is_empty (sd_content_hash s))
                       (malformed "a supporting receipt ref lacks claim or content_hash"))
    (nr_supporting_receipts dto) ;?
  Ok dto.

Definition parse_checked (bytes expected_profile : string)
    : result NightShiftError NqRelianceReceiptDto :=
  parse_schema bytes expected_profile NQ_RELIANCE_RECEIPT_SCHEMA.

Definition parse_historical_checked (bytes expected_profile : string)
    : result NightShiftError NqRelianceReceiptDto :=
  parse_schema bytes expected_profile HISTORICAL_NQ_RELIANCE_RECEIPT_SCHEMA.

(** [format!("sha256:{:x}", Sha256::digest(serde_jcs::to_vec(value)?))]. *)
Definition value_digest (v : value) : result string string :=
  let? canonical := jcs_value v in
  Ok ("sha256:" +:+ sha256_hex canonical).

(** [DateTime::parse_from_rfc3339(text).map_err(|e| e.to_string())]. *)
Definition parse_time (text : string) : result string instant :=
  ok_or (parse_from_rfc3339 text) (parse_error text).

(** The receipt answers exactly the request that was made. *)
Definition check_request (v expected_request : value) (dto : NqRelianceReceiptDto)
    : result NightShiftError unit :=
  reject (negb (value_eqb (value_index v "request") expected_request)
          || negb (same_field v "purpose" expected_request "purpose")
          || negb (same_field v "claim" expected_request "claim")
          || negb (same_field v "subject_digest" expected_request "subject_digest"))
    (malformed "purpose request binding mismatch") ;?
  let? request_hash := map_err malformed (value_digest expected_request) in
  let? preimage := ok_or (as_object v) (malformed "receipt object") in
  let? receipt_hash := map_err malformed
    (value_digest (Object (object_remove "decision_id" preimage))) in
  reject (negb (String.eqb (nr_request_digest dto) request_hash)
          || negb (String.eqb (nr_decision_id dto) receipt_hash))
    (malformed "purpose receipt digest mismatch").

Definition check_receipt_time (v : value) (dto : NqRelianceReceiptDto) (observed_at : string)
    : result NightShiftError unit :=
  let? now := map_err malformed (parse_time observed_at) in
  let? generated := map_err malformed (parse_time (nr_generated_at dto)) in
  let? expiry := ok_or (as_str (value_index v "expires_at")) (malformed "expiry absent") in
  let? expires := map_err malformed (parse_time expiry) in
  reject ((now <? generated)%Z
          || String.eqb (nr_decision dto) "supported_readonly" && (expires <=? now)%Z)
    (malformed "purpose receipt future or expired").

Definition parse_for_request (bytes : string) (expected_request : value) (observed_at : string)
    : result NightShiftError NqRelianceReceiptDto :=
  let? v := map_err malformed (from_slice bytes : result string value) in
  let? profile := ok_or (as_str (value_index expected_request "consumer"))
    (malformed "expected consumer missing") in
  let? dto := parse_checked bytes profile in
  check_request v expected_request dto ;?
  check_receipt_time v dto observed_at ;?
  Ok dto.

(** ** Deriving a disposition *)

Definition mandatory_does_not_establish : list string :=
  ["no action was executed or authorized by this disposition";
   "this is a read-only posture proposal, not execution authority";
   "this disposition is Night Shift's, not an NQ claim"].

Definition decision_in (decision : string) (l : list string) : bool :=
  existsb (String.eqb decision) l.

(** What a fresh receipt's decision proposes: the disposition, its reason and the evidence
    that would be needed next. *)
Definition decided (r : NqRelianceReceiptDto) : Disposition * string * option string :=
  let decision := nr_decision r in
  let claim := str_debug (nr_claim r) in
  if decision_in decision ["supported_readonly"; "authorized_reliance"] then
    (ContinueObserving,
     "NQ authorized reliance on " +:+ claim +:+ " for purpose " +:+ str_debug (nr_purpose r),
     None)
  else if String.eqb decision "claim_not_verified" then
    (RequestAdditionalEvidence,
     "NQ did not verify " +:+ claim +:+ " (underlying status "
     +:+ str_debug (nr_underlying_status r)
     +:+ "); this is not permission to retry or proceed",
     Some ("evidence sufficient to verify " +:+ nr_claim r))
  else if String.eqb decision "cannot_testify" then
    (HumanJudgmentRequired,
     "NQ constitutionally declines to testify to " +:+ claim
     +:+ "; inability is not authorization", None)
  else if String.eqb decision "contradiction_retained" then
    (HumanJudgmentRequired,
     "NQ retained a contradiction in the source testimony; Night Shift does not resolve contradictions",
     None)
  else if String.eqb decision "premise_not_accepted" then
    (HumanJudgmentRequired,
     "a source premise is not acceptable under this consumer's policy; a premise-qualified operator decision is required",
     None)
  else if String.eqb decision "residual_obligation_blocks" then
    (HumanJudgmentRequired,
     "an unresolved upstream obligation blocks reliance; Night Shift discharges nothing", None)
  else if String.eqb decision "stale_evidence" then
    (WaitForFreshEvidence, "NQ judged the underlying evidence stale",
     Some "fresher underlying evidence")
  else if decision_in decision
            ["claim_non_mintable"; "coverage_insufficient"; "custody_basis_not_accepted"] then
    (HumanJudgmentRequired,
     "NQ refused reliance: " +:+ decision
     +:+ "; this is a statement about reliance, not a refutation of the claim", None)
  else if decision_in decision
            ["consumer_unknown"; "claim_not_authorized_for_consumer";
             "purpose_not_authorized"] then
    (Disposition_Stop,
     "configuration or policy error: " +:+ decision
     +:+ "; Night Shift does not widen its own permissions", None)
  else if String.eqb decision "malformed_request" then
    (Disposition_Stop,
     "NQ refused the request as malformed or substituted; integrity failure", None)
  else
    (HumanJudgmentRequired,
     "unrecognized NQ decision " +:+ str_debug decision
     +:+ "; Night Shift does not guess at an unknown outcome", None).

Definition receipt_limits (r : NqRelianceReceiptDto) : list string :=
  (nr_does_not_establish r
   ++ (if is_empty (nr_unresolved_residuals r) then []
       else ["upstream residual obligations carried here remain undischarged"])
   ++ (if is_empty (nr_retained_contradictions r) then []
       else ["a retained contradiction is preserved here and is not resolved"])
   ++ (if is_empty (nr_premises r) then []
       else ["source premises are carried, not discharged or independently verified"])
   ++ [nr_caller_binding_disclosure r])%list.

Definition established (r : NqRelianceReceiptDto) (d : Disposition) : list string :=
  if bool_decide (d = ContinueObserving) then
    [if String.eqb (nr_decision r) "supported_readonly"
     then "NQ supports only the explicit " +:+ str_debug (nr_purpose r)
          +:+ " consideration of retained claim " +:+ str_debug (nr_claim r)
          +:+ "; source currentness is not inferred"
     else "Historical NQ authorized this consumer to rely on " +:+ str_debug (nr_claim r)
          +:+ " for " +:+ str_debug (nr_purpose r)
          +:+ "; Night Shift may continue read-only consideration"]
  else [].

Definition with_disposition_id (id : string) (r : DispositionRecord) : DispositionRecord :=
  {| dr_schema := dr_schema r; dr_disposition_id := id;
     dr_expected_consumer_profile := dr_expected_consumer_profile r;
     dr_observed_at := dr_observed_at r; dr_source_state := dr_source_state r;
     dr_disposition := dr_disposition r; dr_reasons := dr_reasons r;
     dr_source := dr_source r; dr_required_next_evidence := dr_required_next_evidence r;
     dr_human_judgment_required := dr_human_judgment_required r;
     dr_establishes := dr_establishes r; dr_does_not_establish := dr_does_not_establish r |}.

(** The source's [expect]: an error is a panic. *)
Definition disposition_id_for (r : DispositionRecord) : result string string :=
  let? canonical := jcs r in
  Ok ("sha256:" +:+ sha256_hex canonical).

Definition finish (d : Disposition) (state : SourceState)
    (receipt : option NqRelianceReceiptDto) (reasons : list string)
    (required_next_evidence : option string) (observed_at expected_profile : string)
    : result string DispositionRecord :=
  let record :=
    {| dr_schema := DISPOSITION_SCHEMA; dr_disposition_id := "";
       dr_expected_consumer_profile := expected_profile; dr_observed_at := observed_at;
       dr_source_state := state; dr_disposition := d; dr_reasons := reasons;
       dr_source := source_binding <$> receipt;
       dr_required_next_evidence := required_next_evidence;
       dr_human_judgment_required := bool_decide (d = HumanJudgmentRequired);
       dr_establishes :=
         match receipt with Some r => established r d | None => [] end;
       dr_does_not_establish :=
         (mandatory_does_not_establish
          ++ match receipt with Some r => receipt_limits r | None => [] end
          ++ if is_nq_testimony state then []
             else ["no current NQ testimony was available; absence of a response is not evidence of health or of failure"])%list |} in
  let? id := disposition_id_for record in
  Ok (with_disposition_id id record).

Definition derive_disposition (state : SourceState) (receipt : option NqRelianceReceiptDto)
    (observed_at expected_profile : string) : result string DispositionRecord :=
  let done d reason next :=
    finish d state receipt [reason] next observed_at expected_profile in
  match state with
  | Source_NoResponse elapsed_seconds timeout_seconds =>
      done EvidenceUnavailable
        ("no fresh NQ response within Night Shift's " +:+ pretty timeout_seconds
         +:+ "s timeout (elapsed " +:+ pretty elapsed_seconds
         +:+ "s); this is Night Shift's observation, not NQ testimony") None
  | Source_TransportUnavailable detail =>
      done EvidenceUnavailable
        ("NQ transport unavailable: " +:+ detail
         +:+ "; this is Night Shift's observation, not NQ testimony") None
  | Source_Malformed detail =>
      done Disposition_Stop ("NQ output failed the contract check: " +:+ detail) None
  | Source_Stale age_seconds max_age_seconds =>
      done WaitForFreshEvidence
        ("NQ testimony is " +:+ pretty age_seconds +:+ "s old, beyond Night Shift's "
         +:+ pretty max_age_seconds +:+ "s freshness policy")
        (Some "a fresher NQ reliance decision")
  | Source_Fresh =>
      match receipt with
      | None =>
          done Disposition_Stop "source state is fresh but no receipt was supplied" None
      | Some r =>
          let '(d, reason, next) := decided r in
          done d reason next
      end
  end.

(** ** Composition with live support *)

(** The context of a qualified snapshot: exactly three digests. *)
Definition require_snapshot_context (v : value) : result string unit :=
  let? entries := ok_or (as_object v) "qualified snapshot context missing" in
  reject (negb (length entries =? 3)%nat) "qualified snapshot context shape invalid" ;?
  for_each (fun field =>
    let? hex := ok_or ((assoc_get field entries ≫= as_str) ≫= (fun s => strip_prefix s "sha256:"))
      "qualified snapshot context digest absent" in
    reject (negb (lower_hex_of_length 64 hex))
      "qualified snapshot context digest malformed")
    ["history_scope"; "snapshot_key"; "core_digest"].

Definition execution_to_value (x : DiagnosticExecution) : result string value :=
  match x with Execution_V1 x => to_value x | Execution_V2 x => to_value x end.

Definition CURRENT_PURPOSE_SCHEMA : string := "nightshift.current-purpose-disposition/v1".
Definition SUPPORTED : string := "supported_readonly".
Definition CONTINUITY_CONSUMER : string := "nightshift-readonly-continuity".

(** The receipt is eligible for composition with live support. *)
Definition receipt_is_eligible (dto : NqRelianceReceiptDto) : result string unit :=
  reject (negb (String.eqb (nr_claim dto) "docket_attempt_settled"))
    "historical generic claim cannot satisfy the Docket current-role allowlist" ;?
  reject (negb (String.eqb (nr_purpose dto) "historical_readonly")
          || negb (decision_in (nr_consumer_profile_id dto)
                     ["nightshift-readonly"; CONTINUITY_CONSUMER]))
    "current composition requires explicit native historical eligibility".

(** The one artifact the receipt is about is the one that was delivered. *)
Definition check_single_artifact (v : value) (dto : NqRelianceReceiptDto)
    (inputs : DiagnosticInputs) : result string unit :=
  let basis := "purpose support requires exact single-artifact input basis" in
  reject (negb (bool_decide (delivered_artifact_ids inputs = [nr_receipt_content_hash dto])))
    basis ;?
  match is_inputs inputs with
  | [input] =>
      match in_status input with
      | Input_Delivered artifact =>
          let? found := execution_to_value artifact in
          reject (negb (value_eqb found (value_index v "source_artifact")))
            "purpose artifact bytes differ from qualified NQ source"
      | _ => Err "purpose artifact not delivered"
      end
  | _ => Err basis
  end.

(** The continuity receipt a supported continuity consumer names: its identity. *)
Definition continuity_identity (dto : NqRelianceReceiptDto) (expected_request : value)
    (purpose : string) (ids : list string) : result string string :=
  let support := value_index expected_request "continuity_support" in
  let binding := value_index support "binding" in
  reject (negb (str_is support "schema" "nq.continuity-memory-support/v1")
          || negb (is_ok (require_snapshot_context (value_index support "snapshot_context")))
          || negb (str_is support "claim" "continuity_rely_eligible")
          || negb (str_is support "disposition" "eligible")
          || negb (same_field binding "subject_digest" expected_request "subject_digest")
          || negb (str_is binding "principal" (nr_consumer_profile_id dto))
          || negb (str_is binding "purpose" purpose))
    "required named continuity evidence binding absent or mismatched" ;?
  let? identity := ok_or (as_str (value_index support "receipt_id"))
    "continuity receipt identity missing" in
  reject (decision_in identity ids) "primary cannot be its own continuity support" ;?
  reject (negb (existsb (fun s => String.eqb (sd_claim s) "continuity_rely_eligible"
                                  && String.eqb (sd_content_hash s) identity)
                  (nr_supporting_receipts dto)))
    "NQ did not disclose the bound continuity prerequisite" ;?
  Ok identity.

Definition sort_ids (ids : list string) : list string := merge_sort String.le ids.

(** The artifacts the live authority is asked about. *)
Definition support_ids (dto : NqRelianceReceiptDto) (expected_request : value)
    (purpose : string) (inputs : DiagnosticInputs) : result string (list string) :=
  let ids := delivered_artifact_ids inputs in
  if String.eqb (nr_consumer_profile_id dto) CONTINUITY_CONSUMER
     && String.eqb (nr_decision dto) SUPPORTED
  then let? identity := continuity_identity dto expected_request purpose ids in
       Ok (sort_ids (ids ++ [identity])%list)
  else Ok ids.

Definition live_query (cycle_id nonce observation_id inputs_id subject_id scope_id : string)
    (artifact_ids : list string) : result string PresentEvidenceQueryV1 :=
  query_seal
    {| qy_schema := ""; qy_query_id := ""; qy_observation_cycle_id := cycle_id;
       qy_request_nonce := nonce; qy_observation_id := observation_id;
       qy_diagnostic_inputs_id := inputs_id; qy_subject_id := subject_id;
       qy_scope_id := scope_id; qy_artifact_ids := artifact_ids |}.

Definition standing_debug (s : SupportStandingV1) : string :=
  match s with
  | Support_Current => "Current"
  | Support_Expired => "Expired"
  | Support_Unknown => "Unknown"
  | Support_Unsupported => "Unsupported"
  | Support_Contradictory => "Contradictory"
  | Support_Blind => "Blind"
  end.

(** The disposition a support's standing proposes, [current] when it is current. *)
Definition standing_disposition (s : QualifiedSupportV1) (current : Disposition)
    (no_evidence : string) : result string Disposition :=
  match qs_standing s with
  | Support_Current =>
      if is_empty (qs_evidence_refs s) then Err no_evidence else Ok current
  | Support_Expired => Ok WaitForFreshEvidence
  | Support_Contradictory => Ok HumanJudgmentRequired
  | _ => Ok EvidenceUnavailable
  end.

(** A result of the live authority, or that it gave none. *)
Definition purpose_result (purpose decision_id : string) (query : PresentEvidenceQueryV1)
    (support : option QualifiedSupportV1) (d : Disposition) (reason : string)
    (limits : list string) : CurrentPurposeDisposition :=
  {| cd_schema := CURRENT_PURPOSE_SCHEMA; cd_purpose := purpose;
     cd_nq_decision_id := decision_id; cd_query := query; cd_support := support;
     cd_disposition := d; cd_reason := reason; cd_does_not_establish := limits |}.

Definition purpose_limits : list string :=
  ["no action authorized or executed";
   "NQ factual qualification and present evidence retain separate owners";
   "stored support is historical; only the exact live query response applies"].

Section port.
(** The present-evidence port, asked at most once. *)
Context (resolve : PresentEvidenceQueryV1 -> result string QualifiedSupportV1).

Definition qualify_current_purpose (bytes : string) (expected_request : value)
    (observed_at purpose : string) (inputs : DiagnosticInputs)
    (cycle_id nonce expected_authority : string) : result string CurrentPurposeDisposition :=
  reject (negb (String.eqb purpose "continue_observing") || trim_is_empty expected_authority)
    "unsupported current purpose or absent support authority" ;?
  let? dto := map_err night_shift_error_display
    (parse_for_request bytes expected_request observed_at) in
  receipt_is_eligible dto ;?
  inputs_validate inputs ;?
  let? v := (from_slice bytes : result string value) in
  check_single_artifact v dto inputs ;?
  let subject := value_index (value_index v "source_artifact") "subject" in
  let? ids := support_ids dto expected_request purpose inputs in
  let? observation_id := value_digest (json_object
    [("nq_decision_id", Str (nr_decision_id dto)); ("purpose", Str purpose);
     ("authority", Str expected_authority)]) in
  let? subject_id := ok_or (as_str (value_index subject "id")) "subject absent" in
  let? scope_id := ok_or (as_str (value_index (value_index subject "scope") "digest"))
    "scope absent" in
  let? query := live_query cycle_id nonce observation_id (is_inputs_id inputs) subject_id
                  scope_id ids in
  let answer := purpose_result purpose (nr_decision_id dto) query in
  if negb (String.eqb (nr_decision dto) SUPPORTED) then
    let? r := derive_disposition Source_Fresh (Some dto) observed_at
                (nr_consumer_profile_id dto) in
    Ok (answer None (dr_disposition r)
          "NQ did not establish factual eligibility; present support cannot repair that refusal"
          purpose_limits)
  else
    match resolve query with
    | Err reason =>
        Ok (answer None EvidenceUnavailable ("present evidence unavailable: " +:+ reason)
              purpose_limits)
    | Ok support =>
        validate_for support query ;?
        reject (negb (String.eqb (qs_authority_id support) expected_authority))
          "present support source does not match configured authority" ;?
        let? d := standing_disposition support ContinueObserving
                    "current support lacks evidence references" in
        Ok (answer (Some support) d
              ("qualified present-evidence authority returned "
               +:+ standing_debug (qs_standing support) +:+ "; no action authority")
              purpose_limits)
    end.

(** *** The Docket family *)

(** The receipt without its identity, and the identity. *)
Definition docket_receipt (bytes : string) : result string (value * value) :=
  let? v := (from_slice bytes : result string value) in
  let? canonical := jcs_value v in
  reject (negb (String.eqb canonical bytes)) "NQ Docket receipt is not exact canonical JSON" ;?
  let? entries := ok_or (as_object v) "receipt not object" in
  let? identity := ok_or (assoc_get "receipt_id" entries) "receipt identity missing" in
  Ok (Object (object_remove "receipt_id" entries), identity).

Definition check_docket_binding (v identity expected_request : value)
    (expected_authority : string) : result string unit :=
  let mismatch := "NQ Docket receipt/request/claim binding mismatch" in
  let? digest := value_digest v in
  reject (negb (value_eqb identity (Str digest))
          || negb (str_is v "schema" "nq.docket-purpose-support/v1")
          || negb (value_eqb (value_index v "request") expected_request)) mismatch ;?
  let? request_digest := value_digest expected_request in
  reject (negb (str_is v "request_digest" request_digest)
          || negb (str_is v "claim" "docket_attempt_settled")
          || trim_is_empty expected_authority) mismatch.

Definition docket_purposes : list string :=
  ["continue_observing"; "wait"; "request_evidence"; "stop"; "human_escalation"].

Definition check_docket_purpose (v expected_request : value) (purpose : string)
    : result string unit :=
  reject (str_is expected_request "consumer" CONTINUITY_CONSUMER && str_is v "decision" SUPPORTED
          && negb (is_ok (require_snapshot_context
                     (value_index (value_index expected_request "continuity_support")
                        "snapshot_context"))))
    "current continuity role lacks qualified snapshot-history context" ;?
  reject (negb (decision_in purpose docket_purposes)) "unsupported read-only purpose".

Definition check_docket_time (v : value) (observed_at : string) : result string unit :=
  let? at_time := parse_time observed_at in
  let? generated_text := ok_or (as_str (value_index v "generated_at")) "time absent" in
  let? generated := parse_time generated_text in
  let? expires_text := ok_or (as_str (value_index v "expires_at")) "expiry absent" in
  let? expires := parse_time expires_text in
  reject ((at_time <? generated)%Z || (expires <=? at_time)%Z)
    "NQ Docket evidence time outside exact interval".

(** [ids.windows(2).any(|pair| pair[0] == pair[1])]. *)
Fixpoint adjacent_twins (ids : list string) : bool :=
  match ids with
  | a :: (b :: _) as ids => String.eqb a b || adjacent_twins ids
  | _ => false
  end.

Definition docket_ids (v : value) (id : string) : result string (list string) :=
  let? source := ok_or (as_str (value_index v "source_digest")) "source digest missing" in
  let? supports := ok_or (as_array (value_index v "supporting_receipts"))
    "supporting array missing" in
  let? hashes := map_try (fun support =>
    ok_or (as_str (value_index support "content_hash")) "support identity missing") supports in
  let ids := sort_ids (id :: source :: hashes) in
  reject (adjacent_twins ids) "self or duplicate support" ;?
  Ok ids.

(** What an unsupported decision proposes. *)
Definition docket_refusal (v : value) : Disposition :=
  match as_str (value_index v "decision") with
  | Some decision =>
      if String.eqb decision "contradiction_retained" then HumanJudgmentRequired
      else if String.eqb decision "stale_evidence" then WaitForFreshEvidence
      else if decision_in decision
                ["supporting_evidence_missing"; "supporting_evidence_not_current_or_verified";
                 "residual_obligations_unresolved"] then RequestAdditionalEvidence
      else if String.eqb decision "claim_not_verified" then EvidenceUnavailable
      else Disposition_Stop
  | None => Disposition_Stop
  end.

(** What current support for a purpose proposes. *)
Definition purpose_disposition (purpose : string) : Disposition :=
  if String.eqb purpose "wait" then WaitForFreshEvidence
  else if String.eqb purpose "request_evidence" then RequestAdditionalEvidence
  else if String.eqb purpose "stop" then Disposition_Stop
  else if String.eqb purpose "human_escalation" then HumanJudgmentRequired
  else ContinueObserving.

Definition docket_limits : list string :=
  ["no action authorized or executed";
   "Docket testimony, NQ factual policy and currentness retain distinct owners"].

Definition qualify_docket_current_purpose (bytes : string) (expected_request : value)
    (observed_at cycle_id nonce expected_authority : string)
    : result string CurrentPurposeDisposition :=
  let? '(v, identity) := docket_receipt bytes in
  check_docket_binding v identity expected_request expected_authority ;?
  let? purpose := ok_or (as_str (value_index expected_request "purpose")) "purpose absent" in
  check_docket_purpose v expected_request purpose ;?
  check_docket_time v observed_at ;?
  let? subject := ok_or (as_str (value_index v "subject")) "subject missing" in
  reject (negb (str_is expected_request "subject" subject)) "subject mismatch" ;?
  let? id := ok_or (as_str identity) "identity malformed" in
  let? ids := docket_ids v id in
  let? observation_id := value_digest (json_object
    [("nq_receipt", Str id); ("purpose", Str purpose);
     ("authority", Str expected_authority)]) in
  let? inputs_id := value_digest (json_object
    [("schema", Str "nightshift.docket-purpose-inputs/v1"); ("artifacts", Array (Str <$> ids))]) in
  let? scope_id := ok_or (as_str (value_index v "subject_digest")) "subject digest absent" in
  let? query := live_query cycle_id nonce observation_id inputs_id subject scope_id ids in
  let answer := purpose_result purpose id query in
  if negb (str_is v "decision" SUPPORTED) then
    Ok (answer None (docket_refusal v)
          ("NQ factual decision " +:+ json_text (value_index v "decision")
           +:+ "; present evidence cannot repair it") docket_limits)
  else
    require_snapshot_context (value_index v "snapshot_context") ;?
    match resolve query with
    | Err reason =>
        Ok (answer None EvidenceUnavailable ("present evidence unavailable: " +:+ reason)
              docket_limits)
    | Ok support =>
        validate_for support query ;?
        reject (negb (String.eqb (qs_authority_id support) expected_authority))
          "wrong present-evidence authority" ;?
        let? d := standing_disposition support (purpose_disposition purpose)
                    "current support lacks evidence" in
        Ok (answer (Some support) d
              ("qualified present evidence " +:+ standing_debug (qs_standing support)
               +:+ "; read-only posture only") docket_limits)
    end.
End port.
End dispositions.
