(* ===== verification/NqDispositionFacts.v ===== *)
(** * What a read-only disposition rests on

    Nightshift continues to observe on the word of NQ only together with the live answer of
    the configured present-evidence authority, for the artifacts of the very receipt. *)
From stdpp Require Import pretty.
From S2P Require Import Prelude Text External Signing Diagnostic DiagnosticV2 Currentness.
From S2P Require Import Posture NqDisposition.
Local Open Scope string_scope.

Section facts.
Context {DD : DispositionDocuments}.
Implicit Types (r : CurrentPurposeDisposition) (dto : NqRelianceReceiptDto).

(** The result carries the answer that the authority gave to its query, bound to it,
    current and with evidence. *)
Definition live_support (resolve : PresentEvidenceQueryV1 -> result string QualifiedSupportV1)
    (authority : string) r : Prop :=
  exists s, cd_support r = Some s /\ resolve (cd_query r) = Ok s /\
    binds_query s (cd_query r) = true /\ qs_authority_id s = authority /\
    qs_standing s = Support_Current /\ qs_evidence_refs s <> [] /\
    expiry_current s = Ok (Some true).

(** The instant that a field of a receipt names. *)
Definition get_time (v : value) (field : string) : option instant :=
  as_str (value_index v field) ≫= parse_from_rfc3339.

Lemma continue_observing_standing s no_evidence current :
  standing_disposition s current no_evidence = Ok ContinueObserving ->
  current = ContinueObserving /\ qs_standing s = Support_Current /\ qs_evidence_refs s <> [].
Proof.
  unfold standing_disposition. destruct (qs_standing s); try done.
  destruct (qs_evidence_refs s); simpl; [done|]. by intros [= ->].
Qed.

Lemma validated_support s q : validate_for s q = Ok tt ->
  binds_query s q = true /\
  (qs_standing s = Support_Current -> expiry_current s = Ok (Some true)).
Proof.
  intros H. unfold validate_for in H. inv_ok H. split; [by res_simpl; test_simpl|].
  intros Hs. unfold check_standing in Hok4. rewrite Hs in Hok4. inv_ok Hok4.
  rewrite reject_ok, negb_false_iff, bool_decide_eq_true in Hok5. congruence.
Qed.

(** The decisions that continue to observe. *)
Lemma decided_continue dto :
  (decided dto).1.1 = ContinueObserving <->
  nr_decision dto = "supported_readonly" \/ nr_decision dto = "authorized_reliance".
Proof.
  unfold decided, decision_in. simpl. rewrite orb_false_r.
  destruct (String.eqb_spec (nr_decision dto) "supported_readonly") as [->|Hs]; [tauto|].
  destruct (String.eqb_spec (nr_decision dto) "authorized_reliance") as [->|Ha]; [tauto|].
  simpl. split; [|tauto]. repeat (case_match; simpl; try done).
Qed.

Lemma derived_fresh dto observed_at profile record :
  derive_disposition Source_Fresh (Some dto) observed_at profile = Ok record ->
  dr_disposition record = (decided dto).1.1.
Proof.
  unfold derive_disposition. destruct (decided dto) as [[d reason] next]. intros H.
  unfold finish in H. inv_ok H. by subst.
Qed.

Lemma live_query_fields cycle nonce observation inputs subject scope ids q :
  live_query cycle nonce observation inputs subject scope ids = Ok q ->
  qy_request_nonce q = nonce /\ qy_artifact_ids q = ids /\ qy_subject_id q = subject.
Proof. unfold live_query, query_seal. intros H. inv_ok H. by subst. Qed.

Lemma single_artifact v dto inputs : check_single_artifact v dto inputs = Ok tt ->
  delivered_artifact_ids inputs = [nr_receipt_content_hash dto].
Proof.
  intros H. unfold check_single_artifact in H. apply rseq_ok in H as [H _].
  by rewrite reject_ok, negb_false_iff, bool_decide_eq_true in H.
Qed.

Lemma elem_of_sort_ids id ids : id ∈ sort_ids ids <-> id ∈ ids.
Proof. unfold sort_ids. by rewrite merge_sort_Permutation. Qed.

Lemma support_ids_keep dto expected_request purpose inputs ids id :
  support_ids dto expected_request purpose inputs = Ok ids ->
  id ∈ delivered_artifact_ids inputs -> id ∈ ids.
Proof.
  unfold support_ids. intros H Hid. case_match; inv_ok H; subst; [|done].
  apply elem_of_sort_ids. set_solver.
Qed.

(** An answer of the authority that continues to observe is live support. *)
Lemma answered_support resolve authority support purpose id q current no_evidence d reason
    limits : resolve q = Ok support -> validate_for support q = Ok tt ->
  qs_authority_id support = authority ->
  standing_disposition support current no_evidence = Ok d -> d = ContinueObserving ->
  live_support resolve authority (purpose_result purpose id q (Some support) d reason limits).
Proof.
  intros Hr Hv Ha Hs ->. destruct (continue_observing_standing _ _ _ Hs) as (_ & Hc & He).
  destruct (validated_support _ _ Hv) as [Hb Hx]. exists support. simpl. auto 10.
Qed.

(** *** The Docket family *)

Lemma value_eqb_str v s : value_eqb v (Str s) = true -> v = Str s.
Proof. destruct v; simpl; try done. intros H. f_equal. by apply String.eqb_eq. Qed.

Lemma docket_binding v identity expected_request authority :
  check_docket_binding v identity expected_request authority = Ok tt ->
  exists digest, value_digest v = Ok digest /\ identity = Str digest /\
    value_eqb (value_index v "request") expected_request = true.
Proof.
  intros H. unfold check_docket_binding in H. inv_ok H.
  rewrite reject_ok, !orb_false_iff, !negb_false_iff in Hok0. destruct Hok0 as [[Hi _] Hr].
  apply value_eqb_str in Hi. by exists x.
Qed.

Lemma docket_time v observed_at : check_docket_time v observed_at = Ok tt ->
  exists now generated expires, parse_from_rfc3339 observed_at = Some now /\
    get_time v "generated_at" = Some generated /\ get_time v "expires_at" = Some expires /\
    (generated <= now < expires)%Z.
Proof.
  intros H. unfold check_docket_time, parse_time in H. inv_ok H.
  apply ok_or_ok in Hok, Hok0, Hok1, Hok2, Hok3.
  rewrite reject_ok, orb_false_iff, Z.ltb_ge, Z.leb_gt in H.
  exists x, x1, x3. unfold get_time. rewrite Hok0, Hok2. simpl. auto.
Qed.

Lemma docket_refusal_stops v : docket_refusal v <> ContinueObserving.
Proof. unfold docket_refusal. repeat (case_match; try done). Qed.

Lemma docket_ids_keep v id ids : docket_ids v id = Ok ids -> id ∈ ids.
Proof.
  intros H. unfold docket_ids in H. inv_ok H. subst. apply elem_of_sort_ids. set_solver.
Qed.

Lemma purpose_continues purpose : decision_in purpose docket_purposes = true ->
  purpose_disposition purpose = ContinueObserving -> purpose = "continue_observing".
Proof.
  intros Hin. unfold purpose_disposition. repeat (case_match; try done). intros _.
  unfold decision_in, docket_purposes in Hin. simpl in Hin.
  repeat match goal with X : String.eqb _ _ = false |- _ => rewrite X in Hin end.
  rewrite !orb_false_r in Hin. by apply String.eqb_eq.
Qed.

(** ** The properties *)

(** C20: a current purpose is to continue observing only on a receipt that answers the
    exact request, and then either the configured authority answered the query about that
    receipt's artifact with current, evidenced support, or the receipt's decision is the
    historical [authorized_reliance], which the code lets pass without asking. *)
Theorem continue_observing_is_supported resolve bytes expected_request observed_at purpose
    inputs cycle_id nonce authority r :
  qualify_current_purpose resolve bytes expected_request observed_at purpose inputs cycle_id
    nonce authority = Ok r -> cd_disposition r = ContinueObserving ->
  exists dto, parse_for_request bytes expected_request observed_at = Ok dto /\
    cd_nq_decision_id r = nr_decision_id dto /\ qy_request_nonce (cd_query r) = nonce /\
    nr_receipt_content_hash dto ∈ qy_artifact_ids (cd_query r) /\
    (nr_decision dto = "supported_readonly" /\ live_support resolve authority r \/
     nr_decision dto = "authorized_reliance" /\ cd_support r = None).
Proof.
  intros H Hd. unfold qualify_current_purpose in H. inv_ok H.
  apply map_err_ok in Hok0. apply single_artifact in Hok4.
  apply live_query_fields in Hok9 as (Hn & Hi & _).
  assert (nr_receipt_content_hash x ∈ qy_artifact_ids x5) as Hid.
  { rewrite Hi. eapply support_ids_keep; [done|]. rewrite Hok4. set_solver. }
  exists x. split; [done|]. destruct (String.eqb_spec (nr_decision x) SUPPORTED) as [Hs|Hs];
    simpl in H.
  - destruct (resolve x5) as [support|] eqn:Hr; inv_ok H; subst; [|discriminate Hd].
    repeat (split; [done|]). left. split; [done|]. simpl in Hd.
    eapply answered_support; try done. res_simpl. by test_simpl.
  - apply rbind_ok in H as (record & Hr & H). apply derived_fresh in Hr.
    injection H as <-. simpl in Hd. rewrite Hr in Hd. apply decided_continue in Hd as [|Hd].
    + done.
    + repeat (split; [done|]). by right.
Qed.

(** C26: a Docket purpose, of a receipt that is exactly canonical, answers the exact request
    and is within its interval, is to continue observing only when that is the purpose
    asked for, NQ supports it and the configured authority answered the query about the
    receipt with current, evidenced support. *)
Theorem docket_continues_on_live_support resolve bytes expected_request observed_at cycle_id
    nonce authority r :
  qualify_docket_current_purpose resolve bytes expected_request observed_at cycle_id nonce
    authority = Ok r -> cd_disposition r = ContinueObserving ->
  exists v now generated expires,
    docket_receipt bytes = Ok (v, Str (cd_nq_decision_id r)) /\
    value_digest v = Ok (cd_nq_decision_id r) /\
    value_eqb (value_index v "request") expected_request = true /\
    str_is v "decision" "supported_readonly" = true /\
    cd_purpose r = "continue_observing" /\
    parse_from_rfc3339 observed_at = Some now /\
    get_time v "generated_at" = Some generated /\ get_time v "expires_at" = Some expires /\
    (generated <= now < expires)%Z /\
    cd_nq_decision_id r ∈ qy_artifact_ids (cd_query r) /\
    live_support resolve authority r.
Proof.
  intros H Hd. unfold qualify_docket_current_purpose in H. inv_ok H.
  destruct (docket_binding _ _ _ _ Hok0) as (digest & Hv & -> & Hr).
  destruct (docket_time _ _ Hok3) as (now & generated & expires & Hnow & Hg & He & Ht).
  injection Hok6 as <-. apply docket_ids_keep in Hok7.
  apply live_query_fields in Hok11 as (_ & Hi & _). rewrite <- Hi in Hok7.
  destruct (str_is x0 "decision" SUPPORTED) eqn:Hs; simpl in H.
  2: { inv_ok H. subst. by apply docket_refusal_stops in Hd. }
  apply rseq_ok in H as [_ H]. destruct (resolve x8) as [support|] eqn:Hres; inv_ok H; subst;
    [|discriminate Hd]. simpl in Hd. subst.
  destruct (continue_observing_standing _ _ _ Hok12) as (Hp & _).
  assert (x = "continue_observing") as ->.
  { apply purpose_continues; [|done]. unfold check_docket_purpose in Hok2. inv_ok Hok2.
    by rewrite reject_ok, negb_false_iff in Hok2. }
  exists x0, now, generated, expires. repeat (split; [done|]).
  eapply answered_support; try done. res_simpl. by test_simpl.
Qed.
End facts.
