(* ===== verification/PredicateAttention.v ===== *)
(** * Predicate attention (crates/nightshiftd/src/project_predicate_attention.rs)

    Operator-governed attention over the receipts of Pulse: a policy, the store of the
    distinct evidence occurrences that were ingested for it, each chained by digest to the
    one before, and the evaluation of that history at an instant.  The run of the Pulse
    verifier is an argument. *)
From stdpp Require Import pretty.
From S2P Require Import Prelude Text External Signing Currentness.
Local Open Scope string_scope.

(** ** Data *)

Definition POLICY_SCHEMA_V1 : string := "nightshift.project-predicate-attention-policy/v1".
Definition EVENT_SCHEMA_V1 : string := "nightshift.project-predicate-attention-event/v1".
Definition RECEIPT_SCHEMA_V1 : string := "nightshift.project-predicate-attention/v1".
Definition BUNDLE_SCHEMA_V1 : string :=
  "nightshift.project-predicate-attention-replay-bundle/v1".
Definition REPLAY_SCHEMA_V1 : string := "nightshift.project-predicate-attention-replay/v1".
Definition INGEST_SCHEMA_V1 : string := "nightshift.project-predicate-attention-ingest/v1".
Definition PULSE_RECEIPT_SCHEMA_V1 : string := "pulse.project-predicate-qualified-support/v1".
Definition PULSE_REPLAY_SCHEMA_V1 : string := "pulse.project-predicate-support-replay/v1".

Record AttentionTargetV1 := {
  ta_project : string;
  ta_concern : string;
  ta_question : string;
  ta_declaration_profile : string;
  ta_predicate_profile : string;
  ta_nq_catalog_digest : string;
  ta_nq_profile_digest : string;
  ta_nq_input_schema_digest : string;
  ta_pulse_support_policy_id : string;
  ta_pulse_support_policy_digest : string;
  ta_subject_id : string
}.

Inductive PulseDispositionV1 :=
| Pulse_SupportedCurrent
| Pulse_NqReceiptInvalid
| Pulse_MissingSupport
| Pulse_SupportProducerFailed
| Pulse_SupportEvidenceInvalid
| Pulse_IdentityMismatch
| Pulse_IndependenceNotQualified
| Pulse_PrimaryStale
| Pulse_SupportStale
| Pulse_SkewExceeded
| Pulse_Contradictory.

#[global] Instance PulseDispositionV1_eq_dec : EqDecision PulseDispositionV1.
Proof. solve_decision. Defined.

(** The derived order: that of the declaration. *)
Definition pulse_dispositions : list PulseDispositionV1 :=
  [Pulse_SupportedCurrent; Pulse_NqReceiptInvalid; Pulse_MissingSupport;
   Pulse_SupportProducerFailed; Pulse_SupportEvidenceInvalid; Pulse_IdentityMismatch;
   Pulse_IndependenceNotQualified; Pulse_PrimaryStale; Pulse_SupportStale;
   Pulse_SkewExceeded; Pulse_Contradictory].
Fixpoint rank_in (d : PulseDispositionV1) (l : list PulseDispositionV1) : nat :=
  match l with
  | [] => 0
  | d' :: l => if bool_decide (d = d') then 0 else S (rank_in d l)
  end.
Definition disposition_rank (d : PulseDispositionV1) : nat := rank_in d pulse_dispositions.

Inductive AttentionTriggerV1 :=
| PropositionAttention
| AssuranceAttention (dispositions : list PulseDispositionV1).

Record RecurrencePolicyV1 := {
  ra_required_distinct_occurrences : N;
  ra_within_seconds : N
}.

Inductive ResetPolicyV1 := Reset_HorizonExpiry | Reset_SupportedCurrent.
#[global] Instance ResetPolicyV1_eq_dec : EqDecision ResetPolicyV1.
Proof. solve_decision. Defined.

Record AttentionPolicyV1 := {
  pa_schema : string;
  pa_policy_id : string;
  pa_policy_digest : string;
  pa_target : AttentionTargetV1;
  pa_pulse_verifier_executable_digest : string;
  pa_trigger : AttentionTriggerV1;
  pa_recurrence : RecurrencePolicyV1;
  pa_reset : ResetPolicyV1
}.

Record PulseQualifiedSupportReceiptV1 := {
  pu_schema : string;
  pu_receipt_digest : string;
  pu_policy_id : string;
  pu_policy_digest : string;
  pu_project : string;
  pu_concern : string;
  pu_question : string;
  pu_declaration_profile : string;
  pu_predicate_profile : string;
  pu_nq_catalog_digest : string;
  pu_nq_profile_digest : string;
  pu_nq_input_schema_digest : string;
  pu_nq_receipt_digest : string;
  pu_nq_verifier_executable_digest : string;
  pu_primary_observed_at : option string;
  pu_support_evidence_id : option string;
  pu_support_evidence_digest : option string;
  pu_support_observed_at : option string;
  pu_support_producer_id : option string;
  pu_support_source_id : option string;
  pu_support_vantage_id : option string;
  pu_subject_id : string;
  pu_qualification_at : string;
  pu_current_until_unix_ms : option Z;
  pu_primary_support_skew_ms : option N;
  pu_independence_basis : string;
  pu_disposition : PulseDispositionV1;
  pu_detail : string;
  pu_validated : list string;
  pu_not_validated : list string
}.

Record PulseReplayResultV1 := {
  pw_schema : string;
  pw_matches : bool;
  pw_expected_receipt_digest : string;
  pw_recomputed_receipt_digest : string
}.

Record AttentionEventV1 := {
  ev_schema : string;
  ev_event_id : string;
  ev_policy_digest : string;
  ev_recurrence_id : string;
  ev_occurrence_at : string;
  ev_pulse_receipt : PulseQualifiedSupportReceiptV1
}.

Inductive IngestDispositionV1 := Ingest_Accepted | Ingest_DuplicateEvidenceOccurrence.

Record IngestResultV1 := {
  ig_schema : string;
  ig_disposition : IngestDispositionV1;
  ig_policy_digest : string;
  ig_event_id : string;
  ig_recurrence_id : string;
  ig_pulse_receipt_digest : string;
  ig_history_event_count : N;
  ig_history_head_digest : string
}.

Inductive AttentionDispositionV1 :=
| NoAttention
| WaitingForRecurrence
| AttentionRequired
| InputNotCurrent.

Inductive AttentionReasonClassV1 :=
| Reason_None
| Reason_PropositionAttention
| Reason_AssuranceAttention.

#[global] Instance AttentionDispositionV1_eq_dec : EqDecision AttentionDispositionV1.
Proof. solve_decision. Defined.
#[global] Instance AttentionReasonClassV1_eq_dec : EqDecision AttentionReasonClassV1.
Proof. solve_decision. Defined.

Record AttentionReceiptV1 := {
  ar_schema : string;
  ar_receipt_digest : string;
  ar_policy_id : string;
  ar_policy_digest : string;
  ar_project : string;
  ar_concern : string;
  ar_question : string;
  ar_declaration_profile : string;
  ar_predicate_profile : string;
  ar_nq_catalog_digest : string;
  ar_nq_profile_digest : string;
  ar_nq_input_schema_digest : string;
  ar_pulse_support_policy_id : string;
  ar_pulse_support_policy_digest : string;
  ar_subject_id : string;
  ar_evaluated_at : string;
  ar_window_start_inclusive : string;
  ar_window_end_inclusive : string;
  ar_required_distinct_occurrences : N;
  ar_qualifying_distinct_occurrences : N;
  ar_qualifying_event_ids : list string;
  ar_qualifying_recurrence_ids : list string;
  ar_pulse_receipt_digests : list string;
  ar_upstream_dispositions : list PulseDispositionV1;
  ar_history_digest : string;
  ar_attention_reason_class : AttentionReasonClassV1;
  ar_disposition : AttentionDispositionV1;
  ar_detail : string;
  ar_recurrence_basis : string;
  ar_currentness_basis : string;
  ar_reset_basis : string;
  ar_validated : list string;
  ar_not_validated : list string
}.

#[global] Instance AttentionReceiptV1_eq_dec : EqDecision AttentionReceiptV1.
Proof. solve_decision. Defined.

Record AttentionReplayBundleV1 := {
  bu_schema : string;
  bu_policy : AttentionPolicyV1;
  bu_history : list AttentionEventV1;
  bu_receipt : AttentionReceiptV1
}.

Record AttentionReplayResultV1 := {
  rr_schema : string;
  rr_matches : bool;
  rr_expected_receipt_digest : string;
  rr_recomputed_receipt_digest : string
}.

(** [recurrence_id]'s [Basis] and [chain_digest]'s [Chain]. *)
Record OccurrenceBasis := {
  ob_schema : string;
  ob_pulse_policy_digest : string;
  ob_nq_receipt_digest : string;
  ob_subject_id : string;
  ob_disposition : PulseDispositionV1;
  ob_primary_observed_at : option string;
  ob_support_observed_at : option string;
  ob_support_producer_id : option string;
  ob_support_source_id : option string;
  ob_support_vantage_id : option string;
  ob_no_evidence_qualification_at : option string
}.

Record HistoryLink := {
  hl_schema : string;
  hl_predecessor : string;
  hl_event_id : string;
  hl_sequence : N
}.

(** The derived serializers; chrono's [to_rfc3339_opts(SecondsFormat::Millis, true)];
    serde_json's [to_string] and [from_str] of an event. *)
Class PredicateDocuments : Type := {
  pd_host :: Host;
  pd_chrono :: Chrono;
  pd_policy :: Serde AttentionPolicyV1;
  pd_pulse :: Serde PulseQualifiedSupportReceiptV1;
  pd_event :: Serde AttentionEventV1;
  pd_history :: Serde (list AttentionEventV1);
  pd_receipt :: Serde AttentionReceiptV1;
  pd_basis :: Serde OccurrenceBasis;
  pd_link :: Serde HistoryLink;
  to_rfc3339_millis : instant -> string;
  event_to_string : AttentionEventV1 -> result string string;
  event_from_str : string -> result string AttentionEventV1
}.

Section attention.
Context {PD : PredicateDocuments}.

(** ** Digests and times *)

Definition predicate_digest {T} {ST : Serde T} (t : T) : result string string :=
  let? canonical := to_vec t in
  Ok ("sha256:" +:+ sha256_hex canonical).

Definition digest_without_field {T} {ST : Serde T} (t : T) (field : string)
    : result string string :=
  let? v := to_value t in
  let? entries := ok_or (as_object v) "digest-bearing value is not an object" in
  let? canonical := jcs_value (Object (object_remove field entries)) in
  Ok ("sha256:" +:+ sha256_hex canonical).

Definition occurrence_time (text : string) : result string instant :=
  ok_or (parse_from_rfc3339 text)
    ("invalid RFC3339 occurrence " +:+ str_debug text +:+ ": " +:+ parse_error text).

(** [i64]'s [checked_mul] and [checked_add]. *)
Definition checked_i64 (z : Z) : option Z :=
  if ((- 9223372036854775808 <=? z) && (z <=? 9223372036854775807))%Z then Some z else None.

Definition unix_ms (t : instant) : result string Z :=
  let seconds := (t / nanos_per_second)%Z in
  let millis := ((t mod nanos_per_second) / nanos_per_milli)%Z in
  ok_or (base ← checked_i64 (seconds * 1000); checked_i64 (base + millis))
    "Unix millisecond occurrence overflow".

Definition require_all (check : string -> string -> result string unit)
    (fields : list (string * string)) : result string unit :=
  for_each (fun f => check f.1 f.2) fields.

(** ** Policies *)

Definition rank_le (d d' : PulseDispositionV1) : Prop :=
  disposition_rank d <= disposition_rank d'.
#[global] Instance rank_le_dec d d' : Decision (rank_le d d').
Proof. unfold rank_le. exact _. Defined.

(** [Vec::dedup]. *)
Fixpoint dedup (ds : list PulseDispositionV1) : list PulseDispositionV1 :=
  match ds with
  | d :: (d' :: _) as rest => if bool_decide (d = d') then dedup rest else d :: dedup rest
  | _ => ds
  end.

Definition check_trigger (p : AttentionPolicyV1) : result string unit :=
  match pa_trigger p with
  | PropositionAttention =>
      reject (negb (bool_decide (pa_reset p = Reset_HorizonExpiry)))
        "proposition attention v1 resets only by governed horizon/currentness expiry"
  | AssuranceAttention dispositions =>
      reject (is_empty dispositions)
        "assurance attention requires at least one selected Pulse disposition" ;?
      reject (negb (bool_decide (dedup (merge_sort rank_le dispositions) = dispositions)))
        "assurance dispositions must be strictly ordered and unique" ;?
      reject (bool_decide (Pulse_SupportedCurrent ∈ dispositions))
        "SUPPORTED_CURRENT is not an assurance-failure disposition"
  end.

Definition policy_validate (p : AttentionPolicyV1) : result string unit :=
  let t := pa_target p in
  reject (negb (String.eqb (pa_schema p) POLICY_SCHEMA_V1))
    ("unsupported attention policy schema " +:+ pa_schema p) ;?
  require_all require_token
    [("policy_id", pa_policy_id p); ("project", ta_project t); ("concern", ta_concern t);
     ("question", ta_question t); ("declaration_profile", ta_declaration_profile t);
     ("predicate_profile", ta_predicate_profile t);
     ("pulse_support_policy_id", ta_pulse_support_policy_id t);
     ("subject_id", ta_subject_id t)] ;?
  require_all require_digest
    [("policy_digest", pa_policy_digest p); ("nq_catalog_digest", ta_nq_catalog_digest t);
     ("nq_profile_digest", ta_nq_profile_digest t);
     ("nq_input_schema_digest", ta_nq_input_schema_digest t);
     ("pulse_support_policy_digest", ta_pulse_support_policy_digest t);
     ("pulse_verifier_executable_digest", pa_pulse_verifier_executable_digest p)] ;?
  reject ((ra_required_distinct_occurrences (pa_recurrence p) =? 0)%N
          || (ra_within_seconds (pa_recurrence p) =? 0)%N)
    "recurrence count and horizon must be nonzero" ;?
  check_trigger p ;?
  let? digest := digest_without_field p "policy_digest" in
  reject (negb (String.eqb (pa_policy_digest p) digest))
    "attention policy digest does not bind its exact content".

Definition with_policy_digest (digest : string) (p : AttentionPolicyV1) : AttentionPolicyV1 :=
  {| pa_schema := pa_schema p; pa_policy_id := pa_policy_id p; pa_policy_digest := digest;
     pa_target := pa_target p;
     pa_pulse_verifier_executable_digest := pa_pulse_verifier_executable_digest p;
     pa_trigger := pa_trigger p; pa_recurrence := pa_recurrence p; pa_reset := pa_reset p |}.
Definition policy_seal (p : AttentionPolicyV1) : result string AttentionPolicyV1 :=
  let? digest := digest_without_field p "policy_digest" in
  let p := with_policy_digest digest p in
  policy_validate p ;?
  Ok p.

(** ** Pulse receipts *)

(** [into_iter().flatten()] of two options. *)
Definition present (l : list (option string)) : list string := omap id l.

Definition check_supported (r : PulseQualifiedSupportReceiptV1) : result string unit :=
  let? deadline := ok_or (pu_current_until_unix_ms r)
    "SUPPORTED_CURRENT Pulse receipt lacks its exclusive currentness bound" in
  reject (is_none (pu_primary_observed_at r) || is_none (pu_support_observed_at r)
          || is_none (pu_support_evidence_id r) || is_none (pu_support_evidence_digest r))
    "SUPPORTED_CURRENT Pulse receipt lacks exact evidence occurrences" ;?
  let? at_time := occurrence_time (pu_qualification_at r) in
  let? qualified_at := unix_ms at_time in
  reject (deadline <=? qualified_at)%Z
    "SUPPORTED_CURRENT Pulse deadline is not after qualification".

Definition pulse_validate (r : PulseQualifiedSupportReceiptV1) : result string unit :=
  reject (negb (String.eqb (pu_schema r) PULSE_RECEIPT_SCHEMA_V1))
    ("unsupported Pulse receipt schema " +:+ pu_schema r) ;?
  require_all require_digest
    [("receipt_digest", pu_receipt_digest r); ("policy_digest", pu_policy_digest r);
     ("nq_catalog_digest", pu_nq_catalog_digest r);
     ("nq_profile_digest", pu_nq_profile_digest r);
     ("nq_input_schema_digest", pu_nq_input_schema_digest r);
     ("nq_receipt_digest", pu_nq_receipt_digest r);
     ("nq_verifier_executable_digest", pu_nq_verifier_executable_digest r)] ;?
  require_all require_token
    [("policy_id", pu_policy_id r); ("project", pu_project r); ("concern", pu_concern r);
     ("question", pu_question r); ("declaration_profile", pu_declaration_profile r);
     ("predicate_profile", pu_predicate_profile r); ("subject_id", pu_subject_id r);
     ("qualification_at", pu_qualification_at r);
     ("independence_basis", pu_independence_basis r)] ;?
  let? _ := occurrence_time (pu_qualification_at r) in
  let? _ := map_try occurrence_time
    (present [pu_primary_observed_at r; pu_support_observed_at r]) in
  for_each (require_digest "support evidence digest")
    (present [pu_support_evidence_id r; pu_support_evidence_digest r]) ;?
  (if bool_decide (pu_disposition r = Pulse_SupportedCurrent) then check_supported r
   else Ok tt) ;?
  let? digest := digest_without_field r "receipt_digest" in
  reject (negb (String.eqb (pu_receipt_digest r) digest))
    "Pulse receipt digest does not bind its exact content".

Definition binds_target (r : PulseQualifiedSupportReceiptV1) (t : AttentionTargetV1) : bool :=
  String.eqb (pu_project r) (ta_project t) && String.eqb (pu_concern r) (ta_concern t)
  && String.eqb (pu_question r) (ta_question t)
  && String.eqb (pu_declaration_profile r) (ta_declaration_profile t)
  && String.eqb (pu_predicate_profile r) (ta_predicate_profile t)
  && String.eqb (pu_nq_catalog_digest r) (ta_nq_catalog_digest t)
  && String.eqb (pu_nq_profile_digest r) (ta_nq_profile_digest t)
  && String.eqb (pu_nq_input_schema_digest r) (ta_nq_input_schema_digest t)
  && String.eqb (pu_policy_id r) (ta_pulse_support_policy_id t)
  && String.eqb (pu_policy_digest r) (ta_pulse_support_policy_digest t)
  && String.eqb (pu_subject_id r) (ta_subject_id t).

Definition pulse_validate_for (r : PulseQualifiedSupportReceiptV1) (p : AttentionPolicyV1)
    : result string unit :=
  pulse_validate r ;?
  reject (negb (binds_target r (pa_target p)))
    "Pulse receipt does not exactly bind the attention policy target".

(** [verify_pulse_receipt]: the receipt file as read, the digest and the base name of the
    verifier's file and what its run gives back are arguments. *)
Definition verify_pulse_receipt (p : AttentionPolicyV1)
    (receipt_file : result string PulseQualifiedSupportReceiptV1)
    (executable_digest : result string string) (basename : option string)
    (run : result string PulseReplayResultV1) : result string PulseQualifiedSupportReceiptV1 :=
  policy_validate p ;?
  let? receipt := receipt_file in
  pulse_validate_for receipt p ;?
  let? digest := executable_digest in
  reject (negb (String.eqb digest (pa_pulse_verifier_executable_digest p)))
    "Pulse verifier executable digest does not match attention policy" ;?
  reject (negb (bool_decide (basename = Some "pulse-project-predicate-support")))
    "Pulse verifier must use the pulse-project-predicate-support basename" ;?
  let? replay := run in
  reject (negb (String.eqb (pw_schema replay) PULSE_REPLAY_SCHEMA_V1)
          || negb (pw_matches replay)
          || negb (String.eqb (pw_expected_receipt_digest replay) (pu_receipt_digest receipt))
          || negb (String.eqb (pw_recomputed_receipt_digest replay) (pu_receipt_digest receipt)))
    "Pulse replay did not reproduce the exact qualified-support receipt" ;?
  Ok receipt.

(** ** Events *)

Definition recurrence_id (r : PulseQualifiedSupportReceiptV1) : result string string :=
  predicate_digest
    {| ob_schema := "nightshift.project-predicate-evidence-occurrence/v1";
       ob_pulse_policy_digest := pu_policy_digest r;
       ob_nq_receipt_digest := pu_nq_receipt_digest r; ob_subject_id := pu_subject_id r;
       ob_disposition := pu_disposition r;
       ob_primary_observed_at := pu_primary_observed_at r;
       ob_support_observed_at := pu_support_observed_at r;
       ob_support_producer_id := pu_support_producer_id r;
       ob_support_source_id := pu_support_source_id r;
       ob_support_vantage_id := pu_support_vantage_id r;
       ob_no_evidence_qualification_at :=
         if is_none (pu_support_observed_at r) then Some (pu_qualification_at r) else None |}.

Definition occurrence_of (r : PulseQualifiedSupportReceiptV1) : string :=
  default (pu_qualification_at r) (pu_support_observed_at r).

Definition attention_event_validate (p : AttentionPolicyV1) (e : AttentionEventV1)
    : result string unit :=
  reject (negb (String.eqb (ev_schema e) EVENT_SCHEMA_V1)
          || negb (String.eqb (ev_policy_digest e) (pa_policy_digest p)))
    "attention event schema or policy lineage mismatch" ;?
  pulse_validate_for (ev_pulse_receipt e) p ;?
  let? identity := recurrence_id (ev_pulse_receipt e) in
  reject (negb (String.eqb (ev_recurrence_id e) identity))
    "attention event recurrence identity is invalid" ;?
  reject (negb (String.eqb (ev_occurrence_at e) (occurrence_of (ev_pulse_receipt e))))
    "attention event occurrence does not match governed Pulse occurrence" ;?
  let? _ := occurrence_time (ev_occurrence_at e) in
  let? digest := digest_without_field e "event_id" in
  reject (negb (String.eqb (ev_event_id e) digest)) "attention event digest is invalid".

Definition with_event_id (id : string) (e : AttentionEventV1) : AttentionEventV1 :=
  {| ev_schema := ev_schema e; ev_event_id := id; ev_policy_digest := ev_policy_digest e;
     ev_recurrence_id := ev_recurrence_id e; ev_occurrence_at := ev_occurrence_at e;
     ev_pulse_receipt := ev_pulse_receipt e |}.

Definition from_verified (p : AttentionPolicyV1) (r : PulseQualifiedSupportReceiptV1)
    : result string AttentionEventV1 :=
  policy_validate p ;?
  pulse_validate_for r p ;?
  let? identity := recurrence_id r in
  let event := {| ev_schema := EVENT_SCHEMA_V1; ev_event_id := "";
                  ev_policy_digest := pa_policy_digest p; ev_recurrence_id := identity;
                  ev_occurrence_at := occurrence_of r; ev_pulse_receipt := r |} in
  let? event_id := digest_without_field event "event_id" in
  let event := with_event_id event_id event in
  attention_event_validate p event ;?
  Ok event.

(** ** The store *)

(** [project_predicate_attention_lineages]: PRIMARY KEY policy_digest. *)
Record LineageRow := {
  lg_policy_id : string;
  lg_event_count : N;
  lg_head_digest : string
}.

(** [project_predicate_attention_events]: PRIMARY KEY (policy_digest, sequence), UNIQUE
    (policy_digest, recurrence_id). *)
Record AttentionEventRow := {
  ew_policy_digest : string;
  ew_sequence : N;
  ew_event_id : string;
  ew_predecessor_digest : string;
  ew_recurrence_id : string;
  ew_event_json : string
}.

(** The lineages by policy digest and the events as they were inserted. *)
Record AttentionTables := {
  tb_lineages : gmap string LineageRow;
  tb_events : list AttentionEventRow
}.
Definition empty_attention : AttentionTables := {| tb_lineages := ∅; tb_events := [] |}.

Definition chain_digest (predecessor event_id : string) (sequence : N) : result string string :=
  predicate_digest
    {| hl_schema := "nightshift.project-predicate-attention-history-link/v1";
       hl_predecessor := predecessor; hl_event_id := event_id; hl_sequence := sequence |}.

Definition genesis_digest : string :=
  "sha256:" +:+ sha256_hex
    ("nightshift/project-predicate-attention-history/genesis/v1" +:+ String Ascii.zero "").

Definition row_of_policy (digest : string) (r : AttentionEventRow) : bool :=
  String.eqb (ew_policy_digest r) digest.

Definition row_conflicts (r r' : AttentionEventRow) : bool :=
  String.eqb (ew_policy_digest r) (ew_policy_digest r')
  && ((ew_sequence r =? ew_sequence r')%N
      || String.eqb (ew_recurrence_id r) (ew_recurrence_id r')).

(** The INSERT of an event and the UPDATE of its lineage. *)
Definition insert_occurrence (r : AttentionEventRow) (l : LineageRow) (t : AttentionTables)
    : result string AttentionTables :=
  let? _ := ok_or (i64_of (ew_sequence r)) "out of range integral type conversion attempted" in
  reject (existsb (row_conflicts r) (tb_events t)) "UNIQUE constraint failed" ;?
  Ok {| tb_lineages := <[ew_policy_digest r := l]> (tb_lineages t);
        tb_events := tb_events t ++ [r] |}.

Definition ingest_result (d : IngestDispositionV1) (p : AttentionPolicyV1) (event_id : string)
    (e : AttentionEventV1) (count : N) (head : string) : IngestResultV1 :=
  {| ig_schema := INGEST_SCHEMA_V1; ig_disposition := d;
     ig_policy_digest := pa_policy_digest p; ig_event_id := event_id;
     ig_recurrence_id := ev_recurrence_id e;
     ig_pulse_receipt_digest := pu_receipt_digest (ev_pulse_receipt e);
     ig_history_event_count := count; ig_history_head_digest := head |}.

(** The sequence number and the predecessor of the next event.  The source inserts the
    lineage of a first event with no events; its row is overwritten by [insert_occurrence]. *)
Definition next_link (p : AttentionPolicyV1) (t : AttentionTables) : result string (N * string) :=
  match tb_lineages t !! pa_policy_digest p with
  | Some l =>
      reject (negb (String.eqb (lg_policy_id l) (pa_policy_id p)))
        "attention lineage policy identity mismatch" ;?
      Ok (lg_event_count l + 1, lg_head_digest l)%N
  | None => Ok (1%N, genesis_digest)
  end.

Definition ingest_verified (p : AttentionPolicyV1) (r : PulseQualifiedSupportReceiptV1)
    (t : AttentionTables) : result string (IngestResultV1 * AttentionTables) :=
  let? event := from_verified p r in
  match find_first (fun r => row_of_policy (pa_policy_digest p) r
                             && String.eqb (ew_recurrence_id r) (ev_recurrence_id event))
          (tb_events t) with
  | Some existing =>
      let? l := ok_or (tb_lineages t !! pa_policy_digest p) "Query returned no rows" in
      Ok (ingest_result Ingest_DuplicateEvidenceOccurrence p (ew_event_id existing) event
            (lg_event_count l) (lg_head_digest l), t)
  | None =>
      let? '(sequence, predecessor) := next_link p t in
      let? event_json := event_to_string event in
      let? head := chain_digest predecessor (ev_event_id event) sequence in
      let? t := insert_occurrence
        {| ew_policy_digest := pa_policy_digest p; ew_sequence := sequence;
           ew_event_id := ev_event_id event; ew_predecessor_digest := predecessor;
           ew_recurrence_id := ev_recurrence_id event; ew_event_json := event_json |}
        {| lg_policy_id := pa_policy_id p; lg_event_count := sequence;
           lg_head_digest := head |} t in
      Ok (ingest_result Ingest_Accepted p (ev_event_id event) event sequence head, t)
  end.

(** *** Reading a history back *)

Definition sequence_le (r r' : AttentionEventRow) : Prop := (ew_sequence r <= ew_sequence r')%N.
#[global] Instance sequence_le_dec r r' : Decision (sequence_le r r').
Proof. unfold sequence_le. exact _. Defined.

(** The rows of a policy, ORDER BY sequence. *)
Definition rows_of (digest : string) (t : AttentionTables) : list AttentionEventRow :=
  merge_sort sequence_le (List.filter (row_of_policy digest) (tb_events t)).

(** The events read so far and the digest of the last. *)
Definition read_row (p : AttentionPolicyV1) (row : AttentionEventRow)
    (s : list AttentionEventV1 * string) : result string (list AttentionEventV1 * string) :=
  let '(events, predecessor) := s in
  reject (negb (ew_sequence row =? N.of_nat (length events) + 1)%N
          || negb (String.eqb (ew_predecessor_digest row) predecessor))
    "attention history sequence/predecessor custody is incomplete" ;?
  let? event := map_err (fun e => "stored attention event JSON: " +:+ e)
    (event_from_str (ew_event_json row)) in
  attention_event_validate p event ;?
  reject (negb (String.eqb (ev_event_id event) (ew_event_id row)))
    "stored attention event identity mismatch" ;?
  let? head := chain_digest predecessor (ew_event_id row) (ew_sequence row) in
  Ok ((events ++ [event])%list, head).

Definition history (p : AttentionPolicyV1) (t : AttentionTables)
    : result string (list AttentionEventV1) :=
  policy_validate p ;?
  match tb_lineages t !! pa_policy_digest p with
  | None => Ok []
  | Some l =>
      reject (negb (String.eqb (lg_policy_id l) (pa_policy_id p)))
        "stored attention lineage policy identity mismatch" ;?
      let? '(events, head) := fold_try (read_row p) (rows_of (pa_policy_digest p) t)
                                ([], genesis_digest) in
      reject (negb (N.of_nat (length events) =? lg_event_count l)%N
              || negb (String.eqb head (lg_head_digest l)))
        "attention history truncation or head mismatch detected" ;?
      Ok events
  end.

(** ** Evaluation *)

(** An error, or a panic of the source. *)
Inductive AttentionError :=
| Attention_Refused (detail : string)
| Attention_Panicked.

Definition refused {A} (m : result string A) : result AttentionError A :=
  map_err Attention_Refused m.

(** [by_recurrence]: the events by their recurrence identity. *)
Definition collect_event (p : AttentionPolicyV1) (e : AttentionEventV1)
    (m : gmap string AttentionEventV1) : result string (gmap string AttentionEventV1) :=
  attention_event_validate p e ;?
  reject (is_some (m !! ev_recurrence_id e))
    "attention history repeats an evidence recurrence identity" ;?
  Ok (<[ev_recurrence_id e := e]> m).

Definition occurrence_le (e e' : AttentionEventV1) : Prop :=
  String.ltb (ev_occurrence_at e) (ev_occurrence_at e') = true
  \/ ev_occurrence_at e = ev_occurrence_at e'
     /\ String.le (ev_recurrence_id e) (ev_recurrence_id e').
#[global] Instance occurrence_le_dec e e' : Decision (occurrence_le e e').
Proof. unfold occurrence_le. exact _. Defined.

Definition canonical_history (p : AttentionPolicyV1) (events : list AttentionEventV1)
    : result string (list AttentionEventV1) :=
  let? m := fold_try (collect_event p) events ∅ in
  Ok (merge_sort occurrence_le (btree_values m)).

Definition check_no_future (evaluated_at : instant) (e : AttentionEventV1)
    : result string unit :=
  let? at_time := occurrence_time (ev_occurrence_at e) in
  reject (evaluated_at <? at_time)%Z "attention history contains a future evidence occurrence".

(** [Duration::seconds] panics where [try_seconds] finds no duration. *)
Definition window_start_of (within_seconds : N) (evaluated_at : instant)
    : result AttentionError instant :=
  let? within := ok_or (i64_of within_seconds)
    (Attention_Refused "attention horizon exceeds i64 seconds") in
  let? horizon := ok_or (try_seconds within) Attention_Panicked in
  ok_or (checked_sub_signed evaluated_at horizon) (Attention_Refused "attention horizon underflow").

(** [Iterator::max]. *)
Definition latest (ts : list instant) : option instant :=
  match ts with [] => None | t :: ts => Some (foldl Z.max t ts) end.

Definition is_supported (e : AttentionEventV1) : bool :=
  bool_decide (pu_disposition (ev_pulse_receipt e) = Pulse_SupportedCurrent).

Definition reset_instant (p : AttentionPolicyV1) (events : list AttentionEventV1)
    (evaluated_at : instant) : result string (option instant) :=
  match pa_trigger p, pa_reset p with
  | AssuranceAttention _, Reset_SupportedCurrent =>
      let? ts := map_try (fun e => occurrence_time (pu_qualification_at (ev_pulse_receipt e)))
                   (List.filter is_supported events) in
      Ok (latest (List.filter (fun t => t <=? evaluated_at)%Z ts))
  | _, _ => Ok None
  end.

Definition trigger_matches (p : AttentionPolicyV1) (e : AttentionEventV1) : bool :=
  match pa_trigger p with
  | PropositionAttention => is_supported e
  | AssuranceAttention ds => bool_decide (pu_disposition (ev_pulse_receipt e) ∈ ds)
  end.
Definition is_proposition (p : AttentionPolicyV1) : bool :=
  match pa_trigger p with PropositionAttention => true | _ => false end.

Definition in_window (window_start evaluated_at : instant) (reset_at : option instant)
    (t : instant) : bool :=
  negb ((t <? window_start)%Z || (evaluated_at <? t)%Z
        || match reset_at with Some reset => (t <=? reset)%Z | None => false end).

(** [matching_before_currentness], [expired_supported] and [qualifying]. *)
Record Tally := {
  ty_matching : N;
  ty_expired : bool;
  ty_qualifying : list AttentionEventV1
}.

(** [u32] arithmetic: [+= 1] panics on overflow, [try_from] refuses. *)
Definition u32_max : N := 4294967295.
Definition increment_u32 (n : N) : result AttentionError N :=
  if (n <? u32_max)%N then Ok (n + 1)%N else Err Attention_Panicked.

Definition tally_event (p : AttentionPolicyV1) (window_start evaluated_at : instant)
    (reset_at : option instant) (e : AttentionEventV1) (y : Tally) : result AttentionError Tally :=
  let? at_time := refused (occurrence_time (ev_occurrence_at e)) in
  if negb (in_window window_start evaluated_at reset_at at_time) then Ok y
  else if negb (trigger_matches p e) then Ok y
  else
    let? matching := increment_u32 (ty_matching y) in
    let qualifies := {| ty_matching := matching; ty_expired := ty_expired y;
                        ty_qualifying := (ty_qualifying y ++ [e])%list |} in
    if is_proposition p then
      let? deadline := ok_or (pu_current_until_unix_ms (ev_pulse_receipt e))
        (Attention_Refused "SUPPORTED_CURRENT event lacks Pulse currentness boundary") in
      let? now := refused (unix_ms evaluated_at) in
      Ok (if (deadline <=? now)%Z
          then {| ty_matching := matching; ty_expired := true;
                  ty_qualifying := ty_qualifying y |}
          else qualifies)
    else Ok qualifies.

Definition disposition_of (p : AttentionPolicyV1) (count : N) (y : Tally)
    : AttentionDispositionV1 * AttentionReasonClassV1 * string :=
  let required := ra_required_distinct_occurrences (pa_recurrence p) in
  if (required <=? count)%N then
    (AttentionRequired,
     if is_proposition p then Reason_PropositionAttention else Reason_AssuranceAttention,
     pretty count
     +:+ " distinct governed evidence occurrences satisfy the operator attention policy")
  else if (0 <? count)%N then
    (WaitingForRecurrence, Reason_None,
     pretty count +:+ " of " +:+ pretty required
     +:+ " required distinct governed evidence occurrences are present")
  else if ty_expired y && (0 <? ty_matching y)%N then
    (InputNotCurrent, Reason_None,
     "historical Pulse support exists but its exclusive currentness boundary does not cover this evaluation")
  else
    (NoAttention, Reason_None,
     "no governed attention trigger currently satisfies the policy").

Definition reset_basis_of (r : ResetPolicyV1) : string :=
  match r with
  | Reset_HorizonExpiry => "qualifying occurrences cease to count only outside the inclusive governed horizon; no failure receipt proves a domain clear/v1"
  | Reset_SupportedCurrent => "a later SUPPORTED_CURRENT Pulse qualification resets assurance-failure recurrence only/v1"
  end.

(** The distinct dispositions, in order ([BTreeSet]). *)
Definition distinct_dispositions (events : list AttentionEventV1) : list PulseDispositionV1 :=
  List.filter (fun d => existsb (fun e => bool_decide (pu_disposition (ev_pulse_receipt e) = d))
                          events) pulse_dispositions.

Definition with_receipt_digest (digest : string) (r : AttentionReceiptV1) : AttentionReceiptV1 :=
  {| ar_schema := ar_schema r; ar_receipt_digest := digest; ar_policy_id := ar_policy_id r;
     ar_policy_digest := ar_policy_digest r; ar_project := ar_project r;
     ar_concern := ar_concern r; ar_question := ar_question r;
     ar_declaration_profile := ar_declaration_profile r;
     ar_predicate_profile := ar_predicate_profile r;
     ar_nq_catalog_digest := ar_nq_catalog_digest r;
     ar_nq_profile_digest := ar_nq_profile_digest r;
     ar_nq_input_schema_digest := ar_nq_input_schema_digest r;
     ar_pulse_support_policy_id := ar_pulse_support_policy_id r;
     ar_pulse_support_policy_digest := ar_pulse_support_policy_digest r;
     ar_subject_id := ar_subject_id r; ar_evaluated_at := ar_evaluated_at r;
     ar_window_start_inclusive := ar_window_start_inclusive r;
     ar_window_end_inclusive := ar_window_end_inclusive r;
     ar_required_distinct_occurrences := ar_required_distinct_occurrences r;
     ar_qualifying_distinct_occurrences := ar_qualifying_distinct_occurrences r;
     ar_qualifying_event_ids := ar_qualifying_event_ids r;
     ar_qualifying_recurrence_ids := ar_qualifying_recurrence_ids r;
     ar_pulse_receipt_digests := ar_pulse_receipt_digests r;
     ar_upstream_dispositions := ar_upstream_dispositions r;
     ar_history_digest := ar_history_digest r;
     ar_attention_reason_class := ar_attention_reason_class r;
     ar_disposition := ar_disposition r; ar_detail := ar_detail r;
     ar_recurrence_basis := ar_recurrence_basis r;
     ar_currentness_basis := ar_currentness_basis r; ar_reset_basis := ar_reset_basis r;
     ar_validated := ar_validated r; ar_not_validated := ar_not_validated r |}.

Definition draft_receipt (p : AttentionPolicyV1) (window_start evaluated_at : instant)
    (count : N) (y : Tally) (history_digest : string) : AttentionReceiptV1 :=
  let t := pa_target p in
  let q := ty_qualifying y in
  let '(disposition, reason, detail) := disposition_of p count y in
  {| ar_schema := RECEIPT_SCHEMA_V1; ar_receipt_digest := "";
     ar_policy_id := pa_policy_id p; ar_policy_digest := pa_policy_digest p;
     ar_project := ta_project t; ar_concern := ta_concern t; ar_question := ta_question t;
     ar_declaration_profile := ta_declaration_profile t;
     ar_predicate_profile := ta_predicate_profile t;
     ar_nq_catalog_digest := ta_nq_catalog_digest t;
     ar_nq_profile_digest := ta_nq_profile_digest t;
     ar_nq_input_schema_digest := ta_nq_input_schema_digest t;
     ar_pulse_support_policy_id := ta_pulse_support_policy_id t;
     ar_pulse_support_policy_digest := ta_pulse_support_policy_digest t;
     ar_subject_id := ta_subject_id t; ar_evaluated_at := to_rfc3339_millis evaluated_at;
     ar_window_start_inclusive := to_rfc3339_millis window_start;
     ar_window_end_inclusive := to_rfc3339_millis evaluated_at;
     ar_required_distinct_occurrences := ra_required_distinct_occurrences (pa_recurrence p);
     ar_qualifying_distinct_occurrences := count;
     ar_qualifying_event_ids := ev_event_id <$> q;
     ar_qualifying_recurrence_ids := ev_recurrence_id <$> q;
     ar_pulse_receipt_digests := (fun e => pu_receipt_digest (ev_pulse_receipt e)) <$> q;
     ar_upstream_dispositions := distinct_dispositions q;
     ar_history_digest := history_digest; ar_attention_reason_class := reason;
     ar_disposition := disposition; ar_detail := detail;
     ar_recurrence_basis := "distinct primary/support observation coordinates; Pulse/Nightshift requalification and exact replay do not advance recurrence/v1";
     ar_currentness_basis := "for proposition attention only, evaluated_at must be strictly before Pulse current_until_unix_ms; Nightshift does not recompute Pulse freshness/v1";
     ar_reset_basis := reset_basis_of (pa_reset p);
     ar_validated :=
       ["exact attention policy content custody and target binding";
        "distinct recurrence identity, governed ordering, and inclusive horizon";
        "Pulse disposition preservation and Pulse-owned exclusive support deadline"];
     ar_not_validated :=
       ["project proposition truth, NQ semantic correctness, or producer testimony truth";
        "Pulse source independence beyond the verified Pulse receipt claim";
        "uninterrupted truth, causality, whole-project health, remediation, publication, or notification delivery"] |}.

(** The history in canonical order, the start of the window and what counts in it. *)
Definition tally_history (p : AttentionPolicyV1) (events : list AttentionEventV1)
    (evaluated_at : instant)
    : result AttentionError (list AttentionEventV1 * instant * Tally) :=
  let? canonical := refused (canonical_history p events) in
  refused (for_each (check_no_future evaluated_at) canonical) ;?
  let? window_start := window_start_of (ra_within_seconds (pa_recurrence p)) evaluated_at in
  let? reset_at := refused (reset_instant p canonical evaluated_at) in
  let? y := fold_try (tally_event p window_start evaluated_at reset_at) canonical
              {| ty_matching := 0; ty_expired := false; ty_qualifying := [] |} in
  Ok (canonical, window_start, y).

Definition evaluate (p : AttentionPolicyV1) (events : list AttentionEventV1)
    (evaluated_at : instant) : result AttentionError AttentionReplayBundleV1 :=
  refused (policy_validate p) ;?
  let? '(canonical, window_start, y) := tally_history p events evaluated_at in
  let count := N.of_nat (length (ty_qualifying y)) in
  reject (u32_max <? count)%N (Attention_Refused "too many attention events") ;?
  let? history_digest := refused (predicate_digest canonical) in
  let draft := draft_receipt p window_start evaluated_at count y history_digest in
  let? digest := refused (digest_without_field draft "receipt_digest") in
  Ok {| bu_schema := BUNDLE_SCHEMA_V1; bu_policy := p; bu_history := canonical;
        bu_receipt := with_receipt_digest digest draft |}.

Definition replay_attention (b : AttentionReplayBundleV1)
    : result AttentionError AttentionReplayResultV1 :=
  reject (negb (String.eqb (bu_schema b) BUNDLE_SCHEMA_V1))
    (Attention_Refused "unsupported attention replay bundle schema") ;?
  let? at_time := refused (occurrence_time (ar_evaluated_at (bu_receipt b))) in
  let? recomputed := evaluate (bu_policy b) (bu_history b) at_time in
  Ok {| rr_schema := REPLAY_SCHEMA_V1;
        rr_matches := bool_decide (bu_receipt recomputed = bu_receipt b);
        rr_expected_receipt_digest := ar_receipt_digest (bu_receipt b);
        rr_recomputed_receipt_digest := ar_receipt_digest (bu_receipt recomputed) |}.
End attention.
