(* ===== verification/PredicateFacts.v ===== *)
(** * What the attention store and its evaluation promise

    The store refines an append-only log of distinct evidence occurrences, what it reads
    back is tamper-evident, the evaluation does not depend on the order of the history and
    replays from its bundle, and attention is called for exactly by enough occurrences that
    are in the window, not reset and still current. *)
From S2P Require Import Prelude Text External Signing Currentness PredicateAttention.
Local Open Scope string_scope.

(** What the theorems need of the serializers and of chrono: a stored event reads back, a
    link's bytes determine it. *)
(** serde and JCS: a derived serializer writes an event as an object with every field
    under its own name, so the canonical text of that object without the identity still
    holds the other fields, and can be read back.  [read_content] is such a reader. *)
Class PredicateOk (PD : PredicateDocuments) : Prop := {
  event_reads_back : forall e s, event_to_string e = Ok s -> event_from_str s = Ok e;
  content_reads_back : exists read_content : string -> option AttentionEventV1,
    forall e kvs text, to_value e = Ok (Object kvs) ->
      jcs_value (Object (List.filter (fun kv => negb (String.eqb kv.1 "event_id")) kvs))
        = Ok text -> read_content text = Some (with_event_id "" e);
  link_reads_back :: SerdeOk HistoryLink;
  predicate_chrono :: ChronoOk pd_host pd_chrono
}.

(** An error that is passed on. *)
Ltac unrefuse :=
  repeat match goal with X : map_err _ _ = Ok _ |- _ => apply map_err_ok in X end.

Section facts.
Context {PD : PredicateDocuments}.
Implicit Types (p : AttentionPolicyV1) (e : AttentionEventV1) (es q log : list AttentionEventV1)
 
  (t : AttentionTables).

(** ** The order of the history does not matter *)

Lemma collect_events p es m m' : fold_try (collect_event p) es m = Ok m' ->
  Forall (fun e => attention_event_validate p e = Ok tt) es /\ NoDup (ev_recurrence_id <$> es) /\
  (forall e, e ∈ es -> m !! ev_recurrence_id e = None) /\
  m' = list_to_map ((fun e => (ev_recurrence_id e, e)) <$> es) ∪ m.
Proof.
  revert m. induction es as [|e es IH]; intros m H; simpl in H.
  { apply Ok_inj in H as <-. csimpl. rewrite (left_id_L ∅ (∪)). split; [constructor|].
    split; [constructor|]. split; [|done]. by intros ? ?%elem_of_nil. }
  apply rbind_ok in H as (m1 & Hc & H). unfold collect_event in Hc. inv_ok Hc. subst m1.
  rewrite reject_ok, is_some_false in Hok0.
  destruct (IH _ H) as (Hv & Hn & Hf & ->). csimpl.
  assert (forall e', e' ∈ es -> ev_recurrence_id e' <> ev_recurrence_id e /\
            m !! ev_recurrence_id e' = None) as Hes.
  { intros e' He'. specialize (Hf e' He'). rewrite lookup_insert_None in Hf. naive_solver. }
  split_and!.
  - by constructor.
  - constructor; [|done]. intros (e' & Heq & He')%list_elem_of_fmap.
    by destruct (Hes e' He') as [Hne _].
  - intros e' [->|He']%elem_of_cons; [done|]. by apply Hes.
  - simpl. rewrite <- insert_union_l, insert_union_r; [done|].
    apply not_elem_of_list_to_map. rewrite <- list_fmap_compose. simpl.
    intros (e' & Heq & He')%list_elem_of_fmap. by destruct (Hes e' He') as [Hne _].
Qed.

Lemma collect_events_succeeds p es m :
  Forall (fun e => attention_event_validate p e = Ok tt) es -> NoDup (ev_recurrence_id <$> es) ->
  (forall e, e ∈ es -> m !! ev_recurrence_id e = None) ->
  exists m', fold_try (collect_event p) es m = Ok m'.
Proof.
  revert m. induction es as [|e es IH]; intros m Hv Hn Hm; simpl; [by eauto|].
  apply Forall_cons in Hv as [He Hv]. apply NoDup_cons in Hn as [Hf Hn].
  unfold collect_event at 1. rewrite He, (Hm e) by set_solver. simpl. apply IH; [done..|].
  intros e' He'. rewrite lookup_insert_None. split; [apply Hm; set_solver|].
  intros Heq. apply Hf. rewrite Heq. by apply list_elem_of_fmap_2.
Qed.

Lemma canonical_history_spec p es c : canonical_history p es = Ok c ->
  Forall (fun e => attention_event_validate p e = Ok tt) es /\ NoDup (ev_recurrence_id <$> es) /\
  c ≡ₚ es.
Proof.
  unfold canonical_history. intros H. inv_ok H. subst c.
  apply collect_events in Hok as (Hv & Hn & _ & ->). split; [done|]. split; [done|].
  rewrite merge_sort_Permutation. unfold btree_values. rewrite btree_iter_perm.
  rewrite (right_id_L ∅ (∪)), map_to_list_to_map, <- list_fmap_compose.
  - by rewrite list_fmap_id.
  - by rewrite <- list_fmap_compose.
Qed.

Lemma canonical_history_perm p es es' c :
  canonical_history p es = Ok c -> es' ≡ₚ es -> canonical_history p es' = Ok c.
Proof.
  unfold canonical_history. intros H Hp. inv_ok H.
  apply collect_events in Hok as (Hv & Hn & _ & Hx).
  destruct (collect_events_succeeds p es' ∅) as [m' Hm'].
  - by rewrite Hp.
  - by rewrite Hp.
  - done.
  - rewrite Hm'. simpl. apply collect_events in Hm' as (_ & Hn' & _ & ->).
    rewrite Hx in H. rewrite <- H. do 4 f_equal.
    apply list_to_map_proper; [by rewrite <- list_fmap_compose|by rewrite Hp].
Qed.

Lemma evaluate_perm p es es' at_time b :
  evaluate p es at_time = Ok b -> es' ≡ₚ es -> evaluate p es' at_time = Ok b.
Proof.
  unfold evaluate, tally_history. intros H Hp. apply rseq_ok in H as [Hv H]. rewrite Hv. simpl.
  destruct (canonical_history p es) as [c|] eqn:Hc; [|done].
  by rewrite (canonical_history_perm _ _ _ _ Hc Hp).
Qed.

(** ** What an evaluation computes *)

Lemma tallied p es at_time c window y : tally_history p es at_time = Ok (c, window, y) ->
  canonical_history p es = Ok c /\
  window_start_of (ra_within_seconds (pa_recurrence p)) at_time = Ok window /\
  exists reset, reset_instant p c at_time = Ok reset /\
    fold_try (tally_event p window at_time reset) c
      {| ty_matching := 0; ty_expired := false; ty_qualifying := [] |} = Ok y.
Proof.
  unfold tally_history, refused. intros H. inv_ok H.
  unrefuse. simplify_eq. eauto 10.
Qed.

Lemma evaluated p es at_time b : evaluate p es at_time = Ok b ->
  exists window y digest digest',
    policy_validate p = Ok tt /\ tally_history p es at_time = Ok (bu_history b, window, y) /\
    bu_schema b = BUNDLE_SCHEMA_V1 /\ bu_policy b = p /\
    bu_receipt b = with_receipt_digest digest
      (draft_receipt p window at_time (N.of_nat (length (ty_qualifying y))) y digest').
Proof.
  unfold evaluate, refused. intros H. inv_ok H. unrefuse. subst. simpl.
  eauto 10.
Qed.

Lemma draft_evaluated_at p window at_time count y digest :
  ar_evaluated_at (draft_receipt p window at_time count y digest) = to_rfc3339_millis at_time.
Proof. unfold draft_receipt. by destruct (disposition_of p count y) as [[??]?]. Qed.

Lemma evaluated_history p es at_time b : evaluate p es at_time = Ok b ->
  bu_history b ≡ₚ es /\
  ar_evaluated_at (bu_receipt b) = to_rfc3339_millis at_time.
Proof.
  intros (window & y & d & d' & _ & Ht & _ & _ & ->)%evaluated. split.
  - apply tallied in Ht as (Hc & _). by apply canonical_history_spec in Hc as (_ & _ & ?).
  - apply draft_evaluated_at.
Qed.

(** *** Times *)

Lemma unix_ms_millis u n : unix_ms u = Ok n -> n = (u / nanos_per_milli)%Z.
Proof.
  unfold unix_ms. rewrite ok_or_ok. intros (base & Hb & Hn)%bind_Some.
  unfold checked_i64 in *. repeat case_match; try done. simplify_eq.
  unfold nanos_per_second, nanos_per_milli.
  rewrite (Z.div_mod u 1000000000) at 3 by done.
  replace (1000000000 * (u / 1000000000) + u `mod` 1000000000)%Z
    with (u `mod` 1000000000 + (u / 1000000000 * 1000) * 1000000)%Z by lia.
  rewrite Z.div_add by done. lia.
Qed.

Lemma window_start_nanos `{!ChronoOk pd_host pd_chrono} within at_time window :
  window_start_of within at_time = Ok window ->
  window = (at_time - Z.of_N within * nanos_per_second)%Z.
Proof.
  unfold window_start_of, i64_of. intros H. inv_ok H. rewrite ok_or_ok in *.
  case_match; [|done]. simplify_eq. apply try_seconds_nanos in Hok0 as ->.
  by apply checked_sub_signed_diff in H.
Qed.

Lemma elem_of_filter_bool {A} (f : A -> bool) (l : list A) a :
  a ∈ List.filter f l <-> a ∈ l /\ f a = true.
Proof. by rewrite !list_elem_of_In, filter_In. Qed.

Lemma elem_of_map_try {E A B} (f : A -> result E B) (l : list A) (bs : list B) :
  map_try f l = Ok bs -> forall b, b ∈ bs <-> exists a, a ∈ l /\ f a = Ok b.
Proof.
  intros H%map_try_ok b. induction H as [|a b' l bs Hf _ IH]; [set_solver|].
  rewrite elem_of_cons, IH. setoid_rewrite elem_of_cons. split.
  - intros [->|(a' & ? & ?)]; eauto.
  - intros (a' & [->|?] & ?); [left; congruence|eauto].
Qed.

Lemma latest_spec ts : match latest ts with
  | Some m => m ∈ ts /\ forall u, u ∈ ts -> (u <= m)%Z
  | None => ts = []
  end.
Proof.
  destruct ts as [|u ts]; simpl; [done|]. revert u.
  induction ts as [|u' ts IH]; intros u; simpl; [set_solver by lia|].
  destruct (IH (Z.max u u')) as [Hin Hle]. split.
  - apply elem_of_cons in Hin as [->|?]; [|set_solver].
    destruct (Z.max_spec u u') as [[_ E]|[_ E]]; rewrite E; set_solver.
  - intros v Hv. assert (Z.max u u' <= foldl Z.max (Z.max u u') ts)%Z by (apply Hle; set_solver).
    apply elem_of_cons in Hv as [->|[->|Hv]%elem_of_cons]; [lia|lia|apply Hle; set_solver].
Qed.

(** C27: the evaluation of a history does not depend on the order in which its events are
    given, and the bundle it seals replays: with an instant that its text reads back as,
    the recomputed receipt is the sealed one. *)
Theorem evaluation_replays p es at_time b :
  evaluate p es at_time = Ok b ->
  (forall es', es' ≡ₚ es -> evaluate p es' at_time = Ok b) /\
  (parse_from_rfc3339 (to_rfc3339_millis at_time) = Some at_time ->
   replay_attention b =
     Ok {| rr_schema := REPLAY_SCHEMA_V1; rr_matches := true;
           rr_expected_receipt_digest := ar_receipt_digest (bu_receipt b);
           rr_recomputed_receipt_digest := ar_receipt_digest (bu_receipt b) |}).
Proof.
  intros H. split; [intros es' Hp; by apply (evaluate_perm p es es')|]. intros Ht.
  destruct (evaluated _ _ _ _ H) as (? & ? & ? & ? & _ & _ & Hs & Hp & _).
  destruct (evaluated_history _ _ _ _ H) as [Hh Ha].
  apply (evaluate_perm _ _ (bu_history b)) in H; [|done].
  unfold replay_attention. rewrite Hs, Ha, Hp. simpl. unfold occurrence_time. rewrite Ht. simpl.
  rewrite H. simpl. by rewrite bool_decide_true.
Qed.

(** ** What counts *)

(** No supported qualification that the policy lets reset the count comes at or after
    [u]. *)
Definition not_reset p es (at_time u : instant) : Prop :=
  match pa_trigger p, pa_reset p with
  | AssuranceAttention _, Reset_SupportedCurrent =>
      forall e v, e ∈ es -> is_supported e = true ->
        parse_from_rfc3339 (pu_qualification_at (ev_pulse_receipt e)) = Some v ->
        (v <= at_time -> v < u)%Z
  | _, _ => True
  end.

(** The occurrence is in the window, is not reset and has a disposition that the trigger
    selects. *)
Definition counts p es (at_time : instant) e : Prop :=
  exists u, parse_from_rfc3339 (ev_occurrence_at e) = Some u /\
    (at_time - Z.of_N (ra_within_seconds (pa_recurrence p)) * nanos_per_second <= u <= at_time)%Z /\
    not_reset p es at_time u /\ trigger_matches p e = true.

(** For a proposition, Pulse's deadline is still ahead. *)
Definition covers p (at_time : instant) e : Prop :=
  is_proposition p = true ->
  exists deadline, pu_current_until_unix_ms (ev_pulse_receipt e) = Some deadline /\
    (at_time / nanos_per_milli < deadline)%Z.

(** As [tally_event] computes it. *)
Definition in_scope p window (at_time : instant) reset e : Prop :=
  exists u, parse_from_rfc3339 (ev_occurrence_at e) = Some u /\
    in_window window at_time reset u = true /\ trigger_matches p e = true.

Lemma reset_not_reset p es at_time reset u :
  reset_instant p es at_time = Ok reset ->
  (match reset with Some m => (u <=? m)%Z | None => false end) = false <->
  not_reset p es at_time u.
Proof.
  unfold reset_instant, not_reset. intros H.
  destruct (pa_trigger p); [by simplify_eq|]. destruct (pa_reset p); [by simplify_eq|].
  inv_ok H. subst reset.
  assert (forall v, v ∈ List.filter (fun v => v <=? at_time)%Z x <->
    (v <= at_time)%Z /\ exists e, e ∈ es /\ is_supported e = true /\
      parse_from_rfc3339 (pu_qualification_at (ev_pulse_receipt e)) = Some v) as Hx.
  { intros v. rewrite elem_of_filter_bool, Z.leb_le, (elem_of_map_try _ _ _ Hok).
    setoid_rewrite elem_of_filter_bool. unfold occurrence_time. setoid_rewrite ok_or_ok.
    naive_solver. }
  pose proof (latest_spec (List.filter (fun v => v <=? at_time)%Z x)) as Hl.
  destruct (latest _) as [m|].
  - destruct Hl as [Hin Hle]. rewrite Z.leb_gt. split.
    + intros Hm e v He Hs Hv Hat. enough (v <= m)%Z by lia. apply Hle, Hx. eauto.
    + intros Hall. apply Hx in Hin as (Hat & e & He & Hs & Hv). eauto.
  - split; [|done]. intros _ e v He Hs Hv Hat. exfalso.
    assert (v ∈ List.filter (fun v => v <=? at_time)%Z x) as Hin by (apply Hx; eauto).
    rewrite Hl in Hin. by apply elem_of_nil in Hin.
Qed.

Lemma in_scope_counts `{!ChronoOk pd_host pd_chrono} p es window at_time reset e :
  window_start_of (ra_within_seconds (pa_recurrence p)) at_time = Ok window ->
  reset_instant p es at_time = Ok reset ->
  in_scope p window at_time reset e <-> counts p es at_time e.
Proof.
  intros Hw Hr. apply window_start_nanos in Hw. unfold in_scope, counts, in_window.
  setoid_rewrite <- (reset_not_reset p es at_time reset _ Hr).
  setoid_rewrite negb_true_iff. setoid_rewrite orb_false_iff. setoid_rewrite orb_false_iff.
  setoid_rewrite Z.ltb_ge. rewrite Hw. naive_solver.
Qed.

Lemma incremented n m : increment_u32 n = Ok m -> m = (n + 1)%N.
Proof. unfold increment_u32. destruct (_ <? _)%N; [by intros [= <-]|done]. Qed.

(** One event, and the loop. *)
Lemma tallied_event p window at_time reset e y y' :
  tally_event p window at_time reset e y = Ok y' ->
  (~ in_scope p window at_time reset e /\ y' = y) \/
  (in_scope p window at_time reset e /\ ty_matching y' = (ty_matching y + 1)%N /\
   (covers p at_time e /\ ty_expired y' = ty_expired y /\
      ty_qualifying y' = (ty_qualifying y ++ [e])%list \/
    ~ covers p at_time e /\ is_proposition p = true /\ ty_expired y' = true /\
      ty_qualifying y' = ty_qualifying y)).
Proof.
  unfold tally_event, refused, in_scope, covers, occurrence_time. intros H.
  apply rbind_ok in H as (u & Hu & H). apply map_err_ok, ok_or_ok in Hu. rewrite Hu.
  destruct (in_window window at_time reset u) eqn:Hw; simpl in H;
    [|left; split; [intros (? & ? & ? & ?); simplify_eq; congruence|congruence]].
  destruct (trigger_matches p e) eqn:Ht; simpl in H;
    [|left; split; [intros (? & ? & ? & ?); simplify_eq; congruence|congruence]].
  right. split; [by eauto|]. apply rbind_ok in H as (n & Hn & H).
  apply incremented in Hn as ->.
  destruct (is_proposition p); [|simplify_eq; naive_solver].
  inv_ok H. unrefuse. apply ok_or_ok in Hok. apply unix_ms_millis in Hok0 as ->.
  case_match eqn:Hd; subst y'; simpl; split; try done.
  - right. apply Z.leb_le in Hd. repeat split. intros Hc.
    destruct (Hc eq_refl) as (d & Hd' & ?). simplify_eq. lia.
  - left. apply Z.leb_gt in Hd. eauto.
Qed.

Lemma tallied_events p window at_time reset es y y' :
  fold_try (tally_event p window at_time reset) es y = Ok y' ->
  exists q, ty_qualifying y' = (ty_qualifying y ++ q)%list /\ q `sublist_of` es /\
    (forall e, e ∈ q <-> e ∈ es /\ in_scope p window at_time reset e /\ covers p at_time e) /\
    (ty_expired y' = true <-> ty_expired y = true \/
       exists e, e ∈ es /\ in_scope p window at_time reset e /\ ~ covers p at_time e) /\
    (ty_matching y <= ty_matching y')%N /\
    (ty_expired y' = true -> ty_expired y = true \/ (0 < ty_matching y')%N).
Proof.
  revert y. induction es as [|e es IH]; intros y H; simpl in H.
  { apply Ok_inj in H as <-. exists []. rewrite app_nil_r. set_solver by lia. }
  apply rbind_ok in H as (y1 & He & H).
  destruct (IH _ H) as (q & -> & Hsub & Hq & Hx & Hm & Hp).
  destruct (tallied_event _ _ _ _ _ _ _ He)
    as [[Hs ->]|(Hs & Hm1 & [(Hc & Hx1 & ->)|(Hc & _ & Hx1 & ->)])].
  - exists q. split; [done|]. split; [by constructor|]. set_solver.
  - exists (e :: q). rewrite <- app_assoc. split; [done|]. split; [by constructor|].
    rewrite Hx1 in *. split; [set_solver|]. split; [set_solver|]. split; [lia|].
    intros; right; lia.
  - exists q. split; [done|]. split; [by constructor|]. split; [set_solver|].
    split; [|split; [lia|intros; right; lia]].
    split; [intros _; right; set_solver|intros _; apply Hx; by left].
Qed.

Lemma counts_perm p es es' at_time e :
  es ≡ₚ es' -> counts p es at_time e <-> counts p es' at_time e.
Proof.
  intros Hp. unfold counts, not_reset.
  destruct (pa_trigger p), (pa_reset p); try done. by setoid_rewrite Hp.
Qed.

(** The occurrences an evaluation counts. *)
Lemma counted `{!ChronoOk pd_host pd_chrono} p es at_time c window y :
  tally_history p es at_time = Ok (c, window, y) ->
  NoDup (ev_recurrence_id <$> ty_qualifying y) /\
  (forall e, e ∈ ty_qualifying y <-> e ∈ es /\ counts p es at_time e /\ covers p at_time e) /\
  (ty_expired y = true <-> exists e, e ∈ es /\ counts p es at_time e /\ ~ covers p at_time e) /\
  (ty_expired y = true -> (0 < ty_matching y)%N).
Proof.
  intros (Hc & Hw & reset & Hr & Hy)%tallied.
  apply canonical_history_spec in Hc as (_ & Hn & Hp).
  destruct (tallied_events _ _ _ _ _ _ _ Hy) as (q & Hq & Hsub & Hin & Hx & _ & Hm).
  simpl in Hq, Hx, Hm. rewrite Hq. clear Hq.
  assert (forall e, in_scope p window at_time reset e <-> counts p es at_time e) as Hs.
  { intros e. rewrite (in_scope_counts p c) by done. by apply counts_perm. }
  setoid_rewrite Hs in Hin. setoid_rewrite Hs in Hx. setoid_rewrite Hp in Hin.
  setoid_rewrite Hp in Hx. split; [|naive_solver].
  eapply sublist_NoDup; [|by apply fmap_sublist]. by rewrite Hp.
Qed.

(** The disposition, by the count and by whether support expired. *)
Lemma disposition_counts p y disposition reason detail :
  let n := N.of_nat (length (ty_qualifying y)) in
  let required := ra_required_distinct_occurrences (pa_recurrence p) in
  disposition_of p n y = (disposition, reason, detail) ->
  (0 < required)%N -> (ty_expired y = true -> (0 < ty_matching y)%N) ->
  (disposition = AttentionRequired <-> (required <= n)%N) /\
  (disposition = WaitingForRecurrence <-> (0 < n < required)%N) /\
  (disposition = InputNotCurrent <-> ty_qualifying y = [] /\ ty_expired y = true).
Proof.
  cbn zeta. unfold disposition_of. intros H Hr Hm.
  assert (ty_qualifying y = [] <-> (N.of_nat (length (ty_qualifying y)) = 0)%N) as ->.
  { rewrite <- length_zero_iff_nil. lia. }
  generalize dependent (N.of_nat (length (ty_qualifying y))). intros n H.
  destruct (N.leb_spec (ra_required_distinct_occurrences (pa_recurrence p)) n);
    [|destruct (N.ltb_spec 0 n); [|destruct (ty_expired y); simpl in H;
      [rewrite (proj2 (N.ltb_lt 0 _) (Hm eq_refl)) in H|]]];
    simplify_eq; split_and!; split; intros; try done; lia.
Qed.

Lemma policy_requires p :
  policy_validate p = Ok tt -> (0 < ra_required_distinct_occurrences (pa_recurrence p))%N.
Proof.
  unfold policy_validate. intros H. inv_ok H.
  match goal with X : reject (_ || _) _ = Ok tt |- _ => apply reject_ok, orb_false_iff in X end.
  rewrite !N.eqb_neq in *. lia.
Qed.

(** C6: attention is called for exactly when enough distinct occurrences of the history
    count: in the inclusive window, after the last reset, of a disposition that the trigger
    selects and, for a proposition, before Pulse's deadline; the receipt names exactly
    these.  Fewer wait for recurrence, and expired support alone is reported as such. *)
Theorem attention_is_earned `{!ChronoOk pd_host pd_chrono} p es at_time b :
  evaluate p es at_time = Ok b ->
  exists q, ar_qualifying_event_ids (bu_receipt b) = ev_event_id <$> q /\
    ar_qualifying_recurrence_ids (bu_receipt b) = ev_recurrence_id <$> q /\
    NoDup (ev_recurrence_id <$> q) /\
    (forall e, e ∈ q <-> e ∈ es /\ counts p es at_time e /\ covers p at_time e) /\
    let n := N.of_nat (length q) in
    let required := ra_required_distinct_occurrences (pa_recurrence p) in
    let d := ar_disposition (bu_receipt b) in
    (d = AttentionRequired <-> (required <= n)%N) /\
    (d = WaitingForRecurrence <-> (0 < n < required)%N) /\
    (d = InputNotCurrent <-> q = [] /\
       exists e, e ∈ es /\ counts p es at_time e /\ ~ covers p at_time e).
Proof.
  intros (window & y & d & d' & Hv & Ht & _ & _ & ->)%evaluated.
  destruct (counted _ _ _ _ _ _ Ht) as (Hn & Hq & Hx & Hm). exists (ty_qualifying y).
  assert (0 < ra_required_distinct_occurrences (pa_recurrence p))%N as Hr.
  { by apply policy_requires. }
  unfold draft_receipt. destruct (disposition_of p _ y) as [[disposition reason] detail] eqn:Hd.
  simpl. split; [done|]. split; [done|]. split; [done|]. split; [done|].
  rewrite <- Hx. apply disposition_counts in Hd; [exact Hd|done|done].
Qed.

(** ** The store refines a log *)

(** The successful ingests of a store, oldest first: policy, event and answer. *)
Inductive ingested :
  list (AttentionPolicyV1 * AttentionEventV1 * IngestResultV1) -> AttentionTables -> Prop :=
| ingested_none : ingested [] empty_attention
| ingested_next trace t p r e res t' :
    ingested trace t -> from_verified p r = Ok e -> ingest_verified p r t = Ok (res, t') ->
    ingested (trace ++ [(p, e, res)])%list t'.

(** The log of a policy: the events of its ingests, each recurrence identity once. *)
Definition add_occurrence log e : list AttentionEventV1 :=
  if bool_decide (ev_recurrence_id e ∈ ev_recurrence_id <$> log) then log else (log ++ [e])%list.
Definition log_of p (trace : list (AttentionPolicyV1 * AttentionEventV1 * IngestResultV1))
    : list AttentionEventV1 :=
  foldl (fun log x => if String.eqb (pa_policy_digest x.1.1) (pa_policy_digest p)
                      then add_occurrence log x.1.2 else log) [] trace.

(** The rows of a log, chained from a predecessor. *)
Inductive linked p :
  string -> N -> list AttentionEventV1 -> list AttentionEventRow -> string -> Prop :=
| linked_end head n : linked p head n [] [] head
| linked_row predecessor n e json next log rows head :
    event_to_string e = Ok json -> chain_digest predecessor (ev_event_id e) n = Ok next ->
    linked p next (n + 1) log rows head ->
    linked p predecessor n (e :: log)
      ({| ew_policy_digest := pa_policy_digest p; ew_sequence := n;
          ew_event_id := ev_event_id e; ew_predecessor_digest := predecessor;
          ew_recurrence_id := ev_recurrence_id e; ew_event_json := json |} :: rows) head.

Lemma linked_snoc p predecessor n log rows head e json next :
  linked p predecessor n log rows head -> event_to_string e = Ok json ->
  chain_digest head (ev_event_id e) (n + N.of_nat (length log)) = Ok next ->
  linked p predecessor n (log ++ [e])%list
    (rows ++ [{| ew_policy_digest := pa_policy_digest p;
                 ew_sequence := n + N.of_nat (length log);
                 ew_event_id := ev_event_id e; ew_predecessor_digest := head;
                 ew_recurrence_id := ev_recurrence_id e; ew_event_json := json |}])%list next.
Proof.
  intros H He. induction H as [head n|predecessor n e' json' h log rows head Hj Hc H IH]; simpl.
  - rewrite N.add_0_r. intros Hh. econstructor; [done..|constructor].
  - replace (n + N.of_nat (S (length log)))%N with (n + 1 + N.of_nat (length log))%N by lia.
    intros Hh. econstructor; [done..|by apply IH].
Qed.

Lemma linked_rows p predecessor n log rows head : linked p predecessor n log rows head ->
  ew_recurrence_id <$> rows = ev_recurrence_id <$> log /\
  ew_event_id <$> rows = ev_event_id <$> log /\
  (forall row, row ∈ rows -> (n <= ew_sequence row < n + N.of_nat (length log))%N) /\
  StronglySorted (fun r r' => (ew_sequence r < ew_sequence r')%N) rows.
Proof.
  induction 1 as [|predecessor n e json next log rows head _ _ _ (Hr & Hi & Hs & Hso)]; csimpl.
  { split_and!; try done; [by intros ? ?%elem_of_nil|constructor]. }
  rewrite Hr, Hi. split; [done|]. split; [done|]. split.
  - intros r [->|Hin]%elem_of_cons; simpl; [lia|]. specialize (Hs _ Hin). lia.
  - constructor; [done|]. apply Forall_forall. intros r Hin. specialize (Hs _ Hin).
    simpl. lia.
Qed.

(** The tables hold a log of a policy. *)
Record represents p t log rows head : Prop := {
  rp_linked : linked p genesis_digest 1 log rows head;
  rp_filter : List.filter (row_of_policy (pa_policy_digest p)) (tb_events t) = rows;
  rp_lineage : tb_lineages t !! pa_policy_digest p =
    match log with
    | [] => None
    | _ => Some {| lg_policy_id := pa_policy_id p; lg_event_count := N.of_nat (length log);
                   lg_head_digest := head |}
    end;
  rp_valid : Forall (fun e => attention_event_validate p e = Ok tt) log;
  rp_distinct : NoDup (ev_recurrence_id <$> log)
}.

Lemma represents_empty p : represents p empty_attention [] [] genesis_digest.
Proof. split; [constructor|done|done|constructor|constructor]. Qed.

(** Reading the rows back gives the log. *)
Lemma reads_back `{!PredicateOk PD} p predecessor n log rows head es :
  linked p predecessor n log rows head -> n = (N.of_nat (length es) + 1)%N ->
  Forall (fun e => attention_event_validate p e = Ok tt) log ->
  fold_try (read_row p) rows (es, predecessor) = Ok ((es ++ log)%list, head).
Proof.
  intros H. revert es.
  induction H as [head n|predecessor n e json next log rows head Hj Hc _ IH]; intros es -> Hv;
    simpl; [by rewrite app_nil_r|].
  apply Forall_cons in Hv as [He Hv].
  rewrite N.eqb_refl, String.eqb_refl. simpl. rewrite (event_reads_back _ _ Hj). simpl.
  rewrite He. simpl. rewrite String.eqb_refl. simpl. rewrite Hc. simpl.
  rewrite IH; [by rewrite <- app_assoc| |done]. rewrite length_app. simpl. lia.
Qed.

Lemma strictly_sorted_rows (rows : list AttentionEventRow) :
  StronglySorted (fun r r' => (ew_sequence r < ew_sequence r')%N) rows ->
  StronglySorted sequence_le rows /\
  forall r r', r ∈ rows -> r' ∈ rows -> ew_sequence r = ew_sequence r' -> r = r'.
Proof.
  induction 1 as [|row rows _ [Hs Hu] Hrow].
  { split; [constructor|]. by intros ? ? ?%elem_of_nil. }
  rewrite Forall_forall in Hrow. split.
  - constructor; [done|]. apply Forall_forall. intros r' Hr'. unfold sequence_le.
    specialize (Hrow _ Hr'). lia.
  - intros r1 r2 [->|H1]%elem_of_cons [->|H2]%elem_of_cons Heq; [done| | |by apply Hu].
    + specialize (Hrow _ H2). lia.
    + specialize (Hrow _ H1). lia.
Qed.

Lemma rows_of_represented p t log rows head :
  represents p t log rows head -> rows_of (pa_policy_digest p) t = rows.
Proof.
  intros [Hl Hf _ _ _]. unfold rows_of. rewrite Hf.
  apply linked_rows in Hl as (_ & _ & _ & [Hs Hu]%strictly_sorted_rows).
  apply (StronglySorted_unique_strong sequence_le).
  - intros x1 x2 Hx1 Hx2 H1 H2. rewrite merge_sort_Permutation in Hx1.
    apply Hu; [done..|]. unfold sequence_le in *. lia.
  - apply StronglySorted_merge_sort; intros ? ?; unfold sequence_le; lia.
  - done.
  - apply merge_sort_Permutation.
Qed.

Lemma represented_history `{!PredicateOk PD} p t log rows head :
  represents p t log rows head -> policy_validate p = Ok tt -> history p t = Ok log.
Proof.
  intros Hr Hv. unfold history. rewrite Hv. simpl.
  rewrite (rows_of_represented _ _ _ _ _ Hr). destruct Hr as [Hl _ -> Hval _].
  destruct log as [|e log]; [done|]. simpl. rewrite String.eqb_refl. simpl.
  rewrite (reads_back _ _ _ _ _ _ [] Hl) by done. simpl.
  by rewrite Pos.eqb_refl, String.eqb_refl.
Qed.

(** An ingest of another policy leaves a log alone. *)
Lemma represents_other p t t' log rows head row l :
  represents p t log rows head -> insert_occurrence row l t = Ok t' ->
  ew_policy_digest row <> pa_policy_digest p -> represents p t' log rows head.
Proof.
  intros [Hl Hf Hlin Hv Hn] H Hne. unfold insert_occurrence in H. inv_ok H. subst t'.
  split; simpl; [done| |by rewrite lookup_insert_ne|done|done].
  rewrite List.filter_app. simpl. unfold row_of_policy at 2.
  rewrite (proj2 (String.eqb_neq _ _) Hne). by rewrite app_nil_r.
Qed.

(** The next link and the identity lookup, read from the log. *)
Lemma represented_link p t log rows head : represents p t log rows head ->
  next_link p t = Ok (N.of_nat (length log) + 1, head)%N.
Proof.
  intros [Hl _ Hlin _ _]. unfold next_link. rewrite Hlin. destruct log; simpl.
  - by inversion Hl.
  - by rewrite String.eqb_refl.
Qed.

Lemma represented_lookup p t log rows head e : represents p t log rows head ->
  find_first (fun r => row_of_policy (pa_policy_digest p) r
                       && String.eqb (ew_recurrence_id r) (ev_recurrence_id e)) (tb_events t)
  = find_first (fun r => String.eqb (ew_recurrence_id r) (ev_recurrence_id e)) rows.
Proof.
  intros [_ <- _ _ _]. induction (tb_events t) as [|row l IH]; simpl; [done|].
  destruct (row_of_policy _ row); simpl; [|done]. by rewrite IH.
Qed.

Lemma from_verified_valid p r e : from_verified p r = Ok e ->
  policy_validate p = Ok tt /\ attention_event_validate p e = Ok tt.
Proof. unfold from_verified. intros H. inv_ok H. by subst. Qed.

(** The row that an ingest inserts and the lineage it leaves. *)
Definition row_for p head e json (n : N) : AttentionEventRow :=
  {| ew_policy_digest := pa_policy_digest p; ew_sequence := n; ew_event_id := ev_event_id e;
     ew_predecessor_digest := head; ew_recurrence_id := ev_recurrence_id e;
     ew_event_json := json |}.

Lemma represents_append p t t' log rows head e json next :
  represents p t log rows head -> attention_event_validate p e = Ok tt ->
  ev_recurrence_id e ∉ ev_recurrence_id <$> log -> event_to_string e = Ok json ->
  chain_digest head (ev_event_id e) (N.of_nat (length log) + 1) = Ok next ->
  insert_occurrence (row_for p head e json (N.of_nat (length log) + 1))
    {| lg_policy_id := pa_policy_id p; lg_event_count := N.of_nat (length log) + 1;
       lg_head_digest := next |} t = Ok t' ->
  represents p t' (log ++ [e])%list
    (rows ++ [row_for p head e json (N.of_nat (length log) + 1)])%list next.
Proof.
  intros [Hl Hf Hlin Hv Hn] He Hnew Hj Hc H. unfold insert_occurrence in H. inv_ok H. subst t'.
  rewrite N.add_comm in *. split; simpl.
  - by eapply linked_snoc.
  - rewrite List.filter_app, Hf. simpl. unfold row_of_policy. simpl. by rewrite String.eqb_refl.
  - rewrite lookup_insert_eq. destruct (log ++ [e])%list eqn:Happ; [by destruct log|].
    rewrite <- Happ, length_app. simpl. do 2 f_equal. lia.
  - apply Forall_app. auto.
  - rewrite fmap_app. apply NoDup_app. split; [done|]. split; [|apply NoDup_singleton].
    intros i Hi. simpl. by intros ->%list_elem_of_singleton.
Qed.

(** What one ingest answers and leaves. *)
Lemma ingest_refines p r e t log rows head res t' :
  represents p t log rows head -> from_verified p r = Ok e ->
  ingest_verified p r t = Ok (res, t') ->
  (exists rows' head', represents p t' (add_occurrence log e) rows' head') /\
  ig_history_event_count res = N.of_nat (length (add_occurrence log e)) /\
  ig_disposition res =
    (if bool_decide (ev_recurrence_id e ∈ ev_recurrence_id <$> log)
     then Ingest_DuplicateEvidenceOccurrence else Ingest_Accepted) /\
  ig_event_id res ∈ ev_event_id <$> add_occurrence log e.
Proof.
  intros Hr He. unfold ingest_verified. rewrite He. simpl.
  rewrite (represented_lookup _ _ _ _ _ _ Hr), (represented_link _ _ _ _ _ Hr).
  pose proof Hr as [Hl Hf Hlin Hv Hn]. destruct (linked_rows _ _ _ _ _ _ Hl) as (Hrid & Hid & _).
  unfold add_occurrence. rewrite <- Hrid. intros H. destruct (find_first _ rows) as [row|] eqn:Hrow.
  - apply find_first_Some in Hrow as (Hin & Heq%String.eqb_eq).
    rewrite bool_decide_true by (rewrite <- Heq; by apply list_elem_of_fmap_2).
    rewrite Hlin in H. destruct log as [|e0 log].
    { apply fmap_nil_inv in Hrid. rewrite Hrid in Hin. by apply elem_of_nil in Hin. }
    simpl in H. simplify_eq. simpl ig_history_event_count. split; [by eauto|]. split; [done|].
    split; [done|]. rewrite <- Hid. exact (list_elem_of_fmap_2 ew_event_id _ _ Hin).
  - apply find_first_None in Hrow as Hnone. rewrite Forall_forall in Hnone.
    assert (ev_recurrence_id e ∉ ew_recurrence_id <$> rows) as Hnew.
    { intros (row & Heq & Hin)%list_elem_of_fmap. specialize (Hnone _ Hin). simpl in Hnone.
      rewrite <- Heq, String.eqb_refl in Hnone. done. }
    rewrite bool_decide_false by done. simpl in H. inv_ok H. simplify_eq. simpl.
    rewrite Hrid in Hnew. apply from_verified_valid in He as [_ Hev].
    split; [do 2 eexists; by eapply represents_append|].
    rewrite length_app, fmap_app. simpl. split; [lia|]. split; [done|]. set_solver.
Qed.

Lemma ingest_other p (q : AttentionPolicyV1) r t t' res log rows head :
  represents p t log rows head -> pa_policy_digest q <> pa_policy_digest p ->
  ingest_verified q r t = Ok (res, t') -> represents p t' log rows head.
Proof.
  intros Hr Hne H. unfold ingest_verified in H. apply rbind_ok in H as (e & _ & H).
  destruct (find_first _ _); [inv_ok H; by simplify_eq|]. apply rbind_ok in H as ([n d] & _ & H).
  inv_ok H. simplify_eq. by eapply represents_other.
Qed.

(** An ingest of a verified receipt fails only when a serializer does or the sequence
    leaves the integers of SQLite. *)
Lemma ingest_succeeds p r e t log rows head :
  represents p t log rows head -> from_verified p r = Ok e ->
  is_ok (event_to_string e) = true -> (forall link : HistoryLink, is_ok (to_vec link) = true) ->
  (N.of_nat (length log) < 9223372036854775807)%N -> is_ok (ingest_verified p r t) = true.
Proof.
  intros Hr He (json & Hj)%is_ok_spec Hlink Hlen. unfold ingest_verified. rewrite He. simpl.
  rewrite (represented_lookup _ _ _ _ _ _ Hr), (represented_link _ _ _ _ _ Hr).
  destruct Hr as [Hl Hf Hlin _ _]. apply linked_rows in Hl as (Hrid & _ & Hseq & _).
  destruct (find_first _ rows) as [row|] eqn:Hrow.
  { rewrite Hlin. destruct log; [|done]. apply fmap_nil_inv in Hrid as ->. done. }
  apply find_first_None in Hrow. rewrite Forall_forall in Hrow. simpl. rewrite Hj. simpl.
  unfold chain_digest, predicate_digest.
  match goal with |- context [to_vec ?link] =>
    destruct (proj1 (is_ok_spec _) (Hlink link)) as [c ->] end.
  simpl. unfold insert_occurrence, i64_of. simpl. rewrite (proj2 (N.leb_le _ _)) by lia. simpl.
  destruct (existsb _ (tb_events t)) eqn:Hx; [exfalso|done].
  apply existsb_exists in Hx as (row & Hin%list_elem_of_In & Hc). unfold row_conflicts in Hc.
  simpl in Hc. apply andb_true_iff in Hc as [Hd%String.eqb_eq Hc].
  assert (row ∈ rows) as Hrin.
  { rewrite <- Hf. apply elem_of_filter_bool. unfold row_of_policy. by rewrite Hd, String.eqb_refl. }
  specialize (Hseq _ Hrin). specialize (Hrow _ Hrin).
  apply orb_true_iff in Hc as [Hc%N.eqb_eq|Hc%String.eqb_eq]; [lia|].
  rewrite <- Hc, String.eqb_refl in Hrow. done.
Qed.

(** All ingests under the digest of [p] were for [p]. *)
Definition one_policy p (trace : list (AttentionPolicyV1 * AttentionEventV1 * IngestResultV1))
    : Prop :=
  forall x, x ∈ trace -> pa_policy_digest x.1.1 = pa_policy_digest p -> x.1.1 = p.

Lemma ingested_represents p trace t : ingested trace t -> one_policy p trace ->
  exists rows head, represents p t (log_of p trace) rows head.
Proof.
  induction 1 as [|trace t q r e res t' _ IH He H]; intros Hone.
  { do 2 eexists. apply represents_empty. }
  destruct IH as (rows & head & Hr). { intros x Hx. apply Hone. set_solver. }
  unfold log_of. rewrite foldl_app. simpl. fold (log_of p trace).
  destruct (String.eqb_spec (pa_policy_digest q) (pa_policy_digest p)) as [Heq|Hne].
  - assert (q = p) as -> by (apply (Hone (q, e, res)); [set_solver|done]).
    by eapply ingest_refines.
  - do 2 eexists. by eapply ingest_other.
Qed.

Lemma ingested_prefix before p e res after t : ingested (before ++ (p, e, res) :: after) t ->
  exists t0 r t1, ingested before t0 /\ from_verified p r = Ok e /\
    ingest_verified p r t0 = Ok (res, t1).
Proof.
  remember (before ++ (p, e, res) :: after)%list as trace eqn:Htrace. intros H.
  revert after Htrace. induction H as [|trace t q r e' res' t' Hi IH He H]; intros after Htrace.
  { by destruct before. }
  destruct after as [|x after _] using rev_ind.
  - apply app_inj_tail in Htrace as [-> [= -> -> ->]]. eauto 10.
  - rewrite app_comm_cons, app_assoc in Htrace. apply app_inj_tail in Htrace as [-> _]. eauto.
Qed.

(** C2: the store refines an append-only log of distinct occurrences.  Whatever was
    ingested, under the policy's digest only for the policy itself, the history that is
    read back is the log; each answer says whether the occurrence was new, where it is and
    how many there are; and a verified receipt is never refused for the rows already
    there. *)
Theorem store_refines_log `{!PredicateOk PD} p trace t :
  ingested trace t -> one_policy p trace -> policy_validate p = Ok tt ->
  history p t = Ok (log_of p trace) /\
  NoDup (ev_recurrence_id <$> log_of p trace) /\
  (forall before e res after, trace = (before ++ (p, e, res) :: after)%list ->
     ig_history_event_count res
       = N.of_nat (length (log_of p (before ++ [(p, e, res)]))) /\
     ig_disposition res =
       (if bool_decide (ev_recurrence_id e ∈ ev_recurrence_id <$> log_of p before)
        then Ingest_DuplicateEvidenceOccurrence else Ingest_Accepted) /\
     ig_event_id res ∈ ev_event_id <$> log_of p (before ++ [(p, e, res)])) /\
  (forall r e, from_verified p r = Ok e -> is_ok (event_to_string e) = true ->
     (forall link : HistoryLink, is_ok (to_vec link) = true) ->
     (N.of_nat (length (log_of p trace)) < 9223372036854775807)%N ->
     is_ok (ingest_verified p r t) = true).
Proof.
  intros H Hone Hv. destruct (ingested_represents _ _ _ H Hone) as (rows & head & Hr).
  split; [by eapply represented_history|]. split; [by destruct Hr|].
  split; [|intros r e; by apply (ingest_succeeds p r e t _ rows head)].
  intros before e res after ->.
  destruct (ingested_prefix _ _ _ _ _ _ H) as (t0 & r & t1 & H0 & He & Hi).
  destruct (ingested_represents p before t0 H0) as (rows0 & head0 & Hr0).
  { intros x Hx. apply Hone. set_solver. }
  unfold log_of at 1 4. rewrite !foldl_app. simpl. rewrite String.eqb_refl.
  by eapply ingest_refines.
Qed.

(** ** Tamper evidence *)

(** The digests that chain a list of event identities. *)
Fixpoint chain (predecessor : string) (n : N) (ids : list string) : result string string :=
  match ids with
  | [] => Ok predecessor
  | id :: ids => let? next := chain_digest predecessor id n in chain next (n + 1) ids
  end.

Lemma chain_snoc predecessor n ids id :
  chain predecessor n (ids ++ [id])
  = let? head := chain predecessor n ids in chain_digest head id (n + N.of_nat (length ids)).
Proof.
  revert predecessor n. induction ids as [|id' ids IH]; intros predecessor n; simpl.
  - rewrite N.add_0_r. by destruct (chain_digest predecessor id n).
  - destruct (chain_digest predecessor id' n); simpl; [|done]. rewrite IH.
    by replace (n + N.of_nat (S (length ids)))%N with (n + 1 + N.of_nat (length ids))%N by lia.
Qed.

(** The two kinds of text a history hashes: the canonical text of an event without its
    identity, and that of a link of the chain. *)
Definition event_text (e : AttentionEventV1) (text : string) : Prop :=
  exists kvs, to_value e = Ok (Object kvs) /\
    jcs_value (Object (List.filter (fun kv => negb (String.eqb kv.1 "event_id")) kvs)) = Ok text.
Definition link_text (predecessor id : string) (n : N) : result string string :=
  to_vec {| hl_schema := "nightshift.project-predicate-attention-history-link/v1";
            hl_predecessor := predecessor; hl_event_id := id; hl_sequence := n |}.

(** The texts hashed for the links of the chain over [ids], and for a whole history. *)
Definition link_hashed (predecessor : string) (n : N) (ids : list string) (text : string) : Prop :=
  exists before id after head, ids = (before ++ id :: after)%list /\
    chain predecessor n before = Ok head /\
    link_text head id (n + N.of_nat (length before)) = Ok text.
Definition hashed (es : list AttentionEventV1) (text : string) : Prop :=
  (exists e, e ∈ es /\ event_text e text) \/
  link_hashed genesis_digest 1 (ev_event_id <$> es) text.

(** Two different texts, one of each set, with one SHA-256 digest. *)
Definition collide (P Q : string -> Prop) : Prop :=
  exists a b, P a /\ Q b /\ a <> b /\ sha256_hex a = sha256_hex b.

Lemma collide_mono (P P' Q Q' : string -> Prop) :
  collide P Q -> (forall a, P a -> P' a) -> (forall a, Q a -> Q' a) -> collide P' Q'.
Proof. intros (a & b & ? & ? & ? & ?) HP HQ. exists a, b. auto. Qed.

Lemma link_hashed_prefix predecessor n ids more text :
  link_hashed predecessor n ids text -> link_hashed predecessor n (ids ++ more) text.
Proof.
  intros (before & id & after & head & -> & H). exists before, id, (after ++ more)%list, head.
  by rewrite <- app_assoc.
Qed.

Lemma chain_digest_text d id n head :
  chain_digest d id n = Ok head ->
  exists text, link_text d id n = Ok text /\ head = "sha256:" +:+ sha256_hex text.
Proof. unfold chain_digest, predicate_digest. intros (c & H & E)%rbind_ok. simplify_eq. by exists c. Qed.

Lemma link_text_inj `{!PredicateOk PD} d1 d2 id1 id2 n text :
  link_text d1 id1 n = Ok text -> link_text d2 id2 n = Ok text -> d1 = d2 /\ id1 = id2.
Proof. intros H1%from_slice_to_vec H2%from_slice_to_vec. rewrite H1 in H2. by simplify_eq. Qed.

(** Two chains of one length with one head are over the same identities, or two of their
    links collide. *)
Lemma chain_inj `{!PredicateOk PD} predecessor n ids1 ids2 head :
  length ids1 = length ids2 -> chain predecessor n ids1 = Ok head ->
  chain predecessor n ids2 = Ok head ->
  ids1 = ids2 \/ collide (link_hashed predecessor n ids1) (link_hashed predecessor n ids2).
Proof.
  revert ids2 head. induction ids1 as [|id1 ids1 IH] using rev_ind; intros ids2 head Hlen.
  { destruct ids2; [by left|done]. }
  destruct ids2 as [|id2 ids2 _] using rev_ind; [by rewrite length_app in Hlen; simpl in Hlen; lia|].
  rewrite !length_app in Hlen. simpl in Hlen. rewrite !chain_snoc.
  assert (length ids1 = length ids2) as Hl by lia.
  intros (h1 & H1 & E1)%rbind_ok (h2 & H2 & E2)%rbind_ok.
  destruct (chain_digest_text _ _ _ _ E1) as (c1 & L1 & ->).
  destruct (chain_digest_text _ _ _ _ E2) as (c2 & L2 & E). simplify_eq.
  destruct (decide (c1 = c2)) as [<-|Hne].
  - rewrite <- Hl in L2. destruct (link_text_inj _ _ _ _ _ _ L1 L2) as [-> ->].
    destruct (IH _ _ Hl H1 H2) as [->|Hc]; [by left|right].
    eapply collide_mono; [exact Hc| |]; intros a; apply link_hashed_prefix.
  - right. exists c1, c2. split_and!; [| |done|done].
    + by exists ids1, id1, [], h1.
    + by exists ids2, id2, [], h2.
Qed.

(** A valid event's identity is the digest of its text. *)
Lemma validated_text p e : attention_event_validate p e = Ok tt ->
  exists text, event_text e text /\ ev_event_id e = "sha256:" +:+ sha256_hex text.
Proof.
  unfold attention_event_validate. intros H. inv_ok H.
  apply reject_ok, negb_false_iff, String.eqb_eq in H. rewrite H. clear H.
  match goal with X : digest_without_field _ _ = Ok _ |- _ =>
    unfold digest_without_field in X; inv_ok X; subst end.
  res_simpl. unfold as_object in *. repeat case_match; try done. simplify_eq.
  eexists. split; [eexists; split; [eassumption|eassumption]|done].
Qed.

Lemma events_inj `{!PredicateOk PD} p es1 es2 :
  Forall (fun e => attention_event_validate p e = Ok tt) es1 ->
  Forall (fun e => attention_event_validate p e = Ok tt) es2 ->
  ev_event_id <$> es1 = ev_event_id <$> es2 ->
  es1 = es2 \/ collide (fun a => exists e, e ∈ es1 /\ event_text e a)
                 (fun a => exists e, e ∈ es2 /\ event_text e a).
Proof.
  intros H1. revert es2. induction H1 as [|e1 es1 V1 _ IH]; intros es2 H2 E.
  { destruct es2; [by left|done]. }
  destruct H2 as [|e2 es2 V2 H2]; [done|]. injection E as E Es.
  destruct (validated_text _ _ V1) as (c1 & (k1 & T1 & J1) & I1).
  destruct (validated_text _ _ V2) as (c2 & (k2 & T2 & J2) & I2).
  destruct (decide (c1 = c2)) as [<-|Hne].
  - destruct content_reads_back as [read Hread].
    pose proof (Hread _ _ _ T1 J1) as R1. rewrite (Hread _ _ _ T2 J2) in R1.
    assert (e1 = e2) as -> by (destruct e1, e2; simpl in *; by simplify_eq).
    destruct (IH es2 H2 Es) as [->|Hc]; [by left|right].
    eapply collide_mono; [exact Hc| |]; intros a (e & ? & ?); exists e; set_solver.
  - right. exists c1, c2. rewrite I1, I2 in E. simplify_eq.
    split_and!; [exists e1|exists e2|done|done]; (split; [set_solver|by eexists]).
Qed.

Lemma read_chain p rows es predecessor es' head :
  fold_try (read_row p) rows (es, predecessor) = Ok (es', head) ->
  exists log, es' = (es ++ log)%list /\
    Forall (fun e => attention_event_validate p e = Ok tt) log /\
    chain predecessor (N.of_nat (length es) + 1) (ev_event_id <$> log) = Ok head.
Proof.
  revert es predecessor. induction rows as [|row rows IH]; intros es predecessor H; simpl in H.
  { simplify_eq. exists []. rewrite app_nil_r. by repeat constructor. }
  apply rbind_ok in H as ([es1 next] & Hrow & H). destruct (IH _ _ H) as (log & -> & Hv & Hc).
  inv_ok Hrow. simplify_eq.
  apply reject_ok, orb_false_iff in Hok as [Hs%negb_false_iff%N.eqb_eq _].
  apply reject_ok, negb_false_iff, String.eqb_eq in Hok2. rewrite Hs, <- Hok2 in Hok3.
  exists (x :: log). rewrite <- app_assoc. split; [done|]. split; [by constructor|].
  csimpl. rewrite Hok3. simpl.
  rewrite length_app in Hc. simpl in Hc.
  by replace (N.of_nat (length es) + 1 + 1)%N with (N.of_nat (length es + 1) + 1)%N by lia.
Qed.

Lemma history_chain p t es : history p t = Ok es ->
  match tb_lineages t !! pa_policy_digest p with
  | None => es = []
  | Some l => N.of_nat (length es) = lg_event_count l /\
      Forall (fun e => attention_event_validate p e = Ok tt) es /\
      chain genesis_digest 1 (ev_event_id <$> es) = Ok (lg_head_digest l)
  end.
Proof.
  unfold history. intros (_ & H)%rseq_ok. destruct (_ !! _) as [l|]; [|by simplify_eq].
  apply rseq_ok in H as [_ H]. apply rbind_ok in H as ([es' head] & Hf & H). inv_ok H. subst es'.
  apply reject_ok, orb_false_iff in Hok as [Hn%negb_false_iff%N.eqb_eq Hh%negb_false_iff%String.eqb_eq].
  subst head. split; [done|]. by destruct (read_chain _ _ _ _ _ _ Hf) as (log & -> & ? & ?).
Qed.

(** C32: the lineage row commits to the history.  Two stores whose rows for a policy are the
    same, however their event rows were changed, are read back with the same events, whole
    and in the same order, or one of them is refused; a different history could only be read
    if some text hashed for the one (an event without its identity, or a link of its chain)
    and some different text hashed for the other had one SHA-256 digest. *)
Theorem history_is_tamper_evident `{!PredicateOk PD} p t1 t2 es1 es2 :
  tb_lineages t1 !! pa_policy_digest p = tb_lineages t2 !! pa_policy_digest p ->
  history p t1 = Ok es1 -> history p t2 = Ok es2 ->
  es1 = es2 \/ collide (hashed es1) (hashed es2).
Proof.
  intros Hl H1%history_chain H2%history_chain. rewrite Hl in H1.
  destruct (tb_lineages t2 !! _) as [l|]; [|subst; by left].
  destruct H1 as (Hn1 & V1 & Hc1), H2 as (Hn2 & V2 & Hc2).
  destruct (chain_inj genesis_digest 1 (ev_event_id <$> es1) (ev_event_id <$> es2)
              (lg_head_digest l)) as [Hids|Hc]; [rewrite !length_fmap; lia|done|done| |].
  - destruct (events_inj p es1 es2 V1 V2 Hids) as [->|Hc]; [by left|right].
    eapply collide_mono; [exact Hc| |]; by left.
  - right. eapply collide_mono; [exact Hc| |]; by right.
Qed.
End facts.
