(* ===== verification/Continuity.v ===== *)
(** * Continuity authority (crates/nightshiftd/src/continuity_authority.rs)

    Standing signs that one substrate incarnation succeeds another and commits that
    authority into one acquisition before the provider is invoked.  Nightshift only
    verifies: the closed schemas and content identities of the proof, the signatures of
    the configured key, and that the authority, the commitment and the acquisition bind
    one another.  Reading the key file is I/O; its contents are the argument of
    [from_public_key_hex].  The wall-clock times of the carriers are never compared. *)
From S2P Require Import Prelude Text External Signing.
Local Open Scope string_scope.

(** ** Data *)

Inductive ContinuityRelationV1 := Relation_SubstrateIncarnation.

#[global] Instance ContinuityRelationV1_eq_dec : EqDecision ContinuityRelationV1.
Proof. solve_decision. Defined.

Record ContinuityEdgeV1 := {
  ce_subject_ref : string;
  ce_relation : ContinuityRelationV1;
  ce_predecessor_ref : string;
  ce_successor_ref : string
}.

#[global] Instance ContinuityEdgeV1_eq_dec : EqDecision ContinuityEdgeV1.
Proof. solve_decision. Defined.

Inductive AuthorityNonclaimV1 :=
| AuthorityNonclaim_TransitionOccurred
| AuthorityNonclaim_EvidenceTruth
| AuthorityNonclaim_CurrentAttribution
| AuthorityNonclaim_RoutineReliance.

#[global] Instance AuthorityNonclaimV1_eq_dec : EqDecision AuthorityNonclaimV1.
Proof. solve_decision. Defined.

Inductive CommitmentNonclaimV1 :=
| CommitmentNonclaim_ProviderInvoked
| CommitmentNonclaim_ObservationProduced
| CommitmentNonclaim_EvidenceTruth
| CommitmentNonclaim_CurrentAttribution.

#[global] Instance CommitmentNonclaimV1_eq_dec : EqDecision CommitmentNonclaimV1.
Proof. solve_decision. Defined.

Record ContinuityAuthorityV1 := {
  ca_schema : string;
  ca_authority_occurrence_ref : uuid;
  ca_issuance_request_id : uuid;
  ca_standing_instance : string;
  ca_edge : ContinuityEdgeV1;
  ca_nq_audience : string;
  ca_issuer_principal : string;
  ca_standing_basis_digest : string;
  ca_replay_identity : string;
  ca_issued_at : instant;
  ca_nonclaims : list AuthorityNonclaimV1
}.

#[global] Instance ContinuityAuthorityV1_eq_dec : EqDecision ContinuityAuthorityV1.
Proof. solve_decision. Defined.

Record SignedContinuityAuthorityV1 := {
  sa_schema : string;
  sa_key_id : string;
  sa_payload : ContinuityAuthorityV1;
  sa_payload_digest : string;
  sa_signature : string
}.

#[global] Instance SignedContinuityAuthorityV1_eq_dec : EqDecision SignedContinuityAuthorityV1.
Proof. solve_decision. Defined.

Record ContinuityAcquisitionCommitmentV1 := {
  cc_schema : string;
  cc_commitment_occurrence_ref : uuid;
  cc_request_id : uuid;
  cc_authority_occurrence_ref : uuid;
  cc_authority_payload_digest : string;
  cc_acquisition_id : string;
  cc_acquisition_basis_digest : string;
  cc_nq_audience : string;
  cc_standing_instance : string;
  cc_committed_at : instant;
  cc_replay_identity : string;
  cc_nonclaims : list CommitmentNonclaimV1
}.

#[global] Instance ContinuityAcquisitionCommitmentV1_eq_dec : EqDecision ContinuityAcquisitionCommitmentV1.
Proof. solve_decision. Defined.

Record SignedContinuityAcquisitionCommitmentV1 := {
  sc_schema : string;
  sc_key_id : string;
  sc_payload : ContinuityAcquisitionCommitmentV1;
  sc_payload_digest : string;
  sc_signature : string
}.

#[global] Instance SignedContinuityAcquisitionCommitmentV1_eq_dec : EqDecision SignedContinuityAcquisitionCommitmentV1.
Proof. solve_decision. Defined.

Record ContinuityAcquisitionCarrierV1 := {
  cr_schema : string;
  cr_authority : SignedContinuityAuthorityV1;
  cr_commitment : SignedContinuityAcquisitionCommitmentV1
}.

#[global] Instance ContinuityAcquisitionCarrierV1_eq_dec : EqDecision ContinuityAcquisitionCarrierV1.
Proof. solve_decision. Defined.

Record ContinuityAcquisitionBasisV1 := {
  cb_schema : string;
  cb_acquisition_id : string;
  cb_nq_audience : string;
  cb_watcher_instance_id : string;
  cb_watcher_config_digest : string;
  cb_authority_occurrence_ref : string;
  cb_authority_digest : string;
  cb_edge : ContinuityEdgeV1
}.

#[global] Instance ContinuityAcquisitionBasisV1_eq_dec : EqDecision ContinuityAcquisitionBasisV1.
Proof. solve_decision. Defined.

Record ProviderAcquisitionIntentV1 := {
  pi_schema : string;
  pi_intent_id : string;
  pi_basis : ContinuityAcquisitionBasisV1;
  pi_basis_digest : string;
  pi_carrier : ContinuityAcquisitionCarrierV1;
  pi_intake_id : string;
  pi_attempt_id : string;
  pi_run_id : string;
  pi_request : value;
  pi_provider : value;
  pi_origin_carrier : string;
  pi_checkpoint_contract_digest : string
}.

#[global] Instance ProviderAcquisitionIntentV1_eq_dec : EqDecision ProviderAcquisitionIntentV1.
Proof. solve_decision. Defined.

Inductive ContinuityAcquisitionPhaseV1 := Phase_ProviderInvocationStarted | Phase_ProviderIntakeCompleted.

#[global] Instance ContinuityAcquisitionPhaseV1_eq_dec : EqDecision ContinuityAcquisitionPhaseV1.
Proof. solve_decision. Defined.

Record ContinuityAcquisitionProofV1 := {
  cp_intent : ProviderAcquisitionIntentV1;
  cp_intent_digest : string;
  cp_phases : list ContinuityAcquisitionPhaseV1
}.

#[global] Instance ContinuityAcquisitionProofV1_eq_dec : EqDecision ContinuityAcquisitionProofV1.
Proof. solve_decision. Defined.

Inductive ContinuityApplicabilityStatusV1 := Continuity_Applicable | Continuity_Refused | Continuity_Unresolved.

#[global] Instance ContinuityApplicabilityStatusV1_eq_dec : EqDecision ContinuityApplicabilityStatusV1.
Proof. solve_decision. Defined.

Inductive ContinuityApplicabilityReasonV1 :=
| Reason_ExactAuthenticatedPrerequisite
| Reason_SubjectMismatch
| Reason_IntakeMismatch
| Reason_EdgeMismatch
| Reason_AcquisitionBindingMismatch
| Reason_ObservationSubstrateAbsent
| Reason_ObservationSubstrateMismatch.

#[global] Instance ContinuityApplicabilityReasonV1_eq_dec : EqDecision ContinuityApplicabilityReasonV1.
Proof. solve_decision. Defined.

Record ContinuityApplicabilityV1 := {
  ap_schema : string;
  ap_applicability_id : string;
  ap_status : ContinuityApplicabilityStatusV1;
  ap_reason : ContinuityApplicabilityReasonV1;
  ap_diagnostic_artifact_id : string;
  ap_subject_ref : string;
  ap_relation : ContinuityRelationV1;
  ap_predecessor_ref : string;
  ap_successor_ref : string;
  ap_authority_occurrence_ref : uuid;
  ap_commitment_occurrence_ref : uuid;
  ap_acquisition_id : string;
  ap_provider_intake_ref : string
}.

#[global] Instance ContinuityApplicabilityV1_eq_dec : EqDecision ContinuityApplicabilityV1.
Proof. solve_decision. Defined.

Record ContinuityAuthorityVerifierV1 := {
  cv_expected_key_id : string;
  cv_expected_nq_audience : string;
  cv_key : VerifyingKey
}.

Definition AUTHORITY_SCHEMA_V1 : string := "standing.continuity_authority.v1".
Definition SIGNED_AUTHORITY_SCHEMA_V1 : string := "standing.signed_continuity_authority.v1".
Definition COMMITMENT_SCHEMA_V1 : string := "standing.continuity_acquisition_commitment.v1".
Definition SIGNED_COMMITMENT_SCHEMA_V1 : string :=
  "standing.signed_continuity_acquisition_commitment.v1".
Definition CARRIER_SCHEMA_V1 : string := "standing.continuity_acquisition_bundle.v1".
Definition BASIS_SCHEMA_V1 : string := "nq.continuity_acquisition_basis.v1".
Definition INTENT_SCHEMA_V1 : string := "nq.provider_acquisition_intent.v1".
Definition APPLICABILITY_SCHEMA_V1 : string := "nightshift.continuity_applicability.v1".

(** The serializers the module calls. *)
Class ContinuityDocuments : Type := {
  cd_authority :: Serde ContinuityAuthorityV1;
  cd_commitment :: Serde ContinuityAcquisitionCommitmentV1;
  cd_basis :: Serde ContinuityAcquisitionBasisV1;
  cd_intent :: Serde ProviderAcquisitionIntentV1;
  cd_applicability :: Serde ContinuityApplicabilityV1
}.

(** ** Operations *)

Section continuity.
Context {HO : Host} {ED : Ed25519} {CD : ContinuityDocuments}.

Definition continuity_token (name value : string) : result string unit :=
  reject (trim_is_empty value || has_whitespace value) (name +:+ " must be a non-empty token").

Definition require_hex_digest (name value : string) : result string unit :=
  reject (negb (lower_hex_of_length 64 value))
    (name +:+ " must be 64 lowercase hexadecimal characters").

Definition require_prefixed_digest (name value : string) : result string unit :=
  let? hex := ok_or (strip_prefix value "sha256:")
    (name +:+ " must use sha256:<64 lowercase hex>") in
  require_hex_digest name hex.

Definition require_signature_hex (name value : string) : result string unit :=
  reject (negb (lower_hex_of_length 128 value))
    (name +:+ " must be 128 lowercase hexadecimal characters").

Definition require_tokens (fields : list (string * string)) : result string unit :=
  for_each (fun '(name, value) => continuity_token name value) fields.

Definition edge_validate (e : ContinuityEdgeV1) : result string unit :=
  continuity_token "continuity subject_ref" (ce_subject_ref e) ;?
  continuity_token "continuity predecessor_ref" (ce_predecessor_ref e) ;?
  continuity_token "continuity successor_ref" (ce_successor_ref e) ;?
  reject (String.eqb (ce_predecessor_ref e) (ce_successor_ref e))
    "continuity predecessor and successor must differ".

Definition authority_nonclaims : list AuthorityNonclaimV1 :=
  [AuthorityNonclaim_TransitionOccurred; AuthorityNonclaim_EvidenceTruth;
   AuthorityNonclaim_CurrentAttribution; AuthorityNonclaim_RoutineReliance].

Definition commitment_nonclaims : list CommitmentNonclaimV1 :=
  [CommitmentNonclaim_ProviderInvoked; CommitmentNonclaim_ObservationProduced;
   CommitmentNonclaim_EvidenceTruth; CommitmentNonclaim_CurrentAttribution].

(** [format!("{:x}", Sha256::digest(jcs(value)?))]. *)
Definition hex_digest {T} {ST : Serde T} (t : T) : result string string :=
  let? canonical := jcs t in Ok (sha256_hex canonical).

(** *** The parts of [ContinuityAcquisitionProofV1::validate_shape] *)

(** The intent: its schemas, phases, tokens and digests. *)
Definition check_proof_intent (p : ContinuityAcquisitionProofV1) : result string unit :=
  let intent := cp_intent p in
  let basis := pi_basis intent in
  reject (negb (String.eqb (pi_schema intent) INTENT_SCHEMA_V1)
          || negb (String.eqb (cb_schema basis) BASIS_SCHEMA_V1)
          || negb (String.eqb (cr_schema (pi_carrier intent)) CARRIER_SCHEMA_V1))
    "unsupported NQ continuity acquisition schema" ;?
  reject (negb (bool_decide (cp_phases p = [Phase_ProviderInvocationStarted;
                                            Phase_ProviderIntakeCompleted])))
    "NQ continuity acquisition lacks the exact completed phase chain" ;?
  require_tokens
    [("intent_id", pi_intent_id intent); ("acquisition_id", cb_acquisition_id basis);
     ("watcher_instance_id", cb_watcher_instance_id basis); ("intake_id", pi_intake_id intent);
     ("attempt_id", pi_attempt_id intent); ("run_id", pi_run_id intent);
     ("origin_carrier", pi_origin_carrier intent)] ;?
  require_prefixed_digest "intent_digest" (cp_intent_digest p) ;?
  require_prefixed_digest "intent_id" (pi_intent_id intent) ;?
  require_hex_digest "basis_digest" (pi_basis_digest intent) ;?
  require_hex_digest "watcher_config_digest" (cb_watcher_config_digest basis) ;?
  require_hex_digest "authority_digest" (cb_authority_digest basis) ;?
  require_prefixed_digest "checkpoint_contract_digest" (pi_checkpoint_contract_digest intent) ;?
  edge_validate (cb_edge basis) ;?
  let? intent_hex := hex_digest intent in
  reject (negb (String.eqb (cp_intent_digest p) ("sha256:" +:+ intent_hex)))
    "NQ continuity intent digest mismatch" ;?
  let? intent_id := content_object_id intent "intent_id" in
  reject (negb (String.eqb (pi_intent_id intent) intent_id))
    "NQ continuity intent identity mismatch" ;?
  let? basis_hex := hex_digest basis in
  reject (negb (String.eqb (pi_basis_digest intent) basis_hex))
    "NQ continuity basis digest mismatch".

(** The frozen helper request against the acquisition basis. *)
Definition check_intent_request (intent : ProviderAcquisitionIntentV1) : result string unit :=
  let basis := pi_basis intent in
  let? request_subject :=
    ok_or (value_pointer "/binding/subject" (pi_request intent) ≫= as_str)
      "NQ continuity intent request lacks exact subject binding" in
  let? request_instance :=
    ok_or (value_pointer "/instance_id" (pi_request intent) ≫= as_str)
      "NQ continuity intent request lacks exact instance binding" in
  reject (negb (is_object (pi_provider intent))
          || negb (String.eqb request_subject (ce_subject_ref (cb_edge basis)))
          || negb (String.eqb request_instance (cb_watcher_instance_id basis))
          || negb (String.eqb (pi_intake_id intent) (cb_acquisition_id basis)))
    "NQ continuity intent substitutes its exact acquisition basis".

(** The payload of an authority. *)
Definition check_authority_payload (payload : ContinuityAuthorityV1) : result string unit :=
  edge_validate (ca_edge payload) ;?
  require_hex_digest "authority standing_instance" (ca_standing_instance payload) ;?
  require_hex_digest "authority standing_basis_digest" (ca_standing_basis_digest payload) ;?
  continuity_token "authority nq_audience" (ca_nq_audience payload) ;?
  continuity_token "authority issuer_principal" (ca_issuer_principal payload) ;?
  continuity_token "authority replay_identity" (ca_replay_identity payload) ;?
  reject (negb (bool_decide (ca_nonclaims payload = authority_nonclaims)))
    "Standing authority nonclaims differ from the closed v1 set".

(** The payload of a commitment. *)
Definition check_commitment_payload (payload : ContinuityAcquisitionCommitmentV1)
    : result string unit :=
  require_hex_digest "commitment authority_payload_digest"
    (cc_authority_payload_digest payload) ;?
  require_hex_digest "commitment acquisition_basis_digest"
    (cc_acquisition_basis_digest payload) ;?
  require_hex_digest "commitment standing_instance" (cc_standing_instance payload) ;?
  continuity_token "commitment acquisition_id" (cc_acquisition_id payload) ;?
  continuity_token "commitment nq_audience" (cc_nq_audience payload) ;?
  continuity_token "commitment replay_identity" (cc_replay_identity payload) ;?
  reject (negb (bool_decide (cc_nonclaims payload = commitment_nonclaims)))
    "Standing commitment nonclaims differ from the closed v1 set".

(** The commitment names the authority ... *)
Definition commits_authority (carrier : ContinuityAcquisitionCarrierV1) : bool :=
  let authority := sa_payload (cr_authority carrier) in
  let commitment := sc_payload (cr_commitment carrier) in
  String.eqb (cc_authority_occurrence_ref commitment) (ca_authority_occurrence_ref authority)
  && String.eqb (cc_authority_payload_digest commitment)
       (sa_payload_digest (cr_authority carrier))
  && String.eqb (cc_nq_audience commitment) (ca_nq_audience authority)
  && String.eqb (cc_standing_instance commitment) (ca_standing_instance authority).

(** ... and the acquisition basis, by its identifier and the hex digest [basis_digest] of
    its canonical bytes; the basis names the authority back. *)
Definition commitment_binds (carrier : ContinuityAcquisitionCarrierV1)
    (basis : ContinuityAcquisitionBasisV1) (basis_digest : string) : bool :=
  let signed := cr_authority carrier in
  let commitment := sc_payload (cr_commitment carrier) in
  commits_authority carrier
  && String.eqb (cc_acquisition_id commitment) (cb_acquisition_id basis)
  && String.eqb (cc_acquisition_basis_digest commitment) basis_digest
  && String.eqb (cb_authority_occurrence_ref basis)
       (ca_authority_occurrence_ref (sa_payload signed))
  && String.eqb (cb_authority_digest basis) (sa_payload_digest signed)
  && bool_decide (cb_edge basis = ca_edge (sa_payload signed))
  && String.eqb (cb_nq_audience basis) (ca_nq_audience (sa_payload signed)).

Definition check_carrier (intent : ProviderAcquisitionIntentV1) : result string unit :=
  let authority := cr_authority (pi_carrier intent) in
  let commitment := cr_commitment (pi_carrier intent) in
  reject (negb (String.eqb (sa_schema authority) SIGNED_AUTHORITY_SCHEMA_V1)
          || negb (String.eqb (ca_schema (sa_payload authority)) AUTHORITY_SCHEMA_V1)
          || negb (String.eqb (sc_schema commitment) SIGNED_COMMITMENT_SCHEMA_V1)
          || negb (String.eqb (cc_schema (sc_payload commitment)) COMMITMENT_SCHEMA_V1))
    "unsupported Standing continuity envelope schema" ;?
  continuity_token "authority key_id" (sa_key_id authority) ;?
  continuity_token "commitment key_id" (sc_key_id commitment) ;?
  require_hex_digest "authority payload_digest" (sa_payload_digest authority) ;?
  require_hex_digest "commitment payload_digest" (sc_payload_digest commitment) ;?
  require_signature_hex "authority signature" (sa_signature authority) ;?
  require_signature_hex "commitment signature" (sc_signature commitment) ;?
  let? authority_hex := hex_digest (sa_payload authority) in
  let? mismatch :=
    if negb (String.eqb (sa_payload_digest authority) authority_hex) then Ok true
    else let? commitment_hex := hex_digest (sc_payload commitment) in
         Ok (negb (String.eqb (sc_payload_digest commitment) commitment_hex)) in
  reject mismatch "Standing continuity payload digest mismatch" ;?
  check_authority_payload (sa_payload authority) ;?
  check_commitment_payload (sc_payload commitment) ;?
  reject (negb (String.eqb (sa_key_id authority) (sc_key_id commitment))
          || negb (commitment_binds (pi_carrier intent) (pi_basis intent)
                     (pi_basis_digest intent)))
    "Standing commitment does not bind the exact continuity authority".

Definition continuity_validate_shape (p : ContinuityAcquisitionProofV1) : result string unit :=
  check_proof_intent p ;?
  check_intent_request (cp_intent p) ;?
  check_carrier (cp_intent p).

(** *** The verdict *)

Definition applicability_validate (a : ContinuityApplicabilityV1) : result string unit :=
  reject (negb (String.eqb (ap_schema a) APPLICABILITY_SCHEMA_V1))
    "unsupported continuity applicability schema" ;?
  require_prefixed_digest "applicability_id" (ap_applicability_id a) ;?
  require_prefixed_digest "diagnostic_artifact_id" (ap_diagnostic_artifact_id a) ;?
  continuity_token "continuity subject_ref" (ap_subject_ref a) ;?
  continuity_token "continuity predecessor_ref" (ap_predecessor_ref a) ;?
  continuity_token "continuity successor_ref" (ap_successor_ref a) ;?
  continuity_token "continuity acquisition_id" (ap_acquisition_id a) ;?
  continuity_token "continuity provider_intake_ref" (ap_provider_intake_ref a) ;?
  let? identity := content_object_id a "applicability_id" in
  reject (negb (String.eqb (ap_applicability_id a) identity))
    "continuity applicability identity mismatch".

(** The verdict before its identity is set, and [ContinuityApplicabilityV1::new]. *)
Definition applicability_of (p : ContinuityAcquisitionProofV1)
    (diagnostic_artifact_id provider_intake_ref : string)
    (status : ContinuityApplicabilityStatusV1) (reason : ContinuityApplicabilityReasonV1)
    (identity : string) : ContinuityApplicabilityV1 :=
  let carrier := pi_carrier (cp_intent p) in
  let authority := sa_payload (cr_authority carrier) in
  {| ap_schema := APPLICABILITY_SCHEMA_V1; ap_applicability_id := identity;
     ap_status := status; ap_reason := reason;
     ap_diagnostic_artifact_id := diagnostic_artifact_id;
     ap_subject_ref := ce_subject_ref (ca_edge authority);
     ap_relation := ce_relation (ca_edge authority);
     ap_predecessor_ref := ce_predecessor_ref (ca_edge authority);
     ap_successor_ref := ce_successor_ref (ca_edge authority);
     ap_authority_occurrence_ref := ca_authority_occurrence_ref authority;
     ap_commitment_occurrence_ref :=
       cc_commitment_occurrence_ref (sc_payload (cr_commitment carrier));
     ap_acquisition_id := cb_acquisition_id (pi_basis (cp_intent p));
     ap_provider_intake_ref := provider_intake_ref |}.

Definition applicability_new (p : ContinuityAcquisitionProofV1)
    (diagnostic_artifact_id provider_intake_ref : string)
    (status : ContinuityApplicabilityStatusV1) (reason : ContinuityApplicabilityReasonV1)
    : result string ContinuityApplicabilityV1 :=
  let build := applicability_of p diagnostic_artifact_id provider_intake_ref status reason in
  let? identity := content_object_id (build "") "applicability_id" in
  applicability_validate (build identity) ;?
  Ok (build identity).

(** *** The verifier *)

Definition from_public_key_hex (expected_key_id expected_nq_audience public_key_hex : string)
    : result string ContinuityAuthorityVerifierV1 :=
  continuity_token "Standing continuity key id" expected_key_id ;?
  continuity_token "Standing continuity NQ audience" expected_nq_audience ;?
  let? bytes := ok_or (hex_decode (str_trim public_key_hex))
    "Standing continuity public key is not hexadecimal" in
  reject (negb (strlen bytes =? 32)%N) "Standing continuity public key is not 32 bytes" ;?
  reject (negb (key_valid bytes)) "Standing continuity public key is invalid" ;?
  Ok {| cv_expected_key_id := expected_key_id;
        cv_expected_nq_audience := expected_nq_audience; cv_key := bytes |}.

Definition verify_signed_payload {T} {ST : Serde T} (v : ContinuityAuthorityVerifierV1)
    (schema key_id : string) (payload : T) (payload_digest signature_hex : string)
    : result string unit :=
  reject (negb (String.eqb key_id (cv_expected_key_id v)))
    "Standing continuity signing key id mismatch" ;?
  require_hex_digest "Standing continuity payload_digest" payload_digest ;?
  let? canonical := jcs payload in
  reject (negb (String.eqb payload_digest (sha256_hex canonical)))
    "Standing continuity payload digest mismatch" ;?
  let? signature := ok_or (hex_decode signature_hex)
    "Standing continuity signature is not hexadecimal" in
  reject (negb (strlen signature =? 64)%N)
    "Standing continuity signature length is invalid" ;?
  reject (negb (ed25519_verify (cv_key v) (schema +:+ NUL +:+ canonical) signature))
    "Standing continuity Ed25519 verification failed".

Definition verify_authority (v : ContinuityAuthorityVerifierV1)
    (envelope : SignedContinuityAuthorityV1) : result string unit :=
  reject (negb (String.eqb (sa_schema envelope) SIGNED_AUTHORITY_SCHEMA_V1)
          || negb (String.eqb (sa_key_id envelope) (cv_expected_key_id v))
          || negb (String.eqb (ca_schema (sa_payload envelope)) AUTHORITY_SCHEMA_V1))
    "unsupported Standing continuity authority envelope" ;?
  check_authority_payload (sa_payload envelope) ;?
  verify_signed_payload v (sa_schema envelope) (sa_key_id envelope) (sa_payload envelope)
    (sa_payload_digest envelope) (sa_signature envelope).

Definition verify_commitment (v : ContinuityAuthorityVerifierV1)
    (envelope : SignedContinuityAcquisitionCommitmentV1) : result string unit :=
  reject (negb (String.eqb (sc_schema envelope) SIGNED_COMMITMENT_SCHEMA_V1)
          || negb (String.eqb (sc_key_id envelope) (cv_expected_key_id v))
          || negb (String.eqb (cc_schema (sc_payload envelope)) COMMITMENT_SCHEMA_V1))
    "unsupported Standing continuity commitment envelope" ;?
  check_commitment_payload (sc_payload envelope) ;?
  verify_signed_payload v (sc_schema envelope) (sc_key_id envelope) (sc_payload envelope)
    (sc_payload_digest envelope) (sc_signature envelope).

Definition verify_carrier (v : ContinuityAuthorityVerifierV1)
    (carrier : ContinuityAcquisitionCarrierV1) : result string unit :=
  verify_authority v (cr_authority carrier) ;?
  verify_commitment v (cr_commitment carrier).

Definition audience_expected (v : ContinuityAuthorityVerifierV1)
    (carrier : ContinuityAcquisitionCarrierV1) : bool :=
  String.eqb (ca_nq_audience (sa_payload (cr_authority carrier))) (cv_expected_nq_audience v).

Definition verify_embedded_carrier (v : ContinuityAuthorityVerifierV1)
    (carrier : ContinuityAcquisitionCarrierV1) (basis : ContinuityAcquisitionBasisV1)
    : result string unit :=
  edge_validate (cb_edge basis) ;?
  verify_carrier v carrier ;?
  let? bound :=
    if commits_authority carrier && audience_expected v carrier
       && String.eqb (cc_acquisition_id (sc_payload (cr_commitment carrier)))
            (cb_acquisition_id basis)
    then let? basis_hex := hex_digest basis in Ok (commitment_binds carrier basis basis_hex)
    else Ok false in
  reject (negb bound)
    "Standing carrier does not bind the exact substrate-origin acquisition basis".

(** [verify_proof] repeats the checks of the intent and the request between the shape
    and the signatures. *)
Definition verify_proof (v : ContinuityAuthorityVerifierV1) (p : ContinuityAcquisitionProofV1)
    : result string unit :=
  let intent := cp_intent p in
  continuity_validate_shape p ;?
  check_proof_intent p ;?
  check_intent_request intent ;?
  verify_carrier v (pi_carrier intent) ;?
  reject (negb (commitment_binds (pi_carrier intent) (pi_basis intent)
                  (pi_basis_digest intent) && audience_expected v (pi_carrier intent)))
    "Standing commitment does not bind the exact continuity authority".

(** The verdict of [continuity_evaluate] on a verified proof. *)
Definition verdict (p : ContinuityAcquisitionProofV1)
    (diagnostic_subject_ref diagnostic_provider_intake_ref : string)
    (predecessor observation_substrate : option string)
    : ContinuityApplicabilityStatusV1 * ContinuityApplicabilityReasonV1 :=
  let intent := cp_intent p in
  let authority := sa_payload (cr_authority (pi_carrier intent)) in
  let commitment := sc_payload (cr_commitment (pi_carrier intent)) in
  if negb (String.eqb (ce_subject_ref (ca_edge authority)) diagnostic_subject_ref)
  then (Continuity_Refused, Reason_SubjectMismatch)
  else if negb (String.eqb (pi_intake_id intent) diagnostic_provider_intake_ref)
  then (Continuity_Refused, Reason_IntakeMismatch)
  else if negb (String.eqb (cc_acquisition_id commitment)
                  (cb_acquisition_id (pi_basis intent)))
          || negb (String.eqb (cc_acquisition_basis_digest commitment)
                     (pi_basis_digest intent))
  then (Continuity_Refused, Reason_AcquisitionBindingMismatch)
  else
    match predecessor, observation_substrate with
    | Some predecessor_ref, Some observation_substrate_ref =>
        if negb (String.eqb predecessor_ref (ce_predecessor_ref (ca_edge authority)))
        then (Continuity_Refused, Reason_EdgeMismatch)
        else if negb (String.eqb observation_substrate_ref
                        (ce_successor_ref (ca_edge authority)))
        then (Continuity_Refused, Reason_ObservationSubstrateMismatch)
        else (Continuity_Applicable, Reason_ExactAuthenticatedPrerequisite)
    | _, _ => (Continuity_Unresolved, Reason_ObservationSubstrateAbsent)
    end.

Definition continuity_evaluate (v : ContinuityAuthorityVerifierV1) (p : ContinuityAcquisitionProofV1)
    (diagnostic_artifact_id diagnostic_subject_ref diagnostic_provider_intake_ref : string)
    (predecessor observation_substrate : option string)
    : result string ContinuityApplicabilityV1 :=
  verify_proof v p ;?
  let '(status, reason) := verdict p diagnostic_subject_ref diagnostic_provider_intake_ref
                             predecessor observation_substrate in
  applicability_new p diagnostic_artifact_id diagnostic_provider_intake_ref status reason.
End continuity.
