(* ===== verification/SubstrateOrigin.v ===== *)
(** * Substrate origin (crates/nightshiftd/src/substrate_origin.rs)

    A pinned attester signs, for one exact acquisition, the substrate coordinate the
    acquisition ran on.  [continuity_evaluate] verifies the proof and says whether the coordinate is
    the permitted bootstrap, the same as the predecessor's, or reached by a transition that
    Standing authorised.  Reading the key file is I/O; its contents are the argument of
    [origin_from_public_key_hex]. *)
From S2P Require Import Prelude Text External Signing Continuity.
Local Open Scope string_scope.

(** ** Data *)

Inductive SubstrateCoordinateKindV1 := Coordinate_AttesterKey | Coordinate_LinodeInstance.

#[global] Instance SubstrateCoordinateKindV1_eq_dec : EqDecision SubstrateCoordinateKindV1.
Proof. solve_decision. Defined.

Inductive SubstrateOriginEvidenceMethodV1 := Method_Ed25519AcquisitionChallenge | Method_LinodeInstanceMetadataV1.

#[global] Instance SubstrateOriginEvidenceMethodV1_eq_dec : EqDecision SubstrateOriginEvidenceMethodV1.
Proof. solve_decision. Defined.

Record SubstrateCoordinateV1 := {
  co_schema : string;
  co_kind : SubstrateCoordinateKindV1;
  co_namespace : string;
  co_attester_key_id : option string;
  co_attester_public_key_sha256 : option string;
  co_linode_instance_id_sha256 : option string;
  co_evidence_method : SubstrateOriginEvidenceMethodV1;
  co_coordinate_ref : string
}.

#[global] Instance SubstrateCoordinateV1_eq_dec : EqDecision SubstrateCoordinateV1.
Proof. solve_decision. Defined.

Record LinodeInstanceMetadataEvidenceV1 := {
  le_schema : string;
  le_profile_id : string;
  le_endpoint : string;
  le_instance_id_sha256 : string;
  le_host_uuid_sha256 : option string;
  le_canonical_response_sha256 : string
}.

#[global] Instance LinodeInstanceMetadataEvidenceV1_eq_dec : EqDecision LinodeInstanceMetadataEvidenceV1.
Proof. solve_decision. Defined.

Record SubstrateOriginAcquisitionBasisV1 := {
  ob_schema : string;
  ob_acquisition_id : string;
  ob_watcher_instance_id : string;
  ob_watcher_config_digest : string;
  ob_subject_ref : string;
  ob_expected_coordinate : SubstrateCoordinateV1;
  ob_continuity : option ContinuityAcquisitionBasisV1
}.

#[global] Instance SubstrateOriginAcquisitionBasisV1_eq_dec : EqDecision SubstrateOriginAcquisitionBasisV1.
Proof. solve_decision. Defined.

Record SubstrateOriginAttestationV1 := {
  oa_schema : string;
  oa_attestation_occurrence_ref : string;
  oa_issuer_id : string;
  oa_key_id : string;
  oa_acquisition_id : string;
  oa_acquisition_basis_digest : string;
  oa_coordinate : SubstrateCoordinateV1;
  oa_linode_metadata : option LinodeInstanceMetadataEvidenceV1;
  oa_attested_at : string;
  oa_replay_identity : string;
  oa_nonclaims : list string
}.

#[global] Instance SubstrateOriginAttestationV1_eq_dec : EqDecision SubstrateOriginAttestationV1.
Proof. solve_decision. Defined.

Record SignedSubstrateOriginAttestationV1 := {
  st_schema : string;
  st_payload : SubstrateOriginAttestationV1;
  st_payload_digest : string;
  st_signature : string
}.

#[global] Instance SignedSubstrateOriginAttestationV1_eq_dec : EqDecision SignedSubstrateOriginAttestationV1.
Proof. solve_decision. Defined.

Record SubstrateOriginAcquisitionIntentV1 := {
  oi_schema : string;
  oi_intent_id : string;
  oi_basis : SubstrateOriginAcquisitionBasisV1;
  oi_basis_digest : string;
  oi_attestation : SignedSubstrateOriginAttestationV1;
  oi_continuity_carrier : option ContinuityAcquisitionCarrierV1;
  oi_intake_id : string;
  oi_attempt_id : string;
  oi_run_id : string;
  oi_request : value;
  oi_provider : value;
  oi_origin_carrier : string;
  oi_checkpoint_contract_digest : string
}.

#[global] Instance SubstrateOriginAcquisitionIntentV1_eq_dec : EqDecision SubstrateOriginAcquisitionIntentV1.
Proof. solve_decision. Defined.

Inductive SubstrateOriginAcquisitionPhaseV1 := OriginPhase_ProviderInvocationStarted | OriginPhase_ProviderIntakeCompleted.

#[global] Instance SubstrateOriginAcquisitionPhaseV1_eq_dec : EqDecision SubstrateOriginAcquisitionPhaseV1.
Proof. solve_decision. Defined.

Record SubstrateOriginAcquisitionProofV1 := {
  op_intent : SubstrateOriginAcquisitionIntentV1;
  op_intent_digest : string;
  op_phases : list SubstrateOriginAcquisitionPhaseV1
}.

#[global] Instance SubstrateOriginAcquisitionProofV1_eq_dec : EqDecision SubstrateOriginAcquisitionProofV1.
Proof. solve_decision. Defined.

Record SubstrateOriginRequirementV1 := {
  or_schema : string;
  or_profile_id : string;
  or_subject_ref : string;
  or_bootstrap_coordinate_ref : option string;
  or_expected_issuer_id : string;
  or_expected_key_id : string;
  or_expected_namespace : string;
  or_expected_linode_instance_id_sha256 : option string
}.

#[global] Instance SubstrateOriginRequirementV1_eq_dec : EqDecision SubstrateOriginRequirementV1.
Proof. solve_decision. Defined.

Inductive SubstrateOriginApplicabilityStatusV1 := Origin_Applicable | Origin_Refused | Origin_Unresolved.

#[global] Instance SubstrateOriginApplicabilityStatusV1_eq_dec : EqDecision SubstrateOriginApplicabilityStatusV1.
Proof. solve_decision. Defined.

Inductive SubstrateOriginApplicabilityReasonV1 :=
| OriginReason_BootstrapOriginEstablished
| OriginReason_StableExactOrigin
| OriginReason_AuthorizedExactTransition
| OriginReason_SubjectMismatch
| OriginReason_IntakeMismatch
| OriginReason_PredecessorHistoryAbsent
| OriginReason_PredecessorHistoryMismatch
| OriginReason_OriginMismatch
| OriginReason_ContinuityAuthorityMissing
| OriginReason_ContinuityAuthorityUnexpected
| OriginReason_ContinuityEdgeMismatch
| OriginReason_OriginProofInvalid.

#[global] Instance SubstrateOriginApplicabilityReasonV1_eq_dec : EqDecision SubstrateOriginApplicabilityReasonV1.
Proof. solve_decision. Defined.

Record SubstrateOriginApplicabilityV1 := {
  oo_schema : string;
  oo_applicability_id : string;
  oo_status : SubstrateOriginApplicabilityStatusV1;
  oo_reason : SubstrateOriginApplicabilityReasonV1;
  oo_profile_id : string;
  oo_diagnostic_artifact_id : string;
  oo_subject_ref : string;
  oo_predecessor_applicability_id : option string;
  oo_predecessor_coordinate_ref : option string;
  oo_observed_coordinate_ref : string;
  oo_attestation_occurrence_ref : string;
  oo_acquisition_id : string;
  oo_provider_intake_ref : string;
  oo_authority_occurrence_ref : option string
}.

#[global] Instance SubstrateOriginApplicabilityV1_eq_dec : EqDecision SubstrateOriginApplicabilityV1.
Proof. solve_decision. Defined.

Record SubstrateOriginVerifierV1 := {
  ov_requirement : SubstrateOriginRequirementV1;
  ov_key : VerifyingKey
}.

Definition COORDINATE_SCHEMA_V1 : string := "nq.substrate_coordinate.v1".
Definition ORIGIN_BASIS_SCHEMA_V1 : string := "nq.substrate_origin_acquisition_basis.v1".
Definition ATTESTATION_SCHEMA_V1 : string := "nq.substrate_origin_attestation.v1".
Definition SIGNED_ATTESTATION_SCHEMA_V1 : string := "nq.signed_substrate_origin_attestation.v1".
Definition ORIGIN_INTENT_SCHEMA_V1 : string := "nq.substrate_origin_acquisition_intent.v1".
Definition REQUIREMENT_SCHEMA_V1 : string := "nightshift.substrate_origin_requirement.v1".
Definition ORIGIN_APPLICABILITY_SCHEMA_V1 : string := "nightshift.substrate_origin_applicability.v1".
Definition LINODE_INSTANCE_METADATA_PROFILE_V1 : string := "linode_instance_metadata_v1".
Definition LINODE_METADATA_NAMESPACE_V1 : string := "akamai_linode".
Definition LINODE_METADATA_INSTANCE_ENDPOINT_V1 : string :=
  "http://169.254.169.254/v1/instance".
Definition LINODE_METADATA_EVIDENCE_SCHEMA_V1 : string :=
  "nq.linode_instance_metadata_evidence.v1".

Definition ATTESTATION_NONCLAIMS : list string :=
  ["origin attestation proves possession of the pinned attester key for this exact acquisition basis";
   "origin attestation does not establish bare-metal physical identity";
   "origin attestation does not establish subject continuity or predecessor history";
   "origin attestation does not establish evidence truth, currentness, standing, or authority";
   "attester key custody and runtime co-location remain deployment qualifications"].

Definition LINODE_METADATA_NONCLAIMS : list string :=
  ["origin attestation proves the pinned helper reported an exact response under the closed Linode metadata profile for this acquisition basis";
   "Linode metadata is instance-local but is not a provider-signed portable identity document";
   "the qualified coordinate identifies one logical Linode instance, not physical host placement";
   "host UUID is supplemental evidence and is not part of the qualified coordinate";
   "origin attestation does not establish installation identity, evidence truth, currentness, standing, or authority";
   "helper isolation, metadata routing, and runtime co-location remain deployment qualifications"].

(** The serializers the module calls, besides those of the continuity carrier. *)
Class OriginDocuments : Type := {
  od_continuity :: ContinuityDocuments;
  od_coordinate :: Serde SubstrateCoordinateV1;
  od_basis :: Serde SubstrateOriginAcquisitionBasisV1;
  od_attestation :: Serde SubstrateOriginAttestationV1;
  od_intent :: Serde SubstrateOriginAcquisitionIntentV1;
  od_applicability :: Serde SubstrateOriginApplicabilityV1
}.

(** ** Operations *)

Section origin.
Context {HO : Host} {ED : Ed25519} {OD : OriginDocuments}.

Definition origin_token (name value : string) : result string unit :=
  reject (str_is_empty value || (512 <? strlen value)%N || has_whitespace value)
    (name +:+ " must be a bounded non-whitespace token").

Definition origin_hex_digest (name value : string) : result string unit :=
  reject (negb (lower_hex_of_length 64 value)) (name +:+ " must be lowercase SHA-256 hex").

Definition origin_digest (name value : string) : result string unit :=
  let? hex := ok_or (strip_prefix value "sha256:")
    (name +:+ " must use sha256:<64 lowercase hex>") in
  origin_hex_digest name hex.

Definition origin_tokens (fields : list (string * string)) : result string unit :=
  for_each (fun '(name, value) => origin_token name value) fields.

(** *** Coordinates *)

Definition coordinate_prefix (kind : SubstrateCoordinateKindV1) : string :=
  match kind with
  | Coordinate_AttesterKey => "substrate:attester-key:v1"
  | Coordinate_LinodeInstance => "substrate:linode-instance:v1"
  end.

Definition computed_ref (c : SubstrateCoordinateV1) : result string string :=
  let? v := to_value c in
  match v with
  | Object kvs =>
      let? canonical := jcs_value (Object (object_remove "coordinate_ref" kvs)) in
      Ok (coordinate_prefix (co_kind c) +:+ ":" +:+ sha256_hex canonical)
  | _ => Err "substrate coordinate is not an object"
  end.

Definition coordinate_validate (c : SubstrateCoordinateV1) : result string unit :=
  reject (negb (String.eqb (co_schema c) COORDINATE_SCHEMA_V1))
    "unsupported substrate coordinate schema" ;?
  origin_token "coordinate namespace" (co_namespace c) ;?
  match co_kind c with
  | Coordinate_AttesterKey =>
      reject (negb (bool_decide (co_evidence_method c = Method_Ed25519AcquisitionChallenge))
              || bool_decide (is_Some (co_linode_instance_id_sha256 c)))
        "substrate coordinate profile mismatch" ;?
      let? key_id := ok_or (co_attester_key_id c) "attester coordinate fields are absent" in
      origin_token "attester key id" key_id ;?
      let? key_sha256 := ok_or (co_attester_public_key_sha256 c)
        "attester coordinate fields are absent" in
      origin_digest "attester public key digest" key_sha256
  | Coordinate_LinodeInstance =>
      reject (negb (String.eqb (co_namespace c) LINODE_METADATA_NAMESPACE_V1)
              || negb (bool_decide (co_evidence_method c = Method_LinodeInstanceMetadataV1))
              || bool_decide (is_Some (co_attester_key_id c))
              || bool_decide (is_Some (co_attester_public_key_sha256 c)))
        "substrate coordinate profile mismatch" ;?
      let? instance := ok_or (co_linode_instance_id_sha256 c)
        "Linode instance coordinate is absent" in
      origin_digest "Linode instance id digest" instance
  end ;?
  let? computed := computed_ref c in
  reject (negb (String.eqb (co_coordinate_ref c) computed))
    "substrate coordinate identity mismatch".

(** [coordinate_ref = computed_ref()?] and the final validation of the constructors. *)
Definition coordinate_seal (build : string -> SubstrateCoordinateV1)
    : result string SubstrateCoordinateV1 :=
  let? computed := computed_ref (build "") in
  coordinate_validate (build computed) ;?
  Ok (build computed).

Definition for_key (namespace key_id : string) (key : VerifyingKey)
    : result string SubstrateCoordinateV1 :=
  origin_token "coordinate namespace" namespace ;?
  origin_token "attester key id" key_id ;?
  coordinate_seal (fun coordinate_ref =>
    {| co_schema := COORDINATE_SCHEMA_V1; co_kind := Coordinate_AttesterKey;
       co_namespace := namespace; co_attester_key_id := Some key_id;
       co_attester_public_key_sha256 := Some ("sha256:" +:+ sha256_hex key);
       co_linode_instance_id_sha256 := None;
       co_evidence_method := Method_Ed25519AcquisitionChallenge;
       co_coordinate_ref := coordinate_ref |}).

Definition for_linode_instance_digest (instance_id_sha256 : string)
    : result string SubstrateCoordinateV1 :=
  origin_digest "Linode instance id digest" instance_id_sha256 ;?
  coordinate_seal (fun coordinate_ref =>
    {| co_schema := COORDINATE_SCHEMA_V1; co_kind := Coordinate_LinodeInstance;
       co_namespace := LINODE_METADATA_NAMESPACE_V1; co_attester_key_id := None;
       co_attester_public_key_sha256 := None;
       co_linode_instance_id_sha256 := Some instance_id_sha256;
       co_evidence_method := Method_LinodeInstanceMetadataV1;
       co_coordinate_ref := coordinate_ref |}).

Definition linode_validate (e : LinodeInstanceMetadataEvidenceV1) : result string unit :=
  reject (negb (String.eqb (le_schema e) LINODE_METADATA_EVIDENCE_SCHEMA_V1)
          || negb (String.eqb (le_profile_id e) LINODE_INSTANCE_METADATA_PROFILE_V1)
          || negb (String.eqb (le_endpoint e) LINODE_METADATA_INSTANCE_ENDPOINT_V1))
    "unsupported Linode metadata profile evidence" ;?
  origin_digest "Linode instance id digest" (le_instance_id_sha256 e) ;?
  match le_host_uuid_sha256 e with
  | Some value => origin_digest "Linode host UUID digest" value
  | None => Ok tt
  end ;?
  origin_digest "Linode canonical metadata response digest" (le_canonical_response_sha256 e).

Definition linode_coordinate (e : LinodeInstanceMetadataEvidenceV1)
    : result string SubstrateCoordinateV1 :=
  linode_validate e ;?
  for_linode_instance_digest (le_instance_id_sha256 e).

(** *** The acquisition basis and the proof *)

Definition basis_validate (b : SubstrateOriginAcquisitionBasisV1) : result string unit :=
  reject (negb (String.eqb (ob_schema b) ORIGIN_BASIS_SCHEMA_V1))
    "unsupported substrate-origin basis schema" ;?
  origin_token "origin acquisition id" (ob_acquisition_id b) ;?
  origin_token "origin watcher instance" (ob_watcher_instance_id b) ;?
  origin_token "origin subject" (ob_subject_ref b) ;?
  origin_hex_digest "origin watcher config digest" (ob_watcher_config_digest b) ;?
  coordinate_validate (ob_expected_coordinate b) ;?
  match ob_continuity b with
  | Some continuity =>
      reject (negb (String.eqb (cb_acquisition_id continuity) (ob_acquisition_id b))
              || negb (String.eqb (cb_watcher_instance_id continuity)
                         (ob_watcher_instance_id b))
              || negb (String.eqb (cb_watcher_config_digest continuity)
                         (ob_watcher_config_digest b))
              || negb (String.eqb (ce_subject_ref (cb_edge continuity)) (ob_subject_ref b))
              || negb (String.eqb (ce_successor_ref (cb_edge continuity))
                         (co_coordinate_ref (ob_expected_coordinate b))))
        "continuity basis substitutes substrate-origin basis"
  | None => Ok tt
  end.

Definition basis_digest (b : SubstrateOriginAcquisitionBasisV1) : result string string :=
  basis_validate b ;?
  hex_digest b.

(** The continuity part of a proof: a basis and a carrier that name each other, or neither. *)
Definition continuity_paired (intent : SubstrateOriginAcquisitionIntentV1) : bool :=
  match ob_continuity (oi_basis intent), oi_continuity_carrier intent with
  | None, None => true
  | Some basis, Some carrier =>
      String.eqb (ca_authority_occurrence_ref (sa_payload (cr_authority carrier)))
        (cb_authority_occurrence_ref basis)
      && String.eqb (sa_payload_digest (cr_authority carrier)) (cb_authority_digest basis)
      && String.eqb (cc_acquisition_id (sc_payload (cr_commitment carrier)))
           (oi_intake_id intent)
  | _, _ => false
  end.

Definition str_at (path : string) (v : value) : option string :=
  value_pointer path v ≫= as_str.

Definition origin_validate_shape (p : SubstrateOriginAcquisitionProofV1) : result string unit :=
  let intent := op_intent p in
  let basis := oi_basis intent in
  let attested := st_payload (oi_attestation intent) in
  reject (negb (String.eqb (oi_schema intent) ORIGIN_INTENT_SCHEMA_V1)
          || negb (String.eqb (ob_schema basis) ORIGIN_BASIS_SCHEMA_V1)
          || negb (bool_decide (op_phases p = [OriginPhase_ProviderInvocationStarted;
                                               OriginPhase_ProviderIntakeCompleted])))
    "unsupported or incomplete NQ substrate-origin acquisition" ;?
  basis_validate basis ;?
  origin_tokens
    [("origin intent id", oi_intent_id intent); ("origin intake id", oi_intake_id intent);
     ("origin attempt id", oi_attempt_id intent); ("origin run id", oi_run_id intent);
     ("origin carrier", oi_origin_carrier intent)] ;?
  origin_digest "origin intent id" (oi_intent_id intent) ;?
  origin_digest "origin intent digest" (op_intent_digest p) ;?
  origin_hex_digest "origin basis digest" (oi_basis_digest intent) ;?
  origin_digest "origin checkpoint contract digest" (oi_checkpoint_contract_digest intent) ;?
  let? digest := basis_digest basis in
  reject (negb (String.eqb (oi_basis_digest intent) digest)
          || negb (String.eqb (oi_intake_id intent) (ob_acquisition_id basis))
          || negb (String.eqb (oa_acquisition_id attested) (oi_intake_id intent))
          || negb (String.eqb (oa_acquisition_basis_digest attested) (oi_basis_digest intent))
          || negb (bool_decide (str_at "/instance_id" (oi_request intent)
                                = Some (ob_watcher_instance_id basis)))
          || negb (bool_decide (str_at "/binding/subject" (oi_request intent)
                                = Some (ob_subject_ref basis)))
          || negb (is_object (oi_provider intent)))
    "NQ origin intent substitutes its exact acquisition basis" ;?
  reject (negb (continuity_paired intent)) "NQ origin intent continuity carrier mismatch" ;?
  let? v := to_value intent in
  match v with
  | Object kvs =>
      let? identity := jcs_value (Object (object_remove "intent_id" kvs)) in
      let? mismatch :=
        if negb (String.eqb (oi_intent_id intent) ("sha256:" +:+ sha256_hex identity))
        then Ok true
        else let? intent_hex := hex_digest intent in
             Ok (negb (String.eqb (op_intent_digest p) ("sha256:" +:+ intent_hex))) in
      reject mismatch "NQ substrate-origin intent identity mismatch"
  | _ => Err "origin intent is not an object"
  end.

(** *** The requirement *)

Definition origin_requirement_validate (r : SubstrateOriginRequirementV1) : result string unit :=
  reject (negb (String.eqb (or_schema r) REQUIREMENT_SCHEMA_V1))
    "unsupported substrate-origin requirement schema" ;?
  origin_tokens
    [("origin profile", or_profile_id r); ("origin subject", or_subject_ref r);
     ("origin issuer", or_expected_issuer_id r); ("origin key id", or_expected_key_id r);
     ("origin namespace", or_expected_namespace r)] ;?
  let? prefix :=
    match or_expected_linode_instance_id_sha256 r with
    | Some value =>
        reject (negb (String.eqb (or_profile_id r) LINODE_INSTANCE_METADATA_PROFILE_V1)
                || negb (String.eqb (or_expected_namespace r) LINODE_METADATA_NAMESPACE_V1))
          "Linode metadata origin requirement profile mismatch" ;?
        origin_digest "expected Linode instance id digest" value ;?
        Ok "substrate:linode-instance:v1:"
    | None =>
        reject (String.eqb (or_profile_id r) LINODE_INSTANCE_METADATA_PROFILE_V1)
          "Linode metadata origin requirement lacks an exact instance id digest" ;?
        Ok "substrate:attester-key:v1:"
    end in
  reject (match or_bootstrap_coordinate_ref r with
          | Some value => negb (starts_with value prefix) || has_whitespace value
          | None => false
          end)
    "bootstrap coordinate uses an unsupported coordinate kind".

(** *** The verdict *)

Definition origin_applicability_validate (a : SubstrateOriginApplicabilityV1)
    : result string unit :=
  reject (negb (String.eqb (oo_schema a) ORIGIN_APPLICABILITY_SCHEMA_V1))
    "unsupported substrate-origin applicability schema" ;?
  origin_digest "origin applicability id" (oo_applicability_id a) ;?
  origin_digest "origin diagnostic artifact" (oo_diagnostic_artifact_id a) ;?
  origin_tokens
    [("origin profile", oo_profile_id a); ("origin subject", oo_subject_ref a);
     ("observed coordinate", oo_observed_coordinate_ref a);
     ("origin attestation occurrence", oo_attestation_occurrence_ref a);
     ("origin acquisition", oo_acquisition_id a);
     ("origin provider intake", oo_provider_intake_ref a)] ;?
  match oo_predecessor_applicability_id a with
  | Some value => origin_digest "predecessor applicability" value
  | None => Ok tt
  end ;?
  reject (negb (Bool.eqb (bool_decide (is_Some (oo_predecessor_applicability_id a)))
                  (bool_decide (is_Some (oo_predecessor_coordinate_ref a)))))
    "origin predecessor identity and coordinate must be paired" ;?
  let? identity := content_object_id a "applicability_id" in
  reject (negb (String.eqb (oo_applicability_id a) identity))
    "substrate-origin applicability identity mismatch".

Definition origin_applicability_of (r : SubstrateOriginRequirementV1)
    (p : SubstrateOriginAcquisitionProofV1)
    (diagnostic_artifact_id provider_intake_ref : string)
    (predecessor : option SubstrateOriginApplicabilityV1)
    (status : SubstrateOriginApplicabilityStatusV1)
    (reason : SubstrateOriginApplicabilityReasonV1) (identity : string)
    : SubstrateOriginApplicabilityV1 :=
  let intent := op_intent p in
  {| oo_schema := ORIGIN_APPLICABILITY_SCHEMA_V1; oo_applicability_id := identity;
     oo_status := status; oo_reason := reason; oo_profile_id := or_profile_id r;
     oo_diagnostic_artifact_id := diagnostic_artifact_id;
     oo_subject_ref := or_subject_ref r;
     oo_predecessor_applicability_id := oo_applicability_id <$> predecessor;
     oo_predecessor_coordinate_ref := oo_observed_coordinate_ref <$> predecessor;
     oo_observed_coordinate_ref :=
       co_coordinate_ref (ob_expected_coordinate (oi_basis intent));
     oo_attestation_occurrence_ref :=
       oa_attestation_occurrence_ref (st_payload (oi_attestation intent));
     oo_acquisition_id := ob_acquisition_id (oi_basis intent);
     oo_provider_intake_ref := provider_intake_ref;
     oo_authority_occurrence_ref :=
       (fun carrier => ca_authority_occurrence_ref (sa_payload (cr_authority carrier)))
         <$> oi_continuity_carrier intent |}.

Definition origin_applicability_new (r : SubstrateOriginRequirementV1)
    (p : SubstrateOriginAcquisitionProofV1)
    (diagnostic_artifact_id provider_intake_ref : string)
    (predecessor : option SubstrateOriginApplicabilityV1)
    (status : SubstrateOriginApplicabilityStatusV1)
    (reason : SubstrateOriginApplicabilityReasonV1)
    : result string SubstrateOriginApplicabilityV1 :=
  let build := origin_applicability_of r p diagnostic_artifact_id provider_intake_ref
                 predecessor status reason in
  let? identity := content_object_id (build "") "applicability_id" in
  origin_applicability_validate (build identity) ;?
  Ok (build identity).

(** *** The verifier *)

Definition expected_coordinate (v : SubstrateOriginVerifierV1)
    : result string SubstrateCoordinateV1 :=
  let r := ov_requirement v in
  match or_expected_linode_instance_id_sha256 r with
  | Some instance_id => for_linode_instance_digest instance_id
  | None => for_key (or_expected_namespace r) (or_expected_key_id r) (ov_key v)
  end.

Definition origin_from_public_key_hex (requirement : SubstrateOriginRequirementV1)
    (public_key_hex : string) : result string SubstrateOriginVerifierV1 :=
  origin_requirement_validate requirement ;?
  let? bytes := ok_or (hex_decode (str_trim public_key_hex))
    "origin public key is not hexadecimal" in
  reject (negb (strlen bytes =? 32)%N) "origin public key is not 32 bytes" ;?
  reject (negb (key_valid bytes)) "origin public key is invalid" ;?
  let verifier := {| ov_requirement := requirement; ov_key := bytes |} in
  match or_bootstrap_coordinate_ref requirement with
  | Some bootstrap =>
      let? expected := expected_coordinate verifier in
      reject (negb (String.eqb (co_coordinate_ref expected) bootstrap))
        "bootstrap coordinate does not match pinned origin key"
  | None => Ok tt
  end ;?
  Ok verifier.

Definition expected_nonclaims (coordinate : SubstrateCoordinateV1) : list string :=
  match co_kind coordinate with
  | Coordinate_AttesterKey => ATTESTATION_NONCLAIMS
  | Coordinate_LinodeInstance => LINODE_METADATA_NONCLAIMS
  end.

Definition profile_evidence_matches (payload : SubstrateOriginAttestationV1)
    : result string bool :=
  match co_kind (oa_coordinate payload) with
  | Coordinate_AttesterKey => Ok (negb (bool_decide (is_Some (oa_linode_metadata payload))))
  | Coordinate_LinodeInstance =>
      match oa_linode_metadata payload with
      | None => Ok false
      | Some evidence =>
          let? coordinate := linode_coordinate evidence in
          Ok (bool_decide (coordinate = oa_coordinate payload))
      end
  end.

(** The chain of [||] in [verify_attestation]; an operand with [?] is evaluated only when
    the operands before it are false. *)
Definition attestation_mismatch (v : SubstrateOriginVerifierV1)
    (basis : SubstrateOriginAcquisitionBasisV1) (signed : SignedSubstrateOriginAttestationV1)
    : result string bool :=
  let payload := st_payload signed in
  if negb (String.eqb (st_schema signed) SIGNED_ATTESTATION_SCHEMA_V1)
     || negb (String.eqb (oa_schema payload) ATTESTATION_SCHEMA_V1)
     || negb (String.eqb (oa_issuer_id payload) (or_expected_issuer_id (ov_requirement v)))
     || negb (String.eqb (oa_key_id payload) (or_expected_key_id (ov_requirement v)))
  then Ok true
  else
    let? expected := expected_coordinate v in
    if negb (bool_decide (oa_coordinate payload = expected))
       || negb (bool_decide (oa_coordinate payload = ob_expected_coordinate basis))
       || negb (String.eqb (oa_acquisition_id payload) (ob_acquisition_id basis))
    then Ok true
    else
      let? digest := basis_digest basis in
      if negb (String.eqb (oa_acquisition_basis_digest payload) digest)
         || negb (bool_decide (oa_nonclaims payload
                               = expected_nonclaims (oa_coordinate payload)))
      then Ok true
      else let? matches := profile_evidence_matches payload in Ok (negb matches).

Definition verify_attestation (v : SubstrateOriginVerifierV1)
    (basis : SubstrateOriginAcquisitionBasisV1) (signed : SignedSubstrateOriginAttestationV1)
    : result string unit :=
  let payload := st_payload signed in
  let? mismatch := attestation_mismatch v basis signed in
  reject mismatch "substrate-origin attestation binding mismatch" ;?
  origin_token "origin attestation occurrence" (oa_attestation_occurrence_ref payload) ;?
  origin_token "origin replay identity" (oa_replay_identity payload) ;?
  origin_hex_digest "origin attestation payload digest" (st_payload_digest signed) ;?
  reject (negb (bool_decide (is_Some (parse_from_rfc3339 (oa_attested_at payload)))))
    "origin attested_at is not RFC3339" ;?
  let? canonical := jcs payload in
  reject (negb (String.eqb (st_payload_digest signed) (sha256_hex canonical)))
    "origin attestation payload digest mismatch" ;?
  let? signature := ok_or (hex_decode (st_signature signed))
    "origin signature is not hexadecimal" in
  reject (negb (strlen signature =? 64)%N) "origin signature is not 64 bytes" ;?
  reject (negb (ed25519_verify (ov_key v)
                  (SIGNED_ATTESTATION_SCHEMA_V1 +:+ NUL +:+ canonical) signature))
    "origin Ed25519 verification failed".

(** Without a transition, no continuity authority may be attached. *)
Definition without_continuity (intent : SubstrateOriginAcquisitionIntentV1)
    (reason : SubstrateOriginApplicabilityReasonV1)
    : SubstrateOriginApplicabilityStatusV1 * SubstrateOriginApplicabilityReasonV1 :=
  if bool_decide (is_Some (ob_continuity (oi_basis intent)))
     || bool_decide (is_Some (oi_continuity_carrier intent))
  then (Origin_Refused, OriginReason_ContinuityAuthorityUnexpected)
  else (Origin_Applicable, reason).

(** The outcome of [origin_evaluate] on a verified proof. *)
Definition origin_verdict (v : SubstrateOriginVerifierV1)
    (p : SubstrateOriginAcquisitionProofV1)
    (diagnostic_subject_ref diagnostic_provider_intake_ref : string)
    (predecessor : option SubstrateOriginApplicabilityV1)
    (continuity_verifier : option ContinuityAuthorityVerifierV1)
    : result string (SubstrateOriginApplicabilityStatusV1
                     * SubstrateOriginApplicabilityReasonV1) :=
  let r := ov_requirement v in
  let intent := op_intent p in
  let observed := co_coordinate_ref (ob_expected_coordinate (oi_basis intent)) in
  if negb (String.eqb diagnostic_subject_ref (or_subject_ref r))
     || negb (String.eqb (ob_subject_ref (oi_basis intent)) (or_subject_ref r))
  then Ok (Origin_Refused, OriginReason_SubjectMismatch)
  else if negb (String.eqb (oi_intake_id intent) diagnostic_provider_intake_ref)
  then Ok (Origin_Refused, OriginReason_IntakeMismatch)
  else
    match predecessor with
    | None =>
        if bool_decide (or_bootstrap_coordinate_ref r = Some observed)
        then Ok (without_continuity intent OriginReason_BootstrapOriginEstablished)
        else Ok (Origin_Unresolved, OriginReason_PredecessorHistoryAbsent)
    | Some previous =>
        if String.eqb (oo_observed_coordinate_ref previous) observed
        then Ok (without_continuity intent OriginReason_StableExactOrigin)
        else
          match ob_continuity (oi_basis intent), oi_continuity_carrier intent,
                continuity_verifier with
          | Some basis, Some carrier, Some continuity_verifier =>
              verify_embedded_carrier continuity_verifier carrier basis ;?
              if negb (String.eqb (ce_subject_ref (cb_edge basis)) (or_subject_ref r))
                 || negb (bool_decide (ce_relation (cb_edge basis)
                                       = Relation_SubstrateIncarnation))
                 || negb (String.eqb (ce_predecessor_ref (cb_edge basis))
                            (oo_observed_coordinate_ref previous))
                 || negb (String.eqb (ce_successor_ref (cb_edge basis)) observed)
              then Ok (Origin_Refused, OriginReason_ContinuityEdgeMismatch)
              else Ok (Origin_Applicable, OriginReason_AuthorizedExactTransition)
          | _, _, _ => Ok (Origin_Refused, OriginReason_ContinuityAuthorityMissing)
          end
    end.

Definition origin_evaluate (v : SubstrateOriginVerifierV1)
    (p : SubstrateOriginAcquisitionProofV1)
    (diagnostic_artifact_id diagnostic_subject_ref diagnostic_provider_intake_ref : string)
    (predecessor : option SubstrateOriginApplicabilityV1)
    (continuity_verifier : option ContinuityAuthorityVerifierV1)
    : result string SubstrateOriginApplicabilityV1 :=
  origin_validate_shape p ;?
  verify_attestation v (oi_basis (op_intent p)) (oi_attestation (op_intent p)) ;?
  let? '(status, reason) := origin_verdict v p diagnostic_subject_ref
                              diagnostic_provider_intake_ref predecessor
                              continuity_verifier in
  origin_applicability_new (ov_requirement v) p diagnostic_artifact_id
    diagnostic_provider_intake_ref predecessor status reason.
End origin.
