(* ===== verification/NqAdmission.v ===== *)
(** * NQ admission provenance (crates/nightshiftd/src/nq_admission.rs)

    Each delivered diagnostic is qualified by the configured NQ source before Nightshift
    uses it: the source answers one exact query with a provenance record of one of three
    versions.  The source is a port ([NqAdmissionPortV1]); running its command and decoding
    its output is I/O, the checks of the decoded answer are [command_answer].
    [validate_admission_cover] is the same judgement on persisted records. *)
From S2P Require Import Prelude Text External Signing Continuity SubstrateOrigin.
From S2P Require Import Diagnostic DiagnosticV2.
From S2P Require Posture.
Import Posture (DiagnosticInput, DiagnosticInputs, Input_Delivered, in_status, is_inputs).
Local Open Scope string_scope.

(** ** Data *)

Record NqAdmissionQueryV1 := {
  nq_schema : string;
  nq_query_id : string;
  nq_source_id : string;
  nq_artifact_id : string;
  nq_contract_schema : string;
  nq_canonical_bytes_sha256 : string;
  nq_canonical_bytes_length : N;
  nq_run_id : string;
  nq_completed_at : string;
  nq_profile_semantic_id : option string
}.

#[global] Instance NqAdmissionQueryV1_eq_dec : EqDecision NqAdmissionQueryV1.
Proof. solve_decision. Defined.

Inductive NqSourceDispositionV1 := Source_AdmittedReport | Source_GovernedRefusal | Source_AcquisitionFailure.

#[global] Instance NqSourceDispositionV1_eq_dec : EqDecision NqSourceDispositionV1.
Proof. solve_decision. Defined.

Record NqAdmissionSourceV1 := {
  ns_kind : string;
  ns_source_id : string
}.

#[global] Instance NqAdmissionSourceV1_eq_dec : EqDecision NqAdmissionSourceV1.
Proof. solve_decision. Defined.

Record NqAdmissionArtifactV1 := {
  na_artifact_id : string;
  na_contract_schema : string;
  na_canonical_bytes_sha256 : string;
  na_canonical_bytes_length : N
}.

#[global] Instance NqAdmissionArtifactV1_eq_dec : EqDecision NqAdmissionArtifactV1.
Proof. solve_decision. Defined.

Record NqAdmissionOriginV1 := {
  no_run_id : string;
  no_evaluation_id : option string;
  no_completed_at : string;
  no_committed_at : string
}.

#[global] Instance NqAdmissionOriginV1_eq_dec : EqDecision NqAdmissionOriginV1.
Proof. solve_decision. Defined.

Record NqAdmissionProviderV1 := {
  np_provider_intake_id : string;
  np_raw_sha256 : string;
  np_provider_admission_id : string;
  np_source_admission_id : string;
  np_admission_context_digest : string;
  np_profile_semantic_id : string
}.

#[global] Instance NqAdmissionProviderV1_eq_dec : EqDecision NqAdmissionProviderV1.
Proof. solve_decision. Defined.

Record NqAdmissionJudgmentV1 := {
  nj_report_id : string;
  nj_judgment_schema : string;
  nj_judgment_digest : string
}.

#[global] Instance NqAdmissionJudgmentV1_eq_dec : EqDecision NqAdmissionJudgmentV1.
Proof. solve_decision. Defined.

Record NqAdmissionProvenanceV1 := {
  n1_schema : string;
  n1_provenance_id : string;
  n1_source : NqAdmissionSourceV1;
  n1_artifact : NqAdmissionArtifactV1;
  n1_origin : NqAdmissionOriginV1;
  n1_provider : NqAdmissionProviderV1;
  n1_disposition : NqSourceDispositionV1;
  n1_judgment : option NqAdmissionJudgmentV1;
  n1_nonclaims : list string
}.

#[global] Instance NqAdmissionProvenanceV1_eq_dec : EqDecision NqAdmissionProvenanceV1.
Proof. solve_decision. Defined.

Record NqAdmissionProvenanceV2 := {
  n2_schema : string;
  n2_provenance_id : string;
  n2_source : NqAdmissionSourceV1;
  n2_artifact : NqAdmissionArtifactV1;
  n2_origin : NqAdmissionOriginV1;
  n2_provider : NqAdmissionProviderV1;
  n2_disposition : NqSourceDispositionV1;
  n2_judgment : option NqAdmissionJudgmentV1;
  n2_continuity : ContinuityAcquisitionProofV1;
  n2_nonclaims : list string
}.

#[global] Instance NqAdmissionProvenanceV2_eq_dec : EqDecision NqAdmissionProvenanceV2.
Proof. solve_decision. Defined.

Record NqAdmissionProvenanceV3 := {
  n3_schema : string;
  n3_provenance_id : string;
  n3_source : NqAdmissionSourceV1;
  n3_artifact : NqAdmissionArtifactV1;
  n3_origin : NqAdmissionOriginV1;
  n3_provider : NqAdmissionProviderV1;
  n3_substrate_origin : SubstrateOriginAcquisitionProofV1;
  n3_disposition : NqSourceDispositionV1;
  n3_judgment : option NqAdmissionJudgmentV1;
  n3_nonclaims : list string
}.

#[global] Instance NqAdmissionProvenanceV3_eq_dec : EqDecision NqAdmissionProvenanceV3.
Proof. solve_decision. Defined.

Inductive NqAdmissionProvenance :=
| Provenance_V1 (x : NqAdmissionProvenanceV1)
| Provenance_V2 (x : NqAdmissionProvenanceV2)
| Provenance_V3 (x : NqAdmissionProvenanceV3).

#[global] Instance NqAdmissionProvenance_eq_dec : EqDecision NqAdmissionProvenance.
Proof. solve_decision. Defined.

Record QualifiedNqAdmissionsV1 := {
  qa_provenance : list NqAdmissionProvenance;
  qa_continuity : list ContinuityApplicabilityV1;
  qa_substrate_origins : list SubstrateOriginApplicabilityV1
}.

Definition NQ_ADMISSION_QUERY_SCHEMA_V1 : string := "nightshift.nq_admission_query.v1".
Definition NQ_ADMISSION_PROVENANCE_SCHEMA_V1 : string := "nq.diagnostic_admission_provenance.v1".
Definition NQ_ADMISSION_PROVENANCE_SCHEMA_V2 : string := "nq.diagnostic_admission_provenance.v2".
Definition NQ_ADMISSION_PROVENANCE_SCHEMA_V3 : string := "nq.diagnostic_admission_provenance.v3".

Definition NQ_ADMISSION_NONCLAIMS : list string :=
  ["admission establishes evidence eligibility only";
   "this provenance does not establish freshness, reliance, authorization, or action";
   "source and resolver honesty remain environmental"].

(** The serializers the module calls, besides those of the executions. *)
Class AdmissionDocuments : Type := {
  ad_origin :: OriginDocuments;
  ad_query :: Serde NqAdmissionQueryV1;
  ad_provenance_v1 :: Serde NqAdmissionProvenanceV1;
  ad_provenance_v2 :: Serde NqAdmissionProvenanceV2;
  ad_provenance_v3 :: Serde NqAdmissionProvenanceV3
}.

(** The read-only port, with its state threaded. *)
Class NqAdmissionPortV1 (P : Type) : Type := {
  port_qualify : NqAdmissionQueryV1 -> P -> result string NqAdmissionProvenance * P;
  port_continuity_verifier : P -> option ContinuityAuthorityVerifierV1;
  port_origin_verifier : P -> option SubstrateOriginVerifierV1
}.

(** ** Operations *)

Section admission.
Context {HO : Host} {CH : Chrono} {ED : Ed25519} {AD : AdmissionDocuments}
  {SX : Serde DiagnosticExecutionV1} {S2 : Serde DiagnosticExecutionV2}.

Definition admission_token (name value : string) : result string unit :=
  reject (trim_is_empty value || has_whitespace value) (name +:+ " must be a non-empty token").

Definition admission_digest (name value : string) : result string unit :=
  let message := name +:+ " must use sha256:<64 lowercase hex>" in
  let? hex := ok_or (strip_prefix value "sha256:") message in
  reject (negb (lower_hex_of_length 64 hex)) message.

Definition bytes_digest (bytes : string) : string := "sha256:" +:+ sha256_hex bytes.

Definition is_rfc3339 (s : string) : bool := bool_decide (is_Some (parse_from_rfc3339 s)).

(** *** The query *)

Definition supported_contract (schema : string) : bool :=
  String.eqb schema NQ_DIAGNOSTIC_EXECUTION_SCHEMA
  || String.eqb schema NQ_DIAGNOSTIC_EXECUTION_V2_SCHEMA.

Definition check_query_profile (q : NqAdmissionQueryV1) : result string unit :=
  if String.eqb (nq_contract_schema q) NQ_DIAGNOSTIC_EXECUTION_V2_SCHEMA then
    match nq_profile_semantic_id q with
    | Some value => admission_digest "profile_semantic_id" value
    | None => Err "NQ v2 admission query lacks profile_semantic_id"
    end
  else reject (bool_decide (is_Some (nq_profile_semantic_id q)))
         "NQ v1 admission query carries v2 provenance".

Definition nq_query_validate (q : NqAdmissionQueryV1) : result string unit :=
  reject (negb (String.eqb (nq_schema q) NQ_ADMISSION_QUERY_SCHEMA_V1))
    "unsupported NQ admission query schema" ;?
  admission_digest "query_id" (nq_query_id q) ;?
  admission_token "source_id" (nq_source_id q) ;?
  admission_digest "artifact_id" (nq_artifact_id q) ;?
  reject (negb (supported_contract (nq_contract_schema q)))
    "NQ admission query carries an unsupported artifact schema" ;?
  admission_digest "canonical_bytes_sha256" (nq_canonical_bytes_sha256 q) ;?
  reject (nq_canonical_bytes_length q =? 0)%N
    "NQ admission query carries empty artifact bytes" ;?
  admission_token "run_id" (nq_run_id q) ;?
  reject (negb (is_rfc3339 (nq_completed_at q)))
    "NQ admission query completed_at is not RFC3339" ;?
  check_query_profile q ;?
  let? identity := content_object_id q "query_id" in
  reject (negb (String.eqb (nq_query_id q) identity)) "NQ admission query identity mismatch".

(** [serde_jcs::to_vec] of the untagged union. *)
Definition execution_bytes (x : DiagnosticExecution) : result string string :=
  match x with Execution_V1 x => to_vec x | Execution_V2 x => to_vec x end.

Definition query_of (x : DiagnosticExecution) (canonical query_id : string)
    : NqAdmissionQueryV1 :=
  {| nq_schema := NQ_ADMISSION_QUERY_SCHEMA_V1; nq_query_id := query_id;
     nq_source_id := pr_node_id (ex_producer x); nq_artifact_id := ex_artifact_id x;
     nq_contract_schema := ex_schema_name x;
     nq_canonical_bytes_sha256 := bytes_digest canonical;
     nq_canonical_bytes_length := strlen canonical; nq_run_id := ex_run_id x;
     nq_completed_at := ex_completed_at x;
     nq_profile_semantic_id := ex_profile_semantic_id x |}.

Definition from_artifact (x : DiagnosticExecution) : result string NqAdmissionQueryV1 :=
  diagnostic_validate x ;?
  let? canonical := execution_bytes x in
  reject (U64_MAX <? strlen canonical)%N "diagnostic artifact length exceeds u64" ;?
  let? query_id := content_object_id (query_of x canonical "") "query_id" in
  nq_query_validate (query_of x canonical query_id) ;?
  Ok (query_of x canonical query_id).

(** *** What the three provenance records share *)

Definition check_source (source : NqAdmissionSourceV1) : result string unit :=
  reject (negb (String.eqb (ns_kind source) "local_nq_store"))
    "NQ admission provenance is not local-source custody" ;?
  admission_token "source_id" (ns_source_id source).

Definition check_origin_record (origin : NqAdmissionOriginV1) : result string unit :=
  admission_token "run_id" (no_run_id origin) ;?
  reject (match no_evaluation_id origin with Some id => str_is_empty id | None => false end
          || negb (is_rfc3339 (no_completed_at origin))
          || negb (is_rfc3339 (no_committed_at origin)))
    "NQ admission origin is invalid".

Definition check_provider (provider : NqAdmissionProviderV1) : result string unit :=
  admission_token "provider_intake_id" (np_provider_intake_id provider) ;?
  admission_digest "raw_sha256" (np_raw_sha256 provider) ;?
  admission_digest "provider_admission_id" (np_provider_admission_id provider) ;?
  admission_token "source_admission_id" (np_source_admission_id provider) ;?
  admission_digest "admission_context_digest" (np_admission_context_digest provider) ;?
  admission_digest "profile_semantic_id" (np_profile_semantic_id provider).

Definition check_judgment (disposition : NqSourceDispositionV1)
    (judgment : option NqAdmissionJudgmentV1) : result string unit :=
  match disposition, judgment with
  | Source_AdmittedReport, Some judgment =>
      admission_token "report_id" (nj_report_id judgment) ;?
      reject (negb (String.eqb (nj_judgment_schema judgment) "nq-ng.judgment.v1"))
        "NQ admission judgment schema is unsupported" ;?
      admission_digest "judgment_digest" (nj_judgment_digest judgment)
  | Source_AdmittedReport, None => Err "admitted NQ report lacks its exact judgment"
  | _, None => Ok tt
  | _, Some _ => Err "non-admitted NQ source carries a report judgment"
  end.

Definition check_nonclaims (nonclaims : list string) : result string unit :=
  reject (negb (bool_decide (nonclaims = NQ_ADMISSION_NONCLAIMS)))
    "NQ admission nonclaims differ from the closed contract".

(** The head of each record up to its provider; [supported] is the version's own test of
    the artifact's contract schema. *)
Definition check_head (provenance_id : string) (source : NqAdmissionSourceV1)
    (artifact : NqAdmissionArtifactV1) (origin : NqAdmissionOriginV1)
    (provider : NqAdmissionProviderV1) (supported : bool) (message : string)
    : result string unit :=
  admission_digest "provenance_id" provenance_id ;?
  check_source source ;?
  admission_digest "artifact_id" (na_artifact_id artifact) ;?
  reject (negb supported || (na_canonical_bytes_length artifact =? 0)%N) message ;?
  admission_digest "canonical_bytes_sha256" (na_canonical_bytes_sha256 artifact) ;?
  check_origin_record origin ;?
  check_provider provider.

Definition source_binds_query (source : NqAdmissionSourceV1) (artifact : NqAdmissionArtifactV1)
    (origin : NqAdmissionOriginV1) (q : NqAdmissionQueryV1) : bool :=
  String.eqb (ns_source_id source) (nq_source_id q)
  && String.eqb (na_artifact_id artifact) (nq_artifact_id q)
  && String.eqb (na_contract_schema artifact) (nq_contract_schema q)
  && String.eqb (na_canonical_bytes_sha256 artifact) (nq_canonical_bytes_sha256 q)
  && (na_canonical_bytes_length artifact =? nq_canonical_bytes_length q)%N
  && String.eqb (no_run_id origin) (nq_run_id q)
  && String.eqb (no_completed_at origin) (nq_completed_at q).

Definition profile_differs (provider : NqAdmissionProviderV1) (q : NqAdmissionQueryV1) : bool :=
  match nq_profile_semantic_id q with
  | Some expected => negb (String.eqb expected (np_profile_semantic_id provider))
  | None => false
  end.

(** *** Version 1 *)

Definition v1_computed_provenance_id (p : NqAdmissionProvenanceV1) : result string string :=
  content_object_id p "provenance_id".

Definition v1_validate (p : NqAdmissionProvenanceV1) : result string unit :=
  reject (negb (String.eqb (n1_schema p) NQ_ADMISSION_PROVENANCE_SCHEMA_V1))
    "unsupported NQ admission provenance schema" ;?
  check_head (n1_provenance_id p) (n1_source p) (n1_artifact p) (n1_origin p) (n1_provider p)
    (supported_contract (na_contract_schema (n1_artifact p)))
    "NQ admission artifact binding is invalid" ;?
  check_judgment (n1_disposition p) (n1_judgment p) ;?
  check_nonclaims (n1_nonclaims p) ;?
  let? identity := v1_computed_provenance_id p in
  reject (negb (String.eqb (n1_provenance_id p) identity))
    "NQ admission provenance identity mismatch".

Definition v1_with_identity (identity : string) (p : NqAdmissionProvenanceV1)
    : NqAdmissionProvenanceV1 :=
  {| n1_schema := NQ_ADMISSION_PROVENANCE_SCHEMA_V1; n1_provenance_id := identity;
     n1_source := n1_source p; n1_artifact := n1_artifact p; n1_origin := n1_origin p;
     n1_provider := n1_provider p; n1_disposition := n1_disposition p;
     n1_judgment := n1_judgment p; n1_nonclaims := NQ_ADMISSION_NONCLAIMS |}.

Definition v1_seal (p : NqAdmissionProvenanceV1) : result string NqAdmissionProvenanceV1 :=
  let? identity := v1_computed_provenance_id (v1_with_identity "" p) in
  let sealed := v1_with_identity identity p in
  v1_validate sealed ;?
  Ok sealed.

Definition v1_validate_for (p : NqAdmissionProvenanceV1) (q : NqAdmissionQueryV1)
    : result string unit :=
  nq_query_validate q ;?
  v1_validate p ;?
  reject (negb (source_binds_query (n1_source p) (n1_artifact p) (n1_origin p) q))
    "NQ admission provenance does not bind the exact diagnostic artifact" ;?
  reject (profile_differs (n1_provider p) q)
    "NQ admission provenance substitutes the evaluated profile".

(** *** Version 2 *)

Definition v2_computed_provenance_id (p : NqAdmissionProvenanceV2) : result string string :=
  content_object_id p "provenance_id".

Definition v2_validate (p : NqAdmissionProvenanceV2) : result string unit :=
  reject (negb (String.eqb (n2_schema p) NQ_ADMISSION_PROVENANCE_SCHEMA_V2))
    "unsupported NQ admission provenance schema" ;?
  check_head (n2_provenance_id p) (n2_source p) (n2_artifact p) (n2_origin p) (n2_provider p)
    (String.eqb (na_contract_schema (n2_artifact p)) NQ_DIAGNOSTIC_EXECUTION_V2_SCHEMA)
    "NQ continuity provenance requires diagnostic execution v2" ;?
  reject (negb (String.eqb (np_provider_intake_id (n2_provider p))
                  (pi_intake_id (cp_intent (n2_continuity p))))
          || negb (String.eqb (no_run_id (n2_origin p))
                     (pi_run_id (cp_intent (n2_continuity p)))))
    "NQ continuity proof substitutes the provider intake or run" ;?
  continuity_validate_shape (n2_continuity p) ;?
  check_judgment (n2_disposition p) (n2_judgment p) ;?
  check_nonclaims (n2_nonclaims p) ;?
  let? identity := v2_computed_provenance_id p in
  reject (negb (String.eqb (n2_provenance_id p) identity))
    "NQ admission provenance identity mismatch".

Definition v2_validate_query_binding (p : NqAdmissionProvenanceV2) (q : NqAdmissionQueryV1)
    : result string unit :=
  reject (negb (source_binds_query (n2_source p) (n2_artifact p) (n2_origin p) q)
          || profile_differs (n2_provider p) q)
    "NQ admission provenance does not bind the exact diagnostic artifact".

(** The one provider intake of an artifact. *)
Definition exact_intake (x : DiagnosticExecution) (message : string) : result string string :=
  match ex_provider_intake_ids x with
  | [intake] => Ok intake
  | _ => Err message
  end.

Definition v2_validate_for (p : NqAdmissionProvenanceV2) (q : NqAdmissionQueryV1)
    (x : DiagnosticExecution) (v : ContinuityAuthorityVerifierV1)
    : result string ContinuityApplicabilityV1 :=
  nq_query_validate q ;?
  v2_validate p ;?
  v2_validate_query_binding p q ;?
  let? intake := exact_intake x
    "continuity-bearing diagnostic must bind exactly one provider intake" in
  continuity_evaluate v (n2_continuity p) (na_artifact_id (n2_artifact p)) (su_id (ex_subject x)) intake
    None None.

(** *** Version 3 *)

Definition v3_computed_provenance_id (p : NqAdmissionProvenanceV3) : result string string :=
  content_object_id p "provenance_id".

Definition v3_validate (p : NqAdmissionProvenanceV3) : result string unit :=
  reject (negb (String.eqb (n3_schema p) NQ_ADMISSION_PROVENANCE_SCHEMA_V3))
    "unsupported NQ substrate-origin provenance schema" ;?
  check_head (n3_provenance_id p) (n3_source p) (n3_artifact p) (n3_origin p) (n3_provider p)
    (String.eqb (na_contract_schema (n3_artifact p)) NQ_DIAGNOSTIC_EXECUTION_V2_SCHEMA)
    "NQ substrate-origin provenance requires diagnostic execution v2" ;?
  origin_validate_shape (n3_substrate_origin p) ;?
  reject (negb (String.eqb (np_provider_intake_id (n3_provider p))
                  (oi_intake_id (op_intent (n3_substrate_origin p))))
          || negb (String.eqb (no_run_id (n3_origin p))
                     (oi_run_id (op_intent (n3_substrate_origin p)))))
    "NQ origin proof substitutes the provider intake or run" ;?
  check_judgment (n3_disposition p) (n3_judgment p) ;?
  check_nonclaims (n3_nonclaims p) ;?
  let? identity := v3_computed_provenance_id p in
  reject (negb (String.eqb (n3_provenance_id p) identity))
    "NQ substrate-origin provenance identity mismatch".

Definition v3_validate_query_binding (p : NqAdmissionProvenanceV3) (q : NqAdmissionQueryV1)
    : result string unit :=
  reject (negb (source_binds_query (n3_source p) (n3_artifact p) (n3_origin p) q)
          || profile_differs (n3_provider p) q)
    "NQ substrate-origin provenance does not bind the exact diagnostic artifact".

Definition v3_validate_for (p : NqAdmissionProvenanceV3) (q : NqAdmissionQueryV1)
    (x : DiagnosticExecution) (v : SubstrateOriginVerifierV1)
    (continuity_verifier : option ContinuityAuthorityVerifierV1)
    (predecessor : option SubstrateOriginApplicabilityV1)
    : result string SubstrateOriginApplicabilityV1 :=
  nq_query_validate q ;?
  v3_validate p ;?
  v3_validate_query_binding p q ;?
  let? intake := exact_intake x
    "origin-bearing diagnostic must bind exactly one provider intake" in
  origin_evaluate v (n3_substrate_origin p) (na_artifact_id (n3_artifact p))
    (su_id (ex_subject x)) intake predecessor continuity_verifier.

(** *** The union *)

Definition provenance_artifact_id (p : NqAdmissionProvenance) : string :=
  match p with
  | Provenance_V1 p => na_artifact_id (n1_artifact p)
  | Provenance_V2 p => na_artifact_id (n2_artifact p)
  | Provenance_V3 p => na_artifact_id (n3_artifact p)
  end.

(** The command adapter: [answer] is what the command run for the query decodes to. *)
Definition command_answer (source_id : string)
    (continuity : option ContinuityAuthorityVerifierV1)
    (origin : option SubstrateOriginVerifierV1)
    (answer : NqAdmissionQueryV1 -> result string NqAdmissionProvenance)
    (q : NqAdmissionQueryV1) : result string NqAdmissionProvenance :=
  nq_query_validate q ;?
  reject (negb (String.eqb (nq_source_id q) source_id))
    "diagnostic producer does not match configured NQ source" ;?
  let? provenance := answer q in
  match provenance with
  | Provenance_V1 p => v1_validate_for p q
  | Provenance_V2 p =>
      v2_validate p ;?
      reject (negb (bool_decide (is_Some (cv_expected_key_id <$> continuity))))
        "NQ continuity provenance arrived without a configured Standing verifier"
  | Provenance_V3 p =>
      v3_validate p ;?
      reject (negb (bool_decide (is_Some (ov_key <$> origin))))
        "NQ substrate-origin provenance arrived without a configured origin verifier"
  end ;?
  Ok provenance.

(** *** Qualification *)

Definition delivered_artifact (input : DiagnosticInput) : option DiagnosticExecution :=
  match in_status input with Input_Delivered x => Some x | _ => None end.

Definition add_query (input : DiagnosticInput)
    (queries : gmap string (NqAdmissionQueryV1 * DiagnosticExecution))
    : result string (gmap string (NqAdmissionQueryV1 * DiagnosticExecution)) :=
  match delivered_artifact input with
  | None => Ok queries
  | Some x =>
      let? query := from_artifact x in
      reject (match queries !! nq_artifact_id query with
              | Some (previous, _) => negb (bool_decide (previous = query))
              | None => false
              end) "one artifact identity is bound to different diagnostic bytes" ;?
      Ok (<[nq_artifact_id query := (query, x)]> queries)
  end.

(** [format!("{:?}", ..)] of the verdicts. *)
Definition continuity_status_debug (s : ContinuityApplicabilityStatusV1) : string :=
  match s with
  | Continuity_Applicable => "Applicable"
  | Continuity_Refused => "Refused"
  | Continuity_Unresolved => "Unresolved"
  end.
Definition continuity_reason_debug (r : ContinuityApplicabilityReasonV1) : string :=
  match r with
  | Reason_ExactAuthenticatedPrerequisite => "ExactAuthenticatedPrerequisite"
  | Reason_SubjectMismatch => "SubjectMismatch"
  | Reason_IntakeMismatch => "IntakeMismatch"
  | Reason_EdgeMismatch => "EdgeMismatch"
  | Reason_AcquisitionBindingMismatch => "AcquisitionBindingMismatch"
  | Reason_ObservationSubstrateAbsent => "ObservationSubstrateAbsent"
  | Reason_ObservationSubstrateMismatch => "ObservationSubstrateMismatch"
  end.
Definition origin_status_debug (s : SubstrateOriginApplicabilityStatusV1) : string :=
  match s with
  | Origin_Applicable => "Applicable"
  | Origin_Refused => "Refused"
  | Origin_Unresolved => "Unresolved"
  end.
Definition origin_reason_debug (r : SubstrateOriginApplicabilityReasonV1) : string :=
  match r with
  | OriginReason_BootstrapOriginEstablished => "BootstrapOriginEstablished"
  | OriginReason_StableExactOrigin => "StableExactOrigin"
  | OriginReason_AuthorizedExactTransition => "AuthorizedExactTransition"
  | OriginReason_SubjectMismatch => "SubjectMismatch"
  | OriginReason_IntakeMismatch => "IntakeMismatch"
  | OriginReason_PredecessorHistoryAbsent => "PredecessorHistoryAbsent"
  | OriginReason_PredecessorHistoryMismatch => "PredecessorHistoryMismatch"
  | OriginReason_OriginMismatch => "OriginMismatch"
  | OriginReason_ContinuityAuthorityMissing => "ContinuityAuthorityMissing"
  | OriginReason_ContinuityAuthorityUnexpected => "ContinuityAuthorityUnexpected"
  | OriginReason_ContinuityEdgeMismatch => "ContinuityEdgeMismatch"
  | OriginReason_OriginProofInvalid => "OriginProofInvalid"
  end.

(** What one answer adds: a continuity verdict, an origin verdict or neither. *)
Inductive QualifiedAnswer :=
| Answer_V1
| Answer_V2 (verdict : ContinuityApplicabilityV1)
| Answer_V3 (verdict : SubstrateOriginApplicabilityV1).

Definition qualify_answer (continuity : option ContinuityAuthorityVerifierV1)
    (origin : option SubstrateOriginVerifierV1)
    (origin_history : gmap string SubstrateOriginApplicabilityV1)
    (query : NqAdmissionQueryV1) (x : DiagnosticExecution) (provenance : NqAdmissionProvenance)
    : result string QualifiedAnswer :=
  let required_origin :=
    match origin with
    | Some v => String.eqb (or_subject_ref (ov_requirement v)) (su_id (ex_subject x))
    | None => false
    end in
  match provenance with
  | Provenance_V1 p =>
      v1_validate_for p query ;?
      reject required_origin
        "substrate-origin V3 is required; V1 configured identity cannot establish continuity" ;?
      Ok Answer_V1
  | Provenance_V2 p =>
      reject required_origin
        "substrate-origin V3 is required; V2 authority without origin proof cannot establish continuity" ;?
      let? v := ok_or continuity
        "NQ continuity provenance arrived without a configured Standing verifier" in
      let? verdict := v2_validate_for p query x v in
      reject (negb (bool_decide (ap_status verdict = Continuity_Applicable)))
        ("continuity attribution is " +:+ continuity_status_debug (ap_status verdict) +:+ ": "
           +:+ continuity_reason_debug (ap_reason verdict)) ;?
      Ok (Answer_V2 verdict)
  | Provenance_V3 p =>
      let? v := ok_or origin
        "NQ substrate-origin provenance arrived without a configured origin verifier" in
      let? verdict := v3_validate_for p query x v continuity
                        (origin_history !! su_id (ex_subject x)) in
      reject (negb (bool_decide (oo_status verdict = Origin_Applicable)))
        ("substrate-origin attribution is " +:+ origin_status_debug (oo_status verdict) +:+ ": "
           +:+ origin_reason_debug (oo_reason verdict)) ;?
      Ok (Answer_V3 verdict)
  end.

Definition extend (q : QualifiedNqAdmissionsV1) (provenance : NqAdmissionProvenance)
    (answer : QualifiedAnswer) : QualifiedNqAdmissionsV1 :=
  {| qa_provenance := qa_provenance q ++ [provenance];
     qa_continuity :=
       qa_continuity q ++ match answer with Answer_V2 v => [v] | _ => [] end;
     qa_substrate_origins :=
       qa_substrate_origins q ++ match answer with Answer_V3 v => [v] | _ => [] end |}.

Section port.
Context {P : Type} {PO : NqAdmissionPortV1 P}.

Definition qualify_one (origin_history : gmap string SubstrateOriginApplicabilityV1)
    (entry : NqAdmissionQueryV1 * DiagnosticExecution) (state : P * QualifiedNqAdmissionsV1)
    : result string (P * QualifiedNqAdmissionsV1) :=
  let '(query, x) := entry in
  let '(port, qualified) := state in
  let '(answered, port) := port_qualify query port in
  let? provenance := answered in
  let? answer := qualify_answer (port_continuity_verifier port) (port_origin_verifier port)
                   origin_history query x provenance in
  Ok (port, extend qualified provenance answer).

Definition no_admissions : QualifiedNqAdmissionsV1 :=
  {| qa_provenance := []; qa_continuity := []; qa_substrate_origins := [] |}.

Definition qualify_delivered_inputs_with_origin_history (port : P) (inputs : DiagnosticInputs)
    (origin_history : gmap string SubstrateOriginApplicabilityV1)
    : result string QualifiedNqAdmissionsV1 :=
  let? queries := fold_try add_query (is_inputs inputs) ∅ in
  let? '(_, qualified) := fold_try (qualify_one origin_history) (btree_values queries)
                            (port, no_admissions) in
  Ok qualified.

Definition qualify_delivered_inputs (port : P) (inputs : DiagnosticInputs)
    : result string QualifiedNqAdmissionsV1 :=
  qualify_delivered_inputs_with_origin_history port inputs ∅.
End port.

(** *** The persisted cover *)

Definition expect_query (input : DiagnosticInput)
    (expected : gmap string (NqAdmissionQueryV1 * DiagnosticExecution))
    : result string (gmap string (NqAdmissionQueryV1 * DiagnosticExecution)) :=
  match delivered_artifact input with
  | None => Ok expected
  | Some x =>
      let? query := from_artifact x in
      Ok (<[nq_artifact_id query := (query, x)]> expected)
  end.

(** The proofs the verdicts must cover, by artifact. *)
Abbreviation expected_proofs :=
  (gmap string ContinuityAcquisitionProofV1 * gmap string SubstrateOriginAcquisitionProofV1)%type
  (only parsing).

Definition only_intake (x : DiagnosticExecution) (intake : string) : bool :=
  match ex_provider_intake_ids x with [id] => String.eqb id intake | _ => false end.

Definition cover_one
    (pair : (string * (NqAdmissionQueryV1 * DiagnosticExecution)) * NqAdmissionProvenance)
    (expected : expected_proofs) : result string expected_proofs :=
  let '((artifact_id, (query, x)), actual) := pair in
  let '(continuity, origins) := expected in
  reject (negb (String.eqb (provenance_artifact_id actual) artifact_id))
    "NQ admission provenance is not in canonical artifact order" ;?
  match actual with
  | Provenance_V1 p => v1_validate_for p query ;? Ok (continuity, origins)
  | Provenance_V2 p =>
      v2_validate p ;?
      v2_validate_query_binding p query ;?
      reject (negb (only_intake x (pi_intake_id (cp_intent (n2_continuity p)))))
        "persisted continuity proof substitutes the diagnostic provider intake" ;?
      Ok (<[artifact_id := n2_continuity p]> continuity, origins)
  | Provenance_V3 p =>
      v3_validate p ;?
      v3_validate_query_binding p query ;?
      reject (negb (only_intake x (oi_intake_id (op_intent (n3_substrate_origin p)))))
        "persisted origin proof substitutes the diagnostic provider intake" ;?
      Ok (continuity, <[artifact_id := n3_substrate_origin p]> origins)
  end.

Definition check_continuity_verdict
    (pair : (string * ContinuityAcquisitionProofV1) * ContinuityApplicabilityV1)
    : result string unit :=
  let '((artifact_id, proof), verdict) := pair in
  let carrier := pi_carrier (cp_intent proof) in
  let authority := sa_payload (cr_authority carrier) in
  let edge := ca_edge authority in
  applicability_validate verdict ;?
  reject (negb (String.eqb (ap_diagnostic_artifact_id verdict) artifact_id)
          || negb (bool_decide (ap_status verdict = Continuity_Applicable))
          || negb (String.eqb (ap_subject_ref verdict) (ce_subject_ref edge))
          || negb (bool_decide (ap_relation verdict = ce_relation edge))
          || negb (String.eqb (ap_predecessor_ref verdict) (ce_predecessor_ref edge))
          || negb (String.eqb (ap_successor_ref verdict) (ce_successor_ref edge))
          || negb (String.eqb (ap_authority_occurrence_ref verdict)
                     (ca_authority_occurrence_ref authority))
          || negb (String.eqb (ap_commitment_occurrence_ref verdict)
                     (cc_commitment_occurrence_ref (sc_payload (cr_commitment carrier))))
          || negb (String.eqb (ap_acquisition_id verdict)
                     (cb_acquisition_id (pi_basis (cp_intent proof))))
          || negb (String.eqb (ap_provider_intake_ref verdict)
                     (pi_intake_id (cp_intent proof))))
    "continuity applicability substitutes its exact NQ source proof".

Definition check_origin_verdict
    (pair : (string * SubstrateOriginAcquisitionProofV1) * SubstrateOriginApplicabilityV1)
    : result string unit :=
  let '((artifact_id, proof), verdict) := pair in
  let intent := op_intent proof in
  origin_applicability_validate verdict ;?
  reject (negb (String.eqb (oo_diagnostic_artifact_id verdict) artifact_id)
          || negb (bool_decide (oo_status verdict = Origin_Applicable))
          || negb (String.eqb (oo_subject_ref verdict) (ob_subject_ref (oi_basis intent)))
          || negb (String.eqb (oo_observed_coordinate_ref verdict)
                     (co_coordinate_ref (ob_expected_coordinate (oi_basis intent))))
          || negb (String.eqb (oo_attestation_occurrence_ref verdict)
                     (oa_attestation_occurrence_ref (st_payload (oi_attestation intent))))
          || negb (String.eqb (oo_acquisition_id verdict)
                     (ob_acquisition_id (oi_basis intent)))
          || negb (String.eqb (oo_provider_intake_ref verdict) (oi_intake_id intent))
          || negb (bool_decide (oo_authority_occurrence_ref verdict
                     = ((fun carrier =>
                          ca_authority_occurrence_ref (sa_payload (cr_authority carrier)))
                          <$> oi_continuity_carrier intent))))
    "substrate-origin applicability substitutes its exact NQ source proof".

Definition validate_admission_cover (inputs : DiagnosticInputs)
    (provenance : list NqAdmissionProvenance) (continuity : list ContinuityApplicabilityV1)
    (substrate_origins : list SubstrateOriginApplicabilityV1) : result string unit :=
  let? expected := fold_try expect_query (is_inputs inputs) ∅ in
  reject (negb (size expected =? length provenance)%nat)
    "NQ admission provenance does not cover every delivered artifact exactly once" ;?
  let? '(expected_continuity, expected_origins) :=
    fold_try cover_one (zip (btree_iter expected) provenance) (∅, ∅) in
  reject (negb (size expected_continuity =? length continuity)%nat)
    "continuity applicability does not cover every V2 source admission exactly once" ;?
  for_each check_continuity_verdict (zip (btree_iter expected_continuity) continuity) ;?
  reject (negb (size expected_origins =? length substrate_origins)%nat)
    "substrate-origin applicability does not cover every V3 source admission exactly once" ;?
  for_each check_origin_verdict (zip (btree_iter expected_origins) substrate_origins).
End admission.
