(* ===== verification/ExternalObservation.v ===== *)
(** * External observations (crates/nightshiftd/src/external_observation.rs)

    Authenticated custody of an application observation that a workflow executor made: the
    observation with its source evidence and claims, the HMAC-authenticated handoff, the
    custody record Nightshift mints for it, the export queries and the age of the evidence.
    Reading the credential file is I/O; the key is a field of the verifier. *)
From S2P Require Import Prelude Text External Signing.
Local Open Scope string_scope.

(** ** Data *)

Inductive LocalComposeActionV1 := Action_Qualify | Action_Teardown.

#[global] Instance LocalComposeActionV1_eq_dec : EqDecision LocalComposeActionV1.
Proof. solve_decision. Defined.

Inductive ExecutorOutcomeV1 := Executor_Success | Executor_Failure | Executor_Indeterminate.

#[global] Instance ExecutorOutcomeV1_eq_dec : EqDecision ExecutorOutcomeV1.
Proof. solve_decision. Defined.

Inductive WorldClaimStatusV1 := WorldClaim_Satisfied | WorldClaim_Unknown.

#[global] Instance WorldClaimStatusV1_eq_dec : EqDecision WorldClaimStatusV1.
Proof. solve_decision. Defined.

Inductive LocalComposeClaimKindV1 :=
| ClaimKind_FrontDoorReachable
| ClaimKind_CacheMissThenHit
| ClaimKind_SingleCacheFailureSurvived
| ClaimKind_CacheTopologyRestored
| ClaimKind_CampaignResourcesAbsent.

#[global] Instance LocalComposeClaimKindV1_eq_dec : EqDecision LocalComposeClaimKindV1.
Proof. solve_decision. Defined.

Record LocalComposeWorldClaimV1 := {
  wc_schema : string;
  wc_claim_id : string;
  wc_kind : LocalComposeClaimKindV1;
  wc_status : WorldClaimStatusV1;
  wc_plan_node_id : string;
  wc_compiled_output_identity : string;
  wc_evidence_paths : list string
}.

#[global] Instance LocalComposeWorldClaimV1_eq_dec : EqDecision LocalComposeWorldClaimV1.
Proof. solve_decision. Defined.

Record LocalComposeWorldObservationV1 := {
  wo_schema : string;
  wo_observation_id : string;
  wo_adapter_id : string;
  wo_adapter_version : string;
  wo_action : LocalComposeActionV1;
  wo_plan_document_digest : string;
  wo_compilation_id : string;
  wo_campaign_id : string;
  wo_occurrence_id : string;
  wo_proposal_id : string;
  wo_exact_work_id : string;
  wo_issuance_id : string;
  wo_attempt_id : string;
  wo_settlement_id : string;
  wo_subject_digest : string;
  wo_scope_digest : string;
  wo_executor_evidence_receipt : string;
  wo_executor_evidence_bytes : N;
  wo_observed_at_unix_ms : Z;
  wo_outcome : ExecutorOutcomeV1;
  wo_source_evidence : value;
  wo_claims : list LocalComposeWorldClaimV1;
  wo_nonclaims : list string
}.

#[global] Instance LocalComposeWorldObservationV1_eq_dec : EqDecision LocalComposeWorldObservationV1.
Proof. solve_decision. Defined.

Record HmacAuthenticationV1 := {
  hm_schema : string;
  hm_key_id : string;
  hm_tag : string
}.

#[global] Instance HmacAuthenticationV1_eq_dec : EqDecision HmacAuthenticationV1.
Proof. solve_decision. Defined.

Record ExternalObservationHandoffV1 := {
  eh_schema : string;
  eh_handoff_id : string;
  eh_producer_principal_id : string;
  eh_producer_key_id : string;
  eh_target_runtime_id : string;
  eh_observation : LocalComposeWorldObservationV1;
  eh_created_at : instant;
  eh_authentication : HmacAuthenticationV1
}.

Record ExternalObservationCustodyProvenanceV1 := {
  xc_schema : string;
  xc_custody_id : string;
  xc_handoff_id : string;
  xc_observation_id : string;
  xc_producer_principal_id : string;
  xc_producer_key_id : string;
  xc_target_runtime_id : string;
  xc_campaign_id : string;
  xc_occurrence_id : string;
  xc_exact_work_id : string;
  xc_attempt_id : string;
  xc_settlement_id : string;
  xc_executor_evidence_receipt : string;
  xc_received_at : instant
}.

#[global] Instance ExternalObservationCustodyProvenanceV1_eq_dec : EqDecision ExternalObservationCustodyProvenanceV1.
Proof. solve_decision. Defined.

Inductive EvidenceAgeV1 := Age_FreshAtEvaluation | Age_StaleAtEvaluation | Age_NotYetObserved.

#[global] Instance EvidenceAgeV1_eq_dec : EqDecision EvidenceAgeV1.
Proof. solve_decision. Defined.

Inductive ExternalObservationQueryV1 :=
| ExternalQuery_Observation (observation_id : string)
| ExternalQuery_GovernedOccurrence (campaign_id : string) (occurrence_id : string)
| ExternalQuery_Attempt (attempt_id : string).

Record ExternalObservationExportMatchV1 := {
  xm_observation : LocalComposeWorldObservationV1;
  xm_custody : ExternalObservationCustodyProvenanceV1;
  xm_evaluated_at_unix_ms : Z;
  xm_evidence_ttl_ms : N;
  xm_evidence_age : EvidenceAgeV1
}.

Record ExternalObservationExportV1 := {
  xe_schema : string;
  xe_query : ExternalObservationQueryV1;
  xe_matches : list ExternalObservationExportMatchV1
}.

(** [VerifiedExternalObservationHandoffV1] is built by [verify_handoff] alone. *)
Record VerifiedExternalObservationHandoffV1 := {
  vh_handoff : ExternalObservationHandoffV1
}.

Record ExternalObservationVerifierV1 := {
  xv_expected_principal_id : string;
  xv_expected_key_id : string;
  xv_expected_runtime_id : string;
  xv_producer_key : string
}.

Definition LOCAL_COMPOSE_OBSERVATION_SCHEMA_V1 : string :=
  "maude.local-compose-world-observation/v1".
Definition LOCAL_COMPOSE_CLAIM_SCHEMA_V1 : string := "maude.local-compose-world-claim/v1".
Definition EXTERNAL_OBSERVATION_HANDOFF_SCHEMA_V1 : string :=
  "nightshift.external_observation_handoff.v1".
Definition EXTERNAL_OBSERVATION_CUSTODY_SCHEMA_V1 : string :=
  "nightshift.external_observation_custody_provenance.v1".
Definition EXTERNAL_OBSERVATION_EXPORT_SCHEMA_V1 : string :=
  "nightshift.external_observation_export.v1".
Definition HMAC_AUTH_SCHEMA_V1 : string := "maude.hmac_sha256.v1".
Definition EXECUTOR_EVIDENCE_SCHEMA_V1 : string := "maude.local-compose.executor-evidence/v1".
Definition WORK_SCHEMA_V1 : string := "maude.local-compose-workflow/v1".
Definition EVIDENCE_DOMAIN : string := "maude.local-compose.executor-evidence/v1".
Definition HANDOFF_AUTH_DOMAIN : string :=
  "nightshift-external-observation-handoff/v1" +:+ NUL.

Definition REQUIRED_NONCLAIMS : list string :=
  ["candidate is not Nightshift currentness";
   "Docket settlement is not world-state freshness";
   "producer authentication is not standing or authorization";
   "observation candidate cannot authorize or execute work"].

(** The serializers the module calls. *)
Class ObservationDocuments : Type := {
  xd_claim :: Serde LocalComposeWorldClaimV1;
  xd_observation :: Serde LocalComposeWorldObservationV1;
  xd_handoff :: Serde ExternalObservationHandoffV1;
  xd_custody :: Serde ExternalObservationCustodyProvenanceV1
}.

(** ** Operations *)

Section observation.
Context {HO : Host} {UU : Uuids} {XD : ObservationDocuments}.

Definition external_token (name value : string) : result string unit :=
  reject (trim_is_empty value || has_whitespace value) (name +:+ " must be a non-empty token").

Definition external_digest (name value : string) : result string unit :=
  let message := name +:+ " must use sha256:<64 lowercase hex>" in
  let? hex := ok_or (strip_prefix value "sha256:") message in
  reject (negb (lower_hex_of_length 64 hex)) message.

Definition external_digests (fields : list (string * string)) : result string unit :=
  for_each (fun '(name, value) => external_digest name value) fields.
Definition external_tokens (fields : list (string * string)) : result string unit :=
  for_each (fun '(name, value) => external_token name value) fields.

(** *** Identities and authentication *)

Definition semantic_id {T} {ST : Serde T} (t : T) (field : string) : result string string :=
  let? v := to_value t in
  match v with
  | Object kvs =>
      let? bytes := jcs_value (Object (object_remove "authentication"
                                         (object_remove field kvs))) in
      Ok ("sha256:" +:+ sha256_hex bytes)
  | _ => Err "identity preimage is not an object"
  end.

Definition authentication_preimage {T} {ST : Serde T} (t : T) : result string string :=
  let? v := to_value t in
  match v with
  | Object kvs => jcs_value (Object (object_remove "authentication" kvs))
  | _ => Err "authentication preimage is not an object"
  end.

Definition hash_domain (domain payload : string) : string :=
  "sha256:" +:+ sha256_hex ("ag-ng" +:+ NUL +:+ "digest" +:+ NUL +:+ "v1" +:+ NUL
    +:+ be_bytes 16 (strlen domain) +:+ domain
    +:+ be_bytes 16 (strlen payload) +:+ payload).

(** [Sha256::digest] as its 32 bytes. *)
Definition sha256_bytes (s : string) : string := unhex (sha256_hex s).

Definition HMAC_BLOCK : nat := 64.

Definition hmac_material (key : string) : string :=
  let bytes := if (HMAC_BLOCK <? String.length key)%nat then sha256_bytes key else key in
  bytes +:+ str_repeat (HMAC_BLOCK - String.length bytes) Ascii.zero.

Definition hmac_sha256 (key domain payload : string) : string :=
  let pad n := str_map (byte_xor (Ascii.ascii_of_N n)) (hmac_material key) in
  sha256_hex (pad 92%N +:+ sha256_bytes (pad 54%N +:+ domain +:+ payload)).

Definition hmac_text (key domain payload : string) : string :=
  "hmac-sha256:" +:+ hmac_sha256 key domain payload.

Fixpoint difference (xs ys : string) (acc : N) : N :=
  match xs, ys with
  | String a xs, String b ys => difference xs ys (N.lor acc (N.lxor (byte_N a) (byte_N b)))
  | _, _ => acc
  end.
Definition constant_time_eq (xs ys : string) : bool :=
  if negb (strlen xs =? strlen ys)%N then false else (difference xs ys 0 =? 0)%N.

(** *** Claims *)

Definition claim_validate (c : LocalComposeWorldClaimV1) : result string unit :=
  reject (negb (String.eqb (wc_schema c) LOCAL_COMPOSE_CLAIM_SCHEMA_V1))
    "unsupported local-Compose world-claim schema" ;?
  external_digest "claim_id" (wc_claim_id c) ;?
  external_token "plan_node_id" (wc_plan_node_id c) ;?
  external_digest "compiled_output_identity" (wc_compiled_output_identity c) ;?
  reject (bool_decide (wc_evidence_paths c = [])
          || existsb (fun path => negb (starts_with path "/evidence/") || has_whitespace path)
               (wc_evidence_paths c))
    "claim evidence paths must be exact /evidence JSON pointers" ;?
  let? identity := semantic_id c "claim_id" in
  reject (negb (String.eqb (wc_claim_id c) identity)) "claim identity mismatch".

(** *** Source evidence *)

(** [serde_json::to_value] of the outcome. *)
Definition outcome_value (o : ExecutorOutcomeV1) : value :=
  Str match o with
      | Executor_Success => "success"
      | Executor_Failure => "failure"
      | Executor_Indeterminate => "indeterminate"
      end.

(** An object with exactly the named fields. *)
Definition exact_object (kvs : list (string * value)) (fields : list string) : bool :=
  (length kvs =? length fields)%nat
  && forallb (fun field => bool_decide (is_Some (assoc_get field kvs))) fields.

Definition field_is (kvs : list (string * value)) (field expected : string) : bool :=
  bool_decide ((assoc_get field kvs ≫= as_str) = Some expected).

Definition check_dispatch (o : LocalComposeWorldObservationV1)
    (dispatch : list (string * value)) : result string unit :=
  reject (negb (exact_object dispatch
                  ["attempt"; "marker"; "scope"; "subject"; "work"; "work_schema"]))
    "executor dispatch has unknown or missing fields" ;?
  reject (negb (field_is dispatch "attempt" (wo_attempt_id o))
          || negb (field_is dispatch "subject" (wo_subject_digest o))
          || negb (field_is dispatch "scope" (wo_scope_digest o))
          || negb (field_is dispatch "work" (wo_exact_work_id o))
          || negb (field_is dispatch "work_schema" WORK_SCHEMA_V1))
    "executor dispatch is not bound to observation identity".

Definition check_docket (o : LocalComposeWorldObservationV1)
    (dispatch docket : list (string * value)) : result string unit :=
  reject (negb (exact_object docket ["attempt"; "marker"; "outcome"; "receipt"]))
    "Docket outcome has unknown or missing fields" ;?
  reject (negb (field_is docket "attempt" (wo_attempt_id o))
          || negb (option_eqb value_eqb (assoc_get "marker" docket)
                     (assoc_get "marker" dispatch))
          || negb (field_is docket "receipt" (wo_executor_evidence_receipt o))
          || negb (option_eqb value_eqb (assoc_get "outcome" docket)
                     (Some (outcome_value (wo_outcome o)))))
    "Docket outcome is not bound to observation identity".

(** The evidence of a successful run: at a pointer, a number, and one entry of a list. *)
Definition number_at (pointer : string) (source : value) : option N :=
  value_pointer pointer source ≫= as_u64.
Definition entry_is (item : value) (field expected : string) : bool :=
  bool_decide ((value_get item field ≫= as_str) = Some expected).

Definition expected_sequence : list (string * string) :=
  [("MISS", "cache-a"); ("MISS", "cache-b"); ("HIT", "cache-a"); ("HIT", "cache-b")].

Definition check_qualify_evidence (source : value) : result string unit :=
  reject (negb (bool_decide (number_at "/evidence/health/status" source = Some 200%N))
          || negb (option_eqb value_eqb (value_pointer "/evidence/restored_nodes" source)
                     (Some (Array [Str "cache-a"; Str "cache-b"]))))
    "successful qualify evidence contradicts health/topology" ;?
  let? sequence := ok_or (value_pointer "/evidence/cache_sequence" source ≫= as_array)
    "successful qualify evidence lacks cache sequence" in
  reject (negb (length sequence =? length expected_sequence)%nat
          || existsb (fun '(item, (cache, node)) =>
                        negb (entry_is item "cache" cache)
                        || negb (entry_is item "cache_node" node))
               (zip sequence expected_sequence))
    "successful qualify evidence contradicts cache sequence" ;?
  let? failure_requests := ok_or (value_pointer "/evidence/failure_requests" source ≫= as_array)
    "successful qualify evidence lacks failure requests" in
  reject (bool_decide (failure_requests = [])
          || existsb (fun item =>
                        negb (bool_decide ((value_get item "status" ≫= as_u64) = Some 200%N))
                        || negb (entry_is item "cache_node" "cache-b"))
               failure_requests)
    "successful qualify evidence contradicts failover".

Definition check_teardown_evidence (source : value) : result string unit :=
  reject (negb (bool_decide
                  (number_at "/evidence/campaign_containers_running" source = Some 0%N))
          || match number_at "/evidence/campaign_networks_remaining" source with
             | Some value => negb (value =? 0)%N
             | None => false
             end)
    "successful teardown evidence contradicts resource absence".

Definition validate_success_evidence (o : LocalComposeWorldObservationV1) : result string unit :=
  match wo_action o with
  | Action_Qualify => check_qualify_evidence (wo_source_evidence o)
  | Action_Teardown => check_teardown_evidence (wo_source_evidence o)
  end.

Definition validate_source_evidence (o : LocalComposeWorldObservationV1) : result string unit :=
  let? source := ok_or (as_object (wo_source_evidence o))
    "executor source evidence is not an object" in
  reject (negb (exact_object source ["dispatch"; "docket_outcome"; "evidence";
                                     "evidence_schema"; "observed_at_unix_ms"; "outcome"]))
    "executor source evidence has unknown or missing fields" ;?
  reject (negb (field_is source "evidence_schema" EXECUTOR_EVIDENCE_SCHEMA_V1))
    "unsupported executor evidence schema" ;?
  reject (negb (bool_decide ((assoc_get "observed_at_unix_ms" source ≫= as_i64)
                             = Some (wo_observed_at_unix_ms o)))
          || negb (option_eqb value_eqb (assoc_get "outcome" source)
                     (Some (outcome_value (wo_outcome o)))))
    "executor evidence observation facts are substituted" ;?
  let? dispatch := ok_or (assoc_get "dispatch" source ≫= as_object)
    "executor dispatch is not an object" in
  check_dispatch o dispatch ;?
  let? docket := ok_or (assoc_get "docket_outcome" source ≫= as_object)
    "Docket outcome is not an object" in
  check_docket o dispatch docket ;?
  let? bytes := jcs_value (Object (object_remove "docket_outcome" source)) in
  reject (negb (String.eqb (hash_domain EVIDENCE_DOMAIN bytes)
                  (wo_executor_evidence_receipt o)))
    "executor evidence receipt mismatch" ;?
  let? source_bytes := jcs_value (wo_source_evidence o) in
  reject (negb (strlen source_bytes =? wo_executor_evidence_bytes o)%N)
    "executor evidence byte length mismatch" ;?
  if bool_decide (wo_outcome o = Executor_Success) then validate_success_evidence o else Ok tt.

(** The claims each action must project, with the plan node and the evidence of each. *)
Definition expected_claims (o : LocalComposeWorldObservationV1)
    : list (LocalComposeClaimKindV1 * string * list string) :=
  match wo_action o with
  | Action_Qualify =>
      [(ClaimKind_FrontDoorReachable, "pn_health", ["/evidence/health"]);
       (ClaimKind_CacheMissThenHit, "pn_cache_behavior", ["/evidence/cache_sequence"]);
       (ClaimKind_SingleCacheFailureSurvived, "pn_continued", ["/evidence/failure_requests"]);
       (ClaimKind_CacheTopologyRestored, "pn_restore",
        ["/evidence/restored_nodes"; "/evidence/restored_health"])]
  | Action_Teardown =>
      [(ClaimKind_CampaignResourcesAbsent, "pn_teardown",
        if bool_decide (is_Some (value_pointer "/evidence/campaign_networks_remaining"
                                   (wo_source_evidence o)))
        then ["/evidence/campaign_containers_running";
              "/evidence/campaign_networks_remaining"]
        else ["/evidence/campaign_containers_running"])]
  end.

Definition check_claim_projection (o : LocalComposeWorldObservationV1)
    (pair : LocalComposeWorldClaimV1 * (LocalComposeClaimKindV1 * string * list string))
    : result string unit :=
  let '(claim, (kind, node, paths)) := pair in
  let expected_status :=
    if bool_decide (wo_outcome o = Executor_Success) then WorldClaim_Satisfied else WorldClaim_Unknown in
  claim_validate claim ;?
  reject (negb (bool_decide (wc_kind claim = kind))
          || negb (String.eqb (wc_plan_node_id claim) node)
          || negb (bool_decide (wc_status claim = expected_status))
          || negb (bool_decide (wc_evidence_paths claim = paths))
          || existsb (fun path => negb (bool_decide
                        (is_Some (value_pointer path (wo_source_evidence o)))))
               (wc_evidence_paths claim))
    "external observation claim projection mismatch".

Definition validate_world_claims (o : LocalComposeWorldObservationV1) : result string unit :=
  reject (negb (length (wo_claims o) =? length (expected_claims o))%nat)
    "external observation claim set is incomplete" ;?
  for_each (check_claim_projection o) (zip (wo_claims o) (expected_claims o)).

Definition world_observation_validate (o : LocalComposeWorldObservationV1) : result string unit :=
  reject (negb (String.eqb (wo_schema o) LOCAL_COMPOSE_OBSERVATION_SCHEMA_V1))
    "unsupported local-Compose world-observation schema" ;?
  reject (negb (String.eqb (wo_adapter_id o) "maude.local-compose-observation-adapter")
          || negb (String.eqb (wo_adapter_version o) "1"))
    "unsupported local-Compose observation adapter identity" ;?
  external_digests
    [("observation_id", wo_observation_id o);
     ("plan_document_digest", wo_plan_document_digest o);
     ("compilation_id", wo_compilation_id o); ("campaign_id", wo_campaign_id o);
     ("proposal_id", wo_proposal_id o); ("exact_work_id", wo_exact_work_id o);
     ("issuance_id", wo_issuance_id o); ("attempt_id", wo_attempt_id o);
     ("settlement_id", wo_settlement_id o); ("subject_digest", wo_subject_digest o);
     ("scope_digest", wo_scope_digest o);
     ("executor_evidence_receipt", wo_executor_evidence_receipt o)] ;?
  external_token "occurrence_id" (wo_occurrence_id o) ;?
  reject (negb (bool_decide (uuid_parse (wo_occurrence_id o) = Some (wo_occurrence_id o))))
    "occurrence_id must be a canonical UUID" ;?
  reject ((wo_executor_evidence_bytes o =? 0)%N
          || (16 * 1024 * 1024 <? wo_executor_evidence_bytes o)%N)
    "executor evidence length is invalid" ;?
  reject (wo_observed_at_unix_ms o <? 0)%Z "executor observation time is invalid" ;?
  reject (negb (bool_decide (wo_nonclaims o = REQUIRED_NONCLAIMS)))
    "external observation nonclaims are not the exact v1 set" ;?
  validate_source_evidence o ;?
  validate_world_claims o ;?
  let? identity := semantic_id o "observation_id" in
  reject (negb (String.eqb (wo_observation_id o) identity))
    "external observation identity mismatch".

(** *** Handoff and custody *)

Definition validate_untrusted (h : ExternalObservationHandoffV1) : result string unit :=
  reject (negb (String.eqb (eh_schema h) EXTERNAL_OBSERVATION_HANDOFF_SCHEMA_V1))
    "unsupported external-observation handoff schema" ;?
  external_digest "handoff_id" (eh_handoff_id h) ;?
  external_token "producer_principal_id" (eh_producer_principal_id h) ;?
  external_token "producer_key_id" (eh_producer_key_id h) ;?
  external_token "target_runtime_id" (eh_target_runtime_id h) ;?
  reject (negb (String.eqb (hm_schema (eh_authentication h)) HMAC_AUTH_SCHEMA_V1)
          || negb (String.eqb (hm_key_id (eh_authentication h)) (eh_producer_key_id h))
          || negb (starts_with (hm_tag (eh_authentication h)) "hmac-sha256:"))
    "external-observation authentication is malformed" ;?
  external_digest "handoff_id" (eh_handoff_id h) ;?
  world_observation_validate (eh_observation h) ;?
  let? identity := semantic_id h "handoff_id" in
  reject (negb (String.eqb (eh_handoff_id h) identity))
    "external-observation handoff identity mismatch".

Definition verify_handoff (v : ExternalObservationVerifierV1)
    (h : ExternalObservationHandoffV1) : result string VerifiedExternalObservationHandoffV1 :=
  validate_untrusted h ;?
  reject (negb (String.eqb (eh_producer_principal_id h) (xv_expected_principal_id v))
          || negb (String.eqb (eh_producer_key_id h) (xv_expected_key_id v)))
    "external-observation producer identity mismatch" ;?
  reject (negb (String.eqb (eh_target_runtime_id h) (xv_expected_runtime_id v)))
    "external-observation target runtime mismatch" ;?
  let? preimage := authentication_preimage h in
  let expected := hmac_text (xv_producer_key v) HANDOFF_AUTH_DOMAIN preimage in
  reject (negb (constant_time_eq expected (hm_tag (eh_authentication h))))
    "external-observation authentication failed" ;?
  Ok {| vh_handoff := h |}.

Definition custody_validate (c : ExternalObservationCustodyProvenanceV1) : result string unit :=
  reject (negb (String.eqb (xc_schema c) EXTERNAL_OBSERVATION_CUSTODY_SCHEMA_V1))
    "unsupported external-observation custody schema" ;?
  external_digests
    [("custody_id", xc_custody_id c); ("handoff_id", xc_handoff_id c);
     ("observation_id", xc_observation_id c); ("campaign_id", xc_campaign_id c);
     ("exact_work_id", xc_exact_work_id c); ("attempt_id", xc_attempt_id c);
     ("settlement_id", xc_settlement_id c);
     ("executor_evidence_receipt", xc_executor_evidence_receipt c)] ;?
  external_token "occurrence_id" (xc_occurrence_id c) ;?
  external_token "producer_principal_id" (xc_producer_principal_id c) ;?
  external_token "producer_key_id" (xc_producer_key_id c) ;?
  external_token "target_runtime_id" (xc_target_runtime_id c) ;?
  let? identity := semantic_id c "custody_id" in
  reject (negb (String.eqb (xc_custody_id c) identity))
    "external-observation custody identity mismatch".

Definition custody_of (verified : VerifiedExternalObservationHandoffV1) (received_at : instant)
    (identity : string) : ExternalObservationCustodyProvenanceV1 :=
  let handoff := vh_handoff verified in
  let o := eh_observation handoff in
  {| xc_schema := EXTERNAL_OBSERVATION_CUSTODY_SCHEMA_V1; xc_custody_id := identity;
     xc_handoff_id := eh_handoff_id handoff; xc_observation_id := wo_observation_id o;
     xc_producer_principal_id := eh_producer_principal_id handoff;
     xc_producer_key_id := eh_producer_key_id handoff;
     xc_target_runtime_id := eh_target_runtime_id handoff;
     xc_campaign_id := wo_campaign_id o; xc_occurrence_id := wo_occurrence_id o;
     xc_exact_work_id := wo_exact_work_id o; xc_attempt_id := wo_attempt_id o;
     xc_settlement_id := wo_settlement_id o;
     xc_executor_evidence_receipt := wo_executor_evidence_receipt o;
     xc_received_at := received_at |}.

Definition custody_mint (verified : VerifiedExternalObservationHandoffV1)
    (received_at : instant) : result string ExternalObservationCustodyProvenanceV1 :=
  let? identity := semantic_id (custody_of verified received_at "") "custody_id" in
  let value := custody_of verified received_at identity in
  custody_validate value ;?
  Ok value.

(** *** Export *)

Definition external_query_validate (q : ExternalObservationQueryV1) : result string unit :=
  match q with
  | ExternalQuery_Observation observation_id => external_digest "observation_id" observation_id
  | ExternalQuery_GovernedOccurrence campaign_id occurrence_id =>
      external_digest "campaign_id" campaign_id ;?
      external_token "occurrence_id" occurrence_id
  | ExternalQuery_Attempt attempt_id => external_digest "attempt_id" attempt_id
  end.

(** [i64] arguments, the first not negative ([world_observation_validate]): the difference is
    taken when it is not negative and fits. *)
Definition evidence_age (observed_at evaluated_at : Z) (ttl_ms : N) : EvidenceAgeV1 :=
  if (evaluated_at <? observed_at)%Z then Age_NotYetObserved
  else if (evaluated_at - observed_at <=? Z.of_N ttl_ms)%Z then Age_FreshAtEvaluation
  else Age_StaleAtEvaluation.
End observation.
