(* ===== verification/ExternalComposition.v ===== *)
(** * Composed external evidence (crates/nightshiftd/src/external_evidence_composition.rs)

    Admission of one retained external observation into a canonical observation, under a
    deployment-owned profile: the exact source, custody and profile, the satisfied claim
    set, the predecessor binding, and the horizon until which the evidence is fresh. *)
From S2P Require Import Prelude Text External Signing ExternalObservation.
Local Open Scope string_scope.

(** ** Data *)

Inductive ExternalEvidencePurposeV1 := Purpose_PostSettlementSuccessor.

#[global] Instance ExternalEvidencePurposeV1_eq_dec : EqDecision ExternalEvidencePurposeV1.
Proof. solve_decision. Defined.

Record ExternalEvidenceProfileV1 := {
  ep_schema : string;
  ep_profile_id : string;
  ep_purpose : ExternalEvidencePurposeV1;
  ep_expected_adapter_id : string;
  ep_expected_adapter_version : string;
  ep_expected_producer_principal_id : string;
  ep_expected_producer_key_id : string;
  ep_expected_runtime_id : string;
  ep_required_action : LocalComposeActionV1;
  ep_required_claims : list LocalComposeClaimKindV1;
  ep_max_age_ms : N
}.

#[global] Instance ExternalEvidenceProfileV1_eq_dec : EqDecision ExternalEvidenceProfileV1.
Proof. solve_decision. Defined.

Record ExternalEvidenceReferenceV1 := {
  er_schema : string;
  er_source_observation_id : string;
  er_source_custody_id : string;
  er_profile_id : string
}.

#[global] Instance ExternalEvidenceReferenceV1_eq_dec : EqDecision ExternalEvidenceReferenceV1.
Proof. solve_decision. Defined.

Record ComposedExternalClaimV1 := {
  cm_claim_id : string;
  cm_kind : LocalComposeClaimKindV1;
  cm_plan_node_id : string;
  cm_compiled_output_identity : string
}.

#[global] Instance ComposedExternalClaimV1_eq_dec : EqDecision ComposedExternalClaimV1.
Proof. solve_decision. Defined.

Record ComposedExternalEvidenceV1 := {
  cx_schema : string;
  cx_composition_id : string;
  cx_profile : ExternalEvidenceProfileV1;
  cx_source_observation_id : string;
  cx_source_custody_id : string;
  cx_source_campaign_id : string;
  cx_source_occurrence_id : string;
  cx_source_proposal_id : string;
  cx_source_exact_work_id : string;
  cx_source_issuance_id : string;
  cx_source_attempt_id : string;
  cx_source_settlement_id : string;
  cx_source_plan_document_digest : string;
  cx_source_compilation_id : string;
  cx_producer_principal_id : string;
  cx_producer_key_id : string;
  cx_target_runtime_id : string;
  cx_source_observed_at_unix_ms : N;
  cx_source_received_at : instant;
  cx_admitted_at : instant;
  cx_fresh_until_unix_ms : N;
  cx_target_campaign_id : string;
  cx_target_occurrence_id : string;
  cx_subject_id : string;
  cx_subject_digest : string;
  cx_scope_digest : string;
  cx_claims : list ComposedExternalClaimV1;
  cx_nonclaims : list string
}.

#[global] Instance ComposedExternalEvidenceV1_eq_dec : EqDecision ComposedExternalEvidenceV1.
Proof. solve_decision. Defined.

Definition EXTERNAL_EVIDENCE_PROFILE_SCHEMA_V1 : string :=
  "nightshift.external_evidence_profile.v1".
Definition EXTERNAL_EVIDENCE_REFERENCE_SCHEMA_V1 : string :=
  "nightshift.external_evidence_reference.v1".
Definition COMPOSED_EXTERNAL_EVIDENCE_SCHEMA_V1 : string :=
  "nightshift.composed_external_evidence.v1".
Definition COMPOSED_OBSERVATION_DOMAIN_V1 : string :=
  "nightshift.composed-observation-identity.v1" +:+ NUL.
Definition COMPOSITION_NONCLAIMS : list string :=
  ["authenticated custody is not observation currentness";
   "Docket settlement is not application health";
   "evidence age is not a currentness decision";
   "composition does not confer standing or authorization"].

(** The serializers the module calls, besides those of the observation. *)
Class CompositionDocuments : Type := {
  md_observation :: ObservationDocuments;
  md_profile :: Serde ExternalEvidenceProfileV1;
  md_composed :: Serde ComposedExternalEvidenceV1
}.

(** ** Operations *)

Section composition.
Context {HO : Host} {UU : Uuids} {MD : CompositionDocuments}.

Definition composed_object_id {T} {ST : Serde T} (t : T) (identity_field : string)
    : result string string :=
  let? v := to_value t in
  match v with
  | Object kvs =>
      let? bytes := jcs_value (Object (object_remove identity_field kvs)) in
      Ok ("sha256:" +:+ sha256_hex bytes)
  | _ => Err "identity preimage must be an object"
  end.

(** chrono: [timestamp_millis], rounded down. *)
Definition timestamp_millis (t : instant) : Z := (t / 1000000)%Z.

Definition unix_ms (t : instant) : result string N :=
  if (timestamp_millis t <? 0)%Z then Err "composition time precedes the Unix epoch"
  else Ok (Z.to_N (timestamp_millis t)).

(** *** The profile *)

Definition successor_claims : list LocalComposeClaimKindV1 :=
  [ClaimKind_FrontDoorReachable; ClaimKind_CacheMissThenHit;
   ClaimKind_SingleCacheFailureSurvived; ClaimKind_CacheTopologyRestored].

Definition evidence_profile_validate (p : ExternalEvidenceProfileV1) : result string unit :=
  reject (negb (String.eqb (ep_schema p) EXTERNAL_EVIDENCE_PROFILE_SCHEMA_V1))
    "unsupported external-evidence profile schema" ;?
  external_digest "profile_id" (ep_profile_id p) ;?
  external_tokens
    [("expected_adapter_id", ep_expected_adapter_id p);
     ("expected_adapter_version", ep_expected_adapter_version p);
     ("expected_producer_principal_id", ep_expected_producer_principal_id p);
     ("expected_producer_key_id", ep_expected_producer_key_id p);
     ("expected_runtime_id", ep_expected_runtime_id p)] ;?
  reject (negb (bool_decide (ep_purpose p = Purpose_PostSettlementSuccessor))
          || negb (String.eqb (ep_expected_adapter_id p)
                     "maude.local-compose-observation-adapter")
          || negb (String.eqb (ep_expected_adapter_version p) "1")
          || negb (bool_decide (ep_required_action p = Action_Qualify))
          || negb (bool_decide (ep_required_claims p = successor_claims))
          || (ep_max_age_ms p =? 0)%N)
    "external-evidence v1 profile is not the closed successor profile" ;?
  let? identity := composed_object_id p "profile_id" in
  reject (negb (String.eqb (ep_profile_id p) identity))
    "external-evidence profile identity mismatch".

Definition with_profile_identity (identity : string) (p : ExternalEvidenceProfileV1)
    : ExternalEvidenceProfileV1 :=
  {| ep_schema := EXTERNAL_EVIDENCE_PROFILE_SCHEMA_V1; ep_profile_id := identity;
     ep_purpose := ep_purpose p; ep_expected_adapter_id := ep_expected_adapter_id p;
     ep_expected_adapter_version := ep_expected_adapter_version p;
     ep_expected_producer_principal_id := ep_expected_producer_principal_id p;
     ep_expected_producer_key_id := ep_expected_producer_key_id p;
     ep_expected_runtime_id := ep_expected_runtime_id p;
     ep_required_action := ep_required_action p;
     ep_required_claims := ep_required_claims p; ep_max_age_ms := ep_max_age_ms p |}.

Definition evidence_profile_seal (p : ExternalEvidenceProfileV1)
    : result string ExternalEvidenceProfileV1 :=
  let? identity := composed_object_id (with_profile_identity "" p) "profile_id" in
  let sealed := with_profile_identity identity p in
  evidence_profile_validate sealed ;?
  Ok sealed.

Definition reference_validate (r : ExternalEvidenceReferenceV1) : result string unit :=
  reject (negb (String.eqb (er_schema r) EXTERNAL_EVIDENCE_REFERENCE_SCHEMA_V1))
    "unsupported external-evidence reference schema" ;?
  external_digest "source_observation_id" (er_source_observation_id r) ;?
  external_digest "source_custody_id" (er_source_custody_id r) ;?
  external_digest "profile_id" (er_profile_id r).

Definition composed_claim_validate (c : ComposedExternalClaimV1) : result string unit :=
  external_digest "claim_id" (cm_claim_id c) ;?
  external_token "plan_node_id" (cm_plan_node_id c) ;?
  external_digest "compiled_output_identity" (cm_compiled_output_identity c).

(** *** The composed record *)

(** The last chain of [||] before the claims; [admitted_at] is converted only after the
    first operands. *)
Definition temporal_mismatch (c : ComposedExternalEvidenceV1) : result string bool :=
  if String.eqb (cx_source_occurrence_id c) (cx_target_occurrence_id c)
     || negb (String.eqb (cx_source_campaign_id c) (cx_target_campaign_id c))
     || (cx_fresh_until_unix_ms c <=? cx_source_observed_at_unix_ms c)%N
  then Ok true
  else
    let? admitted_at_ms := unix_ms (cx_admitted_at c) in
    Ok ((admitted_at_ms <? cx_source_observed_at_unix_ms c)%N
        || (cx_admitted_at c <? cx_source_received_at c)%Z
        || (cx_fresh_until_unix_ms c <=? admitted_at_ms)%N
        || negb (bool_decide (checked_add (cx_source_observed_at_unix_ms c)
                                (ep_max_age_ms (cx_profile c))
                              = Some (cx_fresh_until_unix_ms c)))
        || negb (String.eqb (cx_producer_principal_id c)
                   (ep_expected_producer_principal_id (cx_profile c)))
        || negb (String.eqb (cx_producer_key_id c)
                   (ep_expected_producer_key_id (cx_profile c)))
        || negb (String.eqb (cx_target_runtime_id c) (ep_expected_runtime_id (cx_profile c)))
        || negb (bool_decide (cx_nonclaims c = COMPOSITION_NONCLAIMS))).

Definition composed_validate (c : ComposedExternalEvidenceV1) : result string unit :=
  reject (negb (String.eqb (cx_schema c) COMPOSED_EXTERNAL_EVIDENCE_SCHEMA_V1))
    "unsupported composed external-evidence schema" ;?
  evidence_profile_validate (cx_profile c) ;?
  external_digests
    [("composition_id", cx_composition_id c);
     ("source_observation_id", cx_source_observation_id c);
     ("source_custody_id", cx_source_custody_id c);
     ("source_campaign_id", cx_source_campaign_id c);
     ("source_proposal_id", cx_source_proposal_id c);
     ("source_exact_work_id", cx_source_exact_work_id c);
     ("source_issuance_id", cx_source_issuance_id c);
     ("source_attempt_id", cx_source_attempt_id c);
     ("source_settlement_id", cx_source_settlement_id c);
     ("source_plan_document_digest", cx_source_plan_document_digest c);
     ("source_compilation_id", cx_source_compilation_id c);
     ("target_campaign_id", cx_target_campaign_id c);
     ("subject_digest", cx_subject_digest c); ("scope_digest", cx_scope_digest c)] ;?
  external_tokens
    [("source_occurrence_id", cx_source_occurrence_id c);
     ("target_occurrence_id", cx_target_occurrence_id c); ("subject_id", cx_subject_id c);
     ("producer_principal_id", cx_producer_principal_id c);
     ("producer_key_id", cx_producer_key_id c);
     ("target_runtime_id", cx_target_runtime_id c)] ;?
  let? mismatch := temporal_mismatch c in
  reject mismatch "composed external evidence binding or temporal law failed" ;?
  reject (negb (bool_decide ((cm_kind <$> cx_claims c)
                             = ep_required_claims (cx_profile c))))
    "composed external evidence claim set differs from profile" ;?
  for_each composed_claim_validate (cx_claims c) ;?
  let? identity := composed_object_id c "composition_id" in
  reject (negb (String.eqb (cx_composition_id c) identity))
    "composed external evidence identity mismatch".

(** *** [ComposedExternalEvidenceV1::compose] *)

Definition custody_binds (o : LocalComposeWorldObservationV1)
    (custody : ExternalObservationCustodyProvenanceV1) : bool :=
  String.eqb (xc_observation_id custody) (wo_observation_id o)
  && String.eqb (xc_campaign_id custody) (wo_campaign_id o)
  && String.eqb (xc_occurrence_id custody) (wo_occurrence_id o)
  && String.eqb (xc_exact_work_id custody) (wo_exact_work_id o)
  && String.eqb (xc_attempt_id custody) (wo_attempt_id o)
  && String.eqb (xc_settlement_id custody) (wo_settlement_id o)
  && String.eqb (xc_executor_evidence_receipt custody) (wo_executor_evidence_receipt o).

Definition check_source_binding (r : ExternalEvidenceReferenceV1)
    (p : ExternalEvidenceProfileV1) (o : LocalComposeWorldObservationV1)
    (custody : ExternalObservationCustodyProvenanceV1) : result string unit :=
  reject (negb (String.eqb (er_source_observation_id r) (wo_observation_id o))
          || negb (String.eqb (er_source_custody_id r) (xc_custody_id custody))
          || negb (String.eqb (er_profile_id r) (ep_profile_id p))
          || negb (custody_binds o custody))
    "external evidence reference/custody/source binding mismatch" ;?
  reject (negb (String.eqb (wo_adapter_id o) (ep_expected_adapter_id p))
          || negb (String.eqb (wo_adapter_version o) (ep_expected_adapter_version p))
          || negb (String.eqb (xc_producer_principal_id custody)
                     (ep_expected_producer_principal_id p))
          || negb (String.eqb (xc_producer_key_id custody) (ep_expected_producer_key_id p))
          || negb (String.eqb (xc_target_runtime_id custody) (ep_expected_runtime_id p)))
    "external evidence does not match deployment profile" ;?
  reject (negb (bool_decide (wo_action o = ep_required_action p))
          || negb (bool_decide (wo_outcome o = Executor_Success)))
    "external evidence is not adequate for the requested purpose" ;?
  reject (negb (bool_decide ((wc_kind <$> wo_claims o) = ep_required_claims p))
          || existsb (fun claim => negb (bool_decide (wc_status claim = WorldClaim_Satisfied)))
               (wo_claims o))
    "external evidence lacks the profile's exact satisfied claim set".

(** The last instant, exclusive, at which the evidence is fresh, and the two times in Unix
    milliseconds. *)
Definition check_horizon (p : ExternalEvidenceProfileV1) (o : LocalComposeWorldObservationV1)
    (custody : ExternalObservationCustodyProvenanceV1) (admitted_at : instant)
    : result string (N * N) :=
  reject (wo_observed_at_unix_ms o <? 0)%Z
    "source observation time is not representable" ;?
  let observed_at := Z.to_N (wo_observed_at_unix_ms o) in
  let? admitted_at_ms := unix_ms admitted_at in
  let? fresh_until := ok_or (checked_add observed_at (ep_max_age_ms p))
    "external evidence horizon overflows Unix milliseconds" in
  reject (admitted_at_ms <? observed_at)%N
    "external evidence was admitted before its acquisition time" ;?
  reject (admitted_at <? xc_received_at custody)%Z
    "external evidence was admitted before Nightshift custody" ;?
  reject (fresh_until <=? admitted_at_ms)%N
    "external evidence is stale for the configured profile" ;?
  Ok (observed_at, fresh_until).

Definition composed_claim (c : LocalComposeWorldClaimV1) : ComposedExternalClaimV1 :=
  {| cm_claim_id := wc_claim_id c; cm_kind := wc_kind c; cm_plan_node_id := wc_plan_node_id c;
     cm_compiled_output_identity := wc_compiled_output_identity c |}.

Definition composed_of (p : ExternalEvidenceProfileV1) (o : LocalComposeWorldObservationV1)
    (custody : ExternalObservationCustodyProvenanceV1) (admitted_at : instant)
    (observed_at fresh_until : N)
    (target_campaign_id target_occurrence_id subject_id subject_digest scope_digest : string)
    (identity : string) : ComposedExternalEvidenceV1 :=
  {| cx_schema := COMPOSED_EXTERNAL_EVIDENCE_SCHEMA_V1; cx_composition_id := identity;
     cx_profile := p; cx_source_observation_id := wo_observation_id o;
     cx_source_custody_id := xc_custody_id custody; cx_source_campaign_id := wo_campaign_id o;
     cx_source_occurrence_id := wo_occurrence_id o; cx_source_proposal_id := wo_proposal_id o;
     cx_source_exact_work_id := wo_exact_work_id o; cx_source_issuance_id := wo_issuance_id o;
     cx_source_attempt_id := wo_attempt_id o; cx_source_settlement_id := wo_settlement_id o;
     cx_source_plan_document_digest := wo_plan_document_digest o;
     cx_source_compilation_id := wo_compilation_id o;
     cx_producer_principal_id := xc_producer_principal_id custody;
     cx_producer_key_id := xc_producer_key_id custody;
     cx_target_runtime_id := xc_target_runtime_id custody;
     cx_source_observed_at_unix_ms := observed_at;
     cx_source_received_at := xc_received_at custody; cx_admitted_at := admitted_at;
     cx_fresh_until_unix_ms := fresh_until; cx_target_campaign_id := target_campaign_id;
     cx_target_occurrence_id := target_occurrence_id; cx_subject_id := subject_id;
     cx_subject_digest := subject_digest; cx_scope_digest := scope_digest;
     cx_claims := composed_claim <$> wo_claims o; cx_nonclaims := COMPOSITION_NONCLAIMS |}.

Definition compose (r : ExternalEvidenceReferenceV1) (p : ExternalEvidenceProfileV1)
    (o : LocalComposeWorldObservationV1) (custody : ExternalObservationCustodyProvenanceV1)
    (admitted_at : instant)
    (target_campaign_id target_occurrence_id subject_id subject_digest scope_digest : string)
    : result string ComposedExternalEvidenceV1 :=
  reference_validate r ;?
  evidence_profile_validate p ;?
  world_observation_validate o ;?
  custody_validate custody ;?
  check_source_binding r p o custody ;?
  reject (negb (String.eqb (wo_campaign_id o) target_campaign_id)
          || String.eqb (wo_occurrence_id o) target_occurrence_id
          || negb (String.eqb (wo_subject_digest o) subject_digest)
          || negb (String.eqb (wo_scope_digest o) scope_digest))
    "external evidence is not bound to the exact predecessor/subject/scope" ;?
  external_digest "target_campaign_id" target_campaign_id ;?
  external_token "target_occurrence_id" target_occurrence_id ;?
  external_token "subject_id" subject_id ;?
  external_digest "subject_digest" subject_digest ;?
  external_digest "scope_digest" scope_digest ;?
  let? '(observed_at, fresh_until) := check_horizon p o custody admitted_at in
  let build := composed_of p o custody admitted_at observed_at fresh_until target_campaign_id
                 target_occurrence_id subject_id subject_digest scope_digest in
  let? identity := composed_object_id (build "") "composition_id" in
  composed_validate (build identity) ;?
  Ok (build identity).

Definition composed_canonical_observation_id (c : ComposedExternalEvidenceV1)
    : result string string :=
  composed_validate c ;?
  let? bytes := to_vec c in
  Ok ("sha256:" +:+ sha256_hex (COMPOSED_OBSERVATION_DOMAIN_V1 +:+ bytes)).
End composition.
