(* ===== verification/SteadyState.v ===== *)
(** * Steady-state evidence (crates/nightshiftd/src/steady_state_evidence.rs)

    A passive observation of the artifact an earlier external observation qualified, its
    authenticated handoff and custody, the decision-relative composition of the two under a
    deployment profile, and the owner-produced basis for observing again. *)
From S2P Require Import Prelude Text External Signing ExternalObservation ExternalComposition.
Local Open Scope string_scope.

(** ** Data *)

Inductive SteadyStateClaimKindV1 :=
| Steady_FrontDoorReachable
| Steady_CacheAPresent
| Steady_CacheBPresent
| Steady_OrdinaryCacheBehaviorObserved.

#[global] Instance SteadyStateClaimKindV1_eq_dec : EqDecision SteadyStateClaimKindV1.
Proof. solve_decision. Defined.

Record SteadyStateClaimV1 := {
  sm_schema : string;
  sm_claim_id : string;
  sm_kind : SteadyStateClaimKindV1;
  sm_status : WorldClaimStatusV1;
  sm_plan_node_id : string;
  sm_compiled_output_identity : string;
  sm_evidence_paths : list string
}.

#[global] Instance SteadyStateClaimV1_eq_dec : EqDecision SteadyStateClaimV1.
Proof. solve_decision. Defined.

Record LocalComposeSteadyStateObservationV1 := {
  ss_schema : string;
  ss_observation_id : string;
  ss_adapter_id : string;
  ss_adapter_version : string;
  ss_qualification_observation_id : string;
  ss_plan_document_digest : string;
  ss_compilation_id : string;
  ss_campaign_id : string;
  ss_occurrence_id : string;
  ss_proposal_id : string;
  ss_exact_work_id : string;
  ss_issuance_id : string;
  ss_attempt_id : string;
  ss_settlement_id : string;
  ss_subject_digest : string;
  ss_scope_digest : string;
  ss_evidence_receipt : string;
  ss_evidence_bytes : N;
  ss_observed_at_unix_ms : Z;
  ss_source_evidence : value;
  ss_claims : list SteadyStateClaimV1;
  ss_nonclaims : list string
}.

#[global] Instance LocalComposeSteadyStateObservationV1_eq_dec : EqDecision LocalComposeSteadyStateObservationV1.
Proof. solve_decision. Defined.

Record SteadyStateObservationHandoffV1 := {
  sh_schema : string;
  sh_handoff_id : string;
  sh_producer_principal_id : string;
  sh_producer_key_id : string;
  sh_target_runtime_id : string;
  sh_observation : LocalComposeSteadyStateObservationV1;
  sh_created_at : instant;
  sh_authentication : HmacAuthenticationV1
}.

Record SteadyStateObservationCustodyV1 := {
  sy_schema : string;
  sy_custody_id : string;
  sy_handoff_id : string;
  sy_observation_id : string;
  sy_qualification_observation_id : string;
  sy_producer_principal_id : string;
  sy_producer_key_id : string;
  sy_target_runtime_id : string;
  sy_plan_document_digest : string;
  sy_compilation_id : string;
  sy_evidence_receipt : string;
  sy_received_at : instant
}.

#[global] Instance SteadyStateObservationCustodyV1_eq_dec : EqDecision SteadyStateObservationCustodyV1.
Proof. solve_decision. Defined.

Inductive SteadyStateEvidencePurposeV1 := Purpose_RoutineContinuation.

#[global] Instance SteadyStateEvidencePurposeV1_eq_dec : EqDecision SteadyStateEvidencePurposeV1.
Proof. solve_decision. Defined.

Record SteadyStateEvidenceProfileV1 := {
  sf_schema : string;
  sf_profile_id : string;
  sf_purpose : SteadyStateEvidencePurposeV1;
  sf_qualification_profile : ExternalEvidenceProfileV1;
  sf_expected_adapter_id : string;
  sf_expected_adapter_version : string;
  sf_expected_producer_principal_id : string;
  sf_expected_producer_key_id : string;
  sf_expected_runtime_id : string;
  sf_required_qualification_claims : list LocalComposeClaimKindV1;
  sf_required_steady_state_claims : list SteadyStateClaimKindV1;
  sf_max_age_ms : N
}.

#[global] Instance SteadyStateEvidenceProfileV1_eq_dec : EqDecision SteadyStateEvidenceProfileV1.
Proof. solve_decision. Defined.

Record DecisionRelativeEvidenceReferenceV1 := {
  dr_schema : string;
  dr_qualification_observation_id : string;
  dr_qualification_custody_id : string;
  dr_steady_state_observation_id : string;
  dr_steady_state_custody_id : string;
  dr_profile_id : string
}.

#[global] Instance DecisionRelativeEvidenceReferenceV1_eq_dec : EqDecision DecisionRelativeEvidenceReferenceV1.
Proof. solve_decision. Defined.

Record ArtifactQualificationEvidenceV1 := {
  aq_schema : string;
  aq_qualification_id : string;
  aq_source_observation_id : string;
  aq_source_custody_id : string;
  aq_source_profile_id : string;
  aq_plan_document_digest : string;
  aq_compilation_id : string;
  aq_exact_work_id : string;
  aq_campaign_id : string;
  aq_occurrence_id : string;
  aq_proposal_id : string;
  aq_issuance_id : string;
  aq_attempt_id : string;
  aq_settlement_id : string;
  aq_subject_digest : string;
  aq_scope_digest : string;
  aq_claims : list LocalComposeClaimKindV1;
  aq_acquired_at_unix_ms : N
}.

#[global] Instance ArtifactQualificationEvidenceV1_eq_dec : EqDecision ArtifactQualificationEvidenceV1.
Proof. solve_decision. Defined.

Record ComposedDecisionRelativeEvidenceV1 := {
  cdr_schema : string;
  cdr_composition_id : string;
  cdr_profile : SteadyStateEvidenceProfileV1;
  cdr_qualification : ArtifactQualificationEvidenceV1;
  cdr_steady_state_observation_id : string;
  cdr_steady_state_custody_id : string;
  cdr_steady_state_observed_at_unix_ms : N;
  cdr_steady_state_received_at : instant;
  cdr_admitted_at : instant;
  cdr_fresh_until_unix_ms : N;
  cdr_steady_state_claims : list SteadyStateClaimV1;
  cdr_target_campaign_id : string;
  cdr_target_occurrence_id : string;
  cdr_subject_id : string;
  cdr_subject_digest : string;
  cdr_scope_digest : string;
  cdr_nonclaims : list string
}.

#[global] Instance ComposedDecisionRelativeEvidenceV1_eq_dec : EqDecision ComposedDecisionRelativeEvidenceV1.
Proof. solve_decision. Defined.

Inductive ReobservationRequirementV1 := Reobservation_Absent | Reobservation_Stale | Reobservation_Current.

#[global] Instance ReobservationRequirementV1_eq_dec : EqDecision ReobservationRequirementV1.
Proof. solve_decision. Defined.

Record SteadyStateReobservationBasisV1 := {
  ro_schema : string;
  ro_basis_id : string;
  ro_requirement : ReobservationRequirementV1;
  ro_profile_id : string;
  ro_qualification_id : string;
  ro_qualification_observation_id : string;
  ro_source_observation_id : option string;
  ro_source_custody_id : option string;
  ro_plan_document_digest : string;
  ro_compilation_id : string;
  ro_exact_work_id : string;
  ro_campaign_id : string;
  ro_occurrence_id : string;
  ro_proposal_id : string;
  ro_issuance_id : string;
  ro_attempt_id : string;
  ro_settlement_id : string;
  ro_subject_digest : string;
  ro_scope_digest : string;
  ro_evaluated_at_unix_ms : N;
  ro_prior_fresh_until_unix_ms : option N
}.

#[global] Instance SteadyStateReobservationBasisV1_eq_dec : EqDecision SteadyStateReobservationBasisV1.
Proof. solve_decision. Defined.

(** Built by [verify_steady_handoff] alone. *)
Record VerifiedSteadyStateObservationHandoffV1 := {
  vs_handoff : SteadyStateObservationHandoffV1
}.

Record SteadyStateObservationVerifierV1 := {
  sv_expected_principal_id : string;
  sv_expected_key_id : string;
  sv_expected_runtime_id : string;
  sv_producer_key : string
}.

Definition STEADY_STATE_EVIDENCE_SCHEMA_V1 : string :=
  "maude.local-compose-steady-state-evidence/v1".
Definition STEADY_STATE_OBSERVATION_SCHEMA_V1 : string :=
  "maude.local-compose-steady-state-observation/v1".
Definition STEADY_STATE_CLAIM_SCHEMA_V1 : string := "maude.local-compose-steady-state-claim/v1".
Definition STEADY_STATE_HANDOFF_SCHEMA_V1 : string :=
  "nightshift.steady_state_observation_handoff.v1".
Definition STEADY_STATE_CUSTODY_SCHEMA_V1 : string :=
  "nightshift.steady_state_observation_custody.v1".
Definition STEADY_STATE_PROFILE_SCHEMA_V1 : string :=
  "nightshift.steady_state_evidence_profile.v1".
Definition DECISION_EVIDENCE_REFERENCE_SCHEMA_V1 : string :=
  "nightshift.decision_relative_evidence_reference.v1".
Definition ARTIFACT_QUALIFICATION_SCHEMA_V1 : string :=
  "nightshift.artifact_qualification_evidence.v1".
Definition COMPOSED_DECISION_EVIDENCE_SCHEMA_V1 : string :=
  "nightshift.composed_decision_relative_evidence.v1".
Definition REOBSERVATION_BASIS_SCHEMA_V1 : string :=
  "nightshift.steady_state_reobservation_basis.v1".
Definition STEADY_STATE_ADAPTER_ID_V1 : string :=
  "maude.local-compose-steady-state-observation-adapter".
Definition STEADY_STATE_ADAPTER_VERSION_V1 : string := "1".
Definition STEADY_EVIDENCE_DOMAIN_V1 : string := "maude.local-compose-steady-state-evidence/v1".
Definition STEADY_HANDOFF_AUTH_DOMAIN_V1 : string :=
  "nightshift-steady-state-observation-handoff/v1" +:+ NUL.
Definition DECISION_OBSERVATION_DOMAIN_V1 : string :=
  "nightshift.decision-relative-observation-identity.v1" +:+ NUL.
Definition MAX_EVIDENCE_BYTES : N := 2 * 1024 * 1024.
Definition STEADY_NONCLAIMS : list string :=
  ["passive observation is not effectful qualification";
   "passive observation does not prove failure survival";
   "producer authentication is not currentness or authorization";
   "observation failure does not authorize remediation"].
Definition DECISION_NONCLAIMS : list string :=
  ["historical qualification is not present-world currentness";
   "steady-state evidence does not renew qualification";
   "artifact applicability is exact identity, not semantic equivalence";
   "decision adequacy does not confer standing or authorization"].

(** The serializers the module calls, besides those of the qualification. *)
Class SteadyDocuments : Type := {
  yd_composition :: CompositionDocuments;
  yd_claim :: Serde SteadyStateClaimV1;
  yd_observation :: Serde LocalComposeSteadyStateObservationV1;
  yd_handoff :: Serde SteadyStateObservationHandoffV1;
  yd_custody :: Serde SteadyStateObservationCustodyV1;
  yd_profile :: Serde SteadyStateEvidenceProfileV1;
  yd_qualification :: Serde ArtifactQualificationEvidenceV1;
  yd_composed :: Serde ComposedDecisionRelativeEvidenceV1;
  yd_basis :: Serde SteadyStateReobservationBasisV1
}.

(** ** Operations *)

Section steady.
Context {HO : Host} {UU : Uuids} {YD : SteadyDocuments}.

Definition steady_unix_ms (t : instant) : result string N :=
  if (timestamp_millis t <? 0)%Z then Err "time precedes the Unix epoch"
  else Ok (Z.to_N (timestamp_millis t)).

(** *** The passive observation *)

Definition steady_claim_validate (c : SteadyStateClaimV1) : result string unit :=
  reject (negb (String.eqb (sm_schema c) STEADY_STATE_CLAIM_SCHEMA_V1))
    "unsupported steady-state claim schema" ;?
  external_digest "claim_id" (sm_claim_id c) ;?
  external_token "plan_node_id" (sm_plan_node_id c) ;?
  external_digest "compiled_output_identity" (sm_compiled_output_identity c) ;?
  reject (bool_decide (sm_evidence_paths c = [])
          || existsb (fun path => negb (starts_with path "/observations/")
                                  || has_whitespace path) (sm_evidence_paths c))
    "steady-state evidence paths must be exact /observations pointers" ;?
  let? identity := composed_object_id c "claim_id" in
  reject (negb (String.eqb (sm_claim_id c) identity)) "steady-state claim identity mismatch".

Definition check_cache (observations : list (string * value)) (entry : string * string)
    : result string unit :=
  let '(field, identity) := entry in
  let? cache := ok_or (assoc_get field observations ≫= as_object)
    "steady-state cache evidence is not an object" in
  reject (negb (field_is cache "identity" identity) || negb (field_is cache "state" "running"))
    "steady-state cache identity is not present".

Definition cache_result (request : value) : result string (string * string) :=
  let? cache := ok_or (value_get request "cache" ≫= as_str) "cache result is absent" in
  let? node := ok_or (value_get request "cache_node" ≫= as_str) "cache node is absent" in
  Ok (cache, node).

Definition starts_a : list (string * string) :=
  [("MISS", "cache-a"); ("MISS", "cache-b"); ("HIT", "cache-a"); ("HIT", "cache-b")].
Definition starts_b : list (string * string) :=
  [("MISS", "cache-b"); ("MISS", "cache-a"); ("HIT", "cache-b"); ("HIT", "cache-a")].

Definition check_cache_behavior (observations : list (string * value)) : result string unit :=
  let? requests :=
    ok_or ((assoc_get "cache_behavior" observations ≫= (fun v => value_get v "requests"))
             ≫= as_array) "ordinary cache behavior is not an array" in
  let? actual := map_try cache_result requests in
  reject (negb (bool_decide (actual = starts_a)) && negb (bool_decide (actual = starts_b)))
    "ordinary cache behavior contradicted the closed profile".

Definition check_steady_source (o : LocalComposeSteadyStateObservationV1) : result string unit :=
  let? source := ok_or (as_object (ss_source_evidence o))
    "steady-state source evidence is not an object" in
  reject (negb (exact_object source ["schema"; "qualification_observation_id";
                                     "observed_at_unix_ms"; "observations"])
          || negb (field_is source "schema" STEADY_STATE_EVIDENCE_SCHEMA_V1)
          || negb (field_is source "qualification_observation_id"
                     (ss_qualification_observation_id o))
          || negb (bool_decide ((assoc_get "observed_at_unix_ms" source ≫= as_i64)
                                = Some (ss_observed_at_unix_ms o))))
    "steady-state source evidence binding is invalid" ;?
  let? observations := ok_or (assoc_get "observations" source ≫= as_object)
    "steady-state observations are not an object" in
  reject (negb (exact_object observations ["front_door"; "cache_a"; "cache_b";
                                           "cache_behavior"])
          || negb (bool_decide (((assoc_get "front_door" observations
                                    ≫= (fun v => value_get v "status")) ≫= as_u64)
                                = Some 200%N)))
    "steady-state front-door evidence is not satisfied" ;?
  for_each (check_cache observations) [("cache_a", "cache-a"); ("cache_b", "cache-b")] ;?
  check_cache_behavior observations.

Definition expected_steady_claims : list (SteadyStateClaimKindV1 * string * string) :=
  [(Steady_FrontDoorReachable, "pn_health", "/observations/front_door");
   (Steady_CacheAPresent, "pn_cache_a", "/observations/cache_a");
   (Steady_CacheBPresent, "pn_cache_b", "/observations/cache_b");
   (Steady_OrdinaryCacheBehaviorObserved, "pn_cache_behavior",
    "/observations/cache_behavior")].

Definition check_steady_claim (o : LocalComposeSteadyStateObservationV1)
    (pair : SteadyStateClaimV1 * (SteadyStateClaimKindV1 * string * string))
    : result string unit :=
  let '(claim, (kind, node, path)) := pair in
  steady_claim_validate claim ;?
  reject (negb (bool_decide (sm_kind claim = kind))
          || negb (String.eqb (sm_plan_node_id claim) node)
          || negb (bool_decide (sm_evidence_paths claim = [path]))
          || negb (bool_decide (is_Some (value_pointer path (ss_source_evidence o)))))
    "steady-state claim projection mismatch".

Definition steady_validate (o : LocalComposeSteadyStateObservationV1) : result string unit :=
  reject (negb (String.eqb (ss_schema o) STEADY_STATE_OBSERVATION_SCHEMA_V1)
          || negb (String.eqb (ss_adapter_id o) STEADY_STATE_ADAPTER_ID_V1)
          || negb (String.eqb (ss_adapter_version o) STEADY_STATE_ADAPTER_VERSION_V1))
    "unsupported local-Compose steady-state observation" ;?
  external_digests
    [("observation_id", ss_observation_id o);
     ("qualification_observation_id", ss_qualification_observation_id o);
     ("plan_document_digest", ss_plan_document_digest o);
     ("compilation_id", ss_compilation_id o); ("campaign_id", ss_campaign_id o);
     ("proposal_id", ss_proposal_id o); ("exact_work_id", ss_exact_work_id o);
     ("issuance_id", ss_issuance_id o); ("attempt_id", ss_attempt_id o);
     ("settlement_id", ss_settlement_id o); ("subject_digest", ss_subject_digest o);
     ("scope_digest", ss_scope_digest o); ("evidence_receipt", ss_evidence_receipt o)] ;?
  external_token "occurrence_id" (ss_occurrence_id o) ;?
  reject ((ss_observed_at_unix_ms o <? 0)%Z || (ss_evidence_bytes o =? 0)%N
          || (MAX_EVIDENCE_BYTES <? ss_evidence_bytes o)%N
          || negb (bool_decide (ss_nonclaims o = STEADY_NONCLAIMS)))
    "steady-state observation bound, time, or nonclaims failed" ;?
  check_steady_source o ;?
  let? bytes := jcs_value (ss_source_evidence o) in
  reject (negb (strlen bytes =? ss_evidence_bytes o)%N
          || negb (String.eqb (hash_domain STEADY_EVIDENCE_DOMAIN_V1 bytes)
                     (ss_evidence_receipt o)))
    "steady-state evidence receipt or length mismatch" ;?
  reject (negb (length (ss_claims o) =? length expected_steady_claims)%nat)
    "steady-state claim set is incomplete" ;?
  for_each (check_steady_claim o) (zip (ss_claims o) expected_steady_claims) ;?
  let? identity := composed_object_id o "observation_id" in
  reject (negb (String.eqb (ss_observation_id o) identity))
    "steady-state observation identity mismatch".

(** *** Handoff and custody *)

Definition steady_validate_untrusted (h : SteadyStateObservationHandoffV1)
    : result string unit :=
  reject (negb (String.eqb (sh_schema h) STEADY_STATE_HANDOFF_SCHEMA_V1)
          || negb (String.eqb (hm_schema (sh_authentication h)) HMAC_AUTH_SCHEMA_V1)
          || negb (String.eqb (hm_key_id (sh_authentication h)) (sh_producer_key_id h))
          || negb (starts_with (hm_tag (sh_authentication h)) "hmac-sha256:"))
    "unsupported or malformed steady-state handoff" ;?
  external_digest "handoff_id" (sh_handoff_id h) ;?
  external_token "producer_principal_id" (sh_producer_principal_id h) ;?
  external_token "producer_key_id" (sh_producer_key_id h) ;?
  external_token "target_runtime_id" (sh_target_runtime_id h) ;?
  steady_validate (sh_observation h) ;?
  let? identity := semantic_id h "handoff_id" in
  reject (negb (String.eqb (sh_handoff_id h) identity))
    "steady-state handoff identity mismatch".

Definition verify_steady_handoff (v : SteadyStateObservationVerifierV1)
    (h : SteadyStateObservationHandoffV1)
    : result string VerifiedSteadyStateObservationHandoffV1 :=
  steady_validate_untrusted h ;?
  reject (negb (String.eqb (sh_producer_principal_id h) (sv_expected_principal_id v))
          || negb (String.eqb (sh_producer_key_id h) (sv_expected_key_id v))
          || negb (String.eqb (sh_target_runtime_id h) (sv_expected_runtime_id v)))
    "steady-state producer or runtime identity mismatch" ;?
  let? preimage := authentication_preimage h in
  let expected := hmac_text (sv_producer_key v) STEADY_HANDOFF_AUTH_DOMAIN_V1 preimage in
  reject (negb (constant_time_eq expected (hm_tag (sh_authentication h))))
    "steady-state observation authentication failed" ;?
  Ok {| vs_handoff := h |}.

Definition steady_custody_validate (c : SteadyStateObservationCustodyV1) : result string unit :=
  reject (negb (String.eqb (sy_schema c) STEADY_STATE_CUSTODY_SCHEMA_V1))
    "unsupported steady-state custody schema" ;?
  external_digests
    [("custody_id", sy_custody_id c); ("handoff_id", sy_handoff_id c);
     ("observation_id", sy_observation_id c);
     ("qualification_observation_id", sy_qualification_observation_id c);
     ("plan_document_digest", sy_plan_document_digest c);
     ("compilation_id", sy_compilation_id c); ("evidence_receipt", sy_evidence_receipt c)] ;?
  external_tokens
    [("producer_principal_id", sy_producer_principal_id c);
     ("producer_key_id", sy_producer_key_id c);
     ("target_runtime_id", sy_target_runtime_id c)] ;?
  let? identity := composed_object_id c "custody_id" in
  reject (negb (String.eqb (sy_custody_id c) identity))
    "steady-state custody identity mismatch".

Definition steady_custody_of (verified : VerifiedSteadyStateObservationHandoffV1)
    (received_at : instant) (identity : string) : SteadyStateObservationCustodyV1 :=
  let handoff := vs_handoff verified in
  let source := sh_observation handoff in
  {| sy_schema := STEADY_STATE_CUSTODY_SCHEMA_V1; sy_custody_id := identity;
     sy_handoff_id := sh_handoff_id handoff; sy_observation_id := ss_observation_id source;
     sy_qualification_observation_id := ss_qualification_observation_id source;
     sy_producer_principal_id := sh_producer_principal_id handoff;
     sy_producer_key_id := sh_producer_key_id handoff;
     sy_target_runtime_id := sh_target_runtime_id handoff;
     sy_plan_document_digest := ss_plan_document_digest source;
     sy_compilation_id := ss_compilation_id source;
     sy_evidence_receipt := ss_evidence_receipt source; sy_received_at := received_at |}.

Definition steady_custody_mint (verified : VerifiedSteadyStateObservationHandoffV1)
    (received_at : instant) : result string SteadyStateObservationCustodyV1 :=
  let? identity := composed_object_id (steady_custody_of verified received_at "")
                     "custody_id" in
  let value := steady_custody_of verified received_at identity in
  steady_custody_validate value ;?
  Ok value.

(** *** The profile *)

Definition steady_claims : list SteadyStateClaimKindV1 :=
  [Steady_FrontDoorReachable; Steady_CacheAPresent; Steady_CacheBPresent;
   Steady_OrdinaryCacheBehaviorObserved].

Definition steady_profile_validate (p : SteadyStateEvidenceProfileV1) : result string unit :=
  reject (negb (String.eqb (sf_schema p) STEADY_STATE_PROFILE_SCHEMA_V1)
          || negb (bool_decide (sf_purpose p = Purpose_RoutineContinuation))
          || negb (String.eqb (sf_expected_adapter_id p) STEADY_STATE_ADAPTER_ID_V1)
          || negb (String.eqb (sf_expected_adapter_version p) STEADY_STATE_ADAPTER_VERSION_V1)
          || negb (bool_decide (sf_required_qualification_claims p = successor_claims))
          || negb (bool_decide (sf_required_steady_state_claims p = steady_claims))
          || (sf_max_age_ms p =? 0)%N)
    "profile is not the closed local-Compose steady-state profile" ;?
  external_digest "profile_id" (sf_profile_id p) ;?
  evidence_profile_validate (sf_qualification_profile p) ;?
  reject (negb (bool_decide (ep_purpose (sf_qualification_profile p)
                             = Purpose_PostSettlementSuccessor))
          || negb (bool_decide (ep_required_claims (sf_qualification_profile p)
                                = sf_required_qualification_claims p)))
    "steady-state profile does not bind the closed strong qualification profile" ;?
  external_tokens
    [("expected_producer_principal_id", sf_expected_producer_principal_id p);
     ("expected_producer_key_id", sf_expected_producer_key_id p);
     ("expected_runtime_id", sf_expected_runtime_id p)] ;?
  let? identity := composed_object_id p "profile_id" in
  reject (negb (String.eqb (sf_profile_id p) identity))
    "steady-state profile identity mismatch".

Definition with_steady_identity (identity : string) (p : SteadyStateEvidenceProfileV1)
    : SteadyStateEvidenceProfileV1 :=
  {| sf_schema := STEADY_STATE_PROFILE_SCHEMA_V1; sf_profile_id := identity;
     sf_purpose := sf_purpose p; sf_qualification_profile := sf_qualification_profile p;
     sf_expected_adapter_id := sf_expected_adapter_id p;
     sf_expected_adapter_version := sf_expected_adapter_version p;
     sf_expected_producer_principal_id := sf_expected_producer_principal_id p;
     sf_expected_producer_key_id := sf_expected_producer_key_id p;
     sf_expected_runtime_id := sf_expected_runtime_id p;
     sf_required_qualification_claims := sf_required_qualification_claims p;
     sf_required_steady_state_claims := sf_required_steady_state_claims p;
     sf_max_age_ms := sf_max_age_ms p |}.

Definition steady_profile_seal (p : SteadyStateEvidenceProfileV1)
    : result string SteadyStateEvidenceProfileV1 :=
  let? identity := composed_object_id (with_steady_identity "" p) "profile_id" in
  let sealed := with_steady_identity identity p in
  steady_profile_validate sealed ;?
  Ok sealed.

Definition decision_reference_validate (r : DecisionRelativeEvidenceReferenceV1)
    : result string unit :=
  reject (negb (String.eqb (dr_schema r) DECISION_EVIDENCE_REFERENCE_SCHEMA_V1))
    "unsupported decision-relative evidence reference" ;?
  external_digests
    [("qualification_observation_id", dr_qualification_observation_id r);
     ("qualification_custody_id", dr_qualification_custody_id r);
     ("steady_state_observation_id", dr_steady_state_observation_id r);
     ("steady_state_custody_id", dr_steady_state_custody_id r);
     ("profile_id", dr_profile_id r)].

(** *** The historical qualification *)

Definition qualification_validate (q : ArtifactQualificationEvidenceV1) : result string unit :=
  reject (negb (String.eqb (aq_schema q) ARTIFACT_QUALIFICATION_SCHEMA_V1))
    "unsupported artifact qualification schema" ;?
  external_digests
    [("qualification_id", aq_qualification_id q);
     ("source_observation_id", aq_source_observation_id q);
     ("source_custody_id", aq_source_custody_id q);
     ("source_profile_id", aq_source_profile_id q);
     ("plan_document_digest", aq_plan_document_digest q);
     ("compilation_id", aq_compilation_id q); ("exact_work_id", aq_exact_work_id q);
     ("campaign_id", aq_campaign_id q); ("proposal_id", aq_proposal_id q);
     ("issuance_id", aq_issuance_id q); ("attempt_id", aq_attempt_id q);
     ("settlement_id", aq_settlement_id q); ("subject_digest", aq_subject_digest q);
     ("scope_digest", aq_scope_digest q)] ;?
  external_token "occurrence_id" (aq_occurrence_id q) ;?
  let? mismatch :=
    if (aq_acquired_at_unix_ms q =? 0)%N then Ok true
    else let? identity := composed_object_id q "qualification_id" in
         Ok (negb (String.eqb (aq_qualification_id q) identity)) in
  reject mismatch "artifact qualification identity or acquisition time failed".

Definition strong_source (p : ExternalEvidenceProfileV1) (o : LocalComposeWorldObservationV1)
    (custody : ExternalObservationCustodyProvenanceV1) : bool :=
  bool_decide (ep_purpose p = Purpose_PostSettlementSuccessor)
  && String.eqb (wo_adapter_id o) (ep_expected_adapter_id p)
  && String.eqb (wo_adapter_version o) (ep_expected_adapter_version p)
  && bool_decide (wo_action o = Action_Qualify)
  && bool_decide (wo_outcome o = Executor_Success)
  && bool_decide ((wc_kind <$> wo_claims o) = ep_required_claims p)
  && forallb (fun claim => bool_decide (wc_status claim = WorldClaim_Satisfied)) (wo_claims o)
  && String.eqb (xc_observation_id custody) (wo_observation_id o)
  && String.eqb (xc_campaign_id custody) (wo_campaign_id o)
  && String.eqb (xc_occurrence_id custody) (wo_occurrence_id o)
  && String.eqb (xc_exact_work_id custody) (wo_exact_work_id o)
  && String.eqb (xc_attempt_id custody) (wo_attempt_id o)
  && String.eqb (xc_settlement_id custody) (wo_settlement_id o)
  && String.eqb (xc_producer_principal_id custody) (ep_expected_producer_principal_id p)
  && String.eqb (xc_producer_key_id custody) (ep_expected_producer_key_id p)
  && String.eqb (xc_target_runtime_id custody) (ep_expected_runtime_id p).

Definition qualification_of (p : ExternalEvidenceProfileV1) (o : LocalComposeWorldObservationV1)
    (custody : ExternalObservationCustodyProvenanceV1) (identity : string)
    : ArtifactQualificationEvidenceV1 :=
  {| aq_schema := ARTIFACT_QUALIFICATION_SCHEMA_V1; aq_qualification_id := identity;
     aq_source_observation_id := wo_observation_id o;
     aq_source_custody_id := xc_custody_id custody; aq_source_profile_id := ep_profile_id p;
     aq_plan_document_digest := wo_plan_document_digest o;
     aq_compilation_id := wo_compilation_id o; aq_exact_work_id := wo_exact_work_id o;
     aq_campaign_id := wo_campaign_id o; aq_occurrence_id := wo_occurrence_id o;
     aq_proposal_id := wo_proposal_id o; aq_issuance_id := wo_issuance_id o;
     aq_attempt_id := wo_attempt_id o; aq_settlement_id := wo_settlement_id o;
     aq_subject_digest := wo_subject_digest o; aq_scope_digest := wo_scope_digest o;
     aq_claims := wc_kind <$> wo_claims o;
     aq_acquired_at_unix_ms := Z.to_N (wo_observed_at_unix_ms o) |}.

Definition from_source (p : ExternalEvidenceProfileV1) (o : LocalComposeWorldObservationV1)
    (custody : ExternalObservationCustodyProvenanceV1)
    : result string ArtifactQualificationEvidenceV1 :=
  evidence_profile_validate p ;?
  world_observation_validate o ;?
  custody_validate custody ;?
  reject (negb (strong_source p o custody))
    "qualification source is not the strong successor profile" ;?
  reject (wo_observed_at_unix_ms o <? 0)%Z "qualification acquisition time is invalid" ;?
  let? identity := composed_object_id (qualification_of p o custody "") "qualification_id" in
  let qualification := qualification_of p o custody identity in
  qualification_validate qualification ;?
  Ok qualification.

(** *** The decision-relative composition *)

Definition satisfies_steady (claims : list SteadyStateClaimV1)
    (p : SteadyStateEvidenceProfileV1) : bool :=
  bool_decide ((sm_kind <$> claims) = sf_required_steady_state_claims p)
  && forallb (fun claim => bool_decide (sm_status claim = WorldClaim_Satisfied)) claims.

(** [u64] addition of a build without overflow checks. *)
Definition wrapping_add (a b : N) : N := ((a + b) mod 18446744073709551616)%N.

(** The chain of [||] in [validate]; the two operands with [?] are evaluated only when the
    operands before them are false. *)
Definition composition_mismatch (c : ComposedDecisionRelativeEvidenceV1) : result string bool :=
  let p := cdr_profile c in
  if negb (String.eqb (ep_profile_id (sf_qualification_profile p))
             (aq_source_profile_id (cdr_qualification c)))
     || negb (bool_decide (sf_required_qualification_claims p
                           = aq_claims (cdr_qualification c)))
     || negb (satisfies_steady (cdr_steady_state_claims c) p)
     || (cdr_fresh_until_unix_ms c <=? cdr_steady_state_observed_at_unix_ms c)%N
     || negb (wrapping_add (cdr_steady_state_observed_at_unix_ms c) (sf_max_age_ms p)
              =? cdr_fresh_until_unix_ms c)%N
  then Ok true
  else
    let? admitted := steady_unix_ms (cdr_admitted_at c) in
    if (cdr_fresh_until_unix_ms c <=? admitted)%N
       || (cdr_admitted_at c <? cdr_steady_state_received_at c)%Z
       || negb (bool_decide (cdr_nonclaims c = DECISION_NONCLAIMS))
    then Ok true
    else
      let? identity := composed_object_id c "composition_id" in
      Ok (negb (String.eqb (cdr_composition_id c) identity)).

Definition composed_decision_validate (c : ComposedDecisionRelativeEvidenceV1) : result string unit :=
  reject (negb (String.eqb (cdr_schema c) COMPOSED_DECISION_EVIDENCE_SCHEMA_V1))
    "unsupported decision-relative evidence composition" ;?
  steady_profile_validate (cdr_profile c) ;?
  qualification_validate (cdr_qualification c) ;?
  external_digests
    [("composition_id", cdr_composition_id c);
     ("steady_state_observation_id", cdr_steady_state_observation_id c);
     ("steady_state_custody_id", cdr_steady_state_custody_id c);
     ("target_campaign_id", cdr_target_campaign_id c);
     ("subject_digest", cdr_subject_digest c); ("scope_digest", cdr_scope_digest c)] ;?
  external_token "target_occurrence_id" (cdr_target_occurrence_id c) ;?
  external_token "subject_id" (cdr_subject_id c) ;?
  let? mismatch := composition_mismatch c in
  reject mismatch "decision-relative evidence composition validation failed" ;?
  for_each steady_claim_validate (cdr_steady_state_claims c).

Definition applies_exactly (r : DecisionRelativeEvidenceReferenceV1)
    (p : SteadyStateEvidenceProfileV1) (q : ArtifactQualificationEvidenceV1)
    (o : LocalComposeSteadyStateObservationV1) (custody : SteadyStateObservationCustodyV1)
    : bool :=
  String.eqb (dr_qualification_observation_id r) (aq_source_observation_id q)
  && String.eqb (dr_qualification_custody_id r) (aq_source_custody_id q)
  && String.eqb (dr_steady_state_observation_id r) (ss_observation_id o)
  && String.eqb (dr_steady_state_custody_id r) (sy_custody_id custody)
  && String.eqb (dr_profile_id r) (sf_profile_id p)
  && String.eqb (ep_profile_id (sf_qualification_profile p)) (aq_source_profile_id q)
  && bool_decide (aq_claims q = sf_required_qualification_claims p)
  && String.eqb (ss_qualification_observation_id o) (aq_source_observation_id q)
  && String.eqb (ss_plan_document_digest o) (aq_plan_document_digest q)
  && String.eqb (ss_compilation_id o) (aq_compilation_id q)
  && String.eqb (ss_exact_work_id o) (aq_exact_work_id q)
  && String.eqb (ss_subject_digest o) (aq_subject_digest q)
  && String.eqb (ss_scope_digest o) (aq_scope_digest q)
  && String.eqb (sy_observation_id custody) (ss_observation_id o)
  && String.eqb (sy_qualification_observation_id custody) (ss_qualification_observation_id o)
  && String.eqb (sy_plan_document_digest custody) (ss_plan_document_digest o)
  && String.eqb (sy_compilation_id custody) (ss_compilation_id o)
  && String.eqb (sy_evidence_receipt custody) (ss_evidence_receipt o).

Definition adequate_source (p : SteadyStateEvidenceProfileV1)
    (o : LocalComposeSteadyStateObservationV1) (custody : SteadyStateObservationCustodyV1)
    : bool :=
  String.eqb (ss_adapter_id o) (sf_expected_adapter_id p)
  && String.eqb (ss_adapter_version o) (sf_expected_adapter_version p)
  && String.eqb (sy_producer_principal_id custody) (sf_expected_producer_principal_id p)
  && String.eqb (sy_producer_key_id custody) (sf_expected_producer_key_id p)
  && String.eqb (sy_target_runtime_id custody) (sf_expected_runtime_id p)
  && satisfies_steady (ss_claims o) p.

(** The two ends of the freshness horizon, in Unix milliseconds. *)
Definition steady_horizon (p : SteadyStateEvidenceProfileV1)
    (o : LocalComposeSteadyStateObservationV1) (custody : SteadyStateObservationCustodyV1)
    (admitted_at : instant) : result string (N * N) :=
  reject (ss_observed_at_unix_ms o <? 0)%Z "passive observation time is invalid" ;?
  let observed := Z.to_N (ss_observed_at_unix_ms o) in
  let? admitted := steady_unix_ms admitted_at in
  let? fresh_until := ok_or (checked_add observed (sf_max_age_ms p))
    "steady-state evidence horizon overflow" in
  reject ((admitted <? observed)%N || (admitted_at <? sy_received_at custody)%Z
          || (fresh_until <=? admitted)%N)
    "steady-state evidence is not current at admission" ;?
  Ok (observed, fresh_until).

Definition decision_of (p : SteadyStateEvidenceProfileV1) (q : ArtifactQualificationEvidenceV1)
    (o : LocalComposeSteadyStateObservationV1) (custody : SteadyStateObservationCustodyV1)
    (admitted_at : instant) (observed fresh_until : N)
    (target_campaign_id target_occurrence_id subject_id subject_digest scope_digest : string)
    (identity : string) : ComposedDecisionRelativeEvidenceV1 :=
  {| cdr_schema := COMPOSED_DECISION_EVIDENCE_SCHEMA_V1; cdr_composition_id := identity;
     cdr_profile := p; cdr_qualification := q;
     cdr_steady_state_observation_id := ss_observation_id o;
     cdr_steady_state_custody_id := sy_custody_id custody;
     cdr_steady_state_observed_at_unix_ms := observed;
     cdr_steady_state_received_at := sy_received_at custody; cdr_admitted_at := admitted_at;
     cdr_fresh_until_unix_ms := fresh_until; cdr_steady_state_claims := ss_claims o;
     cdr_target_campaign_id := target_campaign_id;
     cdr_target_occurrence_id := target_occurrence_id; cdr_subject_id := subject_id;
     cdr_subject_digest := subject_digest; cdr_scope_digest := scope_digest;
     cdr_nonclaims := DECISION_NONCLAIMS |}.

Definition compose_decision (r : DecisionRelativeEvidenceReferenceV1)
    (p : SteadyStateEvidenceProfileV1) (source : LocalComposeWorldObservationV1)
    (source_custody : ExternalObservationCustodyProvenanceV1)
    (o : LocalComposeSteadyStateObservationV1) (custody : SteadyStateObservationCustodyV1)
    (admitted_at : instant)
    (target_campaign_id target_occurrence_id subject_id subject_digest scope_digest : string)
    : result string ComposedDecisionRelativeEvidenceV1 :=
  decision_reference_validate r ;?
  steady_profile_validate p ;?
  steady_validate o ;?
  steady_custody_validate custody ;?
  let? q := from_source (sf_qualification_profile p) source source_custody in
  reject (negb (applies_exactly r p q o custody))
    "qualification/passive/profile exact applicability failed" ;?
  reject (negb (adequate_source p o custody))
    "passive evidence is inadequate for routine continuation" ;?
  reject (String.eqb (aq_source_observation_id q) (ss_observation_id o)
          || negb (String.eqb (ss_campaign_id o) target_campaign_id)
          || negb (String.eqb (ss_subject_digest o) subject_digest)
          || negb (String.eqb (ss_scope_digest o) scope_digest))
    "decision evidence target or source relation is invalid" ;?
  let? '(observed, fresh_until) := steady_horizon p o custody admitted_at in
  let build := decision_of p q o custody admitted_at observed fresh_until target_campaign_id
                 target_occurrence_id subject_id subject_digest scope_digest in
  let? identity := composed_object_id (build "") "composition_id" in
  composed_decision_validate (build identity) ;?
  Ok (build identity).

Definition decision_canonical_observation_id (c : ComposedDecisionRelativeEvidenceV1)
    : result string string :=
  composed_decision_validate c ;?
  let? bytes := to_vec c in
  Ok ("sha256:" +:+ sha256_hex (DECISION_OBSERVATION_DOMAIN_V1 +:+ bytes)).

(** *** The re-observation basis *)

Definition check_requirement (b : SteadyStateReobservationBasisV1) : result string unit :=
  match ro_requirement b with
  | Reobservation_Absent =>
      reject (bool_decide (is_Some (ro_source_observation_id b))
              || bool_decide (is_Some (ro_source_custody_id b))
              || bool_decide (is_Some (ro_prior_fresh_until_unix_ms b)))
        "absent basis cannot carry prior passive evidence"
  | requirement =>
      let? source := ok_or (ro_source_observation_id b) "basis lacks source observation" in
      external_digest "source_observation_id" source ;?
      let? custody := ok_or (ro_source_custody_id b) "basis lacks source custody" in
      external_digest "source_custody_id" custody ;?
      let? horizon := ok_or (ro_prior_fresh_until_unix_ms b)
        "basis lacks passive evidence horizon" in
      reject ((bool_decide (requirement = Reobservation_Stale)
               && (ro_evaluated_at_unix_ms b <? horizon)%N)
              || (bool_decide (requirement = Reobservation_Current)
                  && (horizon <=? ro_evaluated_at_unix_ms b)%N))
        "owner-produced passive requirement contradicts horizon"
  end.

Definition reobservation_validate (b : SteadyStateReobservationBasisV1) : result string unit :=
  reject (negb (String.eqb (ro_schema b) REOBSERVATION_BASIS_SCHEMA_V1))
    "unsupported steady-state re-observation basis" ;?
  external_digests
    [("basis_id", ro_basis_id b); ("profile_id", ro_profile_id b);
     ("qualification_id", ro_qualification_id b);
     ("qualification_observation_id", ro_qualification_observation_id b);
     ("plan_document_digest", ro_plan_document_digest b);
     ("compilation_id", ro_compilation_id b); ("exact_work_id", ro_exact_work_id b);
     ("campaign_id", ro_campaign_id b); ("proposal_id", ro_proposal_id b);
     ("issuance_id", ro_issuance_id b); ("attempt_id", ro_attempt_id b);
     ("settlement_id", ro_settlement_id b); ("subject_digest", ro_subject_digest b);
     ("scope_digest", ro_scope_digest b)] ;?
  external_token "occurrence_id" (ro_occurrence_id b) ;?
  check_requirement b ;?
  let? identity := composed_object_id b "basis_id" in
  reject (negb (String.eqb (ro_basis_id b) identity))
    "steady-state re-observation basis identity mismatch".

(** The requirement, and the source, custody and horizon it names. *)
Definition requirement_of (p : SteadyStateEvidenceProfileV1)
    (q : ArtifactQualificationEvidenceV1)
    (prior : option (LocalComposeSteadyStateObservationV1 * SteadyStateObservationCustodyV1))
    (evaluated_at_unix_ms : N)
    : result string (ReobservationRequirementV1
                     * (option string * option string * option N)) :=
  match prior with
  | None => Ok (Reobservation_Absent, (None, None, None))
  | Some (o, custody) =>
      steady_validate o ;?
      steady_custody_validate custody ;?
      reject (negb (String.eqb (ss_qualification_observation_id o)
                      (aq_source_observation_id q))
              || negb (String.eqb (ss_plan_document_digest o) (aq_plan_document_digest q))
              || negb (String.eqb (ss_compilation_id o) (aq_compilation_id q))
              || negb (String.eqb (ss_exact_work_id o) (aq_exact_work_id q))
              || negb (String.eqb (sy_observation_id custody) (ss_observation_id o)))
        "prior passive observation does not bind qualification" ;?
      reject (ss_observed_at_unix_ms o <? 0)%Z "prior passive time is invalid" ;?
      let? horizon := ok_or (checked_add (Z.to_N (ss_observed_at_unix_ms o))
                               (sf_max_age_ms p)) "prior passive horizon overflow" in
      Ok (if (horizon <=? evaluated_at_unix_ms)%N then Reobservation_Stale
          else Reobservation_Current,
          (Some (ss_observation_id o), Some (sy_custody_id custody), Some horizon))
  end.

Definition reobservation_of (p : SteadyStateEvidenceProfileV1)
    (q : ArtifactQualificationEvidenceV1) (requirement : ReobservationRequirementV1)
    (prior : option string * option string * option N) (evaluated_at_unix_ms : N)
    (identity : string) : SteadyStateReobservationBasisV1 :=
  {| ro_schema := REOBSERVATION_BASIS_SCHEMA_V1; ro_basis_id := identity;
     ro_requirement := requirement; ro_profile_id := sf_profile_id p;
     ro_qualification_id := aq_qualification_id q;
     ro_qualification_observation_id := aq_source_observation_id q;
     ro_source_observation_id := prior.1.1; ro_source_custody_id := prior.1.2;
     ro_plan_document_digest := aq_plan_document_digest q;
     ro_compilation_id := aq_compilation_id q; ro_exact_work_id := aq_exact_work_id q;
     ro_campaign_id := aq_campaign_id q; ro_occurrence_id := aq_occurrence_id q;
     ro_proposal_id := aq_proposal_id q; ro_issuance_id := aq_issuance_id q;
     ro_attempt_id := aq_attempt_id q; ro_settlement_id := aq_settlement_id q;
     ro_subject_digest := aq_subject_digest q; ro_scope_digest := aq_scope_digest q;
     ro_evaluated_at_unix_ms := evaluated_at_unix_ms;
     ro_prior_fresh_until_unix_ms := prior.2 |}.

Definition reobservation_create (p : SteadyStateEvidenceProfileV1)
    (q : ArtifactQualificationEvidenceV1)
    (prior : option (LocalComposeSteadyStateObservationV1 * SteadyStateObservationCustodyV1))
    (evaluated_at_unix_ms : N) : result string SteadyStateReobservationBasisV1 :=
  steady_profile_validate p ;?
  qualification_validate q ;?
  reject (negb (String.eqb (ep_profile_id (sf_qualification_profile p))
                  (aq_source_profile_id q)))
    "re-observation profile does not bind qualification profile" ;?
  let? '(requirement, named) := requirement_of p q prior evaluated_at_unix_ms in
  let build := reobservation_of p q requirement named evaluated_at_unix_ms in
  let? identity := composed_object_id (build "") "basis_id" in
  reobservation_validate (build identity) ;?
  Ok (build identity).
End steady.
