(* ===== verification/Authoring.v ===== *)
(** * Authoring context and custody
    (crates/nightshiftd/src/authoring_context.rs, authoring_custody.rs)

    Which plan and session a governed occurrence came from, and who delivered that
    assertion.  Nightshift mints both records when it prepares an AG proposal; neither is an
    authorization.  [authoring_custody.rs] repeats the HMAC functions and the
    [HmacAuthenticationV1] record of [external_observation.rs]; they are used from there. *)
From S2P Require Import Prelude Text External Signing ExternalObservation.
Local Open Scope string_scope.

(** ** Data *)

Record MaudeAuthoringContextInputV1 := {
  mi_schema : string;
  mi_plan_ref : string;
  mi_session_id : string;
  mi_plan_text : string
}.

#[global] Instance MaudeAuthoringContextInputV1_eq_dec : EqDecision MaudeAuthoringContextInputV1.
Proof. solve_decision. Defined.

Record AuthoringContextProvenanceV1 := {
  au_schema : string;
  au_provenance_id : string;
  au_producer_component : string;
  au_maude_plan_ref : string;
  au_maude_session_id : string;
  au_source_plan_bytes : N;
  au_campaign_id : string;
  au_occurrence_id : string;
  au_proposal_id : string;
  au_exact_work_id : string;
  au_source_intent_id : string;
  au_recorded_at : instant
}.

#[global] Instance AuthoringContextProvenanceV1_eq_dec : EqDecision AuthoringContextProvenanceV1.
Proof. solve_decision. Defined.

Inductive AuthoringContextQueryV1 :=
| AuthoringQuery_GovernedOccurrence (campaign_id : string) (occurrence_id : string)
| AuthoringQuery_Proposal (proposal_id : string)
| AuthoringQuery_MaudeContext (plan_ref : string) (session_id : string).

#[global] Instance AuthoringContextQueryV1_eq_dec : EqDecision AuthoringContextQueryV1.
Proof. solve_decision. Defined.

Record AuthoringContextExportV1 := {
  ae_schema : string;
  ae_query : AuthoringContextQueryV1;
  ae_matches : list AuthoringContextProvenanceV1
}.

Record MaudeSessionCustodyV1 := {
  ms_schema : string;
  ms_session_record_id : string;
  ms_session_issuer_principal_id : string;
  ms_session_issuer_key_id : string;
  ms_maude_session_id : string;
  ms_maude_plan_ref : string;
  ms_source_plan_bytes : N;
  ms_recorded_at : instant;
  ms_authentication : HmacAuthenticationV1
}.

#[global] Instance MaudeSessionCustodyV1_eq_dec : EqDecision MaudeSessionCustodyV1.
Proof. solve_decision. Defined.

Record MaudeAuthoringContextHandoffV1 := {
  mh_schema : string;
  mh_handoff_id : string;
  mh_producer_principal_id : string;
  mh_producer_key_id : string;
  mh_target_runtime_id : string;
  mh_target_request_id : string;
  mh_session_custody : MaudeSessionCustodyV1;
  mh_authoring_context : MaudeAuthoringContextInputV1;
  mh_created_at : instant;
  mh_authentication : HmacAuthenticationV1
}.

Record AuthoringContextCustodyProvenanceV1 := {
  ac_schema : string;
  ac_custody_id : string;
  ac_handoff_id : string;
  ac_session_record_id : string;
  ac_authoring_context_provenance_id : string;
  ac_campaign_id : string;
  ac_occurrence_id : string;
  ac_proposal_id : string;
  ac_exact_work_id : string;
  ac_producer_principal_id : string;
  ac_producer_key_id : string;
  ac_session_issuer_principal_id : string;
  ac_session_issuer_key_id : string;
  ac_target_runtime_id : string;
  ac_target_request_id : string;
  ac_maude_session_id : string;
  ac_maude_plan_ref : string;
  ac_authentication_method : string;
  ac_recorded_at : instant
}.

#[global] Instance AuthoringContextCustodyProvenanceV1_eq_dec : EqDecision AuthoringContextCustodyProvenanceV1.
Proof. solve_decision. Defined.

Record AuthoringContextCustodyExportV1 := {
  ak_schema : string;
  ak_query : AuthoringContextQueryV1;
  ak_matches : list AuthoringContextCustodyProvenanceV1
}.

(** Built by [custody_verify] alone. *)
Record VerifiedMaudeHandoffV1 := {
  vm_handoff : MaudeAuthoringContextHandoffV1
}.

Record MaudeCustodyVerifierV1 := {
  mv_expected_principal_id : string;
  mv_expected_key_id : string;
  mv_expected_session_issuer_principal_id : string;
  mv_expected_session_issuer_key_id : string;
  mv_expected_runtime_id : string;
  mv_producer_key : string;
  mv_session_issuer_key : string
}.

Definition AUTHORING_CONTEXT_INPUT_SCHEMA_V1 : string :=
  "nightshift.maude_authoring_context_input.v1".
Definition AUTHORING_CONTEXT_PROVENANCE_SCHEMA_V1 : string :=
  "nightshift.authoring_context_provenance.v1".
Definition AUTHORING_CONTEXT_EXPORT_SCHEMA_V1 : string :=
  "nightshift.authoring_context_export.v1".
Definition AUTHORING_CONTEXT_PRODUCER_V1 : string := "nightshift.canonical_runtime".
Definition AG_PROPOSAL_IDENTITY_DOMAIN_V1 : string := "ag.governed-loop.proposal/v1".
Definition MAX_PLAN_BYTES : N := 1024 * 1024.
Definition SESSION_CUSTODY_SCHEMA_V1 : string := "maude.supervised_session_custody.v1".
Definition HANDOFF_SCHEMA_V1 : string := "nightshift.maude_authoring_context_handoff.v1".
Definition CUSTODY_PROVENANCE_SCHEMA_V1 : string :=
  "nightshift.authoring_context_custody_provenance.v1".
Definition CUSTODY_EXPORT_SCHEMA_V1 : string := "nightshift.authoring_context_custody_export.v1".
Definition SESSION_AUTH_DOMAIN : string := "maude-supervised-session-custody/v1" +:+ NUL.
Definition AUTHORING_AUTH_DOMAIN : string := "nightshift-authoring-context-handoff/v1" +:+ NUL.

(** The serializers the modules call. *)
Class AuthoringDocuments : Type := {
  gd_provenance :: Serde AuthoringContextProvenanceV1;
  gd_session :: Serde MaudeSessionCustodyV1;
  gd_handoff :: Serde MaudeAuthoringContextHandoffV1;
  gd_custody :: Serde AuthoringContextCustodyProvenanceV1
}.

(** ** The authoring context *)

Section authoring.
Context {HO : Host} {UU : Uuids} {GD : AuthoringDocuments}.

Definition authoring_sha256 (bytes : string) : string := "sha256:" +:+ sha256_hex bytes.

Definition ag_hash_domain (domain payload : string) : string :=
  authoring_sha256 ("ag-ng" +:+ NUL +:+ "digest" +:+ NUL +:+ "v1" +:+ NUL
    +:+ be_bytes 16 (strlen domain) +:+ domain
    +:+ be_bytes 16 (strlen payload) +:+ payload).

Definition is_uuid (s : string) : bool := bool_decide (is_Some (uuid_parse s)).

Definition authoring_input_validate (i : MaudeAuthoringContextInputV1) : result string unit :=
  reject (negb (String.eqb (mi_schema i) AUTHORING_CONTEXT_INPUT_SCHEMA_V1))
    "unsupported Maude authoring-context input schema" ;?
  external_digest "Maude plan_ref" (mi_plan_ref i) ;?
  external_token "Maude session_id" (mi_session_id i) ;?
  reject (str_is_empty (mi_plan_text i) || (MAX_PLAN_BYTES <? strlen (mi_plan_text i))%N)
    "Maude plan_text must contain 1..=1048576 UTF-8 bytes" ;?
  reject (negb (String.eqb (authoring_sha256 (mi_plan_text i)) (mi_plan_ref i)))
    "Maude plan_ref does not bind the exact plan bytes".

Definition provenance_validate (p : AuthoringContextProvenanceV1) : result string unit :=
  reject (negb (String.eqb (au_schema p) AUTHORING_CONTEXT_PROVENANCE_SCHEMA_V1))
    "unsupported authoring-context provenance schema" ;?
  reject (negb (String.eqb (au_producer_component p) AUTHORING_CONTEXT_PRODUCER_V1))
    "authoring-context producer component mismatch" ;?
  external_digests
    [("provenance_id", au_provenance_id p); ("maude_plan_ref", au_maude_plan_ref p);
     ("campaign_id", au_campaign_id p); ("proposal_id", au_proposal_id p);
     ("exact_work_id", au_exact_work_id p); ("source_intent_id", au_source_intent_id p)] ;?
  external_token "maude_session_id" (au_maude_session_id p) ;?
  reject (negb (is_uuid (au_occurrence_id p)))
    "authoring-context occurrence_id must be a UUID" ;?
  reject ((au_source_plan_bytes p =? 0)%N || (MAX_PLAN_BYTES <? au_source_plan_bytes p)%N)
    "authoring-context source plan length is invalid" ;?
  let? identity := content_object_id p "provenance_id" in
  reject (negb (String.eqb (au_provenance_id p) identity))
    "authoring-context provenance_id does not bind the exact record".

Definition provenance_of (i : MaudeAuthoringContextInputV1)
    (campaign_id occurrence_id proposal_id exact_work_id source_intent_id : string)
    (recorded_at : instant) (identity : string) : AuthoringContextProvenanceV1 :=
  {| au_schema := AUTHORING_CONTEXT_PROVENANCE_SCHEMA_V1; au_provenance_id := identity;
     au_producer_component := AUTHORING_CONTEXT_PRODUCER_V1;
     au_maude_plan_ref := authoring_sha256 (mi_plan_text i);
     au_maude_session_id := mi_session_id i;
     au_source_plan_bytes := strlen (mi_plan_text i); au_campaign_id := campaign_id;
     au_occurrence_id := occurrence_id; au_proposal_id := proposal_id;
     au_exact_work_id := exact_work_id; au_source_intent_id := source_intent_id;
     au_recorded_at := recorded_at |}.

Definition provenance_mint (i : MaudeAuthoringContextInputV1)
    (campaign_id occurrence_id proposal_id exact_work_id source_intent_id : string)
    (recorded_at : instant) : result string AuthoringContextProvenanceV1 :=
  authoring_input_validate i ;?
  let build := provenance_of i campaign_id occurrence_id proposal_id exact_work_id
                 source_intent_id recorded_at in
  let? identity := content_object_id (build "") "provenance_id" in
  provenance_validate (build identity) ;?
  Ok (build identity).

Definition validate_relationship (p : AuthoringContextProvenanceV1)
    (campaign_id occurrence_id proposal_id exact_work_id source_intent_id : string)
    : result string unit :=
  provenance_validate p ;?
  reject (negb (String.eqb (au_campaign_id p) campaign_id)
          || negb (String.eqb (au_occurrence_id p) occurrence_id)
          || negb (String.eqb (au_proposal_id p) proposal_id)
          || negb (String.eqb (au_exact_work_id p) exact_work_id)
          || negb (String.eqb (au_source_intent_id p) source_intent_id))
    "authoring-context provenance does not bind the exact governed relationship".

Definition ag_proposal_identity (proposal_input : value) : result string string :=
  let? proposal := ok_or (value_get proposal_input "proposal")
    "proposal_input does not contain proposal" in
  reject (negb (is_object proposal)) "proposal_input.proposal must be an object" ;?
  let? canonical := jcs_value proposal in
  Ok (ag_hash_domain AG_PROPOSAL_IDENTITY_DOMAIN_V1 canonical).

Definition exact_work_identity (proposal_input : value) : result string string :=
  let? work :=
    ok_or ((value_get proposal_input "proposal" ≫= (fun p => value_get p "work")) ≫= as_str)
      "proposal_input does not contain exact proposal work" in
  external_digest "exact proposal work" work ;?
  Ok work.

Definition authoring_query_validate (q : AuthoringContextQueryV1) : result string unit :=
  match q with
  | AuthoringQuery_GovernedOccurrence campaign_id occurrence_id =>
      external_digest "campaign_id" campaign_id ;?
      reject (negb (is_uuid occurrence_id)) "occurrence_id must be a UUID"
  | AuthoringQuery_Proposal proposal_id => external_digest "proposal_id" proposal_id
  | AuthoringQuery_MaudeContext plan_ref session_id =>
      external_digest "plan_ref" plan_ref ;?
      external_token "session_id" session_id
  end.

Definition provenance_bound (q : AuthoringContextQueryV1) (p : AuthoringContextProvenanceV1)
    : bool :=
  match q with
  | AuthoringQuery_GovernedOccurrence campaign_id occurrence_id =>
      String.eqb (au_campaign_id p) campaign_id && String.eqb (au_occurrence_id p) occurrence_id
  | AuthoringQuery_Proposal proposal_id => String.eqb (au_proposal_id p) proposal_id
  | AuthoringQuery_MaudeContext plan_ref session_id =>
      String.eqb (au_maude_plan_ref p) plan_ref && String.eqb (au_maude_session_id p) session_id
  end.

Definition authoring_export_new (q : AuthoringContextQueryV1)
    (matches : list AuthoringContextProvenanceV1) : result string AuthoringContextExportV1 :=
  authoring_query_validate q ;?
  for_each (fun p =>
    provenance_validate p ;?
    reject (negb (provenance_bound q p))
      "authoring-context export contains a substituted match") matches ;?
  Ok {| ae_schema := AUTHORING_CONTEXT_EXPORT_SCHEMA_V1; ae_query := q;
        ae_matches := matches |}.

(** ** Custody *)

Definition require_hmac (name value : string) : result string unit :=
  let message := name +:+ " must use hmac-sha256:<64 lowercase hex>" in
  let? hex := ok_or (strip_prefix value "hmac-sha256:") message in
  reject (negb (lower_hex_of_length 64 hex)) message.

Definition custody_semantic_id {T} {ST : Serde T} (t : T) (id_field : string)
    : result string string :=
  let? v := to_value t in
  match v with
  | Object kvs =>
      let? bytes := jcs_value (Object (object_remove "authentication"
                                         (object_remove id_field kvs))) in
      Ok (authoring_sha256 bytes)
  | _ => Err "custody identity preimage is not an object"
  end.

Definition custody_preimage {T} {ST : Serde T} (t : T) : result string string :=
  let? v := to_value t in
  match v with
  | Object kvs => jcs_value (Object (object_remove "authentication" kvs))
  | _ => Err "custody authentication preimage is not an object"
  end.

Definition authentication_validate (a : HmacAuthenticationV1) (expected_key_id : string)
    : result string unit :=
  reject (negb (String.eqb (hm_schema a) HMAC_AUTH_SCHEMA_V1))
    "unsupported Maude custody authentication schema" ;?
  external_token "custody authentication key_id" (hm_key_id a) ;?
  reject (negb (String.eqb (hm_key_id a) expected_key_id))
    "custody authentication key identity mismatch" ;?
  require_hmac "custody authentication tag" (hm_tag a).

Definition session_validate_untrusted (s : MaudeSessionCustodyV1) : result string unit :=
  reject (negb (String.eqb (ms_schema s) SESSION_CUSTODY_SCHEMA_V1))
    "unsupported Maude supervised-session custody schema" ;?
  external_digest "session_record_id" (ms_session_record_id s) ;?
  external_token "session_issuer_principal_id" (ms_session_issuer_principal_id s) ;?
  external_token "session_issuer_key_id" (ms_session_issuer_key_id s) ;?
  external_token "maude_session_id" (ms_maude_session_id s) ;?
  external_digest "maude_plan_ref" (ms_maude_plan_ref s) ;?
  reject ((ms_source_plan_bytes s =? 0)%N || (1024 * 1024 <? ms_source_plan_bytes s)%N)
    "session custody source plan length is invalid" ;?
  authentication_validate (ms_authentication s) (ms_session_issuer_key_id s) ;?
  let? identity := custody_semantic_id s "session_record_id" in
  reject (negb (String.eqb identity (ms_session_record_id s)))
    "session_record_id does not bind the exact session custody facts".

Definition maude_validate_untrusted (h : MaudeAuthoringContextHandoffV1) : result string unit :=
  let session := mh_session_custody h in
  let authored := mh_authoring_context h in
  reject (negb (String.eqb (mh_schema h) HANDOFF_SCHEMA_V1))
    "unsupported Maude authoring-context handoff schema" ;?
  external_digest "handoff_id" (mh_handoff_id h) ;?
  external_token "producer_principal_id" (mh_producer_principal_id h) ;?
  external_token "producer_key_id" (mh_producer_key_id h) ;?
  external_token "target_runtime_id" (mh_target_runtime_id h) ;?
  external_digest "target_request_id" (mh_target_request_id h) ;?
  session_validate_untrusted session ;?
  authoring_input_validate authored ;?
  authentication_validate (mh_authentication h) (mh_producer_key_id h) ;?
  reject (String.eqb (ms_session_issuer_key_id session) (mh_producer_key_id h))
    "session issuer and handoff producer must use distinct key identities" ;?
  reject (negb (String.eqb (ms_maude_session_id session) (mi_session_id authored))
          || negb (String.eqb (ms_maude_plan_ref session) (mi_plan_ref authored))
          || negb (ms_source_plan_bytes session =? strlen (mi_plan_text authored))%N)
    "handoff does not bind its exact supervised session and plan" ;?
  let? identity := custody_semantic_id h "handoff_id" in
  reject (negb (String.eqb identity (mh_handoff_id h)))
    "handoff_id does not bind the exact handoff facts".

Definition verify_authentication {T} {ST : Serde T} (key domain : string) (t : T)
    (authentication : HmacAuthenticationV1) : result string unit :=
  let? preimage := custody_preimage t in
  reject (negb (constant_time_eq (hmac_text key domain preimage) (hm_tag authentication)))
    "Maude custody authentication failed".

(** [MaudeCustodyVerifierV1::from_key_file] of the two keys it reads. *)
Definition custody_verifier (expected_principal_id expected_key_id
    expected_session_issuer_principal_id expected_session_issuer_key_id expected_runtime_id
    producer_key session_issuer_key : string) : result string MaudeCustodyVerifierV1 :=
  external_token "expected producer principal" expected_principal_id ;?
  external_token "expected producer key" expected_key_id ;?
  external_token "expected Maude session issuer principal"
    expected_session_issuer_principal_id ;?
  external_token "expected Maude session issuer key" expected_session_issuer_key_id ;?
  external_token "expected Nightshift runtime" expected_runtime_id ;?
  reject (String.eqb expected_key_id expected_session_issuer_key_id
          || String.eqb producer_key session_issuer_key)
    "Maude handoff producer and session issuer credentials must be distinct" ;?
  Ok {| mv_expected_principal_id := expected_principal_id;
        mv_expected_key_id := expected_key_id;
        mv_expected_session_issuer_principal_id := expected_session_issuer_principal_id;
        mv_expected_session_issuer_key_id := expected_session_issuer_key_id;
        mv_expected_runtime_id := expected_runtime_id; mv_producer_key := producer_key;
        mv_session_issuer_key := session_issuer_key |}.

Definition custody_verify (v : MaudeCustodyVerifierV1) (h : MaudeAuthoringContextHandoffV1)
    (expected_target_request_id : string) : result string VerifiedMaudeHandoffV1 :=
  let session := mh_session_custody h in
  maude_validate_untrusted h ;?
  reject (negb (String.eqb (mh_producer_principal_id h) (mv_expected_principal_id v))
          || negb (String.eqb (mh_producer_key_id h) (mv_expected_key_id v)))
    "Maude handoff producer identity is not configured for this ingress" ;?
  reject (negb (String.eqb (ms_session_issuer_principal_id session)
                  (mv_expected_session_issuer_principal_id v))
          || negb (String.eqb (ms_session_issuer_key_id session)
                     (mv_expected_session_issuer_key_id v)))
    "Maude supervised-session issuer is not configured for this ingress" ;?
  reject (negb (String.eqb (mh_target_runtime_id h) (mv_expected_runtime_id v)))
    "Maude handoff targets a different Nightshift runtime" ;?
  reject (negb (String.eqb (mh_target_request_id h) expected_target_request_id))
    "Maude handoff targets a different canonical cycle request" ;?
  verify_authentication (mv_session_issuer_key v) SESSION_AUTH_DOMAIN session
    (ms_authentication session) ;?
  verify_authentication (mv_producer_key v) AUTHORING_AUTH_DOMAIN h (mh_authentication h) ;?
  Ok {| vm_handoff := h |}.

(** *** The custody record *)

Definition authoring_custody_validate (c : AuthoringContextCustodyProvenanceV1)
    : result string unit :=
  reject (negb (String.eqb (ac_schema c) CUSTODY_PROVENANCE_SCHEMA_V1))
    "unsupported authoring-context custody provenance schema" ;?
  external_digests
    [("custody_id", ac_custody_id c); ("handoff_id", ac_handoff_id c);
     ("session_record_id", ac_session_record_id c);
     ("authoring_context_provenance_id", ac_authoring_context_provenance_id c);
     ("campaign_id", ac_campaign_id c); ("proposal_id", ac_proposal_id c);
     ("exact_work_id", ac_exact_work_id c); ("target_request_id", ac_target_request_id c);
     ("maude_plan_ref", ac_maude_plan_ref c)] ;?
  reject (negb (is_uuid (ac_occurrence_id c))) "custody occurrence_id must be a UUID" ;?
  external_tokens
    [("producer_principal_id", ac_producer_principal_id c);
     ("producer_key_id", ac_producer_key_id c);
     ("session_issuer_principal_id", ac_session_issuer_principal_id c);
     ("session_issuer_key_id", ac_session_issuer_key_id c);
     ("target_runtime_id", ac_target_runtime_id c);
     ("maude_session_id", ac_maude_session_id c)] ;?
  reject (negb (String.eqb (ac_authentication_method c) HMAC_AUTH_SCHEMA_V1))
    "unsupported custody authentication method" ;?
  let? identity := custody_semantic_id c "custody_id" in
  reject (negb (String.eqb identity (ac_custody_id c)))
    "custody_id does not bind the exact custody provenance".

Definition authoring_custody_of (verified : VerifiedMaudeHandoffV1)
    (authoring : AuthoringContextProvenanceV1) (recorded_at : instant) (identity : string)
    : AuthoringContextCustodyProvenanceV1 :=
  let handoff := vm_handoff verified in
  let session := mh_session_custody handoff in
  {| ac_schema := CUSTODY_PROVENANCE_SCHEMA_V1; ac_custody_id := identity;
     ac_handoff_id := mh_handoff_id handoff;
     ac_session_record_id := ms_session_record_id session;
     ac_authoring_context_provenance_id := au_provenance_id authoring;
     ac_campaign_id := au_campaign_id authoring;
     ac_occurrence_id := au_occurrence_id authoring;
     ac_proposal_id := au_proposal_id authoring;
     ac_exact_work_id := au_exact_work_id authoring;
     ac_producer_principal_id := mh_producer_principal_id handoff;
     ac_producer_key_id := mh_producer_key_id handoff;
     ac_session_issuer_principal_id := ms_session_issuer_principal_id session;
     ac_session_issuer_key_id := ms_session_issuer_key_id session;
     ac_target_runtime_id := mh_target_runtime_id handoff;
     ac_target_request_id := mh_target_request_id handoff;
     ac_maude_session_id := mi_session_id (mh_authoring_context handoff);
     ac_maude_plan_ref := mi_plan_ref (mh_authoring_context handoff);
     ac_authentication_method := HMAC_AUTH_SCHEMA_V1; ac_recorded_at := recorded_at |}.

Definition authoring_custody_mint (verified : VerifiedMaudeHandoffV1)
    (authoring : AuthoringContextProvenanceV1) (recorded_at : instant)
    : result string AuthoringContextCustodyProvenanceV1 :=
  let build := authoring_custody_of verified authoring recorded_at in
  let? identity := custody_semantic_id (build "") "custody_id" in
  authoring_custody_validate (build identity) ;?
  Ok (build identity).

Definition validate_for_authoring (c : AuthoringContextCustodyProvenanceV1)
    (authoring : AuthoringContextProvenanceV1) : result string unit :=
  authoring_custody_validate c ;?
  reject (negb (String.eqb (ac_authoring_context_provenance_id c)
                  (au_provenance_id authoring))
          || negb (String.eqb (ac_campaign_id c) (au_campaign_id authoring))
          || negb (String.eqb (ac_occurrence_id c) (au_occurrence_id authoring))
          || negb (String.eqb (ac_proposal_id c) (au_proposal_id authoring))
          || negb (String.eqb (ac_exact_work_id c) (au_exact_work_id authoring))
          || negb (String.eqb (ac_maude_session_id c) (au_maude_session_id authoring))
          || negb (String.eqb (ac_maude_plan_ref c) (au_maude_plan_ref authoring)))
    "custody provenance does not bind the exact authoring lineage".

Definition custody_bound (q : AuthoringContextQueryV1)
    (c : AuthoringContextCustodyProvenanceV1) : bool :=
  match q with
  | AuthoringQuery_GovernedOccurrence campaign_id occurrence_id =>
      String.eqb (ac_campaign_id c) campaign_id && String.eqb (ac_occurrence_id c) occurrence_id
  | AuthoringQuery_Proposal proposal_id => String.eqb (ac_proposal_id c) proposal_id
  | AuthoringQuery_MaudeContext plan_ref session_id =>
      String.eqb (ac_maude_plan_ref c) plan_ref && String.eqb (ac_maude_session_id c) session_id
  end.

Definition custody_export_validate (e : AuthoringContextCustodyExportV1)
    : result string unit :=
  reject (negb (String.eqb (ak_schema e) CUSTODY_EXPORT_SCHEMA_V1))
    "unsupported authoring-context custody export schema" ;?
  authoring_query_validate (ak_query e) ;?
  for_each (fun c =>
    authoring_custody_validate c ;?
    reject (negb (custody_bound (ak_query e) c))
      "authoring custody export contains a substituted match") (ak_matches e).
End authoring.
