(* ===== verification/Equality.v ===== *)
(** * Derived equality of the diagnostic records

    [#[derive(PartialEq)]] on the records of the diagnostic modules, as decidable equality
    instances.  Two JSON documents are equal when they are the same [value] (serde_json also
    identifies the floats 0.0 and -0.0). *)
From S2P Require Import Prelude Text External Diagnostic DiagnosticV2 Currentness.
From S2P Require Import Posture.

#[global] Instance DiagnosticExecutionSchema_eq_dec : EqDecision DiagnosticExecutionSchema.
Proof. solve_decision. Defined.

#[global] Instance ExpectedInputV1_eq_dec : EqDecision ExpectedInputV1.
Proof. solve_decision. Defined.

#[global] Instance RawCaptureModeV1_eq_dec : EqDecision RawCaptureModeV1.
Proof. solve_decision. Defined.

#[global] Instance EvidenceAvailabilityV1_eq_dec : EqDecision EvidenceAvailabilityV1.
Proof. solve_decision. Defined.

#[global] Instance ReceivedInputV1_eq_dec : EqDecision ReceivedInputV1.
Proof. solve_decision. Defined.

#[global] Instance AdmittedInputV1_eq_dec : EqDecision AdmittedInputV1.
Proof. solve_decision. Defined.

#[global] Instance RefusedInputV1_eq_dec : EqDecision RefusedInputV1.
Proof. solve_decision. Defined.

#[global] Instance FailedInputV1_eq_dec : EqDecision FailedInputV1.
Proof. solve_decision. Defined.

#[global] Instance ExcludedInputV1_eq_dec : EqDecision ExcludedInputV1.
Proof. solve_decision. Defined.

#[global] Instance SelectedInputV1_eq_dec : EqDecision SelectedInputV1.
Proof. solve_decision. Defined.

#[global] Instance InputAccountingV1_eq_dec : EqDecision InputAccountingV1.
Proof. solve_decision. Defined.

#[global] Instance DiagnosticExecutionV1_eq_dec : EqDecision DiagnosticExecutionV1.
Proof. solve_decision. Defined.

#[global] Instance DiagnosticExecutionSchemaV2_eq_dec : EqDecision DiagnosticExecutionSchemaV2.
Proof. solve_decision. Defined.

#[global] Instance GovernedRefusalSchemaV1_eq_dec : EqDecision GovernedRefusalSchemaV1.
Proof. solve_decision. Defined.

#[global] Instance ReceivedInputV2_eq_dec : EqDecision ReceivedInputV2.
Proof. solve_decision. Defined.

#[global] Instance HelperRefusalV1_eq_dec : EqDecision HelperRefusalV1.
Proof. solve_decision. Defined.

#[global] Instance GovernedRefusalOriginV1_eq_dec : EqDecision GovernedRefusalOriginV1.
Proof. solve_decision. Defined.

#[global] Instance GovernedRefusalV1_eq_dec : EqDecision GovernedRefusalV1.
Proof. solve_decision. Defined.

#[global] Instance ProfileRefusalBindingV2_eq_dec : EqDecision ProfileRefusalBindingV2.
Proof. solve_decision. Defined.

#[global] Instance RefusedInputV2_eq_dec : EqDecision RefusedInputV2.
Proof. solve_decision. Defined.

#[global] Instance FailedAcquisitionCustodyV2_eq_dec : EqDecision FailedAcquisitionCustodyV2.
Proof. solve_decision. Defined.

#[global] Instance FailedInputCauseV2_eq_dec : EqDecision FailedInputCauseV2.
Proof. solve_decision. Defined.

#[global] Instance FailedInputV2_eq_dec : EqDecision FailedInputV2.
Proof. solve_decision. Defined.

#[global] Instance InputAccountingV2_eq_dec : EqDecision InputAccountingV2.
Proof. solve_decision. Defined.

#[global] Instance OutcomeV2_eq_dec : EqDecision OutcomeV2.
Proof. solve_decision. Defined.

#[global] Instance DiagnosticExecutionV2_eq_dec : EqDecision DiagnosticExecutionV2.
Proof. solve_decision. Defined.

#[global] Instance DiagnosticExecution_eq_dec : EqDecision DiagnosticExecution.
Proof. solve_decision. Defined.

#[global] Instance DiagnosticInputFailureKind_eq_dec : EqDecision DiagnosticInputFailureKind.
Proof. solve_decision. Defined.

#[global] Instance DiagnosticInputFailureTrace_eq_dec : EqDecision DiagnosticInputFailureTrace.
Proof. solve_decision. Defined.

#[global] Instance DiagnosticOutcome_eq_dec : EqDecision DiagnosticOutcome.
Proof. solve_decision. Defined.

#[global] Instance Frontier_eq_dec : EqDecision Frontier.
Proof. solve_decision. Defined.

#[global] Instance PresentEvidenceQueryV1_eq_dec : EqDecision PresentEvidenceQueryV1.
Proof. solve_decision. Defined.

#[global] Instance RequiredStateBinding_eq_dec : EqDecision RequiredStateBinding.
Proof. solve_decision. Defined.

#[global] Instance ContractBinding_eq_dec : EqDecision ContractBinding.
Proof. solve_decision. Defined.

#[global] Instance InventoryEntry_eq_dec : EqDecision InventoryEntry.
Proof. solve_decision. Defined.

#[global] Instance PosturePolicy_eq_dec : EqDecision PosturePolicy.
Proof. solve_decision. Defined.

#[global] Instance DiagnosticInputStatus_eq_dec : EqDecision DiagnosticInputStatus.
Proof. solve_decision. Defined.

#[global] Instance DiagnosticInput_eq_dec : EqDecision DiagnosticInput.
Proof. solve_decision. Defined.

#[global] Instance DiagnosticInputs_eq_dec : EqDecision DiagnosticInputs.
Proof. solve_decision. Defined.

#[global] Instance NqClaimTrace_eq_dec : EqDecision NqClaimTrace.
Proof. solve_decision. Defined.

#[global] Instance EntryAssessment_eq_dec : EqDecision EntryAssessment.
Proof. solve_decision. Defined.

#[global] Instance ScheduleObligation_eq_dec : EqDecision ScheduleObligation.
Proof. solve_decision. Defined.

#[global] Instance RunSlotEvidence_eq_dec : EqDecision RunSlotEvidence.
Proof. solve_decision. Defined.

#[global] Instance RecurrenceRecord_eq_dec : EqDecision RecurrenceRecord.
Proof. solve_decision. Defined.

#[global] Instance RecurrenceEvidence_eq_dec : EqDecision RecurrenceEvidence.
Proof. solve_decision. Defined.

#[global] Instance RecurrenceAssessment_eq_dec : EqDecision RecurrenceAssessment.
Proof. solve_decision. Defined.

#[global] Instance InputTrace_eq_dec : EqDecision InputTrace.
Proof. solve_decision. Defined.

#[global] Instance OperationalPosture_eq_dec : EqDecision OperationalPosture.
Proof. solve_decision. Defined.

#[global] Instance OperatorProjectionSlot_eq_dec : EqDecision OperatorProjectionSlot.
Proof. solve_decision. Defined.

#[global] Instance OperatorProjection_eq_dec : EqDecision OperatorProjection.
Proof. solve_decision. Defined.
