(* ===== verification/CanonicalRecords.v ===== *)
(** * Canonical records (crates/nightshiftd/src/canonical_store.rs, lines 45-1454)

    The records of the canonical store: recurrence slots and when they may be claimed, the
    observation record with the evidence it composes, the temporal posture, the typed
    intent, the prepared and the observed AG occurrence, and the observation cycle with its
    well-formedness.  [CanonicalStore] keeps them. *)
From S2P Require Import Prelude Text External Signing Continuity SubstrateOrigin NqAdmission.
From S2P Require Import ExternalObservation ExternalComposition SteadyState Authoring.
From S2P Require Import Diagnostic DiagnosticV2.
From S2P Require Currentness.
From S2P Require Import Posture Equality.
Import Currentness (QualifiedSupportV1, RecurrenceLatestAdmissibleV1, TemporalHoldExpiryV1,
  admits, is_active, rl_scheduler_clock_id, rl_at, th_scheduler_clock_id, Support_Current,
  qs_standing, qs_support_id, qs_observation_cycle_id, qs_observation_id,
  qs_diagnostic_inputs_id).
Local Open Scope string_scope.

(** ** Data *)

(** The identifiers are newtypes of a string. *)
Abbreviation ObservationCycleId := string (only parsing).
Abbreviation RecurrenceSlotId := string (only parsing).

Inductive RecurrenceTriggerV1 := Trigger_Scheduled | Trigger_Manual | Trigger_Event | Trigger_CatchUp.

#[global] Instance RecurrenceTriggerV1_eq_dec : EqDecision RecurrenceTriggerV1.
Proof. solve_decision. Defined.

Inductive SlotTimingV1 := Timing_OnTime | Timing_Late | Timing_CatchUp | Timing_Missed.

#[global] Instance SlotTimingV1_eq_dec : EqDecision SlotTimingV1.
Proof. solve_decision. Defined.

Record RecurrenceSlotV1 := {
  sl_schema : string;
  sl_slot_id : RecurrenceSlotId;
  sl_policy_id : string;
  sl_configuration_version : string;
  sl_subject_id : string;
  sl_scope_id : string;
  sl_scheduler_clock_id : string;
  sl_nominal_due_at : instant;
  sl_latest_admissible : RecurrenceLatestAdmissibleV1;
  sl_occurrence : N;
  sl_trigger : RecurrenceTriggerV1;
  sl_catch_up_of : option RecurrenceSlotId
}.

#[global] Instance RecurrenceSlotV1_eq_dec : EqDecision RecurrenceSlotV1.
Proof. solve_decision. Defined.

Inductive CycleStatusV1 :=
| Cycle_Observing
| Cycle_PostureRecorded
| Cycle_AwaitingAg
| Cycle_AwaitingAgReconciliation
| Cycle_ObservationRequired
| Cycle_Halted
| Cycle_Closed
| Cycle_Missed
| Cycle_RecoveryRequired.

#[global] Instance CycleStatusV1_eq_dec : EqDecision CycleStatusV1.
Proof. solve_decision. Defined.

Record ObservationRecordV1 := {
  obs_schema : string;
  obs_observation_id : string;
  obs_source_admissions : list NqAdmissionProvenance;
  obs_continuity_applicability : list ContinuityApplicabilityV1;
  obs_substrate_origin_applicability : list SubstrateOriginApplicabilityV1;
  obs_external_evidence : option ComposedExternalEvidenceV1;
  obs_decision_external_evidence : option ComposedDecisionRelativeEvidenceV1;
  obs_support : QualifiedSupportV1;
  obs_posture : OperationalPosture
}.

#[global] Instance ObservationRecordV1_eq_dec : EqDecision ObservationRecordV1.
Proof. solve_decision. Defined.

Record ObservationFamilyKeyV1 := {
  fk_policy_id : string;
  fk_configuration_version : string;
  fk_subject_id : string;
  fk_scope_id : string;
  fk_scheduler_clock_id : string
}.

#[global] Instance ObservationFamilyKeyV1_eq_dec : EqDecision ObservationFamilyKeyV1.
Proof. solve_decision. Defined.

Record ObservationOrderKeyV1 := {
  ok_occurrence : N;
  ok_nominal_due_at : instant;
  ok_slot_id : string
}.

#[global] Instance ObservationOrderKeyV1_eq_dec : EqDecision ObservationOrderKeyV1.
Proof. solve_decision. Defined.

Inductive AttentionClassV1 := Attention_Display | Attention_AttentionRequired | Attention_EscalationRequested.

#[global] Instance AttentionClassV1_eq_dec : EqDecision AttentionClassV1.
Proof. solve_decision. Defined.

Record AttentionRecordV1 := {
  an_class : AttentionClassV1;
  an_source_posture_id : string;
  an_reason_code : string;
  an_display_text : option string
}.

#[global] Instance AttentionRecordV1_eq_dec : EqDecision AttentionRecordV1.
Proof. solve_decision. Defined.

Inductive TemporalDecisionV1 := Decision_Observe | Decision_Hold | Decision_Attention.

#[global] Instance TemporalDecisionV1_eq_dec : EqDecision TemporalDecisionV1.
Proof. solve_decision. Defined.

Record TemporalPostureV1 := {
  tp_policy_id : string;
  tp_basis_digest : string;
  tp_hold_expiry : option TemporalHoldExpiryV1;
  tp_evaluated_at : instant;
  tp_decision : TemporalDecisionV1
}.

#[global] Instance TemporalPostureV1_eq_dec : EqDecision TemporalPostureV1.
Proof. solve_decision. Defined.

Record TypedCoarseIntentV2 := {
  tc_schema : string;
  tc_intent_id : string;
  tc_workflow_id : string;
  tc_intent_kind : string;
  tc_subject_id : string;
  tc_subject_digest : string;
  tc_scope_id : string;
  tc_source_observation_id : string;
  tc_source_support_id : string;
  tc_source_posture_id : string;
  tc_immutable_parameters : value;
  tc_compiled_work : string;
  tc_expected_ag_work : string
}.

#[global] Instance TypedCoarseIntentV2_eq_dec : EqDecision TypedCoarseIntentV2.
Proof. solve_decision. Defined.

Inductive AgProgramCounterV1 :=
| Pc_ObservationRequired
| Pc_ProposalRecorded
| Pc_StandingRequired
| Pc_AdmissiblePendingAuthorization
| Pc_AuthorizationConsumed
| Pc_Dispatched
| Pc_ReconciliationRequired
| Pc_SettledObservationRequired
| Pc_Halted
| Pc_Completed.

#[global] Instance AgProgramCounterV1_eq_dec : EqDecision AgProgramCounterV1.
Proof. solve_decision. Defined.

Record AgOccurrenceReferenceV1 := {
  ar_schema : string;
  ar_campaign_id : string;
  ar_occurrence_id : string;
  ar_state_digest : string;
  ar_snapshot_digest : string;
  ar_program_counter : AgProgramCounterV1;
  ar_docket_attempt_id : option string;
  ar_settlement_id : option string;
  ar_external_decision_request_id : option string;
  ar_exact_snapshot : value
}.

#[global] Instance AgOccurrenceReferenceV1_eq_dec : EqDecision AgOccurrenceReferenceV1.
Proof. solve_decision. Defined.

Record AgRefusalReferenceV1 := {
  arf_schema : string;
  arf_refusal_digest : string;
  arf_campaign_id : string;
  arf_occurrence_id : string;
  arf_at_state_digest : string;
  arf_code : string;
  arf_evidence : option string;
  arf_exact_outcome : value
}.

#[global] Instance AgRefusalReferenceV1_eq_dec : EqDecision AgRefusalReferenceV1.
Proof. solve_decision. Defined.

Record PreparedAgRequestV1 := {
  pq_schema : string;
  pq_request_digest : string;
  pq_campaign_id : string;
  pq_occurrence_id : string;
  pq_source_intent_id : string;
  pq_exact_request : value
}.

#[global] Instance PreparedAgRequestV1_eq_dec : EqDecision PreparedAgRequestV1.
Proof. solve_decision. Defined.

Record ObservationCycleV1 := {
  cy_schema : string;
  cy_cycle_id : ObservationCycleId;
  cy_slot : RecurrenceSlotV1;
  cy_timing : SlotTimingV1;
  cy_status : CycleStatusV1;
  cy_version : N;
  cy_prior_state_digest : option string;
  cy_state_digest : string;
  cy_created_at : string;
  cy_updated_at : string;
  cy_observation : option ObservationRecordV1;
  cy_attention : option AttentionRecordV1;
  cy_temporal_posture : option TemporalPostureV1;
  cy_intent : option TypedCoarseIntentV2;
  cy_prepared_ag_request : option PreparedAgRequestV1;
  cy_authoring_context_provenance : option AuthoringContextProvenanceV1;
  cy_authoring_context_custody : option AuthoringContextCustodyProvenanceV1;
  cy_ag : option AgOccurrenceReferenceV1;
  cy_ag_refusal : option AgRefusalReferenceV1;
  cy_recovery_reason : option string
}.

#[global] Instance ObservationCycleV1_eq_dec : EqDecision ObservationCycleV1.
Proof. solve_decision. Defined.

Record PreparedAuthoringEvidenceV1 := {
  pa_lineage : option AuthoringContextProvenanceV1;
  pa_custody : option AuthoringContextCustodyProvenanceV1
}.

Record ObservationExportMatchV1 := {
  em_cycle_id : string;
  em_slot_id : string;
  em_family : ObservationFamilyKeyV1;
  em_order_key : ObservationOrderKeyV1;
  em_family_latest_cycle_id : option string;
  em_family_latest_order_key : option ObservationOrderKeyV1;
  em_observation : ObservationRecordV1
}.

Record ObservationExportV1 := {
  eo_schema : string;
  eo_observation_id : string;
  eo_matches : list ObservationExportMatchV1
}.

(** The process-local witness of a claimed slot. *)
Record LiveCycleLeaseV1 := {
  lv_cycle_id : ObservationCycleId;
  lv_slot_id : RecurrenceSlotId;
  lv_process_nonce : uuid
}.

Inductive CanonicalStoreError :=
| StoreSql (message : string)
| StoreJson (message : string)
| StoreInvalid (message : string)
| DuplicateSlot (slot_id : string)
| DuplicateAgOccurrence (campaign_id occurrence_id : string)
| NotDue (slot_id : string)
| MissedSlot (slot_id : string)
| CycleNotFound (cycle_id : string)
| StalePredecessor
| IllegalTransition (message : string)
| WrongLiveLease
| ReplayFailed (message : string)
| ExternalObservationConflict (message : string).

Definition SLOT_SCHEMA_V1 : string := "nightshift.recurrence_slot.v1".
Definition CYCLE_SCHEMA_V1 : string := "nightshift.observation_cycle.v1".
Definition OBSERVATION_RECORD_SCHEMA_V1 : string := "nightshift.observation_record.v1".
Definition OBSERVATION_RECORD_SCHEMA_V2 : string := "nightshift.observation_record.v2".
Definition OBSERVATION_RECORD_SCHEMA_V3 : string := "nightshift.observation_record.v3".
Definition OBSERVATION_RECORD_SCHEMA_V4 : string := "nightshift.observation_record.v4".
Definition OBSERVATION_RECORD_SCHEMA_V5 : string := "nightshift.observation_record.v5".
Definition OBSERVATION_RECORD_SCHEMA_V6 : string := "nightshift.observation_record.v6".
Definition TYPED_INTENT_SCHEMA_V2 : string := "nightshift.typed_coarse_intent.v2".
Definition AG_REFERENCE_SCHEMA_V1 : string := "nightshift.ag_occurrence_reference.v1".
Definition AG_REFUSAL_SCHEMA_V1 : string := "nightshift.ag_refusal_reference.v1".
Definition PREPARED_AG_REQUEST_SCHEMA_V1 : string := "nightshift.prepared_ag_request.v1".
Definition OBSERVATION_EXPORT_SCHEMA_V1 : string := "nightshift.observation_export.v1".

(** The serializers and crates the store uses, besides those of the posture. *)
Class CanonicalDocuments : Type := {
  nd_ed25519 :: Ed25519;
  nd_uuids :: Uuids;
  nd_admission :: AdmissionDocuments;
  nd_steady :: SteadyDocuments;
  nd_authoring :: AuthoringDocuments;
  nd_slot :: Serde RecurrenceSlotV1;
  nd_intent :: Serde TypedCoarseIntentV2;
  nd_cycle :: Serde ObservationCycleV1
}.

(** ** Operations *)

Section records.
Context {PD : PostureDocuments} {ND : CanonicalDocuments}.

(** [?] of a module that reports strings. *)
Definition invalid_record {A} (m : result string A) : result CanonicalStoreError A :=
  map_err StoreInvalid m.
Definition as_replay {A} (m : result string A) : result CanonicalStoreError A :=
  map_err ReplayFailed m.

Definition store_token (name value : string) : result CanonicalStoreError unit :=
  invalid_record (reject (trim_is_empty value || has_whitespace value)
             (name +:+ " must be a non-empty token")).

Definition store_digest (name value : string) : result CanonicalStoreError unit :=
  invalid_record (external_digest name value).

Definition store_digests (fields : list (string * string)) : result CanonicalStoreError unit :=
  for_each (fun '(name, value) => store_digest name value) fields.
Definition store_tokens (fields : list (string * string)) : result CanonicalStoreError unit :=
  for_each (fun '(name, value) => store_token name value) fields.

Definition store_object_id {T} {ST : Serde T} (t : T) (field : string)
    : result CanonicalStoreError string :=
  let? v := map_err StoreJson (to_value t) in
  match v with
  | Object kvs =>
      let? canonical := invalid_record (jcs_value (Object (object_remove field kvs))) in
      Ok ("sha256:" +:+ sha256_hex canonical)
  | _ => Err (StoreInvalid "identity preimage is not an object")
  end.

Definition canonical_json {T} {ST : Serde T} (t : T) : result CanonicalStoreError string :=
  invalid_record (to_vec t).

Definition timestamp (t : instant) : string := to_rfc3339_autosi t.

(** [format!("sha256:{:x}", Sha256::digest(serde_jcs::to_vec(value)?))]. *)
Definition value_digest (v : value) : result CanonicalStoreError string :=
  let? canonical := invalid_record (jcs_value v) in
  Ok ("sha256:" +:+ sha256_hex canonical).

(** *** Identifiers *)

(** [ObservationCycleId::fresh] of the UUID it draws, and [parse]. *)
Definition cycle_id_fresh (drawn : uuid) : ObservationCycleId := "cycle:" +:+ drawn.

Definition cycle_id_parse (s : string) : result CanonicalStoreError ObservationCycleId :=
  store_token "observation_cycle_id" s ;?
  let? id := ok_or (strip_prefix s "cycle:")
    (StoreInvalid "observation_cycle_id must use the cycle:<uuid> namespace") in
  reject (negb (is_uuid id))
    (StoreInvalid "observation_cycle_id contains an invalid UUID") ;?
  Ok s.

(** *** Recurrence slots *)

Definition slot_validate (s : RecurrenceSlotV1) : result CanonicalStoreError unit :=
  reject (negb (String.eqb (sl_schema s) SLOT_SCHEMA_V1))
    (StoreInvalid ("unsupported recurrence slot schema " +:+ sl_schema s)) ;?
  store_digest "slot_id" (sl_slot_id s) ;?
  store_tokens
    [("policy_id", sl_policy_id s); ("configuration_version", sl_configuration_version s);
     ("subject_id", sl_subject_id s); ("scope_id", sl_scope_id s);
     ("scheduler_clock_id", sl_scheduler_clock_id s)] ;?
  reject (negb (String.eqb (rl_scheduler_clock_id (sl_latest_admissible s))
                  (sl_scheduler_clock_id s)))
    (StoreInvalid "slot due/latest instants use different scheduler clocks") ;?
  reject (rl_at (sl_latest_admissible s) <? sl_nominal_due_at s)%Z
    (StoreInvalid "latest-admissible instant precedes nominal due instant") ;?
  reject (negb (Bool.eqb (bool_decide (sl_trigger s = Trigger_CatchUp))
                  (bool_decide (is_Some (sl_catch_up_of s)))))
    (StoreInvalid "catch-up trigger and catch_up_of linkage must appear together") ;?
  let? identity := store_object_id s "slot_id" in
  reject (negb (String.eqb (sl_slot_id s) identity))
    (StoreInvalid "slot_id does not match exact recurrence-slot basis").

Definition slot_of (policy_id configuration_version subject_id scope_id
    scheduler_clock_id : string) (nominal_due_at latest_admissible : instant)
    (occurrence : N) (trigger : RecurrenceTriggerV1) (catch_up_of : option RecurrenceSlotId)
    (identity : string) : RecurrenceSlotV1 :=
  {| sl_schema := SLOT_SCHEMA_V1; sl_slot_id := identity; sl_policy_id := policy_id;
     sl_configuration_version := configuration_version; sl_subject_id := subject_id;
     sl_scope_id := scope_id; sl_scheduler_clock_id := scheduler_clock_id;
     sl_nominal_due_at := nominal_due_at;
     sl_latest_admissible := {| rl_scheduler_clock_id := scheduler_clock_id;
                                rl_at := latest_admissible |};
     sl_occurrence := occurrence; sl_trigger := trigger; sl_catch_up_of := catch_up_of |}.

Definition slot_new (policy_id configuration_version subject_id scope_id
    scheduler_clock_id : string) (nominal_due_at latest_admissible : instant)
    (occurrence : N) (trigger : RecurrenceTriggerV1) (catch_up_of : option RecurrenceSlotId)
    : result CanonicalStoreError RecurrenceSlotV1 :=
  let build := slot_of policy_id configuration_version subject_id scope_id scheduler_clock_id
                 nominal_due_at latest_admissible occurrence trigger catch_up_of in
  let? identity := store_object_id (build "") "slot_id" in
  slot_validate (build identity) ;?
  Ok (build identity).

Definition timing_at (s : RecurrenceSlotV1) (scheduler_clock_id : string) (now : instant)
    : result CanonicalStoreError SlotTimingV1 :=
  slot_validate s ;?
  reject (negb (String.eqb scheduler_clock_id (sl_scheduler_clock_id s)))
    (StoreInvalid "runtime scheduler clock does not match slot clock") ;?
  reject (now <? sl_nominal_due_at s)%Z (NotDue (sl_slot_id s)) ;?
  let? admissible := invalid_record (admits (sl_latest_admissible s) scheduler_clock_id now) in
  Ok (if negb admissible then Timing_Missed
      else if bool_decide (sl_trigger s = Trigger_CatchUp) then Timing_CatchUp
      else if (now =? sl_nominal_due_at s)%Z then Timing_OnTime
      else Timing_Late).

Definition status_as_db (s : CycleStatusV1) : string :=
  match s with
  | Cycle_Observing => "observing"
  | Cycle_PostureRecorded => "posture_recorded"
  | Cycle_AwaitingAg => "awaiting_ag"
  | Cycle_AwaitingAgReconciliation => "awaiting_ag_reconciliation"
  | Cycle_ObservationRequired => "observation_required"
  | Cycle_Halted => "halted"
  | Cycle_Closed => "closed"
  | Cycle_Missed => "missed"
  | Cycle_RecoveryRequired => "recovery_required"
  end.

(** *** Observation records *)


Definition check_cover (o : ObservationRecordV1) : result CanonicalStoreError unit :=
  invalid_record (validate_admission_cover (op_input_evidence (obs_posture o))
             (obs_source_admissions o) (obs_continuity_applicability o)
             (obs_substrate_origin_applicability o)).

(** A composition names the observation's subject, scope and evaluation time, and gives the
    observation its identity. *)
Definition composition_binds (o : ObservationRecordV1)
    (identity subject_id scope_digest : string) (admitted_at : instant) : bool :=
  let subject := pp_subject (op_policy (obs_posture o)) in
  String.eqb identity (obs_observation_id o)
  && String.eqb subject_id (su_id subject)
  && String.eqb scope_digest (si_digest (su_scope subject))
  && String.eqb (to_rfc3339_autosi admitted_at) (op_evaluated_at (obs_posture o)).

Definition check_external (o : ObservationRecordV1) (c : ComposedExternalEvidenceV1)
    (message : string) : result CanonicalStoreError unit :=
  invalid_record (composed_validate c) ;?
  let? identity := invalid_record (composed_canonical_observation_id c) in
  reject (negb (composition_binds o identity (cx_subject_id c) (cx_scope_digest c)
                  (cx_admitted_at c))) (StoreInvalid message).

Definition check_decision (o : ObservationRecordV1) (c : ComposedDecisionRelativeEvidenceV1)
    (message : string) : result CanonicalStoreError unit :=
  invalid_record (composed_decision_validate c) ;?
  let? identity := invalid_record (decision_canonical_observation_id c) in
  reject (negb (composition_binds o identity (cdr_subject_id c) (cdr_scope_digest c)
                  (cdr_admitted_at c))) (StoreInvalid message).

(** Versions 5 and 6 carry at most one of the two compositions. *)
Definition check_either (o : ObservationRecordV1) (decision both : string)
    : result CanonicalStoreError unit :=
  match obs_external_evidence o, obs_decision_external_evidence o with
  | None, None => Ok tt
  | Some c, None =>
      check_external o c "composed external evidence does not bind the canonical observation"
  | None, Some c => check_decision o c decision
  | Some _, Some _ => Err (StoreInvalid both)
  end.

Definition check_v1 (o : ObservationRecordV1) : result CanonicalStoreError unit :=
  reject (negb (is_empty (obs_source_admissions o)
                && is_empty (obs_continuity_applicability o)
                && is_empty (obs_substrate_origin_applicability o)
                && is_none (obs_external_evidence o)
                && is_none (obs_decision_external_evidence o)))
    (StoreInvalid "v1 observation record cannot carry NQ admission provenance").

Definition check_v2 (o : ObservationRecordV1) : result CanonicalStoreError unit :=
  reject (negb (is_empty (obs_continuity_applicability o)
                && is_empty (obs_substrate_origin_applicability o)
                && is_none (obs_external_evidence o)
                && is_none (obs_decision_external_evidence o)))
    (StoreInvalid "v2 observation record cannot carry composed external evidence") ;?
  check_cover o.

Definition check_v3 (o : ObservationRecordV1) : result CanonicalStoreError unit :=
  reject (negb (is_empty (obs_continuity_applicability o))
          || negb (is_empty (obs_substrate_origin_applicability o))
          || is_some (obs_decision_external_evidence o))
    (StoreInvalid "v3 observation record cannot carry decision-relative evidence") ;?
  check_cover o ;?
  let? c := ok_or (obs_external_evidence o)
    (StoreInvalid "v3 observation record requires composed external evidence") in
  check_external o c "composed external evidence does not bind the canonical observation".

Definition check_v4 (o : ObservationRecordV1) : result CanonicalStoreError unit :=
  reject (negb (is_empty (obs_continuity_applicability o))
          || negb (is_empty (obs_substrate_origin_applicability o))
          || is_some (obs_external_evidence o))
    (StoreInvalid "v4 observation record cannot carry legacy single-source evidence") ;?
  check_cover o ;?
  let? c := ok_or (obs_decision_external_evidence o)
    (StoreInvalid "v4 observation record requires decision-relative evidence") in
  check_decision o c "decision-relative evidence does not bind canonical observation".

Definition check_v5 (o : ObservationRecordV1) : result CanonicalStoreError unit :=
  reject (is_empty (obs_continuity_applicability o))
    (StoreInvalid "v5 observation record requires continuity applicability") ;?
  reject (negb (is_empty (obs_substrate_origin_applicability o)))
    (StoreInvalid "v5 observation record cannot carry substrate-origin applicability") ;?
  check_cover o ;?
  check_either o "decision-relative evidence does not bind the canonical observation"
    "v5 observation cannot combine legacy and decision-relative evidence".

Definition check_v6 (o : ObservationRecordV1) : result CanonicalStoreError unit :=
  reject (is_empty (obs_substrate_origin_applicability o))
    (StoreInvalid "v6 observation record requires substrate-origin applicability") ;?
  check_cover o ;?
  reject (existsb (fun v => negb (bool_decide (oo_status v = Origin_Applicable)))
            (obs_substrate_origin_applicability o))
    (StoreInvalid "v6 observation record cannot persist a relied-on non-applicable origin") ;?
  check_either o "decision-relative evidence does not bind canonical observation"
    "v6 observation cannot combine legacy and decision-relative evidence".

Definition check_version (o : ObservationRecordV1) : result CanonicalStoreError unit :=
  if String.eqb (obs_schema o) OBSERVATION_RECORD_SCHEMA_V1 then check_v1 o
  else if String.eqb (obs_schema o) OBSERVATION_RECORD_SCHEMA_V2 then check_v2 o
  else if String.eqb (obs_schema o) OBSERVATION_RECORD_SCHEMA_V3 then check_v3 o
  else if String.eqb (obs_schema o) OBSERVATION_RECORD_SCHEMA_V4 then check_v4 o
  else if String.eqb (obs_schema o) OBSERVATION_RECORD_SCHEMA_V5 then check_v5 o
  else if String.eqb (obs_schema o) OBSERVATION_RECORD_SCHEMA_V6 then check_v6 o
  else Err (StoreInvalid "unsupported observation record schema").

(** When a posture is current: exact support and every retained axis. *)
Definition currentness_of (support : QualifiedSupportV1) (p : OperationalPosture) : bool :=
  bool_decide (qs_standing support = Support_Current)
  && bool_decide (op_completeness p = Completeness_Complete)
  && bool_decide (op_coverage p = CoverageAxis_Complete)
  && bool_decide (op_recurrence_axis p = RecurrenceAxis_Current).

Definition validate_for_cycle (o : ObservationRecordV1) (cycle : ObservationCycleId)
    : result CanonicalStoreError unit :=
  let support := obs_support o in
  let posture := obs_posture o in
  check_version o ;?
  store_digest "observation_id" (obs_observation_id o) ;?
  invalid_record (Currentness.validate_shape support) ;?
  reject (negb (String.eqb (qs_observation_cycle_id support) cycle)
          || negb (String.eqb (qs_observation_id support) (obs_observation_id o))
          || negb (String.eqb (qs_diagnostic_inputs_id support)
                     (is_inputs_id (op_input_evidence posture)))
          || negb (bool_decide (op_present_support posture = Some support)))
    (StoreInvalid "observation/support/posture basis is not exact") ;?
  reject (negb (Bool.eqb (op_current posture) (currentness_of support posture)))
    (StoreInvalid "posture currentness does not correspond to exact support and retained axes").

(** *** Families and order *)

Definition family_of_slot (s : RecurrenceSlotV1) : ObservationFamilyKeyV1 :=
  {| fk_policy_id := sl_policy_id s; fk_configuration_version := sl_configuration_version s;
     fk_subject_id := sl_subject_id s; fk_scope_id := sl_scope_id s;
     fk_scheduler_clock_id := sl_scheduler_clock_id s |}.

Definition order_of_slot (s : RecurrenceSlotV1) : ObservationOrderKeyV1 :=
  {| ok_occurrence := sl_occurrence s; ok_nominal_due_at := sl_nominal_due_at s;
     ok_slot_id := sl_slot_id s |}.

(** The derived lexicographic [Ord]. *)
Definition order_compare (a b : ObservationOrderKeyV1) : comparison :=
  then_compare (N.compare (ok_occurrence a) (ok_occurrence b))
    (then_compare (Z.compare (ok_nominal_due_at a) (ok_nominal_due_at b))
       (String.compare (ok_slot_id a) (ok_slot_id b))).
Definition order_ltb (a b : ObservationOrderKeyV1) : bool :=
  match order_compare a b with Lt => true | _ => false end.

(** *** The temporal posture *)

Definition temporal_decision (hold_expiry : option TemporalHoldExpiryV1)
    (scheduler_clock_id : string) (now : instant)
    : result CanonicalStoreError TemporalDecisionV1 :=
  match hold_expiry with
  | Some expiry =>
      let? active := invalid_record (is_active expiry scheduler_clock_id now) in
      Ok (if active then Decision_Hold else Decision_Attention)
  | None => Ok Decision_Observe
  end.

Definition temporal_evaluate (policy_id basis_digest : string)
    (hold_expiry : option TemporalHoldExpiryV1) (scheduler_clock_id : string) (now : instant)
    : result CanonicalStoreError TemporalPostureV1 :=
  store_token "temporal policy_id" policy_id ;?
  store_digest "temporal basis_digest" basis_digest ;?
  let? decision := temporal_decision hold_expiry scheduler_clock_id now in
  Ok {| tp_policy_id := policy_id; tp_basis_digest := basis_digest;
        tp_hold_expiry := hold_expiry; tp_evaluated_at := now; tp_decision := decision |}.

(** *** The typed intent *)

Definition intent_validate (i : TypedCoarseIntentV2) : result CanonicalStoreError unit :=
  reject (negb (String.eqb (tc_schema i) TYPED_INTENT_SCHEMA_V2))
    (StoreInvalid "unsupported typed intent schema") ;?
  store_digest "intent_id" (tc_intent_id i) ;?
  store_digest "compiled_work" (tc_compiled_work i) ;?
  store_digest "expected_ag_work" (tc_expected_ag_work i) ;?
  store_tokens
    [("workflow_id", tc_workflow_id i); ("intent_kind", tc_intent_kind i);
     ("subject_id", tc_subject_id i); ("source_observation_id", tc_source_observation_id i);
     ("source_support_id", tc_source_support_id i);
     ("source_posture_id", tc_source_posture_id i)] ;?
  store_digest "subject_digest" (tc_subject_digest i) ;?
  store_digest "scope_id" (tc_scope_id i) ;?
  reject (negb (is_object (tc_immutable_parameters i)))
    (StoreInvalid "immutable_parameters must be a typed JSON object, never prose") ;?
  let? identity := store_object_id i "intent_id" in
  reject (negb (String.eqb (tc_intent_id i) identity))
    (StoreInvalid "intent_id does not match typed intent preimage").

Definition with_intent_identity (identity : string) (i : TypedCoarseIntentV2)
    : TypedCoarseIntentV2 :=
  {| tc_schema := TYPED_INTENT_SCHEMA_V2; tc_intent_id := identity;
     tc_workflow_id := tc_workflow_id i; tc_intent_kind := tc_intent_kind i;
     tc_subject_id := tc_subject_id i; tc_subject_digest := tc_subject_digest i;
     tc_scope_id := tc_scope_id i; tc_source_observation_id := tc_source_observation_id i;
     tc_source_support_id := tc_source_support_id i;
     tc_source_posture_id := tc_source_posture_id i;
     tc_immutable_parameters := tc_immutable_parameters i;
     tc_compiled_work := tc_compiled_work i; tc_expected_ag_work := tc_expected_ag_work i |}.

Definition intent_seal (i : TypedCoarseIntentV2)
    : result CanonicalStoreError TypedCoarseIntentV2 :=
  let? identity := store_object_id (with_intent_identity "" i) "intent_id" in
  let sealed := with_intent_identity identity i in
  intent_validate sealed ;?
  Ok sealed.

(** The intent names the observation, its support and its posture. *)
Definition intent_binds (i : TypedCoarseIntentV2) (o : ObservationRecordV1) : bool :=
  let subject := pp_subject (op_policy (obs_posture o)) in
  String.eqb (tc_subject_id i) (su_id subject)
  && String.eqb (tc_scope_id i) (si_digest (su_scope subject))
  && String.eqb (tc_source_observation_id i) (obs_observation_id o)
  && String.eqb (tc_source_support_id i) (qs_support_id (obs_support o))
  && String.eqb (tc_source_posture_id i) (op_posture_id (obs_posture o)).

Definition validate_for_observation (i : TypedCoarseIntentV2) (o : ObservationRecordV1)
    : result CanonicalStoreError unit :=
  intent_validate i ;?
  reject (negb (intent_binds i o))
    (StoreInvalid "typed intent does not exactly bind the complete live posture basis").

(** *** AG references *)

Definition refusal_validate (r : AgRefusalReferenceV1) : result CanonicalStoreError unit :=
  reject (negb (String.eqb (arf_schema r) AG_REFUSAL_SCHEMA_V1))
    (StoreInvalid "unsupported AG refusal reference schema") ;?
  store_digest "refusal_digest" (arf_refusal_digest r) ;?
  store_digest "campaign_id" (arf_campaign_id r) ;?
  store_token "occurrence_id" (arf_occurrence_id r) ;?
  store_digest "at_state_digest" (arf_at_state_digest r) ;?
  store_token "refusal code" (arf_code r) ;?
  match arf_evidence r with
  | Some evidence => store_digest "refusal evidence" evidence
  | None => Ok tt
  end ;?
  reject (negb (is_object (arf_exact_outcome r)))
    (StoreInvalid "AG refusal exact outcome must be an object") ;?
  let? digest := value_digest (arf_exact_outcome r) in
  reject (negb (String.eqb digest (arf_refusal_digest r)))
    (StoreInvalid "AG refusal digest does not bind the exact outcome").

Definition request_validate (r : PreparedAgRequestV1) : result CanonicalStoreError unit :=
  reject (negb (String.eqb (pq_schema r) PREPARED_AG_REQUEST_SCHEMA_V1))
    (StoreInvalid "unsupported prepared AG request schema") ;?
  store_digest "request_digest" (pq_request_digest r) ;?
  store_digest "campaign_id" (pq_campaign_id r) ;?
  store_digest "source_intent_id" (pq_source_intent_id r) ;?
  reject (negb (is_uuid (pq_occurrence_id r)))
    (StoreInvalid "prepared AG occurrence_id must be an independently allocated UUID") ;?
  reject (negb (is_object (pq_exact_request r)))
    (StoreInvalid "prepared AG request must retain an exact object") ;?
  let? expected := value_digest (pq_exact_request r) in
  reject (negb (String.eqb (pq_request_digest r) expected))
    (StoreInvalid "prepared AG request digest mismatch").

Definition ag_validate (a : AgOccurrenceReferenceV1) : result CanonicalStoreError unit :=
  reject (negb (String.eqb (ar_schema a) AG_REFERENCE_SCHEMA_V1))
    (StoreInvalid "unsupported AG occurrence reference schema") ;?
  store_digest "campaign_id" (ar_campaign_id a) ;?
  store_digest "state_digest" (ar_state_digest a) ;?
  store_digest "snapshot_digest" (ar_snapshot_digest a) ;?
  reject (negb (is_uuid (ar_occurrence_id a)))
    (StoreInvalid "AG occurrence_id must be an independently allocated UUID") ;?
  for_each (fun '(name, o) =>
              match o with Some value => store_token name value | None => Ok tt end)
    [("docket_attempt_id", ar_docket_attempt_id a); ("settlement_id", ar_settlement_id a);
     ("external_decision_request_id", ar_external_decision_request_id a)] ;?
  reject (negb (is_object (ar_exact_snapshot a)))
    (StoreInvalid "AG exact snapshot must be an object") ;?
  let? digest := value_digest (ar_exact_snapshot a) in
  reject (negb (String.eqb digest (ar_snapshot_digest a)))
    (StoreInvalid "AG snapshot digest does not match exact snapshot").

Definition ag_status_can_follow (prior next : AgProgramCounterV1) : bool :=
  bool_decide (prior = next) ||
  match prior with
  | Pc_ObservationRequired => negb (bool_decide (next = Pc_ObservationRequired))
  | Pc_ProposalRecorded =>
      match next with Pc_ObservationRequired | Pc_ProposalRecorded => false | _ => true end
  | Pc_StandingRequired =>
      match next with
      | Pc_ObservationRequired | Pc_ProposalRecorded | Pc_StandingRequired => false
      | _ => true
      end
  | Pc_AdmissiblePendingAuthorization =>
      match next with
      | Pc_AuthorizationConsumed | Pc_Dispatched | Pc_ReconciliationRequired
      | Pc_SettledObservationRequired | Pc_Halted | Pc_Completed => true
      | _ => false
      end
  | Pc_AuthorizationConsumed =>
      match next with
      | Pc_Dispatched | Pc_ReconciliationRequired | Pc_SettledObservationRequired
      | Pc_Halted | Pc_Completed => true
      | _ => false
      end
  | Pc_Dispatched =>
      match next with
      | Pc_ReconciliationRequired | Pc_SettledObservationRequired | Pc_Halted
      | Pc_Completed => true
      | _ => false
      end
  | Pc_ReconciliationRequired =>
      match next with
      | Pc_SettledObservationRequired | Pc_Halted | Pc_Completed => true
      | _ => false
      end
  | Pc_SettledObservationRequired =>
      match next with Pc_Halted | Pc_Completed => true | _ => false end
  | Pc_Halted => match next with Pc_Completed => true | _ => false end
  | Pc_Completed => false
  end.

(** *** Observation cycles *)

Definition check_relationship (p : AuthoringContextProvenanceV1) (r : PreparedAgRequestV1)
    (i : TypedCoarseIntentV2) : result CanonicalStoreError unit :=
  let? proposal_input := ok_or (value_get (pq_exact_request r) "proposal_input")
    (StoreInvalid "prepared AG request has no exact proposal_input") in
  let? proposal_id := invalid_record (ag_proposal_identity proposal_input) in
  let? exact_work_id := invalid_record (exact_work_identity proposal_input) in
  invalid_record (validate_relationship p (pq_campaign_id r) (pq_occurrence_id r) proposal_id
             exact_work_id (tc_intent_id i)).

Definition check_authoring (p : option AuthoringContextProvenanceV1)
    (r : option PreparedAgRequestV1) (i : option TypedCoarseIntentV2)
    : result CanonicalStoreError unit :=
  match p, r, i with
  | None, _, _ => Ok tt
  | Some p, Some r, Some i => check_relationship p r i
  | Some _, _, _ =>
      Err (StoreInvalid
             "authoring-context provenance exists without its exact prepared request")
  end.

Definition check_custody (c : option AuthoringContextCustodyProvenanceV1)
    (p : option AuthoringContextProvenanceV1) : result CanonicalStoreError unit :=
  match c, p with
  | None, _ => Ok tt
  | Some c, Some p => invalid_record (validate_for_authoring c p)
  | Some _, None =>
      Err (StoreInvalid "authoring custody exists without authoring-context lineage")
  end.

Definition check_temporal (t : TemporalPostureV1) : result CanonicalStoreError unit :=
  store_token "temporal policy_id" (tp_policy_id t) ;?
  store_digest "temporal basis_digest" (tp_basis_digest t) ;?
  let clock := match tp_hold_expiry t with Some e => th_scheduler_clock_id e | None => "" end in
  let? expected := temporal_decision (tp_hold_expiry t) clock (tp_evaluated_at t) in
  reject (negb (bool_decide (tp_decision t = expected)))
    (StoreInvalid "temporal posture does not match its distinct hold-expiry law").

Definition check_refusal (c : ObservationCycleV1) (r : AgRefusalReferenceV1)
    : result CanonicalStoreError unit :=
  refusal_validate r ;?
  let? request := ok_or (cy_prepared_ag_request c)
    (StoreInvalid "AG refusal exists without prepared request") in
  reject (negb (String.eqb (pq_campaign_id request) (arf_campaign_id r))
          || negb (String.eqb (pq_occurrence_id request) (arf_occurrence_id r)))
    (StoreInvalid "AG refusal names the wrong prepared occurrence").

Definition cycle_check_request (c : ObservationCycleV1) (r : PreparedAgRequestV1)
    : result CanonicalStoreError unit :=
  request_validate r ;?
  let? intent := ok_or (cy_intent c)
    (StoreInvalid "prepared AG request exists without intent") in
  reject (negb (String.eqb (pq_source_intent_id r) (tc_intent_id intent)))
    (StoreInvalid "prepared AG request does not bind the exact intent").

Definition cycle_check_intent (c : ObservationCycleV1) (i : TypedCoarseIntentV2)
    : result CanonicalStoreError unit :=
  let? observation := ok_or (cy_observation c)
    (StoreInvalid "intent exists without observation basis") in
  validate_for_observation i observation.

(** [if let Some(x) = &self.field { check(x)?; }]. *)
Definition if_some {A} (o : option A) (check : A -> result CanonicalStoreError unit)
    : result CanonicalStoreError unit :=
  match o with Some a => check a | None => Ok tt end.

Definition counter_is (c : ObservationCycleV1) (pc : AgProgramCounterV1) : bool :=
  match cy_ag c with Some ag => bool_decide (ar_program_counter ag = pc) | None => false end.

(** A cycle with an observation and nothing after it. *)
Definition posture_only (c : ObservationCycleV1) : bool :=
  is_some (cy_observation c) && is_none (cy_intent c) && is_none (cy_prepared_ag_request c)
  && is_none (cy_ag c).

(** The retained facts each status requires. *)
Definition structural (c : ObservationCycleV1) : bool :=
  match cy_status c with
  | Cycle_Observing =>
      is_none (cy_observation c) && is_none (cy_intent c)
      && is_none (cy_prepared_ag_request c) && is_none (cy_ag c)
  | Cycle_PostureRecorded => posture_only c
  | Cycle_AwaitingAg =>
      is_some (cy_observation c) && is_some (cy_intent c) && is_some (cy_prepared_ag_request c)
  | Cycle_AwaitingAgReconciliation => counter_is c Pc_ReconciliationRequired
  | Cycle_ObservationRequired => counter_is c Pc_SettledObservationRequired
  | Cycle_Halted => counter_is c Pc_Halted
  | Cycle_Closed => posture_only c || counter_is c Pc_Completed || is_some (cy_ag_refusal c)
  | Cycle_Missed =>
      bool_decide (cy_timing c = Timing_Missed) && is_none (cy_observation c)
      && is_none (cy_intent c) && is_none (cy_ag c)
  | Cycle_RecoveryRequired =>
      match cy_prepared_ag_request c with
      | Some _ => is_some (cy_observation c) && is_some (cy_intent c)
      | None => is_none (cy_intent c) && is_none (cy_ag c) && is_none (cy_ag_refusal c)
      end
  end.

Definition cycle_validate (c : ObservationCycleV1) : result CanonicalStoreError unit :=
  reject (negb (String.eqb (cy_schema c) CYCLE_SCHEMA_V1))
    (StoreInvalid "unsupported observation-cycle schema") ;?
  store_token "cycle_id" (cy_cycle_id c) ;?
  slot_validate (cy_slot c) ;?
  store_digest "state_digest" (cy_state_digest c) ;?
  if_some (cy_prior_state_digest c) (store_digest "prior_state_digest") ;?
  if_some (cy_observation c) (fun o => validate_for_cycle o (cy_cycle_id c)) ;?
  if_some (cy_intent c) (cycle_check_intent c) ;?
  if_some (cy_temporal_posture c) check_temporal ;?
  if_some (cy_ag c) (fun ag =>
    ag_validate ag ;?
    reject (is_none (cy_intent c))
      (StoreInvalid "AG occurrence exists without an exact typed intent")) ;?
  if_some (cy_ag_refusal c) (check_refusal c) ;?
  if_some (cy_prepared_ag_request c) (cycle_check_request c) ;?
  check_authoring (cy_authoring_context_provenance c) (cy_prepared_ag_request c)
    (cy_intent c) ;?
  check_custody (cy_authoring_context_custody c) (cy_authoring_context_provenance c) ;?
  reject (negb (structural c))
    (StoreInvalid "cycle status and retained semantic facts are inconsistent") ;?
  let? identity := store_object_id c "state_digest" in
  reject (negb (String.eqb (cy_state_digest c) identity))
    (StoreInvalid "observation-cycle state digest mismatch").

Definition cycle_headline (c : ObservationCycleV1) : option Headline :=
  (fun o => op_headline (obs_posture o)) <$> cy_observation c.

(** *** The chain of substrate origins *)

(** One verdict against its predecessor; the state is the set of referenced verdicts. *)
Definition reference_predecessor (nodes : gmap string SubstrateOriginApplicabilityV1)
    (verdict : SubstrateOriginApplicabilityV1) (referenced : gset string)
    : result CanonicalStoreError (gset string) :=
  match oo_predecessor_applicability_id verdict with
  | None => Ok referenced
  | Some predecessor_id =>
      let? predecessor := ok_or (nodes !! predecessor_id)
        (StoreInvalid "substrate-origin chain references unknown predecessor verdict") in
      reject (negb (bool_decide (oo_predecessor_coordinate_ref verdict
                                 = Some (oo_observed_coordinate_ref predecessor))))
        (StoreInvalid "substrate-origin chain substitutes predecessor coordinate") ;?
      reject (bool_decide (predecessor_id ∈ referenced))
        (StoreInvalid "substrate-origin history forks from one predecessor") ;?
      Ok ({[predecessor_id]} ∪ referenced)
  end.

Definition unique_substrate_origin_head (nodes : gmap string SubstrateOriginApplicabilityV1)
    : result CanonicalStoreError SubstrateOriginApplicabilityV1 :=
  let? referenced := fold_try (reference_predecessor nodes) (btree_values nodes) ∅ in
  let heads := (List.filter (fun kv => negb (bool_decide (kv.1 ∈ referenced)))
                  (btree_iter nodes)).*2 in
  match heads with
  | [head] =>
      let roots := List.filter (fun v => is_none (oo_predecessor_applicability_id v))
                     (btree_values nodes) in
      reject (negb (length roots =? 1)%nat
              || negb (size referenced + 1 =? size nodes)%nat)
        (StoreInvalid "substrate-origin history is disconnected or cyclic") ;?
      Ok head
  | _ => Err (StoreInvalid
                "substrate-origin history has no unique append-only chain head")
  end.
End records.
