(* ===== verification/CanonicalTables.v ===== *)
(** * The tables of the canonical store (crates/nightshiftd/src/canonical_store.rs)

    The SQLite tables [CanonicalStore::open] creates, their rows and constraints, and the
    two custody journals that are independent of the observation cycles: authenticated
    world observations and steady-state observations ([record_external_observation] to
    [validate_decision_composition_source]).  An operation is one transaction: on [Err]
    the tables are those before it. *)
From S2P Require Import Prelude Text External Signing Contract ExternalObservation.
From S2P Require Import ExternalComposition SteadyState Authoring Posture CanonicalRecords.
Local Open Scope string_scope.

(** ** Rows *)

(** [canonical_recurrence_slots]: PRIMARY KEY slot_id, UNIQUE cycle_id. *)
Record SlotRow := {
  kl_slot_id : string;
  kl_cycle_id : string;
  kl_status : string;
  kl_basis_json : string;
  kl_state_digest : string;
  kl_updated_at : string
}.

(** [canonical_observation_cycles]: PRIMARY KEY cycle_id, UNIQUE slot_id. *)
Record CycleRow := {
  kc_cycle_id : string;
  kc_slot_id : string;
  kc_version : N;
  kc_status : string;
  kc_state_digest : string;
  kc_snapshot_json : string;
  kc_updated_at : string;
  kc_observation_id : option string
}.

(** [canonical_cycle_events]: PRIMARY KEY (cycle_id, sequence), UNIQUE (cycle_id,
    resulting_state_digest), and a partial UNIQUE index on (cycle_id, prior_state_digest). *)
Record CycleEventRow := {
  ke_cycle_id : string;
  ke_sequence : N;
  ke_event_kind : string;
  ke_prior_state_digest : option string;
  ke_resulting_state_digest : string;
  ke_snapshot_json : string;
  ke_recorded_at : string
}.

(** [canonical_ag_occurrence_claims]: PRIMARY KEY (campaign_id, occurrence_id), UNIQUE
    cycle_id. *)
Record AgClaimRow := {
  kg_campaign_id : string;
  kg_occurrence_id : string;
  kg_cycle_id : string;
  kg_request_digest : string;
  kg_claimed_at : string
}.

(** [canonical_authoring_context_provenance]: PRIMARY KEY provenance_id, UNIQUE cycle_id,
    UNIQUE (campaign_id, occurrence_id).  The other columns repeat fields of the record
    that [record_json] holds. *)
Record AuthoringRow := {
  ka_cycle_id : string;
  ka_record : AuthoringContextProvenanceV1;
  ka_record_json : string
}.

(** [canonical_authoring_context_custody]: PRIMARY KEY custody_id, UNIQUE cycle_id,
    handoff_id and authoring_context_provenance_id; the other columns repeat fields of the
    record that [record_json] holds. *)
Record AuthoringCustodyRow := {
  ku_cycle_id : string;
  ku_record : AuthoringContextCustodyProvenanceV1;
  ku_record_json : string
}.

(** [canonical_external_observations]: PRIMARY KEY observation_id, UNIQUE handoff_id,
    custody_id, attempt_id, executor_evidence_receipt, (campaign_id, occurrence_id). *)
Record ExternalObservationRow := {
  kx_observation_id : string;
  kx_handoff_id : string;
  kx_custody_id : string;
  kx_campaign_id : string;
  kx_occurrence_id : string;
  kx_attempt_id : string;
  kx_executor_evidence_receipt : string;
  kx_observation_json : string;
  kx_custody_json : string;
  kx_received_at : string
}.

(** [canonical_steady_state_observations]: PRIMARY KEY observation_id, UNIQUE handoff_id,
    custody_id, evidence_receipt. *)
Record SteadyStateRow := {
  ks_observation_id : string;
  ks_handoff_id : string;
  ks_custody_id : string;
  ks_qualification_observation_id : string;
  ks_plan_document_digest : string;
  ks_compilation_id : string;
  ks_evidence_receipt : string;
  ks_observed_at_unix_ms : Z;
  ks_observation_json : string;
  ks_custody_json : string;
  ks_received_at : string
}.

(** The database.  Slots and cycles are keyed by their primary keys, the other tables are
    in the order of insertion.  The booleans say whether a database opened read-only has
    the projections that older versions of the program did not create. *)
Record Tables := {
  kt_slots : gmap string SlotRow;
  kt_cycles : gmap string CycleRow;
  kt_events : list CycleEventRow;
  kt_ag_claims : list AgClaimRow;
  kt_authoring : list AuthoringRow;
  kt_custody : list AuthoringCustodyRow;
  kt_external : list ExternalObservationRow;
  kt_steady : list SteadyStateRow;
  kt_has_observation_id : bool;
  kt_has_authoring : bool;
  kt_has_custody : bool;
  kt_has_external : bool
}.

Definition set_slots (v : gmap string SlotRow) (t : Tables) : Tables :=
  {| kt_slots := v; kt_cycles := kt_cycles t; kt_events := kt_events t;
     kt_ag_claims := kt_ag_claims t; kt_authoring := kt_authoring t;
     kt_custody := kt_custody t; kt_external := kt_external t; kt_steady := kt_steady t;
     kt_has_observation_id := kt_has_observation_id t; kt_has_authoring := kt_has_authoring t;
     kt_has_custody := kt_has_custody t; kt_has_external := kt_has_external t |}.
Definition set_cycles (v : gmap string CycleRow) (t : Tables) : Tables :=
  {| kt_slots := kt_slots t; kt_cycles := v; kt_events := kt_events t;
     kt_ag_claims := kt_ag_claims t; kt_authoring := kt_authoring t;
     kt_custody := kt_custody t; kt_external := kt_external t; kt_steady := kt_steady t;
     kt_has_observation_id := kt_has_observation_id t; kt_has_authoring := kt_has_authoring t;
     kt_has_custody := kt_has_custody t; kt_has_external := kt_has_external t |}.
Definition add_event (r : CycleEventRow) (t : Tables) : Tables :=
  {| kt_slots := kt_slots t; kt_cycles := kt_cycles t; kt_events := (kt_events t ++ [r])%list;
     kt_ag_claims := kt_ag_claims t; kt_authoring := kt_authoring t;
     kt_custody := kt_custody t; kt_external := kt_external t; kt_steady := kt_steady t;
     kt_has_observation_id := kt_has_observation_id t; kt_has_authoring := kt_has_authoring t;
     kt_has_custody := kt_has_custody t; kt_has_external := kt_has_external t |}.
Definition add_ag_claim (r : AgClaimRow) (t : Tables) : Tables :=
  {| kt_slots := kt_slots t; kt_cycles := kt_cycles t; kt_events := kt_events t;
     kt_ag_claims := (kt_ag_claims t ++ [r])%list; kt_authoring := kt_authoring t;
     kt_custody := kt_custody t; kt_external := kt_external t; kt_steady := kt_steady t;
     kt_has_observation_id := kt_has_observation_id t; kt_has_authoring := kt_has_authoring t;
     kt_has_custody := kt_has_custody t; kt_has_external := kt_has_external t |}.
Definition add_authoring (r : AuthoringRow) (t : Tables) : Tables :=
  {| kt_slots := kt_slots t; kt_cycles := kt_cycles t; kt_events := kt_events t;
     kt_ag_claims := kt_ag_claims t; kt_authoring := (kt_authoring t ++ [r])%list;
     kt_custody := kt_custody t; kt_external := kt_external t; kt_steady := kt_steady t;
     kt_has_observation_id := kt_has_observation_id t; kt_has_authoring := kt_has_authoring t;
     kt_has_custody := kt_has_custody t; kt_has_external := kt_has_external t |}.
Definition add_custody (r : AuthoringCustodyRow) (t : Tables) : Tables :=
  {| kt_slots := kt_slots t; kt_cycles := kt_cycles t; kt_events := kt_events t;
     kt_ag_claims := kt_ag_claims t; kt_authoring := kt_authoring t;
     kt_custody := (kt_custody t ++ [r])%list; kt_external := kt_external t;
     kt_steady := kt_steady t; kt_has_observation_id := kt_has_observation_id t;
     kt_has_authoring := kt_has_authoring t; kt_has_custody := kt_has_custody t;
     kt_has_external := kt_has_external t |}.
Definition add_external (r : ExternalObservationRow) (t : Tables) : Tables :=
  {| kt_slots := kt_slots t; kt_cycles := kt_cycles t; kt_events := kt_events t;
     kt_ag_claims := kt_ag_claims t; kt_authoring := kt_authoring t;
     kt_custody := kt_custody t; kt_external := (kt_external t ++ [r])%list;
     kt_steady := kt_steady t; kt_has_observation_id := kt_has_observation_id t;
     kt_has_authoring := kt_has_authoring t; kt_has_custody := kt_has_custody t;
     kt_has_external := kt_has_external t |}.
Definition add_steady (r : SteadyStateRow) (t : Tables) : Tables :=
  {| kt_slots := kt_slots t; kt_cycles := kt_cycles t; kt_events := kt_events t;
     kt_ag_claims := kt_ag_claims t; kt_authoring := kt_authoring t;
     kt_custody := kt_custody t; kt_external := kt_external t;
     kt_steady := (kt_steady t ++ [r])%list;
     kt_has_observation_id := kt_has_observation_id t; kt_has_authoring := kt_has_authoring t;
     kt_has_custody := kt_has_custody t; kt_has_external := kt_has_external t |}.

(** [CanonicalStore::open]: creates what is missing and keeps every row. *)
Definition canonical_open (t : Tables) : Tables :=
  {| kt_slots := kt_slots t; kt_cycles := kt_cycles t; kt_events := kt_events t;
     kt_ag_claims := kt_ag_claims t; kt_authoring := kt_authoring t;
     kt_custody := kt_custody t; kt_external := kt_external t; kt_steady := kt_steady t;
     kt_has_observation_id := true; kt_has_authoring := true; kt_has_custody := true;
     kt_has_external := true |}.

Definition no_tables : Tables :=
  {| kt_slots := ∅; kt_cycles := ∅; kt_events := []; kt_ag_claims := []; kt_authoring := [];
     kt_custody := []; kt_external := []; kt_steady := []; kt_has_observation_id := false;
     kt_has_authoring := false; kt_has_custody := false; kt_has_external := false |}.

(** [CanonicalStore::open_read_only] of an existing database. *)
Definition canonical_open_read_only (t : Tables) : result CanonicalStoreError Tables :=
  reject (negb (kt_has_observation_id t))
    (StoreInvalid "canonical store predates the observation_id projection") ;?
  Ok t.

(** ** SQL *)

(** A constraint the statement violates, and an integer rusqlite cannot bind. *)
Definition constraint_failed : CanonicalStoreError := StoreSql "constraint failed".
Definition to_sql_u64 (n : N) : result CanonicalStoreError N :=
  reject (I64_MAX <? n)%N (StoreSql "out of range integral type conversion") ;?
  Ok n.

(** ORDER BY text columns: the lexicographic order of their bytes. *)
Fixpoint columns_leb (a b : list string) : bool :=
  match a, b with
  | [], _ => true
  | _ :: _, [] => false
  | x :: a, y :: b => if String.eqb x y then columns_leb a b else String.leb x y
  end.
Definition order_by {R} (columns : R -> list string) (rows : list R) : list R :=
  merge_sort (fun r1 r2 => Is_true (columns_leb (columns r1) (columns r2))) rows.

(** ** The custody journals *)

Section custody.
Context {PD : PostureDocuments} {ND : CanonicalDocuments}.

Definition parse_json {T} {ST : Serde T} (json : string) : result CanonicalStoreError T :=
  map_err StoreJson (from_slice json).

(** The existing row of another or the same observation.  Several rows can match; SQLite
    does not say which comes first and the model takes the first inserted. *)
Definition external_row_matches (handoff : ExternalObservationHandoffV1)
    (r : ExternalObservationRow) : bool :=
  let o := eh_observation handoff in
  String.eqb (kx_observation_id r) (wo_observation_id o)
  || String.eqb (kx_handoff_id r) (eh_handoff_id handoff)
  || String.eqb (kx_attempt_id r) (wo_attempt_id o)
  || String.eqb (kx_executor_evidence_receipt r) (wo_executor_evidence_receipt o)
  || (String.eqb (kx_campaign_id r) (wo_campaign_id o)
      && String.eqb (kx_occurrence_id r) (wo_occurrence_id o)).

Definition same_external_delivery (existing custody : ExternalObservationCustodyProvenanceV1)
    : bool :=
  String.eqb (xc_handoff_id existing) (xc_handoff_id custody)
  && String.eqb (xc_observation_id existing) (xc_observation_id custody)
  && String.eqb (xc_producer_principal_id existing) (xc_producer_principal_id custody)
  && String.eqb (xc_producer_key_id existing) (xc_producer_key_id custody)
  && String.eqb (xc_target_runtime_id existing) (xc_target_runtime_id custody).

(** A row that is already there: the same delivery again, or a substitution. *)
Definition resend_external (handoff : ExternalObservationHandoffV1)
    (custody : ExternalObservationCustodyProvenanceV1) (r : ExternalObservationRow)
    : result CanonicalStoreError ExternalObservationCustodyProvenanceV1 :=
  let? observation := parse_json (kx_observation_json r) in
  let? existing := parse_json (kx_custody_json r) in
  invalid_record (world_observation_validate observation) ;?
  invalid_record (custody_validate existing) ;?
  reject (negb (bool_decide (observation = eh_observation handoff)
                && same_external_delivery existing custody))
    (ExternalObservationConflict
       "attempt, occurrence, handoff, or source receipt is already bound") ;?
  Ok existing.

Definition record_external_observation (verified : VerifiedExternalObservationHandoffV1)
    (received_at : instant) (t : Tables)
    : result CanonicalStoreError (ExternalObservationCustodyProvenanceV1 * Tables) :=
  let handoff := vh_handoff verified in
  let o := eh_observation handoff in
  reject ((received_at <? eh_created_at handoff)%Z
          || (timestamp_millis (eh_created_at handoff) <? wo_observed_at_unix_ms o)%Z)
    (StoreInvalid "external-observation custody time precedes source or handoff") ;?
  let? custody := invalid_record (custody_mint verified received_at) in
  match find_first (external_row_matches handoff) (kt_external t) with
  | Some r =>
      let? existing := resend_external handoff custody r in
      Ok (existing, t)
  | None =>
      let? observation_json := canonical_json o in
      let? custody_json := canonical_json custody in
      reject (existsb (fun r => String.eqb (kx_custody_id r) (xc_custody_id custody))
                (kt_external t)) constraint_failed ;?
      Ok (custody,
          add_external
            {| kx_observation_id := wo_observation_id o;
               kx_handoff_id := eh_handoff_id handoff; kx_custody_id := xc_custody_id custody;
               kx_campaign_id := wo_campaign_id o; kx_occurrence_id := wo_occurrence_id o;
               kx_attempt_id := wo_attempt_id o;
               kx_executor_evidence_receipt := wo_executor_evidence_receipt o;
               kx_observation_json := observation_json; kx_custody_json := custody_json;
               kx_received_at := timestamp received_at |} t)
  end.

Definition steady_row_matches (handoff : SteadyStateObservationHandoffV1) (r : SteadyStateRow)
    : bool :=
  let o := sh_observation handoff in
  String.eqb (ks_observation_id r) (ss_observation_id o)
  || String.eqb (ks_handoff_id r) (sh_handoff_id handoff)
  || String.eqb (ks_evidence_receipt r) (ss_evidence_receipt o).

Definition same_steady_delivery (existing custody : SteadyStateObservationCustodyV1) : bool :=
  String.eqb (sy_handoff_id existing) (sy_handoff_id custody)
  && String.eqb (sy_producer_principal_id existing) (sy_producer_principal_id custody)
  && String.eqb (sy_producer_key_id existing) (sy_producer_key_id custody)
  && String.eqb (sy_target_runtime_id existing) (sy_target_runtime_id custody).

Definition resend_steady (handoff : SteadyStateObservationHandoffV1)
    (custody : SteadyStateObservationCustodyV1) (r : SteadyStateRow)
    : result CanonicalStoreError SteadyStateObservationCustodyV1 :=
  let? observation := parse_json (ks_observation_json r) in
  let? existing := parse_json (ks_custody_json r) in
  invalid_record (steady_validate observation) ;?
  invalid_record (steady_custody_validate existing) ;?
  reject (negb (bool_decide (observation = sh_observation handoff)
                && same_steady_delivery existing custody))
    (ExternalObservationConflict
       "steady-state observation, handoff, or evidence receipt is already bound") ;?
  Ok existing.

Definition record_steady_state_observation
    (verified : VerifiedSteadyStateObservationHandoffV1) (received_at : instant) (t : Tables)
    : result CanonicalStoreError (SteadyStateObservationCustodyV1 * Tables) :=
  let handoff := vs_handoff verified in
  let o := sh_observation handoff in
  reject ((received_at <? sh_created_at handoff)%Z
          || (timestamp_millis (sh_created_at handoff) <? ss_observed_at_unix_ms o)%Z)
    (StoreInvalid "steady-state custody time precedes source or handoff") ;?
  let? custody := invalid_record (steady_custody_mint verified received_at) in
  match find_first (steady_row_matches handoff) (kt_steady t) with
  | Some r =>
      let? existing := resend_steady handoff custody r in
      Ok (existing, t)
  | None =>
      let? observation_json := canonical_json o in
      let? custody_json := canonical_json custody in
      reject (existsb (fun r => String.eqb (ks_custody_id r) (sy_custody_id custody))
                (kt_steady t)) constraint_failed ;?
      Ok (custody,
          add_steady
            {| ks_observation_id := ss_observation_id o;
               ks_handoff_id := sh_handoff_id handoff; ks_custody_id := sy_custody_id custody;
               ks_qualification_observation_id := ss_qualification_observation_id o;
               ks_plan_document_digest := ss_plan_document_digest o;
               ks_compilation_id := ss_compilation_id o;
               ks_evidence_receipt := ss_evidence_receipt o;
               ks_observed_at_unix_ms := ss_observed_at_unix_ms o;
               ks_observation_json := observation_json; ks_custody_json := custody_json;
               ks_received_at := timestamp received_at |} t)
  end.

(** *** Reading custody back *)

Definition steady_state_observation_for_composition (observation_id : string) (t : Tables)
    : result CanonicalStoreError
        (option (LocalComposeSteadyStateObservationV1 * SteadyStateObservationCustodyV1)) :=
  store_digest "steady-state observation_id" observation_id ;?
  match find_first (fun r => String.eqb (ks_observation_id r) observation_id) (kt_steady t) with
  | None => Ok None
  | Some r =>
      let? o := parse_json (ks_observation_json r) in
      let? custody := parse_json (ks_custody_json r) in
      as_replay (steady_validate o) ;?
      as_replay (steady_custody_validate custody) ;?
      reject (negb (String.eqb (sy_observation_id custody) (ss_observation_id o))
              || negb (String.eqb (sy_qualification_observation_id custody)
                         (ss_qualification_observation_id o))
              || negb (String.eqb (sy_plan_document_digest custody) (ss_plan_document_digest o))
              || negb (String.eqb (sy_compilation_id custody) (ss_compilation_id o))
              || negb (String.eqb (sy_evidence_receipt custody) (ss_evidence_receipt o)))
        (ReplayFailed "steady-state observation custody projection is contradictory") ;?
      Ok (Some (o, custody))
  end.

(** ORDER BY observed_at_unix_ms DESC, observation_id DESC. *)
Definition later_steady (r1 r2 : SteadyStateRow) : Prop :=
  (ks_observed_at_unix_ms r2 < ks_observed_at_unix_ms r1)%Z
  \/ ks_observed_at_unix_ms r1 = ks_observed_at_unix_ms r2
     /\ String.le (ks_observation_id r2) (ks_observation_id r1).

#[global] Instance later_steady_dec : RelDecision later_steady.
Proof. intros r1 r2. unfold later_steady. apply _. Defined.

Definition latest_steady_state_for_qualification (qualification_observation_id : string)
    (t : Tables)
    : result CanonicalStoreError
        (option (LocalComposeSteadyStateObservationV1 * SteadyStateObservationCustodyV1)) :=
  store_digest "qualification_observation_id" qualification_observation_id ;?
  let rows := List.filter (fun r => String.eqb (ks_qualification_observation_id r)
                                      qualification_observation_id) (kt_steady t) in
  match merge_sort later_steady rows with
  | r :: _ => steady_state_observation_for_composition (ks_observation_id r) t
  | [] => Ok None
  end.

(** The columns of a custody record that repeat its observation. *)
Definition custody_projects (custody : ExternalObservationCustodyProvenanceV1)
    (o : LocalComposeWorldObservationV1) : bool :=
  String.eqb (xc_observation_id custody) (wo_observation_id o)
  && String.eqb (xc_campaign_id custody) (wo_campaign_id o)
  && String.eqb (xc_occurrence_id custody) (wo_occurrence_id o)
  && String.eqb (xc_exact_work_id custody) (wo_exact_work_id o)
  && String.eqb (xc_attempt_id custody) (wo_attempt_id o)
  && String.eqb (xc_settlement_id custody) (wo_settlement_id o)
  && String.eqb (xc_executor_evidence_receipt custody) (wo_executor_evidence_receipt o).

(** The two JSON columns of a row, validated against each other. *)
Definition read_external (contradiction : string) (r : ExternalObservationRow)
    : result CanonicalStoreError
        (LocalComposeWorldObservationV1 * ExternalObservationCustodyProvenanceV1) :=
  let? o := parse_json (kx_observation_json r) in
  let? custody := parse_json (kx_custody_json r) in
  as_replay (world_observation_validate o) ;?
  as_replay (custody_validate custody) ;?
  reject (negb (custody_projects custody o)) (ReplayFailed contradiction) ;?
  Ok (o, custody).

Definition external_observation_for_composition (observation_id : string) (t : Tables)
    : result CanonicalStoreError
        (option (LocalComposeWorldObservationV1 * ExternalObservationCustodyProvenanceV1)) :=
  store_digest "external observation_id" observation_id ;?
  match find_first (fun r => String.eqb (kx_observation_id r) observation_id)
          (kt_external t) with
  | None => Ok None
  | Some r =>
      let? source := read_external "external-observation composition source is contradictory" r in
      Ok (Some source)
  end.

Definition steady_state_reobservation_basis (qualification_observation_id : string)
    (p : SteadyStateEvidenceProfileV1) (evaluated_at_unix_ms : N) (t : Tables)
    : result CanonicalStoreError SteadyStateReobservationBasisV1 :=
  invalid_record (steady_profile_validate p) ;?
  let? found := external_observation_for_composition qualification_observation_id t in
  let? '(source, source_custody) := ok_or found
    (StoreInvalid "qualification source is absent from authenticated canonical custody") in
  let? q := invalid_record (from_source (sf_qualification_profile p) source source_custody) in
  let? prior := latest_steady_state_for_qualification qualification_observation_id t in
  invalid_record (reobservation_create p q prior evaluated_at_unix_ms).

Definition selects_external (q : ExternalObservationQueryV1) (r : ExternalObservationRow)
    : bool :=
  match q with
  | ExternalQuery_Observation observation_id => String.eqb (kx_observation_id r) observation_id
  | ExternalQuery_GovernedOccurrence campaign_id occurrence_id =>
      String.eqb (kx_campaign_id r) campaign_id && String.eqb (kx_occurrence_id r) occurrence_id
  | ExternalQuery_Attempt attempt_id => String.eqb (kx_attempt_id r) attempt_id
  end.

Definition export_external_observation (q : ExternalObservationQueryV1)
    (evaluated_at_unix_ms : Z) (evidence_ttl_ms : N) (t : Tables)
    : result CanonicalStoreError ExternalObservationExportV1 :=
  invalid_record (external_query_validate q) ;?
  reject (evaluated_at_unix_ms <? 0)%Z
    (StoreInvalid "external-observation evaluation time is invalid") ;?
  reject (negb (kt_has_external t))
    (StoreInvalid
       "canonical store predates the external-observation custody projection") ;?
  let? matches := map_try (fun r =>
    let? '(o, custody) :=
      read_external "external-observation custody projection is contradictory" r in
    Ok {| xm_observation := o; xm_custody := custody;
          xm_evaluated_at_unix_ms := evaluated_at_unix_ms;
          xm_evidence_ttl_ms := evidence_ttl_ms;
          xm_evidence_age := evidence_age (wo_observed_at_unix_ms o) evaluated_at_unix_ms
                               evidence_ttl_ms |})
    (List.filter (selects_external q) (kt_external t)) in
  Ok {| xe_schema := EXTERNAL_OBSERVATION_EXPORT_SCHEMA_V1; xe_query := q;
        xe_matches := matches |}.

(** *** Recomposing from custody *)

Definition validate_external_composition_source (c : ComposedExternalEvidenceV1) (t : Tables)
    : result CanonicalStoreError unit :=
  invalid_record (composed_validate c) ;?
  let? found := external_observation_for_composition (cx_source_observation_id c) t in
  let? '(o, custody) := ok_or found
    (ReplayFailed "composed external-evidence source is absent") in
  let? rebuilt := as_replay
    (compose {| er_schema := EXTERNAL_EVIDENCE_REFERENCE_SCHEMA_V1;
                er_source_observation_id := cx_source_observation_id c;
                er_source_custody_id := cx_source_custody_id c;
                er_profile_id := ep_profile_id (cx_profile c) |}
       (cx_profile c) o custody (cx_admitted_at c) (cx_target_campaign_id c)
       (cx_target_occurrence_id c) (cx_subject_id c) (cx_subject_digest c)
       (cx_scope_digest c)) in
  reject (negb (bool_decide (rebuilt = c)))
    (ReplayFailed "composed external evidence does not reproduce from canonical custody").

Definition validate_decision_composition_source (c : ComposedDecisionRelativeEvidenceV1)
    (t : Tables) : result CanonicalStoreError unit :=
  invalid_record (composed_decision_validate c) ;?
  let? found := external_observation_for_composition
                  (aq_source_observation_id (cdr_qualification c)) t in
  let? '(source, source_custody) := ok_or found
    (ReplayFailed "decision composition qualification source is absent") in
  let? passive := steady_state_observation_for_composition
                    (cdr_steady_state_observation_id c) t in
  let? '(o, custody) := ok_or passive
    (ReplayFailed "decision composition passive source is absent") in
  let reference :=
    {| dr_schema := DECISION_EVIDENCE_REFERENCE_SCHEMA_V1;
       dr_qualification_observation_id := wo_observation_id source;
       dr_qualification_custody_id := xc_custody_id source_custody;
       dr_steady_state_observation_id := ss_observation_id o;
       dr_steady_state_custody_id := sy_custody_id custody;
       dr_profile_id := sf_profile_id (cdr_profile c) |} in
  let? rebuilt := as_replay
    (compose_decision reference (cdr_profile c) source source_custody o custody
       (cdr_admitted_at c) (cdr_target_campaign_id c) (cdr_target_occurrence_id c)
       (cdr_subject_id c) (cdr_subject_digest c) (cdr_scope_digest c)) in
  reject (negb (bool_decide (rebuilt = c)))
    (ReplayFailed "decision composition does not reproduce from exact custody").
End custody.
