(* ===== verification/CanonicalStore.v ===== *)
(** * The canonical store (crates/nightshiftd/src/canonical_store.rs, from line 1636)

    The observation cycles: claiming a recurrence slot, recording what was observed, the
    prepared request to AG and what AG answers, restart, queries and the replay of a
    cycle's events.  Every change of a cycle is one [transition]: it reads the row back,
    checks it against its durable claims, applies the change, seals the new snapshot and
    appends an event that names its predecessor.  On [Err] the tables are those before the
    call; [recover_after_restart] commits each transition, so it returns the tables in
    both cases.  The UUIDs the source draws are arguments. *)
From S2P Require Import Prelude Text External Signing Contract NqAdmission SubstrateOrigin.
From S2P Require Import ExternalObservation ExternalComposition SteadyState Authoring.
From S2P Require Import Diagnostic Posture CanonicalRecords CanonicalTables.
From S2P Require Currentness.
Import Currentness (Support_Current, qs_standing).
Local Open Scope string_scope.

(** ** Updating a cycle *)

Definition cycle_set_digest (d : string) (c : ObservationCycleV1) : ObservationCycleV1 :=
  {| cy_schema := cy_schema c; cy_cycle_id := cy_cycle_id c; cy_slot := cy_slot c;
     cy_timing := cy_timing c; cy_status := cy_status c; cy_version := cy_version c;
     cy_prior_state_digest := cy_prior_state_digest c; cy_state_digest := d;
     cy_created_at := cy_created_at c; cy_updated_at := cy_updated_at c;
     cy_observation := cy_observation c; cy_attention := cy_attention c;
     cy_temporal_posture := cy_temporal_posture c; cy_intent := cy_intent c;
     cy_prepared_ag_request := cy_prepared_ag_request c;
     cy_authoring_context_provenance := cy_authoring_context_provenance c;
     cy_authoring_context_custody := cy_authoring_context_custody c; cy_ag := cy_ag c;
     cy_ag_refusal := cy_ag_refusal c; cy_recovery_reason := cy_recovery_reason c |}.

(** The next version of a cycle: its number, predecessor and time. *)
Definition cycle_advance (version : N) (prior updated_at : string) (c : ObservationCycleV1)
    : ObservationCycleV1 :=
  {| cy_schema := cy_schema c; cy_cycle_id := cy_cycle_id c; cy_slot := cy_slot c;
     cy_timing := cy_timing c; cy_status := cy_status c; cy_version := version;
     cy_prior_state_digest := Some prior; cy_state_digest := cy_state_digest c;
     cy_created_at := cy_created_at c; cy_updated_at := updated_at;
     cy_observation := cy_observation c; cy_attention := cy_attention c;
     cy_temporal_posture := cy_temporal_posture c; cy_intent := cy_intent c;
     cy_prepared_ag_request := cy_prepared_ag_request c;
     cy_authoring_context_provenance := cy_authoring_context_provenance c;
     cy_authoring_context_custody := cy_authoring_context_custody c; cy_ag := cy_ag c;
     cy_ag_refusal := cy_ag_refusal c; cy_recovery_reason := cy_recovery_reason c |}.

Definition cycle_set_status (s : CycleStatusV1) (c : ObservationCycleV1) : ObservationCycleV1 :=
  {| cy_schema := cy_schema c; cy_cycle_id := cy_cycle_id c; cy_slot := cy_slot c;
     cy_timing := cy_timing c; cy_status := s; cy_version := cy_version c;
     cy_prior_state_digest := cy_prior_state_digest c; cy_state_digest := cy_state_digest c;
     cy_created_at := cy_created_at c; cy_updated_at := cy_updated_at c;
     cy_observation := cy_observation c; cy_attention := cy_attention c;
     cy_temporal_posture := cy_temporal_posture c; cy_intent := cy_intent c;
     cy_prepared_ag_request := cy_prepared_ag_request c;
     cy_authoring_context_provenance := cy_authoring_context_provenance c;
     cy_authoring_context_custody := cy_authoring_context_custody c; cy_ag := cy_ag c;
     cy_ag_refusal := cy_ag_refusal c; cy_recovery_reason := cy_recovery_reason c |}.

Definition cycle_set_observation (o : ObservationRecordV1) (attention : AttentionRecordV1)
    (temporal : option TemporalPostureV1) (c : ObservationCycleV1) : ObservationCycleV1 :=
  {| cy_schema := cy_schema c; cy_cycle_id := cy_cycle_id c; cy_slot := cy_slot c;
     cy_timing := cy_timing c; cy_status := cy_status c; cy_version := cy_version c;
     cy_prior_state_digest := cy_prior_state_digest c; cy_state_digest := cy_state_digest c;
     cy_created_at := cy_created_at c; cy_updated_at := cy_updated_at c;
     cy_observation := Some o; cy_attention := Some attention;
     cy_temporal_posture := temporal; cy_intent := cy_intent c;
     cy_prepared_ag_request := cy_prepared_ag_request c;
     cy_authoring_context_provenance := cy_authoring_context_provenance c;
     cy_authoring_context_custody := cy_authoring_context_custody c; cy_ag := cy_ag c;
     cy_ag_refusal := cy_ag_refusal c; cy_recovery_reason := cy_recovery_reason c |}.

Definition cycle_set_request (intent : TypedCoarseIntentV2) (request : PreparedAgRequestV1)
    (authoring : PreparedAuthoringEvidenceV1) (c : ObservationCycleV1) : ObservationCycleV1 :=
  {| cy_schema := cy_schema c; cy_cycle_id := cy_cycle_id c; cy_slot := cy_slot c;
     cy_timing := cy_timing c; cy_status := cy_status c; cy_version := cy_version c;
     cy_prior_state_digest := cy_prior_state_digest c; cy_state_digest := cy_state_digest c;
     cy_created_at := cy_created_at c; cy_updated_at := cy_updated_at c;
     cy_observation := cy_observation c; cy_attention := cy_attention c;
     cy_temporal_posture := cy_temporal_posture c; cy_intent := Some intent;
     cy_prepared_ag_request := Some request;
     cy_authoring_context_provenance := pa_lineage authoring;
     cy_authoring_context_custody := pa_custody authoring; cy_ag := cy_ag c;
     cy_ag_refusal := cy_ag_refusal c; cy_recovery_reason := cy_recovery_reason c |}.

Definition cycle_set_ag (ag : AgOccurrenceReferenceV1) (c : ObservationCycleV1)
    : ObservationCycleV1 :=
  {| cy_schema := cy_schema c; cy_cycle_id := cy_cycle_id c; cy_slot := cy_slot c;
     cy_timing := cy_timing c; cy_status := cy_status c; cy_version := cy_version c;
     cy_prior_state_digest := cy_prior_state_digest c; cy_state_digest := cy_state_digest c;
     cy_created_at := cy_created_at c; cy_updated_at := cy_updated_at c;
     cy_observation := cy_observation c; cy_attention := cy_attention c;
     cy_temporal_posture := cy_temporal_posture c; cy_intent := cy_intent c;
     cy_prepared_ag_request := cy_prepared_ag_request c;
     cy_authoring_context_provenance := cy_authoring_context_provenance c;
     cy_authoring_context_custody := cy_authoring_context_custody c; cy_ag := Some ag;
     cy_ag_refusal := cy_ag_refusal c; cy_recovery_reason := cy_recovery_reason c |}.

Definition cycle_set_refusal (refusal : AgRefusalReferenceV1) (c : ObservationCycleV1)
    : ObservationCycleV1 :=
  {| cy_schema := cy_schema c; cy_cycle_id := cy_cycle_id c; cy_slot := cy_slot c;
     cy_timing := cy_timing c; cy_status := cy_status c; cy_version := cy_version c;
     cy_prior_state_digest := cy_prior_state_digest c; cy_state_digest := cy_state_digest c;
     cy_created_at := cy_created_at c; cy_updated_at := cy_updated_at c;
     cy_observation := cy_observation c; cy_attention := cy_attention c;
     cy_temporal_posture := cy_temporal_posture c; cy_intent := cy_intent c;
     cy_prepared_ag_request := cy_prepared_ag_request c;
     cy_authoring_context_provenance := cy_authoring_context_provenance c;
     cy_authoring_context_custody := cy_authoring_context_custody c; cy_ag := cy_ag c;
     cy_ag_refusal := Some refusal; cy_recovery_reason := cy_recovery_reason c |}.

Definition cycle_set_recovery (reason : option string) (c : ObservationCycleV1)
    : ObservationCycleV1 :=
  {| cy_schema := cy_schema c; cy_cycle_id := cy_cycle_id c; cy_slot := cy_slot c;
     cy_timing := cy_timing c; cy_status := cy_status c; cy_version := cy_version c;
     cy_prior_state_digest := cy_prior_state_digest c; cy_state_digest := cy_state_digest c;
     cy_created_at := cy_created_at c; cy_updated_at := cy_updated_at c;
     cy_observation := cy_observation c; cy_attention := cy_attention c;
     cy_temporal_posture := cy_temporal_posture c; cy_intent := cy_intent c;
     cy_prepared_ag_request := cy_prepared_ag_request c;
     cy_authoring_context_provenance := cy_authoring_context_provenance c;
     cy_authoring_context_custody := cy_authoring_context_custody c; cy_ag := cy_ag c;
     cy_ag_refusal := cy_ag_refusal c; cy_recovery_reason := reason |}.

(** The cycle of a claimed or a missed slot, before it is sealed. *)
Definition initial_cycle (cycle_id : ObservationCycleId) (slot : RecurrenceSlotV1)
    (timing : SlotTimingV1) (status : CycleStatusV1) (now : string) (reason : option string)
    : ObservationCycleV1 :=
  {| cy_schema := CYCLE_SCHEMA_V1; cy_cycle_id := cycle_id; cy_slot := slot;
     cy_timing := timing; cy_status := status; cy_version := 0;
     cy_prior_state_digest := None; cy_state_digest := ""; cy_created_at := now;
     cy_updated_at := now; cy_observation := None; cy_attention := None;
     cy_temporal_posture := None; cy_intent := None; cy_prepared_ag_request := None;
     cy_authoring_context_provenance := None; cy_authoring_context_custody := None;
     cy_ag := None; cy_ag_refusal := None; cy_recovery_reason := reason |}.

Definition NIL_UUID : uuid := "00000000-0000-0000-0000-000000000000".

Section store.
Context {PD : PostureDocuments} {ND : CanonicalDocuments}.

(** [ObservationCycleV1::seal]. *)
Definition cycle_seal (c : ObservationCycleV1) : result CanonicalStoreError ObservationCycleV1 :=
  let? d := store_object_id (cycle_set_digest "" c) "state_digest" in
  Ok (cycle_set_digest d c).

(** ** Claiming a slot *)

(** INSERT OR IGNORE INTO canonical_recurrence_slots, and [DuplicateSlot] when ignored. *)
Definition insert_slot (row : SlotRow) (t : Tables) : result CanonicalStoreError Tables :=
  reject (is_some (kt_slots t !! kl_slot_id row)
          || existsb (fun r => String.eqb (kl_cycle_id r) (kl_cycle_id row))
               (btree_values (kt_slots t)))
    (DuplicateSlot (kl_slot_id row)) ;?
  Ok (set_slots (<[kl_slot_id row := row]> (kt_slots t)) t).

(** The constraints of canonical_cycle_events. *)
Definition event_conflicts (row : CycleEventRow) (t : Tables) : bool :=
  existsb (fun r =>
      String.eqb (ke_cycle_id r) (ke_cycle_id row)
      && ((ke_sequence r =? ke_sequence row)%N
          || String.eqb (ke_resulting_state_digest r) (ke_resulting_state_digest row)
          || (is_some (ke_prior_state_digest row)
              && bool_decide (ke_prior_state_digest r = ke_prior_state_digest row))))
    (kt_events t)
  || is_none (kt_cycles t !! ke_cycle_id row).

Definition insert_cycle_event (row : CycleEventRow) (t : Tables)
    : result CanonicalStoreError Tables :=
  let? _ := to_sql_u64 (ke_sequence row) in
  reject (event_conflicts row t) constraint_failed ;?
  Ok (add_event row t).

(** The row and the event of a cycle. *)
Definition cycle_row (c : ObservationCycleV1) (json : string) : CycleRow :=
  {| kc_cycle_id := cy_cycle_id c; kc_slot_id := sl_slot_id (cy_slot c);
     kc_version := cy_version c; kc_status := status_as_db (cy_status c);
     kc_state_digest := cy_state_digest c; kc_snapshot_json := json;
     kc_updated_at := cy_updated_at c;
     kc_observation_id := obs_observation_id <$> cy_observation c |}.

Definition cycle_event (cycle_id : ObservationCycleId) (c : ObservationCycleV1)
    (event_kind : string) (prior : option string) (json : string) : CycleEventRow :=
  {| ke_cycle_id := cycle_id; ke_sequence := cy_version c; ke_event_kind := event_kind;
     ke_prior_state_digest := prior; ke_resulting_state_digest := cy_state_digest c;
     ke_snapshot_json := json; ke_recorded_at := cy_updated_at c |}.

Definition insert_initial_cycle (c : ObservationCycleV1) (event_kind : string) (t : Tables)
    : result CanonicalStoreError Tables :=
  let? json := canonical_json c in
  let? _ := to_sql_u64 (cy_version c) in
  reject (is_some (kt_cycles t !! cy_cycle_id c)
          || existsb (fun r => String.eqb (kc_slot_id r) (sl_slot_id (cy_slot c)))
               (btree_values (kt_cycles t))
          || is_none (kt_slots t !! sl_slot_id (cy_slot c))) constraint_failed ;?
  insert_cycle_event
    {| ke_cycle_id := cy_cycle_id c; ke_sequence := 0; ke_event_kind := event_kind;
       ke_prior_state_digest := None; ke_resulting_state_digest := cy_state_digest c;
       ke_snapshot_json := json; ke_recorded_at := cy_updated_at c |}
    (set_cycles (<[cy_cycle_id c := cycle_row c json]> (kt_cycles t)) t).

(** The transaction [claim_slot] and [record_missed] share: the slot, its cycle and the
    first event. *)
Definition insert_slot_cycle (c : ObservationCycleV1) (event_kind : string) (t : Tables)
    : result CanonicalStoreError Tables :=
  let? basis_json := canonical_json (cy_slot c) in
  let? t := insert_slot
    {| kl_slot_id := sl_slot_id (cy_slot c); kl_cycle_id := cy_cycle_id c;
       kl_status := status_as_db (cy_status c); kl_basis_json := basis_json;
       kl_state_digest := cy_state_digest c; kl_updated_at := cy_updated_at c |} t in
  insert_initial_cycle c event_kind t.

Definition claim_slot (slot : RecurrenceSlotV1) (scheduler_clock_id : string) (now : instant)
    (drawn nonce : uuid) (t : Tables)
    : result CanonicalStoreError ((ObservationCycleV1 * LiveCycleLeaseV1) * Tables) :=
  let? timing := timing_at slot scheduler_clock_id now in
  reject (bool_decide (timing = Timing_Missed)) (MissedSlot (sl_slot_id slot)) ;?
  let cycle_id := cycle_id_fresh drawn in
  let? c := cycle_seal (initial_cycle cycle_id slot timing Cycle_Observing
                          (timestamp now) None) in
  cycle_validate c ;?
  let? t := insert_slot_cycle c "slot_claimed" t in
  Ok (c, {| lv_cycle_id := cycle_id; lv_slot_id := sl_slot_id slot;
            lv_process_nonce := nonce |}, t).

Definition record_missed (slot : RecurrenceSlotV1) (scheduler_clock_id : string)
    (now : instant) (reason : string) (drawn : uuid) (t : Tables)
    : result CanonicalStoreError (ObservationCycleV1 * Tables) :=
  let? timing := timing_at slot scheduler_clock_id now in
  reject (negb (bool_decide (timing = Timing_Missed)))
    (IllegalTransition "only an actually missed slot may be recorded missed") ;?
  store_token "missed reason" reason ;?
  let? c := cycle_seal (initial_cycle (cycle_id_fresh drawn) slot Timing_Missed Cycle_Missed
                          (timestamp now) (Some reason)) in
  cycle_validate c ;?
  let? t := insert_slot_cycle c "slot_missed" t in
  Ok (c, t).

(** ** The durable claims of a cycle *)

Definition ag_claim_of (cycle_id : string) (t : Tables) : option AgClaimRow :=
  find_first (fun r => String.eqb (kg_cycle_id r) cycle_id) (kt_ag_claims t).

(** The snapshot of a cycle and its claim agree. *)
Definition ag_claim_matches (request : option PreparedAgRequestV1) (claim : option AgClaimRow)
    : bool :=
  match request, claim with
  | None, None => true
  | Some q, Some r =>
      String.eqb (kg_campaign_id r) (pq_campaign_id q)
      && String.eqb (kg_occurrence_id r) (pq_occurrence_id q)
      && String.eqb (kg_request_digest r) (pq_request_digest q)
  | _, _ => false
  end.

(** [Option<String>] parsed, [transpose]d. *)
Definition parse_claim {T} {ST : Serde T} (json : option string)
    : result CanonicalStoreError (option T) :=
  match json with
  | None => Ok None
  | Some json => let? record := parse_json json in Ok (Some record)
  end.

Definition authoring_claim_of (cycle_id : string) (t : Tables)
    : result CanonicalStoreError (option AuthoringContextProvenanceV1) :=
  parse_claim (ka_record_json <$>
    find_first (fun r => String.eqb (ka_cycle_id r) cycle_id) (kt_authoring t)).

Definition custody_claim_of (cycle_id : string) (t : Tables)
    : result CanonicalStoreError (option AuthoringContextCustodyProvenanceV1) :=
  parse_claim (ku_record_json <$>
    find_first (fun r => String.eqb (ku_cycle_id r) cycle_id) (kt_custody t)).

Definition validate_ag_occurrence_claim (c : ObservationCycleV1) (t : Tables)
    : result CanonicalStoreError unit :=
  reject (negb (ag_claim_matches (cy_prepared_ag_request c) (ag_claim_of (cy_cycle_id c) t)))
    (ReplayFailed "AG occurrence claim does not match the authoritative cycle snapshot").

Definition validate_authoring_context_claim (c : ObservationCycleV1) (t : Tables)
    : result CanonicalStoreError unit :=
  if negb (kt_has_authoring t) then
    reject (is_some (cy_authoring_context_provenance c))
      (ReplayFailed "authoring-context snapshot exists without its durable projection")
  else
    let? claim := authoring_claim_of (cy_cycle_id c) t in
    match cy_authoring_context_provenance c, claim with
    | None, None => Ok tt
    | Some snapshot, Some durable =>
        reject (negb (bool_decide (snapshot = durable)))
          (ReplayFailed
             "authoring-context claim does not match the authoritative cycle snapshot") ;?
        invalid_record (provenance_validate durable)
    | _, _ => Err (ReplayFailed
               "authoring-context claim does not match the authoritative cycle snapshot")
    end.

Definition validate_authoring_custody_claim (c : ObservationCycleV1) (t : Tables)
    : result CanonicalStoreError unit :=
  if negb (kt_has_custody t) then
    reject (is_some (cy_authoring_context_custody c))
      (ReplayFailed "authoring custody snapshot exists without its durable projection")
  else
    let? claim := custody_claim_of (cy_cycle_id c) t in
    match cy_authoring_context_custody c, claim with
    | None, None => Ok tt
    | Some snapshot, Some durable =>
        reject (negb (bool_decide (snapshot = durable)))
          (ReplayFailed
             "authoring custody claim does not match the authoritative cycle snapshot") ;?
        invalid_record (authoring_custody_validate durable)
    | _, _ => Err (ReplayFailed
               "authoring custody claim does not match the authoritative cycle snapshot")
    end.

Definition validate_claims_of (t : Tables) (c : ObservationCycleV1)
    : result CanonicalStoreError unit :=
  validate_ag_occurrence_claim c t ;?
  validate_authoring_context_claim c t ;?
  validate_authoring_custody_claim c t.

(** ** Queries *)

(** A snapshot column. *)
Definition read_snapshot (json : string) : result CanonicalStoreError ObservationCycleV1 :=
  let? c := parse_json json in
  cycle_validate c ;?
  Ok c.

Definition get_cycle (cycle_id : ObservationCycleId) (t : Tables)
    : result CanonicalStoreError ObservationCycleV1 :=
  let? row := ok_or (kt_cycles t !! cycle_id) (CycleNotFound cycle_id) in
  let? c := read_snapshot (kc_snapshot_json row) in
  validate_claims_of t c ;?
  Ok c.

(** Rows of the cycles table: every snapshot is validated, then every cycle's claims. *)
Definition read_cycles (rows : list CycleRow) (t : Tables)
    : result CanonicalStoreError (list ObservationCycleV1) :=
  let? values := map_try (fun r => read_snapshot (kc_snapshot_json r)) rows in
  for_each (validate_claims_of t) values ;?
  Ok values.

Definition list_cycles (t : Tables) : result CanonicalStoreError (list ObservationCycleV1) :=
  read_cycles (order_by (fun r => [kc_updated_at r; kc_cycle_id r])
                 (btree_values (kt_cycles t))) t.

(** The applicable verdicts of one cycle about a subject, collected by identity. *)
Definition collect_verdict (subject_ref : string) (verdict : SubstrateOriginApplicabilityV1)
    (nodes : gmap string SubstrateOriginApplicabilityV1)
    : result CanonicalStoreError (gmap string SubstrateOriginApplicabilityV1) :=
  if negb (String.eqb (oo_subject_ref verdict) subject_ref)
     || negb (bool_decide (oo_status verdict = Origin_Applicable))
  then Ok nodes
  else
    invalid_record (origin_applicability_validate verdict) ;?
    reject (is_some (nodes !! oo_applicability_id verdict))
      (StoreInvalid "duplicate substrate-origin applicability identity") ;?
    Ok (<[oo_applicability_id verdict := verdict]> nodes).

Definition collect_cycle (subject_ref : string) (c : ObservationCycleV1)
    (nodes : gmap string SubstrateOriginApplicabilityV1)
    : result CanonicalStoreError (gmap string SubstrateOriginApplicabilityV1) :=
  match cy_observation c with
  | None => Ok nodes
  | Some o =>
      fold_try (collect_verdict subject_ref) (obs_substrate_origin_applicability o) nodes
  end.

Definition substrate_origin_head (subject_ref : string) (t : Tables)
    : result CanonicalStoreError (option SubstrateOriginApplicabilityV1) :=
  store_token "substrate-origin subject" subject_ref ;?
  let? values := list_cycles t in
  let? nodes := fold_try (collect_cycle subject_ref) values ∅ in
  if bool_decide (nodes = ∅) then Ok None
  else let? head := unique_substrate_origin_head nodes in Ok (Some head).

Definition find_cycles_by_observation_id (observation_id : string) (t : Tables)
    : result CanonicalStoreError (list ObservationCycleV1) :=
  read_cycles (List.filter (fun r => bool_decide (kc_observation_id r = Some observation_id))
                 (btree_values (kt_cycles t))) t.

(** The later of two cycles by the order of their slots. *)
Definition later_cycle (family : ObservationFamilyKeyV1) (latest : option ObservationCycleV1)
    (c : ObservationCycleV1) : option ObservationCycleV1 :=
  if negb (bool_decide (family_of_slot (cy_slot c) = family)) || is_none (cy_observation c)
  then latest
  else
    match latest with
    | None => Some c
    | Some current =>
        if order_ltb (order_of_slot (cy_slot current)) (order_of_slot (cy_slot c))
        then Some c else latest
    end.

Definition latest_qualified_observation_in_family (family : ObservationFamilyKeyV1)
    (t : Tables) : result CanonicalStoreError (option ObservationCycleV1) :=
  let? values := list_cycles t in
  Ok (fold_left (later_cycle family) values None).

Definition selects_authoring (q : AuthoringContextQueryV1) (r : AuthoringRow) : bool :=
  let p := ka_record r in
  match q with
  | AuthoringQuery_GovernedOccurrence campaign_id occurrence_id =>
      String.eqb (au_campaign_id p) campaign_id && String.eqb (au_occurrence_id p) occurrence_id
  | AuthoringQuery_Proposal proposal_id => String.eqb (au_proposal_id p) proposal_id
  | AuthoringQuery_MaudeContext plan_ref session_id =>
      String.eqb (au_maude_plan_ref p) plan_ref && String.eqb (au_maude_session_id p) session_id
  end.

Definition authoring_columns (q : AuthoringContextQueryV1) (r : AuthoringRow) : list string :=
  let p := ka_record r in
  match q with
  | AuthoringQuery_GovernedOccurrence _ _ => [au_provenance_id p]
  | AuthoringQuery_Proposal _ => [au_occurrence_id p; au_provenance_id p]
  | AuthoringQuery_MaudeContext _ _ =>
      [au_campaign_id p; au_occurrence_id p; au_provenance_id p]
  end.

Definition export_authoring_context (q : AuthoringContextQueryV1) (t : Tables)
    : result CanonicalStoreError AuthoringContextExportV1 :=
  invalid_record (authoring_query_validate q) ;?
  reject (negb (kt_has_authoring t))
    (StoreInvalid
       "canonical store predates the authoring-context provenance projection") ;?
  let? matches := map_try (fun r =>
    let? record := parse_json (ka_record_json r) in
    let? c := get_cycle (ka_cycle_id r) t in
    reject (negb (bool_decide (cy_authoring_context_provenance c = Some record)))
      (ReplayFailed
         "authoring-context projection differs from its authoritative cycle") ;?
    Ok record)
    (order_by (authoring_columns q) (List.filter (selects_authoring q) (kt_authoring t))) in
  invalid_record (authoring_export_new q matches).

(** The first two queries join the lineage a custody row names. *)
Definition selects_custody (q : AuthoringContextQueryV1) (t : Tables)
    (r : AuthoringCustodyRow) : bool :=
  let c := ku_record r in
  match q with
  | AuthoringQuery_MaudeContext plan_ref session_id =>
      String.eqb (ac_maude_plan_ref c) plan_ref && String.eqb (ac_maude_session_id c) session_id
  | _ =>
      existsb (fun a => String.eqb (au_provenance_id (ka_record a))
                          (ac_authoring_context_provenance_id c)
                        && selects_authoring q a) (kt_authoring t)
  end.

Definition export_authoring_custody (q : AuthoringContextQueryV1) (t : Tables)
    : result CanonicalStoreError AuthoringContextCustodyExportV1 :=
  invalid_record (authoring_query_validate q) ;?
  reject (negb (kt_has_custody t))
    (StoreInvalid "canonical store predates the authoring-context custody projection") ;?
  let? matches := map_try (fun r =>
    let? record := parse_json (ku_record_json r) in
    let? c := get_cycle (ku_cycle_id r) t in
    reject (negb (bool_decide (cy_authoring_context_custody c = Some record)))
      (ReplayFailed "authoring custody projection differs from its authoritative cycle") ;?
    Ok record)
    (order_by (fun r => [ac_custody_id (ku_record r)])
       (List.filter (selects_custody q t) (kt_custody t))) in
  let export := {| ak_schema := CUSTODY_EXPORT_SCHEMA_V1; ak_query := q;
                   ak_matches := matches |} in
  invalid_record (custody_export_validate export) ;?
  Ok export.

(** Every durable use of one source observation. *)
Definition external_compositions_for_source (source_observation_id : string) (t : Tables)
    : result CanonicalStoreError (list ComposedExternalEvidenceV1) :=
  store_digest "source_observation_id" source_observation_id ;?
  let? values := map_try (fun r => read_snapshot (kc_snapshot_json r))
    (List.filter (fun r => is_some (kc_observation_id r)) (btree_values (kt_cycles t))) in
  Ok (omap (fun c =>
        match cy_observation c ≫= obs_external_evidence with
        | Some e => if String.eqb (cx_source_observation_id e) source_observation_id
                    then Some e else None
        | None => None
        end) values).

(** ** Transitions *)

(** The row read back and checked against its claims, as [transition] begins. *)
Definition check_claims_before (c : ObservationCycleV1) (cycle_id : ObservationCycleId)
    (t : Tables) : result CanonicalStoreError unit :=
  reject (negb (ag_claim_matches (cy_prepared_ag_request c) (ag_claim_of cycle_id t)))
    (ReplayFailed "AG occurrence claim diverged before transition") ;?
  let? durable_authoring := authoring_claim_of cycle_id t in
  reject (negb (bool_decide (cy_authoring_context_provenance c = durable_authoring)))
    (ReplayFailed "authoring-context claim diverged before transition") ;?
  let? durable_custody := custody_claim_of cycle_id t in
  reject (negb (bool_decide (cy_authoring_context_custody c = durable_custody)))
    (ReplayFailed "authoring-context custody claim diverged before transition").

Definition load_for_transition (cycle_id : ObservationCycleId) (expected_digest : string)
    (t : Tables) : result CanonicalStoreError ObservationCycleV1 :=
  let? row := ok_or (kt_cycles t !! cycle_id) (CycleNotFound cycle_id) in
  let? c := read_snapshot (kc_snapshot_json row) in
  check_claims_before c cycle_id t ;?
  reject (negb (String.eqb (cy_state_digest c) expected_digest)) StalePredecessor ;?
  Ok c.

(** The changed cycle under its next version, sealed and validated. *)
Definition seal_successor (prior : string) (now : instant) (c : ObservationCycleV1)
    : result CanonicalStoreError ObservationCycleV1 :=
  let? version := ok_or (checked_add (cy_version c) 1) (StoreInvalid "cycle version overflow") in
  let? c := cycle_seal (cycle_advance version prior (timestamp now) c) in
  cycle_validate c ;?
  Ok c.

(** [if !had_..]: what the change prepared is claimed once and for all. *)
Definition claim_ag_occurrence (cycle_id : ObservationCycleId)
    (before c : ObservationCycleV1) (t : Tables) : result CanonicalStoreError Tables :=
  match cy_prepared_ag_request before, cy_prepared_ag_request c with
  | None, Some q =>
      reject (existsb (fun r =>
                (String.eqb (kg_campaign_id r) (pq_campaign_id q)
                 && String.eqb (kg_occurrence_id r) (pq_occurrence_id q))
                || String.eqb (kg_cycle_id r) cycle_id) (kt_ag_claims t))
        (DuplicateAgOccurrence (pq_campaign_id q) (pq_occurrence_id q)) ;?
      Ok (add_ag_claim
            {| kg_campaign_id := pq_campaign_id q; kg_occurrence_id := pq_occurrence_id q;
               kg_cycle_id := cycle_id; kg_request_digest := pq_request_digest q;
               kg_claimed_at := cy_updated_at c |} t)
  | _, _ => Ok t
  end.

Definition authoring_conflicts (cycle_id : string) (p : AuthoringContextProvenanceV1)
    (r : AuthoringRow) : bool :=
  String.eqb (au_provenance_id (ka_record r)) (au_provenance_id p)
  || String.eqb (ka_cycle_id r) cycle_id
  || (String.eqb (au_campaign_id (ka_record r)) (au_campaign_id p)
      && String.eqb (au_occurrence_id (ka_record r)) (au_occurrence_id p)).

Definition claim_authoring (cycle_id : ObservationCycleId)
    (before c : ObservationCycleV1) (t : Tables) : result CanonicalStoreError Tables :=
  match cy_authoring_context_provenance before, cy_authoring_context_provenance c with
  | None, Some p =>
      let? json := canonical_json p in
      reject (existsb (authoring_conflicts cycle_id p) (kt_authoring t))
        (StoreInvalid
           "governed occurrence already has a different authoring-context relation") ;?
      Ok (add_authoring {| ka_cycle_id := cycle_id; ka_record := p;
                           ka_record_json := json |} t)
  | _, _ => Ok t
  end.

Definition custody_conflicts (cycle_id : string) (p : AuthoringContextCustodyProvenanceV1)
    (r : AuthoringCustodyRow) : bool :=
  String.eqb (ac_custody_id (ku_record r)) (ac_custody_id p)
  || String.eqb (ku_cycle_id r) cycle_id
  || String.eqb (ac_handoff_id (ku_record r)) (ac_handoff_id p)
  || String.eqb (ac_authoring_context_provenance_id (ku_record r))
       (ac_authoring_context_provenance_id p).

Definition claim_custody (cycle_id : ObservationCycleId)
    (before c : ObservationCycleV1) (t : Tables) : result CanonicalStoreError Tables :=
  match cy_authoring_context_custody before, cy_authoring_context_custody c with
  | None, Some p =>
      let? json := canonical_json p in
      reject (existsb (custody_conflicts cycle_id p) (kt_custody t))
        (StoreInvalid "governed occurrence already has different authoring custody") ;?
      reject (negb (existsb (fun r => String.eqb (au_provenance_id (ka_record r))
                                        (ac_authoring_context_provenance_id p))
                      (kt_authoring t))) constraint_failed ;?
      Ok (add_custody {| ku_cycle_id := cycle_id; ku_record := p;
                         ku_record_json := json |} t)
  | _, _ => Ok t
  end.

(** UPDATE .. WHERE cycle_id and state_digest; nothing else may have moved the row. *)
Definition update_cycle_row (cycle_id : ObservationCycleId) (prior : string)
    (c : ObservationCycleV1) (json : string) (t : Tables) : result CanonicalStoreError Tables :=
  let? _ := to_sql_u64 (cy_version c) in
  let? row := ok_or (kt_cycles t !! cycle_id) StalePredecessor in
  reject (negb (String.eqb (kc_state_digest row) prior)) StalePredecessor ;?
  let row' := {| kc_cycle_id := kc_cycle_id row; kc_slot_id := kc_slot_id row;
                 kc_version := cy_version c; kc_status := status_as_db (cy_status c);
                 kc_state_digest := cy_state_digest c; kc_snapshot_json := json;
                 kc_updated_at := cy_updated_at c;
                 kc_observation_id := obs_observation_id <$> cy_observation c |} in
  Ok (set_cycles (<[cycle_id := row']> (kt_cycles t)) t).

Definition update_slot_row (prior : string) (c : ObservationCycleV1) (t : Tables)
    : result CanonicalStoreError Tables :=
  let slot_id := sl_slot_id (cy_slot c) in
  let? row := ok_or (kt_slots t !! slot_id) StalePredecessor in
  reject (negb (String.eqb (kl_state_digest row) prior)) StalePredecessor ;?
  let row' := {| kl_slot_id := kl_slot_id row; kl_cycle_id := kl_cycle_id row;
                 kl_status := status_as_db (cy_status c); kl_basis_json := kl_basis_json row;
                 kl_state_digest := cy_state_digest c; kl_updated_at := cy_updated_at c |} in
  Ok (set_slots (<[slot_id := row']> (kt_slots t)) t).

(** What [transition] writes once the successor is sealed. *)
Definition write_successor (cycle_id : ObservationCycleId) (before c : ObservationCycleV1)
    (event_kind : string) (t : Tables)
    : result CanonicalStoreError Tables :=
  let prior := cy_state_digest before in
  let? t := claim_ag_occurrence cycle_id before c t in
  let? t := claim_authoring cycle_id before c t in
  let? t := claim_custody cycle_id before c t in
  let? json := canonical_json c in
  let? t := update_cycle_row cycle_id prior c json t in
  let? t := update_slot_row prior c t in
  insert_cycle_event (cycle_event cycle_id c event_kind (Some prior) json) t.

Definition wrong_lease (cycle_id : ObservationCycleId) (lease : LiveCycleLeaseV1) : bool :=
  negb (String.eqb (lv_cycle_id lease) cycle_id)
  || String.eqb (lv_process_nonce lease) NIL_UUID.

Definition transition (cycle_id : ObservationCycleId) (lease : option LiveCycleLeaseV1)
    (expected_digest event_kind : string) (now : instant)
    (mutate : ObservationCycleV1 -> result CanonicalStoreError ObservationCycleV1)
    (t : Tables) : result CanonicalStoreError (ObservationCycleV1 * Tables) :=
  reject (match lease with Some l => wrong_lease cycle_id l | None => false end)
    WrongLiveLease ;?
  let? before := load_for_transition cycle_id expected_digest t in
  let? changed := mutate before in
  let? c := seal_successor (cy_state_digest before) now changed in
  let? t := write_successor cycle_id before c event_kind t in
  Ok (c, t).

(** *** The changes *)

Definition observe (o : ObservationRecordV1) (attention : AttentionRecordV1)
    (temporal : option TemporalPostureV1) (c : ObservationCycleV1)
    : result CanonicalStoreError ObservationCycleV1 :=
  reject (negb (bool_decide (cy_status c = Cycle_Observing)))
    (IllegalTransition "observation may be recorded only while observing") ;?
  Ok (cycle_set_status Cycle_PostureRecorded (cycle_set_observation o attention temporal c)).

Definition record_observation (lease : LiveCycleLeaseV1) (expected_digest : string)
    (o : ObservationRecordV1) (attention : AttentionRecordV1)
    (temporal : option TemporalPostureV1) (now : instant) (t : Tables)
    : result CanonicalStoreError (ObservationCycleV1 * Tables) :=
  validate_for_cycle o (lv_cycle_id lease) ;?
  if_some (obs_external_evidence o) (fun e => validate_external_composition_source e t) ;?
  reject (negb (String.eqb (an_source_posture_id attention) (op_posture_id (obs_posture o))))
    (StoreInvalid "attention record does not bind the exact posture") ;?
  transition (lv_cycle_id lease) (Some lease) expected_digest "observation_recorded" now
    (observe o attention temporal) t.

Definition prepare (intent : TypedCoarseIntentV2) (request : PreparedAgRequestV1)
    (authoring : PreparedAuthoringEvidenceV1) (c : ObservationCycleV1)
    : result CanonicalStoreError ObservationCycleV1 :=
  reject (negb (bool_decide (cy_status c = Cycle_PostureRecorded)))
    (IllegalTransition "AG occurrence may be attached only after exact posture recording") ;?
  let? o := ok_or (cy_observation c) (IllegalTransition "observation basis is absent") in
  reject (negb (op_current (obs_posture o))
          || negb (bool_decide (qs_standing (obs_support o) = Support_Current)))
    (IllegalTransition "non-current posture cannot originate an AG proposal") ;?
  validate_for_observation intent o ;?
  reject (negb (String.eqb (pq_source_intent_id request) (tc_intent_id intent)))
    (StoreInvalid "prepared AG request does not bind the exact intent") ;?
  Ok (cycle_set_status Cycle_AwaitingAg (cycle_set_request intent request authoring c)).

Definition prepare_ag_occurrence (lease : LiveCycleLeaseV1) (expected_digest : string)
    (intent : TypedCoarseIntentV2) (request : PreparedAgRequestV1)
    (authoring : PreparedAuthoringEvidenceV1) (now : instant) (t : Tables)
    : result CanonicalStoreError (ObservationCycleV1 * Tables) :=
  request_validate request ;?
  if_some (pa_lineage authoring)
    (fun p => check_relationship p request intent) ;?
  check_custody (pa_custody authoring) (pa_lineage authoring) ;?
  transition (lv_cycle_id lease) (Some lease) expected_digest "ag_occurrence_prepared" now
    (prepare intent request authoring) t.

(** The program counters past which AG has acted. *)
Definition consequential (pc : AgProgramCounterV1) : bool :=
  match pc with
  | Pc_AuthorizationConsumed | Pc_Dispatched | Pc_ReconciliationRequired
  | Pc_SettledObservationRequired | Pc_Halted | Pc_Completed => true
  | _ => false
  end.

Definition names_request (request : PreparedAgRequestV1) (campaign_id occurrence_id : string)
    : bool :=
  String.eqb (pq_campaign_id request) campaign_id
  && String.eqb (pq_occurrence_id request) occurrence_id.

Definition prepared_request (c : ObservationCycleV1)
    : result CanonicalStoreError PreparedAgRequestV1 :=
  ok_or (cy_prepared_ag_request c) (IllegalTransition "prepared AG request is absent").

Definition attach (ag : AgOccurrenceReferenceV1) (c : ObservationCycleV1)
    : result CanonicalStoreError ObservationCycleV1 :=
  reject (negb (bool_decide (cy_status c = Cycle_AwaitingAg)) || is_some (cy_ag c))
    (IllegalTransition "AG occurrence may attach only to one prepared request") ;?
  let? request := prepared_request c in
  reject (negb (names_request request (ar_campaign_id ag) (ar_occurrence_id ag)))
    (StoreInvalid "AG response names the wrong prepared occurrence") ;?
  reject (consequential (ar_program_counter ag))
    (StoreInvalid "Nightshift adapter crossed an AG consequence boundary") ;?
  Ok (cycle_set_ag ag c).

Definition attach_ag_occurrence (lease : LiveCycleLeaseV1) (expected_digest : string)
    (ag : AgOccurrenceReferenceV1) (now : instant) (t : Tables)
    : result CanonicalStoreError (ObservationCycleV1 * Tables) :=
  ag_validate ag ;?
  transition (lv_cycle_id lease) (Some lease) expected_digest "ag_occurrence_attached" now
    (attach ag) t.

(** The status an AG program counter puts the cycle in. *)
Definition status_of_counter (pc : AgProgramCounterV1) : CycleStatusV1 :=
  match pc with
  | Pc_ReconciliationRequired => Cycle_AwaitingAgReconciliation
  | Pc_SettledObservationRequired => Cycle_ObservationRequired
  | Pc_Halted => Cycle_Halted
  | Pc_Completed => Cycle_Closed
  | _ => Cycle_AwaitingAg
  end.

Definition takes_ag_status (s : CycleStatusV1) : bool :=
  match s with
  | Cycle_AwaitingAg | Cycle_AwaitingAgReconciliation | Cycle_ObservationRequired
  | Cycle_Halted | Cycle_RecoveryRequired => true
  | _ => false
  end.

Definition observe_status (ag : AgOccurrenceReferenceV1) (c : ObservationCycleV1)
    : result CanonicalStoreError ObservationCycleV1 :=
  reject (negb (takes_ag_status (cy_status c)))
    (IllegalTransition "AG status cannot be attached from this cycle state") ;?
  let? prior := ok_or (cy_ag c) (IllegalTransition "cycle has no AG occurrence") in
  reject (negb (String.eqb (ar_campaign_id prior) (ar_campaign_id ag))
          || negb (String.eqb (ar_occurrence_id prior) (ar_occurrence_id ag)))
    (StoreInvalid "AG status names the wrong campaign or occurrence") ;?
  reject (negb (ag_status_can_follow (ar_program_counter prior) (ar_program_counter ag)))
    (StoreInvalid "stale or regressive AG program-counter observation") ;?
  Ok (cycle_set_ag ag (cycle_set_status (status_of_counter (ar_program_counter ag)) c)).

Definition record_ag_status (cycle_id : ObservationCycleId) (expected_digest : string)
    (ag : AgOccurrenceReferenceV1) (now : instant) (t : Tables)
    : result CanonicalStoreError (ObservationCycleV1 * Tables) :=
  ag_validate ag ;?
  let? current := get_cycle cycle_id t in
  reject (negb (String.eqb (cy_state_digest current) expected_digest)) StalePredecessor ;?
  if bool_decide (cy_ag current = Some ag) then Ok (current, t)
  else transition cycle_id None expected_digest "ag_status_observed" now (observe_status ag) t.

Definition pending_or_recovering (s : CycleStatusV1) : bool :=
  match s with Cycle_AwaitingAg | Cycle_RecoveryRequired => true | _ => false end.

Definition refuse (refusal : AgRefusalReferenceV1) (c : ObservationCycleV1)
    : result CanonicalStoreError ObservationCycleV1 :=
  reject (negb (pending_or_recovering (cy_status c)))
    (IllegalTransition "AG refusal can close only its exact pending cycle") ;?
  let? request := prepared_request c in
  reject (negb (names_request request (arf_campaign_id refusal) (arf_occurrence_id refusal)))
    (StoreInvalid "AG refusal names the wrong campaign or occurrence") ;?
  let? ag := ok_or (cy_ag c)
    (IllegalTransition "AG refusal requires the exact observed AG predecessor state") in
  reject (negb (String.eqb (ar_state_digest ag) (arf_at_state_digest refusal)))
    (StoreInvalid "AG refusal names a substituted predecessor state") ;?
  Ok (cycle_set_status Cycle_Closed (cycle_set_refusal refusal c)).

Definition record_ag_refusal (cycle_id : ObservationCycleId) (expected_digest : string)
    (refusal : AgRefusalReferenceV1) (now : instant) (t : Tables)
    : result CanonicalStoreError (ObservationCycleV1 * Tables) :=
  refusal_validate refusal ;?
  transition cycle_id None expected_digest "ag_refusal_observed" now (refuse refusal) t.

Definition recover (ag : AgOccurrenceReferenceV1) (c : ObservationCycleV1)
    : result CanonicalStoreError ObservationCycleV1 :=
  reject (negb (pending_or_recovering (cy_status c)) || is_some (cy_ag c))
    (IllegalTransition "AG occurrence recovery requires an unresolved prepared request") ;?
  let? request := prepared_request c in
  reject (negb (names_request request (ar_campaign_id ag) (ar_occurrence_id ag)))
    (StoreInvalid "recovered AG response names the wrong occurrence") ;?
  Ok (cycle_set_recovery None
        (cycle_set_ag ag (cycle_set_status (status_of_counter (ar_program_counter ag)) c))).

Definition recover_ag_occurrence (cycle_id : ObservationCycleId) (expected_digest : string)
    (ag : AgOccurrenceReferenceV1) (now : instant) (t : Tables)
    : result CanonicalStoreError (ObservationCycleV1 * Tables) :=
  ag_validate ag ;?
  transition cycle_id None expected_digest "ag_occurrence_recovered_read_only" now
    (recover ag) t.

Definition require_recovery (reason : string) (c : ObservationCycleV1)
    : result CanonicalStoreError ObservationCycleV1 :=
  reject (match cy_status c with Cycle_Closed | Cycle_Missed => true | _ => false end)
    (IllegalTransition "terminal cycle cannot enter recovery") ;?
  Ok (cycle_set_recovery (Some reason) (cycle_set_status Cycle_RecoveryRequired c)).

Definition mark_recovery_required (cycle_id : ObservationCycleId) (expected_digest : string)
    (reason : string) (now : instant) (t : Tables)
    : result CanonicalStoreError (ObservationCycleV1 * Tables) :=
  store_token "recovery reason" reason ;?
  transition cycle_id None expected_digest "recovery_required" now (require_recovery reason) t.

Definition close_posture_only (c : ObservationCycleV1)
    : result CanonicalStoreError ObservationCycleV1 :=
  reject (negb (bool_decide (cy_status c = Cycle_PostureRecorded)) || is_some (cy_intent c))
    (IllegalTransition "only a posture-only cycle may close without a proposal") ;?
  Ok (cycle_set_status Cycle_Closed c).

Definition close_without_proposal (lease : LiveCycleLeaseV1) (expected_digest : string)
    (now : instant) (t : Tables)
    : result CanonicalStoreError (ObservationCycleV1 * Tables) :=
  transition (lv_cycle_id lease) (Some lease) expected_digest "cycle_closed_without_proposal"
    now close_posture_only t.

(** ** Restart *)

Definition erase_currentness (c : ObservationCycleV1)
    : result CanonicalStoreError ObservationCycleV1 :=
  Ok (cycle_set_recovery
        (Some "restart erased live observation support; start a fresh cycle")
        (cycle_set_status Cycle_RecoveryRequired c)).

(** One cycle of the restart: in flight locally, bound to AG, or left alone. *)
Definition recover_cycle (now : instant) (c : ObservationCycleV1) (t : Tables)
    : result CanonicalStoreError (list ObservationCycleV1 * Tables) :=
  match cy_status c with
  | Cycle_Observing | Cycle_PostureRecorded =>
      let? '(erased, t) := transition (cy_cycle_id c) None (cy_state_digest c)
                             "restart_local_currentness_erased" now erase_currentness t in
      Ok ([erased], t)
  | Cycle_AwaitingAg | Cycle_AwaitingAgReconciliation => Ok ([c], t)
  | Cycle_RecoveryRequired =>
      Ok (if is_some (cy_prepared_ag_request c) then [c] else [], t)
  | _ => Ok ([], t)
  end.

Fixpoint recover_cycles (now : instant) (values recovered : list ObservationCycleV1)
    (t : Tables) : result CanonicalStoreError (list ObservationCycleV1) * Tables :=
  match values with
  | [] => (Ok recovered, t)
  | c :: values =>
      match recover_cycle now c t with
      | Ok (more, t) => recover_cycles now values (recovered ++ more)%list t
      | Err e => (Err e, t)
      end
  end.

Definition recover_after_restart (now : instant) (t : Tables)
    : result CanonicalStoreError (list ObservationCycleV1) * Tables :=
  match list_cycles t with
  | Ok values => recover_cycles now values [] t
  | Err e => (Err e, t)
  end.

(** ** Replay and export *)

Definition event_earlier (r1 r2 : CycleEventRow) : Prop :=
  (ke_sequence r1 <= ke_sequence r2)%N.

#[global] Instance event_earlier_dec : RelDecision event_earlier.
Proof. intros r1 r2. unfold event_earlier. apply _. Defined.

Definition cycle_events (cycle_id : ObservationCycleId) (t : Tables) : list CycleEventRow :=
  merge_sort event_earlier
    (List.filter (fun r => String.eqb (ke_cycle_id r) cycle_id) (kt_events t)).

(** One event: the state is the cycles replayed so far and the expected predecessor. *)
Definition replay_cycle_event (r : CycleEventRow)
    (state : list ObservationCycleV1 * option string)
    : result CanonicalStoreError (list ObservationCycleV1 * option string) :=
  let '(replayed, expected_prior) := state in
  reject (negb (ke_sequence r =? N.of_nat (length replayed))%N
          || negb (bool_decide (ke_prior_state_digest r = expected_prior)))
    (ReplayFailed "event sequence or predecessor chain diverged") ;?
  let? c := read_snapshot (ke_snapshot_json r) in
  reject (negb (String.eqb (cy_state_digest c) (ke_resulting_state_digest r))
          || negb (bool_decide (cy_prior_state_digest c = ke_prior_state_digest r)))
    (ReplayFailed "event digest does not bind stored snapshot") ;?
  Ok ((replayed ++ [c])%list, Some (ke_resulting_state_digest r)).

Definition canonical_replay (cycle_id : ObservationCycleId) (t : Tables)
    : result CanonicalStoreError (list ObservationCycleV1) :=
  let? '(replayed, _) := fold_try replay_cycle_event (cycle_events cycle_id t) ([], None) in
  let? current := get_cycle cycle_id t in
  reject (negb (bool_decide (last replayed = Some current)))
    (ReplayFailed "authoritative row differs from replay tail") ;?
  Ok replayed.

Definition export_match (t : Tables) (c : ObservationCycleV1)
    : result CanonicalStoreError ObservationExportMatchV1 :=
  let family := family_of_slot (cy_slot c) in
  let? latest := latest_qualified_observation_in_family family t in
  let? o := ok_or (cy_observation c)
    (StoreInvalid "observation_id index names a cycle without an observation") in
  Ok {| em_cycle_id := cy_cycle_id c; em_slot_id := sl_slot_id (cy_slot c);
        em_family := family; em_order_key := order_of_slot (cy_slot c);
        em_family_latest_cycle_id := cy_cycle_id <$> latest;
        em_family_latest_order_key := (fun v => order_of_slot (cy_slot v)) <$> latest;
        em_observation := o |}.

Definition export_observation (observation_id : string) (t : Tables)
    : result CanonicalStoreError ObservationExportV1 :=
  let? values := find_cycles_by_observation_id observation_id t in
  let? matches := map_try (export_match t) values in
  Ok {| eo_schema := OBSERVATION_EXPORT_SCHEMA_V1; eo_observation_id := observation_id;
        eo_matches := matches |}.
End store.
