(* ===== verification/CanonicalFacts.v ===== *)
(** * Facts about the canonical store

    How one transition changes the tables, how a cycle may advance, and the invariant of
    the stores that operations reach: every row of the cycles table ends a chain of events
    that replays to it, and its slot and its durable claims agree with it. *)
From S2P Require Import Prelude Text External Signing Contract NqAdmission SubstrateOrigin.
From S2P Require Import ExternalObservation ExternalComposition SteadyState Authoring.
From S2P Require Import Diagnostic Posture CanonicalRecords CanonicalTables CanonicalStore.
From S2P Require Currentness.
Local Open Scope string_scope.

Section facts.
Context {PD : PostureDocuments} {ND : CanonicalDocuments}.
Context {SC : SerdeOk ObservationCycleV1}.
Context {SA : SerdeOk AuthoringContextProvenanceV1}.
Context {SU : SerdeOk AuthoringContextCustodyProvenanceV1}.

(** ** Lists of rows *)

Lemma find_first_app {A} (p : A -> bool) l1 l2 :
  find_first p (l1 ++ l2) =
  match find_first p l1 with Some x => Some x | None => find_first p l2 end.
Proof. induction l1 as [|x l1 IH]; simpl; [done|]. by destruct (p x). Qed.

Lemma existsb_false {A} (p : A -> bool) l x : existsb p l = false -> x ∈ l -> p x = false.
Proof.
  intros H Hx. apply existsb_false_Forall in H. by eapply (proj1 (Forall_forall _ _)) in H.
Qed.

Lemma list_filter_app {A} (p : A -> bool) l1 l2 :
  List.filter p (l1 ++ l2) = (List.filter p l1 ++ List.filter p l2)%list.
Proof. apply List.filter_app. Qed.

Lemma parse_canonical {T} `{SerdeOk T} (x : T) json :
  canonical_json x = Ok json -> parse_json json = Ok x.
Proof.
  unfold canonical_json, parse_json, invalid_record. rewrite !map_err_ok.
  apply from_slice_to_vec.
Qed.

(** ** The AG program counters are passed in one order *)

Definition counter_rank (pc : AgProgramCounterV1) : nat :=
  match pc with
  | Pc_ObservationRequired => 0
  | Pc_ProposalRecorded => 1
  | Pc_StandingRequired => 2
  | Pc_AdmissiblePendingAuthorization => 3
  | Pc_AuthorizationConsumed => 4
  | Pc_Dispatched => 5
  | Pc_ReconciliationRequired => 6
  | Pc_SettledObservationRequired => 7
  | Pc_Halted => 8
  | Pc_Completed => 9
  end.

Lemma ag_status_can_follow_rank p n :
  ag_status_can_follow p n = (counter_rank p <=? counter_rank n)%nat.
Proof. by destruct p, n. Qed.

(** ** How a cycle may advance *)

(** [kept a b]: what is recorded stays as it is. *)
Definition kept {A} (a b : option A) : Prop := forall x, a = Some x -> b = Some x.

Definition terminal (s : CycleStatusV1) : bool :=
  match s with Cycle_Closed | Cycle_Missed => true | _ => false end.

(** The AG occurrence a cycle refers to: fixed, and its program counter never regresses. *)
Definition ag_advances (a b : option AgOccurrenceReferenceV1) : Prop :=
  forall x, a = Some x -> exists y, b = Some y /\
    ar_campaign_id y = ar_campaign_id x /\ ar_occurrence_id y = ar_occurrence_id x /\
    (counter_rank (ar_program_counter x) <= counter_rank (ar_program_counter y))%nat.

(** What every change of a cycle preserves. *)
Record advances (p c : ObservationCycleV1) : Prop := {
  adv_cycle_id : cy_cycle_id c = cy_cycle_id p;
  adv_slot : cy_slot c = cy_slot p;
  adv_timing : cy_timing c = cy_timing p;
  adv_created : cy_created_at c = cy_created_at p;
  adv_observation : kept (cy_observation p) (cy_observation c);
  adv_attention : is_Some (cy_observation p) -> cy_attention c = cy_attention p;
  adv_intent : kept (cy_intent p) (cy_intent c);
  adv_request : kept (cy_prepared_ag_request p) (cy_prepared_ag_request c);
  adv_authoring : kept (cy_authoring_context_provenance p) (cy_authoring_context_provenance c);
  adv_custody : kept (cy_authoring_context_custody p) (cy_authoring_context_custody c);
  adv_ag : ag_advances (cy_ag p) (cy_ag c);
  adv_refusal : kept (cy_ag_refusal p) (cy_ag_refusal c)
}.

Lemma kept_refl {A} (a : option A) : kept a a.
Proof. by intros x ->. Qed.
Lemma kept_None {A} (b : option A) : kept None b.
Proof. by intros x [=]. Qed.
Lemma kept_trans {A} (a b c : option A) : kept a b -> kept b c -> kept a c.
Proof. unfold kept. eauto. Qed.
Lemma ag_advances_refl a : ag_advances a a.
Proof. intros x ->. exists x. repeat split; lia. Qed.
Lemma ag_advances_trans a b c : ag_advances a b -> ag_advances b c -> ag_advances a c.
Proof.
  intros H1 H2 x Hx. destruct (H1 x Hx) as (y & Hy & ? & ? & ?).
  destruct (H2 y Hy) as (z & Hz & ? & ? & ?).
  exists z. repeat split; [done|congruence|congruence|lia].
Qed.
Hint Resolve kept_refl kept_None ag_advances_refl : core.

#[export] Instance advances_refl : Reflexive advances.
Proof. intros c. constructor; auto. Qed.
#[export] Instance advances_trans : Transitive advances.
Proof.
  intros a b c [] []. constructor; try congruence; eauto using kept_trans, ag_advances_trans.
  intros Ho. rewrite adv_attention1, adv_attention0; [done|done|].
  destruct Ho as [o Ho]. exists o. by apply adv_observation0.
Qed.

(** A cycle the store accepts: what the later facts of a cycle rest on. *)
Lemma if_some_ok {A} (o : option A) check :
  if_some o check = Ok tt <-> forall a, o = Some a -> check a = Ok tt.
Proof. destruct o as [a|]; simpl; split; [by intros ? ? [= <-]|auto|by intros _ ? [=]|done]. Qed.

Record cycle_accepted (c : ObservationCycleV1) : Prop := {
  acc_observation : forall o, cy_observation c = Some o ->
    validate_for_cycle o (cy_cycle_id c) = Ok tt;
  acc_intent : forall i, cy_intent c = Some i -> exists o, cy_observation c = Some o /\
    validate_for_observation i o = Ok tt;
  acc_ag : is_Some (cy_ag c) -> is_Some (cy_intent c);
  acc_refusal : is_Some (cy_ag_refusal c) -> is_Some (cy_prepared_ag_request c);
  acc_request : forall q, cy_prepared_ag_request c = Some q -> exists i,
    cy_intent c = Some i /\ pq_source_intent_id q = tc_intent_id i;
  acc_authoring : forall p, cy_authoring_context_provenance c = Some p ->
    is_Some (cy_prepared_ag_request c) /\ provenance_validate p = Ok tt;
  acc_custody : forall u, cy_authoring_context_custody c = Some u ->
    is_Some (cy_authoring_context_provenance c) /\ authoring_custody_validate u = Ok tt;
  acc_structural : structural c = true
}.

Lemma cycle_validate_accepted c : cycle_validate c = Ok tt -> cycle_accepted c.
Proof.
  unfold cycle_validate. intros H. inv_ok H. res_simpl. rewrite !if_some_ok in *.
  constructor.
  - auto.
  - intros i Hi. specialize (Hok5 i Hi). unfold cycle_check_intent in Hok5. inv_ok Hok5.
    res_simpl. eauto.
  - intros [a Ha]. specialize (Hok7 a Ha). inv_ok Hok7. res_simpl. by apply is_none_false.
  - intros [r Hr]. specialize (Hok8 r Hr). unfold check_refusal in Hok8. inv_ok Hok8.
    res_simpl. eauto.
  - intros q Hq. specialize (Hok9 q Hq). unfold cycle_check_request in Hok9. inv_ok Hok9.
    res_simpl. test_simpl. eauto.
  - intros p Hp. rewrite Hp in Hok10. unfold check_authoring in Hok10.
    destruct (cy_prepared_ag_request c) as [q|], (cy_intent c) as [i|]; try discriminate Hok10.
    split; [eauto|]. unfold check_relationship, validate_relationship, invalid_record in Hok10.
    inv_ok Hok10. res_simpl. by apply Hok10.
  - intros u Hu. rewrite Hu in Hok11. unfold check_custody in Hok11.
    destruct (cy_authoring_context_provenance c) as [p|]; [|discriminate Hok11].
    split; [eauto|]. unfold validate_for_authoring, invalid_record in Hok11.
    res_simpl. by apply Hok11.
  - by apply negb_false_iff.
Qed.

(** ** The changes *)

(** A prepared request rests on a posture that was current. *)
Definition current_basis (c : ObservationCycleV1) : Prop :=
  forall q, cy_prepared_ag_request c = Some q ->
  exists o, cy_observation c = Some o /\ op_current (obs_posture o) = true /\
    Currentness.qs_standing (obs_support o) = Currentness.Support_Current.

(** A refused cycle is over. *)
Definition refusal_closes (c : ObservationCycleV1) : Prop :=
  is_Some (cy_ag_refusal c) -> cy_status c = Cycle_Closed.

(** A cycle of a reached store. *)
Record sound (c : ObservationCycleV1) : Prop := {
  snd_accepted : cycle_accepted c;
  snd_basis : current_basis c;
  snd_refusal : refusal_closes c
}.

(** What a change of [p] into [c] guarantees, before [c] is sealed and validated; [S] holds
    of a newly recorded observation. *)
Record change (S : ObservationRecordV1 -> Prop) (p c : ObservationCycleV1) : Prop := {
  ch_advances : advances p c;
  ch_version : cy_version c = cy_version p;
  ch_open : terminal (cy_status p) = false;
  ch_basis : current_basis c;
  ch_refusal : refusal_closes c;
  ch_observation : forall o, cy_observation c = Some o -> cy_observation p = Some o \/ S o
}.

Section changes.
Context (S : ObservationRecordV1 -> Prop) (p : ObservationCycleV1) (Hp : sound p).

Lemma request_none_custody : cy_prepared_ag_request p = None ->
  cy_authoring_context_provenance p = None /\ cy_authoring_context_custody p = None.
Proof using Hp.
  destruct Hp as [H _ _]. intros Hq. assert (cy_authoring_context_provenance p = None) as Ha.
  { destruct (cy_authoring_context_provenance p) as [a|] eqn:Ha; [|done].
    destruct (acc_authoring _ H _ Ha) as [[q Hq'] _]. congruence. }
  split; [done|]. destruct (cy_authoring_context_custody p) as [u|] eqn:Hu; [|done].
  destruct (acc_custody _ H _ Hu) as [[a Ha'] _]. congruence.
Qed.

Lemma open_not_refused : terminal (cy_status p) = false -> cy_ag_refusal p = None.
Proof using Hp.
  destruct Hp as [_ _ H]. intros Ht. destruct (cy_ag_refusal p) as [r|] eqn:Hr; [|done].
  unfold refusal_closes in H. rewrite Hr in H. rewrite H in Ht; [done|by eexists].
Qed.

Lemma observing_facts : cy_status p = Cycle_Observing ->
  cy_observation p = None /\ cy_intent p = None /\ cy_prepared_ag_request p = None
  /\ cy_ag p = None.
Proof using Hp.
  destruct Hp as [H _ _]. intros Hs. pose proof (acc_structural _ H) as Hst.
  unfold structural in Hst. rewrite Hs in Hst. rewrite !andb_true_iff, !is_none_true in Hst.
  tauto.
Qed.

Lemma recorded_facts : cy_status p = Cycle_PostureRecorded ->
  is_Some (cy_observation p) /\ cy_intent p = None /\ cy_prepared_ag_request p = None
  /\ cy_ag p = None.
Proof using Hp.
  destruct Hp as [H _ _]. intros Hs. pose proof (acc_structural _ H) as Hst.
  unfold structural in Hst. rewrite Hs in Hst. unfold posture_only in Hst.
  rewrite !andb_true_iff, !is_none_true, is_some_true in Hst. tauto.
Qed.

Lemma not_refused_closes x : cy_ag_refusal p = None -> cy_ag_refusal x = cy_ag_refusal p ->
  refusal_closes x.
Proof. intros H Hx. unfold refusal_closes. rewrite Hx, H. by intros [? [=]]. Qed.

Lemma observe_change c o a tp : S o -> observe o a tp p = Ok c -> change S p c.
Proof using Hp.
  intros Ho H. unfold observe in H. inv_ok H. res_simpl. test_simpl.
  apply bool_decide_eq_true in Hok. subst c.
  destruct (observing_facts Hok) as (H1 & H2 & H3 & H4).
  assert (terminal (cy_status p) = false) as Ht by (by rewrite Hok).
  constructor; simpl; [|done|done| | |].
  - constructor; simpl; auto; [by rewrite H1|by rewrite H1; intros [? [=]]].
  - intros q Hq. simpl in Hq. congruence.
  - eapply not_refused_closes; [by apply open_not_refused|done].
  - intros x [= <-]. by right.
Qed.

Lemma prepare_change c i q e : prepare i q e p = Ok c -> change S p c.
Proof using Hp.
  intros H. unfold prepare in H. inv_ok H. res_simpl. test_simpl.
  apply bool_decide_eq_true in Hok. subst c.
  destruct (recorded_facts Hok) as (H1 & H2 & H3 & H4).
  destruct (request_none_custody H3) as [H5 H6].
  assert (terminal (cy_status p) = false) as Ht by (by rewrite Hok).
  constructor; simpl; [|done|done| | |auto].
  - constructor; simpl; auto; by rewrite ?H2, ?H3, ?H5, ?H6.
  - intros q' _. simpl. exists x. destruct Hok1 as [Hc Hs]. by apply bool_decide_eq_true in Hs.
  - eapply not_refused_closes; [by apply open_not_refused|done].
Qed.

(** What a change of the AG reference, the status or the recovery reason leaves alone. *)
Definition core (x : ObservationCycleV1) :=
  (cy_cycle_id x, cy_slot x, cy_timing x, cy_created_at x, cy_version x,
   (cy_observation x, cy_attention x, cy_intent x, cy_prepared_ag_request x),
   (cy_authoring_context_provenance x, cy_authoring_context_custody x, cy_ag_refusal x)).

Lemma core_change c : terminal (cy_status p) = false -> core c = core p ->
  ag_advances (cy_ag p) (cy_ag c) -> change S p c.
Proof using Hp.
  intros Ht Hc Ha. unfold core in Hc. injection Hc as H1 H2 H3 H4 Hv H5 H6 H7 H8 H9 H10 H11.
  constructor; [|done|done| | |].
  - constructor; rewrite ?H1, ?H2, ?H3, ?H4, ?H5, ?H6, ?H7, ?H8, ?H9, ?H10, ?H11; auto.
  - unfold current_basis. rewrite H5, H8. apply Hp.
  - eapply not_refused_closes; [by apply open_not_refused|done].
  - rewrite H5. auto.
Qed.

Lemma attach_change c ag : attach ag p = Ok c -> change S p c.
Proof using Hp.
  intros H. unfold attach in H. inv_ok H. res_simpl. test_simpl. destruct Hok as [Hs Hn].
  apply bool_decide_eq_true in Hs. apply is_some_false in Hn. subst c.
  apply core_change; [by rewrite Hs|done|by rewrite Hn].
Qed.

Lemma observe_status_change c ag : observe_status ag p = Ok c -> change S p c.
Proof using Hp.
  intros H. unfold observe_status in H. inv_ok H. res_simpl. test_simpl. subst c.
  apply core_change; [by destruct (cy_status p)|done|].
  rewrite Hok0. intros y [= <-]. exists ag. destruct Hok1 as [Hc Ho].
  rewrite ag_status_can_follow_rank in Hok2. apply Nat.leb_le in Hok2. by repeat split.
Qed.

Lemma pending_open s : pending_or_recovering s = true -> terminal s = false.
Proof. by destruct s. Qed.

Lemma recover_change c ag : recover ag p = Ok c -> change S p c.
Proof using Hp.
  intros H. unfold recover in H. inv_ok H. res_simpl. test_simpl. destruct Hok as [Hs Hn].
  apply is_some_false in Hn. apply pending_open in Hs. subst c.
  apply core_change; [done|done|by rewrite Hn].
Qed.

Lemma refuse_change c r : refuse r p = Ok c -> change S p c.
Proof using Hp.
  intros H. unfold refuse in H. inv_ok H. res_simpl. test_simpl. apply pending_open in Hok.
  subst c. pose proof (open_not_refused Hok) as Hn.
  constructor; simpl; [|done|done|apply Hp|by intros _|auto].
  constructor; simpl; auto. by rewrite Hn.
Qed.

Lemma require_recovery_change c r : require_recovery r p = Ok c -> change S p c.
Proof using Hp.
  intros H. unfold require_recovery in H. inv_ok H. res_simpl. subst c.
  apply core_change; [by destruct (cy_status p)|done|auto].
Qed.

Lemma close_change c : close_posture_only p = Ok c -> change S p c.
Proof using Hp.
  intros H. unfold close_posture_only in H. inv_ok H. res_simpl. test_simpl.
  destruct Hok as [Hs _]. apply bool_decide_eq_true in Hs. subst c.
  apply core_change; [by rewrite Hs|done|auto].
Qed.

Lemma erase_change c : terminal (cy_status p) = false -> erase_currentness p = Ok c ->
  change S p c.
Proof using Hp.
  intros Ht H. unfold erase_currentness in H. inv_ok H. subst c.
  apply core_change; [done|done|auto].
Qed.
End changes.

(** ** What a transition writes *)

Definition with_claims (ag : list AgClaimRow) (au : list AuthoringRow)
    (cu : list AuthoringCustodyRow) (t : Tables) : Tables :=
  {| kt_slots := kt_slots t; kt_cycles := kt_cycles t; kt_events := kt_events t;
     kt_ag_claims := ag; kt_authoring := au; kt_custody := cu; kt_external := kt_external t;
     kt_steady := kt_steady t; kt_has_observation_id := kt_has_observation_id t;
     kt_has_authoring := kt_has_authoring t; kt_has_custody := kt_has_custody t;
     kt_has_external := kt_has_external t |}.

Definition occurrence_of (r : AgClaimRow) : string * string :=
  (kg_campaign_id r, kg_occurrence_id r).

Lemma with_claims_id t : with_claims (kt_ag_claims t) (kt_authoring t) (kt_custody t) t = t.
Proof. by destruct t. Qed.

(** The rows a transition of cycle [id] adds to one of the claims tables: none, or one row
    of [id] when the cycle had none. *)
Definition one_claim {R A} (cycle_of : R -> string) (id : string) (before after : option A)
    (row : A -> R -> Prop) (old new : list R) : Prop :=
  (new = [] /\ (before = None -> after = None))
  \/ (before = None /\ exists a r, after = Some a /\ new = [r] /\ cycle_of r = id /\ row a r
      /\ find_first (fun r => String.eqb (cycle_of r) id) old = None).

Lemma find_first_existsb {A} (p q : A -> bool) l :
  existsb q l = false -> (forall x, p x = true -> q x = true) -> find_first p l = None.
Proof.
  intros H Hpq. apply find_first_None. apply existsb_false_Forall in H.
  eapply Forall_impl; [exact H|]. intros x Hx. cbn in Hx. destruct (p x) eqn:E; [|done].
  specialize (Hpq x E). congruence.
Qed.

Lemma claim_ag_spec id b c t t1 : claim_ag_occurrence id b c t = Ok t1 ->
  exists new, t1 = with_claims (kt_ag_claims t ++ new) (kt_authoring t) (kt_custody t) t
  /\ one_claim kg_cycle_id id (cy_prepared_ag_request b) (cy_prepared_ag_request c)
       (fun q r => ag_claim_matches (Some q) (Some r) = true) (kt_ag_claims t) new
  /\ (NoDup (occurrence_of <$> kt_ag_claims t) -> NoDup (occurrence_of <$> kt_ag_claims t1)).
Proof.
  unfold claim_ag_occurrence. intros H.
  destruct (cy_prepared_ag_request b) as [q0|], (cy_prepared_ag_request c) as [q|];
    try (injection H as <-; exists []; rewrite app_nil_r, with_claims_id;
         split; [done|split; [by left|done]]).
  inv_ok H. res_simpl. subst t1. eexists [_]. split; [reflexivity|]. split.
  - right. split; [done|]. exists q. eexists. repeat split.
    + simpl. by rewrite !String.eqb_refl.
    + eapply find_first_existsb; [exact Hok|]. intros r Hr. cbv beta. by rewrite Hr, orb_true_r.
  - intros Hn. simpl. rewrite fmap_app. apply NoDup_app. split; [done|].
    split; [|apply NoDup_singleton]. intros k Hk Hk'.
    apply list_elem_of_singleton in Hk' as ->. apply list_elem_of_fmap in Hk as (r & Hr & Hin).
    apply (existsb_false _ _ _ Hok) in Hin. apply orb_false_iff in Hin as [Hin _].
    injection Hr as H1 H2. rewrite H1, H2, !String.eqb_refl in Hin. done.
Qed.

Lemma claim_authoring_spec id b c t t1 : claim_authoring id b c t = Ok t1 ->
  exists new, t1 = with_claims (kt_ag_claims t) (kt_authoring t ++ new) (kt_custody t) t
  /\ one_claim ka_cycle_id id (cy_authoring_context_provenance b)
       (cy_authoring_context_provenance c)
       (fun p r => parse_json (ka_record_json r) = Ok p) (kt_authoring t) new.
Proof using SA.
  unfold claim_authoring. intros H.
  destruct (cy_authoring_context_provenance b) as [q0|],
    (cy_authoring_context_provenance c) as [q|];
    try (injection H as <-; exists []; rewrite app_nil_r, with_claims_id;
         split; [done|by left]).
  inv_ok H. res_simpl. subst t1. eexists [_]. split; [reflexivity|].
  right. split; [done|]. exists q. eexists. repeat split.
  - by apply parse_canonical.
  - eapply find_first_existsb; [exact Hok0|]. intros r Hr. unfold authoring_conflicts.
    by rewrite Hr, orb_true_r.
Qed.

Lemma claim_custody_spec id b c t t1 : claim_custody id b c t = Ok t1 ->
  exists new, t1 = with_claims (kt_ag_claims t) (kt_authoring t) (kt_custody t ++ new) t
  /\ one_claim ku_cycle_id id (cy_authoring_context_custody b)
       (cy_authoring_context_custody c)
       (fun p r => parse_json (ku_record_json r) = Ok p) (kt_custody t) new.
Proof using SU.
  unfold claim_custody. intros H.
  destruct (cy_authoring_context_custody b) as [q0|], (cy_authoring_context_custody c) as [q|];
    try (injection H as <-; exists []; rewrite app_nil_r, with_claims_id;
         split; [done|by left]).
  inv_ok H. res_simpl. subst t1. eexists [_]. split; [reflexivity|].
  right. split; [done|]. exists q. eexists. repeat split.
  - by apply parse_canonical.
  - eapply find_first_existsb; [exact Hok0|]. intros r Hr. unfold custody_conflicts.
    by rewrite Hr, orb_true_r.
Qed.

(** Lookup of a claim after the addition, for another cycle and for the same one. *)
Lemma one_claim_other {R A} (cycle_of : R -> string) id (b a : option A) row old new id' :
  one_claim cycle_of id b a row old new -> id' <> id ->
  find_first (fun r => String.eqb (cycle_of r) id') (old ++ new)
  = find_first (fun r => String.eqb (cycle_of r) id') old.
Proof.
  intros H Hne. rewrite find_first_app. destruct (find_first _ old); [done|].
  destruct H as [[-> _]|(_ & x & r & _ & -> & <- & _ & _)]; [done|]. simpl.
  by rewrite (proj2 (String.eqb_neq _ _)) by congruence.
Qed.

Lemma one_claim_same {R A} (cycle_of : R -> string) id (b a : option A) row old new
    (P : option A -> option R -> Prop) :
  one_claim cycle_of id b a row old new -> kept b a ->
  P b (find_first (fun r => String.eqb (cycle_of r) id) old) ->
  (forall x r, row x r -> P (Some x) (Some r)) ->
  P a (find_first (fun r => String.eqb (cycle_of r) id) (old ++ new)).
Proof.
  intros H Hk Hb Hrow. rewrite find_first_app.
  destruct H as [[-> Ha]|(-> & x & r & -> & -> & <- & Hr & Hn)].
  - replace (match _ with Some _ => _ | None => _ end)
      with (find_first (fun r => String.eqb (cycle_of r) id) old)
      by (by destruct (find_first _ old)).
    destruct b as [x|]; [by rewrite (Hk x eq_refl)|by rewrite Ha].
  - rewrite Hn. simpl. rewrite String.eqb_refl. auto.
Qed.
End facts.
