(* ===== verification/CanonicalInvariant.v ===== *)
(** * The invariant of the canonical store

    [chain] is what the events of one cycle record: snapshots that were validated, each
    naming its predecessor and only advancing it.  [wf] says of a store that every cycle
    row ends such a chain and agrees with its slot and its durable claims; every operation
    preserves it ([canonical_step_wf]). *)
From S2P Require Import Prelude Text External Signing Contract NqAdmission SubstrateOrigin.
From S2P Require Import ExternalObservation ExternalComposition SteadyState Authoring.
From S2P Require Import Diagnostic Posture CanonicalRecords CanonicalTables CanonicalStore.
From S2P Require Import CanonicalFacts.
Local Open Scope string_scope.

Section invariant.
Context {PD : PostureDocuments} {ND : CanonicalDocuments}.
Context {SC : SerdeOk ObservationCycleV1}.
Context {SA : SerdeOk AuthoringContextProvenanceV1}.
Context {SU : SerdeOk AuthoringContextCustodyProvenanceV1}.

(** ** The events of a cycle *)

#[export] Instance event_earlier_trans : Transitive event_earlier.
Proof. intros x y z. unfold event_earlier. lia. Qed.
#[export] Instance event_earlier_total : Total event_earlier.
Proof. intros x y. unfold event_earlier. lia. Qed.

Definition events_of (id : string) (t : Tables) : list CycleEventRow :=
  List.filter (fun r => String.eqb (ke_cycle_id r) id) (kt_events t).

(** The [i]th event of cycle [id] records the snapshot [c]. *)
Record recorded (id : string) (i : nat) (r : CycleEventRow) (c : ObservationCycleV1) : Prop := {
  rec_event : ke_cycle_id r = id;
  rec_sequence : ke_sequence r = N.of_nat i;
  rec_prior : ke_prior_state_digest r = cy_prior_state_digest c;
  rec_resulting : ke_resulting_state_digest r = cy_state_digest c;
  rec_snapshot : parse_json (ke_snapshot_json r) = Ok c;
  rec_valid : cycle_validate c = Ok tt;
  rec_cycle : cy_cycle_id c = id;
  rec_version : cy_version c = N.of_nat i
}.

(** [c] may come after the snapshots whose last is [p]. *)
Definition succeeds (p : option ObservationCycleV1) (c : ObservationCycleV1) : Prop :=
  match p with
  | None => cy_prior_state_digest c = None
  | Some p => cy_prior_state_digest c = Some (cy_state_digest p) /\ advances p c
              /\ terminal (cy_status p) = false
  end.

Inductive chain (id : string) : list CycleEventRow -> list ObservationCycleV1 -> Prop :=
| chain_nil : chain id [] []
| chain_snoc rs cs r c :
    chain id rs cs -> recorded id (length cs) r c -> succeeds (last cs) c ->
    chain id (rs ++ [r]) (cs ++ [c]).

Lemma chain_length id rs cs : chain id rs cs -> length rs = length cs.
Proof. induction 1; [done|]. rewrite !length_app. simpl. lia. Qed.

Lemma chain_events id rs cs : chain id rs cs ->
  Forall (fun r => ke_cycle_id r = id /\ (ke_sequence r < N.of_nat (length rs))%N) rs.
Proof.
  induction 1 as [|rs cs r c H IH Hr Hs]; [constructor|].
  apply Forall_app. split.
  - eapply Forall_impl; [exact IH|]. simpl. intros x [-> Hx]. split; [done|].
    rewrite length_app. simpl. lia.
  - constructor; [|constructor]. split; [by apply Hr|].
    rewrite (rec_sequence _ _ _ _ Hr), length_app, (chain_length _ _ _ H). simpl. lia.
Qed.

(** The events are in the order of their sequence. *)
Lemma chain_sorted id rs cs : chain id rs cs -> StronglySorted event_earlier rs.
Proof.
  induction 1 as [|rs cs r c H IH Hr Hs]; [constructor|].
  apply chain_events in H as He. rewrite Forall_forall in He.
  apply StronglySorted_app_2; [|done|by repeat constructor].
  intros x y Hx Hy. apply list_elem_of_singleton in Hy as ->.
  unfold event_earlier. rewrite (rec_sequence _ _ _ _ Hr), <- (chain_length _ _ _ H).
  destruct (He x Hx). lia.
Qed.

Lemma chain_sequences id rs cs : chain id rs cs ->
  forall x y, x ∈ rs -> y ∈ rs -> ke_sequence x = ke_sequence y -> x = y.
Proof.
  induction 1 as [|rs cs r c H IH Hr Hs]; [intros x y Hx; by apply not_elem_of_nil in Hx|].
  apply chain_events in H as He. rewrite Forall_forall in He.
  assert (forall x, x ∈ rs -> (ke_sequence x < ke_sequence r)%N) as Hlt.
  { intros x Hx. rewrite (rec_sequence _ _ _ _ Hr), <- (chain_length _ _ _ H).
    by apply He. }
  intros x y Hx Hy Hxy. apply elem_of_app in Hx, Hy.
  rewrite !list_elem_of_singleton in Hx, Hy.
  destruct Hx as [Hx| ->], Hy as [Hy| ->]; [eauto| | |done].
  - specialize (Hlt x Hx). lia.
  - specialize (Hlt y Hy). lia.
Qed.

(** The query of [replay] returns them in the order they were written. *)
Lemma chain_cycle_events id t cs :
  chain id (events_of id t) cs -> cycle_events id t = events_of id t.
Proof.
  intros H. unfold cycle_events. fold (events_of id t).
  assert (events_of id t ≡ₚ merge_sort event_earlier (events_of id t)) as Hp
    by (symmetry; apply merge_sort_Permutation).
  eapply (StronglySorted_unique_strong event_earlier).
  - intros x y Hx Hy H1 H2. rewrite merge_sort_Permutation in Hx.
    eapply chain_sequences; [exact H|done|done|]. unfold event_earlier in H1, H2. lia.
  - apply (StronglySorted_merge_sort event_earlier).
  - by eapply chain_sorted.
  - by symmetry.
Qed.

(** Replaying a chain yields its snapshots. *)
Lemma chain_replays id rs cs : chain id rs cs ->
  fold_try replay_cycle_event rs ([], None) = Ok (cs, cy_state_digest <$> last cs).
Proof.
  induction 1 as [|rs cs r c H IH Hr Hs]; [done|].
  rewrite fold_try_app, IH. simpl. destruct Hr.
  rewrite rec_sequence0, N.eqb_refl, rec_prior0. simpl.
  assert (cy_prior_state_digest c = cy_state_digest <$> last cs) as Hprior.
  { unfold succeeds in Hs. destruct (last cs); [apply Hs|done]. }
  rewrite bool_decide_eq_true_2 by done. simpl.
  unfold read_snapshot. rewrite rec_snapshot0. simpl. rewrite rec_valid0. simpl.
  rewrite rec_resulting0, String.eqb_refl, bool_decide_eq_true_2 by done. simpl.
  by rewrite last_snoc.
Qed.

Lemma chain_last id rs cs c : chain id rs cs -> last cs = Some c ->
  cy_cycle_id c = id /\ cycle_validate c = Ok tt /\ cy_version c = N.of_nat (length cs - 1).
Proof.
  intros H Hl. inversion H as [|rs' cs' r c' H' Hr Hs]; subst; [done|].
  rewrite last_snoc in Hl. injection Hl as ->. rewrite length_app. simpl.
  destruct Hr. repeat split; try done. rewrite rec_version0. f_equal. lia.
Qed.

(** Every snapshot of a chain advances to its last. *)
Lemma chain_advances id rs cs c p : chain id rs cs -> last cs = Some c -> p ∈ cs ->
  advances p c.
Proof.
  intros H. revert c p. induction H as [|rs cs r c' H IH Hr Hs]; [done|]. intros c p Hl Hp.
  rewrite last_snoc in Hl. injection Hl as ->. apply elem_of_app in Hp as [Hp|Hp].
  - destruct (last cs) as [q|] eqn:Hq.
    + simpl in Hs. etrans; [by eapply IH|apply Hs].
    + apply last_None in Hq as ->. by apply not_elem_of_nil in Hp.
  - apply list_elem_of_singleton in Hp as ->. reflexivity.
Qed.

(** ** Well-formed stores *)

(** The durable claims of cycle [id] are those of the snapshot [c]. *)
Record claims_agree (id : string) (c : ObservationCycleV1) (t : Tables) : Prop := {
  ca_ag : ag_claim_matches (cy_prepared_ag_request c) (ag_claim_of id t) = true;
  ca_authoring : authoring_claim_of id t = Ok (cy_authoring_context_provenance c);
  ca_custody : custody_claim_of id t = Ok (cy_authoring_context_custody c)
}.

(** Composed external evidence reproduces from custody. *)
Definition reproducible (t : Tables) (o : ObservationRecordV1) : Prop :=
  forall e, obs_external_evidence o = Some e ->
  validate_external_composition_source e t = Ok tt.

Record row_ok (id : string) (row : CycleRow) (t : Tables) (cs : list ObservationCycleV1)
    (c : ObservationCycleV1) : Prop := {
  row_chain : chain id (events_of id t) cs;
  row_last : last cs = Some c;
  row_cycle_id : kc_cycle_id row = id;
  row_snapshot : parse_json (kc_snapshot_json row) = Ok c;
  row_digest : kc_state_digest row = cy_state_digest c;
  row_slot_id : kc_slot_id row = sl_slot_id (cy_slot c);
  row_observation_id : kc_observation_id row = obs_observation_id <$> cy_observation c;
  row_slot : exists sr, kt_slots t !! sl_slot_id (cy_slot c) = Some sr
    /\ kl_cycle_id sr = id /\ kl_state_digest sr = cy_state_digest c;
  row_sound : sound c;
  row_claims : claims_agree id c t;
  row_reproducible : forall o, cy_observation c = Some o -> reproducible t o
}.

(** A cycle that was never recorded. *)
Definition unknown (id : string) (t : Tables) : Prop :=
  events_of id t = [] /\ ag_claim_of id t = None /\ authoring_claim_of id t = Ok None
  /\ custody_claim_of id t = Ok None.

Record wf (t : Tables) : Prop := {
  wf_authoring : kt_has_authoring t = true;
  wf_custody : kt_has_custody t = true;
  wf_rows : forall id row, kt_cycles t !! id = Some row -> exists cs c, row_ok id row t cs c;
  wf_unknown : forall id, kt_cycles t !! id = None -> unknown id t;
  wf_occurrences : NoDup (occurrence_of <$> kt_ag_claims t);
  wf_claimed : Forall (fun r => is_Some (kt_cycles t !! kg_cycle_id r)) (kt_ag_claims t)
}.

(** *** Reading a well-formed store *)

Lemma read_snapshot_ok json c :
  read_snapshot json = Ok c <-> parse_json json = Ok c /\ cycle_validate c = Ok tt.
Proof.
  unfold read_snapshot. split; intros H.
  - inv_ok H. by subst x.
  - destruct H as [-> Hv]. simpl. by rewrite Hv.
Qed.

Lemma row_valid id row t cs c : row_ok id row t cs c ->
  cy_cycle_id c = id /\ cycle_validate c = Ok tt.
Proof.
  intros H. destruct (chain_last _ _ _ _ (row_chain _ _ _ _ _ H) (row_last _ _ _ _ _ H))
    as (? & ? & _). auto.
Qed.

Lemma row_claims_valid id row t cs c : wf t -> row_ok id row t cs c ->
  validate_claims_of t c = Ok tt.
Proof.
  intros Ht H. destruct (row_valid _ _ _ _ _ H) as [Hid Hv].
  destruct H as [_ _ _ _ _ _ _ _ [Ha _ _] [H1 H2 H3] _].
  unfold validate_claims_of, validate_ag_occurrence_claim, validate_authoring_context_claim,
    validate_authoring_custody_claim.
  rewrite Hid, H1, H2, H3, (wf_authoring _ Ht), (wf_custody _ Ht). simpl.
  destruct (cy_authoring_context_provenance c) as [p|] eqn:Hp; simpl.
  - rewrite bool_decide_eq_true_2 by done. simpl.
    destruct (acc_authoring _ Ha _ Hp) as [_ Hpv]. rewrite Hpv. simpl.
    destruct (cy_authoring_context_custody c) as [u|] eqn:Hu; simpl; [|done].
    rewrite bool_decide_eq_true_2 by done. simpl.
    by destruct (acc_custody _ Ha _ Hu) as [_ ->].
  - destruct (cy_authoring_context_custody c) as [u|] eqn:Hu; simpl; [|done].
    destruct (acc_custody _ Ha _ Hu) as [[? ?] _]. congruence.
Qed.

Lemma get_row id row t cs c : wf t -> kt_cycles t !! id = Some row -> row_ok id row t cs c ->
  get_cycle id t = Ok c.
Proof.
  intros Ht Hrow H. unfold get_cycle. rewrite Hrow. simpl.
  destruct (row_valid _ _ _ _ _ H) as [_ Hv].
  rewrite (proj2 (read_snapshot_ok _ _) (conj (row_snapshot _ _ _ _ _ H) Hv)). simpl.
  by rewrite (row_claims_valid _ _ _ _ _ Ht H).
Qed.

Lemma get_cycle_row id t c : wf t -> get_cycle id t = Ok c ->
  exists row cs, kt_cycles t !! id = Some row /\ row_ok id row t cs c.
Proof.
  intros Ht H. unfold get_cycle in H. destruct (kt_cycles t !! id) as [row|] eqn:Hrow;
    simpl in H; [|done].
  destruct (wf_rows _ Ht _ _ Hrow) as (cs & c' & Hr). exists row, cs. split; [done|].
  inv_ok H. subst x. apply read_snapshot_ok in Hok as [Hp _].
  rewrite (row_snapshot _ _ _ _ _ Hr) in Hp. injection Hp as <-. done.
Qed.

(** ** A transition *)

Lemma seal_successor_spec prior now x c : seal_successor prior now x = Ok c ->
  cycle_validate c = Ok tt /\
  exists d, c = cycle_set_digest d (cycle_advance (cy_version x + 1) prior (timestamp now) x).
Proof.
  unfold seal_successor, cycle_seal. intros H. inv_ok H. res_simpl.
  apply checked_add_Some in Hok as [-> _]. inv_ok Hok0. subst x1. subst c.
  split; [done|]. by exists x0.
Qed.

Lemma reproducible_external t t' o :
  kt_external t' = kt_external t -> reproducible t o -> reproducible t' o.
Proof.
  intros He H e Ho. specialize (H e Ho).
  unfold validate_external_composition_source, external_observation_for_composition in *.
  by rewrite He.
Qed.

(** What [write_successor] leaves: the claims, and the three rows it writes. *)
Record written (id : string) (b c : ObservationCycleV1) (t t' : Tables) : Prop := {
  wr_json : exists kind json, canonical_json c = Ok json /\
    kt_events t' = (kt_events t ++ [cycle_event id c kind (Some (cy_state_digest b)) json])%list
    /\ exists row, kt_cycles t !! id = Some row /\ kc_state_digest row = cy_state_digest b /\
       kt_cycles t' = <[id := {| kc_cycle_id := kc_cycle_id row; kc_slot_id := kc_slot_id row;
         kc_version := cy_version c; kc_status := status_as_db (cy_status c);
         kc_state_digest := cy_state_digest c; kc_snapshot_json := json;
         kc_updated_at := cy_updated_at c;
         kc_observation_id := obs_observation_id <$> cy_observation c |}]> (kt_cycles t);
  wr_slots : exists sr, kt_slots t !! sl_slot_id (cy_slot c) = Some sr /\
    kl_state_digest sr = cy_state_digest b /\
    kt_slots t' = <[sl_slot_id (cy_slot c) :=
      {| kl_slot_id := kl_slot_id sr; kl_cycle_id := kl_cycle_id sr;
         kl_status := status_as_db (cy_status c); kl_basis_json := kl_basis_json sr;
         kl_state_digest := cy_state_digest c; kl_updated_at := cy_updated_at c |}]>
      (kt_slots t);
  wr_external : kt_external t' = kt_external t;
  wr_authoring : kt_has_authoring t' = kt_has_authoring t;
  wr_custody : kt_has_custody t' = kt_has_custody t;
  wr_agree : kept (cy_prepared_ag_request b) (cy_prepared_ag_request c) ->
    kept (cy_authoring_context_provenance b) (cy_authoring_context_provenance c) ->
    kept (cy_authoring_context_custody b) (cy_authoring_context_custody c) ->
    claims_agree id b t -> claims_agree id c t';
  wr_other : forall id', id' <> id -> ag_claim_of id' t' = ag_claim_of id' t /\
    authoring_claim_of id' t' = authoring_claim_of id' t /\
    custody_claim_of id' t' = custody_claim_of id' t;
  wr_occurrences : NoDup (occurrence_of <$> kt_ag_claims t) ->
    NoDup (occurrence_of <$> kt_ag_claims t');
  wr_claimed : forall r, r ∈ kt_ag_claims t' -> r ∈ kt_ag_claims t \/ kg_cycle_id r = id
}.

Lemma update_cycle_row_spec id prior c json t t' : update_cycle_row id prior c json t = Ok t' ->
  exists row, kt_cycles t !! id = Some row /\ kc_state_digest row = prior /\
  t' = set_cycles (<[id := {| kc_cycle_id := kc_cycle_id row; kc_slot_id := kc_slot_id row;
         kc_version := cy_version c; kc_status := status_as_db (cy_status c);
         kc_state_digest := cy_state_digest c; kc_snapshot_json := json;
         kc_updated_at := cy_updated_at c;
         kc_observation_id := obs_observation_id <$> cy_observation c |}]> (kt_cycles t)) t.
Proof.
  unfold update_cycle_row. intros H. inv_ok H. res_simpl. test_simpl. subst t'. eauto.
Qed.

Lemma update_slot_row_spec prior c t t' : update_slot_row prior c t = Ok t' ->
  exists sr, kt_slots t !! sl_slot_id (cy_slot c) = Some sr /\ kl_state_digest sr = prior /\
  t' = set_slots (<[sl_slot_id (cy_slot c) :=
      {| kl_slot_id := kl_slot_id sr; kl_cycle_id := kl_cycle_id sr;
         kl_status := status_as_db (cy_status c); kl_basis_json := kl_basis_json sr;
         kl_state_digest := cy_state_digest c; kl_updated_at := cy_updated_at c |}]>
      (kt_slots t)) t.
Proof.
  unfold update_slot_row. intros H. inv_ok H. res_simpl. test_simpl. subst t'. eauto.
Qed.

Lemma insert_cycle_event_spec r t t' : insert_cycle_event r t = Ok t' -> t' = add_event r t.
Proof. unfold insert_cycle_event. intros H. inv_ok H. by subst t'. Qed.

(** The claims of [id] after the three insertions. *)
Lemma claims_written id b c t ag au cu :
  one_claim kg_cycle_id id (cy_prepared_ag_request b) (cy_prepared_ag_request c)
    (fun q r => ag_claim_matches (Some q) (Some r) = true) (kt_ag_claims t) ag ->
  one_claim ka_cycle_id id (cy_authoring_context_provenance b)
    (cy_authoring_context_provenance c)
    (fun p r => parse_json (ka_record_json r) = Ok p) (kt_authoring t) au ->
  one_claim ku_cycle_id id (cy_authoring_context_custody b) (cy_authoring_context_custody c)
    (fun p r => parse_json (ku_record_json r) = Ok p) (kt_custody t) cu ->
  kept (cy_prepared_ag_request b) (cy_prepared_ag_request c) ->
  kept (cy_authoring_context_provenance b) (cy_authoring_context_provenance c) ->
  kept (cy_authoring_context_custody b) (cy_authoring_context_custody c) ->
  claims_agree id b t ->
  claims_agree id c (with_claims (kt_ag_claims t ++ ag) (kt_authoring t ++ au)
                       (kt_custody t ++ cu) t).
Proof.
  intros Hag Hau Hcu K1 K2 K3 [A1 A2 A3]. constructor.
  - by apply (one_claim_same _ _ _ _ _ _ _ (fun q r => ag_claim_matches q r = true) Hag).
  - apply (one_claim_same _ _ _ _ _ _ _
      (fun p r => parse_claim (ka_record_json <$> r) = Ok p) Hau); [done|done|].
    intros p r Hp. simpl. by rewrite Hp.
  - apply (one_claim_same _ _ _ _ _ _ _
      (fun p r => parse_claim (ku_record_json <$> r) = Ok p) Hcu); [done|done|].
    intros p r Hp. simpl. by rewrite Hp.
Qed.

Lemma write_successor_spec id b c kind t t' :
  write_successor id b c kind t = Ok t' -> written id b c t t'.
Proof using SA SU.
  unfold write_successor. intros H. inv_ok H.
  apply claim_ag_spec in Hok as (ag & -> & Hag & Hnd).
  apply claim_authoring_spec in Hok0 as (au & -> & Hau).
  apply claim_custody_spec in Hok1 as (cu & -> & Hcu).
  apply update_cycle_row_spec in Hok3 as (row & Hrow & Hd & ->).
  apply update_slot_row_spec in Hok4 as (sr & Hsr & Hsd & ->).
  apply insert_cycle_event_spec in H as ->. simpl in Hau, Hcu, Hrow, Hsr.
  constructor; simpl; [|by eauto|done|done|done| | |done|].
  - exists kind, x2. split; [done|]. split; [done|]. by exists row.
  - intros K1 K2 K3 HA.
    destruct (claims_written _ _ _ _ _ _ _ Hag Hau Hcu K1 K2 K3 HA). by constructor.
  - intros id' Hne. unfold ag_claim_of, authoring_claim_of, custody_claim_of. simpl.
    by rewrite (one_claim_other _ _ _ _ _ _ _ _ Hag Hne),
      (one_claim_other _ _ _ _ _ _ _ _ Hau Hne), (one_claim_other _ _ _ _ _ _ _ _ Hcu Hne).
  - intros r Hr. apply elem_of_app in Hr as [Hr|Hr]; [by left|]. right.
    destruct Hag as [[-> _]|(_ & q & r' & _ & -> & Hid & _)];
      [by apply not_elem_of_nil in Hr|]. by apply list_elem_of_singleton in Hr as ->.
Qed.

Lemma events_of_snoc id t t' r :
  kt_events t' = (kt_events t ++ [r])%list ->
  events_of id t' = (events_of id t ++ if String.eqb (ke_cycle_id r) id then [r] else [])%list.
Proof. intros H. unfold events_of. rewrite H, list_filter_app. reflexivity. Qed.

(** A row of another cycle is as good as it was. *)
Lemma row_ok_other id row b c t t' cs c' id' :
  written id b c t t' -> id' <> id ->
  (forall sr, kt_slots t !! sl_slot_id (cy_slot c) = Some sr -> kl_cycle_id sr = id) ->
  row_ok id' row t cs c' -> row_ok id' row t' cs c'.
Proof.
  intros W Hne Hslot []. destruct W as [Hj Hs He _ _ _ Ho _ _].
  destruct Hj as (kind & json & _ & Hev & _). destruct (Ho _ Hne) as (O1 & O2 & O3).
  constructor; try done.
  - rewrite (events_of_snoc _ _ _ _ Hev). simpl.
    rewrite (proj2 (String.eqb_neq _ _)) by congruence. by rewrite app_nil_r.
  - destruct Hs as (sr & Hsr & _ & ->). destruct row_slot0 as (sr' & Hsr' & Hid' & Hd').
    exists sr'. split; [|done]. rewrite lookup_insert_ne; [done|]. intros E.
    rewrite <- E in Hsr'. specialize (Hslot _ Hsr'). congruence.
  - destruct row_claims0. constructor; [by rewrite O1|by rewrite O2|by rewrite O3].
  - intros o Hc. eapply reproducible_external; [exact He|by apply row_reproducible0].
Qed.

(** The row of the changed cycle. *)
Lemma row_ok_successor id row b x prior now c t t' cs S :
  kt_cycles t !! id = Some row -> row_ok id row t cs b -> change S b x ->
  (forall o, S o -> reproducible t o) ->
  prior = cy_state_digest b -> seal_successor prior now x = Ok c -> written id b c t t' ->
  exists row', kt_cycles t' = <[id := row']> (kt_cycles t) /\
    row_ok id row' t' (cs ++ [c]) c /\ succeeds (Some b) c.
Proof using SC.
  intros Hrow R Hc HS -> Hseal W. apply seal_successor_spec in Hseal as [Hv (d & E)].
  destruct (chain_last _ _ _ _ (row_chain _ _ _ _ _ R) (row_last _ _ _ _ _ R))
    as (Hbid & _ & Hbv).
  assert (advances b c) as Hadv by (destruct Hc as [[] _ _ _ _ _]; subst c; by constructor).
  assert (succeeds (Some b) c) as Hsucc
    by (split; [by subst c|split; [done|by destruct Hc]]).
  assert (sound c) as Hsound.
  { constructor; [by apply cycle_validate_accepted|subst c; apply Hc|subst c; apply Hc]. }
  assert (cy_version c = N.of_nat (length cs)) as Hver.
  { subst c. simpl. rewrite (ch_version _ _ _ Hc), Hbv.
    pose proof (row_last _ _ _ _ _ R) as Hl. destruct cs; [done|simpl; lia]. }
  pose proof (fun o H => ch_observation _ _ _ Hc o H) as Hobs.
  replace (cy_observation x) with (cy_observation c) in Hobs by (by subst c).
  clear E. destruct W as [Hj Hs He _ _ Ha _ _ _].
  destruct Hj as (kind & json & Hjson & Hev & row0 & Hrow0 & Hd0 & Hcy).
  eexists. split; [exact Hcy|]. split; [|done]. constructor; simpl.
  - rewrite (events_of_snoc _ _ _ _ Hev). simpl. rewrite String.eqb_refl.
    apply chain_snoc; [apply R| |by rewrite (row_last _ _ _ _ _ R)].
    constructor; simpl; try done.
    + by destruct Hsucc as [-> _].
    + by apply parse_canonical.
    + rewrite (adv_cycle_id _ _ Hadv). done.
  - by rewrite last_snoc.
  - rewrite Hrow in Hrow0. injection Hrow0 as <-. apply R.
  - by apply parse_canonical.
  - done.
  - rewrite Hrow in Hrow0. injection Hrow0 as <-. rewrite (adv_slot _ _ Hadv). apply R.
  - done.
  - destruct Hs as (sr & Hsr & _ & ->). eexists. rewrite lookup_insert_eq.
    split; [done|]. split; [|done]. simpl. destruct (row_slot _ _ _ _ _ R) as (sr' & Hsr' & Hid & _).
    rewrite (adv_slot _ _ Hadv) in Hsr. congruence.
  - done.
  - apply Ha; [apply Hadv|apply Hadv|apply Hadv|apply R].
  - intros o Ho. destruct (Hobs o Ho) as [Hb|Hn]; eapply reproducible_external; try exact He.
    + by eapply (row_reproducible _ _ _ _ _ R).
    + by apply HS.
Qed.

(** ** The invariant is preserved *)

Lemma load_spec id d t b : wf t -> load_for_transition id d t = Ok b ->
  get_cycle id t = Ok b /\ exists row cs, kt_cycles t !! id = Some row /\ row_ok id row t cs b.
Proof.
  intros Ht H. unfold load_for_transition in H.
  destruct (kt_cycles t !! id) as [row|] eqn:Hrow; simpl in H; [|done].
  destruct (wf_rows _ Ht _ _ Hrow) as (cs & c' & Hr). inv_ok H. subst x.
  apply read_snapshot_ok in Hok as [Hp _]. rewrite (row_snapshot _ _ _ _ _ Hr) in Hp.
  injection Hp as <-. split; [by eapply get_row|eauto].
Qed.

(** One transition of cycle [id] from [b] to [c]. *)
Record moved (id : string) (b c : ObservationCycleV1) (t t' : Tables) : Prop := {
  mv_before : get_cycle id t = Ok b;
  mv_after : get_cycle id t' = Ok c;
  mv_succeeds : succeeds (Some b) c;
  mv_others : forall id', id' <> id -> kt_cycles t' !! id' = kt_cycles t !! id'
}.

Lemma transition_wf S id lease d kind now mutate t c t' :
  wf t -> (forall o, S o -> reproducible t o) ->
  (forall b x, get_cycle id t = Ok b -> sound b -> mutate b = Ok x -> change S b x) ->
  transition id lease d kind now mutate t = Ok (c, t') ->
  wf t' /\ kt_external t' = kt_external t /\ exists b, moved id b c t t' /\
    exists x, mutate b = Ok x /\ change S b x /\
    seal_successor (cy_state_digest b) now x = Ok c.
Proof using SC SA SU.
  intros Ht HS Hm H. unfold transition in H. inv_ok H. injection H as -> ->.
  apply (load_spec _ _ _ _ Ht) in Hok0 as (Hget & row & cs & Hrow & R).
  pose proof (Hm _ _ Hget (row_sound _ _ _ _ _ R) Hok1) as Hc.
  apply write_successor_spec in Hok3 as W.
  destruct (row_ok_successor _ _ _ _ _ _ _ _ _ _ S Hrow R Hc HS eq_refl Hok2 W)
    as (row' & Hcy & R' & Hsucc).
  assert (forall sr, kt_slots t !! sl_slot_id (cy_slot c) = Some sr -> kl_cycle_id sr = id)
    as Hslot.
  { intros sr Hsr. destruct (row_slot _ _ _ _ _ R) as (sr' & Hsr' & Hid & _).
    destruct Hsucc as (_ & Hadv & _). rewrite (adv_slot _ _ Hadv) in Hsr. congruence. }
  assert (wf t') as Ht'.
  { constructor.
    - rewrite (wr_authoring _ _ _ _ _ W). apply Ht.
    - rewrite (wr_custody _ _ _ _ _ W). apply Ht.
    - intros id' r Hr. rewrite Hcy in Hr. destruct (decide (id' = id)) as [->|Hne].
      + rewrite lookup_insert_eq in Hr. injection Hr as <-. eauto.
      + rewrite lookup_insert_ne in Hr by congruence.
        destruct (wf_rows _ Ht _ _ Hr) as (cs' & c' & R2). exists cs', c'.
        by eapply row_ok_other.
    - intros id' Hn. rewrite Hcy in Hn. assert (id' <> id) as Hne
        by (intros ->; by rewrite lookup_insert_eq in Hn).
      rewrite lookup_insert_ne in Hn by congruence.
      destruct (wf_unknown _ Ht _ Hn) as (U1 & U2 & U3 & U4).
      destruct (wr_other _ _ _ _ _ W _ Hne) as (O1 & O2 & O3).
      destruct (wr_json _ _ _ _ _ W) as (k & json & _ & Hev & _).
      repeat split; [|by rewrite O1|by rewrite O2|by rewrite O3].
      rewrite (events_of_snoc _ _ _ _ Hev). simpl.
      by rewrite (proj2 (String.eqb_neq _ _)), app_nil_r by congruence.
    - apply (wr_occurrences _ _ _ _ _ W), Ht.
    - rewrite Forall_forall. intros r Hr. rewrite Hcy.
      destruct (wr_claimed _ _ _ _ _ W _ Hr) as [Hin| ->].
      + destruct (decide (kg_cycle_id r = id)) as [->|Hne];
          [rewrite lookup_insert_eq; by eexists|].
        rewrite lookup_insert_ne by congruence.
        by eapply (proj1 (Forall_forall _ _) (wf_claimed _ Ht)).
      + rewrite lookup_insert_eq. by eexists. }
  split; [done|]. split; [apply W|]. exists x. split; [|eauto]. constructor; [done| |done|].
  - eapply get_row; [done| |exact R']. by rewrite Hcy, lookup_insert_eq.
  - intros id' Hne. rewrite Hcy. by rewrite lookup_insert_ne by congruence.
Qed.
End invariant.
