(* ===== verification/CanonicalSteps.v ===== *)
(** * The steps of the canonical store

    [canonical_step] is one successful operation of [CanonicalStore], [reachable] the
    stores operations lead to from an empty database.  Every step keeps the invariant of
    [CanonicalInvariant] and moves each cycle only forward ([step_moves]). *)
From S2P Require Import Prelude Text External Signing Contract NqAdmission SubstrateOrigin.
From S2P Require Import ExternalObservation ExternalComposition SteadyState Authoring.
From S2P Require Import Diagnostic Posture CanonicalRecords CanonicalTables CanonicalStore.
From S2P Require Import CanonicalFacts CanonicalInvariant.
From stdpp Require Import relations.
Local Open Scope string_scope.

Section steps.
Context {PD : PostureDocuments} {ND : CanonicalDocuments}.
Context {SC : SerdeOk ObservationCycleV1}.
Context {SA : SerdeOk AuthoringContextProvenanceV1}.
Context {SU : SerdeOk AuthoringContextCustodyProvenanceV1}.

(** A restart may fail between two of its transitions and keep the earlier ones. *)
Inductive canonical_step : Tables -> Tables -> Prop :=
| step_claim_slot slot clock now drawn nonce r t t' :
    claim_slot slot clock now drawn nonce t = Ok (r, t') -> canonical_step t t'
| step_record_missed slot clock now reason drawn c t t' :
    record_missed slot clock now reason drawn t = Ok (c, t') -> canonical_step t t'
| step_record_observation lease d o attention temporal now c t t' :
    record_observation lease d o attention temporal now t = Ok (c, t') -> canonical_step t t'
| step_prepare lease d intent request authoring now c t t' :
    prepare_ag_occurrence lease d intent request authoring now t = Ok (c, t') ->
    canonical_step t t'
| step_attach lease d ag now c t t' :
    attach_ag_occurrence lease d ag now t = Ok (c, t') -> canonical_step t t'
| step_status id d ag now c t t' :
    record_ag_status id d ag now t = Ok (c, t') -> canonical_step t t'
| step_refusal id d refusal now c t t' :
    record_ag_refusal id d refusal now t = Ok (c, t') -> canonical_step t t'
| step_recover id d ag now c t t' :
    recover_ag_occurrence id d ag now t = Ok (c, t') -> canonical_step t t'
| step_mark_recovery id d reason now c t t' :
    mark_recovery_required id d reason now t = Ok (c, t') -> canonical_step t t'
| step_close lease d now c t t' :
    close_without_proposal lease d now t = Ok (c, t') -> canonical_step t t'
| step_restart now out t t' :
    recover_after_restart now t = (out, t') -> canonical_step t t'
| step_external verified received_at custody t t' :
    record_external_observation verified received_at t = Ok (custody, t') ->
    canonical_step t t'
| step_steady verified received_at custody t t' :
    record_steady_state_observation verified received_at t = Ok (custody, t') ->
    canonical_step t t'.

Definition reachable (t : Tables) : Prop := rtc canonical_step (canonical_open no_tables) t.

(** A cycle after some steps: the same, or it advanced from a status that is not final. *)
Definition moves (p c : ObservationCycleV1) : Prop :=
  c = p \/ (advances p c /\ terminal (cy_status p) = false).

Definition all_move (t t' : Tables) : Prop :=
  forall id p, get_cycle id t = Ok p -> exists c, get_cycle id t' = Ok c /\ moves p c.

Lemma moves_advances p c : moves p c -> advances p c.
Proof. intros [->|[H _]]; [reflexivity|done]. Qed.

#[export] Instance moves_trans : Transitive moves.
Proof.
  intros a b c [->|[H1 T1]] H2; [done|]. right. split; [|done].
  etrans; [exact H1|by apply moves_advances].
Qed.
#[export] Instance all_move_refl : Reflexive all_move.
Proof. intros t id p H. exists p. split; [done|by left]. Qed.
#[export] Instance all_move_trans : Transitive all_move.
Proof.
  intros t1 t2 t3 H1 H2 id p Hp. destruct (H1 id p Hp) as (c & Hc & M1).
  destruct (H2 id c Hc) as (c' & Hc' & M2). exists c'. split; [done|by etrans].
Qed.

(** The rows decide [get_cycle]. *)
Lemma get_cycle_same id t t' c : wf t -> wf t' -> kt_cycles t' !! id = kt_cycles t !! id ->
  get_cycle id t = Ok c -> get_cycle id t' = Ok c.
Proof.
  intros Ht Ht' E H. destruct (get_cycle_row _ _ _ Ht H) as (row & cs & Hrow & R).
  rewrite <- E in Hrow. destruct (wf_rows _ Ht' _ _ Hrow) as (cs' & c' & R').
  pose proof (row_snapshot _ _ _ _ _ R) as E1. rewrite (row_snapshot _ _ _ _ _ R') in E1.
  injection E1 as ->. by eapply get_row.
Qed.

Lemma moved_all id b c t t' : wf t -> wf t' -> moved id b c t t' -> all_move t t'.
Proof.
  intros Ht Ht' [Hb Hc Hs Ho] id' p Hp. destruct (decide (id' = id)) as [->|Hne].
  - exists c. split; [done|]. rewrite Hb in Hp. injection Hp as ->. right. by apply Hs.
  - exists p. split; [|by left]. by eapply get_cycle_same; [exact Ht| |by apply Ho|].
Qed.

(** ** A new cycle *)

(** The table after a new cycle, as the proofs below name its parts. *)
Definition with_new_cycle (c : ObservationCycleV1) (kind json basis : string) (t : Tables)
    : Tables :=
  add_event {| ke_cycle_id := cy_cycle_id c; ke_sequence := 0; ke_event_kind := kind;
       ke_prior_state_digest := None; ke_resulting_state_digest := cy_state_digest c;
       ke_snapshot_json := json; ke_recorded_at := cy_updated_at c |}
    (set_cycles (<[cy_cycle_id c := cycle_row c json]> (kt_cycles t))
      (set_slots (<[sl_slot_id (cy_slot c) :=
         {| kl_slot_id := sl_slot_id (cy_slot c); kl_cycle_id := cy_cycle_id c;
            kl_status := status_as_db (cy_status c); kl_basis_json := basis;
            kl_state_digest := cy_state_digest c; kl_updated_at := cy_updated_at c |}]>
         (kt_slots t)) t)).

Lemma insert_slot_cycle_spec c kind t t' : insert_slot_cycle c kind t = Ok t' ->
  exists json basis, canonical_json c = Ok json /\
  kt_slots t !! sl_slot_id (cy_slot c) = None /\ kt_cycles t !! cy_cycle_id c = None /\
  t' = with_new_cycle c kind json basis t.
Proof.
  unfold insert_slot_cycle, insert_slot, insert_initial_cycle. intros H. inv_ok H. res_simpl.
  destruct Hok0 as [Hs <-]. apply insert_cycle_event_spec in H. simpl in *.
  test_simpl. destruct Hs as [Hs _]. match goal with
  | Hcc : (is_some _ = false /\ _) /\ _ |- _ => destruct Hcc as [[Hc _] _] end.
  apply is_some_false in Hs, Hc. exists x1, x. by repeat split.
Qed.

(** A cycle as [claim_slot] and [record_missed] seal it. *)
Record initial (c : ObservationCycleV1) : Prop := {
  in_valid : cycle_validate c = Ok tt;
  in_version : cy_version c = 0%N;
  in_prior : cy_prior_state_digest c = None;
  in_observation : cy_observation c = None;
  in_request : cy_prepared_ag_request c = None;
  in_authoring : cy_authoring_context_provenance c = None;
  in_custody : cy_authoring_context_custody c = None;
  in_refusal : cy_ag_refusal c = None
}.

Lemma initial_sound c : initial c -> sound c.
Proof.
  intros []. constructor; [by apply cycle_validate_accepted| |].
  - intros q Hq. congruence.
  - unfold refusal_closes. rewrite in_refusal0. by intros [? [=]].
Qed.

Section new_cycle.
Context (c : ObservationCycleV1) (kind json basis : string) (t : Tables).
Context (Ht : wf t) (Hi : initial c) (Hjson : canonical_json c = Ok json).
Context (Hslot : kt_slots t !! sl_slot_id (cy_slot c) = None).
Context (Hcycle : kt_cycles t !! cy_cycle_id c = None).
Let t' := with_new_cycle c kind json basis t.

Lemma new_events id :
  events_of id t' = (events_of id t ++ if String.eqb (cy_cycle_id c) id then
    [{| ke_cycle_id := cy_cycle_id c; ke_sequence := 0; ke_event_kind := kind;
        ke_prior_state_digest := None; ke_resulting_state_digest := cy_state_digest c;
        ke_snapshot_json := json; ke_recorded_at := cy_updated_at c |}] else [])%list.
Proof. unfold events_of, t', with_new_cycle. simpl. by rewrite list_filter_app. Qed.

Lemma new_events_other id : id <> cy_cycle_id c -> events_of id t' = events_of id t.
Proof.
  intros Hne. rewrite new_events, (proj2 (String.eqb_neq _ _)) by congruence.
  by rewrite app_nil_r.
Qed.

Lemma new_row_ok : row_ok (cy_cycle_id c) (cycle_row c json) t' [c] c.
Proof using SC Ht Hi Hjson Hcycle.
  destruct (wf_unknown _ Ht _ Hcycle) as (U1 & U2 & U3 & U4).
  pose proof (initial_sound c Hi) as Hs. destruct Hi.
  assert (parse_json json = Ok c) as Hparse by (by apply parse_canonical).
  constructor; try done; simpl.
  - rewrite new_events, U1, String.eqb_refl. apply (chain_snoc _ [] []); [constructor| |done].
    by constructor.
  - eexists. rewrite lookup_insert_eq. by split.
  - constructor; [rewrite in_request0|rewrite in_authoring0; exact U3
                 |rewrite in_custody0; exact U4].
    change (ag_claim_of (cy_cycle_id c) t') with (ag_claim_of (cy_cycle_id c) t). by rewrite U2.
  - intros o Ho. congruence.
Qed.

Lemma new_row_other id row cs c' : id <> cy_cycle_id c ->
  row_ok id row t cs c' -> row_ok id row t' cs c'.
Proof using Hslot.
  intros Hne []. constructor; try done.
  - by rewrite new_events_other.
  - destruct row_slot as (sr & Hsr & Hid & Hd). exists sr. split; [|done].
    unfold t'. simpl. rewrite lookup_insert_ne; [done|congruence].
  - by destruct row_claims; constructor.
Qed.

Lemma new_cycle_wf : wf t'.
Proof using All.
  constructor; [apply Ht|apply Ht| | |apply Ht|].
  - intros id row Hrow. unfold t' in Hrow. simpl in Hrow.
    destruct (decide (id = cy_cycle_id c)) as [->|Hne].
    + rewrite lookup_insert_eq in Hrow. injection Hrow as <-. exists [c], c.
      by apply new_row_ok.
    + rewrite lookup_insert_ne in Hrow by congruence.
      destruct (wf_rows _ Ht _ _ Hrow) as (cs & c' & R). exists cs, c'.
      by apply new_row_other.
  - intros id Hn. unfold t' in Hn. simpl in Hn.
    assert (id <> cy_cycle_id c) as Hne by (intros ->; by rewrite lookup_insert_eq in Hn).
    rewrite lookup_insert_ne in Hn by congruence. destruct (wf_unknown _ Ht _ Hn).
    split; [by rewrite new_events_other|done].
  - eapply Forall_impl; [apply (wf_claimed _ Ht)|]. intros r [row Hr]. simpl.
    rewrite lookup_insert_ne; [by exists row|congruence].
Qed.

Lemma new_cycle_moves : all_move t t'.
Proof using All.
  intros id p Hg. exists p. split; [|by left].
  eapply get_cycle_same; [exact Ht|by apply new_cycle_wf| |done]. simpl.
  rewrite lookup_insert_ne; [done|]. intros <-.
  destruct (get_cycle_row _ _ _ Ht Hg) as (row & cs & Hrow & _). congruence.
Qed.
End new_cycle.

Lemma insert_slot_cycle_wf c kind t t' : wf t -> initial c ->
  insert_slot_cycle c kind t = Ok t' -> wf t' /\ all_move t t' /\ get_cycle (cy_cycle_id c) t' = Ok c.
Proof using SC SA SU.
  intros Ht Hi H. apply insert_slot_cycle_spec in H as (json & basis & Hj & Hs & Hc & ->).
  assert (wf (with_new_cycle c kind json basis t)) as Ht' by (by apply new_cycle_wf).
  split; [done|]. split; [by apply new_cycle_moves|].
  eapply get_row; [done|simpl; by rewrite lookup_insert_eq|by apply new_row_ok].
Qed.

Lemma seal_initial id slot timing status now reason c :
  cycle_seal (initial_cycle id slot timing status now reason) = Ok c ->
  cycle_validate c = Ok tt ->
  initial c /\ cy_cycle_id c = id /\ cy_slot c = slot /\ cy_timing c = timing
  /\ cy_status c = status.
Proof.
  unfold cycle_seal. intros H Hv. inv_ok H. subst c. by repeat split.
Qed.

Lemma claim_slot_wf slot clock now drawn nonce r t t' : wf t ->
  claim_slot slot clock now drawn nonce t = Ok (r, t') -> wf t' /\ all_move t t'.
Proof using SC SA SU.
  intros Ht H. unfold claim_slot in H. inv_ok H. injection H as <- <-.
  destruct (seal_initial _ _ _ _ _ _ _ Hok1 Hok2) as [Hi _].
  by destruct (insert_slot_cycle_wf _ _ _ _ Ht Hi Hok3) as (? & ? & _).
Qed.

Lemma record_missed_wf slot clock now reason drawn c t t' : wf t ->
  record_missed slot clock now reason drawn t = Ok (c, t') -> wf t' /\ all_move t t'.
Proof using SC SA SU.
  intros Ht H. unfold record_missed in H. inv_ok H. injection H as <- <-.
  destruct (seal_initial _ _ _ _ _ _ _ Hok2 Hok3) as [Hi _].
  by destruct (insert_slot_cycle_wf _ _ _ _ Ht Hi Hok4) as (? & ? & _).
Qed.

(** ** The transitions *)

(** A transition whose change is lawful whatever the cycle. *)
Lemma lawful_transition S id lease d kind now mutate t c t' :
  wf t -> (forall o, S o -> reproducible t o) ->
  (forall b x, sound b -> mutate b = Ok x -> change S b x) ->
  transition id lease d kind now mutate t = Ok (c, t') -> wf t' /\ all_move t t'.
Proof using SC SA SU.
  intros Ht HS Hm H.
  destruct (transition_wf S _ _ _ _ _ _ _ _ _ Ht HS (fun b x _ => Hm b x) H)
    as (Ht' & _ & b & Hmv & _).
  split; [done|by eapply moved_all].
Qed.

Lemma lawful_transition' id lease d kind now mutate t c t' : wf t ->
  (forall b x, sound b -> mutate b = Ok x -> change (fun _ => False) b x) ->
  transition id lease d kind now mutate t = Ok (c, t') -> wf t' /\ all_move t t'.
Proof using SC SA SU.
  intros Ht Hm H. by eapply (lawful_transition (fun _ => False)); [done| |exact Hm|exact H].
Qed.

Lemma record_observation_wf lease d o attention temporal now c t t' : wf t ->
  record_observation lease d o attention temporal now t = Ok (c, t') -> wf t' /\ all_move t t'.
Proof using SC SA SU.
  intros Ht H. unfold record_observation in H. inv_ok H.
  apply (lawful_transition (fun x => x = o) _ _ _ _ _ _ _ _ _ Ht) in H; [done| |].
  - intros x ->. intros e He. rewrite if_some_ok in Hok0. by apply Hok0.
  - intros b x Hb. by apply observe_change.
Qed.

Lemma prepare_ag_occurrence_wf lease d intent request authoring now c t t' : wf t ->
  prepare_ag_occurrence lease d intent request authoring now t = Ok (c, t') ->
  wf t' /\ all_move t t'.
Proof using SC SA SU.
  intros Ht H. unfold prepare_ag_occurrence in H. inv_ok H.
  eapply lawful_transition'; [done| |exact H]. intros b x Hb. by apply prepare_change.
Qed.

Lemma attach_ag_occurrence_wf lease d ag now c t t' : wf t ->
  attach_ag_occurrence lease d ag now t = Ok (c, t') -> wf t' /\ all_move t t'.
Proof using SC SA SU.
  intros Ht H. unfold attach_ag_occurrence in H. inv_ok H.
  eapply lawful_transition'; [done| |exact H]. intros b x Hb. by apply attach_change.
Qed.

Lemma record_ag_status_wf id d ag now c t t' : wf t ->
  record_ag_status id d ag now t = Ok (c, t') -> wf t' /\ all_move t t'.
Proof using SC SA SU.
  intros Ht H. unfold record_ag_status in H. inv_ok H. case_bool_decide.
  - injection H as _ <-. by split.
  - eapply lawful_transition'; [done| |exact H]. intros b y Hb. by apply observe_status_change.
Qed.

Lemma record_ag_refusal_wf id d refusal now c t t' : wf t ->
  record_ag_refusal id d refusal now t = Ok (c, t') -> wf t' /\ all_move t t'.
Proof using SC SA SU.
  intros Ht H. unfold record_ag_refusal in H. inv_ok H.
  eapply lawful_transition'; [done| |exact H]. intros b x Hb. by apply refuse_change.
Qed.

Lemma recover_ag_occurrence_wf id d ag now c t t' : wf t ->
  recover_ag_occurrence id d ag now t = Ok (c, t') -> wf t' /\ all_move t t'.
Proof using SC SA SU.
  intros Ht H. unfold recover_ag_occurrence in H. inv_ok H.
  eapply lawful_transition'; [done| |exact H]. intros b x Hb. by apply recover_change.
Qed.

Lemma mark_recovery_required_wf id d reason now c t t' : wf t ->
  mark_recovery_required id d reason now t = Ok (c, t') -> wf t' /\ all_move t t'.
Proof using SC SA SU.
  intros Ht H. unfold mark_recovery_required in H. inv_ok H.
  eapply lawful_transition'; [done| |exact H]. intros b x Hb.
  by apply require_recovery_change.
Qed.

Lemma close_without_proposal_wf lease d now c t t' : wf t ->
  close_without_proposal lease d now t = Ok (c, t') -> wf t' /\ all_move t t'.
Proof using SC SA SU.
  intros Ht H. unfold close_without_proposal in H.
  eapply lawful_transition'; [done| |exact H]. intros b x Hb. by apply close_change.
Qed.

(** ** The custody journals *)

(** A store whose cycles and claims are those of [t] and that only adds custody. *)
Lemma custody_wf t t' : wf t ->
  kt_slots t' = kt_slots t -> kt_cycles t' = kt_cycles t -> kt_events t' = kt_events t ->
  kt_ag_claims t' = kt_ag_claims t -> kt_authoring t' = kt_authoring t ->
  kt_custody t' = kt_custody t -> kt_has_authoring t' = kt_has_authoring t ->
  kt_has_custody t' = kt_has_custody t ->
  (forall o, reproducible t o -> reproducible t' o) -> wf t' /\ all_move t t'.
Proof using SC SA SU.
  intros Ht E1 E2 E3 E4 E5 E6 E7 E8 Hr.
  assert (forall id, events_of id t' = events_of id t) as Hev
    by (intros id; unfold events_of; by rewrite E3).
  assert (forall id, ag_claim_of id t' = ag_claim_of id t) as Hag
    by (intros id; unfold ag_claim_of; by rewrite E4).
  assert (forall id, authoring_claim_of id t' = authoring_claim_of id t) as Hau
    by (intros id; unfold authoring_claim_of; by rewrite E5).
  assert (forall id, custody_claim_of id t' = custody_claim_of id t) as Hcu
    by (intros id; unfold custody_claim_of; by rewrite E6).
  assert (wf t') as Ht'.
  { destruct Ht. constructor; rewrite ?E7, ?E8, ?E2, ?E4; try done.
    - intros id row Hrow. destruct (wf_rows _ _ Hrow) as (cs & c & []). exists cs, c.
      constructor; rewrite ?Hev, ?E1; try done; [|by eauto].
      destruct row_claims. by constructor; rewrite ?Hag, ?Hau, ?Hcu.
    - intros id Hn. unfold unknown. rewrite Hev, Hag, Hau, Hcu. by apply wf_unknown. }
  split; [done|]. intros id p Hp. exists p. split; [|by left].
  eapply get_cycle_same; [exact Ht|done|by rewrite E2|done].
Qed.

Lemma record_external_observation_wf verified received_at custody t t' : wf t ->
  record_external_observation verified received_at t = Ok (custody, t') ->
  wf t' /\ all_move t t'.
Proof using SC SA SU.
  intros Ht H. unfold record_external_observation in H. inv_ok H.
  destruct (find_first _ (kt_external t)) eqn:Hf.
  - inv_ok H. injection H as _ <-. by split.
  - inv_ok H. injection H as _ <-. apply custody_wf; try done. intros o Ho e He.
    specialize (Ho e He). unfold validate_external_composition_source,
      external_observation_for_composition in *. simpl. rewrite find_first_app.
    destruct (find_first (fun r => String.eqb (kx_observation_id r) _) (kt_external t)) in Ho |- *;
      [done|]. exfalso. inv_ok Ho. inv_ok Hok5. by subst.
Qed.

Lemma record_steady_state_observation_wf verified received_at custody t t' : wf t ->
  record_steady_state_observation verified received_at t = Ok (custody, t') ->
  wf t' /\ all_move t t'.
Proof using SC SA SU.
  intros Ht H. unfold record_steady_state_observation in H. inv_ok H.
  destruct (find_first _ (kt_steady t)) eqn:Hf.
  - inv_ok H. injection H as _ <-. by split.
  - inv_ok H. injection H as _ <-. by apply custody_wf.
Qed.
(** ** Restart *)

Lemma cycle_rows_NoDup t : wf t -> NoDup (kc_cycle_id <$> btree_values (kt_cycles t)).
Proof.
  intros Ht. replace (kc_cycle_id <$> btree_values (kt_cycles t)) with (btree_keys (kt_cycles t));
    [apply btree_keys_NoDup|].
  unfold btree_keys, btree_values. rewrite <- list_fmap_compose. apply list_fmap_ext.
  intros i [id row] Hi. simpl. apply list_elem_of_lookup_2, elem_of_btree_iter in Hi.
  destruct (wf_rows _ Ht _ _ Hi) as (cs & c & R). by rewrite (row_cycle_id _ _ _ _ _ R).
Qed.

(** What [list_cycles] reads: each cycle of the store, once. *)
Lemma list_cycles_read t values : wf t -> list_cycles t = Ok values ->
  NoDup (cy_cycle_id <$> values) /\
  Forall (fun c => get_cycle (cy_cycle_id c) t = Ok c) values /\
  (forall id c, get_cycle id t = Ok c -> c ∈ values).
Proof using SC SA SU.
  intros Ht H. unfold list_cycles, read_cycles in H. inv_ok H. subst x. clear Hok0.
  apply map_try_ok in Hok.
  set (rows := order_by _ _) in Hok.
  assert (rows ≡ₚ btree_values (kt_cycles t)) as Hp by apply merge_sort_Permutation.
  assert (forall r c, r ∈ rows -> read_snapshot (kc_snapshot_json r) = Ok c ->
    cy_cycle_id c = kc_cycle_id r /\ kt_cycles t !! kc_cycle_id r = Some r
    /\ get_cycle (kc_cycle_id r) t = Ok c) as Hread.
  { intros r c Hr Hc. rewrite Hp in Hr. apply elem_of_btree_values in Hr as [id Hr].
    destruct (wf_rows _ Ht _ _ Hr) as (cs & c' & R). apply read_snapshot_ok in Hc as [Hc _].
    rewrite (row_snapshot _ _ _ _ _ R) in Hc. injection Hc as ->.
    rewrite (row_cycle_id _ _ _ _ _ R). destruct (row_valid _ _ _ _ _ R) as [-> _].
    repeat split; [done|by eapply get_row]. }
  assert (cy_cycle_id <$> values = kc_cycle_id <$> rows) as Hids.
  { clear -Hok Hread. induction Hok as [|r c rs cs Hc H IH]; simpl; [done|]. f_equal.
    - apply Hread; [constructor|done].
    - apply IH. intros. apply Hread; [by constructor|done]. }
  split; [|split].
  - rewrite Hids, Hp. by apply cycle_rows_NoDup.
  - rewrite Forall_forall. intros c Hc. destruct (list_elem_of_lookup_1 _ _ Hc) as [i Hi].
    destruct (Forall2_lookup_r _ _ _ _ _ Hok Hi) as (r & Hr & Hrc).
    apply list_elem_of_lookup_2 in Hr. destruct (Hread r c Hr Hrc) as (-> & _ & ?). done.
  - intros id c Hg. destruct (get_cycle_row _ _ _ Ht Hg) as (row & cs & Hrow & R).
    assert (row ∈ rows) as Hin by (rewrite Hp; apply elem_of_btree_values; eauto).
    destruct (list_elem_of_lookup_1 _ _ Hin) as [i Hi].
    destruct (Forall2_lookup_l _ _ _ _ _ Hok Hi) as (c' & Hc' & Hrc).
    destruct (Hread row c' Hin Hrc) as (_ & _ & Hg').
    rewrite (row_cycle_id _ _ _ _ _ R), Hg in Hg'. injection Hg' as ->.
    by eapply list_elem_of_lookup_2.
Qed.

(** What a restart leaves of a cycle. *)
Definition restarted (p c : ObservationCycleV1) : Prop :=
  match cy_status p with
  | Cycle_Observing | Cycle_PostureRecorded =>
      cy_status c = Cycle_RecoveryRequired /\ succeeds (Some p) c
      /\ cy_observation c = cy_observation p
  | _ => c = p
  end.

(** What it reports: the erased cycles and those still bound to AG. *)
Definition reported (p : ObservationCycleV1) : bool :=
  match cy_status p with
  | Cycle_Observing | Cycle_PostureRecorded | Cycle_AwaitingAg
  | Cycle_AwaitingAgReconciliation => true
  | Cycle_RecoveryRequired => is_some (cy_prepared_ag_request p)
  | _ => false
  end.

Lemma erase_transition now p t c t' : wf t -> get_cycle (cy_cycle_id p) t = Ok p ->
  terminal (cy_status p) = false ->
  transition (cy_cycle_id p) None (cy_state_digest p) "restart_local_currentness_erased" now
    erase_currentness t = Ok (c, t') ->
  wf t' /\ moved (cy_cycle_id p) p c t t' /\ cy_status c = Cycle_RecoveryRequired /\
  cy_observation c = cy_observation p.
Proof using SC SA SU.
  intros Ht Hg Hopen H.
  assert (forall b x, get_cycle (cy_cycle_id p) t = Ok b -> sound b ->
    erase_currentness b = Ok x -> change (fun _ => False) b x) as Hm.
  { intros b x Hb Hso. rewrite Hg in Hb. injection Hb as <-. by apply erase_change. }
  destruct (transition_wf _ _ _ _ _ _ _ _ _ _ Ht (fun o HF => False_ind _ HF) Hm H)
    as (Ht' & _ & b & M & x & Hx & _ & Hseal).
  pose proof (mv_before _ _ _ _ _ M) as Hb. rewrite Hg in Hb. injection Hb as <-.
  apply seal_successor_spec in Hseal as [_ [d E]]. injection Hx as <-.
  split; [done|]. split; [done|]. by subst c.
Qed.

Lemma recover_cycle_spec now p t more t' : wf t -> get_cycle (cy_cycle_id p) t = Ok p ->
  recover_cycle now p t = Ok (more, t') ->
  wf t' /\ all_move t t' /\
  (forall id, id <> cy_cycle_id p -> kt_cycles t' !! id = kt_cycles t !! id) /\
  exists c, get_cycle (cy_cycle_id p) t' = Ok c /\ restarted p c /\
  more = if reported p then [c] else [].
Proof using SC SA SU.
  intros Ht Hg H. unfold recover_cycle in H. unfold restarted, reported.
  destruct (cy_status p) eqn:Hs;
    try (injection H as <- <-; split; [done|]; split; [reflexivity|]; split; [done|];
         by exists p);
    inv_ok H; injection H as <- <-;
    (destruct (erase_transition _ _ _ _ _ Ht Hg ltac:(by rewrite Hs) Hok)
       as (Ht' & M & ? & ?));
    (split; [done|]; split; [by eapply moved_all|]; split; [apply M|]; eexists;
     split; [apply M|]; split; [|done]; split; [done|split; [apply M|done]]).
Qed.

(** After a restart of the cycles [values], one failing leaves the rest as they were. *)
Lemma recover_cycles_wf now values recovered t out t' : wf t ->
  NoDup (cy_cycle_id <$> values) ->
  Forall (fun c => get_cycle (cy_cycle_id c) t = Ok c) values ->
  recover_cycles now values recovered t = (out, t') ->
  wf t' /\ all_move t t' /\
  (forall id, id ∉ cy_cycle_id <$> values -> kt_cycles t' !! id = kt_cycles t !! id) /\
  forall all, out = Ok all -> exists cs, Forall2 (fun p c =>
    get_cycle (cy_cycle_id p) t' = Ok c /\ restarted p c) values cs /\
    all = (recovered ++ (zip values cs ≫= fun pc => if reported pc.1 then [pc.2] else []))%list.
Proof using SC SA SU.
  revert recovered t. induction values as [|p values IH]; intros recovered t Ht Hnd Hg H.
  { injection H as <- <-. split; [done|]. split; [reflexivity|]. split; [done|].
    intros all [= <-].
    exists []. split; [constructor|]. by rewrite app_nil_r. }
  simpl in H, Hnd. apply NoDup_cons in Hnd as [Hp Hnd]. apply Forall_cons in Hg as [Hgp Hg].
  destruct (recover_cycle now p t) as [[more t1]|e] eqn:Hr.
  2: { injection H as <- <-. split; [done|]. split; [reflexivity|]. by split. }
  destruct (recover_cycle_spec _ _ _ _ _ Ht Hgp Hr) as (Ht1 & Hm1 & Ho1 & c & Hc & Hrc & ->).
  assert (Forall (fun c => get_cycle (cy_cycle_id c) t1 = Ok c) values) as Hg1.
  { rewrite Forall_forall in Hg |- *. intros q Hq.
    eapply (get_cycle_same _ t); [done|done| |by apply Hg]. apply Ho1.
    intros E. apply Hp. rewrite <- E. by apply list_elem_of_fmap_2. }
  destruct (IH _ _ Ht1 Hnd Hg1 H) as (Ht' & Hm' & Ho' & Hall).
  split; [done|]. split; [by etrans|]. split.
  { intros id Hid. rewrite fmap_cons, not_elem_of_cons in Hid. destruct Hid as [Hne Hid].
    rewrite Ho' by done. by apply Ho1. }
  intros all E. destruct (Hall all E) as (cs & HF & ->). exists (c :: cs). split.
  - constructor; [|done]. split; [|done]. eapply (get_cycle_same _ t1); [done|done| |done].
    by apply Ho'.
  - simpl. by rewrite app_assoc.
Qed.

Lemma recover_after_restart_wf now out t t' : wf t -> recover_after_restart now t = (out, t') ->
  wf t' /\ all_move t t'.
Proof using SC SA SU.
  intros Ht H. unfold recover_after_restart in H.
  destruct (list_cycles t) as [values|e] eqn:Hl; [|injection H as _ <-; by split].
  destruct (list_cycles_read _ _ Ht Hl) as (Hnd & Hg & _).
  by destruct (recover_cycles_wf _ _ _ _ _ _ Ht Hnd Hg H) as (? & ? & _).
Qed.

(** ** Every step *)

Lemma canonical_step_wf t t' : wf t -> canonical_step t t' -> wf t' /\ all_move t t'.
Proof using SC SA SU.
  intros Ht H. destruct H.
  - by eapply claim_slot_wf.
  - by eapply record_missed_wf.
  - by eapply record_observation_wf.
  - by eapply prepare_ag_occurrence_wf.
  - by eapply attach_ag_occurrence_wf.
  - by eapply record_ag_status_wf.
  - by eapply record_ag_refusal_wf.
  - by eapply recover_ag_occurrence_wf.
  - by eapply mark_recovery_required_wf.
  - by eapply close_without_proposal_wf.
  - by eapply recover_after_restart_wf.
  - by eapply record_external_observation_wf.
  - by eapply record_steady_state_observation_wf.
Qed.

Lemma empty_wf : wf (canonical_open no_tables).
Proof.
  constructor; [done|done| |by repeat split|constructor|constructor].
  intros id row H. simpl in H. by rewrite lookup_empty in H.
Qed.

Lemma steps_wf t t' : wf t -> rtc canonical_step t t' -> wf t' /\ all_move t t'.
Proof using SC SA SU.
  intros Ht H. induction H as [t|t t1 t' H1 H2 IH]; [by split|].
  destruct (canonical_step_wf _ _ Ht H1) as [Ht1 Hm1]. destruct (IH Ht1). split; [done|by etrans].
Qed.

Lemma canonical_reachable_wf t : reachable t -> wf t.
Proof using SC SA SU. intros H. by apply (steps_wf _ _ empty_wf). Qed.
End steps.
