(* ===== verification/CanonicalProperties.v ===== *)
(** * What the canonical store guarantees

    The properties of every store that operations reach from an empty database: each
    recorded cycle replays from its events, cycles only advance, an AG request rests on a
    posture that was current, slots and AG occurrences have one cycle each, and a restart
    leaves no live observation behind. *)
From S2P Require Import Prelude Text External Signing Contract NqAdmission.
From S2P Require Import SubstrateOrigin ExternalObservation ExternalComposition.
From S2P Require Import SteadyState Authoring Diagnostic Posture CanonicalRecords.
From S2P Require Import CanonicalTables CanonicalStore CanonicalFacts CanonicalInvariant.
From S2P Require Import CanonicalSteps Continuity.
From S2P Require Currentness.
From stdpp Require Import relations.
Local Open Scope string_scope.

Section properties.
Context {PD : PostureDocuments} {ND : CanonicalDocuments}.
Context {SC : SerdeOk ObservationCycleV1}.
Context {SA : SerdeOk AuthoringContextProvenanceV1}.
Context {SU : SerdeOk AuthoringContextCustodyProvenanceV1}.

(** ** Helpers *)

(** A snapshot of a chain: its version is its place, and it names the one before. *)
Lemma chain_snapshot id rs cs i x : chain id rs cs -> cs !! i = Some x ->
  cy_cycle_id x = id /\ cy_version x = N.of_nat i /\ cycle_validate x = Ok tt /\
  cy_prior_state_digest x = match i with O => None | S j => cy_state_digest <$> cs !! j end.
Proof.
  induction 1 as [|rs cs r c H IH Hr Hs]; [done|]. intros Hi.
  apply lookup_app_Some in Hi as [Hi|[Hlen Hi]].
  - destruct (IH Hi) as (? & ? & ? & Hp). repeat split; try done. rewrite Hp.
    destruct i as [|j]; [done|]. apply lookup_lt_Some in Hi.
    by rewrite lookup_app_l by lia.
  - destruct (i - length cs) eqn:Hd; [|done]. injection Hi as <-.
    assert (i = length cs) as -> by lia. destruct Hr.
    repeat split; try done. unfold succeeds in Hs.
    destruct cs as [|y cs _] using rev_ind; [done|]. rewrite length_app. simpl.
    rewrite last_snoc in Hs. destruct Hs as (-> & _).
    rewrite Nat.add_1_r, lookup_app_l by (rewrite length_app; simpl; lia).
    by rewrite list_lookup_middle.
Qed.

Lemma ag_claim_found id t r : ag_claim_of id t = Some r ->
  r ∈ kt_ag_claims t /\ kg_cycle_id r = id.
Proof.
  unfold ag_claim_of. intros H. apply find_first_Some in H as [Hin H].
  split; [done|]. by apply String.eqb_eq.
Qed.

(** The durable claim of a prepared request. *)
Lemma request_claim id t c q : wf t -> get_cycle id t = Ok c ->
  cy_prepared_ag_request c = Some q ->
  exists r, r ∈ kt_ag_claims t /\ kg_cycle_id r = id /\
  occurrence_of r = (pq_campaign_id q, pq_occurrence_id q) /\
  kg_request_digest r = pq_request_digest q.
Proof using SC SA SU.
  intros Ht Hg Hq. destruct (get_cycle_row _ _ _ Ht Hg) as (row & cs & _ & R).
  pose proof (ca_ag _ _ _ (row_claims _ _ _ _ _ R)) as Hm. rewrite Hq in Hm.
  destruct (ag_claim_of id t) as [r|] eqn:Hr; [|done]. destruct (ag_claim_found _ _ _ Hr).
  exists r. repeat split; try done; unfold ag_claim_matches, occurrence_of in *; simpl in Hm;
    rewrite !andb_true_iff, !String.eqb_eq in Hm; naive_solver congruence.
Qed.

Lemma NoDup_fmap_inj {A B} (f : A -> B) l x y :
  NoDup (f <$> l) -> x ∈ l -> y ∈ l -> f x = f y -> x = y.
Proof.
  induction l as [|z l IH]; [by intros _ Hx%not_elem_of_nil|]. rewrite fmap_cons.
  intros [Hz Hn]%NoDup_cons Hx Hy Hf. apply elem_of_cons in Hx, Hy.
  destruct Hx as [->|Hx], Hy as [->|Hy]; [done| | |by apply IH].
  - destruct Hz. rewrite Hf. by apply list_elem_of_fmap_2.
  - destruct Hz. rewrite <- Hf. by apply list_elem_of_fmap_2.
Qed.

Lemma get_cycle_id id t c : wf t -> get_cycle id t = Ok c -> cy_cycle_id c = id.
Proof.
  intros Ht H. destruct (get_cycle_row _ _ _ Ht H) as (row & cs & _ & R).
  by destruct (row_valid _ _ _ _ _ R).
Qed.

(** A cycle of [t'] was one of [t], when [t'] added no row. *)
Lemma get_cycle_known id t t' c : wf t -> wf t' ->
  (kt_cycles t !! id = None -> kt_cycles t' !! id = kt_cycles t !! id) ->
  get_cycle id t' = Ok c -> exists p, get_cycle id t = Ok p.
Proof using SC SA SU.
  intros Ht Ht' Hn Hc. destruct (kt_cycles t !! id) as [row|] eqn:Hrow.
  - destruct (wf_rows _ Ht _ _ Hrow) as (cs & p & R). exists p. by eapply get_row.
  - destruct (get_cycle_row _ _ _ Ht' Hc) as (row & cs & Hrow' & _).
    rewrite Hn in Hrow' by done. done.
Qed.

(** ** The properties *)

(** C39. Every cycle of a reached store replays: the events of the cycle, read in order,
    rebuild snapshots that each validate, carry versions 0, 1, 2, ... and name the digest of
    the one before, and the last of them is the row [get_cycle] reads. *)
Theorem reachable_cycle_replays t id : reachable t -> is_Some (kt_cycles t !! id) ->
  exists cs c, canonical_replay id t = Ok cs /\ get_cycle id t = Ok c /\ last cs = Some c /\
  forall i x, cs !! i = Some x ->
    cy_cycle_id x = id /\ cy_version x = N.of_nat i /\ cycle_validate x = Ok tt /\
    cy_prior_state_digest x = match i with O => None | S j => cy_state_digest <$> cs !! j end.
Proof using SC SA SU.
  intros Hr [row Hrow]. apply canonical_reachable_wf in Hr as Ht.
  destruct (wf_rows _ Ht _ _ Hrow) as (cs & c & R).
  pose proof (row_chain _ _ _ _ _ R) as Hch. pose proof (row_last _ _ _ _ _ R) as Hl.
  assert (get_cycle id t = Ok c) as Hg by (by eapply get_row).
  exists cs, c. split; [|split; [done|]; split; [done|]; intros; by eapply chain_snapshot].
  pose proof (chain_replays _ _ _ Hch) as Hreplay.
  unfold canonical_replay. rewrite (chain_cycle_events _ _ _ Hch), Hreplay.
  simpl. rewrite Hg. simpl. by rewrite bool_decide_eq_true_2.
Qed.

(** C40. Whatever operations follow, failed restarts included, a recorded cycle is never
    lost and only advances: its identity, slot, timing, observation, intent, request,
    lineage and refusal stay once recorded, its AG program counter never regresses, and a
    closed or missed cycle never changes again. *)
Theorem reachable_cycles_advance t t' id p :
  reachable t -> rtc canonical_step t t' -> get_cycle id t = Ok p ->
  exists c, get_cycle id t' = Ok c /\
    (c = p \/ (advances p c /\ cy_status p <> Cycle_Closed /\ cy_status p <> Cycle_Missed)).
Proof using SC SA SU.
  intros Hr Hs Hg. apply canonical_reachable_wf in Hr as Ht.
  destruct (steps_wf _ _ Ht Hs) as [_ Hm]. destruct (Hm _ _ Hg) as (c & Hc & Hmv).
  exists c. split; [done|]. destruct Hmv as [->|[Ha Hopen]]; [by left|]. right.
  split; [done|]. by destruct (cy_status p).
Qed.

(** C5. A cycle with a prepared AG request rests on a posture that was current: complete in
    inputs and coverage, its recurrence met, its exact support standing; the intent the
    request names binds that observation, the request holds the cycle's own claim on its
    occurrence, and external evidence it composed still reproduces from custody. *)
Theorem prepared_request_basis t id c q :
  reachable t -> get_cycle id t = Ok c -> cy_prepared_ag_request c = Some q ->
  exists o i, cy_observation c = Some o /\ cy_intent c = Some i /\
  currentness_of (obs_support o) (obs_posture o) = true /\
  op_present_support (obs_posture o) = Some (obs_support o) /\
  pq_source_intent_id q = tc_intent_id i /\ validate_for_observation i o = Ok tt /\
  (forall e, obs_external_evidence o = Some e ->
     validate_external_composition_source e t = Ok tt) /\
  exists r, r ∈ kt_ag_claims t /\ kg_cycle_id r = id /\
    occurrence_of r = (pq_campaign_id q, pq_occurrence_id q) /\
    kg_request_digest r = pq_request_digest q.
Proof using SC SA SU.
  intros Hr Hg Hq. apply canonical_reachable_wf in Hr as Ht.
  destruct (get_cycle_row _ _ _ Ht Hg) as (row & cs & _ & R).
  pose proof (row_sound _ _ _ _ _ R) as [Ha Hb _].
  destruct (Hb q Hq) as (o & Ho & Hcur & _). destruct (acc_request _ Ha q Hq) as (i & Hi & Hqi).
  destruct (acc_intent _ Ha i Hi) as (o' & Ho' & Hv). rewrite Ho in Ho'. injection Ho' as <-.
  pose proof (acc_observation _ Ha o Ho) as Hvc. unfold validate_for_cycle in Hvc.
  inv_ok Hvc. res_simpl. test_simpl.
  apply eqb_prop in Hvc. destruct Hok2 as [_ Hpresent]. apply bool_decide_eq_true in Hpresent.
  exists o, i. repeat (split; [done || congruence|]). split; [|by eapply request_claim].
  intros e He. by eapply (row_reproducible _ _ _ _ _ R).
Qed.

(** C9. A recurrence slot has one cycle, and so has an AG occurrence: two cycles of a
    reached store with the same slot, or whose requests name the same occurrence of the
    same campaign, are the same cycle. *)
Theorem one_cycle_per_slot_and_occurrence t id1 id2 c1 c2 :
  reachable t -> get_cycle id1 t = Ok c1 -> get_cycle id2 t = Ok c2 ->
  (sl_slot_id (cy_slot c1) = sl_slot_id (cy_slot c2) -> id1 = id2) /\
  (forall q1 q2, cy_prepared_ag_request c1 = Some q1 -> cy_prepared_ag_request c2 = Some q2 ->
   pq_campaign_id q1 = pq_campaign_id q2 -> pq_occurrence_id q1 = pq_occurrence_id q2 ->
   id1 = id2).
Proof using SC SA SU.
  intros Hr H1 H2. apply canonical_reachable_wf in Hr as Ht. split.
  - destruct (get_cycle_row _ _ _ Ht H1) as (row1 & cs1 & _ & R1).
    destruct (get_cycle_row _ _ _ Ht H2) as (row2 & cs2 & _ & R2). intros E.
    destruct (row_slot _ _ _ _ _ R1) as (s1 & Hs1 & <- & _).
    destruct (row_slot _ _ _ _ _ R2) as (s2 & Hs2 & <- & _). congruence.
  - intros q1 q2 Hq1 Hq2 E1 E2.
    destruct (request_claim _ _ _ _ Ht H1 Hq1) as (r1 & Hr1 & <- & Ho1 & _).
    destruct (request_claim _ _ _ _ Ht H2 Hq2) as (r2 & Hr2 & <- & Ho2 & _).
    f_equal. eapply NoDup_fmap_inj; [apply (wf_occurrences _ Ht)|done|done|congruence].
Qed.

(** C11. After a restart that succeeds no cycle claims a live observation any more: every
    cycle that was observing or had only recorded its posture requires recovery and keeps
    its observation, every other cycle is untouched, and what the restart reports are
    exactly cycles that require recovery or await AG, as they now stand. *)
Theorem restart_erases_currentness t t' now reports :
  reachable t -> recover_after_restart now t = (Ok reports, t') ->
  (forall id p, get_cycle id t = Ok p -> exists c, get_cycle id t' = Ok c /\ restarted p c) /\
  (forall id c, get_cycle id t' = Ok c ->
     cy_status c <> Cycle_Observing /\ cy_status c <> Cycle_PostureRecorded) /\
  (forall c, c ∈ reports <-> exists p, get_cycle (cy_cycle_id c) t = Ok p /\
     get_cycle (cy_cycle_id c) t' = Ok c /\ reported p = true).
Proof using SC SA SU.
  intros Hr H. apply canonical_reachable_wf in Hr as Ht. unfold recover_after_restart in H.
  destruct (list_cycles t) as [values|e] eqn:Hl; [|done].
  destruct (list_cycles_read _ _ Ht Hl) as (Hnd & Hg & Hall).
  destruct (recover_cycles_wf _ _ _ _ _ _ Ht Hnd Hg H) as (Ht' & _ & Ho & Hout).
  destruct (Hout _ eq_refl) as (cs & HF & ->). clear Hout. simpl.
  rewrite Forall_forall in Hg.
  assert (forall id p, get_cycle id t = Ok p -> exists c,
    (p, c) ∈ zip values cs /\ get_cycle id t' = Ok c /\ restarted p c) as Hpair.
  { intros id p Hp. destruct (list_elem_of_lookup_1 _ _ (Hall _ _ Hp)) as [i Hi].
    destruct (Forall2_lookup_l _ _ _ _ _ HF Hi) as (c & Hc & Hgc & Hrc).
    rewrite (get_cycle_id _ _ _ Ht Hp) in Hgc. exists c. split; [|done].
    eapply list_elem_of_lookup_2. rewrite lookup_zip_Some. by split. }
  split; [|split].
  - intros id p Hp. destruct (Hpair _ _ Hp) as (c & _ & ? & ?). by exists c.
  - intros id c Hc. destruct (get_cycle_known id t t' c Ht Ht') as [p Hp]; [|done|].
    { intros Hn. apply Ho. intros Hin. apply list_elem_of_fmap in Hin as (p & -> & Hp).
      specialize (Hg p Hp). destruct (get_cycle_row _ _ _ Ht Hg) as (row & ? & Hrow & _).
      congruence. }
    destruct (Hpair _ _ Hp) as (c' & _ & Hc' & Hrc). rewrite Hc in Hc'. injection Hc' as <-.
    unfold restarted in Hrc. destruct (cy_status p) eqn:Hs; naive_solver congruence.
  - intros c. rewrite list_elem_of_bind. split.
    + intros ([p c'] & Hc & Hin). simpl in Hc. destruct (reported p) eqn:Hrp;
        [|by apply not_elem_of_nil in Hc]. apply list_elem_of_singleton in Hc as <-.
      destruct (list_elem_of_lookup_1 _ _ Hin) as [i Hi].
      apply lookup_zip_Some in Hi as [Hi Hi'].
      destruct (Forall2_lookup_lr _ _ _ _ _ _ HF Hi Hi') as (Hgc & _).
      exists p. rewrite (get_cycle_id _ _ _ Ht' Hgc).
      split; [|by split]. apply Hg. by eapply list_elem_of_lookup_2.
    + intros (p & Hp & Hc & Hrp). destruct (Hpair _ _ Hp) as (c' & Hin & Hc' & _).
      rewrite Hc in Hc'. injection Hc' as <-. exists (p, c). split; [|done]. simpl.
      rewrite Hrp. by left.
Qed.
End properties.


(** ** The history of substrate origins

    What [unique_substrate_origin_head] establishes of the verdicts it is given: one chain
    that every verdict is on, as long as no verdict precedes itself. *)

Section history.
Context {PD : PostureDocuments} {ND : CanonicalDocuments}.

(** Verdict [id] names [p] as its predecessor. *)
Definition precedes (nodes : gmap string SubstrateOriginApplicabilityV1) (id p : string) : Prop :=
  exists v, nodes !! id = Some v /\ oo_predecessor_applicability_id v = Some p.

(** What the loop over the verdicts leaves: the predecessors named, each named once. *)
Record referenced_by (nodes : gmap string SubstrateOriginApplicabilityV1)
    (vs : list SubstrateOriginApplicabilityV1) (referenced : gset string) : Prop := {
  rb_named : forall p, p ∈ referenced <->
    exists v, v ∈ vs /\ oo_predecessor_applicability_id v = Some p;
  rb_known : forall v p, v ∈ vs -> oo_predecessor_applicability_id v = Some p ->
    exists w, nodes !! p = Some w /\
    oo_predecessor_coordinate_ref v = Some (oo_observed_coordinate_ref w);
  rb_once : forall i j v w p, vs !! i = Some v -> vs !! j = Some w ->
    oo_predecessor_applicability_id v = Some p -> oo_predecessor_applicability_id w = Some p ->
    i = j
}.

Lemma reference_predecessor_spec nodes vs v r r' :
  referenced_by nodes vs r -> reference_predecessor nodes v r = Ok r' ->
  referenced_by nodes (vs ++ [v]) r'.
Proof.
  intros [Hn Hk Ho] H. unfold reference_predecessor in H.
  assert (forall p x, x ∈ (vs ++ [v])%list -> oo_predecessor_applicability_id x = Some p ->
    p ∈ r \/ x = v /\ oo_predecessor_applicability_id v = Some p) as Hsplit.
  { intros p x Hx Hp. apply elem_of_app in Hx as [Hx| ->%list_elem_of_singleton]; [|by right].
    left. apply Hn. by exists x. }
  destruct (oo_predecessor_applicability_id v) as [p|] eqn:Hp.
  - inv_ok H. res_simpl. test_simpl. subst r'. apply bool_decide_eq_true in Hok0.
    apply bool_decide_eq_false in Hok1.
    constructor.
    + intros q. rewrite elem_of_union, elem_of_singleton, Hn. split.
      * intros [->|(w & Hw & Hq)]; [exists v|exists w]; rewrite elem_of_app; split; try done;
          [right; by left|by left].
      * intros (w & Hw & Hq). apply elem_of_app in Hw as [Hw| ->%list_elem_of_singleton];
          [right; by exists w|left; congruence].
    + intros w q Hw Hq. apply elem_of_app in Hw as [Hw| ->%list_elem_of_singleton];
        [by apply Hk|]. rewrite Hp in Hq. injection Hq as <-. by exists x.
    + intros i j w w' q Hi Hj Hw Hw'.
      apply lookup_app_Some in Hi as [Hi|[Hli Hi]], Hj as [Hj|[Hlj Hj]].
      * by eapply Ho.
      * destruct (j - length vs)%nat; [|done]. injection Hj as <-. destruct Hok1.
        rewrite Hp in Hw'. injection Hw' as ->. apply Hn. exists w. split; [|done].
        by eapply list_elem_of_lookup_2.
      * destruct (i - length vs)%nat; [|done]. injection Hi as <-. destruct Hok1.
        rewrite Hp in Hw. injection Hw as ->. apply Hn. exists w'. split; [|done].
        by eapply list_elem_of_lookup_2.
      * apply lookup_lt_Some in Hi, Hj. simpl in Hi, Hj. lia.
  - injection H as <-. constructor.
    + intros q. rewrite Hn. split; intros (w & Hw & Hq); exists w;
        [rewrite elem_of_app; by auto|].
      apply elem_of_app in Hw as [Hw| ->%list_elem_of_singleton]; [done|congruence].
    + intros w q Hw Hq. apply elem_of_app in Hw as [Hw| ->%list_elem_of_singleton];
        [by apply Hk|congruence].
    + intros i j w w' q Hi Hj Hw Hw'.
      apply lookup_app_Some in Hi as [Hi|[_ Hi]], Hj as [Hj|[_ Hj]]; [by eapply Ho|..];
        [destruct (j - length vs)%nat|destruct (i - length vs)%nat
        |destruct (i - length vs)%nat]; simpl in *; try done; congruence.
Qed.

Lemma referenced_spec nodes vs r : fold_try (reference_predecessor nodes) vs ∅ = Ok r ->
  referenced_by nodes vs r.
Proof.
  revert r. induction vs as [|v vs IH] using rev_ind; intros r H.
  - injection H as <-. constructor; [|by intros ? ? ?%not_elem_of_nil|done].
    intros p. split; [by intros ?%elem_of_empty|by intros (v & ?%not_elem_of_nil & _)].
  - rewrite fold_try_app in H. apply rbind_ok in H as (r1 & H1 & H). simpl in H.
    inv_ok H. subst x. eapply reference_predecessor_spec; [by apply IH|done].
Qed.

(** Two verdicts with the same predecessor are one. *)
Lemma precedes_once nodes r id1 id2 p : referenced_by nodes (btree_values nodes) r ->
  precedes nodes id1 p -> precedes nodes id2 p -> id1 = id2.
Proof.
  intros [_ _ Ho] (v & Hv & Hp) (w & Hw & Hp').
  apply elem_of_btree_iter, list_elem_of_lookup_1 in Hv as [i Hi].
  apply elem_of_btree_iter, list_elem_of_lookup_1 in Hw as [j Hj].
  assert (i = j) as -> by (eapply (Ho i j v w p); [unfold btree_values..|done|done];
    rewrite list_lookup_fmap; [by rewrite Hi|by rewrite Hj]).
  rewrite Hi in Hj. by injection Hj.
Qed.

Lemma head_spec nodes head : unique_substrate_origin_head nodes = Ok head ->
  exists r h, referenced_by nodes (btree_values nodes) r /\ nodes !! h = Some head /\
  forall id, is_Some (nodes !! id) -> id <> h -> id ∈ r.
Proof.
  unfold unique_substrate_origin_head. intros H.
  destruct (fold_try _ _ ∅) as [r|] eqn:Hr; [|done]. apply referenced_spec in Hr.
  cbn [rbind] in H. set (unreferenced := List.filter _ (btree_iter nodes)) in H.
  assert (forall id v, (id, v) ∈ unreferenced <-> nodes !! id = Some v /\ id ∉ r) as Hun.
  { intros id v. unfold unreferenced. rewrite list_elem_of_In, List.filter_In,
      <- list_elem_of_In, elem_of_btree_iter. simpl.
    by rewrite negb_true_iff, bool_decide_eq_false. }
  destruct unreferenced as [|[h v] [|]]; try discriminate H. simpl in H. inv_ok H. subst v.
  exists r, h. split; [done|]. split; [apply Hun; by left|].
  intros id [v Hv] Hne. destruct (decide (id ∈ r)) as [|Hn]; [done|].
  assert ((id, v) ∈ [(h, head)]) as Hin by (by apply Hun).
  apply list_elem_of_singleton in Hin. congruence.
Qed.

(** The accepted history is one chain that ends in the head: every verdict is reached from
    the head by predecessors, none of which two verdicts share, and each verdict names the
    coordinate its predecessor observed.  An identity digests the record that carries it,
    predecessor included, so a verdict comes after its predecessor: [rank]. *)
Theorem head_ends_the_history nodes head (rank : string -> nat) :
  (forall id p, precedes nodes id p -> (rank p < rank id)%nat) ->
  unique_substrate_origin_head nodes = Ok head ->
  exists h, nodes !! h = Some head /\
  (forall id, is_Some (nodes !! id) -> rtc (precedes nodes) h id) /\
  (forall id1 id2 p, precedes nodes id1 p -> precedes nodes id2 p -> id1 = id2) /\
  (forall id v p, nodes !! id = Some v -> oo_predecessor_applicability_id v = Some p ->
     exists w, nodes !! p = Some w /\
     oo_predecessor_coordinate_ref v = Some (oo_observed_coordinate_ref w)).
Proof.
  intros Hrank H. apply head_spec in H as (r & h & Hr & Hh & Hall).
  exists h. split; [done|]. split; [|split].
  - pose (bound := list_max (rank <$> btree_keys nodes)).
    assert (forall id, is_Some (nodes !! id) -> rank id <= bound)%nat as Hb.
    { intros id Hid. unfold bound. apply elem_of_btree_keys in Hid.
      apply (list_elem_of_fmap_2 rank) in Hid. apply list_elem_of_In in Hid.
      pose proof (proj1 (List.list_max_le _ _) (Nat.le_refl (list_max (rank <$> btree_keys nodes))))
        as HF. by eapply List.Forall_forall in HF. }
    intros id. remember (bound - rank id)%nat as n eqn:Hn. revert id Hn.
    induction n as [n IH] using lt_wf_ind. intros id -> Hid.
    destruct (decide (id = h)) as [->|Hne]; [apply rtc_refl|].
    apply (Hall id Hid), (rb_named _ _ _ Hr) in Hne as (v & Hv & Hp).
    apply elem_of_btree_values in Hv as [k Hk].
    assert (precedes nodes k id) as Hpre by (by exists v).
    specialize (Hrank _ _ Hpre). assert (is_Some (nodes !! k)) as Hks by (by exists v).
    pose proof (Hb k Hks). eapply rtc_r; [|exact Hpre].
    eapply (IH (bound - rank k)%nat); [lia|done|done].
  - intros id1 id2 p. by eapply precedes_once.
  - intros id v p Hv Hp. eapply (rb_known _ _ _ Hr); [|done].
    apply elem_of_btree_values. by exists id.
Qed.

(** Without that order the check does not hold what its message says: a chain and a
    separate cycle of two verdicts are accepted. *)
Definition verdict_named (coordinate : string) (predecessor : option (string * string))
    : SubstrateOriginApplicabilityV1 :=
  {| oo_schema := ""; oo_applicability_id := ""; oo_status := Origin_Applicable;
     oo_reason := OriginReason_BootstrapOriginEstablished; oo_profile_id := "";
     oo_diagnostic_artifact_id := ""; oo_subject_ref := "";
     oo_predecessor_applicability_id := fst <$> predecessor;
     oo_predecessor_coordinate_ref := snd <$> predecessor;
     oo_observed_coordinate_ref := coordinate; oo_attestation_occurrence_ref := "";
     oo_acquisition_id := ""; oo_provider_intake_ref := "";
     oo_authority_occurrence_ref := None |}.

Definition disconnected_history : gmap string SubstrateOriginApplicabilityV1 :=
  list_to_map [("root", verdict_named "a" None);
               ("one", verdict_named "b" (Some ("two", "c")));
               ("two", verdict_named "c" (Some ("one", "b")))].

Lemma disconnected_history_accepted :
  unique_substrate_origin_head disconnected_history = Ok (verdict_named "a" None) /\
  ~ rtc (precedes disconnected_history) "root" "one".
Proof.
  split; [vm_compute; reflexivity|]. intros H.
  apply rtc_inv in H as [H|(z & (v & Hv & Hp) & _)]; [discriminate H|].
  vm_compute in Hv. injection Hv as <-. discriminate Hp.
Qed.
End history.
