(* ===== verification/AgPort.v ===== *)
(** * The AG port (crates/nightshiftd/src/ag_port.rs)

    The request by which Nightshift asks AG to open one occurrence, the reading of AG's
    snapshots and refusals, and the adapter over the [ag-loopctl] program, whose
    invocations are an external function of the adapter's state. *)
From S2P Require Import Prelude Text External Signing Contract Continuity SubstrateOrigin.
From S2P Require Import NqAdmission ExternalObservation ExternalComposition SteadyState Authoring.
From S2P Require Import Diagnostic Posture CanonicalRecords.
From S2P Require Currentness.
Local Open Scope string_scope.

(** ** Data *)

Inductive AgOpenModeV1 :=
| Mode_Genesis (genesis : value)
| Mode_Continuation (continuation : value).

Record AgOpenOccurrenceRequestV1 := {
  ao_schema : string;
  ao_request_id : string;
  ao_campaign_id : string;
  ao_occurrence_id : string;
  ao_subject_digest : string;
  ao_scope_digest : string;
  ao_source_observation_id : string;
  ao_source_support_id : string;
  ao_source_posture_id : string;
  ao_source_intent_id : string;
  ao_mode : AgOpenModeV1;
  ao_proposal_input : value
}.

Definition AG_OPEN_REQUEST_SCHEMA_V1 : string := "nightshift.ag_open_occurrence_request.v1".

(** The port, with its state threaded. *)
Class AgOccurrencePortV1 (A : Type) : Type := {
  open_occurrence :
    AgOpenOccurrenceRequestV1 -> A -> result string AgOccurrenceReferenceV1 * A;
  port_status : string -> string -> A -> result string AgOccurrenceReferenceV1 * A
}.

(** The runs of the [ag-loopctl] program the adapter makes, by what they are given; each
    returns the JSON value the program printed. *)
Inductive AgCommand :=
| Command_Status
| Command_Init (genesis : value)
| Command_Continue (continuation : value)
| Command_RecordProposal (proposal_input : value).

Class AgLoopCtl (A : Type) : Type := {
  run_ag_loopctl : AgCommand -> A -> result string value * A
}.

(** [Display] of the store's errors. *)
Definition store_error_display (e : CanonicalStoreError) : string :=
  match e with
  | StoreSql message => "canonical store SQL error: " +:+ message
  | StoreJson message => "canonical store JSON error: " +:+ message
  | StoreInvalid message => "invalid canonical record: " +:+ message
  | DuplicateSlot slot_id =>
      "recurrence slot already has an authoritative attempt: " +:+ slot_id
  | DuplicateAgOccurrence campaign_id occurrence_id =>
      "AG campaign/occurrence is already bound to another observation cycle: "
        +:+ campaign_id +:+ "/" +:+ occurrence_id
  | NotDue slot_id => "recurrence slot is not due: " +:+ slot_id
  | MissedSlot slot_id =>
      "recurrence slot is outside its latest-admissible instant: " +:+ slot_id
  | CycleNotFound cycle_id => "observation cycle not found: " +:+ cycle_id
  | StalePredecessor => "stale predecessor digest"
  | IllegalTransition message => "illegal observation-cycle transition: " +:+ message
  | WrongLiveLease => "live cycle lease does not bind this cycle"
  | ReplayFailed message => "deterministic replay failed: " +:+ message
  | ExternalObservationConflict message =>
      "external observation conflicts with canonical custody: " +:+ message
  end.

(** [.map_err(|error| error.to_string())] of a store operation. *)
Definition displayed {A} (m : result CanonicalStoreError A) : result string A :=
  map_err store_error_display m.

(** ** Operations *)

Section port.
Context {PD : PostureDocuments} {ND : CanonicalDocuments} {SO : Serde AgOpenOccurrenceRequestV1}.

Definition ag_digest_value (v : value) : result string string :=
  let? bytes := jcs_value v in
  Ok ("sha256:" +:+ sha256_hex bytes).

Definition exact_object (v : value) (name : string) : result string (list (string * value)) :=
  match v with
  | Object kvs => Ok kvs
  | _ => Err (name +:+ " must be an exact JSON object")
  end.

Definition exact_string (object : list (string * value)) (field : string)
    : result string string :=
  ok_or (assoc_get field object ≫= as_str) (field +:+ " must be a string").

(** [object.keys().collect::<BTreeSet<_>>() == fields]. *)
Definition has_fields (object : list (string * value)) (fields : list string) : bool :=
  bool_decide (list_to_set (C := gset string) object.*1 = list_to_set fields).

(** The identity of a request: its digest without the identity field.  The [expect] that
    the value is an object cannot fail of a serialized struct and is an error here. *)
Definition request_identity (r : AgOpenOccurrenceRequestV1) : result string string :=
  let? v := to_value r in
  let? kvs := exact_object v "AG open request" in
  ag_digest_value (Object (object_remove "request_id" kvs)).

(** [exact_string(object, field)? == expected] of each field, stopping at the first that
    differs. *)
Fixpoint binds_fields (object : list (string * value)) (fields : list (string * string))
    : result string bool :=
  match fields with
  | [] => Ok true
  | (field, expected) :: fields =>
      let? found := exact_string object field in
      if String.eqb found expected then binds_fields object fields else Ok false
  end.

Definition check_mode (r : AgOpenOccurrenceRequestV1) : result string unit :=
  match ao_mode r with
  | Mode_Genesis genesis =>
      let? object := exact_object genesis "genesis" in
      let? bound := binds_fields object
        [("campaign", ao_campaign_id r); ("occurrence", ao_occurrence_id r)] in
      reject (negb bound) "AG genesis does not bind the exact new occurrence"
  | Mode_Continuation continuation =>
      let? object := exact_object continuation "continuation" in
      reject (negb (has_fields object ["expected_ag_work"; "occurrence"]))
        "AG continuation does not bind exactly one new occurrence and work" ;?
      let? bound := binds_fields object [("occurrence", ao_occurrence_id r)] in
      reject (negb bound)
        "AG continuation does not bind exactly one new occurrence and work" ;?
      let? work := exact_string object "expected_ag_work" in
      external_digest "continuation.expected_ag_work" work
  end.

Definition expected_class (m : AgOpenModeV1) : string :=
  match m with Mode_Genesis _ => "initial" | Mode_Continuation _ => "successor" end.

(** The work the occurrence is to be opened for. *)
Definition mode_work (m : AgOpenModeV1) : result string string :=
  match m with
  | Mode_Genesis genesis =>
      let? object := exact_object genesis "genesis" in
      exact_string object "expected_ag_work"
  | Mode_Continuation continuation =>
      let? object := exact_object continuation "continuation" in
      exact_string object "expected_ag_work"
  end.

Definition check_proposal_input (r : AgOpenOccurrenceRequestV1)
    : result string (list (string * value)) :=
  let? input := exact_object (ao_proposal_input r) "proposal_input" in
  reject (negb (has_fields input ["class"; "observation"; "proposal"]))
    "proposal input must contain exactly observation, proposal, and class" ;?
  let? observation := exact_string input "observation" in
  external_digest "proposal_input.observation" observation ;?
  reject (negb (String.eqb observation (ao_source_observation_id r)))
    "AG proposal substitutes a different observation basis" ;?
  let? class := exact_string input "class" in
  reject (negb (String.eqb class (expected_class (ao_mode r))))
    "Nightshift recurrence may open only initial or ordinary successor work" ;?
  let? proposal := ok_or (assoc_get "proposal" input) "proposal is missing" in
  exact_object proposal "proposal".

Definition check_exact_proposal (r : AgOpenOccurrenceRequestV1)
    (proposal : list (string * value)) : result string unit :=
  reject (negb (has_fields proposal
            ["campaign"; "repair"; "schema"; "scope"; "subject"; "work"; "work_schema"]))
    "exact AG proposal has missing or unknown fields" ;?
  let? bound := binds_fields proposal
    [("schema", "ag.governed-loop.exact-work-proposal/v1"); ("campaign", ao_campaign_id r);
     ("subject", ao_subject_digest r); ("scope", ao_scope_digest r)] in
  reject (negb bound) "exact AG proposal does not bind campaign/subject/scope" ;?
  let? work := exact_string proposal "work" in
  external_digest "proposal.work" work ;?
  let? work_schema := exact_string proposal "work_schema" in
  external_token "proposal.work_schema" work_schema ;?
  let? expected_work := mode_work (ao_mode r) in
  reject (negb (String.eqb expected_work work))
    "AG occurrence expected work differs from the exact proposal work".

Definition open_validate (r : AgOpenOccurrenceRequestV1) : result string unit :=
  reject (negb (String.eqb (ao_schema r) AG_OPEN_REQUEST_SCHEMA_V1))
    ("unsupported AG open request schema " +:+ ao_schema r) ;?
  external_digests
    [("request_id", ao_request_id r); ("campaign_id", ao_campaign_id r);
     ("subject_digest", ao_subject_digest r); ("scope_digest", ao_scope_digest r)] ;?
  reject (negb (is_uuid (ao_occurrence_id r)))
    "occurrence_id must be an independently allocated UUID" ;?
  external_digests
    [("source_observation_id", ao_source_observation_id r);
     ("source_support_id", ao_source_support_id r);
     ("source_posture_id", ao_source_posture_id r);
     ("source_intent_id", ao_source_intent_id r)] ;?
  check_mode r ;?
  let? proposal := check_proposal_input r in
  check_exact_proposal r proposal ;?
  let? identity := request_identity r in
  reject (negb (String.eqb (ao_request_id r) identity))
    "request_id does not match the exact AG request preimage".

Definition with_request_identity (identity : string) (r : AgOpenOccurrenceRequestV1)
    : AgOpenOccurrenceRequestV1 :=
  {| ao_schema := AG_OPEN_REQUEST_SCHEMA_V1; ao_request_id := identity;
     ao_campaign_id := ao_campaign_id r; ao_occurrence_id := ao_occurrence_id r;
     ao_subject_digest := ao_subject_digest r; ao_scope_digest := ao_scope_digest r;
     ao_source_observation_id := ao_source_observation_id r;
     ao_source_support_id := ao_source_support_id r;
     ao_source_posture_id := ao_source_posture_id r;
     ao_source_intent_id := ao_source_intent_id r; ao_mode := ao_mode r;
     ao_proposal_input := ao_proposal_input r |}.

Definition open_seal (r : AgOpenOccurrenceRequestV1) : result string AgOpenOccurrenceRequestV1 :=
  let? identity := request_identity (with_request_identity "" r) in
  let sealed := with_request_identity identity r in
  open_validate sealed ;?
  Ok sealed.

(** The work named inside the proposal. *)
Definition proposal_work (proposal_input : value) : option string :=
  (value_get proposal_input "proposal" ≫= (fun p => value_get p "work")) ≫= as_str.

Definition open_binds (r : AgOpenOccurrenceRequestV1) (o : ObservationRecordV1)
    (i : TypedCoarseIntentV2) : bool :=
  String.eqb (ao_subject_digest r) (tc_subject_digest i)
  && String.eqb (ao_scope_digest r) (si_digest (su_scope (pp_subject (op_policy (obs_posture o)))))
  && String.eqb (ao_source_observation_id r) (obs_observation_id o)
  && String.eqb (ao_source_support_id r) (Currentness.qs_support_id (obs_support o))
  && String.eqb (ao_source_posture_id r) (op_posture_id (obs_posture o))
  && String.eqb (ao_source_intent_id r) (tc_intent_id i).

Definition open_validate_for (r : AgOpenOccurrenceRequestV1) (o : ObservationRecordV1)
    (i : TypedCoarseIntentV2) : result string unit :=
  open_validate r ;?
  displayed (validate_for_observation i o) ;?
  reject (negb (open_binds r o i)) "AG request does not bind the exact Nightshift basis" ;?
  let? _ := exact_object (ao_proposal_input r) "proposal_input" in
  let? work := ok_or (proposal_work (ao_proposal_input r))
    "exact proposal work must be a digest" in
  reject (negb (String.eqb work (tc_expected_ag_work i)))
    "AG request proposal work does not bind the intent's expected AG work".

Definition open_prepared (r : AgOpenOccurrenceRequestV1)
    : result CanonicalStoreError PreparedAgRequestV1 :=
  invalid_record (open_validate r) ;?
  let? exact_request := map_err StoreJson (to_value r) in
  let? digest := invalid_record (ag_digest_value exact_request) in
  Ok {| pq_schema := PREPARED_AG_REQUEST_SCHEMA_V1; pq_request_digest := digest;
        pq_campaign_id := ao_campaign_id r; pq_occurrence_id := ao_occurrence_id r;
        pq_source_intent_id := ao_source_intent_id r; pq_exact_request := exact_request |}.

(** ** AG snapshots and refusals *)

(** The program counter a variant name stands for. *)
Definition counter_named (name : string) : option AgProgramCounterV1 :=
  if String.eqb name "observation_required" then Some Pc_ObservationRequired
  else if String.eqb name "proposal_recorded" then Some Pc_ProposalRecorded
  else if String.eqb name "standing_required" then Some Pc_StandingRequired
  else if String.eqb name "admissible_pending_authorization"
    then Some Pc_AdmissiblePendingAuthorization
  else if String.eqb name "authorization_consumed" then Some Pc_AuthorizationConsumed
  else if String.eqb name "dispatched" then Some Pc_Dispatched
  else if String.eqb name "reconciliation_required" then Some Pc_ReconciliationRequired
  else if String.eqb name "settled_observation_required"
    then Some Pc_SettledObservationRequired
  else if String.eqb name "halted" then Some Pc_Halted
  else if String.eqb name "completed" then Some Pc_Completed
  else None.

Definition parse_program_counter (state : value) : result string AgProgramCounterV1 :=
  let? object := exact_object state "AG state" in
  match object with
  | [(name, _)] => ok_or (counter_named name) ("unknown AG program counter " +:+ name)
  | _ => Err "AG state must contain one closed program-counter variant"
  end.

(** The occurrence key of an object, [meta.key]. *)
Definition meta_key (object : list (string * value)) : option (string * string) :=
  match assoc_get "meta" object with
  | Some (Object meta) =>
      match assoc_get "key" meta with
      | Some (Object key) =>
          campaign ← assoc_get "campaign" key ≫= as_str;
          occurrence ← assoc_get "occurrence" key ≫= as_str;
          Some (campaign, occurrence)
      | _ => None
      end
  | _ => None
  end.

(** Every key found, with its depth; the children of an object are one deeper. *)
Fixpoint visit_keys (v : value) (depth : nat) : list (nat * (string * string)) :=
  match v with
  | Object kvs =>
      match meta_key kvs with Some key => [(depth, key)] | None => [] end
      ++ flat_map (fun kv => visit_keys kv.2 (S depth)) kvs
  | Array vs => flat_map (fun w => visit_keys w (S depth)) vs
  | _ => []
  end.

(** [iter().min()]. *)
Definition minimum (l : list nat) : option nat :=
  match l with [] => None | n :: l => Some (fold_left Nat.min l n) end.

(** The only element of a set. *)
Definition only {T} `{Countable T} (s : gset T) : option T :=
  match elements s with [x] => Some x | _ => None end.

Definition current_key_at_minimum_meta_depth (v : value) : option (string * string) :=
  let found := visit_keys v 0 in
  least ← minimum found.*1;
  only (list_to_set (List.filter (fun item => (item.1 =? least)%nat) found).*2).

Fixpoint visit_named (field : string) (v : value) : list string :=
  match v with
  | Object kvs =>
      match assoc_get field kvs ≫= as_str with Some s => [s] | None => [] end
      ++ flat_map (fun kv => visit_named field kv.2) kvs
  | Array vs => flat_map (visit_named field) vs
  | _ => []
  end.

Definition unique_named_string (v : value) (field : string) : option string :=
  only (list_to_set (visit_named field v)).

Definition parse_ag_snapshot (snapshot : value) (campaign_id occurrence_id : string)
    : result string AgOccurrenceReferenceV1 :=
  external_digest "campaign_id" campaign_id ;?
  reject (negb (is_uuid occurrence_id))
    "occurrence_id must be an independently allocated UUID" ;?
  let? object := exact_object snapshot "AG snapshot" in
  let? state_digest := exact_string object "state_digest" in
  external_digest "AG state_digest" state_digest ;?
  let? state := ok_or (assoc_get "state" object) "AG snapshot has no state" in
  let? program_counter := parse_program_counter state in
  reject (negb (bool_decide (current_key_at_minimum_meta_depth state
                             = Some (campaign_id, occurrence_id))))
    "AG snapshot names the wrong current campaign/occurrence" ;?
  let? snapshot_digest := ag_digest_value snapshot in
  let ag := {| ar_schema := AG_REFERENCE_SCHEMA_V1; ar_campaign_id := campaign_id;
               ar_occurrence_id := occurrence_id; ar_state_digest := state_digest;
               ar_snapshot_digest := snapshot_digest; ar_program_counter := program_counter;
               ar_docket_attempt_id := unique_named_string state "attempt";
               ar_settlement_id := unique_named_string state "settlement";
               ar_external_decision_request_id := None; ar_exact_snapshot := snapshot |} in
  displayed (ag_validate ag) ;?
  Ok ag.

Definition refusal_codes : list string :=
  ["stale_observation"; "contradiction"; "absent_standing"; "standing_not_current";
   "inadmissible_exact_work"; "budget_exhausted"; "residual_unresolved";
   "human_decision_required"; "profile_law_violation"; "recovery_required"].

Definition refusal_evidence (evidence : option value) : result string (option string) :=
  match evidence with
  | Some Null => Ok None
  | Some (Str digest) => external_digest "refusal evidence" digest ;? Ok (Some digest)
  | _ => Err "AG refusal evidence must be null or an exact digest"
  end.

Definition parse_ag_refusal (outcome : value) (campaign_id occurrence_id : string)
    : result string AgRefusalReferenceV1 :=
  external_digest "campaign_id" campaign_id ;?
  reject (negb (is_uuid occurrence_id))
    "occurrence_id must be an independently allocated UUID" ;?
  let? object := exact_object outcome "AG refusal outcome" in
  reject (negb (has_fields object ["at_state_digest"; "code"; "evidence"; "key"]))
    "AG refusal outcome has missing or unknown fields" ;?
  let? key := ok_or (assoc_get "key" object) "AG refusal key is missing" in
  let? key := exact_object key "AG refusal key" in
  let? bound := binds_fields key [("campaign", campaign_id); ("occurrence", occurrence_id)] in
  reject (negb bound) "AG refusal names the wrong campaign or occurrence" ;?
  let? at_state_digest := exact_string object "at_state_digest" in
  external_digest "at_state_digest" at_state_digest ;?
  let? code := exact_string object "code" in
  reject (negb (bool_decide (code ∈ refusal_codes))) "unknown AG refusal code" ;?
  let? evidence := refusal_evidence (assoc_get "evidence" object) in
  let? refusal_digest := ag_digest_value outcome in
  let refusal :=
    {| arf_schema := AG_REFUSAL_SCHEMA_V1; arf_refusal_digest := refusal_digest;
       arf_campaign_id := campaign_id; arf_occurrence_id := occurrence_id;
       arf_at_state_digest := at_state_digest; arf_code := code; arf_evidence := evidence;
       arf_exact_outcome := outcome |} in
  displayed (refusal_validate refusal) ;?
  Ok refusal.

(** ** The adapter over [ag-loopctl] *)

Section loopctl.
Context {A : Type} {LC : AgLoopCtl A}.

(** A run whose output is read as the snapshot of an occurrence. *)
Definition run_snapshot (command : AgCommand) (campaign_id occurrence_id : string) (s : A)
    : result string AgOccurrenceReferenceV1 * A :=
  let '(answered, s) := run_ag_loopctl command s in
  (let? v := answered in parse_ag_snapshot v campaign_id occurrence_id, s).

Definition opening_command (m : AgOpenModeV1) : AgCommand :=
  match m with
  | Mode_Genesis genesis => Command_Init genesis
  | Mode_Continuation continuation => Command_Continue continuation
  end.

(** The occurrence as AG already has it, or opened now. *)
Definition read_or_open (r : AgOpenOccurrenceRequestV1) (s : A)
    : result string AgOccurrenceReferenceV1 * A :=
  let '(initial, s) := run_snapshot Command_Status (ao_campaign_id r) (ao_occurrence_id r) s in
  match initial with
  | Ok status => (Ok status, s)
  | Err _ =>
      run_snapshot (opening_command (ao_mode r)) (ao_campaign_id r) (ao_occurrence_id r) s
  end.

Definition loopctl_open (r : AgOpenOccurrenceRequestV1) (s : A)
    : result string AgOccurrenceReferenceV1 * A :=
  match open_validate r with
  | Err e => (Err e, s)
  | Ok _ =>
      let '(opened, s) := read_or_open r s in
      match opened with
      | Err e => (Err e, s)
      | Ok ag =>
          if bool_decide (ar_program_counter ag = Pc_ObservationRequired)
          then run_snapshot (Command_RecordProposal (ao_proposal_input r)) (ao_campaign_id r)
                 (ao_occurrence_id r) s
          else (Ok ag, s)
      end
  end.

Definition loopctl_status (campaign_id occurrence_id : string) (s : A)
    : result string AgOccurrenceReferenceV1 * A :=
  run_snapshot Command_Status campaign_id occurrence_id s.

#[local] Instance loopctl_port : AgOccurrencePortV1 A := {|
  open_occurrence := loopctl_open; port_status := loopctl_status |}.
End loopctl.
End port.
