(* ===== verification/DecisionBasis.v ===== *)
(** * The decision basis (crates/nightshiftd/src/decision_basis.rs)

    The projection of a posture on one condition atom and one delivery atom. *)
From S2P Require Import Prelude Text External Signing ExternalObservation Diagnostic Posture.
Local Open Scope string_scope.

Record DecisionBasisV1 := {
  db_schema : string;
  db_rule : SemanticIdentityV1;
  db_atoms : gset string
}.

(** The wire document before it is checked. *)
Record RawDecisionBasisV1 := {
  rd_schema : string;
  rd_rule : SemanticIdentityV1;
  rd_atoms : list string
}.

Definition DECISION_BASIS_SCHEMA_V1 : string := "nightshift.decision-basis.v1".
Definition NORMALIZATION_RULE_ID_V1 : string := "nightshift.posture-normalization".
Definition NORMALIZATION_RULE_VERSION_V1 : string := "1".
Definition DECISION_BASIS_DIGEST_DOMAIN_V1 : string := "nightshift.decision-basis.v1" +:+ NUL.
Definition CONDITION_CLEAN_ATOM_V1 : string := "condition.clean".
Definition CONDITION_PRESENT_ATOM_V1 : string := "condition.condition_present".
Definition CONDITION_UNRESOLVED_ATOM_V1 : string := "condition.unresolved".
Definition DELIVERY_QUALIFIED_ATOM_V1 : string := "delivery.qualified".
Definition DELIVERY_PARTIAL_ATOM_V1 : string := "delivery.partial_delivery".
Definition DELIVERY_FAILED_ATOM_V1 : string := "delivery.failed".
Definition DELIVERY_NOT_CONFIGURED_ATOM_V1 : string := "delivery.not_configured".
Definition DELIVERY_NOT_REQUIRED_ATOM_V1 : string := "delivery.not_required".

Definition ATOM_VOCABULARY_V1 : list string :=
  [CONDITION_CLEAN_ATOM_V1; CONDITION_PRESENT_ATOM_V1; CONDITION_UNRESOLVED_ATOM_V1;
   DELIVERY_QUALIFIED_ATOM_V1; DELIVERY_PARTIAL_ATOM_V1; DELIVERY_FAILED_ATOM_V1;
   DELIVERY_NOT_CONFIGURED_ATOM_V1; DELIVERY_NOT_REQUIRED_ATOM_V1].

Section basis.
Context {HO : Host} {SB : Serde DecisionBasisV1}.

Definition normalization_rule_v1 : SemanticIdentityV1 :=
  {| si_id := NORMALIZATION_RULE_ID_V1; si_version := NORMALIZATION_RULE_VERSION_V1;
     si_digest := "sha256:" +:+ sha256_hex (NORMALIZATION_RULE_ID_V1 +:+ ".v"
                                              +:+ NORMALIZATION_RULE_VERSION_V1) |}.

(** [atoms.windows(2).all(|pair| pair[0] < pair[1])]. *)
Fixpoint strictly_sorted (atoms : list string) : bool :=
  match atoms with
  | a :: ((b :: _) as rest) => String.ltb a b && strictly_sorted rest
  | _ => true
  end.

Definition atoms_with_prefix (prefix : string) (atoms : gset string) : nat :=
  length (List.filter (starts_with prefix) (elements atoms)).

Definition basis_validate (b : DecisionBasisV1) : result string unit :=
  reject (negb (String.eqb (db_schema b) DECISION_BASIS_SCHEMA_V1))
    ("unsupported decision basis schema " +:+ db_schema b) ;?
  let rule := normalization_rule_v1 in
  reject (negb (String.eqb (si_id (db_rule b)) (si_id rule)))
    "unknown decision-basis normalization rule identity" ;?
  reject (negb (String.eqb (si_version (db_rule b)) (si_version rule)))
    "unsupported decision-basis normalization rule version" ;?
  external_digest "rule.digest" (si_digest (db_rule b)) ;?
  reject (negb (String.eqb (si_digest (db_rule b)) (si_digest rule)))
    "rule digest does not match the v1 normalization rule preimage" ;?
  reject (negb (size (db_atoms b) =? 2)%nat)
    "v1 decision basis must contain exactly one condition and one delivery atom" ;?
  reject (negb (atoms_with_prefix "condition." (db_atoms b) =? 1)%nat
          || negb (atoms_with_prefix "delivery." (db_atoms b) =? 1)%nat)
    "v1 decision basis must contain exactly one condition and one delivery atom" ;?
  for_each (fun atom => reject (negb (bool_decide (atom ∈ ATOM_VOCABULARY_V1)))
                          ("unknown v1 decision-basis atom " +:+ atom))
    (merge_sort String.le (elements (db_atoms b))).

(** [TryFrom<RawDecisionBasisV1>]. *)
Definition basis_try_from (raw : RawDecisionBasisV1) : result string DecisionBasisV1 :=
  reject (negb (strictly_sorted (rd_atoms raw)))
    "decision basis atoms must be strictly sorted and unique" ;?
  let basis := {| db_schema := rd_schema raw; db_rule := rd_rule raw;
                  db_atoms := list_to_set (rd_atoms raw) |} in
  basis_validate basis ;?
  Ok basis.

Definition basis_digest_of (b : DecisionBasisV1) : result string string :=
  let? bytes := to_vec b in
  Ok ("sha256:" +:+ sha256_hex (DECISION_BASIS_DIGEST_DOMAIN_V1 +:+ bytes)).

Definition condition_atom (c : ConditionAxis) : string :=
  match c with
  | ConditionAxis_Clean => CONDITION_CLEAN_ATOM_V1
  | ConditionAxis_ConditionPresent => CONDITION_PRESENT_ATOM_V1
  | ConditionAxis_Unresolved => CONDITION_UNRESOLVED_ATOM_V1
  end.
Definition delivery_atom (d : DeliveryStanding) : string :=
  match d with
  | Delivery_Qualified => DELIVERY_QUALIFIED_ATOM_V1
  | Delivery_PartialDelivery => DELIVERY_PARTIAL_ATOM_V1
  | Delivery_Failed => DELIVERY_FAILED_ATOM_V1
  | Delivery_NotConfigured => DELIVERY_NOT_CONFIGURED_ATOM_V1
  | Delivery_NotRequired => DELIVERY_NOT_REQUIRED_ATOM_V1
  end.

Definition normalize_posture (p : OperationalPosture) : DecisionBasisV1 :=
  {| db_schema := DECISION_BASIS_SCHEMA_V1; db_rule := normalization_rule_v1;
     db_atoms := {[condition_atom (op_condition p); delivery_atom (op_delivery p)]} |}.
End basis.
