(* ===== verification/CanonicalRuntime.v ===== *)
(** * The canonical runtime (crates/nightshiftd/src/canonical_runtime.rs)

    One observation cycle: qualified support is obtained, the complete basis evaluated and
    recorded in the store, and AG asked to open at most one exact occurrence.  The store
    commits transaction by transaction, so a run threads its state through failures: [Run]
    is that monad. *)
From S2P Require Import Prelude Text External Signing Contract Continuity SubstrateOrigin.
From S2P Require Import NqAdmission ExternalObservation ExternalComposition SteadyState Authoring.
From S2P Require Import Diagnostic Posture CanonicalRecords CanonicalTables CanonicalStore.
From S2P Require Import AgPort.
From S2P Require Currentness.
Import Currentness (PresentEvidenceQueryV1, QualifiedSupportV1, TemporalHoldExpiryV1,
  Support_Current, Support_Contradictory, Support_Blind, qs_standing, query_seal).
Local Open Scope string_scope.

(** ** Data *)

Inductive CanonicalRuntimeError :=
| Runtime_Store (e : CanonicalStoreError)
| Runtime_Invalid (message : string)
| Runtime_PresentEvidence (message : string)
| Runtime_NqAdmission (message : string)
| Runtime_Diagnostic (message : string)
| Runtime_ExternalEvidence (message : string)
| Runtime_Ag (message : string).

Record TemporalPolicyRequestV1 := {
  tq_policy_id : string;
  tq_basis_digest : string;
  tq_hold_expiry : option TemporalHoldExpiryV1
}.

Record PrecompiledWorkflowProposalV2 := {
  pw_schema : string;
  pw_workflow_id : string;
  pw_intent_kind : string;
  pw_subject_digest : string;
  pw_immutable_parameters : value;
  pw_ag_executor_plan : value;
  pw_campaign_id : string;
  pw_occurrence_id : string;
  pw_mode : AgOpenModeV1;
  pw_proposal_input : value
}.

Record CanonicalCycleRequestV1 := {
  cq_schema : string;
  cq_request_id : string;
  cq_slot : RecurrenceSlotV1;
  cq_scheduler_clock_id : string;
  cq_evaluated_at : instant;
  cq_observation_id : string;
  cq_policy : PosturePolicy;
  cq_inputs : DiagnosticInputs;
  cq_recurrence : RecurrenceEvidence;
  cq_external_evidence : option ExternalEvidenceReferenceV1;
  cq_decision_external_evidence : option DecisionRelativeEvidenceReferenceV1;
  cq_temporal_policy : option TemporalPolicyRequestV1;
  cq_proposal : option PrecompiledWorkflowProposalV2;
  cq_authoring_context : option MaudeAuthoringContextHandoffV1
}.

Inductive CycleRunOutcomeV1 :=
| Outcome_Missed (cycle : ObservationCycleV1)
| Outcome_PostureOnly (cycle : ObservationCycleV1)
| Outcome_AgOccurrenceOpened (cycle : ObservationCycleV1).

Definition CYCLE_REQUEST_SCHEMA_V1 : string := "nightshift.canonical_cycle_request.v1".
Definition PRECOMPILED_PROPOSAL_SCHEMA_V2 : string :=
  "nightshift.precompiled_workflow_proposal.v2".
Definition AG_EXECUTOR_PLAN_IDENTITY_DOMAIN_V1 : string := "ag-effectd.docket-executor-plan/v1".
Definition OBSERVATION_RECORD_SCHEMA : string := OBSERVATION_RECORD_SCHEMA_V2.

(** The read-only port to the authority that owns present support. *)
Class PresentEvidencePortV1 (P : Type) : Type := {
  port_resolve : PresentEvidenceQueryV1 -> P -> result string QualifiedSupportV1 * P
}.

(** The serializers of the runtime's own documents. *)
Class RuntimeDocuments : Type := {
  rn_open :: Serde AgOpenOccurrenceRequestV1;
  rn_query :: Serde PresentEvidenceQueryV1;
  rn_cycle_request :: Serde CanonicalCycleRequestV1
}.

(** The UUIDs a run draws: of the cycle, of its lease and of the support query. *)
Record RunDraws := {
  rw_cycle : uuid;
  rw_lease : uuid;
  rw_query : uuid
}.

(** ** The monad of a run *)

(** What a run changes: the store and the two ports. *)
Record RunState (P A : Type) := {
  rt_store : Tables;
  rt_present : P;
  rt_ag : A
}.
Arguments rt_store {P A} _.
Arguments rt_present {P A} _.
Arguments rt_ag {P A} _.

Section monad.
Context {P A : Type}.

Definition Run (X : Type) : Type :=
  RunState P A -> result CanonicalRuntimeError X * RunState P A.

Definition run_ret {X} (x : X) : Run X := fun s => (Ok x, s).
Definition run_bind {X Y} (m : Run X) (k : X -> Run Y) : Run Y := fun s =>
  match m s with
  | (Ok x, s) => k x s
  | (Err e, s) => (Err e, s)
  end.
(** A computation that touches no state. *)
Definition pure {X} (m : result CanonicalRuntimeError X) : Run X := fun s => (m, s).

(** A read of the store, and a transaction: one that fails leaves the tables alone. *)
Definition read_store {X} (f : Tables -> result CanonicalStoreError X) : Run X := fun s =>
  (map_err Runtime_Store (f (rt_store s)), s).
Definition on_store {X} (f : Tables -> result CanonicalStoreError (X * Tables)) : Run X :=
  fun s =>
  match f (rt_store s) with
  | Ok (x, t) => (Ok x, {| rt_store := t; rt_present := rt_present s; rt_ag := rt_ag s |})
  | Err e => (Err (Runtime_Store e), s)
  end.
(** [let _ = store.f(..)]. *)
Definition attempted {X} (f : Tables -> result CanonicalStoreError (X * Tables)) : Run unit :=
  fun s => (Ok tt, (on_store f s).2).

Definition on_present {X} (f : P -> result string X * P) : Run (result string X) := fun s =>
  let '(answered, p) := f (rt_present s) in
  (Ok answered, {| rt_store := rt_store s; rt_present := p; rt_ag := rt_ag s |}).
Definition on_ag {X} (f : A -> result string X * A) : Run (result string X) := fun s =>
  let '(answered, a) := f (rt_ag s) in
  (Ok answered, {| rt_store := rt_store s; rt_present := rt_present s; rt_ag := a |}).
End monad.
Arguments Run : clear implicits.

Notation "'let!' x ':=' m 'in' k" := (run_bind m (fun x => k))
  (at level 10, x binder, m at level 100, k at level 200,
   format "'let!'  x  ':='  m  'in' '//' k") : result_scope.
Notation "m ';!' k" := (run_bind m (fun _ => k))
  (at level 100, right associativity, format "m  ';!' '//' k") : result_scope.

(** ** Proposals *)

Section runtime.
Context {PD : PostureDocuments} {ND : CanonicalDocuments} {RD : RuntimeDocuments}.

Definition runtime_invalid {X} (m : result string X) : result CanonicalRuntimeError X :=
  map_err Runtime_Invalid m.
Definition external_refused {X} (m : result string X) : result CanonicalRuntimeError X :=
  map_err Runtime_ExternalEvidence m.
Definition runtime_store {X} (m : result CanonicalStoreError X)
    : result CanonicalRuntimeError X := map_err Runtime_Store m.

Definition executor_plan_domains : list string :=
  [AG_EXECUTOR_PLAN_IDENTITY_DOMAIN_V1; "ag-effectd.docket-executor-plan/v2";
   "ag-effectd.docket-executor-systemd-plan/v2"].

Definition ag_executor_plan_identity (plan : value) : result string string :=
  reject (negb (is_object plan)) "AG executor plan must be an exact typed object" ;?
  let? domain := ok_or
    (s ← value_get plan "schema" ≫= as_str;
     if bool_decide (s ∈ executor_plan_domains) then Some s else None)
    "missing or unknown AG executor plan schema" in
  let? canonical := jcs_value plan in
  Ok (ag_hash_domain domain canonical).

(** [proposal_input.proposal] as an object. *)
Definition proposal_object (p : PrecompiledWorkflowProposalV2)
    : result string (list (string * value)) :=
  match value_get (pw_proposal_input p) "proposal" with
  | Some (Object proposal) => Ok proposal
  | _ => Err "proposal_input must contain one exact proposal object"
  end.

Definition proposal_validate (p : PrecompiledWorkflowProposalV2) : result string unit :=
  reject (negb (String.eqb (pw_schema p) PRECOMPILED_PROPOSAL_SCHEMA_V2))
    "unsupported precompiled workflow proposal schema" ;?
  external_token "workflow_id" (pw_workflow_id p) ;?
  external_token "intent_kind" (pw_intent_kind p) ;?
  external_digest "subject_digest" (pw_subject_digest p) ;?
  external_digest "campaign_id" (pw_campaign_id p) ;?
  reject (negb (is_uuid (pw_occurrence_id p)))
    "occurrence_id must be an independently allocated UUID" ;?
  reject (negb (is_object (pw_immutable_parameters p)))
    "immutable_parameters must be an exact typed object" ;?
  reject (negb (is_object (pw_proposal_input p)))
    "proposal_input must be an exact typed object" ;?
  let? expected_ag_work := ag_executor_plan_identity (pw_ag_executor_plan p) in
  let? proposal := proposal_object p in
  let? work := ok_or (assoc_get "work" proposal ≫= as_str)
    "exact proposal work must be a digest" in
  reject (negb (String.eqb work expected_ag_work))
    "exact proposal work does not bind the sealed AG executor plan".

(** The typed intent before it is sealed. *)
Definition intent_for (p : PrecompiledWorkflowProposalV2) (o : ObservationRecordV1)
    (compiled_work expected_ag_work : string) : TypedCoarseIntentV2 :=
  let subject := pp_subject (op_policy (obs_posture o)) in
  {| tc_schema := ""; tc_intent_id := ""; tc_workflow_id := pw_workflow_id p;
     tc_intent_kind := pw_intent_kind p; tc_subject_id := su_id subject;
     tc_subject_digest := pw_subject_digest p; tc_scope_id := si_digest (su_scope subject);
     tc_source_observation_id := obs_observation_id o;
     tc_source_support_id := Currentness.qs_support_id (obs_support o);
     tc_source_posture_id := op_posture_id (obs_posture o);
     tc_immutable_parameters := pw_immutable_parameters p; tc_compiled_work := compiled_work;
     tc_expected_ag_work := expected_ag_work |}.

Definition request_for (p : PrecompiledWorkflowProposalV2) (o : ObservationRecordV1)
    (i : TypedCoarseIntentV2) : AgOpenOccurrenceRequestV1 :=
  {| ao_schema := AG_OPEN_REQUEST_SCHEMA_V1; ao_request_id := "";
     ao_campaign_id := pw_campaign_id p; ao_occurrence_id := pw_occurrence_id p;
     ao_subject_digest := pw_subject_digest p;
     ao_scope_digest := si_digest (su_scope (pp_subject (op_policy (obs_posture o))));
     ao_source_observation_id := obs_observation_id o;
     ao_source_support_id := Currentness.qs_support_id (obs_support o);
     ao_source_posture_id := op_posture_id (obs_posture o);
     ao_source_intent_id := tc_intent_id i; ao_mode := pw_mode p;
     ao_proposal_input := pw_proposal_input p |}.

Definition compile (p : PrecompiledWorkflowProposalV2) (o : ObservationRecordV1)
    : result string (TypedCoarseIntentV2 * AgOpenOccurrenceRequestV1) :=
  proposal_validate p ;?
  let? work_schema := ok_or
    ((value_get (pw_proposal_input p) "proposal" ≫= (fun v => value_get v "work_schema"))
       ≫= as_str) "exact proposal work_schema must be a string" in
  let? compiled_work := ag_digest_value
    (Object [("parameters", pw_immutable_parameters p); ("schema", Str work_schema)]) in
  let? expected_ag_work := ag_executor_plan_identity (pw_ag_executor_plan p) in
  let? intent := displayed (intent_seal (intent_for p o compiled_work expected_ag_work)) in
  let? request := open_seal (request_for p o intent) in
  open_validate_for request o intent ;?
  Ok (intent, request).

(** ** Cycle requests *)

(** The value of a request without the fields named. *)
Definition request_preimage (q : CanonicalCycleRequestV1) (fields : list string)
    : result string value :=
  let? v := to_value q in
  match v with
  | Object kvs => Ok (Object (fold_left (fun kvs field => object_remove field kvs) fields kvs))
  | _ => Err "cycle request is not an object"
  end.

Definition cycle_request_identity (q : CanonicalCycleRequestV1) : result string string :=
  let? v := request_preimage q ["request_id"] in
  ag_digest_value v.

(** Identity of the request before custody material is attached. *)
Definition authoring_custody_target_request_id (q : CanonicalCycleRequestV1)
    : result string string :=
  let? v := request_preimage q ["request_id"; "authoring_context"] in
  ag_digest_value v.

Definition is_continuation (p : PrecompiledWorkflowProposalV2) : bool :=
  match pw_mode p with Mode_Continuation _ => true | Mode_Genesis _ => false end.

Definition check_legacy_evidence (q : CanonicalCycleRequestV1) : result string unit :=
  match cq_external_evidence q with
  | None => Ok tt
  | Some reference =>
      reference_validate reference ;?
      let? proposal := ok_or (cq_proposal q)
        "external application evidence requires an exact successor proposal" in
      reject (negb (is_continuation proposal))
        "external application evidence v1 applies only to a successor occurrence"
  end.

Definition check_decision_evidence (q : CanonicalCycleRequestV1) : result string unit :=
  match cq_decision_external_evidence q with
  | None => Ok tt
  | Some reference =>
      decision_reference_validate reference ;?
      reject (is_some (cq_external_evidence q))
        "cycle request cannot combine legacy and decision-relative evidence" ;?
      let? proposal := ok_or (cq_proposal q)
        "decision-relative evidence requires an exact successor proposal" in
      reject (negb (is_continuation proposal))
        "decision-relative evidence applies only to a successor occurrence"
  end.

Definition slot_binds_request (q : CanonicalCycleRequestV1) : bool :=
  let slot := cq_slot q in
  String.eqb (sl_scheduler_clock_id slot) (cq_scheduler_clock_id q)
  && String.eqb (sl_subject_id slot) (su_id (pp_subject (cq_policy q)))
  && String.eqb (sl_scope_id slot) (si_digest (su_scope (pp_subject (cq_policy q))))
  && String.eqb (sl_policy_id slot) (pp_policy_id (cq_policy q)).

Definition check_authoring_context (q : CanonicalCycleRequestV1) : result string unit :=
  match cq_authoring_context q with
  | None => Ok tt
  | Some handoff =>
      maude_validate_untrusted handoff ;?
      reject (is_none (cq_proposal q))
        "Maude authoring context cannot exist without an exact governed proposal" ;?
      let? target := authoring_custody_target_request_id q in
      reject (negb (String.eqb (mh_target_request_id handoff) target))
        "Maude authoring-context handoff targets a different cycle request"
  end.

Definition cycle_request_validate (q : CanonicalCycleRequestV1) : result string unit :=
  reject (negb (String.eqb (cq_schema q) CYCLE_REQUEST_SCHEMA_V1))
    "unsupported canonical cycle request schema" ;?
  external_digest "request_id" (cq_request_id q) ;?
  external_digest "observation_id" (cq_observation_id q) ;?
  external_token "scheduler_clock_id" (cq_scheduler_clock_id q) ;?
  displayed (slot_validate (cq_slot q)) ;?
  policy_validate (cq_policy q) ;?
  inputs_validate (cq_inputs q) ;?
  recurrence_validate (cq_recurrence q) ;?
  check_legacy_evidence q ;?
  check_decision_evidence q ;?
  reject (negb (slot_binds_request q))
    "cycle slot does not exactly bind scheduler/policy/subject/scope" ;?
  match cq_proposal q with Some p => proposal_validate p | None => Ok tt end ;?
  check_authoring_context q ;?
  let? identity := cycle_request_identity q in
  reject (negb (String.eqb (cq_request_id q) identity))
    "request_id does not match exact cycle preimage".

Definition with_cycle_identity (identity observation_id : string)
    (proposal : option PrecompiledWorkflowProposalV2) (q : CanonicalCycleRequestV1)
    : CanonicalCycleRequestV1 :=
  {| cq_schema := CYCLE_REQUEST_SCHEMA_V1; cq_request_id := identity; cq_slot := cq_slot q;
     cq_scheduler_clock_id := cq_scheduler_clock_id q; cq_evaluated_at := cq_evaluated_at q;
     cq_observation_id := observation_id; cq_policy := cq_policy q;
     cq_inputs := cq_inputs q; cq_recurrence := cq_recurrence q;
     cq_external_evidence := cq_external_evidence q;
     cq_decision_external_evidence := cq_decision_external_evidence q;
     cq_temporal_policy := cq_temporal_policy q; cq_proposal := proposal;
     cq_authoring_context := cq_authoring_context q |}.

Definition cycle_request_seal (q : CanonicalCycleRequestV1)
    : result string CanonicalCycleRequestV1 :=
  let build identity := with_cycle_identity identity (cq_observation_id q) (cq_proposal q) q in
  let? identity := cycle_request_identity (build "") in
  cycle_request_validate (build identity) ;?
  Ok (build identity).

(** *** Binding external evidence to a request *)

Definition with_proposal_input (input : value) (p : PrecompiledWorkflowProposalV2)
    : PrecompiledWorkflowProposalV2 :=
  {| pw_schema := pw_schema p; pw_workflow_id := pw_workflow_id p;
     pw_intent_kind := pw_intent_kind p; pw_subject_digest := pw_subject_digest p;
     pw_immutable_parameters := pw_immutable_parameters p;
     pw_ag_executor_plan := pw_ag_executor_plan p; pw_campaign_id := pw_campaign_id p;
     pw_occurrence_id := pw_occurrence_id p; pw_mode := pw_mode p;
     pw_proposal_input := input |}.

(** The observation identity of a composition, in the request and in its proposal. *)
Definition bind_observation (observation_id : string) (proposal : PrecompiledWorkflowProposalV2)
    (q : CanonicalCycleRequestV1) : result CanonicalRuntimeError CanonicalCycleRequestV1 :=
  match pw_proposal_input proposal with
  | Object kvs =>
      let proposal := with_proposal_input
        (Object (map_insert "observation" (Str observation_id) kvs)) proposal in
      runtime_invalid (cycle_request_seal
        (with_cycle_identity (cq_request_id q) observation_id (Some proposal) q))
  | _ => Err (Runtime_Invalid "successor proposal input is not an exact object")
  end.

Definition require_qualification_target_artifact (p : PrecompiledWorkflowProposalV2)
    (plan_document_digest : string) : result CanonicalRuntimeError unit :=
  let? target := ok_or (value_get (pw_immutable_parameters p) "plan_document" ≫= as_str)
    (Runtime_ExternalEvidence
       "decision-relative work lacks an exact target PlanDocument digest") in
  external_refused (external_digest "target plan_document" target) ;?
  reject (negb (String.eqb target plan_document_digest))
    (Runtime_ExternalEvidence
       "historical qualification does not apply to the target PlanDocument").

Definition require_decision_evidence_target_artifact (p : PrecompiledWorkflowProposalV2)
    (c : ComposedDecisionRelativeEvidenceV1) : result CanonicalRuntimeError unit :=
  require_qualification_target_artifact p (aq_plan_document_digest (cdr_qualification c)).

(** The source a reference names, composed for the successor the request proposes. *)
Definition compose_for (q : CanonicalCycleRequestV1) (reference : ExternalEvidenceReferenceV1)
    (profile : ExternalEvidenceProfileV1) (proposal : PrecompiledWorkflowProposalV2)
    (source : LocalComposeWorldObservationV1 * ExternalObservationCustodyProvenanceV1)
    : result CanonicalRuntimeError ComposedExternalEvidenceV1 :=
  external_refused (ExternalComposition.compose reference profile source.1 source.2
    (cq_evaluated_at q) (pw_campaign_id proposal) (pw_occurrence_id proposal)
    (su_id (pp_subject (cq_policy q))) (pw_subject_digest proposal)
    (si_digest (su_scope (pp_subject (cq_policy q))))).

Definition compose_decision_for (q : CanonicalCycleRequestV1)
    (reference : DecisionRelativeEvidenceReferenceV1) (profile : SteadyStateEvidenceProfileV1)
    (proposal : PrecompiledWorkflowProposalV2)
    (source : LocalComposeWorldObservationV1 * ExternalObservationCustodyProvenanceV1)
    (steady : LocalComposeSteadyStateObservationV1 * SteadyStateObservationCustodyV1)
    : result CanonicalRuntimeError ComposedDecisionRelativeEvidenceV1 :=
  external_refused (compose_decision reference profile source.1 source.2 steady.1 steady.2
    (cq_evaluated_at q) (pw_campaign_id proposal) (pw_occurrence_id proposal)
    (su_id (pp_subject (cq_policy q))) (pw_subject_digest proposal)
    (si_digest (su_scope (pp_subject (cq_policy q))))).

Definition prepare_external_evidence_cycle_request (q : CanonicalCycleRequestV1)
    (profile : ExternalEvidenceProfileV1) (t : Tables)
    : result CanonicalRuntimeError CanonicalCycleRequestV1 :=
  reject (is_some (cq_authoring_context q))
    (Runtime_ExternalEvidence
       "prepare external evidence before attaching authoring custody") ;?
  external_refused (evidence_profile_validate profile) ;?
  let? reference := ok_or (cq_external_evidence q)
    (Runtime_ExternalEvidence "cycle request lacks an external-evidence reference") in
  let? proposal := ok_or (cq_proposal q)
    (Runtime_ExternalEvidence "external evidence requires an exact successor proposal") in
  runtime_invalid (policy_validate (cq_policy q)) ;?
  runtime_invalid (proposal_validate proposal) ;?
  let? found := runtime_store
    (external_observation_for_composition (er_source_observation_id reference) t) in
  let? source := ok_or found
    (Runtime_ExternalEvidence "referenced authenticated application evidence is absent") in
  let? composition := compose_for q reference profile proposal source in
  let? observation_id := external_refused (composed_canonical_observation_id composition) in
  bind_observation observation_id proposal q.

Definition prepare_decision_evidence_cycle_request (q : CanonicalCycleRequestV1)
    (profile : SteadyStateEvidenceProfileV1) (t : Tables)
    : result CanonicalRuntimeError CanonicalCycleRequestV1 :=
  reject (is_some (cq_authoring_context q))
    (Runtime_ExternalEvidence
       "prepare decision evidence before attaching authoring custody") ;?
  external_refused (steady_profile_validate profile) ;?
  let? reference := ok_or (cq_decision_external_evidence q)
    (Runtime_ExternalEvidence "cycle request lacks a decision-relative evidence reference") in
  let? proposal := ok_or (cq_proposal q)
    (Runtime_ExternalEvidence
       "decision-relative evidence requires an exact successor proposal") in
  let? found := runtime_store
    (external_observation_for_composition (dr_qualification_observation_id reference) t) in
  let? source := ok_or found
    (Runtime_ExternalEvidence "referenced historical qualification is absent") in
  require_qualification_target_artifact proposal (wo_plan_document_digest source.1) ;?
  let? found := runtime_store
    (steady_state_observation_for_composition (dr_steady_state_observation_id reference) t) in
  let? steady := ok_or found
    (Runtime_ExternalEvidence "referenced passive steady-state evidence is absent") in
  let? composition := compose_decision_for q reference profile proposal source steady in
  require_decision_evidence_target_artifact proposal composition ;?
  let? observation_id := external_refused (decision_canonical_observation_id composition) in
  bind_observation observation_id proposal q.

(** ** A run *)

Section run.
Context {P A : Type} {PP : PresentEvidencePortV1 P} {PA : AgOccurrencePortV1 A}.

(** The deployment-owned profiles of the runtime. *)
Record RuntimeProfiles := {
  rp_external : option ExternalEvidenceProfileV1;
  rp_decision : option SteadyStateEvidenceProfileV1
}.

(** The cycles that precede the slot of the request in its family and reached AG. *)
Definition is_predecessor (q : CanonicalCycleRequestV1) (c : ObservationCycleV1) : bool :=
  bool_decide (family_of_slot (cy_slot c) = family_of_slot (cq_slot q))
  && order_ltb (order_of_slot (cy_slot c)) (order_of_slot (cq_slot q))
  && is_some (cy_observation c) && is_some (cy_ag c).

(** [max_by_key]: of equal keys the last. *)
Definition latest_by_order (cs : list ObservationCycleV1) : option ObservationCycleV1 :=
  fold_left (fun latest c =>
    match latest with
    | None => Some c
    | Some b => if order_ltb (order_of_slot (cy_slot c)) (order_of_slot (cy_slot b))
                then Some b else Some c
    end) cs None.

(** The AG occurrence of the latest predecessor. *)
Definition predecessor_ag (q : CanonicalCycleRequestV1) (absent ungoverned : string)
    (t : Tables) : result CanonicalRuntimeError AgOccurrenceReferenceV1 :=
  let? values := runtime_store (list_cycles t) in
  let? latest := ok_or (latest_by_order (List.filter (is_predecessor q) values))
    (Runtime_ExternalEvidence absent) in
  ok_or (cy_ag latest) (Runtime_ExternalEvidence ungoverned).

(** Every durable use of the source names the same target. *)
Definition check_unused (c : ComposedExternalEvidenceV1)
    (existing : list ComposedExternalEvidenceV1) : result CanonicalRuntimeError unit :=
  for_each (fun e =>
    reject (negb (String.eqb (cx_target_campaign_id e) (cx_target_campaign_id c))
            || negb (String.eqb (cx_target_occurrence_id e) (cx_target_occurrence_id c)))
      (Runtime_ExternalEvidence
         "historical application evidence is already composed for another exact target"))
    existing.

Definition settled (ag : AgOccurrenceReferenceV1) (o : LocalComposeWorldObservationV1) : bool :=
  bool_decide (ar_program_counter ag = Pc_SettledObservationRequired)
  && bool_decide (ar_docket_attempt_id ag = Some (wo_attempt_id o))
  && bool_decide (ar_settlement_id ag = Some (wo_settlement_id o)).

Definition names_occurrence (ag : AgOccurrenceReferenceV1)
    (o : LocalComposeWorldObservationV1) : bool :=
  String.eqb (ar_campaign_id ag) (wo_campaign_id o)
  && String.eqb (ar_occurrence_id ag) (wo_occurrence_id o).

(** What the store says of the evidence a request refers to, before AG is asked. *)
Definition check_external_evidence (q : CanonicalCycleRequestV1)
    (reference : ExternalEvidenceReferenceV1) (profiles : RuntimeProfiles) (t : Tables)
    : result CanonicalRuntimeError
        (ComposedExternalEvidenceV1 * LocalComposeWorldObservationV1) :=
  let? profile := ok_or (rp_external profiles) (Runtime_ExternalEvidence
    "cycle references external evidence but ingress has no configured profile") in
  reject (negb (String.eqb (er_profile_id reference) (ep_profile_id profile)))
    (Runtime_ExternalEvidence "cycle selected a different external-evidence profile") ;?
  let? found := runtime_store
    (external_observation_for_composition (er_source_observation_id reference) t) in
  let? source := ok_or found
    (Runtime_ExternalEvidence "referenced authenticated application evidence is absent") in
  let? proposal := ok_or (cq_proposal q)
    (Runtime_ExternalEvidence "external evidence requires an exact successor proposal") in
  reject (negb (is_continuation proposal))
    (Runtime_ExternalEvidence "external evidence v1 cannot create a genesis occurrence") ;?
  let? composition := compose_for q reference profile proposal source in
  let? predecessor := predecessor_ag q
    "external evidence has no exact prior Nightshift observation in this lineage"
    "latest prior Nightshift observation has no governed occurrence relation" t in
  reject (negb (names_occurrence predecessor source.1)) (Runtime_ExternalEvidence
    "external evidence does not bind the latest exact governed predecessor") ;?
  let? identity := external_refused (composed_canonical_observation_id composition) in
  reject (negb (String.eqb (cq_observation_id q) identity)) (Runtime_ExternalEvidence
    "cycle observation identity does not bind the exact external-evidence composition") ;?
  let? existing := runtime_store
    (external_compositions_for_source (wo_observation_id source.1) t) in
  check_unused composition existing ;?
  Ok (composition, source.1).

Definition compose_external_evidence (q : CanonicalCycleRequestV1) (profiles : RuntimeProfiles)
    : Run P A (option ComposedExternalEvidenceV1) :=
  match cq_external_evidence q with
  | None => run_ret None
  | Some reference => fun s =>
      (let! '(composition, source) :=
         pure (check_external_evidence q reference profiles (rt_store s)) in
       let! answered := on_ag (port_status (wo_campaign_id source) (wo_occurrence_id source)) in
       let! ag := pure (map_err Runtime_Ag answered) in
       pure (reject (negb (names_occurrence ag source) || negb (settled ag source))
               (Runtime_ExternalEvidence
                  "external evidence source is not the exact settled predecessor state")) ;!
       run_ret (Some composition)) s
  end.

Definition check_decision_relative (q : CanonicalCycleRequestV1)
    (reference : DecisionRelativeEvidenceReferenceV1) (profiles : RuntimeProfiles) (t : Tables)
    : result CanonicalRuntimeError
        (ComposedDecisionRelativeEvidenceV1 * LocalComposeWorldObservationV1) :=
  let? profile := ok_or (rp_decision profiles) (Runtime_ExternalEvidence
    "cycle references decision evidence but ingress has no configured profile") in
  reject (negb (String.eqb (dr_profile_id reference) (sf_profile_id profile)))
    (Runtime_ExternalEvidence "cycle selected a different decision-evidence profile") ;?
  let? found := runtime_store
    (external_observation_for_composition (dr_qualification_observation_id reference) t) in
  let? source := ok_or found
    (Runtime_ExternalEvidence "referenced historical qualification is absent") in
  let? proposal := ok_or (cq_proposal q)
    (Runtime_ExternalEvidence "decision evidence requires an exact successor proposal") in
  require_qualification_target_artifact proposal (wo_plan_document_digest source.1) ;?
  let? found := runtime_store
    (steady_state_observation_for_composition (dr_steady_state_observation_id reference) t) in
  let? steady := ok_or found
    (Runtime_ExternalEvidence "referenced passive steady-state evidence is absent") in
  let? composition := compose_decision_for q reference profile proposal source steady in
  require_decision_evidence_target_artifact proposal composition ;?
  let? predecessor := predecessor_ag q
    "decision evidence has no exact governed predecessor"
    "latest prior observation has no governed occurrence relation" t in
  reject (negb (names_occurrence predecessor source.1)) (Runtime_ExternalEvidence
    "qualification does not bind the latest exact governed predecessor") ;?
  let? identity := external_refused (decision_canonical_observation_id composition) in
  reject (negb (String.eqb (cq_observation_id q) identity)) (Runtime_ExternalEvidence
    "cycle observation identity does not bind decision-relative composition") ;?
  Ok (composition, source.1).

Definition compose_decision_external_evidence (q : CanonicalCycleRequestV1)
    (profiles : RuntimeProfiles) : Run P A (option ComposedDecisionRelativeEvidenceV1) :=
  match cq_decision_external_evidence q with
  | None => run_ret None
  | Some reference => fun s =>
      (let! '(composition, source) :=
         pure (check_decision_relative q reference profiles (rt_store s)) in
       let! answered := on_ag (port_status (wo_campaign_id source) (wo_occurrence_id source)) in
       let! ag := pure (map_err Runtime_Ag answered) in
       pure (reject (negb (settled ag source)) (Runtime_ExternalEvidence
               "historical qualification source is not the exact settled predecessor")) ;!
       run_ret (Some composition)) s
  end.

(** Custody was authenticated exactly when the request presents a handoff. *)
Definition check_ingress (q : CanonicalCycleRequestV1)
    (verified : option VerifiedMaudeHandoffV1) : result CanonicalRuntimeError unit :=
  match cq_authoring_context q, verified with
  | Some _, None => Err (Runtime_Invalid
      "Maude authoring context requires authenticated custody ingress")
  | None, Some _ => Err (Runtime_Invalid
      "verified Maude custody has no authoring-context handoff")
  | _, _ => Ok tt
  end.

Definition origin_history_for (subject_ref : string) (t : Tables)
    : result CanonicalStoreError (gmap string SubstrateOriginApplicabilityV1) :=
  let? head := substrate_origin_head subject_ref t in
  Ok (match head with Some h => {[subject_ref := h]} | None => ∅ end).

Definition support_query (q : CanonicalCycleRequestV1) (claimed : ObservationCycleV1)
    (nonce : uuid) : PresentEvidenceQueryV1 :=
  {| Currentness.qy_schema := ""; Currentness.qy_query_id := "";
     Currentness.qy_observation_cycle_id := cy_cycle_id claimed;
     Currentness.qy_request_nonce := "support-query:" +:+ nonce;
     Currentness.qy_observation_id := cq_observation_id q;
     Currentness.qy_diagnostic_inputs_id := is_inputs_id (cq_inputs q);
     Currentness.qy_subject_id := su_id (pp_subject (cq_policy q));
     Currentness.qy_scope_id := si_digest (su_scope (pp_subject (cq_policy q)));
     Currentness.qy_artifact_ids := delivered_artifact_ids (cq_inputs q) |}.

(** [Err(error) => { let _ = store.mark_recovery_required(..); return Err(..) }]. *)
Definition or_recover {X} (c : ObservationCycleV1) (reason : string) (now : instant)
    (wrap : string -> CanonicalRuntimeError) (m : result string X) : Run P A X :=
  match m with
  | Ok x => run_ret x
  | Err e =>
      attempted (mark_recovery_required (cy_cycle_id c) (cy_state_digest c) reason now) ;!
      pure (Err (wrap e))
  end.

Definition observation_schema (qualified : QualifiedNqAdmissionsV1)
    (external : option ComposedExternalEvidenceV1)
    (decision : option ComposedDecisionRelativeEvidenceV1) : string :=
  if negb (is_empty (qa_substrate_origins qualified)) then OBSERVATION_RECORD_SCHEMA_V6
  else if negb (is_empty (qa_continuity qualified)) then OBSERVATION_RECORD_SCHEMA_V5
  else if is_some decision then OBSERVATION_RECORD_SCHEMA_V4
  else if is_some external then OBSERVATION_RECORD_SCHEMA_V3
  else OBSERVATION_RECORD_SCHEMA.

Definition observation_of (q : CanonicalCycleRequestV1) (qualified : QualifiedNqAdmissionsV1)
    (external : option ComposedExternalEvidenceV1)
    (decision : option ComposedDecisionRelativeEvidenceV1) (support : QualifiedSupportV1)
    (posture : OperationalPosture) : ObservationRecordV1 :=
  {| obs_schema := observation_schema qualified external decision;
     obs_observation_id := cq_observation_id q;
     obs_source_admissions := qa_provenance qualified;
     obs_continuity_applicability := qa_continuity qualified;
     obs_substrate_origin_applicability := qa_substrate_origins qualified;
     obs_external_evidence := external; obs_decision_external_evidence := decision;
     obs_support := support; obs_posture := posture |}.

(** [{:?}] of a headline. *)
Definition headline_debug (h : Headline) : string :=
  match h with
  | Headline_Clean => "Clean"
  | Headline_ConditionPresent => "ConditionPresent"
  | Headline_Incomplete => "Incomplete"
  end.

Definition decides (d : TemporalDecisionV1) (temporal : option TemporalPostureV1) : bool :=
  match temporal with Some p => bool_decide (tp_decision p = d) | None => false end.

Definition attention_class (o : ObservationRecordV1) (temporal : option TemporalPostureV1)
    : AttentionClassV1 * string :=
  let standing := qs_standing (obs_support o) in
  if bool_decide (standing = Support_Contradictory) || bool_decide (standing = Support_Blind)
  then (Attention_EscalationRequested, "support_not_decidable")
  else if negb (bool_decide (standing = Support_Current))
  then (Attention_AttentionRequired, "support_not_current")
  else if decides Decision_Attention temporal
  then (Attention_AttentionRequired, "temporal_hold_expired")
  else if bool_decide (op_condition (obs_posture o) = ConditionAxis_ConditionPresent)
  then (Attention_AttentionRequired, "condition_present")
  else (Attention_Display, "posture_observed").

Definition attention_for (o : ObservationRecordV1) (temporal : option TemporalPostureV1)
    : AttentionRecordV1 :=
  {| an_class := (attention_class o temporal).1;
     an_source_posture_id := op_posture_id (obs_posture o);
     an_reason_code := (attention_class o temporal).2;
     an_display_text := Some (headline_debug (op_headline (obs_posture o))) |}.

(** [temporal_policy.map(evaluate).transpose()]. *)
Definition temporal_of (q : CanonicalCycleRequestV1)
    : result CanonicalStoreError (option TemporalPostureV1) :=
  match cq_temporal_policy q with
  | None => Ok None
  | Some policy =>
      let? p := temporal_evaluate (tq_policy_id policy) (tq_basis_digest policy)
                  (tq_hold_expiry policy) (cq_scheduler_clock_id q) (cq_evaluated_at q) in
      Ok (Some p)
  end.

(** The lineage and its custody, minted from the verified handoff. *)
Definition authoring_of (verified : option VerifiedMaudeHandoffV1)
    (r : AgOpenOccurrenceRequestV1) (i : TypedCoarseIntentV2) (now : instant)
    : result string PreparedAuthoringEvidenceV1 :=
  match verified with
  | None => Ok {| pa_lineage := None; pa_custody := None |}
  | Some v =>
      let? proposal_id := ag_proposal_identity (ao_proposal_input r) in
      let? work_id := exact_work_identity (ao_proposal_input r) in
      let? provenance := provenance_mint (mh_authoring_context (vm_handoff v))
        (ao_campaign_id r) (ao_occurrence_id r) proposal_id work_id (tc_intent_id i) now in
      let? custody := authoring_custody_mint v provenance now in
      Ok {| pa_lineage := Some provenance; pa_custody := Some custody |}
  end.

(** A posture that may originate nothing. *)
Definition closes_without_proposal (o : ObservationRecordV1)
    (temporal : option TemporalPostureV1) : bool :=
  decides Decision_Hold temporal || negb (op_current (obs_posture o))
  || negb (bool_decide (qs_standing (obs_support o) = Support_Current)).

(** The part of a run after the observation is recorded. *)
Definition close_run (lease : LiveCycleLeaseV1) (recorded : ObservationCycleV1)
    (now : instant) : Run P A CycleRunOutcomeV1 :=
  let! c := on_store (close_without_proposal lease (cy_state_digest recorded) now) in
  run_ret (Outcome_PostureOnly c).

Definition open_run (lease : LiveCycleLeaseV1) (recorded : ObservationCycleV1)
    (o : ObservationRecordV1) (proposal : PrecompiledWorkflowProposalV2)
    (verified : option VerifiedMaudeHandoffV1) (now : instant) : Run P A CycleRunOutcomeV1 :=
  let! '(intent, request) := pure (runtime_invalid (compile proposal o)) in
  let! authoring := pure (runtime_invalid (authoring_of verified request intent now)) in
  let! prepared := pure (runtime_store (open_prepared request)) in
  let! pending := on_store (prepare_ag_occurrence lease (cy_state_digest recorded) intent
                              prepared authoring now) in
  let! answered := on_ag (open_occurrence request) in
  let! ag := or_recover pending "ag_status_required_no_resubmit" now Runtime_Ag answered in
  let! c := on_store (attach_ag_occurrence lease (cy_state_digest pending) ag now) in
  run_ret (Outcome_AgOccurrenceOpened c).

Definition propose (q : CanonicalCycleRequestV1) (lease : LiveCycleLeaseV1)
    (recorded : ObservationCycleV1) (o : ObservationRecordV1)
    (temporal : option TemporalPostureV1) (verified : option VerifiedMaudeHandoffV1)
    : Run P A CycleRunOutcomeV1 :=
  match cq_proposal q with
  | None => close_run lease recorded (cq_evaluated_at q)
  | Some proposal =>
      if closes_without_proposal o temporal
      then close_run lease recorded (cq_evaluated_at q)
      else open_run lease recorded o proposal verified (cq_evaluated_at q)
  end.

(** The part between the claim of the slot and the recorded observation. *)
Definition observe_run (q : CanonicalCycleRequestV1) (claimed : ObservationCycleV1)
    (lease : LiveCycleLeaseV1) (qualified : QualifiedNqAdmissionsV1)
    (external : option ComposedExternalEvidenceV1)
    (decision : option ComposedDecisionRelativeEvidenceV1) (nonce : uuid)
    : Run P A (ObservationCycleV1 * ObservationRecordV1 * option TemporalPostureV1) :=
  let now := cq_evaluated_at q in
  let! query := pure (runtime_invalid (query_seal (support_query q claimed nonce))) in
  let! answered := on_present (port_resolve query) in
  let! support := or_recover claimed "present_evidence_unavailable" now
                    Runtime_PresentEvidence answered in
  let! posture := or_recover claimed "diagnostic_posture_refused" now Runtime_Diagnostic
    (evaluate_posture_with_support (cq_policy q) (cq_inputs q) (cq_recurrence q) now support) in
  let o := observation_of q qualified external decision support posture in
  let! temporal := pure (runtime_store (temporal_of q)) in
  let! recorded := on_store (record_observation lease (cy_state_digest claimed) o
                               (attention_for o temporal) temporal now) in
  run_ret (recorded, o, temporal).

Section admission.
Context {N : Type} {PN : NqAdmissionPortV1 N}.

Definition run_cycle_inner (nq : N) (profiles : RuntimeProfiles)
    (q : CanonicalCycleRequestV1) (verified : option VerifiedMaudeHandoffV1)
    (draws : RunDraws) : Run P A CycleRunOutcomeV1 :=
  let now := cq_evaluated_at q in
  let subject := su_id (pp_subject (cq_policy q)) in
  pure (runtime_invalid (cycle_request_validate q)) ;!
  pure (check_ingress q verified) ;!
  let! external := compose_external_evidence q profiles in
  let! decision := compose_decision_external_evidence q profiles in
  let! timing := pure (runtime_store (timing_at (cq_slot q) (cq_scheduler_clock_id q) now)) in
  if bool_decide (timing = Timing_Missed) then
    let! c := on_store (record_missed (cq_slot q) (cq_scheduler_clock_id q) now
                          "slot_passed_exact_latest_admissible_instant" (rw_cycle draws)) in
    run_ret (Outcome_Missed c)
  else
    let! history := read_store (origin_history_for subject) in
    let! qualified := pure (map_err Runtime_NqAdmission
      (qualify_delivered_inputs_with_origin_history nq (cq_inputs q) history)) in
    let! '(claimed, lease) := on_store (claim_slot (cq_slot q) (cq_scheduler_clock_id q) now
                                          (rw_cycle draws) (rw_lease draws)) in
    let! '(recorded, o, temporal) := observe_run q claimed lease qualified external decision
                                       (rw_query draws) in
    propose q lease recorded o temporal verified.

Definition run_cycle (nq : N) (profiles : RuntimeProfiles) (q : CanonicalCycleRequestV1)
    (draws : RunDraws) : Run P A CycleRunOutcomeV1 :=
  run_cycle_inner nq profiles q None draws.

(** Production ingress: the handoff is authenticated before anything else. *)
Definition run_cycle_with_authoring_custody (nq : N) (profiles : RuntimeProfiles)
    (q : CanonicalCycleRequestV1) (verifier : MaudeCustodyVerifierV1) (draws : RunDraws)
    : Run P A CycleRunOutcomeV1 :=
  let! expected := pure (runtime_invalid (authoring_custody_target_request_id q)) in
  let! handoff := pure (ok_or (cq_authoring_context q)
    (Runtime_Invalid "authenticated authoring-context ingress requires a handoff")) in
  let! verified := pure (runtime_invalid (custody_verify verifier handoff expected)) in
  run_cycle_inner nq profiles q (Some verified) draws.
End admission.

(** Read AG's status only; the stored request is never resubmitted. *)
Definition sync_ag (cycle_id : ObservationCycleId) (now : instant)
    : Run P A ObservationCycleV1 :=
  let! c := read_store (get_cycle cycle_id) in
  let! request := pure (ok_or (cy_prepared_ag_request c)
    (Runtime_Invalid "cycle has no prepared AG request")) in
  let! answered := on_ag (port_status (pq_campaign_id request) (pq_occurrence_id request)) in
  match answered with
  | Err e =>
      (if bool_decide (cy_status c = Cycle_RecoveryRequired) then run_ret tt
       else attempted (mark_recovery_required cycle_id (cy_state_digest c)
                         "ag_status_unavailable_no_resubmit" now)) ;!
      pure (Err (Runtime_Ag e))
  | Ok status =>
      if is_some (cy_ag c)
      then on_store (record_ag_status cycle_id (cy_state_digest c) status now)
      else on_store (recover_ag_occurrence cycle_id (cy_state_digest c) status now)
  end.
End run.
End runtime.
