(* ===== verification/RuntimeFacts.v ===== *)
(** * What a run of the canonical runtime does

    Every run, whatever it returns, is a sequence of canonical steps on the store; AG is
    asked to open only what the store has durably prepared, and never the same occurrence
    twice.  The AG port is an arbitrary one with a journal of the requests it was given. *)
From S2P Require Import Prelude Text External Signing Contract Continuity SubstrateOrigin.
From S2P Require Import NqAdmission ExternalObservation ExternalComposition SteadyState Authoring.
From S2P Require Import Diagnostic Posture CanonicalRecords CanonicalTables CanonicalStore.
From S2P Require Import CanonicalFacts CanonicalInvariant CanonicalSteps CanonicalProperties.
From S2P Require Import AgPort CanonicalRuntime.
From S2P Require Currentness.
From stdpp Require Import relations.
Local Open Scope string_scope.

(** ** The journal of the AG port *)

(** A port together with the requests it was asked to open, in order. *)
Definition Journalled (B : Type) : Type := B * list AgOpenOccurrenceRequestV1.

#[export] Instance journalled_port {B} {PB : AgOccurrencePortV1 B}
    : AgOccurrencePortV1 (Journalled B) := {|
  open_occurrence r a :=
    let '(answered, b) := open_occurrence r a.1 in (answered, (b, a.2 ++ [r])%list);
  port_status campaign_id occurrence_id a :=
    let '(answered, b) := port_status campaign_id occurrence_id a.1 in (answered, (b, a.2)) |}.

Definition ag_asked {P B} (s : RunState P (Journalled B)) : list AgOpenOccurrenceRequestV1 :=
  (rt_ag s).2.

Definition occurrence_key (r : AgOpenOccurrenceRequestV1) : string * string :=
  (ao_campaign_id r, ao_occurrence_id r).

Section facts.
Context {PD : PostureDocuments} {ND : CanonicalDocuments} {RD : RuntimeDocuments}.
Context {SC : SerdeOk ObservationCycleV1}.
Context {SA : SerdeOk AuthoringContextProvenanceV1}.
Context {SU : SerdeOk AuthoringContextCustodyProvenanceV1}.

(** The store has a cycle that prepared the request. *)
Definition prepared_in (t : Tables) (r : AgOpenOccurrenceRequestV1) : Prop :=
  exists id c q, get_cycle id t = Ok c /\ cy_prepared_ag_request c = Some q /\
  open_prepared r = Ok q.

(** A well-formed store that has prepared each request AG was asked to open, each
    occurrence at most once. *)
Record history (t : Tables) (asked : list AgOpenOccurrenceRequestV1) : Prop := {
  hi_wf : wf t;
  hi_prepared : Forall (prepared_in t) asked;
  hi_once : NoDup (occurrence_key <$> asked)
}.

Lemma prepared_in_steps t t' r : all_move t t' -> prepared_in t r -> prepared_in t' r.
Proof.
  intros Hm (id & c & q & Hg & Hq & Hr). destruct (Hm _ _ Hg) as (c' & Hg' & Hmv).
  exists id, c', q. split; [done|]. split; [|done].
  by apply (adv_request _ _ (moves_advances _ _ Hmv)).
Qed.

Lemma history_steps t t' asked : history t asked -> rtc canonical_step t t' -> history t' asked.
Proof using SC SA SU.
  intros [Hw Hp Ho] Hs. destruct (steps_wf _ _ Hw Hs) as [Hw' Hm]. constructor; [done| |done].
  eapply Forall_impl; [exact Hp|]. intros r. by apply prepared_in_steps.
Qed.

Lemma open_prepared_spec r q : open_prepared r = Ok q ->
  pq_campaign_id q = ao_campaign_id r /\ pq_occurrence_id q = ao_occurrence_id r.
Proof. unfold open_prepared. intros H. inv_ok H. by subst q. Qed.

(** A transition, in terms of the cycles before and after. *)
Lemma transition_result S id lease d kind now mutate t c t' : wf t ->
  (forall o, S o -> reproducible t o) ->
  (forall b x, sound b -> mutate b = Ok x -> change S b x) ->
  transition id lease d kind now mutate t = Ok (c, t') ->
  get_cycle id t' = Ok c /\ exists b x dg, get_cycle id t = Ok b /\ sound b /\
  mutate b = Ok x /\
  c = cycle_set_digest dg (cycle_advance (cy_version x + 1) (cy_state_digest b)
                             (timestamp now) x).
Proof using SC SA SU.
  intros Ht HS Hm H.
  destruct (transition_wf _ _ _ _ _ _ _ _ _ _ Ht HS (fun b x _ => Hm b x) H)
    as (_ & _ & b & M & x & Hx & _ & Hseal).
  split; [apply M|]. pose proof (mv_before _ _ _ _ _ M) as Hb.
  destruct (get_cycle_row _ _ _ Ht Hb) as (row & cs & _ & R).
  apply seal_successor_spec in Hseal as [_ [dg E]]. exists b, x, dg.
  split; [done|]. split; [apply (row_sound _ _ _ _ _ R)|by split].
Qed.

(** Preparing a request: the cycle had none before and has this one after. *)
Lemma prepare_spec lease d intent request authoring now c t t' : wf t ->
  prepare_ag_occurrence lease d intent request authoring now t = Ok (c, t') ->
  get_cycle (lv_cycle_id lease) t' = Ok c /\ exists b, get_cycle (lv_cycle_id lease) t = Ok b /\
  cy_prepared_ag_request b = None /\ cy_prepared_ag_request c = Some request /\
  cy_intent c = Some intent /\ cy_observation c = cy_observation b /\ cy_slot c = cy_slot b.
Proof using SC SA SU.
  intros Ht H. unfold prepare_ag_occurrence in H. inv_ok H.
  destruct (transition_result (fun _ => False) _ _ _ _ _ _ _ _ _ Ht (fun o HF => False_ind _ HF)
    (fun b x Hb => prepare_change _ b Hb x _ _ _) H) as (Hc & b & x & dg & Hb & Hso & Hx & E).
  split; [done|]. exists b. split; [done|]. unfold prepare in Hx. inv_ok Hx. res_simpl.
  test_simpl. apply bool_decide_eq_true in Hok2.
  destruct (recorded_facts _ Hso Hok2) as (_ & _ & Hn & _). subst x c. by repeat split.
Qed.

Lemma attach_spec lease d ag now c t t' : wf t ->
  attach_ag_occurrence lease d ag now t = Ok (c, t') ->
  get_cycle (lv_cycle_id lease) t' = Ok c /\ exists b q, get_cycle (lv_cycle_id lease) t = Ok b /\
  cy_status c = Cycle_AwaitingAg /\ cy_ag c = Some ag /\ cy_slot c = cy_slot b /\
  cy_prepared_ag_request c = cy_prepared_ag_request b /\ cy_intent c = cy_intent b /\
  cy_observation c = cy_observation b /\ cy_prepared_ag_request b = Some q /\
  names_request q (ar_campaign_id ag) (ar_occurrence_id ag) = true /\
  consequential (ar_program_counter ag) = false.
Proof using SC SA SU.
  intros Ht H. unfold attach_ag_occurrence in H. inv_ok H.
  destruct (transition_result (fun _ => False) _ _ _ _ _ _ _ _ _ Ht (fun o HF => False_ind _ HF)
    (fun b x Hb => attach_change _ b Hb x _) H) as (Hc & b & x & dg & Hb & Hso & Hx & E).
  split; [done|]. unfold attach, prepared_request in Hx. inv_ok Hx. res_simpl. test_simpl.
  destruct Hok0 as [Hst _]. apply bool_decide_eq_true in Hst.
  exists b, x0. subst x c. by repeat split.
Qed.

Lemma close_spec lease d now c t t' : wf t ->
  close_without_proposal lease d now t = Ok (c, t') ->
  get_cycle (lv_cycle_id lease) t' = Ok c /\ exists b, get_cycle (lv_cycle_id lease) t = Ok b /\
  cy_status c = Cycle_Closed /\ cy_prepared_ag_request c = None /\ cy_slot c = cy_slot b.
Proof using SC SA SU.
  intros Ht H. unfold close_without_proposal in H.
  destruct (transition_result (fun _ => False) _ _ _ _ _ _ _ _ _ Ht (fun o HF => False_ind _ HF)
    (fun b x Hb => close_change _ b Hb x) H) as (Hc & b & x & dg & Hb & Hso & Hx & E).
  split; [done|]. exists b. split; [done|]. unfold close_posture_only in Hx. inv_ok Hx.
  res_simpl. test_simpl. destruct Hok as [Hst _]. apply bool_decide_eq_true in Hst.
  destruct (recorded_facts _ Hso Hst) as (_ & _ & Hn & _). subst x c. by repeat split.
Qed.

Lemma record_spec lease d o attention temporal now c t t' : wf t ->
  record_observation lease d o attention temporal now t = Ok (c, t') ->
  get_cycle (lv_cycle_id lease) t' = Ok c /\ exists b, get_cycle (lv_cycle_id lease) t = Ok b /\
  cy_observation c = Some o /\ cy_slot c = cy_slot b.
Proof using SC SA SU.
  intros Ht H. unfold record_observation in H. inv_ok H.
  assert (forall x, x = o -> reproducible t x) as HS.
  { intros x -> e He. rewrite if_some_ok in Hok0. by apply Hok0. }
  destruct (transition_result (fun x => x = o) _ _ _ _ _ _ _ _ _ Ht HS
    (fun b x Hb => observe_change _ b Hb x _ _ _ eq_refl) H)
    as (Hc & b & x & dg & Hb & Hso & Hx & E).
  split; [done|]. exists b. split; [done|]. unfold observe in Hx. inv_ok Hx. subst x c.
  by repeat split.
Qed.

Lemma claim_spec slot clock now drawn nonce c lease t t' : wf t ->
  claim_slot slot clock now drawn nonce t = Ok (c, lease, t') ->
  get_cycle (lv_cycle_id lease) t' = Ok c /\ cy_cycle_id c = lv_cycle_id lease /\
  cy_slot c = slot.
Proof using SC SA SU.
  intros Ht H. unfold claim_slot in H. inv_ok H. injection H as <- <- <-.
  destruct (seal_initial _ _ _ _ _ _ _ Hok1 Hok2) as (Hi & Hid & Hs & _).
  destruct (insert_slot_cycle_wf _ _ _ _ Ht Hi Hok3) as (_ & _ & Hg). rewrite Hid in Hg.
  by repeat split.
Qed.

Lemma missed_spec slot clock now reason drawn c t t' : wf t ->
  record_missed slot clock now reason drawn t = Ok (c, t') ->
  get_cycle (cy_cycle_id c) t' = Ok c /\ cy_slot c = slot /\ cy_status c = Cycle_Missed.
Proof using SC SA SU.
  intros Ht H. unfold record_missed in H. inv_ok H. injection H as <- <-.
  destruct (seal_initial _ _ _ _ _ _ _ Hok2 Hok3) as (Hi & _ & Hs & _ & Hst).
  destruct (insert_slot_cycle_wf _ _ _ _ Ht Hi Hok4) as (_ & _ & Hg). by repeat split.
Qed.

(** A request AG has not been asked for, once it is prepared. *)
Lemma history_open t t' asked lease d intent q authoring now c r : history t asked ->
  prepare_ag_occurrence lease d intent q authoring now t = Ok (c, t') ->
  open_prepared r = Ok q -> history t' (asked ++ [r]).
Proof using SC SA SU.
  intros Hh Hp Hr.
  assert (rtc canonical_step t t') as Hs by (eapply rtc_once, step_prepare; exact Hp).
  pose proof (history_steps _ _ _ Hh Hs) as Hh'. pose proof (hi_wf _ _ Hh') as Ht'.
  destruct (prepare_spec _ _ _ _ _ _ _ _ _ (hi_wf _ _ Hh) Hp) as (Hc & b & Hb & Hnone & Hq & _).
  constructor; [done| |].
  - apply Forall_app. split; [apply Hh'|]. constructor; [|constructor]. by exists (lv_cycle_id lease), c, q.
  - rewrite fmap_app. apply NoDup_app. split; [apply Hh|]. split; [|apply NoDup_singleton].
    intros k Hk Hk'. apply list_elem_of_singleton in Hk' as ->.
    apply list_elem_of_fmap in Hk as (r0 & Hkey & Hin).
    destruct (proj1 (Forall_forall _ _) (hi_prepared _ _ Hh) r0 Hin)
      as (id0 & c0 & q0 & Hg0 & Hq0 & Hr0).
    destruct (prepared_in_steps t t' r0) as (id1 & c1 & q1 & Hg1 & Hq1 & Hr1);
      [by apply (steps_wf _ _ (hi_wf _ _ Hh) Hs)|by exists id0, c0, q0|].
    destruct (open_prepared_spec _ _ Hr) as [E1 E2].
    destruct (open_prepared_spec _ _ Hr0) as [E3 E4]. injection Hkey as E5 E6.
    assert (lv_cycle_id lease = id0) as Heq.
    { destruct (steps_wf _ _ (hi_wf _ _ Hh) Hs) as [_ Hm].
      destruct (Hm _ _ Hg0) as (c0' & Hg0' & Hmv).
      pose proof (adv_request _ _ (moves_advances _ _ Hmv) _ Hq0) as Hq0'.
      destruct (request_claim _ _ _ _ Ht' Hc Hq) as (r1 & Hr1' & <- & Ho1 & _).
      destruct (request_claim _ _ _ _ Ht' Hg0' Hq0') as (r2 & Hr2' & <- & Ho2 & _).
      f_equal. eapply NoDup_fmap_inj; [apply (wf_occurrences _ Ht')|done|done|congruence]. }
    subst id0. congruence.
Qed.

(** ** Runs *)

Create HintDb safe.

Section runs.
Context {P B : Type} {PP : PresentEvidencePortV1 P} {PB : AgOccurrencePortV1 B}.

(** Whatever it returns, the run is a sequence of canonical steps, and the store still has
    prepared what AG was asked to open. *)
Definition safe {X} (m : Run P (Journalled B) X) : Prop := forall s,
  history (rt_store s) (ag_asked s) ->
  rtc canonical_step (rt_store s) (rt_store (m s).2) /\
  history (rt_store (m s).2) (ag_asked (m s).2).

Lemma safe_ret {X} (x : X) : safe (run_ret x).
Proof. intros s Hh. by split. Qed.
Lemma safe_pure {X} (m : result CanonicalRuntimeError X) : safe (pure m).
Proof. intros s Hh. by split. Qed.
Lemma safe_read {X} (f : Tables -> result CanonicalStoreError X) : safe (read_store f).
Proof. intros s Hh. by split. Qed.

Lemma safe_bind {X Y} (m : Run P (Journalled B) X) (k : X -> Run P (Journalled B) Y) :
  safe m -> (forall x, safe (k x)) -> safe (run_bind m k).
Proof.
  intros Hm Hk s Hh. unfold run_bind. destruct (Hm s Hh) as [Hs Hh1].
  destruct (m s) as [[x|e] s1] eqn:Hms; [|done]. simpl in *.
  destruct (Hk x s1 Hh1) as [Hs2 Hh2]. split; [by etrans|done].
Qed.

Lemma safe_pure_bind {X Y} (m : result CanonicalRuntimeError X)
    (k : X -> Run P (Journalled B) Y) :
  (forall x, m = Ok x -> safe (k x)) -> safe (run_bind (pure m) k).
Proof.
  intros Hk s Hh. unfold run_bind, pure. destruct m as [x|e]; [by apply Hk|by split].
Qed.

Lemma safe_on_store {X} (f : Tables -> result CanonicalStoreError (X * Tables)) :
  (forall t x t', f t = Ok (x, t') -> canonical_step t t') -> safe (on_store f).
Proof using SC SA SU.
  intros Hf s Hh. unfold on_store, ag_asked.
  destruct (f (rt_store s)) as [[x t']|e] eqn:E; [|by split]. simpl.
  assert (rtc canonical_step (rt_store s) t') as Hs by (by eapply rtc_once, Hf).
  split; [done|by eapply history_steps].
Qed.

Lemma safe_attempted {X} (f : Tables -> result CanonicalStoreError (X * Tables)) :
  (forall t x t', f t = Ok (x, t') -> canonical_step t t') -> safe (attempted f).
Proof using SC SA SU. intros Hf s Hh. by apply (safe_on_store f Hf s Hh). Qed.

Lemma safe_present {X} (f : P -> result string X * P) :
  safe (on_present (A := Journalled B) f).
Proof. intros s Hh. unfold on_present, ag_asked. by destruct (f (rt_present s)). Qed.

Lemma safe_status campaign_id occurrence_id :
  safe (on_ag (port_status campaign_id occurrence_id)).
Proof.
  intros s Hh. unfold on_ag, ag_asked. simpl.
  by destruct (port_status campaign_id occurrence_id (rt_ag s).1).
Qed.

Hint Resolve safe_ret safe_pure safe_read safe_present safe_status : safe.

Lemma safe_recover {X} c reason now wrap (m : result string X) :
  safe (or_recover c reason now wrap m).
Proof using SC SA SU.
  destruct m as [x|e]; [apply safe_ret|]. apply safe_bind; [|by intros; apply safe_pure].
  apply safe_attempted. intros t x t' H. by eapply step_mark_recovery.
Qed.

(** Preparing a request and asking AG to open exactly that request. *)
Lemma safe_prepare_open {X} lease d intent q authoring now r
    (k : ObservationCycleV1 -> result string AgOccurrenceReferenceV1 ->
         Run P (Journalled B) X) :
  open_prepared r = Ok q -> (forall pending answered, safe (k pending answered)) ->
  safe (let! pending := on_store (prepare_ag_occurrence lease d intent q authoring now) in
        let! answered := on_ag (open_occurrence r) in k pending answered).
Proof using SC SA SU.
  intros Hr Hk s Hh. unfold run_bind, on_store, on_ag.
  destruct (prepare_ag_occurrence _ _ _ _ _ _ (rt_store s)) as [[c t']|e] eqn:E;
    [|by split].
  simpl. destruct (open_occurrence r (rt_ag s).1) as [answered b]. simpl.
  assert (history t' (ag_asked s ++ [r])) as Hh' by (by eapply history_open).
  destruct (Hk c answered {| rt_store := t'; rt_present := rt_present s;
    rt_ag := (b, (ag_asked s ++ [r])%list) |} Hh') as [Hs2 Hh2].
  split; [|done]. eapply rtc_l; [by eapply step_prepare|exact Hs2].
Qed.

Ltac safe_steps :=
  repeat first
    [ apply safe_pure_bind; intros ? ?
    | apply safe_bind; [|intros ?]
    | apply safe_recover
    | solve [auto with safe] ].

Lemma safe_close_run lease recorded now : safe (close_run lease recorded now).
Proof using SC SA SU.
  unfold close_run. safe_steps. apply safe_on_store. intros t x t' H. by eapply step_close.
Qed.

Lemma safe_open_run lease recorded o proposal verified now :
  safe (open_run lease recorded o proposal verified now).
Proof using SC SA SU.
  unfold open_run. apply safe_pure_bind. intros [intent r] _. apply safe_pure_bind.
  intros authoring _. apply safe_pure_bind. intros q Hq. unfold runtime_store in Hq.
  rewrite map_err_ok in Hq. apply safe_prepare_open; [done|]. intros pending answered.
  safe_steps. apply safe_on_store. intros t y t' Hy. by eapply step_attach.
Qed.

Lemma safe_observe_run q claimed lease qualified external decision nonce :
  safe (observe_run q claimed lease qualified external decision nonce).
Proof using SC SA SU.
  unfold observe_run. safe_steps. apply safe_on_store. intros t y t' Hy.
  by eapply step_record_observation.
Qed.

Lemma safe_propose q lease recorded o temporal verified :
  safe (propose q lease recorded o temporal verified).
Proof using SC SA SU.
  unfold propose. destruct (cq_proposal q); [|apply safe_close_run].
  destruct (closes_without_proposal o temporal); [apply safe_close_run|apply safe_open_run].
Qed.

Lemma safe_external q profiles : safe (compose_external_evidence q profiles).
Proof.
  unfold compose_external_evidence. destruct (cq_external_evidence q); [|apply safe_ret].
  intros s. cbv beta. apply (safe_pure_bind (check_external_evidence q _ profiles (rt_store s))).
  intros [composition source] _. safe_steps.
Qed.
Lemma safe_decision q profiles : safe (compose_decision_external_evidence q profiles).
Proof.
  unfold compose_decision_external_evidence.
  destruct (cq_decision_external_evidence q); [|apply safe_ret].
  intros s. cbv beta. apply (safe_pure_bind (check_decision_relative q _ profiles (rt_store s))).
  intros [composition source] _. safe_steps.
Qed.

Lemma safe_run_cycle {N} {PN : NqAdmissionPortV1 N} (nq : N) profiles q verified draws :
  safe (run_cycle_inner nq profiles q verified draws).
Proof using SC SA SU.
  unfold run_cycle_inner. apply safe_pure_bind. intros _ _. apply safe_pure_bind. intros _ _.
  apply safe_bind; [apply safe_external|]. intros external.
  apply safe_bind; [apply safe_decision|]. intros decision.
  apply safe_pure_bind. intros timing _. case_bool_decide.
  - apply safe_bind; [|intros; apply safe_ret]. apply safe_on_store.
    intros t x t' Hx. by eapply step_record_missed.
  - apply safe_bind; [apply safe_read|]. intros hist. apply safe_pure_bind.
    intros qualified _. apply safe_bind.
    { apply safe_on_store. intros t x t' Hx. by eapply step_claim_slot. }
    intros [claimed lease]. apply safe_bind; [apply safe_observe_run|].
    intros [[recorded o] temporal]. apply safe_propose.
Qed.

Lemma safe_custody {N} {PN : NqAdmissionPortV1 N} (nq : N) profiles q verifier draws :
  safe (run_cycle_with_authoring_custody nq profiles q verifier draws).
Proof using SC SA SU.
  unfold run_cycle_with_authoring_custody. do 3 (apply safe_pure_bind; intros ? _).
  apply safe_run_cycle.
Qed.

Lemma safe_sync id now : safe (sync_ag id now).
Proof using SC SA SU.
  unfold sync_ag. apply safe_bind; [apply safe_read|]. intros c. apply safe_pure_bind.
  intros request _. apply safe_bind; [apply safe_status|]. intros [status|e].
  - destruct (is_some (cy_ag c)); apply safe_on_store; intros t x t' H;
      [by eapply step_status|by eapply step_recover].
  - apply safe_bind; [|intros; apply safe_pure]. case_bool_decide; [apply safe_ret|].
    apply safe_attempted. intros t x t' Hx. by eapply step_mark_recovery.
Qed.
End runs.
End facts.
