(* ===== verification/RuntimeProperties.v ===== *)
(** * What the runtime guarantees

    Over every history of runs, synchronisations and store operations AG is asked to open
    an occurrence at most once, and only one the store has durably prepared; what a run
    reports is what the store then holds. *)
From S2P Require Import Prelude Text External Signing Contract Continuity SubstrateOrigin.
From S2P Require Import NqAdmission ExternalObservation ExternalComposition SteadyState Authoring.
From S2P Require Import Diagnostic Posture CanonicalRecords CanonicalTables CanonicalStore.
From S2P Require Import CanonicalFacts CanonicalInvariant CanonicalSteps CanonicalProperties.
From S2P Require Import AgPort CanonicalRuntime RuntimeFacts.
From S2P Require Currentness.
From stdpp Require Import relations.
Local Open Scope string_scope.

Section properties.
Context {PD : PostureDocuments} {ND : CanonicalDocuments} {RD : RuntimeDocuments}.
Context {SC : SerdeOk ObservationCycleV1}.
Context {SA : SerdeOk AuthoringContextProvenanceV1}.
Context {SU : SerdeOk AuthoringContextCustodyProvenanceV1}.
Context {P B N : Type} {PP : PresentEvidencePortV1 P} {PB : AgOccurrencePortV1 B}
  {PN : NqAdmissionPortV1 N}.

(** What may happen to a store and its ports: a run with or without custody, whatever it
    returns, a synchronisation with AG, and any operation on the store by others. *)
Inductive runtime_step (s : RunState P (Journalled B)) : RunState P (Journalled B) -> Prop :=
| runtime_run (nq : N) profiles q draws :
    runtime_step s (run_cycle nq profiles q draws s).2
| runtime_custody (nq : N) profiles q verifier draws :
    runtime_step s (run_cycle_with_authoring_custody nq profiles q verifier draws s).2
| runtime_sync id now : runtime_step s (sync_ag id now s).2
| runtime_store_step t :
    canonical_step (rt_store s) t ->
    runtime_step s {| rt_store := t; rt_present := rt_present s; rt_ag := rt_ag s |}.

(** A fresh store and an AG that was asked nothing. *)
Definition fresh_start (s : RunState P (Journalled B)) : Prop :=
  rt_store s = canonical_open no_tables /\ ag_asked s = [].

Lemma runtime_step_safe s s' : runtime_step s s' -> history (rt_store s) (ag_asked s) ->
  rtc canonical_step (rt_store s) (rt_store s') /\ history (rt_store s') (ag_asked s').
Proof using SC SA SU.
  intros H Hh. destruct H as [nq profiles q draws|nq profiles q verifier draws|id now|t Ht].
  - by apply safe_run_cycle.
  - by apply safe_custody.
  - by apply safe_sync.
  - assert (rtc canonical_step (rt_store s) t) as Hs by (by apply rtc_once).
    split; [done|]. by eapply history_steps.
Qed.

Lemma runtime_history s s' : rtc runtime_step s s' -> history (rt_store s) (ag_asked s) ->
  rtc canonical_step (rt_store s) (rt_store s') /\ history (rt_store s') (ag_asked s').
Proof using SC SA SU.
  induction 1 as [s|s s1 s' H1 H2 IH]; intros Hh; [by split|].
  destruct (runtime_step_safe _ _ H1 Hh) as [Hs Hh1]. destruct (IH Hh1) as [Hs' Hh'].
  split; [by etrans|done].
Qed.

(** C23. From a fresh store, whatever runs, synchronisations, restarts and custody
    operations follow and however they fail: the store only takes canonical steps, AG is
    never asked twice to open the same occurrence of a campaign, and each request AG was
    asked to open is durably prepared, exactly as it was sent, in some cycle. *)
Theorem ag_opened_once_and_prepared s s' :
  fresh_start s -> rtc runtime_step s s' ->
  reachable (rt_store s') /\ NoDup (occurrence_key <$> ag_asked s') /\
  forall r, r ∈ ag_asked s' -> exists id c q, get_cycle id (rt_store s') = Ok c /\
    cy_prepared_ag_request c = Some q /\ open_prepared r = Ok q.
Proof using SC SA SU.
  intros [Ht Ho] Hs.
  assert (history (rt_store s) (ag_asked s)) as Hh.
  { rewrite Ht, Ho. constructor; [apply empty_wf|constructor|constructor]. }
  destruct (runtime_history _ _ Hs Hh) as [Hsteps [_ Hp Hn]]. rewrite Ht in Hsteps.
  split; [done|]. split; [done|]. rewrite Forall_forall in Hp. apply Hp.
Qed.

(** ** What a run reports *)

Lemma run_bind_ok {X Y} (m : Run P (Journalled B) X) (k : X -> Run P (Journalled B) Y) s y s' :
  run_bind m k s = (Ok y, s') <-> exists x s1, m s = (Ok x, s1) /\ k x s1 = (Ok y, s').
Proof.
  unfold run_bind. destruct (m s) as [[x|e] s1]; split.
  - intros H. by exists x, s1.
  - intros (x' & s2 & [= <- <-] & H). done.
  - intros [=].
  - by intros (x' & s2 & [=] & H).
Qed.
Lemma pure_ok {X} (m : result CanonicalRuntimeError X) (s : RunState P (Journalled B)) x s' :
  pure m s = (Ok x, s') <-> m = Ok x /\ s' = s.
Proof. unfold pure. split; [by intros [= -> ->]|by intros [-> ->]]. Qed.
Lemma on_store_ok {X} (f : Tables -> result CanonicalStoreError (X * Tables))
    (s : RunState P (Journalled B)) x s' : on_store f s = (Ok x, s') ->
  f (rt_store s) = Ok (x, rt_store s') /\ ag_asked s' = ag_asked s.
Proof.
  unfold on_store. destruct (f (rt_store s)) as [[y t]|e]; [|done]. by intros [= <- <-].
Qed.
Lemma or_recover_ok {X} c reason now wrap (m : result string X)
    (s : RunState P (Journalled B)) x s' :
  or_recover c reason now wrap m s = (Ok x, s') -> m = Ok x /\ s' = s.
Proof.
  destruct m as [y|e]; [by intros [= -> ->]|]. intros H. simpl in H.
  apply run_bind_ok in H as (u & s1 & _ & H). by apply pure_ok in H as [? _].
Qed.

(** The ports other than [open_occurrence] leave the journal alone. *)
Lemma on_present_ok {X} (f : P -> result string X * P) (s : RunState P (Journalled B)) x s' :
  on_present f s = (Ok x, s') -> rt_store s' = rt_store s /\ ag_asked s' = ag_asked s.
Proof. unfold on_present. destruct (f (rt_present s)). by intros [= _ <-]. Qed.
Lemma on_status_ok campaign_id occurrence_id (s : RunState P (Journalled B)) x s' :
  on_ag (port_status campaign_id occurrence_id) s = (Ok x, s') ->
  rt_store s' = rt_store s /\ ag_asked s' = ag_asked s.
Proof.
  unfold on_ag, ag_asked. simpl. destruct (port_status campaign_id occurrence_id (rt_ag s).1).
  by intros [= _ <-].
Qed.
Lemma on_open_ok r (s : RunState P (Journalled B)) x s' :
  on_ag (open_occurrence r) s = (Ok x, s') ->
  rt_store s' = rt_store s /\ ag_asked s' = (ag_asked s ++ [r])%list.
Proof.
  unfold on_ag, ag_asked. simpl. destruct (open_occurrence r (rt_ag s).1).
  by intros [= _ <-].
Qed.

(** The first computation of a run that succeeds, named. *)
Tactic Notation "run_step" hyp(H) "as" simple_intropattern(x) ident(s1) ident(Hx) :=
  apply run_bind_ok in H as (x & s1 & Hx & H); cbv beta zeta in H.

Lemma close_run_ok lease recorded now (s : RunState P (Journalled B)) out s' : wf (rt_store s) ->
  get_cycle (lv_cycle_id lease) (rt_store s) = Ok recorded ->
  close_run lease recorded now s = (Ok out, s') ->
  wf (rt_store s') /\ exists c, out = Outcome_PostureOnly c /\ ag_asked s' = ag_asked s /\
  get_cycle (lv_cycle_id lease) (rt_store s') = Ok c /\ cy_status c = Cycle_Closed /\
  cy_prepared_ag_request c = None /\ cy_slot c = cy_slot recorded.
Proof using SC SA SU.
  intros Hw Hg H. unfold close_run in H. run_step H as c s1 Hclose.
  apply on_store_ok in Hclose as [Hclose Ho]. injection H as <- <-.
  destruct (close_spec _ _ _ _ _ _ Hw Hclose) as (Hc & b & Hb & Hst & Hn & Hs).
  rewrite Hg in Hb. injection Hb as <-.
  split; [by apply (canonical_step_wf _ _ Hw (step_close _ _ _ _ _ _ Hclose))|].
  exists c. by repeat split.
Qed.

(** What AG was asked and the cycle that records it. *)
Definition opened_as (o : ObservationRecordV1) (proposal : PrecompiledWorkflowProposalV2)
    (before after : list AgOpenOccurrenceRequestV1) (c : ObservationCycleV1) : Prop :=
  exists intent r q ag,
  compile proposal o = Ok (intent, r) /\ open_prepared r = Ok q /\
  after = (before ++ [r])%list /\ cy_status c = Cycle_AwaitingAg /\
  cy_observation c = Some o /\ cy_intent c = Some intent /\
  cy_prepared_ag_request c = Some q /\ cy_ag c = Some ag /\
  names_request q (ar_campaign_id ag) (ar_occurrence_id ag) = true /\
  consequential (ar_program_counter ag) = false.

Lemma open_run_ok lease recorded o proposal verified now (s : RunState P (Journalled B)) out s' : wf (rt_store s) ->
  get_cycle (lv_cycle_id lease) (rt_store s) = Ok recorded ->
  cy_observation recorded = Some o ->
  open_run lease recorded o proposal verified now s = (Ok out, s') ->
  wf (rt_store s') /\ exists c, out = Outcome_AgOccurrenceOpened c /\
  get_cycle (lv_cycle_id lease) (rt_store s') = Ok c /\ cy_slot c = cy_slot recorded /\
  opened_as o proposal (ag_asked s) (ag_asked s') c.
Proof using SC SA SU.
  intros Hw Hg Hobs H. unfold open_run, runtime_invalid, runtime_store in H.
  run_step H as [intent r] s1 Hcompile. apply pure_ok in Hcompile as [Hcompile ->].
  run_step H as authoring s1 Ha. apply pure_ok in Ha as [_ ->].
  run_step H as q s1 Hprep. apply pure_ok in Hprep as [Hprep ->].
  apply map_err_ok in Hcompile, Hprep.
  run_step H as pending s1 Hpend. apply on_store_ok in Hpend as [Hpend Ho1].
  run_step H as answered s2 Hopen. apply on_open_ok in Hopen as [Hs2 Ho2].
  run_step H as ag s3 Hag. apply or_recover_ok in Hag as [_ ->].
  run_step H as c s4 Hattach. apply on_store_ok in Hattach as [Hattach Ho4].
  injection H as <- <-. rewrite Hs2 in Hattach.
  destruct (prepare_spec _ _ _ _ _ _ _ _ _ Hw Hpend)
    as (Hp & b & Hb & _ & Hq & Hi & Hob & Hsl).
  rewrite Hg in Hb. injection Hb as <-.
  pose proof (canonical_step_wf _ _ Hw (step_prepare _ _ _ _ _ _ _ _ _ Hpend)) as [Hw1 _].
  destruct (attach_spec _ _ _ _ _ _ _ Hw1 Hattach)
    as (Hc & b & q' & Hb & Hst & Hag & Hsl' & Hq' & Hi' & Hob' & Hq'' & Hn & Hcons).
  rewrite Hp in Hb. injection Hb as <-. rewrite Hq in Hq''. injection Hq'' as <-.
  split; [by apply (canonical_step_wf _ _ Hw1 (step_attach _ _ _ _ _ _ _ Hattach))|].
  exists c. split; [done|]. split; [done|]. split; [congruence|].
  exists intent, r, q, ag. repeat (split; [first [done|congruence]|]). done.
Qed.

Lemma observe_run_ok q claimed lease qualified external decision nonce
    (s : RunState P (Journalled B)) recorded o temporal s' : wf (rt_store s) ->
  get_cycle (lv_cycle_id lease) (rt_store s) = Ok claimed ->
  observe_run q claimed lease qualified external decision nonce s
  = (Ok (recorded, o, temporal), s') ->
  wf (rt_store s') /\ ag_asked s' = ag_asked s /\
  get_cycle (lv_cycle_id lease) (rt_store s') = Ok recorded /\
  cy_observation recorded = Some o /\ cy_slot recorded = cy_slot claimed /\
  obs_observation_id o = cq_observation_id q.
Proof using SC SA SU.
  intros Hw Hg H. unfold observe_run in H. run_step H as query s1 Hq.
  apply pure_ok in Hq as [_ ->].
  run_step H as answered s1 Hp. apply on_present_ok in Hp as [Hs1 Ho1].
  run_step H as support s2 Hsup. apply or_recover_ok in Hsup as [_ ->].
  run_step H as posture s2 Hpos. apply or_recover_ok in Hpos as [_ ->].
  run_step H as temporal' s2 Ht. apply pure_ok in Ht as [_ ->].
  run_step H as c s2 Hrec. apply on_store_ok in Hrec as [Hrec Ho2].
  injection H as <- <- <- <-. rewrite Hs1 in Hrec.
  destruct (record_spec _ _ _ _ _ _ _ _ _ Hw Hrec) as (Hc & b & Hb & Hobs & Hsl).
  rewrite Hg in Hb. injection Hb as <-.
  pose proof (canonical_step_wf _ _ Hw (step_record_observation _ _ _ _ _ _ _ _ _ Hrec))
    as [Hw2 _].
  repeat (split; [first [done|congruence]|]). done.
Qed.

Lemma external_ok q profiles (s : RunState P (Journalled B)) x s' :
  compose_external_evidence q profiles s = (Ok x, s') ->
  rt_store s' = rt_store s /\ ag_asked s' = ag_asked s.
Proof.
  unfold compose_external_evidence. destruct (cq_external_evidence q) as [reference|];
    [|by intros [= _ <-]]. intros H.
  run_step H as [c source] s1 H1. apply pure_ok in H1 as [_ ->].
  run_step H as answered s1 H1. apply on_status_ok in H1 as [E1 E2].
  run_step H as ag s2 H1. apply pure_ok in H1 as [_ ->].
  run_step H as u s2 H1. apply pure_ok in H1 as [_ ->]. injection H as _ <-. by split.
Qed.
Lemma decision_ok q profiles (s : RunState P (Journalled B)) x s' :
  compose_decision_external_evidence q profiles s = (Ok x, s') ->
  rt_store s' = rt_store s /\ ag_asked s' = ag_asked s.
Proof.
  unfold compose_decision_external_evidence.
  destruct (cq_decision_external_evidence q) as [reference|]; [|by intros [= _ <-]]. intros H.
  run_step H as [c source] s1 H1. apply pure_ok in H1 as [_ ->].
  run_step H as answered s1 H1. apply on_status_ok in H1 as [E1 E2].
  run_step H as ag s2 H1. apply pure_ok in H1 as [_ ->].
  run_step H as u s2 H1. apply pure_ok in H1 as [_ ->]. injection H as _ <-. by split.
Qed.

(** What the outcome says of the store and of AG. *)
Definition reports (q : CanonicalCycleRequestV1) (out : CycleRunOutcomeV1) (t : Tables)
    (before after : list AgOpenOccurrenceRequestV1) : Prop :=
  match out with
  | Outcome_Missed c =>
      get_cycle (cy_cycle_id c) t = Ok c /\ cy_slot c = cq_slot q /\
      cy_status c = Cycle_Missed /\ after = before
  | Outcome_PostureOnly c =>
      get_cycle (cy_cycle_id c) t = Ok c /\ cy_slot c = cq_slot q /\
      cy_status c = Cycle_Closed /\ cy_prepared_ag_request c = None /\ after = before
  | Outcome_AgOccurrenceOpened c =>
      get_cycle (cy_cycle_id c) t = Ok c /\ cy_slot c = cq_slot q /\
      exists o proposal, cq_proposal q = Some proposal /\
      obs_observation_id o = cq_observation_id q /\ op_current (obs_posture o) = true /\
      Currentness.qs_standing (obs_support o) = Currentness.Support_Current /\
      opened_as o proposal before after c
  end.

Lemma propose_ok q lease recorded o temporal verified (s : RunState P (Journalled B)) out s' :
  wf (rt_store s) -> get_cycle (lv_cycle_id lease) (rt_store s) = Ok recorded ->
  cy_observation recorded = Some o -> cy_slot recorded = cq_slot q ->
  obs_observation_id o = cq_observation_id q ->
  propose q lease recorded o temporal verified s = (Ok out, s') ->
  reports q out (rt_store s') (ag_asked s) (ag_asked s').
Proof using SC SA SU.
  intros Hw Hg Hobs Hsl Hid H. unfold propose in H.
  destruct (cq_proposal q) as [proposal|] eqn:Hpr;
    [destruct (closes_without_proposal o temporal) eqn:Hcl|].
  1,3: destruct (close_run_ok _ _ _ _ _ _ Hw Hg H)
         as (Hw' & c & -> & Ho & Hc & Hst & Hn & Hs); simpl;
       rewrite (get_cycle_id _ _ _ Hw' Hc); by repeat split; congruence.
  destruct (open_run_ok _ _ _ _ _ _ _ _ _ Hw Hg Hobs H) as (Hw' & c & -> & Hc & Hs & Hop).
  simpl. rewrite (get_cycle_id _ _ _ Hw' Hc). split; [done|]. split; [congruence|].
  unfold closes_without_proposal in Hcl.
  rewrite !orb_false_iff, !negb_false_iff, bool_decide_eq_true in Hcl.
  exists o, proposal. split; [done|]. split; [done|]. split; [tauto|]. split; [tauto|done].
Qed.

(** C22. What a run reports is what the store holds: a missed slot is recorded as missed; a
    posture-only cycle is closed without a request and AG was not asked; an opened
    occurrence is the cycle that awaits AG, its request exactly the one AG was asked, once,
    compiled from the request's proposal for the very observation the cycle recorded, a
    posture that was current, and AG's answer names that occurrence before any
    consequence. *)
Theorem run_reports_the_store (nq : N) profiles q verified draws
    (s : RunState P (Journalled B)) out s' :
  reachable (rt_store s) ->
  run_cycle_inner nq profiles q verified draws s = (Ok out, s') ->
  reports q out (rt_store s') (ag_asked s) (ag_asked s').
Proof using SC SA SU.
  intros Hr H. apply canonical_reachable_wf in Hr as Hw. unfold run_cycle_inner in H.
  run_step H as u1 s1 H1. apply pure_ok in H1 as [_ ->].
  run_step H as u2 s1 H1. apply pure_ok in H1 as [_ ->].
  run_step H as external s1 H1. apply external_ok in H1 as [Hs1 Ho1].
  run_step H as decision s2 H1. apply decision_ok in H1 as [Hs2 Ho2].
  run_step H as timing s3 H1. apply pure_ok in H1 as [_ ->].
  assert (wf (rt_store s2)) as Hw2 by (by rewrite Hs2, Hs1).
  assert (ag_asked s2 = ag_asked s) as Ho by congruence. rewrite <- Ho. case_bool_decide.
  - run_step H as c s3 H1. apply on_store_ok in H1 as [Hm Ho3]. injection H as <- <-.
    destruct (missed_spec _ _ _ _ _ _ _ _ Hw2 Hm) as (Hg & Hsl & Hst). by repeat split.
  - run_step H as hist s3 H1. injection H1 as _ <-.
    run_step H as qualified s3 H1. apply pure_ok in H1 as [_ ->].
    run_step H as [claimed lease] s3 H1. apply on_store_ok in H1 as [Hcl Ho3].
    pose proof (canonical_step_wf _ _ Hw2 (step_claim_slot _ _ _ _ _ _ _ _ Hcl)) as [Hw3 _].
    destruct (claim_spec _ _ _ _ _ _ _ _ _ Hw2 Hcl) as (Hg & _ & Hsl).
    run_step H as [[recorded o] temporal] s4 H1.
    destruct (observe_run_ok _ _ _ _ _ _ _ _ _ _ _ _ Hw3 Hg H1)
      as (Hw4 & Ho4 & Hg4 & Hobs & Hsl4 & Hid).
    rewrite <- Ho3, <- Ho4. eapply propose_ok; [exact Hw4|exact Hg4|done|congruence|done|done].
Qed.
End properties.
