(* ===== verification/Switchyard.v ===== *)
(** * Switchyard snapshots (crates/nightshift-foreman/src/execution_availability.rs)

    The mapper snapshot that a disposition of the first schema retains: the interpreter of
    the vendored JSON schemas, the custody of the raw frames and the first reading of the
    snapshot.  The ordered replay of its records is in [Replay].  serde_json's parser and
    the bytes of the vendored schema files are parameters. *)
From S2P Require Import Prelude Text External Contract Availability Evidence Signing.
Local Open Scope string_scope.

(** ** Reading JSON values *)

Definition get_str (v : value) (field : string) : option string := value_get v field ≫= as_str.
Definition get_bool (v : value) (field : string) : option bool :=
  value_get v field ≫= as_bool.
Definition get_i64 (v : value) (field : string) : option Z := value_get v field ≫= as_i64.
Definition is_null (v : value) : bool := match v with Null => true | _ => false end.

(** [value.get(field) == Some(expected)]. *)
Definition field_eqb (v : value) (field : string) (expected : value) : bool :=
  option_eqb value_eqb (value_get v field) (Some expected).

(** [object.contains_key(field)]. *)
Definition contains_key (kvs : list (string * value)) (field : string) : bool :=
  is_some (assoc_get field kvs).
Definition has_keys (kvs : list (string * value)) (expected : list string) : bool :=
  (length kvs =? length expected)%nat && forallb (contains_key kvs) expected.

Definition exact_object_keys (v : value) (expected : list string) (field : string)
    : result ContractError unit :=
  let? kvs := ok_or (as_object v) (InvalidField field) in
  reject (negb (has_keys kvs expected)) (InvalidField field).

Definition string_at (v : value) (field : string) : result ContractError string :=
  ok_or (get_str v field) (InvalidField field).
Definition integer (v : value) (field : string) : result ContractError Z :=
  ok_or (get_i64 v field) (InvalidField field).

(** [if string(value, field)? != expected { return Err(error) }] of each field in turn. *)
Definition require_strings (v : value) (fields : list (string * string)) (error : string)
    : result ContractError unit :=
  for_each (fun '(field, expected) =>
    let? found := string_at v field in
    reject (negb (String.eqb found expected)) (InvalidField error)) fields.

(** ** serde_json's parser *)

(** What the parser hands to a visitor: entries in document order, keys possibly twice. *)
Inductive json :=
| JNull
| JBool (b : bool)
| JUnsigned (n : N)
| JSigned (z : Z)
| JFloat (f : SpecFloat.spec_float)
| JString (s : string)
| JSeq (vs : list json)
| JMap (kvs : list (string * json)).

(** [Deserializer::from_slice]: the first value of the bytes and what follows it. *)
Class JsonParser : Type := { json_prefix : string -> option (json * string) }.

(** The contents of the vendored schema files ([include_bytes!]). *)
Class VendoredSchemas : Type := {
  SWITCHYARD_PROVIDER_ADMISSION_SCHEMA_BYTES : string;
  BETA_SWITCHYARD_SCHEMA_BYTES : string;
  FINAL_SWITCHYARD_SCHEMA_BYTES : string;
  BOUNDED_TURN_SWITCHYARD_SCHEMA_BYTES : string;
  BOUNDED_TURN_ECHO_SWITCHYARD_SCHEMA_BYTES : string
}.

(** [UniqueJsonVisitor]: the value, unless a key repeats or a number is not finite. *)
Fixpoint unique_json (j : json) : option value :=
  match j with
  | JNull => Some Null
  | JBool b => Some (Bool b)
  | JUnsigned n => Some (Number (PosInt n))
  | JSigned z => Some (Number (if (0 <=? z)%Z then PosInt (Z.to_N z) else NegInt z))
  | JFloat f => if f64_is_finite f then Some (Number (Float f)) else None
  | JString s => Some (Str s)
  | JSeq vs => Array <$> (fix visit_seq vs :=
      match vs with
      | [] => Some []
      | v :: vs => x ← unique_json v; xs ← visit_seq vs; Some (x :: xs)
      end) vs
  | JMap kvs => Object <$> (fix visit_map kvs built :=
      match kvs with
      | [] => Some built
      | (k, v) :: kvs =>
          if contains_key built k then None
          else x ← unique_json v; visit_map kvs (map_insert k x built)
      end) kvs []
  end.

(** The white space that [Deserializer::end] skips. *)
Definition json_whitespace (a : ascii) : bool := one_of [" "; "009"; "010"; "013"]%char a.

(** ** Constants *)

Definition ACCEPTED_CODEX_OWNER_HEAD : string := "c36a8137638decf8b04a49611354a90f32c5a945".
Definition BETA_CODEX_OWNER_HEAD : string := "6893ae42233aa95b1c1623497405681d99a589da".
Definition ACCEPTED_SWITCHYARD_SCHEMA_SHA256 : string :=
  "sha256:131f1f6e0cf8cb0aea26ed225c584440c81ffedd443c68ace23adecbe493cf93".
Definition BETA_SWITCHYARD_SCHEMA_SHA256 : string :=
  "sha256:448c2535c9c9586754d222912bbc86bc09fadb3c98059dc134141aff08efb8ba".
Definition BOUNDED_TURN_SWITCHYARD_SCHEMA_SHA256 : string :=
  "sha256:4e4eac904735c570f3fe7332765fffe4608cc3987fee9c1ef4b8db3ffdf03376".
Definition MAXIMUM_TURN_START_REQUEST_EVIDENCE_BYTES : N := 262144.
Definition EXACT_WIRE : string := "EXACT_WIRE_BYTES_INCLUDING_LINE_TERMINATOR".
Definition EXACT_FRAME : string := "EXACT_ACQUIRED_FRAME_BYTES_INCLUDING_LINE_TERMINATOR".

(** ** The schema interpreter *)

Section schema.
Implicit Types (node instance : value) (schema : list (string * value)).

Definition schema_error (what : string) : ContractError :=
  InvalidField ("Switchyard schema " +:+ what).

(** The numbers that [as_i64] or [as_u64] reads. *)
Definition integer_value (v : value) : option Z :=
  match v with
  | Number (PosInt n) => Some (Z.of_N n)
  | Number (NegInt z) => Some z
  | _ => None
  end.

Definition type_matches (expected : string) (instance : value) : bool :=
  if String.eqb expected "null" then is_null instance
  else if String.eqb expected "boolean" then is_some (as_bool instance)
  else if String.eqb expected "string" then is_some (as_str instance)
  else if String.eqb expected "integer" then is_some (integer_value instance)
  else if String.eqb expected "object" then is_object instance
  else if String.eqb expected "array" then is_some (as_array instance)
  else false.

(** The two patterns the vendored schemas use. *)
Definition pattern_matches (pattern text : string) : bool :=
  if String.eqb pattern "^[0-9a-f]+$" then
    negb (str_is_empty text) && bytes_all lower_hex_byte text
  else if String.eqb pattern "^sha256:[0-9a-f]{64}$" then
    (strlen text =? 71)%N && starts_with text "sha256:"
    && bytes_all lower_hex_byte (str_drop 7 text)
  else false.

(** [schema.get(field).and_then(read).is_some_and(p)]. *)
Definition keyword {A} (schema : list (string * value)) (field : string)
    (read : value -> option A) (p : A -> bool) : bool :=
  match assoc_get field schema ≫= read with Some x => p x | None => false end.

Definition check_const (schema : list (string * value)) (instance : value)
    : result ContractError unit :=
  reject (keyword schema "const" Some (fun expected => negb (value_eqb expected instance)))
    (schema_error "const") ;?
  reject (keyword schema "enum" as_array
            (fun values => negb (existsb (value_eqb instance) values)))
    (schema_error "enum") ;?
  reject (keyword schema "type" as_str (fun expected => negb (type_matches expected instance)))
    (schema_error "type").

Definition check_text (schema : list (string * value)) (text : string)
    : result ContractError unit :=
  reject (keyword schema "minLength" as_u64 (fun minimum => (char_count text <? minimum)%N)
          || keyword schema "maxLength" as_u64
               (fun maximum => (maximum <? char_count text)%N))
    (schema_error "string bound") ;?
  reject (keyword schema "pattern" as_str
            (fun pattern => negb (pattern_matches pattern text)))
    (schema_error "pattern").

Definition check_integer (schema : list (string * value)) (z : Z)
    : result ContractError unit :=
  reject (keyword schema "minimum" as_i64 (fun minimum => (z <? minimum)%Z)
          || keyword schema "maximum" as_i64 (fun maximum => (maximum <? z)%Z))
    (schema_error "numeric bound").

Definition check_scalar (schema : list (string * value)) (instance : value)
    : result ContractError unit :=
  match as_str instance with Some text => check_text schema text | None => Ok tt end ;?
  match integer_value instance with Some z => check_integer schema z | None => Ok tt end.

Section applicators.
(** The validation of a subschema, one level deeper. *)
Context (validate : value -> value -> result ContractError (gset string)).

Definition schema_reference (root : value) (schema : list (string * value))
    (instance : value) : result ContractError (gset string) :=
  match assoc_get "$ref" schema ≫= as_str with
  | None => Ok ∅
  | Some reference =>
      let? name := ok_or (strip_prefix reference "#/$defs/") (schema_error "ref") in
      let? target := ok_or (value_get root "$defs" ≫= (fun defs => value_get defs name))
        (schema_error "ref") in
      validate target instance
  end.

Definition schema_all (schema : list (string * value)) (instance : value)
    : result ContractError (gset string) :=
  match assoc_get "allOf" schema ≫= as_array with
  | None => Ok ∅
  | Some all => fold_try (fun branch evaluated =>
      let? more := validate branch instance in Ok (evaluated ∪ more)) all ∅
  end.

Definition schema_one (schema : list (string * value)) (instance : value)
    : result ContractError (gset string) :=
  match assoc_get "oneOf" schema ≫= as_array with
  | None => Ok ∅
  | Some branches =>
      match omap (fun branch => match validate branch instance with
                                | Ok evaluated => Some evaluated | Err _ => None end)
                 branches with
      | [evaluated] => Ok evaluated
      | _ => Err (schema_error "oneOf")
      end
  end.

Definition check_items (schema : list (string * value)) (items : list value)
    : result ContractError unit :=
  reject (keyword schema "maxItems" as_u64
            (fun maximum => (maximum <? N.of_nat (length items))%N))
    (schema_error "array bound") ;?
  match assoc_get "items" schema with
  | None => Ok tt
  | Some item_schema => for_each (fun item => let? _ := validate item_schema item in Ok tt) items
  end.

Definition check_properties (schema : list (string * value)) (object : list (string * value))
    : result ContractError (gset string) :=
  reject (keyword schema "required" as_array
            (existsb (fun field => match as_str field with
                                   | Some field => negb (contains_key object field)
                                   | None => true end)))
    (schema_error "required") ;?
  match assoc_get "properties" schema ≫= as_object with
  | None => Ok ∅
  | Some properties =>
      for_each (fun '(name, property_schema) =>
        match assoc_get name object with
        | Some v => let? _ := validate property_schema v in Ok tt
        | None => Ok tt
        end) properties ;?
      reject (bool_decide (assoc_get "additionalProperties" schema ≫= as_bool = Some false)
              && existsb (fun name => negb (contains_key properties name)) object.*1)
        (schema_error "additional property") ;?
      Ok (list_to_set properties.*1)
  end.

Definition check_object (schema : list (string * value)) (object : list (string * value))
    (evaluated : gset string) : result ContractError (gset string) :=
  let? more := check_properties schema object in
  let evaluated := evaluated ∪ more in
  reject (bool_decide (assoc_get "unevaluatedProperties" schema ≫= as_bool = Some false)
          && existsb (fun name => negb (bool_decide (name ∈ evaluated))) object.*1)
    (schema_error "unevaluated property") ;?
  Ok evaluated.

Definition schema_node (root node instance : value) : result ContractError (gset string) :=
  let? schema := ok_or (as_object node) (schema_error "node") in
  let? referenced := schema_reference root schema instance in
  let? all := schema_all schema instance in
  let? one := schema_one schema instance in
  let evaluated := referenced ∪ all ∪ one in
  check_const schema instance ;?
  check_scalar schema instance ;?
  match as_array instance with Some items => check_items schema items | None => Ok tt end ;?
  match as_object instance with
  | Some object => check_object schema object evaluated
  | None => Ok evaluated
  end.
End applicators.

(** [depth] is how much deeper the interpreter may still go: the source counts up from 0
    and refuses beyond 64. *)
Fixpoint validate_schema_node (root : value) (depth : nat) (node instance : value)
    : result ContractError (gset string) :=
  match depth with
  | O => Err (schema_error "depth")
  | S depth => schema_node (validate_schema_node root depth) root node instance
  end.
End schema.

(** ** Raw frames *)

Section snapshot.
Context {HO : Host} {SV : Serde value} {JP : JsonParser} {VS : VendoredSchemas}.

(** The vendored schema of a source head and the digest it is pinned to. *)
Definition vendored_schema (head : option string) (capture : SwitchyardCaptureSchema)
    : result ContractError (string * string) :=
  match head with
  | None => Err (InvalidField "snapshot schema owner")
  | Some head =>
      if String.eqb head ACCEPTED_CODEX_OWNER_HEAD then
        Ok (SWITCHYARD_PROVIDER_ADMISSION_SCHEMA_BYTES, ACCEPTED_SWITCHYARD_SCHEMA_SHA256)
      else if String.eqb head FINAL_CODEX_OWNER_HEAD then
        Ok match capture with
           | BoundedTurnEcho => (BOUNDED_TURN_ECHO_SWITCHYARD_SCHEMA_BYTES,
                                 BOUNDED_TURN_ECHO_SWITCHYARD_SCHEMA_SHA256)
           | BoundedTurn => (BOUNDED_TURN_SWITCHYARD_SCHEMA_BYTES,
                             BOUNDED_TURN_SWITCHYARD_SCHEMA_SHA256)
           | Legacy => (FINAL_SWITCHYARD_SCHEMA_BYTES, FINAL_SWITCHYARD_SCHEMA_SHA256)
           end
      else if String.eqb head BETA_CODEX_OWNER_HEAD then
        Ok (BETA_SWITCHYARD_SCHEMA_BYTES, BETA_SWITCHYARD_SCHEMA_SHA256)
      else Err (InvalidField "snapshot schema owner")
  end.

Definition switchyard_schema (instance : value) (capture : SwitchyardCaptureSchema)
    : result ContractError unit :=
  let? '(bytes, expected) :=
    vendored_schema (as_str (value_index (value_index instance "binding") "codex_source_head"))
      capture in
  reject (negb (String.eqb (plain_sha256 bytes) expected))
    (DigestMismatch "vendored Switchyard schema sha256") ;?
  let? root := map_err Json (from_slice bytes) in
  let? _ := validate_schema_node root 65 root instance in
  Ok tt.

Definition large_notifications : list string :=
  ["item/started"; "item/completed"; "item/agentMessage/delta"; "turn/completed"].

Definition switchyard_record_raw_bound (record : value) : N :=
  if (str_is record "acquisition_kind" "CLIENT_REQUEST"
      && str_is record "method" "client-request/turn/start")
     || (str_is record "acquisition_kind" "NOTIFICATION"
         && existsb (str_is record "method") large_notifications)
  then MAXIMUM_TURN_START_REQUEST_EVIDENCE_BYTES
  else MAXIMUM_AVAILABILITY_EVIDENCE_BYTES.

(** [bytes.last() == Some(&b'\n')]. *)
Definition ends_with_newline (s : string) : bool :=
  match String.get (String.length s - 1) s with
  | Some a => Ascii.eqb a "010"%char
  | None => false
  end.

Definition validate_switchyard_raw (v : value) (maximum : N) : result ContractError unit :=
  exact_object_keys v ["representation"; "byte_length"; "sha256"; "encoding"; "bytes_hex"]
    "mapper raw closure" ;?
  let? representation := string_at v "representation" in
  reject (negb (existsb (String.eqb representation) [EXACT_WIRE; EXACT_FRAME]))
    (InvalidField "mapper raw representation") ;?
  let? encoding := string_at v "encoding" in
  reject (negb (String.eqb encoding "hex")) (InvalidField "mapper raw representation") ;?
  let? bytes_hex := string_at v "bytes_hex" in
  reject (negb (bytes_all lower_hex_byte bytes_hex)) (InvalidField "mapper raw lowercase hex") ;?
  let? bytes := ok_or (hex_decode bytes_hex) (InvalidField "mapper raw hex") in
  let custody := InvalidField "mapper raw custody" in
  reject (str_is_empty bytes || (maximum <? strlen bytes)%N || negb (ends_with_newline bytes))
    custody ;?
  let? byte_length := integer v "byte_length" in
  reject (negb (byte_length =? Z.of_N (strlen bytes))%Z) custody ;?
  let? sha256 := string_at v "sha256" in
  reject (negb (String.eqb sha256 (plain_sha256 bytes))) custody.

Definition decode_switchyard_raw (v : value) (maximum : N) : result ContractError value :=
  validate_switchyard_raw v maximum ;?
  let? bytes_hex := string_at v "bytes_hex" in
  let? bytes := ok_or (hex_decode bytes_hex) (InvalidField "mapper raw hex") in
  let? '(parsed, rest) := ok_or (json_prefix bytes) (InvalidField "unique mapper raw JSON") in
  let? decoded := ok_or (unique_json parsed) (InvalidField "unique mapper raw JSON") in
  reject (negb (bytes_all json_whitespace rest)) (InvalidField "mapper raw JSON framing") ;?
  Ok decoded.

Definition canonical_value_digest (v : value) (field domain : string)
    : result ContractError string :=
  let? kvs := ok_or (as_object v) (InvalidField field) in
  let? canonical := map_err Json (jcs_value (Object (object_remove field kvs))) in
  Ok (plain_sha256 (domain +:+ canonical)).

(** ** The first reading of a snapshot *)

Definition snapshot_fields : list string :=
  ["schema"; "snapshot_digest"; "binding"; "admission_disposition"; "mechanism_state";
   "provider_execution_identity"; "acquisition_cut"; "records"].
Definition binding_fields : list string :=
  ["schema"; "binding_digest"; "work_attempt_id"; "dispatch_occurrence_id";
   "adapter_process_occurrence_id"; "app_server_session_identity"; "thread_id"; "turn_id";
   "provider"; "model"; "codex_source_head"; "executable_kind";
   "app_server_executable_identity"; "app_server_executable_sha256";
   "internal_provider_request_retries"].
Definition record_fields : list string :=
  ["schema"; "evidence_digest"; "sequence"; "acquisition_ordinal"; "acquisition_kind";
   "binding_digest"; "work_attempt_id"; "dispatch_occurrence_id";
   "adapter_process_occurrence_id"; "app_server_session_identity"; "thread_id"; "turn_id";
   "provider"; "model"; "kind"; "method"; "normalized"; "raw"].

(** What the binding and every record repeat of the disposition. *)
Definition disposition_identities (d : ProviderAdmissionDispositionV1) : list (string * string) :=
  [("work_attempt_id", dp_work_attempt_id d);
   ("dispatch_occurrence_id", dp_dispatch_occurrence_id d);
   ("adapter_process_occurrence_id", dp_adapter_process_occurrence_id d);
   ("app_server_session_identity", dp_app_server_session_identity d);
   ("thread_id", dp_thread_id d); ("turn_id", dp_turn_id d);
   ("provider", dp_provider_id d); ("model", dp_model_id d)].

(** [record.get(field).is_none_or(Value::is_null)]. *)
Definition absent_or_null (v : value) (field : string) : bool :=
  match value_get v field with Some w => is_null w | None => true end.

(** Acquisition loss recorded locally, without a frame or an ordinal. *)
Definition local_loss (record : value) : bool :=
  bool_decide (get_str record "kind" = Some "ADMISSION_DISCREPANCY")
  && bool_decide (get_str record "method" = Some "adapter/acquisition")
  && field_eqb record "raw" Null && field_eqb record "acquisition_ordinal" Null
  && field_eqb record "acquisition_kind" Null.

Definition unordered (record : value) : bool :=
  negb (bool_decide (get_str record "kind" = Some "ACQUISITION_CUT"))
  && negb (local_loss record)
  && (absent_or_null record "acquisition_ordinal" || absent_or_null record "acquisition_kind").

Definition check_snapshot_digest (d : ProviderAdmissionDispositionV1) (snapshot : value)
    : result ContractError unit :=
  let mismatch := DigestMismatch "mapper snapshot digest" in
  let? schema := string_at snapshot "schema" in
  reject (negb (String.eqb schema (dp_mapper_snapshot_schema d))) mismatch ;?
  let? digest := string_at snapshot "snapshot_digest" in
  reject (negb (String.eqb digest (dp_mapper_snapshot_digest d))) mismatch ;?
  let? computed := canonical_value_digest snapshot "snapshot_digest"
    ("switchyard.codex-provider-admission-snapshot.digest/v1" +:+ NUL) in
  reject (negb (String.eqb computed (dp_mapper_snapshot_digest d))) mismatch.

(** The records, all of them from ordered acquisition. *)
Definition ordered_records (snapshot : value) : result ContractError (list value) :=
  let? records := ok_or (value_get snapshot "records" ≫= as_array)
    (InvalidField "mapper records") in
  reject (4096 <? length records)%nat (InvalidField "mapper record count") ;?
  reject (existsb unordered records)
    (InvalidField "decision-bearing mapper evidence requires strict ordered acquisition") ;?
  Ok records.

Definition check_binding (d : ProviderAdmissionDispositionV1) (snapshot : value)
    : result ContractError value :=
  let? binding := ok_or (value_get snapshot "binding") (InvalidField "mapper binding") in
  let law := InvalidField "mapper binding owner law" in
  exact_object_keys binding binding_fields "mapper binding closure" ;?
  let? schema := string_at binding "schema" in
  reject (negb (String.eqb schema "switchyard.codex-provider-admission-binding/v1")) law ;?
  let? head := string_at binding "codex_source_head" in
  reject (negb (existsb (String.eqb head)
                  [ACCEPTED_CODEX_OWNER_HEAD; BETA_CODEX_OWNER_HEAD; FINAL_CODEX_OWNER_HEAD]))
    law ;?
  let? retries := integer binding "internal_provider_request_retries" in
  reject (negb (retries =? 0)%Z) law ;?
  let? computed := canonical_value_digest binding "binding_digest"
    ("switchyard.codex-provider-admission-binding.digest/v1" +:+ NUL) in
  let? digest := string_at binding "binding_digest" in
  reject (negb (String.eqb computed digest)) law ;?
  require_strings binding (disposition_identities d) "mapper binding substitution" ;?
  let? sha256 := string_at binding "app_server_executable_sha256" in
  availability_digest "mapper executable sha256" sha256 ;?
  Ok binding.

Definition provider_execution_from_switchyard (v : value)
    : result ContractError ProviderExecutionIdentityV1 :=
  let? provider := string_at v "provider" in
  let? model := string_at v "model" in
  let? session := string_at v "app_server_session_identity" in
  let? thread := string_at v "thread_id" in
  let? turn := string_at v "turn_id" in
  let? first_response := string_at v "first_response_id" in
  Ok {| xi_provider_id := provider; xi_model_id := model;
        xi_app_server_session_identity := session; xi_thread_id := thread;
        xi_turn_id := turn; xi_first_response_id := first_response |}.

(** What the first reading collects from the records. *)
Record FirstReading := {
  fr_response_identity : option ProviderExecutionIdentityV1;
  fr_refusal_occurrence : option string;
  fr_saw_waiting_approval : bool
}.

Definition check_record_law (binding record : value) (sequence : Z)
    : result ContractError unit :=
  let law := InvalidField "mapper evidence owner law" in
  exact_object_keys record record_fields "mapper evidence closure" ;?
  let? schema := string_at record "schema" in
  reject (negb (String.eqb schema "switchyard.codex-provider-admission-evidence/v1")) law ;?
  let? found := integer record "sequence" in
  reject (negb (found =? sequence)%Z) law ;?
  let? record_binding := string_at record "binding_digest" in
  let? binding_digest := string_at binding "binding_digest" in
  reject (negb (String.eqb record_binding binding_digest)) law ;?
  let? computed := canonical_value_digest record "evidence_digest"
    ("switchyard.codex-provider-admission-evidence.digest/v1" +:+ NUL) in
  let? digest := string_at record "evidence_digest" in
  reject (negb (String.eqb computed digest)) law.

Definition read_step (normalized : value) (r : FirstReading)
    : result ContractError FirstReading :=
  let? identity := ok_or (value_get normalized "provider_execution_identity")
    (InvalidField "mapper execution identity") in
  let? observed := provider_execution_from_switchyard identity in
  execution_identity_validate observed ;?
  reject (match fr_response_identity r with
          | Some prior => negb (bool_decide (prior = observed)) | None => false end)
    (InvalidField "mapper execution substitution") ;?
  Ok {| fr_response_identity := Some observed;
        fr_refusal_occurrence := fr_refusal_occurrence r;
        fr_saw_waiting_approval := fr_saw_waiting_approval r |}.

Definition read_refusal (normalized : value) (r : FirstReading)
    : result ContractError FirstReading :=
  let law := InvalidField "mapper refusal owner law" in
  reject (negb (bool_decide (get_bool normalized "response_created" = Some false))
          || negb (bool_decide (get_bool normalized "will_retry" = Some false))) law ;?
  let? kind := string_at normalized "refusal_kind" in
  reject (negb (String.eqb kind "MODEL_AT_CAPACITY")) law ;?
  let? info := string_at normalized "codex_error_info" in
  reject (negb (String.eqb info "serverOverloaded")) law ;?
  reject (negb (match value_get normalized "provider_execution_identity" with
                | Some v => is_null v | None => false end)) law ;?
  let? occurrence := string_at normalized "request_occurrence_id" in
  Ok {| fr_response_identity := fr_response_identity r;
        fr_refusal_occurrence := Some occurrence;
        fr_saw_waiting_approval := fr_saw_waiting_approval r |}.

Definition read_approval (normalized : value) (r : FirstReading)
    : result ContractError FirstReading :=
  reject (negb (bool_decide (get_bool normalized "approval_response_sent" = Some false))
          || negb (bool_decide (get_bool normalized "protected_effect_absent" = Some true)))
    (InvalidField "mapper approval boundary") ;?
  Ok {| fr_response_identity := fr_response_identity r;
        fr_refusal_occurrence := fr_refusal_occurrence r; fr_saw_waiting_approval := true |}.

Definition read_record (d : ProviderAdmissionDispositionV1) (binding : value)
    (indexed : Z * value) (r : FirstReading) : result ContractError FirstReading :=
  let '(sequence, record) := indexed in
  check_record_law binding record sequence ;?
  require_strings record (disposition_identities d) "mapper evidence substitution" ;?
  match value_get record "raw" with
  | Some Null | None => Ok tt
  | Some raw => validate_switchyard_raw raw (switchyard_record_raw_bound record)
  end ;?
  let? normalized := ok_or (value_get record "normalized")
    (InvalidField "mapper normalized evidence") in
  let? kind := string_at record "kind" in
  if String.eqb kind "PROVIDER_EXECUTION_STEP" then read_step normalized r
  else if String.eqb kind "PROVIDER_ADMISSION_REFUSED" then read_refusal normalized r
  else if String.eqb kind "WAITING_APPROVAL" then read_approval normalized r
  else Ok r.

(** [iter().enumerate()], the position as [i64]. *)
Fixpoint enumerate_from {A} (n : Z) (l : list A) : list (Z * A) :=
  match l with [] => [] | x :: l => (n, x) :: enumerate_from (n + 1) l end.

(** [cut.filter(not null).and_then(clean).unwrap_or(false)]. *)
Definition clean_cut (snapshot : value) : bool :=
  match value_get snapshot "acquisition_cut" with
  | Some cut => negb (is_null cut) && bool_decide (get_bool cut "clean" = Some true)
  | None => false
  end.

Definition snapshot_says (snapshot : value) (expected error : string)
    : result ContractError unit :=
  let? found := string_at snapshot "admission_disposition" in
  reject (negb (String.eqb found expected)) (InvalidField error).

Definition check_reading (d : ProviderAdmissionDispositionV1) (snapshot : value)
    (r : FirstReading) : result ContractError unit :=
  reject (negb (Bool.eqb (clean_cut snapshot) (dp_acquisition_complete d)))
    (InvalidField "mapper acquisition-cut binding") ;?
  reject (fr_saw_waiting_approval r
          && (dp_approval_response_sent d || negb (dp_protected_effect_absent d)))
    (InvalidField "mapper approval substitution") ;?
  match dp_disposition d with
  | DispositionExecutionAdmitted =>
      snapshot_says snapshot "EXECUTION_ADMITTED" "mapper execution disposition" ;?
      reject (negb (bool_decide (fr_response_identity r = dp_provider_execution d))
              || absent_or_null snapshot "provider_execution_identity")
        (InvalidField "mapper execution disposition")
  | NotAdmittedModelAtCapacity =>
      snapshot_says snapshot "NOT_ADMITTED_MODEL_AT_CAPACITY"
        "mapper refusal disposition" ;?
      reject (negb (bool_decide (fr_refusal_occurrence r
                                 = Some (dp_provider_request_occurrence_id d)))
              || is_some (fr_response_identity r)
              || negb (absent_or_null snapshot "provider_execution_identity"))
        (InvalidField "mapper refusal disposition")
  | DispositionAdmissionIndeterminate =>
      snapshot_says snapshot "ADMISSION_INDETERMINATE" "mapper indeterminate disposition"
  | _ => Err (InvalidField "disposition is not emitted by accepted Switchyard V1")
  end.

Definition no_reading : FirstReading :=
  {| fr_response_identity := None; fr_refusal_occurrence := None;
     fr_saw_waiting_approval := false |}.

Definition validate_switchyard_snapshot (d : ProviderAdmissionDispositionV1) (raw : string)
    : result ContractError unit :=
  let? snapshot := map_err Json (from_slice raw) in
  switchyard_schema snapshot BoundedTurnEcho ;?
  let? canonical := map_err Json (jcs_value snapshot) in
  reject (negb (String.eqb canonical raw)) (InvalidField "mapper snapshot canonical bytes") ;?
  exact_object_keys snapshot snapshot_fields "mapper snapshot closure" ;?
  check_snapshot_digest d snapshot ;?
  let? records := ordered_records snapshot in
  let? binding := check_binding d snapshot in
  let? reading := fold_try (read_record d binding) (enumerate_from 0 records) no_reading in
  check_reading d snapshot reading.
End snapshot.
