(* ===== verification/Echo.v ===== *)
(** * Bounded turn echo (crates/nightshift-foreman/src/bounded_turn_echo.rs)

    The ordered replay of the large frames of a bounded turn: one echoed user input, the
    lifecycle of the agent's output items and the summary of the turn, within the output
    bound. *)
From S2P Require Import Prelude Text External Contract Availability Evidence Signing.
From S2P Require Import Switchyard.
Local Open Scope string_scope.

Definition OUTPUT_BYTES : N := 32768.
Definition SAFE : Z := 9007199254740991.
Definition INPUT_SHAPE : string := "bounded turn input is outside the closed echo shape".
Definition INPUT_DUPLICATE : string := "bounded turn echo permits only one selected input".
Definition ITEM_SHAPE : string :=
  "large item lifecycle is outside the selected bounded turn contract".
Definition USER_START : string := "duplicate bounded user input start".
Definition USER_COMPLETE : string := "bounded user input completion lacks exact start".
Definition USER_DUPLICATE : string := "duplicate bounded user input lifecycle event".
Definition AGENT_START : string := "duplicate bounded agent output start".
Definition AGENT_COMPLETE : string := "bounded agent output completion lacks exact start".
Definition AGENT_DELTA : string := "bounded agent delta lacks exact item start".
Definition AGENT_SUMMARY : string := "bounded turn summary lacks exact completed agent item".
Definition AGENT_TOTAL : string :=
  "bounded completed agent output exceeds decoded byte bound".

Definition known_error (detail : string) : bool :=
  existsb (String.eqb detail)
    [INPUT_SHAPE; INPUT_DUPLICATE; ITEM_SHAPE; USER_START; USER_COMPLETE; USER_DUPLICATE;
     AGENT_START; AGENT_COMPLETE; AGENT_DELTA; AGENT_SUMMARY; AGENT_TOTAL].

(** ** The closed shapes *)

Definition keys (v : value) (expected : list string) : bool :=
  match as_object v with Some kvs => has_keys kvs expected | None => false end.

Definition between (lo hi : Z) (o : option Z) : bool :=
  match o with Some z => (lo <=? z)%Z && (z <=? hi)%Z | None => false end.

Definition echo_identity (v : value) : bool :=
  match as_str v with
  | Some id => (1 <=? char_count id)%N && (char_count id <=? 512)%N
  | None => false
  end.
Definition tick (v : value) : bool := between (- SAFE) SAFE (as_i64 v).
Definition notification_wire (v : value) : bool :=
  keys v ["method"; "params"; "emittedAtMs"]
  && between 1 SAFE (as_i64 (value_index v "emittedAtMs")).
Definition output (v : value) : bool :=
  match as_str v with Some text => (strlen text <=? OUTPUT_BYTES)%N | None => false end.

(** [left["field"] == right["field"]]. *)
Definition normalize_input (v : value) : option value :=
  match v with
  | Array [input] =>
      if keys input ["type"; "text"] && str_is input "type" "text"
         && is_some (as_str (value_index input "text"))
      then Some (Array [Object [("text", value_index input "text");
                                ("text_elements", Array []); ("type", Str "text")]])
      else None
  | _ => None
  end.

Definition agent_item (item : value) : bool :=
  keys item ["type"; "id"; "text"; "phase"; "memoryCitation"; "delivery"]
  && str_is item "type" "agentMessage"
  && echo_identity (value_index item "id") && output (value_index item "text")
  && (is_null (value_index item "phase")
      || existsb (str_is item "phase") ["commentary"; "final_answer"])
  && is_null (value_index item "memoryCitation") && is_null (value_index item "delivery").

Definition item_timestamp (method : string) : string :=
  if String.eqb method "item/started" then "startedAtMs" else "completedAtMs".
Definition item_lifecycle (method : string) : bool :=
  existsb (String.eqb method) ["item/started"; "item/completed"].

Definition user_echo (method : string) (params binding : value) (input : option value) : bool :=
  let timestamp := item_timestamp method in
  let item := value_index params "item" in
  item_lifecycle method
  && keys params ["threadId"; "turnId"; "item"; timestamp]
  && same_field params "threadId" binding "thread_id"
  && same_field params "turnId" binding "turn_id"
  && tick (value_index params timestamp)
  && keys item ["type"; "id"; "clientId"; "content"]
  && str_is item "type" "userMessage"
  && echo_identity (value_index item "id")
  && is_null (value_index item "clientId")
  && match input with
     | Some input => value_eqb (value_index item "content") input | None => false end.

Definition turn_summary (turn binding : value) : bool :=
  keys turn ["id"; "items"; "itemsView"; "status"; "error"; "startedAt"; "completedAt";
             "durationMs"]
  && same_field turn "id" binding "turn_id"
  && match as_array (value_index turn "items") with
     | Some [item] => agent_item item | _ => false end
  && str_is turn "itemsView" "summary" && str_is turn "status" "completed"
  && is_null (value_index turn "error")
  && forallb (fun key => is_null (value_index turn key) || tick (value_index turn key))
       ["startedAt"; "completedAt"; "durationMs"].

Definition agent_output (method : string) (params binding : value) : bool :=
  same_field params "threadId" binding "thread_id"
  && if item_lifecycle method then
       let timestamp := item_timestamp method in
       keys params ["threadId"; "turnId"; "item"; timestamp]
       && same_field params "turnId" binding "turn_id"
       && tick (value_index params timestamp) && agent_item (value_index params "item")
     else if String.eqb method "item/agentMessage/delta" then
       keys params ["threadId"; "turnId"; "itemId"; "delta"]
       && same_field params "turnId" binding "turn_id"
       && echo_identity (value_index params "itemId") && output (value_index params "delta")
     else if String.eqb method "turn/completed" then
       keys params ["threadId"; "turn"; "emittedAtMs"]
       && tick (value_index params "emittedAtMs")
       && turn_summary (value_index params "turn") binding
     else false.

(** ** The replay *)

Record EchoState := {
  es_input : option value;
  es_user_id : option value;
  es_user_completed : bool;
  es_agent_id : option value;
  es_agent_text : option value;
  es_agent_completed : bool;
  es_completed_agent_ids : gset string;
  es_completed_output_bytes : N
}.

(** [EchoState::default()]. *)
Definition echo_default : EchoState :=
  {| es_input := None; es_user_id := None; es_user_completed := false; es_agent_id := None;
     es_agent_text := None; es_agent_completed := false; es_completed_agent_ids := ∅;
     es_completed_output_bytes := 0 |}.

Definition set_input (input : value) (s : EchoState) : EchoState :=
  {| es_input := Some input; es_user_id := es_user_id s;
     es_user_completed := es_user_completed s; es_agent_id := es_agent_id s;
     es_agent_text := es_agent_text s; es_agent_completed := es_agent_completed s;
     es_completed_agent_ids := es_completed_agent_ids s;
     es_completed_output_bytes := es_completed_output_bytes s |}.
Definition set_user (id : option value) (completed : bool) (s : EchoState) : EchoState :=
  {| es_input := es_input s; es_user_id := id; es_user_completed := completed;
     es_agent_id := es_agent_id s; es_agent_text := es_agent_text s;
     es_agent_completed := es_agent_completed s;
     es_completed_agent_ids := es_completed_agent_ids s;
     es_completed_output_bytes := es_completed_output_bytes s |}.
Definition set_agent (id text : value) (completed : bool) (ids : gset string) (bytes : N)
    (s : EchoState) : EchoState :=
  {| es_input := es_input s; es_user_id := es_user_id s;
     es_user_completed := es_user_completed s; es_agent_id := Some id;
     es_agent_text := Some text; es_agent_completed := completed;
     es_completed_agent_ids := ids; es_completed_output_bytes := bytes |}.
Definition add_output (bytes : N) (s : EchoState) : EchoState :=
  {| es_input := es_input s; es_user_id := es_user_id s;
     es_user_completed := es_user_completed s; es_agent_id := es_agent_id s;
     es_agent_text := es_agent_text s; es_agent_completed := es_agent_completed s;
     es_completed_agent_ids := es_completed_agent_ids s;
     es_completed_output_bytes := es_completed_output_bytes s + bytes |}.

(** [option.as_ref() == Some(value)]. *)
Definition holds_value (o : option value) (v : value) : bool :=
  option_eqb value_eqb o (Some v).
(** [value.as_str().unwrap_or_default()], and [value.as_str().map_or(0, str::len)]. *)
Definition str_or_default (v : value) : string :=
  match as_str v with Some s => s | None => "" end.

Definition user_transition (method : string) (id : value) (s : EchoState)
    : option string * EchoState :=
  if String.eqb method "item/started" then
    if is_some (es_user_id s) then (Some USER_START, s)
    else (None, set_user (Some id) (es_user_completed s) s)
  else if negb (holds_value (es_user_id s) id) then (Some USER_COMPLETE, s)
  else if es_user_completed s then (Some USER_DUPLICATE, s)
  else (None, set_user (es_user_id s) true s).

Definition agent_start (item : value) (s : EchoState) : option string * EchoState :=
  let id := value_index item "id" in
  if (is_some (es_agent_id s) && negb (es_agent_completed s))
     || bool_decide (str_or_default id ∈ es_completed_agent_ids s)
  then (Some AGENT_START, s)
  else (None, set_agent id (value_index item "text") false (es_completed_agent_ids s)
                (es_completed_output_bytes s) s).

Definition agent_complete (item : value) (s : EchoState) : option string * EchoState :=
  let id := value_index item "id" in
  let bytes := strlen (str_or_default (value_index item "text")) in
  if negb (holds_value (es_agent_id s) id) || es_agent_completed s then (Some AGENT_COMPLETE, s)
  else if (OUTPUT_BYTES <? es_completed_output_bytes s + bytes)%N then (Some AGENT_TOTAL, s)
  else (None, set_agent id (value_index item "text") true
                ({[str_or_default id]} ∪ es_completed_agent_ids s)
                (es_completed_output_bytes s + bytes) s).

(** [items[0]]. *)
Definition first_item (v : value) : value :=
  match as_array v with Some (item :: _) => item | _ => Null end.

Definition agent_summary (params : value) (s : EchoState) : option string :=
  let item := first_item (value_index (value_index params "turn") "items") in
  if negb (es_agent_completed s) || negb (holds_value (es_agent_id s) (value_index item "id"))
     || negb (holds_value (es_agent_text s) (value_index item "text"))
  then Some AGENT_SUMMARY else None.

Definition echo_transition (method : string) (params : value) (is_user is_agent : bool)
    (s : EchoState) : option string * EchoState :=
  if negb is_user && negb is_agent then (Some ITEM_SHAPE, s)
  else if is_user then user_transition method (value_index (value_index params "item") "id") s
  else if item_lifecycle method then
    (if String.eqb method "item/started" then agent_start else agent_complete)
      (value_index params "item") s
  else if String.eqb method "item/agentMessage/delta" then
    (if es_agent_completed s || negb (holds_value (es_agent_id s) (value_index params "itemId"))
     then Some AGENT_DELTA else None, s)
  else (agent_summary params s, s).

Section replay.
Context {HO : Host} {JP : JsonParser}.

(** The failure detail a record retains, when it is one of this replay's. *)
Definition retained_error (record : value) : option string :=
  detail ← as_str (value_index (value_index record "normalized") "detail");
  if known_error detail then Some detail else None.

Definition large_frame (raw : value) : bool :=
  match as_u64 (value_index raw "byte_length") with
  | Some n => (MAXIMUM_AVAILABILITY_EVIDENCE_BYTES <? n)%N
  | None => false
  end.

Definition echo_input (wire : value) (s : EchoState) : option string * EchoState :=
  match normalize_input (value_index (value_index wire "params") "input") with
  | Some input =>
      if is_some (es_input s) then (Some INPUT_DUPLICATE, s) else (None, set_input input s)
  | None => (Some INPUT_SHAPE, s)
  end.

(** The completed text of an item that was not selected still counts. *)
Definition unselected_output (params : value) (s : EchoState) : option string * EchoState :=
  match as_str (value_index (value_index params "item") "text") with
  | None => (None, s)
  | Some text =>
      let s := add_output (strlen text) s in
      (if (OUTPUT_BYTES <? es_completed_output_bytes s)%N then Some AGENT_TOTAL else None, s)
  end.

Definition echo_notification (record wire binding : value) (kind method : string)
    (s : EchoState) : result ContractError (option string * EchoState) :=
  let params := value_index wire "params" in
  let closed_wire := notification_wire wire in
  let is_user := closed_wire && user_echo method params binding (es_input s) in
  let is_agent := closed_wire && agent_output method params binding in
  let replayed := negb (String.eqb kind "ADMISSION_DISCREPANCY")
                  || is_some (retained_error record) in
  reject (large_frame (value_index record "raw") && negb is_user && negb is_agent)
    (InvalidField "bounded echo raw selector") ;?
  Ok (if replayed && (is_user || is_agent) then
        echo_transition method params is_user is_agent s
      else if replayed && String.eqb method "item/completed"
              && same_field params "threadId" binding "thread_id"
              && same_field params "turnId" binding "turn_id"
              && str_is (value_index params "item") "type" "agentMessage"
      then unselected_output params s
      else (None, s)).

Definition exact_failure_wire (record wire binding : value) (method : string) : bool :=
  let params := value_index wire "params" in
  if String.eqb method "client-request/turn/start" then
    str_is record "acquisition_kind" "CLIENT_REQUEST"
    && keys wire ["id"; "method"; "params"] && str_is wire "method" "turn/start"
    && between 0 SAFE (as_i64 (value_index wire "id")) && is_object params
    && same_field params "threadId" binding "thread_id"
  else str_is record "acquisition_kind" "NOTIFICATION" && notification_wire wire
       && str_is wire "method" method.

(** One record with a frame: the failure it witnesses, if any. *)
Definition echo_frame (binding record raw : value) (s : EchoState)
    : result ContractError (option string * EchoState) :=
  let? wire := decode_switchyard_raw raw (switchyard_record_raw_bound record) in
  let? method := string_at record "method" in
  let? kind := string_at record "kind" in
  let retained := retained_error record in
  let? '(expected, s) :=
    if String.eqb method "client-request/turn/start"
       && (String.eqb kind "CLIENT_REQUEST_ISSUED" || is_some retained)
    then Ok (echo_input wire s)
    else if str_is record "acquisition_kind" "NOTIFICATION"
    then echo_notification record wire binding kind method s
    else Ok (None, s) in
  match expected with
  | Some detail =>
      reject (negb (String.eqb kind "ADMISSION_DISCREPANCY")
              || negb (bool_decide (retained = Some detail)))
        (InvalidField "bounded echo ordered replay") ;?
      reject (negb (exact_failure_wire record wire binding method))
        (InvalidField "bounded echo failure wire binding") ;?
      Ok (Some detail, s)
  | None =>
      reject (is_some retained) (InvalidField "unsubstantiated bounded echo failure") ;?
      Ok (None, s)
  end.

Fixpoint echo_records (binding : value) (records : list value) (s : EchoState)
    : result ContractError (list (option string)) :=
  match records with
  | [] => Ok []
  | record :: records =>
      let? '(error, s) :=
        match value_get record "raw" with
        | Some Null | None => Ok (None, s)
        | Some raw => echo_frame binding record raw s
        end in
      let? errors := echo_records binding records s in
      Ok (error :: errors)
  end.

(** Whether a record calls for this replay. *)
Definition echo_selected (record : value) : bool :=
  (str_is record "acquisition_kind" "NOTIFICATION" && large_frame (value_index record "raw"))
  || is_some (retained_error record).

(** [bounded_turn_echo::validate_snapshot]: the failure each record witnesses. *)
Definition echo_validate_snapshot (snapshot : value) (enrolled : bool)
    : result ContractError (list (option string)) :=
  let? records := ok_or (as_array (value_index snapshot "records"))
    (InvalidField "echo records") in
  if enrolled || existsb echo_selected records
  then echo_records (value_index snapshot "binding") records echo_default
  else Ok (repeat None (length records)).
End replay.
