(* ===== verification/Replay.v ===== *)
(** * The ordered replay of a snapshot (crates/nightshift-foreman/src/execution_availability.rs)

    [validate_switchyard_snapshot_complete]: the records of a mapper snapshot are replayed
    in order, each against the frame it retains, through the state of one dispatch - the
    provider request in flight, the admitted execution, the open response, the refusal -
    and the disposition must be what that replay establishes.  [switchyard_evidence] is
    the instance of [Evidence.ProviderEvidence] the foreman runs with. *)
From S2P Require Import Prelude Text External Contract Availability Evidence Signing.
From S2P Require Import Switchyard Echo.
Local Open Scope string_scope.

(** ** The state of the replay *)

(** A provider request: occurrence, sampling ordinal, order, start in milliseconds. *)
Record PendingRequest := {
  pn_occurrence : string;
  pn_sampling_ordinal : Z;
  pn_request_order : Z;
  pn_started_at_ms : Z
}.

(** A refusal: the request, the delay the provider asked for, when it was observed. *)
Record Refusal := {
  rf_occurrence : string;
  rf_retry_after_ms : option Z;
  rf_observed_at_ms : Z
}.

Record SwitchyardReplayState := {
  rs_next_acquisition_ordinal : Z;
  rs_pending_request : option PendingRequest;
  rs_completed_request_occurrences : gset string;
  rs_last_boundary_ms : option Z;
  rs_client_requests : gmap Z (string * string);
  rs_execution : option ProviderExecutionIdentityV1;
  rs_open_response : option string;
  rs_completed_responses : gset string;
  rs_refusal : option Refusal;
  rs_saw_turn_completed : bool;
  rs_saw_approval : bool;
  rs_saw_discrepancy : bool;
  rs_cut : option value
}.

Definition replay_start : SwitchyardReplayState :=
  {| rs_next_acquisition_ordinal := 0; rs_pending_request := None;
     rs_completed_request_occurrences := ∅; rs_last_boundary_ms := None;
     rs_client_requests := ∅; rs_execution := None; rs_open_response := None;
     rs_completed_responses := ∅; rs_refusal := None; rs_saw_turn_completed := false;
     rs_saw_approval := false; rs_saw_discrepancy := false; rs_cut := None |}.

(** ** Raw replay: what a frame says against what its record says *)

Definition str_in (s : string) (l : list string) : bool := existsb (String.eqb s) l.

Definition fixture_methods : list string :=
  ["fixture/provider-admission-positive"; "fixture/provider-order-approval-before-created";
   "fixture/provider-order-loss-before-created"; "fixture/provider-order-duplicate-key";
   "fixture/provider-order-nested-duplicate-key"].
Definition owner_methods : list string :=
  ["initialize"; "thread/start"; "turn/start"; "thread/read"; "thread/resume"].
Definition approval_methods : list string :=
  ["item/commandExecution/requestApproval"; "item/fileChange/requestApproval"].
Definition local_methods : list string := ["thread/started"; "turn/started"; "turn/completed"].
Definition is_boundary (method : string) : bool :=
  starts_with method "providerAdmission/" || starts_with method "providerRequest/"
  || starts_with method "rawResponse/".

Definition started_fields : list string :=
  ["threadId"; "turnId"; "requestOccurrenceId"; "samplingOrdinal"; "requestOrder"; "provider";
   "model"; "startedAtMs"].
Definition step_fields : list string :=
  ["threadId"; "turnId"; "requestOccurrenceId"; "samplingOrdinal"; "requestOrder"; "provider";
   "model"; "responseId"; "observedAtMs"].
Definition refused_fields : list string :=
  ["threadId"; "turnId"; "requestOccurrenceId"; "samplingOrdinal"; "requestOrder"; "provider";
   "model"; "responseCreated"; "willRetry"; "refusalKind"; "codexErrorInfo"; "retryAfterMs";
   "diagnostic"; "observedAtMs"].
Definition completed_fields : list string := ["threadId"; "turnId"; "responseId"; "usage"].

(** [serde_json::json!] of an integer. *)
Definition json_int (z : Z) : value :=
  Number (if (0 <=? z)%Z then PosInt (Z.to_N z) else NegInt z).

Definition execution_value (x : ProviderExecutionIdentityV1) : value :=
  json_object
    [("provider", Str (xi_provider_id x)); ("model", Str (xi_model_id x));
     ("app_server_session_identity", Str (xi_app_server_session_identity x));
     ("thread_id", Str (xi_thread_id x)); ("turn_id", Str (xi_turn_id x));
     ("first_response_id", Str (xi_first_response_id x))].

Section replay.
Context {HO : Host} {SV : Serde value} {JP : JsonParser} {VS : VendoredSchemas}.

Definition not_admission : value := json_object [("proves_provider_admission", Bool false)].

Definition validate_discrepancy (normalized : value)
    (execution : option ProviderExecutionIdentityV1) (expected_detail : option string)
    : result ContractError unit :=
  exact_object_keys normalized
    ["detail"; "provider_execution_identity"; "resume_same_attempt_only"]
    "rawless acquisition loss normalized closure" ;?
  let expected := match execution with Some x => execution_value x | None => Null end in
  let? detail := string_at normalized "detail" in
  reject (str_is_empty detail
          || match expected_detail with
             | Some e => negb (String.eqb detail e) | None => false end
          || negb (field_eqb normalized "provider_execution_identity" expected)
          || negb (bool_decide (get_bool normalized "resume_same_attempt_only"
                                = Some (is_some execution))))
    (InvalidField "acquisition discrepancy replay").

Definition replay_loss (kind method : string) (normalized raw : value)
    (execution : option ProviderExecutionIdentityV1) : result ContractError unit :=
  reject (negb (String.eqb kind "ADMISSION_DISCREPANCY")
          || negb (String.eqb method "adapter/acquisition"))
    (InvalidField "loss evidence kind") ;?
  (if is_null raw then Ok tt
   else validate_switchyard_raw raw MAXIMUM_AVAILABILITY_EVIDENCE_BYTES ;?
        let? representation := string_at raw "representation" in
        reject (negb (String.eqb representation EXACT_FRAME))
          (InvalidField "loss raw representation")) ;?
  validate_discrepancy normalized execution None.

(** The details a rawless discrepancy of an ordered lane may carry. *)
Definition ordered_details : list string :=
  ["ordered acquisition ordinal gap, duplicate, or reorder";
   "ordered message envelope shape mismatch";
   "ordered provider message unexpectedly carries a request method";
   "client request lacks exact bounded request method";
   "client response lacks exact bounded request method"].
Definition custody_details : list string :=
  ["exact App Server wire bytes are required"; "App Server evidence exceeds exact byte bound";
   "exact App Server wire bytes lack line terminator";
   "retained App Server wire bytes differ from parsed message"].

Definition check_rawless_lane (lane : option string) (method : string) (normalized : value)
    : result ContractError unit :=
  match lane with
  | None => Ok tt
  | Some lane =>
      if str_in lane ["NOTIFICATION"; "SERVER_REQUEST"; "CLIENT_REQUEST"; "CLIENT_RESPONSE"]
      then
        let? detail := string_at normalized "detail" in
        let ordered := String.eqb method "adapter/acquisition" && str_in detail ordered_details in
        let raw_custody :=
          str_in lane ["NOTIFICATION"; "SERVER_REQUEST"]
          && negb (String.eqb method "adapter/acquisition")
          && (str_in detail custody_details
              || starts_with detail "invalid retained App Server wire JSON:") in
        reject (negb ordered && negb raw_custody)
          (InvalidField "rawless ordered discrepancy detail")
      else Err (InvalidField "rawless discrepancy acquisition kind")
  end.

Definition replay_rawless (record normalized : value) (kind method : string)
    (lane : option string) (execution : option ProviderExecutionIdentityV1)
    : result ContractError unit :=
  if String.eqb kind "ADMISSION_DISCREPANCY" && bool_decide (lane = Some "UNKNOWN")
     && String.eqb method "adapter/acquisition"
  then validate_discrepancy normalized execution
         (Some "unknown ordered acquisition envelope kind")
  else if String.eqb kind "LOCAL_TURN_FACT"
          && field_eqb record "acquisition_ordinal" Null && is_none lane
          && str_in method ["thread/start"; "turn/start"; "turn/started"; "worker_started"]
          && value_eqb normalized not_admission
  then Ok tt
  else if String.eqb kind "ADMISSION_DISCREPANCY" then
    check_rawless_lane lane method normalized ;?
    validate_discrepancy normalized execution None
  else Err (InvalidField "raw replay evidence absence").

(** *** The client lane *)

(** [wire.get("id").and_then(as_i64).filter(..)]. *)
Definition request_id_of (wire : value) : option Z :=
  id ← get_i64 wire "id";
  if (0 <=? id)%Z && (id <=? SAFE)%Z then Some id else None.

Definition client_request_fields (wire_object : list (string * value)) : list string :=
  if contains_key wire_object "params" then ["id"; "method"; "params"] else ["id"; "method"].

(** [value.get(outer).and_then(get(inner)).and_then(as_str)]. *)
Definition nested_str (v : value) (outer inner : string) : option string :=
  value_get v outer ≫= (fun w => get_str w inner).

Definition client_request_detail (wire binding : value)
    (wire_object : list (string * value)) (request_method : string)
    (client_requests : gmap Z (string * string)) : result ContractError string :=
  match request_id_of wire with
  | None => Ok "invalid client request id"
  | Some request_id =>
      if negb (has_keys wire_object (client_request_fields wire_object))
         || negb (bool_decide (get_str wire "method" = Some request_method))
      then Ok "client request method or closed shape substitution"
      else if match value_get wire "params" with
              | Some v => negb (is_null v) && negb (is_object v) | None => false end
      then Ok "client request params are not an object"
      else
        let? fixture_refused :=
          if str_in request_method fixture_methods then
            let? kind := string_at binding "executable_kind" in
            Ok (negb (String.eqb kind "DETERMINISTIC_FIXTURE"))
          else Ok false in
        if fixture_refused
        then Ok "fixture client request is not permitted for a campaign Codex build"
        else if negb (str_in request_method (owner_methods ++ fixture_methods))
        then Ok "unknown client request method"
        else
          let? thread_substituted :=
            if str_in request_method ["turn/start"; "thread/read"; "thread/resume"] then
              let? thread_id := string_at binding "thread_id" in
              Ok (negb (bool_decide (nested_str wire "params" "threadId" = Some thread_id)))
            else Ok false in
          if thread_substituted then Ok "client request thread identity substitution"
          else if is_some (client_requests !! request_id)
          then Ok "duplicate client request identity"
          else Err (InvalidField "valid client request recorded as discrepancy")
  end.

Definition thread_detail (request_method : string) : string :=
  if String.eqb request_method "thread/start"
  then "thread/start response thread identity substitution"
  else if String.eqb request_method "thread/read"
  then "thread/read response thread identity substitution"
  else "thread/resume response thread identity substitution".

Definition client_response_detail (wire binding : value)
    (wire_object : list (string * value)) (request_method : string)
    (client_requests : gmap Z (string * string)) : result ContractError string :=
  match request_id_of wire with
  | None => Ok "invalid client response id"
  | Some request_id =>
      if negb (match client_requests !! request_id with
               | Some expected => String.eqb expected.1 request_method | None => false end)
      then Ok "client response request identity or method substitution"
      else
        let has_result := contains_key wire_object "result" in
        let has_error := contains_key wire_object "error" in
        let answer := value_index wire "result" in
        if Bool.eqb has_result has_error
           || negb (has_keys wire_object ["id"; if has_result then "result" else "error"])
        then Ok "client response has non-closed result/error shape"
        else if has_error then Ok "client request returned an App Server error"
        else if negb (is_object answer) then Ok "client response result is not an object"
        else
          let? thread_substituted :=
            if str_in request_method ["thread/start"; "thread/read"; "thread/resume"] then
              let? thread_id := string_at binding "thread_id" in
              Ok (negb (bool_decide (nested_str answer "thread" "id" = Some thread_id)))
            else Ok false in
          if thread_substituted then Ok (thread_detail request_method)
          else
            let? turn_substituted :=
              if String.eqb request_method "turn/start" then
                let? turn_id := string_at binding "turn_id" in
                Ok (negb (bool_decide (nested_str answer "turn" "id" = Some turn_id)))
              else Ok false in
            if turn_substituted then Ok "turn/start response turn identity substitution"
            else Err (InvalidField "valid client response recorded as discrepancy")
  end.

Definition client_discrepancy_detail (wire binding : value)
    (wire_object : list (string * value)) (lane : option string) (method : string)
    (client_requests : gmap Z (string * string)) : result ContractError string :=
  let request := bool_decide (lane = Some "CLIENT_REQUEST") in
  let? request_method := ok_or
    (strip_prefix method (if request then "client-request/" else "client-response/"))
    (InvalidField "client discrepancy retained method") in
  (if request then client_request_detail else client_response_detail)
    wire binding wire_object request_method client_requests.

(** The identity a retained response must name. *)
Definition check_response_identity (answer binding : value) (request_method : string)
    : result ContractError unit :=
  if str_in request_method ["thread/start"; "thread/read"; "thread/resume"] then
    let? thread_id := string_at binding "thread_id" in
    reject (negb (bool_decide (nested_str answer "thread" "id" = Some thread_id)))
      (InvalidField "client response thread identity")
  else if String.eqb request_method "turn/start" then
    let? turn_id := string_at binding "turn_id" in
    reject (negb (bool_decide (nested_str answer "turn" "id" = Some turn_id)))
      (InvalidField "client response turn identity")
  else Ok tt.

Definition json_digest (v : value) : result ContractError string :=
  let? canonical := map_err Json (jcs_value v) in
  Ok (plain_sha256 canonical).

Definition replay_client_response (wire normalized binding : value) (method : string)
    : result ContractError unit :=
  let unbound := InvalidField "client response raw normalized binding" in
  exact_object_keys wire ["id"; "result"] "client response raw closure" ;?
  let? request_id := integer wire "id" in
  let? answer := ok_or
    (match value_get wire "result" with
     | Some v => if is_object v then Some v else None | None => None end)
    (InvalidField "client response result") in
  let? normalized_id := integer normalized "request_id" in
  reject (negb (normalized_id =? request_id)%Z) unbound ;?
  reject (negb (bool_decide (get_bool normalized "proves_provider_admission" = Some false)))
    unbound ;?
  let? digest := json_digest answer in
  let? result_sha256 := string_at normalized "result_sha256" in
  reject (negb (String.eqb digest result_sha256)) unbound ;?
  let? request_method := string_at normalized "request_method" in
  reject (negb (String.eqb method ("client-response/" +:+ request_method))) unbound ;?
  check_response_identity answer binding request_method.

Definition replay_client_request (wire normalized binding : value)
    (wire_object : list (string * value)) (method : string) : result ContractError unit :=
  let unbound := InvalidField "client request raw normalized binding" in
  let? request_method := ok_or (strip_prefix method "client-request/")
    (InvalidField "client request retained method") in
  let? fixture_method :=
    if str_in request_method fixture_methods then
      let? kind := string_at binding "executable_kind" in
      Ok (String.eqb kind "DETERMINISTIC_FIXTURE")
    else Ok false in
  reject (negb (str_in request_method owner_methods) && negb fixture_method)
    (InvalidField "client request owner method") ;?
  reject (negb (bool_decide (assoc_get "method" wire_object ≫= as_str = Some request_method)))
    (InvalidField "client request method binding") ;?
  let? normalized_method := string_at normalized "request_method" in
  reject (negb (String.eqb normalized_method request_method))
    (InvalidField "client request method binding") ;?
  exact_object_keys wire (client_request_fields wire_object) "client request raw closure" ;?
  let params := value_index wire "params" in
  reject (negb (is_null params) && negb (is_object params))
    (InvalidField "client request params") ;?
  (if str_in request_method ["turn/start"; "thread/read"; "thread/resume"] then
     let? thread_id := string_at binding "thread_id" in
     reject (negb (bool_decide (get_str params "threadId" = Some thread_id)))
       (InvalidField "client request thread identity")
   else Ok tt) ;?
  let? wire_id := integer wire "id" in
  let? normalized_id := integer normalized "request_id" in
  reject (negb (wire_id =? normalized_id)%Z) unbound ;?
  reject (negb (bool_decide (get_bool normalized "proves_provider_admission" = Some false)))
    unbound ;?
  let? digest := json_digest params in
  let? params_sha256 := string_at normalized "params_sha256" in
  reject (negb (String.eqb digest params_sha256)) unbound.

(** *** The provider lane *)

Definition common_request (params binding : value) (fields : list string)
    : result ContractError unit :=
  exact_object_keys params fields "provider raw params closure" ;?
  let? thread_id := string_at binding "thread_id" in
  let? turn_id := string_at binding "turn_id" in
  let? provider := string_at binding "provider" in
  let? model := string_at binding "model" in
  require_strings params
    [("threadId", thread_id); ("turnId", turn_id); ("provider", provider); ("model", model)]
    "provider raw identity binding".

Definition replay_request_started (params normalized binding : value)
    : result ContractError unit :=
  common_request params binding started_fields ;?
  let? occurrence := string_at params "requestOccurrenceId" in
  let? sampling_ordinal := integer params "samplingOrdinal" in
  let? request_order := integer params "requestOrder" in
  let? started_at_ms := integer params "startedAtMs" in
  reject (negb (value_eqb normalized (json_object
      [("request_occurrence_id", Str occurrence);
       ("sampling_ordinal", json_int sampling_ordinal);
       ("request_order", json_int request_order); ("started_at_ms", json_int started_at_ms);
       ("proves_provider_admission", Bool false)])))
    (InvalidField "provider request raw replay").

(** The execution a response belongs to: the one already admitted, or the one it opens. *)
Definition first_identity (binding : value) (execution : option ProviderExecutionIdentityV1)
    (response_id : string) : result ContractError ProviderExecutionIdentityV1 :=
  let? provider := string_at binding "provider" in
  let? model := string_at binding "model" in
  let? session := string_at binding "app_server_session_identity" in
  let? thread := string_at binding "thread_id" in
  let? turn := string_at binding "turn_id" in
  Ok match execution with
     | Some x => x
     | None => {| xi_provider_id := provider; xi_model_id := model;
                  xi_app_server_session_identity := session; xi_thread_id := thread;
                  xi_turn_id := turn; xi_first_response_id := response_id |}
     end.

Definition replay_execution_step (params normalized binding : value)
    (execution : option ProviderExecutionIdentityV1) : result ContractError unit :=
  common_request params binding step_fields ;?
  let? response_id := string_at params "responseId" in
  let? first := first_identity binding execution response_id in
  let? provider := string_at params "provider" in
  let? model := string_at params "model" in
  let? thread := string_at params "threadId" in
  let? turn := string_at params "turnId" in
  let? occurrence := string_at params "requestOccurrenceId" in
  let? sampling_ordinal := integer params "samplingOrdinal" in
  let? request_order := integer params "requestOrder" in
  let? observed_at_ms := integer params "observedAtMs" in
  reject (negb (value_eqb normalized (json_object
      [("provider_execution_identity", execution_value first);
       ("provider_execution_step_identity", json_object
          [("provider", Str provider); ("model", Str model); ("thread_id", Str thread);
           ("turn_id", Str turn); ("request_occurrence_id", Str occurrence);
           ("sampling_ordinal", json_int sampling_ordinal);
           ("request_order", json_int request_order); ("response_id", Str response_id)]);
       ("first_admission_boundary", Bool (is_none execution));
       ("observed_at_ms", json_int observed_at_ms)])))
    (InvalidField "provider step raw replay").

Definition replay_refused (params normalized binding : value) : result ContractError unit :=
  common_request params binding refused_fields ;?
  let? occurrence := string_at params "requestOccurrenceId" in
  let? sampling_ordinal := integer params "samplingOrdinal" in
  let? request_order := integer params "requestOrder" in
  let? observed_at_ms := integer params "observedAtMs" in
  let expected := json_object
    [("request_occurrence_id", Str occurrence); ("sampling_ordinal", json_int sampling_ordinal);
     ("request_order", json_int request_order);
     ("response_created", value_index params "responseCreated");
     ("will_retry", value_index params "willRetry"); ("refusal_kind", Str "MODEL_AT_CAPACITY");
     ("codex_error_info", Str "serverOverloaded");
     ("retry_after_ms", value_index params "retryAfterMs");
     ("diagnostic", value_index params "diagnostic");
     ("observed_at_ms", json_int observed_at_ms); ("provider_execution_identity", Null)] in
  reject (negb (str_is params "refusalKind" "modelAtCapacity")
          || negb (str_is params "codexErrorInfo" "serverOverloaded")
          || negb (value_eqb (value_index params "responseCreated") (Bool false))
          || negb (value_eqb (value_index params "willRetry") (Bool false))
          || negb (value_eqb normalized expected))
    (InvalidField "provider refusal raw replay").

Definition replay_response_completed (params normalized binding : value)
    : result ContractError unit :=
  let differs := InvalidField "completion raw replay" in
  exact_object_keys params completed_fields "completion params closure" ;?
  let? thread := string_at params "threadId" in
  let? thread_id := string_at binding "thread_id" in
  reject (negb (String.eqb thread thread_id)) differs ;?
  let? turn := string_at params "turnId" in
  let? turn_id := string_at binding "turn_id" in
  reject (negb (String.eqb turn turn_id)) differs ;?
  let? response_id := string_at params "responseId" in
  reject (negb (value_eqb normalized (json_object
      [("response_id", Str response_id); ("proves_new_admission", Bool false)]))) differs.

Definition replay_approval (params normalized binding : value) (method : string)
    (execution : option ProviderExecutionIdentityV1) : result ContractError unit :=
  let differs := InvalidField "approval raw replay" in
  reject (negb (str_in method approval_methods)) differs ;?
  let? thread := string_at params "threadId" in
  let? thread_id := string_at binding "thread_id" in
  reject (negb (String.eqb thread thread_id)) differs ;?
  let? turn := string_at params "turnId" in
  let? turn_id := string_at binding "turn_id" in
  reject (negb (String.eqb turn turn_id)) differs ;?
  let? x := ok_or execution (InvalidField "approval before execution") in
  reject (negb (value_eqb normalized (json_object
      [("approval_response_sent", Bool false); ("protected_effect_absent", Bool true);
       ("provider_execution_identity", execution_value x)])))
    (InvalidField "approval normalized replay").

Definition replay_local_fact (params normalized binding : value) (method : string)
    : result ContractError unit :=
  let? matches :=
    if String.eqb method "thread/started" then
      let? thread_id := string_at binding "thread_id" in
      Ok (bool_decide (nested_str params "thread" "id" = Some thread_id))
    else if str_in method ["turn/started"; "turn/completed"] then
      let? thread_id := string_at binding "thread_id" in
      if bool_decide (get_str params "threadId" = Some thread_id) then
        let? turn_id := string_at binding "turn_id" in
        Ok (bool_decide (nested_str params "turn" "id" = Some turn_id))
      else Ok false
    else Ok false in
  reject (negb matches) (InvalidField "local turn raw identity") ;?
  reject (negb (value_eqb normalized not_admission)) (InvalidField "local fact normalized replay").

Definition replay_watermark (normalized : value) (method : string)
    : result ContractError unit :=
  reject (String.eqb method "error" || str_in method local_methods || is_boundary method
          || negb (value_eqb normalized not_admission))
    (InvalidField "watermark normalized replay").

(** *** Discrepancies: the one detail the frame and the state derive *)

(** What every derivation reads: the parameters of the notification and whether they name
    the thread and the turn of the binding. *)
Record Notification := {
  nt_method : string;
  nt_params : value;
  nt_binding : value;
  nt_thread_matches : bool;
  nt_turn_matches : bool
}.

Definition bounded_identity (params : value) (field : string) : bool :=
  match get_str params field with
  | Some s => (1 <=? char_count s)%N && (char_count s <=? 512)%N
  | None => false
  end.
Definition bounded_integer (params : value) (field : string) (minimum maximum : Z) : bool :=
  between minimum maximum (get_i64 params field).
Definition safe_integer (params : value) (field : string) : bool :=
  bounded_integer params field (- SAFE) SAFE.
Definition U32_MAX : Z := 4294967295.

(** [string(params, field).ok() != Some(string(binding, field)?)]. *)
Definition substituted (n : Notification) (field : string) : result ContractError bool :=
  let? expected := string_at (nt_binding n) field in
  Ok (negb (bool_decide (get_str (nt_params n) field = Some expected))).

Definition before_boundary (params : value) (field : string) (boundary : option Z) : bool :=
  match boundary, get_i64 params field with
  | Some boundary, Some z => (z <? boundary)%Z
  | _, _ => false
  end.

(** The request in flight is not exactly the one the notification names. *)
Definition not_pending (params : value) (pending : option PendingRequest) : bool :=
  match pending with
  | None => true
  | Some p =>
      negb (bool_decide (get_str params "requestOccurrenceId" = Some (pn_occurrence p)))
      || negb (bool_decide (get_i64 params "samplingOrdinal" = Some (pn_sampling_ordinal p)))
      || negb (bool_decide (get_i64 params "requestOrder" = Some (pn_request_order p)))
  end.

(** The observation does not follow the start of the request in flight. *)
Definition before_request (params : value) (pending : option PendingRequest) : bool :=
  match pending with
  | None => false
  | Some p => match get_i64 params "observedAtMs" with
              | None => true | Some observed => (observed <? pn_started_at_ms p)%Z end
  end.

(** The checks the three provider notifications share; [None] when all of them pass. *)
Definition provider_identity_detail (n : Notification) (fields : list string)
    : result ContractError (option string) :=
  let params := nt_params n in
  if negb (keys params fields)
  then Ok (Some "closed provider notification fields do not match")
  else if negb (nt_thread_matches n)
  then Ok (Some "provider notification threadId substitution")
  else if negb (nt_turn_matches n) then Ok (Some "provider notification turnId substitution")
  else
    let? provider := substituted n "provider" in
    if provider then Ok (Some "provider notification provider substitution")
    else
      let? model := substituted n "model" in
      Ok (if model then Some "provider notification model substitution"
          else if negb (bounded_identity params "requestOccurrenceId")
          then Some "invalid requestOccurrenceId"
          else if negb (bounded_integer params "samplingOrdinal" 0 U32_MAX)
          then Some "invalid samplingOrdinal"
          else if negb (bounded_integer params "requestOrder" 0 U32_MAX)
          then Some "invalid requestOrder"
          else None).

Definition request_started_detail (n : Notification) (s : SwitchyardReplayState)
    : result ContractError string :=
  let params := nt_params n in
  let expected := Z.of_nat (size (rs_completed_request_occurrences s)) in
  let? shared := provider_identity_detail n started_fields in
  match shared with
  | Some detail => Ok detail
  | None =>
      if negb (safe_integer params "startedAtMs") then Ok "invalid startedAtMs"
      else if before_boundary params "startedAtMs" (rs_last_boundary_ms s)
      then Ok "provider request time precedes retained boundary"
      else if is_some (rs_pending_request s)
      then Ok "new provider request hides an unresolved request occurrence"
      else if is_some (rs_open_response s)
      then Ok "new provider request precedes exact response completion"
      else if is_some (rs_refusal s)
      then Ok "provider request follows closed dispatch disposition"
      else if negb (bool_decide (get_i64 params "samplingOrdinal" = Some expected))
              || negb (bool_decide (get_i64 params "requestOrder" = Some expected))
      then Ok "provider request ordering or hidden retry discrepancy"
      else if match get_str params "requestOccurrenceId" with
              | Some id => bool_decide (id ∈ rs_completed_request_occurrences s)
              | None => false end
      then Ok "duplicate provider request occurrence identity"
      else if match get_i64 params "samplingOrdinal" with
              | Some z => (0 <? z)%Z | None => false end && is_none (rs_execution s)
      then Ok "multiple pre-admission sampling requests are not allowed"
      else Err (InvalidField "valid provider request recorded as discrepancy")
  end.

Definition response_started_detail (n : Notification) (s : SwitchyardReplayState)
    : result ContractError string :=
  let params := nt_params n in
  let? shared := provider_identity_detail n step_fields in
  match shared with
  | Some detail => Ok detail
  | None =>
      if not_pending params (rs_pending_request s)
      then Ok "provider boundary has no exact pending request"
      else if negb (bounded_identity params "responseId") then Ok "invalid responseId"
      else if negb (safe_integer params "observedAtMs") then Ok "invalid observedAtMs"
      else if before_request params (rs_pending_request s)
      then Ok "response-created time precedes request start"
      else if match get_str params "responseId" with
              | Some id => bool_decide (id ∈ rs_completed_responses s)
                           || bool_decide (rs_open_response s = Some id)
              | None => false end
      then Ok "duplicate upstream response identity"
      else Err (InvalidField "valid response-created boundary recorded as discrepancy")
  end.

Definition refused_detail (n : Notification) (s : SwitchyardReplayState)
    : result ContractError string :=
  let params := nt_params n in
  let? shared := provider_identity_detail n refused_fields in
  match shared with
  | Some detail => Ok detail
  | None =>
      if not_pending params (rs_pending_request s)
      then Ok "provider boundary has no exact pending request"
      else if is_some (rs_execution s) then Ok "provider refusal follows admitted execution"
      else if negb (field_eqb params "responseCreated" (Bool false))
              || negb (field_eqb params "willRetry" (Bool false))
      then Ok "provider refusal does not prove terminal pre-created state"
      else if negb (field_eqb params "refusalKind" (Str "modelAtCapacity"))
      then Ok "unknown provider refusal kind"
      else if negb (field_eqb params "codexErrorInfo" (Str "serverOverloaded"))
      then Ok "provider refusal typed error mismatch"
      else if negb (field_eqb params "retryAfterMs" Null)
              && negb (bounded_integer params "retryAfterMs" 0 SAFE)
      then Ok "invalid retryAfterMs"
      else if match get_str params "diagnostic" with
              | Some s => (4096 <? char_count s)%N | None => true end
      then Ok "provider refusal diagnostic exceeds bound"
      else if negb (safe_integer params "observedAtMs") then Ok "invalid observedAtMs"
      else if before_request params (rs_pending_request s)
      then Ok "provider refusal time precedes request start"
      else Err (InvalidField "valid provider refusal recorded as discrepancy")
  end.

Definition response_completed_detail (n : Notification) (s : SwitchyardReplayState)
    : result ContractError string :=
  let params := nt_params n in
  if negb (keys params completed_fields)
  then Ok "closed response-completed fields do not match"
  else if is_none (rs_execution s)
  then Ok "response completion lacks an exact response-created boundary"
  else if negb (nt_thread_matches n) || negb (nt_turn_matches n)
  then Ok "response completion identity substitution"
  else if negb (bool_decide (get_str params "responseId" = rs_open_response s))
  then Ok "response completion has no exact admitted response identity"
  else Err (InvalidField "valid response completion recorded as discrepancy").

Definition server_request_detail (n : Notification) (s : SwitchyardReplayState)
    : result ContractError string :=
  if negb (str_in (nt_method n) approval_methods) then Ok "unknown App Server server request"
  else if negb (nt_thread_matches n) || negb (nt_turn_matches n)
  then Ok "approval identity substitution"
  else if is_none (rs_execution s) then Ok "approval request preceded provider admission"
  else if is_some (rs_open_response s)
  then Ok "approval request preceded exact response completion"
  else Err (InvalidField "valid approval recorded as discrepancy").

(** The parameters of a notification are an object here: anything else was read as the
    empty object, so the source's branch for other values cannot be taken. *)
Definition local_fact_detail (n : Notification) (s : SwitchyardReplayState)
    : result ContractError string :=
  let params := nt_params n in
  let thread_started := String.eqb (nt_method n) "thread/started" in
  let completed := String.eqb (nt_method n) "turn/completed" in
  let open := is_some (rs_pending_request s) || is_some (rs_open_response s) in
  let? thread_matches :=
    if thread_started then
      let? thread_id := string_at (nt_binding n) "thread_id" in
      Ok (bool_decide (nested_str params "thread" "id" = Some thread_id))
    else Ok (nt_thread_matches n) in
  let? turn_matches :=
    if thread_started then Ok true
    else let? turn_id := string_at (nt_binding n) "turn_id" in
         Ok (bool_decide (nested_str params "turn" "id" = Some turn_id)) in
  if negb thread_matches then Ok "local fact thread identity substitution"
  else if negb turn_matches then Ok "local fact turn identity substitution"
  else if completed && is_none (rs_execution s) && negb (is_some (rs_refusal s) && negb open)
  then Ok "turn completed without exact provider execution identity"
  else if completed && is_some (rs_execution s) && (open || rs_saw_approval s)
  then Ok "turn completed before exact response/approval sequence closed"
  else Err (InvalidField "valid local fact recorded as discrepancy").

Definition boundary_detail (n : Notification) (s : SwitchyardReplayState)
    : result ContractError string :=
  let method := nt_method n in
  if String.eqb method "providerRequest/started" then request_started_detail n s
  else if String.eqb method "rawResponse/started" then response_started_detail n s
  else if String.eqb method "providerAdmission/refused" then refused_detail n s
  else if String.eqb method "rawResponse/completed" then response_completed_detail n s
  else if is_boundary method then Ok "unknown provider-boundary notification"
  else Err (InvalidField "non-derivable discrepancy raw replay").

(** The wire's method is the record's, or one too long or no string at all retained as
    [unknown]: then that is the detail. *)
Definition method_detail (wire_method : option string) (method : string)
    : result ContractError (option string) :=
  match wire_method with
  | None =>
      reject (negb (String.eqb method "unknown"))
        (InvalidField "malformed method retained identity") ;?
      Ok (Some "App Server method is not a string")
  | Some wire_method =>
      if (512 <? char_count wire_method)%N then
        reject (negb (String.eqb method "unknown"))
          (InvalidField "overbound method retained identity") ;?
        Ok (Some "App Server method exceeds identity bound")
      else
        reject (negb (String.eqb wire_method method))
          (InvalidField "discrepancy raw method record binding") ;?
        Ok None
  end.

Definition is_server_request (lane : option string) (method : string) (normalized : value)
    : bool :=
  bool_decide (lane = Some "SERVER_REQUEST")
  || is_none lane && str_in method approval_methods
  || is_none lane
     && bool_decide (get_str normalized "detail" = Some "unknown App Server server request").

Definition discrepancy_detail (lane wire_method : option string) (normalized : value)
    (n : Notification) (s : SwitchyardReplayState) : result ContractError string :=
  let method := nt_method n in
  let? unread := method_detail wire_method method in
  match unread with
  | Some detail => Ok detail
  | None =>
      if rs_saw_discrepancy s then
        Ok (if is_some (rs_execution s)
            then "provider evidence followed a post-admission interruption"
            else "provider evidence followed an indeterminate dispatch")
      else if rs_saw_turn_completed s && is_some (rs_execution s)
      then Ok "App Server activity followed completed turn"
      else if rs_saw_approval s
              && (bool_decide (lane = Some "SERVER_REQUEST") || is_boundary method)
      then Ok "provider activity followed unanswered approval"
      else if String.eqb method "error"
      then Ok "coarse or unclassified App Server error cannot establish admission"
      else if is_server_request lane method normalized then server_request_detail n s
      else if str_in method local_methods then local_fact_detail n s
      else boundary_detail n s
  end.

Definition replay_discrepancy (lane wire_method : option string) (method : string)
    (params normalized binding : value) (s : SwitchyardReplayState) : result ContractError unit :=
  let? thread_id := string_at binding "thread_id" in
  let? turn_id := string_at binding "turn_id" in
  let n := {| nt_method := method; nt_params := params; nt_binding := binding;
              nt_thread_matches := bool_decide (get_str params "threadId" = Some thread_id);
              nt_turn_matches := bool_decide (get_str params "turnId" = Some turn_id) |} in
  let? detail := discrepancy_detail lane wire_method normalized n s in
  validate_discrepancy normalized (rs_execution s) (Some detail).

(** *** One record against its frame *)

Definition replay_provider_frame (kind method : string) (lane wire_method : option string)
    (params normalized binding : value) (s : SwitchyardReplayState) : result ContractError unit :=
  if String.eqb kind "PROVIDER_REQUEST_STARTED"
  then replay_request_started params normalized binding
  else if String.eqb kind "PROVIDER_EXECUTION_STEP"
  then replay_execution_step params normalized binding (rs_execution s)
  else if String.eqb kind "PROVIDER_ADMISSION_REFUSED"
  then replay_refused params normalized binding
  else if String.eqb kind "PROVIDER_RESPONSE_COMPLETED"
  then replay_response_completed params normalized binding
  else if String.eqb kind "WAITING_APPROVAL"
  then replay_approval params normalized binding method (rs_execution s)
  else if String.eqb kind "LOCAL_TURN_FACT"
  then replay_local_fact params normalized binding method
  else if String.eqb kind "ACQUISITION_WATERMARK" then replay_watermark normalized method
  else if String.eqb kind "ADMISSION_DISCREPANCY"
  then replay_discrepancy lane wire_method method params normalized binding s
  else Err (InvalidField "raw replay evidence kind").

(** The parameters of a notification, an empty object when they are none. *)
Definition params_of (wire : value) : value :=
  match value_get wire "params" with
  | Some (Object kvs) => Object kvs
  | _ => Object []
  end.

Definition replay_frame (record binding normalized raw : value) (kind method : string)
    (lane : option string) (echo_error : option string) (s : SwitchyardReplayState)
    : result ContractError unit :=
  let? wire := decode_switchyard_raw raw (switchyard_record_raw_bound record) in
  let? wire_object := ok_or (as_object wire) (InvalidField "raw replay object") in
  match echo_error with
  | Some detail =>
      reject (rs_saw_discrepancy s || rs_saw_turn_completed s && is_some (rs_execution s))
        (InvalidField "bounded echo failure after closed state") ;?
      validate_discrepancy normalized (rs_execution s) (Some detail)
  | None =>
      if String.eqb kind "ADMISSION_DISCREPANCY"
         && match lane with
            | Some lane => str_in lane ["CLIENT_REQUEST"; "CLIENT_RESPONSE"]
            | None => false end
      then
        let? detail := client_discrepancy_detail wire binding wire_object lane method
                         (rs_client_requests s) in
        validate_discrepancy normalized (rs_execution s) (Some detail)
      else if String.eqb kind "CLIENT_RESPONSE_RETAINED"
      then replay_client_response wire normalized binding method
      else if String.eqb kind "CLIENT_REQUEST_ISSUED"
      then replay_client_request wire normalized binding wire_object method
      else
        let wire_method := assoc_get "method" wire_object ≫= as_str in
        reject (negb (String.eqb kind "ADMISSION_DISCREPANCY")
                && negb (bool_decide (wire_method = Some method)))
          (InvalidField "raw method record binding") ;?
        replay_provider_frame kind method lane wire_method (params_of wire) normalized binding s
  end.

Definition validate_switchyard_raw_replay (record binding : value)
    (echo_error : option string) (s : SwitchyardReplayState) : result ContractError unit :=
  let? kind := string_at record "kind" in
  let? method := string_at record "method" in
  let? normalized := ok_or (value_get record "normalized")
    (InvalidField "raw replay normalized") in
  let? raw := ok_or (value_get record "raw") (InvalidField "raw replay custody") in
  let lane := get_str record "acquisition_kind" in
  if bool_decide (lane = Some "LOSS")
  then replay_loss kind method normalized raw (rs_execution s)
  else if is_null raw then replay_rawless record normalized kind method lane (rs_execution s)
  else replay_frame record binding normalized raw kind method lane echo_error s.

(** ** The transitions *)

Definition with_ordinal (n : Z) (s : SwitchyardReplayState) : SwitchyardReplayState :=
  {| rs_next_acquisition_ordinal := n; rs_pending_request := rs_pending_request s;
     rs_completed_request_occurrences := rs_completed_request_occurrences s;
     rs_last_boundary_ms := rs_last_boundary_ms s; rs_client_requests := rs_client_requests s;
     rs_execution := rs_execution s; rs_open_response := rs_open_response s;
     rs_completed_responses := rs_completed_responses s; rs_refusal := rs_refusal s;
     rs_saw_turn_completed := rs_saw_turn_completed s; rs_saw_approval := rs_saw_approval s;
     rs_saw_discrepancy := rs_saw_discrepancy s; rs_cut := rs_cut s |}.
Definition with_pending (p : option PendingRequest) (s : SwitchyardReplayState)
    : SwitchyardReplayState :=
  {| rs_next_acquisition_ordinal := rs_next_acquisition_ordinal s; rs_pending_request := p;
     rs_completed_request_occurrences := rs_completed_request_occurrences s;
     rs_last_boundary_ms := rs_last_boundary_ms s; rs_client_requests := rs_client_requests s;
     rs_execution := rs_execution s; rs_open_response := rs_open_response s;
     rs_completed_responses := rs_completed_responses s; rs_refusal := rs_refusal s;
     rs_saw_turn_completed := rs_saw_turn_completed s; rs_saw_approval := rs_saw_approval s;
     rs_saw_discrepancy := rs_saw_discrepancy s; rs_cut := rs_cut s |}.
(** The request in flight is answered: a boundary at [at_ms]. *)
Definition with_boundary (occurrence : string) (at_ms : Z) (s : SwitchyardReplayState)
    : SwitchyardReplayState :=
  {| rs_next_acquisition_ordinal := rs_next_acquisition_ordinal s; rs_pending_request := None;
     rs_completed_request_occurrences := {[occurrence]} ∪ rs_completed_request_occurrences s;
     rs_last_boundary_ms := Some at_ms; rs_client_requests := rs_client_requests s;
     rs_execution := rs_execution s; rs_open_response := rs_open_response s;
     rs_completed_responses := rs_completed_responses s; rs_refusal := rs_refusal s;
     rs_saw_turn_completed := rs_saw_turn_completed s; rs_saw_approval := rs_saw_approval s;
     rs_saw_discrepancy := rs_saw_discrepancy s; rs_cut := rs_cut s |}.
Definition with_response (x : option ProviderExecutionIdentityV1) (open : option string)
    (completed : gset string) (s : SwitchyardReplayState) : SwitchyardReplayState :=
  {| rs_next_acquisition_ordinal := rs_next_acquisition_ordinal s;
     rs_pending_request := rs_pending_request s;
     rs_completed_request_occurrences := rs_completed_request_occurrences s;
     rs_last_boundary_ms := rs_last_boundary_ms s; rs_client_requests := rs_client_requests s;
     rs_execution := x; rs_open_response := open; rs_completed_responses := completed;
     rs_refusal := rs_refusal s; rs_saw_turn_completed := rs_saw_turn_completed s;
     rs_saw_approval := rs_saw_approval s; rs_saw_discrepancy := rs_saw_discrepancy s;
     rs_cut := rs_cut s |}.
Definition with_refusal (r : Refusal) (s : SwitchyardReplayState) : SwitchyardReplayState :=
  {| rs_next_acquisition_ordinal := rs_next_acquisition_ordinal s;
     rs_pending_request := rs_pending_request s;
     rs_completed_request_occurrences := rs_completed_request_occurrences s;
     rs_last_boundary_ms := rs_last_boundary_ms s; rs_client_requests := rs_client_requests s;
     rs_execution := rs_execution s; rs_open_response := rs_open_response s;
     rs_completed_responses := rs_completed_responses s; rs_refusal := Some r;
     rs_saw_turn_completed := rs_saw_turn_completed s; rs_saw_approval := rs_saw_approval s;
     rs_saw_discrepancy := rs_saw_discrepancy s; rs_cut := rs_cut s |}.
Definition with_client_requests (m : gmap Z (string * string)) (s : SwitchyardReplayState)
    : SwitchyardReplayState :=
  {| rs_next_acquisition_ordinal := rs_next_acquisition_ordinal s;
     rs_pending_request := rs_pending_request s;
     rs_completed_request_occurrences := rs_completed_request_occurrences s;
     rs_last_boundary_ms := rs_last_boundary_ms s; rs_client_requests := m;
     rs_execution := rs_execution s; rs_open_response := rs_open_response s;
     rs_completed_responses := rs_completed_responses s; rs_refusal := rs_refusal s;
     rs_saw_turn_completed := rs_saw_turn_completed s; rs_saw_approval := rs_saw_approval s;
     rs_saw_discrepancy := rs_saw_discrepancy s; rs_cut := rs_cut s |}.
Definition with_marks (turn_completed approval discrepancy : bool) (s : SwitchyardReplayState)
    : SwitchyardReplayState :=
  {| rs_next_acquisition_ordinal := rs_next_acquisition_ordinal s;
     rs_pending_request := rs_pending_request s;
     rs_completed_request_occurrences := rs_completed_request_occurrences s;
     rs_last_boundary_ms := rs_last_boundary_ms s; rs_client_requests := rs_client_requests s;
     rs_execution := rs_execution s; rs_open_response := rs_open_response s;
     rs_completed_responses := rs_completed_responses s; rs_refusal := rs_refusal s;
     rs_saw_turn_completed := turn_completed; rs_saw_approval := approval;
     rs_saw_discrepancy := discrepancy; rs_cut := rs_cut s |}.
Definition with_cut (cut : value) (s : SwitchyardReplayState) : SwitchyardReplayState :=
  {| rs_next_acquisition_ordinal := rs_next_acquisition_ordinal s;
     rs_pending_request := rs_pending_request s;
     rs_completed_request_occurrences := rs_completed_request_occurrences s;
     rs_last_boundary_ms := rs_last_boundary_ms s; rs_client_requests := rs_client_requests s;
     rs_execution := rs_execution s; rs_open_response := rs_open_response s;
     rs_completed_responses := rs_completed_responses s; rs_refusal := rs_refusal s;
     rs_saw_turn_completed := rs_saw_turn_completed s; rs_saw_approval := rs_saw_approval s;
     rs_saw_discrepancy := rs_saw_discrepancy s; rs_cut := Some cut |}.

(** [last_boundary_ms.is_some_and(|boundary| at_ms < boundary)]. *)
Definition precedes_boundary (at_ms : Z) (s : SwitchyardReplayState) : bool :=
  match rs_last_boundary_ms s with Some boundary => (at_ms <? boundary)%Z | None => false end.

Definition step_request_started (normalized : value) (s : SwitchyardReplayState)
    : result ContractError SwitchyardReplayState :=
  exact_object_keys normalized
    ["request_occurrence_id"; "sampling_ordinal"; "request_order"; "started_at_ms";
     "proves_provider_admission"] "provider request normalized closure" ;?
  reject (negb (bool_decide (get_bool normalized "proves_provider_admission" = Some false))
          || is_some (rs_pending_request s) || is_some (rs_open_response s)
          || rs_saw_approval s || is_some (rs_refusal s))
    (InvalidField "provider request transition") ;?
  let? occurrence := string_at normalized "request_occurrence_id" in
  let? sampling_ordinal := integer normalized "sampling_ordinal" in
  let? request_order := integer normalized "request_order" in
  let? started_at_ms := integer normalized "started_at_ms" in
  let expected_order := Z.of_nat (size (rs_completed_request_occurrences s)) in
  reject (negb (sampling_ordinal =? expected_order)%Z || negb (request_order =? expected_order)%Z
          || bool_decide (occurrence ∈ rs_completed_request_occurrences s)
          || precedes_boundary started_at_ms s
          || (0 <? sampling_ordinal)%Z && is_none (rs_execution s))
    (InvalidField "provider request exact owner ordering") ;?
  Ok (with_pending (Some {| pn_occurrence := occurrence; pn_sampling_ordinal := sampling_ordinal;
                            pn_request_order := request_order;
                            pn_started_at_ms := started_at_ms |}) s).

(** The step names the request in flight. *)
Definition check_step_binding (d : ProviderAdmissionDispositionV1) (step : value)
    (p : PendingRequest) : result ContractError unit :=
  let unbound := "provider step request binding" in
  require_strings step
    [("request_occurrence_id", pn_occurrence p); ("provider", dp_provider_id d);
     ("model", dp_model_id d); ("thread_id", dp_thread_id d); ("turn_id", dp_turn_id d)]
    unbound ;?
  let? sampling_ordinal := integer step "sampling_ordinal" in
  reject (negb (sampling_ordinal =? pn_sampling_ordinal p)%Z) (InvalidField unbound) ;?
  let? request_order := integer step "request_order" in
  reject (negb (request_order =? pn_request_order p)%Z) (InvalidField unbound).

(** The source reads the identity of the execution three times from the same value. *)
Definition step_execution (d : ProviderAdmissionDispositionV1) (normalized : value)
    (s : SwitchyardReplayState) : result ContractError SwitchyardReplayState :=
  exact_object_keys normalized
    ["provider_execution_identity"; "provider_execution_step_identity";
     "first_admission_boundary"; "observed_at_ms"] "provider step normalized closure" ;?
  let? step := ok_or (value_get normalized "provider_execution_step_identity")
    (InvalidField "provider step identity") in
  reject (rs_saw_approval s) (InvalidField "provider activity followed unanswered approval") ;?
  let? p := ok_or (rs_pending_request s) (InvalidField "response without provider request") in
  check_step_binding d step p ;?
  reject (is_none (rs_execution s)
          && negb (String.eqb (pn_occurrence p) (dp_provider_request_occurrence_id d)))
    (InvalidField "admitted provider request occurrence") ;?
  let? identity := ok_or (value_get normalized "provider_execution_identity")
    (InvalidField "provider execution identity") in
  let? observed := provider_execution_from_switchyard identity in
  execution_identity_validate observed ;?
  reject (match rs_execution s with
          | Some prior => negb (bool_decide (prior = observed)) | None => false end
          || is_some (rs_open_response s))
    (InvalidField "provider execution continuity") ;?
  let? response_id := string_at step "response_id" in
  let? observed_at_ms := integer normalized "observed_at_ms" in
  reject (negb (String.eqb response_id (xi_first_response_id observed))
          && is_none (rs_execution s))
    (InvalidField "first response identity") ;?
  reject ((observed_at_ms <? pn_started_at_ms p)%Z || precedes_boundary observed_at_ms s
          || bool_decide (response_id ∈ rs_completed_responses s)
          || bool_decide (pn_occurrence p ∈ rs_completed_request_occurrences s))
    (InvalidField "provider response exact owner ordering") ;?
  Ok (with_response (Some observed) (Some response_id) (rs_completed_responses s)
        (with_boundary (pn_occurrence p) observed_at_ms s)).

Definition step_refused (normalized : value) (s : SwitchyardReplayState)
    : result ContractError SwitchyardReplayState :=
  reject (is_some (rs_refusal s) || is_some (rs_execution s) || is_none (rs_pending_request s))
    (InvalidField "refusal transition") ;?
  let unbound := InvalidField "refusal request binding" in
  let? occurrence := string_at normalized "request_occurrence_id" in
  let? p := ok_or (rs_pending_request s) unbound in
  reject (negb (String.eqb (pn_occurrence p) occurrence)) unbound ;?
  let? sampling_ordinal := integer normalized "sampling_ordinal" in
  reject (negb (pn_sampling_ordinal p =? sampling_ordinal)%Z) unbound ;?
  let? request_order := integer normalized "request_order" in
  reject (negb (pn_request_order p =? request_order)%Z) unbound ;?
  let? observed_at_ms := integer normalized "observed_at_ms" in
  reject ((observed_at_ms <? pn_started_at_ms p)%Z || precedes_boundary observed_at_ms s
          || bool_decide (occurrence ∈ rs_completed_request_occurrences s))
    (InvalidField "provider refusal exact owner ordering") ;?
  let? retry_after_ms := match value_get normalized "retry_after_ms" with
                         | Some v => Ok (as_i64 v)
                         | None => Err (InvalidField "retry_after_ms")
                         end in
  Ok (with_refusal {| rf_occurrence := occurrence; rf_retry_after_ms := retry_after_ms;
                      rf_observed_at_ms := observed_at_ms |}
        (with_boundary occurrence observed_at_ms s)).

Definition step_response_completed (normalized : value) (s : SwitchyardReplayState)
    : result ContractError SwitchyardReplayState :=
  exact_object_keys normalized ["response_id"; "proves_new_admission"]
    "provider completion normalized closure" ;?
  reject (negb (bool_decide (get_bool normalized "proves_new_admission" = Some false)))
    (InvalidField "completion admission substitution") ;?
  let? response_id := string_at normalized "response_id" in
  reject (negb (bool_decide (rs_open_response s = Some response_id))
          || bool_decide (response_id ∈ rs_completed_responses s))
    (InvalidField "response completion order") ;?
  Ok (with_response (rs_execution s) None ({[response_id]} ∪ rs_completed_responses s) s).

Definition step_approval (normalized : value) (s : SwitchyardReplayState)
    : result ContractError SwitchyardReplayState :=
  exact_object_keys normalized
    ["approval_response_sent"; "protected_effect_absent"; "provider_execution_identity"]
    "approval normalized closure" ;?
  reject (is_none (rs_execution s) || is_some (rs_open_response s) || rs_saw_approval s
          || negb (bool_decide (get_bool normalized "approval_response_sent" = Some false))
          || negb (bool_decide (get_bool normalized "protected_effect_absent" = Some true)))
    (InvalidField "approval transition") ;?
  let? identity := ok_or (value_get normalized "provider_execution_identity")
    (InvalidField "approval execution identity") in
  let? x := provider_execution_from_switchyard identity in
  reject (negb (bool_decide (rs_execution s = Some x)))
    (InvalidField "approval execution identity binding") ;?
  Ok (with_marks (rs_saw_turn_completed s) true (rs_saw_discrepancy s) s).

Definition step_local_fact (normalized : value) (method : string) (s : SwitchyardReplayState)
    : result ContractError SwitchyardReplayState :=
  exact_object_keys normalized ["proves_provider_admission"] "local fact normalized closure" ;?
  reject (negb (bool_decide (get_bool normalized "proves_provider_admission" = Some false)))
    (InvalidField "local fact admission widening") ;?
  if String.eqb method "turn/completed" then
    let closed := is_none (rs_open_response s) && is_none (rs_pending_request s) in
    let exact_refusal_close :=
      is_none (rs_execution s) && is_some (rs_refusal s) && closed in
    let exact_execution_close :=
      is_some (rs_execution s) && closed && negb (rs_saw_approval s) in
    reject (negb exact_refusal_close && negb exact_execution_close)
      (InvalidField "premature turn completion") ;?
    Ok (with_marks true (rs_saw_approval s) (rs_saw_discrepancy s) s)
  else Ok s.

Definition step_discrepancy (normalized : value) (s : SwitchyardReplayState)
    : result ContractError SwitchyardReplayState :=
  exact_object_keys normalized
    ["detail"; "provider_execution_identity"; "resume_same_attempt_only"]
    "discrepancy normalized closure" ;?
  reject (negb (bool_decide (get_bool normalized "resume_same_attempt_only"
                             = Some (is_some (rs_execution s)))))
    (InvalidField "discrepancy resume law") ;?
  let? x := match value_get normalized "provider_execution_identity" with
            | Some Null => Ok None
            | Some v => let? x := provider_execution_from_switchyard v in Ok (Some x)
            | None => Err (InvalidField "discrepancy execution identity")
            end in
  reject (negb (bool_decide (x = rs_execution s)))
    (InvalidField "discrepancy execution identity binding") ;?
  Ok (with_marks (rs_saw_turn_completed s) (rs_saw_approval s) true s).

Definition step_client_request (normalized : value) (s : SwitchyardReplayState)
    : result ContractError SwitchyardReplayState :=
  exact_object_keys normalized
    ["request_id"; "request_method"; "params_sha256"; "proves_provider_admission"]
    "client request normalized closure" ;?
  let? params_sha256 := string_at normalized "params_sha256" in
  availability_digest "client params sha256" params_sha256 ;?
  let? request_id := integer normalized "request_id" in
  let? request_method := string_at normalized "request_method" in
  reject (is_some (rs_client_requests s !! request_id)) (InvalidField "duplicate client request") ;?
  Ok (with_client_requests
        (<[request_id := (request_method, params_sha256)]> (rs_client_requests s)) s).

Definition step_client_response (normalized : value) (s : SwitchyardReplayState)
    : result ContractError SwitchyardReplayState :=
  let unbound := InvalidField "client request response binding" in
  exact_object_keys normalized
    ["request_id"; "request_method"; "params_sha256"; "result_sha256";
     "proves_provider_admission"] "client response normalized closure" ;?
  let? params_sha256 := string_at normalized "params_sha256" in
  availability_digest "client params sha256" params_sha256 ;?
  let? result_sha256 := string_at normalized "result_sha256" in
  availability_digest "client result sha256" result_sha256 ;?
  let? request_id := integer normalized "request_id" in
  let? expected := ok_or (rs_client_requests s !! request_id)
    (InvalidField "unmatched client response") in
  let? request_method := string_at normalized "request_method" in
  reject (negb (String.eqb expected.1 request_method)
          || negb (String.eqb expected.2 params_sha256)) unbound ;?
  Ok (with_client_requests (delete request_id (rs_client_requests s)) s).

Definition replay_step (d : ProviderAdmissionDispositionV1) (kind method : string)
    (normalized : value) (s : SwitchyardReplayState) : result ContractError SwitchyardReplayState :=
  if String.eqb kind "PROVIDER_REQUEST_STARTED" then step_request_started normalized s
  else if String.eqb kind "PROVIDER_EXECUTION_STEP" then step_execution d normalized s
  else if String.eqb kind "PROVIDER_ADMISSION_REFUSED" then step_refused normalized s
  else if String.eqb kind "PROVIDER_RESPONSE_COMPLETED" then step_response_completed normalized s
  else if String.eqb kind "WAITING_APPROVAL" then step_approval normalized s
  else if String.eqb kind "LOCAL_TURN_FACT" then step_local_fact normalized method s
  else if String.eqb kind "ADMISSION_DISCREPANCY" then step_discrepancy normalized s
  else if String.eqb kind "CLIENT_REQUEST_ISSUED" then step_client_request normalized s
  else if String.eqb kind "CLIENT_RESPONSE_RETAINED" then step_client_response normalized s
  else if String.eqb kind "ACQUISITION_WATERMARK" then
    exact_object_keys normalized ["proves_provider_admission"] "watermark normalized closure" ;?
    Ok s
  else Err (InvalidField "mapper evidence kind").

(** *** The order of acquisition *)

Definition validate_kind_lane (kind method lane : string) : result ContractError unit :=
  let notification := String.eqb lane "NOTIFICATION" in
  reject (negb (
    if String.eqb kind "CLIENT_REQUEST_ISSUED"
    then String.eqb lane "CLIENT_REQUEST" && starts_with method "client-request/"
    else if String.eqb kind "CLIENT_RESPONSE_RETAINED"
    then String.eqb lane "CLIENT_RESPONSE" && starts_with method "client-response/"
    else if String.eqb kind "PROVIDER_REQUEST_STARTED"
    then notification && String.eqb method "providerRequest/started"
    else if String.eqb kind "PROVIDER_EXECUTION_STEP"
    then notification && String.eqb method "rawResponse/started"
    else if String.eqb kind "PROVIDER_ADMISSION_REFUSED"
    then notification && String.eqb method "providerAdmission/refused"
    else if String.eqb kind "PROVIDER_RESPONSE_COMPLETED"
    then notification && String.eqb method "rawResponse/completed"
    else if String.eqb kind "WAITING_APPROVAL"
    then String.eqb lane "SERVER_REQUEST" && str_in method approval_methods
    else if str_in kind ["LOCAL_TURN_FACT"; "ACQUISITION_WATERMARK"] then notification
    else if String.eqb kind "ADMISSION_DISCREPANCY"
    then str_in lane ["LOSS"; "UNKNOWN"; "NOTIFICATION"; "SERVER_REQUEST"; "CLIENT_REQUEST";
                      "CLIENT_RESPONSE"]
    else false)) (InvalidField "evidence kind/lane/method binding").

Definition is_ordinal_gap (kind method : string) (normalized : value) : bool :=
  String.eqb kind "ADMISSION_DISCREPANCY" && String.eqb method "adapter/acquisition"
  && bool_decide (get_str normalized "detail"
                  = Some "ordered acquisition ordinal gap, duplicate, or reorder").

(** The ordinal after this one.  The increment of the source is one of [i64]; the numbers
    of a snapshot were checked to be safe integers before. *)
Definition ordinal_after (kind method : string) (normalized : value) (ordinal next : Z)
    : result ContractError Z :=
  if (ordinal =? next)%Z then Ok (next + 1)%Z
  else
    reject (negb (is_ordinal_gap kind method normalized))
      (InvalidField "acquisition ordinal continuity") ;?
    reject (ordinal =? 9223372036854775807)%Z (InvalidField "acquisition ordinal overflow") ;?
    Ok (Z.max next (ordinal + 1)).

Definition check_lane (kind method : string) (acquisition_kind raw : value)
    : result ContractError unit :=
  let? lane := ok_or (as_str acquisition_kind) (InvalidField "acquisition kind") in
  reject (negb (str_in lane ["LOSS"; "NOTIFICATION"; "SERVER_REQUEST"; "CLIENT_REQUEST";
                             "CLIENT_RESPONSE"; "UNKNOWN"]))
    (InvalidField "acquisition kind") ;?
  (if is_object raw then
     let? representation := string_at raw "representation" in
     reject (negb (String.eqb representation
                     (if String.eqb lane "LOSS" then EXACT_FRAME else EXACT_WIRE)))
       (InvalidField "mapper raw lane representation")
   else reject (negb (str_in lane ["LOSS"; "UNKNOWN"])
                && negb (String.eqb kind "ADMISSION_DISCREPANCY"))
          (InvalidField "mapper raw evidence absence")) ;?
  validate_kind_lane kind method lane.

(** The acquisition identity of a record, and the ordinal expected next. *)
Definition check_acquisition (kind method : string) (normalized ordinal acquisition_kind raw
    : value) (next : Z) : result ContractError Z :=
  match as_i64 ordinal with
  | Some n =>
      let? next := ordinal_after kind method normalized n next in
      check_lane kind method acquisition_kind raw ;?
      Ok next
  | None =>
      reject (negb (is_null acquisition_kind)) (InvalidField "partial acquisition identity") ;?
      Ok next
  end.

Definition check_cut_record (method : string) (last : bool)
    (normalized ordinal acquisition_kind raw : value) : result ContractError unit :=
  reject (negb last || negb (is_null ordinal) || negb (is_null acquisition_kind)
          || negb (is_null raw) || negb (String.eqb method "adapter/acquisition-cut"))
    (InvalidField "terminal acquisition-cut order") ;?
  exact_object_keys normalized
    ["adapter_process_occurrence_id"; "app_server_session_identity"; "stream_quiesced";
     "loss_generation"; "process_disposition"; "ordered_high_water"; "consumed_ordinal_count";
     "outstanding_client_request_count"; "clean"] "acquisition-cut closure".

(** After a discrepancy, or a completed turn of an admitted execution, only discrepancies
    and the client lane go on. *)
Definition bypasses (kind : string) (acquisition_kind : value) (s : SwitchyardReplayState) : bool :=
  (rs_saw_discrepancy s || rs_saw_turn_completed s && is_some (rs_execution s))
  && negb (String.eqb kind "ADMISSION_DISCREPANCY")
  && negb match as_str acquisition_kind with
          | Some lane => str_in lane ["CLIENT_REQUEST"; "CLIENT_RESPONSE"] | None => false end.

(** One record: [last] is whether it is the last of the snapshot. *)
Definition replay_record (d : ProviderAdmissionDispositionV1) (binding : value)
    (item : bool * value * option string) (s : SwitchyardReplayState)
    : result ContractError SwitchyardReplayState :=
  let '(last, record, echo_error) := item in
  let? kind := string_at record "kind" in
  let? method := string_at record "method" in
  let? ordinal := ok_or (value_get record "acquisition_ordinal")
    (InvalidField "acquisition ordinal") in
  let? acquisition_kind := ok_or (value_get record "acquisition_kind")
    (InvalidField "acquisition kind") in
  let? normalized := ok_or (value_get record "normalized")
    (InvalidField "mapper normalized evidence") in
  let? raw := ok_or (value_get record "raw") (InvalidField "mapper raw evidence") in
  if String.eqb kind "ACQUISITION_CUT" then
    check_cut_record method last normalized ordinal acquisition_kind raw ;?
    Ok (with_cut normalized s)
  else
    reject (is_some (rs_cut s)) (InvalidField "evidence after terminal cut") ;?
    reject (bypasses kind acquisition_kind s)
      (InvalidField "owner mechanism transition bypass") ;?
    validate_switchyard_raw_replay record binding echo_error s ;?
    let? next := check_acquisition kind method normalized ordinal acquisition_kind raw
                   (rs_next_acquisition_ordinal s) in
    replay_step d kind method normalized (with_ordinal next s).

(** ** The disposition against the replayed state *)

Definition process_dispositions : list string :=
  ["UNKNOWN"; "ABSENT"; "RUNNING"; "EXITED"; "EXITED_AFTER_TERMINATE"; "EXITED_AFTER_KILL";
   "EXIT_UNCONFIRMED"].
Definition closed_processes : list string :=
  ["EXITED"; "EXITED_AFTER_TERMINATE"; "EXITED_AFTER_KILL"].

(** The dispatch ended by a refusal, or by a completed turn, without a discrepancy. *)
Definition semantic_closed (s : SwitchyardReplayState) : bool :=
  is_some (rs_refusal s) && negb (rs_saw_discrepancy s)
  || is_some (rs_execution s) && is_none (rs_open_response s) && rs_saw_turn_completed s
     && negb (rs_saw_approval s) && negb (rs_saw_discrepancy s).

Definition check_terminal_cut (d : ProviderAdmissionDispositionV1) (snapshot cut : value)
    (s : SwitchyardReplayState) : result ContractError bool :=
  let unidentified := InvalidField "acquisition-cut identity" in
  reject (negb (field_eqb snapshot "acquisition_cut" cut))
    (InvalidField "snapshot acquisition-cut record binding") ;?
  let? process := string_at cut "process_disposition" in
  reject (negb (str_in process process_dispositions)) unidentified ;?
  let? adapter := string_at cut "adapter_process_occurrence_id" in
  reject (negb (String.eqb adapter (dp_adapter_process_occurrence_id d))) unidentified ;?
  let? session := string_at cut "app_server_session_identity" in
  reject (negb (String.eqb session (dp_app_server_session_identity d))) unidentified ;?
  let? consumed := integer cut "consumed_ordinal_count" in
  reject (negb (consumed =? rs_next_acquisition_ordinal s)%Z) unidentified ;?
  let? stream_quiesced := ok_or (get_bool cut "stream_quiesced")
    (InvalidField "stream_quiesced") in
  let? loss_generation := integer cut "loss_generation" in
  let? ordered_high_water := integer cut "ordered_high_water" in
  let? outstanding := integer cut "outstanding_client_request_count" in
  reject (negb (outstanding =? Z.of_nat (size (rs_client_requests s)))%Z)
    (InvalidField "client request cut outstanding binding") ;?
  let clean := stream_quiesced && str_in process closed_processes
    && (loss_generation =? 0)%Z && (ordered_high_water =? rs_next_acquisition_ordinal s)%Z
    && (outstanding =? 0)%Z && semantic_closed s in
  reject (negb (bool_decide (get_bool cut "clean" = Some clean))
          || negb (Bool.eqb (dp_acquisition_complete d) clean))
    (InvalidField "acquisition-cut clean law") ;?
  Ok clean.

Definition is_mechanism (l : list ProviderMechanismStateV1) (m : ProviderMechanismStateV1)
    : bool := existsb (fun n => bool_decide (n = m)) l.

(** Whether the acquisition is clean: what the terminal cut says, or no cut at all. *)
Definition expected_clean (d : ProviderAdmissionDispositionV1) (snapshot : value)
    (s : SwitchyardReplayState) : result ContractError bool :=
  match rs_cut s with
  | Some cut => check_terminal_cut d snapshot cut s
  | None =>
      reject (negb (field_eqb snapshot "acquisition_cut" Null)
              || negb (bool_decide (rs_client_requests s = ∅)) || dp_acquisition_complete d
              || negb (is_mechanism [ExecutionAdmitted; MechanismWaitingApproval]
                         (dp_mechanism_state d))
              || is_none (rs_execution s) || is_some (rs_refusal s))
        (InvalidField "pre-cut admitted state") ;?
      Ok false
  end.

Definition mechanism_text (m : ProviderMechanismStateV1) : string :=
  match m with
  | ParkedNotAdmitted => "PARKED_NOT_ADMITTED"
  | AdmissionIndeterminate => "ADMISSION_INDETERMINATE"
  | ExecutionAdmitted => "EXECUTION_ADMITTED"
  | PostAdmissionInterrupted => "POST_ADMISSION_INTERRUPTED"
  | MechanismWaitingApproval => "WAITING_APPROVAL"
  | ProviderCompleted => "PROVIDER_COMPLETED"
  end.

Definition check_snapshot_execution (d : ProviderAdmissionDispositionV1) (snapshot : value)
    (s : SwitchyardReplayState) : result ContractError unit :=
  let? x := match value_get snapshot "provider_execution_identity" with
            | Some Null => Ok None
            | Some v => let? x := provider_execution_from_switchyard v in Ok (Some x)
            | None => Err (InvalidField "snapshot execution identity")
            end in
  reject (negb (bool_decide (x = rs_execution s))
          || negb (bool_decide (x = dp_provider_execution d))
          || negb (Bool.eqb (dp_response_created d) (is_some x)))
    (InvalidField "snapshot disposition execution binding").

Definition check_mechanism (m : ProviderMechanismStateV1) (clean : bool) (s : SwitchyardReplayState)
    : result ContractError unit :=
  let admitted := is_some (rs_execution s) in
  match m with
  | ParkedNotAdmitted =>
      reject (is_none (rs_refusal s) || negb clean || admitted)
        (InvalidField "parked mechanism state")
  | ProviderCompleted =>
      reject (negb admitted || negb clean) (InvalidField "completed mechanism state")
  | PostAdmissionInterrupted =>
      reject (negb admitted || clean) (InvalidField "post-admission interruption state")
  | MechanismWaitingApproval =>
      reject (negb (rs_saw_approval s) || is_some (rs_cut s))
        (InvalidField "waiting approval terminal cut")
  | AdmissionIndeterminate =>
      reject admitted (InvalidField "indeterminate execution identity")
  | ExecutionAdmitted =>
      reject (negb admitted || is_some (rs_cut s)) (InvalidField "pre-cut admitted state")
  end.

(** [DateTime::timestamp_millis] rounds down. *)
Definition timestamp_ms (t : instant) : Z := (t / 1000000)%Z.

(** [received_at + Duration::milliseconds(delay)]: a sum out of range panics. *)
Definition check_refusal (d : ProviderAdmissionDispositionV1) (s : SwitchyardReplayState)
    : result ContractError unit :=
  match rs_refusal s with
  | Some r =>
      reject (negb (String.eqb (rf_occurrence r) (dp_provider_request_occurrence_id d)))
        (InvalidField "refusal occurrence binding") ;?
      reject (timestamp_ms (dp_received_at d) <? rf_observed_at_ms r)%Z
        (InvalidField "pre-receipt disposition time") ;?
      let? expected_retry :=
        match rf_retry_after_ms r with
        | None => Ok None
        | Some delay =>
            let? t := ok_or (checked_add_signed (dp_received_at d) (delay * 1000000))
              (ContractPanicked "received_at + retry_after_ms") in
            Ok (Some t)
        end in
      reject (negb (bool_decide (expected_retry = dp_provider_retry_after d)))
        (InvalidField "provider retry-after binding")
  | None =>
      reject (is_some (dp_provider_retry_after d))
        (InvalidField "unwitnessed provider retry-after")
  end.

(** An integer outside the safe range is out of range as an [f64] too. *)
Definition safe_number (n : number) : bool :=
  match n with
  | PosInt n => (Z.of_N n <=? SAFE)%Z
  | NegInt z => (- SAFE <=? z)%Z && (z <=? SAFE)%Z
  | Float f => f64_is_finite f && SpecFloat.SFleb (SpecFloat.SFabs f) max_safe_f64
  end.

Fixpoint validate_safe_json (v : value) : result ContractError unit :=
  match v with
  | Null | Bool _ | Str _ => Ok tt
  | Number n => if safe_number n then Ok tt else Err (InvalidField "RFC8785 safe number")
  | Array values => for_each validate_safe_json values
  | Object entries => for_each (fun kv => validate_safe_json kv.2) entries
  end.

(** The records with whether each is the last and the echo failure it witnesses. *)
Fixpoint replay_items (records : list value) (errors : list (option string))
    : list (bool * value * option string) :=
  match records, errors with
  | record :: records, error :: errors =>
      (is_empty records, record, error) :: replay_items records errors
  | _, _ => []
  end.

Definition check_replayed (d : ProviderAdmissionDispositionV1) (snapshot : value)
    (s : SwitchyardReplayState) : result ContractError unit :=
  let? clean := expected_clean d snapshot s in
  let? state := string_at snapshot "mechanism_state" in
  reject (negb (String.eqb state (mechanism_text (dp_mechanism_state d))))
    (InvalidField "mapper mechanism-state binding") ;?
  check_snapshot_execution d snapshot s ;?
  check_mechanism (dp_mechanism_state d) clean s ;?
  check_refusal d s.

Definition validate_switchyard_snapshot_complete (d : ProviderAdmissionDispositionV1)
    (raw : string) : result ContractError unit :=
  validate_switchyard_snapshot d raw ;?
  let? snapshot := map_err Json (from_slice raw) in
  let? canonical := map_err Json (jcs_value snapshot) in
  reject (negb (String.eqb canonical raw))
    (InvalidField "mapper snapshot RFC8785 representation") ;?
  validate_safe_json snapshot ;?
  let? errors := echo_validate_snapshot snapshot false in
  let? records := ok_or (as_array (value_index snapshot "records"))
    (InvalidField "mapper records") in
  reject (is_empty records) (InvalidField "empty mapper evidence") ;?
  let? s := fold_try (replay_record d (value_index snapshot "binding"))
              (replay_items records errors) replay_start in
  check_replayed d snapshot s.

(** The validators the foreman runs with. *)
#[local] Instance switchyard_evidence : ProviderEvidence := {|
  Evidence.validate_switchyard_snapshot_complete := validate_switchyard_snapshot_complete;
  Evidence.validate_vendored_switchyard_schema := switchyard_schema;
  Evidence.bounded_turn_echo_validate_snapshot snapshot enrolled :=
    let? _ := echo_validate_snapshot snapshot enrolled in Ok tt |}.
End replay.
