(* ===== verification/Protocol.v ===== *)
(** * The dispatch protocol

    An abstract account of one provider dispatch: requests are asked one at a time, each is
    answered by the first step of a response or by a refusal, a response is completed
    before the next request.  The ordered replay of [Replay] implements it. *)
From S2P Require Import Prelude Text External Contract Availability Evidence Signing.
From S2P Require Import Switchyard Echo Replay.
Local Open Scope string_scope.

(** ** The abstract protocol *)

(** What a provider boundary says; times in milliseconds. *)
Inductive Boundary :=
| Started (occurrence : string) (ordinal at_ms : Z)
| ResponseAdmitted (occurrence response : string) (x : ProviderExecutionIdentityV1) (at_ms : Z)
| Refused (occurrence : string) (at_ms : Z)
| Completed (response : string).

(** [used] holds the occurrences of the requests answered so far, [last] the time of the
    last answer and [x] the execution that was admitted. *)
Inductive Phase :=
| Quiet (used : gset string) (last : option Z) (x : option ProviderExecutionIdentityV1)
| Asked (used : gset string) (last : option Z) (x : option ProviderExecutionIdentityV1)
    (occurrence : string) (at_ms : Z)
| Answering (used : gset string) (last : option Z) (x : ProviderExecutionIdentityV1)
    (response : string)
| Closed (occurrence : string) (at_ms : Z).

Definition no_earlier (last : option Z) (at_ms : Z) : Prop :=
  forall t, last = Some t -> (t <= at_ms)%Z.

Inductive protocol : Phase -> Boundary -> Phase -> Prop :=
| protocol_started used last x occurrence at_ms :
    occurrence ∉ used -> no_earlier last at_ms -> (x = None -> used = ∅) ->
    protocol (Quiet used last x)
      (Started occurrence (Z.of_nat (size used)) at_ms) (Asked used last x occurrence at_ms)
| protocol_admitted used last x occurrence started response y at_ms :
    (x = None -> response = xi_first_response_id y) -> (forall z, x = Some z -> y = z) ->
    (started <= at_ms)%Z -> no_earlier last at_ms ->
    protocol (Asked used last x occurrence started)
      (ResponseAdmitted occurrence response y at_ms)
      (Answering ({[occurrence]} ∪ used) (Some at_ms) y response)
| protocol_refused used last occurrence started at_ms :
    (started <= at_ms)%Z ->
    protocol (Asked used last None occurrence started) (Refused occurrence at_ms)
      (Closed occurrence at_ms)
| protocol_completed used last x response :
    protocol (Answering used last x response) (Completed response) (Quiet used last (Some x)).

Inductive path : Phase -> list Boundary -> Phase -> Prop :=
| path_nil p : path p [] p
| path_cons p b q bs r : protocol p b q -> path q bs r -> path p (b :: bs) r.

Lemma path_app p bs q cs r : path p bs q -> path q cs r -> path p (bs ++ cs) r.
Proof. induction 1; simpl; [done|]. intros. econstructor; eauto. Qed.

Lemma path_snoc_inv p bs b r : path p (bs ++ [b]) r -> exists q, path p bs q /\ protocol q b r.
Proof.
  revert p. induction bs as [|c bs IH]; intros p H; simpl in H; inversion H; subst.
  - match goal with X : path _ [] _ |- _ => inversion X; subst end.
    eexists. split; [constructor|done].
  - match goal with X : path _ (_ ++ _) _ |- _ => apply IH in X as (q' & Hp & Hq) end.
    exists q'. split; [by econstructor|done].
Qed.

(** An execution that was admitted stays: from then on no request is refused. *)
Definition admitted_phase (p : Phase) : Prop :=
  match p with
  | Quiet _ _ x | Asked _ _ x _ _ => is_Some x
  | Answering _ _ _ _ => True
  | Closed _ _ => False
  end.

Lemma admitted_stays p bs q : path p bs q -> admitted_phase p -> admitted_phase q.
Proof.
  induction 1 as [|p b q bs r Hb _ IH]; [done|]. intros Hp. apply IH.
  destruct Hb; simpl in *; try done.
Qed.

Definition idle : Phase := Quiet ∅ None None.

(** The only dispatch that ends in a refusal: one request, refused. *)
Lemma refused_dispatch bs occurrence at_ms : path idle bs (Closed occurrence at_ms) ->
  exists started, (started <= at_ms)%Z /\
    bs = [Started occurrence 0 started; Refused occurrence at_ms].
Proof.
  unfold idle. intros H. inversion H as [|? ? ? bs1 ? H1 T1]; subst. inversion H1; subst.
  inversion T1 as [|? ? ? bs2 ? H2 T2]; subst. inversion H2; subst.
  - by destruct (admitted_stays _ _ _ T2 I).
  - inversion T2 as [|? ? ? ? ? H3]; subst; [by eexists|inversion H3].
Qed.

(** ** The boundaries of a snapshot *)

Definition boundary_of (kind : string) (normalized : value) : option Boundary :=
  if String.eqb kind "PROVIDER_REQUEST_STARTED" then
    occurrence ← get_str normalized "request_occurrence_id";
    ordinal ← get_i64 normalized "sampling_ordinal";
    at_ms ← get_i64 normalized "started_at_ms";
    Some (Started occurrence ordinal at_ms)
  else if String.eqb kind "PROVIDER_EXECUTION_STEP" then
    step ← value_get normalized "provider_execution_step_identity";
    identity ← value_get normalized "provider_execution_identity";
    occurrence ← get_str step "request_occurrence_id";
    response ← get_str step "response_id";
    at_ms ← get_i64 normalized "observed_at_ms";
    match provider_execution_from_switchyard identity with
    | Ok x => Some (ResponseAdmitted occurrence response x at_ms)
    | Err _ => None
    end
  else if String.eqb kind "PROVIDER_ADMISSION_REFUSED" then
    occurrence ← get_str normalized "request_occurrence_id";
    at_ms ← get_i64 normalized "observed_at_ms";
    Some (Refused occurrence at_ms)
  else if String.eqb kind "PROVIDER_RESPONSE_COMPLETED" then
    response ← get_str normalized "response_id";
    Some (Completed response)
  else None.

Definition record_boundary (record : value) : option Boundary :=
  kind ← get_str record "kind";
  normalized ← value_get record "normalized";
  boundary_of kind normalized.

(** ** The replay implements the protocol *)

(** The phase a state of the replay is in. *)
Definition phase_of (s : SwitchyardReplayState) : Phase :=
  let used := rs_completed_request_occurrences s in
  let last := rs_last_boundary_ms s in
  match rs_refusal s, rs_pending_request s, rs_open_response s, rs_execution s with
  | Some r, _, _, _ => Closed (rf_occurrence r) (rf_observed_at_ms r)
  | None, Some p, _, x => Asked used last x (pn_occurrence p) (pn_started_at_ms p)
  | None, None, Some response, Some x => Answering used last x response
  | None, None, _, x => Quiet used last x
  end.

(** What the transitions keep among the parts of the state. *)
Record coherent (s : SwitchyardReplayState) : Prop := {
  coherent_refusal : is_Some (rs_refusal s) ->
    rs_pending_request s = None /\ rs_open_response s = None /\ rs_execution s = None;
  coherent_pending : is_Some (rs_pending_request s) -> rs_open_response s = None;
  coherent_open : is_Some (rs_open_response s) -> is_Some (rs_execution s);
  coherent_fresh : rs_refusal s = None -> rs_execution s = None ->
    rs_completed_request_occurrences s = ∅
}.

Lemma coherent_start : coherent replay_start.
Proof. split; simpl; intros; destruct_and?; naive_solver. Qed.

(** The state goes on, by the boundary of the record or in the same phase. *)
Definition follows (b : option Boundary) (s s' : SwitchyardReplayState) : Prop :=
  coherent s' /\
  match b with
  | Some b => protocol (phase_of s) b (phase_of s')
  | None => phase_of s' = phase_of s
  end.

Lemma no_earlier_iff at_ms s :
  precedes_boundary at_ms s = false <-> no_earlier (rs_last_boundary_ms s) at_ms.
Proof.
  unfold precedes_boundary, no_earlier. destruct (rs_last_boundary_ms s) as [b|]; [|naive_solver].
  rewrite Z.ltb_ge. naive_solver.
Qed.

Lemma string_at_ok v field x : string_at v field = Ok x <-> get_str v field = Some x.
Proof. apply ok_or_ok. Qed.
Lemma integer_ok v field x : integer v field = Ok x <-> get_i64 v field = Some x.
Proof. apply ok_or_ok. Qed.

Lemma require_strings_ok v fields error : require_strings v fields error = Ok tt ->
  Forall (fun fe => get_str v fe.1 = Some fe.2) fields.
Proof.
  unfold require_strings. rewrite for_each_ok. intros Hf. eapply Forall_impl; [exact Hf|].
  intros [f e] H. simpl in *.
  inv_ok H. apply string_at_ok in Hok. res_simpl. test_simpl.
  by subst.
Qed.

(** Each check of a transition, read from its success. *)
Ltac replay_inv H :=
  inv_ok H; res_simpl; test_simpl;
  repeat match goal with
  | X : string_at _ _ = Ok _ |- _ => apply string_at_ok in X
  | X : integer _ _ = Ok _ |- _ => apply integer_ok in X
  | X : is_some _ = false |- _ => apply is_some_false in X
  | X : is_none _ = false |- _ => apply is_none_false in X
  | X : precedes_boundary _ _ = false |- _ => apply no_earlier_iff in X
  | X : bool_decide _ = false |- _ => apply bool_decide_eq_false in X
  | X : negb _ = false |- _ => apply negb_false_iff in X
  | X : bool_decide _ = true |- _ => apply bool_decide_eq_true in X
  | X : String.eqb _ _ = true |- _ => apply String.eqb_eq in X
  | X : (_ =? _)%Z = true |- _ => apply Z.eqb_eq in X
  | X : (_ <? _)%Z = false |- _ => apply Z.ltb_ge in X
  | X : _ /\ _ |- _ => destruct X
  end.

(** The phase of a state known field by field. *)
Ltac phase_simpl :=
  unfold phase_of; simpl;
  repeat match goal with X : ?t = _ |- context [match ?t with _ => _ end] => rewrite X end;
  simpl.

(** Coherence of the state after a transition, field by field. *)
Ltac coherent_simpl :=
  split; simpl; intros;
  repeat match goal with
  | X : is_Some ?t, Y : ?t = None |- _ => rewrite Y in X; by destruct X
  | X : is_Some None |- _ => by destruct X
  | X : Some _ = None |- _ => discriminate X
  end; eauto.

(** The boundary of a record whose fields are known. *)
Ltac boundary_simpl :=
  unfold follows, boundary_of; simpl;
  repeat match goal with
  | X : get_str ?v ?f = Some _ |- context [get_str ?v ?f] => rewrite X; simpl
  | X : get_i64 ?v ?f = Some _ |- context [get_i64 ?v ?f] => rewrite X; simpl
  | X : value_get ?v ?f = Some _ |- context [value_get ?v ?f] => rewrite X; simpl
  | X : provider_execution_from_switchyard ?v = Ok _
    |- context [provider_execution_from_switchyard ?v] => rewrite X; simpl
  end.

Lemma step_request_started_follows normalized s s' : coherent s ->
  step_request_started normalized s = Ok s' ->
  follows (boundary_of "PROVIDER_REQUEST_STARTED" normalized) s s'.
Proof.
  intros [Hr Hp Ho Hf] H. unfold step_request_started in H. replay_inv H. subst.
  boundary_simpl.
  split; [coherent_simpl|]. phase_simpl.
  destruct (rs_execution s) as [y|] eqn:Hx; simpl; constructor; eauto; by intros [=].
Qed.

Lemma check_step_binding_ok d step p : check_step_binding d step p = Ok tt ->
  get_str step "request_occurrence_id" = Some (pn_occurrence p).
Proof.
  intros H. unfold check_step_binding in H. inv_ok H. apply require_strings_ok in Hok.
  by inversion Hok.
Qed.

Lemma pending_not_refused s p : coherent s -> rs_pending_request s = Some p ->
  rs_refusal s = None.
Proof.
  intros [Hr _ _ _] Hp. destruct (rs_refusal s); [|done].
  destruct Hr as (E & _); [eauto|congruence].
Qed.

Lemma step_execution_follows d normalized s s' : coherent s ->
  step_execution d normalized s = Ok s' ->
  follows (boundary_of "PROVIDER_EXECUTION_STEP" normalized) s s'.
Proof.
  intros Hc H. unfold step_execution in H. replay_inv H. subst.
  match goal with X : rs_pending_request s = Some ?p |- _ =>
    pose proof (pending_not_refused s p Hc X) as Hr end.
  match goal with X : check_step_binding _ _ _ = _ |- _ => apply check_step_binding_ok in X end.
  boundary_simpl. split.
  - destruct Hc as [_ Hp _ _]. coherent_simpl. 
  - phase_simpl. constructor; auto.
    + intros E. rewrite E in *. simpl in *. rewrite andb_true_r in *.
      by apply negb_false_iff, String.eqb_eq in Hok11.
    + intros z E. rewrite E in *. by apply negb_false_iff, bool_decide_eq_true in H4.
Qed.

Lemma step_refused_follows normalized s s' : coherent s ->
  step_refused normalized s = Ok s' ->
  follows (boundary_of "PROVIDER_ADMISSION_REFUSED" normalized) s s'.
Proof.
  intros [Hr Hp Ho Hf] H. unfold step_refused in H. replay_inv H. subst.
  boundary_simpl. split.
  - coherent_simpl.
  - phase_simpl. match goal with X : rs_execution s = None |- _ => rewrite X end.
    by constructor.
Qed.

Lemma step_response_completed_follows normalized s s' : coherent s ->
  step_response_completed normalized s = Ok s' ->
  follows (boundary_of "PROVIDER_RESPONSE_COMPLETED" normalized) s s'.
Proof.
  intros [Hr Hp Ho Hf] H. unfold step_response_completed in H. replay_inv H. subst.
  boundary_simpl.
  match goal with X : rs_open_response s = Some _ |- _ => rename X into Hopen end.
  destruct Ho as [y Hy]; [by eexists|].
  assert (rs_refusal s = None) as Hn.
  { destruct (rs_refusal s); [|done]. destruct Hr as (_ & E & _); [by eexists|congruence]. }
  assert (rs_pending_request s = None) as Hq.
  { destruct (rs_pending_request s); [|done]. rewrite Hp in Hopen; [done|by eexists]. }
  split; [coherent_simpl|]. phase_simpl. rewrite ?Hy. constructor.
Qed.

(** The other transitions change marks and client requests only. *)
Lemma marks_quiet a b c s : coherent s ->
  coherent (with_marks a b c s) /\ phase_of (with_marks a b c s) = phase_of s.
Proof. by intros []. Qed.
Lemma client_quiet m s : coherent s ->
  coherent (with_client_requests m s) /\ phase_of (with_client_requests m s) = phase_of s.
Proof. by intros []. Qed.
Lemma ordinal_quiet n s : coherent s ->
  coherent (with_ordinal n s) /\ phase_of (with_ordinal n s) = phase_of s.
Proof. by intros []. Qed.
Lemma cut_quiet cut s : coherent s ->
  coherent (with_cut cut s) /\ phase_of (with_cut cut s) = phase_of s.
Proof. by intros []. Qed.

Lemma step_approval_marks normalized s s' : step_approval normalized s = Ok s' ->
  s' = with_marks (rs_saw_turn_completed s) true (rs_saw_discrepancy s) s.
Proof. intros H. unfold step_approval in H. by inv_ok H. Qed.
Lemma step_local_fact_marks normalized method s s' : step_local_fact normalized method s = Ok s' ->
  s' = s \/ s' = with_marks true (rs_saw_approval s) (rs_saw_discrepancy s) s.
Proof.
  intros H. unfold step_local_fact in H. inv_ok H.
  destruct (String.eqb method "turn/completed"); inv_ok H; [by right|by left].
Qed.
Lemma step_discrepancy_marks normalized s s' : step_discrepancy normalized s = Ok s' ->
  s' = with_marks (rs_saw_turn_completed s) (rs_saw_approval s) true s.
Proof. intros H. unfold step_discrepancy in H. by inv_ok H. Qed.
Lemma step_client_marks normalized s s' :
  step_client_request normalized s = Ok s' \/ step_client_response normalized s = Ok s' ->
  exists m, s' = with_client_requests m s.
Proof.
  intros [H|H]; [unfold step_client_request in H|unfold step_client_response in H];
    inv_ok H; by eexists.
Qed.

Lemma replay_step_follows d kind method normalized s s' : coherent s ->
  replay_step d kind method normalized s = Ok s' -> follows (boundary_of kind normalized) s s'.
Proof.
  intros Hc H. unfold replay_step in H.
  repeat lazymatch type of H with
  | (if String.eqb ?k ?c then _ else _) = _ =>
      destruct (String.eqb_spec k c) as [->|?]
  end.
  all: lazymatch type of H with
  | step_request_started _ _ = _ => by apply step_request_started_follows
  | step_execution _ _ _ = _ => by apply (step_execution_follows d)
  | step_refused _ _ = _ => by apply step_refused_follows
  | step_response_completed _ _ = _ => by apply step_response_completed_follows
  | step_approval _ _ = _ => apply step_approval_marks in H as ->; by apply marks_quiet
  | step_local_fact _ _ _ = _ =>
      apply step_local_fact_marks in H as [->| ->]; [done|by apply marks_quiet]
  | step_discrepancy _ _ = _ => apply step_discrepancy_marks in H as ->; by apply marks_quiet
  | Err _ = _ => discriminate H
  | rbind _ _ = _ => inv_ok H; by subst
  | step_client_request _ _ = _ =>
      destruct (step_client_marks _ _ _ (or_introl H)) as [m ->]; by apply client_quiet
  | _ => destruct (step_client_marks _ _ _ (or_intror H)) as [m ->]; by apply client_quiet
  end.
Qed.

Section replay.
Context {HO : Host} {SV : Serde value} {JP : JsonParser} {VS : VendoredSchemas}.

Lemma replay_record_follows d binding item s s' : coherent s ->
  replay_record d binding item s = Ok s' -> follows (record_boundary item.1.2) s s'.
Proof.
  intros Hc H. destruct item as [[last record] echo_error]. unfold replay_record in H.
  inv_ok H. apply string_at_ok in Hok. apply ok_or_ok in Hok3.
  unfold record_boundary. simpl. rewrite Hok, Hok3. simpl.
  destruct (String.eqb_spec x "ACQUISITION_CUT") as [->|Hx].
  - inv_ok H. subst. by apply cut_quiet.
  - inv_ok H. destruct (ordinal_quiet x5 s Hc) as [Hc' E].
    apply replay_step_follows in H; [|done]. unfold follows in *. by rewrite E in H.
Qed.

Lemma replay_items_records records errors : length errors = length records ->
  (fun item => item.1.2) <$> replay_items records errors = records.
Proof.
  revert errors. induction records as [|r records IH]; intros [|e errors] H; try done.
  simpl in *. f_equal. apply IH. lia.
Qed.

Lemma replay_path d binding items s s' : coherent s ->
  fold_try (replay_record d binding) items s = Ok s' ->
  coherent s' /\
  path (phase_of s) (omap (fun item => record_boundary item.1.2) items) (phase_of s').
Proof.
  revert s. induction items as [|item items IH]; intros s Hc H; simpl in *.
  - injection H as ->. split; [done|constructor].
  - inv_ok H. destruct (replay_record_follows _ _ _ _ _ Hc Hok) as [Hc' Hb].
    destruct (IH _ Hc' H) as [Hc'' Hpath]. split; [done|].
    destruct (record_boundary item.1.2) as [b|]; [by econstructor|]. by rewrite <- Hb.
Qed.
End replay.
