(* ===== verification/ReplayProperties.v ===== *)
(** * What an accepted snapshot establishes

    What every accepted record keeps: the order of acquisition, the marks of the dispatch
    and the position of the terminal cut.  The replay of a snapshot implements the dispatch
    protocol of [Protocol], and a disposition of the first schema that says the model was
    at capacity rests on a closed record of exactly one request and its refusal. *)
From S2P Require Import Prelude Text External Contract Availability Evidence Signing.
From S2P Require Import Switchyard Echo Replay Protocol.
Local Open Scope string_scope.

Section facts.
Context {HO : Host} {SV : Serde value} {JP : JsonParser} {VS : VendoredSchemas}.

(** ** The echo replay has one answer per record *)

Lemma echo_records_length binding records s errors :
  echo_records binding records s = Ok errors -> length errors = length records.
Proof.
  revert s errors. induction records as [|r records IH]; intros s errors H; simpl in H.
  - by injection H as <-.
  - inv_ok H. subst. simpl. f_equal. by eapply IH.
Qed.

Lemma echo_length snapshot enrolled errors records :
  echo_validate_snapshot snapshot enrolled = Ok errors ->
  value_index snapshot "records" = Array records -> length errors = length records.
Proof.
  intros H Hr. unfold echo_validate_snapshot in H. inv_ok H. rewrite Hr in Hok.
  apply ok_or_ok in Hok as [= <-]. case_match.
  - by eapply echo_records_length.
  - inv_ok H. subst. apply repeat_length.
Qed.

(** ** What a completely replayed snapshot went through *)

Lemma complete_replayed d raw : validate_switchyard_snapshot_complete d raw = Ok tt ->
  exists snapshot records errors s,
  validate_switchyard_snapshot d raw = Ok tt /\
  from_slice raw = Ok snapshot /\ value_index snapshot "records" = Array records /\
  length errors = length records /\
  fold_try (replay_record d (value_index snapshot "binding")) (replay_items records errors)
    replay_start = Ok s /\
  check_replayed d snapshot s = Ok tt.
Proof.
  intros H. unfold validate_switchyard_snapshot_complete in H. inv_ok H.
  apply map_err_ok in Hok0. apply ok_or_ok in Hok5.
  assert (value_index x "records" = Array x2) as Hr
    by (destruct (value_index x "records"); naive_solver).
  exists x, x2, x1, x3. repeat (split; [done|]). split; [|done].
  by eapply echo_length.
Qed.

(** A property of each record that its acceptance establishes holds of all of them. *)
Lemma replay_forall d binding (P : value -> Prop) items s s' :
  (forall last record error t t', replay_record d binding (last, record, error) t = Ok t' ->
     P record) ->
  fold_try (replay_record d binding) items s = Ok s' ->
  Forall P ((fun item => item.1.2) <$> items).
Proof.
  intros HP. revert s. induction items as [|[[last record] error] items IH]; intros s H.
  - constructor.
  - simpl in H. inv_ok H. constructor; [by eapply HP|by eapply IH].
Qed.

(** ** The order of acquisition *)

Definition record_ordinal (record : value) : option Z := get_i64 record "acquisition_ordinal".

Definition no_discrepancy (record : value) : Prop :=
  get_str record "kind" <> Some "ADMISSION_DISCREPANCY".

Lemma replay_step_marks d kind method normalized s s' :
  replay_step d kind method normalized s = Ok s' ->
  rs_next_acquisition_ordinal s' = rs_next_acquisition_ordinal s /\
  rs_saw_discrepancy s' = rs_saw_discrepancy s || String.eqb kind "ADMISSION_DISCREPANCY" /\
  rs_cut s' = rs_cut s.
Proof.
  intros H. unfold replay_step in H.
  repeat lazymatch type of H with
  | (if String.eqb ?k ?c then _ else _) = _ => destruct (String.eqb_spec k c) as [->|?]
  end; try discriminate H.
  all: lazymatch type of H with
  | step_request_started _ _ = _ => unfold step_request_started in H
  | step_execution _ _ _ = _ => unfold step_execution in H
  | step_refused _ _ = _ => unfold step_refused in H
  | step_response_completed _ _ = _ => unfold step_response_completed in H
  | step_approval _ _ = _ => unfold step_approval in H
  | step_local_fact _ _ _ = _ => apply step_local_fact_marks in H as [->| ->]
  | step_discrepancy _ _ = _ => unfold step_discrepancy in H
  | step_client_request _ _ = _ => unfold step_client_request in H
  | step_client_response _ _ = _ => unfold step_client_response in H
  | _ => idtac
  end; try (inv_ok H; subst); simpl; rewrite ?orb_false_r, ?orb_true_r; auto.
Qed.

(** While no discrepancy was seen the ordinals are consecutive. *)
Lemma replay_record_ordinal d binding last record error s s' :
  replay_record d binding (last, record, error) s = Ok s' -> rs_saw_discrepancy s' = false ->
  rs_saw_discrepancy s = false /\ no_discrepancy record /\
  match record_ordinal record with
  | Some n => n = rs_next_acquisition_ordinal s /\
      rs_next_acquisition_ordinal s' = (rs_next_acquisition_ordinal s + 1)%Z
  | None => rs_next_acquisition_ordinal s' = rs_next_acquisition_ordinal s
  end.
Proof.
  intros H Hd. unfold replay_record in H. inv_ok H. apply string_at_ok in Hok.
  apply ok_or_ok in Hok1. unfold no_discrepancy, record_ordinal, get_i64.
  rewrite Hok, Hok1. simpl.
  destruct (String.eqb_spec x "ACQUISITION_CUT") as [->|Hx].
  - inv_ok H. subst. simpl in *. unfold check_cut_record in Hok5. inv_ok Hok5. res_simpl.
    test_simpl. destruct_and!. destruct x1; try discriminate. by repeat split.
  - inv_ok H. apply replay_step_marks in H as (Hn & Hm & _). rewrite Hd in Hm. symmetry in Hm.
    apply orb_false_iff in Hm as [Hm Hk]. simpl in Hm, Hn.
    split; [done|]. split; [by intros [= ->]|].
    unfold check_acquisition in Hok8. destruct (as_i64 x1) as [n|].
    + inv_ok Hok8. subst. unfold ordinal_after in Hok9.
      destruct (Z.eqb_spec n (rs_next_acquisition_ordinal s)) as [Hs|?].
      * inv_ok Hok9. by rewrite <- Hok9.
      * inv_ok Hok9. unfold is_ordinal_gap in *. rewrite Hk in *. by res_simpl.
    + inv_ok Hok8. by subst.
Qed.

Lemma replay_ordinals d binding items s s' :
  fold_try (replay_record d binding) items s = Ok s' -> rs_saw_discrepancy s' = false ->
  rs_saw_discrepancy s = false /\ Forall no_discrepancy ((fun item => item.1.2) <$> items) /\
  (rs_next_acquisition_ordinal s <= rs_next_acquisition_ordinal s')%Z /\
  omap record_ordinal ((fun item => item.1.2) <$> items)
  = seqZ (rs_next_acquisition_ordinal s)
      (rs_next_acquisition_ordinal s' - rs_next_acquisition_ordinal s).
Proof.
  revert s. induction items as [|[[last record] error] items IH]; intros s H Hd;
    csimpl in *.
  - injection H as ->. rewrite Z.sub_diag. repeat split; [done|constructor|lia].
  - inv_ok H. destruct (IH _ H Hd) as (Hd' & Hf & Hle & Ho).
    destruct (replay_record_ordinal _ _ _ _ _ _ _ Hok Hd') as (Hd'' & Hk & Hn).
    destruct (record_ordinal record) as [n|] eqn:E.
    + destruct Hn as [-> Hn]. rewrite Hn in *.
      split; [done|]. split; [by constructor|]. split; [lia|].
      rewrite Ho, (seqZ_cons (rs_next_acquisition_ordinal s)) by lia.
      f_equal. f_equal; lia.
    + rewrite Hn in *. split; [done|]. split; [by constructor|].
      split; [lia|done].
Qed.

(** ** The terminal cut *)

Lemma replay_items_app records record errors : length errors = length (records ++ [record]) ->
  exists front error, replay_items (records ++ [record]) errors
                      = (front ++ [(true, record, error)])%list /\
    Forall (fun item => item.1.1 = false) front.
Proof.
  revert errors. induction records as [|r records IH]; intros errors H.
  - destruct errors as [|e [|]]; try done. by exists [], e.
  - destruct errors as [|e errors]; [done|]. simpl in H.
    destruct (IH errors) as (front & error & E & Hf); [simpl in *; lia|].
    exists ((false, r, e) :: front)%list, error. simpl. rewrite E.
    split; [|by constructor]. by destruct records.
Qed.

Lemma cut_is_last method last normalized ordinal acquisition_kind raw :
  check_cut_record method last normalized ordinal acquisition_kind raw = Ok tt -> last = true.
Proof. intros H. unfold check_cut_record in H. inv_ok H. res_simpl. test_simpl. tauto. Qed.

Lemma replay_uncut d binding items s s' : Forall (fun item => item.1.1 = false) items ->
  fold_try (replay_record d binding) items s = Ok s' -> rs_cut s' = rs_cut s.
Proof.
  intros Hf. revert s. induction Hf as [|[[last record] error] items Hl _ IH]; intros s H.
  - by injection H as ->.
  - simpl in H, Hl. subst. inv_ok H. rewrite (IH _ H). clear H. unfold replay_record in Hok.
    inv_ok Hok. destruct (String.eqb x0 "ACQUISITION_CUT").
    + inv_ok Hok. by match goal with X : check_cut_record _ _ _ _ _ _ = _ |- _ =>
        apply cut_is_last in X end.
    + inv_ok Hok. by apply replay_step_marks in Hok as (_ & _ & ->).
Qed.

(** The cut of an accepted snapshot is what its last record says. *)
Lemma replay_cut d binding records errors s cut : length errors = length records ->
  fold_try (replay_record d binding) (replay_items records errors) replay_start = Ok s ->
  rs_cut s = Some cut ->
  exists record, last records = Some record /\
    get_str record "kind" = Some "ACQUISITION_CUT" /\ value_get record "normalized" = Some cut.
Proof.
  destruct records as [|record records _] using rev_ind; intros Hl H Hc.
  { destruct errors; [|done]. simpl in H. injection H as <-. discriminate Hc. }
  exists record. split; [apply last_snoc|].
  destruct (replay_items_app _ _ _ Hl) as (front & error & E & Hf). rewrite E in H.
  rewrite fold_try_app in H. inv_ok H. pose proof (replay_uncut _ _ _ _ _ Hf Hok) as Hn.
  simpl in H. inv_ok H. subst. unfold replay_record in Hok0. inv_ok Hok0.
  apply string_at_ok in Hok1. apply ok_or_ok in Hok5.
  destruct (String.eqb_spec x0 "ACQUISITION_CUT") as [->|Hx].
  - inv_ok Hok0. subst. simpl in Hc. injection Hc as <-. done.
  - inv_ok Hok0. apply replay_step_marks in Hok0 as (_ & _ & Hm). simpl in *. congruence.
Qed.

(** ** A completed turn *)

(** Once the turn is completed nothing is in flight. *)
Definition turn_closed (s : SwitchyardReplayState) : Prop :=
  rs_saw_turn_completed s = true ->
  rs_pending_request s = None /\ rs_open_response s = None /\
  (is_Some (rs_execution s) \/ is_Some (rs_refusal s)).

Lemma started_lane method lane :
  validate_kind_lane "PROVIDER_REQUEST_STARTED" method lane = Ok tt -> lane = "NOTIFICATION".
Proof. intros H. unfold validate_kind_lane in H. res_simpl. simpl in H. test_simpl. tauto. Qed.

Lemma started_in_turn acquisition_kind method normalized ordinal raw s next :
  bypasses "PROVIDER_REQUEST_STARTED" acquisition_kind s = false ->
  check_acquisition "PROVIDER_REQUEST_STARTED" method normalized ordinal acquisition_kind raw
    (rs_next_acquisition_ordinal s) = Ok next ->
  rs_saw_turn_completed s && is_some (rs_execution s) = false.
Proof.
  intros Hb H. unfold bypasses in Hb. simpl in Hb. rewrite andb_true_r in Hb.
  apply andb_false_iff in Hb as [Hb|Hb]; [by apply orb_false_iff in Hb as [_ ?]|].
  apply negb_false_iff in Hb. unfold check_acquisition in H.
  destruct (as_str acquisition_kind) as [lane|] eqn:Hl; [|done].
  destruct (as_i64 ordinal).
  - inv_ok H. unfold check_lane in Hok0. rewrite Hl in Hok0. simpl in Hok0. inv_ok Hok0.
    apply started_lane in Hok0 as ->. discriminate Hb.
  - inv_ok H. res_simpl. destruct acquisition_kind; done.
Qed.

Lemma replay_step_turn d kind method normalized s s' :
  (kind = "PROVIDER_REQUEST_STARTED" ->
     rs_saw_turn_completed s && is_some (rs_execution s) = false) ->
  turn_closed s -> replay_step d kind method normalized s = Ok s' -> turn_closed s'.
Proof.
  intros Hk Hs H. unfold replay_step in H.
  repeat lazymatch type of H with
  | (if String.eqb ?k ?c then _ else _) = _ => destruct (String.eqb_spec k c) as [->|?]
  end; try discriminate H.
  - unfold step_request_started in H. replay_inv H. subst. intros Ht. simpl in Ht.
    destruct (Hs Ht) as (_ & _ & [Hx|Hx]).
    + specialize (Hk eq_refl). rewrite Ht in Hk. simpl in Hk. apply is_some_false in Hk.
      rewrite Hk in Hx. by destruct Hx.
    + match goal with X : rs_refusal s = None |- _ => rewrite X in Hx end. by destruct Hx.
  - unfold step_execution in H. replay_inv H. subst. intros Ht. simpl in Ht.
    destruct (Hs Ht) as (Hp & _). congruence.
  - unfold step_refused in H. replay_inv H. subst. intros Ht. simpl in Ht.
    destruct (Hs Ht) as (Hp & _). congruence.
  - unfold step_response_completed in H. replay_inv H. subst. intros Ht. simpl in Ht.
    destruct (Hs Ht) as (_ & Hp & _). congruence.
  - apply step_approval_marks in H as ->. exact Hs.
  - unfold step_local_fact in H. inv_ok H. destruct (String.eqb method "turn/completed");
      inv_ok H; subst; [|exact Hs].
    intros _. simpl. rewrite reject_ok, andb_false_iff, !negb_false_iff, !andb_true_iff,
      !is_none_true, !is_some_true in Hok1. tauto.
  - apply step_discrepancy_marks in H as ->. exact Hs.
  - destruct (step_client_marks _ _ _ (or_introl H)) as [m ->]. exact Hs.
  - destruct (step_client_marks _ _ _ (or_intror H)) as [m ->]. exact Hs.
  - inv_ok H. by subst.
Qed.

Lemma replay_turn d binding items s s' : turn_closed s ->
  fold_try (replay_record d binding) items s = Ok s' -> turn_closed s'.
Proof.
  revert s. induction items as [|[[last record] error] items IH]; intros s Hs H.
  - by injection H as <-.
  - simpl in H. inv_ok H. apply (IH x); [|done]. clear H IH. unfold replay_record in Hok.
    inv_ok Hok. destruct (String.eqb x0 "ACQUISITION_CUT"); inv_ok Hok; [by subst|].
    apply (replay_step_turn d x0 x1 x4 (with_ordinal x6 s) x); [|exact Hs|done].
    intros ->. rewrite reject_ok in Hok7. exact (started_in_turn _ _ _ _ _ _ _ Hok7 Hok9).
Qed.
End facts.


(** ** The phase a dispatch ended in, against its disposition *)

Definition phase_execution (p : Phase) : option ProviderExecutionIdentityV1 :=
  match p with
  | Quiet _ _ x | Asked _ _ x _ _ => x
  | Answering _ _ x _ => Some x
  | Closed _ _ => None
  end.

(** Every admitted response belongs to the execution [x]. *)
Definition admits (x : option ProviderExecutionIdentityV1) (b : Boundary) : Prop :=
  match b with ResponseAdmitted _ _ y _ => x = Some y | _ => True end.

(** The disposition says what the phase [p] is. *)
Definition fits (d : ProviderAdmissionDispositionV1) (p : Phase) : Prop :=
  match dp_mechanism_state d with
  | ParkedNotAdmitted => exists at_ms,
      p = Closed (dp_provider_request_occurrence_id d) at_ms /\
      (at_ms <= timestamp_ms (dp_received_at d))%Z
  | AdmissionIndeterminate => ~ admitted_phase p
  | ExecutionAdmitted | PostAdmissionInterrupted | MechanismWaitingApproval => admitted_phase p
  | ProviderCompleted => exists used last x, p = Quiet used last (Some x)
  end.

Lemma phase_admitted p : admitted_phase p <-> is_Some (phase_execution p).
Proof. destruct p; simpl; [done|done|split; eauto|split; [done|by intros [? [=]]]]. Qed.

Lemma protocol_execution p b q : protocol p b q ->
  admits (phase_execution q) b /\
  forall x, phase_execution p = Some x -> phase_execution q = Some x.
Proof. destruct 1; simpl; split; naive_solver. Qed.

Lemma path_execution p bs q : path p bs q ->
  Forall (admits (phase_execution q)) bs /\
  forall x, phase_execution p = Some x -> phase_execution q = Some x.
Proof.
  induction 1 as [|p b q bs r Hb _ [IHf IHx]]; [by split|].
  destruct (protocol_execution _ _ _ Hb) as [Ha Hx]. split; [|auto].
  constructor; [|done]. destruct b; simpl in *; auto.
Qed.

Lemma phase_of_execution s : coherent s -> phase_execution (phase_of s) = rs_execution s.
Proof.
  intros [Hr _ Ho _]. unfold phase_of. destruct (rs_refusal s).
  - destruct Hr as (_ & _ & ->); eauto.
  - destruct (rs_pending_request s), (rs_open_response s), (rs_execution s); done.
Qed.

Lemma phase_of_refused s r : rs_refusal s = Some r ->
  phase_of s = Closed (rf_occurrence r) (rf_observed_at_ms r).
Proof. unfold phase_of. by intros ->. Qed.

Section properties.
Context {HO : Host} {SV : Serde value} {JP : JsonParser} {VS : VendoredSchemas}.

(** ** The replayed state of an accepted snapshot *)

Lemma accepted_dispatch d raw : validate_switchyard_snapshot_complete d raw = Ok tt ->
  exists snapshot records s,
  from_slice raw = Ok snapshot /\ value_index snapshot "records" = Array records /\
  (exists errors, length errors = length records /\
   fold_try (replay_record d (value_index snapshot "binding")) (replay_items records errors)
     replay_start = Ok s) /\
  check_replayed d snapshot s = Ok tt /\ coherent s /\
  path idle (omap record_boundary records) (phase_of s).
Proof.
  intros H. destruct (complete_replayed d raw H)
    as (snapshot & records & errors & s & _ & Hf & Hr & Hl & Hs & Hd).
  destruct (replay_path _ _ _ _ _ coherent_start Hs) as [Hc Hp].
  exists snapshot, records, s. split; [done|]. split; [done|]. split; [by exists errors|].
  split; [done|]. split; [done|].
  rewrite <- (replay_items_records records errors Hl), omap_of_map. exact Hp.
Qed.

Lemma replayed_execution d snapshot s : check_replayed d snapshot s = Ok tt ->
  rs_execution s = dp_provider_execution d.
Proof.
  intros H. unfold check_replayed, check_snapshot_execution in H. inv_ok H. inv_ok Hok2.
  replay_inv Hok4. congruence.
Qed.

(** A refusal the disposition was checked against is the one it names. *)
Lemma refusal_named d s r : check_refusal d s = Ok tt -> rs_refusal s = Some r ->
  rf_occurrence r = dp_provider_request_occurrence_id d /\
  (rf_observed_at_ms r <= timestamp_ms (dp_received_at d))%Z.
Proof.
  intros H Hr. unfold check_refusal in H. rewrite Hr in H. replay_inv H.
  split; [done|lia].
Qed.

(** A clean acquisition: the terminal cut counts every ordinal and the dispatch closed. *)
Lemma clean_terminal d snapshot s : expected_clean d snapshot s = Ok true ->
  exists cut, rs_cut s = Some cut /\
    get_i64 cut "loss_generation" = Some 0%Z /\ get_bool cut "stream_quiesced" = Some true /\
    get_i64 cut "ordered_high_water" = Some (rs_next_acquisition_ordinal s) /\
    rs_client_requests s = ∅ /\ semantic_closed s = true.
Proof.
  intros H. unfold expected_clean in H. destruct (rs_cut s) as [cut|]; [|by inv_ok H].
  exists cut. split; [done|]. unfold check_terminal_cut in H. inv_ok H.
  apply ok_or_ok in Hok8. apply integer_ok in Hok9, Hok10.
  rewrite !andb_true_iff, !Z.eqb_eq in H. destruct H as [[[[[-> _] ->] ->] ->] Hc].
  repeat (split; [done|]). split; [|done]. apply map_size_empty_inv.
  replay_inv Hok12. lia.
Qed.

Lemma clean_is_complete d snapshot s clean : expected_clean d snapshot s = Ok clean ->
  clean = dp_acquisition_complete d.
Proof.
  intros H. unfold expected_clean in H. destruct (rs_cut s) as [cut|].
  - unfold check_terminal_cut in H. inv_ok H. rewrite H in Hok13. replay_inv Hok13.
    symmetry. by apply eqb_prop.
  - replay_inv H. subst. by symmetry.
Qed.

(** ** The mechanism state *)

Lemma parked_phase d s clean : check_mechanism ParkedNotAdmitted clean s = Ok tt ->
  check_refusal d s = Ok tt ->
  exists at_ms, phase_of s = Closed (dp_provider_request_occurrence_id d) at_ms /\
    (at_ms <= timestamp_ms (dp_received_at d))%Z.
Proof.
  intros H Hr. unfold check_mechanism in H. replay_inv H.
  destruct (rs_refusal s) as [r|] eqn:E; [|by destruct H0].
  destruct (refusal_named _ _ _ Hr E) as [<- Ht]. exists (rf_observed_at_ms r).
  split; [|done]. by apply phase_of_refused.
Qed.

Lemma completed_phase d snapshot s : coherent s -> turn_closed s ->
  expected_clean d snapshot s = Ok true -> is_Some (rs_execution s) ->
  exists used last x, phase_of s = Quiet used last (Some x).
Proof.
  intros [Hr _ _ _] Ht Hc [x Hx]. destruct (clean_terminal _ _ _ Hc) as (_ & _ & _ & _ & _ & _ & E).
  assert (rs_refusal s = None) as Hn.
  { destruct (rs_refusal s); [|done]. destruct Hr as (_ & _ & ?); [eauto|congruence]. }
  unfold semantic_closed in E. rewrite Hn, Hx in E. simpl in E.
  rewrite !andb_true_iff in E. destruct E as [[[_ E] _] _].
  destruct (Ht E) as (Hp & Ho & _). unfold phase_of. rewrite Hn, Hp, Ho, Hx. eauto.
Qed.

Lemma mechanism_fits d snapshot s : coherent s -> turn_closed s ->
  check_replayed d snapshot s = Ok tt -> fits d (phase_of s).
Proof.
  intros Hc Ht H. unfold check_replayed in H. inv_ok H.
  pose proof (phase_admitted (phase_of s)) as Ha. rewrite (phase_of_execution s Hc) in Ha.
  unfold fits. destruct (dp_mechanism_state d).
  - by eapply parked_phase.
  - simpl in Hok3. replay_inv Hok3. rewrite Ha, Hok3. by intros [? [=]].
  - simpl in Hok3. replay_inv Hok3. by apply Ha, is_some_true.
  - simpl in Hok3. replay_inv Hok3. by apply Ha, is_some_true.
  - simpl in Hok3. replay_inv Hok3. unfold expected_clean in Hok.
    destruct (rs_cut s); [done|]. replay_inv Hok. by apply Ha.
  - simpl in Hok3. replay_inv Hok3. subst. eapply completed_phase; [done..|].
    by apply is_some_true.
Qed.

(** A complete acquisition without an execution: the dispatch was refused, unambiguously. *)
Lemma refused_replay d snapshot s : check_replayed d snapshot s = Ok tt -> coherent s ->
  dp_acquisition_complete d = true -> dp_provider_execution d = None ->
  exists cut at_ms, rs_cut s = Some cut /\ rs_saw_discrepancy s = false /\
    phase_of s = Closed (dp_provider_request_occurrence_id d) at_ms /\
    (at_ms <= timestamp_ms (dp_received_at d))%Z /\
    get_i64 cut "loss_generation" = Some 0%Z /\
    get_i64 cut "ordered_high_water" = Some (rs_next_acquisition_ordinal s).
Proof.
  intros H Hc Ha Hx. pose proof (replayed_execution _ _ _ H) as Hx'. rewrite Hx in Hx'.
  unfold check_replayed in H. inv_ok H.
  pose proof (clean_is_complete _ _ _ _ Hok) as ->. rewrite Ha in Hok.
  destruct (clean_terminal _ _ _ Hok) as (cut & Hcut & Hl & _ & Hw & _ & Hs).
  unfold semantic_closed in Hs. rewrite Hx' in Hs. simpl in Hs.
  rewrite orb_false_r, andb_true_iff, negb_true_iff in Hs. destruct Hs as [Hr Hd].
  apply is_some_true in Hr as [r Hr]. destruct (refusal_named _ _ _ H Hr) as [<- Ht].
  exists cut, (rf_observed_at_ms r). repeat (split; [done|]). split; [|done].
  by apply phase_of_refused.
Qed.

Context {SXi : Serde ProviderExecutionIdentityV1}
  {SQ1 : Serde DeterministicProviderAdmissionEvidenceV1}
  {SQ2 : Serde DeterministicProviderAdmissionEvidenceV2}
  {SDp : Serde ProviderAdmissionDispositionV1}.

(** The evidence a refusal of the first schema was validated against. *)
Lemma capacity_disposition d : disposition_validate (PE := switchyard_evidence) d = Ok tt ->
  dp_schema d = PROVIDER_ADMISSION_DISPOSITION_SCHEMA_V1 ->
  dp_disposition d = NotAdmittedModelAtCapacity ->
  exists raw, mapper_snapshot_validate (dp_mapper_snapshot d) = Ok raw /\
    validate_switchyard_snapshot_complete d raw = Ok tt /\
    dp_acquisition_complete d = true /\ dp_provider_execution d = None.
Proof.
  intros H Hv Hk. unfold disposition_validate in H. inv_ok H. rename x0 into raw.
  unfold validate_disposition_evidence in Hok4. rewrite Hv in Hok4. simpl in Hok4.
  inv_ok Hok4. unfold validate_disposition_kind in Hok6. rewrite Hk in Hok6.
  exists raw. split; [done|]. split; [done|]. replay_inv Hok6.
  split; [done|]. by apply eq_None_not_Some.
Qed.

(** ** The properties *)

(** C36: the ordered replay implements the dispatch protocol: the provider boundaries of an
    accepted snapshot are a run of it from the idle phase - one request in flight at a
    time, numbered in order, answered once, no boundary before an earlier one, no refusal
    after an admission - the disposition's mechanism state says which phase the run
    ended in, and every admitted response belongs to the execution the disposition
    names. *)
Theorem replay_refines_protocol d raw :
  validate_switchyard_snapshot_complete d raw = Ok tt ->
  exists snapshot records p,
    from_slice raw = Ok snapshot /\ value_index snapshot "records" = Array records /\
    path idle (omap record_boundary records) p /\ fits d p /\
    phase_execution p = dp_provider_execution d /\
    Forall (admits (dp_provider_execution d)) (omap record_boundary records).
Proof.
  intros H. destruct (accepted_dispatch d raw H)
    as (snapshot & records & s & Hf & Hr & (errors & _ & Hs) & Hd & Hc & Hp).
  pose proof (replayed_execution _ _ _ Hd) as Hx. rewrite <- (phase_of_execution s Hc) in Hx.
  exists snapshot, records, (phase_of s). rewrite <- Hx.
  split; [done|]. split; [done|]. split; [done|]. split; [|by apply path_execution in Hp as []].
  eapply mechanism_fits; [done| |done]. by eapply replay_turn; [|exact Hs].
Qed.

(** C19: a disposition of the first schema that says the model was at capacity - what a
    parked attempt rests on - is backed by a snapshot of exactly one request, the one it
    names, started and then refused no later than the disposition was received; the
    snapshot is complete: the acquisition ordinals are consecutive from 0 up to the high
    water of its last record, a terminal cut without loss of a quiesced stream, and no
    record is a discrepancy. *)
Theorem refused_evidence_is_complete d :
  disposition_validate (PE := switchyard_evidence) d = Ok tt ->
  dp_schema d = PROVIDER_ADMISSION_DISPOSITION_SCHEMA_V1 ->
  dp_disposition d = NotAdmittedModelAtCapacity ->
  exists raw snapshot records started refused,
    mapper_snapshot_validate (dp_mapper_snapshot d) = Ok raw /\
    from_slice raw = Ok snapshot /\ value_index snapshot "records" = Array records /\
    omap record_boundary records
    = [Started (dp_provider_request_occurrence_id d) 0 started;
       Refused (dp_provider_request_occurrence_id d) refused] /\
    (started <= refused <= timestamp_ms (dp_received_at d))%Z /\
    Forall no_discrepancy records /\
    exists cut counts high_water, omap record_ordinal records = seqZ 0 high_water /\
      last records = Some cut /\ get_str cut "kind" = Some "ACQUISITION_CUT" /\
      value_get cut "normalized" = Some counts /\
      get_i64 counts "ordered_high_water" = Some high_water /\
      get_i64 counts "loss_generation" = Some 0%Z.
Proof.
  intros H Hv Hk. destruct (capacity_disposition d H Hv Hk) as (raw & Hm & Hraw & Ha & Hx).
  destruct (accepted_dispatch d raw Hraw)
    as (snapshot & records & s & Hf & Hr & (errors & Hl & Hs) & Hd & Hc & Hp).
  destruct (refused_replay _ _ _ Hd Hc Ha Hx)
    as (cut & refused & Hcut & Hn & Hph & Ht & Hloss & Hw).
  rewrite Hph in Hp. destruct (refused_dispatch _ _ _ Hp) as (started & Hst & Hb).
  destruct (replay_ordinals _ _ _ _ _ Hs Hn) as (_ & Hfor & _ & Ho).
  rewrite replay_items_records in Hfor, Ho by done. rewrite Z.sub_0_r in Ho.
  destruct (replay_cut _ _ _ _ _ _ Hl Hs Hcut) as (record & Hlast & Hkind & Hnorm).
  exists raw, snapshot, records, started, refused. repeat (split; [done|]).
  by exists record, cut, (rs_next_acquisition_ordinal s).
Qed.
End properties.
