(* ===== verification/Codec.v ===== *)
(** * A concrete host

    Byte-level codecs used to instantiate the external crates, so that witnesses
    evaluate: a prefix-free text format with its round-trip law, JSON values in
    that format, a checksum in the place of SHA-256 and hexadecimal text. *)
From S2P Require Import Prelude Text External.
From Stdlib Require Import SpecFloat.
Local Open Scope string_scope.

(** ** Prefix-free text *)

Class Wire (T : Type) : Type := {
  put : T -> string;
  get : string -> option (T * string)
}.
Class WireOk (T : Type) `{Wire T} : Prop :=
  get_put : forall (t : T) r, get (put t +:+ r) = Some (t, r).

Lemma str_cons_app c (a b : string) : String c a +:+ b = String c (a +:+ b).
Proof. done. Qed.
Lemma str_nil_app (a : string) : "" +:+ a = a.
Proof. done. Qed.
Lemma string_app_assoc (a b c : string) : (a +:+ b) +:+ c = a +:+ (b +:+ c).
Proof. induction a as [|x a IH]; [done|]. by rewrite !str_cons_app, IH. Qed.
Lemma string_app_nil (a : string) : a +:+ "" = a.
Proof. induction a as [|x a IH]; [done|]. by rewrite str_cons_app, IH. Qed.

Lemma get_full {T} `{WireOk T} (t : T) : get (put t) = Some (t, "").
Proof. rewrite <- (string_app_nil (put t)). apply get_put. Qed.

(** [wire_record W]: the law of a record's instance [W], field by field. *)
Ltac wire_record W :=
  let t := fresh "t" in
  let r := fresh "r" in
  intros t r; cbn [put get W]; rewrite ?string_app_assoc;
  repeat (rewrite get_put; cbn [mbind option_bind]); by destruct t.

Fixpoint put_pos (p : positive) : string :=
  match p with
  | xH => "."
  | xO p => String "0" (put_pos p)
  | xI p => String "1" (put_pos p)
  end.
Fixpoint get_pos (s : string) : option (positive * string) :=
  match s with
  | String a s =>
      if Ascii.eqb a "." then Some (xH, s)
      else '(p, s) ← get_pos s; Some (if Ascii.eqb a "0" then (xO p, s) else (xI p, s))
  | "" => None
  end.

#[global] Instance positive_wire : Wire positive := {| put := put_pos; get := get_pos |}.
#[global] Instance positive_wire_ok : WireOk positive.
Proof.
  intros p r. cbn [put get positive_wire]. induction p as [p IH|p IH|]; cbn [put_pos]; rewrite str_cons_app; simpl; [| |done];
    by rewrite IH.
Qed.

#[global] Instance N_wire : Wire N := {|
  put n := match n with N0 => "z" | Npos p => String "p" (put p) end;
  get s := match s with
           | String a s =>
               if Ascii.eqb a "z" then Some (N0, s) else '(p, s) ← get s; Some (Npos p, s)
           | "" => None
           end |}.
#[global] Instance N_wire_ok : WireOk N.
Proof.
  intros [|p] r; cbn [put get N_wire]; [done|]. rewrite str_cons_app; cbn [Ascii.eqb Bool.eqb].
  by rewrite (get_put p).
Qed.

#[global] Instance Z_wire : Wire Z := {|
  put n := match n with
           | Z0 => "z" | Zpos p => String "p" (put p) | Zneg p => String "n" (put p) end;
  get s := match s with
           | String a s =>
               if Ascii.eqb a "z" then Some (Z0, s)
               else '(p, s) ← get s; Some (if Ascii.eqb a "p" then (Zpos p, s) else (Zneg p, s))
           | "" => None
           end |}.
#[global] Instance Z_wire_ok : WireOk Z.
Proof.
  intros [|p|p] r; cbn [put get Z_wire]; [done| |];
    rewrite str_cons_app; cbn [Ascii.eqb Bool.eqb]; by rewrite (get_put p).
Qed.

(** A string is its length and its bytes. *)
Fixpoint split_at (n : nat) (s : string) : option (string * string) :=
  match n, s with
  | O, _ => Some ("", s)
  | S n, String a s => '(x, y) ← split_at n s; Some (String a x, y)
  | S _, "" => None
  end.
Lemma split_at_app s r : split_at (String.length s) (s +:+ r) = Some (s, r).
Proof.
  induction s as [|a s IH]; [done|]. rewrite str_cons_app. simpl. by rewrite IH.
Qed.

#[global] Instance string_wire : Wire string := {|
  put s := put (strlen s) +:+ s;
  get s := '(n, s) ← get s; split_at (N.to_nat n) s |}.
#[global] Instance string_wire_ok : WireOk string.
Proof.
  intros s r. cbn [put get string_wire]. rewrite string_app_assoc, get_put. cbn [mbind option_bind].
  unfold strlen. rewrite Nat2N.id. apply split_at_app.
Qed.

#[global] Instance bool_wire : Wire bool := {|
  put (b : bool) := if b then "t" else "f";
  get s := match s with String a s => Some (Ascii.eqb a "t", s) | "" => None end |}.
#[global] Instance bool_wire_ok : WireOk bool.
Proof. by intros [] r. Qed.

Section containers.
Context {A : Type} {WA : Wire A} {WAok : WireOk A}.
Context {B : Type} {WB : Wire B} {WBok : WireOk B}.

#[global] Instance option_wire : Wire (option A) := {|
  put o := match o with None => "n" | Some a => String "s" (put a) end;
  get s := match s with
           | String c s =>
               if Ascii.eqb c "n" then Some (None, s) else '(a, s) ← get s; Some (Some a, s)
           | "" => None
           end |}.
#[global] Instance option_wire_ok : WireOk (option A).
Proof.
  intros [a|] r; cbn [put get option_wire]; [|done].
  rewrite str_cons_app; cbn [Ascii.eqb Bool.eqb]. by rewrite (get_put a).
Qed.

#[global] Instance prod_wire : Wire (A * B) := {|
  put p := put p.1 +:+ put p.2;
  get s := '(a, s) ← get s; '(b, s) ← get s; Some ((a, b), s) |}.
#[global] Instance prod_wire_ok : WireOk (A * B).
Proof.
  intros [a b] r. cbn [put get prod_wire fst snd].
  rewrite string_app_assoc, (get_put a). cbn [mbind option_bind].
  by rewrite (get_put b).
Qed.

(** A list is its length and its elements. *)
Fixpoint put_all (l : list A) : string :=
  match l with [] => "" | a :: l => put a +:+ put_all l end.
Fixpoint get_all (n : nat) (s : string) : option (list A * string) :=
  match n with
  | O => Some ([], s)
  | S n => '(a, s) ← get s; '(l, s) ← get_all n s; Some (a :: l, s)
  end.
Lemma get_put_all l r : get_all (length l) (put_all l +:+ r) = Some (l, r).
Proof.
  induction l as [|a l IH]; [done|]. cbn [length put_all get_all].
  rewrite string_app_assoc, (get_put a). cbn [mbind option_bind]. by rewrite IH.
Qed.

#[global] Instance list_wire : Wire (list A) := {|
  put l := put (N.of_nat (length l)) +:+ put_all l;
  get s := '(n, s) ← get s; get_all (N.to_nat n) s |}.
#[global] Instance list_wire_ok : WireOk (list A).
Proof.
  intros l r. cbn [put get list_wire]. rewrite string_app_assoc, get_put.
  cbn [mbind option_bind]. rewrite Nat2N.id. apply get_put_all.
Qed.
End containers.

#[global] Instance gmap_wire {A} {WA : Wire A} : Wire (gmap string A) := {|
  put (m : gmap string A) := put (map_to_list m : list (string * A));
  get s := '(l, s) ← (get s : option (list (string * A) * string)); Some (list_to_map l, s) |}.
#[global] Instance gmap_wire_ok {A} {WA : Wire A} {WAok : WireOk A} : WireOk (gmap string A).
Proof.
  intros m r. cbn [put get gmap_wire]. rewrite (get_put (map_to_list m)).
  cbn [mbind option_bind]. by rewrite list_to_map_to_list.
Qed.

(** An enumeration is its index. *)
Definition enum_wire {A} (l : list A) (index : A -> nat) : Wire A := {|
  put a := put (N.of_nat (index a));
  get s := '(n, s) ← get s; a ← l !! N.to_nat n; Some (a, s) |}.
Lemma enum_wire_ok {A} (l : list A) (index : A -> nat) :
  (forall a, l !! index a = Some a) -> @WireOk A (enum_wire l index).
Proof.
  intros Hl a r. cbn [put get enum_wire]. rewrite get_put. cbn [mbind option_bind].
  by rewrite Nat2N.id, Hl.
Qed.

(** ** JSON values *)

#[global] Instance spec_float_wire : Wire spec_float := {|
  put f := match f with
           | S754_zero b => String "z" (put b)
           | S754_infinity b => String "i" (put b)
           | S754_nan => "n"
           | S754_finite b m e => String "f" (put (b, m, e))
           end;
  get s := match s with
           | String c s =>
               if Ascii.eqb c "z" then '(b, s) ← get s; Some (S754_zero b, s)
               else if Ascii.eqb c "i" then '(b, s) ← get s; Some (S754_infinity b, s)
               else if Ascii.eqb c "n" then Some (S754_nan, s)
               else '(t, s) ← get s; Some (S754_finite t.1.1 t.1.2 t.2, s)
           | "" => None
           end |}.
#[global] Instance spec_float_wire_ok : WireOk spec_float.
Proof.
  intros [b|b| |b m e] r; cbn [put get spec_float_wire]; [| |done|];
    rewrite str_cons_app; cbn [Ascii.eqb Bool.eqb].
  - by rewrite (get_put b).
  - by rewrite (get_put b).
  - by rewrite (get_put (b, m, e)).
Qed.

#[global] Instance number_wire : Wire number := {|
  put n := match n with
           | PosInt n => String "p" (put n)
           | NegInt z => String "n" (put z)
           | Float f => String "f" (put f)
           end;
  get s := match s with
           | String c s =>
               if Ascii.eqb c "p" then '(n, s) ← get s; Some (PosInt n, s)
               else if Ascii.eqb c "n" then '(z, s) ← get s; Some (NegInt z, s)
               else '(f, s) ← get s; Some (Float f, s)
           | "" => None
           end |}.
#[global] Instance number_wire_ok : WireOk number.
Proof.
  intros [n|z|f] r; cbn [put get number_wire]; rewrite str_cons_app; cbn [Ascii.eqb Bool.eqb].
  - by rewrite (get_put n).
  - by rewrite (get_put z).
  - by rewrite (get_put f).
Qed.

Fixpoint put_value (v : value) : string :=
  match v with
  | Null => "n"
  | Bool b => String "b" (put b)
  | Number n => String "#" (put n)
  | Str s => String "s" (put s)
  | Array vs =>
      String "a" (put (N.of_nat (length vs)) +:+
        (fix go (vs : list value) : string :=
           match vs with [] => "" | v :: vs => put_value v +:+ go vs end) vs)
  | Object kvs =>
      String "o" (put (N.of_nat (length kvs)) +:+
        (fix go (kvs : list (string * value)) : string :=
           match kvs with [] => "" | (k, v) :: kvs => put k +:+ (put_value v +:+ go kvs) end) kvs)
  end.

Fixpoint get_value (fuel : nat) (s : string) : option (value * string) :=
  match fuel with
  | O => None
  | S fuel =>
      match s with
      | "" => None
      | String c s =>
          if Ascii.eqb c "n" then Some (Null, s)
          else if Ascii.eqb c "b" then '(b, s) ← get s; Some (Bool b, s)
          else if Ascii.eqb c "#" then '(n, s) ← get s; Some (Number n, s)
          else if Ascii.eqb c "s" then '(t, s) ← get s; Some (Str t, s)
          else if Ascii.eqb c "a" then
            '(n, s) ← get s;
            '(l, s) ← @get_all value {| put := put_value; get := get_value fuel |} (N.to_nat n) s;
            Some (Array l, s)
          else
            '(n, s) ← get s;
            '(l, s) ← @get_all (string * value)
              (@prod_wire _ _ _ {| put := put_value; get := get_value fuel |}) (N.to_nat n) s;
            Some (Object l, s)
      end
  end.

(** The nesting depth, which is the fuel a document needs. *)
Fixpoint value_depth (v : value) : nat :=
  match v with
  | Array vs => S (list_max (value_depth <$> vs))
  | Object kvs => S (list_max ((fun kv => value_depth kv.2) <$> kvs))
  | _ => 1
  end.

Lemma list_max_le_elem n l : n ∈ l -> n <= list_max l.
Proof.
  intros Hn. pose proof (proj1 (list_max_le l (list_max l)) (Nat.le_refl _)) as Hall.
  apply List.Forall_forall with (x := n) in Hall; [done|by apply list_elem_of_In].
Qed.

Lemma get_put_value v : forall fuel r,
  value_depth v <= fuel -> get_value fuel (put_value v +:+ r) = Some (v, r).
Proof.
  induction v as [|b|n|s|vs IH|kvs IH] using value_nested_ind; intros [|fuel] r Hf;
    try (simpl in Hf; lia); cbn [put_value]; rewrite ?str_cons_app; cbn [get_value];
    try done; cbn [Ascii.eqb Bool.eqb].
  - by rewrite (get_put b).
  - by rewrite (get_put n).
  - by rewrite (get_put s).
  - rewrite string_app_assoc, get_put. cbn [mbind option_bind]. rewrite Nat2N.id.
    pose (W := {| put := put_value; get := get_value fuel |} : Wire value).
    enough (forall r, @get_all value W (length vs) (@put_all value W vs +:+ r) = Some (vs, r)) as Hg
      by (fold W; change ((fix go (vs : list value) : string := _) vs) with (@put_all value W vs);
          by rewrite Hg).
    clear r. cbn [value_depth] in Hf. apply le_S_n in Hf.
    induction IH as [|v vs Hv _ IHvs]; intros r; [done|]. cbn [length put_all get_all].
    rewrite string_app_assoc.
    destruct (proj1 (Nat.max_lub_iff (value_depth v)
      (list_max (@fmap list _ _ _ value_depth vs)) fuel) Hf)
      as [Hf1 Hf2]. change (@put value W v) with (put_value v).
    assert (forall r, @get value W (put_value v +:+ r) = Some (v, r)) as Hget
      by (intros; by apply (Hv fuel)).
    rewrite Hget. cbn [mbind option_bind]. by rewrite IHvs.
  - rewrite string_app_assoc, get_put. cbn [mbind option_bind]. rewrite Nat2N.id.
    pose (W := {| put := put_value; get := get_value fuel |} : Wire value).
    pose (P := @prod_wire string _ value W).
    enough (forall r, @get_all _ P (length kvs)
              ((fix go (kvs : list (string * value)) : string :=
                 match kvs with
                 | [] => "" | (k, v) :: kvs => put k +:+ (put_value v +:+ go kvs)
                 end) kvs +:+ r) = Some (kvs, r)) as Hg
      by (fold W; fold P; by rewrite Hg).
    clear r. cbn [value_depth] in Hf. apply le_S_n in Hf.
    induction IH as [|[k v] kvs Hv _ IHvs]; intros r; [done|]. cbn [length get_all].
    destruct (proj1 (Nat.max_lub_iff (value_depth v)
      (list_max (@fmap list _ _ _ (fun kv : string * value => value_depth kv.2) kvs)) fuel) Hf) as [Hf1 Hf2].
    rewrite !string_app_assoc.
    assert (forall r, @get _ P (put k +:+ (put_value v +:+ r)) = Some ((k, v), r)) as Hget.
    { intros r'. unfold P, prod_wire. cbn [get]. rewrite (get_put k). cbn [mbind option_bind].
      unfold W. cbn [get]. simpl in Hv. by rewrite (Hv fuel). }
    rewrite Hget. cbn [mbind option_bind]. by rewrite IHvs.
Qed.

Lemma length_app_str (a b : string) :
  String.length (a +:+ b) = String.length a + String.length b.
Proof.
  induction a as [|c a IH]; [done|]. rewrite str_cons_app. cbn [String.length]. lia.
Qed.

Lemma list_max_bound l n : Forall (fun x => x <= n) l -> list_max l <= n.
Proof. induction 1 as [|x l Hx _ IH]; simpl in *; lia. Qed.

Lemma value_depth_length v : value_depth v <= String.length (put_value v).
Proof.
  induction v as [|b|n|s|vs IH|kvs IH] using value_nested_ind; cbn [value_depth put_value];
    rewrite ?length_app_str; cbn [String.length]; try lia.
  - rewrite length_app_str. apply le_n_S. etrans; [|apply Nat.le_add_l].
    apply list_max_bound. induction IH as [|v vs Hv _ IHvs]; [constructor|].
    rewrite fmap_cons. constructor; [rewrite length_app_str; lia|].
    eapply Forall_impl; [exact IHvs|]. intros n Hn. simpl in *. rewrite length_app_str. lia.
  - rewrite length_app_str. apply le_n_S. etrans; [|apply Nat.le_add_l].
    apply list_max_bound. induction IH as [|[k v] kvs Hv _ IHkvs]; [constructor|].
    rewrite fmap_cons. simpl in Hv. constructor; [rewrite !length_app_str; simpl; lia|].
    eapply Forall_impl; [exact IHkvs|]. intros n Hn. simpl in *. rewrite !length_app_str. lia.
Qed.

(** The fuel is read off the text, so parsing costs what the text costs. *)
#[global] Instance value_wire : Wire value := {|
  put := put_value;
  get s := get_value (String.length s) s |}.
#[global] Instance value_wire_ok : WireOk value.
Proof.
  intros v r. cbn [put get value_wire]. apply get_put_value.
  rewrite length_app_str. pose proof (value_depth_length v). lia.
Qed.

(** ** Documents *)

Definition render (v : value) : string := put_value v.
Definition parse_value (s : string) : result string value :=
  match (get s : option (value * string)) with
  | Some (v, "") => Ok v
  | _ => Err "syntax"
  end.
Lemma parse_render v : parse_value (render v) = Ok v.
Proof.
  unfold parse_value, render. rewrite <- (string_app_nil (put_value v)).
  change (put_value v) with (put v). by rewrite (get_put v).
Qed.

#[global] Instance value_serde : Serde value := {|
  to_value := Ok; from_value := Ok; to_vec v := Ok (render v); from_slice := parse_value |}.

Definition read_body {T} `{Wire T} (v : value) : option T :=
  match value_get v "body" with
  | Some (Str s) => match get s with Some (t, "") => Some t | _ => None end
  | _ => None
  end.

(** A record without a digest field: one opaque body. *)
Definition plain_serde (T : Type) `{Wire T} : Serde T := {|
  to_value t := Ok (Object [("body", Str (put t))]);
  from_value v := ok_or (read_body v) "body";
  to_vec t := Ok (render (Object [("body", Str (put t))]));
  from_slice s := rbind (parse_value s) (fun v => ok_or (read_body v) "body") |}.

Lemma plain_serde_ok (T : Type) `{WireOk T} : @SerdeOk T (plain_serde T).
Proof.
  intros t b Hb. assert (b = render (Object [("body", Str (put t))])) as -> by (by injection Hb).
  change (rbind (parse_value (render (Object [("body", Str (put t))])))
            (fun v => ok_or (read_body v) "body") = Ok t).
  rewrite parse_render. cbn [rbind].
  unfold read_body. simpl. rewrite <- (string_app_nil (put t)), get_put. done.
Qed.

(** A sealed record shows its digest and some more fields beside the body, which
    holds the record with an empty digest. *)
Definition sealed_fields {T} `{Wire T} (field : string) (get_digest : T -> string)
    (set_digest : string -> T -> T) (shown : T -> list (string * value)) (t : T)
    : list (string * value) :=
  (field, Str (get_digest t)) :: ("body", Str (put (set_digest "" t))) :: shown t.

Definition sealed_read {T} `{Wire T} (field : string) (set_digest : string -> T -> T)
    (v : value) : result string T :=
  match value_get v field, read_body v with
  | Some (Str d), Some t => Ok (set_digest d t)
  | _, _ => Err field
  end.

Definition sealed_serde {T} `{Wire T} (field : string) (get_digest : T -> string)
    (set_digest : string -> T -> T) (shown : T -> list (string * value)) : Serde T := {|
  to_value t := Ok (Object (sealed_fields field get_digest set_digest shown t));
  from_value := sealed_read field set_digest;
  to_vec t := Ok (render (Object (sealed_fields field get_digest set_digest shown t)));
  from_slice s := rbind (parse_value s) (sealed_read field set_digest) |}.

Section sealed.
Context {T : Type} {W : Wire T} {Wok : WireOk T}.
Context (field : string) (get_digest : T -> string) (set_digest : string -> T -> T)
(shown : T -> list (string * value)).
Context (Hfield : String.eqb field "body" = false).
Context (Hset : forall d e t, set_digest d (set_digest e t) = set_digest d t).
Context (Hget : forall t, set_digest (get_digest t) t = t).
Context (Hshown : forall d t, shown (set_digest d t) = shown t).

Lemma sealed_serde_ok : @SerdeOk T (sealed_serde field get_digest set_digest shown).
Proof.
  intros t b Hb. set (d := Object (sealed_fields field get_digest set_digest shown t)).
  assert (b = render d) as -> by (by injection Hb).
  change (rbind (parse_value (render d)) (sealed_read field set_digest) = Ok t).
  rewrite parse_render. unfold d. cbn [rbind].
  unfold sealed_read, read_body, sealed_fields. cbn [value_get assoc_get].
  rewrite String.eqb_refl, Hfield. rewrite (eq_refl : String.eqb "body" "body" = true).
  rewrite <- (string_app_nil (put _)), get_put. by rewrite Hset, Hget.
Qed.

Lemma sealed_ok :
  @SealedOk T (sealed_serde field get_digest set_digest shown) field set_digest.
Proof.
  intros d t. right. eexists _, _. split; [done|]. split; [done|].
  unfold sealed_fields. rewrite Hset, Hshown. cbn. by rewrite String.eqb_refl.
Qed.
End sealed.

(** ** The host *)

(** A checksum in the place of SHA-256, printed as 64 lower-case digits. *)
Fixpoint checksum (s : string) (h : N) : N :=
  match s with
  | "" => h
  | String a s =>
      checksum s (N.land (h * 16777619 + byte_N a + 1) 1152921504606846975)
  end.
Definition hex_digit (n : N) : ascii :=
  Ascii.ascii_of_N (if (n <? 10)%N then 48 + n else 87 + n).
Fixpoint hex_number (k : nat) (n : N) : string :=
  match k with
  | O => ""
  | S k => String (hex_digit (n mod 16)) (hex_number k (n / 16))
  end.

Lemma hex_digit_lower n : (n < 16)%N -> lower_hex (hex_digit n) = true.
Proof.
  intros Hn. assert (exists k, k < 16 /\ n = N.of_nat k) as (k & Hk & ->).
  { exists (N.to_nat n). lia. }
  do 16 (destruct k as [|k]; [reflexivity|]). lia.
Qed.

Lemma hex_number_lower k n : bytes_all lower_hex (hex_number k n) = true.
Proof.
  revert n. induction k as [|k IH]; intros n; cbn [hex_number bytes_all]; [done|].
  rewrite IH, hex_digit_lower; [done|]. by apply N.mod_lt.
Qed.

Lemma hex_number_length k n : strlen (hex_number k n) = N.of_nat k.
Proof.
  unfold strlen. f_equal. revert n. induction k as [|k IH]; intros n; simpl; [done|].
  by rewrite IH.
Qed.

Fixpoint hex_of (s : string) : string :=
  match s with
  | "" => ""
  | String a s =>
      String (hex_digit (byte_N a / 16)) (String (hex_digit (byte_N a mod 16)) (hex_of s))
  end.
Definition hex_value (a : ascii) : N :=
  if is_ascii_digit a then byte_N a - 48 else byte_N a - 87.
Fixpoint hex_read (s : string) : option string :=
  match s with
  | "" => Some ""
  | String a (String b s) =>
      if lower_hex a && lower_hex b then
        r ← hex_read s; Some (String (Ascii.ascii_of_N (16 * hex_value a + hex_value b)) r)
      else None
  | _ => None
  end.

Lemma hex_byte a :
  lower_hex (hex_digit (byte_N a / 16)) = true /\ lower_hex (hex_digit (byte_N a mod 16)) = true /\
  Ascii.ascii_of_N (16 * hex_value (hex_digit (byte_N a / 16))
                    + hex_value (hex_digit (byte_N a mod 16))) = a.
Proof. by destruct a as [[] [] [] [] [] [] [] []]; vm_compute. Qed.

Lemma hex_read_of s : hex_read (hex_of s) = Some s.
Proof.
  induction s as [|a s IH]; [done|]. cbn [hex_of hex_read].
  destruct (hex_byte a) as (-> & -> & Ha). cbn [andb]. rewrite IH. cbn [mbind option_bind].
  by rewrite Ha.
Qed.

#[global] Instance concrete_host : Host := {|
  sha256_hex s := hex_number 64 (checksum s 2166136261);
  jcs_value v := Ok (render v);
  to_rfc3339 t := put t;
  to_rfc3339_secs t := put t;
  parse_from_rfc3339 s := match get s with Some (t, "") => Some t | _ => None end;
  from_timestamp_millis t := Some (t * 1000000)%Z;
  instant_text t := put t;
  instant_display t := put t;
  checked_add_signed t d := Some (t + d)%Z;
  hex_encode := hex_of;
  hex_decode := hex_read |}.

#[global] Instance concrete_host_ok : HostOk concrete_host.
Proof.
  split; cbn [sha256_hex hex_decode hex_encode checked_add_signed concrete_host].
  - intros s. apply hex_number_length.
  - intros s. apply hex_number_lower.
  - congruence.
  - apply hex_read_of.
  - intros s. unfold strlen. induction s as [|a s IH]; cbn [hex_of String.length]; lia.
Qed.
