(* ===== verification/ConcreteRecords.v ===== *)
(** * Concrete packets and capacity records

    Codec instances for the records of the packet and capacity components, with
    the laws their theorems ask of serde. *)
From S2P Require Import Prelude Text External Packet PacketFacts Capacity CapacityFacts Codec.
Local Open Scope string_scope.

#[global] Instance AuthoringIdentityV1_wire : Wire AuthoringIdentityV1 := {|
  put t :=
    put (au_agent t) +:+ (put (au_session t) +:+ (put (au_authority_basis t)));
  get s :=
    '(x0, s) ← get s; '(x1, s) ← get s; '(x2, s) ← get s;
    Some ({| au_agent := x0; au_session := x1; au_authority_basis := x2 |}, s) |}.
#[global] Instance AuthoringIdentityV1_wire_ok : WireOk AuthoringIdentityV1.
Proof. wire_record AuthoringIdentityV1_wire. Qed.

#[global] Instance CanonicalizationV1_wire : Wire CanonicalizationV1 := {|
  put t :=
    put (ca_algorithm t) +:+ (put (ca_digest_algorithm t) +:+ (
    put (ca_digest_preimage t)));
  get s :=
    '(x0, s) ← get s; '(x1, s) ← get s; '(x2, s) ← get s;
    Some ({| ca_algorithm := x0; ca_digest_algorithm := x1;
      ca_digest_preimage := x2 |}, s) |}.
#[global] Instance CanonicalizationV1_wire_ok : WireOk CanonicalizationV1.
Proof. wire_record CanonicalizationV1_wire. Qed.

#[global] Instance SourceEvidenceRefV1_wire : Wire SourceEvidenceRefV1 := {|
  put t :=
    put (se_repository t) +:+ (put (se_branch t) +:+ (put (se_commit t) +:+ (
    put (se_path t) +:+ (put (se_file_digest t) +:+ (
    put (se_predecessor_classification t))))));
  get s :=
    '(x0, s) ← get s; '(x1, s) ← get s; '(x2, s) ← get s; '(x3, s) ← get s;
    '(x4, s) ← get s; '(x5, s) ← get s;
    Some ({| se_repository := x0; se_branch := x1; se_commit := x2; se_path := x3;
      se_file_digest := x4; se_predecessor_classification := x5 |}, s) |}.
#[global] Instance SourceEvidenceRefV1_wire_ok : WireOk SourceEvidenceRefV1.
Proof. wire_record SourceEvidenceRefV1_wire. Qed.

#[global] Instance RepositoryCustodyV1_wire : Wire RepositoryCustodyV1 := {|
  put t :=
    put (rc_repository t) +:+ (put (rc_path t) +:+ (put (rc_branch t) +:+ (
    put (rc_commit t) +:+ (put (rc_remote t) +:+ (put (rc_remote_commit t) +:+ (
    put (rc_worktree_clean t) +:+ (put (rc_discrepancy t))))))));
  get s :=
    '(x0, s) ← get s; '(x1, s) ← get s; '(x2, s) ← get s; '(x3, s) ← get s;
    '(x4, s) ← get s; '(x5, s) ← get s; '(x6, s) ← get s; '(x7, s) ← get s;
    Some ({| rc_repository := x0; rc_path := x1; rc_branch := x2; rc_commit := x3;
      rc_remote := x4; rc_remote_commit := x5; rc_worktree_clean := x6;
      rc_discrepancy := x7 |}, s) |}.
#[global] Instance RepositoryCustodyV1_wire_ok : WireOk RepositoryCustodyV1.
Proof. wire_record RepositoryCustodyV1_wire. Qed.

#[global] Instance GlobalConstraintsV1_wire : Wire GlobalConstraintsV1 := {|
  put t :=
    put (gc_allowed_actions t) +:+ (put (gc_forbidden_actions t) +:+ (
    put (gc_invariants t)));
  get s :=
    '(x0, s) ← get s; '(x1, s) ← get s; '(x2, s) ← get s;
    Some ({| gc_allowed_actions := x0; gc_forbidden_actions := x1;
      gc_invariants := x2 |}, s) |}.
#[global] Instance GlobalConstraintsV1_wire_ok : WireOk GlobalConstraintsV1.
Proof. wire_record GlobalConstraintsV1_wire. Qed.

#[global] Instance CampaignIdentityV1_wire : Wire CampaignIdentityV1 := {|
  put t :=
    put (cp_codename t) +:+ (put (cp_canonical_slug t));
  get s :=
    '(x0, s) ← get s; '(x1, s) ← get s;
    Some ({| cp_codename := x0; cp_canonical_slug := x1 |}, s) |}.
#[global] Instance CampaignIdentityV1_wire_ok : WireOk CampaignIdentityV1.
Proof. wire_record CampaignIdentityV1_wire. Qed.

#[global] Instance PredecessorRefV1_wire : Wire PredecessorRefV1 := {|
  put t :=
    put (pr_campaign t) +:+ (put (pr_classification t) +:+ (put (pr_commit t)));
  get s :=
    '(x0, s) ← get s; '(x1, s) ← get s; '(x2, s) ← get s;
    Some ({| pr_campaign := x0; pr_classification := x1; pr_commit := x2 |}, s) |}.
#[global] Instance PredecessorRefV1_wire_ok : WireOk PredecessorRefV1.
Proof. wire_record PredecessorRefV1_wire. Qed.

#[global] Instance ExactWorkRefV1_wire : Wire ExactWorkRefV1 := {|
  put t :=
    put (ew_contract_kind t) +:+ (put (ew_contract_schema t) +:+ (
    put (ew_repository t) +:+ (put (ew_branch t) +:+ (put (ew_commit t) +:+ (
    put (ew_path t) +:+ (put (ew_proposal_ref t)))))));
  get s :=
    '(x0, s) ← get s; '(x1, s) ← get s; '(x2, s) ← get s; '(x3, s) ← get s;
    '(x4, s) ← get s; '(x5, s) ← get s; '(x6, s) ← get s;
    Some ({| ew_contract_kind := x0; ew_contract_schema := x1; ew_repository := x2;
      ew_branch := x3; ew_commit := x4; ew_path := x5; ew_proposal_ref := x6 |}, s) |}.
#[global] Instance ExactWorkRefV1_wire_ok : WireOk ExactWorkRefV1.
Proof. wire_record ExactWorkRefV1_wire. Qed.

#[global] Instance ModelRoutingV1_wire : Wire ModelRoutingV1 := {|
  put t :=
    put (mr_class t) +:+ (put (mr_reason t) +:+ (put (mr_maximum_mutating_workers t)));
  get s :=
    '(x0, s) ← get s; '(x1, s) ← get s; '(x2, s) ← get s;
    Some ({| mr_class := x0; mr_reason := x1;
      mr_maximum_mutating_workers := x2 |}, s) |}.
#[global] Instance ModelRoutingV1_wire_ok : WireOk ModelRoutingV1.
Proof. wire_record ModelRoutingV1_wire. Qed.

#[global] Instance WorkItemV1_wire : Wire WorkItemV1 := {|
  put t :=
    put (wi_id t) +:+ (put (wi_track t) +:+ (put (wi_campaign t) +:+ (
    put (wi_predecessor_lineage t) +:+ (put (wi_dependencies t) +:+ (
    put (wi_exact_work_refs t) +:+ (put (wi_entry_predicates t) +:+ (
    put (wi_allowed_mutation_surfaces t) +:+ (put (wi_forbidden_actions t) +:+ (
    put (wi_acceptance_tests t) +:+ (put (wi_stop_conditions t) +:+ (
    put (wi_expected_receipts t) +:+ (put (wi_closeout_requirements t) +:+ (
    put (wi_model_routing t))))))))))))));
  get s :=
    '(x0, s) ← get s; '(x1, s) ← get s; '(x2, s) ← get s; '(x3, s) ← get s;
    '(x4, s) ← get s; '(x5, s) ← get s; '(x6, s) ← get s; '(x7, s) ← get s;
    '(x8, s) ← get s; '(x9, s) ← get s; '(x10, s) ← get s; '(x11, s) ← get s;
    '(x12, s) ← get s; '(x13, s) ← get s;
    Some ({| wi_id := x0; wi_track := x1; wi_campaign := x2;
      wi_predecessor_lineage := x3; wi_dependencies := x4; wi_exact_work_refs := x5;
      wi_entry_predicates := x6; wi_allowed_mutation_surfaces := x7;
      wi_forbidden_actions := x8; wi_acceptance_tests := x9; wi_stop_conditions := x10;
      wi_expected_receipts := x11; wi_closeout_requirements := x12;
      wi_model_routing := x13 |}, s) |}.
#[global] Instance WorkItemV1_wire_ok : WireOk WorkItemV1.
Proof. wire_record WorkItemV1_wire. Qed.

#[global] Instance WorkerBudgetV1_wire : Wire WorkerBudgetV1 := {|
  put t :=
    put (wb_maximum_concurrent_mutating_workers t) +:+ (
    put (wb_recursive_worker_swarms_forbidden t) +:+ (put (wb_reserve_posture t)));
  get s :=
    '(x0, s) ← get s; '(x1, s) ← get s; '(x2, s) ← get s;
    Some ({| wb_maximum_concurrent_mutating_workers := x0;
      wb_recursive_worker_swarms_forbidden := x1; wb_reserve_posture := x2 |}, s) |}.
#[global] Instance WorkerBudgetV1_wire_ok : WireOk WorkerBudgetV1.
Proof. wire_record WorkerBudgetV1_wire. Qed.

#[global] Instance SwitchyardRegistrationV1_wire : Wire SwitchyardRegistrationV1 := {|
  put t :=
    put (sw_alias t) +:+ (put (sw_plan_ref t) +:+ (put (sw_transport_fields t)));
  get s :=
    '(x0, s) ← get s; '(x1, s) ← get s; '(x2, s) ← get s;
    Some ({| sw_alias := x0; sw_plan_ref := x1; sw_transport_fields := x2 |}, s) |}.
#[global] Instance SwitchyardRegistrationV1_wire_ok : WireOk SwitchyardRegistrationV1.
Proof. wire_record SwitchyardRegistrationV1_wire. Qed.

#[global] Instance NightshiftPacketV1_wire : Wire NightshiftPacketV1 := {|
  put t :=
    put (pk_schema t) +:+ (put (pk_packet_id t) +:+ (put (pk_packet_digest t) +:+ (
    put (pk_created_at t) +:+ (put (pk_current_until t) +:+ (put (pk_authoring t) +:+ (
    put (pk_canonicalization t) +:+ (put (pk_source_evidence t) +:+ (
    put (pk_repository_custody t) +:+ (put (pk_global_constraints t) +:+ (
    put (pk_work_items t) +:+ (put (pk_worker_budget t) +:+ (
    put (pk_human_question_criteria t) +:+ (put (pk_switchyard t))))))))))))));
  get s :=
    '(x0, s) ← get s; '(x1, s) ← get s; '(x2, s) ← get s; '(x3, s) ← get s;
    '(x4, s) ← get s; '(x5, s) ← get s; '(x6, s) ← get s; '(x7, s) ← get s;
    '(x8, s) ← get s; '(x9, s) ← get s; '(x10, s) ← get s; '(x11, s) ← get s;
    '(x12, s) ← get s; '(x13, s) ← get s;
    Some ({| pk_schema := x0; pk_packet_id := x1; pk_packet_digest := x2;
      pk_created_at := x3; pk_current_until := x4; pk_authoring := x5;
      pk_canonicalization := x6; pk_source_evidence := x7; pk_repository_custody := x8;
      pk_global_constraints := x9; pk_work_items := x10; pk_worker_budget := x11;
      pk_human_question_criteria := x12; pk_switchyard := x13 |}, s) |}.
#[global] Instance NightshiftPacketV1_wire_ok : WireOk NightshiftPacketV1.
Proof. wire_record NightshiftPacketV1_wire. Qed.

#[global] Instance SourceClass_wire : Wire SourceClass :=
  enum_wire [Authoritative; Observed; Inferred; SourceUnknown]
    (fun c => match c with | Authoritative => 0 | Observed => 1 | Inferred => 2 | SourceUnknown => 3 end).
#[global] Instance SourceClass_wire_ok : WireOk SourceClass.
Proof. apply enum_wire_ok. by intros []. Qed.

#[global] Instance Confidence_wire : Wire Confidence :=
  enum_wire [ConfidenceUnknown; Low; Medium; High]
    (fun c => match c with | ConfidenceUnknown => 0 | Low => 1 | Medium => 2 | High => 3 end).
#[global] Instance Confidence_wire_ok : WireOk Confidence.
Proof. apply enum_wire_ok. by intros []. Qed.

#[global] Instance ObservationDisposition_wire : Wire ObservationDisposition :=
  enum_wire [Usable; DispositionUnknown]
    (fun c => match c with | Usable => 0 | DispositionUnknown => 1 end).
#[global] Instance ObservationDisposition_wire_ok : WireOk ObservationDisposition.
Proof. apply enum_wire_ok. by intros []. Qed.

#[global] Instance WindowType_wire : Wire WindowType :=
  enum_wire [FiveHour; Weekly; ProviderDefined]
    (fun c => match c with | FiveHour => 0 | Weekly => 1 | ProviderDefined => 2 end).
#[global] Instance WindowType_wire_ok : WireOk WindowType.
Proof. apply enum_wire_ok. by intros []. Qed.

#[global] Instance CapacityState_wire : Wire CapacityState :=
  enum_wire [Abundant; Normal; Conserve; Critical; StateUnknown]
    (fun c => match c with | Abundant => 0 | Normal => 1 | Conserve => 2 | Critical => 3 | StateUnknown => 4 end).
#[global] Instance CapacityState_wire_ok : WireOk CapacityState.
Proof. apply enum_wire_ok. by intros []. Qed.

#[global] Instance AdmissionDisposition_wire : Wire AdmissionDisposition :=
  enum_wire [OrdinaryBounded; CheapBoundedOnly; NoNewWork]
    (fun c => match c with | OrdinaryBounded => 0 | CheapBoundedOnly => 1 | NoNewWork => 2 end).
#[global] Instance AdmissionDisposition_wire_ok : WireOk AdmissionDisposition.
Proof. apply enum_wire_ok. by intros []. Qed.

#[global] Instance RemainingUnits_wire : Wire RemainingUnits := {|
  put t :=
    put (ru_remaining t) +:+ (put (ru_maximum t) +:+ (put (ru_unit t)));
  get s :=
    '(x0, s) ← get s; '(x1, s) ← get s; '(x2, s) ← get s;
    Some ({| ru_remaining := x0; ru_maximum := x1; ru_unit := x2 |}, s) |}.
#[global] Instance RemainingUnits_wire_ok : WireOk RemainingUnits.
Proof. wire_record RemainingUnits_wire. Qed.

#[global] Instance CapacityWindow_wire : Wire CapacityWindow := {|
  put t :=
    put (cw_window_id t) +:+ (put (cw_window_type t) +:+ (
    put (cw_remaining_fraction t) +:+ (put (cw_remaining_units t) +:+ (
    put (cw_resets_at t)))));
  get s :=
    '(x0, s) ← get s; '(x1, s) ← get s; '(x2, s) ← get s; '(x3, s) ← get s;
    '(x4, s) ← get s;
    Some ({| cw_window_id := x0; cw_window_type := x1; cw_remaining_fraction := x2;
      cw_remaining_units := x3; cw_resets_at := x4 |}, s) |}.
#[global] Instance CapacityWindow_wire_ok : WireOk CapacityWindow.
Proof. wire_record CapacityWindow_wire. Qed.

#[global] Instance ObservationEvidence_wire : Wire ObservationEvidence := {|
  put t :=
    put (oe_probe_id t) +:+ (put (oe_protocol_method t) +:+ (
    put (oe_protocol_version t) +:+ (put (oe_executable_path t) +:+ (
    put (oe_executable_digest t) +:+ (put (oe_raw_source_digest t))))));
  get s :=
    '(x0, s) ← get s; '(x1, s) ← get s; '(x2, s) ← get s; '(x3, s) ← get s;
    '(x4, s) ← get s; '(x5, s) ← get s;
    Some ({| oe_probe_id := x0; oe_protocol_method := x1; oe_protocol_version := x2;
      oe_executable_path := x3; oe_executable_digest := x4;
      oe_raw_source_digest := x5 |}, s) |}.
#[global] Instance ObservationEvidence_wire_ok : WireOk ObservationEvidence.
Proof. wire_record ObservationEvidence_wire. Qed.

#[global] Instance CapacityObservationV1_wire : Wire CapacityObservationV1 := {|
  put t :=
    put (co_schema t) +:+ (put (co_provider_id t) +:+ (
    put (co_account_profile_locator t) +:+ (put (co_model_family t) +:+ (
    put (co_observed_at t) +:+ (put (co_expires_at t) +:+ (put (co_source_class t) +:+ (
    put (co_confidence t) +:+ (put (co_disposition t) +:+ (
    put (co_unknown_reasons t) +:+ (put (co_windows t) +:+ (put (co_evidence t) +:+ (
    put (co_observation_digest t)))))))))))));
  get s :=
    '(x0, s) ← get s; '(x1, s) ← get s; '(x2, s) ← get s; '(x3, s) ← get s;
    '(x4, s) ← get s; '(x5, s) ← get s; '(x6, s) ← get s; '(x7, s) ← get s;
    '(x8, s) ← get s; '(x9, s) ← get s; '(x10, s) ← get s; '(x11, s) ← get s;
    '(x12, s) ← get s;
    Some ({| co_schema := x0; co_provider_id := x1; co_account_profile_locator := x2;
      co_model_family := x3; co_observed_at := x4; co_expires_at := x5;
      co_source_class := x6; co_confidence := x7; co_disposition := x8;
      co_unknown_reasons := x9; co_windows := x10; co_evidence := x11;
      co_observation_digest := x12 |}, s) |}.
#[global] Instance CapacityObservationV1_wire_ok : WireOk CapacityObservationV1.
Proof. wire_record CapacityObservationV1_wire. Qed.

#[global] Instance CapacityPolicyV1_wire : Wire CapacityPolicyV1 := {|
  put t :=
    put (cy_schema t) +:+ (put (cy_policy_id t) +:+ (
    put (cy_abundant_min_remaining t) +:+ (put (cy_normal_min_remaining t) +:+ (
    put (cy_conserve_min_remaining t) +:+ (put (cy_minimum_confidence t) +:+ (
    put (cy_required_window_types t) +:+ (put (cy_unknown_allows_new_cheap_work t) +:+ (
    put (cy_policy_digest t)))))))));
  get s :=
    '(x0, s) ← get s; '(x1, s) ← get s; '(x2, s) ← get s; '(x3, s) ← get s;
    '(x4, s) ← get s; '(x5, s) ← get s; '(x6, s) ← get s; '(x7, s) ← get s;
    '(x8, s) ← get s;
    Some ({| cy_schema := x0; cy_policy_id := x1; cy_abundant_min_remaining := x2;
      cy_normal_min_remaining := x3; cy_conserve_min_remaining := x4;
      cy_minimum_confidence := x5; cy_required_window_types := x6;
      cy_unknown_allows_new_cheap_work := x7; cy_policy_digest := x8 |}, s) |}.
#[global] Instance CapacityPolicyV1_wire_ok : WireOk CapacityPolicyV1.
Proof. wire_record CapacityPolicyV1_wire. Qed.

#[global] Instance CapacityDecisionV1_wire : Wire CapacityDecisionV1 := {|
  put t :=
    put (cd_schema t) +:+ (put (cd_provider_id t) +:+ (put (cd_decision_at t) +:+ (
    put (cd_state t) +:+ (put (cd_admission t) +:+ (
    put (cd_allow_new_expensive_work t) +:+ (put (cd_allow_new_speculative_work t) +:+ (
    put (cd_allow_active_work_to_reach_custody t) +:+ (put (cd_reason_codes t) +:+ (
    put (cd_observation_digest t) +:+ (put (cd_policy_digest t) +:+ (
    put (cd_decision_digest t))))))))))));
  get s :=
    '(x0, s) ← get s; '(x1, s) ← get s; '(x2, s) ← get s; '(x3, s) ← get s;
    '(x4, s) ← get s; '(x5, s) ← get s; '(x6, s) ← get s; '(x7, s) ← get s;
    '(x8, s) ← get s; '(x9, s) ← get s; '(x10, s) ← get s; '(x11, s) ← get s;
    Some ({| cd_schema := x0; cd_provider_id := x1; cd_decision_at := x2;
      cd_state := x3; cd_admission := x4; cd_allow_new_expensive_work := x5;
      cd_allow_new_speculative_work := x6; cd_allow_active_work_to_reach_custody := x7;
      cd_reason_codes := x8; cd_observation_digest := x9; cd_policy_digest := x10;
      cd_decision_digest := x11 |}, s) |}.
#[global] Instance CapacityDecisionV1_wire_ok : WireOk CapacityDecisionV1.
Proof. wire_record CapacityDecisionV1_wire. Qed.

(** ** Serde instances *)

Definition locators_erased (p : NightshiftPacketV1) : NightshiftPacketV1 :=
  set_derived_locators "" "" p.

Definition packet_document (p : NightshiftPacketV1) : value :=
  Object [("packet_digest", Str (pk_packet_digest p));
          ("switchyard", Object [("plan_ref", Str (sw_plan_ref (pk_switchyard p)))]);
          ("body", Str (put (locators_erased p)))].

Definition packet_read (v : value) : result string NightshiftPacketV1 :=
  match value_get v "packet_digest", value_get v "switchyard", read_body v with
  | Some (Str d), Some (Object [(_, Str r)]), Some p => Ok (set_derived_locators d r p)
  | _, _, _ => Err "packet"
  end.

#[global] Instance packet_serde : Serde NightshiftPacketV1 := {|
  to_value p := Ok (packet_document p);
  from_value := packet_read;
  to_vec p := Ok (render (packet_document p));
  from_slice s := rbind (parse_value s) packet_read |}.

#[global] Instance packet_serde_ok : SerdeOk NightshiftPacketV1.
Proof.
  intros p b Hb. assert (b = render (packet_document p)) as -> by (by injection Hb).
  change (rbind (parse_value (render (packet_document p))) packet_read = Ok p).
  rewrite parse_render. cbn [rbind]. unfold packet_read.
  assert (read_body (packet_document p) = Some (locators_erased p)) as ->.
  { unfold read_body.
    change (value_get (packet_document p) "body") with (Some (Str (put (locators_erased p)))).
    cbv beta iota. by rewrite get_full. }
  by destruct p as [? ? ? ? ? ? ? ? ? ? ? ? ? []].
Qed.

#[global] Instance packet_seal_ok : PacketSealOk.
Proof.
  intros d r p. right. eexists _, _. split; [done|]. split; [done|].
  split; [by apply (bool_decide_unpack _)|].
  constructor; [split; [done|by left]|].
  constructor; [split; [done|]|constructor; [split; [done|]|constructor]].
  - right. left. split; [done|]. eexists _, _. split_and!; [done|done|].
    constructor; [split; [done|by left]|constructor].
  - by right; right.
Qed.

#[global] Instance WorkItemV1_serde : Serde WorkItemV1 := plain_serde WorkItemV1.
#[global] Instance GlobalConstraintsV1_serde : Serde GlobalConstraintsV1 :=
  plain_serde GlobalConstraintsV1.

Definition set_co_digest (d : string) (o : CapacityObservationV1) : CapacityObservationV1 :=
  {| co_schema := co_schema o; co_provider_id := co_provider_id o;
     co_account_profile_locator := co_account_profile_locator o;
     co_model_family := co_model_family o; co_observed_at := co_observed_at o;
     co_expires_at := co_expires_at o; co_source_class := co_source_class o;
     co_confidence := co_confidence o; co_disposition := co_disposition o;
     co_unknown_reasons := co_unknown_reasons o; co_windows := co_windows o;
     co_evidence := co_evidence o; co_observation_digest := d |}.

#[global] Instance observation_serde : Serde CapacityObservationV1 :=
  sealed_serde "observation_digest" co_observation_digest set_co_digest (fun _ => []).
#[global] Instance policy_serde : Serde CapacityPolicyV1 :=
  sealed_serde "policy_digest" cy_policy_digest set_policy_digest (fun _ => []).
#[global] Instance decision_serde : Serde CapacityDecisionV1 :=
  sealed_serde "decision_digest" cd_decision_digest set_decision_digest (fun _ => []).
#[global] Instance decision_sealed : SealedOk CapacityDecisionV1 "decision_digest" set_decision_digest.
Proof. by apply sealed_ok. Qed.

(** ** Samples *)

(** [or_else m a]: the value of a successful computation, by evaluation. *)
Definition or_else {E A} (m : result E A) (a : A) : A :=
  match m with Ok a => a | Err _ => a end.

Definition zeros : string := "sha256:" +:+ str_repeat 64 "0"%char.
Definition sample_commit : string := str_repeat 40 "a"%char.

Definition sample_item (id codename slug : string) (dependencies : list string) : WorkItemV1 :=
  {| wi_id := id; wi_track := "core";
     wi_campaign := {| cp_codename := codename; cp_canonical_slug := slug |};
     wi_predecessor_lineage := []; wi_dependencies := dependencies;
     wi_exact_work_refs := []; wi_entry_predicates := ["ready"];
     wi_allowed_mutation_surfaces := ["crates"]; wi_forbidden_actions := ["push"];
     wi_acceptance_tests := ["cargo test"]; wi_stop_conditions := ["red"];
     wi_expected_receipts := ["terminal"]; wi_closeout_requirements := ["receipt"];
     wi_model_routing := {| mr_class := "small"; mr_reason := "bounded";
                            mr_maximum_mutating_workers := 1 |} |}.

Definition sample_items : list WorkItemV1 :=
  [sample_item "base" "BASE" "base" []; sample_item "top" "TOP" "top" ["base"]].

Definition draft_packet : NightshiftPacketV1 :=
  {| pk_schema := NIGHTSHIFT_PACKET_SCHEMA_V1; pk_packet_id := "packet-1";
     pk_packet_digest := zeros; pk_created_at := 1000; pk_current_until := 9000;
     pk_authoring := {| au_agent := "agent"; au_session := "session";
                        au_authority_basis := "operator" |};
     pk_canonicalization := {| ca_algorithm := "RFC8785-JCS"; ca_digest_algorithm := "SHA-256";
                               ca_digest_preimage := NIGHTSHIFT_PACKET_DIGEST_PREIMAGE_V1 |};
     pk_source_evidence := [{| se_repository := "repo"; se_branch := "main";
                               se_commit := sample_commit; se_path := "README.md";
                               se_file_digest := zeros;
                               se_predecessor_classification := "NONE" |}];
     pk_repository_custody := [{| rc_repository := "repo"; rc_path := "/repo";
                                  rc_branch := "main"; rc_commit := sample_commit;
                                  rc_remote := None; rc_remote_commit := None;
                                  rc_worktree_clean := true; rc_discrepancy := None |}];
     pk_global_constraints := {| gc_allowed_actions := ["edit"]; gc_forbidden_actions := ["push"];
                                 gc_invariants := ["tests pass"] |};
     pk_work_items := sample_items;
     pk_worker_budget := {| wb_maximum_concurrent_mutating_workers := 2;
                            wb_recursive_worker_swarms_forbidden := true;
                            wb_reserve_posture := "half" |};
     pk_human_question_criteria := ["ambiguity"];
     pk_switchyard := {| sw_alias := "alias"; sw_plan_ref := "";
                         sw_transport_fields := ["alias"; "plan_ref"; "nonce"] |} |}.

Definition sample_packet : NightshiftPacketV1 :=
  Eval vm_compute in or_else (seal draft_packet) draft_packet.

Example sample_packet_sealed : seal draft_packet = Ok sample_packet.
Proof. vm_compute. reflexivity. Qed.
