(* ===== verification/ConcreteProvider.v ===== *)
(** * Concrete availability documents

    Codec instances for the execution-availability records and the qualification
    evidence: the documents of a run whose attempts park and wake. *)
From S2P Require Import Prelude Text External Packet PacketFacts Capacity CapacityFacts Contract.
From S2P Require Import Availability Evidence Codec ConcreteRecords.
Local Open Scope string_scope.

(** ** Wires *)

#[global] Instance ExecutionAvailabilityStateV1_wire : Wire ExecutionAvailabilityStateV1 :=
  enum_wire [Available; ModelAtCapacity; ProviderUnavailable; RateLimited;
    AuthenticationRefused; TransportError; ProtocolError; AvailabilityUnknown]
    (fun c => match c with | Available => 0 | ModelAtCapacity => 1 | ProviderUnavailable => 2 |
      RateLimited => 3 | AuthenticationRefused => 4 | TransportError => 5 | ProtocolError => 6
      | AvailabilityUnknown => 7 end).
#[global] Instance ExecutionAvailabilityStateV1_wire_ok : WireOk ExecutionAvailabilityStateV1.
Proof. apply enum_wire_ok. by intros []. Qed.

#[global] Instance ParkedResourceLockPolicyV1_wire : Wire ParkedResourceLockPolicyV1 :=
  enum_wire [ReleaseAndReacquire; RetainWhileParked]
    (fun c => match c with | ReleaseAndReacquire => 0 | RetainWhileParked => 1 end).
#[global] Instance ParkedResourceLockPolicyV1_wire_ok : WireOk ParkedResourceLockPolicyV1.
Proof. apply enum_wire_ok. by intros []. Qed.

#[global] Instance ProviderAdmissionDispositionKindV1_wire : Wire ProviderAdmissionDispositionKindV1 :=
  enum_wire [NotAdmittedModelAtCapacity; NotAdmittedProviderUnavailable;
    NotAdmittedRateLimited; DispositionAuthenticationRefused; QuotaExhaustedFuelOwned;
    DispositionAdmissionIndeterminate; DispositionExecutionAdmitted]
    (fun c => match c with | NotAdmittedModelAtCapacity => 0 | NotAdmittedProviderUnavailable
      => 1 | NotAdmittedRateLimited => 2 | DispositionAuthenticationRefused => 3 |
      QuotaExhaustedFuelOwned => 4 | DispositionAdmissionIndeterminate => 5 |
      DispositionExecutionAdmitted => 6 end).
#[global] Instance ProviderAdmissionDispositionKindV1_wire_ok : WireOk ProviderAdmissionDispositionKindV1.
Proof. apply enum_wire_ok. by intros []. Qed.

#[global] Instance ProviderMechanismStateV1_wire : Wire ProviderMechanismStateV1 :=
  enum_wire [ParkedNotAdmitted; AdmissionIndeterminate; ExecutionAdmitted;
    PostAdmissionInterrupted; MechanismWaitingApproval; ProviderCompleted]
    (fun c => match c with | ParkedNotAdmitted => 0 | AdmissionIndeterminate => 1 |
      ExecutionAdmitted => 2 | PostAdmissionInterrupted => 3 | MechanismWaitingApproval => 4 |
      ProviderCompleted => 5 end).
#[global] Instance ProviderMechanismStateV1_wire_ok : WireOk ProviderMechanismStateV1.
Proof. apply enum_wire_ok. by intros []. Qed.

#[global] Instance DeferredWakeBasisV1_wire : Wire DeferredWakeBasisV1 :=
  enum_wire [ProviderRetryAfter; PolicyBackoff]
    (fun c => match c with | ProviderRetryAfter => 0 | PolicyBackoff => 1 end).
#[global] Instance DeferredWakeBasisV1_wire_ok : WireOk DeferredWakeBasisV1.
Proof. apply enum_wire_ok. by intros []. Qed.

#[global] Instance DeterministicProviderAdmissionOutcomeV1_wire : Wire DeterministicProviderAdmissionOutcomeV1 :=
  enum_wire [OutcomeRateLimited; OutcomeProviderUnavailable; OutcomeAuthenticationRefused;
    OutcomeTransportError; OutcomeProtocolError]
    (fun c => match c with | OutcomeRateLimited => 0 | OutcomeProviderUnavailable => 1 |
      OutcomeAuthenticationRefused => 2 | OutcomeTransportError => 3 | OutcomeProtocolError =>
      4 end).
#[global] Instance DeterministicProviderAdmissionOutcomeV1_wire_ok : WireOk DeterministicProviderAdmissionOutcomeV1.
Proof. apply enum_wire_ok. by intros []. Qed.

#[global] Instance DeterministicProviderAdmissionOutcomeV2_wire : Wire DeterministicProviderAdmissionOutcomeV2 :=
  enum_wire [Outcome2ProviderUnavailable; Outcome2ExecutionCompleted]
    (fun c => match c with | Outcome2ProviderUnavailable => 0 | Outcome2ExecutionCompleted => 1
      end).
#[global] Instance DeterministicProviderAdmissionOutcomeV2_wire_ok : WireOk DeterministicProviderAdmissionOutcomeV2.
Proof. apply enum_wire_ok. by intros []. Qed.

#[global] Instance ExactAvailabilityEvidenceV1_wire : Wire ExactAvailabilityEvidenceV1 := {|
  put t :=
    put (xe_representation t) +:+ (put (xe_byte_length t) +:+ (put (xe_sha256 t) +:+ (
    put (xe_encoding t) +:+ (put (xe_bytes_hex t)))));
  get s :=
    '(x0, s) ← get s; '(x1, s) ← get s; '(x2, s) ← get s; '(x3, s) ← get s;
    '(x4, s) ← get s;
    Some ({| xe_representation := x0; xe_byte_length := x1; xe_sha256 := x2;
      xe_encoding := x3; xe_bytes_hex := x4 |}, s) |}.
#[global] Instance ExactAvailabilityEvidenceV1_wire_ok : WireOk ExactAvailabilityEvidenceV1.
Proof. wire_record ExactAvailabilityEvidenceV1_wire. Qed.

#[global] Instance ExactMapperSnapshotV1_wire : Wire ExactMapperSnapshotV1 := {|
  put t :=
    put (ms_representation t) +:+ (put (ms_byte_length t) +:+ (put (ms_sha256 t) +:+ (
    put (ms_encoding t) +:+ (put (ms_bytes_hex t)))));
  get s :=
    '(x0, s) ← get s; '(x1, s) ← get s; '(x2, s) ← get s; '(x3, s) ← get s;
    '(x4, s) ← get s;
    Some ({| ms_representation := x0; ms_byte_length := x1; ms_sha256 := x2;
      ms_encoding := x3; ms_bytes_hex := x4 |}, s) |}.
#[global] Instance ExactMapperSnapshotV1_wire_ok : WireOk ExactMapperSnapshotV1.
Proof. wire_record ExactMapperSnapshotV1_wire. Qed.

#[global] Instance ExecutionAvailabilityObservationV1_wire : Wire ExecutionAvailabilityObservationV1 := {|
  put t :=
    put (eo_schema t) +:+ (put (eo_observation_digest t) +:+ (
    put (eo_provider_id t) +:+ (put (eo_model_id t) +:+ (put (eo_model_class t) +:+ (
    put (eo_observed_at t) +:+ (put (eo_received_at t) +:+ (put (eo_expires_at t) +:+ (
    put (eo_state t) +:+ (put (eo_source_identity t) +:+ (
    put (eo_source_version t) +:+ (put (eo_provider_retry_after t) +:+ (
    put (eo_exact_evidence t) +:+ (put (eo_authority_effect t))))))))))))));
  get s :=
    '(x0, s) ← get s; '(x1, s) ← get s; '(x2, s) ← get s; '(x3, s) ← get s;
    '(x4, s) ← get s; '(x5, s) ← get s; '(x6, s) ← get s; '(x7, s) ← get s;
    '(x8, s) ← get s; '(x9, s) ← get s; '(x10, s) ← get s; '(x11, s) ← get s;
    '(x12, s) ← get s; '(x13, s) ← get s;
    Some ({| eo_schema := x0; eo_observation_digest := x1; eo_provider_id := x2;
      eo_model_id := x3; eo_model_class := x4; eo_observed_at := x5;
      eo_received_at := x6; eo_expires_at := x7; eo_state := x8;
      eo_source_identity := x9; eo_source_version := x10;
      eo_provider_retry_after := x11; eo_exact_evidence := x12;
      eo_authority_effect := x13 |}, s) |}.
#[global] Instance ExecutionAvailabilityObservationV1_wire_ok : WireOk ExecutionAvailabilityObservationV1.
Proof. wire_record ExecutionAvailabilityObservationV1_wire. Qed.

#[global] Instance ExecutionAvailabilityPolicyV1_wire : Wire ExecutionAvailabilityPolicyV1 := {|
  put t :=
    put (yp_schema t) +:+ (put (yp_policy_digest t) +:+ (put (yp_policy_id t) +:+ (
    put (yp_maximum_dispatch_occurrences_per_attempt t) +:+ (
    put (yp_backoff_seconds t) +:+ (put (yp_maximum_total_deferral_seconds t) +:+ (
    put (yp_parked_resource_lock_policy t) +:+ (
    put (yp_provider_capacity_released_while_parked t) +:+ (
    put (yp_reconcile_indeterminate t) +:+ (
    put (yp_allow_ordered_model_fallback t) +:+ (
    put (yp_automatic_semantic_retry t) +:+ (
    put (yp_approval_response_authorized t) +:+ (put (yp_authority_effect t)))))))))))));
  get s :=
    '(x0, s) ← get s; '(x1, s) ← get s; '(x2, s) ← get s; '(x3, s) ← get s;
    '(x4, s) ← get s; '(x5, s) ← get s; '(x6, s) ← get s; '(x7, s) ← get s;
    '(x8, s) ← get s; '(x9, s) ← get s; '(x10, s) ← get s; '(x11, s) ← get s;
    '(x12, s) ← get s;
    Some ({| yp_schema := x0; yp_policy_digest := x1; yp_policy_id := x2;
      yp_maximum_dispatch_occurrences_per_attempt := x3; yp_backoff_seconds := x4;
      yp_maximum_total_deferral_seconds := x5; yp_parked_resource_lock_policy := x6;
      yp_provider_capacity_released_while_parked := x7;
      yp_reconcile_indeterminate := x8; yp_allow_ordered_model_fallback := x9;
      yp_automatic_semantic_retry := x10; yp_approval_response_authorized := x11;
      yp_authority_effect := x12 |}, s) |}.
#[global] Instance ExecutionAvailabilityPolicyV1_wire_ok : WireOk ExecutionAvailabilityPolicyV1.
Proof. wire_record ExecutionAvailabilityPolicyV1_wire. Qed.

#[global] Instance ProviderAdmissionOwnerPinsV1_wire : Wire ProviderAdmissionOwnerPinsV1 := {|
  put t :=
    put (op_codex_owner_head t) +:+ (put (op_switchyard_owner_head t) +:+ (
    put (op_switchyard_schema_sha256 t) +:+ (put (op_deterministic_fixture_sha256 t))));
  get s :=
    '(x0, s) ← get s; '(x1, s) ← get s; '(x2, s) ← get s; '(x3, s) ← get s;
    Some ({| op_codex_owner_head := x0; op_switchyard_owner_head := x1;
      op_switchyard_schema_sha256 := x2;
      op_deterministic_fixture_sha256 := x3 |}, s) |}.
#[global] Instance ProviderAdmissionOwnerPinsV1_wire_ok : WireOk ProviderAdmissionOwnerPinsV1.
Proof. wire_record ProviderAdmissionOwnerPinsV1_wire. Qed.

#[global] Instance ProviderModelSelectionV1_wire : Wire ProviderModelSelectionV1 := {|
  put t :=
    put (sl_provider_id t) +:+ (put (sl_model_id t) +:+ (put (sl_model_class t)));
  get s :=
    '(x0, s) ← get s; '(x1, s) ← get s; '(x2, s) ← get s;
    Some ({| sl_provider_id := x0; sl_model_id := x1; sl_model_class := x2 |}, s) |}.
#[global] Instance ProviderModelSelectionV1_wire_ok : WireOk ProviderModelSelectionV1.
Proof. wire_record ProviderModelSelectionV1_wire. Qed.

#[global] Instance ForemanExecutionAvailabilityRequirementV1_wire : Wire ForemanExecutionAvailabilityRequirementV1 := {|
  put t :=
    put (rq_schema t) +:+ (put (rq_requirement_digest t) +:+ (
    put (rq_packet_digest t) +:+ (put (rq_admission_digest t) +:+ (
    put (rq_profile_digest t) +:+ (put (rq_run_id t) +:+ (put (rq_adapter_id t) +:+ (
    put (rq_adapter_protocol t) +:+ (put (rq_adapter_version t) +:+ (
    put (rq_adapter_executable_identity t) +:+ (put (rq_owner_pins t) +:+ (
    put (rq_policy_id t) +:+ (put (rq_policy_digest t) +:+ (
    put (rq_work_item_model_selections t) +:+ (put (rq_admitted_at t) +:+ (
    put (rq_authority_effect t))))))))))))))));
  get s :=
    '(x0, s) ← get s; '(x1, s) ← get s; '(x2, s) ← get s; '(x3, s) ← get s;
    '(x4, s) ← get s; '(x5, s) ← get s; '(x6, s) ← get s; '(x7, s) ← get s;
    '(x8, s) ← get s; '(x9, s) ← get s; '(x10, s) ← get s; '(x11, s) ← get s;
    '(x12, s) ← get s; '(x13, s) ← get s; '(x14, s) ← get s; '(x15, s) ← get s;
    Some ({| rq_schema := x0; rq_requirement_digest := x1; rq_packet_digest := x2;
      rq_admission_digest := x3; rq_profile_digest := x4; rq_run_id := x5;
      rq_adapter_id := x6; rq_adapter_protocol := x7; rq_adapter_version := x8;
      rq_adapter_executable_identity := x9; rq_owner_pins := x10; rq_policy_id := x11;
      rq_policy_digest := x12; rq_work_item_model_selections := x13;
      rq_admitted_at := x14; rq_authority_effect := x15 |}, s) |}.
#[global] Instance ForemanExecutionAvailabilityRequirementV1_wire_ok : WireOk ForemanExecutionAvailabilityRequirementV1.
Proof. wire_record ForemanExecutionAvailabilityRequirementV1_wire. Qed.

#[global] Instance WorkerStartRequestV3_wire : Wire WorkerStartRequestV3 := {|
  put t :=
    put (s3_schema t) +:+ (put (s3_request_digest t) +:+ (
    put (s3_predecessor_schema t) +:+ (put (s3_predecessor_request_digest t) +:+ (
    put (s3_predecessor_sha256 t) +:+ (put (s3_predecessor_encoding t) +:+ (
    put (s3_predecessor_bytes_hex t) +:+ (put (s3_packet_digest t) +:+ (
    put (s3_profile_digest t) +:+ (put (s3_run_id t) +:+ (put (s3_work_item_id t) +:+ (
    put (s3_attempt_id t) +:+ (put (s3_work_attempt_id t) +:+ (
    put (s3_dispatch_occurrence_id t) +:+ (put (s3_adapter_id t) +:+ (
    put (s3_adapter_version t) +:+ (put (s3_adapter_protocol t) +:+ (
    put (s3_worker_brief_digest t) +:+ (put (s3_workspace_identity t) +:+ (
    put (s3_provider_model_class t) +:+ (put (s3_timeout_seconds t) +:+ (
    put (s3_maximum_output_bytes t) +:+ (
    put (s3_recursive_worker_swarms_forbidden t) +:+ (put (s3_approval_policy t) +:+ (
    put (s3_expected_receipt_schema t) +:+ (put (s3_provider_id t) +:+ (
    put (s3_model_id t) +:+ (put (s3_model_class t) +:+ (
    put (s3_selected_model_ordinal t) +:+ (
    put (s3_provider_admission_adapter_protocol t) +:+ (
    put (s3_provider_admission_binding_schema t) +:+ (
    put (s3_provider_admission_evidence_schema t) +:+ (
    put (s3_provider_admission_snapshot_schema t) +:+ (put (s3_codex_owner_head t) +:+ (
    put (s3_switchyard_owner_head t) +:+ (put (s3_switchyard_schema_sha256 t) +:+ (
    put (s3_switchyard_deterministic_fixture_sha256 t) +:+ (
    put (s3_provider_execution_id t) +:+ (put (s3_internal_provider_retry_count t) +:+ (
    put (s3_semantic_retry t) +:+ (put (s3_approval_response_authorized t) +:+ (
    put (s3_authority_effect t))))))))))))))))))))))))))))))))))))))))));
  get s :=
    '(x0, s) ← get s; '(x1, s) ← get s; '(x2, s) ← get s; '(x3, s) ← get s;
    '(x4, s) ← get s; '(x5, s) ← get s; '(x6, s) ← get s; '(x7, s) ← get s;
    '(x8, s) ← get s; '(x9, s) ← get s; '(x10, s) ← get s; '(x11, s) ← get s;
    '(x12, s) ← get s; '(x13, s) ← get s; '(x14, s) ← get s; '(x15, s) ← get s;
    '(x16, s) ← get s; '(x17, s) ← get s; '(x18, s) ← get s; '(x19, s) ← get s;
    '(x20, s) ← get s; '(x21, s) ← get s; '(x22, s) ← get s; '(x23, s) ← get s;
    '(x24, s) ← get s; '(x25, s) ← get s; '(x26, s) ← get s; '(x27, s) ← get s;
    '(x28, s) ← get s; '(x29, s) ← get s; '(x30, s) ← get s; '(x31, s) ← get s;
    '(x32, s) ← get s; '(x33, s) ← get s; '(x34, s) ← get s; '(x35, s) ← get s;
    '(x36, s) ← get s; '(x37, s) ← get s; '(x38, s) ← get s; '(x39, s) ← get s;
    '(x40, s) ← get s; '(x41, s) ← get s;
    Some ({| s3_schema := x0; s3_request_digest := x1; s3_predecessor_schema := x2;
      s3_predecessor_request_digest := x3; s3_predecessor_sha256 := x4;
      s3_predecessor_encoding := x5; s3_predecessor_bytes_hex := x6;
      s3_packet_digest := x7; s3_profile_digest := x8; s3_run_id := x9;
      s3_work_item_id := x10; s3_attempt_id := x11; s3_work_attempt_id := x12;
      s3_dispatch_occurrence_id := x13; s3_adapter_id := x14;
      s3_adapter_version := x15; s3_adapter_protocol := x16;
      s3_worker_brief_digest := x17; s3_workspace_identity := x18;
      s3_provider_model_class := x19; s3_timeout_seconds := x20;
      s3_maximum_output_bytes := x21; s3_recursive_worker_swarms_forbidden := x22;
      s3_approval_policy := x23; s3_expected_receipt_schema := x24;
      s3_provider_id := x25; s3_model_id := x26; s3_model_class := x27;
      s3_selected_model_ordinal := x28; s3_provider_admission_adapter_protocol := x29;
      s3_provider_admission_binding_schema := x30;
      s3_provider_admission_evidence_schema := x31;
      s3_provider_admission_snapshot_schema := x32; s3_codex_owner_head := x33;
      s3_switchyard_owner_head := x34; s3_switchyard_schema_sha256 := x35;
      s3_switchyard_deterministic_fixture_sha256 := x36;
      s3_provider_execution_id := x37; s3_internal_provider_retry_count := x38;
      s3_semantic_retry := x39; s3_approval_response_authorized := x40;
      s3_authority_effect := x41 |}, s) |}.
#[global] Instance WorkerStartRequestV3_wire_ok : WireOk WorkerStartRequestV3.
Proof. wire_record WorkerStartRequestV3_wire. Qed.

#[global] Instance ProviderDispatchOccurrenceV1_wire : Wire ProviderDispatchOccurrenceV1 := {|
  put t :=
    put (di_schema t) +:+ (put (di_dispatch_digest t) +:+ (
    put (di_requirement_digest t) +:+ (put (di_policy_digest t) +:+ (
    put (di_packet_digest t) +:+ (put (di_run_id t) +:+ (put (di_work_item_id t) +:+ (
    put (di_work_attempt_id t) +:+ (put (di_dispatch_occurrence_id t) +:+ (
    put (di_dispatch_ordinal t) +:+ (put (di_selected_model_ordinal t) +:+ (
    put (di_selection t) +:+ (put (di_adapter_id t) +:+ (
    put (di_adapter_version t) +:+ (put (di_adapter_protocol t) +:+ (
    put (di_adapter_process_occurrence_id t) +:+ (
    put (di_app_server_session_identity t) +:+ (
    put (di_worker_start_request_schema t) +:+ (
    put (di_worker_start_request_digest t) +:+ (put (di_worker_brief_digest t) +:+ (
    put (di_opened_at t) +:+ (put (di_internal_provider_retry_count t) +:+ (
    put (di_provider_execution_id t) +:+ (put (di_authority_effect t))))))))))))))))))))))));
  get s :=
    '(x0, s) ← get s; '(x1, s) ← get s; '(x2, s) ← get s; '(x3, s) ← get s;
    '(x4, s) ← get s; '(x5, s) ← get s; '(x6, s) ← get s; '(x7, s) ← get s;
    '(x8, s) ← get s; '(x9, s) ← get s; '(x10, s) ← get s; '(x11, s) ← get s;
    '(x12, s) ← get s; '(x13, s) ← get s; '(x14, s) ← get s; '(x15, s) ← get s;
    '(x16, s) ← get s; '(x17, s) ← get s; '(x18, s) ← get s; '(x19, s) ← get s;
    '(x20, s) ← get s; '(x21, s) ← get s; '(x22, s) ← get s; '(x23, s) ← get s;
    Some ({| di_schema := x0; di_dispatch_digest := x1; di_requirement_digest := x2;
      di_policy_digest := x3; di_packet_digest := x4; di_run_id := x5;
      di_work_item_id := x6; di_work_attempt_id := x7; di_dispatch_occurrence_id := x8;
      di_dispatch_ordinal := x9; di_selected_model_ordinal := x10; di_selection := x11;
      di_adapter_id := x12; di_adapter_version := x13; di_adapter_protocol := x14;
      di_adapter_process_occurrence_id := x15; di_app_server_session_identity := x16;
      di_worker_start_request_schema := x17; di_worker_start_request_digest := x18;
      di_worker_brief_digest := x19; di_opened_at := x20;
      di_internal_provider_retry_count := x21; di_provider_execution_id := x22;
      di_authority_effect := x23 |}, s) |}.
#[global] Instance ProviderDispatchOccurrenceV1_wire_ok : WireOk ProviderDispatchOccurrenceV1.
Proof. wire_record ProviderDispatchOccurrenceV1_wire. Qed.

#[global] Instance ProviderExecutionIdentityV1_wire : Wire ProviderExecutionIdentityV1 := {|
  put t :=
    put (xi_provider_id t) +:+ (put (xi_model_id t) +:+ (
    put (xi_app_server_session_identity t) +:+ (put (xi_thread_id t) +:+ (
    put (xi_turn_id t) +:+ (put (xi_first_response_id t))))));
  get s :=
    '(x0, s) ← get s; '(x1, s) ← get s; '(x2, s) ← get s; '(x3, s) ← get s;
    '(x4, s) ← get s; '(x5, s) ← get s;
    Some ({| xi_provider_id := x0; xi_model_id := x1;
      xi_app_server_session_identity := x2; xi_thread_id := x3; xi_turn_id := x4;
      xi_first_response_id := x5 |}, s) |}.
#[global] Instance ProviderExecutionIdentityV1_wire_ok : WireOk ProviderExecutionIdentityV1.
Proof. wire_record ProviderExecutionIdentityV1_wire. Qed.

#[global] Instance ProviderAdmissionDispositionV1_wire : Wire ProviderAdmissionDispositionV1 := {|
  put t :=
    put (dp_schema t) +:+ (put (dp_disposition_digest t) +:+ (
    put (dp_dispatch_digest t) +:+ (put (dp_requirement_digest t) +:+ (
    put (dp_policy_digest t) +:+ (put (dp_packet_digest t) +:+ (put (dp_run_id t) +:+ (
    put (dp_work_item_id t) +:+ (put (dp_work_attempt_id t) +:+ (
    put (dp_dispatch_occurrence_id t) +:+ (put (dp_provider_id t) +:+ (
    put (dp_model_id t) +:+ (put (dp_provider_request_occurrence_id t) +:+ (
    put (dp_adapter_process_occurrence_id t) +:+ (
    put (dp_app_server_session_identity t) +:+ (put (dp_thread_id t) +:+ (
    put (dp_turn_id t) +:+ (put (dp_disposition t) +:+ (put (dp_mechanism_state t) +:+ (
    put (dp_received_at t) +:+ (put (dp_response_created t) +:+ (
    put (dp_will_retry t) +:+ (put (dp_acquisition_complete t) +:+ (
    put (dp_provider_retry_after t) +:+ (put (dp_provider_execution t) +:+ (
    put (dp_mapper_snapshot_schema t) +:+ (put (dp_mapper_snapshot_digest t) +:+ (
    put (dp_mapper_snapshot t) +:+ (put (dp_approval_response_sent t) +:+ (
    put (dp_protected_effect_absent t) +:+ (put (dp_authority_effect t)))))))))))))))))))))))))))))));
  get s :=
    '(x0, s) ← get s; '(x1, s) ← get s; '(x2, s) ← get s; '(x3, s) ← get s;
    '(x4, s) ← get s; '(x5, s) ← get s; '(x6, s) ← get s; '(x7, s) ← get s;
    '(x8, s) ← get s; '(x9, s) ← get s; '(x10, s) ← get s; '(x11, s) ← get s;
    '(x12, s) ← get s; '(x13, s) ← get s; '(x14, s) ← get s; '(x15, s) ← get s;
    '(x16, s) ← get s; '(x17, s) ← get s; '(x18, s) ← get s; '(x19, s) ← get s;
    '(x20, s) ← get s; '(x21, s) ← get s; '(x22, s) ← get s; '(x23, s) ← get s;
    '(x24, s) ← get s; '(x25, s) ← get s; '(x26, s) ← get s; '(x27, s) ← get s;
    '(x28, s) ← get s; '(x29, s) ← get s; '(x30, s) ← get s;
    Some ({| dp_schema := x0; dp_disposition_digest := x1; dp_dispatch_digest := x2;
      dp_requirement_digest := x3; dp_policy_digest := x4; dp_packet_digest := x5;
      dp_run_id := x6; dp_work_item_id := x7; dp_work_attempt_id := x8;
      dp_dispatch_occurrence_id := x9; dp_provider_id := x10; dp_model_id := x11;
      dp_provider_request_occurrence_id := x12;
      dp_adapter_process_occurrence_id := x13; dp_app_server_session_identity := x14;
      dp_thread_id := x15; dp_turn_id := x16; dp_disposition := x17;
      dp_mechanism_state := x18; dp_received_at := x19; dp_response_created := x20;
      dp_will_retry := x21; dp_acquisition_complete := x22;
      dp_provider_retry_after := x23; dp_provider_execution := x24;
      dp_mapper_snapshot_schema := x25; dp_mapper_snapshot_digest := x26;
      dp_mapper_snapshot := x27; dp_approval_response_sent := x28;
      dp_protected_effect_absent := x29; dp_authority_effect := x30 |}, s) |}.
#[global] Instance ProviderAdmissionDispositionV1_wire_ok : WireOk ProviderAdmissionDispositionV1.
Proof. wire_record ProviderAdmissionDispositionV1_wire. Qed.

#[global] Instance DeferredProviderDispatchV1_wire : Wire DeferredProviderDispatchV1 := {|
  put t :=
    put (df_schema t) +:+ (put (df_deferred_dispatch_digest t) +:+ (
    put (df_requirement_digest t) +:+ (put (df_policy_digest t) +:+ (
    put (df_disposition_digest t) +:+ (put (df_packet_digest t) +:+ (
    put (df_run_id t) +:+ (put (df_work_item_id t) +:+ (put (df_work_attempt_id t) +:+ (
    put (df_last_dispatch_occurrence_id t) +:+ (put (df_provider_id t) +:+ (
    put (df_model_id t) +:+ (put (df_selected_model_ordinal t) +:+ (
    put (df_remaining_model_ordinals t) +:+ (put (df_refusal_received_at t) +:+ (
    put (df_wake_basis t) +:+ (put (df_backoff_ordinal t) +:+ (
    put (df_backoff_seconds t) +:+ (put (df_provider_retry_after t) +:+ (
    put (df_wake_at t) +:+ (put (df_parked_resource_lock_policy t) +:+ (
    put (df_provider_capacity_released t) +:+ (put (df_semantic_retry t) +:+ (
    put (df_authority_effect t))))))))))))))))))))))));
  get s :=
    '(x0, s) ← get s; '(x1, s) ← get s; '(x2, s) ← get s; '(x3, s) ← get s;
    '(x4, s) ← get s; '(x5, s) ← get s; '(x6, s) ← get s; '(x7, s) ← get s;
    '(x8, s) ← get s; '(x9, s) ← get s; '(x10, s) ← get s; '(x11, s) ← get s;
    '(x12, s) ← get s; '(x13, s) ← get s; '(x14, s) ← get s; '(x15, s) ← get s;
    '(x16, s) ← get s; '(x17, s) ← get s; '(x18, s) ← get s; '(x19, s) ← get s;
    '(x20, s) ← get s; '(x21, s) ← get s; '(x22, s) ← get s; '(x23, s) ← get s;
    Some ({| df_schema := x0; df_deferred_dispatch_digest := x1;
      df_requirement_digest := x2; df_policy_digest := x3; df_disposition_digest := x4;
      df_packet_digest := x5; df_run_id := x6; df_work_item_id := x7;
      df_work_attempt_id := x8; df_last_dispatch_occurrence_id := x9;
      df_provider_id := x10; df_model_id := x11; df_selected_model_ordinal := x12;
      df_remaining_model_ordinals := x13; df_refusal_received_at := x14;
      df_wake_basis := x15; df_backoff_ordinal := x16; df_backoff_seconds := x17;
      df_provider_retry_after := x18; df_wake_at := x19;
      df_parked_resource_lock_policy := x20; df_provider_capacity_released := x21;
      df_semantic_retry := x22; df_authority_effect := x23 |}, s) |}.
#[global] Instance DeferredProviderDispatchV1_wire_ok : WireOk DeferredProviderDispatchV1.
Proof. wire_record DeferredProviderDispatchV1_wire. Qed.

#[global] Instance DeterministicProviderAdmissionEvidenceV1_wire : Wire DeterministicProviderAdmissionEvidenceV1 := {|
  put t :=
    put (q1_schema t) +:+ (put (q1_evidence_digest t) +:+ (put (q1_producer_id t) +:+ (
    put (q1_producer_version t) +:+ (put (q1_executable_id t) +:+ (
    put (q1_executable_sha256 t) +:+ (put (q1_work_attempt_id t) +:+ (
    put (q1_dispatch_occurrence_id t) +:+ (
    put (q1_provider_request_occurrence_id t) +:+ (put (q1_provider_id t) +:+ (
    put (q1_model_id t) +:+ (put (q1_outcome t) +:+ (put (q1_response_created t) +:+ (
    put (q1_non_admission_proven t) +:+ (put (q1_retry_after t) +:+ (
    put (q1_observed_at t) +:+ (put (q1_received_at t) +:+ (
    put (q1_raw_evidence t) +:+ (put (q1_authority_effect t)))))))))))))))))));
  get s :=
    '(x0, s) ← get s; '(x1, s) ← get s; '(x2, s) ← get s; '(x3, s) ← get s;
    '(x4, s) ← get s; '(x5, s) ← get s; '(x6, s) ← get s; '(x7, s) ← get s;
    '(x8, s) ← get s; '(x9, s) ← get s; '(x10, s) ← get s; '(x11, s) ← get s;
    '(x12, s) ← get s; '(x13, s) ← get s; '(x14, s) ← get s; '(x15, s) ← get s;
    '(x16, s) ← get s; '(x17, s) ← get s; '(x18, s) ← get s;
    Some ({| q1_schema := x0; q1_evidence_digest := x1; q1_producer_id := x2;
      q1_producer_version := x3; q1_executable_id := x4; q1_executable_sha256 := x5;
      q1_work_attempt_id := x6; q1_dispatch_occurrence_id := x7;
      q1_provider_request_occurrence_id := x8; q1_provider_id := x9;
      q1_model_id := x10; q1_outcome := x11; q1_response_created := x12;
      q1_non_admission_proven := x13; q1_retry_after := x14; q1_observed_at := x15;
      q1_received_at := x16; q1_raw_evidence := x17;
      q1_authority_effect := x18 |}, s) |}.
#[global] Instance DeterministicProviderAdmissionEvidenceV1_wire_ok : WireOk DeterministicProviderAdmissionEvidenceV1.
Proof. wire_record DeterministicProviderAdmissionEvidenceV1_wire. Qed.

#[global] Instance DeterministicProviderAdmissionEvidenceV2_wire : Wire DeterministicProviderAdmissionEvidenceV2 := {|
  put t :=
    put (q2_schema t) +:+ (put (q2_evidence_digest t) +:+ (put (q2_producer_id t) +:+ (
    put (q2_producer_version t) +:+ (put (q2_executable_id t) +:+ (
    put (q2_executable_sha256 t) +:+ (put (q2_work_attempt_id t) +:+ (
    put (q2_dispatch_occurrence_id t) +:+ (
    put (q2_provider_request_occurrence_id t) +:+ (put (q2_provider_id t) +:+ (
    put (q2_model_id t) +:+ (put (q2_outcome t) +:+ (put (q2_response_created t) +:+ (
    put (q2_non_admission_proven t) +:+ (put (q2_retry_after t) +:+ (
    put (q2_observed_at t) +:+ (put (q2_received_at t) +:+ (
    put (q2_provider_execution t) +:+ (put (q2_raw_evidence t) +:+ (
    put (q2_authority_effect t))))))))))))))))))));
  get s :=
    '(x0, s) ← get s; '(x1, s) ← get s; '(x2, s) ← get s; '(x3, s) ← get s;
    '(x4, s) ← get s; '(x5, s) ← get s; '(x6, s) ← get s; '(x7, s) ← get s;
    '(x8, s) ← get s; '(x9, s) ← get s; '(x10, s) ← get s; '(x11, s) ← get s;
    '(x12, s) ← get s; '(x13, s) ← get s; '(x14, s) ← get s; '(x15, s) ← get s;
    '(x16, s) ← get s; '(x17, s) ← get s; '(x18, s) ← get s; '(x19, s) ← get s;
    Some ({| q2_schema := x0; q2_evidence_digest := x1; q2_producer_id := x2;
      q2_producer_version := x3; q2_executable_id := x4; q2_executable_sha256 := x5;
      q2_work_attempt_id := x6; q2_dispatch_occurrence_id := x7;
      q2_provider_request_occurrence_id := x8; q2_provider_id := x9;
      q2_model_id := x10; q2_outcome := x11; q2_response_created := x12;
      q2_non_admission_proven := x13; q2_retry_after := x14; q2_observed_at := x15;
      q2_received_at := x16; q2_provider_execution := x17; q2_raw_evidence := x18;
      q2_authority_effect := x19 |}, s) |}.
#[global] Instance DeterministicProviderAdmissionEvidenceV2_wire_ok : WireOk DeterministicProviderAdmissionEvidenceV2.
Proof. wire_record DeterministicProviderAdmissionEvidenceV2_wire. Qed.

(** ** Documents *)

Definition shown_instant (field : string) (t : Z) : string * value := (field, Str (put t)).
Definition shown_option (field : string) (t : option Z) : string * value :=
  (field, match t with Some t => Str (put t) | None => Null end).

Definition availability_observation_serde : Serde ExecutionAvailabilityObservationV1 :=
  sealed_serde "observation_digest" eo_observation_digest set_observation_digest
    (fun o => [shown_instant "observed_at" (eo_observed_at o);
               shown_instant "received_at" (eo_received_at o);
               shown_instant "expires_at" (eo_expires_at o);
               shown_option "provider_retry_after" (eo_provider_retry_after o)]).
Definition availability_policy_serde : Serde ExecutionAvailabilityPolicyV1 :=
  sealed_serde "policy_digest" yp_policy_digest set_availability_policy_digest (fun _ => []).
Definition availability_requirement_serde : Serde ForemanExecutionAvailabilityRequirementV1 :=
  sealed_serde "requirement_digest" rq_requirement_digest set_requirement_digest
    (fun r => [shown_instant "admitted_at" (rq_admitted_at r)]).
Definition start_v3_serde : Serde WorkerStartRequestV3 :=
  sealed_serde "request_digest" s3_request_digest set_request_v3_digest (fun _ => []).
Definition dispatch_serde : Serde ProviderDispatchOccurrenceV1 :=
  sealed_serde "dispatch_digest" di_dispatch_digest set_dispatch_digest
    (fun d => [shown_instant "opened_at" (di_opened_at d)]).
Definition disposition_serde : Serde ProviderAdmissionDispositionV1 :=
  sealed_serde "disposition_digest" dp_disposition_digest set_disposition_digest
    (fun d => [shown_instant "received_at" (dp_received_at d);
               shown_option "provider_retry_after" (dp_provider_retry_after d)]).
Definition deferred_serde : Serde DeferredProviderDispatchV1 :=
  sealed_serde "deferred_dispatch_digest" df_deferred_dispatch_digest set_deferred_digest
    (fun d => [shown_instant "refusal_received_at" (df_refusal_received_at d);
               shown_instant "wake_at" (df_wake_at d);
               shown_option "provider_retry_after" (df_provider_retry_after d)]).
Definition qualification_v1_serde : Serde DeterministicProviderAdmissionEvidenceV1 :=
  sealed_serde "evidence_digest" q1_evidence_digest set_evidence_v1_digest
    (fun e => [shown_instant "observed_at" (q1_observed_at e);
               shown_instant "received_at" (q1_received_at e);
               shown_option "retry_after" (q1_retry_after e)]).
Definition qualification_v2_serde : Serde DeterministicProviderAdmissionEvidenceV2 :=
  sealed_serde "evidence_digest" q2_evidence_digest set_evidence_v2_digest
    (fun e => [shown_instant "observed_at" (q2_observed_at e);
               shown_instant "received_at" (q2_received_at e);
               shown_option "retry_after" (q2_retry_after e)]).
Definition exact_evidence_serde : Serde ExactAvailabilityEvidenceV1 :=
  plain_serde ExactAvailabilityEvidenceV1.
Definition execution_identity_serde : Serde ProviderExecutionIdentityV1 :=
  plain_serde ProviderExecutionIdentityV1.
