(* ===== verification/ConcreteDocuments.v ===== *)
(** * Concrete foreman documents

    Codec instances for the records the store retains, and the instance of
    [Documents] the store's witnesses run on.  The records the witnesses
    never produce have a serializer that refuses; journal events that carry them
    are refused as well. *)
From S2P Require Import Prelude Text External Packet PacketFacts Capacity CapacityFacts Contract.
From S2P Require Import Availability Scheduler Prelaunch Bootstrap Evidence Graph Journal Requirements Codec.
From S2P Require Import ConcreteRecords ConcreteProvider.
Local Open Scope string_scope.

(** ** Records *)

#[global] Instance AdapterEventKindV1_wire : Wire AdapterEventKindV1 :=
  enum_wire
    [AdapterAccepted; ProviderIdentity; WorkerStarted; Checkpoint; WaitingApprovalEvent;
     HumanQuestion; ProviderCompletionObservation; AdapterDiagnostic; MechanismIndeterminate]
    (fun c => match c with
              | AdapterAccepted => 0 | ProviderIdentity => 1 | WorkerStarted => 2 | Checkpoint => 3
              | WaitingApprovalEvent => 4 | HumanQuestion => 5 | ProviderCompletionObservation => 6
              | AdapterDiagnostic => 7 | MechanismIndeterminate => 8
              end).
#[global] Instance AdapterEventKindV1_wire_ok : WireOk AdapterEventKindV1.
Proof. apply enum_wire_ok. by intros []. Qed.

#[global] Instance CapacityCostClassV1_wire : Wire CapacityCostClassV1 :=
  enum_wire [Cheap; Expensive]
    (fun c => match c with | Cheap => 0 | Expensive => 1 end).
#[global] Instance CapacityCostClassV1_wire_ok : WireOk CapacityCostClassV1.
Proof. apply enum_wire_ok. by intros []. Qed.

#[global] Instance ForemanAdmissionV1_wire : Wire ForemanAdmissionV1 := {|
  put t :=
    put (fa_schema t) +:+ (put (fa_admission_digest t) +:+ (put (fa_run_id t) +:+ (
    put (fa_packet_digest t) +:+ (put (fa_operator_basis_digest t) +:+ (
    put (fa_admitted_at t) +:+ (put (fa_expires_at t) +:+ (
    put (fa_local_runtime_identity t) +:+ (put (fa_maximum_concurrent_workers t) +:+ (
    put (fa_allowed_adapter_ids t) +:+ (put (fa_allowed_provider_model_classes t) +:+ (
    put (fa_maximum_new_attempts_per_work_item t) +:+ (put (fa_authority_effect t) +:+ (
    put (fa_target_effects_authorized t))))))))))))));
  get s :=
    '(x0, s) ← get s; '(x1, s) ← get s; '(x2, s) ← get s; '(x3, s) ← get s;
    '(x4, s) ← get s; '(x5, s) ← get s; '(x6, s) ← get s; '(x7, s) ← get s;
    '(x8, s) ← get s; '(x9, s) ← get s; '(x10, s) ← get s; '(x11, s) ← get s;
    '(x12, s) ← get s; '(x13, s) ← get s;
    Some ({| fa_schema := x0; fa_admission_digest := x1; fa_run_id := x2;
      fa_packet_digest := x3; fa_operator_basis_digest := x4; fa_admitted_at := x5;
      fa_expires_at := x6; fa_local_runtime_identity := x7;
      fa_maximum_concurrent_workers := x8; fa_allowed_adapter_ids := x9;
      fa_allowed_provider_model_classes := x10;
      fa_maximum_new_attempts_per_work_item := x11; fa_authority_effect := x12;
      fa_target_effects_authorized := x13 |}, s) |}.
#[global] Instance ForemanAdmissionV1_wire_ok : WireOk ForemanAdmissionV1.
Proof. wire_record ForemanAdmissionV1_wire. Qed.

#[global] Instance ForemanCapacityRequirementV1_wire : Wire ForemanCapacityRequirementV1 := {|
  put t :=
    put (cr_schema t) +:+ (put (cr_capacity_requirement_digest t) +:+ (
    put (cr_packet_digest t) +:+ (put (cr_admission_digest t) +:+ (
    put (cr_profile_digest t) +:+ (put (cr_run_id t) +:+ (put (cr_policy_id t) +:+ (
    put (cr_provider_id t) +:+ (put (cr_model_cost_classes t) +:+ (
    put (cr_authority_effect t))))))))));
  get s :=
    '(x0, s) ← get s; '(x1, s) ← get s; '(x2, s) ← get s; '(x3, s) ← get s;
    '(x4, s) ← get s; '(x5, s) ← get s; '(x6, s) ← get s; '(x7, s) ← get s;
    '(x8, s) ← get s; '(x9, s) ← get s;
    Some ({| cr_schema := x0; cr_capacity_requirement_digest := x1;
      cr_packet_digest := x2; cr_admission_digest := x3; cr_profile_digest := x4;
      cr_run_id := x5; cr_policy_id := x6; cr_provider_id := x7;
      cr_model_cost_classes := x8; cr_authority_effect := x9 |}, s) |}.
#[global] Instance ForemanCapacityRequirementV1_wire_ok : WireOk ForemanCapacityRequirementV1.
Proof. wire_record ForemanCapacityRequirementV1_wire. Qed.

#[global] Instance AdapterRegistrationV2_wire : Wire AdapterRegistrationV2 := {|
  put t :=
    put (ar_adapter_id t) +:+ (put (ar_protocol t) +:+ (put (ar_adapter_version t) +:+ (
    put (ar_executable_identity t) +:+ (put (ar_bounded_arguments t)))));
  get s :=
    '(x0, s) ← get s; '(x1, s) ← get s; '(x2, s) ← get s; '(x3, s) ← get s;
    '(x4, s) ← get s;
    Some ({| ar_adapter_id := x0; ar_protocol := x1; ar_adapter_version := x2;
      ar_executable_identity := x3; ar_bounded_arguments := x4 |}, s) |}.
#[global] Instance AdapterRegistrationV2_wire_ok : WireOk AdapterRegistrationV2.
Proof. wire_record AdapterRegistrationV2_wire. Qed.

#[global] Instance WorkItemExecutionV1_wire : Wire WorkItemExecutionV1 := {|
  put t :=
    put (wx_adapter_id t) +:+ (put (wx_workspace_identity t) +:+ (
    put (wx_resource_lock_keys t) +:+ (put (wx_provider_model_class t))));
  get s :=
    '(x0, s) ← get s; '(x1, s) ← get s; '(x2, s) ← get s; '(x3, s) ← get s;
    Some ({| wx_adapter_id := x0; wx_workspace_identity := x1;
      wx_resource_lock_keys := x2; wx_provider_model_class := x3 |}, s) |}.
#[global] Instance WorkItemExecutionV1_wire_ok : WireOk WorkItemExecutionV1.
Proof. wire_record WorkItemExecutionV1_wire. Qed.

#[global] Instance ExecutionProfileV2_wire : Wire ExecutionProfileV2 := {|
  put t :=
    put (ep_schema t) +:+ (put (ep_profile_digest t) +:+ (put (ep_packet_digest t) +:+ (
    put (ep_admission_digest t) +:+ (put (ep_adapters t) +:+ (
    put (ep_work_items t) +:+ (put (ep_budget_policy_ref t) +:+ (
    put (ep_log_custody_root t) +:+ (put (ep_receipt_custody_root t) +:+ (
    put (ep_maximum_event_bytes t) +:+ (put (ep_maximum_worker_output_bytes t) +:+ (
    put (ep_maximum_receipt_bytes t) +:+ (put (ep_adapter_timeout_seconds t) +:+ (
    put (ep_closeout_policy t))))))))))))));
  get s :=
    '(x0, s) ← get s; '(x1, s) ← get s; '(x2, s) ← get s; '(x3, s) ← get s;
    '(x4, s) ← get s; '(x5, s) ← get s; '(x6, s) ← get s; '(x7, s) ← get s;
    '(x8, s) ← get s; '(x9, s) ← get s; '(x10, s) ← get s; '(x11, s) ← get s;
    '(x12, s) ← get s; '(x13, s) ← get s;
    Some ({| ep_schema := x0; ep_profile_digest := x1; ep_packet_digest := x2;
      ep_admission_digest := x3; ep_adapters := x4; ep_work_items := x5;
      ep_budget_policy_ref := x6; ep_log_custody_root := x7;
      ep_receipt_custody_root := x8; ep_maximum_event_bytes := x9;
      ep_maximum_worker_output_bytes := x10; ep_maximum_receipt_bytes := x11;
      ep_adapter_timeout_seconds := x12; ep_closeout_policy := x13 |}, s) |}.
#[global] Instance ExecutionProfileV2_wire_ok : WireOk ExecutionProfileV2.
Proof. wire_record ExecutionProfileV2_wire. Qed.

#[global] Instance WorkerStartRequestV2_wire : Wire WorkerStartRequestV2 := {|
  put t :=
    put (sr_schema t) +:+ (put (sr_request_digest t) +:+ (put (sr_adapter_id t) +:+ (
    put (sr_adapter_version t) +:+ (put (sr_adapter_protocol t) +:+ (
    put (sr_packet_digest t) +:+ (put (sr_run_id t) +:+ (put (sr_work_item_id t) +:+ (
    put (sr_attempt_id t) +:+ (put (sr_worker_brief_digest t) +:+ (
    put (sr_workspace_identity t) +:+ (put (sr_provider_model_class t) +:+ (
    put (sr_timeout_seconds t) +:+ (put (sr_maximum_output_bytes t) +:+ (
    put (sr_recursive_worker_swarms_forbidden t) +:+ (put (sr_approval_policy t) +:+ (
    put (sr_expected_receipt_schema t)))))))))))))))));
  get s :=
    '(x0, s) ← get s; '(x1, s) ← get s; '(x2, s) ← get s; '(x3, s) ← get s;
    '(x4, s) ← get s; '(x5, s) ← get s; '(x6, s) ← get s; '(x7, s) ← get s;
    '(x8, s) ← get s; '(x9, s) ← get s; '(x10, s) ← get s; '(x11, s) ← get s;
    '(x12, s) ← get s; '(x13, s) ← get s; '(x14, s) ← get s; '(x15, s) ← get s;
    '(x16, s) ← get s;
    Some ({| sr_schema := x0; sr_request_digest := x1; sr_adapter_id := x2;
      sr_adapter_version := x3; sr_adapter_protocol := x4; sr_packet_digest := x5;
      sr_run_id := x6; sr_work_item_id := x7; sr_attempt_id := x8;
      sr_worker_brief_digest := x9; sr_workspace_identity := x10;
      sr_provider_model_class := x11; sr_timeout_seconds := x12;
      sr_maximum_output_bytes := x13; sr_recursive_worker_swarms_forbidden := x14;
      sr_approval_policy := x15; sr_expected_receipt_schema := x16 |}, s) |}.
#[global] Instance WorkerStartRequestV2_wire_ok : WireOk WorkerStartRequestV2.
Proof. wire_record WorkerStartRequestV2_wire. Qed.

#[global] Instance HumanQuestionV1_wire : Wire HumanQuestionV1 := {|
  put t :=
    put (hq_question_id t) +:+ (put (hq_question t) +:+ (
    put (hq_exhausted_evidence t) +:+ (put (hq_safe_default t) +:+ (
    put (hq_consequences t) +:+ (put (hq_resume_point t))))));
  get s :=
    '(x0, s) ← get s; '(x1, s) ← get s; '(x2, s) ← get s; '(x3, s) ← get s;
    '(x4, s) ← get s; '(x5, s) ← get s;
    Some ({| hq_question_id := x0; hq_question := x1; hq_exhausted_evidence := x2;
      hq_safe_default := x3; hq_consequences := x4; hq_resume_point := x5 |}, s) |}.
#[global] Instance HumanQuestionV1_wire_ok : WireOk HumanQuestionV1.
Proof. wire_record HumanQuestionV1_wire. Qed.

#[global] Instance AdapterEventV1_wire : Wire AdapterEventV1 := {|
  put t :=
    put (ae_schema t) +:+ (put (ae_event_digest t) +:+ (put (ae_event_id t) +:+ (
    put (ae_packet_digest t) +:+ (put (ae_run_id t) +:+ (put (ae_work_item_id t) +:+ (
    put (ae_attempt_id t) +:+ (put (ae_adapter_id t) +:+ (
    put (ae_adapter_version t) +:+ (put (ae_occurred_at t) +:+ (put (ae_kind t) +:+ (
    put (ae_provider_identity t) +:+ (put (ae_model_identity t) +:+ (
    put (ae_session_identity t) +:+ (put (ae_thread_identity t) +:+ (
    put (ae_turn_identity t) +:+ (put (ae_queue_identity t) +:+ (
    put (ae_message t) +:+ (put (ae_human_question t) +:+ (put (ae_extensions t))))))))))))))))))));
  get s :=
    '(x0, s) ← get s; '(x1, s) ← get s; '(x2, s) ← get s; '(x3, s) ← get s;
    '(x4, s) ← get s; '(x5, s) ← get s; '(x6, s) ← get s; '(x7, s) ← get s;
    '(x8, s) ← get s; '(x9, s) ← get s; '(x10, s) ← get s; '(x11, s) ← get s;
    '(x12, s) ← get s; '(x13, s) ← get s; '(x14, s) ← get s; '(x15, s) ← get s;
    '(x16, s) ← get s; '(x17, s) ← get s; '(x18, s) ← get s; '(x19, s) ← get s;
    Some ({| ae_schema := x0; ae_event_digest := x1; ae_event_id := x2;
      ae_packet_digest := x3; ae_run_id := x4; ae_work_item_id := x5;
      ae_attempt_id := x6; ae_adapter_id := x7; ae_adapter_version := x8;
      ae_occurred_at := x9; ae_kind := x10; ae_provider_identity := x11;
      ae_model_identity := x12; ae_session_identity := x13; ae_thread_identity := x14;
      ae_turn_identity := x15; ae_queue_identity := x16; ae_message := x17;
      ae_human_question := x18; ae_extensions := x19 |}, s) |}.
#[global] Instance AdapterEventV1_wire_ok : WireOk AdapterEventV1.
Proof. wire_record AdapterEventV1_wire. Qed.

#[global] Instance ReceiptRepositoryV1_wire : Wire ReceiptRepositoryV1 := {|
  put t :=
    put (rx_repository t) +:+ (put (rx_branch t) +:+ (put (rx_head t) +:+ (
    put (rx_push_status t))));
  get s :=
    '(x0, s) ← get s; '(x1, s) ← get s; '(x2, s) ← get s; '(x3, s) ← get s;
    Some ({| rx_repository := x0; rx_branch := x1; rx_head := x2;
      rx_push_status := x3 |}, s) |}.
#[global] Instance ReceiptRepositoryV1_wire_ok : WireOk ReceiptRepositoryV1.
Proof. wire_record ReceiptRepositoryV1_wire. Qed.

#[global] Instance TeardownDeclarationV1_wire : Wire TeardownDeclarationV1 := {|
  put t :=
    put (td_live_runtime t) +:+ (put (td_secrets t) +:+ (put (td_teardown t)));
  get s :=
    '(x0, s) ← get s; '(x1, s) ← get s; '(x2, s) ← get s;
    Some ({| td_live_runtime := x0; td_secrets := x1; td_teardown := x2 |}, s) |}.
#[global] Instance TeardownDeclarationV1_wire_ok : WireOk TeardownDeclarationV1.
Proof. wire_record TeardownDeclarationV1_wire. Qed.

#[global] Instance TerminalReceiptV1_wire : Wire TerminalReceiptV1 := {|
  put t :=
    put (tr_schema t) +:+ (put (tr_receipt_digest t) +:+ (put (tr_packet_digest t) +:+ (
    put (tr_run_id t) +:+ (put (tr_work_item_id t) +:+ (put (tr_attempt_id t) +:+ (
    put (tr_adapter_id t) +:+ (put (tr_adapter_version t) +:+ (
    put (tr_provider_identity t) +:+ (put (tr_model_identity t) +:+ (
    put (tr_session_identity t) +:+ (put (tr_thread_identity t) +:+ (
    put (tr_turn_identity t) +:+ (put (tr_queue_identity t) +:+ (
    put (tr_started_at t) +:+ (put (tr_ended_at t) +:+ (put (tr_state t) +:+ (
    put (tr_result_classification t) +:+ (put (tr_repositories t) +:+ (
    put (tr_tests t) +:+ (put (tr_evidence t) +:+ (
    put (tr_live_or_production_mutations t) +:+ (put (tr_remaining_trigger t) +:+ (
    put (tr_next_lawful_action t) +:+ (put (tr_human_questions t) +:+ (
    put (tr_teardown t) +:+ (put (tr_extensions t)))))))))))))))))))))))))));
  get s :=
    '(x0, s) ← get s; '(x1, s) ← get s; '(x2, s) ← get s; '(x3, s) ← get s;
    '(x4, s) ← get s; '(x5, s) ← get s; '(x6, s) ← get s; '(x7, s) ← get s;
    '(x8, s) ← get s; '(x9, s) ← get s; '(x10, s) ← get s; '(x11, s) ← get s;
    '(x12, s) ← get s; '(x13, s) ← get s; '(x14, s) ← get s; '(x15, s) ← get s;
    '(x16, s) ← get s; '(x17, s) ← get s; '(x18, s) ← get s; '(x19, s) ← get s;
    '(x20, s) ← get s; '(x21, s) ← get s; '(x22, s) ← get s; '(x23, s) ← get s;
    '(x24, s) ← get s; '(x25, s) ← get s; '(x26, s) ← get s;
    Some ({| tr_schema := x0; tr_receipt_digest := x1; tr_packet_digest := x2;
      tr_run_id := x3; tr_work_item_id := x4; tr_attempt_id := x5; tr_adapter_id := x6;
      tr_adapter_version := x7; tr_provider_identity := x8; tr_model_identity := x9;
      tr_session_identity := x10; tr_thread_identity := x11; tr_turn_identity := x12;
      tr_queue_identity := x13; tr_started_at := x14; tr_ended_at := x15;
      tr_state := x16; tr_result_classification := x17; tr_repositories := x18;
      tr_tests := x19; tr_evidence := x20; tr_live_or_production_mutations := x21;
      tr_remaining_trigger := x22; tr_next_lawful_action := x23;
      tr_human_questions := x24; tr_teardown := x25; tr_extensions := x26 |}, s) |}.
#[global] Instance TerminalReceiptV1_wire_ok : WireOk TerminalReceiptV1.
Proof. wire_record TerminalReceiptV1_wire. Qed.

#[global] Instance NotStartedReceiptV1_wire : Wire NotStartedReceiptV1 := {|
  put t :=
    put (nr_schema t) +:+ (put (nr_receipt_digest t) +:+ (put (nr_packet_digest t) +:+ (
    put (nr_run_id t) +:+ (put (nr_work_item_id t) +:+ (put (nr_recorded_at t) +:+ (
    put (nr_state t) +:+ (put (nr_result_classification t) +:+ (
    put (nr_evidence t) +:+ (put (nr_remaining_trigger t) +:+ (
    put (nr_next_lawful_action t) +:+ (put (nr_human_questions t) +:+ (
    put (nr_extensions t)))))))))))));
  get s :=
    '(x0, s) ← get s; '(x1, s) ← get s; '(x2, s) ← get s; '(x3, s) ← get s;
    '(x4, s) ← get s; '(x5, s) ← get s; '(x6, s) ← get s; '(x7, s) ← get s;
    '(x8, s) ← get s; '(x9, s) ← get s; '(x10, s) ← get s; '(x11, s) ← get s;
    '(x12, s) ← get s;
    Some ({| nr_schema := x0; nr_receipt_digest := x1; nr_packet_digest := x2;
      nr_run_id := x3; nr_work_item_id := x4; nr_recorded_at := x5; nr_state := x6;
      nr_result_classification := x7; nr_evidence := x8; nr_remaining_trigger := x9;
      nr_next_lawful_action := x10; nr_human_questions := x11;
      nr_extensions := x12 |}, s) |}.
#[global] Instance NotStartedReceiptV1_wire_ok : WireOk NotStartedReceiptV1.
Proof. wire_record NotStartedReceiptV1_wire. Qed.

#[global] Instance AcceptedOutcomeV1_wire : Wire AcceptedOutcomeV1 := {|
  put t :=
    put (ao_state t) +:+ (put (ao_result_classification t) +:+ (
    put (ao_receipt_digest t)));
  get s :=
    '(x0, s) ← get s; '(x1, s) ← get s; '(x2, s) ← get s;
    Some ({| ao_state := x0; ao_result_classification := x1;
      ao_receipt_digest := x2 |}, s) |}.
#[global] Instance AcceptedOutcomeV1_wire_ok : WireOk AcceptedOutcomeV1.
Proof. wire_record AcceptedOutcomeV1_wire. Qed.

#[global] Instance FinalWorkItem_wire : Wire FinalWorkItem := {|
  put t :=
    put (fw_id t) +:+ (put (fw_state t) +:+ (put (fw_result_classification t) +:+ (
    put (fw_repositories t) +:+ (put (fw_tests t) +:+ (put (fw_evidence t) +:+ (
    put (fw_live_or_production_mutations t) +:+ (put (fw_remaining_trigger t) +:+ (
    put (fw_next_lawful_action t)))))))));
  get s :=
    '(x0, s) ← get s; '(x1, s) ← get s; '(x2, s) ← get s; '(x3, s) ← get s;
    '(x4, s) ← get s; '(x5, s) ← get s; '(x6, s) ← get s; '(x7, s) ← get s;
    '(x8, s) ← get s;
    Some ({| fw_id := x0; fw_state := x1; fw_result_classification := x2;
      fw_repositories := x3; fw_tests := x4; fw_evidence := x5;
      fw_live_or_production_mutations := x6; fw_remaining_trigger := x7;
      fw_next_lawful_action := x8 |}, s) |}.
#[global] Instance FinalWorkItem_wire_ok : WireOk FinalWorkItem.
Proof. wire_record FinalWorkItem_wire. Qed.

#[global] Instance FinalQuestion_wire : Wire FinalQuestion := {|
  put t :=
    put (fq_work_item t) +:+ (put (fq_exact_question t) +:+ (
    put (fq_evidence_exhausted t) +:+ (put (fq_safe_default t) +:+ (
    put (fq_consequences t) +:+ (put (fq_resume_point t))))));
  get s :=
    '(x0, s) ← get s; '(x1, s) ← get s; '(x2, s) ← get s; '(x3, s) ← get s;
    '(x4, s) ← get s; '(x5, s) ← get s;
    Some ({| fq_work_item := x0; fq_exact_question := x1; fq_evidence_exhausted := x2;
      fq_safe_default := x3; fq_consequences := x4; fq_resume_point := x5 |}, s) |}.
#[global] Instance FinalQuestion_wire_ok : WireOk FinalQuestion.
Proof. wire_record FinalQuestion_wire. Qed.

#[global] Instance FinalCustody_wire : Wire FinalCustody := {|
  put t :=
    put (fc_repository t) +:+ (put (fc_branch_head t) +:+ (put (fc_push_custody t) +:+ (
    put (fc_dirty t) +:+ (put (fc_live_runtime t) +:+ (put (fc_secrets t) +:+ (
    put (fc_teardown t)))))));
  get s :=
    '(x0, s) ← get s; '(x1, s) ← get s; '(x2, s) ← get s; '(x3, s) ← get s;
    '(x4, s) ← get s; '(x5, s) ← get s; '(x6, s) ← get s;
    Some ({| fc_repository := x0; fc_branch_head := x1; fc_push_custody := x2;
      fc_dirty := x3; fc_live_runtime := x4; fc_secrets := x5;
      fc_teardown := x6 |}, s) |}.
#[global] Instance FinalCustody_wire_ok : WireOk FinalCustody.
Proof. wire_record FinalCustody_wire. Qed.

#[global] Instance FinalReceiptDocument_wire : Wire FinalReceiptDocument := {|
  put t :=
    put (fd_schema t) +:+ (put (fd_packet_digest t) +:+ (put (fd_updated_at t) +:+ (
    put (fd_work_items t) +:+ (put (fd_human_questions t) +:+ (
    put (fd_repository_custody t))))));
  get s :=
    '(x0, s) ← get s; '(x1, s) ← get s; '(x2, s) ← get s; '(x3, s) ← get s;
    '(x4, s) ← get s; '(x5, s) ← get s;
    Some ({| fd_schema := x0; fd_packet_digest := x1; fd_updated_at := x2;
      fd_work_items := x3; fd_human_questions := x4;
      fd_repository_custody := x5 |}, s) |}.
#[global] Instance FinalReceiptDocument_wire_ok : WireOk FinalReceiptDocument.
Proof. wire_record FinalReceiptDocument_wire. Qed.

(** ** Serde instances *)

(** A type the witnesses never serialize. *)
Definition no_serde (T : Type) : Serde T := {|
  to_value _ := Err "not serialized"; from_value _ := Err "not serialized";
  to_vec _ := Err "not serialized"; from_slice _ := Err "not serialized" |}.

Definition dependencies_serde : Serde (list string) := plain_serde (list string).
Definition execution_serde : Serde WorkItemExecutionV1 := plain_serde WorkItemExecutionV1.
Definition final_serde : Serde FinalReceiptDocument := plain_serde FinalReceiptDocument.
Definition admission_serde : Serde ForemanAdmissionV1 :=
  sealed_serde "admission_digest" fa_admission_digest set_admission_digest (fun _ => []).
Definition capacity_requirement_serde : Serde ForemanCapacityRequirementV1 :=
  sealed_serde "capacity_requirement_digest" cr_capacity_requirement_digest
    set_capacity_requirement_digest (fun _ => []).
Definition profile_serde : Serde ExecutionProfileV2 :=
  sealed_serde "profile_digest" ep_profile_digest set_profile_digest (fun _ => []).
Definition start_serde : Serde WorkerStartRequestV2 :=
  sealed_serde "request_digest" sr_request_digest set_request_digest (fun _ => []).
Definition adapter_event_serde : Serde AdapterEventV1 :=
  sealed_serde "event_digest" ae_event_digest set_event_digest (fun _ => []).
Definition terminal_serde : Serde TerminalReceiptV1 :=
  sealed_serde "receipt_digest" tr_receipt_digest set_terminal_receipt_digest
    (fun r => [("started_at", Str (put (tr_started_at r)));
               ("ended_at", Str (put (tr_ended_at r)))]).
Definition not_started_serde : Serde NotStartedReceiptV1 :=
  sealed_serde "receipt_digest" nr_receipt_digest set_not_started_receipt_digest
    (fun r => [("recorded_at", Str (put (nr_recorded_at r)))]).

(** The brief keeps its JSON shape: the store writes it from a [Value]. *)
Definition str_field (v : value) (field : string) : option string :=
  value_get v field ≫= as_str.

Definition brief_document (b : WorkerBriefV2) : value :=
  Object
    [("execution", Object [("canonical_json", Str (rj_canonical_json (bf_execution b)));
                           ("contract", Str (rj_contract (bf_execution b)))]);
     ("global_constraints",
        Object [("canonical_json", Str (rj_canonical_json (bf_global_constraints b)));
                ("contract", Str (rj_contract (bf_global_constraints b)))]);
     ("packet_digest", Str (bf_packet_digest b));
     ("packet_source",
        Object [("bytes_hex", Str (rr_bytes_hex (bf_packet_source b)));
                ("encoding", Str (rr_encoding (bf_packet_source b)));
                ("retained_raw_digest", Str (rr_retained_raw_digest (bf_packet_source b)))]);
     ("predecessor_receipts",
        Object ((fun '(k, r) =>
          (k, Object [("bytes_hex", Str (rp_bytes_hex r)); ("encoding", Str (rp_encoding r));
                      ("receipt_kind", Str (rp_receipt_kind r));
                      ("retained_raw_digest", Str (rp_retained_raw_digest r))]))
          <$> btree_iter (bf_predecessor_receipts b)));
     ("schema", Str (bf_schema b));
     ("work_item", Object [("canonical_json", Str (rj_canonical_json (bf_work_item b)));
                           ("contract", Str (rj_contract (bf_work_item b)))])].

Definition read_recognized (v : value) : option RecognizedContractJsonV1 :=
  c ← str_field v "contract"; j ← str_field v "canonical_json";
  Some {| rj_contract := c; rj_canonical_json := j |}.
Definition read_retained (v : value) : option RetainedRawBytesV1 :=
  d ← str_field v "retained_raw_digest"; e ← str_field v "encoding"; h ← str_field v "bytes_hex";
  Some {| rr_retained_raw_digest := d; rr_encoding := e; rr_bytes_hex := h |}.
Definition read_predecessor (v : value) : option RetainedPredecessorReceiptV1 :=
  k ← str_field v "receipt_kind"; r ← read_retained v;
  Some {| rp_receipt_kind := k; rp_retained_raw_digest := rr_retained_raw_digest r;
          rp_encoding := rr_encoding r; rp_bytes_hex := rr_bytes_hex r |}.

Definition brief_read (v : value) : result string WorkerBriefV2 :=
  ok_or
    (schema ← str_field v "schema"; d ← str_field v "packet_digest";
     source ← value_get v "packet_source" ≫= read_retained;
     item ← value_get v "work_item" ≫= read_recognized;
     constraints ← value_get v "global_constraints" ≫= read_recognized;
     execution ← value_get v "execution" ≫= read_recognized;
     predecessors ← match value_get v "predecessor_receipts" with
       | Some (Object kvs) => mapM (fun kv => r ← read_predecessor kv.2; Some (kv.1, r)) kvs
       | _ => None
       end;
     Some {| bf_schema := schema; bf_packet_digest := d; bf_packet_source := source;
             bf_work_item := item;
             bf_predecessor_receipts := list_to_map (predecessors : list (string * _));
             bf_global_constraints := constraints; bf_execution := execution |}) "brief".

Definition brief_serde : Serde WorkerBriefV2 := {|
  to_value b := Ok (brief_document b);
  from_value := brief_read;
  to_vec b := Ok (render (brief_document b));
  from_slice s := rbind (parse_value s) brief_read |}.

(** ** Journal events *)

Definition put_payload (p : InternalPayload) : option string :=
  match p with
  | RunAdmitted => Some "a"
  | AttemptCreated keys start => Some (String "b" (put (keys, start)))
  | DispatchRequested => Some "c"
  | ResumeRequested => Some "d"
  | TerminalAccepted outcome => Some (String "e" (put outcome))
  | TerminalRefused reason => Some (String "f" (put reason))
  | NotStartedAccepted outcome => Some (String "g" (put outcome))
  | ResourcesReleased => Some "h"
  | RunClosed digest => Some (String "i" (put digest))
  | CapacityRequirementAdmitted requirement bytes => Some (String "j" (put (requirement, bytes)))
  | ExecutionAvailabilityConfigured requirement b1 policy b2 =>
      Some (String "k" (put (requirement, b1, policy, b2)))
  | ProviderDispatchOpened start b1 dispatch b2 =>
      Some (String "l" (put (start, b1, dispatch, b2)))
  | ProviderDispositionRecorded observation b1 disposition b2 deferred b3 reconciles =>
      Some (String "m" (put (observation, b1, disposition, b2, deferred, b3, reconciles)))
  | ProviderWakeOpened wake deferred next => Some (String "n" (put (wake, deferred, next)))
  | ProviderExecutionResumeRequested resume disposition process execution =>
      Some (String "o" (put (resume, disposition, process, execution)))
  | ProviderResourcesReleased disposition dispatch policy keys =>
      Some (String "p" (put (disposition, dispatch, policy, keys)))
  | ProviderResourcesReacquired wake deferred next policy keys =>
      Some (String "q" (put (wake, deferred, next, policy, keys)))
  | _ => None
  end.
Definition get_payload (s : string) : option (InternalPayload * string) :=
  match s with
  | String "a" s => Some (RunAdmitted, s)
  | String "b" s =>
      '(x, s) ← (get s : option ((list string * WorkerStartRequestV2) * string));
      Some (AttemptCreated x.1 x.2, s)
  | String "c" s => Some (DispatchRequested, s)
  | String "d" s => Some (ResumeRequested, s)
  | String "e" s => '(x, s) ← get s; Some (TerminalAccepted x, s)
  | String "f" s => '(x, s) ← get s; Some (TerminalRefused x, s)
  | String "g" s => '(x, s) ← get s; Some (NotStartedAccepted x, s)
  | String "h" s => Some (ResourcesReleased, s)
  | String "i" s => '(x, s) ← get s; Some (RunClosed x, s)
  | String "j" s =>
      '(x, s) ← (get s : option ((ForemanCapacityRequirementV1 * string) * string));
      Some (CapacityRequirementAdmitted x.1 x.2, s)
  | String "k" s =>
      '((x1, x2, x3, x4), s) ← (get s : option ((ForemanExecutionAvailabilityRequirementV1
          * string * ExecutionAvailabilityPolicyV1 * string) * string));
      Some (ExecutionAvailabilityConfigured x1 x2 x3 x4, s)
  | String "l" s =>
      '((x1, x2, x3, x4), s) ← (get s : option ((WorkerStartRequestV3 * string
          * ProviderDispatchOccurrenceV1 * string) * string));
      Some (ProviderDispatchOpened x1 x2 x3 x4, s)
  | String "m" s =>
      '((x1, x2, x3, x4, x5, x6, x7), s) ← (get s : option ((ExecutionAvailabilityObservationV1
          * string * ProviderAdmissionDispositionV1 * string
          * option DeferredProviderDispatchV1 * option string * option string) * string));
      Some (ProviderDispositionRecorded x1 x2 x3 x4 x5 x6 x7, s)
  | String "n" s =>
      '((x1, x2, x3), s) ← (get s : option ((string * string * string) * string));
      Some (ProviderWakeOpened x1 x2 x3, s)
  | String "o" s =>
      '((x1, x2, x3, x4), s) ← (get s : option ((string * string * string
          * ProviderExecutionIdentityV1) * string));
      Some (ProviderExecutionResumeRequested x1 x2 x3 x4, s)
  | String "p" s =>
      '((x1, x2, x3, x4), s) ← (get s : option ((string * string * string * list string)
          * string));
      Some (ProviderResourcesReleased x1 x2 x3 x4, s)
  | String "q" s =>
      '((x1, x2, x3, x4, x5), s) ← (get s : option ((string * string * string * string
          * list string) * string));
      Some (ProviderResourcesReacquired x1 x2 x3 x4 x5, s)
  | _ => None
  end.
Lemma get_put_payload p t r : put_payload p = Some t -> get_payload (t +:+ r) = Some (p, r).
Proof.
  destruct p; cbn [put_payload]; intros Hp; try discriminate Hp;
    apply Some_inj in Hp; subst t; rewrite ?str_cons_app; cbn [get_payload];
    rewrite ?get_put; done.
Qed.

Definition envelope (e : InternalEvent)
    : string * string * string * option string * option string * Z :=
  (ie_schema e, ie_event_id e, ie_run_id e, ie_work_item_id e, ie_attempt_id e,
   ie_recorded_at e).

Definition event_to_vec (e : InternalEvent) : result string string :=
  let? p := ok_or (put_payload (ie_payload e)) "not serialized" in
  Ok (put (envelope e) +:+ p).
Definition event_of_slice (s : string) : result string InternalEvent :=
  ok_or
    ('((x1, x2, x3, x4, x5, x6), s) ← (get s : option ((string * string * string
        * option string * option string * Z) * string));
     match get_payload s with
     | Some (p, "") =>
         Some {| ie_schema := x1; ie_event_id := x2; ie_run_id := x3; ie_work_item_id := x4;
                 ie_attempt_id := x5; ie_recorded_at := x6; ie_payload := p |}
     | _ => None
     end) "event".

Definition event_serde : Serde InternalEvent := {|
  to_value _ := Err "not used"; from_value _ := Err "not used";
  to_vec := event_to_vec; from_slice := event_of_slice |}.

Lemma event_serde_ok : @SerdeOk InternalEvent event_serde.
Proof.
  intros e b Hb. change (event_to_vec e = Ok b) in Hb.
  change (event_of_slice b = Ok e). unfold event_to_vec in Hb. inv_ok Hb.
  apply ok_or_ok in Hok. subst b. unfold event_of_slice. rewrite get_put. cbn [mbind option_bind].
  unfold envelope. rewrite <- (string_app_nil x), (get_put_payload _ _ _ Hok). by destruct e.
Qed.

(** ** The instance *)

#[global] Instance concrete_documents : Documents := {|
  doc_host := concrete_host;
  doc_value := value_serde;
  doc_packet := packet_serde;
  doc_work_item := WorkItemV1_serde;
  doc_dependencies := dependencies_serde;
  doc_constraints := GlobalConstraintsV1_serde;
  doc_capacity_observation := observation_serde;
  doc_capacity_policy := policy_serde;
  doc_capacity_decision := decision_serde;
  doc_admission := admission_serde;
  doc_capacity_requirement := capacity_requirement_serde;
  doc_capacity_admission := no_serde _;
  doc_profile := profile_serde;
  doc_execution := execution_serde;
  doc_start := start_serde;
  doc_brief := brief_serde;
  doc_adapter_event := adapter_event_serde;
  doc_terminal := terminal_serde;
  doc_not_started := not_started_serde;
  doc_availability_observation := availability_observation_serde;
  doc_availability_policy := availability_policy_serde;
  doc_availability_requirement := availability_requirement_serde;
  doc_start_v3 := start_v3_serde;
  doc_dispatch := dispatch_serde;
  doc_disposition := disposition_serde;
  doc_deferred := deferred_serde;
  doc_exact_evidence := exact_evidence_serde;
  doc_execution_identity := execution_identity_serde;
  doc_qualification_v1 := qualification_v1_serde;
  doc_qualification_v2 := qualification_v2_serde;
  doc_closure := no_serde _;
  doc_bootstrap := no_serde _;
  doc_event := event_serde;
  doc_final := final_serde |}.

(** No provider evidence: the legacy runs of the witnesses never ask. *)
#[global] Instance no_provider_evidence : ProviderEvidence := {|
  validate_switchyard_snapshot_complete _ _ := Err (InvalidField "snapshot");
  validate_vendored_switchyard_schema _ _ := Err (InvalidField "schema");
  bounded_turn_echo_validate_snapshot _ _ := Err (InvalidField "echo") |}.

#[global] Instance concrete_event_ok : SerdeOk InternalEvent := event_serde_ok.

Lemma concrete_event_nonempty (e : InternalEvent) b : to_vec e = Ok b -> b <> "".
Proof.
  change (event_to_vec e = Ok b -> b <> ""). unfold event_to_vec. intros H. inv_ok H. subst b.
  unfold envelope. cbn. by destruct (strlen (ie_schema e)).
Qed.
