(* ===== verification/StoreWitnesses.v ===== *)
(** * A sample run of the store

    The sample packet admitted, its first item run to a terminal receipt, its
    second closed as not started, and the run closed: concrete stores, each the result of
    one operation.  The store's theorems are applied to the run, from its admission to its
    closing. *)
From S2P Require Import Prelude Text External Packet PacketFacts Capacity Contract.
From S2P Require Import Availability Scheduler Prelaunch Bootstrap Evidence Graph Journal.
From S2P Require Import Requirements History Store Codec ConcreteRecords.
From S2P Require Import ConcreteDocuments SchedulerFacts Provider StoreFacts Isolation.
From S2P Require Import Lifecycle Claims Attempts Workers RunProperties.
Local Open Scope string_scope.

(** ** The contracts *)

Definition draft_admission (run : string) : ForemanAdmissionV1 :=
  {| fa_schema := FOREMAN_ADMISSION_SCHEMA_V1; fa_admission_digest := zeros;
     fa_run_id := run; fa_packet_digest := pk_packet_digest sample_packet;
     fa_operator_basis_digest := zeros; fa_admitted_at := 1000; fa_expires_at := 9000;
     fa_local_runtime_identity := "runtime"; fa_maximum_concurrent_workers := 1;
     fa_allowed_adapter_ids := ["adapter"]; fa_allowed_provider_model_classes := ["small"];
     fa_maximum_new_attempts_per_work_item := 1;
     fa_authority_effect := "LOCAL_AGENT_COMPUTE_SCHEDULING_ONLY";
     fa_target_effects_authorized := false |}.
Definition sealed_admission (run : string) : ForemanAdmissionV1 :=
  or_else (admission_seal (draft_admission run)) (draft_admission run).

Definition lane (lock : string) : WorkItemExecutionV1 :=
  {| wx_adapter_id := "adapter"; wx_workspace_identity := "workspace";
     wx_resource_lock_keys := [lock]; wx_provider_model_class := "small" |}.

Definition draft_run_profile (run : string) : ExecutionProfileV2 :=
  {| ep_schema := FOREMAN_EXECUTION_PROFILE_SCHEMA_V2; ep_profile_digest := zeros;
     ep_packet_digest := pk_packet_digest sample_packet;
     ep_admission_digest := fa_admission_digest (sealed_admission run);
     ep_adapters := {["adapter" :=
       {| ar_adapter_id := "adapter"; ar_protocol := "protocol"; ar_adapter_version := "1";
          ar_executable_identity := zeros; ar_bounded_arguments := [] |}]};
     ep_work_items := <["base" := lane "repo"]> {["top" := lane "repo"]};
     ep_budget_policy_ref := "budget"; ep_log_custody_root := "/log";
     ep_receipt_custody_root := "/receipts"; ep_maximum_event_bytes := 1048576;
     ep_maximum_worker_output_bytes := None; ep_maximum_receipt_bytes := 1048576;
     ep_adapter_timeout_seconds := 60;
     ep_closeout_policy := "ALL_EXPLICIT_TERMINAL_OR_NOT_STARTED" |}.
Definition sealed_profile (run : string) : ExecutionProfileV2 :=
  or_else (profile_seal (draft_run_profile run)) (draft_run_profile run).

Definition bytes_of {T} `{Serde T} (t : T) : string := or_else (to_vec t) "".

(** ** The stores *)

Definition store_after {A} (m : result ForemanError (A * Store)) : Store :=
  match m with Ok (_, s) => s | Err _ => empty_store end.
Definition store_of (m : result ForemanError Store) : Store :=
  match m with Ok s => s | Err _ => empty_store end.

Definition admission_uuids : AdmissionUuids :=
  {| au_run_admitted := "u1"; au_capacity_required := "u2";
     au_execution_availability_required := "u3" |}.
Definition admitted (run : string) (s : Store) : result ForemanError (string * Store) :=
  admit_run (bytes_of sample_packet) (bytes_of (sealed_admission run))
    (bytes_of (sealed_profile run)) 1500 admission_uuids s.

Definition admitted_store : Store := Eval vm_compute in store_after (admitted "run" empty_store).

Definition attempt_uuids : AttemptUuids :=
  {| tu_attempt := "u4"; tu_capacity_admitted := "u5"; tu_attempt_created := "u6" |}.
Definition prepare_base (s : Store)
    : result ForemanError (WorkerStartRequestV2 * option OpenedProviderDispatchV1 * Store) :=
  prepare_attempt_internal "run" "base" 1600 None None attempt_uuids s.

Definition prepared_store : Store := Eval vm_compute in store_after (prepare_base admitted_store).

Definition dispatched_store : Store := Eval vm_compute in
  store_of (record_dispatch_requested "run" "base" "attempt-u4" 1700 "u7" prepared_store).

Definition draft_adapter_event : AdapterEventV1 :=
  {| ae_schema := WORKER_ADAPTER_EVENT_SCHEMA_V1; ae_event_digest := zeros;
     ae_event_id := "started"; ae_packet_digest := pk_packet_digest sample_packet;
     ae_run_id := "run"; ae_work_item_id := "base"; ae_attempt_id := "attempt-u4";
     ae_adapter_id := "adapter"; ae_adapter_version := "1"; ae_occurred_at := 1750;
     ae_kind := WorkerStarted; ae_provider_identity := Some "provider";
     ae_model_identity := Some "model"; ae_session_identity := None; ae_thread_identity := None;
     ae_turn_identity := None; ae_queue_identity := None; ae_message := None;
     ae_human_question := None; ae_extensions := ∅ |}.
Definition adapter_event : string := Eval vm_compute in
  bytes_of (or_else (event_seal draft_adapter_event) draft_adapter_event).
Definition running_store : Store := Eval vm_compute in
  store_of (accept_adapter_event adapter_event dispatched_store).

Definition draft_terminal : TerminalReceiptV1 :=
  {| tr_schema := WORKER_TERMINAL_RECEIPT_SCHEMA_V1; tr_receipt_digest := zeros;
     tr_packet_digest := pk_packet_digest sample_packet; tr_run_id := "run";
     tr_work_item_id := "base"; tr_attempt_id := "attempt-u4"; tr_adapter_id := "adapter";
     tr_adapter_version := "1"; tr_provider_identity := "provider";
     tr_model_identity := "model"; tr_session_identity := None; tr_thread_identity := None;
     tr_turn_identity := None; tr_queue_identity := None; tr_started_at := 1750;
     tr_ended_at := 1800; tr_state := "DONE"; tr_result_classification := "PASS";
     tr_repositories := [{| rx_repository := "repo"; rx_branch := "main";
                            rx_head := sample_commit; rx_push_status := "not pushed" |}];
     tr_tests := ["cargo test"]; tr_evidence := ["log"];
     tr_live_or_production_mutations := []; tr_remaining_trigger := "none";
     tr_next_lawful_action := "review"; tr_human_questions := [];
     tr_teardown := {| td_live_runtime := "none"; td_secrets := "none"; td_teardown := "done" |};
     tr_extensions := ∅ |}.
Definition terminal_receipt : string := Eval vm_compute in
  bytes_of (or_else (terminal_seal draft_terminal) draft_terminal).
Definition receipt_uuids : ReceiptUuids := {| ru_accepted := "u8"; ru_released := "u9" |}.
Definition received_store : Store := Eval vm_compute in
  store_of (accept_terminal_receipt terminal_receipt receipt_uuids running_store).

Definition draft_not_started : NotStartedReceiptV1 :=
  {| nr_schema := WORK_ITEM_NOT_STARTED_RECEIPT_SCHEMA_V1; nr_receipt_digest := zeros;
     nr_packet_digest := pk_packet_digest sample_packet; nr_run_id := "run";
     nr_work_item_id := "top"; nr_recorded_at := 1900; nr_state := "NOT_STARTED";
     nr_result_classification := "DEFERRED"; nr_evidence := [];
     nr_remaining_trigger := "operator"; nr_next_lawful_action := "review";
     nr_human_questions := []; nr_extensions := ∅ |}.
Definition not_started_receipt : string := Eval vm_compute in
  bytes_of (or_else (not_started_seal draft_not_started) draft_not_started).
Definition finished_store : Store := Eval vm_compute in
  store_of (accept_not_started not_started_receipt "u10" received_store).

Definition closed_store : Store := Eval vm_compute in
  store_after (close "run" 2000 "u11" finished_store).


(** ** The sample stores are reachable *)

Lemma after_step {A} (m : result ForemanError (A * Store)) s' (P : Store -> Prop) :
  is_ok m = true -> store_after m = s' -> (forall x s, m = Ok (x, s) -> P s) -> P s'.
Proof. destruct m as [[x s]|e]; [|done]. simpl. intros _ <- H. by eapply H. Qed.

Lemma of_step (m : result ForemanError Store) s' (P : Store -> Prop) :
  is_ok m = true -> store_of m = s' -> (forall s, m = Ok s -> P s) -> P s'.
Proof. destruct m as [s|e]; [|done]. simpl. intros _ <- H. by apply H. Qed.

Ltac by_run := vm_compute; reflexivity.

Lemma admitted_step : step "run" empty_store admitted_store.
Proof.
  assert (admitted "run" empty_store = Ok ("run", admitted_store)) as H by by_run.
  unfold admitted, admit_run in H. by apply step_admit in H.
Qed.
Lemma prepared_step : step "run" admitted_store prepared_store.
Proof.
  apply (after_step (prepare_base admitted_store)); [by_run|by_run|].
  intros x s. apply step_prepare.
Qed.
Lemma dispatched_step : step "run" prepared_store dispatched_store.
Proof.
  eapply (of_step (record_dispatch_requested "run" "base" "attempt-u4" 1700 "u7" prepared_store));
    [by_run|by_run|]. intros s. apply step_dispatch_requested.
Qed.

(** The records the sample bytes parse to. *)
Definition the_event : AdapterEventV1 := or_else (event_seal draft_adapter_event) draft_adapter_event.
Definition the_terminal : TerminalReceiptV1 := or_else (terminal_seal draft_terminal) draft_terminal.
Definition the_not_started : NotStartedReceiptV1 :=
  or_else (not_started_seal draft_not_started) draft_not_started.
Lemma the_event_parsed : event_from_slice adapter_event = Ok the_event.
Proof. by_run. Qed.
Lemma the_terminal_parsed : terminal_from_slice terminal_receipt = Ok the_terminal.
Proof. by_run. Qed.
Lemma the_not_started_parsed : not_started_from_slice not_started_receipt = Ok the_not_started.
Proof. by_run. Qed.
Lemma running_accepted : accept_adapter_event adapter_event dispatched_store = Ok running_store.
Proof. by_run. Qed.
Lemma received_accepted :
  accept_terminal_receipt terminal_receipt receipt_uuids running_store = Ok received_store.
Proof. by_run. Qed.

Lemma running_step : step "run" dispatched_store running_store.
Proof. exact (step_adapter_event _ _ _ _ the_event_parsed running_accepted). Qed.
Lemma received_step : step "run" running_store received_store.
Proof. exact (step_terminal_receipt _ _ _ _ _ the_terminal_parsed received_accepted). Qed.
Lemma finished_step : step "run" received_store finished_store.
Proof.
  assert (accept_not_started not_started_receipt "u10" received_store = Ok finished_store) as H
    by by_run.
  exact (step_not_started _ _ _ _ _ the_not_started_parsed H).
Qed.
Lemma closed_step_run : step "run" finished_store closed_store.
Proof.
  apply (after_step (close "run" 2000 "u11" finished_store)); [by_run|by_run|].
  intros x s. apply step_close.
Qed.

Lemma running_reachable : reachable running_store.
Proof.
  repeat (eapply reachable_step;
    [|first [exact running_step|exact dispatched_step|exact prepared_step|exact admitted_step]]).
  constructor.
Qed.
Lemma closed_reachable : reachable closed_store.
Proof.
  repeat (eapply reachable_step;
    [|first [exact closed_step_run|exact finished_step|exact received_step]]).
  exact running_reachable.
Qed.

(** A second run admitted beside the first. *)
Definition second_store : Store := Eval vm_compute in store_after (admitted "second" closed_store).
Lemma second_step : step "second" closed_store second_store.
Proof.
  assert (admitted "second" closed_store = Ok ("second", second_store)) as H by by_run.
  unfold admitted, admit_run in H. by apply step_admit in H.
Qed.

(** ** Witnesses *)

Definition no_projection : LiveRunProjectionV1 :=
  {| lp_schema := ""; lp_run_id := ""; lp_packet_id := ""; lp_packet_digest := "";
     lp_admission_digest := ""; lp_profile_digest := ""; lp_maximum_concurrent_workers := 0;
     lp_work_items := []; lp_resource_claims := []; lp_closed_final_receipts_digest := None;
     lp_authority_effect := "" |}.
Definition running_projection : LiveRunProjectionV1 :=
  Eval vm_compute in or_else (projection "run" running_store) no_projection.
Definition received_projection : LiveRunProjectionV1 :=
  Eval vm_compute in or_else (projection "run" received_store) no_projection.
Definition closed_projection : LiveRunProjectionV1 :=
  Eval vm_compute in or_else (projection "run" closed_store) no_projection.

Lemma claims_table_refines_journal_witness :
  claim_of "repo" "base" "attempt-u4" ∈ lp_resource_claims running_projection.
Proof.
  assert (projection "run" running_store = Ok running_projection) as Hp by by_run.
  refine (proj1 (proj1 (claims_table_refines_journal running_store "run" running_projection
    running_reachable Hp) "repo" "base" "attempt-u4") _). by_run.
Defined.

Lemma step_append_only_witness :
  st_runs closed_store ⊆ st_runs second_store /\ same_run "run" closed_store second_store.
Proof.
  destruct (step_append_only "second" closed_store second_store second_step) as [He Hs].
  split; [apply (ext_runs _ _ He)|apply Hs; discriminate].
Defined.

Lemma closed_run_frozen_witness :
  same_run "run" closed_store second_store.
Proof.
  refine (proj1 (closed_run_frozen closed_store second_store "run" closed_reachable _ _)).
  - apply (bool_decide_unpack _). by_run.
  - eapply rtc_l; [exists "second"; exact second_step|apply rtc_refl].
Defined.

Definition closed_journal : list ReplayEvent :=
  or_else (map_try replay_event (run_rows "run" closed_store)) [].
Lemma one_attempt_per_item_witness : NoDup (created_items closed_journal).
Proof.
  apply (one_attempt_per_item closed_store "run"); [exact closed_reachable|by_run].
Defined.

Lemma reachable_rows_witness : (st_last_sequence closed_store <= I64_MAX)%N.
Proof. exact (wf_last _ (reachable_rows closed_store closed_reachable)). Defined.

Definition closed_bytes : string := Eval vm_compute in
  match close "run" 2000 "u11" finished_store with Ok (raw, _) => raw | Err _ => "" end.
Lemma close_closes_witness : export_final "run" closed_store = Ok closed_bytes.
Proof.
  assert (close "run" 2000 "u11" finished_store = Ok (closed_bytes, closed_store)) as H by by_run.
  assert (st_finals finished_store !! "run" = None) as Hf by by_run.
  destruct (close_closes "run" 2000 "u11" finished_store closed_bytes closed_store Hf H)
    as (p & c & d & _ & _ & _ & _ & _ & _ & _ & _ & _ & _ & _ & _ & Hx & _).
  exact Hx.
Defined.

Definition request_of
    (m : result ForemanError (WorkerStartRequestV2 * option OpenedProviderDispatchV1 * Store))
    : option WorkerStartRequestV2 :=
  match m with Ok (q, _, _) => Some q | Err _ => None end.
Definition base_request : option WorkerStartRequestV2 := Eval vm_compute in
  request_of (prepare_base admitted_store).
Lemma prepare_attempt_guarded_witness :
  match base_request with
  | Some q => start_validate q = Ok tt /\ st_resource_claims admitted_store !! ("run", "repo") = None
  | None => False
  end.
Proof.
  unfold base_request.
  match goal with |- start_validate ?q = _ /\ _ =>
    assert (prepare_attempt_internal "run" "base" 1600 None None attempt_uuids admitted_store
            = Ok (q, None, prepared_store)) as H by by_run;
    destruct (prepare_attempt_guarded "run" "base" 1600 None attempt_uuids admitted_store
      q None prepared_store H)
      as (p & item & c & execution & _ & _ & _ & _ & _ & _ & _ & _ & Hv & _)
  end.
  split; [exact Hv|by_run].
Defined.

Lemma terminal_receipt_releases_witness :
  raw_terminal_receipt "run" "base" received_store = Ok terminal_receipt /\
  st_resource_claims received_store !! ("run", "repo") = None.
Proof.
  destruct (terminal_receipt_releases (DOC := concrete_documents) terminal_receipt the_terminal receipt_uuids running_store
    received_store the_terminal_parsed received_accepted) as (_ & _ & _ & Hr & Hc).
  split; [exact Hr|]. rewrite (Hc "run" "repo"). by_run.
Defined.

Lemma adapter_event_keeps_identities_witness :
  event_exists "run" "started" dispatched_store = false /\
  event_exists "run" "started" running_store = true.
Proof.
  destruct (adapter_event_keeps_identities (DOC := concrete_documents) adapter_event the_event dispatched_store running_store
    the_event_parsed running_accepted) as (_ & _ & _ & H1 & H2 & _).
  split; [exact H1|exact H2].
Defined.

Definition base_receipt : ReceiptRow :=
  {| rt_attempt_id := Some "attempt-u4"; rt_receipt_digest := tr_receipt_digest the_terminal;
     rt_raw_bytes := terminal_receipt; rt_receipt_kind := "terminal" |}.
Lemma receipts_are_final_witness :
  raw_terminal_receipt "run" "base" closed_store = Ok terminal_receipt.
Proof.
  assert (st_receipts received_store !! ("run", "base") = Some base_receipt) as H by by_run.
  refine (proj1 (receipts_are_final received_store closed_store "run" "base" base_receipt H _)).
  eapply rtc_l; [exists "run"; exact finished_step|].
  eapply rtc_l; [exists "run"; exact closed_step_run|apply rtc_refl].
Defined.

Definition sample_requirement_event : InternalEvent :=
  internal_event "capacity-required-u2" "run" None None 1500
    (CapacityRequirementAdmitted
       {| cr_schema := FOREMAN_CAPACITY_REQUIREMENT_SCHEMA_V1;
          cr_capacity_requirement_digest := zeros; cr_packet_digest := zeros;
          cr_admission_digest := zeros; cr_profile_digest := zeros; cr_run_id := "run";
          cr_policy_id := "policy"; cr_provider_id := "provider";
          cr_model_cost_classes := {["small" := Cheap]};
          cr_authority_effect := "LOCAL_AGENT_COMPUTE_SCHEDULING_ONLY" |} "bytes").
Definition required_store : Store := Eval vm_compute in
  store_of (append_internal_bounded sample_requirement_event 1048576 3 admitted_store).
Lemma capacity_append_bounded_witness :
  is_ok (validate_capacity_history_size "run" 1048576 3 required_store) = true.
Proof.
  assert (append_internal_bounded sample_requirement_event 1048576 3 admitted_store
          = Ok required_store) as H by by_run.
  destruct (capacity_append_bounded sample_requirement_event 1048576 3 admitted_store
    required_store concrete_event_nonempty H) as (total & count & Hv & _).
  change (ie_run_id sample_requirement_event) with "run" in Hv. by rewrite Hv.
Defined.

Lemma run_progress_witness :
  load_projection "run" running_store = Ok running_projection /\
  (complete running_projection \/ exists i, i ∈ lp_work_items running_projection /\
    (li_scheduler_state i = ReadyEntryEvaluation \/
     (is_explicit_terminal (li_scheduler_state i) = false /\
      (is_Some (li_active_attempt_id i) \/ li_scheduler_state i = TerminalReceiptRefused \/
       li_scheduler_state i = IndeterminateMechanismState)))).
Proof.
  assert (load_projection "run" running_store = Ok running_projection) as H by by_run.
  split; [exact H|]. exact (run_progress "run" running_store running_projection running_reachable H).
Defined.

(** The received item of the sample, in the projection where it is first terminal. *)
Definition received_item : option LiveWorkItemV1 :=
  Eval vm_compute in head (lp_work_items received_projection).
Lemma finished_items_frozen_witness :
  match received_item with
  | Some i => li_work_item_id i = "base" /\ exists i', i' ∈ lp_work_items closed_projection /\
      with_terminality ∅ i' = with_terminality ∅ i
  | None => False
  end.
Proof.
  unfold received_item. split; [reflexivity|].
  assert (load_projection "run" received_store = Ok received_projection) as H by by_run.
  assert (load_projection "run" closed_store = Ok closed_projection) as H' by by_run.
  refine (finished_items_frozen received_store closed_store "run" received_projection
    closed_projection _ _ H H' _ _); [|by left|reflexivity].
  eapply rtc_l; [exists "run"; exact finished_step|].
  eapply rtc_l; [exists "run"; exact closed_step_run|apply rtc_refl].
Defined.

Definition running_journal : list ReplayEvent :=
  or_else (map_try replay_event (run_rows "run" running_store)) [].
Lemma workers_within_limit_witness :
  active_workers ∅ running_projection = 1%N /\
  (active_workers ∅ running_projection <= lp_maximum_concurrent_workers running_projection)%N.
Proof.
  split; [by_run|].
  assert (match load_contracts "run" running_store with
          | Ok c => load_execution_availability_history (ct_packet c) (ct_admission c)
                      (ct_profile c) "run" running_store = Ok None
          | Err _ => False
          end) as H by by_run.
  destruct (load_contracts "run" running_store) as [c|e] eqn:Hc; [|destruct H].
  refine (workers_within_limit running_store "run" running_projection c None ∅ running_journal
    running_reachable _ Hc H eq_refl _ _).
  - by_run.
  - apply map_try_ok. by_run.
  - apply (bool_decide_unpack _). by_run.
Defined.
