(* ===== verification/Witnesses.v ===== *)
(** * Witnesses for packets, capacity and replay

    Each theorem with hypotheses applied to a concrete input on which they hold. *)
From S2P Require Import Prelude Text External Packet PacketFacts Capacity CapacityFacts.
From S2P Require Import Contract Availability Scheduler SchedulerFacts Codec ConcreteRecords.
From Stdlib Require Import SpecFloat.
Local Open Scope string_scope.

(** ** Packets *)

Definition sample_ids : gset string := list_to_set ["base"; "top"].

Lemma sample_items_distinct : NoDup (wi_id <$> sample_items).
Proof. by apply (bool_decide_unpack _). Qed.

Lemma validate_dag_correct_witness : acyclic sample_items.
Proof.
  apply (proj2 (validate_dag_correct sample_items sample_ids) sample_items_distinct).
  vm_compute. reflexivity.
Defined.

Definition cyclic_items : list WorkItemV1 :=
  [sample_item "base" "BASE" "base" ["top"]; sample_item "top" "TOP" "top" ["base"]].

Lemma validate_dag_cycle_witness : exists x, tc (depends_on cyclic_items) x x.
Proof.
  apply (validate_dag_cycle cyclic_items sample_ids).
  - by apply (bool_decide_unpack _).
  - vm_compute. reflexivity.
Defined.

Lemma seal_then_validate_witness :
  validate_integrity sample_packet = validate_dag sample_items (item_ids draft_packet) /\
  seal sample_packet = Ok sample_packet.
Proof.
  apply (seal_then_validate draft_packet sample_packet). vm_compute. reflexivity.
Defined.

(** ** Capacity *)

Definition half : spec_float := S754_finite false 4503599627370496 (-53).

Definition sample_window (ty : WindowType) : CapacityWindow :=
  {| cw_window_id := "w"; cw_window_type := ty; cw_remaining_fraction := Some half;
     cw_remaining_units := None; cw_resets_at := Some 100000%Z |}.

Definition draft_observation (disposition : ObservationDisposition) (reasons : list string)
    : CapacityObservationV1 :=
  {| co_schema := CAPACITY_OBSERVATION_SCHEMA_V1; co_provider_id := "provider";
     co_account_profile_locator := "account"; co_model_family := None;
     co_observed_at := 1000; co_expires_at := 2000; co_source_class := Observed;
     co_confidence := High; co_disposition := disposition; co_unknown_reasons := reasons;
     co_windows := [sample_window FiveHour; sample_window Weekly];
     co_evidence := {| oe_probe_id := "probe"; oe_protocol_method := "read";
                       oe_protocol_version := Some "1"; oe_executable_path := Some "/bin/codex";
                       oe_executable_digest := Some zeros; oe_raw_source_digest := zeros |};
     co_observation_digest := "" |}.

Definition seal_observation (o : CapacityObservationV1) : CapacityObservationV1 :=
  set_co_digest (or_else (observation_compute_digest o) "") o.

Definition usable_observation : CapacityObservationV1 :=
  Eval vm_compute in seal_observation (draft_observation Usable []).
Definition unknown_observation : CapacityObservationV1 :=
  Eval vm_compute in seal_observation (draft_observation DispositionUnknown ["rate limited"]).
Definition sample_policy : CapacityPolicyV1 := Eval vm_compute in
  match default_policy with
  | Ok p => p
  | Err _ => {| cy_schema := ""; cy_policy_id := ""; cy_abundant_min_remaining := half;
                cy_normal_min_remaining := half; cy_conserve_min_remaining := half;
                cy_minimum_confidence := Low; cy_required_window_types := [];
                cy_unknown_allows_new_cheap_work := false; cy_policy_digest := "" |}
  end.

Definition no_decision : CapacityDecisionV1 :=
  {| cd_schema := ""; cd_provider_id := ""; cd_decision_at := 0; cd_state := StateUnknown;
     cd_admission := NoNewWork; cd_allow_new_expensive_work := false;
     cd_allow_new_speculative_work := false; cd_allow_active_work_to_reach_custody := false;
     cd_reason_codes := []; cd_observation_digest := ""; cd_policy_digest := "";
     cd_decision_digest := "" |}.
Definition usable_decision : CapacityDecisionV1 :=
  Eval vm_compute in or_else (decide_capacity usable_observation sample_policy 1500) no_decision.
Definition unknown_decision : CapacityDecisionV1 :=
  Eval vm_compute in or_else (decide_capacity unknown_observation sample_policy 1500) no_decision.

Lemma decide_capacity_expensive_work_witness :
  measurable usable_observation sample_policy 1500.
Proof.
  refine (proj1 (proj1 (decide_capacity_expensive_work usable_observation sample_policy 1500
    usable_decision _) _)); vm_compute; reflexivity.
Defined.

(** The decision on an unknown observation whose reason is no token is refused by
    the decision's own validator. *)
Lemma decided_decision_validates_witness : decision_validate unknown_decision <> Ok tt.
Proof.
  intros Hv. assert (decide_capacity unknown_observation sample_policy 1500 = Ok unknown_decision)
    as Hd by (vm_compute; reflexivity).
  destruct (proj1 (decided_decision_validates _ _ _ _ Hd) Hv eq_refl) as [_ Htok].
  pose proof (Forall_inv Htok) as Hr. vm_compute in Hr. discriminate Hr.
Defined.

(** ** Replay *)

Definition sample_registration : AdapterRegistrationV2 :=
  {| ar_adapter_id := "adapter"; ar_protocol := "protocol"; ar_adapter_version := "1";
     ar_executable_identity := zeros; ar_bounded_arguments := [] |}.
Definition sample_execution (class : string) : WorkItemExecutionV1 :=
  {| wx_adapter_id := "adapter"; wx_workspace_identity := "workspace";
     wx_resource_lock_keys := ["repo"]; wx_provider_model_class := class |}.

Definition draft_profile : ExecutionProfileV2 :=
  {| ep_schema := FOREMAN_EXECUTION_PROFILE_SCHEMA_V2; ep_profile_digest := "";
     ep_packet_digest := pk_packet_digest sample_packet; ep_admission_digest := zeros;
     ep_adapters := {["adapter" := sample_registration]};
     ep_work_items := <["base" := sample_execution "small"]>
                        {["top" := sample_execution "small"]};
     ep_budget_policy_ref := "budget"; ep_log_custody_root := "/log";
     ep_receipt_custody_root := "/receipts"; ep_maximum_event_bytes := 1048576;
     ep_maximum_worker_output_bytes := None; ep_maximum_receipt_bytes := 1048576;
     ep_adapter_timeout_seconds := 60;
     ep_closeout_policy := "ALL_EXPLICIT_TERMINAL_OR_NOT_STARTED" |}.

Definition step (sequence : N) (item attempt : option string) (kind : ReplayKind) : ReplayEvent :=
  {| re_sequence := sequence; re_work_item_id := item; re_attempt_id := attempt;
     re_kind := kind; re_raw_digest := zeros |}.
Definition sample_events : list ReplayEvent :=
  [step 1 None None ReplayRunAdmitted;
   step 2 (Some "base") (Some "attempt-1") (ReplayAttemptCreated ["repo"]);
   step 3 (Some "base") (Some "attempt-1") ReplayDispatchRequested].

Definition no_projection : LiveRunProjectionV1 :=
  {| lp_schema := ""; lp_run_id := ""; lp_packet_id := ""; lp_packet_digest := "";
     lp_admission_digest := ""; lp_profile_digest := ""; lp_maximum_concurrent_workers := 0;
     lp_work_items := []; lp_resource_claims := []; lp_closed_final_receipts_digest := None;
     lp_authority_effect := "" |}.
Definition sample_replay (events : list ReplayEvent) : LiveRunProjectionV1 :=
  default no_projection (replay sample_packet "run" zeros draft_profile 2 events).
Definition finished_events : list ReplayEvent :=
  sample_events ++
  [step 4 (Some "base") (Some "attempt-1")
     (ReplayTerminalAccepted {| ao_state := "done"; ao_result_classification := "ok";
                                ao_receipt_digest := zeros |});
   step 5 (Some "base") (Some "attempt-1") ReplayResourcesReleased].

Definition item_at (k : nat) (p : LiveRunProjectionV1) : option LiveWorkItemV1 :=
  lp_work_items p !! k.

Lemma replay_items_witness :
  StronglySorted String.le (li_work_item_id <$> lp_work_items (sample_replay sample_events)).
Proof.
  apply (replay_items sample_packet "run" zeros draft_profile 2 sample_events).
  vm_compute. reflexivity.
Defined.

(** The first item is done and its lock is free, so the second is ready. *)
Lemma replay_ready_witness :
  exists i, item_at 1 (sample_replay finished_events) = Some i /\
    terminal_in (lp_work_items (sample_replay finished_events)) "base".
Proof.
  assert (replay sample_packet "run" zeros draft_profile 2 finished_events =
    Some (sample_replay finished_events)) as Hr by (vm_compute; reflexivity).
  destruct (item_at 1 (sample_replay finished_events)) as [i|] eqn:Hi;
    [|exfalso; vm_compute in Hi; discriminate Hi].
  exists i. split; [done|].
  destruct (replay_ready _ _ _ _ _ _ _ i Hr (list_elem_of_lookup_2 _ _ _ Hi)) as [Hready _].
  apply Hready; vm_compute in Hi; injection Hi as <-; [reflexivity|left].
Defined.

Lemma replay_dependency_terminality_witness :
  exists i, item_at 1 (sample_replay sample_events) = Some i /\
    ~ terminal_in (lp_work_items (sample_replay sample_events)) "base".
Proof.
  assert (replay sample_packet "run" zeros draft_profile 2 sample_events =
    Some (sample_replay sample_events)) as Hr by (vm_compute; reflexivity).
  destruct (item_at 1 (sample_replay sample_events)) as [i|] eqn:Hi;
    [|exfalso; vm_compute in Hi; discriminate Hi].
  exists i. split; [done|]. intros Ht.
  destruct (replay_dependency_terminality _ _ _ _ _ _ _ i "base" false Hr
              (list_elem_of_lookup_2 _ _ _ Hi)) as [Hb _].
  destruct Hb as [_ Hb]; [vm_compute in Hi; injection Hi as <-; vm_compute; reflexivity|].
  by apply Hb in Ht.
Defined.

Lemma replay_claims_witness : holds_after sample_events "repo" "base" "attempt-1".
Proof.
  refine (proj1 (proj1 (replay_claims sample_packet "run" zeros draft_profile 2 sample_events
    (sample_replay sample_events) "repo" "base" "attempt-1" _ _)) _).
  - vm_compute. reflexivity.
  - assert ("base" ∈ wi_id <$> pk_work_items sample_packet) as Hin by left.
    repeat (apply Forall_cons; split); [| | |constructor]; intros v Hv;
      first [discriminate Hv|by injection Hv as <-].
  - vm_compute. left.
Defined.
