(* ===== verification/ProviderWitnesses.v ===== *)
(** * A sample provider run

    The sample packet under an execution-availability requirement: its first item
    dispatched, refused by the qualification adapter, parked under the releasing
    policy, woken, and refused a second time.  Each store is the result of one operation.
    The graph's and the provider theorems are applied to it. *)
From S2P Require Import Prelude Text External Packet PacketFacts Capacity Contract.
From S2P Require Import Availability Scheduler Prelaunch Bootstrap Evidence Graph Journal.
From S2P Require Import Requirements History Store Provider Codec ConcreteRecords.
From S2P Require Import ConcreteProvider ConcreteDocuments GraphFacts.
From S2P Require Import ProviderFacts.
From S2P Require Import StoreWitnesses.
Local Open Scope string_scope.

Definition value_of {A} (m : result ForemanError (A * Store)) : option A :=
  match m with Ok (a, _) => Some a | Err _ => None end.

(** ** The contracts *)

Definition provider_admission_draft : ForemanAdmissionV1 :=
  {| fa_schema := FOREMAN_ADMISSION_SCHEMA_V1; fa_admission_digest := zeros;
     fa_run_id := "parked"; fa_packet_digest := pk_packet_digest sample_packet;
     fa_operator_basis_digest := zeros; fa_admitted_at := 1000; fa_expires_at := 9000;
     fa_local_runtime_identity := "runtime"; fa_maximum_concurrent_workers := 1;
     fa_allowed_adapter_ids := [HOLDING_QUALIFICATION_PRODUCER_ID];
     fa_allowed_provider_model_classes := ["small"];
     fa_maximum_new_attempts_per_work_item := 1;
     fa_authority_effect := "LOCAL_AGENT_COMPUTE_SCHEDULING_ONLY";
     fa_target_effects_authorized := false |}.
Definition provider_admission : ForemanAdmissionV1 := Eval vm_compute in
  or_else (admission_seal provider_admission_draft) provider_admission_draft.

Definition qualified_lane : WorkItemExecutionV1 :=
  {| wx_adapter_id := HOLDING_QUALIFICATION_PRODUCER_ID; wx_workspace_identity := "workspace";
     wx_resource_lock_keys := ["repo"]; wx_provider_model_class := "small" |}.

Definition provider_profile_draft : ExecutionProfileV2 :=
  {| ep_schema := FOREMAN_EXECUTION_PROFILE_SCHEMA_V2; ep_profile_digest := zeros;
     ep_packet_digest := pk_packet_digest sample_packet;
     ep_admission_digest := fa_admission_digest provider_admission;
     ep_adapters := {[HOLDING_QUALIFICATION_PRODUCER_ID :=
       {| ar_adapter_id := HOLDING_QUALIFICATION_PRODUCER_ID;
          ar_protocol := DETERMINISTIC_PROVIDER_ADMISSION_EVIDENCE_SCHEMA_V1;
          ar_adapter_version := HOLDING_QUALIFICATION_PRODUCER_VERSION;
          ar_executable_identity := HOLDING_QUALIFICATION_EXECUTABLE_SHA256;
          ar_bounded_arguments := [] |}]};
     ep_work_items := <["base" := qualified_lane]> {["top" := qualified_lane]};
     ep_budget_policy_ref := "budget"; ep_log_custody_root := "/log";
     ep_receipt_custody_root := "/receipts"; ep_maximum_event_bytes := 1048576;
     ep_maximum_worker_output_bytes := None; ep_maximum_receipt_bytes := 1048576;
     ep_adapter_timeout_seconds := 60;
     ep_closeout_policy := "ALL_EXPLICIT_TERMINAL_OR_NOT_STARTED" |}.
Definition provider_profile : ExecutionProfileV2 := Eval vm_compute in
  or_else (profile_seal provider_profile_draft) provider_profile_draft.

Definition sample_policy_draft : ExecutionAvailabilityPolicyV1 :=
  {| yp_schema := EXECUTION_AVAILABILITY_POLICY_SCHEMA_V1; yp_policy_digest := zeros;
     yp_policy_id := "policy"; yp_maximum_dispatch_occurrences_per_attempt := 3;
     yp_backoff_seconds := [5%N; 10%N]; yp_maximum_total_deferral_seconds := 60;
     yp_parked_resource_lock_policy := ReleaseAndReacquire;
     yp_provider_capacity_released_while_parked := true; yp_reconcile_indeterminate := true;
     yp_allow_ordered_model_fallback := false; yp_automatic_semantic_retry := false;
     yp_approval_response_authorized := false; yp_authority_effect := LOCAL_SCHEDULING_ONLY |}.
Definition sample_policy : ExecutionAvailabilityPolicyV1 := Eval vm_compute in
  or_else (availability_policy_seal sample_policy_draft) sample_policy_draft.

Definition sample_selection : ProviderModelSelectionV1 :=
  {| sl_provider_id := "provider"; sl_model_id := "model"; sl_model_class := "small" |}.
Definition sample_requirement_draft : ForemanExecutionAvailabilityRequirementV1 :=
  {| rq_schema := FOREMAN_EXECUTION_AVAILABILITY_REQUIREMENT_SCHEMA_V1;
     rq_requirement_digest := zeros; rq_packet_digest := pk_packet_digest sample_packet;
     rq_admission_digest := fa_admission_digest provider_admission;
     rq_profile_digest := ep_profile_digest provider_profile; rq_run_id := "parked";
     rq_adapter_id := HOLDING_QUALIFICATION_PRODUCER_ID;
     rq_adapter_protocol := DETERMINISTIC_PROVIDER_ADMISSION_EVIDENCE_SCHEMA_V1;
     rq_adapter_version := HOLDING_QUALIFICATION_PRODUCER_VERSION;
     rq_adapter_executable_identity := HOLDING_QUALIFICATION_EXECUTABLE_SHA256;
     rq_owner_pins := accepted; rq_policy_id := "policy";
     rq_policy_digest := yp_policy_digest sample_policy;
     rq_work_item_model_selections :=
       <["base" := [sample_selection]]> {["top" := [sample_selection]]};
     rq_admitted_at := 1000; rq_authority_effect := LOCAL_SCHEDULING_ONLY |}.
Definition sample_requirement : ForemanExecutionAvailabilityRequirementV1 :=
  Eval vm_compute in
  or_else (requirement_seal sample_requirement_draft) sample_requirement_draft.

(** ** The run admitted and its first item dispatched *)

Definition admit_parked (s : Store) : result ForemanError (string * Store) :=
  admit_with_execution_availability (bytes_of sample_packet) (bytes_of provider_admission)
    (bytes_of provider_profile) (bytes_of sample_requirement) (bytes_of sample_policy) 1000
    admission_uuids s.
Definition configured_store : Store := Eval vm_compute in
  store_after (admit_parked empty_store).

Definition first_preparation : ProviderDispatchPreparation :=
  {| pp_dispatch_occurrence_id := "dispatch-1"; pp_adapter_process_occurrence_id := "process-1";
     pp_app_server_session_identity := "session-1"; pp_selected_model_ordinal := 0 |}.
Definition open_first (s : Store) : result ForemanError (OpenedProviderDispatchV1 * Store) :=
  prepare_provider_attempt "parked" "base" first_preparation 1600 attempt_uuids s.
Definition first_opened : option OpenedProviderDispatchV1 := Eval vm_compute in
  value_of (open_first configured_store).
Definition opened_store : Store := Eval vm_compute in store_after (open_first configured_store).

(** ** A dispatch refused at an instant *)

Section refusals.
Context (dispatch : ProviderDispatchOccurrenceV1) (observed received : instant).

Definition raw_refusal : string :=
  or_else (to_vec (Object
    [("non_admission_proven", Bool true); ("observed_at", instant_value observed);
     ("outcome", outcome_v1_value OutcomeProviderUnavailable); ("response_created", Bool false);
     ("retry_after", Null)])) "".
Definition source_evidence : result ContractError ExactAvailabilityEvidenceV1 :=
  evidence_from_bytes "EXACT_PROVIDER_AVAILABILITY_SOURCE_BYTES" raw_refusal.

Definition refusal_draft (evidence : ExactAvailabilityEvidenceV1)
    : DeterministicProviderAdmissionEvidenceV1 :=
  {| q1_schema := DETERMINISTIC_PROVIDER_ADMISSION_EVIDENCE_SCHEMA_V1;
     q1_evidence_digest := zeros; q1_producer_id := HOLDING_QUALIFICATION_PRODUCER_ID;
     q1_producer_version := HOLDING_QUALIFICATION_PRODUCER_VERSION;
     q1_executable_id := HOLDING_QUALIFICATION_EXECUTABLE_ID;
     q1_executable_sha256 := HOLDING_QUALIFICATION_EXECUTABLE_SHA256;
     q1_work_attempt_id := di_work_attempt_id dispatch;
     q1_dispatch_occurrence_id := di_dispatch_occurrence_id dispatch;
     q1_provider_request_occurrence_id := "request"; q1_provider_id := "provider";
     q1_model_id := "model"; q1_outcome := OutcomeProviderUnavailable;
     q1_response_created := false; q1_non_admission_proven := true; q1_retry_after := None;
     q1_observed_at := observed; q1_received_at := received; q1_raw_evidence := evidence;
     q1_authority_effect := "QUALIFICATION_MECHANISM_EVIDENCE_ONLY" |}.

Definition disposition_draft (e : DeterministicProviderAdmissionEvidenceV1)
    (snapshot : ExactMapperSnapshotV1) : ProviderAdmissionDispositionV1 :=
  {| dp_schema := PROVIDER_ADMISSION_DISPOSITION_SCHEMA_V2; dp_disposition_digest := zeros;
     dp_dispatch_digest := di_dispatch_digest dispatch;
     dp_requirement_digest := rq_requirement_digest sample_requirement;
     dp_policy_digest := yp_policy_digest sample_policy;
     dp_packet_digest := pk_packet_digest sample_packet; dp_run_id := "parked";
     dp_work_item_id := "base"; dp_work_attempt_id := di_work_attempt_id dispatch;
     dp_dispatch_occurrence_id := di_dispatch_occurrence_id dispatch;
     dp_provider_id := "provider"; dp_model_id := "model";
     dp_provider_request_occurrence_id := "request";
     dp_adapter_process_occurrence_id := di_adapter_process_occurrence_id dispatch;
     dp_app_server_session_identity := di_app_server_session_identity dispatch;
     dp_thread_id := "thread"; dp_turn_id := "turn";
     dp_disposition := NotAdmittedProviderUnavailable; dp_mechanism_state := ParkedNotAdmitted;
     dp_received_at := received; dp_response_created := false; dp_will_retry := false;
     dp_acquisition_complete := true; dp_provider_retry_after := None;
     dp_provider_execution := None;
     dp_mapper_snapshot_schema := DETERMINISTIC_PROVIDER_ADMISSION_EVIDENCE_SCHEMA_V1;
     dp_mapper_snapshot_digest := q1_evidence_digest e; dp_mapper_snapshot := snapshot;
     dp_approval_response_sent := false; dp_protected_effect_absent := true;
     dp_authority_effect := "SCHEDULING_MECHANISM_EVIDENCE_ONLY" |}.
Definition refused_disposition : result ContractError ProviderAdmissionDispositionV1 :=
  let? evidence := source_evidence in
  let? e := qualification_v1_seal (refusal_draft evidence) in
  let? snapshot := mapper_snapshot_from_qualification_evidence_bytes (bytes_of e) in
  disposition_seal (disposition_draft e snapshot).

Definition refused_observation : result ContractError ExecutionAvailabilityObservationV1 :=
  let? evidence := source_evidence in
  availability_observation_seal
    {| eo_schema := EXECUTION_AVAILABILITY_OBSERVATION_SCHEMA_V1; eo_observation_digest := zeros;
       eo_provider_id := "provider"; eo_model_id := "model"; eo_model_class := "small";
       eo_observed_at := observed; eo_received_at := received;
       eo_expires_at := received + 9000; eo_state := ProviderUnavailable;
       eo_source_identity := HOLDING_QUALIFICATION_PRODUCER_ID;
       eo_source_version := HOLDING_QUALIFICATION_PRODUCER_VERSION;
       eo_provider_retry_after := None; eo_exact_evidence := Some evidence;
       eo_authority_effect := "SCHEDULING_MECHANISM_EVIDENCE_ONLY" |}.

(** The observation, the disposition and the deferral the policy gives the refusal. *)
Definition refused (history : list ProviderDeferralHistoryEntryV1)
    : result ContractError (ExecutionAvailabilityObservationV1 * ProviderAdmissionDispositionV1
                            * option DeferredProviderDispatchV1) :=
  let? o := refused_observation in
  let? p := refused_disposition in
  let? d := derive_provider_deferral sample_requirement sample_policy dispatch o p history in
  Ok (o, p, d).
End refusals.

(** ** The first dispatch refused and parked *)

Definition refused_opened (opened : option OpenedProviderDispatchV1) (observed received : instant)
    (history : list ProviderDeferralHistoryEntryV1) :=
  match opened with
  | Some o => refused (od_dispatch o) observed received history
  | None => Err (InvalidField "no dispatch")
  end.
Definition first_refusal := Eval vm_compute in refused_opened first_opened 1650 1700 [].

Definition refusal_evidence (r : result ContractError
      (ExecutionAvailabilityObservationV1 * ProviderAdmissionDispositionV1
       * option DeferredProviderDispatchV1)) : ProviderDispositionEvidenceV1 :=
  match r with
  | Ok (o, p, d) =>
      {| pe_observation_bytes := bytes_of o; pe_disposition_bytes := bytes_of p;
         pe_deferred_bytes := option_map bytes_of d |}
  | Err _ => {| pe_observation_bytes := ""; pe_disposition_bytes := "";
                pe_deferred_bytes := None |}
  end.
Definition parked_evidence : ProviderDispositionEvidenceV1 := Eval vm_compute in
  refusal_evidence first_refusal.
Definition park_first (s : Store) : result ForemanError (ProviderAdmissionDispositionV1 * Store) :=
  record_provider_disposition "parked" "base" "attempt-u4" parked_evidence None s.
Definition parked_store : Store := Eval vm_compute in store_after (park_first opened_store).

(** ** The parked dispatch woken, and refused again *)

Definition second_occurrence : DispatchOccurrence :=
  {| oc_preparation :=
       {| pp_dispatch_occurrence_id := "dispatch-2"; pp_adapter_process_occurrence_id := "process-2";
          pp_app_server_session_identity := "session-2"; pp_selected_model_ordinal := 0 |};
     oc_opened_at := 5000001800 |}.
Definition wake_first (s : Store) : result ForemanError (OpenedProviderDispatchV1 * Store) :=
  wake_provider_dispatch "parked" "base" "attempt-u4" "wake-1" second_occurrence s.
Definition second_opened : option OpenedProviderDispatchV1 := Eval vm_compute in
  value_of (wake_first parked_store).
Definition woken_store : Store := Eval vm_compute in store_after (wake_first parked_store).

(** The first deferral as the history of the second dispatch. *)
Definition first_history : list ProviderDeferralHistoryEntryV1 := Eval vm_compute in
  match first_opened, first_refusal with
  | Some o, Ok (_, p, Some d) =>
      [{| he_dispatch := od_dispatch o; he_disposition := p; he_deferred := d |}]
  | _, _ => []
  end.
Definition second_refusal := Eval vm_compute in
  refused_opened second_opened 5000001850 5000001900 first_history.


#[global] Instance concrete_deferred_sealed :
  SealedOk DeferredProviderDispatchV1 "deferred_dispatch_digest" set_deferred_digest.
Proof. by apply sealed_ok. Qed.

(** The second refusal of the run parks again: fifteen seconds in all. *)
Lemma graph_bounds_deferrals_witness :
  match second_opened, second_refusal with
  | Some o, Ok (observation, disposition, deferred) =>
      validate_execution_availability_graph sample_requirement sample_policy (od_dispatch o)
        observation disposition first_history deferred = Ok tt /\
      total_deferral (all_deferrals first_history deferred) = 15%N /\
      (total_deferral (all_deferrals first_history deferred)
       <= yp_maximum_total_deferral_seconds sample_policy)%N /\
      follows None ((window <$> first_history)
                      ++ [(di_opened_at (od_dispatch o), di_opened_at (od_dispatch o))])
  | _, _ => False
  end.
Proof.
  unfold second_opened, second_refusal.
  match goal with |- ?g /\ _ => assert g as H by (vm_compute; reflexivity) end.
  pose proof H as G. apply graph_bounds_deferrals in G.
  destruct G as (_ & _ & [Htotal _] & _ & _ & Hf & _).
  split; [exact H|]. split; [vm_compute; reflexivity|]. split; [exact Htotal|exact Hf].
Defined.

Lemma derived_deferral_is_accepted_one_witness :
  match second_opened, second_refusal with
  | Some o, Ok (observation, disposition, deferred) =>
      derive_provider_deferral sample_requirement sample_policy (od_dispatch o) observation
        disposition first_history = Ok deferred /\
      (forall o', validate_execution_availability_graph sample_requirement sample_policy
         (od_dispatch o) observation disposition first_history o' = Ok tt <-> o' = deferred)
  | _, _ => False
  end.
Proof.
  unfold second_opened, second_refusal.
  match goal with |- ?g /\ _ => assert g as H by (vm_compute; reflexivity) end.
  split; [exact H|]. intros o'. pose proof H as G. apply (fun P => derived_deferral_is_accepted_one _ _ _ _ _ _ _ P o') in G.
  exact G.
Defined.

Lemma disposition_releases_parked_witness :
  match first_refusal with
  | Ok (_, p, _) =>
      record_provider_disposition "parked" "base" "attempt-u4" parked_evidence None opened_store
        = Ok (p, parked_store) /\
      st_resource_claims opened_store !! ("parked", "repo") = Some ("base", "attempt-u4") /\
      st_resource_claims parked_store !! ("parked", "repo") = None /\
      exists c h, provider_run "parked" "base" "attempt-u4" opened_store c h
  | Err _ => False
  end.
Proof.
  unfold first_refusal.
  match goal with |- ?g /\ _ => assert g as H by (vm_compute; reflexivity) end.
  split; [exact H|]. split; [vm_compute; reflexivity|]. split; [vm_compute; reflexivity|].
  apply disposition_releases_parked in H as (c & h & _ & _ & _ & _ & Hrun & _).
  exists c, h. exact Hrun.
Defined.

Lemma wake_opens_next_witness :
  match second_opened with
  | Some opened =>
      wake_provider_dispatch "parked" "base" "attempt-u4" "wake-1" second_occurrence parked_store
        = Ok (opened, woken_store) /\
      exists c h, provider_run "parked" "base" "attempt-u4" parked_store c h /\
        ("wake-1" ∈ xh_wake_occurrence_ids h \/
         di_dispatch_ordinal (od_dispatch opened)
         = (N.of_nat (length (attempt_dispatches h "attempt-u4")) + 1)%N)
  | None => False
  end.
Proof.
  unfold second_opened.
  match goal with |- ?g /\ _ => assert g as H by (vm_compute; reflexivity) end.
  split; [exact H|].
  apply wake_opens_next in H as (c & h & Hrun & [(Hin & _ & _)|(_ & e & _ & W)]);
    exists c, h; (split; [exact Hrun|]).
  - left. exact Hin.
  - right. exact (wk_ordinal _ _ _ _ _ _ _ _ _ _ W).
Defined.
