(* ===== verification/PostureWitnesses.v ===== *)
(** * A sample posture

    Two diagnostics of one subject: a mandatory one found clean, and an optional one that
    did not answer, or found its condition.  The serializers show the identity-bearing
    fields; the clock prints an instant and reads it back.  Each theorem of the diagnostics
    is applied where its hypotheses hold. *)
From S2P Require Import Prelude Text External Currentness Diagnostic DiagnosticV2 Posture.
From S2P Require Import Codec PostureFacts DiagnosticFacts ScheduleFacts.
Local Open Scope string_scope.

(** ** The environment *)

#[global] Instance concrete_chrono : Chrono := {|
  to_rfc3339_autosi t := put t;
  parse_error s := "not an instant: " +:+ s;
  checked_sub_signed t d := Some (t - d)%Z;
  try_seconds n :=
    if (Z.abs n <=? 9223372036854775)%Z then Some (n * nanos_per_second)%Z else None;
  try_milliseconds n := Some (n * nanos_per_milli)%Z;
  seconds_since a b := Z.quot (a - b) nanos_per_second;
  sha256_prefix s := (checksum s 2166136261 mod U64_MAX)%N;
  str_debug s := s |}.

#[global] Instance concrete_chrono_ok : ChronoOk concrete_host concrete_chrono.
Proof.
  split; cbn [checked_sub_signed try_seconds try_milliseconds seconds_since to_rfc3339_autosi
    sha256_prefix concrete_chrono parse_from_rfc3339 concrete_host]; [congruence| |congruence| | |].
  - intros n d. case_match; congruence.
  - done.
  - intros t u. rewrite get_full. congruence.
  - intros s. apply N.lt_le_incl, N.mod_lt. done.
Qed.

(** A serializer that shows the given fields. *)
Definition shown_serde {T} (fields : T -> list (string * value)) : Serde T := {|
  to_value t := Ok (Object (fields t));
  from_value _ := Err "not read";
  to_vec t := Ok (render (Object (fields t)));
  from_slice _ := Err "not read" |}.

#[global] Instance sample_documents : PostureDocuments := {|
  po_host := concrete_host;
  po_chrono := concrete_chrono;
  po_execution_v1 := shown_serde (fun v => [("artifact_id", Str (dx_artifact_id v));
    ("question", Str (si_id (dx_question v))); ("run_id", Str (dx_run_id v));
    ("subject", Object [("id", Str (su_id (dx_subject v)));
       ("scope", Object [("digest", Str (si_digest (su_scope (dx_subject v))))])])]);
  po_execution_v2 := shown_serde (fun v => [("artifact_id", Str (d2_artifact_id v));
    ("question", Str (si_id (d2_question v))); ("run_id", Str (d2_run_id v))]);
  po_policy := shown_serde (fun p => [("generation", Str (pp_generation p));
    ("policy_id", Str (pp_policy_id p))]);
  po_inputs := shown_serde (fun i => [("inputs_id", Str (is_inputs_id i));
    ("schema", Str (is_schema i))]);
  po_support := shown_serde (fun s => [("query_id", Str (qs_query_id s));
    ("support_id", Str (qs_support_id s))]);
  po_recurrence := shown_serde (fun r => [("recurrence_id", Str (re_recurrence_id r));
    ("schema", Str (re_schema r))]);
  po_posture := shown_serde (fun p => [("evaluated_at", Str (op_evaluated_at p));
    ("posture_id", Str (op_posture_id p))]);
  po_projection := shown_serde (fun p => [("projection_id", Str (oj_projection_id p));
    ("source_posture_id", Str (oj_source_posture_id p))]);
  po_failure_json _ := "{}" |}.

Definition digest_of (s : string) : string := sha256_id s.
Definition identity (id : string) : SemanticIdentityV1 :=
  {| si_id := id; si_version := "1"; si_digest := digest_of id |}.
Definition at_second (n : Z) : string := put (n * nanos_per_second)%Z.
Definition ok_or_else {E A} (m : result E A) (a : A) : A := match m with Ok a => a | Err _ => a end.

(** ** Artifacts *)

Definition sample_subject : SubjectV1 := {| su_id := "host"; su_scope := identity "scope" |}.
Definition sample_producer : ProducerV1 :=
  {| pr_node_id := "node"; pr_build := identity "build"; pr_cohort := identity "cohort" |}.
Definition sample_projection : ProjectionV1 :=
  {| pj_identity := identity "projection"; pj_omitted_distinctions := [] |}.
Definition sample_interval : AcquisitionIntervalV1 :=
  {| ai_started_at := at_second 10; ai_ended_at := at_second 20; ai_clock := identity "clock";
     ai_clock_uncertainty_ms := 5 |}.

Definition sample_accounting : InputAccountingV1 :=
  {| ia_selection_rule := identity "rule";
     ia_expected := [{| xi_expectation_id := "disk"; xi_role := "source"; xi_required := true |};
                     {| xi_expectation_id := "log"; xi_role := "source"; xi_required := false |}];
     ia_received := [{| ri_input_id := "disk-1"; ri_expectation_id := "disk";
       ri_raw_artifact_id := digest_of "raw"; ri_capture_mode := Capture_ExactSource;
       ri_capture_policy := identity "capture";
       ri_availability_at_derivation := Availability_Online; ri_acquisition := sample_interval;
       ri_received_at := at_second 21 |}];
     ia_admitted := [{| mi_input_id := "disk-1"; mi_admission_rule := identity "admission";
       mi_normalized_artifact_id := digest_of "normalized";
       mi_normalization_rule := identity "normalization";
       mi_projected_artifact_id := digest_of "projected";
       mi_projection_rule := identity "projecting" |}];
     ia_refused := [];
     ia_failed := [{| li_expectation_id := "log"; li_failure_id := "log-missing";
       li_kind := FailedInput_Missing; li_reason := "absent" |}];
     ia_excluded := [];
     ia_selected := [{| ti_input_id := "disk-1"; ti_projected_artifact_id := digest_of "projected";
                        ti_role := "source" |}] |}.

Definition execution_draft (question : string) (condition : ConditionV1) (id : string)
    : DiagnosticExecutionV1 :=
  {| dx_schema := DiagnosticExecutionSchema_V1; dx_artifact_id := id;
     dx_canonicalization := expected_canonicalization; dx_producer := sample_producer;
     dx_request_id := "request-" +:+ question; dx_run_id := "run"; dx_question := identity question;
     dx_subject := sample_subject; dx_profile := identity "profile";
     dx_vantage := identity "vantage"; dx_state_model := identity "states";
     dx_evaluator := identity "evaluator"; dx_threshold_policy := identity "thresholds";
     dx_projection := sample_projection; dx_execution_clock := identity "clock";
     dx_started_at := at_second 5; dx_completed_at := at_second 30;
     dx_attempt_interval := sample_interval; dx_inputs := sample_accounting;
     dx_state_bindings := [{| sb_binding_id := "mount"; sb_kind := "mount"; sb_value := "root";
                              sb_supporting_input_ids := ["disk-1"] |}];
     dx_claims := [{| cl_claim_id := "healthy"; cl_proposition := "the disk is as stated";
       cl_status := Claim_Established; cl_condition_effect := Some condition;
       cl_dependency_input_ids := ["disk-1"]; cl_state_binding_ids := ["mount"];
       cl_required_distinctions := []; cl_limitations := []; cl_nonclaims := [] |}];
     dx_primary_claim_id := Some "healthy";
     dx_outcome := {| oc_derivation := Derivation_Completed; oc_condition := condition;
       oc_coherence := Coherence_JointlyEstablished; oc_coverage := Coverage_Complete;
       oc_summary := "done"; oc_refusal := None |};
     dx_limitations := []; dx_nonclaims := [] |}.
Definition sample_execution (question : string) (condition : ConditionV1) : DiagnosticExecution :=
  Execution_V1 (execution_draft question condition
    (ok_or_else (computed_object_id (execution_draft question condition "") "artifact_id") "")).

Definition clean_execution : DiagnosticExecution :=
  Eval vm_compute in sample_execution "disk-health" Condition_Clean.
Definition present_execution : DiagnosticExecution :=
  Eval vm_compute in sample_execution "disk-pressure" Condition_Present.

Example clean_execution_valid : diagnostic_validate clean_execution = Ok tt.
Proof. vm_compute. reflexivity. Qed.

(** ** The policy, the inputs and the recurrence *)

Definition sample_binding (question : string) : ContractBinding :=
  {| cb_producer_node_id := "node"; cb_producer_build := identity "build";
     cb_producer_cohort := identity "cohort"; cb_question := identity question;
     cb_profile := identity "profile"; cb_profile_semantic_id := None;
     cb_vantage := identity "vantage"; cb_state_model := identity "states";
     cb_evaluator := identity "evaluator"; cb_threshold_policy := identity "thresholds";
     cb_projection := sample_projection; cb_subject := sample_subject; cb_claim_id := "healthy" |}.
Definition sample_entry (question : string) (requirement : Requirement) : InventoryEntry :=
  {| ie_binding := sample_binding question; ie_requirement := requirement;
     ie_required_state_bindings := [{| rb_kind := "mount"; rb_value := "root" |}];
     ie_max_age_seconds := 60 |}.

Definition policy_draft (id : string) : PosturePolicy :=
  {| pp_schema := POSTURE_POLICY_SCHEMA_V2; pp_policy_id := id; pp_generation := "1";
     pp_subject := sample_subject; pp_role := identity "role"; pp_delivery_required := true;
     pp_inventory := [sample_entry "disk-health" Requirement_Mandatory;
                      sample_entry "disk-pressure" Requirement_Optional] |}.
Definition sample_policy : PosturePolicy := Eval vm_compute in
  policy_draft (ok_or_else (computed_policy_id (policy_draft "")) "").

Definition key_for (question : string) : DiagnosticKey := binding_key (sample_binding question).

Definition inputs_draft (pressure : DiagnosticInputStatus) (id : string) : DiagnosticInputs :=
  {| is_schema := INPUTS_SCHEMA_V2; is_inputs_id := id;
     is_inputs := [{| in_key := key_for "disk-health"; in_status := Input_Delivered clean_execution |};
                   {| in_key := key_for "disk-pressure"; in_status := pressure |}] |}.
Definition seal_inputs (pressure : DiagnosticInputStatus) : DiagnosticInputs :=
  inputs_draft pressure (ok_or_else (computed_inputs_id (inputs_draft pressure "")) "").
Definition quiet_inputs : DiagnosticInputs := Eval vm_compute in seal_inputs Input_NoResponse.
Definition pressing_inputs : DiagnosticInputs :=
  Eval vm_compute in seal_inputs (Input_Delivered present_execution).

Definition sample_schedule : SchedulePolicy :=
  {| sp_schedule_id := "hourly"; sp_first_due_at := at_second 0; sp_cadence_seconds := 3600;
     sp_jitter_bound_seconds := 3; sp_max_execution_budget_seconds := 100;
     sp_standing_window_seconds := 3600 |}.
Definition no_slot : RunSlot :=
  {| rs_slot_id := ""; rs_schedule_id := ""; rs_occurrence := 0; rs_key := key_for "";
     rs_due_at := ""; rs_budget_seconds := 0 |}.
Definition sample_slot : RunSlot := Eval vm_compute in
  ok_or_else (make_run_slot sample_schedule (key_for "disk-health") 0) no_slot.
Definition completed_record : RecurrenceRecord := Eval vm_compute in
  {| rr_key := key_for "disk-health"; rr_policy := sample_schedule; rr_slot := sample_slot;
     rr_evidence := Slot_Completed
       {| at_attempt_id := "attempt"; at_slot_id := rs_slot_id sample_slot;
          at_request_id := ex_request_id clean_execution; at_started_at := at_second 5 |}
       (at_second 40) (artifact_ref clean_execution) |}.

Definition recurrence_draft (id : string) : RecurrenceEvidence :=
  {| re_schema := RECURRENCE_SCHEMA_V2; re_recurrence_id := id;
     re_obligations := [{| so_key := key_for "disk-health"; so_policy := sample_schedule |}];
     re_records := [completed_record]; re_delivery := Delivery_Qualified |}.
Definition sample_recurrence : RecurrenceEvidence := Eval vm_compute in
  recurrence_draft (ok_or_else (computed_recurrence_id (recurrence_draft "")) "").

(** Evaluated at the fiftieth second. *)
Definition sample_now : instant := (50 * nanos_per_second)%Z.


(** The two sample evaluations succeed, with these headlines. *)
Ltac evaluated := eexists; split; [vm_compute; reflexivity | reflexivity].

Lemma quiet_posture : exists p,
  evaluate sample_policy quiet_inputs sample_recurrence sample_now None = Ok p /\
  op_headline p = Headline_Clean.
Proof. evaluated. Defined.

Lemma pressing_posture : exists p,
  evaluate sample_policy pressing_inputs sample_recurrence sample_now None = Ok p /\
  op_headline p = Headline_ConditionPresent.
Proof. evaluated. Defined.

Lemma clean_headline_witness : exists p,
  evaluate sample_policy quiet_inputs sample_recurrence sample_now None = Ok p /\
  is_current (assessed quiet_inputs sample_now None (sample_entry "disk-health" Requirement_Mandatory)).
Proof.
  destruct quiet_posture as (p & Hp & Hh). exists p. split; [exact Hp|].
  destruct (proj1 (clean_headline _ _ _ _ _ _ Hp) Hh) as [Hm _].
  inversion Hm as [|e l He _ Heq]. exact (proj1 (He eq_refl)).
Defined.

Lemma condition_is_shown_witness : exists p,
  evaluate sample_policy pressing_inputs sample_recurrence sample_now None = Ok p /\
  op_headline p <> Headline_Clean.
Proof.
  destruct pressing_posture as (p & Hp & Hh). exists p. split; [exact Hp|].
  destruct (condition_is_shown _ _ _ _ _ _ Hp) as (_ & Hs & _).
  apply (Hs (sample_entry "disk-pressure" Requirement_Optional)); [|vm_compute; reflexivity].
  right; left.
Defined.

Lemma current_is_bound_and_present_witness : exists p a,
  evaluate sample_policy quiet_inputs sample_recurrence sample_now None = Ok p /\
  a ∈ op_assessments p /\ exists e x, is_of e a /\ bound_as_declared e x.
Proof.
  destruct quiet_posture as (p & Hp & Hh).
  assert (exists a, a ∈ op_assessments p /\ is_current a) as (a & Ha & Hc).
  { revert Hp. vm_compute. intros [= <-]. eexists. split; [left|reflexivity]. }
  exists p, a. split; [exact Hp|]. split; [exact Ha|].
  destruct (current_is_bound_and_present _ _ _ _ _ _ _ Hp Ha Hc)
    as (e & _ & x & _ & He & _ & _ & _ & Hb & _).
  exists e, x. split; [exact He|exact Hb].
Defined.

Lemma expected_occurrence_is_last_due_witness :
  expected_occurrence_at sample_schedule (key_for "disk-health") sample_now = Ok (Some 0%N) /\
  exists due, slot_due_at sample_schedule (key_for "disk-health") 0 = Ok due /\ (due <= sample_now)%Z.
Proof.
  assert (expected_occurrence_at sample_schedule (key_for "disk-health") sample_now = Ok (Some 0%N))
    as H by (vm_compute; reflexivity).
  split; [exact H|].
  destruct (expected_occurrence_is_last_due _ _ _ _ H) as (first & due & _ & Hd & _ & Hall).
  exists due. split; [exact Hd|]. apply (Hall 0%N due Hd). exists 0%N. split; [reflexivity|lia].
Defined.

Lemma current_recurrence_completed_witness : exists p a,
  evaluate sample_policy quiet_inputs sample_recurrence sample_now None = Ok p /\
  a ∈ op_recurrence p /\ exists e o record, recurs_by sample_now (entry_key e) o record
    (ea_artifact (assessed quiet_inputs sample_now None e)).
Proof.
  destruct quiet_posture as (p & Hp & Hh).
  assert (exists a, a ∈ op_recurrence p /\ rc_standing a = Recurrence_Current /\
            rc_requirement a <> Requirement_Excluded) as (a & Ha & Hc & Hr).
  { revert Hp. vm_compute. intros [= <-]. eexists. split; [left|split; [reflexivity|discriminate]]. }
  exists p, a. split; [exact Hp|]. split; [exact Ha|].
  destruct (current_recurrence_completed _ _ _ _ _ _ _ Hp Ha Hc Hr)
    as (e & o & record & _ & _ & _ & _ & _ & Hb).
  exists e, o, record. exact Hb.
Defined.

Lemma projection_hides_nothing_witness : exists p q,
  evaluate sample_policy quiet_inputs sample_recurrence sample_now None = Ok p /\
  project ∅ p = Ok q /\ os_item <$> oj_slots q = op_assessments p.
Proof.
  destruct quiet_posture as (p & Hp & Hh).
  assert (exists q, project ∅ p = Ok q) as [q Hq] by (eexists; reflexivity).
  exists p, q. split; [exact Hp|]. split; [exact Hq|].
  exact (proj1 (projection_hides_nothing _ _ _ Hq)).
Defined.

Lemma inputs_are_accounted_witness :
  diagnostic_validate clean_execution = Ok tt /\ ex_accounted clean_execution.
Proof.
  assert (diagnostic_validate clean_execution = Ok tt) as H by (vm_compute; reflexivity).
  split; [exact H|]. apply (inputs_are_accounted clean_execution H).
Defined.

Lemma clear_outcome_is_supported_witness :
  diagnostic_validate clean_execution = Ok tt /\
  covered_by (ex_required clean_execution) (ex_answers clean_execution) (ex_selected clean_execution).
Proof.
  assert (diagnostic_validate clean_execution = Ok tt) as H by (vm_compute; reflexivity).
  split; [exact H|].
  destruct (clear_outcome_is_supported clean_execution H eq_refl) as (_ & _ & _ & Hc & _).
  exact Hc.
Defined.
