(* ===== verification/NqWitnesses.v ===== *)
(** * Sample dispositions

    Two receipts of NQ about the clean execution: one of the purpose family and one of the
    Docket family, and an authority that answers any query with current support.  The
    theorems of [NqDispositionFacts] are applied to them. *)
From stdpp Require Import pretty.
From S2P Require Import Prelude Text External Signing Diagnostic DiagnosticV2 Currentness.
From S2P Require Import Posture NqDisposition NqDispositionFacts Codec.
From S2P Require Import PostureWitnesses.
Local Open Scope string_scope.

Definition field_text (v : value) (field : string) : string :=
  match as_str (value_index v field) with Some s => s | None => "" end.
Definition receipt_of (v : value) : NqRelianceReceiptDto :=
  {| nr_schema := field_text v "schema"; nr_decision_id := field_text v "decision_id";
     nr_request_digest := field_text v "request_digest"; nr_evidence_context_digest := "";
     nr_consumer_profile_id := field_text v "consumer_profile_id"; nr_caller_binding := "";
     nr_caller_binding_disclosure := field_text v "caller_binding_disclosure";
     nr_purpose := field_text v "purpose"; nr_claim := field_text v "claim";
     nr_receipt_content_hash := field_text v "receipt_content_hash";
     nr_underlying_status := ""; nr_decision := field_text v "decision"; nr_premises := [];
     nr_coverage_limits := []; nr_unresolved_residuals := [];
     nr_retained_contradictions := []; nr_refusal_reasons := []; nr_establishes := [];
     nr_does_not_establish := []; nr_supporting_receipts := []; nr_policy_version := "1";
     nr_generated_at := field_text v "generated_at" |}.

#[global] Instance sample_dispositions : DispositionDocuments := {|
  nd_posture := sample_documents;
  nd_value := value_serde;
  nd_receipt := {|
    to_value _ := Err "not written"; from_value v := Ok (receipt_of v);
    to_vec _ := Err "not written";
    from_slice s := rbind (parse_value s) (fun v => Ok (receipt_of v)) |};
  nd_query := shown_serde (fun q => [("query_id", Str (qy_query_id q));
    ("request_nonce", Str (qy_request_nonce q))]);
  nd_record := shown_serde (fun r => [("disposition_id", Str (dr_disposition_id r));
    ("observed_at", Str (dr_observed_at r))]);
  json_text := render |}.

(** The object with the digest of the rest in [field]. *)
Definition identified (field : string) (fields : list (string * value)) : value :=
  let body := json_object fields in
  match value_digest body with
  | Ok digest => json_object ((field, Str digest) :: fields)
  | Err _ => body
  end.
Definition digest_text (v : value) : string := ok_or_else (value_digest v) "".

Definition clean_inputs_draft (id : string) : DiagnosticInputs :=
  {| is_schema := INPUTS_SCHEMA_V2; is_inputs_id := id;
     is_inputs := [{| in_key := key_for "disk-health";
                      in_status := Input_Delivered clean_execution |}] |}.
Definition clean_inputs : DiagnosticInputs := Eval vm_compute in
  clean_inputs_draft (ok_or_else (computed_inputs_id (clean_inputs_draft "")) "").

Definition purpose_request : value := json_object
  [("consumer", Str "nightshift-readonly"); ("purpose", Str "historical_readonly");
   ("claim", Str "docket_attempt_settled"); ("subject_digest", Str (digest_of "subject"))].
Definition purpose_receipt (decision : string) : value := identified "decision_id"
  [("schema", Str NQ_RELIANCE_RECEIPT_SCHEMA); ("request", purpose_request);
   ("request_digest", Str (digest_text purpose_request));
   ("consumer_profile_id", Str "nightshift-readonly");
   ("caller_binding_disclosure", Str "configured"); ("purpose", Str "historical_readonly");
   ("claim", Str "docket_attempt_settled"); ("subject_digest", Str (digest_of "subject"));
   ("receipt_content_hash", Str (ex_artifact_id clean_execution)); ("decision", Str decision);
   ("generated_at", Str (at_second 40)); ("expires_at", Str (at_second 90));
   ("source_artifact", ok_or_else (execution_to_value clean_execution) Null)].
Definition supported_bytes : string := Eval vm_compute in render (purpose_receipt SUPPORTED).
Definition authorized_bytes : string := Eval vm_compute in
  render (purpose_receipt "authorized_reliance").

(** An authority that finds every query supported until tick 9. *)
Definition support_draft (q : PresentEvidenceQueryV1) (id : string) : QualifiedSupportV1 :=
  {| qs_schema := QUALIFIED_SUPPORT_SCHEMA_V1; qs_support_id := id; qs_authority_id := "authority";
     qs_query_id := qy_query_id q; qs_observation_cycle_id := qy_observation_cycle_id q;
     qs_request_nonce := qy_request_nonce q; qs_observation_id := qy_observation_id q;
     qs_diagnostic_inputs_id := qy_diagnostic_inputs_id q; qs_subject_id := qy_subject_id q;
     qs_scope_id := qy_scope_id q; qs_artifact_ids := qy_artifact_ids q;
     qs_evaluated_at := {| sr_clock_id := "ticks"; sr_tick := 5 |};
     qs_expiry := Some {| se_clock_id := "ticks"; se_tick := 9 |};
     qs_standing := Support_Current; qs_evidence_refs := [digest_of "evidence"];
     qs_contradiction_refs := [] |}.
Definition supporting (q : PresentEvidenceQueryV1) : result string QualifiedSupportV1 :=
  let? id := computed_support_id (support_draft q "") in Ok (support_draft q id).
Definition unavailable (q : PresentEvidenceQueryV1) : result string QualifiedSupportV1 :=
  Err "down".

Definition result_value {E A} (m : result E A) : option A :=
  match m with Ok a => Some a | Err _ => None end.

Definition supported_purpose := Eval vm_compute in
  qualify_current_purpose supporting supported_bytes purpose_request (at_second 50)
    "continue_observing" clean_inputs "cycle" "nonce" "authority".

Lemma continue_observing_is_supported_witness :
  match supported_purpose with
  | Ok r =>
      qualify_current_purpose supporting supported_bytes purpose_request (at_second 50)
        "continue_observing" clean_inputs "cycle" "nonce" "authority" = Ok r /\
      exists dto, parse_for_request supported_bytes purpose_request (at_second 50) = Ok dto /\
        cd_nq_decision_id r = nr_decision_id dto /\
        qy_request_nonce (cd_query r) = "nonce" /\
        nr_receipt_content_hash dto ∈ qy_artifact_ids (cd_query r) /\
        (nr_decision dto = "supported_readonly" /\ live_support supporting "authority" r \/
         nr_decision dto = "authorized_reliance" /\ cd_support r = None)
  | Err _ => False
  end.
Proof.
  unfold supported_purpose. match goal with |- ?g /\ _ => assert g as H end.
  - vm_compute. reflexivity.
  - split; [exact H|exact (continue_observing_is_supported _ _ _ _ _ _ _ _ _ _ H eq_refl)].
Defined.

(** Without support a supported receipt waits for evidence, and yet a receipt whose
    decision is the historical one continues, long after it expired. *)
Example supported_needs_the_authority :
  cd_disposition <$> result_value
    (qualify_current_purpose unavailable supported_bytes purpose_request (at_second 50)
       "continue_observing" clean_inputs "cycle" "nonce" "authority")
  = Some EvidenceUnavailable.
Proof. vm_compute. reflexivity. Qed.
Example authorized_reliance_never_asks :
  cd_disposition <$> result_value
    (qualify_current_purpose unavailable authorized_bytes purpose_request (at_second 5000)
       "continue_observing" clean_inputs "cycle" "nonce" "authority")
  = Some ContinueObserving.
Proof. vm_compute. reflexivity. Qed.

Definition docket_request : value := json_object
  [("consumer", Str "nightshift-readonly"); ("purpose", Str "continue_observing");
   ("subject", Str "host")].
Definition docket_value : value := identified "receipt_id"
  [("schema", Str "nq.docket-purpose-support/v1"); ("request", docket_request);
   ("request_digest", Str (digest_text docket_request)); ("claim", Str "docket_attempt_settled");
   ("decision", Str SUPPORTED); ("generated_at", Str (at_second 40));
   ("expires_at", Str (at_second 90)); ("subject", Str "host");
   ("subject_digest", Str (digest_of "subject")); ("source_digest", Str (digest_of "source"));
   ("supporting_receipts", Array []);
   ("snapshot_context", json_object
      [("history_scope", Str (digest_of "history")); ("snapshot_key", Str (digest_of "key"));
       ("core_digest", Str (digest_of "core"))])].
Definition docket_bytes : string := Eval vm_compute in render docket_value.
Definition docket_purpose := Eval vm_compute in
  qualify_docket_current_purpose supporting docket_bytes docket_request (at_second 50) "cycle"
    "nonce" "authority".

Lemma docket_continues_on_live_support_witness :
  match docket_purpose with
  | Ok r =>
      qualify_docket_current_purpose supporting docket_bytes docket_request (at_second 50)
        "cycle" "nonce" "authority" = Ok r /\
      exists v now generated expires,
        docket_receipt docket_bytes = Ok (v, Str (cd_nq_decision_id r)) /\
        value_digest v = Ok (cd_nq_decision_id r) /\
        value_eqb (value_index v "request") docket_request = true /\
        str_is v "decision" "supported_readonly" = true /\
        cd_purpose r = "continue_observing" /\
        parse_from_rfc3339 (at_second 50) = Some now /\
        get_time v "generated_at" = Some generated /\ get_time v "expires_at" = Some expires /\
        (generated <= now < expires)%Z /\
        cd_nq_decision_id r ∈ qy_artifact_ids (cd_query r) /\
        live_support supporting "authority" r
  | Err _ => False
  end.
Proof.
  unfold docket_purpose. match goal with |- ?g /\ _ => assert g as H end.
  - vm_compute. reflexivity.
  - split; [exact H|exact (docket_continues_on_live_support _ _ _ _ _ _ _ _ H eq_refl)].
Defined.
