(* ===== verification/PredicateWitnesses.v ===== *)
(** * Sample attention

    A policy that asks for two distinct supported occurrences within a minute, Pulse receipts
    for it, the store they are ingested into and the theorems of [PredicateFacts] applied to
    them. *)
From S2P Require Import Prelude Text External Signing Currentness PredicateAttention.
From S2P Require Import PredicateFacts Codec PostureWitnesses.
Local Open Scope string_scope.

(** ** The environment *)

#[global] Instance PulseDispositionV1_wire : Wire PulseDispositionV1 := {|
  put d := put (N.of_nat (disposition_rank d));
  get s := '(n, s) ← get s; d ← pulse_dispositions !! N.to_nat n; Some (d, s) |}.
#[global] Instance PulseDispositionV1_wire_ok : WireOk PulseDispositionV1.
Proof.
  intros d r. cbn [put get PulseDispositionV1_wire]. rewrite (get_put (N.of_nat _)).
  cbn [mbind option_bind]. rewrite Nat2N.id. by destruct d.
Qed.

#[global] Instance PulseQualifiedSupportReceiptV1_wire : Wire PulseQualifiedSupportReceiptV1 := {|
  put t :=
    put (pu_schema t) +:+ (put (pu_receipt_digest t) +:+ (put (pu_policy_id t) +:+ (
    put (pu_policy_digest t) +:+ (put (pu_project t) +:+ (put (pu_concern t) +:+ (
    put (pu_question t) +:+ (put (pu_declaration_profile t) +:+ (
    put (pu_predicate_profile t) +:+ (put (pu_nq_catalog_digest t) +:+ (
    put (pu_nq_profile_digest t) +:+ (put (pu_nq_input_schema_digest t) +:+ (
    put (pu_nq_receipt_digest t) +:+ (put (pu_nq_verifier_executable_digest t) +:+ (
    put (pu_primary_observed_at t) +:+ (put (pu_support_evidence_id t) +:+ (
    put (pu_support_evidence_digest t) +:+ (put (pu_support_observed_at t) +:+ (
    put (pu_support_producer_id t) +:+ (put (pu_support_source_id t) +:+ (
    put (pu_support_vantage_id t) +:+ (put (pu_subject_id t) +:+ (
    put (pu_qualification_at t) +:+ (put (pu_current_until_unix_ms t) +:+ (
    put (pu_primary_support_skew_ms t) +:+ (put (pu_independence_basis t) +:+ (
    put (pu_disposition t) +:+ (put (pu_detail t) +:+ (put (pu_validated t) +:+ (
    put (pu_not_validated t))))))))))))))))))))))))))))));
  get s :=
    '(x0, s) ← get s; '(x1, s) ← get s; '(x2, s) ← get s; '(x3, s) ← get s;
    '(x4, s) ← get s; '(x5, s) ← get s; '(x6, s) ← get s; '(x7, s) ← get s;
    '(x8, s) ← get s; '(x9, s) ← get s; '(x10, s) ← get s; '(x11, s) ← get s;
    '(x12, s) ← get s; '(x13, s) ← get s; '(x14, s) ← get s; '(x15, s) ← get s;
    '(x16, s) ← get s; '(x17, s) ← get s; '(x18, s) ← get s; '(x19, s) ← get s;
    '(x20, s) ← get s; '(x21, s) ← get s; '(x22, s) ← get s; '(x23, s) ← get s;
    '(x24, s) ← get s; '(x25, s) ← get s; '(x26, s) ← get s; '(x27, s) ← get s;
    '(x28, s) ← get s; '(x29, s) ← get s;
    Some ({| pu_schema := x0; pu_receipt_digest := x1; pu_policy_id := x2;
      pu_policy_digest := x3; pu_project := x4; pu_concern := x5; pu_question := x6;
      pu_declaration_profile := x7; pu_predicate_profile := x8; pu_nq_catalog_digest := x9;
      pu_nq_profile_digest := x10; pu_nq_input_schema_digest := x11;
      pu_nq_receipt_digest := x12; pu_nq_verifier_executable_digest := x13;
      pu_primary_observed_at := x14; pu_support_evidence_id := x15;
      pu_support_evidence_digest := x16; pu_support_observed_at := x17;
      pu_support_producer_id := x18; pu_support_source_id := x19;
      pu_support_vantage_id := x20; pu_subject_id := x21; pu_qualification_at := x22;
      pu_current_until_unix_ms := x23; pu_primary_support_skew_ms := x24;
      pu_independence_basis := x25; pu_disposition := x26; pu_detail := x27;
      pu_validated := x28; pu_not_validated := x29 |}, s) |}.
#[global] Instance PulseQualifiedSupportReceiptV1_wire_ok : WireOk PulseQualifiedSupportReceiptV1.
Proof. wire_record PulseQualifiedSupportReceiptV1_wire. Qed.

#[global] Instance AttentionEventV1_wire : Wire AttentionEventV1 := {|
  put t :=
    put (ev_schema t) +:+ (put (ev_event_id t) +:+ (put (ev_policy_digest t) +:+ (
    put (ev_recurrence_id t) +:+ (put (ev_occurrence_at t) +:+ (put (ev_pulse_receipt t))))));
  get s :=
    '(x0, s) ← get s; '(x1, s) ← get s; '(x2, s) ← get s; '(x3, s) ← get s;
    '(x4, s) ← get s; '(x5, s) ← get s;
    Some ({| ev_schema := x0; ev_event_id := x1; ev_policy_digest := x2;
      ev_recurrence_id := x3; ev_occurrence_at := x4; ev_pulse_receipt := x5 |}, s) |}.
#[global] Instance AttentionEventV1_wire_ok : WireOk AttentionEventV1.
Proof. wire_record AttentionEventV1_wire. Qed.

#[global] Instance HistoryLink_wire : Wire HistoryLink := {|
  put t :=
    put (hl_schema t) +:+ (put (hl_predecessor t) +:+ (put (hl_event_id t) +:+ (
    put (hl_sequence t))));
  get s :=
    '(x0, s) ← get s; '(x1, s) ← get s; '(x2, s) ← get s; '(x3, s) ← get s;
    Some ({| hl_schema := x0; hl_predecessor := x1; hl_event_id := x2;
      hl_sequence := x3 |}, s) |}.
#[global] Instance HistoryLink_wire_ok : WireOk HistoryLink.
Proof. wire_record HistoryLink_wire. Qed.

#[global] Instance OccurrenceBasis_wire : Wire OccurrenceBasis := {|
  put t :=
    put (ob_schema t) +:+ (put (ob_pulse_policy_digest t) +:+ (
    put (ob_nq_receipt_digest t) +:+ (put (ob_subject_id t) +:+ (
    put (ob_disposition t) +:+ (put (ob_primary_observed_at t) +:+ (
    put (ob_support_observed_at t) +:+ (put (ob_support_producer_id t) +:+ (
    put (ob_support_source_id t) +:+ (put (ob_support_vantage_id t) +:+ (
    put (ob_no_evidence_qualification_at t)))))))))));
  get s :=
    '(x0, s) ← get s; '(x1, s) ← get s; '(x2, s) ← get s; '(x3, s) ← get s;
    '(x4, s) ← get s; '(x5, s) ← get s; '(x6, s) ← get s; '(x7, s) ← get s;
    '(x8, s) ← get s; '(x9, s) ← get s; '(x10, s) ← get s;
    Some ({| ob_schema := x0; ob_pulse_policy_digest := x1; ob_nq_receipt_digest := x2;
      ob_subject_id := x3; ob_disposition := x4; ob_primary_observed_at := x5;
      ob_support_observed_at := x6; ob_support_producer_id := x7;
      ob_support_source_id := x8; ob_support_vantage_id := x9;
      ob_no_evidence_qualification_at := x10 |}, s) |}.
#[global] Instance OccurrenceBasis_wire_ok : WireOk OccurrenceBasis.
Proof. wire_record OccurrenceBasis_wire. Qed.

#[global] Instance sample_predicates : PredicateDocuments := {|
  pd_host := concrete_host;
  pd_chrono := concrete_chrono;
  pd_policy := shown_serde (fun p => [("policy_digest", Str (pa_policy_digest p));
    ("policy_id", Str (pa_policy_id p)); ("subject_id", Str (ta_subject_id (pa_target p)))]);
  pd_pulse := shown_serde (fun r => [("qualification_at", Str (pu_qualification_at r));
    ("receipt_digest", Str (pu_receipt_digest r))]);
  pd_event := sealed_serde "event_id" ev_event_id with_event_id
    (fun e => [("recurrence_id", Str (ev_recurrence_id e))]);
  pd_history := plain_serde (list AttentionEventV1);
  pd_receipt := shown_serde (fun r => [("history_digest", Str (ar_history_digest r));
    ("receipt_digest", Str (ar_receipt_digest r))]);
  pd_basis := plain_serde OccurrenceBasis;
  pd_link := plain_serde HistoryLink;
  to_rfc3339_millis t := put (t - t mod nanos_per_milli)%Z;
  event_to_string e := Ok (put e);
  event_from_str s := match get s with Some (e, "") => Ok e | _ => Err "not an event" end |}.

(** The event a canonical text without its identity holds. *)
Definition read_content (text : string) : option AttentionEventV1 :=
  match parse_value text with
  | Ok v => read_body (T := AttentionEventV1) v
  | Err _ => None
  end.

#[global] Instance sample_predicates_ok : PredicateOk sample_predicates.
Proof.
  split; [| |exact (plain_serde_ok HistoryLink)|exact concrete_chrono_ok].
  - intros e s H. cbn [event_to_string event_from_str sample_predicates] in *.
    apply Ok_inj in H as <-. by rewrite get_full.
  - exists read_content. intros e kvs text Hv Ht.
    assert (kvs = sealed_fields "event_id" ev_event_id with_event_id
              (fun e => [("recurrence_id", Str (ev_recurrence_id e))]) e) as ->
      by (by injection Hv).
    assert (text = render (Object [("body", Str (put (with_event_id "" e)));
              ("recurrence_id", Str (ev_recurrence_id e))])) as -> by (by injection Ht).
    unfold read_content. rewrite parse_render. unfold read_body. cbn [value_get assoc_get].
    rewrite (eq_refl : String.eqb "body" "body" = true). by rewrite get_full.
Qed.

(** ** The policy and its receipts *)

Definition attention_target : AttentionTargetV1 :=
  {| ta_project := "project"; ta_concern := "concern"; ta_question := "question";
     ta_declaration_profile := "declaration"; ta_predicate_profile := "predicate";
     ta_nq_catalog_digest := digest_of "catalog"; ta_nq_profile_digest := digest_of "profile";
     ta_nq_input_schema_digest := digest_of "input"; ta_pulse_support_policy_id := "support";
     ta_pulse_support_policy_digest := digest_of "support"; ta_subject_id := "subject" |}.
Definition policy_draft (trigger : AttentionTriggerV1) (within : N) : AttentionPolicyV1 :=
  {| pa_schema := POLICY_SCHEMA_V1; pa_policy_id := "policy"; pa_policy_digest := "";
     pa_target := attention_target;
     pa_pulse_verifier_executable_digest := digest_of "verifier"; pa_trigger := trigger;
     pa_recurrence := {| ra_required_distinct_occurrences := 2; ra_within_seconds := within |};
     pa_reset := Reset_HorizonExpiry |}.
Definition sealed_policy (trigger : AttentionTriggerV1) (within : N) : AttentionPolicyV1 :=
  ok_or_else (policy_seal (policy_draft trigger within)) (policy_draft trigger within).
Definition proposition : AttentionPolicyV1 := Eval vm_compute in
  sealed_policy PropositionAttention 60.

(** Support observed at an instant and current for 100 seconds. *)
Definition pulse_draft (observed : Z) (digest : string) : PulseQualifiedSupportReceiptV1 :=
  {| pu_schema := PULSE_RECEIPT_SCHEMA_V1; pu_receipt_digest := digest;
     pu_policy_id := "support"; pu_policy_digest := digest_of "support";
     pu_project := "project"; pu_concern := "concern"; pu_question := "question";
     pu_declaration_profile := "declaration"; pu_predicate_profile := "predicate";
     pu_nq_catalog_digest := digest_of "catalog"; pu_nq_profile_digest := digest_of "profile";
     pu_nq_input_schema_digest := digest_of "input"; pu_nq_receipt_digest := digest_of "nq";
     pu_nq_verifier_executable_digest := digest_of "nq-verifier";
     pu_primary_observed_at := Some (put observed); pu_support_evidence_id := Some (digest_of "e");
     pu_support_evidence_digest := Some (digest_of "evidence");
     pu_support_observed_at := Some (put observed); pu_support_producer_id := Some "producer";
     pu_support_source_id := Some "source"; pu_support_vantage_id := Some "vantage";
     pu_subject_id := "subject"; pu_qualification_at := put observed;
     pu_current_until_unix_ms := Some (observed / nanos_per_milli + 100000)%Z;
     pu_primary_support_skew_ms := Some 0%N; pu_independence_basis := "basis";
     pu_disposition := Pulse_SupportedCurrent; pu_detail := "supported"; pu_validated := [];
     pu_not_validated := [] |}.
Definition pulse_at (observed : Z) : PulseQualifiedSupportReceiptV1 :=
  pulse_draft observed
    (ok_or_else (digest_without_field (pulse_draft observed "") "receipt_digest") "").
Definition at_instant (n : Z) : Z := (n * nanos_per_second)%Z.

Definition event_at (observed : Z) : option AttentionEventV1 :=
  match from_verified proposition (pulse_at observed) with Ok e => Some e | Err _ => None end.
Definition sample_events : list AttentionEventV1 := Eval vm_compute in
  omap event_at [at_instant 100; at_instant 70].
Definition sample_evaluation := Eval vm_compute in
  evaluate proposition sample_events (at_instant 120).

Example sample_evaluation_calls :
  match sample_evaluation with
  | Ok b => ar_disposition (bu_receipt b) = AttentionRequired
  | Err _ => False
  end.
Proof. vm_compute. reflexivity. Qed.

(** ** The theorems applied *)

Lemma evaluation_replays_witness :
  match sample_evaluation with
  | Ok b =>
      evaluate proposition sample_events (at_instant 120) = Ok b /\
      parse_from_rfc3339 (to_rfc3339_millis (at_instant 120)) = Some (at_instant 120) /\
      (forall es', es' ≡ₚ sample_events -> evaluate proposition es' (at_instant 120) = Ok b) /\
      (parse_from_rfc3339 (to_rfc3339_millis (at_instant 120)) = Some (at_instant 120) ->
       replay_attention b =
         Ok {| rr_schema := REPLAY_SCHEMA_V1; rr_matches := true;
               rr_expected_receipt_digest := ar_receipt_digest (bu_receipt b);
               rr_recomputed_receipt_digest := ar_receipt_digest (bu_receipt b) |})
  | Err _ => False
  end.
Proof.
  unfold sample_evaluation. match goal with |- ?g /\ _ => assert g as H end.
  - vm_compute. reflexivity.
  - split; [exact H|]. split; [vm_compute; reflexivity|].
    exact (evaluation_replays _ _ _ _ H).
Defined.

Lemma attention_is_earned_witness :
  match sample_evaluation with
  | Ok b =>
      evaluate proposition sample_events (at_instant 120) = Ok b /\
      exists q, ar_qualifying_event_ids (bu_receipt b) = ev_event_id <$> q /\
        ar_qualifying_recurrence_ids (bu_receipt b) = ev_recurrence_id <$> q /\
        NoDup (ev_recurrence_id <$> q) /\
        (forall e, e ∈ q <-> e ∈ sample_events /\
           counts proposition sample_events (at_instant 120) e /\
           covers proposition (at_instant 120) e) /\
        let n := N.of_nat (length q) in
        let required := ra_required_distinct_occurrences (pa_recurrence proposition) in
        let d := ar_disposition (bu_receipt b) in
        (d = AttentionRequired <-> (required <= n)%N) /\
        (d = WaitingForRecurrence <-> (0 < n < required)%N) /\
        (d = InputNotCurrent <-> q = [] /\
           exists e, e ∈ sample_events /\ counts proposition sample_events (at_instant 120) e /\
             ~ covers proposition (at_instant 120) e)
  | Err _ => False
  end.
Proof.
  unfold sample_evaluation. match goal with |- ?g /\ _ => assert g as H end.
  - vm_compute. reflexivity.
  - split; [exact H|]. exact (attention_is_earned _ _ _ _ H).
Defined.

(** An instant within a millisecond is printed without its fraction: the bundle of an
    evaluation half a millisecond after a full second, of support observed then, is refused when
    it is replayed.  And a horizon beyond chrono's durations panics. *)
Definition fraction : Z := 500000.
Definition fractional_evaluation :=
  match event_at (at_instant 100 + fraction)%Z with
  | Some e => evaluate proposition [e] (at_instant 100 + fraction)%Z
  | None => Err Attention_Panicked
  end.
Example fractional_bundle_is_refused :
  match fractional_evaluation with
  | Ok b => ar_disposition (bu_receipt b) = WaitingForRecurrence /\
      replay_attention b = Err
        (Attention_Refused "attention history contains a future evidence occurrence")
  | Err _ => False
  end.
Proof. vm_compute. split; reflexivity. Qed.

Definition boundless : AttentionPolicyV1 := Eval vm_compute in
  sealed_policy PropositionAttention 9223372036854775807.
Example boundless_horizon_panics :
  policy_validate boundless = Ok tt /\
  evaluate boundless [] (at_instant 100) = Err Attention_Panicked.
Proof. vm_compute. split; reflexivity. Qed.

(** Two occurrences and the second again. *)
Definition deliver (n : Z) (m : result string (IngestResultV1 * AttentionTables))
    : result string (IngestResultV1 * AttentionTables) :=
  let? '(_, t) := m in ingest_verified proposition (pulse_at (at_instant n)) t.
Definition answer_of (m : result string (IngestResultV1 * AttentionTables)) : IngestResultV1 :=
  match m with
  | Ok (res, _) => res
  | Err _ => {| ig_schema := ""; ig_disposition := Ingest_Accepted; ig_policy_digest := "";
                ig_event_id := ""; ig_recurrence_id := ""; ig_pulse_receipt_digest := "";
                ig_history_event_count := 0; ig_history_head_digest := "" |}
  end.
Definition first_ingest := Eval vm_compute in
  ingest_verified proposition (pulse_at (at_instant 70)) empty_attention.
Definition second_ingest := Eval vm_compute in deliver 100 first_ingest.
Definition third_ingest := Eval vm_compute in deliver 100 second_ingest.
Definition tables_after (m : result string (IngestResultV1 * AttentionTables)) : AttentionTables :=
  match m with Ok (_, t) => t | Err _ => empty_attention end.
Definition sample_trace := Eval vm_compute in
  match event_at (at_instant 70), event_at (at_instant 100) with
  | Some e, Some e' =>
      [(proposition, e, answer_of first_ingest); (proposition, e', answer_of second_ingest);
       (proposition, e', answer_of third_ingest)]
  | _, _ => []
  end.

Lemma sample_ingested : ingested sample_trace (tables_after third_ingest).
Proof.
  unfold sample_trace.
  eapply (ingested_next [_; _] (tables_after second_ingest) _ (pulse_at (at_instant 100)));
    [|vm_compute; reflexivity|vm_compute; reflexivity].
  eapply (ingested_next [_] (tables_after first_ingest) _ (pulse_at (at_instant 100)));
    [|vm_compute; reflexivity|vm_compute; reflexivity].
  eapply (ingested_next [] empty_attention _ (pulse_at (at_instant 70)));
    [constructor|vm_compute; reflexivity|vm_compute; reflexivity].
Qed.

Lemma sample_one_policy : one_policy proposition sample_trace.
Proof.
  intros x Hx _. unfold sample_trace in Hx.
  by repeat (apply elem_of_cons in Hx as [->|Hx]; [done|]); apply elem_of_nil in Hx.
Qed.

Lemma store_refines_log_witness :
  let t := tables_after third_ingest in
  ingested sample_trace t /\ one_policy proposition sample_trace /\
  history proposition t = Ok (log_of proposition sample_trace) /\
  NoDup (ev_recurrence_id <$> log_of proposition sample_trace) /\
  (forall before e res after, sample_trace = (before ++ (proposition, e, res) :: after)%list ->
     ig_history_event_count res
       = N.of_nat (length (log_of proposition (before ++ [(proposition, e, res)]))) /\
     ig_disposition res =
       (if bool_decide (ev_recurrence_id e ∈ ev_recurrence_id <$> log_of proposition before)
        then Ingest_DuplicateEvidenceOccurrence else Ingest_Accepted) /\
     ig_event_id res ∈ ev_event_id <$> log_of proposition (before ++ [(proposition, e, res)])) /\
  (forall r e, from_verified proposition r = Ok e -> is_ok (event_to_string e) = true ->
     (forall link : HistoryLink, is_ok (to_vec link) = true) ->
     (N.of_nat (length (log_of proposition sample_trace)) < 9223372036854775807)%N ->
     is_ok (ingest_verified proposition r t) = true).
Proof.
  cbn zeta. split; [exact sample_ingested|]. split; [exact sample_one_policy|].
  apply (store_refines_log _ _ _ sample_ingested sample_one_policy). vm_compute. reflexivity.
Defined.

(** The rows inserted in another order are the same history; a row less is refused. *)
Definition reordered : AttentionTables :=
  {| tb_lineages := tb_lineages (tables_after third_ingest);
     tb_events := rev (tb_events (tables_after third_ingest)) |}.
Definition truncated : AttentionTables :=
  {| tb_lineages := tb_lineages (tables_after third_ingest);
     tb_events := take 1 (tb_events (tables_after third_ingest)) |}.
Example truncated_is_refused :
  history proposition truncated = Err "attention history truncation or head mismatch detected".
Proof. vm_compute. reflexivity. Qed.

Lemma history_is_tamper_evident_witness :
  match history proposition (tables_after third_ingest), history proposition reordered with
  | Ok es1, Ok es2 => es1 = es2 \/ collide (hashed es1) (hashed es2)
  | _, _ => False
  end.
Proof.
  destruct (history proposition (tables_after third_ingest)) as [es1|] eqn:H1;
    [|by vm_compute in H1].
  destruct (history proposition reordered) as [es2|] eqn:H2; [|by vm_compute in H2].
  exact (history_is_tamper_evident _ _ _ _ _ eq_refl H1 H2).
Defined.
