(* ===== verification/CanonicalSamples.v ===== *)
(** * A sample run of the canonical store

    Two slots of one family.  The first is claimed, observed with the sample posture,
    prepared for AG, attached and dispatched; the second is claimed and left observing, so
    that a restart has something to erase.  The stores are the results of the operations.
    The serializer of cycles knows the cycles of this run: it writes the place of a cycle
    in their table and reads it back, and refuses every other cycle. *)
From S2P Require Import Prelude Text External Signing Currentness Diagnostic DiagnosticV2.
From S2P Require Import Contract Continuity SubstrateOrigin NqAdmission ExternalObservation.
From S2P Require Import ExternalComposition SteadyState Authoring Posture.
From S2P Require Import CanonicalRecords CanonicalTables CanonicalStore CanonicalSteps.
From S2P Require Import Codec.
From S2P Require Import PostureWitnesses.
From stdpp Require Import relations.
Local Open Scope string_scope.

(** ** The environment *)

#[global] Instance sample_ed25519 : Ed25519 := {|
  key_valid k := String.eqb k "key";
  ed25519_verify _ m s := String.eqb s ("signed:" +:+ m) |}.

#[global] Instance sample_uuids : Uuids := {|
  uuid_parse s := if (strlen s =? 36)%N then Some s else None |}.

(** A serializer of records the run never writes. *)
Definition refusing_serde (T : Type) : Serde T := {|
  to_value _ := Err "not written"; from_value _ := Err "not read";
  to_vec _ := Err "not written"; from_slice _ := Err "not read" |}.

Lemma refusing_serde_ok (T : Type) : @SerdeOk T (refusing_serde T).
Proof. intros t b H. discriminate H. Qed.

(** A serializer of the records of a table. *)
Definition table_serde {T} `{EqDecision T} (fields : T -> list (string * value))
    (table : list T) : Serde T := {|
  to_value t := Ok (Object (fields t));
  from_value _ := Err "not read";
  to_vec t := match list_find (fun x => x = t) table with
              | Some (i, _) => Ok (put (N.of_nat i))
              | None => Err "not in the table"
              end;
  from_slice s := match (get s : option (N * string)) with
                  | Some (i, "") => ok_or (table !! N.to_nat i) "not in the table"
                  | _ => Err "syntax"
                  end |}.

Lemma table_serde_ok {T} `{EqDecision T} fields (table : list T) :
  @SerdeOk T (table_serde fields table).
Proof.
  intros t b. cbn [to_vec from_slice table_serde].
  destruct (list_find (fun x => x = t) table) as [[i x]|] eqn:Hf; intros Hb; [|discriminate Hb].
  assert (b = put (N.of_nat i)) as -> by (by injection Hb).
  apply list_find_Some in Hf as (Hi & -> & _).
  rewrite <- (string_app_nil (put (N.of_nat i))), get_put, Nat2N.id, Hi. done.
Qed.

#[global] Instance sample_observation_documents : ObservationDocuments := {|
  xd_claim := refusing_serde _; xd_observation := refusing_serde _;
  xd_handoff := refusing_serde _; xd_custody := refusing_serde _ |}.
#[global] Instance sample_composition_documents : CompositionDocuments := {|
  md_observation := sample_observation_documents; md_profile := refusing_serde _;
  md_composed := refusing_serde _ |}.
#[global] Instance sample_steady_documents : SteadyDocuments := {|
  yd_composition := sample_composition_documents; yd_claim := refusing_serde _;
  yd_observation := refusing_serde _; yd_handoff := refusing_serde _;
  yd_custody := refusing_serde _; yd_profile := refusing_serde _;
  yd_qualification := refusing_serde _; yd_composed := refusing_serde _;
  yd_basis := refusing_serde _ |}.
#[global] Instance sample_continuity_documents : ContinuityDocuments := {|
  cd_authority := refusing_serde _; cd_commitment := refusing_serde _;
  cd_basis := refusing_serde _; cd_intent := refusing_serde _;
  cd_applicability := refusing_serde _ |}.
#[global] Instance sample_origin_documents : OriginDocuments := {|
  od_continuity := sample_continuity_documents; od_coordinate := refusing_serde _;
  od_basis := refusing_serde _; od_attestation := refusing_serde _;
  od_intent := refusing_serde _; od_applicability := refusing_serde _ |}.
#[global] Instance sample_admission_documents : AdmissionDocuments := {|
  ad_origin := sample_origin_documents; ad_query := refusing_serde _;
  ad_provenance_v1 := refusing_serde _; ad_provenance_v2 := refusing_serde _;
  ad_provenance_v3 := refusing_serde _ |}.
#[global] Instance sample_authoring_documents : AuthoringDocuments := {|
  gd_provenance := refusing_serde _; gd_session := refusing_serde _;
  gd_handoff := refusing_serde _; gd_custody := refusing_serde _ |}.

Definition slot_fields (s : RecurrenceSlotV1) : list (string * value) :=
  [("slot_id", Str (sl_slot_id s)); ("policy_id", Str (sl_policy_id s));
   ("nominal_due_at", Str (put (sl_nominal_due_at s)))].
Definition intent_fields (i : TypedCoarseIntentV2) : list (string * value) :=
  [("intent_id", Str (tc_intent_id i));
   ("source_observation_id", Str (tc_source_observation_id i))].
Definition cycle_fields (c : ObservationCycleV1) : list (string * value) :=
  [("cycle_id", Str (cy_cycle_id c)); ("state_digest", Str (cy_state_digest c));
   ("status", Str (status_as_db (cy_status c))); ("version", Str (put (cy_version c)))].

Definition canonical_documents (cycles : Serde ObservationCycleV1) : CanonicalDocuments := {|
  nd_ed25519 := sample_ed25519; nd_uuids := sample_uuids;
  nd_admission := sample_admission_documents; nd_steady := sample_steady_documents;
  nd_authoring := sample_authoring_documents; nd_slot := shown_serde slot_fields;
  nd_intent := shown_serde intent_fields; nd_cycle := cycles |}.

(** ** The records *)

Definition no_recurrence_slot : RecurrenceSlotV1 :=
  slot_of "" "" "" "" "" 0 0 0 Trigger_Scheduled None "".
Definition drafting : CanonicalDocuments := canonical_documents (shown_serde cycle_fields).

Definition make_recurrence_slot (due occurrence : Z) : RecurrenceSlotV1 :=
  ok_or_else (@slot_new _ drafting "policy" "1" "host" "scope" "clock"
    (due * nanos_per_second) ((due + 30) * nanos_per_second) (Z.to_N occurrence)
    Trigger_Scheduled None) no_recurrence_slot.
Definition first_slot : RecurrenceSlotV1 := Eval vm_compute in make_recurrence_slot 40 1.
Definition second_slot : RecurrenceSlotV1 := Eval vm_compute in make_recurrence_slot 45 2.

Definition first_uuid : uuid := "00000000-0000-4000-8000-000000000001".
Definition second_uuid : uuid := "00000000-0000-4000-8000-000000000002".
Definition first_id : ObservationCycleId := cycle_id_fresh first_uuid.
Definition second_id : ObservationCycleId := cycle_id_fresh second_uuid.

Definition support_draft (id : string) : QualifiedSupportV1 :=
  {| qs_schema := QUALIFIED_SUPPORT_SCHEMA_V1; qs_support_id := id;
     qs_authority_id := "authority"; qs_query_id := digest_of "query";
     qs_observation_cycle_id := first_id; qs_request_nonce := "nonce";
     qs_observation_id := digest_of "observation";
     qs_diagnostic_inputs_id := is_inputs_id quiet_inputs;
     qs_subject_id := su_id sample_subject; qs_scope_id := si_digest (su_scope sample_subject);
     qs_artifact_ids := delivered_artifact_ids quiet_inputs;
     qs_evaluated_at := {| sr_clock_id := "receiver"; sr_tick := 10 |};
     qs_expiry := Some {| se_clock_id := "receiver"; se_tick := 20 |};
     qs_standing := Support_Current; qs_evidence_refs := []; qs_contradiction_refs := [] |}.
Definition sample_support : QualifiedSupportV1 := Eval vm_compute in
  support_draft (ok_or_else (computed_support_id (support_draft "")) "").

Definition sample_posture : option OperationalPosture := Eval vm_compute in
  match evaluate_posture_with_support sample_policy quiet_inputs sample_recurrence sample_now
          sample_support with
  | Ok p => Some p
  | Err _ => None
  end.

Definition sample_observation : option ObservationRecordV1 := Eval vm_compute in
  (fun p =>
    {| obs_schema := OBSERVATION_RECORD_SCHEMA_V1;
       obs_observation_id := digest_of "observation"; obs_source_admissions := [];
       obs_continuity_applicability := []; obs_substrate_origin_applicability := [];
       obs_external_evidence := None; obs_decision_external_evidence := None;
       obs_support := sample_support; obs_posture := p |}) <$> sample_posture.

Definition posture_id_of (o : option ObservationRecordV1) : string :=
  match o with Some o => op_posture_id (obs_posture o) | None => "" end.

Definition sample_attention : AttentionRecordV1 := Eval vm_compute in
  {| an_class := Attention_Display; an_source_posture_id := posture_id_of sample_observation;
     an_reason_code := "clean"; an_display_text := None |}.

Definition intent_draft : TypedCoarseIntentV2 :=
  {| tc_schema := ""; tc_intent_id := ""; tc_workflow_id := "workflow";
     tc_intent_kind := "kind"; tc_subject_id := su_id sample_subject;
     tc_subject_digest := digest_of "subject";
     tc_scope_id := si_digest (su_scope sample_subject);
     tc_source_observation_id := digest_of "observation";
     tc_source_support_id := qs_support_id sample_support;
     tc_source_posture_id := posture_id_of sample_observation;
     tc_immutable_parameters := Object []; tc_compiled_work := digest_of "work";
     tc_expected_ag_work := digest_of "expected" |}.
Definition sample_intent : TypedCoarseIntentV2 := Eval vm_compute in
  ok_or_else (@intent_seal _ drafting intent_draft) intent_draft.

Definition exact_request : value := Object [("proposal_input", Object [])].
Definition sample_request : PreparedAgRequestV1 := Eval vm_compute in
  {| pq_schema := PREPARED_AG_REQUEST_SCHEMA_V1;
     pq_request_digest := ok_or_else (value_digest exact_request) "";
     pq_campaign_id := digest_of "campaign"; pq_occurrence_id := first_uuid;
     pq_source_intent_id := tc_intent_id sample_intent; pq_exact_request := exact_request |}.
Definition no_authoring : PreparedAuthoringEvidenceV1 :=
  {| pa_lineage := None; pa_custody := None |}.

Definition ag_at (counter : AgProgramCounterV1) (snapshot : string) : AgOccurrenceReferenceV1 :=
  {| ar_schema := AG_REFERENCE_SCHEMA_V1; ar_campaign_id := digest_of "campaign";
     ar_occurrence_id := first_uuid; ar_state_digest := digest_of snapshot;
     ar_snapshot_digest := ok_or_else (value_digest (Object [("at", Str snapshot)])) "";
     ar_program_counter := counter; ar_docket_attempt_id := None; ar_settlement_id := None;
     ar_external_decision_request_id := None;
     ar_exact_snapshot := Object [("at", Str snapshot)] |}.
Definition proposed : AgOccurrenceReferenceV1 := Eval vm_compute in ag_at Pc_ProposalRecorded "proposed".
Definition dispatched : AgOccurrenceReferenceV1 := Eval vm_compute in ag_at Pc_Dispatched "dispatched".

(** ** The cycles of the run, in the order they are written *)

Definition second_at (n : Z) : instant := (n * nanos_per_second)%Z.

Definition sealed_initial (id : string) (slot : RecurrenceSlotV1) (timing : SlotTimingV1)
    (now : instant) : option ObservationCycleV1 :=
  match @cycle_seal _ drafting (initial_cycle id slot timing Cycle_Observing (timestamp now) None) with
  | Ok c => Some c
  | Err _ => None
  end.
Definition succeeded (now : instant)
    (mutate : ObservationCycleV1 -> result CanonicalStoreError ObservationCycleV1)
    (c : option ObservationCycleV1) : option ObservationCycleV1 :=
  c ≫= fun c =>
    match rbind (mutate c) (@seal_successor _ drafting (cy_state_digest c) now) with
    | Ok c => Some c
    | Err _ => None
    end.

Definition claimed_cycle : option ObservationCycleV1 := Eval vm_compute in
  sealed_initial first_id first_slot Timing_OnTime (second_at 40).
Definition observed_cycle : option ObservationCycleV1 := Eval vm_compute in
  match sample_observation with
  | Some o => succeeded (second_at 50) (observe o sample_attention None) claimed_cycle
  | None => None
  end.
Definition prepared_cycle : option ObservationCycleV1 := Eval vm_compute in
  succeeded (second_at 51) (@prepare _ drafting sample_intent sample_request no_authoring)
    observed_cycle.
Definition attached_cycle : option ObservationCycleV1 := Eval vm_compute in
  succeeded (second_at 52) (attach proposed) prepared_cycle.
Definition dispatched_cycle : option ObservationCycleV1 := Eval vm_compute in
  succeeded (second_at 53) (observe_status dispatched) attached_cycle.
Definition second_cycle : option ObservationCycleV1 := Eval vm_compute in
  sealed_initial second_id second_slot Timing_Late (second_at 54).
Definition erased_cycle : option ObservationCycleV1 := Eval vm_compute in
  succeeded (second_at 60) erase_currentness second_cycle.

Definition sample_cycles : list ObservationCycleV1 :=
  omap (fun c => c) [claimed_cycle; observed_cycle; prepared_cycle; attached_cycle; dispatched_cycle;
           second_cycle; erased_cycle].

Example seven_cycles : length sample_cycles = 7.
Proof. vm_compute. reflexivity. Qed.

(** ** The run *)

#[global] Instance sample_canonical : CanonicalDocuments :=
  canonical_documents (table_serde cycle_fields sample_cycles).
#[global] Instance sample_cycles_ok : SerdeOk ObservationCycleV1.
Proof. apply table_serde_ok. Qed.
#[global] Instance sample_provenance_ok : SerdeOk AuthoringContextProvenanceV1.
Proof. apply refusing_serde_ok. Qed.
#[global] Instance sample_custody_ok : SerdeOk AuthoringContextCustodyProvenanceV1.
Proof. apply refusing_serde_ok. Qed.

Definition nonce : uuid := "00000000-0000-4000-8000-0000000000ff".
Definition first_lease : LiveCycleLeaseV1 :=
  {| lv_cycle_id := first_id; lv_slot_id := sl_slot_id first_slot; lv_process_nonce := nonce |}.

Definition digest_in (c : option ObservationCycleV1) : string :=
  match c with Some c => cy_state_digest c | None => "" end.
Definition tables_of {A} (m : result CanonicalStoreError (A * Tables)) : Tables :=
  match m with Ok (_, t) => t | Err _ => no_tables end.

Definition opened : Tables := canonical_open no_tables.
Definition claimed : Tables := Eval vm_compute in
  tables_of (claim_slot first_slot "clock" (second_at 40) first_uuid nonce opened).
Definition observed : Tables := Eval vm_compute in
  match sample_observation with
  | Some o => tables_of (record_observation first_lease (digest_in claimed_cycle) o
                           sample_attention None (second_at 50) claimed)
  | None => no_tables
  end.
Definition prepared : Tables := Eval vm_compute in
  tables_of (prepare_ag_occurrence first_lease (digest_in observed_cycle) sample_intent
               sample_request no_authoring (second_at 51) observed).
Definition attached : Tables := Eval vm_compute in
  tables_of (attach_ag_occurrence first_lease (digest_in prepared_cycle) proposed
               (second_at 52) prepared).
Definition dispatched_tables : Tables := Eval vm_compute in
  tables_of (record_ag_status first_id (digest_in attached_cycle) dispatched (second_at 53)
               attached).
Definition both : Tables := Eval vm_compute in
  tables_of (claim_slot second_slot "clock" (second_at 54) second_uuid nonce
               dispatched_tables).
Definition after_restart : result CanonicalStoreError (list ObservationCycleV1) * Tables :=
  Eval vm_compute in recover_after_restart (second_at 60) both.

Example seven_events : length (kt_events after_restart.2) = 7.
Proof. vm_compute. reflexivity. Qed.

(** Each store of the run is reached. *)
Lemma claimed_step : canonical_step opened claimed.
Proof.
  eapply (step_claim_slot first_slot "clock" (second_at 40) first_uuid nonce).
  vm_compute. reflexivity.
Qed.
Lemma observed_step : canonical_step claimed observed.
Proof.
  destruct sample_observation as [o|] eqn:Ho; [|vm_compute in Ho; discriminate Ho].
  eapply (step_record_observation first_lease (digest_in claimed_cycle) o sample_attention None
            (second_at 50)).
  vm_compute in Ho. injection Ho as <-. vm_compute. reflexivity.
Qed.
Lemma ag_prepared_step : canonical_step observed prepared.
Proof.
  eapply (step_prepare first_lease (digest_in observed_cycle) sample_intent sample_request
            no_authoring (second_at 51)).
  vm_compute. reflexivity.
Qed.
Lemma attached_step : canonical_step prepared attached.
Proof.
  eapply (step_attach first_lease (digest_in prepared_cycle) proposed (second_at 52)).
  vm_compute. reflexivity.
Qed.
Lemma ag_dispatched_step : canonical_step attached dispatched_tables.
Proof.
  eapply (step_status first_id (digest_in attached_cycle) dispatched (second_at 53)).
  vm_compute. reflexivity.
Qed.
Lemma both_step : canonical_step dispatched_tables both.
Proof.
  eapply (step_claim_slot second_slot "clock" (second_at 54) second_uuid nonce).
  vm_compute. reflexivity.
Qed.

Lemma dispatched_reachable : reachable dispatched_tables.
Proof.
  eapply rtc_l; [apply claimed_step|]. eapply rtc_l; [apply observed_step|].
  eapply rtc_l; [apply ag_prepared_step|]. eapply rtc_l; [apply attached_step|].
  eapply rtc_l; [apply ag_dispatched_step|]. apply rtc_refl.
Qed.
Lemma both_reachable : reachable both.
Proof. eapply rtc_r; [apply dispatched_reachable|apply both_step]. Qed.
