(* ===== verification/CanonicalWitnesses.v ===== *)
(** * The canonical-store properties at the sample run

    Each theorem of [CanonicalProperties], applied where its hypotheses hold. *)
From S2P Require Import Prelude Text External Signing Contract NqAdmission SubstrateOrigin.
From S2P Require Import ExternalObservation ExternalComposition SteadyState Authoring.
From S2P Require Import Diagnostic Posture CanonicalRecords CanonicalTables CanonicalStore.
From S2P Require Import CanonicalFacts CanonicalInvariant CanonicalSteps CanonicalProperties.
From S2P Require Import Codec CanonicalSamples.
From S2P Require Import PostureWitnesses.
From stdpp Require Import relations.
Local Open Scope string_scope.

(** What the sample stores hold. *)
Lemma first_known : is_Some (kt_cycles both !! first_id).
Proof. eexists. vm_compute. reflexivity. Qed.
Lemma first_dispatched : exists c q, get_cycle first_id both = Ok c /\
  cy_prepared_ag_request c = Some q /\ cy_status c = Cycle_AwaitingAg /\ cy_version c = 4%N.
Proof. eexists. eexists. split; [vm_compute; reflexivity|]. repeat split. Qed.
Lemma second_observing : exists c, get_cycle second_id both = Ok c /\
  cy_status c = Cycle_Observing.
Proof. eexists. split; [vm_compute; reflexivity|]. reflexivity. Qed.
Lemma first_attached : exists c ag, get_cycle first_id attached = Ok c /\
  cy_ag c = Some ag /\ ar_program_counter ag = Pc_ProposalRecorded /\
  cy_status c = Cycle_AwaitingAg.
Proof. eexists. eexists. split; [vm_compute; reflexivity|]. repeat split. Qed.
Lemma attached_reachable : reachable attached.
Proof.
  eapply rtc_l; [apply claimed_step|]. eapply rtc_l; [apply observed_step|].
  eapply rtc_l; [apply ag_prepared_step|]. eapply rtc_l; [apply attached_step|]. apply rtc_refl.
Qed.
Lemma restart_succeeds : exists reports t',
  recover_after_restart (second_at 60) both = (Ok reports, t') /\ length reports = 2.
Proof. eexists. eexists. split; [vm_compute; reflexivity|]. reflexivity. Qed.

Lemma reachable_cycle_replays_witness : exists cs c,
  canonical_replay first_id both = Ok cs /\ get_cycle first_id both = Ok c /\ last cs = Some c.
Proof.
  destruct (reachable_cycle_replays both first_id both_reachable first_known)
    as (cs & c & Hr & Hg & Hl & _).
  exists cs, c. split; [exact Hr|]. split; [exact Hg|exact Hl].
Defined.

Lemma reachable_cycles_advance_witness : exists p c,
  get_cycle first_id attached = Ok p /\ get_cycle first_id both = Ok c /\
  ag_advances (cy_ag p) (cy_ag c).
Proof.
  destruct first_attached as (p & ag & Hp & _).
  assert (rtc canonical_step attached both) as Hs
    by (eapply rtc_l; [apply ag_dispatched_step|]; apply rtc_once, both_step).
  destruct (reachable_cycles_advance attached both first_id p attached_reachable Hs Hp)
    as (c & Hc & Hm).
  exists p, c. split; [exact Hp|]. split; [exact Hc|].
  destruct Hm as [->|[Ha _]]; [apply ag_advances_refl|apply (adv_ag _ _ Ha)].
Defined.

Lemma prepared_request_basis_witness : exists c o,
  get_cycle first_id both = Ok c /\ cy_observation c = Some o /\
  currentness_of (obs_support o) (obs_posture o) = true.
Proof.
  destruct first_dispatched as (c & q & Hc & Hq & _).
  destruct (prepared_request_basis both first_id c q both_reachable Hc Hq)
    as (o & i & Ho & _ & Hcur & _).
  exists c, o. split; [exact Hc|]. split; [exact Ho|exact Hcur].
Defined.

(** The two cycles of the sample store lie on different slots, and the one whose request
    names the occurrence is the first. *)
Lemma one_cycle_per_slot_and_occurrence_witness : exists c1 c2 q,
  get_cycle first_id both = Ok c1 /\ get_cycle second_id both = Ok c2 /\
  cy_prepared_ag_request c1 = Some q /\
  sl_slot_id (cy_slot c1) <> sl_slot_id (cy_slot c2) /\
  forall q2, cy_prepared_ag_request c2 = Some q2 ->
    (pq_campaign_id q, pq_occurrence_id q) <> (pq_campaign_id q2, pq_occurrence_id q2).
Proof.
  destruct first_dispatched as (c1 & q & H1 & Hq & _). destruct second_observing as (c2 & H2 & _).
  exists c1, c2, q. split; [exact H1|]. split; [exact H2|]. split; [exact Hq|].
  destruct (one_cycle_per_slot_and_occurrence both first_id second_id c1 c2 both_reachable H1 H2)
    as [Hslot Hocc].
  assert (first_id <> second_id) as Hne by (vm_compute; discriminate).
  split; [intros E; exact (Hne (Hslot E))|].
  intros q2 Hq2 E. exact (Hne (Hocc q q2 Hq Hq2 (f_equal fst E) (f_equal snd E))).
Defined.

Lemma restart_erases_currentness_witness : exists reports t' c,
  recover_after_restart (second_at 60) both = (Ok reports, t') /\
  get_cycle second_id t' = Ok c /\ cy_status c = Cycle_RecoveryRequired.
Proof.
  destruct restart_succeeds as (reports & t' & H & _).
  destruct second_observing as (p & Hp & Hs).
  destruct (restart_erases_currentness both t' (second_at 60) reports both_reachable H)
    as (Hall & _). destruct (Hall second_id p Hp) as (c & Hc & Hr).
  exists reports, t', c. split; [exact H|]. split; [exact Hc|].
  unfold restarted in Hr. rewrite Hs in Hr. exact (proj1 Hr).
Defined.

(** A chain of two verdicts, ranked by the length of their names. *)
Definition two_verdicts : gmap string SubstrateOriginApplicabilityV1 :=
  list_to_map [("a", verdict_named "at" None); ("next", verdict_named "to" (Some ("a", "at")))].

Lemma two_verdicts_ranked id p :
  precedes two_verdicts id p -> (String.length p < String.length id)%nat.
Proof.
  intros (v & Hv & Hp). unfold two_verdicts in Hv. simpl in Hv.
  apply lookup_insert_Some in Hv as [[<- <-]|[_ Hv]]; [discriminate Hp|].
  apply lookup_insert_Some in Hv as [[<- <-]|[_ Hv]].
  - injection Hp as <-. simpl. lia.
  - by rewrite lookup_empty in Hv.
Qed.

Lemma head_ends_the_history_witness :
  exists h, two_verdicts !! h = Some (verdict_named "to" (Some ("a", "at"))) /\
  rtc (precedes two_verdicts) h "a".
Proof.
  destruct (head_ends_the_history two_verdicts (verdict_named "to" (Some ("a", "at")))
    String.length two_verdicts_ranked) as (h & Hh & Hall & _);
    [vm_compute; reflexivity|].
  exists h. split; [exact Hh|]. apply Hall. eexists. vm_compute. reflexivity.
Defined.
