(* ===== verification/RuntimeWitnesses.v ===== *)
(** * A sample run of the runtime

    One cycle request with a proposal: its evidence is admitted by a local NQ store, its
    support is current, and AG opens the occurrence.  The ports answer from their
    arguments.  The theorems of [RuntimeProperties] are applied to it. *)
From S2P Require Import Prelude Text External Signing Currentness Diagnostic.
From S2P Require Import DiagnosticV2 Contract Continuity SubstrateOrigin NqAdmission.
From S2P Require Import ExternalObservation ExternalComposition SteadyState Authoring.
From S2P Require Import Posture CanonicalRecords CanonicalTables CanonicalStore.
From S2P Require Import CanonicalSteps AgPort CanonicalRuntime RuntimeFacts.
From S2P Require Import RuntimeProperties Codec CanonicalSamples.
From S2P Require Import PostureWitnesses.
From stdpp Require Import relations.
Local Open Scope string_scope.

(** ** The environment *)

Definition open_fields (r : AgOpenOccurrenceRequestV1) : list (string * value) :=
  [("request_id", Str (ao_request_id r)); ("occurrence_id", Str (ao_occurrence_id r));
   ("proposal_input", ao_proposal_input r)].
Definition query_fields (q : PresentEvidenceQueryV1) : list (string * value) :=
  [("query_id", Str (qy_query_id q)); ("request_nonce", Str (qy_request_nonce q))].
Definition cycle_request_fields (q : CanonicalCycleRequestV1) : list (string * value) :=
  [("request_id", Str (cq_request_id q)); ("observation_id", Str (cq_observation_id q));
   ("slot_id", Str (sl_slot_id (cq_slot q)))].

#[global] Instance sample_runtime_documents : RuntimeDocuments := {|
  rn_open := shown_serde open_fields; rn_query := shown_serde query_fields;
  rn_cycle_request := shown_serde cycle_request_fields |}.

Definition admission_query_fields (q : NqAdmissionQueryV1) : list (string * value) :=
  [("query_id", Str (nq_query_id q)); ("artifact_id", Str (nq_artifact_id q))].
Definition provenance_fields (p : NqAdmissionProvenanceV1) : list (string * value) :=
  [("provenance_id", Str (n1_provenance_id p));
   ("artifact_id", Str (na_artifact_id (n1_artifact p)))].

#[local] Instance admitting_documents : AdmissionDocuments := {|
  ad_origin := sample_origin_documents; ad_query := shown_serde admission_query_fields;
  ad_provenance_v1 := shown_serde provenance_fields; ad_provenance_v2 := refusing_serde _;
  ad_provenance_v3 := refusing_serde _ |}.

Definition runtime_documents (cycles : Serde ObservationCycleV1) : CanonicalDocuments := {|
  nd_ed25519 := sample_ed25519; nd_uuids := sample_uuids;
  nd_admission := admitting_documents; nd_steady := sample_steady_documents;
  nd_authoring := sample_authoring_documents; nd_slot := shown_serde slot_fields;
  nd_intent := shown_serde intent_fields; nd_cycle := cycles |}.
Definition runtime_drafting : CanonicalDocuments := runtime_documents (shown_serde cycle_fields).

(** ** The ports *)

Definition admission_draft (q : NqAdmissionQueryV1) : NqAdmissionProvenanceV1 :=
  {| n1_schema := ""; n1_provenance_id := "";
     n1_source := {| ns_kind := "local_nq_store"; ns_source_id := nq_source_id q |};
     n1_artifact := {| na_artifact_id := nq_artifact_id q;
       na_contract_schema := nq_contract_schema q;
       na_canonical_bytes_sha256 := nq_canonical_bytes_sha256 q;
       na_canonical_bytes_length := nq_canonical_bytes_length q |};
     n1_origin := {| no_run_id := nq_run_id q; no_evaluation_id := None;
       no_completed_at := nq_completed_at q; no_committed_at := nq_completed_at q |};
     n1_provider := {| np_provider_intake_id := "intake"; np_raw_sha256 := digest_of "raw";
       np_provider_admission_id := digest_of "admitted"; np_source_admission_id := "source";
       np_admission_context_digest := digest_of "context";
       np_profile_semantic_id := digest_of "profile" |};
     n1_disposition := Source_GovernedRefusal; n1_judgment := None; n1_nonclaims := [] |}.

#[global] Instance sample_nq : NqAdmissionPortV1 unit := {|
  port_qualify q u :=
    (let? p := v1_seal (admission_draft q) in
     Ok (Provenance_V1 p), u);
  port_continuity_verifier _ := None; port_origin_verifier _ := None |}.

Definition support_for (q : PresentEvidenceQueryV1) (id : string) : QualifiedSupportV1 :=
  {| qs_schema := QUALIFIED_SUPPORT_SCHEMA_V1; qs_support_id := id;
     qs_authority_id := "authority"; qs_query_id := qy_query_id q;
     qs_observation_cycle_id := qy_observation_cycle_id q;
     qs_request_nonce := qy_request_nonce q; qs_observation_id := qy_observation_id q;
     qs_diagnostic_inputs_id := qy_diagnostic_inputs_id q; qs_subject_id := qy_subject_id q;
     qs_scope_id := qy_scope_id q; qs_artifact_ids := qy_artifact_ids q;
     qs_evaluated_at := {| sr_clock_id := "receiver"; sr_tick := 10 |};
     qs_expiry := Some {| se_clock_id := "receiver"; se_tick := 20 |};
     qs_standing := Support_Current; qs_evidence_refs := []; qs_contradiction_refs := [] |}.

#[global] Instance sample_present : PresentEvidencePortV1 unit := {|
  port_resolve q u :=
    (let? id := computed_support_id (support_for q "") in Ok (support_for q id), u) |}.

Definition ag_answer (campaign_id occurrence_id snapshot : string)
    : AgOccurrenceReferenceV1 :=
  {| ar_schema := AG_REFERENCE_SCHEMA_V1; ar_campaign_id := campaign_id;
     ar_occurrence_id := occurrence_id; ar_state_digest := digest_of snapshot;
     ar_snapshot_digest := ok_or_else (value_digest (Object [("at", Str snapshot)])) "";
     ar_program_counter := Pc_ProposalRecorded; ar_docket_attempt_id := None;
     ar_settlement_id := None; ar_external_decision_request_id := None;
     ar_exact_snapshot := Object [("at", Str snapshot)] |}.

#[global] Instance sample_ag : AgOccurrencePortV1 unit := {|
  open_occurrence r u := (Ok (ag_answer (ao_campaign_id r) (ao_occurrence_id r) "proposed"), u);
  port_status campaign_id occurrence_id u :=
    (Ok (ag_answer campaign_id occurrence_id "proposed"), u) |}.

(** ** The request *)

Definition executor_plan : value :=
  Object [("schema", Str AG_EXECUTOR_PLAN_IDENTITY_DOMAIN_V1)].
Definition plan_work : string := Eval vm_compute in
  ok_or_else (ag_executor_plan_identity executor_plan) "".

Definition exact_proposal : value :=
  Object [("campaign", Str (digest_of "campaign")); ("repair", Null);
          ("schema", Str "ag.governed-loop.exact-work-proposal/v1");
          ("scope", Str (si_digest (su_scope sample_subject)));
          ("subject", Str (digest_of "subject")); ("work", Str plan_work);
          ("work_schema", Str "work.v1")].

Definition sample_proposal : PrecompiledWorkflowProposalV2 := Eval vm_compute in
  {| pw_schema := PRECOMPILED_PROPOSAL_SCHEMA_V2; pw_workflow_id := "workflow";
     pw_intent_kind := "kind"; pw_subject_digest := digest_of "subject";
     pw_immutable_parameters := Object []; pw_ag_executor_plan := executor_plan;
     pw_campaign_id := digest_of "campaign"; pw_occurrence_id := second_uuid;
     pw_mode := Mode_Genesis (Object [("campaign", Str (digest_of "campaign"));
       ("expected_ag_work", Str plan_work); ("occurrence", Str second_uuid)]);
     pw_proposal_input := Object [("class", Str "initial");
       ("observation", Str (digest_of "observation")); ("proposal", exact_proposal)] |}.

Definition runtime_slot : RecurrenceSlotV1 := Eval vm_compute in
  ok_or_else (@slot_new _ runtime_drafting (pp_policy_id sample_policy) "1"
    (su_id sample_subject) (si_digest (su_scope sample_subject)) "clock" (40 * nanos_per_second)
    (70 * nanos_per_second) 1 Trigger_Scheduled None) no_recurrence_slot.

Definition request_draft : CanonicalCycleRequestV1 :=
  {| cq_schema := ""; cq_request_id := ""; cq_slot := runtime_slot;
     cq_scheduler_clock_id := "clock"; cq_evaluated_at := sample_now;
     cq_observation_id := digest_of "observation"; cq_policy := sample_policy;
     cq_inputs := quiet_inputs; cq_recurrence := sample_recurrence;
     cq_external_evidence := None; cq_decision_external_evidence := None;
     cq_temporal_policy := None; cq_proposal := Some sample_proposal;
     cq_authoring_context := None |}.
Definition cycle_request : CanonicalCycleRequestV1 := Eval vm_compute in
  ok_or_else (@cycle_request_seal _ runtime_drafting _ request_draft) request_draft.

Example cycle_request_valid :
  @cycle_request_validate _ runtime_drafting _ cycle_request = Ok tt.
Proof. vm_compute. reflexivity. Qed.

(** ** The cycles of the run *)

Definition option_of {E X} (m : result E X) : option X :=
  match m with Ok x => Some x | Err _ => None end.

Definition run_claimed : option ObservationCycleV1 := Eval vm_compute in
  option_of (@cycle_seal _ runtime_drafting
    (initial_cycle first_id runtime_slot Timing_Late Cycle_Observing (timestamp sample_now) None)).

Definition run_observation : option ObservationRecordV1 := Eval vm_compute in
  c ← run_claimed;
  qualified ← option_of (@qualify_delivered_inputs_with_origin_history _ _ _ admitting_documents
                           _ _ _ sample_nq tt quiet_inputs ∅);
  query ← option_of (query_seal (support_query cycle_request c nonce));
  support ← option_of (port_resolve query tt).1;
  posture ← option_of (evaluate_posture_with_support sample_policy quiet_inputs
                         sample_recurrence sample_now support);
  Some (observation_of cycle_request qualified None None support posture).

Definition run_next (mutate : ObservationCycleV1 -> result CanonicalStoreError ObservationCycleV1)
    (c : option ObservationCycleV1) : option ObservationCycleV1 :=
  c ← c;
  option_of (rbind (mutate c)
    (@seal_successor _ runtime_drafting (cy_state_digest c) sample_now)).

Definition run_observed : option ObservationCycleV1 := Eval vm_compute in
  o ← run_observation; run_next (observe o (attention_for o None) None) run_claimed.
Definition run_compiled : option (TypedCoarseIntentV2 * AgOpenOccurrenceRequestV1) :=
  Eval vm_compute in
  o ← run_observation; option_of (@compile _ runtime_drafting _ sample_proposal o).
Definition run_prepared : option ObservationCycleV1 := Eval vm_compute in
  '(intent, request) ← run_compiled;
  prepared ← option_of (@open_prepared _ runtime_drafting _ request);
  run_next (@prepare _ runtime_drafting intent prepared no_authoring) run_observed.
Definition run_attached : option ObservationCycleV1 := Eval vm_compute in
  run_next (attach (ag_answer (digest_of "campaign") second_uuid "proposed")) run_prepared.

Definition run_cycles : list ObservationCycleV1 :=
  omap (fun c => c) [run_claimed; run_observed; run_prepared; run_attached].
Example four_cycles : length run_cycles = 4.
Proof. vm_compute. reflexivity. Qed.

(** ** The run *)

#[global] Instance runtime_canonical : CanonicalDocuments :=
  runtime_documents (table_serde cycle_fields run_cycles).
#[global] Instance run_cycles_ok : @SerdeOk ObservationCycleV1 (@nd_cycle runtime_canonical).
Proof. apply table_serde_ok. Qed.

Definition run_start : RunState unit (Journalled unit) :=
  {| rt_store := canonical_open no_tables; rt_present := tt; rt_ag := (tt, []) |}.
Definition run_draws : RunDraws :=
  {| rw_cycle := first_uuid; rw_lease := nonce; rw_query := nonce |}.
Definition no_profiles : RuntimeProfiles := {| rp_external := None; rp_decision := None |}.

Definition run_result : result CanonicalRuntimeError CycleRunOutcomeV1
                        * RunState unit (Journalled unit) := Eval vm_compute in
  run_cycle tt no_profiles cycle_request run_draws run_start.

Lemma run_evaluates :
  run_cycle (PD := sample_documents) (ND := runtime_canonical) tt no_profiles cycle_request
    run_draws run_start = run_result.
Proof. vm_compute. reflexivity. Qed.

Example run_opens : exists c, run_result.1 = Ok (Outcome_AgOccurrenceOpened c) /\
  length (ag_asked run_result.2) = 1.
Proof. eexists. split; reflexivity. Qed.


Lemma run_fresh : fresh_start run_start.
Proof. split; reflexivity. Qed.
Lemma run_reached : reachable (rt_store run_start).
Proof. apply rtc_refl. Qed.
Lemma run_taken : rtc (runtime_step (N := unit)) run_start run_result.2.
Proof. apply rtc_once. rewrite <- run_evaluates. apply runtime_run. Qed.

Lemma ag_opened_once_and_prepared_witness : exists r id c q,
  ag_asked run_result.2 = [r] /\ get_cycle id (rt_store run_result.2) = Ok c /\
  cy_prepared_ag_request c = Some q /\ open_prepared r = Ok q.
Proof.
  destruct (ag_opened_once_and_prepared run_start run_result.2 run_fresh run_taken)
    as (_ & _ & Hall).
  assert (exists r, ag_asked run_result.2 = [r]) as [r Hr] by (eexists; reflexivity).
  destruct (Hall r) as (id & c & q & Hg & Hq & Hp); [rewrite Hr; left|].
  exists r, id, c, q. split; [exact Hr|]. split; [exact Hg|]. split; [exact Hq|exact Hp].
Defined.

Lemma run_reports_the_store_witness : exists c,
  run_result.1 = Ok (Outcome_AgOccurrenceOpened c) /\
  get_cycle (cy_cycle_id c) (rt_store run_result.2) = Ok c /\
  cy_slot c = cq_slot cycle_request.
Proof.
  destruct run_opens as (c & Hc & _). exists c. split; [exact Hc|].
  assert (run_cycle_inner tt no_profiles cycle_request None run_draws run_start
          = (Ok (Outcome_AgOccurrenceOpened c), run_result.2)) as Hrun
    by (rewrite <- Hc; rewrite <- surjective_pairing; exact run_evaluates).
  destruct (run_reports_the_store tt no_profiles cycle_request None run_draws run_start
    (Outcome_AgOccurrenceOpened c) run_result.2 run_reached Hrun) as (Hg & Hs & _).
  split; [exact Hg|exact Hs].
Defined.
