(* ===== verification/ReplayWitnesses.v ===== *)
(** * Sample snapshots

    Two dispatches of one attempt as the mapper retains them: a request refused at
    capacity, and a request admitted, answered and completed.  The parser reads back what
    [Codec] prints, and the vendored schema asks for an object with records.  The theorems
    of [ReplayProperties] are applied to them. *)
From S2P Require Import Prelude Text External Contract Availability Evidence Signing.
From S2P Require Import Switchyard Echo Replay Codec ConcreteRecords ConcreteProvider.
From S2P Require Import Protocol ReplayProperties.
Local Open Scope string_scope.

(** ** The environment *)

Definition sample_schema : value :=
  Object [("required", Array [Str "binding"; Str "records"]); ("type", Str "object")].

#[global] Instance sample_schemas : VendoredSchemas := {|
  SWITCHYARD_PROVIDER_ADMISSION_SCHEMA_BYTES := render sample_schema;
  BETA_SWITCHYARD_SCHEMA_BYTES := ""; FINAL_SWITCHYARD_SCHEMA_BYTES := "";
  BOUNDED_TURN_SWITCHYARD_SCHEMA_BYTES := ""; BOUNDED_TURN_ECHO_SWITCHYARD_SCHEMA_BYTES := "" |}.

(** The concrete host, with the pinned digest for the schema. *)
Definition replay_host : Host := {|
  sha256_hex s :=
    if String.eqb s (render sample_schema)
    then str_drop 7 ACCEPTED_SWITCHYARD_SCHEMA_SHA256 else @sha256_hex concrete_host s;
  jcs_value := @jcs_value concrete_host;
  to_rfc3339 := @to_rfc3339 concrete_host;
  to_rfc3339_secs := @to_rfc3339_secs concrete_host;
  parse_from_rfc3339 := @parse_from_rfc3339 concrete_host;
  from_timestamp_millis := @from_timestamp_millis concrete_host;
  instant_text := @instant_text concrete_host;
  instant_display := @instant_display concrete_host;
  checked_add_signed := @checked_add_signed concrete_host;
  hex_encode := @hex_encode concrete_host;
  hex_decode := @hex_decode concrete_host |}.
#[local] Existing Instance replay_host.
#[local] Existing Instance disposition_serde.
#[local] Existing Instance execution_identity_serde.
#[local] Existing Instance qualification_v1_serde.
#[local] Existing Instance qualification_v2_serde.
#[local] Existing Instance switchyard_evidence.

Fixpoint json_of (v : value) : json :=
  match v with
  | Null => JNull
  | Bool b => JBool b
  | Number (PosInt n) => JUnsigned n
  | Number (NegInt z) => JSigned z
  | Number (Float f) => JFloat f
  | Str s => JString s
  | Array vs => JSeq (json_of <$> vs)
  | Object kvs => JMap ((fun kv => (kv.1, json_of kv.2)) <$> kvs)
  end.

#[global] Instance sample_parser : JsonParser := {|
  json_prefix s := match (get s : option (value * string)) with
                   | Some (v, rest) => Some (json_of v, rest) | None => None end |}.

(** ** Building snapshots *)

Definition zero_digest : string := "sha256:" +:+ hex_number 64 0.

(** An object with its own digest. *)
Definition sealed_object (fields : list (string * value)) (field domain : string) : value :=
  let body := json_object ((field, Str "") :: fields) in
  match canonical_value_digest body field (domain +:+ NUL) with
  | Ok h => json_object ((field, Str h) :: fields)
  | Err _ => body
  end.

Definition identities : list (string * value) :=
  [("work_attempt_id", Str "attempt"); ("dispatch_occurrence_id", Str "dispatch");
   ("adapter_process_occurrence_id", Str "adapter");
   ("app_server_session_identity", Str "session"); ("thread_id", Str "thread");
   ("turn_id", Str "turn"); ("provider", Str "provider"); ("model", Str "model")].

Definition sample_binding : value := sealed_object
  (identities ++
   [("schema", Str "switchyard.codex-provider-admission-binding/v1");
    ("codex_source_head", Str ACCEPTED_CODEX_OWNER_HEAD);
    ("executable_kind", Str "DETERMINISTIC_FIXTURE");
    ("app_server_executable_identity", Str "executable");
    ("app_server_executable_sha256", Str zero_digest);
    ("internal_provider_request_retries", json_int 0)])%list
  "binding_digest" "switchyard.codex-provider-admission-binding.digest/v1".

(** The frame of a notification as it came over the wire. *)
Definition frame (method : string) (params : value) : value :=
  let bytes := render (json_object [("method", Str method); ("params", params)])
               +:+ String "010" "" in
  json_object
    [("representation", Str EXACT_WIRE); ("byte_length", json_int (Z.of_N (strlen bytes)));
     ("sha256", Str (plain_sha256 bytes)); ("encoding", Str "hex");
     ("bytes_hex", Str (hex_encode bytes))].

Definition sample_record (sequence : Z) (ordinal lane : value) (kind method : string)
    (normalized raw : value) : value := sealed_object
  (identities ++
   [("schema", Str "switchyard.codex-provider-admission-evidence/v1");
    ("sequence", json_int sequence); ("acquisition_ordinal", ordinal);
    ("acquisition_kind", lane);
    ("binding_digest", value_index sample_binding "binding_digest"); ("kind", Str kind);
    ("method", Str method); ("normalized", normalized); ("raw", raw)])%list
  "evidence_digest" "switchyard.codex-provider-admission-evidence.digest/v1".

(** A notification of the given ordinal: its record repeats its frame. *)
Definition notification (ordinal : Z) (kind method : string) (params normalized : value)
    : value :=
  sample_record ordinal (json_int ordinal) (Str "NOTIFICATION") kind method normalized
    (frame method params).

Definition thread_and_turn : list (string * value) :=
  [("threadId", Str "thread"); ("turnId", Str "turn")].
Definition request_params : list (string * value) :=
  (thread_and_turn ++
   [("requestOccurrenceId", Str "request"); ("samplingOrdinal", json_int 0);
    ("requestOrder", json_int 0); ("provider", Str "provider"); ("model", Str "model")])%list.
Definition request_normalized : list (string * value) :=
  [("request_occurrence_id", Str "request"); ("sampling_ordinal", json_int 0);
   ("request_order", json_int 0)].

Definition started_record : value :=
  notification 0 "PROVIDER_REQUEST_STARTED" "providerRequest/started"
    (json_object (request_params ++ [("startedAtMs", json_int 100)]))
    (json_object (request_normalized ++ [("started_at_ms", json_int 100);
                                         ("proves_provider_admission", Bool false)])).
Definition refused_record : value :=
  notification 1 "PROVIDER_ADMISSION_REFUSED" "providerAdmission/refused"
    (json_object (request_params ++
       [("responseCreated", Bool false); ("willRetry", Bool false);
        ("refusalKind", Str "modelAtCapacity"); ("codexErrorInfo", Str "serverOverloaded");
        ("retryAfterMs", json_int 30); ("diagnostic", Str "busy");
        ("observedAtMs", json_int 150)]))
    (json_object (request_normalized ++
       [("response_created", Bool false); ("will_retry", Bool false);
        ("refusal_kind", Str "MODEL_AT_CAPACITY"); ("codex_error_info", Str "serverOverloaded");
        ("retry_after_ms", json_int 30); ("diagnostic", Str "busy");
        ("observed_at_ms", json_int 150); ("provider_execution_identity", Null)])).

Definition admitted_execution : ProviderExecutionIdentityV1 :=
  {| xi_provider_id := "provider"; xi_model_id := "model";
     xi_app_server_session_identity := "session"; xi_thread_id := "thread";
     xi_turn_id := "turn"; xi_first_response_id := "response" |}.
Definition admitted_record : value :=
  notification 1 "PROVIDER_EXECUTION_STEP" "rawResponse/started"
    (json_object (request_params ++ [("responseId", Str "response");
                                     ("observedAtMs", json_int 120)]))
    (json_object
       [("provider_execution_identity", execution_value admitted_execution);
        ("provider_execution_step_identity", json_object (request_normalized ++
           [("provider", Str "provider"); ("model", Str "model"); ("thread_id", Str "thread");
            ("turn_id", Str "turn"); ("response_id", Str "response")]));
        ("first_admission_boundary", Bool true); ("observed_at_ms", json_int 120)]).
Definition answered_record : value :=
  notification 2 "PROVIDER_RESPONSE_COMPLETED" "rawResponse/completed"
    (json_object (thread_and_turn ++ [("responseId", Str "response"); ("usage", Null)]))
    (json_object [("response_id", Str "response"); ("proves_new_admission", Bool false)]).
Definition turn_record : value :=
  notification 3 "LOCAL_TURN_FACT" "turn/completed"
    (json_object [("threadId", Str "thread"); ("turn", json_object [("id", Str "turn")])])
    (json_object [("proves_provider_admission", Bool false)]).

Definition terminal_cut (ordinals : Z) : value := json_object
  [("adapter_process_occurrence_id", Str "adapter");
   ("app_server_session_identity", Str "session"); ("stream_quiesced", Bool true);
   ("loss_generation", json_int 0); ("process_disposition", Str "EXITED");
   ("ordered_high_water", json_int ordinals); ("consumed_ordinal_count", json_int ordinals);
   ("outstanding_client_request_count", json_int 0); ("clean", Bool true)].
Definition cut_record (ordinals : Z) : value :=
  sample_record ordinals Null Null "ACQUISITION_CUT" "adapter/acquisition-cut"
    (terminal_cut ordinals) Null.

Definition snapshot_of (disposition mechanism : string) (execution : value) (ordinals : Z)
    (records : list value) : value := sealed_object
  [("schema", Str SWITCHYARD_SNAPSHOT_SCHEMA); ("binding", sample_binding);
   ("admission_disposition", Str disposition); ("mechanism_state", Str mechanism);
   ("provider_execution_identity", execution); ("acquisition_cut", terminal_cut ordinals);
   ("records", Array (records ++ [cut_record ordinals]))]
  "snapshot_digest" "switchyard.codex-provider-admission-snapshot.digest/v1".

Definition refused_snapshot : value := Eval vm_compute in
  snapshot_of "NOT_ADMITTED_MODEL_AT_CAPACITY" "PARKED_NOT_ADMITTED" Null 2
    [started_record; refused_record].
Definition completed_snapshot : value := Eval vm_compute in
  snapshot_of "EXECUTION_ADMITTED" "PROVIDER_COMPLETED" (execution_value admitted_execution) 4
    [started_record; admitted_record; answered_record; turn_record].

(** ** The dispositions *)

Definition snapshot_text (snapshot : value) (field : string) : string :=
  match get_str snapshot field with Some s => s | None => "" end.

Definition disposition_draft_of (snapshot : value) (m : ExactMapperSnapshotV1)
    (kind : ProviderAdmissionDispositionKindV1) (mechanism : ProviderMechanismStateV1)
    (x : option ProviderExecutionIdentityV1) (retry_after : option instant)
    : ProviderAdmissionDispositionV1 :=
  {| dp_schema := PROVIDER_ADMISSION_DISPOSITION_SCHEMA_V1; dp_disposition_digest := zero_digest;
     dp_dispatch_digest := zero_digest; dp_requirement_digest := zero_digest;
     dp_policy_digest := zero_digest; dp_packet_digest := zero_digest; dp_run_id := "run";
     dp_work_item_id := "item"; dp_work_attempt_id := "attempt";
     dp_dispatch_occurrence_id := "dispatch"; dp_provider_id := "provider";
     dp_model_id := "model"; dp_provider_request_occurrence_id := "request";
     dp_adapter_process_occurrence_id := "adapter";
     dp_app_server_session_identity := "session"; dp_thread_id := "thread";
     dp_turn_id := "turn"; dp_disposition := kind; dp_mechanism_state := mechanism;
     dp_received_at := 200000000; dp_response_created := is_some x; dp_will_retry := false;
     dp_acquisition_complete := true; dp_provider_retry_after := retry_after;
     dp_provider_execution := x; dp_mapper_snapshot_schema := SWITCHYARD_SNAPSHOT_SCHEMA;
     dp_mapper_snapshot_digest := snapshot_text snapshot "snapshot_digest";
     dp_mapper_snapshot := m; dp_approval_response_sent := false;
     dp_protected_effect_absent := true;
     dp_authority_effect := "SCHEDULING_MECHANISM_EVIDENCE_ONLY" |}.

Definition disposition_of (snapshot : value) (kind : ProviderAdmissionDispositionKindV1)
    (mechanism : ProviderMechanismStateV1) (x : option ProviderExecutionIdentityV1)
    (retry_after : option instant) : result ContractError ProviderAdmissionDispositionV1 :=
  let? m := mapper_snapshot_from_bytes (render snapshot) in
  disposition_seal (disposition_draft_of snapshot m kind mechanism x retry_after).

Definition refused_result := Eval vm_compute in
  disposition_of refused_snapshot NotAdmittedModelAtCapacity ParkedNotAdmitted None
    (Some 230000000%Z).
Definition completed_result := Eval vm_compute in
  disposition_of completed_snapshot DispositionExecutionAdmitted ProviderCompleted
    (Some admitted_execution) None.

(** The records in another order, or without the answer, are refused. *)
Definition replays (records : list value) (ordinals : Z) : bool :=
  is_ok (disposition_of
    (snapshot_of "EXECUTION_ADMITTED" "PROVIDER_COMPLETED" (execution_value admitted_execution)
       ordinals records)
    DispositionExecutionAdmitted ProviderCompleted (Some admitted_execution) None).

Example answer_before_request :
  replays [admitted_record; started_record; answered_record; turn_record] 4 = false.
Proof. vm_compute. reflexivity. Qed.
Example turn_without_answer : replays [started_record; admitted_record; turn_record] 4 = false.
Proof. vm_compute. reflexivity. Qed.
Example all_in_order :
  replays [started_record; admitted_record; answered_record; turn_record] 4 = true.
Proof. vm_compute. reflexivity. Qed.


#[local] Existing Instance replay_host.
#[local] Existing Instance disposition_serde.
#[local] Existing Instance execution_identity_serde.
#[local] Existing Instance qualification_v1_serde.
#[local] Existing Instance qualification_v2_serde.

(** The completed dispatch: asked, admitted, answered, closed by its turn. *)
Lemma replay_refines_protocol_witness :
  match completed_result with
  | Ok d =>
      validate_switchyard_snapshot_complete d (render completed_snapshot) = Ok tt /\
      exists snapshot records p,
        from_slice (render completed_snapshot) = Ok snapshot /\
        value_index snapshot "records" = Array records /\
        path idle (omap record_boundary records) p /\ fits d p /\
        phase_execution p = dp_provider_execution d /\
        Forall (admits (dp_provider_execution d)) (omap record_boundary records)
  | Err _ => False
  end.
Proof.
  unfold completed_result. match goal with |- ?g /\ _ => assert g as H end.
  - vm_compute. reflexivity.
  - split; [exact H|exact (replay_refines_protocol _ _ H)].
Defined.

(** The refused dispatch: the evidence its disposition rests on. *)
Lemma refused_evidence_is_complete_witness :
  match refused_result with
  | Ok d =>
      disposition_validate (PE := switchyard_evidence) d = Ok tt /\
      exists raw snapshot records started refused,
        mapper_snapshot_validate (dp_mapper_snapshot d) = Ok raw /\
        from_slice raw = Ok snapshot /\ value_index snapshot "records" = Array records /\
        omap record_boundary records
        = [Started (dp_provider_request_occurrence_id d) 0 started;
           Refused (dp_provider_request_occurrence_id d) refused] /\
        (started <= refused <= timestamp_ms (dp_received_at d))%Z /\
        Forall no_discrepancy records /\
        exists cut counts high_water, omap record_ordinal records = seqZ 0 high_water /\
          last records = Some cut /\ get_str cut "kind" = Some "ACQUISITION_CUT" /\
          value_get cut "normalized" = Some counts /\
          get_i64 counts "ordered_high_water" = Some high_water /\
          get_i64 counts "loss_generation" = Some 0%Z
  | Err _ => False
  end.
Proof.
  unfold refused_result. match goal with |- ?g /\ _ => assert g as H end.
  - vm_compute. reflexivity.
  - split; [exact H|exact (refused_evidence_is_complete _ H eq_refl eq_refl)].
Defined.
